(* ===== verification/_CoqProject ===== *)
-Q . S2P
Prelude.v
PyStr.v
Sha256.v
PyFloat.v
Json.v
JsonText.v
JsonFacts.v
PyTime.v
Contracts.v
Printable.v
JsonBytes.v
Events.v
EventStore.v
StoreWitness.v
Projections.v
ProjectionsWitness.v
Artifacts.v
Quotas.v
Strict.v
ExecutionPlan.v
RunLifecycle.v
JsonShape.v
RunFacts.v
RunWitness.v
ReviewLifecycle.v
VerificationLifecycle.v
LeaseFacts.v
LeaseWitness.v
OutputSchema.v
Gateway.v
PlanCompiler.v
PlanFacts.v
AttemptPolicy.v
Changes.v
Acceptance.v
ExecutionArtifacts.v
Replay.v
OutcomeFacts.v
Review.v
ReviewFacts.v
Verification.v
VerificationFacts.v
VerificationTotal.v
ReviewWitness.v
ReplayReview.v
ReplayExcerpts.v
ReplayFacts.v
ReplayReviewFacts.v
ReplayWitness.v
VerificationReplay.v
VerificationRoundtrip.v
VerificationReplayFacts.v
VerificationReplayWitness.v
ExecutionRuntime.v
RuntimeFacts.v
RuntimeCheckpoint.v
RunJournal.v
RunJournalFacts.v
RunCoordinator.v
RunCoordinatorFacts.v
RuntimeSample.v
RuntimeWitness.v
Telemetry.v
TelemetryFacts.v
TelemetryWitness.v
WireContracts.v
WireFacts.v
WireWitness.v
Worktree.v
WorktreeFacts.v
RuntimeService.v
RuntimeCommands.v
RuntimeServiceFacts.v
RuntimeQueryFacts.v
RuntimeRequestFacts.v
RuntimeAdmissionFacts.v
RuntimeLedgerFacts.v
RuntimeServiceSample.v
RuntimeServiceWitness.v
