(* ===== verification/Prelude.v ===== *)
(** * Blackcell verification library

    Blackcell (src/src/blackcell/) plans, executes, reviews and verifies changes
    to a repository through an append-only ledger of events.  Every durable fact
    is an event with a canonical JSON body and a SHA-256 digest; every decision
    is re-derived by folding the events of a stream, checking each one as if it
    came from an adversary.  Providers (language models) only propose; admission
    is structural and happens in the code modelled here.

    ** Conventions

    A Python function that can raise is a function into [result]; an exception
    is its class and the stable code a caller can observe ([exn]).  Code that
    changes state takes it and returns it.  Integers are unbounded, as in
    Python; floats are binary64 ([spec_float]); text is UTF-8 bytes, and
    [decode_utf8] gives its code points.  A value read from outside is a
    [pyval]; a frozen JSON value is a [json].  The generic parts of the library
    are here: the error monad and its equations ([bind_ok], [map_result_ok]),
    lists, insertion sort, dictionaries as association lists in insertion
    order, the hint database [blackcell] and the tactics [inv_ok] and [by_vm].

    ** Parts and files

    - Values.  [PyStr] (str), [PyFloat] (repr and parsing of floats), [Sha256]
      (hashlib), [JsonText] (json.dumps, json.loads), [PyTime] (datetime) are
      executable definitions of what the sources use of the language and its
      standard library.  [Json] is kernel/_json.py; [JsonFacts] shows that
      canonical text is injective up to key order; [Printable] says which
      values freeze and which have a text.  [Contracts] holds the readers and
      validators that the contract modules share.
    - Kernel.  [Events] (kernel/events.py), [EventStore] (kernel/store.py over
      the tables of kernel/database.py), [Projections] (kernel/projections.py),
      [Artifacts] (kernel/artifacts.py).  The stores are records of tables; a
      transaction that fails returns the tables it started from.
    - Quotas: [Quotas.Window] (interfaces/http/quota.py) and [Quotas.Storage]
      (runtime/quotas.py).
    - Orchestration.  [ExecutionPlan] holds the event vocabulary of
      orchestration/execution_plan.py, [PlanCompiler] its goals, tasks, plans
      and the compiler of drafts, [AttemptPolicy] its authority, evidence and
      routing; [PlanFacts] proves.  [RunLifecycle] is
      orchestration/run_lifecycle.py: one handler for each event type over the
      state of a run, composed by [step] and [fold_run_lifecycle]; [RunFacts]
      proves.  [Strict] holds the checks that review_lifecycle.py and
      verification_lifecycle.py share, [ReviewLifecycle] and
      [VerificationLifecycle] are the two folds, [LeaseFacts] proves.
      [Changes], [Acceptance], [Review] and [Verification] are
      orchestration/changes.py, acceptance.py, review.py and verification.py;
      [ReviewFacts], [VerificationFacts] and [VerificationTotal] prove.
      [ExecutionArtifacts] is execution_artifacts.py.  [Replay] is the part of
      replay.py that verifies what a run left behind: a session over an
      arbitrary artifact reader, in an exception monad whose state survives the
      failure; [ReplayReview] is the part that builds the input of a review
      from the verified material.  [JsonBytes] gives json.loads on bytes with
      the kind of its failure.  [OutcomeFacts], [ReplayFacts],
      [ReplayExcerpts] and [ReplayReviewFacts] prove.  [VerificationReplay] is
      verification_replay.py over two arbitrary readers;
      [VerificationRoundtrip] shows that every report of [verify_review] is read
      back from its text, [VerificationReplayFacts] proves.
    - Execution.  [ExecutionRuntime] is the projection of runs in
      orchestration/execution_runtime.py: one handler for each event type over
      the state of a run ([run_apply]), and its checkpoints; [RuntimeFacts]
      proves against a machine of task states, [RuntimeCheckpoint] reads
      checkpoints back ([JsonShape] has the lemmas on JSON literals whose keys
      were reordered).  [RunJournal] is EventBackedExecutionRunJournal over the
      ledger and the checkpoint table, in a monad over the world ([world]);
      [RunJournalFacts] proves.  [RunCoordinator] is ExecutionCoordinator: the
      planning provider and the executor of attempts are arbitrary operations
      on the world; [RunCoordinatorFacts] proves.
    - Service.  [WireContracts] is interfaces/http/contracts.py: the requests
      and responses with their constructors; [WireFacts] proves.  [Worktree] is
      the data of adapters/execution/worktree.py (leases, specifications,
      inspections, removals); [WorktreeFacts] proves.  [RuntimeService] and
      [RuntimeCommands] are bootstrap/runtime_service.py: the readers, and the
      operations that change the ledger, as transactions over the modelled
      ledger in which other writers may commit.  [RuntimeServiceFacts],
      [RuntimeQueryFacts], [RuntimeRequestFacts], [RuntimeLedgerFacts] and
      [RuntimeAdmissionFacts] prove.
    - [Telemetry] is telemetry/policy.py, recorder.py and types.py;
      [TelemetryFacts] proves.
    - Gateway.  [OutputSchema] is gateway/schema.py, [Gateway] is models.py,
      profiles.py, ports.py and router.py of gateway/.
    - [StoreWitness], [ProjectionsWitness], [RunWitness], [LeaseWitness],
      [ReviewWitness], [ReplayWitness], [VerificationReplayWitness],
      [RuntimeWitness], [WireWitness], [TelemetryWitness] and
      [RuntimeServiceWitness] evaluate the theorems on concrete ledgers, runs
      and reviews; [RuntimeSample] drives a run from the empty ledger to its
      success with the modelled coordinator, [RuntimeServiceSample] accepts
      requests and executes a node with the modelled service.

    The ledger is what connects the parts: [EventStore] returns events to the
    folds and to [Projections] (whose theorem on checkpoints is about
    rebuilding from the modelled ledger), the folds and contracts take digests
    with [Json], the gateway checks provider output with [OutputSchema], and
    [Verification] reads what [Review] admitted.  [Replay] ties the outcome of a
    run to the artifacts its contracts name, and [ReplayReviewFacts] composes it
    with [Review] and [Verification].  [RunJournal] instantiates [Projections]
    with the projection of runs, and [RunCoordinator] composes the plan
    compiler, the attempt policy and the journal.  [RuntimeService] loads a run
    by composing the requests of [WireContracts], the fold of [RunLifecycle],
    the projection of [ExecutionRuntime] and the evidence of [Worktree].

    ** What the theorems show

    - The ledger: an append keeps the well-formedness of the tables, commits
      all of a batch or none of it, is idempotent for an exact retry and refuses
      stale writers.  A projection resumed from a checkpoint agrees with one
      rebuilt from the start; a saved checkpoint never moves back.
    - Artifacts: storing refines a content-addressed map, and what is read back
      under a digest has this digest.
    - Runs: the fold refines a small machine of node states; success needs
      every node to have succeeded; a claim needs its dependencies; fencing
      tokens are sequential; cancellation stops work; a provider call is
      dispatched once for a claim.  Reviews and verifications have the same
      fencing, fixed identities and final verdicts.
    - Plans: a compiled plan stays within its goal; the order of tasks is
      topological and computed for every acyclic plan; writers are totally
      ordered; payloads read back.
    - Changes and reviews: an admitted change set is closed (distinct, legal
      paths); evidence lies in the scope of its node; a review is admitted
      exactly when it is bound to its context and cites existing lines; the
      cycle check is exact; records read back.
    - Verification: a report passes exactly when everything is proved, and
      building one fails on the binding, a citation or its size, never on a row.
    - Replay: for every artifact store, a VERIFIED report means that everything
      the outcomes link was read, has its digest and agrees with the plan; a
      verification stays within its budgets and ends in a report, except for one
      exception that is named; a review context built from verified material
      carries exactly the evidence that the matrix asks for, so that its
      verification depends on the review alone; excerpts fit and are text; an
      outcome reads back from its payload.
    - Replay of verifications: whatever the readers answer, VERIFIED means that
      the recorded digest names the canonical text of a report that agrees with
      the lease, the verdict and the matrix digest of the ledger; and what
      [verify_review] builds, once recorded, replays as verified.
    - Execution: the projection refines the machine of task states and keeps its
      invariant; an attempt starts only after a recorded decision allowed it,
      a run succeeds only on recorded evidence, and a final status is kept.  A
      checkpoint reads back as its state exactly when every task is blocked
      exactly when it has a reason, and is refused otherwise; whatever
      checkpoints are in the table, the journal answers the fold of the ledger,
      also while other processes write.  The coordinator calls the executor only
      for attempts whose start is in the ledger.
    - Requests: a plan request is accepted exactly when its fields are bounded,
      it is closed and acyclic, and its writers are totally ordered by
      dependency; its order is the least topological order, whatever the order
      of the nodes, and exists exactly when the plan compiler finds one.
    - Service: a request is recorded once and never changes; a run changes only
      by transitions that its lifecycle accepted on the very stream they extend;
      whatever is called with whatever answers of git, the ledger stays sound
      and only grows.  A claim starts from the work of every writer before it, a
      node succeeds only with changes inside its scope, the scheduler offers
      nodes that can be claimed and misses none; queries end, and pages cover
      every event once.  Two theorems show plans that are accepted and can never
      be executed.  Specifications and inspections read back from their payloads.
    - Telemetry: no configured secret is stored, nothing under a sensitive key
      influences a record, records are bounded, the newest are kept.
    - The gateway calls an adapter only with an admitted call and returns only
      results within the limits; output validation agrees with a relational
      reading of the schema.
    - Quotas: in any minute at most the limit is accepted, and a caller who
      waits is served; capacity is exactly the size of the tree plus reserve.

    ** Fuel and bounds

    The loops with fuel are the cycle check ([cycle_loop], one round for each
    node), the topological order and ancestor search of plans (one round for
    each task), the order of a request's nodes ([take_ready], one round for each
    node), the visit of a node's ancestors ([visit_fuel]: every node's
    dependencies are listed at most once), the pages of a query (each scans an
    event, of at most 1000), the queue of runs (each page but the last has a row)
    and the directory walk (one step for each entry); the theorems about them
    show that the fuel given is enough.  Row identifiers of the
    matrix are decided once for all admissible counters (1 to 64).

    ** Parameters

    Clocks, identifiers of events, the outcome of adapters, projections, text
    codecs other than UTF-8, the order in which SQLite returns rows that are not
    ordered, and the file system are arguments of the definitions that use
    them.  The artifact reader of a replay is a state with two operations that
    may answer anything, differently each time.  The normal form of a failure
    summary (AttemptEvidence.error_signature: Unicode case folding and two
    regular expressions) is the parameter [normalize] of the execution runtime.
    What other processes do while the journal works is the parameter
    [environment]; the theorems let it append to the ledger and save checkpoints
    at any moment between two operations.

    msgspec's conversions ([Contract]) and decoder, git's answers
    ([git_create], [git_retain], [git_remove], [retain_base]), the file system's
    answers about roots and checkouts, and the commits of other writers between
    a read and an append ([race]) are arguments of the runtime service;
    str.casefold, str() of values that are not text, and the exporters are
    arguments of telemetry.

    ** Not modelled

    Opening files, permissions, WAL negotiation and migrations of kernel/;
    the recursion limit of json.loads and text with unpaired surrogates (which
    no canonical text contains); the observer of the execution journal, whose
    exceptions are suppressed.  Of bootstrap/runtime_service.py, the replay of
    artifacts and the contexts of reviews, and of the wire contracts the
    structures that carry a replay.  The workers of bootstrap/ (loops that run
    processes, providers and sandboxes around the modelled services),
    bootstrap/execution_plan.py, the HTTP application and its authentication,
    the presentation layer (view models), the settings classes of config/,
    gateway/tooling.py and configuration.py, the git commands of
    adapters/execution/worktree.py, and the other adapters and cli/ (processes,
    sandboxes, terminals): they are input and output. *)

From Stdlib Require Import ZArith Lia Ascii String Sorting.Permutation Sorting.Sorted.
From Stdlib Require Import Structures.OrdersEx.
From stdpp Require Import base gmap sets list strings.

Declare Scope py_scope.
Delimit Scope py_scope with py.
#[global] Open Scope py_scope.
Local Open Scope Z_scope.

(** ** Exceptions and the result monad

    A Python operation that can raise is a function into [result].  An
    exception is represented by its class and, where a caller can observe
    it, by the stable code or the structured fields the source attaches. *)
Inductive exn :=
  | ValueError (msg : string)
  | TypeError (msg : string)
  | RuntimeError (msg : string)
  | KeyError
  | OverflowError
  | SchemaVersionError
  | ConcurrencyError (stream_id : string) (expected actual : Z)
  | EventSequenceError
  | EventConflictError
  | IdempotencyConflict
  | SqliteIntegrityError
  | EventIntegrityError
  | ArtifactNotFoundError
  | ArtifactIntegrityError
  | ArtifactQuotaExceededError
  | ProjectionConflict
  | LifecycleError
  | ReviewLifecycleError
  | VerificationLifecycleError
  | PlanContractError (code : string)
  | GatewayAdmissionError (code : string)
  | OutputSchemaError (msg : string)
  | OSError
  | AcceptanceError (code : string)
  | ChangeContractError (code : string)
  | ReviewContractError (code : string)
  | VerificationError (code : string)
  | ExecutionArtifactContractError (code : string)
  | ReviewEvidenceError (code : string)
  | ExecutionRuntimeError (code : string)
  | WireContractError (code : string)
  | RuntimeApiError (code : string)
  | WorktreeLifecycleError (code : string).

#[export] Instance exn_eq_dec : EqDecision exn.
Proof. solve_decision. Defined.

(** The classes an [except] clause names: [OSError], [RuntimeError], [ValueError],
    [TypeError] and [KernelError], each with the subclasses that are represented. *)
Definition is_os_error (e : exn) : bool := match e with OSError => true | _ => false end.
Definition is_runtime_error (e : exn) : bool :=
  match e with
  | RuntimeError _ | GatewayAdmissionError _ | AcceptanceError _ | ReviewEvidenceError _
  | ExecutionRuntimeError _ | RuntimeApiError _ | WorktreeLifecycleError _ => true
  | _ => false
  end.
Definition is_value_error (e : exn) : bool :=
  match e with
  | ValueError _ | LifecycleError | ReviewLifecycleError | VerificationLifecycleError
  | PlanContractError _ | OutputSchemaError _ | ChangeContractError _ | ReviewContractError _
  | VerificationError _ | ExecutionArtifactContractError _ | WireContractError _ => true
  | _ => false
  end.
Definition is_type_error (e : exn) : bool := match e with TypeError _ => true | _ => false end.
Definition is_kernel_error (e : exn) : bool :=
  match e with
  | SchemaVersionError | ConcurrencyError _ _ _ | EventSequenceError | EventConflictError
  | IdempotencyConflict | EventIntegrityError | ArtifactNotFoundError | ArtifactIntegrityError
  | ArtifactQuotaExceededError | ProjectionConflict => true
  | _ => false
  end.

Inductive result (A : Type) : Type :=
  | Ok (a : A)
  | Err (e : exn).
Arguments Ok {A} _.
Arguments Err {A} _.

#[export] Instance result_eq_dec `{EqDecision A} : EqDecision (result A).
Proof. solve_decision. Defined.

#[export] Instance result_ret : MRet result := λ A a, Ok a.
#[export] Instance result_bind : MBind result := λ A B f m,
  match m with Ok a => f a | Err e => Err e end.
#[export] Instance result_fmap : FMap result := λ A B f m,
  match m with Ok a => Ok (f a) | Err e => Err e end.

(** [if cond: raise e]. *)
Definition raise_if (cond : bool) (e : exn) : result unit :=
  if cond then Err e else Ok tt.

Definition is_ok {A} (r : result A) : bool :=
  match r with Ok _ => true | Err _ => false end.

Definition of_option {A} (e : exn) (o : option A) : result A :=
  match o with Some a => Ok a | None => Err e end.

(** [try: m except ...: raise e from None]. *)
Definition reraise {A} (e : exn) (m : result A) : result A :=
  match m with Ok a => Ok a | Err _ => Err e end.

(** [try: m except caught: raise e]. *)
Definition recast {A} (caught : exn → bool) (e : exn) (m : result A) : result A :=
  match m with Ok a => Ok a | Err x => Err (if caught x then e else x) end.

(** [tuple(f(x) for x in l)], stopping at the first exception. *)
Fixpoint map_result {A B} (f : A → result B) (l : list A) : result (list B) :=
  match l with
  | [] => Ok []
  | x :: l' => y ← f x; ys ← map_result f l'; Ok (y :: ys)
  end.

(** [for x in l: acc = f(acc, x)], stopping at the first exception. *)
Fixpoint fold_result {A B} (f : A → B → result A) (acc : A) (l : list B) : result A :=
  match l with
  | [] => Ok acc
  | x :: l' => acc' ← f acc x; fold_result f acc' l'
  end.

(** *** Lemmas on the monad *)
Lemma bind_ok {A B} (m : result A) (f : A → result B) b :
  (m ≫= f) = Ok b ↔ ∃ a, m = Ok a ∧ f a = Ok b.
Proof. destruct m; naive_solver. Qed.

Lemma raise_if_ok c e u : raise_if c e = Ok u ↔ c = false.
Proof. destruct c, u; naive_solver. Qed.

Lemma of_option_ok {A} e (o : option A) a : of_option e o = Ok a ↔ o = Some a.
Proof. destruct o; naive_solver. Qed.

Lemma reraise_ok {A} e (m : result A) a : reraise e m = Ok a ↔ m = Ok a.
Proof. destruct m; naive_solver. Qed.

Lemma recast_ok {A} caught e (m : result A) a : recast caught e m = Ok a ↔ m = Ok a.
Proof. destruct m; naive_solver. Qed.

Lemma fmap_ok {A B} (f : A → B) (m : result A) b :
  (f <$> m) = Ok b ↔ ∃ a, m = Ok a ∧ f a = b.
Proof. destruct m; naive_solver. Qed.

Lemma map_result_ok {A B} (f : A → result B) l ys :
  map_result f l = Ok ys ↔ Forall2 (λ x y, f x = Ok y) l ys.
Proof.
  revert ys. induction l as [|x l IH]; intros ys; simpl.
  - split; [by intros [= <-]; constructor | by inversion 1].
  - rewrite bind_ok. setoid_rewrite bind_ok. split.
    + intros (y & Hy & ys' & Hys & [= <-]). constructor; [done|by apply IH].
    + inversion 1 as [|? y ? ys' Hy Hys]; subst.
      exists y; split; [done|]. exists ys'; split; [by apply IH|done].
Qed.

Lemma map_result_length {A B} (f : A → result B) l ys :
  map_result f l = Ok ys → length ys = length l.
Proof. rewrite map_result_ok. intros H%Forall2_length. done. Qed.

Lemma fold_result_app {A B} (f : A → B → result A) acc l1 l2 :
  fold_result f acc (l1 ++ l2) =
  acc' ← fold_result f acc l1; fold_result f acc' l2.
Proof.
  revert acc. induction l1 as [|x l1 IH]; intros acc; simpl; [done|].
  destruct (f acc x); simpl; [apply IH|done].
Qed.

(** Loop-invariant rule for a [for] loop that may raise. *)
Lemma fold_result_inv {A B} (P : A → Prop) (f : A → B → result A) acc l acc' :
  P acc →
  (∀ a x a', x ∈ l → P a → f a x = Ok a' → P a') →
  fold_result f acc l = Ok acc' → P acc'.
Proof.
  revert acc. induction l as [|x l IH]; intros acc Hacc Hstep; simpl.
  - by intros [= <-].
  - rewrite bind_ok. intros (a & Ha & Hl).
    eapply IH; [|intros; eapply Hstep; eauto; by right|exact Hl].
    eapply Hstep; [by left|exact Hacc|exact Ha].
Qed.

(** ** Tactics *)

(** Invert every successful monadic step among the hypotheses. *)
Ltac inv_ok_step :=
  match goal with
  | H : (_ ≫= _) = Ok _ |- _ =>
      apply bind_ok in H; let x := fresh "x" in let Hx := fresh "Hx" in
      destruct H as (x & Hx & H)
  | H : mbind _ _ = Ok _ |- _ =>
      apply bind_ok in H; let x := fresh "x" in let Hx := fresh "Hx" in
      destruct H as (x & Hx & H)
  | H : raise_if _ _ = Ok _ |- _ => apply raise_if_ok in H
  | H : of_option _ _ = Ok _ |- _ => apply of_option_ok in H
  | H : reraise _ _ = Ok _ |- _ => apply reraise_ok in H
  | H : recast _ _ _ = Ok _ |- _ => apply recast_ok in H
  | H : Ok _ = Ok _ |- _ => injection H as H; try subst
  | H : Err _ = Ok _ |- _ => discriminate H
  | H : mret _ = Ok _ |- _ => injection H as H; try subst
  | H : (_ && _)%bool = true |- _ => apply andb_true_iff in H; destruct H
  | H : (_ || _)%bool = false |- _ => apply orb_false_iff in H; destruct H
  | H : negb _ = false |- _ => apply negb_false_iff in H
  | H : negb _ = true |- _ => apply negb_true_iff in H
  | H : bool_decide _ = true |- _ => apply bool_decide_eq_true_1 in H
  | H : bool_decide _ = false |- _ => apply bool_decide_eq_false_1 in H
  | x : unit |- _ => destruct x
  end.
Ltac inv_ok := repeat inv_ok_step.

(** Evaluate a closed boolean or result goal. *)
Ltac by_vm := vm_compute; reflexivity.

(** ** Lists *)

Definition zlen {A} (l : list A) : Z := Z.of_nat (length l).

Lemma zlen_nonneg {A} (l : list A) : 0 <= zlen l.
Proof. unfold zlen. lia. Qed.

Lemma zlen_app {A} (l k : list A) : zlen (l ++ k) = zlen l + zlen k.
Proof. unfold zlen. rewrite length_app. lia. Qed.

Create HintDb blackcell.
#[export] Hint Resolve zlen_nonneg : blackcell.

Section Sorting.
Context {A : Type} (leb : A → A → bool).

(** Stable insertion sort: the result of Python's [sorted] for a total
    preorder. *)
Fixpoint insert_sorted (x : A) (l : list A) : list A :=
  match l with
  | [] => [x]
  | y :: l' => if leb x y then x :: l else y :: insert_sorted x l'
  end.

Fixpoint isort (l : list A) : list A :=
  match l with
  | [] => []
  | x :: l' => insert_sorted x (isort l')
  end.

Lemma insert_sorted_perm x l : insert_sorted x l ≡ₚ x :: l.
Proof.
  induction l as [|y l IH]; simpl; [done|].
  case_match; [done|]. rewrite IH. apply Permutation_swap.
Qed.

Lemma isort_perm l : isort l ≡ₚ l.
Proof.
  induction l as [|x l IH]; simpl; [done|].
  by rewrite insert_sorted_perm, IH.
Qed.

Lemma isort_length l : length (isort l) = length l.
Proof. apply Permutation_length, isort_perm. Qed.

Lemma elem_of_isort x l : x ∈ isort l ↔ x ∈ l.
Proof. by rewrite (isort_perm l). Qed.

Definition leR (x y : A) : Prop := leb x y = true.

Context (leb_total : ∀ x y, leb x y = true ∨ leb y x = true).
Context (leb_trans : ∀ x y z, leb x y = true → leb y z = true → leb x z = true).

Lemma insert_sorted_sorted x l :
  StronglySorted leR l → StronglySorted leR (insert_sorted x l).
Proof.
  induction 1 as [|y l Hl IH Hy]; simpl.
  - repeat constructor.
  - destruct (leb x y) eqn:E.
    + constructor; [by constructor|].
      constructor; [done|]. eapply Forall_impl; [exact Hy|].
      intros z Hz. by eapply leb_trans.
    + constructor; [done|].
      rewrite Forall_forall in Hy |- *. intros z.
      rewrite insert_sorted_perm, elem_of_cons.
      intros [->|Hz]; [|by apply Hy].
      destruct (leb_total x y) as [?|?]; [congruence|done].
Qed.

Lemma isort_sorted l : StronglySorted leR (isort l).
Proof. induction l; simpl; [constructor|by apply insert_sorted_sorted]. Qed.

Lemma insert_sorted_min x l : Forall (leR x) l → insert_sorted x l = x :: l.
Proof. destruct 1 as [|y l Hy]; simpl; [done|]. by rewrite Hy. Qed.

(** Sorting a sorted list changes nothing. *)
Lemma isort_id l : StronglySorted leR l → isort l = l.
Proof.
  induction 1 as [|x l Hl IH Hx]; simpl; [done|].
  by rewrite IH, insert_sorted_min.
Qed.

Lemma isort_idemp l : isort (isort l) = isort l.
Proof. apply isort_id, isort_sorted. Qed.
End Sorting.

(** ** The order on strings *)

Lemma string_compare_swap (x y : string) :
  String.compare y x = CompOpp (String.compare x y).
Proof. apply String.compare_antisym. Qed.

Lemma string_leb_total (x y : string) : String.leb x y = true ∨ String.leb y x = true.
Proof.
  unfold String.leb. rewrite (string_compare_swap x y).
  destruct (String.compare x y); simpl; auto.
Qed.

Lemma string_leb_refl (x : string) : String.leb x x = true.
Proof. destruct (string_leb_total x x); auto. Qed.

Lemma string_leb_antisym (x y : string) :
  String.leb x y = true → String.leb y x = true → x = y.
Proof.
  unfold String.leb. rewrite (string_compare_swap x y).
  destruct (String.compare x y) eqn:E; simpl; try done.
  intros _ _. by apply String.compare_eq_iff.
Qed.

Lemma string_compare_lt_trans (x y z : string) :
  String.compare x y = Lt → String.compare y z = Lt → String.compare x z = Lt.
Proof. apply (StrictOrder_Transitive (R := String_as_OT.lt)). Qed.

Lemma string_leb_trans (x y z : string) :
  String.leb x y = true → String.leb y z = true → String.leb x z = true.
Proof.
  unfold String.leb. intros H1 H2.
  destruct (String.compare x y) eqn:E1; try done.
  - apply String.compare_eq_iff in E1 as ->. done.
  - destruct (String.compare y z) eqn:E2; try done.
    + apply String.compare_eq_iff in E2 as ->. by rewrite E1.
    + by rewrite (string_compare_lt_trans _ _ _ E1 E2).
Qed.

(** [sorted(l)] for a list of strings. *)
Definition sort_strings : list string → list string := isort String.leb.

Lemma sort_strings_sorted l : StronglySorted (leR String.leb) (sort_strings l).
Proof. apply isort_sorted; [apply string_leb_total|apply string_leb_trans]. Qed.

Lemma elem_of_sort_strings x l : x ∈ sort_strings l ↔ x ∈ l.
Proof. apply elem_of_isort. Qed.

(** ** Python dictionaries with string keys

    Insertion-ordered association lists; [dict_set] is [d[k] = v]. *)
Section Dict.
Context {V : Type}.
Implicit Types d : list (string * V).

Fixpoint dict_get (k : string) (d : list (string * V)) : option V :=
  match d with
  | [] => None
  | (k', v) :: d' => if decide (k = k') then Some v else dict_get k d'
  end.

Fixpoint dict_set (k : string) (v : V) (d : list (string * V)) : list (string * V) :=
  match d with
  | [] => [(k, v)]
  | (k', v') :: d' =>
      if decide (k = k') then (k', v) :: d' else (k', v') :: dict_set k v d'
  end.

Definition dict_keys d : list string := d.*1.

Lemma dict_get_set_eq k v d : dict_get k (dict_set k v d) = Some v.
Proof.
  induction d as [|[k' v'] d IH]; simpl.
  - by rewrite decide_True.
  - destruct (decide (k = k')); simpl; [by rewrite decide_True|].
    by rewrite decide_False.
Qed.

Lemma dict_get_set_ne k k' v d : k ≠ k' → dict_get k (dict_set k' v d) = dict_get k d.
Proof.
  intros Hne. induction d as [|[k2 v2] d IH]; simpl.
  - by rewrite decide_False.
  - destruct (decide (k' = k2)) as [->|]; simpl.
    + by rewrite !(decide_False (P := k = k2)).
    + by rewrite IH.
Qed.

Lemma dict_get_elem k v d : dict_get k d = Some v → (k, v) ∈ d.
Proof.
  induction d as [|[k' v'] d IH]; simpl; [done|].
  destruct (decide (k = k')) as [->|]; [intros [= ->]; by left|right; auto].
Qed.

Lemma dict_get_None k d : dict_get k d = None ↔ k ∉ dict_keys d.
Proof.
  induction d as [|[k' v'] d IH]; simpl; [set_solver|].
  destruct (decide (k = k')); set_solver.
Qed.

Lemma elem_dict_get k v d : NoDup (dict_keys d) → (k, v) ∈ d → dict_get k d = Some v.
Proof.
  induction d as [|[k' v'] d IH]; simpl; [by intros _ ?%elem_of_nil|].
  intros [Hk Hd]%NoDup_cons. rewrite elem_of_cons. intros [[= -> ->]|Hin].
  - by rewrite decide_True.
  - rewrite decide_False; [by apply IH|]. intros ->. apply Hk.
    apply list_elem_of_fmap. by exists (k', v).
Qed.

Lemma dict_set_keys_elem k v d x : x ∈ dict_keys (dict_set k v d) ↔ x = k ∨ x ∈ dict_keys d.
Proof.
  induction d as [|[k' v'] d IH]; simpl; [set_solver|].
  destruct (decide (k = k')); set_solver.
Qed.

Lemma dict_set_NoDup k v d : NoDup (dict_keys d) → NoDup (dict_keys (dict_set k v d)).
Proof.
  induction d as [|[k' v'] d IH]; simpl.
  - intros _. apply NoDup_singleton.
  - intros [Hk Hd]%NoDup_cons. destruct (decide (k = k')) as [->|]; simpl.
    + by constructor.
    + constructor; [|by apply IH]. rewrite dict_set_keys_elem. naive_solver.
Qed.

Lemma dict_set_fresh k v d : k ∉ dict_keys d → dict_set k v d = d ++ [(k, v)].
Proof.
  induction d as [|[k' v'] d IH]; simpl; [done|]. intros Hk.
  rewrite decide_False by set_solver. rewrite IH by set_solver. done.
Qed.
End Dict.

(** Do two lists of keys denote the same set? ([set(a) == set(b)]) *)
Definition same_keys (a b : list string) : bool :=
  forallb (λ x, bool_decide (x ∈ b)) a && forallb (λ x, bool_decide (x ∈ a)) b.

Lemma forallb_elem {A} (f : A → bool) l : forallb f l = true ↔ ∀ x, x ∈ l → f x = true.
Proof. rewrite forallb_forall. by setoid_rewrite list_elem_of_In. Qed.

Lemma existsb_elem {A} (f : A → bool) l : existsb f l = true ↔ ∃ x, x ∈ l ∧ f x = true.
Proof. rewrite existsb_exists. by setoid_rewrite list_elem_of_In. Qed.

Lemma existsb_false {A} (f : A → bool) l : existsb f l = false ↔ ∀ x, x ∈ l → f x = false.
Proof.
  rewrite <-not_true_iff_false, existsb_elem. split.
  - intros H x Hx. apply not_true_is_false. eauto.
  - intros H (x & Hx & Hf). by rewrite H in Hf.
Qed.

Lemma same_keys_spec a b : same_keys a b = true ↔ (∀ x, x ∈ a ↔ x ∈ b).
Proof.
  unfold same_keys. rewrite andb_true_iff, !forallb_elem.
  setoid_rewrite bool_decide_eq_true. split; [intros [H1 H2] x; split; auto|].
  intros H. split; intros x; apply H.
Qed.

Section DictMore.
Context {V : Type}.
Implicit Types d : list (string * V).

Lemma dict_get_keys k v d : dict_get k d = Some v → k ∈ dict_keys d.
Proof. intros H%dict_get_elem. apply list_elem_of_fmap. by exists (k, v). Qed.

(** Overwriting a key that is present keeps the keys and their order. *)
Lemma dict_set_keys k v d : k ∈ dict_keys d → dict_keys (dict_set k v d) = dict_keys d.
Proof.
  induction d as [|[k' v'] d IH]; simpl; [by intros ?%elem_of_nil|].
  destruct (decide (k = k')) as [->|]; [done|]. intros [?|?]%elem_of_cons; [done|].
  simpl. f_equal. by apply IH.
Qed.

Lemma dict_get_set k k' v d :
  dict_get k (dict_set k' v d) = if decide (k = k') then Some v else dict_get k d.
Proof.
  destruct (decide (k = k')) as [->|]; [apply dict_get_set_eq|by apply dict_get_set_ne].
Qed.
End DictMore.

(** [if not cond: raise e], as the lifecycle folds use it. *)
Lemma raise_unless_ok c e u : raise_if (negb c) e = Ok u ↔ c = true.
Proof. rewrite raise_if_ok. by destruct c. Qed.
