(* ===== verification/PyStr.v ===== *)
(** * Python text: the operations of [str] the program uses

    A Python [str] (without lone surrogates) is represented by its UTF-8
    encoding in a Rocq [string].  Code-point order and byte order agree on
    UTF-8, so [String.leb] is Python's order; [py_len] counts code points
    and [String.length] is [len(s.encode("utf-8"))]. *)

From S2P Require Import Prelude.
From Stdlib Require Import ZArith Lia Ascii String Sorting.Sorted.
From Stdlib Require Import DecimalString DecimalZ DecimalFacts.
From stdpp Require Import base gmap sets list strings.
Local Open Scope Z_scope.

(** ** Code points *)

Definition byte_at (a : ascii) : Z := Z.of_N (N_of_ascii a).
Definition ascii_of_Z (z : Z) : ascii := ascii_of_N (Z.to_N z).

Definition is_continuation (b : Z) : bool := (128 <=? b) && (b <? 192).

(** Decode a (valid) UTF-8 byte string into code points. *)
Fixpoint decode_utf8 (s : string) : list Z :=
  match s with
  | EmptyString => []
  | String a s1 =>
      let b := byte_at a in
      let cont x := Z.land (byte_at x) 63 in
      if b <? 192 then b :: decode_utf8 s1
      else if b <? 224 then
        match s1 with
        | String c1 s2 => Z.shiftl (Z.land b 31) 6 + cont c1 :: decode_utf8 s2
        | _ => [b]
        end
      else if b <? 240 then
        match s1 with
        | String c1 (String c2 s3) =>
            Z.shiftl (Z.land b 15) 12 + Z.shiftl (cont c1) 6 + cont c2 :: decode_utf8 s3
        | _ => [b]
        end
      else
        match s1 with
        | String c1 (String c2 (String c3 s4)) =>
            Z.shiftl (Z.land b 7) 18 + Z.shiftl (cont c1) 12 + Z.shiftl (cont c2) 6 + cont c3
              :: decode_utf8 s4
        | _ => [b]
        end
  end.

(** The UTF-8 encoding of one code point. *)
Definition encode_cp (c : Z) : string :=
  let b z := ascii_of_Z z in
  if c <? 128 then String (b c) EmptyString
  else if c <? 2048 then
    String (b (192 + Z.shiftr c 6)) (String (b (128 + Z.land c 63)) EmptyString)
  else if c <? 65536 then
    String (b (224 + Z.shiftr c 12))
      (String (b (128 + Z.land (Z.shiftr c 6) 63))
        (String (b (128 + Z.land c 63)) EmptyString))
  else
    String (b (240 + Z.shiftr c 18))
      (String (b (128 + Z.land (Z.shiftr c 12) 63))
        (String (b (128 + Z.land (Z.shiftr c 6) 63))
          (String (b (128 + Z.land c 63)) EmptyString))).

(** [len(s)]: every byte but the continuation bytes starts a code point. *)
Fixpoint py_len (s : string) : Z :=
  match s with
  | EmptyString => 0
  | String a s' => (if is_continuation (byte_at a) then 0 else 1) + py_len s'
  end.

(** [len(s.encode("utf-8"))]. *)
Definition byte_len (s : string) : Z := Z.of_nat (String.length s).

(** [str.isspace] on one code point. *)
Definition is_space (c : Z) : bool :=
  ((9 <=? c) && (c <=? 13)) || ((28 <=? c) && (c <=? 32)) || (c =? 133) || (c =? 160)
  || (c =? 5760) || ((8192 <=? c) && (c <=? 8202)) || (c =? 8232) || (c =? 8233)
  || (c =? 8239) || (c =? 8287) || (c =? 12288).

(** [not s.strip()]. *)
Definition blank (s : string) : bool := forallb is_space (decode_utf8 s).

(** [bytes.decode("utf-8")]: well-formed sequences of the Unicode standard;
    with [surrogatepass], the three-byte sequences of surrogates too. *)
Fixpoint utf8_well_formed (surrogates : bool) (s : string) : bool :=
  let cont lo hi a := (lo <=? byte_at a) && (byte_at a <=? hi) in
  match s with
  | EmptyString => true
  | String a s1 =>
      let b := byte_at a in
      if b <? 128 then utf8_well_formed surrogates s1
      else if b <? 194 then false
      else if b <? 224 then
        match s1 with String c1 s2 => cont 128 191 c1 && utf8_well_formed surrogates s2 | _ => false end
      else if b <? 240 then
        match s1 with
        | String c1 (String c2 s3) =>
            cont (if b =? 224 then 160 else 128) (if (b =? 237) && negb surrogates then 159 else 191) c1
            && cont 128 191 c2 && utf8_well_formed surrogates s3
        | _ => false
        end
      else if b <? 245 then
        match s1 with
        | String c1 (String c2 (String c3 s4)) =>
            cont (if b =? 240 then 144 else 128) (if b =? 244 then 143 else 191) c1
            && cont 128 191 c2 && cont 128 191 c3 && utf8_well_formed surrogates s4
        | _ => false
        end
      else false
  end.

Definition is_empty (s : string) : bool := bool_decide (s = EmptyString).

(** [s.startswith(p)] and [s.removeprefix(p)]. *)
Fixpoint starts_with (p s : string) : bool :=
  match p, s with
  | EmptyString, _ => true
  | String a p', String b s' => Ascii.eqb a b && starts_with p' s'
  | String _ _, EmptyString => false
  end.

Fixpoint drop_bytes (n : nat) (s : string) : string :=
  match n, s with
  | O, _ => s
  | S n', String _ s' => drop_bytes n' s'
  | S _, EmptyString => EmptyString
  end.

(** The first [n] characters of a string of ASCII characters, [s[:n]]. *)
Fixpoint take_bytes (n : nat) (s : string) : string :=
  match n, s with
  | O, _ => EmptyString
  | S n', String a s' => String a (take_bytes n' s')
  | S _, EmptyString => EmptyString
  end.

Definition remove_prefix (p s : string) : string :=
  if starts_with p s then drop_bytes (String.length p) s else s.

(** [sub in s]. *)
Fixpoint contains (sub s : string) : bool :=
  starts_with sub s ||
  match s with EmptyString => false | String _ s' => contains sub s' end.

Fixpoint string_rev_app (s acc : string) : string :=
  match s with EmptyString => acc | String a s' => string_rev_app s' (String a acc) end.
Definition string_rev (s : string) : string := string_rev_app s EmptyString.

Fixpoint lstrip_char (c : ascii) (s : string) : string :=
  match s with
  | String a s' => if Ascii.eqb a c then lstrip_char c s' else s
  | EmptyString => EmptyString
  end.

(** [s.rstrip(c)] for one ASCII character [c]. *)
Definition rstrip_char (c : ascii) (s : string) : string :=
  string_rev (lstrip_char c (string_rev s)).

(** ** Paths: [pathlib.PurePosixPath] *)

(** [s.split("/")]. *)
Fixpoint split_slash (s : string) (cur : string) : list string :=
  match s with
  | EmptyString => [string_rev cur]
  | String a s' =>
      if byte_at a =? 47 then string_rev cur :: split_slash s' EmptyString
      else split_slash s' (String a cur)
  end.
Definition split_path (s : string) : list string := split_slash s EmptyString.

(** The root of a POSIX path and what follows it ([posixpath.splitroot]). *)
Definition split_root (s : string) : string * string :=
  match s with
  | String a s1 =>
      if negb (byte_at a =? 47) then (EmptyString, s)
      else
        match s1 with
        | String b s2 =>
            if negb (byte_at b =? 47) then ("/", s1)
            else
              match s2 with
              | String c _ => if byte_at c =? 47 then ("/", s1) else ("//", s2)
              | EmptyString => ("//", s2)
              end
        | EmptyString => ("/", s1)
        end
  | EmptyString => (EmptyString, s)
  end.

Fixpoint join_slash (l : list string) : string :=
  match l with
  | [] => EmptyString
  | [x] => x
  | x :: l' => x +:+ "/" +:+ join_slash l'
  end.

(** The components [Path.parts] keeps of the text after the root. *)
Definition path_parts (rel : string) : list string :=
  List.filter (λ x, negb (is_empty x || bool_decide (x = "."))) (split_path rel).

(** [str(Path(s))]. *)
Definition path_str (s : string) : string :=
  let '(root, rel) := split_root s in
  let t := root +:+ join_slash (path_parts rel) in
  if is_empty t then "." else t.

(** [str(Path(a) / b)]: the texts are joined, then parsed. *)
Definition path_div (a b : string) : string :=
  if starts_with "/" b then path_str b
  else if is_empty a || bool_decide (starts_with "/" (string_rev a) = true)
  then path_str (a +:+ b)
  else path_str (a +:+ "/" +:+ b).

(** ** Character classes and the program's regular expressions *)

Definition in_range (lo hi : Z) (a : ascii) : bool :=
  (lo <=? byte_at a) && (byte_at a <=? hi).
Definition is_digit : ascii → bool := in_range 48 57.
Definition is_upper : ascii → bool := in_range 65 90.
Definition is_lower : ascii → bool := in_range 97 122.
Definition is_alnum (a : ascii) : bool := is_digit a || is_upper a || is_lower a.
Definition is_lower_hex (a : ascii) : bool := is_digit a || in_range 97 102 a.
Definition is_one_of (cs : string) (a : ascii) : bool :=
  existsb (Ascii.eqb a) (list_ascii_of_string cs).

Definition all_chars (p : ascii → bool) (s : string) : bool :=
  forallb p (list_ascii_of_string s).

(** [re.compile(r"[first][rest]{0,n}\Z").fullmatch(s) is not None]. *)
Definition re_first_rest (first rest : ascii → bool) (n : nat) (s : string) : bool :=
  match s with
  | EmptyString => false
  | String a s' => first a && all_chars rest s' && (String.length s' <=? n)%nat
  end.

(** [r"sha256:[0-9a-f]{64}\Z"]. *)
Definition re_digest (s : string) : bool :=
  starts_with "sha256:" s && (String.length s =? 71)%nat
  && all_chars is_lower_hex (drop_bytes 7 s).

(** [r"[0-9a-f]{40}\Z"]. *)
Definition re_commit (s : string) : bool :=
  (String.length s =? 40)%nat && all_chars is_lower_hex s.

(** ** [int(s, 16)] *)

(** The zeros of the runs of ten Unicode decimal digits. *)
Definition decimal_zeros : list Z :=
  [48; 1632; 1776; 1984; 2406; 2534; 2662; 2790; 2918; 3046; 3174; 3302;
     3430; 3558; 3664; 3792; 3872; 4160; 4240; 6112; 6160; 6470; 6608; 6784;
     6800; 6992; 7088; 7232; 7248; 42528; 43216; 43264; 43472; 43504; 43600;
     44016; 65296; 66720; 68912; 68928; 69734; 69872; 69942; 70096; 70384;
     70736; 70864; 71248; 71360; 71376; 71386; 71472; 71904; 72016; 72688;
     72784; 73040; 73120; 73552; 92768; 92864; 93008; 93552; 118000; 120782;
     120792; 120802; 120812; 120822; 123200; 123632; 124144; 124401; 125264;
     130032].

Definition unicode_decimal (c : Z) : option Z :=
  match List.find (λ z, (z <=? c) && (c <? z + 10)) decimal_zeros with
  | Some z => Some (c - z)
  | None => None
  end.

(** Non-ASCII digits and spaces become ASCII ones; a pure ASCII string is
    left as it is. *)
Definition to_ascii_digits (cs : list Z) : list Z :=
  if forallb (λ c, c <? 128) cs then cs
  else map (λ c, if c <? 127 then c
                 else if is_space c then 32
                 else match unicode_decimal c with
                      | Some d => 48 + d
                      | None => 63
                      end) cs.

Definition c_isspace (c : Z) : bool := ((9 <=? c) && (c <=? 13)) || (c =? 32).

Fixpoint skip_spaces (cs : list Z) : list Z :=
  match cs with
  | c :: cs' => if c_isspace c then skip_spaces cs' else cs
  | [] => []
  end.

Definition hex_value (c : Z) : option Z :=
  if (48 <=? c) && (c <=? 57) then Some (c - 48)
  else if (97 <=? c) && (c <=? 102) then Some (c - 87)
  else if (65 <=? c) && (c <=? 70) then Some (c - 55)
  else None.

(** The digit loop: value so far, whether the last character was an
    underscore, whether any character was consumed. *)
Fixpoint hex_digits (cs : list Z) (acc : Z) (underscore consumed : bool) : option Z :=
  match cs with
  | c :: cs' =>
      match hex_value c with
      | Some d => hex_digits cs' (16 * acc + d) false true
      | None =>
          if c =? 95 then (if underscore then None else hex_digits cs' acc true consumed)
          else if underscore || negb consumed then None
          else match skip_spaces cs with [] => Some acc | _ => None end
      end
  | [] => if underscore || negb consumed then None else Some acc
  end.

Definition hex_body (cs : list Z) : option Z :=
  let cs1 :=
    match cs with
    | 48 :: x :: cs' =>
        if (x =? 120) || (x =? 88) then
          match cs' with 95 :: cs'' => cs'' | _ => cs' end
        else cs
    | _ => cs
    end in
  match cs1 with
  | 95 :: _ => None
  | _ => hex_digits cs1 0 false false
  end.

(** [int(s, 16)]; [None] is [ValueError]. *)
Definition int_base16 (s : string) : option Z :=
  match skip_spaces (to_ascii_digits (decode_utf8 s)) with
  | 43 :: cs => hex_body cs
  | 45 :: cs => Z.opp <$> hex_body cs
  | cs => hex_body cs
  end.

(** ** Decimal integers *)

(** [str(n)] for an [int]. *)
Definition int_repr (z : Z) : string := NilZero.string_of_int (Z.to_int z).

Lemma to_int_nonnil z :
  Z.to_int z ≠ Decimal.Pos Decimal.Nil ∧ Z.to_int z ≠ Decimal.Neg Decimal.Nil.
Proof.
  destruct z as [|p|p]; simpl; split; try discriminate;
    intros [= E]; by destruct (DecimalPos.Unsigned.to_uint_nonnil p).
Qed.

(** [int(str(z)) == z]. *)
Lemma int_of_repr z : NilZero.int_of_string (int_repr z) = Some (Z.to_int z).
Proof. destruct (to_int_nonnil z). by apply NilZero.isi. Qed.

Lemma int_repr_inj z1 z2 : int_repr z1 = int_repr z2 → z1 = z2.
Proof.
  intros H%(f_equal NilZero.int_of_string). rewrite !int_of_repr in H.
  injection H as H. by apply DecimalZ.to_int_inj.
Qed.

(** Lower-case hexadecimal, fixed width. *)
Definition hex_char (d : Z) : ascii := ascii_of_Z (if d <? 10 then 48 + d else 87 + d).
Fixpoint hex_fixed (n : nat) (z : Z) (acc : string) : string :=
  match n with
  | O => acc
  | S n' => hex_fixed n' (Z.shiftr z 4) (String (hex_char (Z.land z 15)) acc)
  end.

Definition hex_byte (z : Z) : string := hex_fixed 2 z EmptyString.

(** ** Evaluation tests against the interpreter *)
Example int_base16_prefix : int_base16 "0x_1" = Some 1. Proof. by_vm. Qed.
Example int_base16_sign : int_base16 " +1" = Some 1. Proof. by_vm. Qed.
Example int_base16_under : int_base16 "1__2" = None. Proof. by_vm. Qed.
Example int_base16_trail : int_base16 "-0x1f " = Some (-31). Proof. by_vm. Qed.
Example int_base16_arabic : int_base16 "٣a" = Some 58. Proof. by_vm. Qed.
Example int_base16_empty : int_base16 "0x" = None. Proof. by_vm. Qed.
Example py_len_utf8 : (py_len "٣a", byte_len "٣a") = (2, 3). Proof. by_vm. Qed.
Example path_1 : path_div "//a/./b//" "c" = "//a/b/c". Proof. by_vm. Qed.
Example path_2 : (path_div "" "c", path_div "///x" "c", path_str "./") = ("c", "/x/c", ".").
Proof. by_vm. Qed.
