(* ===== verification/Sha256.v ===== *)
(** * SHA-256 (FIPS 180-4) on byte strings

    The program addresses every artifact, event payload, lease and plan by
    [hashlib.sha256]; the function is defined here so that every digest the
    program compares is a computed value, not an uninterpreted symbol.
    Words are 32-bit naturals in [N]; the message is a Rocq [string]. *)

From S2P Require Import Prelude PyStr.
From Stdlib Require Import ZArith NArith Lia Ascii String List.
Import ListNotations.
Local Open Scope N_scope.

Definition mask32 : N := 4294967295.
Definition add32 (a b : N) : N := N.land (a + b) mask32.
Definition rotr (n x : N) : N :=
  N.lor (N.shiftr x n) (N.land (N.shiftl x (32 - n)) mask32).

Definition Ch (x y z : N) : N := N.lxor (N.land x y) (N.land (N.lxor x mask32) z).
Definition Maj (x y z : N) : N :=
  N.lxor (N.land x y) (N.lxor (N.land x z) (N.land y z)).
Definition Sigma0 (x : N) : N := N.lxor (rotr 2 x) (N.lxor (rotr 13 x) (rotr 22 x)).
Definition Sigma1 (x : N) : N := N.lxor (rotr 6 x) (N.lxor (rotr 11 x) (rotr 25 x)).
Definition sigma0 (x : N) : N := N.lxor (rotr 7 x) (N.lxor (rotr 18 x) (N.shiftr x 3)).
Definition sigma1 (x : N) : N := N.lxor (rotr 17 x) (N.lxor (rotr 19 x) (N.shiftr x 10)).

Definition round_constants : list N :=
    [1116352408; 1899447441; 3049323471; 3921009573; 961987163; 1508970993;
     2453635748; 2870763221; 3624381080; 310598401; 607225278; 1426881987;
     1925078388; 2162078206; 2614888103; 3248222580; 3835390401; 4022224774;
     264347078; 604807628; 770255983; 1249150122; 1555081692; 1996064986;
     2554220882; 2821834349; 2952996808; 3210313671; 3336571891; 3584528711;
     113926993; 338241895; 666307205; 773529912; 1294757372; 1396182291;
     1695183700; 1986661051; 2177026350; 2456956037; 2730485921; 2820302411;
     3259730800; 3345764771; 3516065817; 3600352804; 4094571909; 275423344;
     430227734; 506948616; 659060556; 883997877; 958139571; 1322822218;
     1537002063; 1747873779; 1955562222; 2024104815; 2227730452; 2361852424;
     2428436474; 2756734187; 3204031479; 3329325298].

Record sha_state := mk_sha { sa : N; sb : N; sc : N; sd : N; se : N; sf : N; sg : N; sh : N }.

Definition initial_hash : sha_state :=
  mk_sha 1779033703 3144134277 1013904242 2773480762 1359893119 2600822924 528734635 1541459225.

Definition sha_round (s : sha_state) (k w : N) : sha_state :=
  let t1 := add32 (sh s) (add32 (Sigma1 (se s)) (add32 (Ch (se s) (sf s) (sg s)) (add32 k w))) in
  let t2 := add32 (Sigma0 (sa s)) (Maj (sa s) (sb s) (sc s)) in
  mk_sha (add32 t1 t2) (sa s) (sb s) (sc s) (add32 (sd s) t1) (se s) (sf s) (sg s).

(** The 64-word message schedule is produced on the fly from a window of
    sixteen words. *)
Definition next_word (win : list N) : N :=
  add32 (sigma1 (nth 14 win 0))
    (add32 (nth 9 win 0) (add32 (sigma0 (nth 1 win 0)) (nth 0 win 0))).

Fixpoint sha_rounds (ks win : list N) (s : sha_state) : sha_state :=
  match ks with
  | [] => s
  | k :: ks' =>
      sha_rounds ks' (tl win ++ [next_word win]) (sha_round s k (hd 0 win))
  end.

Definition sha_add (s t : sha_state) : sha_state :=
  mk_sha (add32 (sa s) (sa t)) (add32 (sb s) (sb t)) (add32 (sc s) (sc t))
    (add32 (sd s) (sd t)) (add32 (se s) (se t)) (add32 (sf s) (sf t))
    (add32 (sg s) (sg t)) (add32 (sh s) (sh t)).

Definition compress (s : sha_state) (block : list N) : sha_state :=
  sha_add s (sha_rounds round_constants block s).

Fixpoint bytes_of_string (s : string) : list N :=
  match s with EmptyString => [] | String a s' => N_of_ascii a :: bytes_of_string s' end.

Definition be_bytes64 (n : N) : list N :=
  map (fun i => N.land (N.shiftr n (8 * i)) 255) [7; 6; 5; 4; 3; 2; 1; 0].

Definition pad (bs : list N) : list N :=
  let len := N.of_nat (length bs) in
  let zeros := (119 - len mod 64) mod 64 in
  bs ++ 128 :: repeat 0 (N.to_nat zeros) ++ be_bytes64 (8 * len).

Fixpoint words (bs : list N) : list N :=
  match bs with
  | a :: b :: c :: d :: bs' =>
      N.lor (N.shiftl a 24) (N.lor (N.shiftl b 16) (N.lor (N.shiftl c 8) d)) :: words bs'
  | _ => []
  end.

(** Consume sixteen words at a time; [n] is at least the number of blocks. *)
Fixpoint sha_blocks (n : nat) (ws : list N) (s : sha_state) : sha_state :=
  match n with
  | O => s
  | S n' =>
      match ws with
      | [] => s
      | _ => sha_blocks n' (skipn 16 ws) (compress s (firstn 16 ws))
      end
  end.

Definition hex_word (w : N) (acc : string) : string := hex_fixed 8 (Z.of_N w) acc.

Definition sha_hex (s : sha_state) : string :=
  hex_word (sa s) (hex_word (sb s) (hex_word (sc s) (hex_word (sd s)
    (hex_word (se s) (hex_word (sf s) (hex_word (sg s) (hex_word (sh s) EmptyString))))))).

(** [hashlib.sha256(b).hexdigest()]. *)
Definition sha256_hex (b : string) : string :=
  let ws := words (pad (bytes_of_string b)) in
  sha_hex (sha_blocks (length ws) ws initial_hash).

(** FIPS 180-4 test vectors, and a three-block message. *)
Example sha256_abc : sha256_hex "abc" =
  "ba7816bf8f01cfea414140de5dae2223b00361a396177a9cb410ff61f20015ad"%string.
Proof. by_vm. Qed.
Example sha256_empty : sha256_hex "" =
  "e3b0c44298fc1c149afbf4c8996fb92427ae41e4649b934ca495991b7852b855"%string.
Proof. by_vm. Qed.
Example sha256_two_blocks :
  sha256_hex "abcdbcdecdefdefgefghfghighijhijkijkljklmklmnlmnomnopnopq" =
  "248d6a61d20638b8e5c026930c3e6039a33ce45964ff2167f6ecedd419db06c1"%string.
Proof. by_vm. Qed.

(** The rendered digest has sixty-four lower-case hexadecimal characters. *)
Lemma hex_char_lower d : is_lower_hex (hex_char (Z.land d 15)) = true.
Proof.
  assert (H : (0 <= Z.land d 15 < 16)%Z).
  { change 15%Z with (Z.ones 4). rewrite Z.land_ones by easy.
    apply Z.mod_pos_bound. easy. }
  generalize dependent (Z.land d 15). intros z H.
  assert (Hz : In z (map Z.of_nat (seq 0 16))).
  { apply in_map_iff. exists (Z.to_nat z). rewrite in_seq. lia. }
  vm_compute in Hz. repeat destruct Hz as [<-|Hz]; reflexivity || easy.
Qed.

Definition hex_text (n : nat) (s : string) : Prop :=
  all_chars is_lower_hex s = true /\ String.length s = n.

Lemma hex_fixed_text n z m acc : hex_text m acc -> hex_text (n + m) (hex_fixed n z acc).
Proof.
  revert z m acc. induction n as [|n IH]; intros z m acc [H1 H2]; simpl; [easy|].
  replace (S (n + m)) with (n + S m)%nat by lia. apply IH. split.
  - unfold all_chars in *. simpl. now rewrite hex_char_lower, H1.
  - simpl. now rewrite H2.
Qed.

Lemma sha256_hex_text b : hex_text 64 (sha256_hex b).
Proof.
  unfold sha256_hex. generalize (words (pad (bytes_of_string b))). intros ws.
  unfold sha_hex, hex_word. repeat apply (hex_fixed_text 8). easy.
Qed.
