(* ===== verification/PyFloat.v ===== *)
(** * Python [float]: finite binary64 values, their text and their order

    A float is a [spec_float] of the Standard Library.  [float_repr] is the
    shortest decimal text that reads back as the same double, in the layout
    of [float.__repr__]; [float_of_decimal] is correctly rounded reading. *)

From S2P Require Import Prelude PyStr.
From Stdlib Require Import ZArith Lia Ascii String Floats.SpecFloat.
From stdpp Require Import base gmap sets list strings.
Local Open Scope Z_scope.

#[export] Instance spec_float_eq_dec : EqDecision spec_float.
Proof. solve_decision. Defined.

(** [math.isfinite]. *)
Definition is_finite_float (f : spec_float) : bool :=
  match f with S754_zero _ | S754_finite _ _ _ => true | _ => false end.

(** A finite float as an exact fraction, denominator positive. *)
Definition float_ratio (f : spec_float) : Z * Z :=
  match f with
  | S754_finite s m e =>
      let n := if s then Z.neg m else Z.pos m in
      if 0 <=? e then (Z.shiftl n e, 1) else (n, Z.shiftl 1 (- e))
  | _ => (0, 1)
  end.

(** The double nearest to [± num / den]. *)
Definition float_of_ratio (s : bool) (num den : positive) : spec_float :=
  SFdiv 53 1024 (S754_finite s num 0) (S754_finite false den 0).

(** The double nearest to [± digits * 10 ^ exp10]. *)
Definition float_of_decimal (s : bool) (digits exp10 : Z) : spec_float :=
  match digits with
  | Zpos d =>
      if 0 <=? exp10 then float_of_ratio s (Z.to_pos (Zpos d * 10 ^ exp10)) 1
      else float_of_ratio s d (Z.to_pos (10 ^ (- exp10)))
  | _ => S754_zero s
  end.

(** The least [k] with [num / den < 10 ^ k], searched upwards from [k]. *)
Fixpoint find_decpt (fuel : nat) (num den k : Z) : Z :=
  match fuel with
  | O => k
  | S fuel' =>
      let below := if 0 <=? k then num <? den * 10 ^ k else num * 10 ^ (- k) <? den in
      if below then k else find_decpt fuel' num den (k + 1)
  end.

Definition abs_float (f : spec_float) : spec_float :=
  match f with
  | S754_finite _ m e => S754_finite false m e
  | S754_zero _ => S754_zero false
  | _ => f
  end.

(** With [n] significant digits: the closest decimal that reads back. *)
Definition shortest_at (f : spec_float) (num den decpt n : Z) : option Z :=
  let k := n - decpt in
  let '(a, b) := if 0 <=? k then (num * 10 ^ k, den) else (num, den * 10 ^ (- k)) in
  let lo := a / b in
  let hi := lo + 1 in
  let ok d := bool_decide (float_of_decimal false d (decpt - n) = f) in
  let lo_closer := (2 * (a - lo * b) <? b) || ((2 * (a - lo * b) =? b) && Z.even lo) in
  if ok lo && (lo_closer || negb (ok hi)) then Some lo
  else if ok hi then Some hi else None.

Fixpoint shortest_from (fuel : nat) (f : spec_float) (num den decpt n : Z) : Z * Z :=
  match fuel with
  | O => (0, 0)
  | S fuel' =>
      match shortest_at f num den decpt n with
      | Some d => (d, decpt - n)
      | None => shortest_from fuel' f num den decpt (n + 1)
      end
  end.

(** Remove trailing zeros: [(d, e)] with [d * 10 ^ e] unchanged. *)
Fixpoint strip_zeros (fuel : nat) (d e : Z) : Z * Z :=
  match fuel with
  | O => (d, e)
  | S fuel' => if (d mod 10 =? 0) && negb (d =? 0) then strip_zeros fuel' (d / 10) (e + 1) else (d, e)
  end.

Fixpoint zeros (n : nat) : string :=
  match n with O => EmptyString | S n' => String "0" (zeros n') end.

Definition exp_text (e : Z) : string :=
  (if e <? 0 then "-" else "+") +:+
  (if Z.abs e <? 10 then "0" else "") +:+ int_repr (Z.abs e).

(** The 'r' layout for digits [ds] whose value is [0.ds * 10 ^ decpt]. *)
Definition layout (ds : string) (decpt : Z) : string :=
  let n := Z.of_nat (String.length ds) in
  if (decpt <=? -4) || (16 <? decpt) then
    take_bytes 1 ds +:+
    (if n =? 1 then "" else "." +:+ drop_bytes 1 ds) +:+ "e" +:+ exp_text (decpt - 1)
  else if decpt <=? 0 then "0." +:+ zeros (Z.to_nat (- decpt)) +:+ ds
  else if n <=? decpt then ds +:+ zeros (Z.to_nat (decpt - n)) +:+ ".0"
  else take_bytes (Z.to_nat decpt) ds +:+ "." +:+ drop_bytes (Z.to_nat decpt) ds.

(** [float.__repr__] for a finite float.  The decimal exponent is within a
    few units of its estimate from the binary one, and 17 digits always
    suffice. *)
Definition float_repr (f : spec_float) : string :=
  match f with
  | S754_finite s m e =>
      let g := S754_finite false m e in
      let '(num, den) := float_ratio g in
      let guess := (Z.log2 num - Z.log2 den - 1) * 30103 / 100000 - 1 in
      let decpt := find_decpt 8 num den guess in
      let '(d, e10) := shortest_from 17 g num den decpt 1 in
      let '(d', e') := strip_zeros 20 d e10 in
      let ds := int_repr d' in
      (if s then "-" else "") +:+ layout ds (Z.of_nat (String.length ds) + e')
  | S754_zero s => if s then "-0.0" else "0.0"
  | S754_infinity s => if s then "-inf" else "inf"
  | S754_nan => "nan"
  end.

(** ** Numeric comparison, exact as in Python *)

Definition ratio_compare (x y : Z * Z) : comparison :=
  Z.compare (x.1 * y.2) (y.1 * x.2).
Definition ratio_eqb (x y : Z * Z) : bool := (x.1 * y.2 =? y.1 * x.2).
Definition ratio_ltb (x y : Z * Z) : bool := (x.1 * y.2 <? y.1 * x.2).
Definition ratio_leb (x y : Z * Z) : bool := (x.1 * y.2 <=? y.1 * x.2).

(** ** Evaluation tests against the interpreter *)
Definition f64 (digits e : Z) : spec_float := float_of_decimal false digits e.
Example repr_1_5 : float_repr (f64 15 (-1)) = "1.5". Proof. by_vm. Qed.
Example repr_tenth : float_repr (f64 1 (-1)) = "0.1". Proof. by_vm. Qed.
Example repr_1e16 : float_repr (f64 1 16) = "1e+16". Proof. by_vm. Qed.
Example repr_1e15 : float_repr (f64 1 15) = "1000000000000000.0". Proof. by_vm. Qed.
Example repr_small : float_repr (f64 123 (-7)) = "1.23e-05". Proof. by_vm. Qed.
Example repr_min : float_repr (f64 5 (-324)) = "5e-324". Proof. by_vm. Qed.
Example repr_max : float_repr (f64 17976931348623157 292) = "1.7976931348623157e+308".
Proof. by_vm. Qed.
Example repr_pow : float_repr (f64 5684341886080802 (-29)) = "5.684341886080802e-14".
Proof. by_vm. Qed.
