(* ===== verification/Json.v ===== *)
(** * kernel/_json.py: the JSON data model, canonical text and digests

    [pyval] is an arbitrary Python value offered to [freeze_json]; [json] is
    the frozen data model ([JsonValue]).  [canonical_json] is the sorted,
    compact text every digest of the program is taken over, [json_loads] the
    decoder the ledger reads payloads back with. *)

From S2P Require Import Prelude PyStr PyFloat Sha256.
From Stdlib Require Import ZArith Lia Ascii String Sorting.Sorted.
From Stdlib Require Import DecimalString DecimalZ Floats.SpecFloat.
From stdpp Require Import base gmap sets list strings.
Local Open Scope Z_scope.

(** ** Data model *)

(** Frozen JSON: mappings keep insertion order, as Python dictionaries do. *)
Inductive json : Type :=
  | JNull
  | JBool (b : bool)
  | JInt (z : Z)
  | JFloat (f : spec_float)
  | JStr (s : string)
  | JArr (l : list json)
  | JObj (kvs : list (string * json)).

(** Arbitrary Python values, up to what [freeze_json] can observe. *)
Inductive pyval : Type :=
  | PNone
  | PBool (b : bool)
  | PInt (z : Z)
  | PFloat (f : spec_float)
  | PStr (s : string)
  | PMapping (items : list (pyval * pyval))
  | PSequence (items : list pyval)
  | POther (type_name : string).

Abbreviation jobject := (list (string * json)).

Section JsonInd.
Variable P : json → Prop.
Hypothesis Hnull : P JNull.
Hypothesis Hbool : ∀ b, P (JBool b).
Hypothesis Hint : ∀ z, P (JInt z).
Hypothesis Hfloat : ∀ f, P (JFloat f).
Hypothesis Hstr : ∀ s, P (JStr s).
Hypothesis Harr : ∀ l, Forall P l → P (JArr l).
Hypothesis Hobj : ∀ kvs, Forall (λ kv, P kv.2) kvs → P (JObj kvs).

Fixpoint json_ind' (j : json) : P j :=
  match j with
  | JNull => Hnull
  | JBool b => Hbool b
  | JInt z => Hint z
  | JFloat f => Hfloat f
  | JStr s => Hstr s
  | JArr l =>
      Harr l ((fix go (l : list json) : Forall P l :=
               match l with
               | [] => @List.Forall_nil _ P
               | x :: l' => @List.Forall_cons _ P x l' (json_ind' x) (go l')
               end) l)
  | JObj kvs =>
      Hobj kvs ((fix go (l : jobject) : Forall (λ kv, P kv.2) l :=
                 match l with
                 | [] => @List.Forall_nil _ _
                 | x :: l' => @List.Forall_cons _ _ x l' (json_ind' x.2) (go l')
                 end) kvs)
  end.
End JsonInd.

#[export] Instance json_eq_dec : EqDecision json.
Proof.
  refine (fix go (x y : json) : Decision (x = y) :=
    let _ : EqDecision json := @go in
    match x, y with
    | JNull, JNull => left _
    | JBool a, JBool b => cast_if (decide (a = b))
    | JInt a, JInt b => cast_if (decide (a = b))
    | JFloat a, JFloat b => cast_if (decide (a = b))
    | JStr a, JStr b => cast_if (decide (a = b))
    | JArr a, JArr b => cast_if (decide (a = b))
    | JObj a, JObj b => cast_if (decide (a = b))
    | _, _ => right _
    end); clear r go; abstract congruence.
Defined.

(** ** freeze_json and thaw_json *)

(** [freeze_json(value, path=path)].  The [dict] it builds is written key by
    key, so a key occurring twice keeps its place and its last value. *)
Fixpoint freeze_json (path : string) (value : pyval) {struct value} : result json :=
  match value with
  | PNone => Ok JNull
  | PBool b => Ok (JBool b)
  | PInt z => Ok (JInt z)
  | PStr s => Ok (JStr s)
  | PFloat f =>
      if is_finite_float f then Ok (JFloat f)
      else Err (ValueError ("non-finite JSON number at " +:+ path))
  | PMapping items =>
      let fix go (items : list (pyval * pyval)) (frozen : jobject) : result jobject :=
        match items with
        | [] => Ok frozen
        | (key, item) :: items' =>
            match key with
            | PStr k =>
                v ← freeze_json (path +:+ "." +:+ k) item;
                go items' (dict_set k v frozen)
            | _ => Err (TypeError ("JSON object key at " +:+ path +:+ " must be a string"))
            end
        end in
      kvs ← go items []; Ok (JObj kvs)
  | PSequence items =>
      let fix go (items : list pyval) (index : Z) : result (list json) :=
        match items with
        | [] => Ok []
        | item :: items' =>
            v ← freeze_json (path +:+ "[" +:+ int_repr index +:+ "]") item;
            vs ← go items' (index + 1);
            Ok (v :: vs)
        end in
      l ← go items 0; Ok (JArr l)
  | POther type_name =>
      Err (TypeError ("unsupported JSON value at " +:+ path +:+ ": " +:+ type_name))
  end.

(** [thaw_json(value)]. *)
Fixpoint thaw_json (value : json) : pyval :=
  match value with
  | JNull => PNone
  | JBool b => PBool b
  | JInt z => PInt z
  | JFloat f => PFloat f
  | JStr s => PStr s
  | JArr l => PSequence (map thaw_json l)
  | JObj kvs => PMapping (map (λ kv, (PStr kv.1, thaw_json kv.2)) kvs)
  end.

(** ** Canonical text *)

(** [json.encoder.py_encode_basestring]: only quotes, backslashes and
    control characters are escaped ([ensure_ascii=False]). *)
Definition escape_char (a : ascii) (tail : string) : string :=
  let z := byte_at a in
  if z =? 34 then String "\" (String (ascii_of_Z 34) tail)
  else if z =? 92 then String "\" (String "\" tail)
  else if z =? 8 then String "\" (String "b" tail)
  else if z =? 12 then String "\" (String "f" tail)
  else if z =? 10 then String "\" (String "n" tail)
  else if z =? 13 then String "\" (String "r" tail)
  else if z =? 9 then String "\" (String "t" tail)
  else if z <? 32 then "\u00" +:+ hex_fixed 2 z tail
  else String a tail.

Fixpoint escape (s : string) : string :=
  match s with
  | EmptyString => EmptyString
  | String a s' => escape_char a (escape s')
  end.

Definition dq : string := String (ascii_of_Z 34) EmptyString.
Definition quoted (s : string) : string := dq +:+ escape s +:+ dq.

Fixpoint str_join (sep : string) (l : list string) : string :=
  match l with
  | [] => ""
  | [x] => x
  | x :: l' => x +:+ sep +:+ str_join sep l'
  end.

(** [int.__repr__] refuses more than 4300 decimal digits. *)
Definition max_str_digits : Z := 4300.
Definition int_text (z : Z) : result string :=
  if byte_len (int_repr (Z.abs z)) <=? max_str_digits then Ok (int_repr z)
  else Err (ValueError "Exceeds the limit (4300 digits) for integer string conversion").

Definition sort_items {V} : list (string * V) → list (string * V) :=
  isort (λ a b, String.leb a.1 b.1).

(** [json.dumps(..., allow_nan=False, ensure_ascii=False,
    separators=(",", ":"), sort_keys=True)]. *)
Fixpoint dumps (j : json) : result string :=
  match j with
  | JNull => Ok "null"
  | JBool b => Ok (if b then "true" else "false")
  | JInt z => int_text z
  | JFloat f =>
      if is_finite_float f then Ok (float_repr f)
      else Err (ValueError "Out of range float values are not JSON compliant")
  | JStr s => Ok (quoted s)
  | JArr l =>
      let fix go (l : list json) : result (list string) :=
        match l with
        | [] => Ok []
        | x :: l' => t ← dumps x; ts ← go l'; Ok (t :: ts)
        end in
      ts ← go l; Ok ("[" +:+ str_join "," ts +:+ "]")
  | JObj kvs =>
      let fix go (kvs : jobject) : result (list (string * string)) :=
        match kvs with
        | [] => Ok []
        | (k, v) :: kvs' => t ← dumps v; ts ← go kvs'; Ok ((k, t) :: ts)
        end in
      ts ← go kvs;
      Ok ("{" +:+ str_join "," (map (λ kt, quoted kt.1 +:+ ":" +:+ kt.2) (sort_items ts)) +:+ "}")
  end.

(** [canonical_json_bytes] and [canonical_json] (both are the UTF-8 text). *)
Definition canonical_json_bytes (value : pyval) : result string :=
  frozen ← freeze_json "$" value; dumps frozen.
Definition canonical_json (value : pyval) : result string := canonical_json_bytes value.

Definition bytes_digest (value : string) : string := "sha256:" +:+ sha256_hex value.

Definition json_digest (value : pyval) : result string :=
  bytes_digest <$> canonical_json_bytes value.

(** ** Equality of frozen values: Python's [==] *)

Definition as_ratio (j : json) : option (Z * Z) :=
  match j with
  | JBool b => Some (if b then 1 else 0, 1)
  | JInt z => Some (z, 1)
  | JFloat f => if is_finite_float f then Some (float_ratio f) else None
  | _ => None
  end.

Fixpoint py_eq (x y : json) {struct x} : bool :=
  match x, y with
  | JNull, JNull => true
  | JStr a, JStr b => bool_decide (a = b)
  | JArr a, JArr b =>
      (fix go (a b : list json) : bool :=
         match a, b with
         | [], [] => true
         | x :: a', y :: b' => py_eq x y && go a' b'
         | _, _ => false
         end) a b
  | JObj a, JObj b =>
      (length a =? length b)%nat &&
      (fix go (a : jobject) : bool :=
         match a with
         | [] => true
         | (k, v) :: a' =>
             match dict_get k b with
             | Some w => py_eq v w
             | None => false
             end && go a'
         end) a
  | _, _ =>
      match as_ratio x, as_ratio y with
      | Some p, Some q => ratio_eqb p q
      | _, _ => false
      end
  end.

(** [mapping.get(key)]: a missing key and a [None] value look the same. *)
Definition jget (k : string) (m : jobject) : json := default JNull (dict_get k m).

(** [value == "text"] and [value == n] for constants of the program. *)
Definition is_str (j : json) (s : string) : bool := py_eq j (JStr s).
Definition is_int (j : json) (z : Z) : bool := py_eq j (JInt z).

Lemma is_str_spec j s : is_str j s = true ↔ j = JStr s.
Proof.
  unfold is_str. destruct j; simpl; try (split; [|discriminate]).
  all: try (repeat case_match; discriminate).
  rewrite bool_decide_eq_true. split; congruence.
Qed.

(** [set(mapping) == expected]. *)
Definition has_exactly (m : jobject) (expected : list string) : bool :=
  same_keys (dict_keys m) expected.

(** ** Well-formed frozen values: what [freeze_json] returns *)

Fixpoint json_wf (j : json) : bool :=
  match j with
  | JFloat f => is_finite_float f
  | JArr l => forallb json_wf l
  | JObj kvs => bool_decide (NoDup (dict_keys kvs)) && forallb (λ kv, json_wf kv.2) kvs
  | _ => true
  end.
