(* ===== verification/JsonText.v ===== *)
(** * json.loads: the decoder, and the round trip with the canonical text *)

From S2P Require Import Prelude PyStr PyFloat Sha256 Json.
From Stdlib Require Import ZArith Lia Ascii String Sorting.Sorted.
From Stdlib Require Import DecimalString DecimalZ DecimalPos DecimalN Floats.SpecFloat.
From stdpp Require Import base gmap sets list strings.
Local Open Scope Z_scope.

(** ** The decoder (json.decoder.JSONDecoder, strict mode) *)

Fixpoint span (p : ascii → bool) (s : string) : string * string :=
  match s with
  | EmptyString => (EmptyString, EmptyString)
  | String a s' =>
      if p a then let '(u, v) := span p s' in (String a u, v) else (EmptyString, s)
  end.

Definition is_ws : ascii → bool :=
  λ a, let z := byte_at a in (z =? 32) || (z =? 9) || (z =? 10) || (z =? 13).
Definition skip_ws (s : string) : string := (span is_ws s).2.

Definition hex4 (a b c d : ascii) : option Z :=
  x ← hex_value (byte_at a); y ← hex_value (byte_at b);
  z ← hex_value (byte_at c); w ← hex_value (byte_at d);
  Some (4096 * x + 256 * y + 16 * z + w).

Definition simple_escape (z : Z) : option ascii :=
  if (z =? 34) || (z =? 92) || (z =? 47) then Some (ascii_of_Z z)
  else if z =? 98 then Some (ascii_of_Z 8)
  else if z =? 102 then Some (ascii_of_Z 12)
  else if z =? 110 then Some (ascii_of_Z 10)
  else if z =? 114 then Some (ascii_of_Z 13)
  else if z =? 116 then Some (ascii_of_Z 9)
  else None.

(** The body of a string literal after its opening quote.  An escaped pair
    of surrogates is one code point; an unpaired surrogate has no UTF-8
    text and is outside the represented strings. *)
Fixpoint parse_string (s : string) : option (string * string) :=
  match s with
  | EmptyString => None
  | String a s1 =>
      let z := byte_at a in
      if z =? 34 then Some (EmptyString, s1)
      else if z =? 92 then
        match s1 with
        | String e s2 =>
            if byte_at e =? 117 then
              match s2 with
              | String h1 (String h2 (String h3 (String h4 s3))) =>
                  match hex4 h1 h2 h3 h4 with
                  | Some c =>
                      if (55296 <=? c) && (c <=? 56319) then
                        match s3 with
                        | String q (String u (String l1 (String l2 (String l3 (String l4 s4))))) =>
                            match hex4 l1 l2 l3 l4 with
                            | Some c2 =>
                                if (byte_at q =? 92) && (byte_at u =? 117)
                                   && (56320 <=? c2) && (c2 <=? 57343) then
                                  '(t, r) ← parse_string s4;
                                  Some (encode_cp (65536 + 1024 * (c - 55296) + (c2 - 56320)) +:+ t, r)
                                else None
                            | None => None
                            end
                        | _ => None
                        end
                      else if (56320 <=? c) && (c <=? 57343) then None
                      else '(t, r) ← parse_string s3; Some (encode_cp c +:+ t, r)
                  | None => None
                  end
              | _ => None
              end
            else
              match simple_escape (byte_at e) with
              | Some b => '(t, r) ← parse_string s2; Some (String b t, r)
              | None => None
              end
        | EmptyString => None
        end
      else if z <? 32 then None
      else '(t, r) ← parse_string s1; Some (String a t, r)
  end.

Definition minus_sign (s : string) : bool * string :=
  match s with
  | String a s' => if byte_at a =? 45 then (true, s') else (false, s)
  | EmptyString => (false, s)
  end.

(** [(\.[0-9]+)?] *)
Definition parse_frac (s : string) : string * string :=
  match s with
  | String a s' =>
      if byte_at a =? 46 then
        let '(ds, r) := span is_digit s' in
        if is_empty ds then (EmptyString, s) else (ds, r)
      else (EmptyString, s)
  | EmptyString => (EmptyString, s)
  end.

(** [([eE][-+]?[0-9]+)?] *)
Definition parse_exp (s : string) : option Z * string :=
  match s with
  | String a s' =>
      if (byte_at a =? 101) || (byte_at a =? 69) then
        let '(neg, s1) :=
          match s' with
          | String b s'' =>
              if byte_at b =? 45 then (true, s'')
              else if byte_at b =? 43 then (false, s'') else (false, s')
          | EmptyString => (false, s')
          end in
        let '(ds, r) := span is_digit s1 in
        match NilEmpty.uint_of_string ds with
        | Some d =>
            if is_empty ds then (None, s)
            else (Some (if neg : bool then - Z.of_uint d else Z.of_uint d), r)
        | None => (None, s)
        end
      else (None, s)
  | EmptyString => (None, s)
  end.

Definition digits_value (ds : string) : Z :=
  match NilEmpty.uint_of_string ds with Some d => Z.of_uint d | None => 0 end.

(** A number literal.  An integer part with a redundant leading zero stops
    the scanner in front of a digit, which no context of a value accepts:
    it is refused here.  [int] refuses more than 4300 digits. *)
Definition parse_number (s : string) : option (json * string) :=
  let '(neg, s1) := minus_sign s in
  let '(ds, s2) := span is_digit s1 in
  if is_empty ds || (starts_with "0" ds && (1 <? String.length ds)%nat) then None
  else
    let '(fs, s3) := parse_frac s2 in
    let '(ex, s4) := parse_exp s3 in
    match is_empty fs, ex with
    | true, None =>
        if Z.of_nat (String.length ds) <=? max_str_digits then
          Some (JInt (if neg : bool then - digits_value ds else digits_value ds), s4)
        else None
    | _, _ =>
        let e := default 0 ex - Z.of_nat (String.length fs) in
        Some (JFloat (float_of_decimal neg (digits_value (ds +:+ fs)) e), s4)
    end.

Definition constant (s : string) : option (json * string) :=
  let try_word w v k :=
    if starts_with w s then Some (v, drop_bytes (String.length w) s) else k in
  try_word "null" JNull (try_word "true" (JBool true) (try_word "false" (JBool false)
    (try_word "NaN" (JFloat S754_nan) (try_word "Infinity" (JFloat (S754_infinity false))
      (try_word "-Infinity" (JFloat (S754_infinity true)) None))))).

Definition first_is (c : Z) (s : string) : option string :=
  match s with
  | String a s' => if byte_at a =? c then Some s' else None
  | EmptyString => None
  end.

Fixpoint parse_value (n : nat) (s : string) {struct n} : option (json * string) :=
  match n with
  | O => None
  | S n' =>
      match first_is 34 s with
      | Some s1 => '(t, r) ← parse_string s1; Some (JStr t, r)
      | None =>
      match first_is 91 s with
      | Some s1 =>
          let s2 := skip_ws s1 in
          match first_is 93 s2 with
          | Some r => Some (JArr [], r)
          | None => '(l, r) ← parse_elems n' s2; Some (JArr l, r)
          end
      | None =>
      match first_is 123 s with
      | Some s1 =>
          let s2 := skip_ws s1 in
          match first_is 125 s2 with
          | Some r => Some (JObj [], r)
          | None => '(kvs, r) ← parse_members n' s2 []; Some (JObj kvs, r)
          end
      | None =>
      match constant s with
      | Some vr => Some vr
      | None => parse_number s
      end end end end
  end
with parse_elems (n : nat) (s : string) {struct n} : option (list json * string) :=
  match n with
  | O => None
  | S n' =>
      '(v, r) ← parse_value n' s;
      let r1 := skip_ws r in
      match first_is 44 r1 with
      | Some r2 => '(vs, r3) ← parse_elems n' (skip_ws r2); Some (v :: vs, r3)
      | None =>
          match first_is 93 r1 with Some r2 => Some ([v], r2) | None => None end
      end
  end
with parse_members (n : nat) (s : string) (acc : jobject) {struct n} : option (jobject * string) :=
  match n with
  | O => None
  | S n' =>
      s1 ← first_is 34 s;
      '(k, r) ← parse_string s1;
      r1 ← first_is 58 (skip_ws r);
      '(v, r2) ← parse_value n' (skip_ws r1);
      let acc' := dict_set k v acc in
      let r3 := skip_ws r2 in
      match first_is 44 r3 with
      | Some r4 => parse_members n' (skip_ws r4) acc'
      | None =>
          match first_is 125 r3 with Some r4 => Some (acc', r4) | None => None end
      end
  end.

(** [json.loads(s)]; [None] is [ValueError].  Each recursive call consumes a
    character, so twice the length is enough fuel. *)
Definition json_loads (s : string) : option json :=
  let s1 := skip_ws s in
  '(v, r) ← parse_value (2 * String.length s1 + 1) s1;
  if is_empty (skip_ws r) then Some v else None.

(** ** The value a canonical text denotes: keys in sorted order *)
Fixpoint sort_json (j : json) : json :=
  match j with
  | JArr l => JArr (map sort_json l)
  | JObj kvs => JObj (sort_items (map (λ kv, (kv.1, sort_json kv.2)) kvs))
  | _ => j
  end.

(** A float whose text reads back as itself. *)
Definition float_text_ok (f : spec_float) : bool :=
  is_finite_float f && bool_decide (parse_number (float_repr f) = Some (JFloat f, EmptyString)).

Example loads_1 : json_loads " [1, -2.50e1, true] "
  = Some (JArr [JInt 1; JFloat (float_of_decimal true 25 0); JBool true]).
Proof. by_vm. Qed.
