(* ===== verification/JsonFacts.v ===== *)
(** * Facts about the JSON layer: freezing, canonical text and round trips *)

From S2P Require Import Prelude PyStr PyFloat Sha256 Json JsonText.
From Stdlib Require Import ZArith Lia Ascii String Sorting.Sorted.
From Stdlib Require Import DecimalString DecimalZ DecimalPos DecimalN Floats.SpecFloat.
From stdpp Require Import base gmap sets list strings.
Local Open Scope Z_scope.

(** ** Freezing *)
Section Freeze.
(** The two loops of [freeze_json], named so that lemmas can speak of them. *)
Definition freeze_items (path : string) :=
  fix go (items : list (pyval * pyval)) (frozen : jobject) : result jobject :=
    match items with
    | [] => Ok frozen
    | (key, item) :: items' =>
        match key with
        | PStr k =>
            v ← freeze_json (path +:+ "." +:+ k) item;
            go items' (dict_set k v frozen)
        | _ => Err (TypeError ("JSON object key at " +:+ path +:+ " must be a string"))
        end
    end.

Definition freeze_seq (path : string) :=
  fix go (items : list pyval) (index : Z) : result (list json) :=
    match items with
    | [] => Ok []
    | item :: items' =>
        v ← freeze_json (path +:+ "[" +:+ int_repr index +:+ "]") item;
        vs ← go items' (index + 1);
        Ok (v :: vs)
    end.

Lemma freeze_mapping path items :
  freeze_json path (PMapping items) = kvs ← freeze_items path items []; Ok (JObj kvs).
Proof. done. Qed.

Lemma freeze_sequence path items :
  freeze_json path (PSequence items) = l ← freeze_seq path items 0; Ok (JArr l).
Proof. done. Qed.
End Freeze.

Definition obj_wf (kvs : jobject) : bool :=
  bool_decide (NoDup (dict_keys kvs)) && forallb (λ kv, json_wf kv.2) kvs.

Lemma obj_wf_spec kvs :
  obj_wf kvs = true ↔ NoDup (dict_keys kvs) ∧ Forall (λ kv, json_wf kv.2 = true) kvs.
Proof.
  unfold obj_wf. rewrite andb_true_iff, bool_decide_eq_true, forallb_elem, Forall_forall.
  done.
Qed.

Lemma obj_wf_set k v kvs :
  json_wf v = true → obj_wf kvs = true → obj_wf (dict_set k v kvs) = true.
Proof.
  rewrite !obj_wf_spec. intros Hv [Hnd Hall]. split; [by apply dict_set_NoDup|].
  clear Hnd. induction Hall as [|[k' v'] l Hx Hl IH]; simpl; [by repeat constructor|].
  destruct (decide (k = k')); by constructor.
Qed.

(** Whatever [freeze_json] returns is well formed: finite floats only and no
    key twice. *)
Lemma freeze_json_wf path v j : freeze_json path v = Ok j → json_wf j = true.
Proof.
  revert path v j. fix IH 2. intros path v j.
  destruct v as [|b|z|f|s|items|items|ty]; simpl; intros H; try (by inv_ok).
  - destruct (is_finite_float f) eqn:E; inv_ok; done.
  - fold (freeze_items path) in H. apply bind_ok in H as (kvs & Hg & [= <-]).
    change (obj_wf kvs = true).
    assert (Hacc : obj_wf [] = true) by done. revert Hg Hacc.
    generalize (@nil (string * json)) as acc.
    induction items as [|[key item] items IHi]; intros acc; simpl.
    + by intros [= <-].
    + destruct key; try discriminate. intros H Hacc.
      apply bind_ok in H as (w & Hw & H). apply IH in Hw.
      eapply IHi; [exact H|]. by apply obj_wf_set.
  - fold (freeze_seq path) in H. apply bind_ok in H as (l & Hg & [= <-]).
    change (forallb json_wf l = true). revert Hg. generalize 0 as i.
    revert l. induction items as [|item items IHi]; intros l i; simpl.
    + by intros [= <-].
    + intros H. apply bind_ok in H as (w & Hw & H).
      apply bind_ok in H as (ws & Hws & [= <-]). apply IH in Hw. simpl.
      rewrite Hw. by eapply IHi.
Qed.

Lemma freeze_items_thaw path kvs acc :
  Forall (λ kv, ∀ path, freeze_json path (thaw_json kv.2) = Ok kv.2) kvs →
  NoDup (dict_keys acc ++ dict_keys kvs) →
  freeze_items path (map (λ kv, (PStr kv.1, thaw_json kv.2)) kvs) acc = Ok (acc ++ kvs).
Proof.
  intros Hall. revert acc. induction Hall as [|[k v] kvs Hv Hall IH]; intros acc Hnd; simpl.
  - by rewrite app_nil_r.
  - rewrite Hv. simpl. simpl in Hnd.
    assert (Hk : k ∉ dict_keys acc).
    { apply NoDup_app in Hnd as (_ & Hd & _). intros Hin. apply (Hd k Hin). by left. }
    rewrite dict_set_fresh by done. rewrite IH.
    + by rewrite <-app_assoc.
    + unfold dict_keys in *. rewrite fmap_app, <-app_assoc. done.
Qed.

Lemma freeze_seq_thaw path l i :
  Forall (λ v, ∀ path, freeze_json path (thaw_json v) = Ok v) l →
  freeze_seq path (map thaw_json l) i = Ok l.
Proof.
  intros Hall. revert i. induction Hall as [|v l Hv Hall IH]; intros i; simpl; [done|].
  rewrite Hv. simpl. by rewrite IH.
Qed.

(** Thawing then freezing a well-formed value gives it back. *)
Lemma freeze_thaw path j : json_wf j = true → freeze_json path (thaw_json j) = Ok j.
Proof.
  revert path. induction j as [| | |f| |l IH|kvs IH] using json_ind'; intros path Hwf; try done.
  - simpl in *. by rewrite Hwf.
  - simpl in Hwf. change (freeze_json path (PSequence (map thaw_json l)) = Ok (JArr l)).
    rewrite freeze_sequence, freeze_seq_thaw; [done|].
    rewrite Forall_forall in IH |- *. rewrite forallb_elem in Hwf. auto.
  - change (obj_wf kvs = true) in Hwf. apply obj_wf_spec in Hwf as [Hnd Hall].
    change (freeze_json path (PMapping (map (λ kv, (PStr kv.1, thaw_json kv.2)) kvs)) = Ok (JObj kvs)).
    rewrite freeze_mapping, freeze_items_thaw; [done| |done].
    rewrite Forall_forall in IH, Hall |- *. auto.
Qed.

Lemma json_digest_thaw j : json_wf j = true → json_digest (thaw_json j) = bytes_digest <$> dumps j.
Proof.
  intros H. unfold json_digest, canonical_json_bytes. by rewrite freeze_thaw.
Qed.

(** Every digest the program computes passes the program's own digest
    pattern. *)
Lemma starts_with_app p s : starts_with p (p +:+ s) = true.
Proof. induction p; simpl; [done|]. by rewrite Ascii.eqb_refl. Qed.

Lemma bytes_digest_format b : re_digest (bytes_digest b) = true.
Proof.
  unfold re_digest, bytes_digest. rewrite starts_with_app.
  pose proof (sha256_hex_text b) as [H1 H2].
  change (((7 + String.length (sha256_hex b) =? 71)%nat
    && all_chars is_lower_hex (sha256_hex b))%bool = true).
  by rewrite H1, H2.
Qed.

Lemma json_digest_format v d : json_digest v = Ok d → re_digest d = true.
Proof. unfold json_digest. rewrite fmap_ok. intros (b & _ & <-). apply bytes_digest_format. Qed.

#[local] Arguments String.append : simpl nomatch.

(** ** Reading canonical text back *)

Lemma app_assoc_s (a b c : string) : (a +:+ b) +:+ c = a +:+ (b +:+ c).
Proof. induction a; simpl; congruence. Qed.
Lemma app_nil_s (a : string) : a +:+ "" = a.
Proof. induction a; simpl; congruence. Qed.
Lemma length_app_s (a b : string) :
  String.length (a +:+ b) = (String.length a + String.length b)%nat.
Proof. induction a; simpl; congruence. Qed.

(** What may follow a value in canonical text. *)
Definition stops (rest : string) : bool :=
  match rest with
  | EmptyString => true
  | String a _ => is_one_of ",]}" a
  end.

Lemma stops_head a r : stops (String a r) = true →
  is_ws a = false ∧ is_digit a = false ∧ byte_at a ≠ 46 ∧ byte_at a ≠ 101 ∧ byte_at a ≠ 69
  ∧ byte_at a ≠ 43 ∧ byte_at a ≠ 45.
Proof.
  unfold stops, is_one_of. simpl. rewrite !orb_true_iff, !Ascii.eqb_eq.
  intros [->|[->|[->|?]]]; try done; split_and!; by vm_compute.
Qed.

Definition head_not (p : ascii → bool) (s : string) : Prop :=
  match s with EmptyString => True | String a _ => p a = false end.

Lemma span_app p s rest : all_chars p s = true → head_not p rest → span p (s +:+ rest) = (s, rest).
Proof.
  unfold all_chars. induction s as [|a s IH]; simpl.
  - destruct rest as [|b r]; simpl; [done|]. intros _ ->. done.
  - rewrite andb_true_iff. intros [-> Hs] Hr. by rewrite IH.
Qed.

Lemma stops_not_digit rest : stops rest = true → head_not is_digit rest.
Proof. destruct rest as [|a r]; simpl; [done|]. intros (_ & Hd & _)%(stops_head a r). exact Hd. Qed.

Lemma skip_ws_stops rest : stops rest = true → skip_ws rest = rest.
Proof.
  destruct rest as [|a r]; [done|]. intros (Hw & _)%stops_head.
  unfold skip_ws. simpl. by rewrite Hw.
Qed.

(** *** Strings *)
Lemma escape_char_app a t rest : escape_char a t +:+ rest = escape_char a (t +:+ rest).
Proof. destruct a as [[] [] [] [] [] [] [] []]; reflexivity. Qed.

Lemma parse_escape_char a t :
  parse_string (escape_char a t) = '(u, r) ← parse_string t; Some (String a u, r).
Proof.
  destruct a as [[] [] [] [] [] [] [] []]; try reflexivity;
    cbn -[parse_string]; simpl; destruct (parse_string t) as [[??]|]; reflexivity.
Qed.

Lemma parse_string_escape s rest : parse_string (escape s +:+ dq +:+ rest) = Some (s, rest).
Proof.
  induction s as [|a s IH]; [done|]. simpl escape.
  rewrite escape_char_app, parse_escape_char, IH. done.
Qed.

(** *** Numbers *)
Lemma string_of_uint_digits d : all_chars is_digit (NilEmpty.string_of_uint d) = true.
Proof. unfold all_chars. induction d; simpl; try done. Qed.

Lemma nzhead_head d d' : Decimal.nzhead d ≠ Decimal.D0 d'.
Proof. induction d; simpl; done. Qed.

Lemma pos_to_uint_norm p : Decimal.unorm (Pos.to_uint p) = Pos.to_uint p.
Proof.
  rewrite <-(DecimalN.Unsigned.to_of (Pos.to_uint p)).
  change (N.to_uint (Pos.of_uint (Pos.to_uint p)) = Pos.to_uint p).
  by rewrite DecimalPos.Unsigned.of_to.
Qed.

Lemma pos_to_uint_head p d : Pos.to_uint p ≠ Decimal.D0 d.
Proof.
  intros E. pose proof (pos_to_uint_norm p) as H. unfold Decimal.unorm in H.
  pose proof (nzhead_head (Pos.to_uint p)) as Hh.
  destruct (Decimal.nzhead (Pos.to_uint p)) eqn:E2; try (by rewrite E in H).
  - assert (Hz : Pos.of_uint (Pos.to_uint p) = 0%N) by (by rewrite <-H).
    by rewrite DecimalPos.Unsigned.of_to in Hz.
  - by eapply Hh.
Qed.

(** The decimal digits of a natural number. *)
Definition nat_digits (u : Decimal.uint) : string := NilEmpty.string_of_uint u.

Lemma int_repr_pos p : int_repr (Z.pos p) = nat_digits (Pos.to_uint p).
Proof.
  unfold int_repr. simpl. unfold NilZero.string_of_uint, nat_digits.
  destruct (Pos.to_uint p) eqn:E; try done.
  by destruct (DecimalPos.Unsigned.to_uint_nonnil p).
Qed.

Lemma int_repr_neg p : int_repr (Z.neg p) = String "-" (nat_digits (Pos.to_uint p)).
Proof.
  rewrite <-int_repr_pos. unfold int_repr. done.
Qed.

Lemma digits_value_pos p : digits_value (nat_digits (Pos.to_uint p)) = Z.pos p.
Proof.
  unfold digits_value, nat_digits. rewrite NilEmpty.usu.
  change (Z.of_N (Pos.of_uint (Pos.to_uint p)) = Z.pos p).
  by rewrite DecimalPos.Unsigned.of_to.
Qed.

Lemma nat_digits_head p : ∃ a r, nat_digits (Pos.to_uint p) = String a r
  ∧ is_digit a = true ∧ a ≠ "0"%char.
Proof.
  unfold nat_digits. pose proof (DecimalPos.Unsigned.to_uint_nonnil p) as Hnil.
  pose proof (pos_to_uint_head p) as Hz.
  destruct (Pos.to_uint p) as [|u|u|u|u|u|u|u|u|u|u]; [done|by destruct (Hz u)|..];
    simpl; do 2 eexists; split_and!; done.
Qed.

Lemma starts_zero_false a r : a ≠ "0"%char → starts_with "0" (String a r) = false.
Proof. intros H. cbn [starts_with]. destruct (Ascii.eqb_spec "0" a); [congruence|reflexivity]. Qed.

Lemma not_number_tail rest : stops rest = true →
  parse_frac rest = (EmptyString, rest) ∧ parse_exp rest = (None, rest).
Proof.
  destruct rest as [|a r]; [done|].
  intros (_ & _ & H1 & H2 & H3 & _)%(stops_head a r).
  apply Z.eqb_neq in H1, H2, H3. unfold parse_frac, parse_exp.
  by rewrite H1, H2, H3.
Qed.

(** Scanning a run of digits that is not followed by a digit. *)
Lemma parse_number_digits neg p rest :
  stops rest = true →
  (Z.of_nat (String.length (nat_digits (Pos.to_uint p))) <=? max_str_digits) = true →
  parse_number ((if neg : bool then "-" else "") +:+ nat_digits (Pos.to_uint p) +:+ rest)
  = Some (JInt (if neg then Z.neg p else Z.pos p), rest).
Proof.
  intros Hr Hlen. unfold parse_number.
  destruct (nat_digits_head p) as (a & r & Hd & Hdig & Hz).
  assert (Hms : minus_sign ((if neg then "-" else "") +:+ nat_digits (Pos.to_uint p) +:+ rest)
                = (neg, nat_digits (Pos.to_uint p) +:+ rest)).
  { destruct neg; [done|]. rewrite Hd. simpl.
    destruct (byte_at a =? 45) eqn:E; [|done]. exfalso.
    apply Z.eqb_eq in E. unfold is_digit, in_range in Hdig. rewrite E in Hdig. done. }
  rewrite Hms, span_app by (apply string_of_uint_digits || by apply stops_not_digit).
  destruct (not_number_tail rest Hr) as [-> ->].
  replace (is_empty (nat_digits (Pos.to_uint p))
    || (starts_with "0" (nat_digits (Pos.to_uint p))
        && (1 <? String.length (nat_digits (Pos.to_uint p)))%nat)) with false.
  - simpl. rewrite Hlen, digits_value_pos. by destruct neg.
  - rewrite Hd, starts_zero_false by done. done.
Qed.

(** Appending what may follow a value does not change how far the number
    scanner goes. *)
Section Extend.
Context (rest : string) (Hrest : stops rest = true).

Lemma span_extend p s u v : head_not p rest → span p s = (u, v) →
  span p (s +:+ rest) = (u, v +:+ rest).
Proof.
  intros Hh. revert u v. induction s as [|a s IH]; intros u v; simpl.
  - intros [= <- <-]. destruct rest as [|b r]; simpl in *; [done|]. by rewrite Hh.
  - destruct (p a); [|by intros [= <- <-]].
    destruct (span p s) as [u' v'] eqn:E. intros [= <- <-]. by rewrite (IH u' v').
Qed.

Let Hdig := stops_not_digit rest Hrest.

Lemma minus_sign_extend s neg v : minus_sign s = (neg, v) →
  minus_sign (s +:+ rest) = (neg, v +:+ rest).
Proof.
  destruct s as [|a s]; simpl.
  - intros [= <- <-]. destruct rest as [|b r]; [done|].
    destruct (stops_head b r Hrest) as (_&_&_&_&_&_&H%Z.eqb_neq).
    unfold minus_sign. by rewrite H.
  - case_match; by intros [= <- <-].
Qed.

Lemma parse_frac_extend s u v : parse_frac s = (u, v) → parse_frac (s +:+ rest) = (u, v +:+ rest).
Proof.
  destruct s as [|a s]; simpl.
  - intros [= <- <-]. by destruct (not_number_tail rest Hrest).
  - destruct (byte_at a =? 46); [|by intros [= <- <-]].
    destruct (span is_digit s) as [ds r] eqn:E. rewrite (span_extend _ _ _ _ Hdig E).
    case_match; by intros [= <- <-].
Qed.

Lemma exp_sign_extend s :
  let f s := match s with
    | String b s'' => if byte_at b =? 45 then (true, s'')
                      else if byte_at b =? 43 then (false, s'') else (false, s)
    | EmptyString => (false, s) end in
  f (s +:+ rest) = ((f s).1, (f s).2 +:+ rest).
Proof.
  destruct s as [|a s]; simpl; [|by repeat case_match].
  destruct rest as [|b r]; [done|].
  destruct (stops_head b r Hrest) as (_&_&_&_&_&H1%Z.eqb_neq&H2%Z.eqb_neq).
  by rewrite H1, H2.
Qed.

Lemma parse_exp_extend s x v : parse_exp s = (x, v) → parse_exp (s +:+ rest) = (x, v +:+ rest).
Proof.
  destruct s as [|a s]; simpl.
  - intros [= <- <-]. by destruct (not_number_tail rest Hrest).
  - destruct ((byte_at a =? 101) || (byte_at a =? 69)); [|by intros [= <- <-]].
    pose proof (exp_sign_extend s) as Hs. simpl in Hs. rewrite Hs. clear Hs.
    match goal with |- context [match ?m with pair _ _ => _ end = (x, v)] =>
      destruct m as [neg s1] end. simpl.
    destruct (span is_digit s1) as [ds r] eqn:E. rewrite (span_extend _ _ _ _ Hdig E).
    repeat case_match; by intros [= <- <-].
Qed.

Lemma parse_number_extend s v r :
  parse_number s = Some (v, r) → parse_number (s +:+ rest) = Some (v, r +:+ rest).
Proof.
  unfold parse_number.
  destruct (minus_sign s) as [neg s1] eqn:E1. rewrite (minus_sign_extend _ _ _ E1).
  destruct (span is_digit s1) as [ds s2] eqn:E2. rewrite (span_extend _ _ _ _ Hdig E2).
  destruct (_ || _); [done|].
  destruct (parse_frac s2) as [fs s3] eqn:E3. rewrite (parse_frac_extend _ _ _ E3).
  destruct (parse_exp s3) as [ex s4] eqn:E4. rewrite (parse_exp_extend _ _ _ E4).
  repeat case_match; by intros [= <- <-].
Qed.
End Extend.

(** A number literal begins with a minus sign or a digit. *)
Lemma parse_number_head a s v r : parse_number (String a s) = Some (v, r) →
  byte_at a = 45 ∨ is_digit a = true.
Proof.
  unfold parse_number, minus_sign. destruct (byte_at a =? 45) eqn:E; [by left; lia|].
  simpl. destruct (is_digit a); [by right|]. done.
Qed.

Lemma digit_not a c : is_digit a = true → is_digit c = false → Ascii.eqb c a = false.
Proof. destruct (Ascii.eqb_spec c a); congruence. Qed.

Lemma starts_with_cons c p a s :
  starts_with (String c p) (String a s) = Ascii.eqb c a && starts_with p s.
Proof. done. Qed.

Lemma number_dispatch s v r : parse_number s = Some (v, r) →
  first_is 34 s = None ∧ first_is 91 s = None ∧ first_is 123 s = None ∧ constant s = None.
Proof.
  destruct s as [|a s]; [done|]. intros H. unfold constant.
  destruct (parse_number_head _ _ _ _ H) as [Ha|Ha].
  - assert (a = "-"%char) as ->.
    { unfold byte_at in Ha. rewrite <-(ascii_N_embedding a).
      replace (N_of_ascii a) with 45%N by lia. done. }
    split_and!; try done. destruct s as [|b s]; [done|].
    rewrite !starts_with_cons. simpl (Ascii.eqb _ "-").
    unfold parse_number in H. simpl in H.
    destruct (is_digit b) eqn:Hb; [|done].
    by rewrite (digit_not b "I") by done.
  - assert (Hb : 48 <= byte_at a <= 57).
    { unfold is_digit, in_range in Ha. lia. }
    unfold first_is.
    rewrite !(proj2 (Z.eqb_neq _ _)) by lia. split_and!; try done.
    rewrite !starts_with_cons. by rewrite !(digit_not a) by done.
Qed.

Lemma parse_value_number n s v rest :
  parse_number s = Some (v, EmptyString) → stops rest = true →
  parse_value (S n) (s +:+ rest) = Some (v, rest).
Proof.
  intros H Hr. apply (parse_number_extend rest Hr) in H. simpl in H.
  destruct (number_dispatch _ _ _ H) as (H1 & H2 & H3 & H4).
  simpl. by rewrite H1, H2, H3, H4.
Qed.

Lemma parse_number_int z t : int_text z = Ok t → parse_number t = Some (JInt z, EmptyString).
Proof.
  unfold int_text. case_match eqn:E; [|done]. intros [= <-].
  destruct z as [|p|p]; [done|..]; unfold byte_len in E.
  - change (Z.abs (Z.pos p)) with (Z.pos p) in E. rewrite int_repr_pos in E.
    rewrite int_repr_pos. pose proof (parse_number_digits false p "" eq_refl E) as H.
    by rewrite app_nil_s in H.
  - change (Z.abs (Z.neg p)) with (Z.pos p) in E. rewrite int_repr_pos in E.
    rewrite int_repr_neg. pose proof (parse_number_digits true p "" eq_refl E) as H.
    by rewrite app_nil_s in H.
Qed.

(** *** Containers *)
Definition dump_list :=
  fix go (l : list json) : result (list string) :=
    match l with
    | [] => Ok []
    | x :: l' => t ← dumps x; ts ← go l'; Ok (t :: ts)
    end.

Definition dump_items :=
  fix go (kvs : jobject) : result (list (string * string)) :=
    match kvs with
    | [] => Ok []
    | (k, v) :: kvs' => t ← dumps v; ts ← go kvs'; Ok ((k, t) :: ts)
    end.

Lemma dump_list_ok l ts : dump_list l = Ok ts → Forall2 (λ x t, dumps x = Ok t) l ts.
Proof.
  revert ts. induction l as [|x l IH]; intros ts; simpl.
  - intros [= <-]. constructor.
  - intros H. inv_ok. constructor; auto.
Qed.

Definition item_rel (kv : string * json) (kt : string * string) : Prop :=
  kt.1 = kv.1 ∧ dumps kv.2 = Ok kt.2.

Lemma dump_items_ok kvs ts : dump_items kvs = Ok ts → Forall2 item_rel kvs ts.
Proof.
  revert ts. induction kvs as [|[k v] kvs IH]; intros ts; simpl.
  - intros [= <-]. constructor.
  - intros H. inv_ok. constructor; [done|auto].
Qed.

(** Sorting respects any relation whose related elements compare alike. *)
Lemma isort_Forall2 {A B} (R : A → B → Prop) (la : A → A → bool) (lb : B → B → bool) l k :
  (∀ x x' y y', R x y → R x' y' → la x x' = lb y y') →
  Forall2 R l k → Forall2 R (isort la l) (isort lb k).
Proof.
  intros Heq. induction 1 as [|x y l k Hxy Hlk IH]; simpl; [constructor|].
  clear Hlk. induction IH as [|x' y' l' k' Hxy' Hlk' IH']; simpl.
  - by repeat constructor.
  - rewrite (Heq x x' y y') by done. case_match; by repeat constructor.
Qed.

Lemma isort_map {A B} (f : A → B) (la : A → A → bool) (lb : B → B → bool) l :
  (∀ x y, lb (f x) (f y) = la x y) → isort lb (map f l) = map f (isort la l).
Proof.
  intros H. induction l as [|x l IH]; simpl; [done|]. rewrite IH. clear IH.
  induction (isort la l) as [|y k IHk]; simpl; [done|].
  rewrite H. destruct (la x y); simpl; [done|]. by rewrite IHk.
Qed.

Fixpoint json_text_ok (j : json) : bool :=
  match j with
  | JFloat f => float_text_ok f
  | JArr l => forallb json_text_ok l
  | JObj kvs => forallb (λ kv, json_text_ok kv.2) kvs
  | _ => true
  end.


(** No value's text begins with white space. *)
Definition solid_head (t : string) : Prop :=
  ∃ a r, t = String a r ∧ is_ws a = false ∧ byte_at a ≠ 93 ∧ byte_at a ≠ 125.

Lemma solid_number t v r : parse_number t = Some (v, r) → solid_head t.
Proof.
  destruct t as [|a t]; [done|]. intros H%parse_number_head.
  exists a, t. split; [done|].
  assert (byte_at a = 45 ∨ 48 <= byte_at a <= 57) as Ha.
  { destruct H as [?|H]; [by left|]. right. unfold is_digit, in_range in H. lia. }
  unfold is_ws. rewrite !orb_false_iff, !Z.eqb_neq. lia.
Qed.

Lemma dumps_solid j t : json_text_ok j = true → dumps j = Ok t → solid_head t.
Proof.
  assert (Hc : ∀ a r, is_ws a = false → bool_decide (byte_at a ≠ 93 ∧ byte_at a ≠ 125) = true →
    solid_head (String a r)).
  { intros a r ? [? ?]%bool_decide_eq_true. exists a, r. done. }
  destruct j as [|[]|z|f|s|l|kvs]; intros Hok H; simpl in Hok.
  - injection H as <-. by apply Hc.
  - injection H as <-. by apply Hc.
  - injection H as <-. by apply Hc.
  - by eapply solid_number, parse_number_int.
  - unfold float_text_ok in Hok. apply andb_true_iff in Hok as [Hf Hp].
    simpl in H. rewrite Hf in H. injection H as <-.
    apply bool_decide_eq_true in Hp. by eapply solid_number.
  - injection H as <-. by apply Hc.
  - simpl in H. fold dump_list in H. apply bind_ok in H as (ts & _ & [= <-]). by apply Hc.
  - simpl in H. fold dump_items in H. apply bind_ok in H as (ts & _ & [= <-]). by apply Hc.
Qed.

Lemma skip_ws_solid t rest : solid_head t → skip_ws (t +:+ rest) = t +:+ rest.
Proof. intros (a & r & -> & Hw & _). unfold skip_ws. simpl. by rewrite Hw. Qed.

Lemma solid_join t ts sep : solid_head t → solid_head (str_join sep (t :: ts)).
Proof.
  intros (a & r & -> & H). destruct ts; [by exists a, r|].
  exists a. eexists. split; [reflexivity|done].
Qed.

Lemma first_is_solid t c rest : solid_head t → c = 93 ∨ c = 125 → first_is c (t +:+ rest) = None.
Proof.
  intros (a & r & -> & _ & H1%Z.eqb_neq & H2%Z.eqb_neq) [-> | ->]; simpl; by rewrite ?H1, ?H2.
Qed.

(** The predicate proved by induction on the value. *)
Definition reads_back (j : json) : Prop :=
  ∀ t, dumps j = Ok t → ∀ n rest, stops rest = true →
  (2 * String.length t + 1 <= n)%nat → parse_value n (t +:+ rest) = Some (sort_json j, rest).

(** How the scanner of containers goes on after an element. *)
Lemma elems_comma n s v x :
  parse_value n s = Some (v, String "," x) →
  parse_elems (S n) s = '(vs, r) ← parse_elems n (skip_ws x); Some (v :: vs, r).
Proof. intros H. cbn [parse_elems]. by rewrite H. Qed.

Lemma elems_close n s v x :
  parse_value n s = Some (v, String "]" x) → parse_elems (S n) s = Some ([v], x).
Proof. intros H. cbn [parse_elems]. by rewrite H. Qed.

Lemma members_comma n k s v x acc :
  solid_head s → parse_value n s = Some (v, String "," x) →
  parse_members (S n) (quoted k +:+ ":" +:+ s) acc = parse_members n (skip_ws x) (dict_set k v acc).
Proof.
  intros Hs H. unfold quoted. rewrite !app_assoc_s. cbn [parse_members].
  change (first_is 34 (dq +:+ escape k +:+ dq +:+ ":" +:+ s)) with (Some (escape k +:+ dq +:+ ":" +:+ s)).
  cbn [mbind option_bind]. rewrite parse_string_escape. cbn [mbind option_bind].
  change (first_is 58 (skip_ws (":" +:+ s))) with (Some s). cbn [mbind option_bind].
  rewrite <-(app_nil_s s), skip_ws_solid, app_nil_s by done. by rewrite H.
Qed.

Lemma members_close n k s v x acc :
  solid_head s → parse_value n s = Some (v, String "}" x) →
  parse_members (S n) (quoted k +:+ ":" +:+ s) acc = Some (dict_set k v acc, x).
Proof.
  intros Hs H. unfold quoted. rewrite !app_assoc_s. cbn [parse_members].
  change (first_is 34 (dq +:+ escape k +:+ dq +:+ ":" +:+ s)) with (Some (escape k +:+ dq +:+ ":" +:+ s)).
  cbn [mbind option_bind]. rewrite parse_string_escape. cbn [mbind option_bind].
  change (first_is 58 (skip_ws (":" +:+ s))) with (Some s). cbn [mbind option_bind].
  rewrite <-(app_nil_s s), skip_ws_solid, app_nil_s by done. by rewrite H.
Qed.

Lemma reads_back_elems l ts n rest :
  l ≠ [] → Forall reads_back l → Forall2 (λ x t, dumps x = Ok t) l ts → Forall solid_head ts →
  (2 * (String.length (str_join "," ts) + 1) <= n)%nat →
  parse_elems n (str_join "," ts +:+ "]" +:+ rest) = Some (map sort_json l, rest).
Proof.
  intros Hne Hall H2. revert n Hne. induction H2 as [|x t l ts Hx H2 IH]; intros n Hne Hs Hn; [done|].
  inversion Hall as [|?? Hr Hall']; inversion Hs as [|?? _ Hs']; subst.
  destruct n as [|n]; [lia|]. destruct ts as [|t' ts].
  - inversion H2; subst. cbn [str_join] in *.
    rewrite (elems_close _ _ _ _ (Hr t Hx n ("]" +:+ rest) eq_refl ltac:(lia))). done.
  - change (str_join "," (t :: t' :: ts)) with (t +:+ "," +:+ str_join "," (t' :: ts)) in Hn |- *.
    rewrite !length_app_s in Hn. cbn [String.length] in Hn. rewrite !app_assoc_s.
    rewrite (elems_comma _ _ _ _ (Hr t Hx n ("," +:+ str_join "," (t' :: ts) +:+ "]" +:+ rest)
      eq_refl ltac:(lia))).
    rewrite skip_ws_solid by (apply solid_join; by inversion Hs').
    assert (l ≠ []) by (destruct l; [inversion H2|done]).
    rewrite IH by (done || lia). done.
Qed.

(** One printed member. *)
Definition member_text (kt : string * string) : string := quoted kt.1 +:+ ":" +:+ kt.2.

Lemma solid_member kt : solid_head (member_text kt).
Proof. unfold member_text, quoted. rewrite !app_assoc_s. by eexists _, _. Qed.

Lemma reads_back_members kvs ts n rest acc :
  kvs ≠ [] → Forall (λ kv, reads_back kv.2) kvs → Forall2 item_rel kvs ts →
  Forall (λ kt, solid_head kt.2) ts →
  NoDup (dict_keys acc ++ dict_keys kvs) →
  (2 * (String.length (str_join "," (map member_text ts)) + 1) <= n)%nat →
  parse_members n (str_join "," (map member_text ts) +:+ "}" +:+ rest) acc
  = Some (acc ++ map (λ kv, (kv.1, sort_json kv.2)) kvs, rest).
Proof.
  intros Hne Hall H2. revert n acc Hne.
  induction H2 as [|[k x] [k' t] kvs ts [Hk Hx] H2 IH]; intros n acc Hne Hs Hnd Hn; [done|].
  simpl in Hk, Hx. subst k'.
  inversion Hall as [|?? Hr Hall']; inversion Hs as [|?? Ht Hs']; subst. simpl in Hr, Ht.
  assert (Hfresh : k ∉ dict_keys acc).
  { apply NoDup_app in Hnd as (_ & Hd & _). intros Hin. apply (Hd k Hin). by left. }
  assert (Hsolid : ∀ y, solid_head (t +:+ y)).
  { intros y. destruct Ht as (a & r & -> & ?). by eexists _, _. }
  assert (Hl : ∀ tl, String.length (member_text (k, t) +:+ tl)
    = (String.length (quoted k) + 1 + String.length t + String.length tl)%nat).
  { intros. unfold member_text. rewrite !length_app_s. simpl. lia. }
  destruct n as [|n]; [lia|]. destruct ts as [|kt' ts].
  - inversion H2; subst. cbn [map str_join] in *.
    rewrite <-(app_nil_s (member_text _)), Hl in Hn.
    unfold member_text at 1. simpl fst; simpl snd. rewrite !app_assoc_s.
    rewrite (members_close n k (t +:+ "}" +:+ rest) _ _ acc (Hsolid _)
      (Hr t Hx n ("}" +:+ rest) eq_refl ltac:(lia))).
    by rewrite dict_set_fresh.
  - change (str_join "," (map member_text ((k, t) :: kt' :: ts)))
      with (member_text (k, t) +:+ "," +:+ str_join "," (map member_text (kt' :: ts))) in Hn |- *.
    rewrite Hl, length_app_s in Hn. cbn [String.length] in Hn.
    unfold member_text at 1. simpl fst; simpl snd. rewrite !app_assoc_s.
    rewrite (members_comma n k _ _ _ acc (Hsolid _) (Hr t Hx n
      ("," +:+ str_join "," (map member_text (kt' :: ts)) +:+ "}" +:+ rest) eq_refl ltac:(lia))).
    rewrite skip_ws_solid by apply solid_join, solid_member.
    rewrite dict_set_fresh by done.
    assert (kvs ≠ []) by (destruct kvs; [inversion H2|done]).
    assert (NoDup (dict_keys (acc ++ [(k, sort_json x)]) ++ dict_keys kvs)).
    { unfold dict_keys in *. by rewrite fmap_app, <-app_assoc. }
    rewrite IH by (done || lia). by rewrite <-app_assoc.
Qed.

Lemma Forall2_solid l ts :
  Forall (λ j, json_text_ok j = true) l → Forall2 (λ x t, dumps x = Ok t) l ts → Forall solid_head ts.
Proof.
  intros Hok H2. revert Hok. induction H2; inversion 1; constructor; eauto using dumps_solid.
Qed.

Lemma Forall2_item_solid kvs ts :
  Forall (λ kv, json_text_ok kv.2 = true) kvs → Forall2 item_rel kvs ts →
  Forall (λ kt, solid_head kt.2) ts.
Proof.
  intros Hok H2. revert Hok. induction H2 as [|?? ?? [_ ?]]; inversion 1; constructor;
    eauto using dumps_solid.
Qed.

Lemma reads_back_array l :
  Forall reads_back l → Forall (λ j, json_text_ok j = true) l → reads_back (JArr l).
Proof.
  intros Hall Hok t H n rest Hr Hn. simpl in H. fold dump_list in H.
  apply bind_ok in H as (ts & Hts & [= <-]). apply dump_list_ok in Hts.
  destruct n as [|n]; [lia|]. destruct l as [|x l].
  - by inversion Hts; subst.
  - change (String "[" ?x) with ("[" +:+ x) in *.
    assert (Hsol : Forall solid_head ts) by eauto using Forall2_solid.
    assert (Hj : solid_head (str_join "," ts)).
    { destruct Hsol; [inversion Hts|by apply solid_join]. }
    rewrite !app_assoc_s. cbn [parse_value].
    change (first_is 34 ("[" +:+ ?x)) with (@None string).
    change (first_is 91 ("[" +:+ ?x)) with (Some x). cbv iota.
    rewrite skip_ws_solid, first_is_solid by auto.
    change (String.length ("[" +:+ ?x)) with (S (String.length x)) in Hn.
    rewrite length_app_s in Hn. cbn [String.length] in Hn.
    rewrite (reads_back_elems (x :: l)) by (done || lia). done.
Qed.

Lemma dumps_obj kvs : dumps (JObj kvs) =
  ts ← dump_items kvs; Ok ("{" +:+ str_join "," (map member_text (sort_items ts)) +:+ "}").
Proof. done. Qed.

Lemma reads_back_object kvs :
  NoDup (dict_keys kvs) →
  Forall (λ kv, reads_back kv.2) kvs → Forall (λ kv, json_text_ok kv.2 = true) kvs →
  reads_back (JObj kvs).
Proof.
  intros Hnd Hall Hok t H n rest Hr Hn. rewrite dumps_obj in H.
  apply bind_ok in H as (ts & Hts & [= <-]). apply dump_items_ok in Hts.
  assert (Hs : Forall2 item_rel (sort_items kvs) (sort_items ts)).
  { apply isort_Forall2; [|done]. intros ???? [-> _] [-> _]. done. }
  assert (Hp : sort_items kvs ≡ₚ kvs) by apply isort_perm.
  assert (Hsol : Forall (λ kt, solid_head kt.2) (sort_items ts)).
  { eapply Forall2_item_solid; [|exact Hs]. by rewrite Hp. }
  assert (Hall' : Forall (λ kv, reads_back kv.2) (sort_items kvs)) by by rewrite Hp.
  assert (Hnd' : NoDup (dict_keys (V:=json) [] ++ dict_keys (sort_items kvs))).
  { unfold dict_keys. simpl. by rewrite Hp. }
  assert (Hmap : sort_json (JObj kvs)
    = JObj (map (λ kv, (kv.1, sort_json kv.2)) (sort_items kvs))).
  { simpl. f_equal. by apply isort_map. }
  rewrite Hmap. clear Hp Hmap Hts Hall Hok Hnd.
  destruct n as [|n]; [lia|]. destruct (sort_items kvs) as [|x l].
  - by inversion Hs; subst.
  - assert (Hj : solid_head (str_join "," (map member_text (sort_items ts)))).
    { destruct Hsol; [inversion Hs|apply solid_join, solid_member]. }
    change (String "{" ?x) with ("{" +:+ x) in *.
    rewrite !app_assoc_s. cbn [parse_value].
    change (first_is 34 ("{" +:+ ?x)) with (@None string).
    change (first_is 91 ("{" +:+ ?x)) with (@None string).
    change (first_is 123 ("{" +:+ ?x)) with (Some x). cbv iota.
    rewrite skip_ws_solid, first_is_solid by auto.
    change (String.length ("{" +:+ ?x)) with (S (String.length x)) in Hn.
    rewrite length_app_s in Hn. cbn [String.length] in Hn.
    rewrite (reads_back_members (x :: l)) by (done || lia). done.
Qed.

Lemma reads_back_all j : json_wf j = true → json_text_ok j = true → reads_back j.
Proof.
  induction j as [|b|z|f|s|l IH|kvs IH] using json_ind'; intros Hwf Hok.
  - intros t [= <-] [|n] rest Hr Hn; [simpl in Hn; lia|done].
  - intros t [= <-] [|n] rest Hr Hn; [destruct b; simpl in Hn; lia|by destruct b].
  - intros t H [|n] rest Hr Hn; [lia|]. by apply parse_value_number, Hr; apply parse_number_int.
  - intros t H [|n] rest Hr Hn; [lia|]. simpl in H, Hok.
    unfold float_text_ok in Hok. apply andb_true_iff in Hok as [Hf Hp]. rewrite Hf in H.
    injection H as <-. apply bool_decide_eq_true in Hp. by apply parse_value_number.
  - intros t [= <-] [|n] rest Hr Hn; [lia|]. unfold quoted. rewrite !app_assoc_s.
    cbn [parse_value].
    change (first_is 34 (dq +:+ ?x)) with (Some x). cbv iota. by rewrite parse_string_escape.
  - simpl in Hwf, Hok. rewrite forallb_elem in Hwf. rewrite forallb_elem in Hok.
    rewrite Forall_forall in IH. apply reads_back_array; apply Forall_forall; auto.
  - simpl in Hwf, Hok. apply andb_true_iff in Hwf as [Hnd%bool_decide_eq_true Hwf].
    rewrite forallb_elem in Hwf. rewrite forallb_elem in Hok.
    rewrite Forall_forall in IH. apply reads_back_object; [done|apply Forall_forall; auto..].
Qed.

(** Decoding the canonical text of a frozen value gives the value back, with
    the keys of its objects in sorted order. *)
Lemma json_loads_dumps j t :
  json_wf j = true → json_text_ok j = true → dumps j = Ok t → json_loads t = Some (sort_json j).
Proof.
  intros Hwf Hok H. unfold json_loads.
  pose proof (dumps_solid j t Hok H) as Hs.
  rewrite <-(app_nil_s t), (skip_ws_solid t "" Hs).
  rewrite (reads_back_all j Hwf Hok t H) by (done || rewrite app_nil_s; lia). done.
Qed.

(** Values with the same canonical text are the same up to key order. *)
Lemma dumps_inj j1 j2 t :
  json_wf j1 = true → json_text_ok j1 = true → json_wf j2 = true → json_text_ok j2 = true →
  dumps j1 = Ok t → dumps j2 = Ok t → sort_json j1 = sort_json j2.
Proof.
  intros W1 O1 W2 O2 H1 H2.
  pose proof (json_loads_dumps _ _ W1 O1 H1). pose proof (json_loads_dumps _ _ W2 O2 H2). congruence.
Qed.

(** Integers and strings only: no condition on the printing of floats. *)
Fixpoint no_float (j : json) : bool :=
  match j with
  | JFloat _ => false
  | JArr l => forallb no_float l
  | JObj kvs => forallb (λ kv, no_float kv.2) kvs
  | _ => true
  end.

Lemma no_float_text_ok j : no_float j = true → json_text_ok j = true.
Proof.
  induction j as [| | | | |l IH|kvs IH] using json_ind'; simpl; try done;
    rewrite !forallb_elem; rewrite Forall_forall in IH; auto.
Qed.

(** *** The canonical text does not depend on the order of keys *)

Lemma dump_list_intro l ts : Forall2 (λ x t, dumps x = Ok t) l ts → dump_list l = Ok ts.
Proof. induction 1 as [|x t l ts Hx _ IH]; simpl; [done|]. by rewrite Hx, IH. Qed.

Lemma dump_items_intro kvs ts : Forall2 item_rel kvs ts → dump_items kvs = Ok ts.
Proof.
  induction 1 as [|[k x] [k' t] kvs ts [Hk Hx] _ IH]; simpl in *; [done|].
  subst. by rewrite Hx, IH.
Qed.

Lemma item_leb_total {V} (a b : string * V) :
  String.leb a.1 b.1 = true ∨ String.leb b.1 a.1 = true.
Proof. apply string_leb_total. Qed.

Lemma item_leb_trans {V} (a b c : string * V) :
  String.leb a.1 b.1 = true → String.leb b.1 c.1 = true → String.leb a.1 c.1 = true.
Proof. apply string_leb_trans. Qed.

Lemma sort_items_idemp {V} (l : list (string * V)) : sort_items (sort_items l) = sort_items l.
Proof. apply isort_idemp; [apply item_leb_total|apply item_leb_trans]. Qed.

Lemma Forall2_map_l {A B C} (f : A → B) (R : B → C → Prop) l k :
  Forall2 (λ a c, R (f a) c) l k → Forall2 R (map f l) k.
Proof. induction 1; simpl; by constructor. Qed.

Lemma dumps_sort_json j t : dumps j = Ok t → dumps (sort_json j) = Ok t.
Proof.
  revert t. induction j as [| | | | |l IH|kvs IH] using json_ind'; intros t; try done.
  - simpl. fold dump_list. intros H. apply bind_ok in H as (ts & Hts & [= <-]).
    apply dump_list_ok in Hts. rewrite (dump_list_intro _ ts); [done|].
    apply Forall2_map_l. revert IH. induction Hts; inversion 1; constructor; auto.
  - change (sort_json (JObj kvs)) with
      (JObj (sort_items (map (λ kv, (kv.1, sort_json kv.2)) kvs))).
    rewrite !dumps_obj. intros H. apply bind_ok in H as (ts & Hts & [= <-]).
    apply dump_items_ok in Hts.
    assert (Hm : Forall2 item_rel (map (λ kv, (kv.1, sort_json kv.2)) kvs) ts).
    { apply Forall2_map_l. revert IH. induction Hts as [|[] [] ?? [] ]; inversion 1; constructor;
        [split; simpl in *; auto|auto]. }
    rewrite (dump_items_intro _ (sort_items ts)).
    + cbn [mbind result_bind]. by rewrite sort_items_idemp.
    + apply isort_Forall2; [|done]. intros ???? [-> _] [-> _]. done.
Qed.

Lemma sort_json_wf j : json_wf j = true → json_wf (sort_json j) = true.
Proof.
  induction j as [| | | | |l IH|kvs IH] using json_ind'; try done; intros Hwf.
  - simpl in *. rewrite forallb_elem in Hwf. apply forallb_elem.
    intros x (y & -> & Hy)%list_elem_of_fmap. rewrite Forall_forall in IH. auto.
  - change (obj_wf kvs = true) in Hwf.
    change (obj_wf (sort_items (map (λ kv, (kv.1, sort_json kv.2)) kvs)) = true).
    rewrite obj_wf_spec in Hwf |- *. destruct Hwf as [Hnd Hall].
    assert (Hp := isort_perm (λ a b : string * json, String.leb a.1 b.1)
      (map (λ kv, (kv.1, sort_json kv.2)) kvs)).
    unfold sort_items, dict_keys. rewrite Hp. split.
    + rewrite <-list_fmap_compose. done.
    + rewrite Forall_forall in Hall, IH |- *. intros x (y & -> & Hy)%list_elem_of_fmap.
      simpl. auto.
Qed.

Lemma sort_json_idemp j : sort_json (sort_json j) = sort_json j.
Proof.
  induction j as [| | | | |l IH|kvs IH] using json_ind'; try done; simpl.
  - f_equal. rewrite map_map. apply map_ext_in. intros x Hx%list_elem_of_In.
    rewrite Forall_forall in IH. auto.
  - f_equal. unfold sort_items. rewrite <-(isort_map _ _ (λ a b, String.leb a.1 b.1)) by done.
    rewrite map_map. change (sort_items (sort_items (map (λ kv, (kv.1, sort_json (sort_json kv.2))) kvs))
      = sort_items (map (λ kv, (kv.1, sort_json kv.2)) kvs)).
    rewrite sort_items_idemp. f_equal. apply map_ext_in. intros kv Hx%list_elem_of_In.
    rewrite Forall_forall in IH. by rewrite (IH kv Hx).
Qed.

Lemma sort_json_obj kvs : ∃ kvs', sort_json (JObj kvs) = JObj kvs'.
Proof. by eexists. Qed.

Lemma sort_json_digest j d :
  json_wf j = true → json_digest (thaw_json j) = Ok d → json_digest (thaw_json (sort_json j)) = Ok d.
Proof.
  intros Hwf. rewrite !json_digest_thaw by (try apply sort_json_wf; done).
  rewrite !fmap_ok. intros (t & Ht & <-). exists t. split; [by apply dumps_sort_json|done].
Qed.
(** Python's [==] is reflexive on frozen values. *)
Lemma py_eq_refl j : json_wf j = true → py_eq j j = true.
Proof.
  induction j as [|b|z|f|s|l IH|kvs IH] using json_ind'; intros Hwf; simpl.
  - done.
  - destruct b; done.
  - apply Z.eqb_refl.
  - simpl in Hwf. rewrite Hwf. apply Z.eqb_refl.
  - by apply bool_decide_eq_true.
  - simpl in Hwf. induction IH as [|x l Hx _ IH2]; [done|].
    simpl in Hwf. apply andb_true_iff in Hwf as [??]. rewrite Hx by done. by apply IH2.
  - change (obj_wf kvs = true) in Hwf. apply obj_wf_spec in Hwf as [Hnd Hall].
    rewrite Nat.eqb_refl. simpl.
    assert (Hget : ∀ k v, (k, v) ∈ kvs → dict_get k kvs = Some v ∧ py_eq v v = true).
    { intros k v Hin. split; [by apply elem_dict_get|].
      rewrite Forall_forall in IH, Hall. apply (IH (k, v) Hin), (Hall (k, v) Hin). }
    match goal with |- ?f kvs = true => cut (∀ a, (∀ k v, (k, v) ∈ a → (k, v) ∈ kvs) → f a = true) end.
    { intros H. by apply H. }
    intros a. induction a as [|[k v] a IHa]; intros Ha; [done|].
    destruct (Hget k v) as [-> ->]; [apply Ha; by left|]. apply IHa. intros k' v' Hin. apply Ha. by right.
Qed.

(** C40 (canonical_json_roundtrip): canonical JSON is an injective encoding up to
    the order of object keys: decoding the canonical text of a frozen value
    (whose floats print to text that reads back) gives that value with every
    object's keys sorted, the sorted value has the same text, and two such
    values with the same text are equal once sorted. Digests taken over
    canonical text therefore bind the value itself. *)
Theorem canonical_json_roundtrip j t :
  json_wf j = true → json_text_ok j = true → canonical_json (thaw_json j) = Ok t →
  json_loads t = Some (sort_json j) ∧
  canonical_json (thaw_json (sort_json j)) = Ok t ∧
  ∀ j', json_wf j' = true → json_text_ok j' = true → canonical_json (thaw_json j') = Ok t →
    sort_json j' = sort_json j.
Proof.
  unfold canonical_json, canonical_json_bytes. intros Hwf Htxt H. rewrite freeze_thaw in H by done.
  split_and!.
  - by apply json_loads_dumps.
  - rewrite freeze_thaw by (by apply sort_json_wf). by apply dumps_sort_json.
  - intros j' Hwf' Htxt' H'. rewrite freeze_thaw in H' by done. by eapply dumps_inj.
Qed.

Lemma canonical_json_roundtrip_witness :
  json_loads (String "{" (dq +:+ "a" +:+ dq +:+ ":1}")) = Some (JObj [("a", JInt 1)]).
Proof. apply (canonical_json_roundtrip (JObj [("a", JInt 1)])); reflexivity. Defined.
