(* ===== verification/PyTime.v ===== *)
(** * datetime: aware timestamps, their ISO text and their order

    A [datetime] is its local wall clock in microseconds since
    0001-01-01T00:00 and, when it is aware, its offset from UTC in
    microseconds.  [isoformat] and [fromisoformat] follow the standard
    library; the round trip of UTC timestamps is what lets the ledger store
    timestamps as text. *)

From S2P Require Import Prelude PyStr.
From Stdlib Require Import ZArith Lia Ascii String.
From stdpp Require Import base gmap sets list strings.
Local Open Scope Z_scope.

Record datetime := Datetime { dt_local : Z; dt_offset : option Z }.

#[export] Instance datetime_eq_dec : EqDecision datetime.
Proof. solve_decision. Defined.

Definition us_per_second : Z := 1000000.
Definition us_per_day : Z := 86400 * us_per_second.
Definition max_days : Z := 3652059.

Definition in_range_local (l : Z) : bool := (0 <=? l) && (l <? max_days * us_per_day).

(** ** The proleptic Gregorian calendar ([_ymd2ord], [_ord2ymd]) *)

Definition is_leap (y : Z) : bool :=
  (y mod 4 =? 0) && (negb (y mod 100 =? 0) || (y mod 400 =? 0)).
Definition days_before_year (y : Z) : Z :=
  let p := y - 1 in p * 365 + p / 4 - p / 100 + p / 400.

Definition days_before_month_table : list Z :=
  [0; 0; 31; 59; 90; 120; 151; 181; 212; 243; 273; 304; 334].
Definition days_in_month_table : list Z :=
  [0; 31; 28; 31; 30; 31; 30; 31; 31; 30; 31; 30; 31].
Definition tab (t : list Z) (m : Z) : Z := nth (Z.to_nat m) t 0.

Definition days_before_month (leap : bool) (m : Z) : Z :=
  tab days_before_month_table m + (if (2 <? m) && leap then 1 else 0).
Definition days_in_month (leap : bool) (m : Z) : Z :=
  tab days_in_month_table m + (if (m =? 2) && leap then 1 else 0).

(** The ordinal of a date counts from 1; [day_index] counts from 0. *)
Definition day_index (y m d : Z) : Z :=
  days_before_year y + days_before_month (is_leap y) m + d - 1.

Definition month_day (leap : bool) (n : Z) : Z * Z :=
  let month := Z.shiftr (n + 50) 5 in
  let preceding := days_before_month leap month in
  if n <? preceding then
    (month - 1, n - (preceding - days_in_month leap (month - 1)) + 1)
  else (month, n - preceding + 1).

Definition civil (index : Z) : Z * Z * Z :=
  let n400 := index / 146097 in let n := index mod 146097 in
  let n100 := n / 36524 in let n := n mod 36524 in
  let n4 := n / 1461 in let n := n mod 1461 in
  let n1 := n / 365 in let n := n mod 365 in
  let year := n400 * 400 + 1 + n100 * 100 + n4 * 4 + n1 in
  if (n1 =? 4) || (n100 =? 4) then (year - 1, 12, 31)
  else
    let leap := (n1 =? 3) && (negb (n4 =? 24) || (n100 =? 3)) in
    let '(m, d) := month_day leap n in (year, m, d).

(** ** isoformat *)

Definition dec2 (v : Z) : list Z := [48 + v / 10; 48 + v mod 10].
Definition dec4 (v : Z) : list Z := dec2 (v / 100) ++ dec2 (v mod 100).
Definition dec6 (v : Z) : list Z := dec2 (v / 10000) ++ dec4 (v mod 10000).

Definition clock_codes (secs us : Z) : list Z :=
  dec2 (secs / 3600) ++ [58] ++ dec2 (secs / 60 mod 60) ++ [58] ++ dec2 (secs mod 60)
  ++ (if us =? 0 then [] else [46] ++ dec6 us).

Definition offset_codes (offset : option Z) : list Z :=
  match offset with
  | None => []
  | Some o =>
      let a := Z.abs o in
      let secs := a / us_per_second in let us := a mod us_per_second in
      [if o <? 0 then 45 else 43] ++ dec2 (secs / 3600) ++ [58] ++ dec2 (secs / 60 mod 60)
      ++ (if (secs mod 60 =? 0) && (us =? 0) then []
          else [58] ++ dec2 (secs mod 60) ++ (if us =? 0 then [] else [46] ++ dec6 us))
  end.

Definition iso_codes (t : datetime) : list Z :=
  let '(y, m, d) := civil (dt_local t / us_per_day) in
  let rest := dt_local t mod us_per_day in
  dec4 y ++ [45] ++ dec2 m ++ [45] ++ dec2 d ++ [84]
  ++ clock_codes (rest / us_per_second) (rest mod us_per_second)
  ++ offset_codes (dt_offset t).

Fixpoint string_of_codes (cs : list Z) : string :=
  match cs with [] => EmptyString | c :: cs' => String (ascii_of_Z c) (string_of_codes cs') end.

Definition isoformat (t : datetime) : string := string_of_codes (iso_codes t).

(** ** fromisoformat *)

Definition digit_of (c : Z) : option Z :=
  if (48 <=? c) && (c <=? 57) then Some (c - 48) else None.

Fixpoint digits_of (cs : list Z) (acc : Z) : option Z :=
  match cs with [] => Some acc | c :: cs' => d ← digit_of c; digits_of cs' (10 * acc + d) end.
Definition int_of (cs : list Z) : option Z :=
  match cs with [] => None | _ => digits_of cs 0 end.

Definition slice (i j : nat) (cs : list Z) : list Z := take (j - i) (drop i cs).
Definition at_code (cs : list Z) (i : nat) : Z := nth i cs (-1).

(** The length of the longest run of digits from position [i]. *)
Fixpoint digit_run (cs : list Z) : nat :=
  match cs with
  | c :: cs' => match digit_of c with Some _ => S (digit_run cs') | None => O end
  | [] => O
  end.

Definition separator_position (cs : list Z) : option nat :=
  let len := length cs in
  if (len =? 7)%nat then Some 7%nat
  else if at_code cs 4 =? 45 then
    if at_code cs 5 =? 87 then
      if (8 <? len)%nat && (at_code cs 8 =? 45) then
        if (len =? 9)%nat then None
        else if (10 <? len)%nat && bool_decide (is_Some (digit_of (at_code cs 10))) then Some 8%nat
        else Some 10%nat
      else Some 8%nat
    else Some 10%nat
  else if at_code cs 4 =? 87 then
    let idx := (7 + digit_run (drop 7 cs))%nat in
    if (idx <? 9)%nat then Some idx
    else if (Nat.even idx) then Some 7%nat else Some 8%nat
  else Some 8%nat.

Definition check_date (y m d : Z) : option Z :=
  if (1 <=? y) && (y <=? 9999) && (1 <=? m) && (m <=? 12) && (1 <=? d)
     && (d <=? days_in_month (is_leap y) m)
  then Some (day_index y m d) else None.

Definition iso_week_day (year week day : Z) : option Z :=
  let jan1 := day_index year 1 1 in
  let first_weekday := (jan1 + 1) mod 7 in
  let ok_week := ((1 <=? week) && (week <=? 52))
    || ((week =? 53) && ((first_weekday =? 4) || ((first_weekday =? 3) && is_leap year))) in
  if (1 <=? year) && (year <=? 9999) && ok_week && (1 <=? day) && (day <=? 7) then
    let weekday := (jan1) mod 7 in
    let monday := jan1 - weekday + (if 3 <? weekday then 7 else 0) in
    let n := monday + (week - 1) * 7 + (day - 1) in
    if (0 <=? n) && (n <? max_days) then Some n else None
  else None.

Definition parse_date (cs : list Z) : option Z :=
  if negb (bool_decide (length cs ∈ [7; 8; 10]%nat)) then None else
  year ← int_of (slice 0 4 cs);
  let has_sep := at_code cs 4 =? 45 in
  let sep := if has_sep then 1%nat else 0%nat in
  let pos := (4 + sep)%nat in
  if at_code cs pos =? 87 then
    let pos := S pos in
    weekno ← int_of (slice pos (pos + 2) cs);
    let pos := (pos + 2)%nat in
    if (pos <? length cs)%nat then
      if eqb (at_code cs pos =? 45) has_sep then
        dayno ← int_of (slice (pos + sep) (pos + sep + 1) cs);
        iso_week_day year weekno dayno
      else None
    else iso_week_day year weekno 1
  else
    month ← int_of (slice pos (pos + 2) cs);
    if eqb (at_code cs (pos + 2) =? 45) has_sep then
      day ← int_of (slice (pos + 2 + sep) (pos + 4 + sep) cs);
      check_date year month day
    else None.

(** The fraction after the decimal mark: six digits count. *)
Definition parse_fraction (cs : list Z) : option Z :=
  match cs with
  | [] => Some 0
  | c :: ds =>
      if (c =? 46) || (c =? 44) then
        v ← int_of (take 6 ds);
        if forallb (λ c, bool_decide (is_Some (digit_of c))) (drop 6 ds)
        then Some (v * 10 ^ (6 - Z.of_nat (length (take 6 ds)))) else None
      else None
  end.

(** [HH[:?MM[:?SS[{.,}fff[fff]]]]] *)
Definition parse_clock (cs : list Z) : option (Z * Z * Z * Z) :=
  h ← int_of (slice 0 2 cs);
  if (length cs <? 2)%nat then None else
  let r := drop 2 cs in
  let has_sep := at_code r 0 =? 58 in
  let next r := if has_sep then (if at_code r 0 =? 58 then Some (drop 1 r) else None) else Some r in
  match r with
  | [] => Some (h, 0, 0, 0)
  | _ =>
      r ← next r;
      if (length r <? 2)%nat then None else
      m ← int_of (slice 0 2 r);
      match drop 2 r with
      | [] => Some (h, m, 0, 0)
      | r' =>
          r ← next r';
          if (length r <? 2)%nat then None else
          s ← int_of (slice 0 2 r);
          us ← parse_fraction (drop 2 r);
          Some (h, m, s, us)
      end
  end.

Fixpoint find_zone (cs : list Z) : option (list Z * Z * list Z) :=
  match cs with
  | [] => None
  | c :: cs' =>
      if (c =? 43) || (c =? 45) || (c =? 90) then Some ([], c, cs')
      else '(u, z, v) ← find_zone cs'; Some (c :: u, z, v)
  end.

Definition clock_us (c : Z * Z * Z * Z) : Z :=
  let '(h, m, s, us) := c in ((h * 60 + m) * 60 + s) * us_per_second + us.
Definition clock_ok (c : Z * Z * Z * Z) : bool :=
  let '(h, m, s, us) := c in (h <? 24) && (m <? 60) && (s <? 60).

(** The offset: [None] is an error, [Some None] a naive time. *)
Definition parse_zone (z : option (Z * list Z)) : option (option Z) :=
  match z with
  | None => Some None
  | Some (c, []) => if c =? 90 then Some (Some 0) else None
  | Some (c, tz) =>
      if (c =? 90) || (length tz =? 1)%nat || (length tz =? 3)%nat then None
      else
        t ← parse_clock tz;
        if clock_ok t then Some (Some (if c =? 45 then - clock_us t else clock_us t)) else None
  end.

Definition fromisoformat_codes (cs : list Z) : option datetime :=
  if (length cs <? 7)%nat then None else
  sep ← separator_position cs;
  day ← parse_date (take sep cs);
  match drop sep cs with
  | [] => Some (Datetime (day * us_per_day) None)
  | _ :: tcs =>
      let '(clock, zone) :=
        match find_zone tcs with
        | Some (u, z, v) => (u, Some (z, v))
        | None => (tcs, None)
        end in
      c ← parse_clock clock;
      offset ← parse_zone zone;
      let midnight := match c with (24, 0, 0, 0) => true | _ => false end in
      if clock_ok c || midnight then
        let l := day * us_per_day + clock_us c in
        if in_range_local l then Some (Datetime l offset) else None
      else None
  end.

(** [datetime.fromisoformat(text)]; [None] is [ValueError]. *)
Definition fromisoformat (text : string) : option datetime :=
  fromisoformat_codes (decode_utf8 text).

(** ** Conversions and order *)

Definition dt_utc (t : datetime) : Z := dt_local t - default 0 (dt_offset t).

(** [value.astimezone(UTC)] of an aware value. *)
Definition astimezone_utc (t : datetime) : result datetime :=
  if in_range_local (dt_utc t) then Ok (Datetime (dt_utc t) (Some 0)) else Err OverflowError.

(** The order of aware values. *)
Definition dt_leb (a b : datetime) : bool := dt_utc a <=? dt_utc b.
Definition dt_ltb (a b : datetime) : bool := dt_utc a <? dt_utc b.

(** ** Round trips *)

#[local] Ltac Zify.zify_post_hook ::= Z.to_euclidean_division_equations.

Lemma div_mod_bounds a b : 0 < b → 0 <= a mod b < b.
Proof. apply Z.mod_pos_bound. Qed.

Definition month_day_ok (leap : bool) (n : Z) : bool :=
  let '(m, d) := month_day leap n in
  (1 <=? m) && (m <=? 12) && (1 <=? d) && (d <=? days_in_month leap m)
  && (days_before_month leap m + d - 1 =? n).

(** Every day of a year falls in one month. *)
Lemma month_day_spec (leap : bool) n : 0 <= n < (if leap then 366 else 365) → month_day_ok leap n = true.
Proof.
  intros Hn.
  assert (H : forallb (λ n, month_day_ok leap (Z.of_nat n)) (seq 0 (if leap then 366 else 365)%nat) = true)
    by (destruct leap; vm_compute; reflexivity).
  rewrite forallb_forall in H. specialize (H (Z.to_nat n)).
  rewrite Z2Nat.id in H by lia. apply H, in_seq. destruct leap; lia.
Qed.

(** The leap days before a year, from the quotients of its cycle. *)
Lemma days_before_year_parts a b c e : 0 <= b <= 3 → 0 <= c <= 24 → 0 <= e <= 3 →
  days_before_year (a * 400 + 1 + b * 100 + c * 4 + e)
  = 146097 * a + 36524 * b + 1461 * c + 365 * e.
Proof.
  intros. unfold days_before_year.
  replace (_ + 1 + _ + _ + _ - 1) with (a * 400 + b * 100 + c * 4 + e) by lia.
  rewrite <-(Z.div_unique (a * 400 + b * 100 + c * 4 + e) 4 (100 * a + 25 * b + c) e),
    <-(Z.div_unique (a * 400 + b * 100 + c * 4 + e) 100 (4 * a + b) (c * 4 + e)),
    <-(Z.div_unique (a * 400 + b * 100 + c * 4 + e) 400 a (b * 100 + c * 4 + e)) by lia.
  lia.
Qed.

Lemma is_leap_parts a b c e : 0 <= b <= 3 → 0 <= c <= 24 → 0 <= e <= 3 →
  is_leap (a * 400 + 1 + b * 100 + c * 4 + e) = ((e =? 3) && (negb (c =? 24) || (b =? 3))).
Proof.
  intros. unfold is_leap. set (y := a * 400 + 1 + b * 100 + c * 4 + e).
  destruct (Z.eqb_spec e 3) as [->|He]; simpl.
  - replace (y mod 4) with 0 by (unfold y; lia). simpl.
    destruct (Z.eqb_spec c 24) as [->|Hc]; simpl.
    + replace (y mod 100) with 0 by (unfold y; lia). simpl.
      destruct (Z.eqb_spec b 3) as [->|Hb]; apply Z.eqb_eq || apply Z.eqb_neq.
      * rewrite <-(Z.mod_unique y 400 (a + 1) 0) by (unfold y; lia). done.
      * rewrite <-(Z.mod_unique y 400 a (b * 100 + 100)) by (unfold y; lia). lia.
    + rewrite <-(Z.mod_unique y 100 (4 * a + b) (4 + c * 4)) by (unfold y; lia).
      rewrite (proj2 (Z.eqb_neq _ _)) by lia. done.
  - rewrite <-(Z.mod_unique y 4 (100 * a + 25 * b + c) (1 + e)) by (unfold y; lia).
    rewrite (proj2 (Z.eqb_neq _ _)) by lia. done.
Qed.

Lemma check_date_intro y m d :
  1 <= y <= 9999 → 1 <= m <= 12 → 1 <= d <= days_in_month (is_leap y) m →
  check_date y m d = Some (day_index y m d).
Proof.
  intros. unfold check_date. by rewrite !(proj2 (Z.leb_le _ _)) by lia.
Qed.

Lemma civil_spec n : 0 <= n < max_days →
  let '(y, m, d) := civil n in
  1 <= y <= 9999 ∧ 1 <= m <= 12 ∧ 1 <= d <= 31 ∧ check_date y m d = Some n.
Proof.
  intros Hn. unfold max_days in Hn. unfold civil.
  pose proof (Z.div_mod n 146097 ltac:(lia)) as E1.
  pose proof (Z.mod_pos_bound n 146097 ltac:(lia)) as B1.
  set (q400 := n / 146097) in *. set (r400 := n mod 146097) in *.
  pose proof (Z.div_mod r400 36524 ltac:(lia)) as E2.
  pose proof (Z.mod_pos_bound r400 36524 ltac:(lia)) as B2.
  set (q100 := r400 / 36524) in *. set (r100 := r400 mod 36524) in *.
  pose proof (Z.div_mod r100 1461 ltac:(lia)) as E3.
  pose proof (Z.mod_pos_bound r100 1461 ltac:(lia)) as B3.
  set (q4 := r100 / 1461) in *. set (r4 := r100 mod 1461) in *.
  pose proof (Z.div_mod r4 365 ltac:(lia)) as E4.
  pose proof (Z.mod_pos_bound r4 365 ltac:(lia)) as B4.
  set (q1 := r4 / 365) in *. set (r1 := r4 mod 365) in *.
  clearbody q400 r400 q100 r100 q4 r4 q1 r1.
  assert (0 <= q400 <= 24) by lia. assert (0 <= q100 <= 4) by lia.
  assert (0 <= q4 <= 24) by lia. assert (0 <= q1 <= 4) by lia.
  set (y := q400 * 400 + 1 + q100 * 100 + q4 * 4 + q1).
  destruct ((q1 =? 4) || (q100 =? 4)) eqn:Elast.
  - (* the last day of a leap year *)
    assert (q1 = 4 ∧ q100 <= 3 ∧ q4 <= 23 ∧ r1 = 0
      ∨ q100 = 4 ∧ q4 = 0 ∧ q1 = 0 ∧ r1 = 0) as Hc by lia.
    assert (Hy : is_leap (y - 1) = true ∧ days_before_year (y - 1) + 365 = n ∧ 1 <= y - 1 <= 9999).
    { destruct Hc as [(-> & ? & ? & ->)|(-> & -> & -> & ->)].
      - replace (y - 1) with (q400 * 400 + 1 + q100 * 100 + q4 * 4 + 3) by (unfold y; lia).
        rewrite days_before_year_parts by lia. split_and!; [|lia..].
        rewrite is_leap_parts by lia. lia.
      - replace (y - 1) with (q400 * 400 + 1 + 3 * 100 + 24 * 4 + 3) by (unfold y; lia).
        rewrite days_before_year_parts by lia. split_and!; [|lia..].
        rewrite is_leap_parts by lia. lia. }
    destruct Hy as (Hl & Hd & Hr). split_and!; try lia.
    rewrite check_date_intro by (rewrite ?Hl; change (days_in_month true 12) with 31; lia).
    unfold day_index. rewrite Hl. change (days_before_month true 12) with 335. f_equal. lia.
  - assert (Hy : is_leap y = ((q1 =? 3) && (negb (q4 =? 24) || (q100 =? 3)))
      ∧ days_before_year y + r1 = n ∧ 1 <= y <= 9999).
    { assert (q1 <= 3) by lia. assert (q100 <= 3) by lia. split_and!.
      - unfold y. by rewrite is_leap_parts by lia.
      - unfold y. rewrite days_before_year_parts by lia. lia.
      - unfold y. lia.
      - unfold y. lia. }
    destruct Hy as (Hl & Hd & Hr). rewrite <-Hl.
    pose proof (month_day_spec (is_leap y) r1) as Hm. unfold month_day_ok in Hm.
    destruct (month_day (is_leap y) r1) as [m d].
    assert (Hb : 0 <= r1 < (if is_leap y then 366 else 365)) by (destruct (is_leap y); lia).
    specialize (Hm Hb). rewrite !andb_true_iff in Hm.
    destruct Hm as [[[[Hm1 Hm2] Hd1] Hd2] He].
    assert (d <= 31).
    { apply Z.leb_le in Hd2. apply (Z.le_trans _ _ _ Hd2).
      assert (m = 1 ∨ m = 2 ∨ m = 3 ∨ m = 4 ∨ m = 5 ∨ m = 6 ∨ m = 7 ∨ m = 8 ∨ m = 9 ∨ m = 10
        ∨ m = 11 ∨ m = 12) as Hm by lia.
      destruct (is_leap y); naive_solver (vm_compute; discriminate). }
    split_and!; try lia. rewrite check_date_intro by lia. unfold day_index. f_equal. lia.
Qed.

Lemma digit_of_code x : 0 <= x <= 9 → digit_of (48 + x) = Some x.
Proof.
  intros. unfold digit_of. rewrite (proj2 (Z.leb_le _ _)), (proj2 (Z.leb_le _ _)) by lia.
  simpl. f_equal. lia.
Qed.

Lemma digits_of_app a b acc : digits_of (a ++ b) acc = v ← digits_of a acc; digits_of b v.
Proof.
  revert acc. induction a as [|c a IH]; intros acc; simpl; [done|].
  destruct (digit_of c); simpl; [apply IH|done].
Qed.

Lemma digits_of_dec2 v acc : 0 <= v < 100 → digits_of (dec2 v) acc = Some (100 * acc + v).
Proof.
  intros. cbn [dec2 digits_of]. rewrite !digit_of_code by lia. simpl. f_equal. lia.
Qed.

Lemma int_of_dec2 v : 0 <= v < 100 → int_of (dec2 v) = Some v.
Proof. intros. change (digits_of (dec2 v) 0 = Some v). by rewrite digits_of_dec2. Qed.

Lemma int_of_dec4 v : 0 <= v < 10000 → int_of (dec4 v) = Some v.
Proof.
  intros. change (digits_of (dec2 (v / 100) ++ dec2 (v mod 100)) 0 = Some v).
  rewrite digits_of_app, digits_of_dec2 by lia. cbn [mbind option_bind].
  rewrite digits_of_dec2 by lia. f_equal. lia.
Qed.

Lemma int_of_dec6 v : 0 <= v < 1000000 → int_of (dec6 v) = Some v.
Proof.
  intros. change (digits_of (dec2 (v / 10000) ++ dec2 (v mod 10000 / 100)
    ++ dec2 ((v mod 10000) mod 100)) 0 = Some v).
  rewrite !digits_of_app, digits_of_dec2 by lia. cbn [mbind option_bind].
  rewrite digits_of_app, digits_of_dec2 by lia. cbn [mbind option_bind].
  rewrite digits_of_dec2 by lia. f_equal. lia.
Qed.

Definition frac_codes (us : Z) : list Z := if us =? 0 then [] else [46] ++ dec6 us.

Lemma parse_frac_codes us : 0 <= us < 1000000 → parse_fraction (frac_codes us) = Some us.
Proof.
  intros. unfold frac_codes. destruct (Z.eqb_spec us 0) as [->|]; [done|].
  change ([46] ++ dec6 us) with (46 :: dec6 us). unfold parse_fraction.
  rewrite (take_ge (dec6 us)), (drop_ge (dec6 us)) by (simpl; lia). simpl (_ || _).
  cbv iota. rewrite int_of_dec6 by lia. simpl. f_equal. lia.
Qed.

Lemma slice_dec2 v r : slice 0 2 (dec2 v ++ r) = dec2 v.
Proof. done. Qed.
Lemma drop_dec2 v r : drop 2 (dec2 v ++ r) = r.
Proof. done. Qed.
Lemma short_dec2 v r : (length (dec2 v ++ r) <? 2)%nat = false.
Proof. done. Qed.

Lemma parse_clock_codes h m s us :
  0 <= h < 100 → 0 <= m < 100 → 0 <= s < 100 → 0 <= us < 1000000 →
  parse_clock (dec2 h ++ [58] ++ dec2 m ++ [58] ++ dec2 s ++ frac_codes us) = Some (h, m, s, us).
Proof.
  intros. unfold parse_clock.
  rewrite slice_dec2, drop_dec2, short_dec2, int_of_dec2 by lia. cbn [mbind option_bind].
  change ([58] ++ ?x) with (58 :: x). cbn [at_code nth Z.eqb Pos.eqb drop].
  cbn [mbind option_bind]. rewrite drop_0, slice_dec2, drop_dec2, short_dec2, int_of_dec2 by lia.
  cbn [mbind option_bind]. change ([58] ++ ?x) with (58 :: x).
  cbn [mbind option_bind at_code nth Z.eqb Pos.eqb drop].
  rewrite drop_0, slice_dec2, drop_dec2, short_dec2, int_of_dec2 by lia.
  cbn [mbind option_bind]. by rewrite parse_frac_codes.
Qed.

Definition not_zone (c : Z) : Prop := c ≠ 43 ∧ c ≠ 45 ∧ c ≠ 90.

Lemma find_zone_app u v : Forall not_zone u → find_zone (u ++ 43 :: v) = Some (u, 43, v).
Proof.
  induction 1 as [|c u (H1 & H2 & H3) Hu IH]; [done|]. simpl.
  rewrite !(proj2 (Z.eqb_neq _ _)) by done. by rewrite IH.
Qed.

Lemma dec2_range v : 0 <= v < 100 → Forall (λ c, 48 <= c <= 57) (dec2 v).
Proof. intros. unfold dec2. repeat constructor; lia. Qed.

Lemma frac_codes_range us : 0 <= us < 1000000 → Forall (λ c, 46 <= c <= 57) (frac_codes us).
Proof.
  intros. unfold frac_codes. case_match; [constructor|].
  unfold dec6, dec4. rewrite ?Forall_app; split_and!; try (repeat constructor; lia);
    eapply Forall_impl; try (apply dec2_range; lia); intros; simpl in *; lia.
Qed.

Definition clock_text (h m s us : Z) : list Z :=
  dec2 h ++ [58] ++ dec2 m ++ [58] ++ dec2 s ++ frac_codes us.

Lemma clock_text_range h m s us :
  0 <= h < 100 → 0 <= m < 100 → 0 <= s < 100 → 0 <= us < 1000000 →
  Forall (λ c, 46 <= c <= 58) (clock_text h m s us).
Proof.
  intros. unfold clock_text. rewrite ?Forall_app; split_and!; try (repeat constructor; lia);
    eapply Forall_impl; try (apply dec2_range; lia); try (by apply frac_codes_range);
    intros; simpl in *; lia.
Qed.

Lemma parse_iso_codes y m d n h mi s us :
  0 <= y < 10000 → 0 <= m < 100 → 0 <= d < 100 → check_date y m d = Some n →
  0 <= h < 24 → 0 <= mi < 60 → 0 <= s < 60 → 0 <= us < 1000000 →
  in_range_local (n * us_per_day + clock_us (h, mi, s, us)) = true →
  fromisoformat_codes (dec4 y ++ [45] ++ dec2 m ++ [45] ++ dec2 d ++ [84]
    ++ clock_text h mi s us ++ [43; 48; 48; 58; 48; 48])
  = Some (Datetime (n * us_per_day + clock_us (h, mi, s, us)) (Some 0)).
Proof.
  intros Hy Hm Hd Hn Hh Hmi Hs Hus Hr. unfold fromisoformat_codes.
  set (cs := dec4 y ++ _).
  assert (Hsep : separator_position cs = Some 10%nat).
  { unfold separator_position.
    replace (length cs =? 7)%nat with false by (symmetry; apply Nat.eqb_neq; unfold cs; simpl; lia).
    change (at_code cs 4) with 45. change (at_code cs 5) with (48 + m / 10).
    rewrite (proj2 (Z.eqb_neq (48 + m / 10) 87)) by lia. done. }
  replace (length cs <? 7)%nat with false by (symmetry; apply Nat.ltb_ge; unfold cs; simpl; lia).
  rewrite Hsep. cbn [mbind option_bind].
  change (take 10 cs) with (dec4 y ++ [45] ++ dec2 m ++ [45] ++ dec2 d).
  change (drop 10 cs) with (84 :: clock_text h mi s us ++ [43; 48; 48; 58; 48; 48]).
  clear Hsep. clearbody cs.
  assert (Hdate : parse_date (dec4 y ++ [45] ++ dec2 m ++ [45] ++ dec2 d) = Some n).
  { unfold parse_date. rewrite bool_decide_true by (simpl; set_solver).
    change (slice 0 4 _) with (dec4 y). rewrite int_of_dec4 by lia.
    change (at_code _ 4) with 45. cbn [mbind option_bind negb Z.eqb Pos.eqb Nat.add].
    change (at_code _ 5) with (48 + m / 10). rewrite (proj2 (Z.eqb_neq (48 + m / 10) 87)) by lia.
    change (slice 5 7 _) with (dec2 m). rewrite int_of_dec2 by lia.
    change (at_code _ 7) with 45. change (slice 8 10 _) with (dec2 d).
    cbn [mbind option_bind Z.eqb Pos.eqb eqb]. by rewrite int_of_dec2 by lia. }
  rewrite Hdate. cbn [mbind option_bind].
  rewrite find_zone_app.
  2: { eapply Forall_impl; [apply clock_text_range; lia|]. unfold not_zone. intros; simpl in *; lia. }
  unfold clock_text. rewrite parse_clock_codes by lia. cbn [mbind option_bind].
  change (parse_zone _) with (Some (Some 0)). cbn [mbind option_bind].
  replace (clock_ok (h, mi, s, us)) with true by (unfold clock_ok; lia). cbn [orb].
  by rewrite Hr.
Qed.

Lemma byte_ascii c : 0 <= c < 256 → byte_at (ascii_of_Z c) = c.
Proof.
  intros. unfold byte_at, ascii_of_Z. rewrite N_ascii_embedding by lia. lia.
Qed.

Lemma decode_codes cs : Forall (λ c, 0 <= c < 128) cs → decode_utf8 (string_of_codes cs) = cs.
Proof.
  induction 1 as [|c cs Hc Hcs IH]; [done|]. cbn [string_of_codes decode_utf8].
  rewrite byte_ascii by lia. rewrite (proj2 (Z.ltb_lt c 192)) by lia. by rewrite IH.
Qed.

(** A UTC timestamp reads back from its ISO text. *)
Lemma fromisoformat_isoformat l :
  in_range_local l = true →
  fromisoformat (isoformat (Datetime l (Some 0))) = Some (Datetime l (Some 0)).
Proof.
  intros Hl. unfold fromisoformat, isoformat, iso_codes. cbn [dt_local dt_offset].
  unfold in_range_local in Hl. apply andb_true_iff in Hl as [H1 H2].
  apply Z.leb_le in H1. apply Z.ltb_lt in H2.
  assert (Hn : 0 <= l / us_per_day < max_days) by (unfold max_days, us_per_day, us_per_second in *; lia).
  pose proof (civil_spec _ Hn) as Hc. destruct (civil (l / us_per_day)) as [[y m] d].
  destruct Hc as (Hy & Hm & Hd & Hdate).
  set (r := l mod us_per_day). assert (Hr : 0 <= r < us_per_day) by (unfold r, us_per_day, us_per_second; lia).
  assert (El : l = l / us_per_day * us_per_day + r) by (unfold r, us_per_day, us_per_second; lia).
  set (secs := r / us_per_second). set (us := r mod us_per_second).
  assert (Hsecs : 0 <= secs < 86400 ∧ 0 <= us < 1000000 ∧ r = secs * 1000000 + us).
  { unfold secs, us, us_per_day, us_per_second in *. lia. }
  destruct Hsecs as (Hsecs & Hus & Er). rewrite Er in El. clearbody r secs us.
  change (clock_codes secs us ++ _) with
    ((dec2 (secs / 3600) ++ [58] ++ dec2 (secs / 60 mod 60) ++ [58] ++ dec2 (secs mod 60)
     ++ frac_codes us) ++ [43; 48; 48; 58; 48; 48]).
  fold (clock_text (secs / 3600) (secs / 60 mod 60) (secs mod 60) us).
  assert (Hclock : clock_us (secs / 3600, secs / 60 mod 60, secs mod 60, us) = secs * 1000000 + us).
  { unfold clock_us, us_per_second. lia. }
  rewrite decode_codes.
  - rewrite (parse_iso_codes y m d (l / us_per_day)); try lia; try done.
    + by rewrite Hclock, <-El.
    + rewrite Hclock, <-El. unfold in_range_local. lia.
  - assert (A : ∀ v, 0 <= v < 100 → Forall (λ c, 0 <= c < 128) (dec2 v)).
    { intros. unfold dec2. repeat constructor; lia. }
    assert (B : Forall (λ c, 0 <= c < 128) (clock_text (secs / 3600) (secs / 60 mod 60) (secs mod 60) us)).
    { eapply Forall_impl; [apply clock_text_range; lia|]. simpl. lia. }
    unfold dec4. rewrite !Forall_app. split_and!; try exact B;
      try (apply A; lia); repeat constructor; lia.
Qed.

Lemma astimezone_utc_format t t' : astimezone_utc t = Ok t' →
  dt_offset t' = Some 0 ∧ dt_utc t' = dt_utc t ∧ fromisoformat (isoformat t') = Some t'.
Proof.
  unfold astimezone_utc. case_match eqn:E; [|done]. intros [= <-].
  split; [done|]. split; [unfold dt_utc; simpl; lia|]. by apply fromisoformat_isoformat.
Qed.

(** Converting to UTC twice changes nothing more. *)
Lemma astimezone_utc_idemp t t' : astimezone_utc t = Ok t' → astimezone_utc t' = Ok t'.
Proof.
  unfold astimezone_utc. case_match eqn:E; [|done]. intros [= <-].
  unfold dt_utc. simpl. rewrite Z.sub_0_r. fold (dt_utc t). by rewrite E.
Qed.
