(* ===== verification/Contracts.v ===== *)
(** * Shared vocabulary of the orchestration contracts

    Records of orchestration/ are validated by their constructors and read back
    from untrusted Python values ([pyval]); the modules repeat the same small
    checks with an exception class of their own.  This file holds the checks once,
    with the exception as an argument, and what they mean: bounded text, mappings
    with an exact set of keys, and repository paths, whose canonical form is
    characterised component by component. *)

From S2P Require Import Prelude PyStr PyFloat Json JsonText JsonFacts PyTime.
From Stdlib Require Import ZArith Lia Ascii String Sorting.Sorted Sorting.Permutation.
From stdpp Require Import base gmap sets list strings.
Local Open Scope Z_scope.

Definition z_between (lo z hi : Z) : bool := (lo <=? z) && (z <=? hi).

(** [raw.get(field)] *)
Definition pget (field : string) (raw : list (string * pyval)) : pyval :=
  default PNone (dict_get field raw).

(** [len(l) == len(set(l))] *)
Definition distinct (l : list string) : bool := bool_decide (NoDup l).
Definition subset_of (a b : list string) : bool := forallb (λ x, bool_decide (x ∈ b)) a.
(** [tuple(sorted(set(l)))] *)
Definition sorted_set (l : list string) : list string := sort_strings (remove_dups l).

Definition backslash : string := String (ascii_of_Z 92) EmptyString.
Definition nul : string := String (ascii_of_Z 0) EmptyString.

(** [sorted(l, key=...)] for a text key: stable. *)
Definition by_key {A} (key : A → string) (a b : A) : bool := String.leb (key a) (key b).
Definition sort_by {A} (key : A → string) : list A → list A := isort (by_key key).

(** ** Payload literals *)

Definition obj (fields : list (string * pyval)) : pyval :=
  PMapping (map (λ kv, (PStr kv.1, kv.2)) fields).
Definition pstrs (l : list string) : pyval := PSequence (map PStr l).
Definition popt (o : option string) : pyval := match o with Some s => PStr s | None => PNone end.
Definition poptint (o : option Z) : pyval := match o with Some z => PInt z | None => PNone end.

Definition has_keys (raw : list (string * pyval)) (keys : list string) : bool :=
  same_keys (dict_keys raw) keys.

(** ** Validators over an exception *)
Section Contract.
Context (err : exn).

Definition contract_require (c : bool) : result unit := raise_if (negb c) err.

(** A mapping all of whose keys are strings. *)
Definition contract_mapping (value : pyval) : result (list (string * pyval)) :=
  match value with
  | PMapping items =>
      map_result (λ kv, match kv.1 with PStr k => Ok (k, kv.2) | _ => Err err end) items
  | _ => Err err
  end.

(** A mapping with exactly these keys. *)
Definition contract_object (keys : list string) (value : pyval) : result (list (string * pyval)) :=
  raw ← contract_mapping value;
  _ ← contract_require (has_keys raw keys);
  Ok raw.

(** A sequence (not text) whose length is within bounds. *)
Definition contract_sequence (minimum maximum : Z) (value : pyval) : result (list pyval) :=
  match value with
  | PSequence l => _ ← contract_require (z_between minimum (zlen l) maximum); Ok l
  | _ => Err err
  end.

Definition contract_string (value : pyval) : result string :=
  match value with PStr s => Ok s | _ => Err err end.
Definition contract_optional_string (value : pyval) : result (option string) :=
  match value with PNone => Ok None | PStr s => Ok (Some s) | _ => Err err end.
(** [bool] is not accepted where an [int] is expected. *)
Definition contract_int (value : pyval) : result Z :=
  match value with PInt z => Ok z | _ => Err err end.
Definition contract_bool (value : pyval) : result bool :=
  match value with PBool b => Ok b | _ => Err err end.
Definition contract_optional_int (value : pyval) : result (option Z) :=
  match value with PNone => Ok None | PInt z => Ok (Some z) | _ => Err err end.

(** [SomeStrEnum(value)]: the member whose value is the text. *)
Definition contract_enum {A} (values : list (string * A)) (value : pyval) : result A :=
  match value with PStr s => of_option err (dict_get s values) | _ => Err err end.
End Contract.

(** [isinstance(value, str) and value.strip() and no NUL and bounded UTF-8]. *)
Definition bounded_text (value : string) (maximum : Z) : bool :=
  negb (blank value) && negb (contains nul value) && (byte_len value <=? maximum).

(** [o is not None]; a condition on a value that may be [None]. *)
Definition is_some {A} (o : option A) : bool := match o with Some _ => true | None => false end.
Definition holds {A} (p : A → bool) (o : option A) : bool := match o with Some x => p x | None => true end.

(** [value == text] and [value == n] for a value of unknown type. *)
Definition equals_text (value : pyval) (text : string) : bool :=
  match value with PStr s => bool_decide (s = text) | _ => false end.
Definition equals_optional (value : pyval) (text : option string) : bool :=
  match text with Some s => equals_text value s | None => match value with PNone => true | _ => false end end.
Definition equals_int (value : pyval) (n : Z) : bool :=
  match value with
  | PInt z => z =? n
  | PBool b => Z.b2z b =? n
  | PFloat f => is_finite_float f && ratio_eqb (float_ratio f) (n, 1)
  | _ => false
  end.

Definition nonneg_opt (o : option Z) : bool :=
  match o with Some z => 0 <=? z | None => true end.

(** ** [PurePosixPath] *)

Definition is_absolute (value : string) : bool := negb (is_empty (split_root value).1).
Definition posix_parts (value : string) : list string := path_parts (split_root value).2.

(** Root and components: equality of paths. *)
Definition posix_parse (value : string) : string * list string :=
  ((split_root value).1, posix_parts value).

Definition proper_prefixes {A} (l : list A) : list (list A) := map (λ n, take n l) (seq 0 (length l)).

(** [PurePosixPath(value).parents]. *)
Definition posix_parents (value : string) : list (string * list string) :=
  map (λ p, ((split_root value).1, p)) (proper_prefixes (posix_parts value)).

(** [_path_allowed]. *)
Definition path_allowed (path : string) (allowed_paths : list string) : bool :=
  existsb (λ allowed, bool_decide (allowed = ".")
    || bool_decide (posix_parse path = posix_parse allowed)
    || bool_decide (posix_parse allowed ∈ posix_parents path)) allowed_paths.

Definition bad_component (part : string) : bool :=
  bool_decide (part ∈ [""; "."; ".."]) || bool_decide (part = ".git").

Definition _MAX_PATH_CHARS : Z := 4096.

(** The path check of changes.py and review.py. *)
Definition repository_path_ok (value : string) : bool :=
  negb (is_empty value) && (py_len value <=? _MAX_PATH_CHARS)
  && negb (contains nul value) && negb (contains backslash value)
  && negb (is_absolute value) && bool_decide (path_str value = value)
  && negb (existsb bad_component (posix_parts value)).

(** ** What a canonical path is *)

Lemma split_slash_nonempty s cur : split_slash s cur ≠ [].
Proof. revert cur. induction s as [|a s IH]; intros cur; simpl; [done|]. case_match; [done|apply IH]. Qed.

Definition no_slash (s : string) : Prop := Forall (λ a, byte_at a ≠ 47) (list_ascii_of_string s).

Lemma string_rev_app_spec s acc :
  list_ascii_of_string (string_rev_app s acc) = rev (list_ascii_of_string s) ++ list_ascii_of_string acc.
Proof.
  revert acc. induction s as [|a s IH]; intros acc; simpl; [done|].
  rewrite IH. simpl. by rewrite <-app_assoc.
Qed.

Lemma string_rev_spec s : list_ascii_of_string (string_rev s) = rev (list_ascii_of_string s).
Proof. unfold string_rev. rewrite string_rev_app_spec. simpl. by rewrite app_nil_r. Qed.

Lemma list_ascii_inj s t : list_ascii_of_string s = list_ascii_of_string t → s = t.
Proof. intros H. by rewrite <-(string_of_list_ascii_of_string s), H, string_of_list_ascii_of_string. Qed.

Lemma list_ascii_app s t :
  list_ascii_of_string (s +:+ t) = list_ascii_of_string s ++ list_ascii_of_string t.
Proof. induction s; simpl; [done|]. by rewrite <-IHs. Qed.

Lemma split_slash_join s cur :
  join_slash (split_slash s cur) = string_rev cur +:+ s.
Proof.
  revert cur. induction s as [|a s IH]; intros cur; simpl.
  - apply list_ascii_inj. rewrite list_ascii_app. simpl. by rewrite app_nil_r.
  - destruct (byte_at a =? 47) eqn:E.
    + assert (a = "/"%char) as ->.
      { rewrite <-(ascii_N_embedding a). unfold byte_at in E. apply Z.eqb_eq in E.
        replace (N_of_ascii a) with 47%N by lia. done. }
      pose proof (split_slash_nonempty s EmptyString) as Hn.
      specialize (IH EmptyString). destruct (split_slash s EmptyString) as [|x l] eqn:El; [done|].
      simpl. apply list_ascii_inj. simpl in IH. rewrite IH. rewrite !list_ascii_app. done.
    + rewrite IH. apply list_ascii_inj. rewrite !list_ascii_app, !string_rev_spec. simpl.
      by rewrite <-app_assoc.
Qed.

Lemma split_path_join s : join_slash (split_path s) = s.
Proof. unfold split_path. by rewrite split_slash_join. Qed.

Lemma split_slash_none p s cur : no_slash p →
  split_slash (p +:+ s) cur = split_slash s (string_rev_app p cur).
Proof.
  revert cur. induction p as [|a p IH]; intros cur Hp; [done|].
  inversion Hp as [|? ? Ha Hp']; subst. simpl. rewrite (proj2 (Z.eqb_neq _ _)) by done. by apply IH.
Qed.

Lemma string_rev_rev_app p : string_rev (string_rev_app p EmptyString) = p.
Proof.
  apply list_ascii_inj. rewrite string_rev_spec, string_rev_app_spec. simpl.
  by rewrite app_nil_r, rev_involutive.
Qed.

Lemma split_path_of_join l : l ≠ [] → Forall no_slash l → split_path (join_slash l) = l.
Proof.
  unfold split_path. intros Hn Hl. induction Hl as [|p l Hp Hl IH]; [done|].
  destruct l as [|q l].
  - simpl. assert (E : p = p +:+ EmptyString).
    { apply list_ascii_inj. rewrite list_ascii_app. simpl. by rewrite app_nil_r. }
    rewrite E at 1. rewrite split_slash_none by done. simpl. by rewrite string_rev_rev_app.
  - change (join_slash (p :: q :: l)) with (p +:+ ("/" +:+ join_slash (q :: l))).
    rewrite split_slash_none by done.
    change (split_slash ("/" +:+ join_slash (q :: l)) ?c)
      with (string_rev c :: split_slash (join_slash (q :: l)) EmptyString).
    rewrite string_rev_rev_app. f_equal. by apply IH.
Qed.

Lemma split_slash_components s cur : no_slash cur → Forall no_slash (split_slash s cur).
Proof.
  revert cur. induction s as [|a s IH]; intros cur Hc; simpl.
  - constructor; [|done]. unfold no_slash in *. rewrite string_rev_spec. by apply Forall_rev.
  - destruct (byte_at a =? 47) eqn:E.
    + constructor; [|apply IH; constructor].
      unfold no_slash in *. rewrite string_rev_spec. by apply Forall_rev.
    + apply IH. constructor; [by apply Z.eqb_neq|done].
Qed.

Lemma split_root_relative a s : byte_at a ≠ 47 → split_root (String a s) = (EmptyString, String a s).
Proof. intros H. unfold split_root. by rewrite (proj2 (Z.eqb_neq _ _)). Qed.

Lemma split_root_slash a s : byte_at a = 47 → is_absolute (String a s) = true.
Proof.
  intros H. unfold is_absolute, split_root. rewrite (proj2 (Z.eqb_eq _ _)) by done. simpl.
  by repeat case_match.
Qed.

Lemma filter_id {A} (f : A → bool) l : Forall (λ x, f x = true) l → List.filter f l = l.
Proof. induction 1 as [|x l Hx Hl IH]; simpl; [done|]. by rewrite Hx, IH. Qed.

Lemma empty_app (s : string) : EmptyString +:+ s = s.
Proof. done. Qed.

(** Apart from ["."], which [PurePosixPath] reads as no component at all, the
    check accepts exactly the texts none of whose slash-separated components is
    empty, a dot, two dots or [.git]. *)
Lemma repository_path_ok_spec value : repository_path_ok value = true ↔
  py_len value <= _MAX_PATH_CHARS ∧ contains nul value = false ∧ contains backslash value = false
  ∧ (value = "." ∨ Forall (λ part, bad_component part = false) (split_path value)).
Proof.
  destruct value as [|a s].
  { split; [done|]. intros (_ & _ & _ & [|H]); [done|]. by inversion H. }
  unfold repository_path_ok. rewrite !andb_true_iff, !negb_true_iff, Z.leb_le, bool_decide_eq_true.
  destruct (decide (byte_at a = 47)) as [Ha|Ha].
  { rewrite split_root_slash by done. split; [naive_solver|]. intros (_ & _ & _ & [E|H]).
    - injection E as -> _. done.
    - unfold split_path in H. simpl in H. rewrite Ha in H. simpl in H. by inversion H. }
  unfold is_absolute, posix_parts, path_str. rewrite split_root_relative by done. cbn [fst snd].
  rewrite empty_app. set (v := String a s) in *. set (parts := path_parts v).
  assert (Hns : Forall no_slash parts).
  { apply Forall_forall. intros x Hx%list_elem_of_In%filter_In. destruct Hx as [Hx%list_elem_of_In _].
    assert (Hc : Forall no_slash (split_path v)) by (apply split_slash_components; constructor).
    by apply (proj1 (Forall_forall _ _) Hc). }
  rewrite existsb_false. split.
  - intros ((((((_ & Hl) & Hn) & Hb) & _) & Hp) & Hgood). split_and!; [done..|].
    destruct (is_empty (join_slash parts)) eqn:E; [by left|right].
    rewrite <-Hp, split_path_of_join by (done || by intros E0; rewrite E0 in E).
    apply Forall_forall. intros x Hx. by apply Hgood.
  - intros (Hl & Hn & Hb & [E|Hgood]).
    { unfold parts. rewrite E. split_and!; try done. by intros x Hx%elem_of_nil. }
    assert (E : parts = split_path v).
    { unfold parts, path_parts. apply filter_id. eapply Forall_impl; [exact Hgood|].
      intros x Hx. unfold bad_component in Hx. apply orb_false_iff in Hx as [Hx _].
      apply bool_decide_eq_false in Hx. rewrite negb_true_iff, orb_false_iff. unfold is_empty.
      split; apply bool_decide_eq_false; intros ->; apply Hx; set_solver. }
    rewrite E, split_path_join. split_and!; try done.
    intros x Hx. by apply (proj1 (Forall_forall _ _) Hgood).
Qed.

(** A path is allowed when an allowed path is the root ["."] or one of its
    own leading directories, or the path itself. *)
Lemma proper_prefixes_spec {A} (l p : list A) :
  p ∈ proper_prefixes l ↔ p `prefix_of` l ∧ p ≠ l.
Proof.
  unfold proper_prefixes. rewrite list_elem_of_fmap. setoid_rewrite elem_of_seq. split.
  - intros (n & -> & Hn). split; [by exists (drop n l); rewrite take_drop|].
    intros E%(f_equal length). rewrite length_take in E. lia.
  - intros [[k ->] Hne]. exists (length p). rewrite take_app_length, length_app. split; [done|].
    assert (k ≠ []) by (intros ->; by rewrite app_nil_r in Hne). destruct k; simpl in *; [done|lia].
Qed.

Lemma path_allowed_spec path allowed_paths : path_allowed path allowed_paths = true ↔
  ∃ allowed, allowed ∈ allowed_paths ∧
    (allowed = "." ∨ (posix_parse allowed).1 = (posix_parse path).1
                     ∧ posix_parts allowed `prefix_of` posix_parts path).
Proof.
  unfold path_allowed. rewrite existsb_elem. split; intros (x & Hx & H); exists x; (split; [done|]).
  - rewrite !orb_true_iff, !bool_decide_eq_true in H. destruct H as [[H|H]|H]; [by left|right..].
    + rewrite <-H. split; [done|]. unfold posix_parse in H. injection H as _ H. by rewrite H.
    + unfold posix_parents in H. apply list_elem_of_fmap in H as (p & E & [Hp _]%proper_prefixes_spec).
      unfold posix_parse in E. injection E as E1 E2. unfold posix_parse. simpl.
      split; [done|]. by rewrite E2.
  - rewrite !orb_true_iff, !bool_decide_eq_true. destruct H as [H|[H1 H2]]; [by left; left|].
    destruct (decide (posix_parts x = posix_parts path)) as [E|E].
    + left; right. unfold posix_parse in *. simpl in H1. by rewrite H1, E.
    + right. unfold posix_parents, posix_parse in *. apply list_elem_of_fmap.
      exists (posix_parts x). simpl in H1. rewrite H1. split; [done|]. by apply proper_prefixes_spec.
Qed.

(** ** Sorting by a key *)

Section SortBy.
Context {A : Type} (key : A → string).

Lemma sort_by_sorted l : StronglySorted (leR (by_key key)) (sort_by key l).
Proof.
  apply isort_sorted; unfold by_key; [intros; apply string_leb_total|].
  intros x y z. apply string_leb_trans.
Qed.

Lemma sort_by_idemp l : sort_by key (sort_by key l) = sort_by key l.
Proof. apply isort_id, sort_by_sorted. Qed.

Lemma sort_by_perm l : sort_by key l ≡ₚ l.
Proof. apply isort_perm. Qed.

Lemma elem_of_sort_by x l : x ∈ sort_by key l ↔ x ∈ l.
Proof. apply elem_of_isort. Qed.

Lemma sort_by_zlen l : zlen (sort_by key l) = zlen l.
Proof. unfold zlen. f_equal. apply isort_length. Qed.
End SortBy.

Lemma elem_of_concat {A} (x : A) ls : x ∈ concat ls ↔ ∃ l, x ∈ l ∧ l ∈ ls.
Proof.
  induction ls as [|l ls IH]; simpl.
  - split; [by intros ?%elem_of_nil|by intros (l & _ & ?%elem_of_nil)].
  - rewrite elem_of_app, IH. setoid_rewrite elem_of_cons. naive_solver.
Qed.

(** ** Dictionaries *)

(** [{key(x): val(x) for x in l}] *)
Definition dict_of {A V} (key : A → string) (val : A → V) (l : list A) : list (string * V) :=
  foldl (λ d t, dict_set (key t) (val t) d) [] l.

(** A dictionary comprehension over distinct keys. *)
Lemma foldl_dict_set {A V} (key : A → string) (val : A → V) l : ∀ acc,
  NoDup (map key l) → (∀ x, x ∈ l → key x ∉ dict_keys acc) →
  foldl (λ d t, dict_set (key t) (val t) d) acc l = acc ++ map (λ t, (key t, val t)) l.
Proof.
  induction l as [|x l IH]; intros acc; simpl; [by rewrite app_nil_r|].
  intros [Hx Hnd]%NoDup_cons Hacc. rewrite dict_set_fresh by (apply Hacc; by left).
  rewrite IH, <-app_assoc; [done|done|]. intros y Hy. unfold dict_keys. rewrite fmap_app.
  rewrite not_elem_of_app. split; [apply Hacc; by right|]. simpl.
  rewrite list_elem_of_singleton. intros E. apply Hx. rewrite <-E.
  apply list_elem_of_fmap. eauto.
Qed.

Lemma dict_comprehension {A V} (key : A → string) (val : A → V) l : NoDup (map key l) →
  foldl (λ d t, dict_set (key t) (val t) d) [] l = map (λ t, (key t, val t)) l.
Proof. intros H. rewrite foldl_dict_set; [done|done|]. intros x _ Hin. by apply elem_of_nil in Hin. Qed.

Lemma dict_get_map {A V} (key : A → string) (val : A → V) l x : NoDup (map key l) → x ∈ l →
  dict_get (key x) (map (λ t, (key t, val t)) l) = Some (val x).
Proof.
  intros Hnd Hx. apply elem_dict_get.
  - unfold dict_keys. by rewrite <-list_fmap_compose.
  - apply list_elem_of_fmap. eauto.
Qed.

Lemma dict_get_map_inv {A V} (key : A → string) (val : A → V) l k v :
  dict_get k (map (λ t, (key t, val t)) l) = Some v → ∃ x, x ∈ l ∧ key x = k ∧ val x = v.
Proof. intros H%dict_get_elem. apply list_elem_of_fmap in H as (x & [= -> ->] & ?). eauto. Qed.

Lemma elem_of_listfilter {A} (f : A → bool) l x : x ∈ List.filter f l ↔ x ∈ l ∧ f x = true.
Proof. rewrite !list_elem_of_In. apply filter_In. Qed.

Lemma NoDup_listfilter {A} (f : A → bool) l : NoDup l → NoDup (List.filter f l).
Proof. rewrite !NoDup_ListNoDup. apply List.NoDup_filter. Qed.

Lemma dict_of_get {A V} (key : A → string) (val : A → V) l x : NoDup (map key l) → x ∈ l →
  dict_get (key x) (dict_of key val l) = Some (val x).
Proof. intros Hn Hx. unfold dict_of. rewrite dict_comprehension by done. by apply dict_get_map. Qed.

Lemma dict_of_inv {A V} (key : A → string) (val : A → V) l k v : NoDup (map key l) →
  dict_get k (dict_of key val l) = Some v → ∃ x, x ∈ l ∧ key x = k ∧ val x = v.
Proof. intros Hn. unfold dict_of. rewrite dict_comprehension by done. apply dict_get_map_inv. Qed.

(** ** Lemmas on the validators *)

Lemma contract_require_ok err c u : contract_require err c = Ok u ↔ c = true.
Proof. apply raise_unless_ok. Qed.

Lemma subset_of_spec a b : subset_of a b = true ↔ ∀ x, x ∈ a → x ∈ b.
Proof.
  unfold subset_of. rewrite forallb_elem. by setoid_rewrite bool_decide_eq_true.
Qed.

Lemma map_result_Forall {A B} (P : B → Prop) (f : A → result B) l ys :
  (∀ x y, f x = Ok y → P y) → map_result f l = Ok ys → Forall P ys.
Proof.
  intros Hf H%map_result_ok. induction H as [|x y l ys Hx _ IH]; constructor; eauto.
Qed.

Lemma map_result_strings err l :
  map_result (contract_string err) (map PStr l) = Ok l.
Proof. by induction l as [|s l IH]; simpl; [|rewrite IH]. Qed.

(** Reading a literal object back. *)
Lemma contract_mapping_obj err fields : contract_mapping err (obj fields) = Ok fields.
Proof.
  unfold obj. simpl. induction fields as [|[k v] fields IH]; simpl; [done|]. by rewrite IH.
Qed.

Lemma contract_object_obj err keys fields : dict_keys fields = keys →
  contract_object err keys (obj fields) = Ok fields.
Proof.
  intros <-. unfold contract_object. rewrite contract_mapping_obj. cbn [mbind result_bind].
  unfold has_keys, same_keys. rewrite (proj2 (forallb_elem _ _)); [done|].
  intros x Hx. by apply bool_decide_eq_true.
Qed.

Lemma contract_sequence_ok err lo hi l : lo <= zlen l <= hi →
  contract_sequence err lo hi (PSequence l) = Ok l.
Proof.
  intros H. unfold contract_sequence, z_between.
  by rewrite (proj2 (Z.leb_le _ _)), (proj2 (Z.leb_le _ _)) by lia.
Qed.

Lemma zlen_map {A B} (f : A → B) l : zlen (map f l) = zlen l.
Proof. unfold zlen. by rewrite length_map. Qed.

Lemma map_result_map {A B} (f : A → pyval) (g : pyval → result B) (h : A → B) l :
  (∀ x, x ∈ l → g (f x) = Ok (h x)) → map_result g (map f l) = Ok (map h l).
Proof.
  induction l as [|x l IH]; simpl; intros H; [done|].
  rewrite H by left. cbn [mbind result_bind]. rewrite IH by (intros; apply H; by right). done.
Qed.

(** Reading the parts of a payload that a record wrote. *)
Lemma map_result_payload {A} (f : A → pyval) (g : pyval → result A) l :
  (∀ x, x ∈ l → g (f x) = Ok x) → map_result g (map f l) = Ok l.
Proof. intros H. rewrite (map_result_map f g id) by done. by rewrite map_id. Qed.

Lemma pget_here k v m : pget k ((k, v) :: m) = v.
Proof. unfold pget. simpl. by rewrite decide_True. Qed.
Lemma pget_there k k' v m : k ≠ k' → pget k ((k', v) :: m) = pget k m.
Proof. intros H. unfold pget. simpl. by rewrite decide_False. Qed.

Ltac pget_literal :=
  repeat first [rewrite pget_here | rewrite pget_there by discriminate].
