(* ===== verification/Printable.v ===== *)
(** * Values that always have a canonical text

    [canonical_json_bytes] raises on keys that are not text, on unsupported or
    non-finite values and on integers of more than 4300 digits, and on nothing
    else: a [plain] value has a canonical text and a digest. *)

From S2P Require Import Prelude PyStr PyFloat Sha256 Json JsonText JsonFacts PyTime Contracts.
From Stdlib Require Import ZArith Lia Ascii String DecimalFacts DecimalString.
From stdpp Require Import base gmap sets list strings.
Local Open Scope Z_scope.

Definition short_int (z : Z) : bool := byte_len (int_repr (Z.abs z)) <=? max_str_digits.

Fixpoint plain (v : pyval) : bool :=
  match v with
  | PNone | PBool _ | PStr _ => true
  | PInt z => short_int z
  | PFloat f => is_finite_float f
  | PMapping items => forallb (λ kv, match kv.1 with PStr _ => plain kv.2 | _ => false end) items
  | PSequence items => forallb plain items
  | POther _ => false
  end.

Fixpoint printable (j : json) : bool :=
  match j with
  | JNull | JBool _ | JStr _ => true
  | JInt z => short_int z
  | JFloat f => is_finite_float f
  | JArr l => forallb printable l
  | JObj kvs => forallb (λ kv, printable kv.2) kvs
  end.

Lemma dumps_printable j : printable j = true → ∃ t, dumps j = Ok t.
Proof.
  induction j as [|b|z|f|s|l IH|kvs IH] using json_ind'; intros H; try (by eexists).
  - simpl in *. unfold int_text. unfold short_int in H. rewrite H. eauto.
  - simpl in *. rewrite H. eauto.
  - change (forallb printable l = true) in H. simpl.
    match goal with |- context [(?f l) ≫= _] => assert (G : ∃ ts, f l = Ok ts) end.
    { induction IH as [|x l Hx _ IHl]; [by eexists|]. simpl in H. apply andb_true_iff in H as [H1 H2].
      destruct (Hx H1) as [t Ht]. destruct (IHl H2) as [ts Hts]. rewrite Ht. cbn [mbind result_bind].
      rewrite Hts. by eexists. }
    destruct G as [ts ->]. by eexists.
  - change (forallb (λ kv, printable kv.2) kvs = true) in H. simpl.
    match goal with |- context [(?f kvs) ≫= _] => assert (G : ∃ ts, f kvs = Ok ts) end.
    { induction IH as [|[k x] l Hx _ IHl]; [by eexists|]. simpl in H. apply andb_true_iff in H as [H1 H2].
      destruct (Hx H1) as [t Ht]. destruct (IHl H2) as [ts Hts]. simpl in Ht. rewrite Ht.
      cbn [mbind result_bind]. rewrite Hts. by eexists. }
    destruct G as [ts ->]. by eexists.
Qed.

Lemma printable_set k v kvs : printable v = true → forallb (λ kv, printable kv.2) kvs = true →
  forallb (λ kv, printable kv.2) (dict_set k v kvs) = true.
Proof.
  intros Hv. induction kvs as [|[k' v'] kvs IH]; simpl; [by rewrite Hv|].
  intros [H1 H2]%andb_true_iff. destruct (decide (k = k')); simpl; [by rewrite Hv|].
  rewrite H1. by apply IH.
Qed.

Lemma freeze_plain path v : plain v = true → ∃ j, freeze_json path v = Ok j ∧ printable j = true.
Proof.
  revert path v. fix IH 2. intros path v.
  destruct v as [|b|z|f|s|items|items|ty]; simpl; intros H; try done; try (by eexists).
  - rewrite H. by eexists.
  - fold (freeze_items path).
    enough (G : ∀ acc, forallb (λ kv, printable kv.2) acc = true →
      ∃ kvs, freeze_items path items acc = Ok kvs ∧ forallb (λ kv, printable kv.2) kvs = true).
    { destruct (G [] eq_refl) as (kvs & -> & Hk). by exists (JObj kvs). }
    induction items as [|[key item] items IHi]; intros acc Hacc; simpl; [by exists acc|].
    simpl in H. destruct key; try discriminate. apply andb_true_iff in H as [H1 H2].
    destruct (IH (path +:+ "." +:+ s) item H1) as (j & -> & Hj). cbn [mbind result_bind].
    apply IHi; [done|]. by apply printable_set.
  - fold (freeze_seq path).
    enough (G : ∀ i, ∃ l, freeze_seq path items i = Ok l ∧ forallb printable l = true).
    { destruct (G 0) as (l & -> & Hl). by exists (JArr l). }
    induction items as [|item items IHi]; intros i; simpl; [by exists []|].
    apply andb_true_iff in H as [H1 H2].
    destruct (IH (path +:+ "[" +:+ int_repr i +:+ "]") item H1) as (j & -> & Hj). cbn [mbind result_bind].
    destruct (IHi H2 (i + 1)) as (l & -> & Hl). exists (j :: l). simpl. by rewrite Hj, Hl.
Qed.

(** ** Which values [freeze_json] accepts *)

(** Text keys, finite numbers and supported types at every depth. *)
Fixpoint jsonable (v : pyval) : bool :=
  match v with
  | PNone | PBool _ | PStr _ | PInt _ => true
  | PFloat f => is_finite_float f
  | PMapping items => forallb (λ kv, match kv.1 with PStr _ => jsonable kv.2 | _ => false end) items
  | PSequence items => forallb jsonable items
  | POther _ => false
  end.

Definition accepted {A} (r : result A) : bool := match r with Ok _ => true | Err _ => false end.

Lemma freeze_jsonable path v : accepted (freeze_json path v) = jsonable v.
Proof.
  revert path v. fix IH 2. intros path v.
  destruct v as [|b|z|f|s|items|items|ty]; simpl; try done.
  - by destruct (is_finite_float f).
  - fold (freeze_items path). generalize (@nil (string * json)) as acc.
    induction items as [|[key item] items IHi]; intros acc; simpl; [done|].
    destruct key; try done. specialize (IH (path +:+ "." +:+ s) item). simpl in IH. rewrite <-IH.
    destruct (freeze_json _ item) as [j|e]; cbn [mbind result_bind]; [|done].
    apply IHi.
  - fold (freeze_seq path). generalize 0 as i.
    induction items as [|item items IHi]; intros i; simpl; [done|].
    specialize (IH (path +:+ "[" +:+ int_repr i +:+ "]") item). simpl in IH. rewrite <-IH.
    destruct (freeze_json _ item) as [j|e]; cbn [mbind result_bind]; [|done].
    rewrite <-(IHi (i + 1)). by destruct (freeze_seq path items (i + 1)).
Qed.

(** C39 (freeze_json_typed): freezing is a type check.  It accepts exactly the
    values whose keys are text, whose floats are finite and whose types JSON has,
    at every depth; what it returns is well formed (no key twice, finite floats),
    and freezing a thawed result gives it back. *)
Theorem freeze_json_typed path v :
  if jsonable v then ∃ j, freeze_json path v = Ok j ∧ json_wf j = true
    ∧ ∀ path', freeze_json path' (thaw_json j) = Ok j
  else ∃ e, freeze_json path v = Err e.
Proof.
  rewrite <-(freeze_jsonable path). destruct (freeze_json path v) as [j|e] eqn:E; simpl; [|eauto].
  apply freeze_json_wf in E. exists j. split_and!; [done..|]. intros path'. by apply freeze_thaw.
Qed.

(** A plain value has a canonical text, and so a digest. *)
Lemma canonical_plain v : plain v = true → ∃ t, canonical_json_bytes v = Ok t.
Proof.
  intros H. unfold canonical_json_bytes. destruct (freeze_plain "$" v H) as (j & -> & Hj).
  by apply dumps_printable.
Qed.

Lemma digest_plain v : plain v = true → ∃ d, json_digest v = Ok d ∧ re_digest d = true.
Proof.
  intros H. unfold json_digest. destruct (canonical_plain v H) as [t ->].
  eexists. split; [done|]. apply bytes_digest_format.
Qed.

(** ** Plain literals *)

Lemma plain_obj fields : plain (obj fields) = forallb (λ kv, plain kv.2) fields.
Proof. unfold obj. simpl. induction fields as [|[k v] fields IH]; simpl; [done|]. by rewrite IH. Qed.

Lemma plain_pstrs l : plain (pstrs l) = true.
Proof. unfold pstrs. simpl. by induction l. Qed.

Lemma plain_popt o : plain (popt o) = true.
Proof. by destruct o. Qed.

Lemma plain_map {A} (f : A → pyval) l :
  (∀ x, x ∈ l → plain (f x) = true) → plain (PSequence (map f l)) = true.
Proof.
  intros H. simpl. apply forallb_elem. intros v (x & -> & Hx)%list_elem_of_fmap. auto.
Qed.

(** ** Short integers: an integer has no more decimal digits than bits *)

Lemma nb_digits_double d :
  (Decimal.nb_digits (Decimal.Little.double d) <= S (Decimal.nb_digits d))%nat
  ∧ (Decimal.nb_digits (Decimal.Little.succ_double d) <= S (Decimal.nb_digits d))%nat.
Proof. induction d; simpl; lia. Qed.

Lemma nb_digits_size p : (Decimal.nb_digits (Pos.to_little_uint p) <= Pos.size_nat p)%nat.
Proof.
  induction p as [p IH|p IH|]; simpl; [| |lia];
    destruct (nb_digits_double (Pos.to_little_uint p)); lia.
Qed.

Lemma string_of_uint_length d : String.length (NilEmpty.string_of_uint d) = Decimal.nb_digits d.
Proof. induction d; simpl; congruence. Qed.

Lemma short_int_bound z : Z.abs z < 2 ^ 4300 → short_int z = true.
Proof.
  intros H. unfold short_int. apply Z.leb_le. unfold byte_len.
  destruct (Z.abs z) as [|p|p] eqn:E; [by vm_compute|..|lia].
  rewrite int_repr_pos. unfold nat_digits. rewrite string_of_uint_length.
  unfold Pos.to_uint. rewrite DecimalFacts.nb_digits_rev. pose proof (nb_digits_size p) as Hs.
  enough (Z.of_nat (Pos.size_nat p) <= 4300) by (unfold max_str_digits; lia).
  assert (Hp : (Z.pos p < 2 ^ 4300)%Z) by lia. clear -Hp.
  destruct (Z.le_gt_cases (Z.of_nat (Pos.size_nat p)) 4300) as [|Hgt]; [done|exfalso].
  assert (Hlow : ∀ q, (2 ^ (Z.of_nat (Pos.size_nat q) - 1) <= Z.pos q)%Z).
  { induction q as [q IH|q IH|]; cbn [Pos.size_nat]; [| |done];
      replace (Z.of_nat (S (Pos.size_nat q)) - 1)%Z with (Z.succ (Z.of_nat (Pos.size_nat q) - 1)) by lia;
      assert (0 <= Z.of_nat (Pos.size_nat q) - 1)%Z by (destruct q; simpl; lia);
      rewrite Z.pow_succ_r by done; lia. }
  pose proof (Hlow p) as Hl.
  assert (2 ^ 4300 <= 2 ^ (Z.of_nat (Pos.size_nat p) - 1))%Z by (apply Z.pow_le_mono_r; lia). lia.
Qed.

Lemma short_int_small z : - 2 ^ 62 <= z <= 2 ^ 62 → short_int z = true.
Proof.
  intros H. apply short_int_bound. assert (2 ^ 62 < 2 ^ 4300) by (apply Z.pow_lt_mono_r; lia). lia.
Qed.
