(* ===== verification/JsonBytes.v ===== *)
(** * json.loads on bytes: encodings and the kind of failure

    [json.loads(data)] on bytes detects an encoding, decodes with
    [surrogatepass], and raises [UnicodeDecodeError], [JSONDecodeError], or, for
    an integer literal of more than 4300 digits, a plain [ValueError].  The
    decoder [JsonText.json_loads] gives the value; this file gives the kind of a
    failure, which a caller that catches only some of them can observe.  The
    recursion limit of the interpreter is not represented. *)

From S2P Require Import Prelude PyStr PyFloat Sha256 Json JsonText JsonFacts PyTime Contracts Printable.
From Stdlib Require Import ZArith Lia Ascii String DecimalString.
From stdpp Require Import base gmap sets list strings.
Local Open Scope Z_scope.

(** ** Where the decoder stops first *)

Inductive scan := Scanned (rest : string) | Malformed | TooLong.

Definition scan_then (s : scan) (f : string → scan) : scan :=
  match s with Scanned r => f r | Malformed => Malformed | TooLong => TooLong end.

(** The body of a string literal; unpaired surrogates are text in Python. *)
Fixpoint scan_string (s : string) : scan :=
  match s with
  | EmptyString => Malformed
  | String a s1 =>
      let z := byte_at a in
      if z =? 34 then Scanned s1
      else if z =? 92 then
        match s1 with
        | String e s2 =>
            if byte_at e =? 117 then
              match s2 with
              | String h1 (String h2 (String h3 (String h4 s3))) =>
                  match hex4 h1 h2 h3 h4 with Some _ => scan_string s3 | None => Malformed end
              | _ => Malformed
              end
            else match simple_escape (byte_at e) with Some _ => scan_string s2 | None => Malformed end
        | EmptyString => Malformed
        end
      else if z <? 32 then Malformed
      else scan_string s1
  end.

Definition scan_number (s : string) : scan :=
  let '(_, s1) := minus_sign s in
  let '(ds, s2) := span is_digit s1 in
  if is_empty ds || (starts_with "0" ds && (1 <? String.length ds)%nat) then Malformed
  else
    let '(fs, s3) := parse_frac s2 in
    let '(ex, s4) := parse_exp s3 in
    match is_empty fs, ex with
    | true, None => if Z.of_nat (String.length ds) <=? max_str_digits then Scanned s4 else TooLong
    | _, _ => Scanned s4
    end.

Fixpoint scan_value (n : nat) (s : string) {struct n} : scan :=
  match n with
  | O => Malformed
  | S n' =>
      match first_is 34 s with
      | Some s1 => scan_string s1
      | None =>
      match first_is 91 s with
      | Some s1 =>
          let s2 := skip_ws s1 in
          match first_is 93 s2 with Some r => Scanned r | None => scan_elems n' s2 end
      | None =>
      match first_is 123 s with
      | Some s1 =>
          let s2 := skip_ws s1 in
          match first_is 125 s2 with Some r => Scanned r | None => scan_members n' s2 end
      | None =>
      match constant s with
      | Some (_, r) => Scanned r
      | None => scan_number s
      end end end end
  end
with scan_elems (n : nat) (s : string) {struct n} : scan :=
  match n with
  | O => Malformed
  | S n' =>
      scan_then (scan_value n' s) (λ r,
        let r1 := skip_ws r in
        match first_is 44 r1 with
        | Some r2 => scan_elems n' (skip_ws r2)
        | None => match first_is 93 r1 with Some r2 => Scanned r2 | None => Malformed end
        end)
  end
with scan_members (n : nat) (s : string) {struct n} : scan :=
  match n with
  | O => Malformed
  | S n' =>
      match first_is 34 s with
      | None => Malformed
      | Some s1 =>
          scan_then (scan_string s1) (λ r,
            match first_is 58 (skip_ws r) with
            | None => Malformed
            | Some r1 =>
                scan_then (scan_value n' (skip_ws r1)) (λ r2,
                  let r3 := skip_ws r2 in
                  match first_is 44 r3 with
                  | Some r4 => scan_members n' (skip_ws r4)
                  | None => match first_is 125 r3 with Some r4 => Scanned r4 | None => Malformed end
                  end)
            end)
      end
  end.

Definition json_scan (s : string) : scan :=
  let s1 := skip_ws s in
  scan_then (scan_value (2 * String.length s1 + 1) s1) (λ r,
    if is_empty (skip_ws r) then Scanned EmptyString else Malformed).

(** What [json_loads] reads, the scanner accepts. *)
Lemma parse_string_scan : ∀ n s t r, (String.length s <= n)%nat →
  parse_string s = Some (t, r) → scan_string s = Scanned r.
Proof.
  induction n as [|n IH]; intros s t r Hn.
  { destruct s; [done|simpl in Hn; lia]. }
  destruct s as [|a s1]; [done|]. simpl in Hn. simpl.
  destruct (byte_at a =? 34) eqn:Eq; [by intros [= <- <-]|].
  destruct (byte_at a =? 92) eqn:Eb.
  - destruct s1 as [|e s2]; [done|]. simpl in Hn.
    destruct (byte_at e =? 117) eqn:Eu.
    + destruct s2 as [|h1 [|h2 [|h3 [|h4 s3]]]]; try done. simpl in Hn.
      destruct (hex4 h1 h2 h3 h4) as [c|]; [|done].
      destruct ((55296 <=? c) && (c <=? 56319)) eqn:Eh.
      * destruct s3 as [|q [|u [|l1 [|l2 [|l3 [|l4 s4]]]]]]; try done. simpl in Hn.
        destruct (hex4 l1 l2 l3 l4) as [c2|] eqn:Ex; [|done].
        destruct ((byte_at q =? 92) && (byte_at u =? 117) && (56320 <=? c2) && (c2 <=? 57343)) eqn:El; [|done].
        intros H. apply bind_Some in H as ([t' r'] & H & [= <- <-]). apply (IH s4 t') in H; [|lia].
        rewrite !andb_true_iff in El. destruct El as (((Hq & Hu) & _) & _). simpl. rewrite Hq, Hu, Ex.
        apply Z.eqb_eq in Hq. rewrite Hq. simpl. exact H.
      * destruct ((56320 <=? c) && (c <=? 57343)); [done|].
        intros H. apply bind_Some in H as ([t' r'] & H & [= <- <-]). eapply IH, H. lia.
    + destruct (simple_escape (byte_at e)); [|done].
      intros H. apply bind_Some in H as ([t' r'] & H & [= <- <-]). eapply IH, H. lia.
  - destruct (byte_at a <? 32); [done|].
    intros H. apply bind_Some in H as ([t' r'] & H & [= <- <-]). eapply IH, H. lia.
Qed.

Lemma parse_number_scan s v r : parse_number s = Some (v, r) → scan_number s = Scanned r.
Proof.
  unfold parse_number, scan_number. destruct (minus_sign s) as [neg s1].
  destruct (span is_digit s1) as [ds s2]. case_match; [done|].
  destruct (parse_frac s2) as [fs s3]. destruct (parse_exp s3) as [ex s4].
  destruct (is_empty fs), ex; try (by intros [= <- <-]). case_match; [by intros [= <- <-]|done].
Qed.

Lemma parse_value_scan n :
  (∀ s v r, parse_value n s = Some (v, r) → scan_value n s = Scanned r)
  ∧ (∀ s l r, parse_elems n s = Some (l, r) → scan_elems n s = Scanned r)
  ∧ (∀ s acc m r, parse_members n s acc = Some (m, r) → scan_members n s = Scanned r).
Proof.
  induction n as [|n (IHv & IHe & IHm)]; [done|]. split_and!.
  - intros s v r. simpl. destruct (first_is 34 s) as [s1|].
    { intros H. apply bind_Some in H as ([t r'] & H & [= <- <-]). by eapply parse_string_scan. }
    destruct (first_is 91 s) as [s1|].
    { destruct (first_is 93 (skip_ws s1)); [by intros [= <- <-]|].
      intros H. apply bind_Some in H as ([t r'] & H & [= <- <-]). by eapply IHe. }
    destruct (first_is 123 s) as [s1|].
    { destruct (first_is 125 (skip_ws s1)); [by intros [= <- <-]|].
      intros H. apply bind_Some in H as ([t r'] & H & [= <- <-]). by eapply IHm. }
    destruct (constant s) as [[w r']|]; [by intros [= <- <-]|]. apply parse_number_scan.
  - intros s l r. simpl. intros H. apply bind_Some in H as ([v r'] & Hv & H).
    rewrite (IHv _ _ _ Hv). simpl. destruct (first_is 44 (skip_ws r')) as [r2|].
    + apply bind_Some in H as ([t r''] & H & [= <- <-]). by eapply IHe.
    + destruct (first_is 93 (skip_ws r')); [by injection H as <- <-|done].
  - intros s acc m r. simpl. intros H. apply bind_Some in H as (s1 & -> & H).
    apply bind_Some in H as ([k r'] & Hk & H). rewrite (parse_string_scan _ _ _ _ (le_n _) Hk). simpl.
    apply bind_Some in H as (r1 & -> & H). apply bind_Some in H as ([v r2] & Hv & H).
    rewrite (IHv _ _ _ Hv). simpl. destruct (first_is 44 (skip_ws r2)) as [r4|].
    + by eapply IHm.
    + destruct (first_is 125 (skip_ws r2)); [by injection H as <- <-|done].
Qed.

Lemma json_loads_scan s v : json_loads s = Some v → json_scan s = Scanned EmptyString.
Proof.
  unfold json_loads, json_scan. intros H. apply bind_Some in H as ([w r] & Hw & H).
  apply parse_value_scan in Hw. rewrite Hw. simpl. by destruct (is_empty (skip_ws r)).
Qed.

(** ** Encodings *)

Definition byte_is (c : Z) (o : option ascii) : bool :=
  match o with Some a => byte_at a =? c | None => false end.

(** [json.detect_encoding]. *)
Definition detect_encoding (b : string) : string :=
  let at_ n := String.get n b in
  let bom l := forallb (λ '(n, c), byte_is c (at_ n)) l in
  let zero n := byte_is 0 (at_ n) in
  if bom [(0%nat, 0); (1%nat, 0); (2%nat, 254); (3%nat, 255)]
     || bom [(0%nat, 255); (1%nat, 254); (2%nat, 0); (3%nat, 0)] then "utf-32"
  else if bom [(0%nat, 254); (1%nat, 255)] || bom [(0%nat, 255); (1%nat, 254)] then "utf-16"
  else if bom [(0%nat, 239); (1%nat, 187); (2%nat, 191)] then "utf-8-sig"
  else if (4 <=? String.length b)%nat then
    if zero 0%nat then (if zero 1%nat then "utf-32-be" else "utf-16-be")
    else if zero 1%nat then (if zero 2%nat && zero 3%nat then "utf-32-le" else "utf-16-le")
    else "utf-8"
  else if (String.length b =? 2)%nat then
    if zero 0%nat then "utf-16-be" else if zero 1%nat then "utf-16-le" else "utf-8"
  else "utf-8".

(** [Undecodable]: [UnicodeDecodeError] or [JSONDecodeError].  [LongInteger]: the
    plain [ValueError].  [Unpaired]: a value with unpaired surrogates, which is
    not representable here and has no canonical text (unless a repeated key
    replaces every such value, a case that is not represented). *)
Inductive loaded := Loaded (j : json) | Undecodable | LongInteger | Unpaired.

Section Decoders.
(** Codecs other than UTF-8: the decoded text, in UTF-8. *)
Context (decode_other : string → string → option string).

Definition decode_detected (data : string) : option string :=
  let codec := detect_encoding data in
  if bool_decide (codec = "utf-8") then
    if utf8_well_formed true data then Some data else None
  else if bool_decide (codec = "utf-8-sig") then
    let text := drop_bytes 3 data in if utf8_well_formed true text then Some text else None
  else decode_other codec data.

Definition json_loads_bytes (data : string) : loaded :=
  match decode_detected data with
  | None => Undecodable
  | Some text =>
      match json_scan text with
      | Malformed => Undecodable
      | TooLong => LongInteger
      | Scanned _ =>
          if utf8_well_formed false text
          then match json_loads text with Some j => Loaded j | None => Unpaired end
          else Unpaired
      end
  end.

(** What is loaded is what [json_loads] reads in the decoded text. *)
Lemma json_loads_bytes_ok data j : json_loads_bytes data = Loaded j →
  ∃ text, decode_detected data = Some text ∧ json_loads text = Some j.
Proof.
  unfold json_loads_bytes. destruct (decode_detected data) as [text|]; [|done].
  destruct (json_scan text); try done. destruct (utf8_well_formed false text); [|done].
  destruct (json_loads text) as [v|] eqn:E; [|done]. intros [= <-]. eauto.
Qed.
End Decoders.

(** ** The characters of canonical text

    A predicate [p] that holds of the printable ASCII characters holds of every
    character of a canonical text, if it does of the escaped strings in it. *)

(** Every string and every key of a value. *)
Fixpoint json_strings (q : string → bool) (j : json) : bool :=
  match j with
  | JStr s => q s
  | JArr l => forallb (json_strings q) l
  | JObj kvs => forallb (λ kv, q kv.1 && json_strings q kv.2) kvs
  | _ => true
  end.

Section Characters.
Context (p : ascii → bool) (Hp : ∀ a, 32 <= byte_at a < 127 → p a = true).
#[local] Abbreviation chars := (all_chars p).

Lemma chars_app s t : chars (s +:+ t) = chars s && chars t.
Proof. unfold all_chars. induction s as [|a s IH]; simpl; [done|]. by rewrite IH, andb_assoc. Qed.

Lemma chars_app_intro s t : chars s = true → chars t = true → chars (s +:+ t) = true.
Proof. intros H1 H2. by rewrite chars_app, H1, H2. Qed.

Lemma chars_take n s : chars s = true → chars (take_bytes n s) = true.
Proof.
  unfold all_chars. revert n. induction s as [|a s IH]; intros [|n]; simpl; try done.
  rewrite !andb_true_iff. intros [? ?]. auto.
Qed.

Lemma chars_drop n s : chars s = true → chars (drop_bytes n s) = true.
Proof.
  unfold all_chars. revert n. induction s as [|a s IH]; intros [|n]; simpl; try done.
  rewrite !andb_true_iff. intros [? ?]. auto.
Qed.

Lemma chars_weaken (q : ascii → bool) s : (∀ a, q a = true → p a = true) →
  all_chars q s = true → chars s = true.
Proof.
  intros Hq. unfold all_chars. induction s as [|a s IH]; simpl; [done|].
  rewrite !andb_true_iff. intros [? ?]. auto.
Qed.

Definition printable_ascii (a : ascii) : bool := (32 <=? byte_at a) && (byte_at a <? 127).
Lemma chars_literal s : all_chars printable_ascii s = true → chars s = true.
Proof. apply chars_weaken. intros a H. unfold printable_ascii in H. apply Hp. lia. Qed.

Lemma chars_int z : chars (int_repr z) = true.
Proof.
  assert (Hd : ∀ d, chars (NilZero.string_of_uint d) = true).
  { intros d. assert (H : chars (NilEmpty.string_of_uint d) = true).
    { eapply chars_weaken, string_of_uint_digits. intros a. unfold is_digit, in_range.
      intros H. apply Hp. lia. }
    destruct d; [|exact H..]. by apply chars_literal. }
  unfold int_repr. destruct (Z.to_int z); simpl; [apply Hd|].
  apply (chars_app_intro "-"); [by apply chars_literal|apply Hd].
Qed.

Lemma chars_zeros n : chars (zeros n) = true.
Proof. apply chars_literal. unfold all_chars. by induction n. Qed.

#[local] Hint Resolve chars_app_intro chars_take chars_drop chars_int chars_zeros : core.

Lemma chars_layout ds decpt : chars ds = true → chars (layout ds decpt) = true.
Proof.
  intros H. unfold layout, exp_text. repeat case_match; auto 10.
  all: repeat (apply chars_app_intro; auto); by apply chars_literal.
Qed.

Lemma chars_float f : chars (float_repr f) = true.
Proof.
  destruct f as [[]|[]| |s m e]; try by apply chars_literal. unfold float_repr.
  destruct (float_ratio _) as [num den]. destruct (shortest_from _ _ _ _ _ _) as [d e10].
  destruct (strip_zeros _ _ _) as [d' e']. destruct s; apply chars_app_intro;
    first [by apply chars_literal|apply chars_layout, chars_int].
Qed.

Lemma chars_hex_fixed n z t : chars t = true → chars (hex_fixed n z t) = true.
Proof.
  revert z t. induction n as [|n IH]; intros z t Ht; cbn [hex_fixed]; [done|]. apply IH.
  unfold all_chars in *. cbn [list_ascii_of_string forallb]. rewrite Ht, andb_true_r.
  pose proof (hex_char_lower z) as H. revert H. unfold is_lower_hex, is_digit, in_range.
  intros H. apply Hp. lia.
Qed.

(** Escaping changes only quotes, backslashes and control characters. *)
Lemma chars_escape s :
  all_chars (λ a, (byte_at a <? 32) || p a) s = true → chars (escape s) = true.
Proof.
  unfold all_chars. induction s as [|a s IH]; [done|].
  cbn [list_ascii_of_string forallb]. intros [Ha Hs]%andb_true_iff. specialize (IH Hs).
  cbn [escape]. unfold escape_char.
  assert (Hc : ∀ c, printable_ascii c = true → p c = true).
  { intros c Hc. unfold printable_ascii in Hc. apply Hp. lia. }
  repeat case_match; cbn [list_ascii_of_string forallb]; rewrite ?Hc by done; try exact IH.
  - by apply chars_app_intro, chars_hex_fixed; [apply chars_literal|].
  - rewrite IH, andb_true_r. apply orb_true_iff in Ha as [Ha|Ha]; [lia|done].
Qed.

Section Strings.
Context (q : string → bool) (Hq : ∀ s, q s = true → chars (escape s) = true).

Lemma chars_quoted s : q s = true → chars (quoted s) = true.
Proof.
  intros H. unfold quoted. repeat apply chars_app_intro; first [by apply chars_literal|by apply Hq].
Qed.

Lemma chars_join sep ts : chars sep = true → Forall (λ t, chars t = true) ts →
  chars (str_join sep ts) = true.
Proof.
  intros Hs. induction 1 as [|t ts Ht Hts IH]; [done|]. destruct ts; [done|].
  change (chars (t +:+ sep +:+ str_join sep (s :: ts)) = true).
  by repeat apply chars_app_intro.
Qed.

Lemma dumps_chars j t : json_strings q j = true → dumps j = Ok t → chars t = true.
Proof.
  revert t. induction j as [|[]|z|f|s|l IH|kvs IH] using json_ind'; intros t Hj H.
  1-3: by injection H as <-; apply chars_literal.
  - cbn [dumps] in H. unfold int_text in H. case_match; [|done]. injection H as <-. apply chars_int.
  - cbn [dumps] in H. case_match; [|done]. injection H as <-. apply chars_float.
  - injection H as <-. by apply chars_quoted.
  - cbn [dumps] in H. fold dump_list in H. apply bind_ok in H as (ts & Hts%dump_list_ok & [= <-]).
    cbn [json_strings] in Hj. rewrite forallb_elem in Hj.
    repeat apply chars_app_intro; try by apply chars_literal. apply chars_join; [by apply chars_literal|].
    induction Hts as [|x t l ts Hx _ IHl]; [constructor|]. inv IH. constructor.
    + match goal with Hi : ∀ t, _ → _ → _ |- _ => apply Hi; [apply Hj; by left|done] end.
    + apply IHl; [done|]. intros y Hy. apply Hj. by right.
  - cbn [dumps] in H. fold dump_items in H. apply bind_ok in H as (ts & Hts%dump_items_ok & [= <-]).
    cbn [json_strings] in Hj. rewrite forallb_elem in Hj.
    repeat apply chars_app_intro; try by apply chars_literal. apply chars_join; [by apply chars_literal|].
    apply Forall_map, Forall_forall. intros [k x] Hin%elem_of_isort. unfold compose. simpl.
    apply list_elem_of_lookup in Hin as [i Hi].
    destruct (Forall2_lookup_r _ _ _ _ _ Hts Hi) as ([k' v] & Hv & Hk & Hd). simpl in Hd, Hk. subst k'.
    apply list_elem_of_lookup_2 in Hv. pose proof (Hj _ Hv) as [Hqk Hqv]%andb_true_iff. simpl in Hqk, Hqv.
    apply chars_app_intro; [by apply chars_quoted|].
    apply (chars_app_intro ":"); [by apply chars_literal|].
    rewrite Forall_forall in IH. by apply (IH _ Hv).
Qed.
End Strings.
End Characters.

(** *** No control characters, in any canonical text *)
Definition visible (a : ascii) : bool := 32 <=? byte_at a.

Lemma visible_escape s : all_chars visible (escape s) = true.
Proof.
  apply chars_escape; [unfold visible; lia|]. unfold all_chars, visible.
  apply forallb_elem. intros a _. lia.
Qed.

Lemma json_strings_all q j : (∀ s, q s = true) → json_strings q j = true.
Proof.
  intros Hq. induction j as [| | | | |l IH|kvs IH] using json_ind'; simpl; try done; try apply Hq;
    apply forallb_elem; rewrite Forall_forall in IH; [done|].
  intros kv Hkv. by rewrite Hq, IH.
Qed.

Lemma dumps_visible j t : dumps j = Ok t → all_chars visible t = true.
Proof.
  apply (dumps_chars visible ltac:(unfold visible; lia) (λ _, true)).
  - intros s _. apply visible_escape.
  - by apply json_strings_all.
Qed.

(** *** ASCII text, when the strings are *)
Definition ascii_char (a : ascii) : bool := byte_at a <? 128.
Definition ascii_text (s : string) : bool := all_chars ascii_char s.

Lemma ascii_utf8 b s : ascii_text s = true → utf8_well_formed b s = true.
Proof.
  unfold ascii_text, all_chars. induction s as [|a s IH]; [done|].
  cbn [list_ascii_of_string forallb]. intros [Ha Hs]%andb_true_iff.
  cbn [utf8_well_formed]. unfold ascii_char in Ha. rewrite Ha. auto.
Qed.

Lemma dumps_ascii j t : json_strings ascii_text j = true → dumps j = Ok t → ascii_text t = true.
Proof.
  apply (dumps_chars ascii_char ltac:(unfold ascii_char; lia)).
  intros s Hs. apply chars_escape; [unfold ascii_char; lia|].
  eapply chars_weaken, Hs. intros a ->. apply orb_true_r.
Qed.

Lemma visible_no_nul s : all_chars visible s = true → contains nul s = false.
Proof.
  unfold all_chars. induction s as [|a s IH]; [done|]. cbn [list_ascii_of_string forallb].
  intros [Ha Hs]%andb_true_iff. cbn [contains]. rewrite (IH Hs), orb_false_r.
  cbn [starts_with nul]. destruct (Ascii.eqb _ a) eqn:E; [|done].
  apply Ascii.eqb_eq in E. by subst.
Qed.

Lemma visible_get n s : all_chars visible s = true → byte_is 0 (String.get n s) = false.
Proof.
  unfold all_chars. revert n. induction s as [|a s IH]; intros [|n]; try done; cbn [list_ascii_of_string forallb].
  - intros [Ha _]%andb_true_iff. simpl. unfold visible in Ha. lia.
  - intros [_ Hs]%andb_true_iff. by apply IH.
Qed.

(** Canonical text of an object is UTF-8 when it can be loaded at all. *)
Lemma canonical_object_text decode_other kvs data j :
  dumps (JObj kvs) = Ok data → json_loads_bytes decode_other data = Loaded j →
  contains nul data = false ∧ utf8_well_formed false data = true.
Proof.
  intros Hd Hl. pose proof (dumps_visible _ _ Hd) as Hv. split; [by apply visible_no_nul|].
  assert (Hf : ∃ s, data = String "{" s).
  { cbn [dumps] in Hd. apply bind_ok in Hd as (ts & _ & [= <-]). by eexists. }
  assert (He : detect_encoding data = "utf-8").
  { destruct Hf as [s ->]. unfold detect_encoding. rewrite !visible_get by done. simpl.
    by repeat case_match. }
  unfold json_loads_bytes, decode_detected in Hl. rewrite He in Hl.
  rewrite bool_decide_eq_true_2 in Hl by done. destruct (utf8_well_formed true data); [|done].
  destruct (json_scan data); try done. by destruct (utf8_well_formed false data).
Qed.

(** ** Objects read from canonical text *)

(** An integer member of an object with a canonical text can be printed. *)
Lemma freeze_items_get path items acc out : freeze_items path items acc = Ok out →
  (∀ k, PStr k ∉ map fst items → dict_get k out = dict_get k acc)
  ∧ (NoDup (map fst items) → ∀ k z, (PStr k, PInt z) ∈ items → dict_get k out = Some (JInt z)).
Proof.
  revert acc. induction items as [|[key v] items IH]; intros acc.
  - intros [= <-]. split; [done|]. by intros _ k z ?%elem_of_nil.
  - cbn [freeze_items]. destruct key as [| | | |k0| | |]; try done. intros H.
    apply bind_ok in H as (w & Hw & H). apply IH in H as [H1 H2]. cbn [map fst]. split.
    + intros k [Hk Hn]%not_elem_of_cons. rewrite H1 by done. apply dict_get_set_ne. congruence.
    + intros [Hn Hd]%NoDup_cons k z [[= -> <-]|Hin]%elem_of_cons; [|by apply H2].
      injection Hw as <-. rewrite H1 by done. apply dict_get_set_eq.
Qed.

Lemma canonical_member kvs t k z : NoDup (dict_keys kvs) →
  canonical_json_bytes (thaw_json (JObj kvs)) = Ok t → (k, JInt z) ∈ kvs → short_int z = true.
Proof.
  intros Hn H Hin. unfold canonical_json_bytes in H. apply bind_ok in H as (j & Hj & Hd).
  cbn [thaw_json freeze_json] in Hj. fold (freeze_items "$") in Hj.
  apply bind_ok in Hj as (out & Ho & [= <-]).
  apply freeze_items_get in Ho as [_ Ho].
  assert (Hout : dict_get k out = Some (JInt z)).
  { apply Ho.
    - rewrite map_map. simpl. rewrite <-(map_map fst PStr). apply NoDup_fmap_2; [by intros ?? [=]|done].
    - apply list_elem_of_fmap. by exists (k, JInt z). }
  apply dict_get_elem, list_elem_of_lookup in Hout as [i Hi].
  cbn [dumps] in Hd. fold dump_items in Hd. apply bind_ok in Hd as (ts & Hts%dump_items_ok & _).
  destruct (Forall2_lookup_l _ _ _ _ _ Hts Hi) as ([k' x] & _ & _ & Hx). cbn [dumps snd] in Hx.
  unfold int_text in Hx. unfold short_int. by destruct (_ <=? _).
Qed.

Lemma thawed_int kvs raw err k z : contract_mapping err (thaw_json (JObj kvs)) = Ok raw →
  pget k raw = PInt z → (k, JInt z) ∈ kvs.
Proof.
  intros Hm Hg.
  assert (Ho : thaw_json (JObj kvs) = obj (map (λ kv, (kv.1, thaw_json kv.2)) kvs)).
  { unfold obj. by rewrite map_map. }
  rewrite Ho, contract_mapping_obj in Hm. injection Hm as <-. unfold pget in Hg.
  destruct (dict_get k _) as [v|] eqn:E; [|done]. simpl in Hg. subst v.
  apply dict_get_elem, list_elem_of_fmap in E as ([k' v] & [= -> Hv] & Hin).
  destruct v; try done. injection Hv as <-. done.
Qed.

(** The decoder returns objects without repeated keys. *)
Lemma parse_members_NoDup n s acc m r : parse_members n s acc = Some (m, r) →
  NoDup (dict_keys acc) → NoDup (dict_keys m).
Proof.
  revert s acc. induction n as [|n IH]; intros s acc; [done|]. cbn [parse_members]. intros H Hacc.
  apply bind_Some in H as (s1 & _ & H). apply bind_Some in H as ([k r0] & _ & H).
  apply bind_Some in H as (r1 & _ & H). apply bind_Some in H as ([v r2] & _ & H).
  destruct (first_is 44 _) as [r4|].
  - eapply IH; [exact H|]. by apply dict_set_NoDup.
  - destruct (first_is 125 _); [|done]. injection H as <- _. by apply dict_set_NoDup.
Qed.

Lemma loaded_NoDup decode_other data kvs : json_loads_bytes decode_other data = Loaded (JObj kvs) →
  NoDup (dict_keys kvs).
Proof.
  intros (text & _ & H)%json_loads_bytes_ok. unfold json_loads in H.
  apply bind_Some in H as ([v r] & H & Hv). destruct (is_empty _); [|done]. injection Hv as ->.
  destruct (2 * String.length (skip_ws text) + 1)%nat as [|n]; [done|]. cbn [parse_value] in H.
  destruct (first_is 34 _) as [s1|].
  { by apply bind_Some in H as ([t r'] & _ & [=]). }
  destruct (first_is 91 _) as [s1|].
  { destruct (first_is 93 _); [done|]. by apply bind_Some in H as ([t r'] & _ & [=]). }
  destruct (first_is 123 _) as [s1|].
  { destruct (first_is 125 _); [injection H as <- _; apply NoDup_nil_2|].
    apply bind_Some in H as ([m r'] & Hm & [= <- _]). eapply parse_members_NoDup; [exact Hm|].
    apply NoDup_nil_2. }
  unfold constant in H. repeat (case_match; try congruence).
  unfold parse_number in H. repeat (case_match; try congruence).
Qed.

Example long_integer_rejected :
  json_loads_bytes (λ _ _, None) ("[1" +:+ zeros 4300 +:+ ", }") = LongInteger.
Proof. by_vm. Qed.
Example malformed_first : json_loads_bytes (λ _ _, None) ("[}, 1" +:+ zeros 4300) = Undecodable.
Proof. by_vm. Qed.
Example loads_bytes : json_loads_bytes (λ _ _, None) "[1]" = Loaded (JArr [JInt 1]).
Proof. by_vm. Qed.
