(* ===== verification/Events.v ===== *)
(** * kernel/events.py: the event envelope and its self-validation

    [event_init] is the generated constructor of the dataclass followed by
    [__post_init__]; every envelope of the program is built by it, so
    [event_ok] (the envelope is a fixed point of its own constructor) holds of
    every value the other components exchange. *)

From S2P Require Import Prelude PyStr PyFloat Sha256 Json JsonText JsonFacts PyTime.
From Stdlib Require Import ZArith Lia Ascii String.
From stdpp Require Import base gmap sets list strings.
Local Open Scope Z_scope.

Record EventEnvelope := MkEvent {
  event_id : string;
  stream_id : string;
  stream_sequence : Z;
  event_type : string;
  schema_version : Z;
  recorded_at : datetime;
  effective_at : datetime;
  correlation_id : string;
  causation_id : option string;
  actor : string;
  source : string;
  payload : jobject;
  payload_hash : string;
  idempotency_key : option string;
  global_position : option Z
}.

#[export] Instance event_eq_dec : EqDecision EventEnvelope.
Proof. solve_decision. Defined.

Definition _timestamp (value : datetime) (field_name : string) : result datetime :=
  match dt_offset value with
  | None => Err (ValueError (field_name +:+ " must be timezone-aware"))
  | Some _ => astimezone_utc value
  end.

Definition _required_text (value field_name : string) : result string :=
  if is_empty value || blank value then Err (ValueError (field_name +:+ " must not be empty"))
  else Ok value.

(** The mapping branch of [freeze_json]: [isinstance(frozen, Mapping)]. *)
Definition as_mapping (e : exn) (j : json) : result jobject :=
  match j with JObj kvs => Ok kvs | _ => Err e end.

Definition freeze_payload (value : pyval) : result jobject :=
  frozen ← freeze_json "$.payload" value;
  as_mapping (TypeError "event payload must be a JSON object") frozen.

(** The fields of the constructor, with a payload that is not frozen yet. *)
Definition event_init (event_id stream_id : string) (stream_sequence : Z) (event_type : string)
    (schema_version : Z) (recorded_at effective_at : datetime) (correlation_id : string)
    (causation_id : option string) (actor source : string) (payload : pyval)
    (payload_hash : string) (idempotency_key : option string) (global_position : option Z)
    : result EventEnvelope :=
  _ ← _required_text event_id "event_id";
  _ ← _required_text stream_id "stream_id";
  _ ← _required_text event_type "event_type";
  _ ← _required_text correlation_id "correlation_id";
  _ ← _required_text actor "actor";
  _ ← _required_text source "source";
  _ ← match causation_id with
      | Some c => _required_text c "causation_id" | None => Ok EmptyString end;
  _ ← match idempotency_key with
      | Some k => _required_text k "idempotency_key" | None => Ok EmptyString end;
  _ ← raise_if (stream_sequence <? 1) (ValueError "stream_sequence must be at least 1");
  _ ← raise_if (schema_version <? 1) (ValueError "schema_version must be at least 1");
  _ ← raise_if (match global_position with Some p => p <? 1 | None => false end)
        (ValueError "global_position must be at least 1");
  recorded ← _timestamp recorded_at "recorded_at";
  effective ← _timestamp effective_at "effective_at";
  frozen_payload ← freeze_payload payload;
  actual_hash ← json_digest (thaw_json (JObj frozen_payload));
  _ ← raise_if (negb (bool_decide (payload_hash = actual_hash))) EventIntegrityError;
  Ok (MkEvent event_id stream_id stream_sequence event_type schema_version recorded effective
        correlation_id causation_id actor source frozen_payload payload_hash idempotency_key
        global_position).

(** [dataclasses.replace(event, global_position=position)] runs the
    constructor again. *)
Definition event_replace_position (e : EventEnvelope) (position : option Z) : result EventEnvelope :=
  event_init (event_id e) (stream_id e) (stream_sequence e) (event_type e) (schema_version e)
    (recorded_at e) (effective_at e) (correlation_id e) (causation_id e) (actor e) (source e)
    (thaw_json (JObj (payload e))) (payload_hash e) (idempotency_key e) position.

(** [x or default] for an optional text. *)
Definition or_else (x : option string) (d : string) : string :=
  match x with Some s => if is_empty s then d else s | None => d end.

(** [EventEnvelope.create]; the clock and the identifier generator are what
    [utc_now()] and [new_event_id()] return. *)
Definition create (utc_now : datetime) (new_event_id : string)
    (stream_id : string) (stream_sequence : Z) (event_type actor source : string)
    (payload : option pyval) (schema_version : Z) (recorded_at effective_at : option datetime)
    (correlation_id causation_id idempotency_key event_id : option string)
    : result EventEnvelope :=
  observed_at ← _timestamp (default utc_now recorded_at) "recorded_at";
  effective ← _timestamp (default observed_at effective_at) "effective_at";
  let resolved_event_id := or_else event_id new_event_id in
  let falsy v := match v with
    | PNone | PBool false | PInt 0 | PStr EmptyString | PMapping [] | PSequence [] => true
    | PFloat f => bool_decide (float_ratio f = (0, 1)) && is_finite_float f
    | _ => false end in
  let body := match payload with
    | None => PMapping []
    | Some v => if falsy v then PMapping [] else v end in
  event_payload ← freeze_payload body;
  hash ← json_digest (thaw_json (JObj event_payload));
  event_init resolved_event_id stream_id stream_sequence event_type schema_version observed_at
    effective (or_else correlation_id resolved_event_id) causation_id actor source
    (thaw_json (JObj event_payload)) hash idempotency_key None.

Definition opt_text (x : option string) : pyval :=
  match x with Some s => PStr s | None => PNone end.

(** [EventEnvelope.idempotency_hash]. *)
Definition idempotency_hash (e : EventEnvelope) : result string :=
  json_digest (PMapping [
    (PStr "actor", PStr (actor e));
    (PStr "causation_id", opt_text (causation_id e));
    (PStr "correlation_id", PStr (correlation_id e));
    (PStr "effective_at", PStr (isoformat (effective_at e)));
    (PStr "event_type", PStr (event_type e));
    (PStr "payload_hash", PStr (payload_hash e));
    (PStr "schema_version", PInt (schema_version e));
    (PStr "source", PStr (source e));
    (PStr "stream_id", PStr (stream_id e))]).

(** ** What the constructor guarantees *)

Definition with_position (p : option Z) (e : EventEnvelope) : EventEnvelope :=
  MkEvent (event_id e) (stream_id e) (stream_sequence e) (event_type e) (schema_version e)
    (recorded_at e) (effective_at e) (correlation_id e) (causation_id e) (actor e) (source e)
    (payload e) (payload_hash e) (idempotency_key e) p.

Record event_ok (e : EventEnvelope) : Prop := {
  ok_event_id : blank (event_id e) = false;
  ok_stream_id : blank (stream_id e) = false;
  ok_event_type : blank (event_type e) = false;
  ok_correlation : blank (correlation_id e) = false;
  ok_actor : blank (actor e) = false;
  ok_source : blank (source e) = false;
  ok_causation : from_option blank false (causation_id e) = false;
  ok_key : from_option blank false (idempotency_key e) = false;
  ok_sequence : 1 <= stream_sequence e;
  ok_schema : 1 <= schema_version e;
  ok_position : ∀ p, global_position e = Some p → 1 <= p;
  ok_recorded : astimezone_utc (recorded_at e) = Ok (recorded_at e)
                ∧ dt_offset (recorded_at e) = Some 0;
  ok_effective : astimezone_utc (effective_at e) = Ok (effective_at e)
                 ∧ dt_offset (effective_at e) = Some 0;
  ok_payload : json_wf (JObj (payload e)) = true;
  ok_hash : json_digest (thaw_json (JObj (payload e))) = Ok (payload_hash e)
}.

Lemma blank_empty : blank EmptyString = true.
Proof. done. Qed.

Lemma required_text_ok v f x : _required_text v f = Ok x ↔ x = v ∧ blank v = false.
Proof.
  unfold _required_text. destruct (blank v) eqn:E; rewrite ?orb_true_r; [naive_solver|].
  rewrite orb_false_r. unfold is_empty. case_bool_decide; [by subst v|naive_solver].
Qed.

Lemma timestamp_ok t f t' : _timestamp t f = Ok t' →
  astimezone_utc t' = Ok t' ∧ dt_offset t' = Some 0 ∧ dt_utc t' = dt_utc t.
Proof.
  unfold _timestamp. destruct (dt_offset t); [|done]. intros H.
  pose proof (astimezone_utc_format _ _ H) as (? & ? & ?).
  pose proof (astimezone_utc_idemp _ _ H). done.
Qed.

Lemma timestamp_fixed t f : astimezone_utc t = Ok t → dt_offset t = Some 0 → _timestamp t f = Ok t.
Proof. unfold _timestamp. by intros H ->. Qed.

Lemma freeze_payload_ok v kvs : freeze_payload v = Ok kvs → json_wf (JObj kvs) = true.
Proof.
  unfold freeze_payload. intros H. inv_ok.
  unfold as_mapping in H. destruct x; try done. injection H as <-. by eapply freeze_json_wf.
Qed.

Lemma freeze_payload_thaw kvs : json_wf (JObj kvs) = true →
  freeze_payload (thaw_json (JObj kvs)) = Ok kvs.
Proof. intros H. unfold freeze_payload. by rewrite (freeze_thaw _ _ H). Qed.

(** Every envelope the constructor returns is valid. *)
Lemma event_init_ok a b c d e f g h i j k l m n o ev :
  event_init a b c d e f g h i j k l m n o = Ok ev → event_ok ev.
Proof.
  unfold event_init. intros H. inv_ok.
  repeat match goal with H : _required_text _ _ = Ok _ |- _ =>
    apply required_text_ok in H as [_ H] end.
  repeat match goal with H : _timestamp _ _ = Ok _ |- _ => apply timestamp_ok in H end.
  match goal with H : freeze_payload _ = Ok _ |- _ => apply freeze_payload_ok in H end.
  constructor; simpl; try done; try lia; try naive_solver.
  - destruct i; [|done]. by apply required_text_ok in Hx5 as [_ ?].
  - destruct n; [|done]. by apply required_text_ok in Hx6 as [_ ?].
  - intros p ->. lia.
Qed.

(** The constructor accepts a valid envelope's fields and returns them. *)
Lemma event_replace_position_ok e p :
  event_ok e → (∀ q, p = Some q → 1 <= q) →
  event_replace_position e p = Ok (with_position p e).
Proof.
  intros [] Hp. unfold event_replace_position, event_init.
  assert (R : ∀ v f, blank v = false → _required_text v f = Ok v).
  { intros v f Hv. by apply required_text_ok. }
  rewrite !R by done. cbn [mbind result_bind].
  replace (match causation_id e with Some c => _ | None => _ end)
    with (Ok (default EmptyString (causation_id e))) by (destruct (causation_id e); by rewrite ?R).
  replace (match idempotency_key e with Some c => _ | None => _ end)
    with (Ok (default EmptyString (idempotency_key e))) by (destruct (idempotency_key e); by rewrite ?R).
  cbn [mbind result_bind].
  rewrite (proj2 (Z.ltb_ge _ _)), (proj2 (Z.ltb_ge _ _)) by done.
  replace (match p with Some p => p <? 1 | None => false end) with false
    by (destruct p; [specialize (Hp _ eq_refl); lia|done]).
  cbn [mbind result_bind raise_if].
  rewrite !timestamp_fixed by naive_solver. cbn [mbind result_bind].
  rewrite freeze_payload_thaw by done. cbn [mbind result_bind]. rewrite ok_hash0.
  cbn [mbind result_bind]. rewrite bool_decide_true by done. done.
Qed.

Lemma create_ok now fresh sid seq ty ac so pl sv ra ea co ca ik ei ev :
  create now fresh sid seq ty ac so pl sv ra ea co ca ik ei = Ok ev →
  event_ok ev ∧ stream_id ev = sid ∧ stream_sequence ev = seq ∧ event_type ev = ty
  ∧ idempotency_key ev = ik ∧ causation_id ev = ca ∧ global_position ev = None.
Proof.
  unfold create. intros H. inv_ok. split; [by eapply event_init_ok|].
  unfold event_init in H. inv_ok. done.
Qed.
