(* ===== verification/EventStore.v ===== *)
(** * kernel/store.py: the append-only event ledger

    The SQLite tables are explicit: [event_streams] is a finite map,
    [kernel_events] the rows in rowid order, every column as it is stored.
    A statement that a constraint of kernel/database.py refuses raises.  An
    operation inside a transaction is a state-passing function that may raise
    ([txn]); [append_many] commits or rolls back. *)

From S2P Require Import Prelude PyStr PyFloat Sha256 Json JsonText JsonFacts PyTime Events.
From Stdlib Require Import ZArith Lia Ascii String.
From stdpp Require Import base gmap sets list strings.
Local Open Scope Z_scope.

(** ** Tables *)

Record event_row := MkRow {
  r_position : Z;
  r_event_id : string;
  r_stream_id : string;
  r_stream_sequence : Z;
  r_event_type : string;
  r_schema_version : Z;
  r_recorded_at : string;
  r_effective_at : string;
  r_correlation_id : string;
  r_causation_id : option string;
  r_actor : string;
  r_source : string;
  r_payload_json : string;
  r_payload_hash : string;
  r_idempotency_key : option string;
  r_idempotency_hash : option string
}.

Record db := Db {
  event_streams : gmap string Z;
  kernel_events : list event_row;
  db_sequence : Z  (* sqlite_sequence of kernel_events *)
}.

Definition empty_db : db := Db ∅ [] 0.

(** ** Transactions *)

Definition txn (A : Type) : Type := db → result A * db.

#[export] Instance txn_ret : MRet txn := λ A a d, (Ok a, d).
#[export] Instance txn_bind : MBind txn := λ A B f m d,
  match m d with
  | (Ok a, d') => f a d'
  | (Err e, d') => (Err e, d')
  end.

Definition lift {A} (r : result A) : txn A := λ d, (r, d).
Definition query {A} (f : db → result A) : txn A := λ d, (f d, d).

Fixpoint map_txn {A B} (f : A → txn B) (l : list A) : txn (list B) :=
  match l with
  | [] => mret []
  | x :: l' => y ← f x; ys ← map_txn f l'; mret (y :: ys)
  end.

(** ** Rows and events *)

Definition max_int64 : Z := 2 ^ 63 - 1.
Definition int64_ok (z : Z) : bool := (- 2 ^ 63 <=? z) && (z <=? max_int64).

(** SQLite's [length(x) > 0]: the characters before the first NUL. *)
Definition sql_nonempty (s : string) : bool :=
  match s with EmptyString => false | String a _ => negb (byte_at a =? 0) end.

Definition _event_from_row (row : event_row) : result EventEnvelope :=
  payload ← of_option (ValueError "json") (json_loads (r_payload_json row));
  payload ← as_mapping (TypeError "stored event payload must be a JSON object") payload;
  recorded ← of_option (ValueError "isoformat") (fromisoformat (r_recorded_at row));
  effective ← of_option (ValueError "isoformat") (fromisoformat (r_effective_at row));
  event_init (r_event_id row) (r_stream_id row) (r_stream_sequence row) (r_event_type row)
    (r_schema_version row) recorded effective (r_correlation_id row) (r_causation_id row)
    (r_actor row) (r_source row) (thaw_json (JObj payload)) (r_payload_hash row)
    (r_idempotency_key row) (Some (r_position row)).

(** The values bound to the insert statement. *)
Definition row_of_event (e : EventEnvelope) (position : Z) : result event_row :=
  payload_json ← canonical_json (thaw_json (JObj (payload e)));
  hash ← match idempotency_key e with
         | Some _ => Some <$> idempotency_hash e
         | None => Ok None
         end;
  Ok (MkRow position (event_id e) (stream_id e) (stream_sequence e) (event_type e)
        (schema_version e) (isoformat (recorded_at e)) (isoformat (effective_at e))
        (correlation_id e) (causation_id e) (actor e) (source e) payload_json
        (payload_hash e) (idempotency_key e) hash).

(** The constraints of the table [kernel_events]. *)
Definition row_allowed (d : db) (r : event_row) : bool :=
  let rows := kernel_events d in
  sql_nonempty (r_event_id r) && (1 <=? r_stream_sequence r) && sql_nonempty (r_event_type r)
  && (1 <=? r_schema_version r) && sql_nonempty (r_correlation_id r) && sql_nonempty (r_actor r)
  && sql_nonempty (r_source r)
  && bool_decide (r_event_id r ∉ map r_event_id rows)
  && bool_decide ((r_stream_id r, r_stream_sequence r)
                  ∉ map (λ q, (r_stream_id q, r_stream_sequence q)) rows)
  && match r_idempotency_key r with
     | Some k => bool_decide ((r_stream_id r, Some k)
                              ∉ map (λ q, (r_stream_id q, r_idempotency_key q)) rows)
     | None => true
     end
  && bool_decide (is_Some (event_streams d !! r_stream_id r))
  && match r_causation_id r with
     | Some c => bool_decide (c ∈ r_event_id r :: map r_event_id rows)
     | None => true
     end
  && bool_decide (is_Some (r_idempotency_key r) ↔ is_Some (r_idempotency_hash r)).

Definition add_row (d : db) (r : event_row) : db :=
  Db (event_streams d) (kernel_events d ++ [r]) (r_position r).

Definition set_stream (d : db) (s : string) (n : Z) : db :=
  Db (<[s := n]> (event_streams d)) (kernel_events d) (db_sequence d).

Definition _insert_event (e : EventEnvelope) : txn EventEnvelope := λ d,
  let position := db_sequence d + 1 in
  match row_of_event e position with
  | Err ex => (Err ex, d)
  | Ok r =>
      if negb (int64_ok (r_stream_sequence r) && int64_ok (r_schema_version r))
      then (Err OverflowError, d)
      else if max_int64 <? position then (Err (RuntimeError "database or disk is full"), d)
      else if row_allowed d r
           then (event_replace_position e (Some position), add_row d r)
           else (Err EventConflictError, d)
  end.

Definition _current_sequence (d : db) (s : string) : Z := default 0 (event_streams d !! s).

(** ** Idempotency *)

Definition _idempotent_event (d : db) (e : EventEnvelope) : result (option EventEnvelope) :=
  match idempotency_key e with
  | None => Ok None
  | Some k =>
      match List.find (λ r, bool_decide (r_stream_id r = stream_id e)
                            && bool_decide (r_idempotency_key r = Some k)) (kernel_events d) with
      | None => Ok None
      | Some row =>
          hash ← idempotency_hash e;
          _ ← raise_if (negb (bool_decide (r_idempotency_hash row = Some hash)))
                IdempotencyConflict;
          Some <$> _event_from_row row
      end
  end.

Definition _validate_existing_batch_order (events : list EventEnvelope) : result unit :=
  _ ← fold_result (λ (last : gmap string Z) (e : EventEnvelope),
        _ ← raise_if (match last !! stream_id e with
                      | Some previous => negb (stream_sequence e =? previous + 1)
                      | None => false
                      end) EventSequenceError;
        Ok (<[stream_id e := stream_sequence e]> last)) ∅ events;
  Ok tt.

(** ** Appending *)

Definition candidate : Type := EventEnvelope * option EventEnvelope.

(** The loop over a stream's events that counts the committed prefix. *)
Definition count_prefix (err : exn) (events : list candidate) : result Z :=
  '(prefix, _) ← fold_result (λ '(prefix, new) (c : candidate),
      match c.2 with
      | Some _ => _ ← raise_if new err; Ok (prefix + 1, new)
      | None => Ok (prefix, true)
      end) (0, false) events;
  Ok prefix.

Definition _validate_batch_stream (sid : string) (events : list candidate)
    (expected actual : Z) : result Z :=
  committed_prefix ← count_prefix (ConcurrencyError sid expected actual) events;
  let required_actual := expected + committed_prefix in
  _ ← raise_if (negb (actual =? required_actual)) (ConcurrencyError sid required_actual actual);
  _ ← fold_result (λ offset (c : candidate),
        let required := expected + offset in
        _ ← match c.2 with
            | Some stored => raise_if (negb (stream_sequence stored =? required))
                               (ConcurrencyError sid expected actual)
            | None => raise_if (negb (stream_sequence c.1 =? required)) EventSequenceError
            end;
        Ok (offset + 1)) 1 events;
  Ok committed_prefix.

(** What the batch holds for a stream, and what the ledger holds. *)
Record stream_plan := Plan {
  p_stream : string; p_events : list candidate; p_current : Z; p_prefix : Z }.

Record connection := Connection {
  in_transaction : bool;
  foreign_keys : option Z;
  database_list : list (string * string)
}.

Section Store.
(** [path] is the database file, [resolve] is [Path.resolve], and
    [set_order] the order in which a Python set of names is iterated. *)
Context (path : string) (resolve : string → string) (set_order : list string → list string).

Definition _validate_transaction_connection (c : connection) : result unit :=
  _ ← raise_if (negb (in_transaction c))
        (RuntimeError "kernel event append requires an active transaction");
  _ ← raise_if (negb (bool_decide (foreign_keys c = Some 1)))
        (RuntimeError "kernel event append requires SQLite foreign keys");
  raise_if (match dict_get "main" (database_list c) with
            | None => true
            | Some main_path => negb (bool_decide (resolve main_path = resolve path))
            end) (ValueError "transaction connection does not target this event store").

Definition _validate_append_request (events : list EventEnvelope)
    (expected_sequences : list (string * Z)) : result (list string) :=
  let stream_ids := set_order (remove_dups (map stream_id events)) in
  _ ← raise_if (existsb (λ s, bool_decide (dict_get s expected_sequences = None)) stream_ids)
        (ValueError "expected_sequences is missing streams");
  _ ← raise_if (existsb (λ s, default 0 (dict_get s expected_sequences) <? 0) stream_ids)
        (ValueError "expected sequence must be non-negative");
  Ok stream_ids.

(** The row of a stream that has no event yet. *)
Definition open_stream (sid : string) (actual : Z) : txn unit := λ d,
  if actual =? 0 then
    match event_streams d !! sid with
    | Some _ => (Err SqliteIntegrityError, d)
    | None => if sql_nonempty sid then (Ok tt, set_stream d sid 0)
              else (Err SqliteIntegrityError, d)
    end
  else (Ok tt, d).

Definition prepare_stream (expected_sequences : list (string * Z))
    (g : string * list candidate) : txn stream_plan :=
  let '(sid, events) := g in
  expected ← lift (of_option KeyError (dict_get sid expected_sequences));
  actual ← query (λ d, Ok (_current_sequence d sid));
  prefix ← lift (_validate_batch_stream sid events expected actual);
  _ ← open_stream sid actual;
  mret (Plan sid events actual prefix).

Definition append_one (c : candidate) : txn EventEnvelope :=
  match c.2 with
  | Some stored => mret stored
  | None => _insert_event c.1
  end.

Definition finish_stream (p : stream_plan) : txn unit :=
  let new_count := zlen (p_events p) - p_prefix p in
  λ d,
    let required := p_current p + new_count in
    if new_count =? 0 then (Ok tt, d)
    else if negb (int64_ok required) then (Err OverflowError, d)
    else if bool_decide (event_streams d !! p_stream p = Some (p_current p))
    then (Ok tt, set_stream d (p_stream p) required)
    else (Err (ConcurrencyError (p_stream p) (p_current p) (_current_sequence d (p_stream p))), d).

Fixpoint all_some {A} (l : list (option A)) : option (list A) :=
  match l with
  | [] => Some []
  | x :: l' => y ← x; ys ← all_some l'; Some (y :: ys)
  end.

Definition group (pairs : list candidate) (sid : string) : list candidate :=
  filter (λ c, stream_id c.1 = sid) pairs.

Definition append_many_in_transaction (c : connection) (events : list EventEnvelope)
    (expected_sequences : list (string * Z)) : txn (list EventEnvelope) :=
  _ ← lift (_validate_transaction_connection c);
  match events with
  | [] => mret []
  | _ =>
      stream_ids ← lift (_validate_append_request events expected_sequences);
      existing ← query (λ d, map_result (_idempotent_event d) events);
      match all_some existing with
      | Some stored => _ ← lift (_validate_existing_batch_order stored); mret stored
      | None =>
          let pairs : list candidate := zip events existing in
          plans ← map_txn (prepare_stream expected_sequences)
                    (map (λ s, (s, group pairs s)) stream_ids);
          appended ← map_txn append_one pairs;
          _ ← map_txn finish_stream plans;
          mret appended
      end
  end.

(** The connection [connect] opens, after [begin immediate]. *)
Definition own_connection : connection :=
  Connection true (Some 1) [("main", path)].

Definition append_many (events : list EventEnvelope) (expected_sequences : list (string * Z))
    : txn (list EventEnvelope) := λ d,
  match events with
  | [] => (Ok [], d)
  | _ =>
      match append_many_in_transaction own_connection events expected_sequences d with
      | (Ok appended, d') => (Ok appended, d')
      | (Err e, _) => (Err e, d)
      end
  end.

Definition append (e : EventEnvelope) (expected_sequence : Z) : txn EventEnvelope :=
  appended ← append_many [e] [(stream_id e, expected_sequence)];
  lift (of_option (RuntimeError "index") (head appended)).
End Store.

(** ** Reading *)

Definition _validate_cursor (cursor : Z) (limit : option Z) : result unit :=
  _ ← raise_if (cursor <? 0) (ValueError "cursor must be non-negative");
  raise_if (match limit with Some l => l <? 1 | None => false end)
    (ValueError "limit must be positive").

Definition limited {A} (limit : option Z) (l : list A) : list A :=
  match limit with Some n => take (Z.to_nat n) l | None => l end.

Definition get (d : db) (eid : string) : result (option EventEnvelope) :=
  match List.find (λ r, bool_decide (r_event_id r = eid)) (kernel_events d) with
  | None => Ok None
  | Some row => Some <$> _event_from_row row
  end.

Definition read_stream (d : db) (sid : string) (after_sequence : Z)
    (through_position limit : option Z) : result (list EventEnvelope) :=
  _ ← _validate_cursor after_sequence limit;
  _ ← match through_position with Some p => _validate_cursor p None | None => Ok tt end;
  let rows := filter (λ r, r_stream_id r = sid ∧ after_sequence < r_stream_sequence r
                           ∧ r_position r <= default (r_position r) through_position)
                (kernel_events d) in
  map_result _event_from_row
    (limited limit (isort (λ a b, r_stream_sequence a <=? r_stream_sequence b) rows)).

Definition read_all (d : db) (after_position : Z) (limit : option Z)
    : result (list EventEnvelope) :=
  _ ← _validate_cursor after_position limit;
  let rows := filter (λ r, after_position < r_position r) (kernel_events d) in
  map_result _event_from_row
    (limited limit (isort (λ a b, r_position a <=? r_position b) rows)).

Definition read_type_descending (d : db) (ty : string) (through_position limit : Z)
    : result (list EventEnvelope) :=
  _ ← raise_if (is_empty ty) (ValueError "event_type must be non-empty");
  _ ← _validate_cursor through_position (Some limit);
  let rows := filter (λ r, r_event_type r = ty ∧ r_position r <= through_position)
                (kernel_events d) in
  map_result _event_from_row
    (limited (Some limit) (isort (λ a b, r_position b <=? r_position a) rows)).

Definition current_position (d : db) : Z := foldr Z.max 0 (map r_position (kernel_events d)).
Definition current_sequence (d : db) (sid : string) : Z := _current_sequence d sid.
Definition store_len (d : db) : Z := zlen (kernel_events d).

(** ** A stored row reads back as the event that was written *)

Definition sorted_payload (e : EventEnvelope) : jobject :=
  match sort_json (JObj (payload e)) with JObj kvs => kvs | _ => [] end.

(** The event as it is read back: same fields, payload keys in sorted order. *)
Definition stored_event (position : Z) (e : EventEnvelope) : EventEnvelope :=
  MkEvent (event_id e) (stream_id e) (stream_sequence e) (event_type e) (schema_version e)
    (recorded_at e) (effective_at e) (correlation_id e) (causation_id e) (actor e) (source e)
    (sorted_payload e) (payload_hash e) (idempotency_key e) (Some position).

Lemma sorted_payload_json e : JObj (sorted_payload e) = sort_json (JObj (payload e)).
Proof. done. Qed.

Lemma stored_event_ok p e : event_ok e → 1 <= p → event_ok (stored_event p e).
Proof.
  intros [] Hp. constructor; try done.
  - intros q [= <-]. done.
  - cbn [payload stored_event]. rewrite sorted_payload_json. by apply sort_json_wf.
  - cbn [payload stored_event payload_hash]. rewrite sorted_payload_json. by apply sort_json_digest.
Qed.

Lemma isoformat_utc t : astimezone_utc t = Ok t → dt_offset t = Some 0 →
  fromisoformat (isoformat t) = Some t.
Proof. intros H _. by apply astimezone_utc_format in H as (_ & _ & ?). Qed.

Lemma event_from_row_of_event e p r :
  event_ok e → json_text_ok (JObj (payload e)) = true → 1 <= p →
  row_of_event e p = Ok r → _event_from_row r = Ok (stored_event p e).
Proof.
  intros Hok Htext Hp H. unfold row_of_event in H.
  apply bind_ok in H as (text & Ht & H). apply bind_ok in H as (h & _ & [= <-]).
  unfold canonical_json, canonical_json_bytes in Ht.
  rewrite freeze_thaw in Ht by apply Hok. cbn [mbind result_bind] in Ht.
  unfold _event_from_row. cbn [r_payload_json r_recorded_at r_effective_at].
  rewrite (json_loads_dumps _ _ (ok_payload _ Hok) Htext Ht), <-sorted_payload_json.
  cbn [of_option mbind result_bind as_mapping].
  rewrite (isoformat_utc (recorded_at e)), (isoformat_utc (effective_at e)) by apply Hok.
  cbn [of_option mbind result_bind].
  refine (event_replace_position_ok (stored_event p e) (Some p) _ _).
  - by apply stored_event_ok.
  - by intros q [= <-].
Qed.

(** ** The ledger invariant *)

Definition rows_of (d : db) (s : string) : list event_row :=
  filter (λ r, r_stream_id r = s) (kernel_events d).

Record db_ok (d : db) : Prop := {
  ok_positions : map r_position (kernel_events d) = seqZ 1 (zlen (kernel_events d));
  ok_autoincrement : db_sequence d = zlen (kernel_events d);
  ok_counts : ∀ s, _current_sequence d s = zlen (rows_of d s);
  ok_sequences : ∀ s, map r_stream_sequence (rows_of d s) = seqZ 1 (zlen (rows_of d s));
  ok_event_ids : NoDup (map r_event_id (kernel_events d));
  ok_streams : ∀ s n, event_streams d !! s = Some n → 1 <= n
}.

Lemma empty_db_ok : db_ok empty_db.
Proof. constructor; try done. constructor. Qed.

Lemma txn_bind_ok {A B} (m : txn A) (f : A → txn B) d b d' :
  (m ≫= f) d = (Ok b, d') ↔ ∃ a d1, m d = (Ok a, d1) ∧ f a d1 = (Ok b, d').
Proof.
  unfold mbind, txn_bind. destruct (m d) as [[a|e] d1] eqn:E; split.
  - intros H. eauto.
  - intros (a' & d2 & [= <- <-] & H). done.
  - done.
  - intros (a' & d2 & [=] & _).
Qed.

Lemma lift_ok {A} (r : result A) d a d' : lift r d = (Ok a, d') ↔ r = Ok a ∧ d' = d.
Proof. unfold lift. naive_solver. Qed.

Lemma query_ok {A} (f : db → result A) d a d' : query f d = (Ok a, d') ↔ f d = Ok a ∧ d' = d.
Proof. unfold query. split; [by intros [= -> ->]|by intros [-> ->]]. Qed.

(** *** What the validation of a stream's batch establishes *)

Lemma count_prefix_spec err events p :
  count_prefix err events = Ok p →
  ∃ olds news, events = olds ++ news ∧ Forall (λ c, is_Some c.2) olds
    ∧ Forall (λ c : candidate, c.2 = None) news ∧ p = zlen olds.
Proof.
  unfold count_prefix. intros H. apply bind_ok in H as ([q b] & H & [= <-]).
  set (step := λ '(_, _) _, _) in H.
  assert (G : ∀ events p0 b0 q b, fold_result step (p0, b0) events = Ok (q, b) →
    if b0 : bool then Forall (λ c : candidate, c.2 = None) events ∧ q = p0
    else ∃ olds news, events = olds ++ news ∧ Forall (λ c : candidate, is_Some c.2) olds
      ∧ Forall (λ c : candidate, c.2 = None) news ∧ q = p0 + zlen olds).
  { clear. induction events as [|[c o] events IH]; intros p0 b0 q b; simpl.
    - intros [= -> ->]. destruct b; [done|]. exists [], []. split_and!; try done. unfold zlen. simpl. lia.
    - intros H. apply bind_ok in H as ([p1 b1] & Hs & H). apply IH in H.
      destruct o as [st|]; simpl in Hs.
      + apply bind_ok in Hs as (u & Hr & [= <- <-]). apply raise_if_ok in Hr as ->.
        destruct H as (olds & news & -> & Ho & Hn & ->).
        exists ((c, Some st) :: olds), news. split_and!; try done; [by constructor|].
        unfold zlen. simpl. lia.
      + injection Hs as <- <-. destruct H as [Hn ->]. destruct b0.
        * split; [by constructor|done].
        * exists [], ((c, None) :: events). split_and!; try done; [by constructor|].
          unfold zlen. simpl. lia. }
  apply G in H as (olds & news & -> & Ho & Hn & ->). exists olds, news. split_and!; try done.
Qed.

Lemma validate_batch_stream_spec sid events expected actual p :
  _validate_batch_stream sid events expected actual = Ok p →
  ∃ olds news, events = olds ++ news ∧ Forall (λ c, is_Some c.2) olds
    ∧ Forall (λ c : candidate, c.2 = None) news ∧ p = zlen olds ∧ actual = expected + p
    ∧ map (λ c : candidate, stream_sequence c.1) news = seqZ (actual + 1) (zlen news).
Proof.
  unfold _validate_batch_stream. intros H.
  apply bind_ok in H as (q & Hc & H). apply bind_ok in H as (u1 & Hr & H).
  apply bind_ok in H as (u2 & Hf & [= <-]). apply raise_if_ok in Hr.
  apply count_prefix_spec in Hc as (olds & news & -> & Ho & Hn & ->).
  exists olds, news. split_and!; try done; [lia|].
  match type of Hf with fold_result ?f _ _ = _ => set (step := f) in Hf end.
  assert (Hstep : ∀ k c k', step k c = Ok k' → k' = k + 1
    ∧ (c.2 = None → stream_sequence c.1 = expected + k)).
  { intros k [c [st|]] k' Hs; apply bind_ok in Hs as (? & Hq & [= <-]);
      apply raise_if_ok in Hq; (split; [done|]); simpl in *; [done|lia]. }
  clearbody step.
  rewrite fold_result_app in Hf. apply bind_ok in Hf as (o & Hf1 & Hf2).
  assert (o = 1 + zlen olds) as ->.
  { clear -Hf1 Hstep. revert Hf1. generalize 1 as k. induction olds as [|c olds IH]; intros k; simpl.
    - intros [= <-]. unfold zlen. simpl. lia.
    - intros H. apply bind_ok in H as (k' & [-> _]%Hstep & H). apply IH in H.
      unfold zlen in *. simpl. lia. }
  assert (actual + 1 = expected + (1 + zlen olds)) as -> by lia.
  revert Hf2 Hn. generalize (1 + zlen olds) as k. clear -Hstep.
  induction news as [|c news IH]; intros k H Hn; simpl in *; [done|].
  inversion Hn as [|?? Hc Hn']; subst.
  apply bind_ok in H as (k' & [-> Hs]%Hstep & H). specialize (Hs Hc). apply IH in H; [|done].
  replace (zlen (c :: news)) with (Z.succ (zlen news)) by (unfold zlen; simpl; lia).
  rewrite seqZ_cons by (unfold zlen; lia). f_equal; [lia|].
  rewrite Z.pred_succ. replace (Z.succ (expected + k)) with (expected + (k + 1)) by lia. done.
Qed.

(** *** The three loops of an append *)

Lemma current_set_eq d s n : _current_sequence (set_stream d s n) s = n.
Proof. unfold _current_sequence. simpl. by rewrite lookup_insert_eq. Qed.

Lemma current_set_ne d s t n : s ≠ t → _current_sequence (set_stream d s n) t = _current_sequence d t.
Proof. intros. unfold _current_sequence. simpl. by rewrite lookup_insert_ne. Qed.

Definition plan_ok (exp : list (string * Z)) (d : db) (g : string * list candidate) (p : stream_plan) : Prop :=
  p_stream p = g.1 ∧ p_events p = g.2 ∧ p_current p = _current_sequence d g.1
  ∧ ∃ expected, dict_get g.1 exp = Some expected ∧ _validate_batch_stream g.1 g.2 expected (_current_sequence d g.1) = Ok (p_prefix p).

Lemma open_stream_ok sid actual d u d' : open_stream sid actual d = (Ok u, d') →
  actual = _current_sequence d sid →
  kernel_events d' = kernel_events d ∧ db_sequence d' = db_sequence d
  ∧ (∀ s, _current_sequence d' s = _current_sequence d s)
  ∧ (∀ s, is_Some (event_streams d !! s) → is_Some (event_streams d' !! s))
  ∧ (∀ s, s ≠ sid → event_streams d' !! s = event_streams d !! s)
  ∧ is_Some (event_streams d' !! sid).
Proof.
  unfold open_stream. intros H Ha. destruct (Z.eqb_spec actual 0) as [->|Hne].
  - destruct (event_streams d !! sid) eqn:E; [done|].
    destruct (sql_nonempty sid); [|done]. injection H as _ <-. split_and!; try done.
    + intros s. destruct (decide (sid = s)) as [->|]; [|by apply current_set_ne].
      by rewrite current_set_eq.
    + intros s Hs. simpl. destruct (decide (sid = s)) as [->|]; [by rewrite lookup_insert_eq|].
      by rewrite lookup_insert_ne.
    + intros s Hs. simpl. by rewrite lookup_insert_ne.
    + simpl. by rewrite lookup_insert_eq.
  - injection H as _ <-. split_and!; try done.
    unfold _current_sequence in Ha. destruct (event_streams d !! sid); simpl in *; [by eexists|lia].
Qed.

Lemma prepare_streams_ok exp gs d plans d' :
  map_txn (prepare_stream exp) gs d = (Ok plans, d') →
  kernel_events d' = kernel_events d ∧ db_sequence d' = db_sequence d
  ∧ Forall2 (plan_ok exp d) gs plans
  ∧ (∀ s, _current_sequence d' s = _current_sequence d s)
  ∧ (∀ s, s ∉ gs.*1 → event_streams d' !! s = event_streams d !! s)
  ∧ (∀ s, is_Some (event_streams d !! s) ∨ s ∈ gs.*1 → is_Some (event_streams d' !! s)).
Proof.
  revert d plans d'. induction gs as [|[sid evs] gs IH]; intros d plans d'; simpl.
  - intros [= <- <-]. split_and!; try done. intros s [?|?%elem_of_nil]; done.
  - intros H. apply txn_bind_ok in H as (pl & d1 & H1 & H).
    apply txn_bind_ok in H as (pls & d2 & H2 & [= <- <-]).
    unfold prepare_stream in H1.
    apply txn_bind_ok in H1 as (ex & d3 & [Hex ->]%lift_ok & H1).
    apply txn_bind_ok in H1 as (ac & d3 & [[= <-] ->]%query_ok & H1).
    apply txn_bind_ok in H1 as (pre & d3 & [Hpre ->]%lift_ok & H1).
    apply txn_bind_ok in H1 as (u & d3 & Ho & [= <- <-]).
    apply open_stream_ok in Ho as (O1 & O2 & O3 & O4 & O5 & O6); [|done].
    apply IH in H2 as (I1 & I2 & I3 & I4 & I5 & I6).
    split_and!; try congruence.
    + constructor; [apply of_option_ok in Hex; by repeat (split; [done|]); exists ex|].
      eapply Forall2_impl; [exact I3|]. intros [s l] p (?&?&?&?&?&?). simpl in *.
      unfold plan_ok. simpl. rewrite <-O3. eauto 10.
    + intros s [Hs Hg]%not_elem_of_cons. rewrite I5, O5; done.
    + intros s [Hs|[->|Hs]%elem_of_cons]; apply I6; auto.
Qed.

(** How a fresh candidate and its row correspond. *)
Definition inserted (c : candidate) (r : event_row) : Prop :=
  row_of_event c.1 (r_position r) = Ok r.

Lemma row_of_event_fields e p r : row_of_event e p = Ok r →
  r_position r = p ∧ r_event_id r = event_id e ∧ r_stream_id r = stream_id e
  ∧ r_stream_sequence r = stream_sequence e ∧ r_idempotency_key r = idempotency_key e
  ∧ (∀ k, idempotency_key e = Some k → ∃ h, idempotency_hash e = Ok h ∧ r_idempotency_hash r = Some h).
Proof.
  unfold row_of_event. intros H. apply bind_ok in H as (t & _ & H).
  apply bind_ok in H as (h & Hh & [= <-]). simpl. split_and!; try done.
  intros k Hk. rewrite Hk in Hh. apply fmap_ok in Hh as (h' & ? & <-). eauto.
Qed.

(** What one insert adds: the row is the event's, it violates no constraint,
    and the event is returned with its position. *)
Lemma insert_event_ok e d e' d' : _insert_event e d = (Ok e', d') →
  ∃ r, row_of_event e (db_sequence d + 1) = Ok r ∧ row_allowed d r = true ∧ d' = add_row d r
    ∧ event_replace_position e (Some (db_sequence d + 1)) = Ok e'.
Proof.
  unfold _insert_event. destruct (row_of_event e _) as [r|] eqn:E; [|done].
  destruct (negb _); [done|]. destruct (max_int64 <? _); [done|].
  destruct (row_allowed d r) eqn:Ea; [|done]. intros [= H <-]. eauto.
Qed.

(** The result of appending one candidate. *)
Definition appended_as (c : candidate) (e : EventEnvelope) : Prop :=
  match c.2 with
  | Some stored => e = stored
  | None => ∃ p, event_replace_position c.1 (Some p) = Ok e
  end.

Lemma append_loop_ok pairs d out d' :
  map_txn append_one pairs d = (Ok out, d') →
  ∃ new, kernel_events d' = kernel_events d ++ new
    ∧ event_streams d' = event_streams d
    ∧ Forall2 inserted (filter (λ c : candidate, c.2 = None) pairs) new
    ∧ map r_position new = seqZ (db_sequence d + 1) (zlen new)
    ∧ db_sequence d' = db_sequence d + zlen new
    ∧ Forall2 appended_as pairs out
    ∧ (NoDup (map r_event_id (kernel_events d)) → NoDup (map r_event_id (kernel_events d'))).
Proof.
  revert d out d'. induction pairs as [|[c o] pairs IH]; intros d out d'; simpl.
  - intros [= <- <-]. exists []. rewrite app_nil_r. split_and!; try done. unfold zlen. simpl. lia.
  - intros H. apply txn_bind_ok in H as (e & d1 & H1 & H).
    apply txn_bind_ok in H as (es & d2 & H2 & [= <- <-]).
    apply IH in H2 as (new & N1 & N2 & N3 & N4 & N5 & N6 & N7).
    destruct o as [st|]; unfold append_one in H1; simpl in H1.
    + injection H1 as <- <-. exists new. rewrite filter_cons_False by done.
      split_and!; try done. by constructor.
    + apply insert_event_ok in H1 as (r & Hr & Ha & -> & He).
      pose proof (row_of_event_fields _ _ _ Hr) as (Fp & _).
      exists (r :: new). simpl in N1, N2, N4, N5, N7. rewrite filter_cons_True by done.
      rewrite Fp in N4, N5. unfold zlen in *.
      assert (Z.of_nat (length (r :: new)) = Z.succ (Z.of_nat (length new))) as El by (simpl; lia).
      split_and!; try done.
      * by rewrite N1, <-app_assoc.
      * constructor; [|done]. unfold inserted. by rewrite Fp.
      * simpl map. rewrite El, seqZ_cons by lia. rewrite Fp, N4, Z.pred_succ. f_equal; f_equal; lia.
      * lia.
      * constructor; [|done]. by exists (db_sequence d + 1).
      * intros Hnd. apply N7. rewrite map_app. simpl.
        unfold row_allowed in Ha. repeat (apply andb_true_iff in Ha as [Ha ?]).
        apply NoDup_app. split_and!; [done| |apply NoDup_singleton].
        intros x Hx ->%list_elem_of_singleton. by inv_ok.
Qed.

Lemma finish_stream_ok p d u d' : finish_stream p d = (Ok u, d') →
  kernel_events d' = kernel_events d ∧ db_sequence d' = db_sequence d
  ∧ (∀ s, s ≠ p_stream p → event_streams d' !! s = event_streams d !! s)
  ∧ (zlen (p_events p) - p_prefix p = 0 ∧ event_streams d' !! p_stream p = event_streams d !! p_stream p
     ∨ event_streams d' !! p_stream p = Some (p_current p + (zlen (p_events p) - p_prefix p))).
Proof.
  unfold finish_stream. destruct (Z.eqb_spec (zlen (p_events p) - p_prefix p) 0) as [E|].
  - intros [= _ <-]. split_and!; try done. by left.
  - destruct (negb _); [done|]. case_bool_decide; [|done]. intros [= _ <-]. simpl. split_and!; try done.
    + intros. by rewrite lookup_insert_ne.
    + right. by rewrite lookup_insert_eq.
Qed.

Lemma finish_loop_ok plans d u d' :
  NoDup (map p_stream plans) →
  map_txn finish_stream plans d = (Ok u, d') →
  kernel_events d' = kernel_events d ∧ db_sequence d' = db_sequence d
  ∧ (∀ s, s ∉ map p_stream plans → event_streams d' !! s = event_streams d !! s)
  ∧ Forall (λ p, zlen (p_events p) - p_prefix p = 0
        ∧ event_streams d' !! p_stream p = event_streams d !! p_stream p
     ∨ event_streams d' !! p_stream p = Some (p_current p + (zlen (p_events p) - p_prefix p))) plans.
Proof.
  revert d u d'. induction plans as [|p plans IH]; intros d u d' Hnd; simpl.
  - intros [= <- <-]. split_and!; done.
  - intros H. apply txn_bind_ok in H as (e & d1 & H1 & H).
    apply txn_bind_ok in H as (es & d2 & H2 & [= <- <-]).
    apply NoDup_cons in Hnd as [Hp Hnd].
    apply finish_stream_ok in H1 as (F1 & F2 & F3 & F4).
    apply IH in H2 as (I1 & I2 & I3 & I4); [|done].
    split_and!; try congruence.
    + intros s [Hs Ht]%not_elem_of_cons. rewrite I3, F3; done.
    + constructor; [rewrite (I3 (p_stream p)) by done; done|].
      rewrite Forall_forall in I4 |- *. intros q Hq. rewrite <-(F3 (p_stream q)); [by apply I4|].
      intros E. apply Hp. rewrite <-E. apply list_elem_of_fmap. eauto.
Qed.

(** *** The invariant is kept *)

Lemma filter_filter_comm {A} (P Q : A → Prop) `{∀ x, Decision (P x), ∀ x, Decision (Q x)} (l : list A) :
  filter P (filter Q l) = filter Q (filter P l).
Proof.
  induction l as [|x l IH]; [done|]. rewrite !filter_cons.
  repeat case_decide; rewrite ?filter_cons; repeat case_decide; try done; by rewrite IH.
Qed.

Lemma inserted_group pairs new s :
  Forall2 inserted (filter (λ c : candidate, c.2 = None) pairs) new →
  Forall2 inserted (filter (λ c : candidate, c.2 = None) (group pairs s))
    (filter (λ r, r_stream_id r = s) new).
Proof.
  unfold group. rewrite filter_filter_comm.
  induction 1 as [|c r cs rs Hcr _ IH]; [constructor|].
  pose proof (row_of_event_fields _ _ _ Hcr) as (_ & _ & Hs & _).
  rewrite !filter_cons, <-Hs. case_decide; [by constructor|done].
Qed.

Lemma inserted_sequences cs rs : Forall2 inserted cs rs →
  map r_stream_sequence rs = map (λ c : candidate, stream_sequence c.1) cs.
Proof.
  induction 1 as [|c r cs rs Hcr _ IH]; [done|]. simpl.
  pose proof (row_of_event_fields _ _ _ Hcr) as (_ & _ & _ & -> & _). by rewrite IH.
Qed.

Lemma filter_all_none (olds news : list candidate) :
  Forall (λ c, is_Some c.2) olds → Forall (λ c : candidate, c.2 = None) news →
  filter (λ c : candidate, c.2 = None) (olds ++ news) = news.
Proof.
  intros Ho Hn. rewrite filter_app.
  assert (filter (λ c : candidate, c.2 = None) olds = []) as ->.
  { induction Ho as [|c l [x Hx] _ IH]; [done|]. rewrite filter_cons_False; [done|congruence]. }
  simpl. induction Hn; [done|]. rewrite filter_cons_True by done. by f_equal.
Qed.

(** A stream of the batch after the three loops. *)
Lemma planned_stream exp d d2 d' pairs p s new :
  plan_ok exp d (s, group pairs s) p → group pairs s ≠ [] →
  (∀ n, dict_get s exp = Some n → 0 <= n) →
  Forall2 inserted (filter (λ c : candidate, c.2 = None) pairs) new →
  event_streams d2 !! s = Some (_current_sequence d s) →
  (zlen (p_events p) - p_prefix p = 0 ∧ event_streams d' !! s = event_streams d2 !! s
     ∨ event_streams d' !! s = Some (p_current p + (zlen (p_events p) - p_prefix p))) →
  let n := zlen (filter (λ r, r_stream_id r = s) new) in
  map r_stream_sequence (filter (λ r, r_stream_id r = s) new) = seqZ (_current_sequence d s + 1) n
  ∧ event_streams d' !! s = Some (_current_sequence d s + n) ∧ 1 <= _current_sequence d s + n.
Proof.
  intros (Q1 & Q2 & Q3 & k & Hk & Hv) Hne Hexp Hins Hd2 Hfin n. simpl in Q1, Q2, Q3, Hv, Hk.
  apply Hexp in Hk.
  apply validate_batch_stream_spec in Hv as (olds & news & Eg & Ho & Hn & Epre & Ecur & Hseq).
  pose proof (inserted_group _ _ s Hins) as Hg. rewrite Eg, filter_all_none in Hg by done.
  assert (n = zlen news) as ->.
  { unfold n, zlen. f_equal. symmetry. by eapply Forall2_length. }
  rewrite (inserted_sequences _ _ Hg). rewrite Q2, Q3, Eg, Epre, zlen_app in Hfin.
  pose proof (zlen_nonneg news). pose proof (zlen_nonneg olds).
  assert (1 <= zlen olds + zlen news).
  { rewrite <-zlen_app, <-Eg. destruct (group pairs s); [done|]. unfold zlen. simpl. lia. }
  split_and!; [done| |lia].
  destruct Hfin as [[E ->]| ->]; [rewrite Hd2|]; f_equal; lia.
Qed.

Lemma rows_of_app d d' new s : kernel_events d' = kernel_events d ++ new →
  rows_of d' s = rows_of d s ++ filter (λ r, r_stream_id r = s) new.
Proof. intros H. unfold rows_of. by rewrite H, filter_app. Qed.

Lemma elem_of_zip_total {A B} (l : list A) (k : list B) x :
  length k = length l → x ∈ l → ∃ y, (x, y) ∈ zip l k.
Proof.
  intros Hl [i Hi]%list_elem_of_lookup.
  destruct (lookup_lt_is_Some_2 k i) as [y Hy].
  { rewrite Hl. by eapply lookup_lt_Some. }
  exists y. apply list_elem_of_lookup. exists i. by rewrite lookup_zip_with, Hi, Hy.
Qed.

Section StoreFacts.
Context (path : string) (resolve : string → string) (set_order : list string → list string).
Context (Hset : ∀ l, set_order l ≡ₚ l).

(** What a successful append did: nothing (an idempotent retry), or the
    three loops above in turn. *)
Lemma append_in_transaction_cases c events exp d out d' :
  append_many_in_transaction path resolve set_order c events exp d = (Ok out, d') →
  d' = d ∧ (events = [] ∨ ∃ stored, out = stored
     ∧ map_result (_idempotent_event d) events = Ok (map Some stored))
  ∨ ∃ existing plans d1 d2 u,
      map_result (_idempotent_event d) events = Ok existing
      ∧ (∀ s n, s ∈ set_order (remove_dups (map stream_id events)) →
           dict_get s exp = Some n → 0 <= n)
      ∧ map_txn (prepare_stream exp) (map (λ s, (s, group (zip events existing) s))
          (set_order (remove_dups (map stream_id events)))) d = (Ok plans, d1)
      ∧ map_txn append_one (zip events existing) d1 = (Ok out, d2)
      ∧ map_txn finish_stream plans d2 = (Ok u, d').
Proof.
  unfold append_many_in_transaction. intros H.
  apply txn_bind_ok in H as (u & d0 & [_ ->]%lift_ok & H).
  destruct events as [|e events]; [injection H as <- <-; auto|]. remember (e :: events) as evs.
  apply txn_bind_ok in H as (ids & d0 & [Hids ->]%lift_ok & H).
  apply txn_bind_ok in H as (existing & d0 & [Hex ->]%query_ok & H).
  unfold _validate_append_request in Hids. inv_ok.
  destruct (all_some existing) as [stored|] eqn:Es.
  - apply txn_bind_ok in H as (u' & d0 & [_ ->]%lift_ok & [= <- <-]).
    left. split; [done|]. right. exists stored. split; [done|]. rewrite Hex. f_equal.
    revert stored Es. clear. induction existing as [|x existing IH]; intros stored; simpl.
    + by intros [= <-].
    + destruct x; simpl; [|done]. destruct (all_some existing); simpl; [|done].
      intros [= <-]. simpl. by rewrite (IH l).
  - apply txn_bind_ok in H as (plans & d1 & Hp & H).
    apply txn_bind_ok in H as (app & d2 & Ha & H).
    apply txn_bind_ok in H as (us & d3 & Hf & [= <- <-]).
    right. exists existing, plans, d1, d2, us. split_and!; try done.
    intros s n Hs Hn.
    match goal with H : existsb (λ s, default 0 _ <? 0) _ = false |- _ =>
      rewrite existsb_false in H; specialize (H s Hs) end.
    rewrite Hn in *. simpl in *. lia.
Qed.

Lemma set_order_spec l s : s ∈ set_order (remove_dups l) ↔ s ∈ l.
Proof. by rewrite Hset, elem_of_remove_dups. Qed.

Lemma set_order_NoDup l : NoDup (set_order (remove_dups l)).
Proof. rewrite Hset. apply NoDup_remove_dups. Qed.

Lemma append_in_transaction_ok c events exp d out d' :
  db_ok d → append_many_in_transaction path resolve set_order c events exp d = (Ok out, d') →
  db_ok d' ∧ ∃ new, kernel_events d' = kernel_events d ++ new.
Proof.
  intros Hok H. destruct (append_in_transaction_cases _ _ _ _ _ _ H)
    as [[-> _]|(existing & plans & d1 & d2 & u & Hex & Hexp & Hprep & Happ & Hfin)].
  { split; [done|]. exists []. by rewrite app_nil_r. }
  set (pairs := zip events existing) in *.
  set (ids := set_order (remove_dups (map stream_id events))) in *.
  assert (Hids : (map (λ s, (s, group pairs s)) ids).*1 = ids).
  { rewrite <-list_fmap_compose. apply list_fmap_id. }
  apply prepare_streams_ok in Hprep as (P1 & P2 & P3 & P4 & P5 & P6). rewrite Hids in P5, P6.
  apply append_loop_ok in Happ as (new & A1 & A2 & A3 & A4 & A5 & A6 & A7).
  assert (Hplans : map p_stream plans = ids).
  { rewrite <-Hids. clear -P3. induction P3 as [|g p gs ps (E & _) _ IH]; simpl; [done|by rewrite E, IH]. }
  apply finish_loop_ok in Hfin as (F1 & F2 & F3 & F4);
    [|rewrite Hplans; apply set_order_NoDup].
  rewrite Hplans in F3.
  assert (Hev : kernel_events d' = kernel_events d ++ new) by congruence.
  assert (Hpairs : ∀ c, c ∈ pairs → stream_id c.1 ∈ ids).
  { intros [e o] He. apply elem_of_zip_l in He. apply set_order_spec, list_elem_of_fmap. eauto. }
  assert (Hcov : ∀ s, s ∈ ids → group pairs s ≠ []).
  { intros s Hs Hnil. apply set_order_spec, list_elem_of_fmap in Hs as (e & -> & He).
    destruct (elem_of_zip_total events existing e) as [o Ho];
      [by eapply map_result_length|done|].
    assert ((e, o) ∈ group pairs (stream_id e)) as Hin by by apply list_elem_of_filter.
    rewrite Hnil in Hin. by apply elem_of_nil in Hin. }
  assert (Hin : ∀ s, s ∈ ids → ∃ p, p ∈ plans ∧ plan_ok exp d (s, group pairs s) p).
  { intros s Hs. apply list_elem_of_lookup in Hs as [i Hi].
    destruct (Forall2_lookup_l _ _ _ i (s, group pairs s) P3) as (p & Hp & ?).
    - by rewrite list_lookup_fmap, Hi.
    - exists p. split; [by eapply list_elem_of_lookup_2|done]. }
  assert (Hs_in : ∀ s, s ∈ ids →
    let n := zlen (filter (λ r, r_stream_id r = s) new) in
    map r_stream_sequence (filter (λ r, r_stream_id r = s) new) = seqZ (_current_sequence d s + 1) n
    ∧ event_streams d' !! s = Some (_current_sequence d s + n) ∧ 1 <= _current_sequence d s + n).
  { intros s Hs. destruct (Hin s Hs) as (p & Hp & Hpok).
    eapply (planned_stream exp d d2 d' pairs p s new); try done; [by apply Hcov| | |].
    - intros n Hn. by eapply Hexp.
    - rewrite A2. destruct (P6 s (or_intror Hs)) as [k Hk]. rewrite Hk, <-P4.
      unfold _current_sequence. by rewrite Hk.
    - rewrite Forall_forall in F4. specialize (F4 p Hp). destruct Hpok as (Hps & _). simpl in Hps. by rewrite Hps in F4. }
  assert (Hs_out : ∀ s, s ∉ ids → filter (λ r, r_stream_id r = s) new = []
    ∧ event_streams d' !! s = event_streams d !! s).
  { intros s Hs. rewrite F3, A2, P5 by done. split; [|done].
    pose proof (inserted_group _ _ s A3) as Hg.
    assert (group pairs s = []) as E.
    { destruct (group pairs s) as [|[e o] l] eqn:E; [done|]. exfalso. apply Hs.
      assert ((e, o) ∈ group pairs s) as [<- He]%list_elem_of_filter by (rewrite E; by left).
      by apply (Hpairs (e, o)). }
    rewrite E in Hg. by inversion Hg. }
  split; [|by exists new]. constructor.
  - rewrite Hev, map_app, zlen_app, A4, P2, (ok_positions d Hok), (ok_autoincrement d Hok).
    rewrite seqZ_app by apply zlen_nonneg. f_equal. f_equal. lia.
  - rewrite F2, A5, P2, Hev, zlen_app. by rewrite (ok_autoincrement d Hok).
  - intros s. rewrite (rows_of_app _ _ _ s Hev), zlen_app, <-(ok_counts d Hok).
    destruct (decide (s ∈ ids)) as [Hs|Hs].
    + destruct (Hs_in s Hs) as (_ & E & _). unfold _current_sequence at 1. by rewrite E.
    + destruct (Hs_out s Hs) as [-> E]. unfold _current_sequence. rewrite E. unfold zlen. simpl. lia.
  - intros s. rewrite (rows_of_app _ _ _ s Hev), zlen_app, map_app, (ok_sequences d Hok).
    destruct (decide (s ∈ ids)) as [Hs|Hs].
    + destruct (Hs_in s Hs) as (-> & _ & _). rewrite (ok_counts d Hok).
      rewrite seqZ_app by apply zlen_nonneg. do 2 f_equal. lia.
    + destruct (Hs_out s Hs) as [-> _]. simpl. rewrite app_nil_r. f_equal. unfold zlen. simpl. lia.
  - rewrite F1. apply A7. rewrite P1. apply Hok.
  - intros s n Hn. destruct (decide (s ∈ ids)) as [Hs|Hs].
    + destruct (Hs_in s Hs) as (_ & E & ?). rewrite Hn in E. injection E as ->. done.
    + destruct (Hs_out s Hs) as [_ E]. rewrite E in Hn. by eapply Hok.
Qed.

Abbreviation append_many := (append_many path resolve set_order).
Abbreviation append := (append path resolve set_order).
Abbreviation append_tx := (append_many_in_transaction path resolve set_order).

Lemma append_many_cases events exp d res d' :
  append_many events exp d = (res, d') →
  (∃ e, res = Err e ∧ d' = d) ∨ res = Ok [] ∧ d' = d
  ∨ ∃ out, res = Ok out ∧ append_tx (own_connection path) events exp d = (Ok out, d').
Proof.
  unfold EventStore.append_many. destruct events as [|e events].
  - intros [= <- <-]. auto.
  - destruct (append_tx _ _ _ d) as [[out|ex] d1] eqn:E; intros [= <- <-]; [|eauto].
    right. right. eauto.
Qed.

Lemma append_many_db_ok events exp d res d' :
  db_ok d → append_many events exp d = (res, d') → db_ok d'.
Proof.
  intros Hok [(e & -> & ->)|[[-> ->]|(out & -> & H)]]%append_many_cases; try done.
  by eapply append_in_transaction_ok in H as [? _].
Qed.

(** C21 (append_many_preserves): whatever a batch append does — commit, answer an
    idempotent retry or raise — the ledger keeps its invariant: global
    positions are 1, 2, 3, ... in insertion order, every stream's events
    carry the sequences 1, 2, 3, ... without gap or repetition, the stream
    counter equals the number of its events and event identifiers are
    unique. *)
Theorem append_many_preserves events exp d res d' :
  db_ok d → append_many events exp d = (res, d') → db_ok d'.
Proof. apply append_many_db_ok. Qed.

(** C22 (append_many_atomic): the ledger is append-only and a batch is atomic: after
    [append_many] the rows that were there are still there, unchanged and
    in the same order, with the new rows behind them; and if it raises, the
    tables are exactly as before. *)
Theorem append_many_atomic events exp d res d' :
  db_ok d → append_many events exp d = (res, d') →
  kernel_events d `prefix_of` kernel_events d' ∧ (is_ok res = false → d' = d).
Proof.
  intros Hok [(e & -> & ->)|[[-> ->]|(out & -> & H)]]%append_many_cases; try done.
  split; [|done]. eapply append_in_transaction_ok in H as [_ (new & ->)]; [|done].
  by exists new.
Qed.

Lemma set_order_single s : set_order (remove_dups [s]) = [s].
Proof. apply Permutation_singleton_r. by rewrite Hset. Qed.

(** A single event whose key the ledger does not know. *)
Lemma append_fresh_cases e k d e' d' :
  _idempotent_event d e = Ok None → append e k d = (Ok e', d') →
  _current_sequence d (stream_id e) = k ∧ stream_sequence e = k + 1
  ∧ ∃ r, row_of_event e (db_sequence d + 1) = Ok r
    ∧ kernel_events d' = kernel_events d ++ [r]
    ∧ _current_sequence d' (stream_id e) = k + 1
    ∧ (∀ s, s ≠ stream_id e → _current_sequence d' s = _current_sequence d s)
    ∧ event_replace_position e (Some (db_sequence d + 1)) = Ok e'.
Proof.
  intros Hfresh H. unfold EventStore.append in H.
  apply txn_bind_ok in H as (out & d0 & Ha & [Hh ->]%lift_ok).
  apply append_many_cases in Ha as [(? & [=] & _)|[[[= ->] ->]|(out' & [= <-] & Ha)]]; [done|].
  apply append_in_transaction_cases in Ha
    as [[-> [?|(stored & -> & Hs)]]|(existing & plans & d1 & d2 & u & Hex & Hexp & Hp & Ha & Hf)];
    [done| |].
  { simpl in Hs. rewrite Hfresh in Hs. simpl in Hs. by destruct stored as [|? []]. }
  simpl in Hex. rewrite Hfresh in Hex. injection Hex as <-.
  change (map stream_id [e]) with [stream_id e] in Hp, Hexp. rewrite set_order_single in Hp, Hexp.
  assert (Hg : group (zip [e] [None]) (stream_id e) = [(e, None)]).
  { unfold group. simpl. by rewrite filter_cons_True. }
  cbn [map] in Hp. rewrite Hg in Hp.
  apply prepare_streams_ok in Hp as (P1 & P2 & P3 & P4 & P5 & P6).
  inversion P3 as [|? p ? ps Hpl Hnil]; subst. inversion Hnil; subst.
  destruct Hpl as (Q1 & Q2 & Q3 & ex & Hex & Hv). simpl in *.
  rewrite decide_True in Hex by done. injection Hex as <-.
  apply validate_batch_stream_spec in Hv as (olds & news & Eg & Ho & Hn & Epre & Ecur & Hseq).
  destruct olds as [|c olds].
  2: { simpl in Eg. injection Eg as <- Eg. inversion Ho as [|?? [? ?]]; subst. done. }
  simpl in Eg. subst news. simpl in Hseq. injection Hseq as Hseq.
  change (p_prefix p = 0) in Epre.
  apply txn_bind_ok in Ha as (e1 & d3 & Ha & Hr). injection Hr as <- <-.
  unfold append_one in Ha. simpl in Ha. apply insert_event_ok in Ha as (r & Hr & _ & -> & He).
  simpl in Hh. injection Hh as <-.
  apply txn_bind_ok in Hf as (u1 & d4 & Hf & Hr'). injection Hr' as <- <-.
  apply finish_stream_ok in Hf as (F1 & _ & F3 & F4). rewrite Q1, Q2, Q3, Epre in *.
  assert (stream_sequence e = k + 1) by lia.
  split; [lia|]. split; [done|]. exists r. rewrite P2 in Hr, He. simpl in F1.
  split_and!; try done.
  - by rewrite F1, P1.
  - unfold _current_sequence at 1. destruct F4 as [[? _]| ->]; [done|]. simpl. unfold zlen. simpl. lia.
  - intros s Hs. unfold _current_sequence. rewrite F3 by done. apply P4.
Qed.

(** Appending one event the ledger has no idempotent record
    of succeeds only if the caller's expected sequence is the stream's
    current one and the event declares the next one; then exactly one row is
    added, at the next global position, it reads back as the appended event,
    the stream advances by one and no other stream moves, and the caller
    gets its event back with the position filled in. *)
Theorem append_fresh e k d e' d' :
  db_ok d → event_ok e → json_text_ok (JObj (payload e)) = true →
  _idempotent_event d e = Ok None → append e k d = (Ok e', d') →
  let p := zlen (kernel_events d) + 1 in
  _current_sequence d (stream_id e) = k ∧ stream_sequence e = k + 1
  ∧ (∃ r, kernel_events d' = kernel_events d ++ [r] ∧ _event_from_row r = Ok (stored_event p e))
  ∧ _current_sequence d' (stream_id e) = k + 1
  ∧ (∀ s, s ≠ stream_id e → _current_sequence d' s = _current_sequence d s)
  ∧ e' = with_position (Some p) e.
Proof.
  intros Hd He Ht Hfresh H p.
  apply append_fresh_cases in H as (H1 & H2 & r & H3 & H4 & H5 & H6 & H7); [|done].
  rewrite (ok_autoincrement d Hd) in H3, H7. pose proof (zlen_nonneg (kernel_events d)).
  assert (1 <= p) by (unfold p; lia).
  split_and!; try done.
  - exists r. split; [done|]. by apply event_from_row_of_event.
  - rewrite event_replace_position_ok in H7; [by injection H7|done|]. intros q [= <-]. done.
Qed.

(** Looking up a key after one row was added. *)
Lemma find_app_single {A} (f : A → bool) l x :
  List.find f l = None → f x = true → List.find f (l ++ [x]) = Some x.
Proof.
  induction l as [|y l IH]; simpl; [by intros _ ->|]. destruct (f y); [done|]. auto.
Qed.

Lemma idempotent_event_none d e key :
  idempotency_key e = Some key → _idempotent_event d e = Ok None →
  List.find (λ r, bool_decide (r_stream_id r = stream_id e)
    && bool_decide (r_idempotency_key r = Some key)) (kernel_events d) = None.
Proof.
  unfold _idempotent_event. intros ->. destruct (List.find _ _) as [row|]; [|done].
  intros H. apply bind_ok in H as (h & _ & H). apply bind_ok in H as (u & _ & H).
  by apply fmap_ok in H as (x & _ & ?).
Qed.

Lemma single_request e k : 0 <= k →
  _validate_append_request set_order [e] [(stream_id e, k)] = Ok [stream_id e].
Proof.
  intros Hk. unfold _validate_append_request.
  change (map stream_id [e]) with [stream_id e]. rewrite set_order_single. simpl.
  rewrite decide_True by done. rewrite bool_decide_false by done. simpl.
  by rewrite (proj2 (Z.ltb_ge k 0)) by lia.
Qed.

Lemma own_connection_ok : _validate_transaction_connection path resolve (own_connection path) = Ok tt.
Proof.
  unfold _validate_transaction_connection, own_connection. simpl. by rewrite bool_decide_true by done.
Qed.

(** An append whose every event is already recorded answers from the ledger. *)
Lemma append_known e k d stored :
  0 <= k → _idempotent_event d e = Ok (Some stored) → append e k d = (Ok stored, d).
Proof.
  intros Hk Hs. unfold EventStore.append, EventStore.append_many.
  pose proof (single_request e k Hk) as Hreq.
  assert (Htx : append_tx (own_connection path) [e] [(stream_id e, k)] d = (Ok [stored], d)).
  { unfold append_many_in_transaction.
    unfold lift, query, mbind, txn_bind. rewrite own_connection_ok, Hreq. simpl. rewrite Hs. done. }
  unfold mbind, txn_bind. rewrite Htx. done.
Qed.

(** An exact retry of an append that was given an
    idempotency key succeeds whatever non-negative sequence the retry
    expects, changes nothing in the ledger and returns the occurrence that
    was stored the first time. *)
Theorem append_idempotent e k k' d e' d' key :
  db_ok d → event_ok e → json_text_ok (JObj (payload e)) = true →
  idempotency_key e = Some key → 0 <= k' →
  _idempotent_event d e = Ok None → append e k d = (Ok e', d') →
  append e k' d' = (Ok (stored_event (zlen (kernel_events d) + 1) e), d').
Proof.
  intros Hd He Ht Hkey Hk Hfresh H.
  apply append_fresh_cases in H as (H1 & H2 & r & H3 & H4 & H5 & H6 & H7); [|done].
  rewrite (ok_autoincrement d Hd) in H3. pose proof (zlen_nonneg (kernel_events d)).
  pose proof (row_of_event_fields _ _ _ H3) as (R1 & R2 & R3 & R4 & R5 & R6).
  apply append_known; [done|]. unfold _idempotent_event. rewrite Hkey, H4.
  rewrite (find_app_single _ _ r).
  - destruct (R6 key Hkey) as (h & -> & ->). cbn [mbind result_bind].
    rewrite bool_decide_true by done. cbn [mbind result_bind raise_if negb].
    by rewrite (event_from_row_of_event e (zlen (kernel_events d) + 1) r) by (done || lia).
  - by apply idempotent_event_none.
  - by rewrite R3, R5, !bool_decide_true by congruence.
Qed.

(** A writer whose expected sequence is not the stream's
    current one is refused with the two sequences, and the ledger is left
    alone: no update is lost. *)
Theorem append_stale e k d :
  0 <= k → k ≠ _current_sequence d (stream_id e) → _idempotent_event d e = Ok None →
  append e k d = (Err (ConcurrencyError (stream_id e) k (_current_sequence d (stream_id e))), d).
Proof.
  intros Hk Hne Hfresh. unfold EventStore.append, EventStore.append_many.
  pose proof (single_request e k Hk) as Hreq.
  assert (Hg : group (zip [e] [None]) (stream_id e) = [(e, None)]).
  { unfold group. simpl. by rewrite filter_cons_True. }
  assert (Hv : _validate_batch_stream (stream_id e) [(e, None)] k (_current_sequence d (stream_id e))
    = Err (ConcurrencyError (stream_id e) k (_current_sequence d (stream_id e)))).
  { unfold _validate_batch_stream, count_prefix. simpl. rewrite Z.add_0_r.
    by rewrite (proj2 (Z.eqb_neq (_current_sequence d (stream_id e)) k)) by congruence. }
  assert (Htx : append_tx (own_connection path) [e] [(stream_id e, k)] d
    = (Err (ConcurrencyError (stream_id e) k (_current_sequence d (stream_id e))), d)).
  { unfold append_many_in_transaction.
    unfold lift, query, mbind, txn_bind. rewrite own_connection_ok, Hreq. cbn [map map_result].
    rewrite Hfresh. cbn [mbind result_bind all_some option_bind map]. rewrite Hg.
    unfold map_txn, prepare_stream, lift, query, mbind, txn_bind. simpl.
    rewrite decide_True by done. simpl. by rewrite Hv. }
  unfold mbind, txn_bind. by rewrite Htx.
Qed.
End StoreFacts.

(** ** Readers see contiguous slices *)

Section Slices.
Context {A : Type} (f : A → Z).

Lemma filter_seqZ l a k : map f l = seqZ a (zlen l) → a - 1 <= k →
  filter (λ x, k < f x) l = drop (Z.to_nat (k - (a - 1))) l.
Proof.
  revert a. induction l as [|x l IH]; intros a H Hk; [by rewrite drop_nil|].
  replace (zlen (x :: l)) with (Z.succ (zlen l)) in H by (unfold zlen; simpl; lia).
  rewrite seqZ_cons in H by (unfold zlen; lia). rewrite Z.pred_succ in H. simpl in H.
  injection H as Hx Hl. destruct (decide (k < f x)) as [Hlt|Hge].
  - rewrite filter_cons_True by done.
    replace (Z.to_nat (k - (a - 1))) with O by lia. rewrite drop_0. f_equal.
    assert (Hall : Forall (λ y, k < f y) l).
    { apply Forall_forall. intros y Hy.
      assert (f y ∈ seqZ (Z.succ a) (zlen l)) as Hin%elem_of_seqZ
        by (rewrite <-Hl; apply list_elem_of_fmap; eauto). lia. }
    clear -Hall. induction Hall; [done|]. rewrite filter_cons_True by done. by f_equal.
  - rewrite filter_cons_False by done. rewrite (IH (Z.succ a)) by (done || lia).
    replace (Z.to_nat (k - (a - 1))) with (S (Z.to_nat (k - (Z.succ a - 1)))) by lia. done.
Qed.

Lemma isort_seqZ l a : map f l = seqZ a (zlen l) → isort (λ x y, f x <=? f y) l = l.
Proof.
  revert a. induction l as [|x l IH]; intros a H; [done|].
  replace (zlen (x :: l)) with (Z.succ (zlen l)) in H by (unfold zlen; simpl; lia).
  rewrite seqZ_cons in H by (unfold zlen; lia). rewrite Z.pred_succ in H. simpl in H.
  injection H as Hx Hl. simpl. rewrite (IH _ Hl). apply insert_sorted_min.
  apply Forall_forall. intros y Hy.
  assert (f y ∈ seqZ (Z.succ a) (zlen l)) as Hin%elem_of_seqZ
    by (rewrite <-Hl; apply list_elem_of_fmap; eauto). unfold leR. lia.
Qed.

Lemma map_drop_seqZ l a k : map f l = seqZ a (zlen l) →
  ∃ b, map f (drop k l) = seqZ b (zlen (drop k l)).
Proof.
  revert a k. induction l as [|x l IH]; intros a k H; [by exists a; rewrite drop_nil|].
  destruct k as [|k]; [by exists a|].
  replace (zlen (x :: l)) with (Z.succ (zlen l)) in H by (unfold zlen; simpl; lia).
  rewrite seqZ_cons in H by (unfold zlen; lia). rewrite Z.pred_succ in H. injection H as _ Hl.
  by apply (IH (Z.succ a)).
Qed.
End Slices.

(** Reading the ledger after position [k] with a limit returns,
    in order, exactly the next rows of the ledger: no row is skipped or
    repeated, so pages chained by their last position cover it. *)
Lemma read_all_slice d k limit :
  db_ok d → 0 <= k → (∀ n, limit = Some n → 1 <= n) →
  read_all d k limit =
  map_result _event_from_row (limited limit (drop (Z.to_nat k) (kernel_events d))).
Proof.
  intros Hd Hk Hn. unfold read_all, _validate_cursor.
  rewrite (proj2 (Z.ltb_ge k 0)) by lia. cbn [mbind result_bind raise_if].
  replace (match limit with Some l => l <? 1 | None => false end) with false
    by (destruct limit; [specialize (Hn _ eq_refl); lia|done]). cbn [mbind result_bind raise_if].
  rewrite (filter_seqZ r_position _ 1 k) by (apply Hd || lia). rewrite Z.sub_0_r.
  destruct (map_drop_seqZ r_position _ _ (Z.to_nat k) (ok_positions d Hd)) as [b Hb].
  by rewrite (isort_seqZ r_position _ b).
Qed.

(** Reading one stream after sequence [k] returns exactly the
    stream's next events in stream order. *)
Lemma read_stream_slice d sid k limit :
  db_ok d → 0 <= k → (∀ n, limit = Some n → 1 <= n) →
  read_stream d sid k None limit =
  map_result _event_from_row (limited limit (drop (Z.to_nat k) (rows_of d sid))).
Proof.
  intros Hd Hk Hn. unfold read_stream, _validate_cursor.
  rewrite (proj2 (Z.ltb_ge k 0)) by lia. cbn [mbind result_bind raise_if].
  replace (match limit with Some l => l <? 1 | None => false end) with false
    by (destruct limit; [specialize (Hn _ eq_refl); lia|done]). cbn [mbind result_bind raise_if].
  assert (E : filter (λ r, r_stream_id r = sid ∧ k < r_stream_sequence r
    ∧ r_position r <= default (r_position r) None) (kernel_events d)
    = filter (λ r, k < r_stream_sequence r) (rows_of d sid)).
  { unfold rows_of. rewrite list_filter_filter. apply list_filter_iff. intros r. simpl. intuition lia. }
  rewrite E, (filter_seqZ r_stream_sequence _ 1 k) by (apply Hd || lia). rewrite Z.sub_0_r.
  destruct (map_drop_seqZ r_stream_sequence _ _ (Z.to_nat k) (ok_sequences d Hd sid)) as [b Hb].
  by rewrite (isort_seqZ r_stream_sequence _ b).
Qed.
