(* ===== verification/StoreWitness.v ===== *)
(** * A concrete ledger

    One event with an idempotency key appended to the empty ledger, its retry,
    a stale writer and the reads: the theorems of [EventStore] applied. *)

From S2P Require Import Prelude PyStr PyFloat Sha256 Json JsonText JsonFacts PyTime Events EventStore.
From Stdlib Require Import ZArith Lia Ascii String Sorting.Permutation.
From stdpp Require Import base gmap sets list strings.
Local Open Scope Z_scope.

Module SampleStore.
Definition same (l : list string) : list string := l.
Lemma same_perm l : same l ≡ₚ l.
Proof. done. Qed.
Definition resolve (s : string) : string := s.
Definition body : jobject := [("n", JInt 1)].
Definition event : EventEnvelope := Eval vm_compute in
  MkEvent "e1" "run:r" 1 "run.queued" 1 (Datetime 0 (Some 0)) (Datetime 0 (Some 0)) "c" None "h"
    "blackcell.runtime" body
    (match json_digest (thaw_json (JObj body)) with Ok d => d | Err _ => "" end) (Some "k") None.
Lemma event_is_ok : event_ok event.
Proof. constructor; try reflexivity; try discriminate; try (split; reflexivity); by_vm. Qed.

Definition appended : result EventEnvelope * db := Eval vm_compute in
  EventStore.append "ledger" resolve same event 0 empty_db.
Definition ledger : db := snd appended.
Definition returned : EventEnvelope := match fst appended with Ok e => e | Err _ => event end.
Lemma appends : EventStore.append "ledger" resolve same event 0 empty_db = (Ok returned, ledger).
Proof. by_vm. Qed.
Lemma appends_many : append_many "ledger" resolve same [event] [("run:r", 0)] empty_db =
  (Ok [returned], ledger).
Proof. by_vm. Qed.
Lemma ledger_ok : db_ok ledger.
Proof. exact (append_many_db_ok "ledger" resolve same same_perm _ _ _ _ _ empty_db_ok appends_many). Qed.
Lemma fresh : _idempotent_event empty_db event = Ok None.
Proof. reflexivity. Qed.
End SampleStore.

Lemma append_many_preserves_witness : db_ok SampleStore.ledger.
Proof.
  apply (append_many_preserves "ledger" SampleStore.resolve SampleStore.same SampleStore.same_perm
    [SampleStore.event] [("run:r", 0)] empty_db (Ok [SampleStore.returned]));
    [apply empty_db_ok|apply SampleStore.appends_many].
Defined.

Lemma append_many_atomic_witness : kernel_events empty_db `prefix_of` kernel_events SampleStore.ledger.
Proof.
  apply (append_many_atomic "ledger" SampleStore.resolve SampleStore.same SampleStore.same_perm
    [SampleStore.event] [("run:r", 0)] empty_db (Ok [SampleStore.returned]));
    [apply empty_db_ok|apply SampleStore.appends_many].
Defined.

Lemma append_fresh_witness :
  _current_sequence SampleStore.ledger "run:r" = 1 ∧
  ∃ r, kernel_events SampleStore.ledger = [r].
Proof.
  destruct (append_fresh "ledger" SampleStore.resolve SampleStore.same SampleStore.same_perm
    SampleStore.event 0 empty_db SampleStore.returned SampleStore.ledger empty_db_ok
    SampleStore.event_is_ok eq_refl SampleStore.fresh SampleStore.appends)
    as (_ & _ & (r & Hr & _) & Hc & _).
  split; [exact Hc|exists r; exact Hr].
Defined.

Lemma append_idempotent_witness :
  EventStore.append "ledger" SampleStore.resolve SampleStore.same SampleStore.event 7 SampleStore.ledger =
    (Ok (stored_event 1 SampleStore.event), SampleStore.ledger).
Proof.
  apply (append_idempotent "ledger" SampleStore.resolve SampleStore.same SampleStore.same_perm
    SampleStore.event 0 7 empty_db SampleStore.returned SampleStore.ledger "k" empty_db_ok
    SampleStore.event_is_ok eq_refl eq_refl).
  - discriminate.
  - apply SampleStore.fresh.
  - apply SampleStore.appends.
Defined.

Lemma append_stale_witness :
  EventStore.append "ledger" SampleStore.resolve SampleStore.same SampleStore.event 3 empty_db =
    (Err (ConcurrencyError "run:r" 3 0), empty_db).
Proof.
  apply (append_stale "ledger" SampleStore.resolve SampleStore.same SampleStore.same_perm
    SampleStore.event 3 empty_db).
  - discriminate.
  - discriminate.
  - apply SampleStore.fresh.
Defined.

Lemma read_all_slice_witness :
  read_all SampleStore.ledger 0 (Some 5) =
    map_result _event_from_row (kernel_events SampleStore.ledger).
Proof.
  apply (read_all_slice SampleStore.ledger 0 (Some 5) SampleStore.ledger_ok); [discriminate|].
  intros n [= <-]. discriminate.
Defined.

Lemma read_stream_slice_witness :
  read_stream SampleStore.ledger "run:r" 0 None None =
    map_result _event_from_row (rows_of SampleStore.ledger "run:r").
Proof.
  apply (read_stream_slice SampleStore.ledger "run:r" 0 None SampleStore.ledger_ok); discriminate.
Defined.
