(* ===== verification/Projections.v ===== *)
(** * kernel/projections.py: checkpointed projections of the ledger

    A [Projection] is the program's protocol: a pure fold over recorded events
    whose state has a JSON form.  [replay] is [ProjectionRunner.replay],
    [rebuild] reads the ledger and replays it, [save] and [load] are the
    operations of [CheckpointStore] over the table [projection_checkpoints]. *)

From S2P Require Import Prelude PyStr PyFloat Sha256 Json JsonText JsonFacts PyTime Events EventStore.
From Stdlib Require Import ZArith Lia Ascii String Sorting.Sorted.
From stdpp Require Import base gmap sets list strings.
Local Open Scope Z_scope.

(** The protocol [Projection]; what its methods do is the caller's code. *)
Record Projection (S : Type) := MkProjection {
  name : string;
  version : Z;
  initial_state : S;
  apply : S → EventEnvelope → result S;
  dump_state : S → result pyval;
  load_state : pyval → result S
}.
Arguments MkProjection {S}.
Arguments name {S}.
Arguments version {S}.
Arguments initial_state {S}.
Arguments apply {S}.
Arguments dump_state {S}.
Arguments load_state {S}.

(** ** Checkpoints *)

Record ProjectionCheckpoint := MkCheckpoint {
  projection_name : string;
  projection_version : Z;
  cp_stream_id : option string;
  cp_last_global_position : Z;
  cp_last_stream_sequence : option Z;
  cp_state : json;
  cp_state_hash : string;
  updated_at : datetime
}.

(** [ProjectionCheckpoint(...)] with a state that is still to be frozen. *)
Definition checkpoint_init (name : string) (version : Z) (stream_id : option string)
    (last_global_position : Z) (last_stream_sequence : option Z) (state : pyval)
    (state_hash : string) (updated_at : datetime) : result ProjectionCheckpoint :=
  _ ← raise_if (blank name) (ValueError "projection_name must not be empty");
  _ ← raise_if (version <? 1) (ValueError "projection_version must be at least 1");
  _ ← raise_if (last_global_position <? 0) (ValueError "last_global_position must be non-negative");
  _ ← raise_if (match last_stream_sequence with Some s => s <? 0 | None => false end)
        (ValueError "last_stream_sequence must be non-negative");
  _ ← raise_if (bool_decide (dt_offset updated_at = None))
        (ValueError "updated_at must be timezone-aware");
  frozen ← freeze_json "$.state" state;
  calculated ← json_digest (thaw_json frozen);
  _ ← raise_if (negb (bool_decide (calculated = state_hash)))
        (ValueError "projection checkpoint state hash mismatch");
  Ok (MkCheckpoint name version stream_id last_global_position last_stream_sequence frozen
        state_hash updated_at).

(** [ProjectionCheckpoint.create]; [now] is what [utc_now()] returns. *)
Definition checkpoint_create (now : datetime) (name : string) (version : Z) (state : pyval)
    (last_global_position : Z) (stream_id : option string) (last_stream_sequence : option Z)
    (updated_at : option datetime) : result ProjectionCheckpoint :=
  frozen ← freeze_json "$.state" state;
  hash ← json_digest (thaw_json frozen);
  checkpoint_init name version stream_id last_global_position last_stream_sequence
    (thaw_json frozen) hash (default now updated_at).

Record ReplayResult (S : Type) := MkReplay {
  rr_state : S;
  rr_state_hash : string;
  processed_events : Z;
  rr_last_global_position : Z;
  rr_last_stream_sequence : option Z
}.
Arguments MkReplay {S}.
Arguments rr_state {S}.
Arguments rr_state_hash {S}.
Arguments processed_events {S}.
Arguments rr_last_global_position {S}.
Arguments rr_last_stream_sequence {S}.

(** [ReplayResult.checkpoint]. *)
Definition checkpoint {S} (now : datetime) (r : ReplayResult S) (projection : Projection S)
    (stream_id : option string) : result ProjectionCheckpoint :=
  state ← dump_state projection (rr_state r);
  checkpoint_create now (name projection) (version projection) state (rr_last_global_position r)
    stream_id (match stream_id with Some _ => rr_last_stream_sequence r | None => None end) None.

(** ** Replay *)

Definition _validate_checkpoint {S} (projection : Projection S) (c : ProjectionCheckpoint)
    : result unit :=
  _ ← raise_if (negb (bool_decide (projection_name c = name projection)))
        (ValueError "checkpoint belongs to a different projection");
  raise_if (negb (projection_version c =? version projection))
    (ValueError "checkpoint belongs to a different projection version").

(** The variables of the loop of [replay]. *)
Record replay_state (S : Type) := MkReplayState {
  p_state : S;
  last_position : Z;
  last_sequence : option Z;
  processed : Z;
  previous_input_position : Z
}.
Arguments MkReplayState {S}.
Arguments p_state {S}.
Arguments last_position {S}.
Arguments last_sequence {S}.
Arguments processed {S}.
Arguments previous_input_position {S}.

Definition replay_step {S} (projection : Projection S) (scope : option string)
    (s : replay_state S) (e : EventEnvelope) : result (replay_state S) :=
  position ← of_option (ValueError "historical replay requires events read from an EventStore")
               (global_position e);
  _ ← raise_if (position <=? previous_input_position s)
        (ValueError "replay events must be ordered by global position");
  if position <=? last_position s
  then Ok (MkReplayState (p_state s) (last_position s) (last_sequence s) (processed s) position)
  else
    _ ← raise_if (match scope with
                  | Some sid => negb (bool_decide (stream_id e = sid)) | None => false end)
          (ValueError "stream checkpoint cannot consume a different event stream");
    state ← apply projection (p_state s) e;
    Ok (MkReplayState state position (Some (stream_sequence e)) (processed s + 1) position).

(** The state in which the loop starts. *)
Definition replay_start {S} (projection : Projection S) (c : option ProjectionCheckpoint)
    : result (replay_state S) :=
  match c with
  | Some c =>
      _ ← _validate_checkpoint projection c;
      state ← load_state projection (thaw_json (cp_state c));
      Ok (MkReplayState state (cp_last_global_position c) (cp_last_stream_sequence c) 0 0)
  | None => Ok (MkReplayState (initial_state projection) 0 None 0 0)
  end.

Definition replay_finish {S} (projection : Projection S) (s : replay_state S)
    : result (ReplayResult S) :=
  serialized ← dump_state projection (p_state s);
  hash ← json_digest serialized;
  Ok (MkReplay (p_state s) hash (processed s) (last_position s) (last_sequence s)).

Definition replay {S} (projection : Projection S) (events : list EventEnvelope)
    (c : option ProjectionCheckpoint) : result (ReplayResult S) :=
  _ ← raise_if (version projection <? 1) (ValueError "projection version must be at least 1");
  start ← replay_start projection c;
  final ← fold_result (replay_step projection (c ≫= cp_stream_id)) start events;
  replay_finish projection final.

(** The events [rebuild] reads. *)
Definition rebuild_events (store : db) (stream_id : option string)
    (c : option ProjectionCheckpoint) : result (list EventEnvelope) :=
  match stream_id with
  | None => read_all store (from_option cp_last_global_position 0 c) None
  | Some sid => read_stream store sid (default 0 (c ≫= cp_last_stream_sequence)) None None
  end.

Definition rebuild {S} (store : db) (projection : Projection S) (stream_id : option string)
    (c : option ProjectionCheckpoint) : result (ReplayResult S) :=
  events ← rebuild_events store stream_id c;
  replay projection events c.

(** ** The checkpoint table *)

Definition _scope (stream_id : option string) : result string :=
  match stream_id with
  | None => Ok "*"
  | Some s =>
      _ ← raise_if (bool_decide (s = "*"))
            (ValueError "stream_id '*' is reserved for the global projection scope");
      _ ← raise_if (blank s) (ValueError "stream_id must not be empty");
      Ok s
  end.

Record checkpoint_row := MkCheckpointRow {
  k_projection_name : string;
  k_projection_version : Z;
  k_scope : string;
  k_last_global_position : Z;
  k_last_stream_sequence : option Z;
  k_state_json : string;
  k_state_hash : string;
  k_updated_at : string
}.

(** [projection_checkpoints], by its primary key. *)
Abbreviation checkpoint_table := (gmap (string * Z * string) checkpoint_row).

Definition _checkpoint_from_row (row : checkpoint_row) : result ProjectionCheckpoint :=
  state ← of_option (ValueError "json") (json_loads (k_state_json row));
  frozen ← freeze_json "$" (thaw_json state);
  updated ← of_option (ValueError "isoformat") (fromisoformat (k_updated_at row));
  checkpoint_init (k_projection_name row) (k_projection_version row)
    (if bool_decide (k_scope row = "*") then None else Some (k_scope row))
    (k_last_global_position row) (k_last_stream_sequence row) (thaw_json frozen)
    (k_state_hash row) updated.

(** The values bound to the insert statement. *)
Definition row_of_checkpoint (c : ProjectionCheckpoint) (scope : string) : result checkpoint_row :=
  state_json ← canonical_json (thaw_json (cp_state c));
  Ok (MkCheckpointRow (projection_name c) (projection_version c) scope
        (cp_last_global_position c) (cp_last_stream_sequence c) state_json (cp_state_hash c)
        (isoformat (updated_at c))).

(** The constraints of the table. *)
Definition checkpoint_allowed (r : checkpoint_row) : bool :=
  sql_nonempty (k_projection_name r) && (1 <=? k_projection_version r)
  && (0 <=? k_last_global_position r)
  && from_option (λ s, 0 <=? s) true (k_last_stream_sequence r).

Definition load (t : checkpoint_table) (name : string) (version : Z) (stream_id : option string)
    : result (option ProjectionCheckpoint) :=
  scope ← _scope stream_id;
  _ ← raise_if (negb (int64_ok version)) OverflowError;
  match t !! (name, version, scope) with
  | None => Ok None
  | Some row => Some <$> _checkpoint_from_row row
  end.

(** What [save] does once the row of the key was read. *)
Definition save_row (t : checkpoint_table) (c : ProjectionCheckpoint) (scope : string)
    : result (ProjectionCheckpoint * checkpoint_table) :=
  row ← row_of_checkpoint c scope;
  _ ← raise_if (negb (int64_ok (k_last_global_position row)
                      && from_option int64_ok true (k_last_stream_sequence row))) OverflowError;
  _ ← raise_if (negb (checkpoint_allowed row)) SqliteIntegrityError;
  Ok (c, <[(k_projection_name row, k_projection_version row, scope) := row]> t).

Definition save_checked (t : checkpoint_table) (c : ProjectionCheckpoint) (expected_position : option Z)
    : result (ProjectionCheckpoint * checkpoint_table) :=
  scope ← _scope (cp_stream_id c);
  _ ← raise_if (negb (int64_ok (projection_version c))) OverflowError;
  let row := t !! (projection_name c, projection_version c, scope) in
  let current_position := from_option k_last_global_position 0 row in
  _ ← raise_if (match expected_position with
                | Some p => negb (p =? current_position) | None => false end) ProjectionConflict;
  _ ← raise_if (cp_last_global_position c <? current_position) ProjectionConflict;
  match row with
  | Some r =>
      if cp_last_global_position c =? current_position then
        _ ← raise_if (negb (bool_decide (k_state_hash r = cp_state_hash c)
                            && bool_decide (k_last_stream_sequence r = cp_last_stream_sequence c)))
              ProjectionConflict;
        existing ← _checkpoint_from_row r;
        Ok (existing, t)
      else save_row t c scope
  | None => save_row t c scope
  end.

(** [CheckpointStore.save]: any exception rolls the transaction back. *)
Definition save (c : ProjectionCheckpoint) (expected_position : option Z) (t : checkpoint_table)
    : result ProjectionCheckpoint * checkpoint_table :=
  match save_checked t c expected_position with
  | Ok (stored, t') => (Ok stored, t')
  | Err e => (Err e, t)
  end.

(** ** Events read from the ledger are ordered by position *)

Lemma event_from_row_fields r e : _event_from_row r = Ok e →
  global_position e = Some (r_position r) ∧ stream_id e = r_stream_id r
  ∧ stream_sequence e = r_stream_sequence r.
Proof.
  unfold _event_from_row. intros H. inv_ok. unfold event_init in H. inv_ok. done.
Qed.

Fixpoint rows_increasing (lo : Z) (rows : list event_row) : Prop :=
  match rows with
  | [] => True
  | r :: rows' => lo < r_position r ∧ rows_increasing (r_position r) rows'
  end.

Fixpoint increasing (lo : Z) (events : list EventEnvelope) : Prop :=
  match events with
  | [] => True
  | e :: events' => ∃ p, global_position e = Some p ∧ lo < p ∧ increasing p events'
  end.

Lemma rows_increasing_weaken lo lo' rows :
  lo' <= lo → rows_increasing lo rows → rows_increasing lo' rows.
Proof. destruct rows as [|r rows]; simpl; [done|]. intros ? [? ?]. split; [lia|done]. Qed.

Lemma rows_increasing_filter (Q : event_row → Prop) `{!∀ r, Decision (Q r)} lo rows :
  rows_increasing lo rows → rows_increasing lo (filter Q rows).
Proof.
  revert lo. induction rows as [|r rows IH]; intros lo; [done|]. intros [Hr Hrows].
  destruct (decide (Q r)).
  - rewrite filter_cons_True by done. split; [done|]. by apply IH.
  - rewrite filter_cons_False by done. apply IH. eapply rows_increasing_weaken; [|done]. lia.
Qed.

Lemma rows_increasing_seqZ rows a : map r_position rows = seqZ a (zlen rows) →
  rows_increasing (a - 1) rows.
Proof.
  revert a. induction rows as [|r rows IH]; intros a H; [done|].
  replace (zlen (r :: rows)) with (Z.succ (zlen rows)) in H by (unfold zlen; simpl; lia).
  rewrite seqZ_cons in H by (unfold zlen; lia). rewrite Z.pred_succ in H. injection H as Hr Hrows.
  split; [lia|]. apply IH in Hrows. by replace (Z.succ a - 1) with (r_position r) in Hrows by lia.
Qed.

Lemma rows_increasing_app lo rows k : rows_increasing lo (rows ++ k) →
  rows_increasing (from_option r_position lo (last rows)) k.
Proof.
  revert lo. induction rows as [|r rows IH]; intros lo; [done|]. intros [_ H%IH].
  rewrite last_cons. by destruct (last rows).
Qed.

Lemma read_increasing lo rows events :
  map_result _event_from_row rows = Ok events → rows_increasing lo rows → increasing lo events.
Proof.
  rewrite map_result_ok. intros H. revert lo. induction H as [|r e rows events Hr _ IH]; [done|].
  intros lo [? ?]. apply event_from_row_fields in Hr as (Hp & _ & _).
  exists (r_position r). auto.
Qed.

(** ** Replay is the fold of the projection *)

Definition position (e : EventEnvelope) : Z := default 0 (global_position e).

Section Replay.
Context {S : Type} (P : Projection S).

(** Where the loop is after it applied [events]. *)
Definition after (s : replay_state S) (state : S) (events : list EventEnvelope) : replay_state S :=
  match last events with
  | None => MkReplayState state (last_position s) (last_sequence s) (processed s)
              (previous_input_position s)
  | Some e => MkReplayState state (position e) (Some (stream_sequence e))
                (processed s + zlen events) (position e)
  end.

Lemma replay_fold scope s events :
  increasing (last_position s) events → previous_input_position s <= last_position s →
  (∀ e sid, e ∈ events → scope = Some sid → stream_id e = sid) →
  fold_result (replay_step P scope) s events =
  (state ← fold_result (apply P) (p_state s) events; Ok (after s state events)).
Proof.
  revert s. induction events as [|e events IH]; intros s Hinc Hprev Hscope.
  { simpl. unfold after. by destruct s. }
  destruct Hinc as (p & Hp & Hlt & Hinc). cbn [fold_result].
  assert (Hstep : replay_step P scope s e = (st ← apply P (p_state s) e;
    Ok (MkReplayState st p (Some (stream_sequence e)) (processed s + 1) p))).
  { unfold replay_step. rewrite Hp. cbn [of_option mbind result_bind].
    rewrite (proj2 (Z.leb_gt _ _)), (proj2 (Z.leb_gt _ _)) by lia. cbn [raise_if].
    replace (match scope with Some sid => _ | None => false end) with false; [done|].
    destruct scope as [sid|]; [|done]. rewrite bool_decide_true; [done|].
    eapply Hscope; [by left|done]. }
  rewrite Hstep. destruct (apply P (p_state s) e) as [st|ex]; [|done].
  cbn [mbind result_bind]. rewrite IH; simpl; [|done|lia|].
  2: { intros e' sid He. apply Hscope. by right. }
  destruct (fold_result (apply P) st events) as [st'|ex]; [|done]. cbn [mbind result_bind].
  f_equal. unfold after. rewrite last_cons. simpl.
  assert (zlen (e :: events) = zlen events + 1) as -> by (unfold zlen; simpl; lia).
  destruct (last events) as [e'|] eqn:E; [f_equal; lia|].
  apply last_None in E as ->. unfold position. rewrite Hp. simpl. f_equal.
Qed.

Lemma replay_scratch events r : increasing 0 events → replay P events None = Ok r →
  ∃ s, fold_result (apply P) (initial_state P) events = Ok s ∧
    rr_state r = s ∧ processed_events r = zlen events ∧
    rr_last_global_position r = from_option position 0 (last events) ∧
    rr_last_stream_sequence r = stream_sequence <$> last events ∧
    (v ← dump_state P s; json_digest v) = Ok (rr_state_hash r) ∧ 1 <= version P.
Proof.
  intros Hinc H. unfold replay in H. cbn [replay_start] in H.
  apply bind_ok in H as (u & Hv%raise_if_ok%Z.ltb_ge & H). cbn [mbind result_bind option_bind] in H.
  rewrite replay_fold in H; [|done|done|by intros ? ? ? [=]].
  apply bind_ok in H as (final & Hf & H). apply bind_ok in Hf as (s & Hs & [= <-]).
  unfold replay_finish in H. apply bind_ok in H as (v & Hd & H). apply bind_ok in H as (h & Hh & [= <-]).
  exists s. split; [done|]. revert Hd. unfold after. simpl.
  destruct (last events) eqn:E; simpl; intros Hd; rewrite Hd; cbn [mbind result_bind];
    split_and!; try done; try lia.
  apply last_None in E as ->. done.
Qed.

Lemma replay_resume c s rest s' h :
  1 <= version P → projection_name c = name P → projection_version c = version P →
  load_state P (thaw_json (cp_state c)) = Ok s →
  increasing (cp_last_global_position c) rest → 0 <= cp_last_global_position c →
  (∀ e sid, e ∈ rest → cp_stream_id c = Some sid → stream_id e = sid) →
  fold_result (apply P) s rest = Ok s' → (v ← dump_state P s'; json_digest v) = Ok h →
  replay P rest (Some c) = Ok (MkReplay s' h (zlen rest)
    (from_option position (cp_last_global_position c) (last rest))
    (match last rest with None => cp_last_stream_sequence c | Some e => Some (stream_sequence e) end)).
Proof.
  intros Hv Hn Hpv Hload Hinc Hpos Hsid Hs' Hh. unfold replay.
  rewrite (proj2 (Z.ltb_ge _ _)) by done. cbn [raise_if mbind result_bind replay_start].
  unfold _validate_checkpoint. rewrite bool_decide_true by done. cbn [raise_if negb mbind result_bind].
  rewrite Hpv, Z.eqb_refl. cbn [raise_if negb mbind result_bind]. rewrite Hload.
  cbn [mbind result_bind option_bind]. rewrite replay_fold; simpl; try done.
  cbn [mbind result_bind] in *. rewrite Hs'. cbn [mbind result_bind]. unfold replay_finish, after.
  apply bind_ok in Hh as (v & Hd & Hh).
  destruct (last rest) eqn:E; simpl; rewrite Hd; cbn [mbind result_bind]; rewrite Hh; [done|].
  apply last_None in E as ->. done.
Qed.
End Replay.

(** ** Checkpoints *)

Record checkpoint_ok (c : ProjectionCheckpoint) : Prop := {
  ck_name : blank (projection_name c) = false;
  ck_version : 1 <= projection_version c;
  ck_position : 0 <= cp_last_global_position c;
  ck_sequence : ∀ s, cp_last_stream_sequence c = Some s → 0 <= s;
  ck_aware : is_Some (dt_offset (updated_at c));
  ck_state : json_wf (cp_state c) = true;
  ck_hash : json_digest (thaw_json (cp_state c)) = Ok (cp_state_hash c)
}.

Lemma checkpoint_init_ok n v sid p s state h u c :
  checkpoint_init n v sid p s state h u = Ok c →
  checkpoint_ok c ∧ projection_name c = n ∧ projection_version c = v ∧ cp_stream_id c = sid
  ∧ cp_last_global_position c = p ∧ cp_last_stream_sequence c = s ∧ cp_state_hash c = h
  ∧ freeze_json "$.state" state = Ok (cp_state c) ∧ updated_at c = u.
Proof.
  unfold checkpoint_init. intros H. inv_ok. split; [|done]. constructor; simpl; try done; try lia.
  - by intros q ->; lia.
  - destruct (dt_offset u); [eauto|done].
  - by eapply freeze_json_wf.
  - congruence.
Qed.

Lemma checkpoint_init_intro c : checkpoint_ok c →
  checkpoint_init (projection_name c) (projection_version c) (cp_stream_id c)
    (cp_last_global_position c) (cp_last_stream_sequence c) (thaw_json (cp_state c))
    (cp_state_hash c) (updated_at c) = Ok c.
Proof.
  intros [H1 H2 H3 H4 [z H5] H6 H7]. unfold checkpoint_init.
  rewrite H1, (proj2 (Z.ltb_ge _ _)), (proj2 (Z.ltb_ge _ _)) by done.
  replace (match cp_last_stream_sequence c with Some s => s <? 0 | None => false end) with false
    by (destruct (cp_last_stream_sequence c); [specialize (H4 _ eq_refl); lia|done]).
  rewrite H5, freeze_thaw by done. cbn [mbind result_bind raise_if].
  rewrite bool_decide_false by done. cbn [mbind result_bind raise_if].
  rewrite H7. cbn [mbind result_bind]. rewrite bool_decide_true by done. by destruct c.
Qed.

Lemma checkpoint_of_replay {S} (P : Projection S) now r scope c :
  checkpoint now r P scope = Ok c →
  checkpoint_ok c ∧ projection_name c = name P ∧ projection_version c = version P
  ∧ cp_stream_id c = scope ∧ cp_last_global_position c = rr_last_global_position r
  ∧ cp_last_stream_sequence c =
      match scope with Some _ => rr_last_stream_sequence r | None => None end
  ∧ updated_at c = now
  ∧ ∃ v, dump_state P (rr_state r) = Ok v ∧ freeze_json "$.state" v = Ok (cp_state c).
Proof.
  unfold checkpoint, checkpoint_create. intros H. apply bind_ok in H as (v & Hv & H).
  apply bind_ok in H as (j & Hj & H). apply bind_ok in H as (h & Hh & H).
  apply checkpoint_init_ok in H as (? & ? & ? & ? & ? & ? & ? & Hf & ?).
  rewrite (freeze_thaw _ _ (freeze_json_wf _ _ _ Hj)) in Hf. injection Hf as <-.
  split_and!; try done. eauto.
Qed.

(** ** Resuming from a checkpoint *)

(** What the protocol asks of a projection: the JSON form of a state, read
    back with its keys in any order, is that state. *)
Class Restorable {S} (P : Projection S) := restore_state :
  ∀ s v j j', dump_state P s = Ok v → freeze_json "$.state" v = Ok j → json_wf j' = true →
    sort_json j' = sort_json j → load_state P (thaw_json j') = Ok s.

Definition scope_rows (d : db) (scope : option string) : list event_row :=
  match scope with None => kernel_events d | Some s => rows_of d s end.

Lemma scope_rows_increasing d scope : db_ok d → rows_increasing 0 (scope_rows d scope).
Proof.
  intros Hd. pose proof (rows_increasing_seqZ _ _ (ok_positions d Hd)) as H.
  destruct scope; simpl; [|done]. by apply rows_increasing_filter.
Qed.

Lemma rebuild_events_full d scope : db_ok d →
  rebuild_events d scope None = map_result _event_from_row (scope_rows d scope).
Proof.
  intros Hd. destruct scope as [sid|]; simpl.
  - by rewrite read_stream_slice by done.
  - by rewrite read_all_slice by done.
Qed.

Lemma seqZ_last {A} (f : A → Z) l : map f l = seqZ 1 (zlen l) →
  from_option f 0 (last l) = zlen l.
Proof.
  destruct l as [|x l _] using rev_ind; [done|]. rewrite last_snoc, map_app, zlen_app. simpl.
  intros H. change (zlen [x]) with 1 in *. rewrite (seqZ_app 1 (zlen l) 1) in H by (unfold zlen; lia).
  apply app_inj_tail in H as [_ H]. unfold zlen in *. simpl. lia.
Qed.

Lemma last_event rows events : map_result _event_from_row rows = Ok events →
  from_option position 0 (last events) = from_option r_position 0 (last rows) ∧
  stream_sequence <$> last events = r_stream_sequence <$> last rows.
Proof.
  rewrite map_result_ok. destruct rows as [|r rows _] using rev_ind.
  { by intros ->%Forall2_nil_inv_l. }
  intros (ev & k & _ & Hk & ->)%Forall2_app_inv_l.
  apply Forall2_cons_inv_l in Hk as (e & k' & He & ->%Forall2_nil_inv_l & ->).
  rewrite !last_snoc. apply event_from_row_fields in He as (Hp & _ & Hs).
  unfold position. simpl. by rewrite Hp, Hs.
Qed.

(** Reading from the checkpoint of a prefix of the ledger returns the rest. *)
Lemma rebuild_events_rest d d' scope c new :
  db_ok d → db_ok d' → scope_rows d' scope = scope_rows d scope ++ new →
  cp_last_global_position c = from_option r_position 0 (last (scope_rows d scope)) →
  (scope ≠ None → cp_last_stream_sequence c = r_stream_sequence <$> last (scope_rows d scope)) →
  rebuild_events d' scope (Some c) = map_result _event_from_row new.
Proof.
  intros Hd Hd' Hrows Hpos Hseq. destruct scope as [sid|]; simpl in *.
  - specialize (Hseq ltac:(done)).
    assert (default 0 (cp_last_stream_sequence c) = zlen (rows_of d sid)) as ->.
    { rewrite Hseq, <-(seqZ_last _ _ (ok_sequences d Hd sid)). by destruct (last _). }
    rewrite read_stream_slice by (done || apply zlen_nonneg). simpl.
    unfold zlen. by rewrite Hrows, Nat2Z.id, drop_app_length.
  - rewrite Hpos, (seqZ_last _ _ (ok_positions d Hd)).
    rewrite read_all_slice by (done || apply zlen_nonneg). simpl.
    unfold zlen. by rewrite Hrows, Nat2Z.id, drop_app_length.
Qed.

Lemma scope_rows_app d d' scope : kernel_events d `prefix_of` kernel_events d' →
  ∃ new, scope_rows d' scope = scope_rows d scope ++ new.
Proof.
  intros [new H]. destruct scope as [sid|]; [|by exists new].
  eexists. simpl. by rewrite (rows_of_app d d' new sid H).
Qed.

Lemma map_result_app {A B} (f : A → result B) l k ys : map_result f (l ++ k) = Ok ys →
  ∃ y1 y2, ys = y1 ++ y2 ∧ map_result f l = Ok y1 ∧ map_result f k = Ok y2.
Proof.
  rewrite map_result_ok. intros (y1 & y2 & H1 & H2 & ->)%Forall2_app_inv_l.
  exists y1, y2. by rewrite !map_result_ok.
Qed.

Lemma rows_of_stream d scope e events : map_result _event_from_row (scope_rows d scope) = Ok events →
  e ∈ events → ∀ sid, scope = Some sid → stream_id e = sid.
Proof.
  rewrite map_result_ok. intros H He sid ->. apply list_elem_of_lookup_1 in He as [i Hi].
  destruct (Forall2_lookup_r _ _ _ _ _ H Hi) as (r & Hr & Hf).
  apply event_from_row_fields in Hf as (_ & -> & _).
  apply list_elem_of_lookup_2 in Hr. by apply list_elem_of_filter in Hr as [? _].
Qed.

(** Resuming, for a state that its checkpoint restores. *)
Lemma resume_rebuild {S} (P : Projection S) d d' scope r c c' now full :
  (∀ v j j', dump_state P (rr_state r) = Ok v → freeze_json "$.state" v = Ok j → json_wf j' = true →
     sort_json j' = sort_json j → load_state P (thaw_json j') = Ok (rr_state r)) →
  db_ok d → db_ok d' → kernel_events d `prefix_of` kernel_events d' →
  rebuild d P scope None = Ok r → checkpoint now r P scope = Ok c →
  c' = c ∨ c' = MkCheckpoint (projection_name c) (projection_version c) (cp_stream_id c)
    (cp_last_global_position c) (cp_last_stream_sequence c) (sort_json (cp_state c))
    (cp_state_hash c) (updated_at c) →
  rebuild d' P scope None = Ok full →
  ∃ resumed, rebuild d' P scope (Some c') = Ok resumed ∧
    rr_state resumed = rr_state full ∧ rr_state_hash resumed = rr_state_hash full ∧
    rr_last_global_position resumed = rr_last_global_position full ∧
    (scope ≠ None → rr_last_stream_sequence resumed = rr_last_stream_sequence full) ∧
    processed_events resumed = processed_events full - processed_events r.
Proof.
  intros Hrestore Hd Hd' Hpre Hr Hc Hc' Hfull.
  pose proof (scope_rows_increasing d' scope Hd') as Hinc'.
  destruct (scope_rows_app d d' scope Hpre) as [new Hnew].
  unfold rebuild in *. rewrite rebuild_events_full in Hr, Hfull by done.
  apply bind_ok in Hr as (ev & Hev & Hr). apply bind_ok in Hfull as (evs & Hevs & Hfull).
  pose proof (rows_of_stream d' scope) as Hstream.
  pose proof Hevs as Hsplit. rewrite Hnew in Hsplit.
  apply map_result_app in Hsplit as (ev0 & rest & -> & Hev0 & Hrest).
  assert (ev0 = ev) as -> by congruence. clear Hev0.
  pose proof (last_event _ _ Hev) as [Hlp Hls].
  apply replay_scratch in Hr as (s & Hs & E1 & E2 & E3 & E4 & E5 & Hv);
    [|by eapply read_increasing, scope_rows_increasing].
  apply replay_scratch in Hfull as (s' & Hs' & F1 & F2 & F3 & F4 & F5 & _);
    [|by eapply read_increasing].
  rewrite fold_result_app, Hs in Hs'. cbn [mbind result_bind] in Hs'.
  apply checkpoint_of_replay in Hc as (Hok & G1 & G2 & G3 & G4 & G5 & _ & v & Hdump & Hfreeze).
  assert (Hload : load_state P (thaw_json (cp_state c')) = Ok s).
  { rewrite <-E1. pose proof (ck_state c Hok) as Hwf.
    destruct Hc' as [->| ->]; [by eapply Hrestore|]. simpl.
    eapply Hrestore; [done|done|by apply sort_json_wf|]. apply sort_json_idemp. }
  assert (Hpos : cp_last_global_position c' = from_option r_position 0 (last (scope_rows d scope)))
    by (rewrite <-Hlp, <-E3, <-G4; by destruct Hc' as [->| ->]).
  assert (Hseq : scope ≠ None →
    cp_last_stream_sequence c' = r_stream_sequence <$> last (scope_rows d scope)).
  { intros Hsc. destruct scope as [sid|]; [|done]. rewrite <-Hls, <-E4, <-G5.
    by destruct Hc' as [->| ->]. }
  rewrite (rebuild_events_rest d d' scope c' new), Hrest by done. cbn [mbind result_bind].
  eexists. split.
  { apply (replay_resume P c' s rest s' (rr_state_hash full)); try done;
      try (by destruct Hc' as [->| ->]).
    - rewrite Hpos. eapply read_increasing; [done|]. rewrite Hnew in Hinc'.
      apply rows_increasing_app in Hinc'. by destruct (last (scope_rows d scope)).
    - destruct Hok. by destruct Hc' as [->| ->].
    - intros e sid He Hsid. eapply Hstream; [done|apply elem_of_app; by right|].
      destruct Hc' as [->| ->]; simpl in *; congruence. }
  cbn [rr_state rr_state_hash rr_last_global_position rr_last_stream_sequence processed_events].
  rewrite F1, F2, F3, F4, E2, Hpos, last_app, zlen_app. split_and!; try done; try lia.
  - rewrite <-Hlp. by destruct (last rest).
  - intros Hsc. rewrite (Hseq Hsc), <-Hls. by destruct (last rest).
Qed.


(** ** The checkpoint table never goes back *)

Lemma save_cases c exp t res t' : save c exp t = (res, t') →
  (∃ e, res = Err e ∧ t' = t) ∨
  ∃ scope row, _scope (cp_stream_id c) = Ok scope ∧
    let key := (projection_name c, projection_version c, scope) in
    let current := from_option k_last_global_position 0 (t !! key) in
    current <= cp_last_global_position c ∧
    ((∃ old, t !! key = Some old ∧ k_last_global_position old = cp_last_global_position c ∧
        k_state_hash old = cp_state_hash c ∧
        k_last_stream_sequence old = cp_last_stream_sequence c ∧
        res = _checkpoint_from_row old ∧ t' = t) ∨
     ((t !! key = None ∨ current < cp_last_global_position c) ∧
        row_of_checkpoint c scope = Ok row ∧ res = Ok c ∧ t' = <[key := row]> t)).
Proof.
  unfold save. destruct (save_checked t c exp) as [[stored t1]|e] eqn:H.
  2: { intros [= <- <-]. left. eauto. }
  intros [= <- <-]. right. unfold save_checked in H.
  apply bind_ok in H as (scope & Hscope & H). apply bind_ok in H as (? & _ & H).
  apply bind_ok in H as (? & _ & H). apply bind_ok in H as (? & Hle%raise_if_ok%Z.ltb_ge & H).
  assert (Hnew : save_row t c scope = Ok (stored, t1) → ∃ row,
    row_of_checkpoint c scope = Ok row ∧ stored = c ∧
    t1 = <[(projection_name c, projection_version c, scope) := row]> t).
  { unfold save_row. intros K. apply bind_ok in K as (row & Hrow & K). inv_ok.
    exists row. split_and!; try done.
    unfold row_of_checkpoint in Hrow. by apply bind_ok in Hrow as (? & _ & [= <-]). }
  destruct (t !! _) as [old|] eqn:E.
  - cbn [from_option] in *. destruct (cp_last_global_position c =? k_last_global_position old) eqn:Heq.
    + apply Z.eqb_eq in Heq. apply bind_ok in H as (? & Hs & H).
      apply raise_unless_ok in Hs. apply andb_true_iff in Hs as [H1%bool_decide_eq_true H2%bool_decide_eq_true].
      apply bind_ok in H as (existing & Hex & [= <- <-]).
      exists scope, old. rewrite E. split_and!; [done|simpl; lia|]. left. exists old. by rewrite Hex.
    + apply Z.eqb_neq in Heq. apply Hnew in H as (row & Hrow & -> & ->).
      exists scope, row. rewrite E. split_and!; [done|simpl; lia|]. right. split_and!; try done.
      right. simpl. lia.
  - apply Hnew in H as (row & Hrow & -> & ->).
    exists scope, row. rewrite E. split_and!; [done|done|]. right. split_and!; try done. by left.
Qed.

(** Saving a checkpoint never loses progress. Whatever it
    returns, every checkpoint that was stored is still there at the same or a
    later position, a row is replaced only by one at a strictly later position,
    at most the key of the saved checkpoint changes, and a refused save leaves
    the table as it was. *)
Theorem save_monotonic c exp t res t' : save c exp t = (res, t') →
  (is_ok res = false → t' = t) ∧
  (∀ key row, t !! key = Some row → ∃ row', t' !! key = Some row' ∧
     (row' = row ∨ k_last_global_position row < k_last_global_position row')) ∧
  (∀ key, t' !! key ≠ t !! key → ∃ scope, _scope (cp_stream_id c) = Ok scope ∧
     key = (projection_name c, projection_version c, scope)).
Proof.
  intros [(e & -> & ->)|(scope & row & Hscope & Hle & H)]%save_cases.
  { split_and!; [done|eauto|done]. }
  destruct H as [(old & _ & _ & _ & _ & _ & ->)|(Hlt & Hrow & -> & ->)].
  { split_and!; [done|eauto|done]. }
  split_and!; [done| |].
  - intros key r Hr. destruct (decide (key = (projection_name c, projection_version c, scope))) as [->|Hne].
    + rewrite lookup_insert_eq. exists row. split; [done|]. right.
      unfold row_of_checkpoint in Hrow. apply bind_ok in Hrow as (? & _ & [= <-]). simpl.
      rewrite Hr in Hlt. destruct Hlt; [done|]. done.
    + rewrite lookup_insert_ne by done. eauto.
  - intros key Hne. destruct (decide (key = (projection_name c, projection_version c, scope))) as [->|Hk].
    + eauto.
    + by rewrite lookup_insert_ne in Hne by done.
Qed.

Lemma scope_back stream_id scope : _scope stream_id = Ok scope →
  (if bool_decide (scope = "*") then None else Some scope) = stream_id.
Proof.
  unfold _scope. destruct stream_id as [s|]; [|by intros [= <-]]. intros H. inv_ok.
  by rewrite bool_decide_false.
Qed.

(** The checkpoint as it is read back: the state's keys in sorted order. *)
Definition stored_checkpoint (c : ProjectionCheckpoint) : ProjectionCheckpoint :=
  MkCheckpoint (projection_name c) (projection_version c) (cp_stream_id c)
    (cp_last_global_position c) (cp_last_stream_sequence c) (sort_json (cp_state c))
    (cp_state_hash c) (updated_at c).

Lemma stored_checkpoint_ok c : checkpoint_ok c → checkpoint_ok (stored_checkpoint c).
Proof.
  intros []. constructor; try done; simpl; [by apply sort_json_wf|by apply sort_json_digest].
Qed.

Lemma checkpoint_row_reads c scope row :
  checkpoint_ok c → json_text_ok (cp_state c) = true → astimezone_utc (updated_at c) = Ok (updated_at c) →
  _scope (cp_stream_id c) = Ok scope → row_of_checkpoint c scope = Ok row →
  _checkpoint_from_row row = Ok (stored_checkpoint c).
Proof.
  intros Hok Htext Hutc Hscope Hrow. unfold row_of_checkpoint in Hrow.
  apply bind_ok in Hrow as (text & Ht & [= <-]). pose proof (ck_state c Hok) as Hwf.
  unfold canonical_json, canonical_json_bytes in Ht. rewrite freeze_thaw in Ht by done.
  cbn [mbind result_bind] in Ht. unfold _checkpoint_from_row.
  cbn [k_state_json k_updated_at k_scope k_projection_name k_projection_version
       k_last_global_position k_last_stream_sequence k_state_hash].
  rewrite (json_loads_dumps _ _ Hwf Htext Ht). cbn [of_option mbind result_bind].
  rewrite freeze_thaw by (by apply sort_json_wf). cbn [mbind result_bind].
  apply astimezone_utc_format in Hutc as (_ & _ & ->). cbn [of_option mbind result_bind].
  rewrite (scope_back _ _ Hscope).
  apply (checkpoint_init_intro (stored_checkpoint c)). by apply stored_checkpoint_ok.
Qed.

(** A saved checkpoint is the one that is loaded. A
    valid checkpoint whose key is new, or whose position is ahead of the stored
    one, is returned by [save] and read back by [load] field by field, the keys
    of its state sorted; its state hash still matches its state. *)
Theorem checkpoint_roundtrip c exp t stored t' :
  checkpoint_ok c → json_text_ok (cp_state c) = true →
  astimezone_utc (updated_at c) = Ok (updated_at c) →
  (∀ scope row, _scope (cp_stream_id c) = Ok scope →
     t !! (projection_name c, projection_version c, scope) = Some row →
     k_last_global_position row < cp_last_global_position c) →
  save c exp t = (Ok stored, t') →
  stored = c ∧
  load t' (projection_name c) (projection_version c) (cp_stream_id c) =
    Ok (Some (stored_checkpoint c)) ∧
  json_digest (thaw_json (sort_json (cp_state c))) = Ok (cp_state_hash c).
Proof.
  intros Hok Htext Hutc Hahead Hsave.
  assert (Hint : int64_ok (projection_version c) = true).
  { unfold save in Hsave. destruct (save_checked t c exp) as [[? ?]|] eqn:H; [|done].
    unfold save_checked in H. apply bind_ok in H as (? & _ & H).
    by apply bind_ok in H as (? & Hi%raise_unless_ok & _). }
  apply save_cases in Hsave as [(e & [=] & _)|(scope & row & Hscope & _ & H)].
  destruct H as [(old & Ho & Hp & _)|(_ & Hrow & [= ->] & ->)].
  { specialize (Hahead _ _ Hscope Ho). lia. }
  split_and!; [done| |].
  - unfold load. rewrite Hscope. cbn [mbind result_bind]. rewrite Hint. cbn [raise_if negb mbind result_bind].
    rewrite lookup_insert_eq. by rewrite (checkpoint_row_reads c scope row).
  - apply sort_json_digest; apply Hok.
Qed.
