(* ===== verification/ProjectionsWitness.v ===== *)
(** * A concrete projection

    The number of events, projected from the ledger of [StoreWitness] and from
    that ledger with one more event: the theorems of [Projections] applied. *)

From S2P Require Import Prelude PyStr PyFloat Sha256 Json JsonText JsonFacts PyTime Events EventStore.
From S2P Require Import StoreWitness Projections.
From Stdlib Require Import ZArith Lia Ascii String.
From stdpp Require Import base gmap sets list strings.
Local Open Scope Z_scope.

Module SampleProjection.
Definition counter : Projection Z := MkProjection "event-count" 1 0 (λ n _, Ok (n + 1))
  (λ n, Ok (PInt n)) (λ v, match v with PInt z => Ok z | _ => Err (ValueError "count") end).
#[global] Instance counter_restores : Restorable counter.
Proof.
  intros s v j j'. cbn [dump_state counter]. intros [= <-] [= <-] _ H. by destruct j'; simplify_eq/=.
Qed.

Definition second : EventEnvelope := Eval vm_compute in
  MkEvent "e2" "run:r" 2 "run.note" 1 (Datetime 0 (Some 0)) (Datetime 0 (Some 0)) "c" (Some "e1")
    "h" "blackcell.runtime" SampleStore.body (payload_hash SampleStore.event) None None.
Definition grown : result EventEnvelope * db := Eval vm_compute in
  EventStore.append "ledger" SampleStore.resolve SampleStore.same second 1 SampleStore.ledger.
Definition ledger2 : db := snd grown.
Lemma grows : append_many "ledger" SampleStore.resolve SampleStore.same [second] [("run:r", 1)]
  SampleStore.ledger = ((x ← fst grown; Ok [x]), ledger2).
Proof. by_vm. Qed.
Lemma ledger2_ok : db_ok ledger2.
Proof.
  exact (append_many_db_ok "ledger" SampleStore.resolve SampleStore.same SampleStore.same_perm
    _ _ _ _ _ SampleStore.ledger_ok grows).
Qed.

Definition rebuilt (d : db) : result (ReplayResult Z) := rebuild d counter (Some "run:r") None.
Definition first_replay : ReplayResult Z := Eval vm_compute in
  match rebuilt SampleStore.ledger with Ok r => r | Err _ => MkReplay 0 "" 0 0 None end.
Definition full_replay : ReplayResult Z := Eval vm_compute in
  match rebuilt ledger2 with Ok r => r | Err _ => MkReplay 0 "" 0 0 None end.
Definition now : datetime := Datetime 0 (Some 0).
Definition saved : ProjectionCheckpoint := Eval vm_compute in
  match checkpoint now first_replay counter (Some "run:r") with
  | Ok c => c | Err _ => MkCheckpoint "" 0 None 0 None JNull "" now end.
Definition table : checkpoint_table := Eval vm_compute in snd (save saved (Some 0) ∅).

Lemma first_rebuilds : rebuild SampleStore.ledger counter (Some "run:r") None = Ok first_replay.
Proof. by_vm. Qed.
Lemma full_rebuilds : rebuild ledger2 counter (Some "run:r") None = Ok full_replay.
Proof. by_vm. Qed.
Lemma takes_checkpoint : checkpoint now first_replay counter (Some "run:r") = Ok saved.
Proof. by_vm. Qed.
Lemma saves : save saved (Some 0) ∅ = (Ok saved, table).
Proof. by_vm. Qed.
End SampleProjection.


Lemma save_monotonic_witness : is_Some (SampleProjection.table !! ("event-count", 1, "run:r")) ∧
  ∀ key : string * Z * string, SampleProjection.table !! key ≠ (∅ : checkpoint_table) !! key →
  ∃ scope, _scope (Some "run:r") = Ok scope ∧ key = ("event-count", 1, scope).
Proof.
  split; [vm_compute; eauto|].
  apply (save_monotonic SampleProjection.saved (Some 0) ∅ (Ok SampleProjection.saved)).
  apply SampleProjection.saves.
Defined.

Lemma checkpoint_roundtrip_witness :
  load SampleProjection.table "event-count" 1 (Some "run:r") = Ok (Some SampleProjection.saved).
Proof.
  apply (checkpoint_roundtrip SampleProjection.saved (Some 0) ∅ SampleProjection.saved
    SampleProjection.table).
  - apply (checkpoint_of_replay _ _ _ _ _ SampleProjection.takes_checkpoint).
  - reflexivity.
  - reflexivity.
  - intros scope row _ H. rewrite lookup_empty in H. discriminate H.
  - apply SampleProjection.saves.
Defined.
