(* ===== verification/Artifacts.v ===== *)
(** * kernel/artifacts.py: the content-addressed artifact store

    The store is the table [kernel_artifacts] (rows in insertion order) and the
    files under the blob root, by relative path.  Files are not part of the
    transaction: a blob written before a refused insert stays.  A blob is
    written to a temporary name and renamed, so a path holds nothing or a whole
    blob; the temporary name never outlives the call and is not represented. *)

From S2P Require Import Prelude PyStr PyFloat Sha256 Json JsonText JsonFacts PyTime Events EventStore.
From Stdlib Require Import ZArith Lia Ascii String.
From stdpp Require Import base gmap sets list strings.
Local Open Scope Z_scope.

Record ArtifactRef := MkRef {
  digest : string;
  size_bytes : Z;
  media_type : string;
  encoding : option string;
  created_at : datetime
}.

Record artifact_row := MkArtifactRow {
  a_digest : string;
  a_size_bytes : Z;
  a_media_type : string;
  a_encoding : option string;
  a_relative_path : string;
  a_created_at : string
}.

Record artifacts := MkArtifacts {
  kernel_artifacts : list artifact_row;
  blobs : gmap string string
}.

(** ** Addresses *)

Definition _validate_digest (digest : string) : result unit :=
  let hexadecimal := remove_prefix "sha256:" digest in
  _ ← raise_if (negb (starts_with "sha256:" digest) || negb (py_len hexadecimal =? 64))
        (ValueError "invalid SHA-256 artifact digest");
  _ ← of_option (ValueError "invalid SHA-256 artifact digest") (int_base16 hexadecimal);
  Ok tt.

(** [Path("sha256") / h[:2] / h[2:4] / h], for hexadecimal [h]. *)
Definition _relative_path (digest : string) : result string :=
  _ ← _validate_digest digest;
  let h := remove_prefix "sha256:" digest in
  Ok ("sha256/" +:+ take_bytes 2 h +:+ "/" +:+ take_bytes 2 (drop_bytes 2 h) +:+ "/" +:+ h).

(** ** Files *)

Definition _verify_path (s : artifacts) (path digest : string) (size : Z) : result unit :=
  data ← of_option ArtifactIntegrityError (blobs s !! path);
  raise_if (negb (byte_len data =? size) || negb (bool_decide (bytes_digest data = digest)))
    ArtifactIntegrityError.

Definition _write_once (s : artifacts) (path data digest : string) : result artifacts :=
  match blobs s !! path with
  | Some _ => _ ← _verify_path s path digest (byte_len data); Ok s
  | None => Ok (MkArtifacts (kernel_artifacts s) (<[path := data]> (blobs s)))
  end.

(** ** Rows *)

Definition find_artifact (s : artifacts) (digest : string) : option artifact_row :=
  List.find (λ r, bool_decide (a_digest r = digest)) (kernel_artifacts s).

Definition _artifact_from_row (r : artifact_row) : result ArtifactRef :=
  created ← of_option (ValueError "isoformat") (fromisoformat (a_created_at r));
  Ok (MkRef (a_digest r) (a_size_bytes r) (a_media_type r) (a_encoding r) created).

(** [select coalesce(sum(size_bytes), 0) from kernel_artifacts]. *)
Definition used_bytes (s : artifacts) : Z := foldr Z.add 0 (map a_size_bytes (kernel_artifacts s)).

(** The constraints of the table. *)
Definition artifact_allowed (s : artifacts) (r : artifact_row) : bool :=
  sql_nonempty (a_digest r) && (0 <=? a_size_bytes r) && sql_nonempty (a_media_type r)
  && sql_nonempty (a_relative_path r)
  && bool_decide (a_digest r ∉ map a_digest (kernel_artifacts s))
  && bool_decide (a_relative_path r ∉ map a_relative_path (kernel_artifacts s)).

(** [ArtifactStore(...)]'s check of its quota. *)
Definition artifact_store_init (max_total_bytes : option Z) : result artifacts :=
  _ ← raise_if (match max_total_bytes with Some m => m <? 1 | None => false end)
        (ValueError "max_total_bytes must be a positive integer");
  Ok (MkArtifacts [] ∅).

Section Store.
Context (max_total_bytes : option Z).

(** [now] is what [utc_now()] returns. *)
Definition put_bytes (now : datetime) (data media_type : string) (encoding : option string)
    (s : artifacts) : result ArtifactRef * artifacts :=
  if blank media_type then (Err (ValueError "media_type must not be empty"), s)
  else
    let digest := bytes_digest data in
    match _relative_path digest with
    | Err e => (Err e, s)
    | Ok path =>
        match find_artifact s digest with
        | Some row =>
            ((reference ← _artifact_from_row row;
              _ ← _verify_path s path digest (size_bytes reference);
              Ok reference), s)
        | None =>
            if match max_total_bytes with
               | Some m => m <? used_bytes s + byte_len data | None => false end
            then (Err ArtifactQuotaExceededError, s)
            else match _write_once s path data digest with
                 | Err e => (Err e, s)
                 | Ok s' =>
                     let row := MkArtifactRow digest (byte_len data) media_type encoding path
                                  (isoformat now) in
                     if negb (int64_ok (byte_len data)) then (Err OverflowError, s')
                     else if artifact_allowed s row
                     then (Ok (MkRef digest (byte_len data) media_type encoding now),
                           MkArtifacts (kernel_artifacts s ++ [row]) (blobs s'))
                     else (Err SqliteIntegrityError, s')
                 end
        end
    end.

(** [text.encode(encoding)]: UTF-8 is the representation of [text] itself, the
    other codecs are arguments. *)
Definition put_text (encode_other : string → string → result string) (now : datetime)
    (text encoding media_type : string) (s : artifacts) : result ArtifactRef * artifacts :=
  match (if bool_decide (encoding = "utf-8") then Ok text else encode_other encoding text) with
  | Err e => (Err e, s)
  | Ok data => put_bytes now data media_type (Some encoding) s
  end.

Definition put_json (now : datetime) (value : pyval) (s : artifacts)
    : result ArtifactRef * artifacts :=
  match canonical_json_bytes value with
  | Err e => (Err e, s)
  | Ok data => put_bytes now data "application/json" (Some "utf-8") s
  end.
End Store.

Definition stat (s : artifacts) (digest : string) : result ArtifactRef :=
  _ ← _validate_digest digest;
  row ← of_option ArtifactNotFoundError (find_artifact s digest);
  _artifact_from_row row.

Definition get_bytes (s : artifacts) (d : string) (verify : bool) : result string :=
  reference ← stat s d;
  path ← _relative_path (digest reference);
  data ← of_option ArtifactIntegrityError (blobs s !! path);
  _ ← raise_if (verify && (negb (bool_decide (bytes_digest data = digest reference))
                           || negb (byte_len data =? size_bytes reference)))
        ArtifactIntegrityError;
  Ok data.

Definition verify (s : artifacts) (d : string) : result bool := _ ← get_bytes s d true; Ok true.

Definition path_for (s : artifacts) (blob_root d : string) : result string :=
  reference ← stat s d;
  path ← _relative_path (digest reference);
  _ ← _verify_path s path (digest reference) (size_bytes reference);
  Ok (path_div blob_root path).

(** [bytes.decode("utf-8")]. *)
Definition utf8_ok (s : string) : bool := utf8_well_formed false s.

Definition decode_text (data : string) : result string :=
  _ ← raise_if (negb (utf8_ok data)) (ValueError "utf-8"); Ok data.

(** [a or b] on optional text. *)
Definition or_text (a b : option string) : option string :=
  match a with Some EmptyString | None => b | Some _ => a end.

Section Codecs.
Context (decode_other : string → string → result string).

Definition get_text (s : artifacts) (d : string) (requested : option string) : result string :=
  reference ← stat s d;
  let codec := default "utf-8" (or_text (or_text requested (encoding reference)) (Some "utf-8")) in
  data ← get_bytes s (digest reference) true;
  if bool_decide (codec = "utf-8") then decode_text data else decode_other codec data.

Definition get_json (s : artifacts) (d : string) : result json :=
  text ← get_text s d (Some "utf-8");
  of_option (ValueError "json") (json_loads text).
End Codecs.

(** ** The invariant *)

Record artifact_ok (s : artifacts) (r : artifact_row) : Prop := {
  ao_path : _relative_path (a_digest r) = Ok (a_relative_path r);
  ao_blob : ∃ data, blobs s !! a_relative_path r = Some data
    ∧ bytes_digest data = a_digest r ∧ byte_len data = a_size_bytes r;
  ao_created : is_Some (fromisoformat (a_created_at r))
}.

Record store_ok (max_total_bytes : option Z) (s : artifacts) : Prop := {
  so_rows : ∀ r, r ∈ kernel_artifacts s → artifact_ok s r;
  so_digests : NoDup (map a_digest (kernel_artifacts s));
  so_quota : ∀ m, max_total_bytes = Some m → used_bytes s <= m
}.

Lemma empty_store_ok m s : artifact_store_init m = Ok s → store_ok m s.
Proof.
  unfold artifact_store_init. intros H. apply bind_ok in H as (? & Hm%raise_if_ok & [= <-]).
  constructor; simpl; [by intros r ?%elem_of_nil|constructor|].
  intros k ->. apply Z.ltb_ge in Hm. unfold used_bytes. simpl. lia.
Qed.

(** What the store holds: the specification is this partial function. *)
Definition contents (s : artifacts) (d : string) : option string :=
  r ← find_artifact s d; blobs s !! a_relative_path r.

Lemma find_artifact_spec s d r :
  find_artifact s d = Some r → r ∈ kernel_artifacts s ∧ a_digest r = d.
Proof.
  unfold find_artifact. intros H. apply find_some in H as [Hin Hd].
  split; [by apply list_elem_of_In|]. by apply bool_decide_eq_true in Hd.
Qed.

Lemma find_artifact_none s d :
  find_artifact s d = None → d ∉ map a_digest (kernel_artifacts s).
Proof.
  unfold find_artifact. intros H Hin. apply list_elem_of_fmap in Hin as (r & -> & Hr).
  apply list_elem_of_In in Hr. by pose proof (find_none _ _ H r Hr) as ?%bool_decide_eq_false.
Qed.

(** ** Digests computed by the store are addresses *)

Definition hex_code (c : Z) : Prop := 48 <= c <= 57 ∨ 97 <= c <= 102.

Lemma lower_hex_code a : is_lower_hex a = true → hex_code (byte_at a).
Proof.
  unfold is_lower_hex, is_digit, in_range, hex_code.
  rewrite orb_true_iff, !andb_true_iff, !Z.leb_le. lia.
Qed.

Lemma lower_hex_decode s : all_chars is_lower_hex s = true →
  Forall hex_code (decode_utf8 s) ∧ length (decode_utf8 s) = String.length s
  ∧ py_len s = Z.of_nat (String.length s).
Proof.
  unfold all_chars. induction s as [|a s IH]; simpl; [by repeat constructor|].
  intros [Ha Hs]%andb_true_iff. apply lower_hex_code in Ha as Hc. destruct (IH Hs) as (H1 & H2 & H3).
  assert (byte_at a < 128) by (unfold hex_code in Hc; lia).
  rewrite (proj2 (Z.ltb_lt _ 192)) by lia. split_and!; [by constructor|simpl; by rewrite H2|].
  unfold is_continuation. rewrite H3, (proj2 (Z.leb_gt _ _)) by lia. simpl. lia.
Qed.

Lemma hex_value_some c : hex_code c → is_Some (hex_value c).
Proof. unfold hex_value, hex_code. intros Hc. repeat case_match; [eauto..|exfalso; lia]. Qed.

Lemma hex_digits_some cs acc : Forall hex_code cs → cs ≠ [] →
  is_Some (hex_digits cs acc false false).
Proof.
  assert (G : ∀ cs acc, Forall hex_code cs → is_Some (hex_digits cs acc false true)).
  { intros l a Hl. revert a. induction Hl as [|c l Hc Hl IH]; intros a; simpl; [eauto|].
    by destruct (hex_value_some c Hc) as [d ->]. }
  intros H Hn. destruct H as [|c l Hc Hl]; [done|]. simpl.
  destruct (hex_value_some c Hc) as [d ->]. by apply G.
Qed.

Lemma hex_body_some cs : Forall hex_code cs → cs ≠ [] → is_Some (hex_body cs).
Proof.
  intros H Hn. pose proof (hex_digits_some cs 0 H Hn) as Hd. unfold hex_body.
  assert (Hs : (match cs with
      | 48 :: x :: cs' => if (x =? 120) || (x =? 88)
                          then match cs' with 95 :: cs'' => cs'' | _ => cs' end else cs
      | _ => cs end) = cs).
  { destruct H as [|c l Hc [|c2 l2 Hc2 Hl2]]; [done| |]; repeat case_match; try done;
      subst; unfold hex_code in *; exfalso; lia. }
  rewrite Hs. destruct H as [|c l Hc Hl]; [done|].
  destruct (decide (c = 95)) as [->|Hne]; [unfold hex_code in *; lia|]. repeat case_match; done.
Qed.

Lemma int_base16_lower_hex s : all_chars is_lower_hex s = true → s ≠ EmptyString →
  is_Some (int_base16 s).
Proof.
  intros Hs Hn. destruct (lower_hex_decode s Hs) as (Hc & Hl & _). unfold int_base16.
  assert (Ha : to_ascii_digits (decode_utf8 s) = decode_utf8 s).
  { unfold to_ascii_digits.
    rewrite (proj2 (forallb_elem _ _)); [done|]. intros c Hin.
    rewrite Forall_forall in Hc. specialize (Hc c Hin). unfold hex_code in Hc. lia. }
  rewrite Ha. assert (Hne : decode_utf8 s ≠ []).
  { intros E. rewrite E in Hl. destruct s; [done|discriminate Hl]. }
  pose proof (hex_body_some _ Hc Hne) as Hb. destruct Hc as [|c cs Hc Hcs]; [done|]. simpl.
  assert (c_isspace c = false ∧ c ≠ 43 ∧ c ≠ 45) as (-> & ? & ?).
  { unfold c_isspace, hex_code in *. split_and!; lia. }
  repeat case_match; done.
Qed.

Lemma remove_prefix_app p s : remove_prefix p (p +:+ s) = s.
Proof.
  unfold remove_prefix. rewrite starts_with_app.
  induction p as [|a p IH]; [by destruct s|done].
Qed.

Lemma bytes_digest_valid b : ∃ path, _relative_path (bytes_digest b) = Ok path.
Proof.
  pose proof (sha256_hex_text b) as [H1 H2]. unfold _relative_path, _validate_digest, bytes_digest.
  rewrite starts_with_app, remove_prefix_app.
  destruct (lower_hex_decode _ H1) as (_ & _ & ->). rewrite H2.
  destruct (int_base16_lower_hex (sha256_hex b) H1) as [z ->]; [intros E; by rewrite E in H2|].
  cbn. eauto.
Qed.

(** ** What a put does *)

Lemma validated_path d path : _relative_path d = Ok path → _validate_digest d = Ok tt.
Proof. unfold _relative_path. intros H. inv_ok. done. Qed.

Lemma verify_path_ok s path d size u : _verify_path s path d size = Ok u ↔
  ∃ data, blobs s !! path = Some data ∧ byte_len data = size ∧ bytes_digest data = d.
Proof.
  unfold _verify_path. rewrite bind_ok. split.
  - intros (data & Hb & H). inv_ok. exists data. split_and!; [done|lia|done].
  - intros (data & -> & <- & <-). exists data. split; [done|].
    rewrite Z.eqb_refl, bool_decide_eq_true_2 by done. by destruct u.
Qed.

(** Files are only added, and only at a free path. *)
Record blob_step (path data digest : string) (s s' : artifacts) : Prop := {
  bs_rows : kernel_artifacts s' = kernel_artifacts s;
  bs_kept : ∀ p b, blobs s !! p = Some b → blobs s' !! p = Some b;
  bs_here : ∃ b, blobs s' !! path = Some b ∧ bytes_digest b = digest ∧ byte_len b = byte_len data
    ∧ (blobs s !! path = None → b = data)
}.

Lemma write_once_step s path data s' :
  _write_once s path data (bytes_digest data) = Ok s' → blob_step path data (bytes_digest data) s s'.
Proof.
  unfold _write_once. destruct (blobs s !! path) as [b|] eqn:Eb; intros H.
  - apply bind_ok in H as (u & (b' & Hb' & Hl & Hd)%verify_path_ok & [= <-]).
    constructor; [done|done|]. exists b'. split_and!; try done.
    intros HN. by rewrite HN in Hb'.
  - injection H as <-. constructor; simpl; [done| |].
    + intros p b Hp. rewrite lookup_insert_ne; [done|]. by intros <-; rewrite Hp in Eb.
    + exists data. by rewrite lookup_insert_eq.
Qed.

Definition exceeds_quota (max : option Z) (s : artifacts) (data : string) : bool :=
  match max with Some m => m <? used_bytes s + byte_len data | None => false end.

Definition new_row (now : datetime) (data media_type : string) (encoding : option string)
    (path : string) : artifact_row :=
  MkArtifactRow (bytes_digest data) (byte_len data) media_type encoding path (isoformat now).

(** The three ways a call of [put_bytes] ends. *)
Inductive put_outcome max now data media_type encoding s : result ArtifactRef → artifacts → Prop :=
  | PutRefused e s' :
      kernel_artifacts s' = kernel_artifacts s →
      (∀ p b, blobs s !! p = Some b → blobs s' !! p = Some b) →
      put_outcome max now data media_type encoding s (Err e) s'
  | PutFound row reference path b :
      find_artifact s (bytes_digest data) = Some row →
      _artifact_from_row row = Ok reference →
      _relative_path (bytes_digest data) = Ok path →
      blobs s !! path = Some b → bytes_digest b = bytes_digest data →
      byte_len b = a_size_bytes row →
      put_outcome max now data media_type encoding s (Ok reference) s
  | PutNew path s1 :
      find_artifact s (bytes_digest data) = None →
      _relative_path (bytes_digest data) = Ok path →
      exceeds_quota max s data = false →
      blob_step path data (bytes_digest data) s s1 →
      put_outcome max now data media_type encoding s
        (Ok (MkRef (bytes_digest data) (byte_len data) media_type encoding now))
        (MkArtifacts (kernel_artifacts s ++ [new_row now data media_type encoding path]) (blobs s1)).

Lemma put_bytes_outcome max now data media_type encoding s r s' :
  put_bytes max now data media_type encoding s = (r, s') →
  put_outcome max now data media_type encoding s r s'.
Proof.
  unfold put_bytes. destruct (blank media_type); [by intros [= <- <-]; constructor|].
  destruct (bytes_digest_valid data) as [path Hp]. rewrite Hp.
  destruct (find_artifact s (bytes_digest data)) as [row|] eqn:Ef.
  - destruct (_artifact_from_row row) as [reference|e] eqn:Er; [|by intros [= <- <-]; constructor].
    cbn [mbind result_bind].
    destruct (_verify_path _ _ _ _) as [u|e] eqn:Ev; [|by intros [= <- <-]; constructor].
    apply verify_path_ok in Ev as (b & Hb & Hl & Hd). intros [= <- <-].
    eapply PutFound; try done. rewrite Hl.
    unfold _artifact_from_row in Er. apply bind_ok in Er as (c & _ & [= <-]). done.
  - fold (exceeds_quota max s data). destruct (exceeds_quota max s data) eqn:Eq;
      [by intros [= <- <-]; constructor|].
    destruct (_write_once _ _ _ _) as [s1|e] eqn:Ew; [|by intros [= <- <-]; constructor].
    pose proof (write_once_step _ _ _ _ Ew) as Hs.
    cbn zeta. destruct (negb _); [|destruct (artifact_allowed _ _)]; intros [= <- <-];
      [destruct Hs; by constructor|by eapply PutNew|destruct Hs; by constructor].
Qed.

(** ** Well-formed stores *)

Lemma contents_row max s row : store_ok max s → row ∈ kernel_artifacts s →
  ∃ b, blobs s !! a_relative_path row = Some b ∧ bytes_digest b = a_digest row
       ∧ byte_len b = a_size_bytes row.
Proof. intros Hs Hr. by destruct (so_rows _ _ Hs row Hr). Qed.

(** Reading a well-formed store is looking up its contents: the integrity
    errors are unreachable. *)
Lemma get_bytes_lookup max s d v : store_ok max s →
  get_bytes s d v = _ ← _validate_digest d; of_option ArtifactNotFoundError (contents s d).
Proof.
  intros Hs. unfold get_bytes, stat, contents. destruct (_validate_digest d) as [u|e]; [|done].
  cbn [mbind result_bind]. destruct (find_artifact s d) as [row|] eqn:Ef; [|done].
  apply find_artifact_spec in Ef as [Hr Hd]. destruct (so_rows _ _ Hs row Hr) as [Hp Hb [c Hc]].
  destruct Hb as (b & Hb & Hbd & Hbl).
  unfold _artifact_from_row. cbn [of_option mbind result_bind option_bind]. rewrite Hc, Hb.
  cbn [of_option mbind result_bind digest size_bytes]. rewrite Hp. cbn [mbind result_bind].
  rewrite Hb. cbn [of_option mbind result_bind].
  rewrite Hbd, Hbl, bool_decide_eq_true_2, Z.eqb_refl by done. by rewrite andb_false_r.
Qed.

Lemma artifact_ok_kept s s' row :
  (∀ p b, blobs s !! p = Some b → blobs s' !! p = Some b) → artifact_ok s row → artifact_ok s' row.
Proof.
  intros Hk [Hp (b & Hb & Hd & Hl) Hc]. constructor; [done| |done]. exists b. auto.
Qed.

Lemma used_bytes_app s row bs :
  used_bytes (MkArtifacts (kernel_artifacts s ++ [row]) bs) = used_bytes s + a_size_bytes row.
Proof.
  unfold used_bytes. simpl. rewrite map_app, foldr_app. simpl.
  generalize (map a_size_bytes (kernel_artifacts s)). induction l; simpl; lia.
Qed.

Lemma find_artifact_app s row bs d :
  find_artifact (MkArtifacts (kernel_artifacts s ++ [row]) bs) d =
  match find_artifact s d with
  | Some r => Some r
  | None => if decide (a_digest row = d) then Some row else None
  end.
Proof.
  unfold find_artifact. simpl. induction (kernel_artifacts s) as [|r l IH]; simpl.
  - by destruct (decide _); [rewrite bool_decide_eq_true_2|rewrite bool_decide_eq_false_2].
  - by destruct (bool_decide _).
Qed.

(** The clock hands out UTC timestamps. *)
Definition utc_timestamp (now : datetime) : Prop :=
  dt_offset now = Some 0 ∧ in_range_local (dt_local now) = true.

Lemma utc_timestamp_text now : utc_timestamp now → fromisoformat (isoformat now) = Some now.
Proof. intros [Ho Hr]. destruct now as [l o]. simpl in *. subst. by apply fromisoformat_isoformat. Qed.

Lemma put_outcome_preserves max now data media_type encoding s r s' :
  store_ok max s → utc_timestamp now →
  put_outcome max now data media_type encoding s r s' →
  store_ok max s' ∧ (∀ d b, contents s d = Some b → contents s' d = Some b)
  ∧ ((∃ e, r = Err e) → ∀ d, contents s' d = contents s d).
Proof.
  intros Hs Hnow H. destruct H as [e s' Hrows Hk|row ref path b|path s1 Hf Hp Hq [Hrows Hk Hb]].
  - assert (Hc : ∀ d, contents s' d = contents s d).
    { intros d. unfold contents, find_artifact. rewrite Hrows. fold (find_artifact s d).
      destruct (find_artifact s d) as [row|] eqn:Ef; [|done]. cbn [mbind option_bind].
      apply find_artifact_spec in Ef as [Hr _].
      destruct (contents_row _ _ _ Hs Hr) as (b & Hb & _). by rewrite Hb, (Hk _ _ Hb). }
    split_and!; [|intros d b; by rewrite Hc|done].
    constructor; [|by rewrite Hrows; apply Hs|].
    + intros row Hr. rewrite Hrows in Hr. eapply artifact_ok_kept; [exact Hk|by apply Hs].
    + unfold used_bytes. rewrite Hrows. apply Hs.
  - split_and!; [done|done|by intros [? ?]].
  - destruct Hb as (b & Hb & Hd & Hl & _). split_and!; [| |by intros [? ?]].
    + constructor; simpl.
      * intros row. rewrite elem_of_app, list_elem_of_singleton. intros [Hr| ->].
        { eapply artifact_ok_kept, Hs, Hr. exact Hk. }
        constructor; simpl; [done|by exists b|]. rewrite utc_timestamp_text by done. eauto.
      * rewrite map_app. apply NoDup_app. split_and!; [apply Hs| |apply NoDup_singleton].
        intros d Hin. simpl. rewrite list_elem_of_singleton. intros ->.
        by apply (find_artifact_none _ _ Hf).
      * intros m ->. rewrite used_bytes_app. simpl in *. apply Z.ltb_ge in Hq. lia.
    + intros d b'. unfold contents. rewrite find_artifact_app.
      destruct (find_artifact s d) as [row|]; [|done]. simpl. apply Hk.
Qed.

(** ** Properties *)

(** Whatever a put answers, the store stays
    well-formed: every row's blob is present with the row's digest and size,
    digests are unique, and the bytes of all rows stay within the quota.  Nothing
    stored before is changed, and a call that raises changes the contents of no
    address. *)
Theorem put_bytes_preserves max now data media_type encoding s r s' :
  store_ok max s → utc_timestamp now →
  put_bytes max now data media_type encoding s = (r, s') →
  store_ok max s' ∧ (∀ d b, contents s d = Some b → contents s' d = Some b)
  ∧ ((∃ e, r = Err e) → ∀ d, contents s' d = contents s d).
Proof. intros Hs Hn H%put_bytes_outcome. by eapply put_outcome_preserves. Qed.

(** C23 (put_bytes_refines): the store implements a partial function from
    digests to bytes.  Unless SHA-256 collides on the data at hand, a successful
    put binds exactly the digest of the data and answers with it, the digest then
    reads back as the data, and putting the same data again, whatever its media
    type, answers with the same reference and changes nothing. *)
Theorem put_bytes_refines max now data media_type encoding s reference s' :
  store_ok max s → utc_timestamp now →
  (∀ p b, blobs s !! p = Some b → bytes_digest b = bytes_digest data → b = data) →
  put_bytes max now data media_type encoding s = (Ok reference, s') →
  digest reference = bytes_digest data ∧ size_bytes reference = byte_len data
  ∧ (∀ d, contents s' d = if decide (d = bytes_digest data) then Some data else contents s d)
  ∧ (∀ v, get_bytes s' (bytes_digest data) v = Ok data)
  ∧ (∀ now' media_type' encoding', blank media_type' = false →
       put_bytes max now' data media_type' encoding' s' = (Ok reference, s')).
Proof.
  intros Hs Hn Hcoll H%put_bytes_outcome.
  destruct (put_outcome_preserves _ _ _ _ _ _ _ _ Hs Hn H) as (Hs' & _ & _).
  remember (Ok reference) as r eqn:Er.
  assert (G : ∃ row path, digest reference = bytes_digest data ∧ size_bytes reference = byte_len data
    ∧ find_artifact s' (bytes_digest data) = Some row ∧ _artifact_from_row row = Ok reference
    ∧ _relative_path (bytes_digest data) = Ok path ∧ blobs s' !! path = Some data
    ∧ (∀ d, d ≠ bytes_digest data → contents s' d = contents s d)).
  { destruct H as [|row ref path b Hf Hr Hp Hb Hd Hl|path s1 Hf Hp Hq Hst]; [done| |].
    - injection Er as ->. exists row, path. assert (b = data) as -> by eauto.
      unfold _artifact_from_row in Hr. apply bind_ok in Hr as Hr'. destruct Hr' as (c & _ & [= <-]).
      simpl. apply find_artifact_spec in Hf as Hf'. split_and!; try done. by destruct Hf'.
    - injection Er as <-. exists (new_row now data media_type encoding path), path. simpl.
      destruct Hst as [Hrows Hk (b & Hb & Hd & Hl & Hnew)].
      assert (b = data) as ->.
      { destruct (blobs s !! path) as [b0|] eqn:Eb; [|by apply Hnew].
        rewrite (Hk _ _ Eb) in Hb. injection Hb as ->. eauto. }
      split_and!; try done.
      + rewrite find_artifact_app, Hf. unfold new_row. cbn [a_digest]. by rewrite decide_True.
      + unfold _artifact_from_row, new_row. cbn [a_created_at a_digest a_size_bytes a_media_type a_encoding].
        by rewrite utc_timestamp_text.
      + intros d Hne. unfold contents. rewrite find_artifact_app. unfold new_row.
        cbn [a_digest]. rewrite decide_False by congruence.
        destruct (find_artifact s d) as [row|] eqn:Ef; [|done]. simpl.
        apply find_artifact_spec in Ef as [Hr _].
        destruct (contents_row _ _ _ Hs Hr) as (b & Hb' & _). by rewrite Hb', (Hk _ _ Hb'). }
  destruct G as (row & path & Hdig & Hsize & Hf & Hr & Hp & Hb & Hother).
  assert (Hc : contents s' (bytes_digest data) = Some data).
  { unfold contents. rewrite Hf. simpl. apply find_artifact_spec in Hf as [Hin Hd].
    destruct (so_rows _ _ Hs' row Hin) as [Hrp _ _]. rewrite Hd, Hp in Hrp. by injection Hrp as <-. }
  split_and!; [done|done| | |].
  - intros d. destruct (decide _) as [->|Hne]; [done|by apply Hother].
  - intros v. rewrite (get_bytes_lookup max) by done.
    rewrite (validated_path _ _ Hp), Hc. done.
  - intros now' mt' enc' Hm. unfold put_bytes. rewrite Hm, Hp, Hf, Hr. cbn [mbind result_bind].
    rewrite Hsize, (proj2 (verify_path_ok s' path (bytes_digest data) (byte_len data) tt)); [by rewrite Er|eauto].
Qed.

(** In any state of the table and the files, however
    they came about, a verified read returns only bytes whose SHA-256 is the
    requested digest and whose length is the recorded size; when the file holds
    anything else, or is missing, the read raises [ArtifactIntegrityError]. *)
Theorem get_bytes_integrity s d row c path :
  find_artifact s d = Some row → fromisoformat (a_created_at row) = Some c →
  _relative_path d = Ok path →
  get_bytes s d true =
    match blobs s !! path with
    | Some data => if decide (bytes_digest data = d ∧ byte_len data = a_size_bytes row)
                   then Ok data else Err ArtifactIntegrityError
    | None => Err ArtifactIntegrityError
    end.
Proof.
  intros Hf Hc Hp. apply find_artifact_spec in Hf as Hf'. destruct Hf' as [_ Hd].
  unfold get_bytes, stat. rewrite (validated_path _ _ Hp), Hf. unfold _artifact_from_row.
  cbn [of_option mbind result_bind]. rewrite Hc. cbn [of_option mbind result_bind digest size_bytes].
  rewrite Hd, Hp. cbn [mbind result_bind].
  destruct (blobs s !! path) as [data|]; [|done]. cbn [of_option mbind result_bind].
  destruct (decide _) as [[H1 H2]|Hn].
  - by rewrite H1, H2, bool_decide_eq_true_2, Z.eqb_refl by done.
  - destruct (bool_decide (bytes_digest data = d)) eqn:E1; simpl; [|done].
    destruct (byte_len data =? a_size_bytes row) eqn:E2; simpl; [|done].
    apply bool_decide_eq_true_1 in E1. apply Z.eqb_eq in E2. by destruct Hn.
Qed.

(** ** A concrete store *)
Module SampleArtifacts.
Definition now : datetime := Datetime 0 (Some 0).
Definition empty : artifacts := MkArtifacts [] ∅.
Definition put : result ArtifactRef * artifacts := Eval vm_compute in
  put_bytes (Some 16) now "hello" "text/plain" None empty.
Definition stored : artifacts := snd put.
Definition reference : ArtifactRef :=
  match fst put with Ok r => r | Err _ => MkRef "" 0 "" None now end.
Lemma empty_ok : store_ok (Some 16) empty.
Proof. by apply (empty_store_ok (Some 16)). Qed.
Lemma now_utc : utc_timestamp now.
Proof. split; reflexivity. Qed.
Lemma puts : put_bytes (Some 16) now "hello" "text/plain" None empty = (Ok reference, stored).
Proof. by_vm. Qed.
End SampleArtifacts.

Example put_over_quota :
  fst (put_bytes (Some 4) SampleArtifacts.now "hello" "text/plain" None SampleArtifacts.empty)
  = Err ArtifactQuotaExceededError.
Proof. by_vm. Qed.

Lemma put_bytes_preserves_witness : store_ok (Some 16) SampleArtifacts.stored.
Proof.
  apply (put_bytes_preserves (Some 16) SampleArtifacts.now "hello" "text/plain" None
    SampleArtifacts.empty (Ok SampleArtifacts.reference)); 
    [apply SampleArtifacts.empty_ok|apply SampleArtifacts.now_utc|apply SampleArtifacts.puts].
Defined.

Lemma put_bytes_refines_witness : contents SampleArtifacts.stored (bytes_digest "hello") = Some "hello".
Proof.
  destruct (put_bytes_refines (Some 16) SampleArtifacts.now "hello" "text/plain" None
    SampleArtifacts.empty SampleArtifacts.reference SampleArtifacts.stored
    SampleArtifacts.empty_ok SampleArtifacts.now_utc) as (_ & _ & H & _).
  - intros p b Hb. discriminate Hb.
  - apply SampleArtifacts.puts.
  - rewrite (H (bytes_digest "hello")). by rewrite decide_True.
Defined.

Lemma get_bytes_integrity_witness :
  get_bytes SampleArtifacts.empty (bytes_digest "hello") true = Err ArtifactNotFoundError
  ∧ get_bytes (MkArtifacts (kernel_artifacts SampleArtifacts.stored) ∅) (bytes_digest "hello") true
    = Err ArtifactIntegrityError.
Proof.
  split; [by_vm|].
  set (s := MkArtifacts (kernel_artifacts SampleArtifacts.stored) ∅).
  set (path := "sha256/2c/f2/" +:+ sha256_hex "hello").
  assert (Hf : find_artifact s (bytes_digest "hello") = Some (MkArtifactRow (bytes_digest "hello") 5
    "text/plain" None path "0001-01-01T00:00:00+00:00")) by by_vm.
  assert (Hp : _relative_path (bytes_digest "hello") = Ok path) by by_vm.
  exact (get_bytes_integrity s _ _ SampleArtifacts.now path Hf ltac:(by_vm) Hp).
Defined.
