(* ===== verification/Quotas.v ===== *)
(** * Request and storage quotas

    [Window] is interfaces/http/quota.py: the sliding window of accepted
    requests, over the clock readings its calls see, in the order the lock
    serialises them.  [Storage] is runtime/quotas.py: the fail-closed admission
    over the active files, with the file system as a tree of what [lstat] and
    [iterdir] report. *)

From S2P Require Import Prelude PyStr PyFloat.
From Stdlib Require Import ZArith Lia Ascii String Floats.SpecFloat.
From stdpp Require Import base gmap sets list strings.
Local Open Scope Z_scope.

(** ** The sliding window *)
Module Window.

(** [SlidingWindowRequestQuota._accepted], oldest first. *)
Abbreviation deque := (list spec_float).

(** [SlidingWindowRequestQuota(requests_per_minute)]. *)
Definition window_init (requests_per_minute : Z) : result (Z * deque) :=
  _ ← raise_if (requests_per_minute <? 1)
        (ValueError "requests_per_minute must be a positive integer");
  Ok (requests_per_minute, []).

Definition sixty : spec_float := Eval vm_compute in float_of_decimal false 60 0.
Definition cutoff (now : spec_float) : spec_float := SFsub 53 1024 now sixty.

(** [while accepted and accepted[0] <= cutoff: accepted.popleft()]. *)
Fixpoint prune (limit : spec_float) (accepted : deque) : deque :=
  match accepted with
  | t :: accepted' => if SFleb t limit then prune limit accepted' else accepted
  | [] => []
  end.

Definition consume (limit : Z) (now : spec_float) (accepted : deque) : bool * deque :=
  let accepted := prune (cutoff now) accepted in
  if limit <=? zlen accepted then (false, accepted) else (true, accepted ++ [now]).

(** Calls in the order the lock admits them: the answers and the last deque. *)
Fixpoint calls (limit : Z) (accepted : deque) (readings : list spec_float) : list bool * deque :=
  match readings with
  | [] => ([], accepted)
  | now :: readings' =>
      let '(answer, accepted) := consume limit now accepted in
      let '(answers, accepted) := calls limit accepted readings' in
      (answer :: answers, accepted)
  end.

(** The readings of the accepted calls. *)
Fixpoint accepted_readings (readings : list spec_float) (answers : list bool) : list spec_float :=
  match readings, answers with
  | now :: readings', a :: answers' =>
      (if a then [now] else []) ++ accepted_readings readings' answers'
  | _, _ => []
  end.

Lemma prune_split limit q : ∃ dropped,
  q = dropped ++ prune limit q ∧ Forall (λ t, SFleb t limit = true) dropped.
Proof.
  induction q as [|t q (d & E & Hd)]; [by exists []|]. simpl. destruct (SFleb t limit) eqn:Et.
  - exists (t :: d). rewrite E at 1. split; [done|by constructor].
  - by exists [].
Qed.

Lemma prune_length limit q : zlen (prune limit q) <= zlen q.
Proof.
  destruct (prune_split limit q) as (d & E & _). rewrite E at 2. rewrite zlen_app.
  pose proof (zlen_nonneg d). lia.
Qed.

Lemma consume_length limit now q : 0 <= limit → zlen q <= limit →
  zlen (consume limit now q).2 <= limit.
Proof.
  intros Hl Hq. unfold consume. pose proof (prune_length (cutoff now) q).
  destruct (limit <=? _) eqn:E; simpl; [lia|]. rewrite zlen_app. unfold zlen at 2. simpl. lia.
Qed.

(** A history in which [expired t] says that some call up to this point read
    a clock at least sixty seconds past [t]. *)
Definition expired (readings : list spec_float) (t : spec_float) : Prop :=
  ∃ now, now ∈ readings ∧ SFleb t (cutoff now) = true.

(** What the deque keeps of the accepted readings: all but expired ones. *)
Definition window_inv (limit : Z) (seen accepted q : list spec_float) : Prop :=
  zlen q <= limit ∧ ∃ dropped, accepted = dropped ++ q ∧ Forall (expired seen) dropped.

Lemma expired_mono seen now t : expired seen t → expired (seen ++ [now]) t.
Proof. intros (r & Hr & H). exists r. rewrite elem_of_app. auto. Qed.

Lemma prune_inv now q seen accepted dropped :
  accepted = dropped ++ q → Forall (expired seen) dropped →
  ∃ dropped', accepted = dropped' ++ prune (cutoff now) q
    ∧ Forall (expired (seen ++ [now])) dropped'.
Proof.
  intros -> Hd. destruct (prune_split (cutoff now) q) as (d & Ed & Hd').
  exists (dropped ++ d). rewrite Ed at 1. rewrite app_assoc. split; [done|].
  apply Forall_app. split; eapply Forall_impl; [exact Hd|apply expired_mono|exact Hd'|].
  intros t Ht. exists now. split; [set_solver|done].
Qed.

Lemma consume_inv limit now q seen accepted :
  0 <= limit → window_inv limit seen accepted q →
  let '(answer, q') := consume limit now q in
  window_inv limit (seen ++ [now]) (accepted ++ if answer then [now] else []) q'.
Proof.
  intros Hl (Hq & dropped & E & Hd). pose proof (consume_length limit now q Hl Hq) as Hlen.
  destruct (prune_inv now q seen accepted dropped E Hd) as (d & -> & Hd').
  unfold consume in *. destruct (limit <=? _) eqn:El; simpl in *; (split; [done|]); exists d.
  - by rewrite app_nil_r.
  - by rewrite app_assoc.
Qed.

Lemma calls_inv limit readings q seen accepted : 0 <= limit → window_inv limit seen accepted q →
  let '(answers, q') := calls limit q readings in
  window_inv limit (seen ++ readings) (accepted ++ accepted_readings readings answers) q'.
Proof.
  intros Hl. revert q seen accepted. induction readings as [|now readings IH]; intros q seen acc Hi; simpl.
  - by rewrite !app_nil_r.
  - pose proof (consume_inv limit now q seen acc Hl Hi) as H1.
    destruct (consume limit now q) as [answer q1]. specialize (IH q1 _ _ H1).
    destruct (calls limit q1 readings) as [answers q2]. simpl.
    by rewrite <-!app_assoc in IH.
Qed.


(** A refused client is not locked out: the window is
    full exactly when [limit] readings are held, and as soon as one call reads a
    clock sixty seconds past the oldest of them, that call is admitted. *)
Theorem window_recovers requests_per_minute limit q0 history answers q now :
  window_init requests_per_minute = Ok (limit, q0) →
  calls limit q0 history = (answers, q) →
  ((consume limit now q).1 = true) ↔
    zlen q < limit ∨ ∃ oldest rest, q = oldest :: rest ∧ SFleb oldest (cutoff now) = true.
Proof.
  intros Hi Hc. unfold window_init in Hi. inv_ok.
  assert (H0 : window_inv limit [] [] []) by (split; [unfold zlen; simpl; lia|by exists []]).
  pose proof (calls_inv limit history [] [] [] ltac:(lia) H0) as Hinv.
  rewrite Hc in Hinv. destruct Hinv as (Hq & _). unfold consume. split.
  - destruct (limit <=? zlen (prune (cutoff now) q)) eqn:El; [done|]. intros _.
    destruct q as [|t q]; simpl in El; [left; lia|].
    destruct (SFleb t (cutoff now)) eqn:Et; [right; eauto|left; lia].
  - intros H. enough ((limit <=? zlen (prune (cutoff now) q)) = false) as -> by done.
    destruct H as [H|(t & rest & -> & Ht)].
    + pose proof (prune_length (cutoff now) q). lia.
    + simpl. rewrite Ht. pose proof (prune_length (cutoff now) rest).
      unfold zlen in *. simpl in *. lia.
Qed.

(** Two requests per minute: the third within the minute is refused. *)
Definition at_second (n : Z) : spec_float := float_of_decimal false n 0.
Example two_per_minute :
  calls 2 [] (map at_second [0; 10; 59; 60; 61; 70]) =
  ([true; true; false; true; false; true], map at_second [60; 70]).
Proof. by_vm. Qed.


Lemma window_recovers_witness : (consume 2 (at_second 60) (map at_second [0; 10])).1 = true.
Proof.
  apply (window_recovers 2 2 [] (map at_second [0; 10; 59]) [true; true; false]
    (map at_second [0; 10]) (at_second 60) eq_refl ltac:(by_vm)).
  right. exists (at_second 0), [at_second 10]. split; by_vm.
Defined.
End Window.

(** ** Active storage *)
Module Storage.

(** What [lstat] and [iterdir] report about a path: absent, not accessible
    ([OSError]), or present.  [listing] is [None] when the directory cannot be
    read. *)
Inductive entry :=
  | Missing
  | Inaccessible
  | Symlink
  | Special
  | Regular (st_size : Z)
  | Directory (listing : option (list entry)).

Section EntryInd.
Variable P : entry → Prop.
Hypothesis Hmissing : P Missing.
Hypothesis Hinaccessible : P Inaccessible.
Hypothesis Hsymlink : P Symlink.
Hypothesis Hspecial : P Special.
Hypothesis Hregular : ∀ n, P (Regular n).
Hypothesis Hunreadable : P (Directory None).
Hypothesis Hdirectory : ∀ l, Forall P l → P (Directory (Some l)).

Fixpoint entry_ind' (e : entry) : P e :=
  match e with
  | Missing => Hmissing
  | Inaccessible => Hinaccessible
  | Symlink => Hsymlink
  | Special => Hspecial
  | Regular n => Hregular n
  | Directory None => Hunreadable
  | Directory (Some l) => Hdirectory l
      ((fix go (l : list entry) : Forall P l :=
          match l with
          | [] => Forall_nil_2 P
          | x :: l' => Forall_cons_2 P x l' (entry_ind' x) (go l')
          end) l)
  end.
End EntryInd.

Definition unsafe : exn := RuntimeError "unsafe active-storage entry".
Definition unsafe_root : exn := RuntimeError "unsafe active-storage root".

Definition _regular_file_size (e : entry) : result Z :=
  match e with
  | Missing => Ok 0
  | Inaccessible => Err OSError
  | Regular n => Ok n
  | Symlink | Special | Directory _ => Err unsafe
  end.

Definition iterdir (listing : option (list entry)) : result (list entry) := of_option OSError listing.

(** The [while pending] loop.  [pending.pop()] takes the last element, so the
    stack is kept in reverse; [fuel] bounds the entries visited. *)
Fixpoint walk (fuel : nat) (pending : list entry) (total : Z) : result Z :=
  match fuel, pending with
  | _, [] => Ok total
  | O, _ => Err (RuntimeError "out of fuel")
  | S fuel', e :: pending' =>
      match e with
      | Missing | Inaccessible => Err OSError
      | Symlink | Special => Err unsafe
      | Directory listing => entries ← iterdir listing; walk fuel' (rev entries ++ pending') total
      | Regular n => walk fuel' pending' (total + n)
      end
  end.

(** The number of entries below and including one. *)
Fixpoint entry_count (e : entry) : nat :=
  match e with
  | Directory (Some l) => S (list_sum (map entry_count l))
  | _ => 1
  end.

Definition _tree_bytes (root : entry) : result Z :=
  match root with
  | Missing => Ok 0
  | Inaccessible => Err OSError
  | Directory listing => entries ← iterdir listing; walk (entry_count root) (rev entries) 0
  | Symlink | Special | Regular _ => Err unsafe_root
  end.

Record RuntimePaths := MkPaths {
  database_path : entry;
  database_wal : entry;
  database_shm : entry;
  artifact_root : entry
}.

Record RuntimeStorageQuota := MkStorageQuota { maximum : Z; reserve : Z }.

Definition storage_quota_init (max_active_bytes mutation_reserve_bytes : Z) : result RuntimeStorageQuota :=
  _ ← raise_if ((max_active_bytes <? 1)
        || negb ((0 <? mutation_reserve_bytes) && (mutation_reserve_bytes <? max_active_bytes)))
        (ValueError "invalid active-storage quota");
  Ok (MkStorageQuota max_active_bytes mutation_reserve_bytes).

Definition active_bytes (paths : RuntimePaths) : result Z :=
  database ← _regular_file_size (database_path paths);
  wal ← _regular_file_size (database_wal paths);
  shm ← _regular_file_size (database_shm paths);
  tree ← _tree_bytes (artifact_root paths);
  Ok (database + wal + shm + tree).

(** [except OSError, RuntimeError: return False]. *)
Definition has_mutation_capacity (q : RuntimeStorageQuota) (paths : RuntimePaths) : bool :=
  match active_bytes paths with
  | Ok used => used + reserve q <=? maximum q
  | Err _ => false
  end.

(** ** Reference: the recursive sum of a safe tree *)

Fixpoint tree_size (e : entry) : option Z :=
  match e with
  | Regular n => Some n
  | Directory (Some l) =>
      foldr (λ x acc, match tree_size x, acc with Some a, Some b => Some (a + b) | _, _ => None end)
        (Some 0) l
  | _ => None
  end.

Definition add_sizes (l : list entry) : option Z :=
  foldr (λ x acc, match tree_size x, acc with Some a, Some b => Some (a + b) | _, _ => None end)
    (Some 0) l.

Lemma add_sizes_app l k : add_sizes (l ++ k) =
  match add_sizes l, add_sizes k with Some a, Some b => Some (a + b) | _, _ => None end.
Proof.
  induction l as [|x l IH]; simpl.
  - destruct (add_sizes k); simpl; [f_equal; lia|done].
  - rewrite IH. destruct (tree_size x), (add_sizes l), (add_sizes k); simpl; try done. f_equal. lia.
Qed.

Lemma add_sizes_perm l k : l ≡ₚ k → add_sizes l = add_sizes k.
Proof.
  induction 1 as [|x l k _ IH|x y l|l1 l2 l3 _ IH1 _ IH2]; simpl; [done|by rewrite IH| |congruence].
  destruct (tree_size x), (tree_size y), (add_sizes l); simpl; try done. f_equal. lia.
Qed.

Lemma count_perm l k : l ≡ₚ k → list_sum (map entry_count l) = list_sum (map entry_count k).
Proof. intros H. induction H; simpl; lia. Qed.

Lemma list_sum_app_map (l k : list entry) :
  list_sum (map entry_count (l ++ k)) = (list_sum (map entry_count l) + list_sum (map entry_count k))%nat.
Proof. by rewrite map_app, list_sum_app. Qed.

(** The loop computes the recursive sum, and raises exactly when an entry is
    not a regular file or a readable directory. *)
Lemma walk_spec fuel pending total : (list_sum (map entry_count pending) <= fuel)%nat →
  match add_sizes pending with
  | Some n => walk fuel pending total = Ok (total + n)
  | None => ∃ e, walk fuel pending total = Err e ∧ (e = OSError ∨ e = unsafe)
  end.
Proof.
  revert pending total. induction fuel as [|fuel IH]; intros pending total Hf.
  - destruct pending as [|e pending]; simpl; [f_equal; lia|].
    destruct e as [| | | | |[l|]]; simpl in Hf; lia.
  - destruct pending as [|e pending]; [simpl; f_equal; lia|].
    destruct e as [| | | |n|[l|]]; cbn [walk add_sizes foldr tree_size]; try (by eauto).
    + fold (add_sizes pending). specialize (IH pending (total + n)).
      destruct (add_sizes pending); [|apply IH; simpl in Hf; lia].
      rewrite IH by (simpl in Hf; lia). f_equal. lia.
    + fold (add_sizes l) (add_sizes pending). cbn [iterdir of_option mbind result_bind].
      specialize (IH (rev l ++ pending) total).
      rewrite add_sizes_app, (add_sizes_perm (rev l) l) in IH by (symmetry; apply Permutation_rev).
      assert (Hc : (list_sum (map entry_count (rev l ++ pending)) <= fuel)%nat).
      { rewrite list_sum_app_map, (count_perm (rev l) l) by (symmetry; apply Permutation_rev).
        simpl in Hf. lia. }
      specialize (IH Hc). destruct (add_sizes l), (add_sizes pending); done.
Qed.

(** What may be counted: the sizes, when every entry is safe. *)
Definition file_size (e : entry) : option Z :=
  match e with Missing => Some 0 | Regular n => Some n | _ => None end.
Definition root_size (e : entry) : option Z :=
  match e with Missing => Some 0 | Directory _ => tree_size e | _ => None end.

Lemma tree_bytes_spec e : match root_size e with
  | Some n => _tree_bytes e = Ok n
  | None => ∃ x, _tree_bytes e = Err x
  end.
Proof.
  destruct e as [| | | |n|[l|]]; try (simpl; by eauto).
  change (_tree_bytes (Directory (Some l))) with (walk (S (list_sum (map entry_count l))) (rev l) 0).
  change (root_size (Directory (Some l))) with (add_sizes l). pose proof (walk_spec (S (list_sum (map entry_count l))) (rev l) 0) as H.
  rewrite (add_sizes_perm (rev l) l) in H by (symmetry; apply Permutation_rev).
  assert (Hc : (list_sum (map entry_count (rev l)) <= S (list_sum (map entry_count l)))%nat).
  { rewrite (count_perm (rev l) l) by (symmetry; apply Permutation_rev). lia. }
  specialize (H Hc). destruct (add_sizes l); [exact H|naive_solver].
Qed.

(** Admission fails closed and is exact: it is granted
    exactly when every file and directory that counts is a regular file or a
    readable directory and the recursive sum of the sizes leaves the reserve
    within the maximum.  The iterative walk terminates with that sum. *)
Theorem capacity_exact q paths : has_mutation_capacity q paths = true ↔
  ∃ d w s t, file_size (database_path paths) = Some d ∧ file_size (database_wal paths) = Some w
    ∧ file_size (database_shm paths) = Some s ∧ root_size (artifact_root paths) = Some t
    ∧ d + w + s + t + reserve q <= maximum q.
Proof.
  assert (Hf : ∀ e, match file_size e with
    | Some n => _regular_file_size e = Ok n | None => ∃ x, _regular_file_size e = Err x end).
  { intros [| | | |n|[l|]]; simpl; eauto. }
  unfold has_mutation_capacity, active_bytes.
  pose proof (Hf (database_path paths)) as H1. pose proof (Hf (database_wal paths)) as H2.
  pose proof (Hf (database_shm paths)) as H3. pose proof (tree_bytes_spec (artifact_root paths)) as H4.
  destruct (file_size (database_path paths)) as [d|]; [rewrite H1|destruct H1 as [x ->]; naive_solver].
  destruct (file_size (database_wal paths)) as [w|]; [rewrite H2|destruct H2 as [x ->]; naive_solver].
  destruct (file_size (database_shm paths)) as [s|]; [rewrite H3|destruct H3 as [x ->]; naive_solver].
  destruct (root_size (artifact_root paths)) as [t|]; [rewrite H4|destruct H4 as [x ->]; naive_solver].
  cbn [mbind result_bind]. rewrite Z.leb_le. naive_solver.
Qed.

Example symlink_refused : has_mutation_capacity (MkStorageQuota 100 10)
  (MkPaths (Regular 1) Missing Missing (Directory (Some [Regular 2; Symlink]))) = false.
Proof. reflexivity. Qed.
Example nested_granted : has_mutation_capacity (MkStorageQuota 100 10)
  (MkPaths (Regular 1) (Regular 4) Missing
    (Directory (Some [Regular 2; Directory (Some [Regular 50; Directory (Some [])])]))) = true.
Proof. reflexivity. Qed.
End Storage.
