(* ===== verification/Strict.v ===== *)
(** * Strict payload validators, and the interface of fenced folds

    The review and the verification lifecycles validate payload fields with
    the same regular expressions and differ in the exception: the validators
    are parameterised by it.  [Fenced] is what a lifecycle fold promises about
    the fencing tokens it accepts; the token theorem is proved once against
    it and discharged by the three lifecycles. *)

From S2P Require Import Prelude PyStr PyFloat Sha256 Json JsonText JsonFacts PyTime Events.
From Stdlib Require Import ZArith Lia Ascii String.
From stdpp Require Import base gmap sets list strings.
Local Open Scope Z_scope.

(** [[A-Za-z0-9][A-Za-z0-9._-]{0,127}\Z] *)
Definition re_identifier (s : string) : bool :=
  re_first_rest is_alnum (λ a, is_alnum a || is_one_of "._-" a) 127 s.
(** [[a-z0-9][a-z0-9-]{0,127}\Z] *)
Definition re_failure (s : string) : bool :=
  re_first_rest (λ a, is_digit a || is_lower a) (λ a, is_digit a || is_lower a || is_one_of "-" a)
    127 s.

Section Validators.
Context (err : exn).

Definition strict_require (c : bool) : result unit := raise_if (negb c) err.
Definition strict_mapping (v : json) : result jobject := as_mapping err v.
Definition strict_exact (m : jobject) (keys : list string) : result unit :=
  strict_require (has_exactly m keys).
Definition strict_text (v : json) : result string :=
  match v with
  | JStr s => _ ← strict_require (negb (is_empty s)); Ok s
  | _ => Err err
  end.
Definition strict_identifier (v : json) : result string :=
  text ← strict_text v; _ ← strict_require (re_identifier text); Ok text.
Definition strict_digest (v : json) : result string :=
  text ← strict_text v; _ ← strict_require (re_digest text); Ok text.
Definition strict_failure (v : json) : result string :=
  text ← strict_text v; _ ← strict_require (re_failure text); Ok text.
Definition strict_positive (v : json) : result Z :=
  match v with JInt z => _ ← strict_require (1 <=? z); Ok z | _ => Err err end.
Definition strict_nonnegative (maximum : Z) (v : json) : result Z :=
  match v with
  | JInt z => _ ← strict_require ((0 <=? z) && (z <=? maximum)); Ok z
  | _ => Err err
  end.
(** [datetime.fromisoformat(_text(value))] under [except ValueError]. *)
Definition strict_iso (v : json) : result datetime :=
  text ← strict_text v; of_option err (fromisoformat text).
Definition strict_principal (p : jobject) (e : EventEnvelope) : result string :=
  principal ← strict_identifier (jget "principal_id" p);
  _ ← strict_require (bool_decide (principal = actor e));
  Ok principal.

(** The envelope checks of a stream that carries only runtime events. *)
Fixpoint strict_envelopes (sid : string) (src : string) (types : list string) (sequence : Z)
    (events : list EventEnvelope) : bool :=
  match events with
  | [] => true
  | e :: events' =>
      bool_decide (stream_id e = sid) && (stream_sequence e =? sequence)
      && (schema_version e =? 1) && bool_decide (source e = src)
      && bool_decide (event_type e ∈ types)
      && strict_envelopes sid src types (sequence + 1) events'
  end.

(** One correlation, and every event caused by its predecessor. *)
Fixpoint strict_chain (correlation : string) (previous : option EventEnvelope)
    (events : list EventEnvelope) : bool :=
  match events with
  | [] => true
  | e :: events' =>
      bool_decide (correlation_id e = correlation)
      && match previous with
         | None => true
         | Some p => bool_decide (causation_id e = Some (event_id p))
         end
      && strict_chain correlation (Some e) events'
  end.
End Validators.

Lemma strict_require_ok err c u : strict_require err c = Ok u ↔ c = true.
Proof. apply raise_unless_ok. Qed.

Lemma strict_digest_ok err v d : strict_digest err v = Ok d → v = JStr d ∧ re_digest d = true.
Proof.
  unfold strict_digest, strict_text. intros H. apply bind_ok in H as (t & Ht & H).
  destruct v; try done. inv_ok.
  match goal with H : strict_require _ (re_digest _) = _ |- _ => apply strict_require_ok in H end.
  done.
Qed.

Lemma strict_identifier_ok err v d :
  strict_identifier err v = Ok d → v = JStr d ∧ re_identifier d = true.
Proof.
  unfold strict_identifier, strict_text. intros H. apply bind_ok in H as (t & Ht & H).
  destruct v; try done. inv_ok.
  match goal with H : strict_require _ (re_identifier _) = _ |- _ => apply strict_require_ok in H end.
  done.
Qed.

Lemma strict_positive_ok err v z : strict_positive err v = Ok z → v = JInt z ∧ 1 <= z.
Proof.
  destruct v; try done. simpl. intros H. apply bind_ok in H as (u & Hr%strict_require_ok & [= <-]).
  split; [done|lia].
Qed.

Lemma strict_nonnegative_ok err m v z : strict_nonnegative err m v = Ok z → v = JInt z ∧ 0 <= z <= m.
Proof.
  destruct v; try done. simpl. intros H. apply bind_ok in H as (u & Hr%strict_require_ok & [= <-]).
  split; [done|lia].
Qed.

(** ** Fenced folds *)

(** A fold over events in which some events are claims.  [f_fence] is the last
    token issued, [f_token] the token a claim carries. *)
Class Fenced (S : Type) := {
  f_step : S → EventEnvelope → result S;
  f_claim : EventEnvelope → Prop;
  f_claim_dec :: ∀ e, Decision (f_claim e);
  f_token : EventEnvelope → json;
  f_fence : S → Z;
  f_ok : S → Prop;
  f_step_ok s e s' : f_ok s → f_step s e = Ok s' → f_ok s';
  f_step_claim s e s' : f_ok s → f_step s e = Ok s' → f_claim e →
    f_token e = JInt (f_fence s + 1) ∧ f_fence s' = f_fence s + 1;
  f_step_other s e s' : f_ok s → f_step s e = Ok s' → ¬ f_claim e → f_fence s' = f_fence s
}.

Section FencedFacts.
Context {S} {F : Fenced S}.

Lemma fenced_ok s es s' : f_ok s → fold_result f_step s es = Ok s' → f_ok s'.
Proof.
  intros Hs. apply fold_result_inv; [done|]. intros a x a' _ Ha Hx. by eapply f_step_ok.
Qed.

Lemma fenced_fence s es s' : f_ok s → fold_result f_step s es = Ok s' →
  f_fence s' = f_fence s + zlen (filter f_claim es).
Proof.
  revert s. induction es as [|e es IH]; intros s Hs; simpl.
  - intros [= <-]. unfold zlen. simpl. lia.
  - intros H. apply bind_ok in H as (s1 & H1 & H).
    rewrite (IH s1) by (done || by eapply f_step_ok).
    rewrite filter_cons. case_decide as E.
    + destruct (f_step_claim _ _ _ Hs H1 E) as [_ ->]. unfold zlen. simpl. lia.
    + by rewrite (f_step_other _ _ _ Hs H1 E).
Qed.

(** The tokens of the claims are consecutive. *)
Lemma fenced_tokens s es s' : f_ok s → fold_result f_step s es = Ok s' →
  map f_token (filter f_claim es) = map JInt (seqZ (f_fence s + 1) (f_fence s' - f_fence s)).
Proof.
  revert s. induction es as [|e es IH]; intros s Hs; simpl.
  - intros [= <-]. by rewrite Z.sub_diag.
  - intros H. apply bind_ok in H as (s1 & H1 & H).
    assert (Hs1 : f_ok s1) by by eapply f_step_ok.
    pose proof (fenced_fence _ _ _ Hs1 H) as Hf. pose proof (zlen_nonneg (filter f_claim es)).
    specialize (IH s1 Hs1 H). rewrite filter_cons. case_decide as E.
    + destruct (f_step_claim _ _ _ Hs H1 E) as [Ht He]. cbn [map]. rewrite Ht, IH, He.
      rewrite (seqZ_cons (f_fence s + 1)) by lia. cbn [map]. do 3 f_equal; lia.
    + by rewrite IH, (f_step_other _ _ _ Hs H1 E).
Qed.
End FencedFacts.

(** The validators accept what they return. *)
Lemma strict_text_intro err s : s ≠ EmptyString → strict_text err (JStr s) = Ok s.
Proof. intros H. unfold strict_text, is_empty. by rewrite bool_decide_false. Qed.

Lemma strict_identifier_intro err s : re_identifier s = true → strict_identifier err (JStr s) = Ok s.
Proof.
  intros H. unfold strict_identifier. rewrite strict_text_intro by (by intros ->).
  cbn [mbind result_bind]. by rewrite H.
Qed.

Lemma strict_digest_intro err s : re_digest s = true → strict_digest err (JStr s) = Ok s.
Proof.
  intros H. unfold strict_digest. rewrite strict_text_intro by (by intros ->).
  cbn [mbind result_bind]. by rewrite H.
Qed.

Lemma strict_positive_intro err z : 1 <= z → strict_positive err (JInt z) = Ok z.
Proof. intros H. unfold strict_positive. by rewrite (proj2 (Z.leb_le 1 z)). Qed.

Lemma strict_nonnegative_intro err m z : 0 <= z <= m → strict_nonnegative err m (JInt z) = Ok z.
Proof.
  intros H. unfold strict_nonnegative.
  by rewrite (proj2 (Z.leb_le 0 z)), (proj2 (Z.leb_le z m)) by lia.
Qed.

Lemma strict_iso_intro err t : astimezone_utc t = Ok t → strict_iso err (JStr (isoformat t)) = Ok t.
Proof.
  intros H. pose proof (astimezone_utc_format _ _ H) as (_ & _ & E). unfold strict_iso.
  rewrite strict_text_intro; [cbn [mbind result_bind]; by rewrite E|].
  intros E0. rewrite E0 in E. done.
Qed.

(** Reading a field of a literal mapping. *)
Lemma jget_here k v m : jget k ((k, v) :: m) = v.
Proof. unfold jget. simpl. by rewrite decide_True. Qed.
Lemma jget_there k k' v m : k ≠ k' → jget k ((k', v) :: m) = jget k m.
Proof. intros H. unfold jget. simpl. by rewrite decide_False. Qed.

Ltac jget_literal :=
  repeat first [rewrite jget_here | rewrite jget_there by discriminate].
