(* ===== verification/ExecutionPlan.v ===== *)
(** * orchestration/execution_plan.py: the vocabulary of execution events *)

From S2P Require Import Prelude PyStr PyFloat Sha256 Json JsonText JsonFacts PyTime Events.
From Stdlib Require Import ZArith Lia Ascii String.
From stdpp Require Import base gmap sets list strings.
Local Open Scope Z_scope.

Definition EXECUTION_EVENT_SOURCE : string := "blackcell.execution".
Definition EXECUTION_EVENT_TYPES : list string :=
  ["execution.goal.admitted"; "execution.plan-draft.received"; "execution.plan.admitted";
   "execution.replan.started"; "execution.task.ready"; "execution.policy.decided";
   "execution.task.started"; "execution.task.verifying"; "execution.task.verified";
   "execution.task.blocked"; "execution.run.terminated"].
