(* ===== verification/RunLifecycle.v ===== *)
(** * orchestration/run_lifecycle.py: the fold of a run's event stream

    [step] is the body of the loop of [fold_run_lifecycle]; it dispatches to
    one handler per event type.  A handler is the code of its branch: every
    ensure in order, then the new state. *)

From S2P Require Import Prelude PyStr PyFloat Sha256 Json JsonText JsonFacts PyTime Events.
From S2P Require Import ExecutionPlan.
From Stdlib Require Import ZArith Lia Ascii String Sorting.Sorted.
From stdpp Require Import base gmap sets list strings.
Local Open Scope Z_scope.

(** ** Event types *)
Definition RUNTIME_EVENT_SOURCE : string := "blackcell.runtime".
Definition RUN_QUEUED : string := "run.queued".
Definition NODE_CLAIMED : string := "node.claimed".
Definition NODE_WORKTREE_PREPARED : string := "node.worktree-prepared".
Definition NODE_PROVIDER_DISPATCH_STARTED : string := "node.provider-dispatch-started".
Definition RUN_CANCEL_REQUESTED : string := "run.cancel-requested".
Definition NODE_SUCCEEDED : string := "node.succeeded".
Definition NODE_FAILED : string := "node.failed".
Definition NODE_REQUEUED : string := "node.requeued".
Definition NODE_CANCELED : string := "node.canceled".
Definition NODE_RECONCILIATION_REQUIRED : string := "node.reconciliation-required".
Definition NODE_WORKTREE_CLEANUP_REQUESTED : string := "node.worktree-cleanup-requested".
Definition NODE_WORKTREE_CLEANED : string := "node.worktree-cleaned".
Definition NODE_WORKTREE_CLEANUP_FAILED : string := "node.worktree-cleanup-failed".
Definition RUN_SUCCEEDED : string := "run.succeeded".
Definition RUN_FAILED : string := "run.failed".
Definition RUN_CANCELED : string := "run.canceled".
Definition RUN_RECONCILIATION_REQUIRED : string := "run.reconciliation-required".

Definition RUN_EVENT_TYPES : list string :=
  [RUN_QUEUED; NODE_CLAIMED; NODE_WORKTREE_PREPARED; NODE_PROVIDER_DISPATCH_STARTED;
   RUN_CANCEL_REQUESTED; NODE_SUCCEEDED; NODE_FAILED; NODE_REQUEUED; NODE_CANCELED;
   NODE_RECONCILIATION_REQUIRED; NODE_WORKTREE_CLEANUP_REQUESTED; NODE_WORKTREE_CLEANED;
   NODE_WORKTREE_CLEANUP_FAILED; RUN_SUCCEEDED; RUN_FAILED; RUN_CANCELED;
   RUN_RECONCILIATION_REQUIRED].

(** ** States *)
Module RunStatus.
Inductive t := QUEUED | RUNNING | CANCELING | CANCELED | SUCCEEDED | FAILED
             | RECONCILIATION_REQUIRED.
End RunStatus.
Module NodeStatus.
Inductive t := PENDING | CLAIMED | RUNNING | SUCCEEDED | FAILED | CANCELED
             | RECONCILIATION_REQUIRED.
End NodeStatus.
Module CleanupStatus.
Inductive t := ELIGIBLE | REQUESTED | FAILED | CLEANED.
End CleanupStatus.

#[export] Instance run_status_eq : EqDecision RunStatus.t.
Proof. solve_decision. Defined.
#[export] Instance node_status_eq : EqDecision NodeStatus.t.
Proof. solve_decision. Defined.
#[export] Instance cleanup_status_eq : EqDecision CleanupStatus.t.
Proof. solve_decision. Defined.

Record ActiveLease := MkLease {
  al_node_id : string;
  al_attempt : Z;
  al_fencing_token : Z;
  al_worker_id : string;
  al_lease_digest : string;
  al_worktree_spec_digest : string;
  al_worktree_spec : jobject;
  al_expires_at : datetime;
  al_prepared : bool;
  al_provider_request_id : option string;
  al_provider_context_digest : option string;
  al_provider_dispatch_event_id : option string
}.

(** [_MutableNode] and, once the fold ends, [NodeLifecycleState]. *)
Record NodeState := MkNode {
  ns_node_id : string;
  ns_status : NodeStatus.t;
  ns_attempts : Z;
  ns_fencing_token : Z;
  ns_result_digest : option string;
  ns_head_commit : option string;
  ns_failure_code : option string;
  ns_retained_worktree : bool;
  ns_lease_digest : option string;
  ns_worktree_spec_digest : option string;
  ns_worktree_spec : option jobject;
  ns_cleanup_status : option CleanupStatus.t;
  ns_cleanup_failure_code : option string
}.

Definition fresh_node (node_id : string) : NodeState :=
  MkNode node_id NodeStatus.PENDING 0 0 None None None false None None None None None.

(** Field updates of a mutable node. *)
Definition set_status (n : NodeState) (s : NodeStatus.t) : NodeState :=
  MkNode (ns_node_id n) s (ns_attempts n) (ns_fencing_token n) (ns_result_digest n)
    (ns_head_commit n) (ns_failure_code n) (ns_retained_worktree n) (ns_lease_digest n)
    (ns_worktree_spec_digest n) (ns_worktree_spec n) (ns_cleanup_status n)
    (ns_cleanup_failure_code n).
Definition set_result (n : NodeState) (d : option string) : NodeState :=
  MkNode (ns_node_id n) (ns_status n) (ns_attempts n) (ns_fencing_token n) d
    (ns_head_commit n) (ns_failure_code n) (ns_retained_worktree n) (ns_lease_digest n)
    (ns_worktree_spec_digest n) (ns_worktree_spec n) (ns_cleanup_status n)
    (ns_cleanup_failure_code n).
Definition set_head (n : NodeState) (d : option string) : NodeState :=
  MkNode (ns_node_id n) (ns_status n) (ns_attempts n) (ns_fencing_token n) (ns_result_digest n)
    d (ns_failure_code n) (ns_retained_worktree n) (ns_lease_digest n)
    (ns_worktree_spec_digest n) (ns_worktree_spec n) (ns_cleanup_status n)
    (ns_cleanup_failure_code n).
Definition set_failure (n : NodeState) (d : option string) : NodeState :=
  MkNode (ns_node_id n) (ns_status n) (ns_attempts n) (ns_fencing_token n) (ns_result_digest n)
    (ns_head_commit n) d (ns_retained_worktree n) (ns_lease_digest n)
    (ns_worktree_spec_digest n) (ns_worktree_spec n) (ns_cleanup_status n)
    (ns_cleanup_failure_code n).
Definition set_retained (n : NodeState) (b : bool) : NodeState :=
  MkNode (ns_node_id n) (ns_status n) (ns_attempts n) (ns_fencing_token n) (ns_result_digest n)
    (ns_head_commit n) (ns_failure_code n) b (ns_lease_digest n)
    (ns_worktree_spec_digest n) (ns_worktree_spec n) (ns_cleanup_status n)
    (ns_cleanup_failure_code n).
Definition set_cleanup (n : NodeState) (c : option CleanupStatus.t) (f : option string) : NodeState :=
  MkNode (ns_node_id n) (ns_status n) (ns_attempts n) (ns_fencing_token n) (ns_result_digest n)
    (ns_head_commit n) (ns_failure_code n) (ns_retained_worktree n) (ns_lease_digest n)
    (ns_worktree_spec_digest n) (ns_worktree_spec n) c f.
Definition set_lease (n : NodeState) (attempt fence : Z) (lease spec_digest : string)
    (spec : jobject) : NodeState :=
  MkNode (ns_node_id n) (ns_status n) attempt fence (ns_result_digest n)
    (ns_head_commit n) (ns_failure_code n) (ns_retained_worktree n) (Some lease)
    (Some spec_digest) (Some spec) (ns_cleanup_status n) (ns_cleanup_failure_code n).

Abbreviation node_map := (list (string * NodeState)).

(** The variables of the loop. *)
Record fold_state := MkFold {
  fs_nodes : node_map;
  fs_status : RunStatus.t;
  fs_cancel : bool;
  fs_active : option ActiveLease;
  fs_terminal : bool;
  fs_recon : bool;
  fs_max_fence : Z
}.

Definition with_node (s : fold_state) (n : NodeState) : fold_state :=
  MkFold (dict_set (ns_node_id n) n (fs_nodes s)) (fs_status s) (fs_cancel s) (fs_active s)
    (fs_terminal s) (fs_recon s) (fs_max_fence s).
Definition with_run_status (s : fold_state) (st : RunStatus.t) : fold_state :=
  MkFold (fs_nodes s) st (fs_cancel s) (fs_active s) (fs_terminal s) (fs_recon s) (fs_max_fence s).
Definition with_active (s : fold_state) (a : option ActiveLease) : fold_state :=
  MkFold (fs_nodes s) (fs_status s) (fs_cancel s) a (fs_terminal s) (fs_recon s) (fs_max_fence s).

(** ** Validation helpers *)
Definition bad {A} : result A := Err LifecycleError.
Definition ensure (c : bool) : result unit := raise_if (negb c) LifecycleError.

Definition jdigest (m : jobject) : result string := json_digest (thaw_json (JObj m)).

Definition _mapping (v : json) : result jobject := as_mapping LifecycleError v.
Definition _exact (payload : jobject) (expected : list string) : result unit :=
  ensure (has_exactly payload expected).
Definition _principal (payload : jobject) (e : EventEnvelope) : result unit :=
  ensure (is_str (jget "principal_id" payload) (actor e)).
Definition _run (payload : jobject) (run_id : string) : result unit :=
  ensure (is_str (jget "run_id" payload) run_id).

Definition _node (payload : jobject) (nodes : node_map) : result NodeState :=
  match jget "node_id" payload with
  | JStr k => of_option LifecycleError (dict_get k nodes)
  | _ => bad
  end.

Definition _positive_integer (v : json) : result Z :=
  match v with
  | JInt z => _ ← ensure (1 <=? z); Ok z
  | _ => bad
  end.

Definition _text (v : json) : result string :=
  match v with
  | JStr s => _ ← ensure (negb (is_empty s) && (py_len s <=? 256)); Ok s
  | _ => bad
  end.

Definition _digest (v : json) : result string :=
  text ← _text v;
  _ ← ensure ((py_len text =? 71) && starts_with "sha256:" text);
  _ ← of_option LifecycleError (int_base16 (remove_prefix "sha256:" text));
  Ok text.

(** A text [int(_, 16)] accepts has no cased letter but the ASCII ones. *)
Definition is_lower_text (s : string) : bool := all_chars (λ a, negb (is_upper a)) s.

Definition _commit (v : json) : result string :=
  text ← _text v;
  _ ← ensure (py_len text =? 40);
  _ ← of_option LifecycleError (int_base16 text);
  _ ← ensure (is_lower_text text);
  Ok text.

Definition token_char (a : ascii) : bool := is_alnum a || is_one_of "-._" a.
Definition _failure_code (v : json) : result string :=
  text ← _text v; _ ← ensure (all_chars token_char text); Ok text.
Definition _identifier (v : json) : result string :=
  text ← _text v; _ ← ensure (all_chars token_char text); Ok text.

Definition _timestamp (v : json) : result datetime :=
  text ← _text v;
  parsed ← of_option LifecycleError (fromisoformat text);
  _ ← ensure (bool_decide (is_Some (dt_offset parsed)));
  Ok parsed.

Definition provider_request_id (lease_digest : string) : result string :=
  digest ← _digest (JStr lease_digest);
  Ok ("change-" +:+ remove_prefix "sha256:" digest).

Definition opt_json (x : option string) : json :=
  match x with Some s => JStr s | None => JNull end.

Definition is_null (v : json) : bool := match v with JNull => true | _ => false end.
Definition is_true (v : json) : bool := match v with JBool true => true | _ => false end.
Definition is_false (v : json) : bool := match v with JBool false => true | _ => false end.
Definition is_empty_array (v : json) : bool := py_eq v (JArr []).

Definition _validate_queued (e : EventEnvelope) (run_id : string) : result unit :=
  let p := payload e in
  _ ← _exact p ["request"; "request_digest"; "principal_id"; "references"; "status"];
  _ ← _principal p e;
  request ← _mapping (jget "request" p);
  _ ← ensure (is_str (jget "run_id" request) run_id);
  d ← jdigest request;
  ensure (is_str (jget "request_digest" p) d && is_str (jget "status" p) "queued").

Definition _active (p : jobject) (active : option ActiveLease) (nodes : node_map)
    (require_prepared require_worker : bool) : result ActiveLease :=
  active ← of_option LifecycleError active;
  node ← _node p nodes;
  _ ← ensure (bool_decide (ns_node_id node = al_node_id active)
             && is_str (jget "lease_digest" p) (al_lease_digest active)
             && negb (require_prepared && negb (al_prepared active))
             && negb (require_worker
                      && negb (is_str (jget "principal_id" p) (al_worker_id active))));
  Ok active.

Definition _cleanup_node (p : jobject) (nodes : node_map) (active : option ActiveLease)
    (expected_status : CleanupStatus.t) : result NodeState :=
  node ← _node p nodes;
  _ ← ensure (bool_decide (active = None :> option ActiveLease)
             && bool_decide (ns_status node = NodeStatus.SUCCEEDED)
             && ns_retained_worktree node
             && bool_decide (ns_cleanup_status node = Some expected_status)
             && py_eq (jget "lease_digest" p) (opt_json (ns_lease_digest node))
             && py_eq (jget "worktree_spec_digest" p) (opt_json (ns_worktree_spec_digest node))
             && py_eq (jget "head_commit" p) (opt_json (ns_head_commit node))
             && bool_decide (ns_worktree_spec node ≠ None));
  Ok node.

Definition _inspection (p : jobject) (active : ActiveLease) (unchanged : bool)
    : result jobject :=
  inspection ← _mapping (jget "inspection" p);
  d ← jdigest inspection;
  _ ← ensure (is_str (jget "inspection_digest" p) d
             && is_str (jget "spec_digest" inspection) (al_worktree_spec_digest active)
             && is_str (jget "lease_digest" inspection) (al_lease_digest active));
  _ ← ensure (negb unchanged
             || (py_eq (jget "head_commit" inspection) (jget "base_commit" inspection)
                 && is_empty_array (jget "changed_paths" inspection)
                 && is_empty_array (jget "uncommitted_paths" inspection)
                 && is_empty_array (jget "out_of_scope_paths" inspection)
                 && is_false (jget "changed_path_limit_exceeded" inspection)));
  Ok inspection.

Definition _worktree_spec_digest (spec : jobject) (lease_digest : string) : result string :=
  jdigest [("schema_version", jget "schema_version" spec);
           ("lease_digest", JStr lease_digest);
           ("repository_root", jget "repository_root" spec);
           ("isolation_root", jget "isolation_root" spec);
           ("base_commit", jget "base_commit" spec);
           ("allowed_paths", jget "allowed_paths" spec);
           ("max_changed_paths", jget "max_changed_paths" spec)].

(** ** The handlers *)
Section Fold.
Context (run_id : string) (node_dependencies : list (string * list string)).

Definition node_statuses (s : fold_state) : list NodeStatus.t :=
  map (λ kn, ns_status kn.2) (fs_nodes s).
Definition any_node (f : NodeState → bool) (s : fold_state) : bool :=
  existsb (λ kn, f kn.2) (fs_nodes s).
Definition all_nodes (f : NodeState → bool) (s : fold_state) : bool :=
  forallb (λ kn, f kn.2) (fs_nodes s).
Definition status_is (st : NodeStatus.t) (n : NodeState) : bool :=
  bool_decide (ns_status n = st).

(** [nodes[dependency].status is not SUCCEEDED], for every dependency. *)
Definition dependencies_succeeded (s : fold_state) (node_id : string) : result bool :=
  deps ← of_option KeyError (dict_get node_id node_dependencies);
  states ← map_result (λ d, of_option KeyError (dict_get d (fs_nodes s))) deps;
  Ok (forallb (status_is NodeStatus.SUCCEEDED) states).

Definition handle_claimed (s : fold_state) (e : EventEnvelope) (p : jobject)
    : result fold_state :=
  _ ← ensure (negb (fs_cancel s) && bool_decide (fs_active s = None)
             && bool_decide (fs_status s ∈ [RunStatus.QUEUED; RunStatus.RUNNING]));
  _ ← _exact p ["principal_id"; "run_id"; "node_id"; "attempt"; "fencing_token"; "worker_id";
                "lease_digest"; "expires_at"; "worktree_spec_digest"; "worktree_spec"; "status"];
  _ ← _run p run_id;
  node ← _node p (fs_nodes s);
  _ ← ensure (status_is NodeStatus.PENDING node);
  ready ← dependencies_succeeded s (ns_node_id node);
  _ ← ensure ready;
  attempt ← _positive_integer (jget "attempt" p);
  fencing_token ← _positive_integer (jget "fencing_token" p);
  worker_id ← _text (jget "worker_id" p);
  lease_digest ← _digest (jget "lease_digest" p);
  spec_digest ← _digest (jget "worktree_spec_digest" p);
  expires_at ← _timestamp (jget "expires_at" p);
  spec ← _mapping (jget "worktree_spec" p);
  _ ← _exact spec ["schema_version"; "lease_digest"; "lease"; "repository_root";
                   "isolation_root"; "base_commit"; "allowed_paths"; "max_changed_paths"];
  _ ← ensure ((attempt =? ns_attempts node + 1) && (fencing_token =? fs_max_fence s + 1)
             && dt_ltb (recorded_at e) expires_at);
  actual_spec_digest ← _worktree_spec_digest spec lease_digest;
  _ ← ensure (bool_decide (actual_spec_digest = spec_digest)
             && is_str (jget "status" p) "claimed");
  raw_lease ← _mapping (jget "lease" spec);
  _ ← ensure (is_str (jget "run_id" raw_lease) run_id
             && is_str (jget "node_id" raw_lease) (ns_node_id node)
             && is_int (jget "attempt" raw_lease) attempt
             && is_int (jget "fencing_token" raw_lease) fencing_token
             && is_str (jget "worker_id" raw_lease) worker_id);
  raw_digest ← jdigest raw_lease;
  _ ← ensure (bool_decide (raw_digest = lease_digest)
             && is_str (jget "lease_digest" spec) lease_digest);
  let node := set_cleanup (set_lease (set_status node NodeStatus.CLAIMED) attempt fencing_token
                lease_digest spec_digest spec) None None in
  let s := with_node s node in
  Ok (MkFold (fs_nodes s) RunStatus.RUNNING (fs_cancel s)
        (Some (MkLease (ns_node_id node) attempt fencing_token worker_id lease_digest
                 spec_digest spec expires_at false None None None))
        (fs_terminal s) (fs_recon s) fencing_token).

Definition handle_prepared (s : fold_state) (e : EventEnvelope) (p : jobject)
    : result fold_state :=
  _ ← _exact p ["principal_id"; "run_id"; "node_id"; "lease_digest"; "inspection_digest";
                "inspection"; "status"];
  _ ← _run p run_id;
  active ← _active p (fs_active s) (fs_nodes s) false true;
  _ ← ensure (negb (al_prepared active) && dt_leb (recorded_at e) (al_expires_at active));
  _ ← _inspection p active true;
  node ← of_option KeyError (dict_get (al_node_id active) (fs_nodes s));
  let s := with_node s (set_status node NodeStatus.RUNNING) in
  let active := MkLease (al_node_id active) (al_attempt active) (al_fencing_token active)
    (al_worker_id active) (al_lease_digest active) (al_worktree_spec_digest active)
    (al_worktree_spec active) (al_expires_at active) true (al_provider_request_id active)
    (al_provider_context_digest active) (al_provider_dispatch_event_id active) in
  _ ← ensure (is_str (jget "status" p) "worktree-prepared");
  Ok (with_active s (Some active)).

Definition handle_dispatch (s : fold_state) (e : EventEnvelope) (p : jobject)
    : result fold_state :=
  _ ← _exact p ["principal_id"; "run_id"; "node_id"; "lease_digest"; "provider_request_id";
                "context_digest"; "context_artifact_digest"; "status"];
  _ ← _run p run_id;
  active ← _active p (fs_active s) (fs_nodes s) true true;
  request_id ← _identifier (jget "provider_request_id" p);
  context_digest ← _digest (jget "context_digest" p);
  artifact_digest ← _digest (jget "context_artifact_digest" p);
  _ ← ensure (negb (fs_cancel s) && dt_leb (recorded_at e) (al_expires_at active)
             && bool_decide (al_provider_dispatch_event_id active = None));
  expected ← provider_request_id (al_lease_digest active);
  _ ← ensure (bool_decide (request_id = expected)
             && bool_decide (artifact_digest = context_digest)
             && is_str (jget "status" p) "provider-dispatch-started");
  Ok (with_active s (Some (MkLease (al_node_id active) (al_attempt active)
    (al_fencing_token active) (al_worker_id active) (al_lease_digest active)
    (al_worktree_spec_digest active) (al_worktree_spec active) (al_expires_at active) true
    (Some request_id) (Some context_digest) (Some (event_id e))))).

Definition handle_cancel_requested (s : fold_state) (e : EventEnvelope) (p : jobject)
    : result fold_state :=
  _ ← _exact p ["principal_id"; "request"; "request_digest"; "status"];
  request ← _mapping (jget "request" p);
  _ ← ensure (negb (fs_cancel s)
             && is_str (jget "schema_version" request) "execution-cancel-run-request/v1");
  d ← jdigest request;
  _ ← ensure (is_str (jget "request_digest" p) d && is_str (jget "status" p) "cancel-requested");
  _ ← _identifier (jget "idempotency_key" request);
  Ok (MkFold (fs_nodes s) RunStatus.CANCELING true (fs_active s) (fs_terminal s) (fs_recon s)
        (fs_max_fence s)).

Definition handle_succeeded (s : fold_state) (e : EventEnvelope) (p : jobject)
    : result fold_state :=
  _ ← _exact p ["principal_id"; "run_id"; "node_id"; "lease_digest"; "result_digest";
                "head_commit"; "inspection_digest"; "inspection"; "retained_worktree"; "status"];
  _ ← _run p run_id;
  active ← _active p (fs_active s) (fs_nodes s) true true;
  _ ← ensure (negb (fs_cancel s) && dt_leb (recorded_at e) (al_expires_at active));
  inspection ← _inspection p active false;
  head_commit ← _commit (jget "head_commit" p);
  _ ← ensure (is_str (jget "head_commit" inspection) head_commit
             && is_empty_array (jget "uncommitted_paths" inspection)
             && is_empty_array (jget "out_of_scope_paths" inspection)
             && is_false (jget "changed_path_limit_exceeded" inspection)
             && is_true (jget "retained_worktree" p));
  node ← of_option KeyError (dict_get (al_node_id active) (fs_nodes s));
  result_digest ← _digest (jget "result_digest" p);
  let node := set_cleanup (set_retained (set_head (set_result
    (set_status node NodeStatus.SUCCEEDED) (Some result_digest)) (Some head_commit)) true)
    (Some CleanupStatus.ELIGIBLE) None in
  _ ← ensure (is_str (jget "status" p) "succeeded");
  Ok (with_run_status (with_active (with_node s node) None) RunStatus.QUEUED).

(** [None if value is None else _digest(value)]. *)
Definition optional_digest (v : json) : result (option string) :=
  if is_null v then Ok None else Some <$> _digest v.

(** The retained/removed worktree clause of the failure and cancel events. *)
Definition retained_clause (p : jobject) (active : ActiveLease) : result bool :=
  let retained := jget "retained_worktree" p in
  if is_true retained then _ ← _inspection p active false; Ok true
  else if is_false retained then
    _ ← ensure (is_null (jget "inspection" p) && is_null (jget "inspection_digest" p)); Ok false
  else bad.

Definition handle_failed (s : fold_state) (e : EventEnvelope) (p : jobject)
    : result fold_state :=
  _ ← _exact p ["principal_id"; "run_id"; "node_id"; "lease_digest"; "failure_code";
                "result_digest"; "inspection_digest"; "inspection"; "retained_worktree"; "status"];
  _ ← _run p run_id;
  active ← _active p (fs_active s) (fs_nodes s) false true;
  _ ← ensure (dt_leb (recorded_at e) (al_expires_at active));
  node ← of_option KeyError (dict_get (al_node_id active) (fs_nodes s));
  failure_code ← _failure_code (jget "failure_code" p);
  result_digest ← optional_digest (jget "result_digest" p);
  let node := set_result (set_failure (set_status node NodeStatus.FAILED) (Some failure_code))
    result_digest in
  retained ← retained_clause p active;
  let node := if retained : bool then set_retained node true else node in
  _ ← ensure (is_str (jget "status" p) "failed");
  Ok (with_run_status (with_active (with_node s node) None) RunStatus.FAILED).

Definition handle_requeued (s : fold_state) (e : EventEnvelope) (p : jobject)
    : result fold_state :=
  _ ← _exact p ["principal_id"; "run_id"; "node_id"; "lease_digest"; "disposition";
                "inspection_digest"; "inspection"; "status"];
  _ ← _run p run_id;
  active ← _active p (fs_active s) (fs_nodes s) false false;
  _ ← ensure (bool_decide (al_provider_dispatch_event_id active = None));
  let disposition := jget "disposition" p in
  _ ← (if is_str disposition "missing" then
         ensure (is_null (jget "inspection" p) && is_null (jget "inspection_digest" p))
       else if is_str disposition "unchanged" then
         _ ← _inspection p active true; Ok tt
       else bad);
  _ ← ensure (negb (fs_cancel s) && is_str (jget "status" p) "requeued");
  node ← of_option KeyError (dict_get (al_node_id active) (fs_nodes s));
  Ok (with_run_status (with_active (with_node s (set_status node NodeStatus.PENDING)) None)
        RunStatus.QUEUED).

Definition handle_canceled (s : fold_state) (e : EventEnvelope) (p : jobject)
    : result fold_state :=
  _ ← _exact p ["principal_id"; "run_id"; "node_id"; "lease_digest"; "result_digest";
                "inspection_digest"; "inspection"; "retained_worktree"; "status"];
  _ ← _run p run_id;
  active ← _active p (fs_active s) (fs_nodes s) false false;
  retained ← retained_clause p active;
  _ ← ensure (fs_cancel s);
  _ ← ensure (is_str (jget "status" p) "canceled");
  node ← of_option KeyError (dict_get (al_node_id active) (fs_nodes s));
  result_digest ← optional_digest (jget "result_digest" p);
  let node := set_retained (set_result (set_status node NodeStatus.CANCELED) result_digest)
    retained in
  Ok (with_run_status (with_active (with_node s node) None) RunStatus.CANCELING).

Definition handle_reconciliation (s : fold_state) (e : EventEnvelope) (p : jobject)
    : result fold_state :=
  _ ← _exact p ["principal_id"; "run_id"; "node_id"; "lease_digest"; "failure_code";
                "inspection_digest"; "inspection"; "retained_worktree"; "status"];
  _ ← _run p run_id;
  active ← _active p (fs_active s) (fs_nodes s) false false;
  let failure := jget "failure_code" p in
  let retained := jget "retained_worktree" p in
  retained ← (if is_null (jget "inspection" p) then
      _ ← ensure (is_null (jget "inspection_digest" p) && negb (is_null failure)
                 && is_false retained);
      _ ← _failure_code failure; Ok false
    else
      _ ← _inspection p active false;
      _ ← ensure (is_true retained);
      _ ← (if is_null failure then Ok EmptyString else _failure_code failure); Ok true);
  _ ← ensure (is_str (jget "status" p) "reconciliation-required");
  node ← of_option KeyError (dict_get (al_node_id active) (fs_nodes s));
  let failure_code := match failure with JStr f => Some f | _ => None end in
  let node := set_retained (set_failure (set_status node NodeStatus.RECONCILIATION_REQUIRED)
    failure_code) retained in
  Ok (with_run_status (with_active (with_node s node) None) RunStatus.RECONCILIATION_REQUIRED).

Definition handle_cleanup_requested (s : fold_state) (e : EventEnvelope) (p : jobject)
    : result fold_state :=
  _ ← _exact p ["principal_id"; "run_id"; "node_id"; "lease_digest"; "worktree_spec_digest";
                "head_commit"; "retained_worktree"; "status"];
  _ ← _run p run_id;
  node ← _cleanup_node p (fs_nodes s) (fs_active s) CleanupStatus.ELIGIBLE;
  _ ← ensure (is_true (jget "retained_worktree" p)
             && is_str (jget "status" p) "worktree-cleanup-requested");
  Ok (with_node s (set_cleanup node (Some CleanupStatus.REQUESTED) (ns_cleanup_failure_code node))).

Definition handle_cleaned (s : fold_state) (e : EventEnvelope) (p : jobject)
    : result fold_state :=
  _ ← _exact p ["principal_id"; "run_id"; "node_id"; "lease_digest"; "worktree_spec_digest";
                "head_commit"; "removal_digest"; "removal"; "retained_worktree"; "status"];
  _ ← _run p run_id;
  node ← _cleanup_node p (fs_nodes s) (fs_active s) CleanupStatus.REQUESTED;
  removal ← _mapping (jget "removal" p);
  _ ← _exact removal ["schema_version"; "spec_digest"; "lease_digest"; "worktree_path";
                      "branch_name"; "retained_head_commit"; "disposition"];
  spec_digest ← _digest (opt_json (ns_worktree_spec_digest node));
  lease_digest ← _digest (opt_json (ns_lease_digest node));
  head_commit ← _commit (opt_json (ns_head_commit node));
  spec ← of_option LifecycleError (ns_worktree_spec node);
  let suffix := remove_prefix "sha256:" spec_digest in
  let worktree_path := match jget "isolation_root" spec with
    | JStr root => JStr (path_div root ("worktree-" +:+ suffix))
    | _ => JNull
    end in
  d ← jdigest removal;
  _ ← ensure (is_str (jget "removal_digest" p) d
             && is_str (jget "schema_version" removal) "blackcell.worktree-removal/v1"
             && is_str (jget "spec_digest" removal) spec_digest
             && is_str (jget "lease_digest" removal) lease_digest
             && py_eq (jget "worktree_path" removal) worktree_path
             && is_str (jget "branch_name" removal) ("blackcell/execution-worktree/" +:+ suffix)
             && is_str (jget "retained_head_commit" removal) head_commit
             && is_str (jget "disposition" removal) "removed"
             && is_false (jget "retained_worktree" p)
             && is_str (jget "status" p) "worktree-cleaned");
  Ok (with_node s (set_cleanup (set_retained node false) (Some CleanupStatus.CLEANED) None)).

Definition handle_cleanup_failed (s : fold_state) (e : EventEnvelope) (p : jobject)
    : result fold_state :=
  _ ← _exact p ["principal_id"; "run_id"; "node_id"; "lease_digest"; "worktree_spec_digest";
                "head_commit"; "failure_code"; "retained_worktree"; "status"];
  _ ← _run p run_id;
  node ← _cleanup_node p (fs_nodes s) (fs_active s) CleanupStatus.REQUESTED;
  failure_code ← _failure_code (jget "failure_code" p);
  match jget "retained_worktree" p with
  | JBool retained =>
      _ ← ensure (is_str (jget "status" p) "worktree-cleanup-failed");
      Ok (with_node s (set_cleanup (set_retained node retained) (Some CleanupStatus.FAILED)
                         (Some failure_code)))
  | _ => bad
  end.

(** The run-level outcome events. *)
Definition handle_outcome (s : fold_state) (e : EventEnvelope) (p : jobject)
    : result fold_state :=
  _ ← _exact p ["principal_id"; "run_id"; "status"; "retained_worktree"];
  _ ← _run p run_id;
  let declared := jget "status" p in
  let finish st recon terminal :=
    MkFold (fs_nodes s) st (fs_cancel s) (fs_active s) terminal recon (fs_max_fence s) in
  match jget "retained_worktree" p with
  | JBool retained =>
      if bool_decide (event_type e = RUN_SUCCEEDED) then
        _ ← ensure (is_str declared "succeeded" && bool_decide (fs_active s = None)
                   && negb (fs_cancel s) && all_nodes (status_is NodeStatus.SUCCEEDED) s
                   && eqb retained (any_node ns_retained_worktree s));
        Ok (finish RunStatus.SUCCEEDED (fs_recon s) true)
      else if bool_decide (event_type e = RUN_FAILED) then
        _ ← ensure (is_str declared "failed" && bool_decide (fs_active s = None)
                   && any_node (status_is NodeStatus.FAILED) s
                   && eqb retained
                        (any_node (λ n, status_is NodeStatus.FAILED n && ns_retained_worktree n) s));
        Ok (finish RunStatus.FAILED (fs_recon s) true)
      else if bool_decide (event_type e = RUN_CANCELED) then
        _ ← ensure (is_str declared "canceled" && bool_decide (fs_active s = None)
                   && fs_cancel s && eqb retained (any_node ns_retained_worktree s));
        Ok (finish RunStatus.CANCELED (fs_recon s) true)
      else
        _ ← ensure (is_str declared "reconciliation-required" && bool_decide (fs_active s = None)
                   && any_node (status_is NodeStatus.RECONCILIATION_REQUIRED) s
                   && eqb retained
                        (any_node (λ n, status_is NodeStatus.RECONCILIATION_REQUIRED n
                                        && ns_retained_worktree n) s));
        Ok (finish RunStatus.RECONCILIATION_REQUIRED true (fs_terminal s))
  | _ => bad
  end.

Definition is_cleanup_event (e : EventEnvelope) : bool :=
  bool_decide (event_type e ∈ [NODE_WORKTREE_CLEANUP_REQUESTED; NODE_WORKTREE_CLEANED;
                               NODE_WORKTREE_CLEANUP_FAILED]).

(** The branch of an event type. *)
Definition handler (ty : string) : fold_state → EventEnvelope → jobject → result fold_state :=
  if bool_decide (ty = NODE_CLAIMED) then handle_claimed
  else if bool_decide (ty = NODE_WORKTREE_PREPARED) then handle_prepared
  else if bool_decide (ty = NODE_PROVIDER_DISPATCH_STARTED) then handle_dispatch
  else if bool_decide (ty = RUN_CANCEL_REQUESTED) then handle_cancel_requested
  else if bool_decide (ty = NODE_SUCCEEDED) then handle_succeeded
  else if bool_decide (ty = NODE_FAILED) then handle_failed
  else if bool_decide (ty = NODE_REQUEUED) then handle_requeued
  else if bool_decide (ty = NODE_CANCELED) then handle_canceled
  else if bool_decide (ty = NODE_RECONCILIATION_REQUIRED) then handle_reconciliation
  else if bool_decide (ty = NODE_WORKTREE_CLEANUP_REQUESTED) then handle_cleanup_requested
  else if bool_decide (ty = NODE_WORKTREE_CLEANED) then handle_cleaned
  else if bool_decide (ty = NODE_WORKTREE_CLEANUP_FAILED) then handle_cleanup_failed
  else if bool_decide (ty ∈ [RUN_SUCCEEDED; RUN_FAILED; RUN_CANCELED;
                             RUN_RECONCILIATION_REQUIRED]) then handle_outcome
  else λ _ _ _, bad.

(** The body of the loop over the public events. *)
Definition step (s : fold_state) (e : EventEnvelope) : result fold_state :=
  _ ← raise_if (fs_terminal s && negb (is_cleanup_event e)) LifecycleError;
  let p := payload e in
  _ ← _principal p e;
  handler (event_type e) s e p.

Definition is_public (e : EventEnvelope) : bool :=
  bool_decide (source e = RUNTIME_EVENT_SOURCE) && bool_decide (event_type e ∈ RUN_EVENT_TYPES).
Definition known_event (e : EventEnvelope) : bool :=
  is_public e || (bool_decide (source e = EXECUTION_EVENT_SOURCE)
                  && bool_decide (event_type e ∈ EXECUTION_EVENT_TYPES)).

(** The checks on the graph and on the envelopes of the stream. *)
Definition check_dependencies : bool :=
  let known := dict_keys node_dependencies in
  forallb (λ nd, negb (is_empty nd.1) && negb (bool_decide (nd.1 ∈ nd.2))
                 && forallb (λ d, bool_decide (d ∈ known)) nd.2) node_dependencies.

Fixpoint check_envelopes (sequence : Z) (events : list EventEnvelope) : bool :=
  match events with
  | [] => true
  | e :: events' =>
      bool_decide (stream_id e = "run:" +:+ run_id) && (stream_sequence e =? sequence)
      && (schema_version e =? 1) && known_event e && check_envelopes (sequence + 1) events'
  end.

Fixpoint check_causation (events : list EventEnvelope) : bool :=
  match events with
  | previous :: ((e :: _) as events') =>
      bool_decide (causation_id e = Some (event_id previous)) && check_causation events'
  | _ => true
  end.

Definition initial_state : fold_state :=
  MkFold (map (λ n, (n, fresh_node n)) (sort_strings (dict_keys node_dependencies)))
    RunStatus.QUEUED false None false false 0.

(** The conditions on the state in which a history may stop. *)
Definition settled (s : fold_state) : bool :=
  bool_decide (fs_active s ≠ None) || fs_terminal s
  || (negb (fs_cancel s || all_nodes (status_is NodeStatus.SUCCEEDED) s
            || any_node (status_is NodeStatus.FAILED) s)
      && negb (any_node (status_is NodeStatus.RECONCILIATION_REQUIRED) s
               && negb (fs_recon s))).

Record RunLifecycleState := MkRun {
  rl_run_id : string;
  rl_status : RunStatus.t;
  rl_nodes : list NodeState;
  rl_cancellation_requested : bool;
  rl_active_lease : option ActiveLease;
  rl_queued_event : EventEnvelope;
  rl_latest_event : EventEnvelope;
  rl_last_stream_sequence : Z
}.

Definition fold_run_lifecycle (events : list EventEnvelope) : result RunLifecycleState :=
  _ ← ensure (negb (is_empty run_id) && bool_decide (node_dependencies ≠ [])
             && bool_decide (events ≠ []));
  _ ← ensure check_dependencies;
  _ ← ensure (check_envelopes 1 events);
  match List.filter is_public events with
  | [] => bad
  | queued :: rest =>
      _ ← ensure (bool_decide (event_type queued = RUN_QUEUED));
      _ ← _validate_queued queued run_id;
      _ ← ensure (forallb (λ e, bool_decide (correlation_id e = correlation_id queued))
                   (queued :: rest));
      _ ← ensure (check_causation events);
      s ← fold_result step initial_state rest;
      _ ← ensure (settled s);
      Ok (MkRun run_id (fs_status s) (map snd (fs_nodes s)) (fs_cancel s) (fs_active s) queued
            (List.last rest queued)
            (from_option stream_sequence 0 (last events)))
  end.
End Fold.

(** ** Replay payloads *)
Definition run_status_value (s : RunStatus.t) : string :=
  match s with
  | RunStatus.QUEUED => "queued" | RunStatus.RUNNING => "running"
  | RunStatus.CANCELING => "canceling" | RunStatus.CANCELED => "canceled"
  | RunStatus.SUCCEEDED => "succeeded" | RunStatus.FAILED => "failed"
  | RunStatus.RECONCILIATION_REQUIRED => "reconciliation-required"
  end.
Definition node_status_value (s : NodeStatus.t) : string :=
  match s with
  | NodeStatus.PENDING => "pending" | NodeStatus.CLAIMED => "claimed"
  | NodeStatus.RUNNING => "running" | NodeStatus.SUCCEEDED => "succeeded"
  | NodeStatus.FAILED => "failed" | NodeStatus.CANCELED => "canceled"
  | NodeStatus.RECONCILIATION_REQUIRED => "reconciliation-required"
  end.
Definition cleanup_status_value (s : CleanupStatus.t) : string :=
  match s with
  | CleanupStatus.ELIGIBLE => "eligible" | CleanupStatus.REQUESTED => "requested"
  | CleanupStatus.FAILED => "failed" | CleanupStatus.CLEANED => "cleaned"
  end.

Definition run_lifecycle_payload (st : RunLifecycleState) : jobject :=
  [("run_id", JStr (rl_run_id st));
   ("status", JStr (run_status_value (rl_status st)));
   ("cancellation_requested", JBool (rl_cancellation_requested st));
   ("active_lease",
     match rl_active_lease st with
     | None => JNull
     | Some a => JObj
       [("node_id", JStr (al_node_id a)); ("attempt", JInt (al_attempt a));
        ("fencing_token", JInt (al_fencing_token a)); ("worker_id", JStr (al_worker_id a));
        ("lease_digest", JStr (al_lease_digest a));
        ("worktree_spec_digest", JStr (al_worktree_spec_digest a));
        ("expires_at", JStr (isoformat (al_expires_at a))); ("prepared", JBool (al_prepared a));
        ("provider_request_id", opt_json (al_provider_request_id a));
        ("provider_context_digest", opt_json (al_provider_context_digest a));
        ("provider_dispatch_event_id", opt_json (al_provider_dispatch_event_id a))]
     end);
   ("nodes", JArr (map (λ n, JObj
       [("node_id", JStr (ns_node_id n)); ("status", JStr (node_status_value (ns_status n)));
        ("attempts", JInt (ns_attempts n)); ("fencing_token", JInt (ns_fencing_token n));
        ("result_digest", opt_json (ns_result_digest n));
        ("head_commit", opt_json (ns_head_commit n));
        ("failure_code", opt_json (ns_failure_code n));
        ("retained_worktree", JBool (ns_retained_worktree n));
        ("lease_digest", opt_json (ns_lease_digest n));
        ("worktree_spec_digest", opt_json (ns_worktree_spec_digest n));
        ("cleanup_status", opt_json (cleanup_status_value <$> ns_cleanup_status n));
        ("cleanup_failure_code", opt_json (ns_cleanup_failure_code n))]) (rl_nodes st)));
   ("stream_sequence", JInt (rl_last_stream_sequence st));
   ("latest_event_id", JStr (event_id (rl_latest_event st)));
   ("latest_event_digest", JStr (payload_hash (rl_latest_event st)))].

Definition thaw_worktree_spec (a : ActiveLease) : pyval := thaw_json (JObj (al_worktree_spec a)).
Definition thaw_successful_worktree_spec (n : NodeState) : result pyval :=
  _ ← ensure (bool_decide (ns_status n = NodeStatus.SUCCEEDED));
  spec ← of_option LifecycleError (ns_worktree_spec n);
  Ok (thaw_json (JObj spec)).
