(* ===== verification/JsonShape.v ===== *)
(** * JSON literals, read back with their keys in any order

    A stored JSON text has its keys sorted, so what is read back agrees with what
    was written up to the order of keys at every level ([reorders]).  A reader
    that looks fields up by name sees the same values. *)

From S2P Require Import Prelude PyStr Json JsonText JsonFacts PyTime Contracts Events RunLifecycle.
From Stdlib Require Import ZArith Lia Ascii String Sorting.Permutation.
From stdpp Require Import base gmap sets list strings.
Local Open Scope Z_scope.

(** ** Literals *)

Definition jstrs (l : list string) : json := JArr (map JStr l).

Lemma thaw_strs l : thaw_json (jstrs l) = pstrs l.
Proof. unfold jstrs, pstrs. simpl. by rewrite map_map. Qed.
Lemma thaw_opt o : thaw_json (opt_json o) = popt o.
Proof. by destruct o. Qed.

Lemma literal_wf keys kvs : dict_keys kvs = keys → bool_decide (NoDup keys) = true →
  (∀ v, v ∈ map snd kvs → json_wf v = true) → json_wf (JObj kvs) = true.
Proof.
  intros <- Hn%bool_decide_eq_true Hv. change (obj_wf kvs = true). apply obj_wf_spec. split; [done|].
  apply Forall_forall. intros kv Hkv. apply Hv, list_elem_of_fmap. eauto.
Qed.

Lemma strs_wf l : json_wf (jstrs l) = true.
Proof. unfold jstrs. simpl. apply forallb_elem. by intros x (s & -> & _)%list_elem_of_fmap. Qed.
Lemma opt_wf o : json_wf (opt_json o) = true.
Proof. by destruct o. Qed.

Lemma sort_strs l : sort_json (jstrs l) = jstrs l.
Proof. unfold jstrs. simpl. by rewrite map_map. Qed.
Lemma sort_opt o : sort_json (opt_json o) = opt_json o.
Proof. by destruct o. Qed.

Lemma strs_no_float l : no_float (jstrs l) = true.
Proof. unfold jstrs. cbn [no_float]. by apply forallb_elem; intros x (s & -> & _)%list_elem_of_fmap. Qed.
Lemma opt_no_float o : no_float (opt_json o) = true.
Proof. by destruct o. Qed.

(** ** Reordered keys *)

Definition reorders (j j' : json) : Prop := json_wf j' = true ∧ sort_json j' = sort_json j.

(** What a thawed object is to a reader. *)
Definition thawed (kvs : jobject) : list (string * pyval) := map (λ kv, (kv.1, thaw_json kv.2)) kvs.

Lemma thawed_mapping err kvs : contract_mapping err (thaw_json (JObj kvs)) = Ok (thawed kvs).
Proof.
  unfold contract_mapping, thawed. cbn [thaw_json]. induction kvs as [|[k v] kvs IH]; [done|].
  cbn [map map_result fst snd mbind result_bind]. by rewrite IH.
Qed.

Lemma thawed_keys kvs : dict_keys (thawed kvs) = dict_keys kvs.
Proof. unfold thawed, dict_keys. rewrite map_map. by apply map_ext. Qed.

Lemma thawed_get k kvs : pget k (thawed kvs) = from_option thaw_json PNone (dict_get k kvs).
Proof.
  unfold pget, thawed. induction kvs as [|[k' v] kvs IH]; [done|]. cbn [map dict_get fst snd].
  by case_decide.
Qed.

Lemma sorted_items_perm kvs kvs' : sort_json (JObj kvs') = sort_json (JObj kvs) →
  map (λ kv, (kv.1, sort_json kv.2)) kvs' ≡ₚ map (λ kv, (kv.1, sort_json kv.2)) kvs.
Proof.
  change (sort_json (JObj ?l)) with (JObj (sort_items (map (λ kv, (kv.1, sort_json kv.2)) l))).
  assert (Hs : ∀ l : jobject, sort_items l ≡ₚ l) by (intros l; apply isort_perm).
  intros [= E]. by rewrite <-(Hs (map _ kvs')), E.
Qed.

Lemma reorders_object kvs j' : reorders (JObj kvs) j' → ∃ kvs', j' = JObj kvs'
  ∧ dict_keys kvs' ≡ₚ dict_keys kvs
  ∧ ∀ k v, dict_get k kvs = Some v → ∃ v', dict_get k kvs' = Some v' ∧ reorders v v'.
Proof.
  intros [Hwf E]. destruct (sort_json_obj kvs) as [sorted Hs]. rewrite Hs in E.
  destruct j' as [| | | | | |kvs']; try discriminate. rewrite <-Hs in E. exists kvs'. split; [done|].
  pose proof (sorted_items_perm _ _ E) as Hp. split.
  { assert (Hk : ∀ l : jobject, dict_keys (map (λ kv, (kv.1, sort_json kv.2)) l) = dict_keys l)
      by (intros l; unfold dict_keys; rewrite map_map; by apply map_ext).
    rewrite <-(Hk kvs'), <-(Hk kvs). unfold dict_keys. by rewrite Hp. }
  change (obj_wf kvs' = true) in Hwf. apply obj_wf_spec in Hwf as [Hnd Hall].
  intros k v Hv%dict_get_elem.
  assert (Hin : (k, sort_json v) ∈ map (λ kv, (kv.1, sort_json kv.2)) kvs').
  { rewrite Hp. apply list_elem_of_fmap. by exists (k, v). }
  apply list_elem_of_fmap in Hin as ([k' v'] & [= <- E'] & Hin).
  exists v'. split; [by apply elem_dict_get|]. rewrite Forall_forall in Hall. by split; [apply (Hall _ Hin)|].
Qed.

(** Values in which there is nothing to reorder. *)
Definition scalar (j : json) : bool := match j with JArr _ | JObj _ => false | _ => true end.
Definition flat (j : json) : bool :=
  match j with JArr l => forallb scalar l | JObj _ => false | _ => true end.

Lemma sort_scalar j v : scalar v = true → sort_json j = v → j = v.
Proof. by destruct j, v. Qed.

Lemma reorders_flat v v' : flat v = true → reorders v v' → v' = v.
Proof.
  intros Hf [_ E]. destruct v as [| | | | |l|]; try done; try (by apply sort_scalar).
  cbn [flat] in Hf. destruct v' as [| | | | |l'|]; try done. cbn [sort_json] in E. injection E as E. f_equal.
  revert l' E. induction l as [|x l IH]; intros [|x' l'] E; try done.
  cbn [map forallb] in *. apply andb_true_iff in Hf as [Hx Hl]. injection E as E1 E2.
  f_equal; [|by apply IH]. apply sort_scalar; [done|]. rewrite E1. by destruct x.
Qed.

Lemma strs_flat l : flat (jstrs l) = true.
Proof. unfold jstrs. cbn [flat]. apply forallb_elem. by intros x (s & -> & _)%list_elem_of_fmap. Qed.
Lemma opt_flat o : flat (opt_json o) = true.
Proof. by destruct o. Qed.

(** An object with the keys and the values of [kvs], as a reader sees it. *)
Record same_object (kvs : jobject) (raw : list (string * pyval)) : Prop := {
  so_keys : dict_keys raw ≡ₚ dict_keys kvs;
  so_flat : ∀ k v, dict_get k kvs = Some v → flat v = true → pget k raw = thaw_json v;
  so_get : ∀ k v, dict_get k kvs = Some v → ∃ v', pget k raw = thaw_json v' ∧ reorders v v'
}.

Lemma reorders_same err kvs j' : reorders (JObj kvs) j' → ∃ raw,
  contract_mapping err (thaw_json j') = Ok raw ∧ same_object kvs raw.
Proof.
  intros H. destruct (reorders_object kvs j' H) as (kvs' & -> & Hk & Hget).
  exists (thawed kvs'). split; [apply thawed_mapping|].
  assert (G : ∀ k v, dict_get k kvs = Some v → ∃ v', pget k (thawed kvs') = thaw_json v' ∧ reorders v v').
  { intros k v Hv. destruct (Hget k v Hv) as (v' & Hv' & Hr). exists v'. by rewrite thawed_get, Hv'. }
  split; [by rewrite thawed_keys| |done].
  intros k v Hv Hf. destruct (G k v Hv) as (v' & -> & Hr). by rewrite (reorders_flat v v').
Qed.

Lemma same_object_keys kvs raw keys : same_object kvs raw → dict_keys kvs = keys → has_keys raw keys = true.
Proof.
  intros [Hk _ _] <-. unfold has_keys. apply same_keys_spec. intros k. by rewrite Hk.
Qed.

(** The elements of an array reorder one by one. *)
Lemma reorders_array l v' : reorders (JArr l) v' → ∃ l', v' = JArr l' ∧ Forall2 reorders l l'.
Proof.
  intros [Hwf E]. destruct v' as [| | | | |l'|]; try done. exists l'. split; [done|].
  cbn [sort_json] in E. injection E as E. cbn [json_wf] in Hwf. clear -E Hwf.
  revert l E. induction l' as [|x' l' IH]; intros [|x l] E; try done.
  cbn [map forallb] in *. apply andb_true_iff in Hwf as [? ?]. injection E as E1 E2.
  constructor; [by split|by apply IH].
Qed.

(** Freezing what a well-formed value thaws to. *)
Lemma frozen path j v j' : v = thaw_json j → json_wf j = true → freeze_json path v = Ok j' → j' = j.
Proof. intros -> Hwf. rewrite freeze_thaw by done. by intros [= <-]. Qed.
