(* ===== verification/RunFacts.v ===== *)
(** * The run lifecycle as a transition system

    [transition] is what a public event may do to the state of a run, without
    the payload grammar; [step_transition] is the refinement: every step the
    fold accepts is such a transition.  The safety properties of runs are
    proved of the transition system by rule induction and transferred. *)

From S2P Require Import Prelude PyStr PyFloat Sha256 Json JsonText JsonFacts PyTime Events.
From S2P Require Import Strict ExecutionPlan RunLifecycle.
From Stdlib Require Import ZArith Lia Ascii String Sorting.Sorted.
From stdpp Require Import base gmap sets list strings.
Local Open Scope Z_scope.

Definition prepared_lease (a : ActiveLease) : ActiveLease :=
  MkLease (al_node_id a) (al_attempt a) (al_fencing_token a) (al_worker_id a)
    (al_lease_digest a) (al_worktree_spec_digest a) (al_worktree_spec a) (al_expires_at a) true
    (al_provider_request_id a) (al_provider_context_digest a) (al_provider_dispatch_event_id a).

Definition dispatched_lease (a : ActiveLease) (request context event : string) : ActiveLease :=
  MkLease (al_node_id a) (al_attempt a) (al_fencing_token a) (al_worker_id a)
    (al_lease_digest a) (al_worktree_spec_digest a) (al_worktree_spec a) (al_expires_at a) true
    (Some request) (Some context) (Some event).

(** What a handler that ends a lease or moves the clean-up leaves alone. *)
Definition same_identity (n n' : NodeState) : Prop :=
  ns_node_id n' = ns_node_id n ∧ ns_attempts n' = ns_attempts n
  ∧ ns_fencing_token n' = ns_fencing_token n ∧ ns_lease_digest n' = ns_lease_digest n
  ∧ ns_worktree_spec_digest n' = ns_worktree_spec_digest n.

Definition moves_to (s : fold_state) (n : NodeState) (a : option ActiveLease) (st : RunStatus.t)
    : fold_state :=
  MkFold (dict_set (ns_node_id n) n (fs_nodes s)) st (fs_cancel s) a (fs_terminal s) (fs_recon s)
    (fs_max_fence s).

Section Transitions.
Context (node_dependencies : list (string * list string)).

Definition dependencies_met (s : fold_state) (node : string) : Prop :=
  ∃ deps, dict_get node node_dependencies = Some deps ∧
    ∀ d, d ∈ deps → ∃ n, dict_get d (fs_nodes s) = Some n ∧ ns_status n = NodeStatus.SUCCEEDED.

(** How an open lease may end. *)
Inductive closing (e : EventEnvelope) (s : fold_state) (a : ActiveLease) (n : NodeState)
    : NodeState → RunStatus.t → Prop :=
  | C_succeeded n' :
      event_type e = NODE_SUCCEEDED → al_prepared a = true → fs_cancel s = false →
      dt_utc (recorded_at e) <= dt_utc (al_expires_at a) →
      ns_status n' = NodeStatus.SUCCEEDED → ns_retained_worktree n' = true →
      is_Some (ns_result_digest n') → is_Some (ns_head_commit n') →
      ns_cleanup_status n' = Some CleanupStatus.ELIGIBLE →
      closing e s a n n' RunStatus.QUEUED
  | C_failed n' :
      event_type e = NODE_FAILED → dt_utc (recorded_at e) <= dt_utc (al_expires_at a) →
      ns_status n' = NodeStatus.FAILED → is_Some (ns_failure_code n') →
      closing e s a n n' RunStatus.FAILED
  | C_requeued n' :
      event_type e = NODE_REQUEUED → al_provider_dispatch_event_id a = None →
      fs_cancel s = false → ns_status n' = NodeStatus.PENDING →
      closing e s a n n' RunStatus.QUEUED
  | C_canceled n' :
      event_type e = NODE_CANCELED → fs_cancel s = true → ns_status n' = NodeStatus.CANCELED →
      closing e s a n n' RunStatus.CANCELING
  | C_reconciliation n' :
      event_type e = NODE_RECONCILIATION_REQUIRED →
      ns_status n' = NodeStatus.RECONCILIATION_REQUIRED →
      closing e s a n n' RunStatus.RECONCILIATION_REQUIRED.

(** How the clean-up of a retained worktree may advance. *)
Inductive cleaning (e : EventEnvelope) (n n' : NodeState) : Prop :=
  | K_requested : event_type e = NODE_WORKTREE_CLEANUP_REQUESTED →
      ns_cleanup_status n = Some CleanupStatus.ELIGIBLE →
      ns_cleanup_status n' = Some CleanupStatus.REQUESTED → ns_retained_worktree n' = true →
      cleaning e n n'
  | K_cleaned : event_type e = NODE_WORKTREE_CLEANED →
      ns_cleanup_status n = Some CleanupStatus.REQUESTED →
      ns_cleanup_status n' = Some CleanupStatus.CLEANED → ns_retained_worktree n' = false →
      cleaning e n n'
  | K_failed : event_type e = NODE_WORKTREE_CLEANUP_FAILED →
      ns_cleanup_status n = Some CleanupStatus.REQUESTED →
      ns_cleanup_status n' = Some CleanupStatus.FAILED → cleaning e n n'.

(** How a run may end. *)
Inductive outcome (e : EventEnvelope) (s : fold_state) : RunStatus.t → bool → bool → Prop :=
  | O_succeeded : event_type e = RUN_SUCCEEDED → fs_cancel s = false →
      all_nodes (status_is NodeStatus.SUCCEEDED) s = true →
      outcome e s RunStatus.SUCCEEDED (fs_recon s) true
  | O_failed : event_type e = RUN_FAILED → any_node (status_is NodeStatus.FAILED) s = true →
      outcome e s RunStatus.FAILED (fs_recon s) true
  | O_canceled : event_type e = RUN_CANCELED → fs_cancel s = true →
      outcome e s RunStatus.CANCELED (fs_recon s) true
  | O_reconciliation : event_type e = RUN_RECONCILIATION_REQUIRED →
      any_node (status_is NodeStatus.RECONCILIATION_REQUIRED) s = true →
      outcome e s RunStatus.RECONCILIATION_REQUIRED true (fs_terminal s).

Inductive transition (e : EventEnvelope) (s : fold_state) : fold_state → Prop :=
  | T_claim n n' a :
      event_type e = NODE_CLAIMED → fs_cancel s = false → fs_active s = None →
      fs_status s = RunStatus.QUEUED ∨ fs_status s = RunStatus.RUNNING →
      dict_get (ns_node_id n') (fs_nodes s) = Some n → ns_status n = NodeStatus.PENDING →
      ns_node_id n' = ns_node_id n →
      dependencies_met s (ns_node_id n) →
      ns_status n' = NodeStatus.CLAIMED → ns_attempts n' = ns_attempts n + 1 →
      ns_fencing_token n' = fs_max_fence s + 1 →
      jget "fencing_token" (payload e) = JInt (fs_max_fence s + 1) →
      dt_utc (recorded_at e) < dt_utc (al_expires_at a) →
      al_node_id a = ns_node_id n → al_attempt a = ns_attempts n' →
      al_fencing_token a = ns_fencing_token n' → ns_lease_digest n' = Some (al_lease_digest a) →
      al_prepared a = false → al_provider_dispatch_event_id a = None →
      transition e s (MkFold (dict_set (ns_node_id n') n' (fs_nodes s)) RunStatus.RUNNING false
        (Some a) (fs_terminal s) (fs_recon s) (fs_max_fence s + 1))
  | T_prepare n a :
      event_type e = NODE_WORKTREE_PREPARED → fs_active s = Some a → al_prepared a = false →
      dt_utc (recorded_at e) <= dt_utc (al_expires_at a) →
      dict_get (al_node_id a) (fs_nodes s) = Some n →
      transition e s (moves_to s (set_status n NodeStatus.RUNNING) (Some (prepared_lease a))
        (fs_status s))
  | T_dispatch a request context :
      event_type e = NODE_PROVIDER_DISPATCH_STARTED → fs_active s = Some a →
      al_prepared a = true → fs_cancel s = false → al_provider_dispatch_event_id a = None →
      dt_utc (recorded_at e) <= dt_utc (al_expires_at a) →
      provider_request_id (al_lease_digest a) = Ok request →
      transition e s (with_active s (Some (dispatched_lease a request context (event_id e))))
  | T_cancel :
      event_type e = RUN_CANCEL_REQUESTED → fs_cancel s = false →
      transition e s (MkFold (fs_nodes s) RunStatus.CANCELING true (fs_active s) (fs_terminal s)
        (fs_recon s) (fs_max_fence s))
  | T_close n n' a st :
      fs_active s = Some a → dict_get (al_node_id a) (fs_nodes s) = Some n →
      same_identity n n' → closing e s a n n' st →
      transition e s (moves_to s n' None st)
  | T_cleanup k n n' :
      fs_active s = None → dict_get k (fs_nodes s) = Some n →
      ns_status n = NodeStatus.SUCCEEDED → ns_retained_worktree n = true →
      ns_status n' = NodeStatus.SUCCEEDED → same_identity n n' → cleaning e n n' →
      transition e s (with_node s n')
  | T_outcome st recon terminal :
      fs_active s = None → outcome e s st recon terminal →
      transition e s (MkFold (fs_nodes s) st (fs_cancel s) None terminal recon (fs_max_fence s)).
End Transitions.

(** ** The fold refines the transition system *)

Lemma ensure_ok c u : ensure c = Ok u ↔ c = true.
Proof. apply raise_unless_ok. Qed.

Ltac inv_ensure := repeat (match goal with
  | H : ensure _ = Ok _ |- _ => apply ensure_ok in H
  | H : bad = Ok _ |- _ => discriminate H
  end || inv_ok_step).

Lemma node_ok p nodes n : _node p nodes = Ok n → ∃ k, jget "node_id" p = JStr k ∧ dict_get k nodes = Some n.
Proof. unfold _node. destruct (jget "node_id" p) eqn:E; try done. intros H. inv_ok. eauto. Qed.

Lemma active_ok p active nodes rp rw a : _active p active nodes rp rw = Ok a →
  active = Some a ∧ (rp = true → al_prepared a = true)
  ∧ ∃ n, _node p nodes = Ok n ∧ ns_node_id n = al_node_id a.
Proof.
  unfold _active. intros H. inv_ensure. split; [done|]. split; [|eauto].
  intros ->. by destruct (al_prepared a).
Qed.

Lemma cleanup_node_ok p nodes active c n : _cleanup_node p nodes active c = Ok n →
  active = None ∧ ns_status n = NodeStatus.SUCCEEDED ∧ ns_retained_worktree n = true
  ∧ ns_cleanup_status n = Some c ∧ ∃ k, dict_get k nodes = Some n.
Proof.
  unfold _cleanup_node. intros H. inv_ensure.
  match goal with H : _node _ _ = Ok _ |- _ => apply node_ok in H as (k & _ & ?) end. eauto 10.
Qed.

Lemma dt_leb_spec a b : dt_leb a b = true ↔ dt_utc a <= dt_utc b.
Proof. unfold dt_leb. lia. Qed.
Lemma dt_ltb_spec a b : dt_ltb a b = true ↔ dt_utc a < dt_utc b.
Proof. unfold dt_ltb. lia. Qed.

Lemma positive_integer_ok v z : _positive_integer v = Ok z → v = JInt z ∧ 1 <= z.
Proof. destruct v; try done. simpl. intros H. inv_ensure. split; [done|lia]. Qed.

Section Refine.
Context (run_id : string) (node_dependencies : list (string * list string)).

Lemma dependencies_succeeded_ok s k :
  dependencies_succeeded node_dependencies s k = Ok true → dependencies_met node_dependencies s k.
Proof.
  unfold dependencies_succeeded. intros H. inv_ok.
  exists x. split; [done|]. intros d Hd.
  apply map_result_ok in Hx0. apply list_elem_of_lookup in Hd as [i Hi].
  destruct (Forall2_lookup_l _ _ _ _ _ Hx0 Hi) as (n & Hn & Hg). inv_ok.
  exists n. split; [done|]. rewrite forallb_elem in H.
  apply list_elem_of_lookup_2, H in Hn. unfold status_is in Hn. by inv_ok.
Qed.

Lemma claimed_transition s e s' : event_type e = NODE_CLAIMED →
  (∀ k n, dict_get k (fs_nodes s) = Some n → ns_node_id n = k) →
  handle_claimed run_id node_dependencies s e (payload e) = Ok s' →
  transition node_dependencies e s s'.
Proof.
  unfold handle_claimed. intros He Hids H. inv_ensure.
  repeat match goal with H : _positive_integer _ = Ok _ |- _ =>
    apply positive_integer_ok in H as [? ?] end.
  match goal with H : _node _ _ = Ok _ |- _ => apply node_ok in H as (k & _ & Hk) end.
  match goal with H : dependencies_succeeded _ _ _ = Ok _ |- _ =>
    apply dependencies_succeeded_ok in H end.
  match goal with H : dt_ltb _ _ = true |- _ => apply dt_ltb_spec in H end.
  match goal with H : status_is _ _ = true |- _ => unfold status_is in H; inv_ok end.
  repeat match goal with H : (_ =? _) = true |- _ => apply Z.eqb_eq in H; subst end.
  simpl. match goal with H : fs_cancel s = false |- _ => rewrite H end.
  pose proof (Hids _ _ Hk) as Hid.
  match goal with |- transition _ _ _ (MkFold (dict_set _ ?n' _) _ _ (Some ?a) _ _ _) =>
    match type of Hk with _ = Some ?nd => eapply (T_claim _ e s nd n' a) end end;
    simpl; try done; try by rewrite Hid.
  match goal with H : fs_status s ∈ _ |- _ =>
    repeat (apply elem_of_cons in H as [H|H]); [by left|by right|by apply elem_of_nil in H] end.
Qed.

(** The handlers of an open lease find its node under its own name. *)
Ltac inv_active :=
  repeat match goal with
  | H : _active _ _ _ _ _ = Ok _ |- _ => apply active_ok in H as (? & ? & ?)
  | H : dt_leb _ _ = true |- _ => apply dt_leb_spec in H
  | H : fs_active _ = Some _ |- _ => rewrite H in *
  end.

Lemma prepared_transition s e s' : event_type e = NODE_WORKTREE_PREPARED →
  handle_prepared run_id s e (payload e) = Ok s' → transition node_dependencies e s s'.
Proof.
  unfold handle_prepared. intros He H. inv_ensure. inv_active.
  by eapply (T_prepare _ e s x4 x1).
Qed.

Lemma dispatch_transition s e s' : event_type e = NODE_PROVIDER_DISPATCH_STARTED →
  handle_dispatch run_id s e (payload e) = Ok s' → transition node_dependencies e s s'.
Proof.
  unfold handle_dispatch. intros He H. inv_ensure. inv_active.
  eapply (T_dispatch _ e s x1); try done; [auto|congruence].
Qed.

Lemma cancel_transition s e s' : event_type e = RUN_CANCEL_REQUESTED →
  handle_cancel_requested s e (payload e) = Ok s' → transition node_dependencies e s s'.
Proof. unfold handle_cancel_requested. intros He H. inv_ensure. by apply T_cancel. Qed.

Lemma succeeded_transition s e s' : event_type e = NODE_SUCCEEDED →
  handle_succeeded run_id s e (payload e) = Ok s' → transition node_dependencies e s s'.
Proof.
  unfold handle_succeeded. intros He H. inv_ensure. inv_active.
  eapply (T_close _ e s x6 _ x1); try done. apply C_succeeded; auto; by eexists.
Qed.

Lemma failed_transition s e s' : event_type e = NODE_FAILED →
  handle_failed run_id s e (payload e) = Ok s' → transition node_dependencies e s s'.
Proof.
  unfold handle_failed. intros He H. inv_ensure. inv_active.
  eapply (T_close _ e s x3 _ x1); try done.
  - by case_match.
  - apply C_failed; try done; case_match; try done; by eexists.
Qed.

Lemma requeued_transition s e s' : event_type e = NODE_REQUEUED →
  handle_requeued run_id s e (payload e) = Ok s' → transition node_dependencies e s s'.
Proof.
  unfold handle_requeued. intros He H. inv_ensure. inv_active.
  eapply (T_close _ e s x5 _ x1); try done. by apply C_requeued.
Qed.

Lemma canceled_transition s e s' : event_type e = NODE_CANCELED →
  handle_canceled run_id s e (payload e) = Ok s' → transition node_dependencies e s s'.
Proof.
  unfold handle_canceled. intros He H. inv_ensure. inv_active.
  eapply (T_close _ e s x5 _ x1); try done. by apply C_canceled.
Qed.

Lemma reconciliation_transition s e s' : event_type e = NODE_RECONCILIATION_REQUIRED →
  handle_reconciliation run_id s e (payload e) = Ok s' → transition node_dependencies e s s'.
Proof.
  unfold handle_reconciliation. intros He H. inv_ensure. inv_active.
  eapply (T_close _ e s x4 _ x1); try done. by apply C_reconciliation.
Qed.

Ltac inv_cleanup := match goal with H : _cleanup_node _ _ _ _ = Ok _ |- _ =>
  apply cleanup_node_ok in H as (? & ? & ? & ? & k & ?) end.

Lemma cleanup_requested_transition s e s' : event_type e = NODE_WORKTREE_CLEANUP_REQUESTED →
  handle_cleanup_requested run_id s e (payload e) = Ok s' → transition node_dependencies e s s'.
Proof.
  unfold handle_cleanup_requested. intros He H. inv_ensure. inv_cleanup.
  eapply (T_cleanup _ e s k x1); try done. by apply K_requested.
Qed.

Lemma cleaned_transition s e s' : event_type e = NODE_WORKTREE_CLEANED →
  handle_cleaned run_id s e (payload e) = Ok s' → transition node_dependencies e s s'.
Proof.
  unfold handle_cleaned. intros He H. inv_ensure. inv_cleanup.
  eapply (T_cleanup _ e s k x1); try done. by apply K_cleaned.
Qed.

Lemma cleanup_failed_transition s e s' : event_type e = NODE_WORKTREE_CLEANUP_FAILED →
  handle_cleanup_failed run_id s e (payload e) = Ok s' → transition node_dependencies e s s'.
Proof.
  unfold handle_cleanup_failed. intros He H. inv_ensure. case_match; try done. inv_ensure.
  inv_cleanup. eapply (T_cleanup _ e s k x1); try done. by apply K_failed.
Qed.

Lemma outcome_transition s e s' :
  event_type e ∈ [RUN_SUCCEEDED; RUN_FAILED; RUN_CANCELED; RUN_RECONCILIATION_REQUIRED] →
  handle_outcome run_id s e (payload e) = Ok s' → transition node_dependencies e s s'.
Proof.
  unfold handle_outcome. intros He H. inv_ensure. case_match; try done.
  repeat match goal with H : context [if bool_decide (event_type e = ?t) then _ else _] |- _ =>
    destruct (decide (event_type e = t));
      [rewrite bool_decide_true in H by done|rewrite bool_decide_false in H by done] end;
    inv_ensure;
    match goal with H : fs_active s = None |- _ => rewrite H end;
    apply T_outcome; try done; try by constructor.
  apply O_reconciliation; [|done].
  repeat (apply elem_of_cons in He as [?|He]; [done|]). by apply elem_of_nil in He.
Qed.

(** Every event the fold accepts is a transition of the abstract
    run machine, and once the run has reached an outcome only clean-up
    events are accepted. *)
Lemma step_transition s e s' :
  (∀ k n, dict_get k (fs_nodes s) = Some n → ns_node_id n = k) →
  step run_id node_dependencies s e = Ok s' →
  transition node_dependencies e s s'
  ∧ (fs_terminal s = true → is_cleanup_event e = true).
Proof.
  unfold step. intros Hids H. apply bind_ok in H as (u & Ht & H). inv_ensure.
  split; [|intros E; rewrite E in Ht; by destruct (is_cleanup_event e)]. clear Ht Hx.
  unfold handler in H. repeat (case_bool_decide; [by eauto using claimed_transition,
    prepared_transition, dispatch_transition, cancel_transition, succeeded_transition,
    failed_transition, requeued_transition, canceled_transition, reconciliation_transition,
    cleanup_requested_transition, cleaned_transition, cleanup_failed_transition,
    outcome_transition|]). done.
Qed.
End Refine.

(** ** The invariant of a run *)
Definition zsum (l : list Z) : Z := foldr Z.add 0 l.
Definition attempts_of (nodes : node_map) : list Z := map (λ kn, ns_attempts kn.2) nodes.

Definition is_open (n : NodeState) : Prop :=
  ns_status n = NodeStatus.CLAIMED ∨ ns_status n = NodeStatus.RUNNING.

Section Invariant.
Context (node_dependencies : list (string * list string)).

Record run_inv (s : fold_state) : Prop := {
  i_keys : dict_keys (fs_nodes s) = sort_strings (dict_keys node_dependencies);
  i_ids : ∀ k n, dict_get k (fs_nodes s) = Some n → ns_node_id n = k;
  i_open : ∀ k n, dict_get k (fs_nodes s) = Some n → is_open n →
    ∃ a, fs_active s = Some a ∧ al_node_id a = k;
  i_lease : ∀ a, fs_active s = Some a → ∃ n, dict_get (al_node_id a) (fs_nodes s) = Some n
    ∧ ns_status n = (if al_prepared a then NodeStatus.RUNNING else NodeStatus.CLAIMED)
    ∧ ns_attempts n = al_attempt a ∧ ns_fencing_token n = al_fencing_token a
    ∧ al_fencing_token a = fs_max_fence s ∧ ns_lease_digest n = Some (al_lease_digest a)
    ∧ (is_Some (al_provider_dispatch_event_id a) → al_prepared a = true);
  i_fence : ∀ k n, dict_get k (fs_nodes s) = Some n →
    0 <= ns_attempts n ∧ 0 <= ns_fencing_token n <= fs_max_fence s
    ∧ (ns_status n ≠ NodeStatus.PENDING → 1 <= ns_attempts n);
  i_sum : zsum (attempts_of (fs_nodes s)) = fs_max_fence s;
  i_deps : ∀ k n, dict_get k (fs_nodes s) = Some n → 1 <= ns_attempts n →
    dependencies_met node_dependencies s k;
  i_terminal : fs_terminal s = true → fs_active s = None
    ∧ fs_status s ∈ [RunStatus.SUCCEEDED; RunStatus.FAILED; RunStatus.CANCELED];
  i_success : fs_status s = RunStatus.SUCCEEDED → fs_terminal s = true ∧ fs_cancel s = false
    ∧ ∀ k n, dict_get k (fs_nodes s) = Some n → ns_status n = NodeStatus.SUCCEEDED
}.

(** *** Updating one node *)
Lemma attempts_set n n' (nodes : node_map) :
  NoDup (dict_keys nodes) → dict_get (ns_node_id n') nodes = Some n →
  zsum (attempts_of (dict_set (ns_node_id n') n' nodes))
  = zsum (attempts_of nodes) + ns_attempts n' - ns_attempts n.
Proof.
  generalize (ns_node_id n') as k. induction nodes as [|[k2 m] nodes IH]; intros k; [done|].
  simpl. intros [Hk Hnd]%NoDup_cons. destruct (decide (k = k2)) as [->|]; simpl.
  - intros [= ->]. lia.
  - intros H. unfold attempts_of in *. rewrite IH by done. lia.
Qed.

Lemma moves_keys s n m a st : dict_get (ns_node_id n) (fs_nodes s) = Some m →
  dict_keys (fs_nodes (moves_to s n a st)) = dict_keys (fs_nodes s).
Proof. intros H. simpl. by eapply dict_set_keys, dict_get_keys. Qed.

(** Dependencies stay met when the updated node keeps its success. *)
Lemma dependencies_met_set s s' k n n' :
  fs_nodes s' = dict_set (ns_node_id n') n' (fs_nodes s) →
  dict_get (ns_node_id n') (fs_nodes s) = Some n →
  (ns_status n = NodeStatus.SUCCEEDED → ns_status n' = NodeStatus.SUCCEEDED) →
  dependencies_met node_dependencies s k → dependencies_met node_dependencies s' k.
Proof.
  intros E Hn Hs (deps & Hd & Hall). exists deps. split; [done|].
  intros d Hin. destruct (Hall d Hin) as (m & Hm & Hst). rewrite E, dict_get_set.
  destruct (decide (d = ns_node_id n')) as [->|]; [|eauto].
  exists n'. split; [done|]. apply Hs. congruence.
Qed.

Lemma keys_NoDup s : run_inv s → NoDup (dict_keys node_dependencies) → NoDup (dict_keys (fs_nodes s)).
Proof. intros Hi Hnd. rewrite (i_keys s Hi). unfold sort_strings. by rewrite isort_perm. Qed.

Context (Hnd : NoDup (dict_keys node_dependencies)).

Lemma claim_preserves s n n' a :
  run_inv s → fs_terminal s = false → fs_cancel s = false → fs_active s = None →
  dict_get (ns_node_id n') (fs_nodes s) = Some n → ns_node_id n' = ns_node_id n →
  ns_status n = NodeStatus.PENDING →
  dependencies_met node_dependencies s (ns_node_id n) →
  ns_status n' = NodeStatus.CLAIMED → ns_attempts n' = ns_attempts n + 1 →
  ns_fencing_token n' = fs_max_fence s + 1 →
  al_node_id a = ns_node_id n → al_attempt a = ns_attempts n' →
  al_fencing_token a = ns_fencing_token n' → ns_lease_digest n' = Some (al_lease_digest a) →
  al_prepared a = false → al_provider_dispatch_event_id a = None →
  run_inv (MkFold (dict_set (ns_node_id n') n' (fs_nodes s)) RunStatus.RUNNING false
        (Some a) (fs_terminal s) (fs_recon s) (fs_max_fence s + 1)).
Proof.
  intros Hi Ht Hc Ha Hn Hid Hp Hdep Hst Hatt Hf A1 A2 A3 A4 A5 A6.
  pose proof (i_fence s Hi _ _ Hn) as (F1 & F2 & F3).
  assert (Hmono : ∀ k, dependencies_met node_dependencies s k →
    dependencies_met node_dependencies (MkFold (dict_set (ns_node_id n') n' (fs_nodes s))
      RunStatus.RUNNING false (Some a) (fs_terminal s) (fs_recon s) (fs_max_fence s + 1)) k).
  { intros k. apply (dependencies_met_set s _ k n n'); try done. congruence. }
  constructor; simpl.
  - rewrite dict_set_keys by (by eapply dict_get_keys). apply Hi.
  - intros k m. rewrite dict_get_set. case_decide; [intros [= <-]; by subst|apply Hi].
  - intros k m. rewrite dict_get_set. case_decide as E.
    + intros [= <-] _. exists a. split; [done|congruence].
    + intros Hm Ho. destruct (i_open s Hi _ _ Hm Ho) as (? & ? & _). congruence.
  - intros a' [= <-]. exists n'. rewrite A1, <-Hid, dict_get_set_eq, A5. split_and!; try done.
    + congruence.
    + rewrite A6. by intros [? ?].
  - intros k m. rewrite dict_get_set. case_decide as E.
    + intros [= <-]. split_and!; try lia.
    + intros Hm. destruct (i_fence s Hi _ _ Hm) as (? & ? & ?). split_and!; try done; lia.
  - rewrite (attempts_set n) by (by apply keys_NoDup || done). rewrite (i_sum s Hi). lia.
  - intros k m. rewrite dict_get_set. case_decide as E.
    + intros [= <-] _. subst k. apply Hmono. by rewrite Hid.
    + intros Hm Hatt'. by eapply Hmono, (i_deps s Hi).
  - congruence.
  - done.
Qed.

(** A handler that changes one node and keeps its attempts and fence. *)
Lemma node_preserves s n n' a' st :
  run_inv s → dict_get (ns_node_id n') (fs_nodes s) = Some n → same_identity n n' →
  (ns_status n = NodeStatus.SUCCEEDED → ns_status n' = NodeStatus.SUCCEEDED) →
  (∀ k m, k ≠ ns_node_id n' → dict_get k (fs_nodes s) = Some m → ¬ is_open m) →
  (is_open n' → ∃ a, a' = Some a ∧ al_node_id a = ns_node_id n') →
  (∀ a, a' = Some a → al_node_id a = ns_node_id n' ∧ al_fencing_token a = fs_max_fence s
    ∧ ns_status n' = (if al_prepared a then NodeStatus.RUNNING else NodeStatus.CLAIMED)
    ∧ ns_attempts n' = al_attempt a ∧ ns_fencing_token n' = al_fencing_token a
    ∧ ns_lease_digest n' = Some (al_lease_digest a)
    ∧ (is_Some (al_provider_dispatch_event_id a) → al_prepared a = true)) →
  1 <= ns_attempts n →
  (fs_terminal s = true → a' = None ∧ st = fs_status s) →
  (st = RunStatus.SUCCEEDED → fs_status s = RunStatus.SUCCEEDED) →
  run_inv (moves_to s n' a' st).
Proof.
  intros Hi Hn (S1 & S2 & S3 & S4 & S5) Hst Hothers Hopen Hlease Hatt Hterm Hsucc.
  pose proof (i_fence s Hi _ _ Hn) as (F1 & F2 & F3).
  assert (Hmono : ∀ k, dependencies_met node_dependencies s k →
    dependencies_met node_dependencies (moves_to s n' a' st) k).
  { intros k. by apply (dependencies_met_set s _ k n n'). }
  constructor.
  - rewrite (moves_keys _ _ n) by done. apply Hi.
  - intros k m. simpl. rewrite dict_get_set. case_decide; [intros [= <-]; by subst|apply Hi].
  - intros k m. simpl. rewrite dict_get_set. case_decide as E.
    + intros [= <-] Ho. subst k. by apply Hopen.
    + intros Hm Ho. by destruct (Hothers k m E Hm).
  - intros a Ha. destruct (Hlease a Ha) as (L1 & L2 & L3 & L4 & L5 & L6 & L7).
    exists n'. simpl. rewrite L1, dict_get_set_eq. done.
  - intros k m. simpl. rewrite dict_get_set. case_decide as E.
    + intros [= <-]. rewrite S2, S3. split_and!; try done; lia.
    + apply Hi.
  - simpl. rewrite (attempts_set n) by (by apply keys_NoDup || done).
    rewrite (i_sum s Hi), S2. lia.
  - intros k m. simpl. rewrite dict_get_set. case_decide as E.
    + intros [= <-] _. subst k. by eapply Hmono, (i_deps s Hi).
    + intros Hm Hatt'. by eapply Hmono, (i_deps s Hi).
  - simpl. intros Ht. destruct (Hterm Ht) as [-> ->]. split; [done|]. by apply Hi.
  - simpl. intros E. specialize (Hsucc E). destruct (i_success s Hi Hsucc) as (H1 & H2 & H3).
    split_and!; try done. intros k m. rewrite dict_get_set. case_decide; [|by apply H3].
    intros [= <-]. apply Hst. by eapply H3.
Qed.

Lemma others_closed s a k m : run_inv s → fs_active s = Some a → k ≠ al_node_id a →
  dict_get k (fs_nodes s) = Some m → ¬ is_open m.
Proof.
  intros Hi Ha Hk Hm Ho. destruct (i_open s Hi _ _ Hm Ho) as (a' & ? & ?). congruence.
Qed.

(** The node of the open lease. *)
Lemma lease_node s a n : run_inv s → fs_active s = Some a →
  dict_get (al_node_id a) (fs_nodes s) = Some n →
  ns_node_id n = al_node_id a ∧ is_open n ∧ 1 <= ns_attempts n
  ∧ ns_status n ≠ NodeStatus.SUCCEEDED ∧ fs_terminal s = false.
Proof.
  intros Hi Ha Hn. pose proof (i_ids s Hi _ _ Hn).
  destruct (i_lease s Hi a Ha) as (m & Hm & Hst & _). rewrite Hn in Hm. injection Hm as <-.
  split_and!; try done.
  - unfold is_open. destruct (al_prepared a); auto.
  - eapply (i_fence s Hi); [done|]. by destruct (al_prepared a); rewrite Hst.
  - by destruct (al_prepared a); rewrite Hst.
  - destruct (fs_terminal s) eqn:E; [|done]. apply (i_terminal s Hi) in E as [? _]. congruence.
Qed.

Lemma closed_status n : is_open n →
  ns_status n = NodeStatus.CLAIMED ∨ ns_status n = NodeStatus.RUNNING.
Proof. done. Qed.

Lemma closing_status e s a n n' st : closing e s a n n' st →
  ¬ is_open n' ∧ st ≠ RunStatus.SUCCEEDED.
Proof. unfold is_open. intros []; split; try congruence; intros [?|?]; congruence. Qed.

Lemma cleanup_preserves s k n n' :
  run_inv s → fs_active s = None → dict_get k (fs_nodes s) = Some n →
  ns_status n = NodeStatus.SUCCEEDED → ns_status n' = NodeStatus.SUCCEEDED →
  same_identity n n' → run_inv (with_node s n').
Proof.
  intros Hi Ha Hn Hst Hst' Hid. pose proof (i_ids s Hi _ _ Hn) as Hk.
  assert (ns_node_id n' = k) as Hk' by (destruct Hid as [-> _]; done).
  apply (node_preserves s n n' (fs_active s) (fs_status s)); try done; try congruence.
  - intros j m _ Hm Ho. destruct (i_open s Hi _ _ Hm Ho) as (? & ? & _). congruence.
  - intros [?|?]; congruence.
  - eapply (i_fence s Hi); [done|]. congruence.
Qed.

Lemma outcome_preserves e s st recon terminal :
  run_inv s → fs_terminal s = false → fs_active s = None → outcome e s st recon terminal →
  run_inv (MkFold (fs_nodes s) st (fs_cancel s) None terminal recon (fs_max_fence s)).
Proof.
  intros [] Ht Ha Ho. constructor; simpl; try done.
  - rewrite <-Ha. done.
  - destruct Ho; intros E; split; try done; try congruence; set_solver.
  - destruct Ho as [_ Hc Hall| | |]; try done. intros _. split_and!; try done.
    intros k n Hn%dict_get_elem. unfold all_nodes in Hall. rewrite forallb_elem in Hall.
    apply Hall in Hn. unfold status_is in Hn. simpl in Hn. by inv_ok.
Qed.

(** Every transition of a run that has not ended, and every
    clean-up transition of one that has, keeps the invariant: exactly the
    node of the active lease is open and it carries the lease's attempt and
    the highest fencing token issued, the fencing tokens issued are as many
    as the attempts made, no node was ever attempted before all its
    dependencies succeeded, and a run reported successful has only
    succeeded nodes, no cancellation and no open lease. *)
Lemma transition_inv e s s' :
  run_inv s → (fs_terminal s = true → is_cleanup_event e = true) →
  transition node_dependencies e s s' → run_inv s'.
Proof.
  intros Hi Hterm Ht.
  assert (Hlive : is_cleanup_event e = false → fs_terminal s = false).
  { intros E. destruct (fs_terminal s); [|done]. by rewrite Hterm in E. }
  assert (Hno : ∀ t, event_type e = t →
    t ∉ [NODE_WORKTREE_CLEANUP_REQUESTED; NODE_WORKTREE_CLEANED; NODE_WORKTREE_CLEANUP_FAILED] →
    fs_terminal s = false).
  { intros t <- Hn. apply Hlive. unfold is_cleanup_event. by rewrite bool_decide_false. }
  destruct Ht as [n n' a He| n a He Ha| a rq cx He Ha| He Hc| n n' a st Ha| k n n' |st recon terminal Ha Ho].
  - eapply claim_preserves; try done. eapply Hno; [done|by vm_compute; set_solver].
  - destruct (lease_node s a n) as (L1 & L2 & L3 & L4 & L5); try done.
    apply (node_preserves s n); try done.
    + simpl. by rewrite L1.
    + simpl. rewrite L1. intros. by eapply others_closed.
    + intros _. simpl. rewrite L1. by eexists.
    + destruct (i_lease s Hi a Ha) as (m & Hm & M1 & M2 & M3 & M4 & M5 & M6).
      assert (m = n) as -> by congruence. intros ? [= <-]. split_and!; simpl; congruence || done.
    + congruence.
  - destruct Hi as []. constructor; simpl; try done.
    + intros k n Hn Hop. destruct (i_open0 k n Hn Hop) as (a' & ? & ?).
      eexists. split; [done|]. simpl. congruence.
    + intros ? [= <-]. destruct (i_lease0 a Ha) as (m & Hm & M1 & M2 & M3 & M4 & M5 & M6).
      exists m. simpl. rewrite H in M1. done.
    + intros E. apply i_terminal0 in E as [? _]. congruence.
  - destruct Hi as []. constructor; simpl; try done. intros E. exfalso.
    rewrite (Hno _ He) in E; [done|by vm_compute; set_solver].
  - destruct (lease_node s a n) as (L1 & L2 & L3 & L4 & L5); try done.
    destruct (closing_status _ _ _ _ _ _ H1) as [Hclosed Hns].
    pose proof H0 as [Hid _].
    apply (node_preserves s n); try done.
    + by rewrite Hid, L1.
    + rewrite Hid, L1. intros. by eapply others_closed.
    + congruence.
  - by eapply cleanup_preserves.
  - eapply outcome_preserves; try done.
    destruct Ho; (eapply Hno; [done|by vm_compute; set_solver]).
Qed.
End Invariant.

(** ** Histories *)

(** The public events of a stream after the one that queued the run. *)
Definition history (events : list EventEnvelope) : list EventEnvelope :=
  List.tl (List.filter is_public events).

(** An event has one type. *)
Ltac type_clash :=
  match goal with H1 : event_type ?e = _, H2 : event_type ?e = _ |- _ =>
    rewrite H1 in H2; vm_compute in H2; discriminate H2 end.

Definition of_type (t : string) (e : EventEnvelope) : Prop := event_type e = t.
#[export] Instance of_type_dec t e : Decision (of_type t e).
Proof. unfold of_type. apply _. Defined.

Section History.
Context (run_id : string) (node_dependencies : list (string * list string)).
Context (Hnd : NoDup (dict_keys node_dependencies)).

Abbreviation step := (step run_id node_dependencies).
Abbreviation fold := (fold_run_lifecycle run_id node_dependencies).
Abbreviation initial := (initial_state node_dependencies).

Lemma fold_inv events st : fold_run_lifecycle run_id node_dependencies events = Ok st →
  ∃ s, fold_result step initial (history events) = Ok s
    ∧ rl_status st = fs_status s ∧ rl_nodes st = map snd (fs_nodes s)
    ∧ rl_cancellation_requested st = fs_cancel s ∧ rl_active_lease st = fs_active s
    ∧ settled s = true ∧ check_envelopes run_id 1 events = true ∧ check_causation events = true.
Proof.
  unfold fold_run_lifecycle, history. intros H. inv_ensure.
  destruct (List.filter is_public events) as [|q rest]; [done|]. inv_ensure. eexists. done.
Qed.

Lemma fresh_nodes l k n : dict_get k (map (λ n, (n, fresh_node n)) l) = Some n → n = fresh_node k.
Proof.
  induction l as [|x l IH]; simpl; [done|]. case_decide; [intros [= <-]; by subst|done].
Qed.

Lemma initial_inv : run_inv node_dependencies initial.
Proof.
  constructor; simpl; try done.
  - unfold dict_keys. rewrite <-list_fmap_compose. apply list_fmap_id.
  - by intros k n ->%fresh_nodes.
  - intros k n ->%fresh_nodes [?|?]; done.
  - by intros k n ->%fresh_nodes.
  - induction (sort_strings _) as [|x l IH]; simpl; done.
  - intros k n ->%fresh_nodes. simpl. lia.
Qed.

Lemma step_inv s e s' : run_inv node_dependencies s → step s e = Ok s' →
  run_inv node_dependencies s' ∧ transition node_dependencies e s s'
  ∧ (fs_terminal s = true → is_cleanup_event e = true).
Proof.
  intros Hi H. destruct (step_transition _ _ _ _ _ (i_ids _ _ Hi) H) as [Ht Hc].
  split_and!; try done. by eapply transition_inv.
Qed.

Lemma fold_preserves s es s' : run_inv node_dependencies s → fold_result step s es = Ok s' →
  run_inv node_dependencies s'.
Proof. intros Hi. apply fold_result_inv; [done|]. intros a x a' _ Ha H. by eapply step_inv in H as [? _]. Qed.

(** Splitting a history at one of its events. *)
Lemma fold_split s es pre e post s' : run_inv node_dependencies s → es = pre ++ e :: post →
  fold_result step s es = Ok s' →
  ∃ s1 s2, fold_result step s pre = Ok s1 ∧ run_inv node_dependencies s1 ∧ step s1 e = Ok s2
    ∧ run_inv node_dependencies s2 ∧ fold_result step s2 post = Ok s'.
Proof.
  intros Hi -> H. rewrite fold_result_app in H. apply bind_ok in H as (s1 & H1 & H).
  simpl in H. apply bind_ok in H as (s2 & H2 & H).
  pose proof (fold_preserves _ _ _ Hi H1) as Hi1.
  exists s1, s2. split_and!; try done. by eapply step_inv in H2 as [? _].
Qed.

(** A property that every transition of a class of events keeps. *)
Lemma fold_class (P : fold_state → Prop) (Q : EventEnvelope → Prop) s es s' :
  run_inv node_dependencies s → P s →
  (∀ s e s', e ∈ es → run_inv node_dependencies s → P s → step s e = Ok s' → Q e ∧ P s') →
  fold_result step s es = Ok s' → P s' ∧ ∀ e, e ∈ es → Q e.
Proof.
  revert s. induction es as [|e es IH]; intros s Hi HP Hstep; simpl.
  - intros [= <-]. split; [done|]. by intros e ?%elem_of_nil.
  - intros H. apply bind_ok in H as (s1 & H1 & H).
    destruct (Hstep s e s1) as [HQ HP1]; [by left|done..|].
    apply IH in H as [? ?]; try done.
    + split; [done|]. intros x [->|Hx]%elem_of_cons; auto.
    + by eapply step_inv in H1 as [? _].
    + intros s0 x s2 Hx. apply Hstep. by right.
Qed.

(** The runs of the abstract machine. *)
Inductive machine : fold_state → list EventEnvelope → fold_state → Prop :=
  | machine_nil s : machine s [] s
  | machine_cons s e s1 es s2 :
      (fs_terminal s = true → is_cleanup_event e = true) →
      transition node_dependencies e s s1 → run_inv node_dependencies s1 →
      machine s1 es s2 → machine s (e :: es) s2.

Lemma fold_machine s es s' : run_inv node_dependencies s → fold_result step s es = Ok s' →
  machine s es s'.
Proof.
  revert s. induction es as [|e es IH]; intros s Hi; simpl; [intros [= <-]; constructor|].
  intros H. apply bind_ok in H as (s1 & H1 & H).
  apply step_inv in H1 as (Hi1 & Ht & Hc); [|done]. econstructor; eauto.
Qed.

(** C1 (run_refines_machine): folding a run's stream is a run of the abstract
    machine: from the initial state, every event after the first is one of
    its transitions (claim, preparation, dispatch, cancellation, closing of
    the lease, clean-up, outcome), only clean-up follows an outcome, and every
    state on the way keeps the invariant: exactly the node of the active
    lease is open and carries the highest fencing token, tokens issued count
    the attempts, no node was attempted before its dependencies succeeded.
    The reported state is the last one, and it is settled. *)
Theorem run_refines_machine events st : fold_run_lifecycle run_id node_dependencies events = Ok st →
  ∃ s, machine initial (history events) s ∧ run_inv node_dependencies s ∧ settled s = true ∧
    rl_status st = fs_status s ∧ rl_nodes st = map snd (fs_nodes s) ∧
    rl_cancellation_requested st = fs_cancel s ∧ rl_active_lease st = fs_active s.
Proof.
  intros (s & Hs & H1 & H2 & H3 & H4 & H5 & _)%fold_inv. exists s. split_and!; try done.
  - apply fold_machine; [apply initial_inv|done].
  - eapply fold_preserves; [apply initial_inv|done].
Qed.

(** C2 (run_success_sound): a run is reported successful only when every node of its
    graph is in the state succeeded, no cancellation was requested and no
    lease is open. *)
Theorem run_success_sound events st :
  fold_run_lifecycle run_id node_dependencies events = Ok st → rl_status st = RunStatus.SUCCEEDED →
  (∀ n, n ∈ rl_nodes st → ns_status n = NodeStatus.SUCCEEDED)
  ∧ map ns_node_id (rl_nodes st) = sort_strings (dict_keys node_dependencies)
  ∧ rl_cancellation_requested st = false ∧ rl_active_lease st = None.
Proof.
  intros (s & Hs & -> & -> & -> & -> & _)%fold_inv E.
  pose proof (fold_preserves _ _ _ initial_inv Hs) as Hi.
  destruct (i_success _ _ Hi E) as (Ht & Hc & Hall).
  pose proof (keys_NoDup _ _ Hi Hnd) as Hnodup. split_and!; try done.
  - intros n ([k m] & -> & Hin)%list_elem_of_fmap. by eapply Hall, elem_dict_get.
  - rewrite <-(i_keys _ _ Hi). unfold dict_keys. rewrite <-list_fmap_compose.
    apply list_fmap_ext. intros i [k m] Hin%list_elem_of_lookup_2. simpl.
    by eapply (i_ids _ _ Hi), elem_dict_get.
  - by apply (i_terminal _ _ Hi) in Ht as [? _].
Qed.

(** A node that was ever attempted has all its dependencies in
    the state succeeded, in every state a run can reach: no work starts
    before its dependencies, and no success is ever taken back. *)
Theorem dependency_safety events st n deps d :
  fold_run_lifecycle run_id node_dependencies events = Ok st → n ∈ rl_nodes st → 1 <= ns_attempts n →
  dict_get (ns_node_id n) node_dependencies = Some deps → d ∈ deps →
  ∃ m, m ∈ rl_nodes st ∧ ns_node_id m = d ∧ ns_status m = NodeStatus.SUCCEEDED.
Proof.
  intros (s & Hs & _ & -> & _)%fold_inv Hn Hatt Hdeps Hd.
  pose proof (fold_preserves _ _ _ initial_inv Hs) as Hi.
  pose proof (keys_NoDup _ _ Hi Hnd) as Hnodup.
  apply list_elem_of_fmap in Hn as ([k m] & -> & Hin%elem_dict_get); [|done]. simpl in *.
  rewrite (i_ids _ _ Hi _ _ Hin) in Hdeps.
  destruct (i_deps _ _ Hi _ _ Hin Hatt) as (deps' & Hd' & Hall).
  assert (deps' = deps) as -> by congruence.
  destruct (Hall d Hd) as (x & Hx & Hst). exists x. split_and!; [|by eapply i_ids|done].
  apply list_elem_of_fmap. exists (d, x). split; [done|]. by apply dict_get_elem.
Qed.

Lemma claim_fence s e s' : transition node_dependencies e s s' →
  (of_type NODE_CLAIMED e → jget "fencing_token" (payload e) = JInt (fs_max_fence s + 1)
    ∧ fs_max_fence s' = fs_max_fence s + 1)
  ∧ (¬ of_type NODE_CLAIMED e → fs_max_fence s' = fs_max_fence s).
Proof.
  unfold of_type. intros [| | | |? ? ? ? ? ? ? []|? ? ? ? ? ? ? ? ? []|? ? ? ? []]; simpl;
    (split; intros E; [first [by split|exfalso; type_clash]|first [done|exfalso; by apply E]]).
Qed.

(** The run fold as a fenced fold. *)
Program Definition run_fenced : Fenced fold_state := {|
  f_step := step;
  f_claim := of_type NODE_CLAIMED;
  f_token := λ e, jget "fencing_token" (payload e);
  f_fence := fs_max_fence;
  f_ok := run_inv node_dependencies |}.
Next Obligation. intros s e s' Hi H. by eapply step_inv in H as [? _]. Qed.
Next Obligation.
  intros s e s' Hi H Hc. eapply step_inv in H as (_ & [H _]%claim_fence & _); auto.
Qed.
Next Obligation.
  intros s e s' Hi H Hc. eapply step_inv in H as (_ & [_ H]%claim_fence & _); auto.
Qed.

(** The fencing tokens of the claims of a run are, in the
    order of the history, exactly 1, 2, 3, ..., and there are as many of them
    as the nodes have attempts: no token is reused, so a stale worker never
    shares its token with the current one. *)
Theorem fencing_sequential events st :
  fold_run_lifecycle run_id node_dependencies events = Ok st →
  map (λ e, jget "fencing_token" (payload e))
    (filter (of_type NODE_CLAIMED) (history events))
  = map JInt (seqZ 1 (zsum (map ns_attempts (rl_nodes st)))).
Proof.
  intros (s & Hs & _ & -> & _)%fold_inv.
  pose proof (fold_preserves _ _ _ initial_inv Hs) as Hi.
  assert (zsum (map ns_attempts (map snd (fs_nodes s))) = fs_max_fence s) as ->.
  { rewrite <-(i_sum _ _ Hi). unfold attempts_of. by rewrite map_map. }
  pose proof (fenced_tokens (F := run_fenced) _ _ _ initial_inv Hs) as H.
  simpl in H. rewrite Z.sub_0_r in H. done.
Qed.

(** Once cancellation was requested, the rest of the history
    contains no claim, no provider dispatch, no node success, no requeue, no
    second request and no successful outcome. *)
Theorem cancel_barrier events st pre c post e :
  fold_run_lifecycle run_id node_dependencies events = Ok st → history events = pre ++ c :: post →
  event_type c = RUN_CANCEL_REQUESTED → e ∈ post →
  event_type e ∉ [NODE_CLAIMED; NODE_PROVIDER_DISPATCH_STARTED; NODE_SUCCEEDED; NODE_REQUEUED;
                  RUN_CANCEL_REQUESTED; RUN_SUCCEEDED].
Proof.
  intros (s & Hs & _)%fold_inv Hh Hc. revert e.
  destruct (fold_split _ _ _ _ _ _ initial_inv Hh Hs) as (s1 & s2 & _ & Hi1 & H1 & Hi2 & H2).
  assert (Hc2 : fs_cancel s2 = true).
  { destruct (step_inv _ _ _ Hi1 H1) as (_ & Ht & _).
    destruct Ht as [| | | |? ? ? ? ? ? ? []|? ? ? ? ? ? ? ? ? []|? ? ? ? []]; simpl;
      first [done|exfalso; type_clash]. }
  eapply (fold_class (λ s, fs_cancel s = true)); [exact Hi2|done| |exact H2].
  intros s0 e s0' _ Hi Hcan Hstep. destruct (step_inv _ _ _ Hi Hstep) as (_ & Ht & _).
  assert (N : ∀ t, event_type e = t → t ∉ [NODE_CLAIMED; NODE_PROVIDER_DISPATCH_STARTED;
    NODE_SUCCEEDED; NODE_REQUEUED; RUN_CANCEL_REQUESTED; RUN_SUCCEEDED] →
    event_type e ∉ [NODE_CLAIMED; NODE_PROVIDER_DISPATCH_STARTED; NODE_SUCCEEDED; NODE_REQUEUED;
                  RUN_CANCEL_REQUESTED; RUN_SUCCEEDED]) by (by intros t ->).
  destruct Ht as [| | | |? ? ? ? ? ? ? []|? ? ? ? ? ? ? ? ? []|? ? ? ? []]; simpl;
    try congruence; (split; [eapply N; [done|by vm_compute; set_solver]|done]).
Qed.

Definition dispatched (s : fold_state) : Prop :=
  ∀ a, fs_active s = Some a → is_Some (al_provider_dispatch_event_id a).

(** After a provider dispatch, no further dispatch and no requeue
    happens before the node is claimed anew under a new fencing token: each
    lease reaches the provider at most once, and work that may have reached
    the provider is never silently retried. *)
Theorem dispatch_once events st pre d mid x post :
  fold_run_lifecycle run_id node_dependencies events = Ok st → history events = pre ++ d :: mid ++ x :: post →
  event_type d = NODE_PROVIDER_DISPATCH_STARTED →
  event_type x = NODE_PROVIDER_DISPATCH_STARTED ∨ event_type x = NODE_REQUEUED →
  ∃ c, c ∈ mid ∧ event_type c = NODE_CLAIMED.
Proof.
  intros (s & Hs & _)%fold_inv Hh Hd Hx.
  destruct (fold_split _ _ _ _ _ _ initial_inv Hh Hs) as (s1 & s2 & _ & Hi1 & H1 & Hi2 & H2).
  destruct (fold_split _ _ mid x post _ Hi2 eq_refl H2) as (s3 & s4 & H3 & Hi3 & H4 & _).
  destruct (decide (Exists (of_type NODE_CLAIMED) mid)) as [E|E].
  { apply Exists_exists in E as (c & ? & ?). eauto. }
  exfalso. rewrite <-Forall_Exists_neg, Forall_forall in E.
  assert (D2 : dispatched s2).
  { destruct (step_inv _ _ _ Hi1 H1) as (_ & Ht & _). unfold dispatched.
    destruct Ht as [| | | |? ? ? ? ? ? ? []|? ? ? ? ? ? ? ? ? []|? ? ? ? []]; simpl;
      first [exfalso; type_clash|intros a' [= <-]; by eexists]. }
  destruct (fold_class dispatched (λ _, True) s2 mid s3) as [D3 _]; try done.
  { intros s0 e s0' He Hi Hdis Hstep. split; [done|]. specialize (E e He). unfold of_type in E.
    destruct (step_inv _ _ _ Hi Hstep) as (_ & Ht & _). unfold dispatched in *.
    destruct Ht as [| | | |? ? ? ? ? ? ? []|? ? ? ? ? ? ? ? ? []|? ? ? ? []]; simpl;
      first [by destruct E|done|intros a' [= <-]; simpl; first [by eexists|by apply Hdis]]. }
  destruct (step_inv _ _ _ Hi3 H4) as (_ & Ht & _). unfold dispatched in D3.
  destruct Hx as [Hx|Hx];
    destruct Ht as [| |a| |n n' a st' Ha Hn Hid []|? ? ? ? ? ? ? ? ? []|? ? ? ? []]; try type_clash.
  - destruct (D3 a) as [? ?]; [done|]. congruence.
  - destruct (D3 a) as [? ?]; [done|]. congruence.
Qed.

(** The status an outcome event gives the run. *)
Definition outcome_status (t : string) : RunStatus.t :=
  if bool_decide (t = RUN_SUCCEEDED) then RunStatus.SUCCEEDED
  else if bool_decide (t = RUN_FAILED) then RunStatus.FAILED else RunStatus.CANCELED.

(** The outcome of a run is final: after the event that reports
    success, failure or cancellation only worktree clean-up events follow,
    and the state of the run shows that outcome. *)
Theorem outcome_final events st pre t post :
  fold_run_lifecycle run_id node_dependencies events = Ok st → history events = pre ++ t :: post →
  event_type t ∈ [RUN_SUCCEEDED; RUN_FAILED; RUN_CANCELED] →
  rl_status st = outcome_status (event_type t)
  ∧ ∀ e, e ∈ post → is_cleanup_event e = true.
Proof.
  intros (s & Hs & -> & _)%fold_inv Hh Ht.
  destruct (fold_split _ _ _ _ _ _ initial_inv Hh Hs) as (s1 & s2 & _ & Hi1 & H1 & Hi2 & H2).
  assert (T2 : fs_terminal s2 = true ∧ fs_status s2 = outcome_status (event_type t)).
  { destruct (step_inv _ _ _ Hi1 H1) as (_ & Htr & _).
    assert (N : ∀ u, event_type t = u → u ∉ [RUN_SUCCEEDED; RUN_FAILED; RUN_CANCELED] →
      fs_terminal s2 = true ∧ fs_status s2 = outcome_status (event_type t)) by (by intros u <-).
    destruct Htr as [| | | |? ? ? ? ? ? ? []|? ? ? ? ? ? ? ? ? []|? ? ? ? Ho];
      try (eapply N; [done|by vm_compute; set_solver]).
    destruct Ho as [E|E|E|E]; simpl; try (by rewrite E).
    eapply N; [done|by vm_compute; set_solver]. }
  enough ((fs_terminal s = true ∧ fs_status s = outcome_status (event_type t))
    ∧ ∀ e, e ∈ post → is_cleanup_event e = true) by naive_solver.
  eapply (fold_class (λ s, fs_terminal s = true ∧ fs_status s = outcome_status (event_type t)));
    [exact Hi2|done| |exact H2].
  intros s0 e s0' _ Hi [HT HS] Hstep. destruct (step_inv _ _ _ Hi Hstep) as (Hi' & Htr & Hcl).
  specialize (Hcl HT). split; [done|].
  assert (N : ∀ u, event_type e = u → u ∉ [NODE_WORKTREE_CLEANUP_REQUESTED;
    NODE_WORKTREE_CLEANED; NODE_WORKTREE_CLEANUP_FAILED] →
    fs_terminal s0' = true ∧ fs_status s0' = outcome_status (event_type t)).
  { intros u <- Hn. exfalso. apply Hn. unfold is_cleanup_event in Hcl. by inv_ok. }
  destruct Htr as [| | | |? ? ? ? ? ? ? []|? ? ? ? ? ? ? ? ? []|? ? ? ? []];
    try done; (eapply N; [done|by vm_compute; set_solver]).
Qed.

(** An accepted stream is one causal chain of this run: the
    events are numbered 1, 2, 3, ... in order, every event after the first
    names its predecessor as its cause, and all belong to the run's stream. *)
Theorem history_is_chain events st i e :
  fold_run_lifecycle run_id node_dependencies events = Ok st → events !! i = Some e →
  stream_sequence e = Z.of_nat i + 1 ∧ stream_id e = "run:" +:+ run_id
  ∧ ∀ j p, i = S j → events !! j = Some p → causation_id e = Some (event_id p).
Proof.
  intros (s & _ & _ & _ & _ & _ & _ & He & Hc)%fold_inv Hi. split_and!.
  - revert i Hi He. change 1 with (Z.of_nat 0 + 1) at 1 2.
    assert (G : ∀ es k i, check_envelopes run_id k es = true → es !! i = Some e →
      stream_sequence e = k + Z.of_nat i).
    { induction es as [|x es IH]; intros k i; [done|]. simpl. intros Hk Hx. inv_ok.
      destruct i as [|i]; simpl in Hx; [injection Hx as ->; lia|].
      rewrite (IH (k + 1) i) by done. lia. }
    intros i Hi He. rewrite (G _ _ _ He Hi). lia.
  - assert (G : ∀ es k i, check_envelopes run_id k es = true → es !! i = Some e →
      stream_id e = "run:" +:+ run_id).
    { induction es as [|x es IH]; intros k j; [done|]. simpl. intros Hk Hx. inv_ok.
      destruct j as [|j]; simpl in Hx; [by injection Hx as ->|by eapply (IH (k + 1) j)]. }
    by eapply G.
  - intros j p -> Hp. clear He. revert j Hi Hp. induction events as [|x es IH]; intros j Hi Hp; [done|].
    simpl in Hc. destruct es as [|y es]; [done|]. inv_ok.
    destruct j as [|j]; simpl in Hi, Hp; [by injection Hi as ->; injection Hp as ->|].
    by eapply IH.
Qed.
End History.
