(* ===== verification/RunWitness.v ===== *)
(** * Concrete run histories

    Two histories the fold accepts: [success], two dependent nodes driven to
    the end, and [canceled], a run canceled before any claim.  The theorems of
    [RunFacts] are applied to them, so none of them is vacuous. *)

From S2P Require Import Prelude PyStr PyFloat Sha256 Json JsonText JsonFacts PyTime Events.
From S2P Require Import Strict ExecutionPlan RunLifecycle RunFacts.
From Stdlib Require Import ZArith Lia Ascii String.
From stdpp Require Import base gmap sets list strings.
Local Open Scope Z_scope.

Module SampleRun.
Definition digest_of (m : jobject) : string :=
  match jdigest m with Ok d => d | Err _ => "" end.
Definition no_commit : string := "0000000000000000000000000000000000000000".
Definition graph : list (string * list string) := [("a", []); ("b", ["a"])].

Definition event (n : Z) (ty who : string) (p : jobject) : EventEnvelope :=
  MkEvent ("e" +:+ int_repr n) "run:r" n ty 1 (Datetime 0 (Some 0)) (Datetime 0 (Some 0)) "c"
    (if n =? 1 then None else Some ("e" +:+ int_repr (n - 1))) who RUNTIME_EVENT_SOURCE p
    (digest_of p) None (Some n).

Definition raw_lease (node : string) (fence : Z) : jobject :=
  [("run_id", JStr "r"); ("node_id", JStr node); ("attempt", JInt 1);
   ("fencing_token", JInt fence); ("worker_id", JStr "w")].
Definition spec_core (lease : string) : jobject :=
  [("schema_version", JNull); ("lease_digest", JStr lease); ("repository_root", JNull);
   ("isolation_root", JStr "i"); ("base_commit", JNull); ("allowed_paths", JNull);
   ("max_changed_paths", JNull)].
Definition spec (node : string) (fence : Z) (lease : string) : jobject :=
  spec_core lease ++ [("lease", JObj (raw_lease node fence))].
Definition inspection (lease spec_digest : string) : jobject :=
  [("spec_digest", JStr spec_digest); ("lease_digest", JStr lease);
   ("head_commit", JStr no_commit); ("base_commit", JStr no_commit);
   ("changed_paths", JArr []); ("uncommitted_paths", JArr []);
   ("out_of_scope_paths", JArr []); ("changed_path_limit_exceeded", JBool false)].

(** Claim, preparation, dispatch and success of one node. *)
Definition node_events (n : Z) (node : string) (fence : Z) : list EventEnvelope :=
  let lease := digest_of (raw_lease node fence) in
  let sd := digest_of (spec_core lease) in
  let insp := inspection lease sd in
  let head := [("principal_id", JStr "w"); ("run_id", JStr "r"); ("node_id", JStr node);
               ("lease_digest", JStr lease)] in
  let inspected := [("inspection_digest", JStr (digest_of insp)); ("inspection", JObj insp)] in
  [event n NODE_CLAIMED "w" (head ++
     [("attempt", JInt 1); ("fencing_token", JInt fence); ("worker_id", JStr "w");
      ("expires_at", JStr "0001-01-02T00:00:00+00:00"); ("worktree_spec_digest", JStr sd);
      ("worktree_spec", JObj (spec node fence lease)); ("status", JStr "claimed")]);
   event (n + 1) NODE_WORKTREE_PREPARED "w" (head ++ inspected ++
     [("status", JStr "worktree-prepared")]);
   event (n + 2) NODE_PROVIDER_DISPATCH_STARTED "w" (head ++
     [("provider_request_id", JStr ("change-" +:+ remove_prefix "sha256:" lease));
      ("context_digest", JStr lease); ("context_artifact_digest", JStr lease);
      ("status", JStr "provider-dispatch-started")]);
   event (n + 3) NODE_SUCCEEDED "w" (head ++ inspected ++
     [("result_digest", JStr lease); ("head_commit", JStr no_commit);
      ("retained_worktree", JBool true); ("status", JStr "succeeded")])].

Definition queued : EventEnvelope :=
  let request := [("run_id", JStr "r")] in
  event 1 RUN_QUEUED "h" [("request", JObj request); ("request_digest", JStr (digest_of request));
    ("principal_id", JStr "h"); ("references", JNull); ("status", JStr "queued")].
Definition outcome (n : Z) (ty status : string) (retained : bool) : EventEnvelope :=
  event n ty "h" [("principal_id", JStr "h"); ("run_id", JStr "r"); ("status", JStr status);
                  ("retained_worktree", JBool retained)].

Definition success : list EventEnvelope := Eval vm_compute in
  [queued] ++ node_events 2 "a" 1 ++ node_events 6 "b" 2 ++ [outcome 10 RUN_SUCCEEDED "succeeded" true].
Definition canceled : list EventEnvelope := Eval vm_compute in
  let request := [("schema_version", JStr "execution-cancel-run-request/v1");
                  ("idempotency_key", JStr "k")] in
  [queued;
   event 2 RUN_CANCEL_REQUESTED "h" [("principal_id", JStr "h"); ("request", JObj request);
     ("request_digest", JStr (digest_of request)); ("status", JStr "cancel-requested")];
   outcome 3 RUN_CANCELED "canceled" false].

Definition default_state : RunLifecycleState :=
  MkRun "" RunStatus.QUEUED [] false None queued queued 0.
Definition success_state : RunLifecycleState := Eval vm_compute in
  match fold_run_lifecycle "r" graph success with Ok s => s | Err _ => default_state end.
Definition canceled_state : RunLifecycleState := Eval vm_compute in
  match fold_run_lifecycle "r" graph canceled with Ok s => s | Err _ => default_state end.

Lemma success_folds : fold_run_lifecycle "r" graph success = Ok success_state.
Proof. by_vm. Qed.
Lemma canceled_folds : fold_run_lifecycle "r" graph canceled = Ok canceled_state.
Proof. by_vm. Qed.
Lemma graph_nodup : NoDup (dict_keys graph).
Proof. apply (bool_decide_unpack _). reflexivity. Qed.
End SampleRun.

Lemma run_refines_machine_witness :
  ∃ s, machine SampleRun.graph (initial_state SampleRun.graph) (history SampleRun.success) s.
Proof.
  destruct (run_refines_machine "r" SampleRun.graph SampleRun.graph_nodup SampleRun.success _
    SampleRun.success_folds)
    as (s & Hs & _).
  exists s. exact Hs.
Defined.

Lemma run_success_sound_witness :
  rl_status SampleRun.success_state = RunStatus.SUCCEEDED ∧
  ∀ n, n ∈ rl_nodes SampleRun.success_state → ns_status n = NodeStatus.SUCCEEDED.
Proof.
  split; [reflexivity|].
  apply (run_success_sound "r" SampleRun.graph SampleRun.graph_nodup SampleRun.success);
    [apply SampleRun.success_folds|reflexivity].
Defined.

Lemma dependency_safety_witness :
  ∃ m, m ∈ rl_nodes SampleRun.success_state ∧ ns_node_id m = "a" ∧
    ns_status m = NodeStatus.SUCCEEDED.
Proof.
  destruct (rl_nodes SampleRun.success_state) as [|a [|b l]] eqn:E; [discriminate E..|].
  rewrite <-E. injection E as Ea Eb El. subst.
  eapply (dependency_safety "r" SampleRun.graph SampleRun.graph_nodup SampleRun.success _ _ ["a"]).
  - apply SampleRun.success_folds.
  - right. left.
  - vm_compute. discriminate.
  - reflexivity.
  - left.
Defined.

Lemma fencing_sequential_witness :
  map (λ e, jget "fencing_token" (payload e))
    (filter (of_type NODE_CLAIMED) (history SampleRun.success)) = [JInt 1; JInt 2].
Proof.
  rewrite (fencing_sequential "r" SampleRun.graph SampleRun.graph_nodup _ _ SampleRun.success_folds).
  reflexivity.
Defined.

Lemma cancel_barrier_witness :
  Forall (λ e, event_type e ≠ NODE_CLAIMED) (drop 1 (history SampleRun.canceled)).
Proof.
  apply Forall_forall. intros e He E. destruct (history SampleRun.canceled) as [|c post] eqn:H; [discriminate H|].
  eapply (cancel_barrier "r" SampleRun.graph SampleRun.graph_nodup SampleRun.canceled _ [] c post e).
  - apply SampleRun.canceled_folds.
  - exact H.
  - injection H as <- <-. reflexivity.
  - exact He.
  - rewrite E. left.
Defined.

Lemma dispatch_once_witness :
  ∃ c, c ∈ take 2 (drop 3 (history SampleRun.success)) ∧ event_type c = NODE_CLAIMED.
Proof.
  destruct (history SampleRun.success) as [|e1 [|e2 [|d [|m1 [|m2 [|m3 [|x post]]]]]]] eqn:H;
    [discriminate H..|].
  destruct (dispatch_once "r" SampleRun.graph SampleRun.graph_nodup SampleRun.success _
    [e1; e2] d [m1; m2; m3] x post SampleRun.success_folds H) as (c & Hc & Ht).
  - injection H as _ _ <- _ _ _ _ _. reflexivity.
  - left. injection H as _ _ _ _ _ _ <- _. reflexivity.
  - exists c. split; [|exact Ht]. injection H as <- <- <- <- <- <- <- <-.
    apply elem_of_cons in Hc as [->|Hc]; [left|]. apply elem_of_cons in Hc as [->|Hc]; [right; left|].
    apply elem_of_cons in Hc as [->|Hc]; [discriminate Ht|by apply elem_of_nil in Hc].
Defined.

Lemma outcome_final_witness : rl_status SampleRun.canceled_state = outcome_status RUN_CANCELED.
Proof.
  destruct (history SampleRun.canceled) as [|c [|t post]] eqn:H; [discriminate H..|].
  assert (Ht : event_type t = RUN_CANCELED) by (injection H as <- <- <-; reflexivity).
  rewrite <-Ht.
  apply (outcome_final "r" SampleRun.graph SampleRun.graph_nodup SampleRun.canceled _ [c] t post).
  - apply SampleRun.canceled_folds.
  - exact H.
  - rewrite Ht. right. right. left.
Defined.

Lemma history_is_chain_witness :
  ∃ e, SampleRun.success !! 3%nat = Some e ∧ stream_sequence e = 4.
Proof.
  destruct (SampleRun.success !! 3%nat) as [e|] eqn:H; [|discriminate H].
  exists e. split; [reflexivity|].
  apply (history_is_chain "r" SampleRun.graph SampleRun.success _ 3 e SampleRun.success_folds H).
Defined.
