(* ===== verification/ReviewLifecycle.v ===== *)
(** * orchestration/review_lifecycle.py: the fenced review lifecycle

    [review_step] is the body of the loop of [fold_review_lifecycle], with one
    handler per event type. *)

From S2P Require Import Prelude PyStr PyFloat Sha256 Json JsonText JsonFacts PyTime Events.
From S2P Require Import Strict ExecutionPlan RunLifecycle.
From Stdlib Require Import ZArith Lia Ascii String.
From stdpp Require Import base gmap sets list strings.
Local Open Scope Z_scope.

Definition REVIEW_CLAIMED : string := "review.claimed".
Definition REVIEW_LEASE_RENEWED : string := "review.lease-renewed".
Definition REVIEW_PROVIDER_DISPATCH_STARTED : string := "review.provider-dispatch-started".
Definition REVIEW_SUCCEEDED : string := "review.succeeded".
Definition REVIEW_FAILED : string := "review.failed".
Definition REVIEW_REQUEUED : string := "review.requeued".
Definition REVIEW_RECONCILIATION_REQUIRED : string := "review.reconciliation-required".
Definition REVIEW_LEASE_SCHEMA : string := "review-lease/v1".
Definition REVIEW_DISPATCH_AMBIGUOUS : string := "review-dispatch-ambiguous".

Definition REVIEW_EVENT_TYPES : list string :=
  [REVIEW_CLAIMED; REVIEW_LEASE_RENEWED; REVIEW_PROVIDER_DISPATCH_STARTED; REVIEW_SUCCEEDED;
   REVIEW_FAILED; REVIEW_REQUEUED; REVIEW_RECONCILIATION_REQUIRED].

Definition _MAX_FINDINGS : Z := 64.

Module ReviewStatus.
Inductive t := CLAIMED | PROVIDER_DISPATCHED | SUCCEEDED | FAILED | REQUEUED
             | RECONCILIATION_REQUIRED.
End ReviewStatus.
#[export] Instance review_status_eq : EqDecision ReviewStatus.t.
Proof. solve_decision. Defined.

(** ** Validators *)
Definition rerr : exn := ReviewLifecycleError.
Definition review_require (c : bool) : result unit := strict_require rerr c.
Definition review_identifier : json → result string := strict_identifier rerr.
Definition review_digest : json → result string := strict_digest rerr.
Definition review_failure : json → result string := strict_failure rerr.
Definition review_positive_integer : json → result Z := strict_positive rerr.
Definition review_nonnegative_integer : Z → json → result Z := strict_nonnegative rerr.
Definition review_mapping : json → result jobject := strict_mapping rerr.
Definition review_exact : jobject → list string → result unit := strict_exact rerr.
Definition review_principal : jobject → EventEnvelope → result string := strict_principal rerr.

(** ** Identities *)

(** ["review-" + digest.removeprefix("sha256:")[:48]] *)
Definition short_digest (prefix digest : string) : string :=
  prefix +:+ take_bytes 48 (remove_prefix "sha256:" digest).

Definition review_id (run_id run_event_digest : string) : result string :=
  _ ← review_identifier (JStr run_id);
  _ ← review_digest (JStr run_event_digest);
  d ← jdigest [("run_id", JStr run_id); ("run_event_digest", JStr run_event_digest);
               ("stage", JStr "review")];
  Ok (short_digest "review-" d).

Definition review_provider_request_id (lease_digest : string) : result string :=
  _ ← review_digest (JStr lease_digest);
  Ok (short_digest "review-" lease_digest).

Definition review_stream (run_id : string) : result string :=
  i ← review_identifier (JStr run_id); Ok ("review:" +:+ i).

(** [ReviewCandidate] and its [__post_init__]. *)
Record ReviewCandidate := MkReviewCandidate {
  rc_run_id : string; rc_review_id : string; rc_correlation_id : string;
  rc_run_event_id : string; rc_run_event_digest : string; rc_state_digest : string;
  rc_artifact_evidence_digest : string
}.

Definition review_candidate_init (c : ReviewCandidate) : result ReviewCandidate :=
  _ ← map_result (λ s, review_identifier (JStr s))
        [rc_run_id c; rc_review_id c; rc_correlation_id c; rc_run_event_id c];
  _ ← map_result (λ s, review_digest (JStr s))
        [rc_run_event_digest c; rc_state_digest c; rc_artifact_evidence_digest c];
  expected ← review_id (rc_run_id c) (rc_run_event_digest c);
  _ ← review_require (bool_decide (rc_review_id c = expected));
  Ok c.

Record ReviewLease := MkReviewLease {
  rv_run_id : string;
  rv_review_id : string;
  rv_attempt : Z;
  rv_fencing_token : Z;
  rv_worker_id : string;
  rv_run_event_id : string;
  rv_run_event_digest : string;
  rv_state_digest : string;
  rv_artifact_evidence_digest : string;
  rv_expires_at : datetime;
  rv_schema_version : string
}.

(** [ReviewLease.__post_init__]. *)
Definition review_lease_init (l : ReviewLease) : result ReviewLease :=
  _ ← review_require (bool_decide (rv_schema_version l = REVIEW_LEASE_SCHEMA)
        && forallb re_identifier [rv_run_id l; rv_review_id l; rv_worker_id l; rv_run_event_id l]
        && (1 <=? rv_attempt l) && (1 <=? rv_fencing_token l)
        && forallb re_digest [rv_run_event_digest l; rv_state_digest l;
                              rv_artifact_evidence_digest l]
        && bool_decide (is_Some (dt_offset (rv_expires_at l))));
  Ok l.

Definition review_lease_payload (l : ReviewLease) : jobject :=
  [("schema_version", JStr (rv_schema_version l)); ("run_id", JStr (rv_run_id l));
   ("review_id", JStr (rv_review_id l)); ("attempt", JInt (rv_attempt l));
   ("fencing_token", JInt (rv_fencing_token l)); ("worker_id", JStr (rv_worker_id l));
   ("run_event_id", JStr (rv_run_event_id l));
   ("run_event_digest", JStr (rv_run_event_digest l));
   ("state_digest", JStr (rv_state_digest l));
   ("artifact_evidence_digest", JStr (rv_artifact_evidence_digest l));
   ("expires_at", JStr (isoformat (rv_expires_at l)))].

Definition review_lease_digest (l : ReviewLease) : result string := jdigest (review_lease_payload l).

Definition review_lease_from_mapping (raw : jobject) : result ReviewLease :=
  _ ← review_exact raw ["schema_version"; "run_id"; "review_id"; "attempt"; "fencing_token";
        "worker_id"; "run_event_id"; "run_event_digest"; "state_digest";
        "artifact_evidence_digest"; "expires_at"];
  _ ← review_require (is_str (jget "schema_version" raw) REVIEW_LEASE_SCHEMA);
  expires_at ← strict_iso rerr (jget "expires_at" raw);
  run_id ← review_identifier (jget "run_id" raw);
  review_id ← review_identifier (jget "review_id" raw);
  attempt ← review_positive_integer (jget "attempt" raw);
  fencing_token ← review_positive_integer (jget "fencing_token" raw);
  worker_id ← review_identifier (jget "worker_id" raw);
  run_event_id ← review_identifier (jget "run_event_id" raw);
  run_event_digest ← review_digest (jget "run_event_digest" raw);
  state_digest ← review_digest (jget "state_digest" raw);
  artifact_evidence_digest ← review_digest (jget "artifact_evidence_digest" raw);
  review_lease_init (MkReviewLease run_id review_id attempt fencing_token worker_id run_event_id
    run_event_digest state_digest artifact_evidence_digest expires_at REVIEW_LEASE_SCHEMA).

Definition review_immutable_identity (l : ReviewLease) : list string :=
  [rv_run_id l; rv_review_id l; rv_run_event_id l; rv_run_event_digest l; rv_state_digest l;
   rv_artifact_evidence_digest l].

Definition review_renewable_identity (l : ReviewLease) : list string * (Z * Z) :=
  ([rv_schema_version l; rv_run_id l; rv_review_id l; rv_worker_id l; rv_run_event_id l;
    rv_run_event_digest l; rv_state_digest l; rv_artifact_evidence_digest l],
   (rv_attempt l, rv_fencing_token l)).

(** ** The variables of the loop *)
Record review_state := MkReviewState {
  rs_status : option ReviewStatus.t;
  rs_lease : option ReviewLease;
  rs_baseline : option ReviewLease;
  rs_acceptance_digest : option string;
  rs_context_digest : option string;
  rs_provider_request_id : option string;
  rs_provider_dispatch_event_id : option string;
  rs_proposal_artifact_digest : option string;
  rs_provider_result_artifact_digest : option string;
  rs_admitted_artifact_digest : option string;
  rs_finding_count : option Z;
  rs_failure_code : option string;
  rs_result_artifact_digest : option string
}.

Definition review_initial : review_state :=
  MkReviewState None None None None None None None None None None None None None.

Definition review_active_lease (p : jobject) (principal : string) (e : EventEnvelope)
    (lease : option ReviewLease) (actual : option ReviewStatus.t) (expected : ReviewStatus.t)
    (allow_expired : bool) : result ReviewLease :=
  lease ← of_option rerr lease;
  d ← review_lease_digest lease;
  _ ← review_require (bool_decide (actual = Some expected)
        && is_str (jget "run_id" p) (rv_run_id lease)
        && is_str (jget "review_id" p) (rv_review_id lease)
        && is_str (jget "lease_digest" p) d
        && bool_decide (principal = rv_worker_id lease)
        && (allow_expired || dt_leb (recorded_at e) (rv_expires_at lease)));
  Ok lease.

Definition review_host_transition (p : jobject) (lease : option ReviewLease)
    (actual : option ReviewStatus.t) (expected : ReviewStatus.t) : result ReviewLease :=
  lease ← of_option rerr lease;
  d ← review_lease_digest lease;
  _ ← review_require (bool_decide (actual = Some expected)
        && is_str (jget "run_id" p) (rv_run_id lease)
        && is_str (jget "review_id" p) (rv_review_id lease)
        && is_str (jget "lease_digest" p) d);
  Ok lease.

Section Review.
Context (run_id : string).

Definition review_claimed (s : review_state) (e : EventEnvelope) (p : jobject)
    (principal : string) : result review_state :=
  _ ← review_exact p ["principal_id"; "lease_digest"; "lease"; "status"];
  _ ← review_require (bool_decide (rs_status s ∈ [None; Some ReviewStatus.REQUEUED]));
  raw ← review_mapping (jget "lease" p);
  candidate ← review_lease_from_mapping raw;
  d ← review_lease_digest candidate;
  _ ← review_require (bool_decide (rv_run_id candidate = run_id)
        && bool_decide (rv_worker_id candidate = principal)
        && is_str (jget "lease_digest" p) d
        && is_str (jget "status" p) "claimed"
        && dt_ltb (recorded_at e) (rv_expires_at candidate)
        && match rs_lease s with
           | None => bool_decide (causation_id e = Some (rv_run_event_id candidate))
           | Some _ => true
           end
        && (rv_attempt candidate =? from_option (λ l, rv_attempt l + 1) 1 (rs_lease s))
        && (rv_fencing_token candidate
            =? from_option (λ l, rv_fencing_token l + 1) 1 (rs_lease s)));
  _ ← review_require (match rs_baseline s with
        | Some b => bool_decide (review_immutable_identity candidate
                                 = review_immutable_identity b)
        | None => true
        end);
  Ok (MkReviewState (Some ReviewStatus.CLAIMED) (Some candidate)
        (Some (default candidate (rs_baseline s))) None None None None None None None None None
        None).

Definition review_renewed (s : review_state) (e : EventEnvelope) (p : jobject)
    (principal : string) : result review_state :=
  _ ← review_exact p ["principal_id"; "previous_lease_digest"; "lease_digest"; "lease"; "status"];
  raw ← review_mapping (jget "lease" p);
  renewed ← review_lease_from_mapping raw;
  lease ← of_option rerr (rs_lease s);
  previous ← review_lease_digest lease;
  d ← review_lease_digest renewed;
  _ ← review_require (bool_decide (rs_status s = Some ReviewStatus.CLAIMED)
        && bool_decide (principal = rv_worker_id lease)
        && bool_decide (rv_worker_id renewed = principal)
        && is_str (jget "previous_lease_digest" p) previous
        && is_str (jget "lease_digest" p) d
        && is_str (jget "status" p) "claimed"
        && dt_ltb (recorded_at e) (rv_expires_at renewed)
        && dt_ltb (rv_expires_at lease) (rv_expires_at renewed)
        && bool_decide (review_renewable_identity renewed = review_renewable_identity lease));
  Ok (MkReviewState (rs_status s) (Some renewed) (rs_baseline s) (rs_acceptance_digest s)
        (rs_context_digest s) (rs_provider_request_id s) (rs_provider_dispatch_event_id s)
        (rs_proposal_artifact_digest s) (rs_provider_result_artifact_digest s)
        (rs_admitted_artifact_digest s) (rs_finding_count s) (rs_failure_code s)
        (rs_result_artifact_digest s)).

Definition review_dispatched (s : review_state) (e : EventEnvelope) (p : jobject)
    (principal : string) : result review_state :=
  _ ← review_exact p ["principal_id"; "run_id"; "review_id"; "lease_digest";
        "provider_request_id"; "acceptance_digest"; "context_digest";
        "context_artifact_digest"; "status"];
  active ← review_active_lease p principal e (rs_lease s) (rs_status s)
             ReviewStatus.CLAIMED false;
  request_id ← review_identifier (jget "provider_request_id" p);
  acceptance ← review_digest (jget "acceptance_digest" p);
  context ← review_digest (jget "context_digest" p);
  d ← review_lease_digest active;
  expected ← review_provider_request_id d;
  _ ← review_require (bool_decide (request_id = expected)
        && is_str (jget "context_artifact_digest" p) context
        && is_str (jget "status" p) "provider-dispatch-started");
  Ok (MkReviewState (Some ReviewStatus.PROVIDER_DISPATCHED) (rs_lease s) (rs_baseline s)
        (Some acceptance) (Some context) (Some request_id) (Some (event_id e))
        (rs_proposal_artifact_digest s) (rs_provider_result_artifact_digest s)
        (rs_admitted_artifact_digest s) (rs_finding_count s) (rs_failure_code s)
        (rs_result_artifact_digest s)).

Definition review_succeeded (s : review_state) (e : EventEnvelope) (p : jobject)
    (principal : string) : result review_state :=
  _ ← review_exact p ["principal_id"; "run_id"; "review_id"; "lease_digest"; "context_digest";
        "proposal_artifact_digest"; "provider_result_artifact_digest";
        "admitted_artifact_digest"; "finding_count"; "status"];
  _ ← review_active_lease p principal e (rs_lease s) (rs_status s)
        ReviewStatus.PROVIDER_DISPATCHED false;
  count ← review_nonnegative_integer _MAX_FINDINGS (jget "finding_count" p);
  _ ← review_require (py_eq (jget "context_digest" p) (opt_json (rs_context_digest s))
        && is_str (jget "status" p) "succeeded");
  proposal ← review_digest (jget "proposal_artifact_digest" p);
  provider_result ← review_digest (jget "provider_result_artifact_digest" p);
  admitted ← review_digest (jget "admitted_artifact_digest" p);
  Ok (MkReviewState (Some ReviewStatus.SUCCEEDED) (rs_lease s) (rs_baseline s)
        (rs_acceptance_digest s) (rs_context_digest s) (rs_provider_request_id s)
        (rs_provider_dispatch_event_id s) (Some proposal) (Some provider_result)
        (Some admitted) (Some count) (rs_failure_code s) (rs_result_artifact_digest s)).

Definition review_failed (s : review_state) (e : EventEnvelope) (p : jobject)
    (principal : string) : result review_state :=
  _ ← review_exact p ["principal_id"; "run_id"; "review_id"; "lease_digest"; "failure_code";
        "result_artifact_digest"; "status"];
  status ← of_option rerr (rs_status s);
  _ ← review_require (bool_decide
        (status ∈ [ReviewStatus.CLAIMED; ReviewStatus.PROVIDER_DISPATCHED]));
  _ ← review_active_lease p principal e (rs_lease s) (rs_status s) status true;
  failure_code ← review_failure (jget "failure_code" p);
  result ← (if is_null (jget "result_artifact_digest" p) then Ok None
            else Some <$> review_digest (jget "result_artifact_digest" p));
  _ ← review_require (is_str (jget "status" p) "reviewer-error");
  Ok (MkReviewState (Some ReviewStatus.FAILED) (rs_lease s) (rs_baseline s)
        (rs_acceptance_digest s) (rs_context_digest s) (rs_provider_request_id s)
        (rs_provider_dispatch_event_id s) (rs_proposal_artifact_digest s)
        (rs_provider_result_artifact_digest s) (rs_admitted_artifact_digest s)
        (rs_finding_count s) (Some failure_code) result).

Definition review_requeued (s : review_state) (e : EventEnvelope) (p : jobject)
    (principal : string) : result review_state :=
  _ ← review_exact p ["principal_id"; "run_id"; "review_id"; "lease_digest"; "disposition";
        "status"];
  _ ← review_host_transition p (rs_lease s) (rs_status s) ReviewStatus.CLAIMED;
  _ ← review_require (is_str (jget "disposition" p) "pre-dispatch"
        && is_str (jget "status" p) "requeued");
  Ok (MkReviewState (Some ReviewStatus.REQUEUED) (rs_lease s) (rs_baseline s)
        (rs_acceptance_digest s) (rs_context_digest s) (rs_provider_request_id s)
        (rs_provider_dispatch_event_id s) (rs_proposal_artifact_digest s)
        (rs_provider_result_artifact_digest s) (rs_admitted_artifact_digest s)
        (rs_finding_count s) (rs_failure_code s) (rs_result_artifact_digest s)).

Definition review_reconciliation (s : review_state) (e : EventEnvelope) (p : jobject)
    (principal : string) : result review_state :=
  _ ← review_exact p ["principal_id"; "run_id"; "review_id"; "lease_digest"; "failure_code";
        "status"];
  _ ← review_host_transition p (rs_lease s) (rs_status s) ReviewStatus.PROVIDER_DISPATCHED;
  failure_code ← review_failure (jget "failure_code" p);
  _ ← review_require (bool_decide (failure_code = REVIEW_DISPATCH_AMBIGUOUS)
        && is_str (jget "status" p) "reconciliation-required");
  Ok (MkReviewState (Some ReviewStatus.RECONCILIATION_REQUIRED) (rs_lease s) (rs_baseline s)
        (rs_acceptance_digest s) (rs_context_digest s) (rs_provider_request_id s)
        (rs_provider_dispatch_event_id s) (rs_proposal_artifact_digest s)
        (rs_provider_result_artifact_digest s) (rs_admitted_artifact_digest s)
        (rs_finding_count s) (Some failure_code) (rs_result_artifact_digest s)).

Definition review_handler (ty : string)
    : review_state → EventEnvelope → jobject → string → result review_state :=
  if bool_decide (ty = REVIEW_CLAIMED) then review_claimed
  else if bool_decide (ty = REVIEW_LEASE_RENEWED) then review_renewed
  else if bool_decide (ty = REVIEW_PROVIDER_DISPATCH_STARTED) then review_dispatched
  else if bool_decide (ty = REVIEW_SUCCEEDED) then review_succeeded
  else if bool_decide (ty = REVIEW_FAILED) then review_failed
  else if bool_decide (ty = REVIEW_REQUEUED) then review_requeued
  else if bool_decide (ty = REVIEW_RECONCILIATION_REQUIRED) then review_reconciliation
  else λ _ _ _ _, Err rerr.

Definition review_step (s : review_state) (e : EventEnvelope) : result review_state :=
  let p := payload e in
  principal ← review_principal p e;
  review_handler (event_type e) s e p principal.

Record ReviewLifecycleState := MkReview {
  rl_review_run_id : string;
  rl_review_id : string;
  rl_review_status : ReviewStatus.t;
  rl_review_lease : ReviewLease;
  rl_review_fields : review_state;
  rl_review_latest : EventEnvelope
}.

Definition fold_review_lifecycle (events : list EventEnvelope) : result ReviewLifecycleState :=
  _ ← review_identifier (JStr run_id);
  match events with
  | [] => Err rerr
  | first :: rest =>
      sid ← review_stream run_id;
      _ ← review_require (strict_envelopes sid RUNTIME_EVENT_SOURCE REVIEW_EVENT_TYPES 1 events);
      _ ← review_require (strict_chain (correlation_id first) None events);
      s ← fold_result review_step review_initial events;
      status ← of_option rerr (rs_status s);
      lease ← of_option rerr (rs_lease s);
      Ok (MkReview run_id (rv_review_id lease) status lease s (List.last rest first))
  end.
End Review.

Definition review_active (st : ReviewLifecycleState) : bool :=
  bool_decide (rl_review_status st ∈ [ReviewStatus.CLAIMED; ReviewStatus.PROVIDER_DISPATCHED]).

Definition review_status_value (s : ReviewStatus.t) : string :=
  match s with
  | ReviewStatus.CLAIMED => "claimed" | ReviewStatus.PROVIDER_DISPATCHED => "provider-dispatched"
  | ReviewStatus.SUCCEEDED => "succeeded" | ReviewStatus.FAILED => "failed"
  | ReviewStatus.REQUEUED => "requeued"
  | ReviewStatus.RECONCILIATION_REQUIRED => "reconciliation-required"
  end.

Definition opt_int (x : option Z) : json := match x with Some z => JInt z | None => JNull end.

Definition review_lifecycle_payload (st : ReviewLifecycleState) : result jobject :=
  let l := rl_review_lease st in let f := rl_review_fields st in
  d ← review_lease_digest l;
  Ok [("run_id", JStr (rl_review_run_id st)); ("review_id", JStr (rl_review_id st));
      ("status", JStr (review_status_value (rl_review_status st)));
      ("lease_digest", JStr d); ("attempt", JInt (rv_attempt l));
      ("fencing_token", JInt (rv_fencing_token l)); ("worker_id", JStr (rv_worker_id l));
      ("run_event_id", JStr (rv_run_event_id l));
      ("run_event_digest", JStr (rv_run_event_digest l));
      ("state_digest", JStr (rv_state_digest l));
      ("artifact_evidence_digest", JStr (rv_artifact_evidence_digest l));
      ("expires_at", JStr (isoformat (rv_expires_at l)));
      ("acceptance_digest", opt_json (rs_acceptance_digest f));
      ("context_digest", opt_json (rs_context_digest f));
      ("provider_request_id", opt_json (rs_provider_request_id f));
      ("provider_dispatch_event_id", opt_json (rs_provider_dispatch_event_id f));
      ("proposal_artifact_digest", opt_json (rs_proposal_artifact_digest f));
      ("provider_result_artifact_digest", opt_json (rs_provider_result_artifact_digest f));
      ("admitted_artifact_digest", opt_json (rs_admitted_artifact_digest f));
      ("finding_count", opt_int (rs_finding_count f));
      ("failure_code", opt_json (rs_failure_code f));
      ("result_artifact_digest", opt_json (rs_result_artifact_digest f));
      ("stream_sequence", JInt (stream_sequence (rl_review_latest st)));
      ("latest_event_id", JStr (event_id (rl_review_latest st)));
      ("latest_event_digest", JStr (payload_hash (rl_review_latest st)))].
