(* ===== verification/VerificationLifecycle.v ===== *)
(** * orchestration/verification_lifecycle.py: the fenced verification lifecycle *)

From S2P Require Import Prelude PyStr PyFloat Sha256 Json JsonText JsonFacts PyTime Events.
From S2P Require Import Strict ExecutionPlan RunLifecycle ReviewLifecycle.
From Stdlib Require Import ZArith Lia Ascii String.
From stdpp Require Import base gmap sets list strings.
Local Open Scope Z_scope.

Definition VERIFICATION_CLAIMED : string := "verification.claimed".
Definition VERIFICATION_COMPLETED : string := "verification.completed".
Definition VERIFICATION_FAILED : string := "verification.failed".
Definition VERIFICATION_REQUEUED : string := "verification.requeued".
Definition VERIFICATION_LEASE_SCHEMA : string := "verification-lease/v1".

Definition VERIFICATION_EVENT_TYPES : list string :=
  [VERIFICATION_CLAIMED; VERIFICATION_COMPLETED; VERIFICATION_FAILED; VERIFICATION_REQUEUED].

Definition verification_max_findings : Z := 64.

Module VerificationLifecycleStatus.
Inductive t := CLAIMED | COMPLETED | FAILED | REQUEUED.
End VerificationLifecycleStatus.
#[export] Instance verification_lifecycle_status_eq : EqDecision VerificationLifecycleStatus.t.
Proof. solve_decision. Defined.

(** orchestration/verification.py: [VerificationStatus]. *)
Module Verdict.
Inductive t := PASS | FAIL | INCONCLUSIVE.
End Verdict.
#[export] Instance verdict_eq : EqDecision Verdict.t.
Proof. solve_decision. Defined.

Definition verdict_value (v : Verdict.t) : string :=
  match v with
  | Verdict.PASS => "pass" | Verdict.FAIL => "fail" | Verdict.INCONCLUSIVE => "inconclusive"
  end.

(** [VerificationStatus(value)] under [except TypeError, ValueError]. *)
Definition verdict_of (v : json) : option Verdict.t :=
  if is_str v "pass" then Some Verdict.PASS
  else if is_str v "fail" then Some Verdict.FAIL
  else if is_str v "inconclusive" then Some Verdict.INCONCLUSIVE
  else None.

(** ** Validators *)
Definition verr : exn := VerificationLifecycleError.
Definition verification_require (c : bool) : result unit := strict_require verr c.
Definition verification_identifier : json → result string := strict_identifier verr.
Definition verification_digest : json → result string := strict_digest verr.
Definition verification_failure : json → result string := strict_failure verr.
Definition verification_positive_integer : json → result Z := strict_positive verr.
Definition verification_nonnegative_integer : Z → json → result Z := strict_nonnegative verr.
Definition verification_mapping : json → result jobject := strict_mapping verr.
Definition verification_exact : jobject → list string → result unit := strict_exact verr.
Definition verification_principal : jobject → EventEnvelope → result string := strict_principal verr.

Definition verification_id (run_id review_event_digest : string) : result string :=
  _ ← verification_identifier (JStr run_id);
  _ ← verification_digest (JStr review_event_digest);
  d ← jdigest [("run_id", JStr run_id); ("review_event_digest", JStr review_event_digest);
               ("stage", JStr "verification")];
  Ok (short_digest "verification-" d).

Definition verification_stream (run_id : string) : result string :=
  i ← verification_identifier (JStr run_id); Ok ("verification:" +:+ i).

(** ** Candidates and leases *)
Record VerificationCandidate := MkVerificationCandidate {
  vc_run_id : string; vc_verification_id : string; vc_correlation_id : string;
  vc_run_event_id : string; vc_run_event_digest : string; vc_state_digest : string;
  vc_artifact_evidence_digest : string; vc_review_id : string; vc_review_event_id : string;
  vc_review_event_digest : string; vc_acceptance_digest : string; vc_context_digest : string;
  vc_proposal_artifact_digest : string; vc_provider_result_artifact_digest : string;
  vc_admitted_review_digest : string; vc_finding_count : Z
}.

Definition verification_candidate_init (c : VerificationCandidate) : result VerificationCandidate :=
  _ ← verification_require
        (forallb re_identifier [vc_run_id c; vc_verification_id c; vc_correlation_id c;
           vc_run_event_id c; vc_review_id c; vc_review_event_id c]
         && forallb re_digest [vc_run_event_digest c; vc_state_digest c;
           vc_artifact_evidence_digest c; vc_review_event_digest c; vc_acceptance_digest c;
           vc_context_digest c; vc_proposal_artifact_digest c;
           vc_provider_result_artifact_digest c; vc_admitted_review_digest c]
         && (0 <=? vc_finding_count c) && (vc_finding_count c <=? verification_max_findings));
  expected_review ← review_id (vc_run_id c) (vc_run_event_digest c);
  _ ← verification_require (bool_decide (vc_review_id c = expected_review));
  expected ← verification_id (vc_run_id c) (vc_review_event_digest c);
  _ ← verification_require (bool_decide (vc_verification_id c = expected));
  Ok c.

Record VerificationLease := MkVerificationLease {
  vl_run_id : string; vl_verification_id : string; vl_attempt : Z; vl_fencing_token : Z;
  vl_worker_id : string; vl_run_event_id : string; vl_run_event_digest : string;
  vl_state_digest : string; vl_artifact_evidence_digest : string; vl_review_id : string;
  vl_review_event_id : string; vl_review_event_digest : string; vl_acceptance_digest : string;
  vl_context_digest : string; vl_proposal_artifact_digest : string;
  vl_provider_result_artifact_digest : string; vl_admitted_review_digest : string;
  vl_finding_count : Z; vl_expires_at : datetime; vl_schema_version : string
}.

Definition verification_lease_init (l : VerificationLease) : result VerificationLease :=
  candidate ← verification_candidate_init (MkVerificationCandidate (vl_run_id l)
    (vl_verification_id l) "lease-validation" (vl_run_event_id l) (vl_run_event_digest l)
    (vl_state_digest l) (vl_artifact_evidence_digest l) (vl_review_id l) (vl_review_event_id l)
    (vl_review_event_digest l) (vl_acceptance_digest l) (vl_context_digest l)
    (vl_proposal_artifact_digest l) (vl_provider_result_artifact_digest l)
    (vl_admitted_review_digest l) (vl_finding_count l));
  _ ← verification_require (bool_decide (vl_schema_version l = VERIFICATION_LEASE_SCHEMA)
        && re_identifier (vl_worker_id l) && (1 <=? vl_attempt l) && (1 <=? vl_fencing_token l)
        && bool_decide (is_Some (dt_offset (vl_expires_at l)))
        && bool_decide (vc_run_id candidate = vl_run_id l));
  Ok l.

Definition verification_lease_payload (l : VerificationLease) : jobject :=
  [("schema_version", JStr (vl_schema_version l)); ("run_id", JStr (vl_run_id l));
   ("verification_id", JStr (vl_verification_id l)); ("attempt", JInt (vl_attempt l));
   ("fencing_token", JInt (vl_fencing_token l)); ("worker_id", JStr (vl_worker_id l));
   ("run_event_id", JStr (vl_run_event_id l));
   ("run_event_digest", JStr (vl_run_event_digest l));
   ("state_digest", JStr (vl_state_digest l));
   ("artifact_evidence_digest", JStr (vl_artifact_evidence_digest l));
   ("review_id", JStr (vl_review_id l)); ("review_event_id", JStr (vl_review_event_id l));
   ("review_event_digest", JStr (vl_review_event_digest l));
   ("acceptance_digest", JStr (vl_acceptance_digest l));
   ("context_digest", JStr (vl_context_digest l));
   ("proposal_artifact_digest", JStr (vl_proposal_artifact_digest l));
   ("provider_result_artifact_digest", JStr (vl_provider_result_artifact_digest l));
   ("admitted_review_digest", JStr (vl_admitted_review_digest l));
   ("finding_count", JInt (vl_finding_count l));
   ("expires_at", JStr (isoformat (vl_expires_at l)))].

Definition verification_lease_digest (l : VerificationLease) : result string :=
  jdigest (verification_lease_payload l).

Definition verification_lease_from_mapping (raw : jobject) : result VerificationLease :=
  _ ← verification_exact raw ["schema_version"; "run_id"; "verification_id"; "attempt";
        "fencing_token"; "worker_id"; "run_event_id"; "run_event_digest"; "state_digest";
        "artifact_evidence_digest"; "review_id"; "review_event_id"; "review_event_digest";
        "acceptance_digest"; "context_digest"; "proposal_artifact_digest";
        "provider_result_artifact_digest"; "admitted_review_digest"; "finding_count";
        "expires_at"];
  _ ← verification_require (is_str (jget "schema_version" raw) VERIFICATION_LEASE_SCHEMA);
  expires_at ← strict_iso verr (jget "expires_at" raw);
  run_id ← verification_identifier (jget "run_id" raw);
  verification_id ← verification_identifier (jget "verification_id" raw);
  attempt ← verification_positive_integer (jget "attempt" raw);
  fencing_token ← verification_positive_integer (jget "fencing_token" raw);
  worker_id ← verification_identifier (jget "worker_id" raw);
  run_event_id ← verification_identifier (jget "run_event_id" raw);
  run_event_digest ← verification_digest (jget "run_event_digest" raw);
  state_digest ← verification_digest (jget "state_digest" raw);
  artifact_evidence_digest ← verification_digest (jget "artifact_evidence_digest" raw);
  review_id ← verification_identifier (jget "review_id" raw);
  review_event_id ← verification_identifier (jget "review_event_id" raw);
  review_event_digest ← verification_digest (jget "review_event_digest" raw);
  acceptance_digest ← verification_digest (jget "acceptance_digest" raw);
  context_digest ← verification_digest (jget "context_digest" raw);
  proposal_artifact_digest ← verification_digest (jget "proposal_artifact_digest" raw);
  provider_result_artifact_digest ←
    verification_digest (jget "provider_result_artifact_digest" raw);
  admitted_review_digest ← verification_digest (jget "admitted_review_digest" raw);
  finding_count ← verification_nonnegative_integer verification_max_findings
                    (jget "finding_count" raw);
  verification_lease_init (MkVerificationLease run_id verification_id attempt fencing_token
    worker_id run_event_id run_event_digest state_digest artifact_evidence_digest review_id
    review_event_id review_event_digest acceptance_digest context_digest
    proposal_artifact_digest provider_result_artifact_digest admitted_review_digest
    finding_count expires_at VERIFICATION_LEASE_SCHEMA).

Definition verification_immutable_identity (l : VerificationLease) : list string * Z :=
  ([vl_run_id l; vl_verification_id l; vl_run_event_id l; vl_run_event_digest l;
    vl_state_digest l; vl_artifact_evidence_digest l; vl_review_id l; vl_review_event_id l;
    vl_review_event_digest l; vl_acceptance_digest l; vl_context_digest l;
    vl_proposal_artifact_digest l; vl_provider_result_artifact_digest l;
    vl_admitted_review_digest l], vl_finding_count l).

(** ** The fold *)
Record verification_state := MkVerificationState {
  vs_status : option VerificationLifecycleStatus.t;
  vs_lease : option VerificationLease;
  vs_baseline : option VerificationLease;
  vs_verdict : option Verdict.t;
  vs_report_artifact_digest : option string;
  vs_matrix_digest : option string;
  vs_failure_code : option string;
  vs_result_artifact_digest : option string
}.

Definition verification_initial : verification_state :=
  MkVerificationState None None None None None None None None.

Definition verification_host_transition (p : jobject) (lease : option VerificationLease)
    (status : option VerificationLifecycleStatus.t) : result VerificationLease :=
  lease ← of_option verr lease;
  d ← verification_lease_digest lease;
  _ ← verification_require (bool_decide (status = Some VerificationLifecycleStatus.CLAIMED)
        && is_str (jget "run_id" p) (vl_run_id lease)
        && is_str (jget "verification_id" p) (vl_verification_id lease)
        && is_str (jget "lease_digest" p) d);
  Ok lease.

Definition verification_active_lease (p : jobject) (principal : string)
    (lease : option VerificationLease) (status : option VerificationLifecycleStatus.t)
    : result VerificationLease :=
  lease ← verification_host_transition p lease status;
  _ ← verification_require (bool_decide (principal = vl_worker_id lease));
  Ok lease.

Section Verification.
Context (run_id : string).

Definition verification_claimed (s : verification_state) (e : EventEnvelope) (p : jobject)
    (principal : string) : result verification_state :=
  _ ← verification_exact p ["principal_id"; "lease_digest"; "lease"; "status"];
  _ ← verification_require (bool_decide
        (vs_status s ∈ [None; Some VerificationLifecycleStatus.REQUEUED]));
  raw ← verification_mapping (jget "lease" p);
  candidate ← verification_lease_from_mapping raw;
  d ← verification_lease_digest candidate;
  _ ← verification_require (bool_decide (vl_run_id candidate = run_id)
        && bool_decide (vl_worker_id candidate = principal)
        && is_str (jget "lease_digest" p) d
        && is_str (jget "status" p) "claimed"
        && dt_ltb (recorded_at e) (vl_expires_at candidate)
        && match vs_lease s with
           | None => bool_decide (causation_id e = Some (vl_review_event_id candidate))
           | Some _ => true
           end
        && (vl_attempt candidate =? from_option (λ l, vl_attempt l + 1) 1 (vs_lease s))
        && (vl_fencing_token candidate
            =? from_option (λ l, vl_fencing_token l + 1) 1 (vs_lease s))
        && match vs_baseline s with
           | Some b => bool_decide (verification_immutable_identity candidate
                                    = verification_immutable_identity b)
           | None => true
           end);
  Ok (MkVerificationState (Some VerificationLifecycleStatus.CLAIMED) (Some candidate)
        (Some (default candidate (vs_baseline s))) None None None None None).

Definition verification_completed (s : verification_state) (e : EventEnvelope) (p : jobject)
    (principal : string) : result verification_state :=
  _ ← verification_exact p ["principal_id"; "run_id"; "verification_id"; "lease_digest";
        "verdict"; "report_artifact_digest"; "matrix_digest"; "status"];
  active ← verification_active_lease p principal (vs_lease s) (vs_status s);
  completed_verdict ← of_option verr (verdict_of (jget "verdict" p));
  report ← verification_digest (jget "report_artifact_digest" p);
  matrix ← verification_digest (jget "matrix_digest" p);
  _ ← verification_require (is_str (jget "status" p) "completed");
  Ok (MkVerificationState (Some VerificationLifecycleStatus.COMPLETED) (Some active)
        (vs_baseline s) (Some completed_verdict) (Some report) (Some matrix)
        (vs_failure_code s) (vs_result_artifact_digest s)).

Definition verification_failed (s : verification_state) (e : EventEnvelope) (p : jobject)
    (principal : string) : result verification_state :=
  _ ← verification_exact p ["principal_id"; "run_id"; "verification_id"; "lease_digest";
        "failure_code"; "result_artifact_digest"; "status"];
  _ ← verification_active_lease p principal (vs_lease s) (vs_status s);
  failure_code ← verification_failure (jget "failure_code" p);
  result ← (if is_null (jget "result_artifact_digest" p) then Ok None
            else Some <$> verification_digest (jget "result_artifact_digest" p));
  _ ← verification_require (is_str (jget "status" p) "verifier-error");
  Ok (MkVerificationState (Some VerificationLifecycleStatus.FAILED) (vs_lease s)
        (vs_baseline s) (vs_verdict s) (vs_report_artifact_digest s) (vs_matrix_digest s)
        (Some failure_code) result).

Definition verification_requeued (s : verification_state) (e : EventEnvelope) (p : jobject)
    (principal : string) : result verification_state :=
  _ ← verification_exact p ["principal_id"; "run_id"; "verification_id"; "lease_digest";
        "disposition"; "status"];
  active ← verification_host_transition p (vs_lease s) (vs_status s);
  _ ← verification_require (negb (bool_decide (principal = vl_worker_id active))
        && is_str (jget "disposition" p) "deterministic-retry"
        && is_str (jget "status" p) "requeued");
  Ok (MkVerificationState (Some VerificationLifecycleStatus.REQUEUED) (vs_lease s)
        (vs_baseline s) (vs_verdict s) (vs_report_artifact_digest s) (vs_matrix_digest s)
        (vs_failure_code s) (vs_result_artifact_digest s)).

Definition verification_handler (ty : string)
    : verification_state → EventEnvelope → jobject → string → result verification_state :=
  if bool_decide (ty = VERIFICATION_CLAIMED) then verification_claimed
  else if bool_decide (ty = VERIFICATION_COMPLETED) then verification_completed
  else if bool_decide (ty = VERIFICATION_FAILED) then verification_failed
  else if bool_decide (ty = VERIFICATION_REQUEUED) then verification_requeued
  else λ _ _ _ _, Err verr.

Definition verification_step (s : verification_state) (e : EventEnvelope)
    : result verification_state :=
  let p := payload e in
  principal ← verification_principal p e;
  verification_handler (event_type e) s e p principal.

Record VerificationLifecycleState := MkVerification {
  vr_run_id : string;
  vr_verification_id : string;
  vr_status : VerificationLifecycleStatus.t;
  vr_lease : VerificationLease;
  vr_fields : verification_state;
  vr_latest : EventEnvelope
}.

Definition fold_verification_lifecycle (events : list EventEnvelope)
    : result VerificationLifecycleState :=
  _ ← verification_identifier (JStr run_id);
  match events with
  | [] => Err verr
  | first :: rest =>
      sid ← verification_stream run_id;
      _ ← verification_require
            (strict_envelopes sid RUNTIME_EVENT_SOURCE VERIFICATION_EVENT_TYPES 1 events);
      _ ← verification_require (strict_chain (correlation_id first) None events);
      s ← fold_result verification_step verification_initial events;
      status ← of_option verr (vs_status s);
      lease ← of_option verr (vs_lease s);
      Ok (MkVerification run_id (vl_verification_id lease) status lease s (List.last rest first))
  end.
End Verification.

Definition verification_active (st : VerificationLifecycleState) : bool :=
  bool_decide (vr_status st = VerificationLifecycleStatus.CLAIMED).

Definition verification_status_value (s : VerificationLifecycleStatus.t) : string :=
  match s with
  | VerificationLifecycleStatus.CLAIMED => "claimed"
  | VerificationLifecycleStatus.COMPLETED => "completed"
  | VerificationLifecycleStatus.FAILED => "failed"
  | VerificationLifecycleStatus.REQUEUED => "requeued"
  end.

Definition verification_lifecycle_payload (st : VerificationLifecycleState) : result jobject :=
  let l := vr_lease st in let f := vr_fields st in
  d ← verification_lease_digest l;
  Ok [("run_id", JStr (vr_run_id st)); ("verification_id", JStr (vr_verification_id st));
      ("status", JStr (verification_status_value (vr_status st)));
      ("lease_digest", JStr d); ("attempt", JInt (vl_attempt l));
      ("fencing_token", JInt (vl_fencing_token l)); ("worker_id", JStr (vl_worker_id l));
      ("run_event_id", JStr (vl_run_event_id l));
      ("run_event_digest", JStr (vl_run_event_digest l));
      ("state_digest", JStr (vl_state_digest l));
      ("artifact_evidence_digest", JStr (vl_artifact_evidence_digest l));
      ("review_id", JStr (vl_review_id l)); ("review_event_id", JStr (vl_review_event_id l));
      ("review_event_digest", JStr (vl_review_event_digest l));
      ("acceptance_digest", JStr (vl_acceptance_digest l));
      ("context_digest", JStr (vl_context_digest l));
      ("proposal_artifact_digest", JStr (vl_proposal_artifact_digest l));
      ("provider_result_artifact_digest", JStr (vl_provider_result_artifact_digest l));
      ("admitted_review_digest", JStr (vl_admitted_review_digest l));
      ("finding_count", JInt (vl_finding_count l));
      ("expires_at", JStr (isoformat (vl_expires_at l)));
      ("verdict", opt_json (verdict_value <$> vs_verdict f));
      ("report_artifact_digest", opt_json (vs_report_artifact_digest f));
      ("matrix_digest", opt_json (vs_matrix_digest f));
      ("failure_code", opt_json (vs_failure_code f));
      ("result_artifact_digest", opt_json (vs_result_artifact_digest f));
      ("stream_sequence", JInt (stream_sequence (vr_latest st)));
      ("latest_event_id", JStr (event_id (vr_latest st)));
      ("latest_event_digest", JStr (payload_hash (vr_latest st)))].
