(* ===== verification/LeaseFacts.v ===== *)
(** * Review and verification histories

    What the strict folds of review_lifecycle.py and
    verification_lifecycle.py guarantee: consecutive fencing tokens (through
    the interface [Fenced]), immutable lease identity, one provider dispatch,
    final outcomes, and leases that survive their JSON form. *)

From S2P Require Import Prelude PyStr PyFloat Sha256 Json JsonText JsonFacts PyTime Events.
From S2P Require Import Strict ExecutionPlan RunLifecycle RunFacts.
From S2P Require Import ReviewLifecycle VerificationLifecycle.
From Stdlib Require Import ZArith Lia Ascii String.
From stdpp Require Import base gmap sets list strings.
Local Open Scope Z_scope.

(** The lease mapping an event carries, and its token. *)
Definition lease_field (k : string) (e : EventEnvelope) : json :=
  match jget "lease" (payload e) with JObj m => jget k m | _ => JNull end.

Ltac inv_strict := repeat (match goal with
  | H : strict_require _ _ = Ok _ |- _ => apply strict_require_ok in H
  | H : review_require _ = Ok _ |- _ => apply strict_require_ok in H
  | H : verification_require _ = Ok _ |- _ => apply strict_require_ok in H
  end || inv_ok_step).

Lemma as_mapping_ok e j m : as_mapping e j = Ok m → j = JObj m.
Proof. destruct j; try done. by intros [= ->]. Qed.

(** ** Reviews *)
Section Review.
Context (run_id : string).
Abbreviation step := (review_step run_id).
Abbreviation fold := (fold_review_lifecycle run_id).

Lemma review_lease_from_mapping_ok raw l : review_lease_from_mapping raw = Ok l →
  jget "fencing_token" raw = JInt (rv_fencing_token l)
  ∧ jget "attempt" raw = JInt (rv_attempt l) ∧ review_lease_init l = Ok l.
Proof.
  unfold review_lease_from_mapping. intros H. inv_strict.
  pose proof H as Hinit. unfold review_lease_init in H. inv_strict. simpl.
  repeat match goal with H : review_positive_integer _ = Ok _ |- _ =>
    apply strict_positive_ok in H as [? _] end. done.
Qed.

(** What an accepted event does to the lease and the status. *)
Inductive review_move (e : EventEnvelope) (s s' : review_state) : Prop :=
  | RM_claim l raw : event_type e = REVIEW_CLAIMED →
      rs_status s = None ∨ rs_status s = Some ReviewStatus.REQUEUED →
      jget "lease" (payload e) = JObj raw → review_lease_from_mapping raw = Ok l →
      rs_status s' = Some ReviewStatus.CLAIMED → rs_lease s' = Some l →
      rs_baseline s' = Some (default l (rs_baseline s)) →
      (∀ b, rs_baseline s = Some b → review_immutable_identity l = review_immutable_identity b) →
      rv_attempt l = from_option (λ l, rv_attempt l + 1) 1 (rs_lease s) →
      rv_fencing_token l = from_option (λ l, rv_fencing_token l + 1) 1 (rs_lease s) →
      rv_worker_id l = actor e →
      review_move e s s'
  | RM_renew l l' : event_type e = REVIEW_LEASE_RENEWED →
      rs_status s = Some ReviewStatus.CLAIMED → rs_lease s = Some l →
      rs_status s' = Some ReviewStatus.CLAIMED → rs_lease s' = Some l' →
      rs_baseline s' = rs_baseline s →
      review_renewable_identity l' = review_renewable_identity l →
      dt_utc (rv_expires_at l) < dt_utc (rv_expires_at l') →
      review_move e s s'
  | RM_dispatch : event_type e = REVIEW_PROVIDER_DISPATCH_STARTED →
      rs_status s = Some ReviewStatus.CLAIMED →
      rs_status s' = Some ReviewStatus.PROVIDER_DISPATCHED → rs_lease s' = rs_lease s →
      rs_baseline s' = rs_baseline s →
      is_Some (rs_context_digest s') → is_Some (rs_acceptance_digest s') →
      rs_provider_dispatch_event_id s' = Some (event_id e) →
      review_move e s s'
  | RM_succeed n : event_type e = REVIEW_SUCCEEDED →
      rs_status s = Some ReviewStatus.PROVIDER_DISPATCHED →
      rs_status s' = Some ReviewStatus.SUCCEEDED → rs_lease s' = rs_lease s →
      rs_baseline s' = rs_baseline s → rs_context_digest s' = rs_context_digest s →
      rs_acceptance_digest s' = rs_acceptance_digest s →
      rs_provider_dispatch_event_id s' = rs_provider_dispatch_event_id s →
      is_Some (rs_proposal_artifact_digest s') →
      is_Some (rs_provider_result_artifact_digest s') →
      is_Some (rs_admitted_artifact_digest s') →
      rs_finding_count s' = Some n → 0 <= n <= _MAX_FINDINGS →
      review_move e s s'
  | RM_end st : event_type e = REVIEW_FAILED ∧ st = ReviewStatus.FAILED
        ∨ event_type e = REVIEW_REQUEUED ∧ st = ReviewStatus.REQUEUED
        ∨ event_type e = REVIEW_RECONCILIATION_REQUIRED ∧ st = ReviewStatus.RECONCILIATION_REQUIRED →
      (rs_status s = Some ReviewStatus.CLAIMED ∧ st ≠ ReviewStatus.RECONCILIATION_REQUIRED
       ∨ rs_status s = Some ReviewStatus.PROVIDER_DISPATCHED ∧ st ≠ ReviewStatus.REQUEUED) →
      rs_status s' = Some st → rs_lease s' = rs_lease s → rs_baseline s' = rs_baseline s →
      review_move e s s'.

Lemma review_claimed_move s e s' principal : event_type e = REVIEW_CLAIMED →
  review_principal (payload e) e = Ok principal →
  review_claimed run_id s e (payload e) principal = Ok s' → review_move e s s'.
Proof.
  unfold review_claimed. intros He Hp H. inv_strict.
  match goal with H : review_mapping _ = Ok _ |- _ => apply as_mapping_ok in H end.
  repeat match goal with H : (_ =? _) = true |- _ => apply Z.eqb_eq in H end.
  unfold review_principal, strict_principal in Hp. inv_strict.
  eapply RM_claim; try done.
  - match goal with H : rs_status s ∈ _ |- _ =>
      repeat (apply elem_of_cons in H as [H|H]); [by left|by right|by apply elem_of_nil in H] end.
  - intros b Hb. match goal with H : match rs_baseline s with _ => _ end = true |- _ =>
      rewrite Hb in H; by inv_ok end.
Qed.

Lemma review_renewed_move s e s' principal : event_type e = REVIEW_LEASE_RENEWED →
  review_renewed s e (payload e) principal = Ok s' → review_move e s s'.
Proof.
  unfold review_renewed. intros He H. inv_strict.
  repeat match goal with H : dt_ltb _ _ = true |- _ => apply dt_ltb_spec in H end.
  eapply RM_renew; try done.
Qed.

Lemma review_active_lease_ok p principal e lease actual expected b l :
  review_active_lease p principal e lease actual expected b = Ok l →
  lease = Some l ∧ actual = Some expected ∧ principal = rv_worker_id l.
Proof. unfold review_active_lease. intros H. inv_strict. done. Qed.

Lemma review_host_transition_ok p lease actual expected l :
  review_host_transition p lease actual expected = Ok l → lease = Some l ∧ actual = Some expected.
Proof. unfold review_host_transition. intros H. inv_strict. done. Qed.

Lemma review_step_move s e s' : step s e = Ok s' → review_move e s s'.
Proof.
  unfold review_step, review_handler. intros H. apply bind_ok in H as (principal & Hp & H).
  case_bool_decide; [by eapply review_claimed_move|].
  case_bool_decide; [by eapply review_renewed_move|].
  case_bool_decide.
  { unfold review_dispatched in H. inv_strict.
    match goal with H : review_active_lease _ _ _ _ _ _ _ = Ok _ |- _ =>
      apply review_active_lease_ok in H as (? & ? & _) end.
    apply RM_dispatch; try done; by eexists. }
  case_bool_decide.
  { unfold review_succeeded in H. inv_strict.
    match goal with H : review_active_lease _ _ _ _ _ _ _ = Ok _ |- _ =>
      apply review_active_lease_ok in H as (? & ? & _) end.
    match goal with H : review_nonnegative_integer _ _ = Ok _ |- _ =>
      apply strict_nonnegative_ok in H as [_ ?] end.
    eapply RM_succeed; try done; by eexists. }
  case_bool_decide.
  { unfold review_failed in H. inv_strict.
    match goal with H : review_active_lease _ _ _ _ _ _ _ = Ok _ |- _ =>
      apply review_active_lease_ok in H as (? & ? & _) end.
    eapply (RM_end _ _ _ ReviewStatus.FAILED); try done; [by left|].
    match goal with H : _ ∈ [ReviewStatus.CLAIMED; _] |- _ =>
      repeat (apply elem_of_cons in H as [H|H]); [left|right|by apply elem_of_nil in H] end;
      (split; [congruence|done]). }
  case_bool_decide.
  { unfold review_requeued in H. inv_strict.
    match goal with H : review_host_transition _ _ _ _ = Ok _ |- _ =>
      apply review_host_transition_ok in H as [? ?] end.
    eapply (RM_end _ _ _ ReviewStatus.REQUEUED); try done; [by right; left|by left]. }
  case_bool_decide; [|done].
  unfold review_reconciliation in H. inv_strict.
  match goal with H : review_host_transition _ _ _ _ = Ok _ |- _ =>
    apply review_host_transition_ok in H as [? ?] end.
  eapply (RM_end _ _ _ ReviewStatus.RECONCILIATION_REQUIRED); try done; [by right; right|by right].
Qed.

Lemma renewable_parts l l' : review_renewable_identity l' = review_renewable_identity l →
  rv_attempt l' = rv_attempt l ∧ rv_fencing_token l' = rv_fencing_token l
  ∧ review_immutable_identity l' = review_immutable_identity l.
Proof.
  unfold review_renewable_identity, review_immutable_identity. intros [= ? ? ? ? ? ? ? ? ? ?].
  split_and!; congruence.
Qed.

(** The attempt counts the claims as the token does, and the lease is the
    one the first claim described. *)
Record review_ok (s : review_state) : Prop := {
  ro_attempt : ∀ l, rs_lease s = Some l → rv_attempt l = rv_fencing_token l;
  ro_baseline : ∀ l, rs_lease s = Some l → ∃ b, rs_baseline s = Some b
    ∧ review_immutable_identity l = review_immutable_identity b
}.

Lemma review_initial_ok : review_ok review_initial.
Proof. by constructor. Qed.

Lemma review_move_ok e s s' : review_ok s → review_move e s s' → review_ok s'.
Proof.
  intros [Ha Hb] [l raw He Hst Hl Hraw Hst' Hl' Hb' Hid Hatt Hf Hw|l l' He Hst Hl Hst' Hl' Hb' Hid Hx
    |? ? ? Hl Hbl|n ? ? ? Hl Hbl|st ? ? ? Hl Hbl]; constructor; intros k Hk.
  - rewrite Hl' in Hk. injection Hk as <-. rewrite Hatt, Hf.
    destruct (rs_lease s) as [l0|]; simpl; [by rewrite (Ha l0)|done].
  - rewrite Hl' in Hk. injection Hk as <-. eexists. split; [done|].
    destruct (rs_baseline s) as [b|]; simpl; [by apply Hid|done].
  - rewrite Hl' in Hk. injection Hk as <-. apply renewable_parts in Hid as (-> & -> & _). auto.
  - rewrite Hl' in Hk. injection Hk as <-. apply renewable_parts in Hid as (_ & _ & ->).
    rewrite Hb'. auto.
  - rewrite Hl in Hk. auto.
  - rewrite Hl in Hk. rewrite Hbl. auto.
  - rewrite Hl in Hk. auto.
  - rewrite Hl in Hk. rewrite Hbl. auto.
  - rewrite Hl in Hk. auto.
  - rewrite Hl in Hk. rewrite Hbl. auto.
Qed.

Definition review_fence (s : review_state) : Z := from_option rv_fencing_token 0 (rs_lease s).

Lemma review_fence_claim e s s' : review_move e s s' → of_type REVIEW_CLAIMED e →
  lease_field "fencing_token" e = JInt (review_fence s + 1)
  ∧ review_fence s' = review_fence s + 1.
Proof.
  unfold of_type. intros [l raw He Hst Hl Hraw Hst' Hl' Hb' Hid Hatt Hf Hw| | | |? He] Hn;
    try (exfalso; type_clash).
  - unfold review_fence. rewrite Hl'. simpl.
    assert (rv_fencing_token l = from_option rv_fencing_token 0 (rs_lease s) + 1) as Hf'
      by (rewrite Hf; by destruct (rs_lease s)).
    unfold lease_field. rewrite Hl. apply review_lease_from_mapping_ok in Hraw as (-> & _).
    by rewrite Hf'.
  - exfalso. destruct He as [[? _]|[[? _]|[? _]]]; type_clash.
Qed.

Lemma review_fence_other e s s' : review_move e s s' → ¬ of_type REVIEW_CLAIMED e →
  review_fence s' = review_fence s.
Proof.
  unfold of_type, review_fence. intros [| l l' He Hst Hl Hst' Hl' Hb' Hid Hx|? ? ? Hl
    |n ? ? ? Hl|st ? ? ? Hl] Hn; [by destruct Hn| |by rewrite Hl..].
  rewrite Hl, Hl'. simpl. by apply renewable_parts in Hid as (_ & -> & _).
Qed.

(** The review fold as a fenced fold. *)
Program Definition review_fenced : Fenced review_state := {|
  f_step := step; f_claim := of_type REVIEW_CLAIMED;
  f_token := lease_field "fencing_token"; f_fence := review_fence; f_ok := review_ok |}.
Next Obligation. intros s e s' Hs H%review_step_move. by eapply review_move_ok. Qed.
Next Obligation. intros s e s' Hs H%review_step_move Hc. by eapply review_fence_claim. Qed.
Next Obligation. intros s e s' Hs H%review_step_move Hc. by eapply review_fence_other. Qed.

Lemma review_fold_inv events st : fold_review_lifecycle run_id events = Ok st →
  ∃ s, fold_result step review_initial events = Ok s ∧ rs_lease s = Some (rl_review_lease st)
    ∧ rs_status s = Some (rl_review_status st) ∧ rl_review_fields st = s.
Proof.
  unfold fold_review_lifecycle. intros H. apply bind_ok in H as (i & _ & H).
  destruct events as [|first rest]; [done|]. remember (first :: rest) as es.
  inv_ok. eexists. done.
Qed.

(** The claims of a review carry the fencing tokens 1, 2, 3, ...
    in the order of the history, and the current lease holds the last of
    them as its token and as its attempt number, whatever was renewed in
    between. *)
Theorem review_fencing events st :
  fold_review_lifecycle run_id events = Ok st →
  let n := zlen (filter (of_type REVIEW_CLAIMED) events) in
  map (lease_field "fencing_token") (filter (of_type REVIEW_CLAIMED) events)
    = map JInt (seqZ 1 n)
  ∧ rv_fencing_token (rl_review_lease st) = n ∧ rv_attempt (rl_review_lease st) = n.
Proof.
  intros (s & Hs & Hl & _)%review_fold_inv n.
  pose proof (fenced_tokens (F := review_fenced) _ _ _ review_initial_ok Hs) as Ht.
  pose proof (fenced_fence (F := review_fenced) _ _ _ review_initial_ok Hs) as Hf.
  pose proof (fenced_ok (F := review_fenced) _ _ _ review_initial_ok Hs) as Hok.
  simpl in Ht, Hf, Hok. change (review_fence review_initial) with 0 in *.
  rewrite Z.sub_0_r, Hf in Ht. change (0 + n) with n in *.
  assert (rv_fencing_token (rl_review_lease st) = n) as E.
  { unfold review_fence in Hf. rewrite Hl in Hf. done. }
  split_and!; try done. by rewrite (ro_attempt _ Hok _ Hl).
Qed.

(** Once there is a baseline it stays, and every claim agrees with it. *)
Lemma review_baseline_claims s es s' : review_ok s → fold_result step s es = Ok s' →
  (∀ b, rs_baseline s = Some b → rs_baseline s' = Some b)
  ∧ ∀ e raw l, e ∈ es → event_type e = REVIEW_CLAIMED → jget "lease" (payload e) = JObj raw →
    review_lease_from_mapping raw = Ok l → ∃ b, rs_baseline s' = Some b
      ∧ review_immutable_identity l = review_immutable_identity b.
Proof.
  revert s. induction es as [|x es IH]; intros s Hok; simpl.
  - intros [= <-]. split; [done|]. by intros ? ? ? ?%elem_of_nil.
  - intros H. apply bind_ok in H as (s1 & Hm%review_step_move & H).
    destruct (IH s1 (review_move_ok _ _ _ Hok Hm) H) as [I1 I2].
    assert (Hkeep : ∀ b, rs_baseline s = Some b → rs_baseline s1 = Some b).
    { intros b Hb. destruct Hm as [l raw ? ? ? ? ? ? Hb'|? ? ? ? ? ? ? Hb'|? ? ? ? Hb'|? ? ? ? ? Hb'|? ? ? ? ? Hb'];
        rewrite Hb'; try done. by rewrite Hb. }
    split; [auto|]. intros e raw l [->|He]%elem_of_cons Ht Hl Hraw; [|eauto].
    destruct Hm as [l0 raw0 He0 Hst Hl0 Hraw0 Hst' Hl' Hb' Hid Hatt Hf Hw| | | |? He0];
      try (exfalso; type_clash).
    + assert (l0 = l) as -> by congruence. eexists. split; [apply I1, Hb'|].
      destruct (rs_baseline s) as [b|]; simpl; [by apply Hid|done].
    + exfalso. destruct He0 as [[? _]|[[? _]|[? _]]]; type_clash.
Qed.

(** Every lease ever claimed in a review history is
    for the same run, review, run event, state and artifact evidence as the
    current lease: a retry or a renewal never changes what is reviewed. *)
Theorem review_identity_immutable events st e raw l :
  fold_review_lifecycle run_id events = Ok st → e ∈ events → event_type e = REVIEW_CLAIMED →
  jget "lease" (payload e) = JObj raw → review_lease_from_mapping raw = Ok l →
  review_immutable_identity l = review_immutable_identity (rl_review_lease st).
Proof.
  intros (s & Hs & Hlease & _)%review_fold_inv He Ht Hl Hraw.
  destruct (review_baseline_claims _ _ _ review_initial_ok Hs) as [_ H].
  destruct (H e raw l He Ht Hl Hraw) as (b & Hb & ->).
  pose proof (fenced_ok (F := review_fenced) _ _ _ review_initial_ok Hs) as Hok.
  destruct (ro_baseline _ Hok _ Hlease) as (b' & Hb' & ->). congruence.
Qed.

Definition review_final (s : review_state) : Prop :=
  rs_status s = Some ReviewStatus.SUCCEEDED ∨ rs_status s = Some ReviewStatus.FAILED
  ∨ rs_status s = Some ReviewStatus.RECONCILIATION_REQUIRED.

Lemma review_final_stuck s es s' : review_final s → fold_result step s es = Ok s' → es = [].
Proof.
  destruct es as [|e es]; [done|]. simpl. intros Hf H.
  apply bind_ok in H as (s1 & Hm%review_step_move & _). exfalso.
  destruct Hf as [E|[E|E]], Hm as [? ? ? [?|?]| | | |? ? [[? _]|[? _]]]; congruence.
Qed.

Lemma review_split events pre e post st : fold_review_lifecycle run_id events = Ok st → events = pre ++ e :: post →
  ∃ s s1 s2, fold_result step review_initial pre = Ok s ∧ review_move e s s1
    ∧ fold_result step s1 post = Ok s2.
Proof.
  intros (s & Hs & _)%review_fold_inv ->. rewrite fold_result_app in Hs.
  apply bind_ok in Hs as (s0 & H0 & Hs). simpl in Hs.
  apply bind_ok in Hs as (s1 & Hm%review_step_move & Hs). eauto 10.
Qed.

(** A review is dispatched to the provider at most once in
    its whole history: after the dispatch there is at most one more event,
    and it is the success, the failure or the request for reconciliation —
    never a second dispatch, a requeue or a new claim. *)
Theorem review_dispatch_final events st pre d post :
  fold_review_lifecycle run_id events = Ok st → events = pre ++ d :: post →
  event_type d = REVIEW_PROVIDER_DISPATCH_STARTED →
  post = [] ∨ ∃ t, post = [t]
    ∧ event_type t ∈ [REVIEW_SUCCEEDED; REVIEW_FAILED; REVIEW_RECONCILIATION_REQUIRED].
Proof.
  intros Hf He Hd. destruct (review_split _ _ _ _ _ Hf He) as (s & s1 & s2 & _ & Hm & Hs).
  destruct post as [|t post]; [by left|]. right. simpl in Hs.
  apply bind_ok in Hs as (s3 & Hm3%review_step_move & Hs).
  assert (Hst : rs_status s1 = Some ReviewStatus.PROVIDER_DISPATCHED).
  { destruct Hm as [| | | |? He']; try (exfalso; type_clash); [done|].
    exfalso. destruct He' as [[? _]|[[? _]|[? _]]]; type_clash. }
  assert (event_type t ∈ [REVIEW_SUCCEEDED; REVIEW_FAILED; REVIEW_RECONCILIATION_REQUIRED]
    ∧ review_final s3) as [Ht Hfin].
  { unfold review_final.
    destruct Hm3 as [? ? ? [?|?]| | | |st3 [[E ->]|[[E ->]|[E ->]]] [[? _]|[_ ?]]]; try congruence;
      try (split; [by rewrite ?H, ?E; set_solver|auto]). }
  apply review_final_stuck in Hs as ->; [|done]. eauto.
Qed.

(** A review reported successful ends with exactly a
    dispatch followed by the success; its state carries the acceptance and
    context digests of that dispatch, all three artifacts and a finding
    count between 0 and 64. *)
Theorem review_success_evidence events st :
  fold_review_lifecycle run_id events = Ok st → rl_review_status st = ReviewStatus.SUCCEEDED →
  let f := rl_review_fields st in
  ∃ pre d t n, events = pre ++ [d; t] ∧ event_type d = REVIEW_PROVIDER_DISPATCH_STARTED
    ∧ event_type t = REVIEW_SUCCEEDED ∧ rs_provider_dispatch_event_id f = Some (event_id d)
    ∧ is_Some (rs_acceptance_digest f) ∧ is_Some (rs_context_digest f)
    ∧ is_Some (rs_proposal_artifact_digest f) ∧ is_Some (rs_provider_result_artifact_digest f)
    ∧ is_Some (rs_admitted_artifact_digest f)
    ∧ rs_finding_count f = Some n ∧ 0 <= n <= _MAX_FINDINGS.
Proof.
  intros (s & Hs & _ & Hst & ->)%review_fold_inv E f. rewrite E in Hst. subst f. clear E.
  destruct events as [|t pre _] using rev_ind; [by injection Hs as <-|].
  rewrite fold_result_app in Hs. apply bind_ok in Hs as (s1 & H1 & Hs). simpl in Hs.
  apply bind_ok in Hs as (s2 & Hm%review_step_move & [= <-]).
  destruct Hm as [| | |n Ht Hs1 _ Hl Hb Hc Ha Hd P1 P2 P3 P4 P5|st1 [[_ ->]|[[_ ->]|[_ ->]]]];
    try congruence.
  destruct pre as [|d pre _] using rev_ind; [by injection H1 as <-|].
  rewrite fold_result_app in H1. apply bind_ok in H1 as (s3 & H3 & H1). simpl in H1.
  apply bind_ok in H1 as (s4 & Hm%review_step_move & [= <-]).
  destruct Hm as [| |Hd' _ _ _ _ Q1 Q2 Q3| |st1 [[_ ->]|[[_ ->]|[_ ->]]]]; try congruence.
  exists pre, d, t, n. rewrite <-app_assoc. rewrite Hc, Ha, Hd. split_and!; try done; lia.
Qed.
End Review.

(** A valid review lease with a UTC expiry is recovered
    exactly from its JSON form: what the ledger stores denotes the lease that
    was granted. *)
Lemma review_lease_roundtrip l :
  review_lease_init l = Ok l → astimezone_utc (rv_expires_at l) = Ok (rv_expires_at l) →
  review_lease_from_mapping (review_lease_payload l) = Ok l.
Proof.
  intros Hinit Hutc. pose proof Hinit as Hv. unfold review_lease_init in Hv.
  apply bind_ok in Hv as (u & Hv%strict_require_ok & _). rewrite !andb_true_iff in Hv.
  destruct Hv as (((((Hschema & Hids) & Hatt) & Hfence) & Hdig) & _). rewrite forallb_elem in Hids. rewrite forallb_elem in Hdig.
  apply Z.leb_le in Hatt, Hfence.
  apply bool_decide_eq_true in Hschema.
  unfold review_lease_from_mapping.
  replace (review_exact (review_lease_payload l) _) with (Ok tt : result unit) by reflexivity.
  unfold review_lease_payload. jget_literal.
  rewrite Hschema. change (is_str (JStr REVIEW_LEASE_SCHEMA) REVIEW_LEASE_SCHEMA) with true.
  unfold review_identifier, review_digest, review_positive_integer.
  rewrite strict_iso_intro by done.
  rewrite !strict_identifier_intro, !strict_digest_intro, !strict_positive_intro
    by (done || (apply Hids; set_solver) || (apply Hdig; set_solver)).
  cbn [mbind result_bind review_require strict_require raise_if negb].
  rewrite <-Hschema. destruct l. exact Hinit.
Qed.

(** ** Verifications *)

Lemma verification_lease_init_ok l k : verification_lease_init l = Ok k → k = l.
Proof. unfold verification_lease_init. intros H. inv_strict. done. Qed.

Lemma verification_lease_from_mapping_ok raw l : verification_lease_from_mapping raw = Ok l →
  jget "fencing_token" raw = JInt (vl_fencing_token l) ∧ jget "attempt" raw = JInt (vl_attempt l)
  ∧ verification_lease_init l = Ok l.
Proof.
  unfold verification_lease_from_mapping. intros H. inv_strict.
  pose proof (verification_lease_init_ok _ _ H) as ->. simpl.
  repeat match goal with H : verification_positive_integer _ = Ok _ |- _ =>
    apply strict_positive_ok in H as [? _] end. done.
Qed.

Section Verification.
Context (run_id : string).
Abbreviation step := (verification_step run_id).
Abbreviation fold := (fold_verification_lifecycle run_id).
Abbreviation VS := VerificationLifecycleStatus.CLAIMED.

Inductive verification_move (e : EventEnvelope) (s s' : verification_state) : Prop :=
  | VM_claim l raw : event_type e = VERIFICATION_CLAIMED →
      vs_status s = None ∨ vs_status s = Some VerificationLifecycleStatus.REQUEUED →
      jget "lease" (payload e) = JObj raw → verification_lease_from_mapping raw = Ok l →
      vs_status s' = Some VerificationLifecycleStatus.CLAIMED → vs_lease s' = Some l →
      vs_baseline s' = Some (default l (vs_baseline s)) →
      (∀ b, vs_baseline s = Some b →
        verification_immutable_identity l = verification_immutable_identity b) →
      vl_attempt l = from_option (λ l, vl_attempt l + 1) 1 (vs_lease s) →
      vl_fencing_token l = from_option (λ l, vl_fencing_token l + 1) 1 (vs_lease s) →
      verification_move e s s'
  | VM_complete v : event_type e = VERIFICATION_COMPLETED → vs_status s = Some VS →
      vs_status s' = Some VerificationLifecycleStatus.COMPLETED → vs_lease s' = vs_lease s →
      vs_baseline s' = vs_baseline s →
      jget "verdict" (payload e) = JStr (verdict_value v) → vs_verdict s' = Some v →
      is_Some (vs_report_artifact_digest s') → is_Some (vs_matrix_digest s') →
      (∀ l, vs_lease s = Some l → vl_worker_id l = actor e) →
      verification_move e s s'
  | VM_fail : event_type e = VERIFICATION_FAILED → vs_status s = Some VS →
      vs_status s' = Some VerificationLifecycleStatus.FAILED → vs_lease s' = vs_lease s →
      vs_baseline s' = vs_baseline s → vs_verdict s' = vs_verdict s →
      verification_move e s s'
  | VM_requeue : event_type e = VERIFICATION_REQUEUED → vs_status s = Some VS →
      vs_status s' = Some VerificationLifecycleStatus.REQUEUED → vs_lease s' = vs_lease s →
      vs_baseline s' = vs_baseline s → vs_verdict s' = vs_verdict s →
      (∀ l, vs_lease s = Some l → vl_worker_id l ≠ actor e) →
      verification_move e s s'.

Lemma verdict_of_ok v x : verdict_of v = Some x → v = JStr (verdict_value x).
Proof.
  unfold verdict_of. destruct (is_str v "pass") eqn:E1; [apply is_str_spec in E1; by intros [= <-]|].
  destruct (is_str v "fail") eqn:E2; [apply is_str_spec in E2; by intros [= <-]|].
  destruct (is_str v "inconclusive") eqn:E3; [apply is_str_spec in E3; by intros [= <-]|done].
Qed.

Lemma verification_host_ok p lease status l : verification_host_transition p lease status = Ok l →
  lease = Some l ∧ status = Some VS.
Proof. unfold verification_host_transition. intros H. inv_strict. done. Qed.

Lemma verification_active_ok p principal lease status l :
  verification_active_lease p principal lease status = Ok l →
  lease = Some l ∧ status = Some VS ∧ principal = vl_worker_id l.
Proof.
  unfold verification_active_lease. intros H. inv_strict.
  match goal with H : verification_host_transition _ _ _ = Ok _ |- _ =>
    apply verification_host_ok in H as [? ?] end. done.
Qed.

Lemma verification_principal_ok e principal :
  verification_principal (payload e) e = Ok principal → principal = actor e.
Proof. unfold verification_principal, strict_principal. intros H. inv_strict. done. Qed.

Lemma verification_step_move s e s' : step s e = Ok s' → verification_move e s s'.
Proof.
  unfold verification_step, verification_handler. intros H.
  apply bind_ok in H as (principal & ->%verification_principal_ok & H).
  case_bool_decide.
  { unfold verification_claimed in H. inv_strict.
    match goal with H : verification_mapping _ = Ok _ |- _ => apply as_mapping_ok in H end.
    repeat match goal with H : (_ =? _) = true |- _ => apply Z.eqb_eq in H end.
    eapply VM_claim; try done.
    - match goal with H : vs_status s ∈ _ |- _ =>
        repeat (apply elem_of_cons in H as [H|H]); [by left|by right|by apply elem_of_nil in H] end.
    - intros b Hb. match goal with H : match vs_baseline s with _ => _ end = true |- _ =>
        rewrite Hb in H; by inv_ok end. }
  case_bool_decide.
  { unfold verification_completed in H. inv_strict.
    match goal with H : verification_active_lease _ _ _ _ = Ok _ |- _ =>
      apply verification_active_ok in H as (? & ? & ?) end.
    match goal with H : verdict_of _ = Some _ |- _ => apply verdict_of_ok in H end.
    eapply VM_complete; try done; try by eexists. congruence. }
  case_bool_decide.
  { unfold verification_failed in H. inv_strict.
    match goal with H : verification_active_lease _ _ _ _ = Ok _ |- _ =>
      apply verification_active_ok in H as (? & ? & _) end.
    by apply VM_fail. }
  case_bool_decide; [|done].
  unfold verification_requeued in H. inv_strict.
  match goal with H : verification_host_transition _ _ _ = Ok _ |- _ =>
    apply verification_host_ok in H as [? ?] end.
  apply VM_requeue; try done. congruence.
Qed.

Record verification_ok (s : verification_state) : Prop := {
  vo_attempt : ∀ l, vs_lease s = Some l → vl_attempt l = vl_fencing_token l;
  vo_baseline : ∀ l, vs_lease s = Some l → ∃ b, vs_baseline s = Some b
    ∧ verification_immutable_identity l = verification_immutable_identity b
}.

Lemma verification_initial_ok : verification_ok verification_initial.
Proof. by constructor. Qed.

Lemma verification_move_ok e s s' :
  verification_ok s → verification_move e s s' → verification_ok s'.
Proof.
  intros [Ha Hb] [l raw He Hst Hl Hraw Hst' Hl' Hb' Hid Hatt Hf
    |v ? ? ? Hl Hbl|? ? ? Hl Hbl|? ? ? Hl Hbl]; constructor; intros k Hk;
    rewrite ?Hl, ?Hbl in *; auto.
  - rewrite Hl' in Hk. injection Hk as <-. rewrite Hatt, Hf.
    destruct (vs_lease s) as [l0|]; simpl; [by rewrite (Ha l0)|done].
  - rewrite Hl' in Hk. injection Hk as <-. eexists. split; [done|].
    destruct (vs_baseline s) as [b|]; simpl; [by apply Hid|done].
Qed.

Definition verification_fence (s : verification_state) : Z :=
  from_option vl_fencing_token 0 (vs_lease s).

Lemma verification_fence_claim e s s' : verification_move e s s' →
  of_type VERIFICATION_CLAIMED e →
  lease_field "fencing_token" e = JInt (verification_fence s + 1)
  ∧ verification_fence s' = verification_fence s + 1.
Proof.
  unfold of_type. intros [l raw He Hst Hl Hraw Hst' Hl' Hb' Hid Hatt Hf| | | ] Hn;
    try (exfalso; type_clash).
  unfold verification_fence. rewrite Hl'. simpl.
  assert (vl_fencing_token l = from_option vl_fencing_token 0 (vs_lease s) + 1) as Hf'
    by (rewrite Hf; by destruct (vs_lease s)).
  unfold lease_field. rewrite Hl. apply verification_lease_from_mapping_ok in Hraw as (-> & _).
  by rewrite Hf'.
Qed.

Lemma verification_fence_other e s s' : verification_move e s s' →
  ¬ of_type VERIFICATION_CLAIMED e → verification_fence s' = verification_fence s.
Proof.
  unfold of_type, verification_fence.
  intros [| v ? ? ? Hl|? ? ? Hl|? ? ? Hl] Hn; [by destruct Hn|by rewrite Hl..].
Qed.

Program Definition verification_fenced : Fenced verification_state := {|
  f_step := step; f_claim := of_type VERIFICATION_CLAIMED;
  f_token := lease_field "fencing_token"; f_fence := verification_fence;
  f_ok := verification_ok |}.
Next Obligation. intros s e s' Hs H%verification_step_move. by eapply verification_move_ok. Qed.
Next Obligation.
  intros s e s' Hs H%verification_step_move Hc. by eapply verification_fence_claim.
Qed.
Next Obligation.
  intros s e s' Hs H%verification_step_move Hc. by eapply verification_fence_other.
Qed.

Lemma verification_fold_inv events st : fold_verification_lifecycle run_id events = Ok st →
  ∃ s, fold_result step verification_initial events = Ok s ∧ vs_lease s = Some (vr_lease st)
    ∧ vs_status s = Some (vr_status st) ∧ vr_fields st = s.
Proof.
  unfold fold_verification_lifecycle. intros H. apply bind_ok in H as (i & _ & H).
  destruct events as [|first rest]; [done|]. remember (first :: rest) as es.
  inv_ok. eexists. done.
Qed.

(** The claims of a verification carry the fencing tokens
    1, 2, 3, ... in the order of the history, and the current lease holds
    the last of them as its token and as its attempt number. *)
Theorem verification_fencing events st :
  fold_verification_lifecycle run_id events = Ok st →
  let n := zlen (filter (of_type VERIFICATION_CLAIMED) events) in
  map (lease_field "fencing_token") (filter (of_type VERIFICATION_CLAIMED) events)
    = map JInt (seqZ 1 n)
  ∧ vl_fencing_token (vr_lease st) = n ∧ vl_attempt (vr_lease st) = n.
Proof.
  intros (s & Hs & Hl & _)%verification_fold_inv n.
  pose proof (fenced_tokens (F := verification_fenced) _ _ _ verification_initial_ok Hs) as Ht.
  pose proof (fenced_fence (F := verification_fenced) _ _ _ verification_initial_ok Hs) as Hf.
  pose proof (fenced_ok (F := verification_fenced) _ _ _ verification_initial_ok Hs) as Hok.
  simpl in Ht, Hf, Hok. change (verification_fence verification_initial) with 0 in *.
  rewrite Z.sub_0_r, Hf in Ht. change (0 + n) with n in *.
  assert (vl_fencing_token (vr_lease st) = n) as E.
  { unfold verification_fence in Hf. rewrite Hl in Hf. done. }
  split_and!; try done. by rewrite (vo_attempt _ Hok _ Hl).
Qed.

(** A history that ends by an event of the given state. *)
Lemma verification_split events pre e post st :
  fold_verification_lifecycle run_id events = Ok st → events = pre ++ e :: post →
  ∃ s s1 s2, fold_result step verification_initial pre = Ok s ∧ verification_move e s s1
    ∧ fold_result step s1 post = Ok s2 ∧ vs_status s2 = Some (vr_status st)
    ∧ vs_verdict s2 = vs_verdict (vr_fields st).
Proof.
  intros (s & Hs & _ & Hst & ->)%verification_fold_inv ->. rewrite fold_result_app in Hs.
  apply bind_ok in Hs as (s0 & H0 & Hs). simpl in Hs.
  apply bind_ok in Hs as (s1 & Hm%verification_step_move & Hs). eauto 10.
Qed.

(** A completion or a failure is the last event of a
    verification, and the verdict the state reports is exactly the one the
    completing event carries, written by the worker that holds the lease;
    no requeue or later claim can replace it. *)
Theorem verification_verdict_final events st pre t post :
  fold_verification_lifecycle run_id events = Ok st → events = pre ++ t :: post →
  event_type t ∈ [VERIFICATION_COMPLETED; VERIFICATION_FAILED] →
  post = [] ∧ (event_type t = VERIFICATION_COMPLETED →
    vr_status st = VerificationLifecycleStatus.COMPLETED
    ∧ opt_json (verdict_value <$> vs_verdict (vr_fields st)) = jget "verdict" (payload t)).
Proof.
  intros Hf He Ht. destruct (verification_split _ _ _ _ _ Hf He)
    as (s & s1 & s2 & _ & Hm & Hs & Hst & Hv).
  assert (Hfin : vs_status s1 = Some VerificationLifecycleStatus.COMPLETED
    ∨ vs_status s1 = Some VerificationLifecycleStatus.FAILED).
  { destruct Hm as [? ? E|? E|E|E]; auto; exfalso; rewrite E in Ht; revert Ht;
      vm_compute; set_solver. }
  assert (post = []) as ->.
  { destruct post as [|e post]; [done|]. simpl in Hs.
    apply bind_ok in Hs as (s3 & Hm3%verification_step_move & _). exfalso.
    destruct Hfin, Hm3 as [? ? ? [?|?]| | |]; congruence. }
  split; [done|]. intros E. injection Hs as <-. rewrite <-Hv.
  destruct Hm as [| | |]; try (exfalso; type_clash). split; [congruence|].
  match goal with H : vs_verdict s1 = Some _ |- _ => rewrite H end. done.
Qed.

(** A verification is requeued only while its lease
    is held and only by a principal other than the worker that holds it; a
    completion comes only from that worker. *)
Theorem verification_requeue_by_host events st pre t post :
  fold_verification_lifecycle run_id events = Ok st → events = pre ++ t :: post →
  event_type t ∈ [VERIFICATION_REQUEUED; VERIFICATION_COMPLETED] →
  ∃ s l, fold_result step verification_initial pre = Ok s ∧ vs_lease s = Some l
    ∧ vs_status s = Some VerificationLifecycleStatus.CLAIMED
    ∧ (event_type t = VERIFICATION_REQUEUED → actor t ≠ vl_worker_id l)
    ∧ (event_type t = VERIFICATION_COMPLETED → actor t = vl_worker_id l).
Proof.
  intros (s & Hs & _)%verification_fold_inv -> Ht. rewrite fold_result_app in Hs.
  apply bind_ok in Hs as (s0 & H0 & Hs). simpl in Hs.
  apply bind_ok in Hs as (s1 & Hstep & Hs).
  unfold verification_step, verification_handler in Hstep.
  apply bind_ok in Hstep as (principal & ->%verification_principal_ok & Hstep).
  apply elem_of_cons in Ht as [E|[E|?%elem_of_nil]%elem_of_cons]; [..|done]; rewrite E in Hstep.
  - unfold verification_requeued in Hstep. simpl in Hstep. inv_strict.
    match goal with H : verification_host_transition _ _ _ = Ok _ |- _ =>
      apply verification_host_ok in H as [? ?] end.
    eexists _, _. split_and!; try done. intros E2. exfalso. rewrite E in E2. discriminate E2.
  - unfold verification_completed in Hstep. simpl in Hstep. inv_strict.
    match goal with H : verification_active_lease _ _ _ _ = Ok _ |- _ =>
      apply verification_active_ok in H as (? & ? & ?) end.
    eexists _, _. split_and!; try done. intros E2. exfalso. rewrite E in E2. discriminate E2.
Qed.
End Verification.

(** A valid verification lease with a UTC expiry is
    recovered exactly from its JSON form. *)
Lemma verification_lease_roundtrip l :
  verification_lease_init l = Ok l → astimezone_utc (vl_expires_at l) = Ok (vl_expires_at l) →
  verification_lease_from_mapping (verification_lease_payload l) = Ok l.
Proof.
  intros Hinit Hutc. pose proof Hinit as Hv. unfold verification_lease_init in Hv.
  apply bind_ok in Hv as (c & Hc & Hv). apply bind_ok in Hv as (u & Hv%strict_require_ok & _).
  rewrite !andb_true_iff in Hv.
  destruct Hv as (((((Hschema & Hworker) & Hatt) & Hfence) & _) & _).
  unfold verification_candidate_init in Hc. apply bind_ok in Hc as (u1 & Hc%strict_require_ok & _).
  rewrite !andb_true_iff in Hc. destruct Hc as [[[Hids Hdig] Hn1] Hn2].
  rewrite forallb_elem in Hids. rewrite forallb_elem in Hdig. simpl vc_run_id in *.
  apply Z.leb_le in Hatt, Hfence, Hn1, Hn2. apply bool_decide_eq_true in Hschema.
  unfold verification_lease_from_mapping.
  replace (verification_exact (verification_lease_payload l) _) with (Ok tt : result unit)
    by reflexivity.
  unfold verification_lease_payload. jget_literal. rewrite Hschema.
  change (is_str (JStr VERIFICATION_LEASE_SCHEMA) VERIFICATION_LEASE_SCHEMA) with true.
  unfold verification_identifier, verification_digest, verification_positive_integer,
    verification_nonnegative_integer.
  rewrite strict_iso_intro by done.
  rewrite !strict_positive_intro, strict_nonnegative_intro by done.
  cbn [mbind result_bind verification_require strict_require raise_if negb].
  repeat (first [rewrite strict_identifier_intro by first [done|apply Hids; cbn; set_solver]
                |rewrite strict_digest_intro by (apply Hdig; cbn; set_solver)];
    cbn [mbind result_bind]).
  rewrite <-Hschema. destruct l. exact Hinit.
Qed.
