(* ===== verification/LeaseWitness.v ===== *)
(** * Concrete review and verification histories

    A review claimed, requeued, claimed again, dispatched and succeeded, and a
    verification claimed, requeued, claimed again and completed: the theorems of
    [LeaseFacts] are applied to them. *)

From S2P Require Import Prelude PyStr PyFloat Sha256 Json JsonText JsonFacts PyTime Events.
From S2P Require Import Strict ReviewLifecycle VerificationLifecycle LeaseFacts RunLifecycle.
From Stdlib Require Import ZArith Lia Ascii String.
From stdpp Require Import base gmap sets list strings.
Local Open Scope Z_scope.

Module SampleLease.
Definition digest_of (m : jobject) : string :=
  match jdigest m with Ok d => d | Err _ => "" end.
Definition d0 : string :=
  "sha256:0000000000000000000000000000000000000000000000000000000000000000".
Definition tomorrow : datetime := Datetime us_per_day (Some 0).
Definition event (stream : string) (n : Z) (ty who : string) (p : jobject) : EventEnvelope :=
  MkEvent ("e" +:+ int_repr n) stream n ty 1 (Datetime 0 (Some 0)) (Datetime 0 (Some 0)) "c"
    (Some ("e" +:+ int_repr (n - 1))) who RUNTIME_EVENT_SOURCE p (digest_of p) None (Some n).

(** *** A review *)
Definition review_lease (n : Z) : ReviewLease :=
  MkReviewLease "r" "v" n n "w" "e0" d0 d0 d0 tomorrow REVIEW_LEASE_SCHEMA.
Definition review_event := event "review:r".
Definition review_claim (n k : Z) : EventEnvelope :=
  let l := review_lease_payload (review_lease k) in
  review_event n REVIEW_CLAIMED "w"
    [("principal_id", JStr "w"); ("lease_digest", JStr (digest_of l)); ("lease", JObj l);
     ("status", JStr "claimed")].
Definition review_head (who : string) (k : Z) : jobject :=
  [("principal_id", JStr who); ("run_id", JStr "r"); ("review_id", JStr "v");
   ("lease_digest", JStr (digest_of (review_lease_payload (review_lease k))))].
Definition review_history : list EventEnvelope := Eval vm_compute in
  [review_claim 1 1;
   review_event 2 REVIEW_REQUEUED "h" (review_head "h" 1 ++
     [("disposition", JStr "pre-dispatch"); ("status", JStr "requeued")]);
   review_claim 3 2;
   review_event 4 REVIEW_PROVIDER_DISPATCH_STARTED "w" (review_head "w" 2 ++
     [("provider_request_id",
         JStr (short_digest "review-" (digest_of (review_lease_payload (review_lease 2)))));
      ("acceptance_digest", JStr d0); ("context_digest", JStr d0);
      ("context_artifact_digest", JStr d0); ("status", JStr "provider-dispatch-started")]);
   review_event 5 REVIEW_SUCCEEDED "w" (review_head "w" 2 ++
     [("context_digest", JStr d0); ("proposal_artifact_digest", JStr d0);
      ("provider_result_artifact_digest", JStr d0); ("admitted_artifact_digest", JStr d0);
      ("finding_count", JInt 2); ("status", JStr "succeeded")])].
Definition no_event : EventEnvelope := event "" 0 "" "" [].
Definition review_state : ReviewLifecycleState := Eval vm_compute in
  match fold_review_lifecycle "r" review_history with
  | Ok s => s
  | Err _ => MkReview "" "" ReviewStatus.CLAIMED (review_lease 0) review_initial no_event
  end.
Lemma review_folds : fold_review_lifecycle "r" review_history = Ok review_state.
Proof. by_vm. Qed.

(** *** A verification *)
Definition the_review : string := Eval vm_compute in
  match review_id "r" d0 with Ok i => i | Err _ => "" end.
Definition the_verification : string := Eval vm_compute in
  match verification_id "r" d0 with Ok i => i | Err _ => "" end.
Definition verification_lease (n : Z) : VerificationLease :=
  MkVerificationLease "r" the_verification n n "w" "e9" d0 d0 d0 the_review "e0" d0 d0 d0 d0 d0 d0
    0 tomorrow VERIFICATION_LEASE_SCHEMA.
Definition verification_event := event "verification:r".
Definition verification_claim (n k : Z) : EventEnvelope :=
  let l := verification_lease_payload (verification_lease k) in
  verification_event n VERIFICATION_CLAIMED "w"
    [("principal_id", JStr "w"); ("lease_digest", JStr (digest_of l)); ("lease", JObj l);
     ("status", JStr "claimed")].
Definition verification_head (who : string) (k : Z) : jobject :=
  [("principal_id", JStr who); ("run_id", JStr "r"); ("verification_id", JStr the_verification);
   ("lease_digest", JStr (digest_of (verification_lease_payload (verification_lease k))))].
Definition verification_history : list EventEnvelope := Eval vm_compute in
  [verification_claim 1 1;
   verification_event 2 VERIFICATION_REQUEUED "h" (verification_head "h" 1 ++
     [("disposition", JStr "deterministic-retry"); ("status", JStr "requeued")]);
   verification_claim 3 2;
   verification_event 4 VERIFICATION_COMPLETED "w" (verification_head "w" 2 ++
     [("verdict", JStr "pass"); ("report_artifact_digest", JStr d0); ("matrix_digest", JStr d0);
      ("status", JStr "completed")])].
Definition verification_state : VerificationLifecycleState := Eval vm_compute in
  match fold_verification_lifecycle "r" verification_history with
  | Ok s => s
  | Err _ => MkVerification "" "" VerificationLifecycleStatus.CLAIMED (verification_lease 0)
               verification_initial no_event
  end.
Lemma verification_folds : fold_verification_lifecycle "r" verification_history = Ok verification_state.
Proof. by_vm. Qed.
End SampleLease.

Lemma review_fencing_witness : rv_fencing_token (rl_review_lease SampleLease.review_state) = 2.
Proof.
  destruct (review_fencing "r" _ _ SampleLease.review_folds) as (_ & H & _).
  exact H.
Defined.

Lemma review_identity_immutable_witness :
  ∃ l, rv_attempt l = 1 ∧ review_immutable_identity l =
    review_immutable_identity (rl_review_lease SampleLease.review_state).
Proof.
  destruct (SampleLease.review_history !! 0%nat) as [e|] eqn:E; [|discriminate E].
  exists (SampleLease.review_lease 1). split; [reflexivity|].
  apply (review_identity_immutable "r" SampleLease.review_history _ e
    (review_lease_payload (SampleLease.review_lease 1))).
  - apply SampleLease.review_folds.
  - exact (list_elem_of_lookup_2 _ _ _ E).
  - injection E as <-. reflexivity.
  - injection E as <-. reflexivity.
  - reflexivity.
Defined.

Lemma review_dispatch_final_witness :
  ∃ t, drop 4 SampleLease.review_history = [t] ∧
    event_type t ∈ [REVIEW_SUCCEEDED; REVIEW_FAILED; REVIEW_RECONCILIATION_REQUIRED].
Proof.
  destruct (SampleLease.review_history !! 3%nat) as [d|] eqn:E; [|discriminate E].
  destruct (review_dispatch_final "r" SampleLease.review_history _ (take 3 SampleLease.review_history) d
    (drop 4 SampleLease.review_history) SampleLease.review_folds) as [H|H].
  - symmetry. exact (take_drop_middle _ _ _ E).
  - injection E as <-. reflexivity.
  - discriminate H.
  - exact H.
Defined.

Lemma review_success_evidence_witness :
  ∃ n, rs_finding_count (rl_review_fields SampleLease.review_state) = Some n ∧ 0 <= n <= _MAX_FINDINGS.
Proof.
  destruct (review_success_evidence "r" _ _ SampleLease.review_folds) as (pre & d & t & n & H);
    [reflexivity|].
  exists n. apply H.
Defined.

Lemma review_lease_roundtrip_witness :
  review_lease_from_mapping (review_lease_payload (SampleLease.review_lease 1)) =
    Ok (SampleLease.review_lease 1).
Proof. apply review_lease_roundtrip; reflexivity. Defined.

Lemma verification_fencing_witness : vl_fencing_token (vr_lease SampleLease.verification_state) = 2.
Proof.
  destruct (verification_fencing "r" _ _ SampleLease.verification_folds) as (_ & H & _).
  exact H.
Defined.

Lemma verification_verdict_final_witness :
  vr_status SampleLease.verification_state = VerificationLifecycleStatus.COMPLETED.
Proof.
  destruct (SampleLease.verification_history !! 3%nat) as [t|] eqn:E; [|discriminate E].
  assert (Ht : event_type t = VERIFICATION_COMPLETED) by (injection E as <-; reflexivity).
  apply (verification_verdict_final "r" SampleLease.verification_history _
    (take 3 SampleLease.verification_history) t []).
  - apply SampleLease.verification_folds.
  - symmetry. exact (take_drop_middle _ _ _ E).
  - rewrite Ht. left.
  - exact Ht.
Defined.

Lemma verification_requeue_by_host_witness :
  ∃ l t, SampleLease.verification_history !! 1%nat = Some t ∧ actor t ≠ vl_worker_id l.
Proof.
  destruct (SampleLease.verification_history !! 1%nat) as [t|] eqn:E; [|discriminate E].
  assert (Ht : event_type t = VERIFICATION_REQUEUED) by (injection E as <-; reflexivity).
  destruct (verification_requeue_by_host "r" SampleLease.verification_history _
    (take 1 SampleLease.verification_history) t (drop 2 SampleLease.verification_history)
    SampleLease.verification_folds) as (s & l & _ & _ & _ & H & _).
  - symmetry. exact (take_drop_middle _ _ _ E).
  - rewrite Ht. left.
  - exists l, t. split; [reflexivity|exact (H Ht)].
Defined.

Lemma verification_lease_roundtrip_witness :
  verification_lease_from_mapping (verification_lease_payload (SampleLease.verification_lease 1)) =
    Ok (SampleLease.verification_lease 1).
Proof.
  apply verification_lease_roundtrip; vm_compute; reflexivity.
Defined.
