(* ===== verification/OutputSchema.v ===== *)
(** * gateway/schema.py: the closed output schema of the model gateway

    [validate_output] checks the schema first ([validate_schema], a closed
    vocabulary at every depth) and then the value ([validate_value]).  The
    text of an [OutputSchemaError] is represented by the part that names the
    violated rule; the JSON path it is prefixed with is not modelled. *)

From S2P Require Import Prelude PyStr PyFloat Json JsonFacts.
From Stdlib Require Import ZArith Lia Ascii String.
From stdpp Require Import base gmap sets list strings.
Local Open Scope Z_scope.

Definition _TYPE_NAMES : list string :=
  ["null"; "boolean"; "integer"; "number"; "string"; "array"; "object"].
Definition _SUPPORTED_KEYWORDS : list string :=
  ["type"; "const"; "enum"; "properties"; "required"; "additionalProperties"; "items";
   "maxItems"; "uniqueItems"; "minimum"; "maximum"; "exclusiveMinimum"; "exclusiveMaximum";
   "minLength"; "maxLength"].
Definition _ROOT_METADATA_KEYWORDS : list string := ["$schema"].
Definition _NUMERIC_BOUNDARIES : list string :=
  ["minimum"; "maximum"; "exclusiveMinimum"; "exclusiveMaximum"].
Definition _STRING_BOUNDARIES : list string := ["minLength"; "maxLength"].

Definition schema_error {A} (msg : string) : result A := Err (OutputSchemaError msg).
Definition reject_if (cond : bool) (msg : string) : result unit :=
  raise_if cond (OutputSchemaError msg).

(** [for item in items: f(item)], stopping at the first error. *)
Definition each {A} (f : A → result unit) : list A → result unit :=
  fix go l := match l with
              | [] => Ok tt
              | x :: l' => match f x with Ok _ => go l' | Err e => Err e end
              end.

(** [any(r(left, right) for index, left in enumerate(l) for right in l[index + 1:])]. *)
Fixpoint any_pair {A} (r : A → A → bool) (l : list A) : bool :=
  match l with
  | [] => false
  | x :: l' => existsb (r x) l' || any_pair r l'
  end.

(** [_as_number]: a finite number, as an exact fraction. *)
Definition _as_number (value : json) : option (Z * Z) :=
  match value with
  | JInt z => Some (z, 1)
  | JFloat f => if is_finite_float f then Some (float_ratio f) else None
  | _ => None
  end.

(** [isinstance(value, int) and not isinstance(value, bool)]. *)
Definition as_int (value : json) : option Z :=
  match value with JInt z => Some z | _ => None end.
(** [isinstance(value, int)]: [bool] is a subclass of [int]. *)
Definition as_int_or_bool (value : json) : option Z :=
  match value with JInt z => Some z | JBool b => Some (if b then 1 else 0) | _ => None end.

Fixpoint _json_equal (left right : json) {struct left} : bool :=
  match left, right with
  | JNull, JNull => true
  | JNull, _ | _, JNull => false
  | JBool a, JBool b => eqb a b
  | JBool _, _ | _, JBool _ => false
  | JInt _, _ | JFloat _, _ | _, JInt _ | _, JFloat _ =>
      match _as_number left, _as_number right with
      | Some p, Some q => ratio_eqb p q
      | _, _ => false
      end
  | JStr a, JStr b => bool_decide (a = b)
  | JStr _, _ | _, JStr _ => false
  | JArr a, JArr b =>
      (length a =? length b)%nat &&
      (fix go (a b : list json) : bool :=
         match a, b with
         | x :: a', y :: b' => _json_equal x y && go a' b'
         | _, _ => true
         end) a b
  | JArr _, _ | _, JArr _ => false
  | JObj a, JObj b =>
      same_keys (dict_keys a) (dict_keys b) &&
      (fix go (a : jobject) : bool :=
         match a with
         | [] => true
         | (k, v) :: a' =>
             match dict_get k b with
             | Some w => _json_equal v w
             | None => false
             end && go a'
         end) a
  end.

Definition strings_of (l : list json) : option (list string) :=
  foldr (λ x acc, match x, acc with JStr s, Some ss => Some (s :: ss) | _, _ => None end)
    (Some []) l.

Definition has_duplicates (l : list string) : bool := bool_decide (¬ NoDup l).

Definition _declared_types (schema : jobject) : result (option (list string)) :=
  match dict_get "type" schema with
  | None => Ok None
  | Some declaration =>
      names ← match declaration with
              | JStr s => Ok [s]
              | JArr ((_ :: _) as l) =>
                  of_option (OutputSchemaError "type must be a type name or non-empty string array")
                    (strings_of l)
              | _ => schema_error "type must be a type name or non-empty string array"
              end;
      _ ← reject_if (existsb (λ name, negb (bool_decide (name ∈ _TYPE_NAMES))) names)
            "unsupported type names";
      _ ← reject_if (has_duplicates names) "type must not contain duplicates";
      Ok (Some names)
  end.

(** [if keyword in schema: f(schema[keyword])]. *)
Definition when_key (k : string) (schema : jobject) (f : json → result unit) : result unit :=
  match dict_get k schema with Some v => f v | None => Ok tt end.

(** The same, in a form through which a recursive call of [f] on the value of
    the key is structural. *)
Definition at_key (k : string) (f : json → result unit) : jobject → result unit :=
  fix go kvs := match kvs with
                | [] => Ok tt
                | (k', v) :: kvs' => if decide (k = k') then f v else go kvs'
                end.

Definition check_enum (enum : json) : result unit :=
  match enum with
  | JArr ((_ :: _) as l) => reject_if (any_pair _json_equal l) "enum must not contain duplicates"
  | _ => schema_error "enum must be a non-empty array"
  end.

Definition check_required (required : json) : result unit :=
  match required with
  | JArr l =>
      names ← of_option (OutputSchemaError "required must be a string array") (strings_of l);
      reject_if (has_duplicates names) "required must not contain duplicates"
  | _ => schema_error "required must be a string array"
  end.

Definition is_bool (v : json) : bool := match v with JBool _ => true | _ => false end.
Definition is_string (v : json) : bool := match v with JStr _ => true | _ => false end.
Definition is_nonneg_int (v : json) : bool :=
  match as_int v with Some z => negb (z <? 0) | None => false end.

Definition both {A} (r : A → A → bool) (x y : option A) : bool :=
  match x, y with Some a, Some b => r a b | _, _ => false end.

(** The checks of [_validate_schema] that come after [items]. *)
Definition check_bounds (schema : jobject) : result unit :=
  _ ← when_key "maxItems" schema (λ v,
        reject_if (negb (is_nonneg_int v)) "maxItems must be a non-negative integer");
  _ ← when_key "uniqueItems" schema (λ v,
        reject_if (negb (is_bool v)) "uniqueItems must be a boolean");
  _ ← each (λ keyword, when_key keyword schema (λ v,
        reject_if (bool_decide (_as_number v = None)) "boundary must be a finite number"))
        _NUMERIC_BOUNDARIES;
  _ ← each (λ keyword, when_key keyword schema (λ v,
        reject_if (negb (is_nonneg_int v)) "boundary must be a non-negative integer"))
        _STRING_BOUNDARIES;
  let number k := _as_number (jget k schema) in
  let int k := as_int (jget k schema) in
  _ ← reject_if (both (λ a b, ratio_ltb b a) (number "minimum") (number "maximum"))
        "minimum must not exceed maximum";
  _ ← reject_if (both (λ a b, ratio_leb b a) (number "exclusiveMinimum") (number "exclusiveMaximum"))
        "exclusiveMinimum must be less than exclusiveMaximum";
  reject_if (both (λ a b, b <? a) (int "minLength") (int "maxLength"))
    "minLength must not exceed maxLength".

(** [_validate_schema(schema, root=root)] of a schema object. *)
Fixpoint _validate_schema (root : bool) (schema : json) {struct schema} : result unit :=
  match schema with
  | JObj kvs =>
      let allowed := _SUPPORTED_KEYWORDS ++ (if root then _ROOT_METADATA_KEYWORDS else []) in
      _ ← reject_if (existsb (λ k, negb (bool_decide (k ∈ allowed))) (dict_keys kvs))
            "unsupported output schema keywords";
      _ ← _declared_types kvs;
      _ ← when_key "enum" kvs check_enum;
      _ ← when_key "$schema" kvs (λ v,
            reject_if (negb (is_string v)) "$schema must be a string");
      _ ← at_key "properties" (λ raw,
            match raw with
            | JObj properties =>
                each (λ kv, match kv.2 with
                            | JObj _ => _validate_schema false kv.2
                            | _ => schema_error "property must be a schema object"
                            end) properties
            | _ => schema_error "properties must be an object"
            end) kvs;
      _ ← when_key "required" kvs check_required;
      _ ← when_key "additionalProperties" kvs (λ v,
            reject_if (negb (is_bool v)) "additionalProperties must be a boolean");
      _ ← at_key "items" (λ raw,
            match raw with
            | JObj _ => _validate_schema false raw
            | _ => schema_error "items must be a schema object"
            end) kvs;
      check_bounds kvs
  | _ => Ok tt
  end.

(** [_matches_type]: [expected] is one of [_TYPE_NAMES]. *)
Definition _matches_type (value : json) (expected : string) : bool :=
  if decide (expected = "null") then bool_decide (value = JNull)
  else if decide (expected = "boolean") then is_bool value
  else if decide (expected = "integer") then bool_decide (as_int value ≠ None)
  else if decide (expected = "number") then bool_decide (_as_number value ≠ None)
  else if decide (expected = "string") then is_string value
  else if decide (expected = "array") then match value with JArr _ => true | _ => false end
  else match value with JObj _ => true | _ => false end.

Definition _validate_number (value : Z * Z) (schema : jobject) : result unit :=
  let number k := _as_number (jget k schema) in
  let violates (r : Z * Z → Z * Z → bool) k :=
    match number k with Some b => r value b | None => false end in
  _ ← reject_if (violates ratio_ltb "minimum") "less than minimum";
  _ ← reject_if (violates (λ v b, ratio_ltb b v) "maximum") "exceeds maximum";
  _ ← reject_if (violates ratio_leb "exclusiveMinimum") "must be greater than exclusiveMinimum";
  reject_if (violates (λ v b, ratio_leb b v) "exclusiveMaximum") "must be less than exclusiveMaximum".

Definition _validate_string (value : string) (schema : jobject) : result unit :=
  let int k := as_int (jget k schema) in
  _ ← reject_if (match int "minLength" with Some m => py_len value <? m | None => false end)
        "shorter than minLength";
  reject_if (match int "maxLength" with Some m => m <? py_len value | None => false end)
    "longer than maxLength".

Definition check_type (value : json) (schema : jobject) : result unit :=
  declared_types ← _declared_types schema;
  reject_if (match declared_types with
             | Some names => negb (existsb (_matches_type value) names)
             | None => false end) "does not match type".

Definition check_const_enum (value : json) (schema : jobject) : result unit :=
  _ ← when_key "const" schema (λ c,
        reject_if (negb (_json_equal value c)) "does not match its const value");
  when_key "enum" schema (λ enum,
    match enum with
    | JArr l => reject_if (negb (existsb (_json_equal value) l)) "does not match an enum value"
    | _ => schema_error "enum must be an array"
    end).

(** The part of [_validate_object] before the fields are visited; returns the
    declared properties. *)
Definition check_fields (value schema : jobject) : result jobject :=
  required ← match dict_get "required" schema with
             | None => Ok []
             | Some (JArr l) => Ok l
             | Some _ => schema_error "required must be a string array" end;
  _ ← reject_if (existsb (λ name, match name with
                   | JStr s => bool_decide (dict_get s value = None) | _ => false end) required)
        "missing required fields";
  properties ← match dict_get "properties" schema with
               | None => Ok []
               | Some (JObj p) => Ok p
               | Some _ => schema_error "properties must be an object" end;
  _ ← reject_if (bool_decide (jget "additionalProperties" schema = JBool false) &&
                 existsb (λ k, bool_decide (dict_get k properties = None)) (dict_keys value))
        "contains undeclared fields";
  Ok properties.

(** The part of [_validate_array] before the items are visited. *)
Definition check_items (value : list json) (schema : jobject) : result unit :=
  _ ← reject_if (match as_int_or_bool (jget "maxItems" schema) with
                 | Some m => m <? zlen value | None => false end) "more than maxItems";
  reject_if (bool_decide (jget "uniqueItems" schema = JBool true) && any_pair _json_equal value)
    "contains duplicate items".

(** [_validate_value], with [_validate_object] and [_validate_array] in place. *)
Fixpoint _validate_value (value : json) (schema : jobject) {struct value} : result unit :=
  _ ← check_type value schema;
  _ ← check_const_enum value schema;
  match value with
  | JObj fields =>
      properties ← check_fields fields schema;
      each (λ kv, match dict_get kv.1 properties with
                  | Some (JObj property_schema) => _validate_value kv.2 property_schema
                  | _ => Ok tt
                  end) fields
  | JArr l =>
      _ ← check_items l schema;
      match jget "items" schema with
      | JObj item_schema => each (λ item, _validate_value item item_schema) l
      | _ => Ok tt
      end
  | JInt _ | JFloat _ =>
      match _as_number value with
      | Some number => _validate_number number schema
      | None => Ok tt
      end
  | JStr s => _validate_string s schema
  | _ => Ok tt
  end.

Definition validate_output (output schema : jobject) : result unit :=
  _ ← _validate_schema true (JObj schema);
  declared_types ← _declared_types schema;
  _ ← reject_if (match declared_types with
                 | Some names => negb (bool_decide ("object" ∈ names)) | None => false end)
        "gateway output schema root must allow an object";
  _validate_value (JObj output) schema.

(** ** Lemmas on the helpers *)

Lemma each_ok {A} (f : A → result unit) l : each f l = Ok tt ↔ ∀ x, x ∈ l → f x = Ok tt.
Proof.
  induction l as [|x l IH]; simpl; [split; [intros _ x Hx; set_solver|done]|].
  setoid_rewrite elem_of_cons. destruct (f x) as [[]|e] eqn:E.
  - rewrite IH. split; [intros H y [->|Hy]; auto|auto].
  - split; [done|]. intros H. specialize (H x (or_introl eq_refl)). congruence.
Qed.

Lemma at_key_when k f kvs : at_key k f kvs = when_key k kvs f.
Proof.
  unfold when_key. induction kvs as [|[k' v] kvs IH]; simpl; [done|].
  by destruct (decide (k = k')).
Qed.

Lemma when_key_ok k kvs f :
  when_key k kvs f = Ok tt ↔ ∀ v, dict_get k kvs = Some v → f v = Ok tt.
Proof. unfold when_key. destruct (dict_get k kvs); naive_solver. Qed.

Lemma reject_ok c m : reject_if c m = Ok tt ↔ c = false.
Proof. unfold reject_if. apply raise_if_ok. Qed.

Lemma strings_of_ok l ss : strings_of l = Some ss ↔ l = map JStr ss.
Proof.
  revert ss. induction l as [|x l IH]; intros ss; simpl.
  - destruct ss; naive_solver.
  - destruct ss as [|s ss]; simpl.
    + split; [|done]. repeat case_match; done.
    + split; [repeat case_match; try done; intros [= -> ->]; f_equal; by apply IH|].
      intros [= -> ->]. by rewrite (proj2 (IH ss) eq_refl).
Qed.

Lemma any_pair_false {A} (r : A → A → bool) l :
  any_pair r l = false ↔ ∀ i j x y, (i < j)%nat → l !! i = Some x → l !! j = Some y → r x y = false.
Proof.
  induction l as [|x l IH]; simpl; [split; [intros _ ????; by rewrite lookup_nil|done]|].
  rewrite orb_false_iff, existsb_false, IH. split.
  - intros [H1 H2] [|i] [|j] a b Hij; simpl; try lia.
    + intros [= ->] Hb. apply H1. by eapply list_elem_of_lookup_2.
    + apply H2. lia.
  - intros H. split.
    + intros y [j Hj]%list_elem_of_lookup. apply (H 0%nat (S j)); [lia|done|done].
    + intros i j a b Hij. apply (H (S i) (S j)). lia.
Qed.

Lemma unit_ok (r : result unit) u : r = Ok u ↔ r = Ok tt.
Proof. by destruct u. Qed.

(** ** [_json_equal] is an equivalence on frozen values *)

Definition equal_items := fix go (a b : list json) : bool :=
  match a, b with x :: a', y :: b' => _json_equal x y && go a' b' | _, _ => true end.
Definition equal_fields (b : jobject) := fix go (a : jobject) : bool :=
  match a with
  | [] => true
  | (k, v) :: a' => match dict_get k b with Some w => _json_equal v w | None => false end && go a'
  end.

Lemma equal_items_spec a b : (length a =? length b)%nat && equal_items a b = true ↔
  Forall2 (λ x y, _json_equal x y = true) a b.
Proof.
  rewrite andb_true_iff, Nat.eqb_eq. split.
  - intros [Hlen H]. revert b Hlen H. induction a as [|x a IH]; intros [|y b]; simpl; try discriminate.
    + intros; constructor.
    + intros [= Hlen] [??]%andb_true_iff. constructor; auto.
  - induction 1 as [|x y a b Hxy _ [IH1 IH2]]; simpl; [done|]. rewrite Hxy, IH2. auto.
Qed.

Lemma equal_fields_spec a b : equal_fields b a = true ↔
  ∀ k v, (k, v) ∈ a → ∃ w, dict_get k b = Some w ∧ _json_equal v w = true.
Proof.
  induction a as [|[k v] a IH]; simpl; [split; [intros _ ?? ?%elem_of_nil; done|done]|].
  rewrite andb_true_iff, IH. setoid_rewrite elem_of_cons. split.
  - intros [H1 H2] k' v' [[= -> ->]|Hin]; [|by apply H2].
    destruct (dict_get k b) as [w|]; [by exists w|done].
  - intros H. split; [|intros; apply H; auto].
    destruct (H k v (or_introl eq_refl)) as (w & -> & ->). done.
Qed.

Lemma json_equal_arr a b : _json_equal (JArr a) (JArr b) = true ↔
  Forall2 (λ x y, _json_equal x y = true) a b.
Proof. apply equal_items_spec. Qed.

(** On objects without repeated keys: the same keys, equal values. *)
Lemma json_equal_obj a b : NoDup (dict_keys a) → NoDup (dict_keys b) →
  _json_equal (JObj a) (JObj b) = true ↔
  (∀ k, dict_get k a = None ↔ dict_get k b = None) ∧
  (∀ k v w, dict_get k a = Some v → dict_get k b = Some w → _json_equal v w = true).
Proof.
  intros Ha Hb. change (_json_equal (JObj a) (JObj b)) with
    (same_keys (dict_keys a) (dict_keys b) && equal_fields b a).
  rewrite andb_true_iff, same_keys_spec, equal_fields_spec. split.
  - intros [H1 H2]. split.
    + intros k. rewrite !dict_get_None. by rewrite H1.
    + intros k v w Hv Hw. apply dict_get_elem in Hv. destruct (H2 k v Hv) as (w' & ? & ?). congruence.
  - intros [H1 H2]. split.
    + intros k. pose proof (H1 k) as H. rewrite !dict_get_None in H.
      destruct (decide (k ∈ dict_keys a)), (decide (k ∈ dict_keys b)); tauto.
    + intros k v Hin. pose proof (elem_dict_get _ _ _ Ha Hin) as Hk.
      destruct (dict_get k b) as [w|] eqn:E; [eauto|]. apply H1 in E. congruence.
Qed.

Lemma json_wf_obj kvs : json_wf (JObj kvs) = true ↔
  NoDup (dict_keys kvs) ∧ ∀ k v, dict_get k kvs = Some v → json_wf v = true.
Proof.
  simpl. rewrite andb_true_iff, bool_decide_eq_true, forallb_elem. split.
  - intros [H1 H2]. split; [done|]. intros k v Hv%dict_get_elem. apply (H2 _ Hv).
  - intros [H1 H2]. split; [done|]. intros [k v] Hin. apply (H2 k). by apply elem_dict_get.
Qed.

Lemma ratio_eqb_refl p : ratio_eqb p p = true.
Proof. apply Z.eqb_refl. Qed.

Lemma ratio_eqb_sym p q : ratio_eqb p q = ratio_eqb q p.
Proof. unfold ratio_eqb. by rewrite Z.eqb_sym. Qed.

Lemma ratio_eqb_trans p q r : 0 < q.2 → ratio_eqb p q = true → ratio_eqb q r = true → ratio_eqb p r = true.
Proof.
  unfold ratio_eqb. rewrite !Z.eqb_eq. intros Hq H1 H2.
  apply (Z.mul_cancel_r _ _ (q.2)); [lia|]. 
  transitivity (p.1 * q.2 * r.2); [ring|]. rewrite H1.
  transitivity (q.1 * r.2 * p.2); [ring|]. rewrite H2. ring.
Qed.

Lemma Forall2_mem_impl {A B} (P Q : A → B → Prop) l k :
  (∀ x y, x ∈ l → y ∈ k → P x y → Q x y) → Forall2 P l k → Forall2 Q l k.
Proof.
  intros H. induction 1 as [|x y l k Hxy _ IH]; constructor.
  - apply H; [by left|by left|done].
  - apply IH. intros. apply H; [by right|by right|done].
Qed.

Lemma as_number_pos v q : _as_number v = Some q → 0 < q.2.
Proof.
  destruct v as [|b|z|f|s|l|kvs]; simpl; try done; [by intros [= <-]|].
  case_match; [|done]. intros [= <-]. destruct f as [s|s| |s m e]; simpl; try done.
  case_match; simpl; [done|]. apply Z.leb_gt in H0. rewrite Z.shiftl_1_l. apply Z.pow_pos_nonneg; lia.
Qed.

(** Two values of which one is a number. *)
Lemma json_equal_number x y : (_as_number x ≠ None ∨ _as_number y ≠ None) →
  _json_equal x y = match _as_number x, _as_number y with
                    | Some p, Some q => ratio_eqb p q | _, _ => false end.
Proof.
  destruct x, y; simpl; intros [?|?]; try done; repeat case_match; try done.
Qed.

Lemma json_equal_number_sym x y : _as_number x ≠ None → _json_equal x y = _json_equal y x.
Proof.
  intros H. rewrite !json_equal_number by auto.
  destruct (_as_number x), (_as_number y); try done. apply ratio_eqb_sym.
Qed.

Lemma json_equal_refl x : json_wf x = true → _json_equal x x = true.
Proof.
  induction x as [|b|z|f|s|l IH|kvs IH] using json_ind'; intros Hwf; simpl.
  - done.
  - by destruct b.
  - apply ratio_eqb_refl.
  - simpl in Hwf. rewrite Hwf. apply ratio_eqb_refl.
  - by rewrite bool_decide_eq_true.
  - apply json_equal_arr. simpl in Hwf. rewrite forallb_elem in Hwf.
    apply Forall_Forall2_diag. rewrite Forall_forall in IH |- *. auto.
  - pose proof Hwf as [Hnd Hv]%json_wf_obj. apply json_equal_obj; [done..|].
    split; [done|]. intros k v w Hk Hk'. assert (v = w) as <- by congruence.
    rewrite Forall_forall in IH. apply (IH (k, v)); [by apply dict_get_elem|by eapply Hv].
Qed.

Lemma json_equal_sym x y : json_wf x = true → json_wf y = true →
  _json_equal x y = true → _json_equal y x = true.
Proof.
  revert y. induction x as [|b|z|f|s|l IH|kvs IH] using json_ind'; intros y Hx Hy.
  3-4: rewrite json_equal_number_sym by (simpl in Hx |- *; by rewrite ?Hx); done.
  1-3: destruct y; simpl; try done; try (case_match; done).
  - by destruct b0, b.
  - rewrite !bool_decide_eq_true. congruence.
  - destruct y as [| | | | |l'|]; try done. rewrite !json_equal_arr. intros H.
    simpl in Hx, Hy. rewrite forallb_elem in Hx, Hy. rewrite Forall_forall in IH.
    apply Forall2_flip. eapply Forall2_mem_impl; [|exact H]. simpl. auto.
  - destruct y as [| | | | | |kvs']; try done.
    pose proof Hx as [Hnd Hv]%json_wf_obj. pose proof Hy as [Hnd' Hv']%json_wf_obj.
    rewrite !json_equal_obj by done. intros [H1 H2]. split; [by intros k; rewrite H1|].
    intros k v w Hk Hk'. rewrite Forall_forall in IH.
    apply (IH (k, w)); [by apply dict_get_elem|by eapply Hv|by eapply Hv'|by eapply H2].
Qed.

(** A number equals only numbers. *)
Lemma json_equal_as_number x y : _json_equal x y = true → (_as_number x ≠ None ↔ _as_number y ≠ None).
Proof. destruct x, y; simpl; try done; repeat case_match; try done. Qed.

Lemma json_equal_trans x y z : json_wf x = true → json_wf y = true → json_wf z = true →
  _json_equal x y = true → _json_equal y z = true → _json_equal x z = true.
Proof.
  revert y z. induction x as [|b|n|f|s|l IH|kvs IH] using json_ind'; intros y z Hx Hy Hz H1 H2.
  1: by destruct y.
  1: destruct y; try discriminate H1; by apply eqb_prop in H1 as ->.
  3: destruct y; try discriminate H1; simpl in H1; apply bool_decide_eq_true in H1; by subst.
  1-2: assert (Hn : ∀ v, json_wf v = true → (∃ n, v = JInt n) ∨ (∃ f, v = JFloat f) → _as_number v ≠ None)
      by (intros v Hv [[? ->]|[? ->]]; simpl in *; [done|by rewrite Hv]).
  1-2: lazymatch goal with H : _json_equal ?x ?y = true, H' : _json_equal ?y ?z = true |- _json_equal ?x ?z = true =>
      assert (Hnx : _as_number x ≠ None) by (apply Hn; eauto);
      pose proof (proj1 (json_equal_as_number _ _ H) Hnx) as Hny;
      pose proof (proj1 (json_equal_as_number _ _ H') Hny) as Hnz end.
  1-2: rewrite json_equal_number in H1, H2 |- * by auto.
  1-2: repeat (case_match; try done); eapply ratio_eqb_trans; [|exact H1|]; [by eapply as_number_pos|congruence].
  - destruct y as [| | | | |l'|]; try done. destruct z as [| | | | |l''|]; try done.
    rewrite json_equal_arr in H1, H2 |- *. simpl in Hx, Hy, Hz. rewrite forallb_elem in Hx, Hy, Hz.
    rewrite Forall_forall in IH.
    clear -IH H1 H2 Hx Hy Hz. revert l'' Hz H2.
    induction H1 as [|a b l l' Hab _ IH2]; intros l'' Hz H2; inversion H2; subst; constructor.
    + eapply IH; [by left|apply Hx; by left|apply Hy; by left|apply Hz; by left|done|done].
    + apply IH2; try done; [|intros; apply Hx; by right|intros; apply Hy; by right|intros; apply Hz; by right].
      intros x Hin. apply IH. by right.
  - destruct y as [| | | | | |kvs']; try done. destruct z as [| | | | | |kvs'']; try done.
    pose proof Hx as [Hnd Hv]%json_wf_obj. pose proof Hy as [Hnd' Hv']%json_wf_obj.
    pose proof Hz as [Hnd'' Hv'']%json_wf_obj.
    rewrite json_equal_obj in H1, H2 |- * by done. destruct H1 as [H1 H1'], H2 as [H2 H2'].
    split; [intros k; by rewrite H1, H2|]. intros k v w Hk Hk'.
    destruct (dict_get k kvs') as [u|] eqn:Hu; [|apply H1 in Hu; congruence].
    rewrite Forall_forall in IH.
    apply (IH (k, v) ltac:(by apply dict_get_elem) u w); eauto.
Qed.

(** ** What the validator means *)

(** The schema declared for property [k], and for the items of an array. *)
Definition property (s : jobject) (k : string) : option jobject :=
  match dict_get "properties" s with
  | Some (JObj ps) => match dict_get k ps with Some (JObj p) => Some p | _ => None end
  | _ => None
  end.
Definition item_schema (s : jobject) : option jobject :=
  match dict_get "items" s with Some (JObj p) => Some p | _ => None end.

(** [s'] is [s] or is nested in it. *)
Inductive subschema : jobject → jobject → Prop :=
  | sub_here s : subschema s s
  | sub_property s k p s' : property s k = Some p → subschema p s' → subschema s s'
  | sub_items s p s' : item_schema s = Some p → subschema p s' → subschema s s'.

Definition declared (s : jobject) (names : list string) : Prop :=
  (∃ n, dict_get "type" s = Some (JStr n) ∧ names = [n]) ∨
  (names ≠ [] ∧ dict_get "type" s = Some (JArr (map JStr names))).

Definition bound (s : jobject) (k : string) : option (Z * Z) := _as_number (jget k s).

Definition number_within (s : jobject) (q : Z * Z) : Prop :=
  (∀ b, bound s "minimum" = Some b → ratio_ltb q b = false) ∧
  (∀ b, bound s "maximum" = Some b → ratio_ltb b q = false) ∧
  (∀ b, bound s "exclusiveMinimum" = Some b → ratio_leb q b = false) ∧
  (∀ b, bound s "exclusiveMaximum" = Some b → ratio_leb b q = false).

(** The value [v] satisfies the schema [s], recursively. *)
Inductive Conforms : jobject → json → Prop :=
  | conforms_intro s v :
      (∀ names, declared s names → ∃ n, n ∈ names ∧ _matches_type v n = true) →
      (∀ c, dict_get "const" s = Some c → _json_equal v c = true) →
      (∀ l, dict_get "enum" s = Some (JArr l) → ∃ c, c ∈ l ∧ _json_equal v c = true) →
      (∀ fields l n, v = JObj fields → dict_get "required" s = Some (JArr l) → JStr n ∈ l →
         n ∈ dict_keys fields) →
      (∀ fields k, v = JObj fields → dict_get "additionalProperties" s = Some (JBool false) →
         k ∈ dict_keys fields → property s k ≠ None) →
      (∀ fields k x p, v = JObj fields → (k, x) ∈ fields → property s k = Some p → Conforms p x) →
      (∀ items m, v = JArr items → dict_get "maxItems" s = Some (JInt m) → zlen items <= m) →
      (∀ items i j x y, v = JArr items → dict_get "uniqueItems" s = Some (JBool true) →
         (i < j)%nat → items !! i = Some x → items !! j = Some y → _json_equal x y = false) →
      (∀ items x p, v = JArr items → x ∈ items → item_schema s = Some p → Conforms p x) →
      (∀ q, _as_number v = Some q → number_within s q) →
      (∀ t m, v = JStr t → dict_get "minLength" s = Some (JInt m) → m <= py_len t) →
      (∀ t m, v = JStr t → dict_get "maxLength" s = Some (JInt m) → py_len t <= m) →
      Conforms s v.

(** ** Parts of a checked schema *)

Lemma validate_schema_parts r s : _validate_schema r (JObj s) = Ok tt →
  (∀ k, k ∈ dict_keys s → k ∈ _SUPPORTED_KEYWORDS ++ (if r then _ROOT_METADATA_KEYWORDS else [])) ∧
  (∃ d, _declared_types s = Ok d) ∧
  (∀ v, dict_get "enum" s = Some v → check_enum v = Ok tt) ∧
  (∀ v, dict_get "properties" s = Some v → ∃ ps, v = JObj ps ∧
     ∀ k x, (k, x) ∈ ps → ∃ p, x = JObj p ∧ _validate_schema false (JObj p) = Ok tt) ∧
  (∀ v, dict_get "required" s = Some v → check_required v = Ok tt) ∧
  (∀ v, dict_get "items" s = Some v → ∃ p, v = JObj p ∧ _validate_schema false (JObj p) = Ok tt) ∧
  check_bounds s = Ok tt.
Proof.
  cbn [_validate_schema]. rewrite !at_key_when. intros H.
  do 8 (apply bind_ok in H as (? & ? & H)).
  repeat match goal with u : unit |- _ => destruct u end.
  repeat match goal with
  | H : when_key _ _ _ = Ok tt |- _ => rewrite when_key_ok in H
  | H : reject_if _ _ = Ok tt |- _ => apply reject_ok in H
  end.
  split_and!; try done; eauto.
  - intros k Hk. rewrite existsb_false in H0. specialize (H0 k Hk). by inv_ok.
  - intros v Hv. specialize (H4 v Hv). destruct v as [| | | | | |ps]; try done.
    exists ps. split; [done|]. intros k x Hx. rewrite each_ok in H4. specialize (H4 (k, x) Hx).
    simpl in H4. destruct x; try done. eauto.
  - intros v Hv. specialize (H7 v Hv). destruct v; try done. eauto.
Qed.

Lemma schema_property r s k p : _validate_schema r (JObj s) = Ok tt → property s k = Some p →
  _validate_schema false (JObj p) = Ok tt.
Proof.
  intros (_ & _ & _ & H & _)%validate_schema_parts. unfold property.
  destruct (dict_get "properties" s) as [v|]; [|done]. destruct (H v eq_refl) as (ps & -> & Hps).
  destruct (dict_get k ps) as [x|] eqn:E; [|done]. apply dict_get_elem in E.
  destruct (Hps k x E) as (p' & -> & ?). by intros [= ->].
Qed.

Lemma schema_items r s p : _validate_schema r (JObj s) = Ok tt → item_schema s = Some p →
  _validate_schema false (JObj p) = Ok tt.
Proof.
  intros (_ & _ & _ & _ & _ & H & _)%validate_schema_parts. unfold item_schema.
  destruct (dict_get "items" s) as [v|]; [|done]. destruct (H v eq_refl) as (ps & -> & Hps).
  by intros [= ->].
Qed.

Lemma map_JStr_inj a b : map JStr a = map JStr b → a = b.
Proof. revert b. induction a as [|x a IH]; intros [|y b]; simpl; intros H; simplify_eq; f_equal; auto. Qed.

(** The declared types of a checked schema. *)
Lemma declared_types_spec s d : _declared_types s = Ok d →
  match d with Some names => declared s names ∧ (∀ l, declared s l → l = names)
             | None => dict_get "type" s = None end.
Proof.
  unfold _declared_types, declared. destruct (dict_get "type" s) as [v|]; [|by intros [= <-]].
  intros H. do 3 (apply bind_ok in H as (? & ? & H)). injection H as <-.
  destruct v as [| | | |t|[|y l]|]; try done.
  - injection H0 as <-. split; [left; eauto|]. intros l [(n & [= <-] & ->)|[_ ?]]; done.
  - apply of_option_ok, strings_of_ok in H0. rewrite H0. split.
    + right. split; [|done]. intros ->. done.
    + intros l' [(n & ? & _)|[_ Hl]]; [done|]. apply map_JStr_inj. congruence.
Qed.

Lemma jget_Some k s v : v ≠ JNull → jget k s = v ↔ dict_get k s = Some v.
Proof. unfold jget. intros Hv. destruct (dict_get k s); simpl; naive_solver. Qed.

Lemma bounds_length s k m : check_bounds s = Ok tt → k ∈ ["maxItems"; "minLength"; "maxLength"] →
  dict_get k s = Some m → ∃ z, m = JInt z ∧ 0 <= z.
Proof.
  intros H Hk Hm. unfold check_bounds in H. do 6 (apply bind_ok in H as (? & ? & H)).
  repeat match goal with u : unit |- _ => destruct u end.
  rewrite each_ok in H2, H3. rewrite when_key_ok in H0.
  assert (Hr : is_nonneg_int m = true).
  { assert (k = "maxItems" ∨ k ∈ _STRING_BOUNDARIES) as [->|Hin] by set_solver.
    - specialize (H0 m Hm). apply reject_ok in H0. by inv_ok.
    - specialize (H3 k Hin). rewrite when_key_ok in H3. specialize (H3 m Hm).
      apply reject_ok in H3. by inv_ok. }
  unfold is_nonneg_int in Hr. destruct m as [| |z| | | |]; try done. simpl in Hr. exists z.
  split; [done|]. inv_ok. lia.
Qed.

Lemma bind_unit_ok {A} (m : result unit) (f : unit → result A) b :
  (m ≫= f) = Ok b ↔ m = Ok tt ∧ f tt = Ok b.
Proof. destruct m as [[]|]; simpl; naive_solver. Qed.

Lemma bind_reject_ok {A} c m (f : unit → result A) b :
  (reject_if c m ≫= f) = Ok b ↔ c = false ∧ f tt = Ok b.
Proof. by rewrite bind_unit_ok, reject_ok. Qed.

Lemma violates_spec {A} (o : option A) (r : A → bool) :
  match o with Some b => r b | None => false end = false ↔ ∀ b, o = Some b → r b = false.
Proof. destruct o; naive_solver. Qed.

Lemma validate_number_spec q s : _validate_number q s = Ok tt ↔ number_within s q.
Proof.
  unfold _validate_number, number_within, bound. by rewrite !bind_reject_ok, reject_ok, !violates_spec.
Qed.

Lemma as_int_spec k s z : as_int (jget k s) = Some z ↔ dict_get k s = Some (JInt z).
Proof. unfold jget. destruct (dict_get k s) as [[]|]; simpl; naive_solver. Qed.

Lemma validate_string_spec t s : _validate_string t s = Ok tt ↔
  (∀ m, dict_get "minLength" s = Some (JInt m) → m <= py_len t) ∧
  (∀ m, dict_get "maxLength" s = Some (JInt m) → py_len t <= m).
Proof.
  unfold _validate_string. rewrite bind_reject_ok, reject_ok, !violates_spec.
  setoid_rewrite as_int_spec. setoid_rewrite Z.ltb_ge. done.
Qed.

Lemma check_type_spec v s d : _declared_types s = Ok d → check_type v s = Ok tt ↔
  ∀ names, declared s names → ∃ n, n ∈ names ∧ _matches_type v n = true.
Proof.
  intros Hd. pose proof (declared_types_spec s d Hd) as Hs. unfold check_type. rewrite Hd. cbn [mbind result_bind].
  rewrite reject_ok. destruct d as [names|].
  - destruct Hs as [Hs Hu]. rewrite negb_false_iff, existsb_elem. split.
    + intros H l Hl. by rewrite (Hu l Hl).
    + intros H. by apply H.
  - split; [|done]. intros _ names [(n & ? & _)|[_ ?]]; congruence.
Qed.

Lemma check_const_enum_spec v s :
  (∀ e, dict_get "enum" s = Some e → check_enum e = Ok tt) →
  check_const_enum v s = Ok tt ↔
  (∀ c, dict_get "const" s = Some c → _json_equal v c = true) ∧
  (∀ l, dict_get "enum" s = Some (JArr l) → ∃ c, c ∈ l ∧ _json_equal v c = true).
Proof.
  intros He. unfold check_const_enum. rewrite bind_unit_ok, !when_key_ok.
  setoid_rewrite reject_ok. setoid_rewrite negb_false_iff. apply and_iff_compat_l. split.
  - intros H l Hl. specialize (H _ Hl). simpl in H. by rewrite reject_ok, negb_false_iff, existsb_elem in H.
  - intros H e Hk. specialize (He e Hk). destruct e as [| | | | |l|]; try done.
    rewrite reject_ok, negb_false_iff, existsb_elem. auto.
Qed.

Definition properties_of (s : jobject) : jobject :=
  match dict_get "properties" s with Some (JObj p) => p | _ => [] end.

Lemma property_checked r s k : _validate_schema r (JObj s) = Ok tt →
  dict_get k (properties_of s) = JObj <$> property s k.
Proof.
  intros (_ & _ & _ & H & _)%validate_schema_parts. unfold properties_of, property.
  destruct (dict_get "properties" s) as [v|]; [|done]. destruct (H v eq_refl) as (ps & -> & Hps).
  destruct (dict_get k ps) as [x|] eqn:E; [|done]. apply dict_get_elem in E.
  by destruct (Hps k x E) as (p' & -> & ?).
Qed.

Lemma check_fields_spec r fields s p : _validate_schema r (JObj s) = Ok tt →
  check_fields fields s = Ok p ↔ p = properties_of s ∧
  (∀ l n, dict_get "required" s = Some (JArr l) → JStr n ∈ l → n ∈ dict_keys fields) ∧
  (∀ k, dict_get "additionalProperties" s = Some (JBool false) → k ∈ dict_keys fields →
     property s k ≠ None).
Proof.
  intros Hs. pose proof (validate_schema_parts _ _ Hs) as (_ & _ & _ & Hp & Hr & _).
  pose proof (λ k, property_checked _ s k Hs) as Hk. unfold properties_of in Hk |- *.
  unfold check_fields.
  set (R := existsb _).
  assert (HR : ∀ l, R l = false ↔ ∀ n, JStr n ∈ l → n ∈ dict_keys fields).
  { intros l. unfold R. rewrite existsb_false. split.
    - intros H n Hn. specialize (H _ Hn). simpl in H. apply bool_decide_eq_false in H.
      destruct (decide (n ∈ dict_keys fields)); [done|]. by rewrite dict_get_None in H.
    - intros H x Hx. destruct x; try done. apply bool_decide_eq_false. rewrite dict_get_None. auto. }
  clearbody R.
  assert (Hreq : ∃ l, match dict_get "required" s with None => Ok [] | Some (JArr l) => Ok l
      | Some _ => schema_error "required must be a string array" end = Ok l ∧
      ∀ P : list json → Prop, P [] → P l ↔ ∀ l', dict_get "required" s = Some (JArr l') → P l').
  { destruct (dict_get "required" s) as [v|]; [|exists []; naive_solver].
    specialize (Hr v eq_refl). destruct v as [| | | | |l|]; try done. exists l. naive_solver. }
  destruct Hreq as (l & -> & Hl). simpl. rewrite bind_reject_ok, HR.
  rewrite (Hl (λ l, ∀ n, JStr n ∈ l → n ∈ dict_keys fields)) by set_solver.
  set (ps := match dict_get "properties" s with Some (JObj p) => p | _ => [] end) in *.
  assert (match dict_get "properties" s with None => Ok [] | Some (JObj p) => Ok p
      | Some _ => schema_error "properties must be an object" end = Ok ps) as ->.
  { subst ps. destruct (dict_get "properties" s) as [v|]; [|done].
    by destruct (Hp v eq_refl) as (? & -> & ?). }
  simpl. rewrite bind_reject_ok, andb_false_iff, bool_decide_eq_false, jget_Some by done.
  rewrite existsb_false. setoid_rewrite bool_decide_eq_false. setoid_rewrite Hk.
  assert (Hf : ∀ k, JObj <$> property s k ≠ None ↔ property s k ≠ None)
    by (intros k; destruct (property s k); simpl; naive_solver).
  setoid_rewrite Hf.
  destruct (decide (dict_get "additionalProperties" s = Some (JBool false))); naive_solver.
Qed.

Lemma check_items_spec r l s : _validate_schema r (JObj s) = Ok tt → check_items l s = Ok tt ↔
  (∀ m, dict_get "maxItems" s = Some (JInt m) → zlen l <= m) ∧
  (∀ i j x y, dict_get "uniqueItems" s = Some (JBool true) → (i < j)%nat →
     l !! i = Some x → l !! j = Some y → _json_equal x y = false).
Proof.
  intros (_ & _ & _ & _ & _ & _ & Hb)%validate_schema_parts. unfold check_items.
  rewrite bind_reject_ok, reject_ok, violates_spec, andb_false_iff, bool_decide_eq_false,
    jget_Some, any_pair_false by done.
  match goal with |- ?a ∧ ?b ↔ ?c ∧ ?d => cut ((a ↔ c) ∧ (b ↔ d)); [tauto|split] end.
  - split.
    + intros H m Hm. apply Z.ltb_ge, H. unfold jget. by rewrite Hm.
    + intros H m Hm. apply Z.ltb_ge. unfold jget in Hm.
      destruct (dict_get "maxItems" s) as [v|] eqn:E; [|done].
      destruct (bounds_length s "maxItems" v) as (z & -> & _); [done|set_solver|done|].
      injection Hm as <-. by apply H.
  - destruct (decide (dict_get "uniqueItems" s = Some (JBool true))); naive_solver.
Qed.

Lemma jget_items r s : _validate_schema r (JObj s) = Ok tt →
  ∀ (f : jobject → result unit),
  match jget "items" s with JObj p => f p | _ => Ok tt end =
  match item_schema s with Some p => f p | None => Ok tt end.
Proof.
  intros _ f. unfold jget, item_schema. destruct (dict_get "items" s) as [[]|]; done.
Qed.

(** The clauses of [Conforms] that depend on the shape of the value. *)
Definition shape (s : jobject) (v : json) : Prop :=
  match v with
  | JObj fields =>
      (∀ l n, dict_get "required" s = Some (JArr l) → JStr n ∈ l → n ∈ dict_keys fields) ∧
      (∀ k, dict_get "additionalProperties" s = Some (JBool false) → k ∈ dict_keys fields →
         property s k ≠ None) ∧
      (∀ k x p, (k, x) ∈ fields → property s k = Some p → Conforms p x)
  | JArr items =>
      ((∀ m, dict_get "maxItems" s = Some (JInt m) → zlen items <= m) ∧
       (∀ i j x y, dict_get "uniqueItems" s = Some (JBool true) → (i < j)%nat →
          items !! i = Some x → items !! j = Some y → _json_equal x y = false)) ∧
      (∀ x p, x ∈ items → item_schema s = Some p → Conforms p x)
  | JStr t =>
      (∀ m, dict_get "minLength" s = Some (JInt m) → m <= py_len t) ∧
      (∀ m, dict_get "maxLength" s = Some (JInt m) → py_len t <= m)
  | _ => ∀ q, _as_number v = Some q → number_within s q
  end.

Lemma conforms_shape s v : Conforms s v ↔
  (∀ names, declared s names → ∃ n, n ∈ names ∧ _matches_type v n = true) ∧
  ((∀ c, dict_get "const" s = Some c → _json_equal v c = true) ∧
   (∀ l, dict_get "enum" s = Some (JArr l) → ∃ c, c ∈ l ∧ _json_equal v c = true)) ∧
  shape s v.
Proof.
  split.
  - inversion 1; subst. split; [assumption|]. split; [split; assumption|]. destruct v; simpl; eauto 10.
  - intros (Ht & (Hc & He) & H). constructor; try assumption.
    + intros fields l n ->. apply H.
    + intros fields k ->. apply H.
    + intros fields k x p ->. apply H.
    + intros items m ->. apply H.
    + intros items i j x y ->. apply H.
    + intros items x p ->. apply H.
    + destruct v; simpl; try done; apply H.
    + intros t m ->. apply H.
    + intros t m ->. apply H.
Qed.

(** The validator accepts exactly the conforming values. *)
Lemma validate_value_iff v : ∀ r s, _validate_schema r (JObj s) = Ok tt →
  _validate_value v s = Ok tt ↔ Conforms s v.
Proof.
  induction v as [|b|z|f|t|l IH|kvs IH] using json_ind'; intros r s Hs;
    pose proof (validate_schema_parts _ _ Hs) as (_ & (d & Hd) & He & _).
  all: rewrite conforms_shape; cbn [_validate_value]; rewrite bind_unit_ok, (check_type_spec _ _ d Hd).
  all: rewrite bind_unit_ok, (check_const_enum_spec _ s He); apply and_iff_compat_l, and_iff_compat_l.
  1-2: by simpl.
  1-2: cbn [shape]; destruct (_as_number _) as [q|]; [rewrite validate_number_spec|done].
  1-2: split; [by intros H q' [= <-]|intros H; by apply H].
  - apply validate_string_spec.
  - rewrite bind_unit_ok, (check_items_spec r) by done. apply and_iff_compat_l.
    rewrite (jget_items r s Hs). rewrite Forall_forall in IH.
    destruct (item_schema s) as [p|] eqn:Hp; [|naive_solver].
    rewrite each_ok. pose proof (schema_items _ _ _ Hs Hp) as Hsp. split.
    + intros H x p' Hx [= <-]. by apply (IH x Hx false p Hsp), H.
    + intros H x Hx. apply (IH x Hx false p Hsp), (H x p); done.
  - rewrite bind_ok. setoid_rewrite (check_fields_spec r); [|done]. rewrite Forall_forall in IH.
    simpl. split.
    + intros (p & (-> & Hr & Hx) & H). split; [done|split; [done|]].
      intros k x p Hin Hp. rewrite each_ok in H. specialize (H _ Hin). simpl in H.
      rewrite (property_checked r), Hp in H by done. simpl in H.
      by apply (IH _ Hin false p (schema_property _ _ _ _ Hs Hp)).
    + intros (Hr & Hx & H). exists (properties_of s). split; [done|]. apply each_ok.
      intros [k x] Hin. simpl. rewrite (property_checked r) by done.
      destruct (property s k) as [p|] eqn:Hp; simpl; [|done].
      apply (IH _ Hin false p (schema_property _ _ _ _ Hs Hp)). by eapply H.
Qed.

(** ** Properties *)

Lemma declared_object s d : _declared_types s = Ok d →
  match d with Some names => "object" ∈ names | None => True end ↔
  ∀ names, declared s names → "object" ∈ names.
Proof.
  intros H%declared_types_spec. destruct d as [names|].
  - destruct H as [H1 H2]. split; [intros H l Hl; by rewrite (H2 l Hl)|auto].
  - split; [|done]. intros _ names [(n & ? & _)|[_ ?]]; congruence.
Qed.

(** C38 (validate_output_spec): an output is accepted exactly when its schema
    passes the closed-vocabulary check, the declared root types include
    object, and the output conforms to the schema: declared type, const, enum,
    required and undeclared fields, item count and uniqueness, numeric and
    length bounds, at every depth. *)
Theorem validate_output_spec output schema :
  validate_output output schema = Ok tt ↔
  _validate_schema true (JObj schema) = Ok tt ∧
  (∀ names, declared schema names → "object" ∈ names) ∧
  Conforms schema (JObj output).
Proof.
  unfold validate_output. rewrite bind_unit_ok.
  destruct (_validate_schema true (JObj schema)) as [[]|] eqn:Hs; [|naive_solver].
  pose proof (validate_schema_parts _ _ Hs) as (_ & (d & Hd) & _). rewrite Hd. cbn [mbind result_bind].
  rewrite bind_reject_ok, (validate_value_iff _ true) by done.
  rewrite <-(declared_object schema d Hd). apply and_iff_compat_l, and_iff_compat_r.
  destruct d; [|done]. by rewrite negb_false_iff, bool_decide_eq_true.
Qed.

Lemma subschema_checked s s' : subschema s s' → ∀ r, _validate_schema r (JObj s) = Ok tt →
  ∃ r', _validate_schema r' (JObj s') = Ok tt ∧ (r' = true → r = true).
Proof.
  induction 1 as [s|s k p s' Hp _ IH|s p s' Hp _ IH]; intros r Hr; [by exists r| |].
  - destruct (IH false) as (r' & ? & ?); [by eapply schema_property|]. exists r'. naive_solver.
  - destruct (IH false) as (r' & ? & ?); [by eapply schema_items|]. exists r'. naive_solver.
Qed.

(** Every refusal is an [OutputSchemaError]. *)
Definition schema_result {A} (r : result A) : Prop :=
  match r with Ok _ => True | Err e => ∃ m, e = OutputSchemaError m end.

Lemma schema_result_bind {A B} (m : result A) (f : A → result B) :
  schema_result m → (∀ a, schema_result (f a)) → schema_result (m ≫= f).
Proof. destruct m; simpl; auto. Qed.

Lemma schema_result_reject c m : schema_result (reject_if c m).
Proof. destruct c; simpl; eauto. Qed.

Lemma schema_result_error {A} m : schema_result (A := A) (schema_error m).
Proof. simpl. eauto. Qed.

Lemma schema_result_option {A} m (o : option A) : schema_result (of_option (OutputSchemaError m) o).
Proof. destruct o; simpl; eauto. Qed.

Lemma schema_result_when k s f : (∀ v, schema_result (f v)) → schema_result (when_key k s f).
Proof. unfold when_key. intros H. destruct (dict_get k s); simpl; auto. Qed.

Lemma schema_result_each {A} (f : A → result unit) l :
  Forall (λ x, schema_result (f x)) l → schema_result (each f l).
Proof.
  induction 1 as [|x l Hx _ IH]; simpl; [done|]. destruct (f x); [apply IH|apply Hx].
Qed.
Create HintDb schema.
#[local] Hint Resolve schema_result_bind schema_result_reject schema_result_error
  schema_result_option schema_result_when schema_result_each : schema.
#[local] Hint Extern 1 (schema_result (Ok _)) => exact I : schema.
#[local] Hint Extern 2 (schema_result (match ?x with _ => _ end)) => destruct x : schema.
#[local] Hint Extern 2 (Forall _ _) => apply Forall_forall; intros : schema.

Lemma declared_types_result s : schema_result (_declared_types s).
Proof. unfold _declared_types. eauto 20 with schema. Qed.

Lemma check_bounds_result s : schema_result (check_bounds s).
Proof. unfold check_bounds. eauto 20 with schema. Qed.

Lemma check_enum_result v : schema_result (check_enum v).
Proof. destruct v as [| | | | |[|x l]|]; simpl; eauto with schema. Qed.

Lemma check_required_result v : schema_result (check_required v).
Proof. destruct v; simpl; eauto with schema. Qed.
#[local] Hint Resolve declared_types_result check_bounds_result check_enum_result
  check_required_result : schema.

Definition errors_only (j : json) : Prop := ∀ r, schema_result (_validate_schema r j).

Lemma validate_schema_result_deep j :
  errors_only j ∧ ∀ kvs, j = JObj kvs → Forall (λ kv, errors_only kv.2) kvs.
Proof.
  induction j as [| | | | | |kvs IH] using json_ind'; try (split; [intros r; exact I|done]).
  assert (Hc : Forall (λ kv, errors_only kv.2) kvs) by (eapply Forall_impl; [exact IH|intros ? [? _]; done]).
  split; [|by intros ? [= <-]]. intros r.
  rewrite Forall_forall in IH, Hc.
  cbn [_validate_schema]. rewrite !at_key_when.
  apply schema_result_bind; [auto with schema|intros _].
    apply schema_result_bind; [apply declared_types_result|intros _].
    apply schema_result_bind; [apply schema_result_when; auto with schema|intros _].
    apply schema_result_bind; [apply schema_result_when; auto with schema|intros _].
    apply schema_result_bind.
    { unfold when_key. destruct (dict_get "properties" kvs) as [raw|] eqn:E; [|done].
      apply dict_get_elem, IH in E as [_ E]. destruct raw as [| | | | | |ps]; eauto with schema.
      specialize (E ps eq_refl). apply schema_result_each. eapply Forall_impl; [exact E|].
      intros [k x] Hx. simpl in *. destruct x; eauto with schema. }
    intros _.
    apply schema_result_bind; [apply schema_result_when; auto with schema|intros _].
    apply schema_result_bind; [apply schema_result_when; auto with schema|intros _].
    apply schema_result_bind; [|intros _; auto with schema].
    unfold when_key. destruct (dict_get "items" kvs) as [raw|] eqn:E; [|done].
    apply dict_get_elem, Hc in E. destruct raw; eauto with schema.
Qed.

Lemma validate_value_result v : ∀ s, schema_result (_validate_value v s).
Proof.
  assert (Hnum : ∀ q s, schema_result (_validate_number q s))
    by (intros; unfold _validate_number; eauto 20 with schema).
  assert (Hpre : ∀ v s (m : result unit), schema_result m →
    schema_result (_ ← check_type v s; _ ← check_const_enum v s; m)).
  { intros v' s m Hm. apply schema_result_bind; [unfold check_type; eauto with schema|intros _].
    apply schema_result_bind; [|done]. unfold check_const_enum.
    apply schema_result_bind; [auto with schema|intros _].
    apply schema_result_when. intros []; eauto with schema. }
  induction v as [| | | |t|l IH|kvs IH] using json_ind'; intros s; cbn [_validate_value]; apply Hpre.
  1-2: exact I.
  1-2: destruct (_as_number _); [apply Hnum|exact I].
  - unfold _validate_string. eauto with schema.
  - apply schema_result_bind; [unfold check_items; eauto with schema|intros _].
    destruct (jget "items" s); eauto with schema. apply schema_result_each.
    eapply Forall_impl; [exact IH|]. simpl. auto.
  - apply schema_result_bind.
    + unfold check_fields. apply schema_result_bind; [repeat case_match; eauto with schema|intros ?].
      apply schema_result_bind; [auto with schema|intros _].
      apply schema_result_bind; [repeat case_match; eauto with schema|intros ?]. eauto with schema.
    + intros ps. apply schema_result_each. eapply Forall_impl; [exact IH|].
      intros [k x] Hx. simpl in *. repeat case_match; auto with schema.
Qed.

Lemma validate_output_result output schema : schema_result (validate_output output schema).
Proof.
  unfold validate_output. apply schema_result_bind; [apply validate_schema_result_deep|intros _].
  apply schema_result_bind; [auto with schema|intros d].
  apply schema_result_bind; [auto with schema|intros _]. apply validate_value_result.
Qed.

(** The vocabulary is closed at every
    depth. If any schema nested in the output schema, even under an optional
    property the output does not have, uses a keyword the gateway does not
    implement, then every output is refused, with an [OutputSchemaError]. *)
Theorem unsupported_keyword_rejected output schema nested keyword :
  subschema schema nested → keyword ∈ dict_keys nested →
  keyword ∉ _SUPPORTED_KEYWORDS → keyword ∉ _ROOT_METADATA_KEYWORDS →
  ∃ m, validate_output output schema = Err (OutputSchemaError m).
Proof.
  intros Hsub Hk Hn Hr. pose proof (validate_output_result output schema) as H.
  destruct (validate_output output schema) as [[]|e] eqn:E; [|by destruct H as [m ->]; exists m].
  exfalso. unfold validate_output in E. apply bind_unit_ok in E as [Hs _].
  destruct (subschema_checked _ _ Hsub _ Hs) as (r' & Hs' & _).
  apply validate_schema_parts in Hs' as [Hall _]. specialize (Hall keyword Hk).
  apply elem_of_app in Hall as [?|Hin]; [done|]. destruct r'; [done|]. by apply elem_of_nil in Hin.
Qed.

(** The equality behind const, enum and
    uniqueItems is an equivalence on frozen values: reflexive, symmetric and
    transitive, with numbers compared exactly across int and float and
    booleans never equal to numbers. *)
Theorem json_equal_equivalence :
  (∀ x, json_wf x = true → _json_equal x x = true) ∧
  (∀ x y, json_wf x = true → json_wf y = true → _json_equal x y = true → _json_equal y x = true) ∧
  (∀ x y z, json_wf x = true → json_wf y = true → json_wf z = true →
     _json_equal x y = true → _json_equal y z = true → _json_equal x z = true) ∧
  (∀ b x, _as_number x ≠ None → _json_equal (JBool b) x = false).
Proof.
  split_and!; [apply json_equal_refl|apply json_equal_sym|apply json_equal_trans|].
  intros b x. by destruct x.
Qed.

(** ** Witnesses *)

Definition sample_schema : jobject :=
  [("type", JStr "object"); ("additionalProperties", JBool false);
   ("properties", JObj [("tasks", JObj [("type", JStr "array"); ("minItems", JInt 1)])])].

Lemma unsupported_keyword_rejected_witness :
  ∃ m, validate_output [] sample_schema = Err (OutputSchemaError m).
Proof.
  apply (unsupported_keyword_rejected [] sample_schema
           [("type", JStr "array"); ("minItems", JInt 1)] "minItems").
  - apply (sub_property _ "tasks" [("type", JStr "array"); ("minItems", JInt 1)]);
      [reflexivity|apply sub_here].
  - right. left.
  - apply (bool_decide_unpack _). vm_compute. exact I.
  - apply (bool_decide_unpack _). vm_compute. exact I.
Defined.

Lemma json_equal_equivalence_witness :
  _json_equal (JObj [("a", JInt 1); ("b", JNull)]) (JObj [("b", JNull); ("a", JFloat (f64 1 0))]) = true ∧
  _json_equal (JObj [("b", JNull); ("a", JFloat (f64 1 0))]) (JObj [("a", JInt 1); ("b", JNull)]) = true.
Proof.
  split; [reflexivity|].
  apply (proj1 (proj2 json_equal_equivalence)); reflexivity.
Defined.
