(* ===== verification/Gateway.v ===== *)
(** * gateway/models.py, profiles.py, router.py: the model gateway

    A [ModelGateway] routes one model request to one registered adapter:
    [_select] filters the profiles by the request's policy and takes the least
    by priority and identifier, [prepare] freezes the route with its effective
    budget, [invoke_prepared] calls the adapter and checks what it reports
    against the budgets before the output reaches the caller.

    Adapters are code of other components, behind the [ModelAdapter] protocol:
    [adapter_invoke] is a parameter.  What [invoke_prepared] does is a [run]:
    the adapter calls and audit records it makes, and how it ends. *)

From S2P Require Import Prelude PyStr PyFloat Json JsonText JsonFacts PyTime Events OutputSchema.
From Stdlib Require Import ZArith Lia Ascii String Sorting.Sorted.
From stdpp Require Import base gmap sets list strings.
Local Open Scope Z_scope.

(** ** gateway/models.py *)

Inductive ModelCapability := REASON | CODE | REVIEW | VERIFY | EMBED.
#[export] Instance capability_eq_dec : EqDecision ModelCapability.
Proof. solve_decision. Defined.

(** An [IntEnum]: compared by value. *)
Inductive DataClassification := PUBLIC | INTERNAL | PRIVATE | SECRET.
#[export] Instance classification_eq_dec : EqDecision DataClassification.
Proof. solve_decision. Defined.
Definition classification_value (c : DataClassification) : Z :=
  match c with PUBLIC => 0 | INTERNAL => 1 | PRIVATE => 2 | SECRET => 3 end.

Inductive LocalityPolicy := LOCAL_ONLY | REMOTE_ALLOWED.
#[export] Instance locality_eq_dec : EqDecision LocalityPolicy.
Proof. solve_decision. Defined.

Inductive GatewayFailureCode :=
  | REQUEST_INPUT_BUDGET_EXCEEDED | NO_PROFILE | PREPARED_CALL_INVALID
  | ADAPTER_INPUT_BUDGET_EXCEEDED | PROFILE_INPUT_LIMIT_EXCEEDED
  | ADAPTER_OUTPUT_BUDGET_EXCEEDED | PROFILE_OUTPUT_LIMIT_EXCEEDED
  | ADAPTER_LATENCY_BUDGET_EXCEEDED | ADAPTER_COST_BUDGET_EXCEEDED
  | PROFILE_COST_LIMIT_EXCEEDED | PROFILE_DETERMINISM_VIOLATED
  | REQUEST_DETERMINISM_VIOLATED.
#[export] Instance failure_code_eq_dec : EqDecision GatewayFailureCode.
Proof. solve_decision. Defined.

Definition failure_code_value (c : GatewayFailureCode) : string :=
  match c with
  | REQUEST_INPUT_BUDGET_EXCEEDED => "request_input_budget_exceeded"
  | NO_PROFILE => "no_profile"
  | PREPARED_CALL_INVALID => "prepared_call_invalid"
  | ADAPTER_INPUT_BUDGET_EXCEEDED => "adapter_input_budget_exceeded"
  | PROFILE_INPUT_LIMIT_EXCEEDED => "profile_input_limit_exceeded"
  | ADAPTER_OUTPUT_BUDGET_EXCEEDED => "adapter_output_budget_exceeded"
  | PROFILE_OUTPUT_LIMIT_EXCEEDED => "profile_output_limit_exceeded"
  | ADAPTER_LATENCY_BUDGET_EXCEEDED => "adapter_latency_budget_exceeded"
  | ADAPTER_COST_BUDGET_EXCEEDED => "adapter_cost_budget_exceeded"
  | PROFILE_COST_LIMIT_EXCEEDED => "profile_cost_limit_exceeded"
  | PROFILE_DETERMINISM_VIOLATED => "profile_determinism_violated"
  | REQUEST_DETERMINISM_VIOLATED => "request_determinism_violated"
  end.

Definition admission_error (c : GatewayFailureCode) : exn :=
  GatewayAdmissionError (failure_code_value c).

Record GatewayBudget := MkBudget {
  max_input_tokens : Z;
  max_output_tokens : Z;
  max_latency_ms : Z;
  max_cost_microusd : Z
}.
#[export] Instance budget_eq_dec : EqDecision GatewayBudget.
Proof. solve_decision. Defined.

Definition gateway_budget_init (b : GatewayBudget) : result GatewayBudget :=
  _ ← raise_if (Z.min (Z.min (max_input_tokens b) (max_output_tokens b))
                      (Z.min (max_latency_ms b) (max_cost_microusd b)) <? 0)
        (ValueError "gateway budgets must be non-negative");
  Ok b.

(** A [Mapping] argument that is not frozen yet, and [freeze_json] of it. *)
Abbreviation pymapping := (list (pyval * pyval)).
Definition freeze_mapping (path : string) (value : pymapping) : result jobject :=
  frozen ← freeze_json path (PMapping value);
  as_mapping (TypeError "a frozen mapping is a mapping") frozen.
Definition thaw_mapping (kvs : jobject) : pymapping :=
  map (λ kv, (PStr kv.1, thaw_json kv.2)) kvs.

Record ModelRequest := MkRequest {
  request_id : string;
  capability : ModelCapability;
  input : jobject;
  output_schema : jobject;
  classification : DataClassification;
  locality : LocalityPolicy;
  budget : GatewayBudget;
  estimated_input_tokens : Z;
  request_correlation_id : string;
  run_id : string;
  node_id : string;
  deterministic_required : bool;
  request_causation_id : option string;
  tools_allowed : bool
}.

(** The constructor of [ModelRequest], from [input] and [output_schema] that
    are not frozen yet. *)
Definition model_request_init (r : ModelRequest) (input output_schema : pymapping) : result ModelRequest :=
  let nonempty value name := raise_if (blank value) (ValueError (name +:+ " must not be empty")) in
  _ ← nonempty (request_id r) "request_id";
  _ ← nonempty (request_correlation_id r) "correlation_id";
  _ ← nonempty (run_id r) "run_id";
  _ ← nonempty (node_id r) "node_id";
  _ ← raise_if (match request_causation_id r with Some c => blank c | None => false end)
        (ValueError "causation_id must not be blank");
  _ ← raise_if (estimated_input_tokens r <? 0)
        (ValueError "estimated_input_tokens must be non-negative");
  _ ← raise_if (tools_allowed r)
        (ValueError "gateway models cannot receive direct tool authority");
  frozen_input ← freeze_mapping "$.input" input;
  frozen_schema ← freeze_mapping "$.output_schema" output_schema;
  Ok (MkRequest (request_id r) (capability r) frozen_input frozen_schema (classification r)
        (locality r) (budget r) (estimated_input_tokens r) (request_correlation_id r)
        (run_id r) (node_id r) (deterministic_required r) (request_causation_id r)
        (tools_allowed r)).

(** [replace(request, budget=budget)]: the constructor runs again. *)
Definition with_budget (r : ModelRequest) (b : GatewayBudget) : ModelRequest :=
  MkRequest (request_id r) (capability r) (input r) (output_schema r) (classification r)
    (locality r) b (estimated_input_tokens r) (request_correlation_id r)
    (run_id r) (node_id r) (deterministic_required r) (request_causation_id r) (tools_allowed r).
Definition replace_budget (r : ModelRequest) (b : GatewayBudget) : result ModelRequest :=
  model_request_init (with_budget r b) (thaw_mapping (input r)) (thaw_mapping (output_schema r)).

(** [_validate_usage_value] of an integer or [None]. *)
Definition _validate_usage_value (value : option Z) (label : string) (optional : bool) : result unit :=
  match value with
  | None => if optional then Ok tt else Err (TypeError (label +:+ " must be an integer"))
  | Some v => raise_if (v <? 0) (ValueError (label +:+ " must be non-negative"))
  end.

Record AdapterResult := MkAdapterResult {
  output : jobject;
  input_tokens : option Z;
  output_tokens : option Z;
  latency_ms : Z;
  cost_microusd : option Z;
  deterministic : bool
}.

Definition adapter_result_init (output : pymapping) (input_tokens output_tokens : option Z)
    (latency_ms : Z) (cost_microusd : option Z) (deterministic : bool) : result AdapterResult :=
  _ ← _validate_usage_value input_tokens "adapter input token usage" true;
  _ ← _validate_usage_value output_tokens "adapter output token usage" true;
  _ ← _validate_usage_value (Some latency_ms) "adapter latency" false;
  _ ← _validate_usage_value cost_microusd "adapter cost" true;
  frozen ← freeze_mapping "$.output" output;
  Ok (MkAdapterResult frozen input_tokens output_tokens latency_ms cost_microusd deterministic).

Record GatewayCompletion := MkCompletion {
  output_digest : string;
  completion_input_tokens : option Z;
  completion_output_tokens : option Z;
  completion_latency_ms : Z;
  completion_cost_microusd : option Z;
  completion_deterministic : bool;
  completed_at : datetime
}.
#[export] Instance completion_eq_dec : EqDecision GatewayCompletion.
Proof. solve_decision. Defined.

Definition gateway_completion_init (c : GatewayCompletion) : result GatewayCompletion :=
  let digest := output_digest c in
  let hexadecimal := remove_prefix "sha256:" digest in
  let invalid := ValueError "gateway completion output_digest must be a SHA-256 digest" in
  _ ← raise_if (negb (starts_with "sha256:" digest) || negb (py_len hexadecimal =? 64)) invalid;
  _ ← raise_if (bool_decide (int_base16 hexadecimal = None)) invalid;
  _ ← _validate_usage_value (completion_input_tokens c) "gateway completion input token usage" true;
  _ ← _validate_usage_value (completion_output_tokens c) "gateway completion output token usage" true;
  _ ← _validate_usage_value (Some (completion_latency_ms c)) "gateway completion latency" false;
  _ ← _validate_usage_value (completion_cost_microusd c) "gateway completion cost" true;
  _ ← raise_if (bool_decide (dt_offset (completed_at c) = None))
        (ValueError "gateway completion timestamp must be timezone-aware");
  at_utc ← astimezone_utc (completed_at c);
  Ok (MkCompletion digest (completion_input_tokens c) (completion_output_tokens c)
        (completion_latency_ms c) (completion_cost_microusd c) (completion_deterministic c) at_utc).

Record RoutingDecision := MkDecision {
  decision_profile_id : string;
  decision_adapter_id : string;
  decision_model_id : string;
  decision_capability : ModelCapability;
  decision_local : bool;
  decision_deterministic : bool
}.
#[export] Instance decision_eq_dec : EqDecision RoutingDecision.
Proof. solve_decision. Defined.

Record ModelResponse := MkResponse {
  response_request_id : string;
  response_output : jobject;
  response_profile_id : string;
  response_adapter_id : string;
  response_model_id : string;
  response_input_tokens : option Z;
  response_output_tokens : option Z;
  response_latency_ms : Z;
  response_cost_microusd : option Z;
  response_deterministic : bool;
  response_completed_at : datetime
}.

Record GatewayAuditRecord := MkAudit {
  audit_request_id : string;
  audit_capability : ModelCapability;
  audit_classification : DataClassification;
  audit_profile_id : string;
  audit_adapter_id : string;
  audit_model_id : string;
  audit_correlation_id : string;
  audit_run_id : string;
  audit_node_id : string;
  audit_input_tokens : option Z;
  audit_output_tokens : option Z;
  audit_latency_ms : Z;
  audit_cost_microusd : option Z;
  audit_deterministic : bool
}.

Record GatewayResult := MkResult { result_decision : RoutingDecision; response : ModelResponse }.

Record PreparedGatewayCall := MkPrepared {
  request : ModelRequest;
  decision : RoutingDecision;
  effective_budget : GatewayBudget
}.

(** [PreparedGatewayCall.__post_init__]. *)
Definition prepared_call_init (c : PreparedGatewayCall) : result PreparedGatewayCall :=
  let r := request c in
  let eb := effective_budget c in
  _ ← raise_if (negb (bool_decide (decision_capability (decision c) = capability r)))
        (ValueError "prepared route capability does not match its request");
  _ ← raise_if (bool_decide (locality r = LOCAL_ONLY) && negb (decision_local (decision c)))
        (ValueError "a local-only request cannot prepare a remote route");
  _ ← raise_if (deterministic_required r && negb (decision_deterministic (decision c)))
        (ValueError "a deterministic request cannot prepare a non-deterministic route");
  _ ← raise_if (max_input_tokens (budget r) <? max_input_tokens eb)
        (ValueError "prepared input budget exceeds the request budget");
  _ ← raise_if (max_output_tokens (budget r) <? max_output_tokens eb)
        (ValueError "prepared output budget exceeds the request budget");
  _ ← raise_if (max_latency_ms (budget r) <? max_latency_ms eb)
        (ValueError "prepared latency budget exceeds the request budget");
  _ ← raise_if (max_cost_microusd (budget r) <? max_cost_microusd eb)
        (ValueError "prepared cost budget exceeds the request budget");
  Ok c.

(** [==] of two requests: field by field, [==] of the frozen JSON. *)
Definition request_eqb (a b : ModelRequest) : bool :=
  bool_decide (request_id a = request_id b) && bool_decide (capability a = capability b) &&
  py_eq (JObj (input a)) (JObj (input b)) &&
  py_eq (JObj (output_schema a)) (JObj (output_schema b)) &&
  bool_decide (classification a = classification b) && bool_decide (locality a = locality b) &&
  bool_decide (budget a = budget b) &&
  (estimated_input_tokens a =? estimated_input_tokens b) &&
  bool_decide (request_correlation_id a = request_correlation_id b) &&
  bool_decide (run_id a = run_id b) && bool_decide (node_id a = node_id b) &&
  eqb (deterministic_required a) (deterministic_required b) &&
  bool_decide (request_causation_id a = request_causation_id b) &&
  eqb (tools_allowed a) (tools_allowed b).

Definition call_eqb (a b : PreparedGatewayCall) : bool :=
  request_eqb (request a) (request b) && bool_decide (decision a = decision b) &&
  bool_decide (effective_budget a = effective_budget b).

(** ** gateway/profiles.py *)

Record GatewayProfile := MkProfile {
  profile_id : string;
  profile_capability : ModelCapability;
  profile_adapter_id : string;
  model_id : string;
  priority : Z;
  profile_local : bool;
  profile_deterministic : bool;
  maximum_classification : DataClassification;
  profile_max_input_tokens : Z;
  profile_max_output_tokens : Z;
  profile_max_cost_microusd : Z;
  enabled : bool
}.

Definition gateway_profile_init (p : GatewayProfile) : result GatewayProfile :=
  let nonempty value name := raise_if (blank value) (ValueError (name +:+ " must not be empty")) in
  _ ← nonempty (profile_id p) "profile_id";
  _ ← nonempty (profile_adapter_id p) "adapter_id";
  _ ← nonempty (model_id p) "model_id";
  _ ← raise_if (Z.min (Z.min (priority p) (profile_max_input_tokens p))
                      (Z.min (profile_max_output_tokens p) (profile_max_cost_microusd p)) <? 0)
        (ValueError "profile limits and priority must be non-negative");
  Ok p.

(** ** gateway/ports.py: what the gateway uses of an adapter *)

Record ModelAdapter := MkAdapter {
  adapter_id : string;
  capabilities : list ModelCapability;
  adapter_local : bool;
  adapter_deterministic : bool;
  adapter_invoke : ModelRequest → string → result AdapterResult
}.

Abbreviation AdapterRegistry := (list (string * ModelAdapter)).

(** ** gateway/router.py *)

(** How a call ends: with a result, or with an exception that may carry the
    completion evidence ([GatewayAdmissionError.completion]). *)
Inductive outcome :=
  | Returned (result : GatewayResult)
  | Raised (error : exn) (completion : option GatewayCompletion).

Record run := MkRun {
  adapter_calls : list (string * ModelRequest * string);
  audited : list GatewayAuditRecord;
  run_outcome : outcome
}.

Definition no_call (e : exn) : run := MkRun [] [] (Raised e None).

Record ModelGateway := MkGateway {
  _profiles : list GatewayProfile;
  _adapters : AdapterRegistry;
  _audit_sink : bool
}.

(** [ModelGateway.__init__]; the audit sink is present or absent. *)
Definition gateway_init (profiles : list GatewayProfile) (adapters : AdapterRegistry)
    (audit_sink : bool) : result ModelGateway :=
  _ ← raise_if (bool_decide (¬ NoDup (map profile_id profiles)))
        (ValueError "gateway profile ids must be unique");
  _ ← raise_if (existsb (λ kv, negb (bool_decide (kv.1 = adapter_id kv.2))) adapters)
        (ValueError "adapter registry key does not match adapter_id");
  Ok (MkGateway profiles adapters audit_sink).

(** The conditions of the loop of [_select], in order; [None] is [continue]. *)
Definition candidate (g : ModelGateway) (r : ModelRequest) (p : GatewayProfile)
    : option (GatewayProfile * ModelAdapter) :=
  match dict_get (profile_adapter_id p) (_adapters g) with
  | None => None
  | Some a =>
      if negb (enabled p) || negb (bool_decide (profile_capability p = capability r)) then None
      else if negb (bool_decide (capability r ∈ capabilities a)) then None
      else if negb (eqb (profile_local p) (adapter_local a)) ||
              negb (eqb (profile_deterministic p) (adapter_deterministic a)) then None
      else if bool_decide (locality r = LOCAL_ONLY) && negb (adapter_local a) then None
      else if deterministic_required r && negb (adapter_deterministic a) then None
      else if classification_value (maximum_classification p) <? classification_value (classification r)
      then None
      else if profile_max_input_tokens p <? estimated_input_tokens r then None
      else Some (p, a)
  end.

(** The sort key [(priority, profile_id)]; strings compare by code point,
    which UTF-8 preserves. *)
Definition profile_leb (p q : GatewayProfile) : bool :=
  (priority p <? priority q) ||
  ((priority p =? priority q) && String.leb (profile_id p) (profile_id q)).

Definition _select (g : ModelGateway) (r : ModelRequest) : result (GatewayProfile * ModelAdapter) :=
  _ ← raise_if (max_input_tokens (budget r) <? estimated_input_tokens r)
        (admission_error REQUEST_INPUT_BUDGET_EXCEEDED);
  let candidates := omap (candidate g r) (_profiles g) in
  match isort (λ x y, profile_leb x.1 y.1) candidates with
  | [] => Err (admission_error NO_PROFILE)
  | best :: _ => Ok best
  end.

Definition _decision (r : ModelRequest) (p : GatewayProfile) (a : ModelAdapter) : RoutingDecision :=
  MkDecision (profile_id p) (adapter_id a) (model_id p) (capability r)
    (adapter_local a) (adapter_deterministic a).

Definition _effective_budget (r : ModelRequest) (p : GatewayProfile) : result GatewayBudget :=
  gateway_budget_init (MkBudget
    (Z.min (max_input_tokens (budget r)) (profile_max_input_tokens p))
    (Z.min (max_output_tokens (budget r)) (profile_max_output_tokens p))
    (max_latency_ms (budget r))
    (Z.min (max_cost_microusd (budget r)) (profile_max_cost_microusd p))).

Definition prepare (g : ModelGateway) (r : ModelRequest) : result PreparedGatewayCall :=
  '(p, a) ← _select g r;
  eb ← _effective_budget r p;
  prepared_call_init (MkPrepared r (_decision r p a) eb).

Definition _profile_adapter (g : ModelGateway) (d : RoutingDecision)
    : result (GatewayProfile * ModelAdapter) :=
  match find (λ p, bool_decide (profile_id p = decision_profile_id d)) (_profiles g),
        dict_get (decision_adapter_id d) (_adapters g) with
  | Some p, Some a => Ok (p, a)
  | _, _ => Err (admission_error PREPARED_CALL_INVALID)
  end.

Definition exceeds (used : option Z) (limit : Z) : bool :=
  match used with Some n => limit <? n | None => false end.

(** The checks on what the adapter reported, in order. *)
Definition limit_failure (r : ModelRequest) (p : GatewayProfile) (res : AdapterResult)
    : option GatewayFailureCode :=
  if exceeds (input_tokens res) (max_input_tokens (budget r)) then Some ADAPTER_INPUT_BUDGET_EXCEEDED
  else if exceeds (input_tokens res) (profile_max_input_tokens p) then Some PROFILE_INPUT_LIMIT_EXCEEDED
  else if exceeds (output_tokens res) (max_output_tokens (budget r)) then Some ADAPTER_OUTPUT_BUDGET_EXCEEDED
  else if exceeds (output_tokens res) (profile_max_output_tokens p) then Some PROFILE_OUTPUT_LIMIT_EXCEEDED
  else if max_latency_ms (budget r) <? latency_ms res then Some ADAPTER_LATENCY_BUDGET_EXCEEDED
  else if exceeds (cost_microusd res) (max_cost_microusd (budget r)) then Some ADAPTER_COST_BUDGET_EXCEEDED
  else if exceeds (cost_microusd res) (profile_max_cost_microusd p) then Some PROFILE_COST_LIMIT_EXCEEDED
  else if profile_deterministic p && negb (deterministic res) then Some PROFILE_DETERMINISM_VIOLATED
  else if deterministic_required r && negb (deterministic res) then Some REQUEST_DETERMINISM_VIOLATED
  else None.

Definition _completion (res : AdapterResult) (now : datetime) : result GatewayCompletion :=
  digest ← json_digest (PMapping (thaw_mapping (output res)));
  gateway_completion_init (MkCompletion digest (input_tokens res) (output_tokens res)
    (latency_ms res) (cost_microusd res) (deterministic res) now).

Definition _response (r : ModelRequest) (p : GatewayProfile) (a : ModelAdapter)
    (res : AdapterResult) (c : GatewayCompletion) : ModelResponse :=
  MkResponse (request_id r) (output res) (profile_id p) (adapter_id a) (model_id p)
    (completion_input_tokens c) (completion_output_tokens c) (completion_latency_ms c)
    (completion_cost_microusd c) (completion_deterministic c) (completed_at c).

Definition _audit (r : ModelRequest) (m : ModelResponse) : GatewayAuditRecord :=
  MkAudit (request_id r) (capability r) (classification r) (response_profile_id m)
    (response_adapter_id m) (response_model_id m) (request_correlation_id r) (run_id r) (node_id r)
    (response_input_tokens m) (response_output_tokens m) (response_latency_ms m)
    (response_cost_microusd m) (response_deterministic m).

(** What follows the adapter call. *)
Definition admit_result (g : ModelGateway) (r : ModelRequest) (d : RoutingDecision)
    (p : GatewayProfile) (a : ModelAdapter) (res : AdapterResult) (now : datetime)
    : list GatewayAuditRecord * outcome :=
  match _completion res now with
  | Err e => ([], Raised e None)
  | Ok completion =>
      match limit_failure r p res with
      | Some code => ([], Raised (admission_error code) (Some completion))
      | None =>
          match validate_output (output res) (output_schema r) with
          | Err e => ([], Raised e (Some completion))
          | Ok _ =>
              let m := _response r p a res completion in
              (if _audit_sink g then [_audit r m] else [], Returned (MkResult d m))
          end
      end
  end.

(** [invoke_prepared]; [now] is what the clock answers. *)
Definition invoke_prepared (g : ModelGateway) (call : PreparedGatewayCall) (now : datetime) : run :=
  match prepare g (request call) with
  | Err e => no_call e
  | Ok expected =>
      if negb (call_eqb call expected) then no_call (admission_error PREPARED_CALL_INVALID) else
      match _profile_adapter g (decision expected),
            replace_budget (request call) (effective_budget call) with
      | Err e, _ => no_call e
      | Ok _, Err e => no_call e
      | Ok (p, a), Ok adapter_request =>
          let calls := [(adapter_id a, adapter_request, model_id p)] in
          match adapter_invoke a adapter_request (model_id p) with
          | Err e => MkRun calls [] (Raised e None)
          | Ok res =>
              let '(audits, o) := admit_result g (request call) (decision call) p a res now in
              MkRun calls audits o
          end
      end
  end.

Definition invoke (g : ModelGateway) (r : ModelRequest) (now : datetime) : run :=
  match prepare g r with
  | Err e => no_call e
  | Ok call => invoke_prepared g call now
  end.

(** ** Requests and gateways that constructors accept *)

Definition request_ok (r : ModelRequest) : Prop :=
  replace_budget r (budget r) = Ok r ∧ gateway_budget_init (budget r) = Ok (budget r).

Definition gateway_ok (g : ModelGateway) : Prop :=
  gateway_init (_profiles g) (_adapters g) (_audit_sink g) = Ok g ∧
  Forall (λ p, gateway_profile_init p = Ok p) (_profiles g).

(** The policy a route must satisfy. *)
Record admits (g : ModelGateway) (r : ModelRequest) (p : GatewayProfile) (a : ModelAdapter) : Prop := {
  admits_registered : dict_get (profile_adapter_id p) (_adapters g) = Some a;
  admits_enabled : enabled p = true;
  admits_capability : profile_capability p = capability r ∧ capability r ∈ capabilities a;
  admits_declared : profile_local p = adapter_local a ∧
    profile_deterministic p = adapter_deterministic a;
  admits_locality : locality r = LOCAL_ONLY → adapter_local a = true;
  admits_determinism : deterministic_required r = true → adapter_deterministic a = true;
  admits_classification :
    classification_value (classification r) <= classification_value (maximum_classification p);
  admits_input : estimated_input_tokens r <= profile_max_input_tokens p
}.

Lemma candidate_spec g r p x : candidate g r p = Some x ↔ x.1 = p ∧ admits g r p x.2.
Proof.
  unfold candidate. destruct x as [p' a']; simpl.
  destruct (dict_get (profile_adapter_id p) (_adapters g)) as [a|] eqn:Ha;
    [|split; [done|intros [_ [? _ _ _ _ _ _ _]]; congruence]].
  split.
  - repeat (case_match; [done|]). intros [= <- <-]. split; [done|].
    repeat match goal with H : (_ || _) = false |- _ => apply orb_false_iff in H as [??] end.
    repeat match goal with H : negb _ = false |- _ => apply negb_false_iff in H end.
    repeat match goal with H : (_ && _) = false |- _ => apply andb_false_iff in H end.
    repeat match goal with H : eqb _ _ = true |- _ => apply eqb_prop in H end.
    repeat match goal with H : bool_decide _ = true |- _ => apply bool_decide_eq_true in H end.
    constructor; try done; try lia.
    + intros Hl. rewrite bool_decide_eq_false, negb_false_iff in *. naive_solver.
    + intros Hl. rewrite Hl, negb_false_iff in *. naive_solver.
  - intros [-> [Ha' He [Hc Hc'] [Hl Hd] Hloc Hdet Hcl Hin]]. assert (a' = a) as -> by congruence.
    rewrite He, Hl, Hd, !eqb_reflx, bool_decide_eq_true_2, bool_decide_eq_true_2 by done. simpl.
    destruct (bool_decide (locality r = LOCAL_ONLY)) eqn:E;
      [apply bool_decide_eq_true in E; rewrite Hloc by done|]; simpl.
    all: destruct (deterministic_required r); [rewrite Hdet by done|]; simpl.
    all: rewrite (proj2 (Z.ltb_ge _ _) Hcl), (proj2 (Z.ltb_ge _ _) Hin); done.
Qed.

Lemma profile_leb_total p q : profile_leb p q = true ∨ profile_leb q p = true.
Proof.
  unfold profile_leb. rewrite !orb_true_iff, !andb_true_iff, !Z.ltb_lt, !Z.eqb_eq.
  destruct (Z.lt_trichotomy (priority p) (priority q)) as [?|[?|?]]; auto.
  destruct (string_leb_total (profile_id p) (profile_id q)); auto.
Qed.

Lemma profile_leb_trans p q t : profile_leb p q = true → profile_leb q t = true → profile_leb p t = true.
Proof.
  unfold profile_leb. rewrite !orb_true_iff, !andb_true_iff, !Z.ltb_lt, !Z.eqb_eq.
  intros [?|[? H1]] [?|[? H2]]; [left; lia..|]. right. split; [lia|].
  by eapply string_leb_trans.
Qed.

(** Routing selects a registered profile that
    satisfies every condition of the request's policy, and among those the
    least by priority, ties broken by profile identifier; it reports
    no_profile exactly when the request is within its own input budget and no
    profile satisfies the policy. *)
Theorem select_least_admissible g r :
  (∀ p a, _select g r = Ok (p, a) →
     p ∈ _profiles g ∧ admits g r p a ∧
     ∀ q b, q ∈ _profiles g → admits g r q b → profile_leb p q = true) ∧
  (_select g r = Err (admission_error NO_PROFILE) ↔
     estimated_input_tokens r <= max_input_tokens (budget r) ∧
     ∀ q b, q ∈ _profiles g → ¬ admits g r q b).
Proof.
  unfold _select. set (l := omap _ _).
  assert (Hl : ∀ p a, (p, a) ∈ isort (λ x y, profile_leb x.1 y.1) l ↔ p ∈ _profiles g ∧ admits g r p a).
  { intros p a. rewrite elem_of_isort. subst l. rewrite list_elem_of_omap.
    setoid_rewrite candidate_spec. simpl. naive_solver. }
  destruct (max_input_tokens (budget r) <? estimated_input_tokens r) eqn:E; simpl.
  { split; [done|]. split; [done|]. intros [? _]. apply Z.ltb_lt in E. lia. }
  apply Z.ltb_ge in E.
  pose proof (isort_sorted (λ x y, profile_leb x.1 y.1) (λ x y, profile_leb_total x.1 y.1)
    (λ x y z, profile_leb_trans x.1 y.1 z.1) l) as Hs.
  destruct (isort _ l) as [|best rest].
  - split; [done|]. split; [|done]. intros _. split; [done|]. intros q b Hq Ha.
    by apply (elem_of_nil (A := GatewayProfile * ModelAdapter) (q, b)), Hl.
  - split.
    + intros p a [= ->]. destruct (proj1 (Hl p a)) as [??]; [by left|]. split; [done|split; [done|]].
      intros q b Hq Hb. apply StronglySorted_inv in Hs as [_ Hs]. rewrite Forall_forall in Hs.
      pose proof (proj2 (Hl q b) (conj Hq Hb)) as [[= -> ->]|Hin]%elem_of_cons.
      * by destruct (profile_leb_total p p).
      * apply (Hs _ Hin).
    + split; [done|]. intros [_ H]. destruct best as [p a]. 
      destruct (proj1 (Hl p a)) as [??]; [by left|]. by destruct (H p a).
Qed.

Lemma freeze_thaw_mapping path kvs : json_wf (JObj kvs) = true →
  freeze_mapping path (thaw_mapping kvs) = Ok kvs.
Proof.
  intros H. unfold freeze_mapping.
  change (PMapping (thaw_mapping kvs)) with (thaw_json (JObj kvs)). by rewrite freeze_thaw.
Qed.

Lemma freeze_mapping_wf path m kvs : freeze_mapping path m = Ok kvs → json_wf (JObj kvs) = true.
Proof.
  unfold freeze_mapping. intros H. apply bind_ok in H as (j & Hj & H).
  apply freeze_json_wf in Hj. destruct j; try done. by injection H as <-.
Qed.

(** The conditions of the request's constructor. *)
Definition request_fields_ok (r : ModelRequest) : Prop :=
  blank (request_id r) = false ∧ blank (request_correlation_id r) = false ∧
  blank (run_id r) = false ∧ blank (node_id r) = false ∧
  match request_causation_id r with Some c => blank c | None => false end = false ∧
  (estimated_input_tokens r <? 0) = false ∧ tools_allowed r = false.

Lemma model_request_init_ok r i o r' : model_request_init r i o = Ok r' ↔
  request_fields_ok r ∧ ∃ i' o', freeze_mapping "$.input" i = Ok i' ∧
  freeze_mapping "$.output_schema" o = Ok o' ∧
  r' = MkRequest (request_id r) (capability r) i' o' (classification r)
        (locality r) (budget r) (estimated_input_tokens r) (request_correlation_id r)
        (Gateway.run_id r) (node_id r) (deterministic_required r) (request_causation_id r)
        (tools_allowed r).
Proof.
  unfold model_request_init, request_fields_ok. split.
  - intros H. do 9 (apply bind_ok in H as (? & ? & H)).
    repeat match goal with H : raise_if _ _ = Ok _ |- _ => apply raise_if_ok in H end.
    injection H as <-. split; [done|]. eauto 10.
  - intros ((-> & -> & -> & -> & -> & -> & ->) & i' & o' & Hi & Ho & ->). simpl.
    rewrite Hi. simpl. by rewrite Ho.
Qed.

Lemma request_ok_parts r : request_ok r →
  request_fields_ok r ∧ json_wf (JObj (input r)) = true ∧ json_wf (JObj (output_schema r)) = true ∧
  gateway_budget_init (budget r) = Ok (budget r).
Proof.
  intros [H Hb]. apply model_request_init_ok in H as (Hf & i & o & Hi & Ho & ->).
  apply freeze_mapping_wf in Hi, Ho. done.
Qed.

(** [replace(request, budget=b)] changes the budget and nothing else. *)
Lemma replace_budget_ok r b : request_ok r → replace_budget r b = Ok (with_budget r b).
Proof.
  intros (Hf & Hi & Ho & _)%request_ok_parts. apply model_request_init_ok. split; [done|].
  exists (input r), (output_schema r). simpl. split_and!; [by apply freeze_thaw_mapping..|done].
Qed.

Lemma request_eqb_refl r : request_ok r → request_eqb r r = true.
Proof.
  intros (_ & Hi & Ho & _)%request_ok_parts. unfold request_eqb.
  rewrite !bool_decide_eq_true_2, !py_eq_refl, !eqb_reflx, Z.eqb_refl by done. done.
Qed.

Lemma budget_init_ok b b' : gateway_budget_init b = Ok b' ↔ b' = b ∧
  0 <= max_input_tokens b ∧ 0 <= max_output_tokens b ∧ 0 <= max_latency_ms b ∧
  0 <= max_cost_microusd b.
Proof.
  unfold gateway_budget_init. split.
  - intros H. inv_ok. lia || (split; [done|lia]).
  - intros (-> & ? & ? & ? & ?).
    destruct (_ <? 0) eqn:E; simpl; [|done]. apply Z.ltb_lt in E. lia.
Qed.

Lemma profile_init_ok p : gateway_profile_init p = Ok p →
  0 <= priority p ∧ 0 <= profile_max_input_tokens p ∧ 0 <= profile_max_output_tokens p ∧
  0 <= profile_max_cost_microusd p.
Proof. unfold gateway_profile_init. intros H. inv_ok. lia. Qed.

(** The call [prepare] builds for a selected route. *)
Definition budget_for (r : ModelRequest) (p : GatewayProfile) : GatewayBudget :=
  MkBudget (Z.min (max_input_tokens (budget r)) (profile_max_input_tokens p))
    (Z.min (max_output_tokens (budget r)) (profile_max_output_tokens p))
    (max_latency_ms (budget r))
    (Z.min (max_cost_microusd (budget r)) (profile_max_cost_microusd p)).

Lemma select_admits g r p a : _select g r = Ok (p, a) → p ∈ _profiles g ∧ admits g r p a.
Proof.
  unfold _select. intros H. apply bind_ok in H as (? & _ & H).
  destruct (isort _ _) as [|best rest] eqn:E; [done|]. injection H as ->.
  assert (Hin : (p, a) ∈ omap (candidate g r) (_profiles g))
    by (rewrite <-(elem_of_isort (λ x y, profile_leb x.1 y.1)), E; by left).
  apply list_elem_of_omap in Hin as (q & Hq & Hc). apply candidate_spec in Hc as [Hc1 Hc2].
  simpl in *. by subst.
Qed.

(** [prepare] refuses only what [_select] refuses: the constructors of the
    budget and of the prepared call accept every selected route. *)
Lemma prepare_eq g r : gateway_ok g → request_ok r →
  prepare g r = ('(p, a) ← _select g r; Ok (MkPrepared r (_decision r p a) (budget_for r p))).
Proof.
  intros [_ Hg] (_ & _ & _ & Hb)%request_ok_parts. unfold prepare.
  destruct (_select g r) as [[p a]|e] eqn:Hs; [|done]. simpl.
  apply select_admits in Hs as [Hp Ha]. rewrite Forall_forall in Hg.
  specialize (Hg p Hp). apply profile_init_ok in Hg. apply budget_init_ok in Hb.
  unfold _effective_budget. fold (budget_for r p).
  rewrite (proj2 (budget_init_ok (budget_for r p) (budget_for r p))) by (split; [done|unfold budget_for; simpl; lia]).
  simpl. unfold prepared_call_init. simpl.
  rewrite (bool_decide_eq_true_2 (capability r = capability r)) by done. simpl.
  destruct (bool_decide (locality r = LOCAL_ONLY)) eqn:E;
    [apply bool_decide_eq_true in E; rewrite (admits_locality _ _ _ _ Ha E)|]; simpl.
  all: destruct (deterministic_required r) eqn:E';
    [rewrite (admits_determinism _ _ _ _ Ha E')|]; simpl.
  all: rewrite !(proj2 (Z.ltb_ge _ _)) by lia; done.
Qed.

(** A prepared call for a valid request names a
    registered adapter the request's policy admits: local when the request is
    local-only, deterministic when the request requires it, cleared for the
    request's data classification; its effective budget exceeds neither the
    request's nor the profile's. Preparing fails only for an oversized request
    or when no profile satisfies the policy. *)
Theorem prepared_route_safe g r : gateway_ok g → request_ok r →
  (∀ c, prepare g r = Ok c → ∃ p a, p ∈ _profiles g ∧ admits g r p a ∧
     request c = r ∧ decision c = _decision r p a ∧
     (locality r = LOCAL_ONLY → decision_local (decision c) = true) ∧
     (deterministic_required r = true → decision_deterministic (decision c) = true) ∧
     classification_value (classification r) <= classification_value (maximum_classification p) ∧
     max_input_tokens (effective_budget c) =
       Z.min (max_input_tokens (budget r)) (profile_max_input_tokens p) ∧
     max_output_tokens (effective_budget c) =
       Z.min (max_output_tokens (budget r)) (profile_max_output_tokens p) ∧
     max_latency_ms (effective_budget c) = max_latency_ms (budget r) ∧
     max_cost_microusd (effective_budget c) =
       Z.min (max_cost_microusd (budget r)) (profile_max_cost_microusd p)) ∧
  (∀ e, prepare g r = Err e →
     e = admission_error REQUEST_INPUT_BUDGET_EXCEEDED ∨ e = admission_error NO_PROFILE).
Proof.
  intros Hg Hr. rewrite (prepare_eq g r Hg Hr). split.
  - intros c H. apply bind_ok in H as ([p a] & Hs & [= <-]). exists p, a.
    apply select_admits in Hs as [Hp Ha]. destruct Ha. split_and!; done.
  - intros e. unfold _select. destruct (_ <? _); simpl; [intros [= <-]; by left|].
    destruct (isort _ _) as [|[p a] l]; simpl; [intros [= <-]; by right|done].
Qed.

Lemma gateway_registry g : gateway_ok g →
  NoDup (map profile_id (_profiles g)) ∧
  ∀ k a, dict_get k (_adapters g) = Some a → adapter_id a = k.
Proof.
  intros [H _]. unfold gateway_init in H.
  apply bind_ok in H as ([] & H1 & H). apply bind_ok in H as ([] & H2 & _).
  apply raise_if_ok in H1, H2. apply bool_decide_eq_false in H1. split.
  - by apply dec_stable.
  - intros k a Ha%dict_get_elem. rewrite existsb_false in H2. specialize (H2 _ Ha).
    simpl in H2. by inv_ok.
Qed.

(** The route a prepared call names is the one it was prepared for. *)
Lemma profile_adapter_select g r p a : gateway_ok g → p ∈ _profiles g → admits g r p a →
  _profile_adapter g (_decision r p a) = Ok (p, a).
Proof.
  intros [Hnd Hreg]%gateway_registry Hp Ha. unfold _profile_adapter. simpl.
  pose proof (admits_registered _ _ _ _ Ha) as Hk. rewrite (Hreg _ _ Hk), Hk.
  assert (Hf : find (λ q, bool_decide (profile_id q = profile_id p)) (_profiles g) = Some p).
  { clear -Hnd Hp. induction (_profiles g) as [|q l IH]; [by apply elem_of_nil in Hp|].
    simpl in *. apply NoDup_cons in Hnd as [Hq Hnd]. apply elem_of_cons in Hp as [->|Hp].
    - by rewrite bool_decide_eq_true_2.
    - rewrite bool_decide_eq_false_2; [auto|]. intros E. apply Hq. rewrite E.
      change (map profile_id l) with (profile_id <$> l). apply list_elem_of_fmap. eauto. }
  by rewrite Hf.
Qed.

(** ** Invoking a prepared call *)

(** What a run that reached the adapter did. *)
Lemma invoke_prepared_calls g call now : gateway_ok g → request_ok (request call) →
  adapter_calls (invoke_prepared g call now) ≠ [] →
  ∃ p a adapter_request, p ∈ _profiles g ∧ admits g (request call) p a ∧
    prepare g (request call) = Ok (MkPrepared (request call)
      (_decision (request call) p a) (budget_for (request call) p)) ∧
    decision call = _decision (request call) p a ∧
    effective_budget call = budget_for (request call) p ∧
    adapter_request = with_budget (request call) (budget_for (request call) p) ∧
    invoke_prepared g call now =
      match adapter_invoke a adapter_request (model_id p) with
      | Err e => MkRun [(adapter_id a, adapter_request, model_id p)] [] (Raised e None)
      | Ok res => let '(audits, o) := admit_result g (request call) (decision call) p a res now in
                  MkRun [(adapter_id a, adapter_request, model_id p)] audits o
      end.
Proof.
  intros Hg Hr. unfold invoke_prepared. rewrite (prepare_eq _ _ Hg Hr).
  destruct (_select g (request call)) as [[p a]|e] eqn:Hs; [|done]. cbn [mbind result_bind].
  pose proof (select_admits _ _ _ _ Hs) as [Hp Ha].
  destruct (call_eqb _ _) eqn:He; [|done]. cbn [negb decision].
  rewrite (profile_adapter_select _ _ _ _ Hg Hp Ha), (replace_budget_ok _ _ Hr).
  unfold call_eqb in He. cbn [request decision effective_budget] in He. rewrite !andb_true_iff in He. destruct He as [[_ Hd] Hb].
  apply bool_decide_eq_true in Hd, Hb. intros _.
  exists p, a, (with_budget (request call) (budget_for (request call) p)).
  rewrite Hb. split_and!; done.
Qed.

(** C24 (adapter_calls_admitted): whatever call object is presented, an adapter
    runs only on a route the gateway's policy admits for that call's request,
    at most once, under the profile's model, and with a budget that exceeds
    neither the request's nor the profile's. *)
Theorem adapter_calls_admitted g call now id sent model :
  gateway_ok g → request_ok (request call) →
  (id, sent, model) ∈ adapter_calls (invoke_prepared g call now) →
  ∃ p a, p ∈ _profiles g ∧ admits g (request call) p a ∧
    adapter_calls (invoke_prepared g call now) = [(id, sent, model)] ∧
    id = adapter_id a ∧ model = model_id p ∧ sent = with_budget (request call) (budget sent) ∧
    max_input_tokens (budget sent) <= max_input_tokens (budget (request call)) ∧
    max_input_tokens (budget sent) <= profile_max_input_tokens p ∧
    max_output_tokens (budget sent) <= max_output_tokens (budget (request call)) ∧
    max_output_tokens (budget sent) <= profile_max_output_tokens p ∧
    max_latency_ms (budget sent) <= max_latency_ms (budget (request call)) ∧
    max_cost_microusd (budget sent) <= max_cost_microusd (budget (request call)) ∧
    max_cost_microusd (budget sent) <= profile_max_cost_microusd p.
Proof.
  intros Hg Hr Hin.
  destruct (invoke_prepared_calls g call now Hg Hr) as (p & a & sent' & Hp & Ha & _ & _ & _ & -> & E).
  { intros H. rewrite H in Hin. by apply elem_of_nil in Hin. }
  assert (Hc : adapter_calls (invoke_prepared g call now) = [(adapter_id a,
    with_budget (request call) (budget_for (request call) p), model_id p)]).
  { rewrite E. destruct (adapter_invoke _ _ _); [|done]. by destruct (admit_result _ _ _ _ _ _ _). }
  rewrite Hc in Hin |- *. apply list_elem_of_singleton in Hin as [= -> -> ->].
  exists p, a. split_and!; try done; simpl; lia.
Qed.

Lemma exceeds_false used limit : exceeds used limit = false ↔ ∀ n, used = Some n → n <= limit.
Proof. destruct used; simpl; [|naive_solver]. rewrite Z.ltb_ge. naive_solver. Qed.

Lemma limit_failure_none r p res : limit_failure r p res = None ↔
  (∀ n, input_tokens res = Some n → n <= max_input_tokens (budget r) ∧ n <= profile_max_input_tokens p) ∧
  (∀ n, output_tokens res = Some n → n <= max_output_tokens (budget r) ∧ n <= profile_max_output_tokens p) ∧
  latency_ms res <= max_latency_ms (budget r) ∧
  (∀ n, cost_microusd res = Some n → n <= max_cost_microusd (budget r) ∧ n <= profile_max_cost_microusd p) ∧
  (profile_deterministic p = true ∨ deterministic_required r = true → deterministic res = true).
Proof.
  unfold limit_failure. split.
  - repeat (case_match; [done|]). intros _. rewrite ?exceeds_false in *.
    repeat match goal with H : (_ <? _) = false |- _ => apply Z.ltb_ge in H end.
    split_and!; auto. destruct (profile_deterministic p), (deterministic_required r), (deterministic res);
      naive_solver.
  - intros (Hi & Ho & Hl & Hc & Hd).
    rewrite !(proj2 (exceeds_false _ _)) by naive_solver.
    rewrite (proj2 (Z.ltb_ge _ _)) by done.
    destruct (deterministic res); rewrite ?andb_false_r; [done|].
    destruct (profile_deterministic p), (deterministic_required r); naive_solver.
Qed.

Lemma completion_fields res now c : _completion res now = Ok c →
  completion_input_tokens c = input_tokens res ∧ completion_output_tokens c = output_tokens res ∧
  completion_latency_ms c = latency_ms res ∧ completion_cost_microusd c = cost_microusd res ∧
  completion_deterministic c = deterministic res ∧
  json_digest (PMapping (thaw_mapping (output res))) = Ok (output_digest c) ∧
  dt_offset (completed_at c) = Some 0.
Proof.
  unfold _completion, gateway_completion_init. intros H.
  apply bind_ok in H as (d & Hd & H). simpl in H. do 8 (apply bind_ok in H as (? & ? & H)).
  injection H as <-. simpl. apply astimezone_utc_format in H7 as [? _]. done.
Qed.

(** A result reaches the caller only if the adapter
    reported usage within both the request's budgets and the profile's limits,
    was deterministic where the profile or the request demands it, and
    returned an output its schema accepts; the response carries exactly what
    was reported, and one audit record is written when a sink is configured. *)
Theorem result_within_limits g call now res :
  gateway_ok g → request_ok (request call) →
  run_outcome (invoke_prepared g call now) = Returned res →
  let r := request call in
  let m := response res in
  ∃ p a, p ∈ _profiles g ∧ admits g r p a ∧
    result_decision res = _decision r p a ∧
    response_profile_id m = profile_id p ∧ response_adapter_id m = adapter_id a ∧
    response_model_id m = model_id p ∧ response_request_id m = request_id r ∧
    (∀ n, response_input_tokens m = Some n →
       n <= max_input_tokens (budget r) ∧ n <= profile_max_input_tokens p) ∧
    (∀ n, response_output_tokens m = Some n →
       n <= max_output_tokens (budget r) ∧ n <= profile_max_output_tokens p) ∧
    response_latency_ms m <= max_latency_ms (budget r) ∧
    (∀ n, response_cost_microusd m = Some n →
       n <= max_cost_microusd (budget r) ∧ n <= profile_max_cost_microusd p) ∧
    (profile_deterministic p = true ∨ deterministic_required r = true →
       response_deterministic m = true) ∧
    validate_output (response_output m) (output_schema r) = Ok tt ∧
    audited (invoke_prepared g call now) = if _audit_sink g then [_audit r m] else [].
Proof.
  intros Hg Hr Ho.
  destruct (invoke_prepared_calls g call now Hg Hr) as (p & a & sent & Hp & Ha & _ & Hd & _ & _ & E).
  { intros H. revert Ho. revert H. unfold invoke_prepared.
    repeat (case_match; cbn [adapter_calls run_outcome no_call]; try done). }
  rewrite E in Ho |- *. clear E.
  destruct (adapter_invoke a sent (model_id p)) as [rep|e]; [|done].
  unfold admit_result in *. destruct (_completion rep now) as [c|e] eqn:Hc; [|done].
  destruct (limit_failure (request call) p rep) eqn:Hl; [done|].
  destruct (validate_output (output rep) (output_schema (request call))) as [[]|e] eqn:Hv; [|done].
  simpl in Ho. injection Ho as <-. exists p, a. simpl.
  apply completion_fields in Hc as (-> & -> & -> & -> & -> & _).
  apply limit_failure_none in Hl as (? & ? & ? & ? & ?). split_and!; done.
Qed.

(** Invoking a valid request that some profile admits calls
    the selected adapter exactly once with the effective budget, and returns
    its output if and only if the reported usage is within every limit and the
    output satisfies the schema; a usage refusal carries the completion
    evidence of the call. *)
Theorem invoke_exact g r now p a rep c :
  gateway_ok g → request_ok r → _select g r = Ok (p, a) →
  adapter_invoke a (with_budget r (budget_for r p)) (model_id p) = Ok rep →
  _completion rep now = Ok c →
  adapter_calls (invoke g r now) = [(adapter_id a, with_budget r (budget_for r p), model_id p)] ∧
  (run_outcome (invoke g r now) = Returned (MkResult (_decision r p a) (_response r p a rep c)) ↔
     limit_failure r p rep = None ∧ validate_output (output rep) (output_schema r) = Ok tt) ∧
  (∀ code, limit_failure r p rep = Some code →
     run_outcome (invoke g r now) = Raised (admission_error code) (Some c)).
Proof.
  intros Hg Hr Hs Hi Hc. pose proof (prepare_eq g r Hg Hr) as Hprep. rewrite Hs in Hprep. simpl in Hprep.
  pose proof (select_admits _ _ _ _ Hs) as [Hp Ha].
  unfold invoke. rewrite Hprep. unfold invoke_prepared.
  cbn [request decision effective_budget]. rewrite Hprep. unfold call_eqb.
  cbn [request decision effective_budget].
  rewrite (request_eqb_refl r Hr), !bool_decide_eq_true_2 by done. simpl.
  rewrite (profile_adapter_select _ _ _ _ Hg Hp Ha), (replace_budget_ok _ _ Hr), Hi.
  unfold admit_result. rewrite Hc. destruct (limit_failure r p rep) as [code|] eqn:Hl; simpl.
  - split; [done|]. split; [split; [done|by intros [? _]]|]. by intros code' [= ->].
  - destruct (validate_output _ _) as [[]|e]; simpl; split; try done; split; try done.
    split; [done|by intros [_ ?]].
Qed.

(** ** Witnesses *)
Module Sample.
Definition rep : AdapterResult := MkAdapterResult [("ok", JBool true)] (Some 3) None 10 (Some 1) true.
Definition adapter : ModelAdapter := MkAdapter "local" [CODE; REVIEW] true true (λ _ _, Ok rep).
Definition profile (id : string) (prio : Z) : GatewayProfile :=
  MkProfile id CODE "local" "m1" prio true true PRIVATE 100 50 10 true.
Definition gateway : ModelGateway :=
  MkGateway [profile "b" 1; profile "a" 1; profile "c" 0] [("local", adapter)] true.
Definition request : ModelRequest :=
  MkRequest "req" CODE [] [("type", JStr "object"); ("required", JArr [JStr "ok"])]
    INTERNAL LOCAL_ONLY (MkBudget 80 80 1000 5) 20 "corr" "run" "node" true None false.
Definition now : datetime := Datetime 0 (Some 0).
Definition call : PreparedGatewayCall :=
  MkPrepared request (_decision request (profile "c" 0) adapter) (budget_for request (profile "c" 0)).
Definition completion : GatewayCompletion :=
  match _completion rep now with Ok c => c | Err _ => MkCompletion "" None None 0 None true now end.
Definition result : GatewayResult :=
  MkResult (decision call) (_response request (profile "c" 0) adapter rep completion).

Lemma gateway_is_ok : gateway_ok gateway.
Proof.
  split; [|repeat constructor; reflexivity]. unfold gateway_init.
  rewrite bool_decide_eq_false_2; [reflexivity|]. intros H. apply H.
  apply (bool_decide_unpack _). vm_compute. exact I.
Qed.
Lemma request_is_ok : request_ok request.
Proof. split; reflexivity. Qed.
Lemma completes : _completion rep now = Ok completion.
Proof. by_vm. Qed.
Lemma returns : run_outcome (invoke_prepared gateway call now) = Returned result.
Proof. by_vm. Qed.
End Sample.

Lemma select_least_admissible_witness :
  ∃ p a, _select Sample.gateway Sample.request = Ok (p, a) ∧ profile_id p = "c" ∧
    profile_leb p (Sample.profile "b" 1) = true.
Proof.
  exists (Sample.profile "c" 0), Sample.adapter. split; [reflexivity|split; [reflexivity|]].
  destruct (proj1 (select_least_admissible Sample.gateway Sample.request)
    (Sample.profile "c" 0) Sample.adapter eq_refl) as (_ & _ & Hmin).
  apply (Hmin (Sample.profile "b" 1) Sample.adapter).
  - left.
  - constructor; [reflexivity|reflexivity|split; [reflexivity|left]|split; reflexivity|intros _; reflexivity
      |intros _; reflexivity|vm_compute; discriminate|vm_compute; discriminate].
Defined.

Lemma prepared_route_safe_witness :
  ∃ p a, p ∈ _profiles Sample.gateway ∧ admits Sample.gateway Sample.request p a.
Proof.
  destruct (proj1 (prepared_route_safe _ _ Sample.gateway_is_ok Sample.request_is_ok) Sample.call eq_refl)
    as (p & a & Hp & Ha & _).
  exists p, a. split; [exact Hp|exact Ha].
Defined.

Lemma adapter_calls_admitted_witness :
  ∃ p a, p ∈ _profiles Sample.gateway ∧ admits Sample.gateway Sample.request p a.
Proof.
  destruct (adapter_calls_admitted Sample.gateway Sample.call Sample.now "local"
    (with_budget Sample.request (MkBudget 80 50 1000 5)) "m1" Sample.gateway_is_ok Sample.request_is_ok)
    as (p & a & Hp & Ha & _).
  - assert (E : adapter_calls (invoke_prepared Sample.gateway Sample.call Sample.now) =
      [("local", with_budget Sample.request (MkBudget 80 50 1000 5), "m1")]) by by_vm.
    rewrite E. left.
  - exists p, a. split; [exact Hp|exact Ha].
Defined.

Lemma result_within_limits_witness :
  response_deterministic (response Sample.result) = true.
Proof.
  destruct (result_within_limits Sample.gateway Sample.call Sample.now Sample.result
    Sample.gateway_is_ok Sample.request_is_ok Sample.returns)
    as (p & a & _ & _ & _ & _ & _ & _ & _ & _ & _ & _ & _ & Hdet & _).
  apply Hdet. right. reflexivity.
Defined.

Lemma invoke_exact_witness :
  adapter_calls (invoke Sample.gateway Sample.request Sample.now) =
    [("local", with_budget Sample.request (MkBudget 80 50 1000 5), "m1")].
Proof.
  apply (invoke_exact Sample.gateway Sample.request Sample.now (Sample.profile "c" 0) Sample.adapter
    Sample.rep Sample.completion Sample.gateway_is_ok Sample.request_is_ok).
  - reflexivity.
  - reflexivity.
  - apply Sample.completes.
Defined.
