(* ===== verification/PlanCompiler.v ===== *)
(** * orchestration/execution_plan.py: goals and plans

    A planning provider's draft is an untrusted Python value ([pyval]); every
    executable field of the compiled [Plan] is owned by the host.  The section
    order follows the source: the records with their constructors,
    [compile_plan], and the durable payloads with their readers.  The policy
    kernel is in [AttemptPolicy]. *)

From S2P Require Import Prelude PyStr PyFloat Json JsonText JsonFacts PyTime Contracts OutputSchema Gateway.
From Stdlib Require Import ZArith Lia Ascii String Sorting.Sorted Sorting.Permutation.
From stdpp Require Import base gmap sets list strings.
Local Open Scope Z_scope.

Definition EXECUTION_GOAL_SCHEMA : string := "blackcell.goal/v2".
Definition EXECUTION_PLAN_DRAFT_SCHEMA : string := "blackcell.plan-draft/v1".
Definition EXECUTION_PLAN_SCHEMA : string := "blackcell.plan/v2".
Definition EXECUTION_ATTEMPT_EVIDENCE_SCHEMA : string := "blackcell.attempt-evidence/v1".
Definition EXECUTION_PROMOTION_CANDIDATE_SCHEMA : string := "praxis-promotion-candidate/v1".

(** [[A-Za-z0-9][A-Za-z0-9._:-]{0,127}\Z] *)
Definition _IDENTIFIER (s : string) : bool :=
  re_first_rest is_alnum (λ a, is_alnum a || is_one_of "._:-" a) 127 s.
(** [[A-Za-z0-9][A-Za-z0-9._+-]{0,63}\Z] *)
Definition _SAFE_EXECUTABLE (s : string) : bool :=
  re_first_rest is_alnum (λ a, is_alnum a || is_one_of "._+-" a) 63 s.
Definition _MAX_TASKS : Z := 64.
Definition _MAX_PATHS : Z := 256.
Definition _MAX_CHECKS : Z := 32.
Definition _MAX_ARGV : Z := 64.
Definition _MAX_TOKEN_BYTES : Z := 4096.

Definition plan_error : exn := PlanContractError "invalid-execution-contract".
Definition require (c : bool) : result unit := raise_if (negb c) plan_error.

(** ** Validators *)

Definition _identifier (value : string) : result unit := require (_IDENTIFIER value).
Definition identifiers (values : list string) : result unit := require (forallb _IDENTIFIER values).

Definition _text (value : pyval) : result string :=
  match value with
  | PStr s => _ ← require (negb (blank s)); Ok s
  | _ => Err plan_error
  end.

(** [_mapping]: every key is a string. *)
Definition _mapping (value : pyval) : result (list (string * pyval)) :=
  match value with
  | PMapping items =>
      map_result (λ kv, match kv.1 with PStr k => Ok (k, kv.2) | _ => Err plan_error end) items
  | _ => Err plan_error
  end.

Definition _sequence (value : pyval) : result (list pyval) :=
  match value with PSequence l => Ok l | _ => Err plan_error end.

Definition _mapping_text (raw : list (string * pyval)) (field : string) : result string :=
  _text (pget field raw).
Definition _mapping_integer (raw : list (string * pyval)) (field : string) : result Z :=
  match pget field raw with
  | PInt z => _ ← require (0 <=? z); Ok z
  | _ => Err plan_error
  end.
Definition texts (l : list pyval) : result (list string) := map_result _text l.
Definition text_sequence (value : pyval) : result (list string) := l ← _sequence value; texts l.

Definition _repository_path (text : string) : result string :=
  _ ← require (negb (blank text));
  _ ← require (negb (starts_with "/" text || starts_with "../" text
        || contains "/../" ("/" +:+ text +:+ "/")
        || bool_decide (text = ".") || bool_decide (text = "..")
        || contains backslash text || contains nul text));
  Ok (rstrip_char "/" text).

Definition _path_tuple (value : list string) : result (list string) :=
  _ ← require (zlen value <=? _MAX_PATHS);
  paths ← map_result _repository_path value;
  let sorted := sort_strings paths in
  _ ← require (distinct sorted);
  Ok sorted.

Definition _bounded_text_tuple (value : list string) (maximum : Z) : result (list string) :=
  _ ← require (zlen value <=? maximum);
  _ ← require (forallb (λ s, negb (blank s)) value);
  let sorted := sort_strings value in
  _ ← require (distinct sorted);
  Ok sorted.

(** ** VerificationCheck: ordered by (check_id, argv, expected_exit_code) *)

Record VerificationCheck := MkCheck {
  check_id : string;
  argv : list string;
  expected_exit_code : Z
}.
#[export] Instance check_eq_dec : EqDecision VerificationCheck.
Proof. solve_decision. Defined.

Definition token_ok (token : string) : bool :=
  negb (is_empty token) && negb (contains nul token) && (byte_len token <=? _MAX_TOKEN_BYTES).

Definition verification_check_init (c : VerificationCheck) : result VerificationCheck :=
  _ ← _identifier (check_id c);
  _ ← require (z_between 1 (zlen (argv c)) _MAX_ARGV);
  _ ← require (forallb token_ok (argv c));
  _ ← require (_SAFE_EXECUTABLE (default "" (head (argv c))));
  _ ← require (z_between 0 (expected_exit_code c) 255);
  Ok c.

(** The order of tuples of strings. *)
Fixpoint strings_compare (a b : list string) : comparison :=
  match a, b with
  | [], [] => Eq
  | [], _ => Lt
  | _, [] => Gt
  | x :: a', y :: b' =>
      match String.compare x y with Eq => strings_compare a' b' | c => c end
  end.
Definition check_compare (a b : VerificationCheck) : comparison :=
  match String.compare (check_id a) (check_id b) with
  | Eq => match strings_compare (argv a) (argv b) with
          | Eq => Z.compare (expected_exit_code a) (expected_exit_code b)
          | c => c end
  | c => c
  end.
Definition check_leb (a b : VerificationCheck) : bool :=
  match check_compare a b with Gt => false | _ => true end.
Definition sort_checks : list VerificationCheck → list VerificationCheck := isort check_leb.

(** ** GoalSpec *)

Record GoalSpec := MkGoal {
  goal_id : string;
  project_id : string;
  intent_id : string;
  objective : string;
  base_commit : string;
  constraints : list string;
  allowed_paths : list string;
  verification_checks : list VerificationCheck;
  max_attempts : Z;
  same_error_limit : Z;
  goal_schema_version : string
}.
#[export] Instance goal_eq_dec : EqDecision GoalSpec.
Proof. solve_decision. Defined.

Definition objective_ok (s : string) : bool := negb (blank s) && (byte_len s <=? 16 * 1024).

(** [GoalSpec.__post_init__]. *)
Definition goal_init (g : GoalSpec) : result GoalSpec :=
  _ ← require (bool_decide (goal_schema_version g = EXECUTION_GOAL_SCHEMA));
  _ ← identifiers [goal_id g; project_id g; intent_id g];
  _ ← require (objective_ok (objective g));
  _ ← require (re_commit (base_commit g));
  constraints ← _bounded_text_tuple (constraints g) 64;
  paths ← _path_tuple (allowed_paths g);
  _ ← require (z_between 1 (zlen (verification_checks g)) _MAX_CHECKS);
  let checks := sort_checks (verification_checks g) in
  _ ← require (distinct (map check_id checks));
  _ ← require (z_between 1 (max_attempts g) 3 && z_between 1 (same_error_limit g) 2);
  Ok (MkGoal (goal_id g) (project_id g) (intent_id g) (objective g) (base_commit g)
        constraints paths checks (max_attempts g) (same_error_limit g) (goal_schema_version g)).

(** ** Payloads *)

Definition check_payload (c : VerificationCheck) : pyval :=
  obj [("check_id", PStr (check_id c)); ("argv", pstrs (argv c));
       ("expected_exit_code", PInt (expected_exit_code c))].

Definition goal_fields (g : GoalSpec) : list (string * pyval) :=
  [("schema_version", PStr (goal_schema_version g));
   ("goal_id", PStr (goal_id g));
   ("project_id", PStr (project_id g));
   ("intent_id", PStr (intent_id g));
   ("objective", PStr (objective g));
   ("base_commit", PStr (base_commit g));
   ("constraints", pstrs (constraints g));
   ("allowed_paths", pstrs (allowed_paths g));
   ("verification_checks", PSequence (map check_payload (verification_checks g)));
   ("max_attempts", PInt (max_attempts g));
   ("same_error_limit", PInt (same_error_limit g))].
Definition goal_payload (g : GoalSpec) : pyval := obj (goal_fields g).
Definition goal_digest (g : GoalSpec) : result string := json_digest (goal_payload g).

Definition planning_payload (g : GoalSpec) : pyval :=
  obj [("schema_version", PStr (goal_schema_version g));
       ("goal_id", PStr (goal_id g));
       ("project_id", PStr (project_id g));
       ("intent_id", PStr (intent_id g));
       ("objective", PStr (objective g));
       ("constraints", pstrs (constraints g));
       ("allowed_paths", pstrs (allowed_paths g));
       ("verification_check_ids", pstrs (map check_id (verification_checks g)));
       ("max_attempts", PInt (max_attempts g));
       ("same_error_limit", PInt (same_error_limit g))].

(** ** TaskSpec *)

Record TaskSpec := MkTask {
  task_id : string;
  task_objective : string;
  depends_on : list string;
  task_allowed_paths : list string;
  checks : list VerificationCheck;
  task_max_attempts : Z;
  task_digest : string
}.
#[export] Instance task_eq_dec : EqDecision TaskSpec.
Proof. solve_decision. Defined.

Definition task_fields (t : TaskSpec) : list (string * pyval) :=
  [("task_id", PStr (task_id t));
   ("objective", PStr (task_objective t));
   ("depends_on", pstrs (depends_on t));
   ("allowed_paths", pstrs (task_allowed_paths t));
   ("checks", PSequence (map check_payload (checks t)));
   ("max_attempts", PInt (task_max_attempts t))].
Definition task_payload (t : TaskSpec) : pyval := obj (task_fields t).

Definition task_init (task_id objective : string) (depends_on allowed_paths : list string)
    (task_checks : list VerificationCheck) (max_attempts : Z) : result TaskSpec :=
  _ ← _identifier task_id;
  _ ← require (objective_ok objective);
  let dependencies := sorted_set depends_on in
  _ ← require (negb (bool_decide (task_id ∈ dependencies)) && forallb _IDENTIFIER dependencies);
  paths ← _path_tuple allowed_paths;
  let checks := sort_checks task_checks in
  _ ← require (z_between 1 (zlen checks) _MAX_CHECKS);
  _ ← require (distinct (map check_id checks));
  _ ← require (z_between 1 max_attempts 3);
  digest ← json_digest (task_payload
    (MkTask task_id objective dependencies paths checks max_attempts ""));
  Ok (MkTask task_id objective dependencies paths checks max_attempts digest).

(** ** Dependency order *)

(** [dependencies = {item.task_id: set(item.depends_on) for item in tasks}] *)
Definition dependencies_of (tasks : list TaskSpec) : list (string * list string) :=
  foldl (λ d t, dict_set (task_id t) (depends_on t) d) [] tasks.

Definition deps (dependencies : list (string * list string)) (id : string) : list string :=
  default [] (dict_get id dependencies).

(** The [while pending] loop; [fuel] bounds its iterations, each of which
    resolves at least one task. *)
Fixpoint resolve (fuel : nat) (dependencies : list (string * list string))
    (resolved pending : list string) : result (list string) :=
  match pending, fuel with
  | [], _ => Ok resolved
  | _, O => Err (RuntimeError "out of fuel")
  | _, S fuel' =>
      let ready := sort_strings
        (List.filter (λ item, subset_of (deps dependencies item) resolved) pending) in
      match ready with
      | [] => Err (PlanContractError "cyclic-plan")
      | _ => resolve fuel' dependencies (resolved ++ ready)
               (List.filter (λ item, negb (bool_decide (item ∈ ready))) pending)
      end
  end.

Definition _topological_order (tasks : list TaskSpec) : result (list string) :=
  let dependencies := dependencies_of tasks in
  resolve (length dependencies) dependencies [] (dict_keys dependencies).

Definition task_by_id (tasks : list TaskSpec) : list (string * TaskSpec) :=
  foldl (λ d t, dict_set (task_id t) t d) [] tasks.

(** [ancestors], filled in topological order. *)
Fixpoint ancestors_of (by_id : list (string * TaskSpec)) (order : list string)
    (ancestors : list (string * list string)) : result (list (string * list string)) :=
  match order with
  | [] => Ok ancestors
  | id :: order' =>
      t ← of_option KeyError (dict_get id by_id);
      sets ← map_result (λ d, of_option KeyError (dict_get d ancestors)) (depends_on t);
      ancestors_of by_id order' (dict_set id (depends_on t ++ concat sets) ancestors)
  end.

Fixpoint pairwise {A} (l : list A) : list (A * A) :=
  match l with
  | [] => []
  | x :: l' => match l' with [] => [] | y :: _ => (x, y) :: pairwise l' end
  end.

Definition is_writer (t : TaskSpec) : bool := negb (bool_decide (task_allowed_paths t = [])).

Definition _validate_writer_order (tasks : list TaskSpec) : result unit :=
  order ← _topological_order tasks;
  let by_id := task_by_id tasks in
  ancestors ← ancestors_of by_id order [];
  let writers := List.filter (λ id, match dict_get id by_id with
                                    | Some t => is_writer t | None => false end) order in
  raise_if (existsb (λ pc, negb (bool_decide (pc.1 ∈ deps ancestors pc.2))) (pairwise writers))
    (PlanContractError "parallel-writer-plan").

(** ** Plan *)

Record Plan := MkPlan {
  plan_id : string;
  plan_goal_id : string;
  plan_project_id : string;
  plan_intent_id : string;
  plan_revision : Z;
  supersedes_plan_id : option string;
  plan_base_commit : string;
  draft_digest : string;
  tasks : list TaskSpec;
  plan_schema_version : string;
  plan_digest : string
}.
#[export] Instance plan_eq_dec : EqDecision Plan.
Proof. solve_decision. Defined.

Definition plan_fields (p : Plan) (order : list string) : list (string * pyval) :=
  [("schema_version", PStr (plan_schema_version p));
   ("plan_id", PStr (plan_id p));
   ("goal_id", PStr (plan_goal_id p));
   ("project_id", PStr (plan_project_id p));
   ("intent_id", PStr (plan_intent_id p));
   ("plan_version", PInt (plan_revision p));
   ("supersedes_plan_id", match supersedes_plan_id p with Some s => PStr s | None => PNone end);
   ("base_commit", PStr (plan_base_commit p));
   ("draft_digest", PStr (draft_digest p));
   ("tasks", PSequence (map task_payload (tasks p)));
   ("topological_order", pstrs order)].

(** [plan.topological_order] *)
Definition topological_order (p : Plan) : result (list string) := _topological_order (tasks p).

Definition plan_payload (p : Plan) : result pyval :=
  order ← topological_order p; Ok (obj (plan_fields p order)).

Definition task_leb (a b : TaskSpec) : bool := String.leb (task_id a) (task_id b).

Definition with_tasks (p : Plan) (ts : list TaskSpec) (digest : string) : Plan :=
  MkPlan (plan_id p) (plan_goal_id p) (plan_project_id p) (plan_intent_id p) (plan_revision p)
    (supersedes_plan_id p) (plan_base_commit p) (draft_digest p) ts (plan_schema_version p) digest.

(** [Plan.__post_init__]; the [plan_digest] of the argument is ignored. *)
Definition plan_init (p : Plan) : result Plan :=
  _ ← require (bool_decide (plan_schema_version p = EXECUTION_PLAN_SCHEMA));
  _ ← identifiers [plan_id p; plan_goal_id p; plan_project_id p; plan_intent_id p];
  _ ← require (1 <=? plan_revision p);
  _ ← require (eqb (plan_revision p =? 1) (bool_decide (supersedes_plan_id p = None)));
  _ ← match supersedes_plan_id p with
      | None => Ok tt
      | Some s => _ ← _identifier s; require (negb (bool_decide (s = plan_id p)))
      end;
  _ ← require (re_commit (plan_base_commit p) && re_digest (draft_digest p));
  let sorted := isort task_leb (tasks p) in
  _ ← require (z_between 1 (zlen sorted) _MAX_TASKS);
  let ids := map task_id sorted in
  _ ← require (distinct ids);
  _ ← require (forallb (λ t, subset_of (depends_on t) ids) sorted);
  _ ← _topological_order sorted;
  _ ← _validate_writer_order sorted;
  payload ← plan_payload (with_tasks p sorted "");
  digest ← json_digest payload;
  Ok (with_tasks p sorted digest).

(** ** compile_plan *)

Definition _compile_task (goal : GoalSpec) (value : pyval) : result TaskSpec :=
  raw ← _mapping value;
  _ ← require (has_keys raw ["task_id"; "objective"; "depends_on"; "allowed_paths"; "checks"]);
  raw_dependencies ← _sequence (pget "depends_on" raw);
  raw_paths ← _sequence (pget "allowed_paths" raw);
  raw_checks ← _sequence (pget "checks" raw);
  _ ← require ((zlen raw_paths <=? _MAX_PATHS) && z_between 1 (zlen raw_checks) _MAX_CHECKS);
  paths ← texts raw_paths;
  _ ← raise_if (negb (subset_of paths (allowed_paths goal))) (PlanContractError "plan-path-outside-goal");
  check_ids ← texts raw_checks;
  _ ← require (distinct check_ids);
  let catalog := foldl (λ d c, dict_set (check_id c) c d) [] (verification_checks goal) in
  checks ← map_result (λ id, of_option (PlanContractError "plan-check-outside-goal")
             (dict_get id catalog)) check_ids;
  id ← _mapping_text raw "task_id";
  objective ← _mapping_text raw "objective";
  dependencies ← texts raw_dependencies;
  task_init id objective dependencies paths checks (max_attempts goal).

Definition check_ids_of (ts : list TaskSpec) : list string :=
  concat (map (λ t, map check_id (checks t)) ts).

Definition compile_plan (goal : GoalSpec) (draft : pyval) (previous : option Plan) : result Plan :=
  raw ← _mapping draft;
  _ ← require (has_keys raw ["schema_version"; "tasks"]);
  _ ← require (match pget "schema_version" raw with
               | PStr s => bool_decide (s = EXECUTION_PLAN_DRAFT_SCHEMA) | _ => false end);
  raw_tasks ← _sequence (pget "tasks" raw);
  _ ← require (z_between 1 (zlen raw_tasks) _MAX_TASKS);
  tasks ← map_result (_compile_task goal) raw_tasks;
  _ ← raise_if (negb (same_keys (check_ids_of tasks) (map check_id (verification_checks goal))))
        (PlanContractError "plan-check-coverage-incomplete");
  draft_digest ← json_digest draft;
  lineage ← match previous with
            | None => Ok (1, None)
            | Some p =>
                _ ← raise_if (negb (bool_decide (plan_goal_id p = goal_id goal) &&
                      bool_decide (plan_project_id p = project_id goal) &&
                      bool_decide (plan_intent_id p = intent_id goal) &&
                      bool_decide (plan_base_commit p = base_commit goal)))
                      (PlanContractError "invalid-plan-lineage");
                Ok (plan_revision p + 1, Some (plan_id p))
            end;
  let '(revision, supersedes) := lineage in
  digest ← goal_digest goal;
  identity ← json_digest (obj
    [("goal_digest", PStr digest);
     ("plan_version", PInt revision);
     ("supersedes_plan_id", match supersedes with Some s => PStr s | None => PNone end);
     ("draft_digest", PStr draft_digest);
     ("task_digests", pstrs (map task_digest tasks))]);
  plan_init (MkPlan ("plan-" +:+ take_bytes 32 (remove_prefix "sha256:" identity))
    (goal_id goal) (project_id goal) (intent_id goal) revision supersedes (base_commit goal)
    draft_digest tasks EXECUTION_PLAN_SCHEMA "").

(** ** Reading payloads back *)

Definition check_from_payload (item : pyval) : result VerificationCheck :=
  check ← _mapping item;
  id ← _mapping_text check "check_id";
  argv ← text_sequence (pget "argv" check);
  code ← _mapping_integer check "expected_exit_code";
  verification_check_init (MkCheck id argv code).

Definition checks_from_payload (value : pyval) : result (list VerificationCheck) :=
  l ← _sequence value; map_result check_from_payload l.

Definition goal_keys : list string :=
  ["schema_version"; "goal_id"; "project_id"; "intent_id"; "objective"; "base_commit";
   "constraints"; "allowed_paths"; "verification_checks"; "max_attempts"; "same_error_limit"].

Definition goal_from_payload (value : pyval) : result GoalSpec :=
  raw ← _mapping value;
  _ ← require (has_keys raw goal_keys);
  checks ← checks_from_payload (pget "verification_checks" raw);
  schema_version ← _mapping_text raw "schema_version";
  goal_id ← _mapping_text raw "goal_id";
  project_id ← _mapping_text raw "project_id";
  intent_id ← _mapping_text raw "intent_id";
  objective ← _mapping_text raw "objective";
  base_commit ← _mapping_text raw "base_commit";
  constraints ← text_sequence (pget "constraints" raw);
  allowed_paths ← text_sequence (pget "allowed_paths" raw);
  max_attempts ← _mapping_integer raw "max_attempts";
  same_error_limit ← _mapping_integer raw "same_error_limit";
  goal_init (MkGoal goal_id project_id intent_id objective base_commit constraints allowed_paths
    checks max_attempts same_error_limit schema_version).

Definition task_keys : list string :=
  ["task_id"; "objective"; "depends_on"; "allowed_paths"; "checks"; "max_attempts"].

Definition _task_from_payload (value : pyval) : result TaskSpec :=
  raw ← _mapping value;
  _ ← require (has_keys raw task_keys);
  checks ← checks_from_payload (pget "checks" raw);
  id ← _mapping_text raw "task_id";
  objective ← _mapping_text raw "objective";
  dependencies ← text_sequence (pget "depends_on" raw);
  paths ← text_sequence (pget "allowed_paths" raw);
  max_attempts ← _mapping_integer raw "max_attempts";
  task_init id objective dependencies paths checks max_attempts.

Definition plan_keys : list string :=
  ["schema_version"; "plan_id"; "goal_id"; "project_id"; "intent_id"; "plan_version";
   "supersedes_plan_id"; "base_commit"; "draft_digest"; "tasks"; "topological_order"].

Definition plan_from_payload (value : pyval) : result Plan :=
  raw ← _mapping value;
  _ ← require (has_keys raw plan_keys);
  raw_tasks ← _sequence (pget "tasks" raw);
  tasks ← map_result _task_from_payload raw_tasks;
  supersedes ← match pget "supersedes_plan_id" raw with
               | PNone => Ok None
               | PStr s => Ok (Some s)
               | _ => Err plan_error end;
  schema_version ← _mapping_text raw "schema_version";
  plan_id ← _mapping_text raw "plan_id";
  goal_id ← _mapping_text raw "goal_id";
  project_id ← _mapping_text raw "project_id";
  intent_id ← _mapping_text raw "intent_id";
  revision ← _mapping_integer raw "plan_version";
  base_commit ← _mapping_text raw "base_commit";
  draft_digest ← _mapping_text raw "draft_digest";
  plan ← plan_init (MkPlan plan_id goal_id project_id intent_id revision supersedes base_commit
    draft_digest tasks schema_version "");
  order ← text_sequence (pget "topological_order" raw);
  expected ← topological_order plan;
  _ ← require (bool_decide (order = expected));
  Ok plan.
