(* ===== verification/PlanFacts.v ===== *)
(** * Facts about plans: order, writers, compilation, payloads

    [_topological_order] and [_validate_writer_order] against their
    specifications, what [compile_plan] lets a provider's draft decide, and
    the round trips of the durable payloads. *)

From S2P Require Import Prelude PyStr PyFloat Json JsonText JsonFacts PyTime Contracts OutputSchema Gateway.
From S2P Require Import PlanCompiler.
From Stdlib Require Import ZArith Lia Ascii String Sorting.Sorted Sorting.Permutation.
From stdpp Require Import base gmap sets list strings relations.
Local Open Scope Z_scope.

Lemma require_ok c u : require c = Ok u ↔ c = true.
Proof. apply raise_unless_ok. Qed.

(** ** The topological order *)

Section Topological.
Context (D : list (string * list string)).

(** Every dependency of an element occurs before it. *)
Definition respects (l : list string) : Prop :=
  ∀ i x d, l !! i = Some x → d ∈ deps D x → ∃ j, (j < i)%nat ∧ l !! j = Some d.

(** A set of tasks none of which can ever start. *)
Definition stuck (S : list string) : Prop :=
  S ≠ [] ∧ (∀ x, x ∈ S → x ∈ dict_keys D) ∧
  ∀ x, x ∈ S → ∃ d, d ∈ deps D x ∧ (d ∈ S ∨ d ∉ dict_keys D).

Lemma respects_app l k : respects l → (∀ x d, x ∈ k → d ∈ deps D x → d ∈ l) → respects (l ++ k).
Proof.
  intros Hl Hk i x d Hi Hd. apply lookup_app_Some in Hi as [Hi|[Hi Hi']].
  - destruct (Hl i x d Hi Hd) as (j & Hj & Hjd). exists j. split; [done|].
    by apply lookup_app_l_Some.
  - apply list_elem_of_lookup_2 in Hi'. specialize (Hk x d Hi' Hd).
    apply list_elem_of_lookup in Hk as [j Hj]. exists j. split; [|by apply lookup_app_l_Some].
    apply lookup_lt_Some in Hj. lia.
Qed.

Definition ready_of (resolved pending : list string) : list string :=
  sort_strings (List.filter (λ item, subset_of (deps D item) resolved) pending).
Definition remaining (ready pending : list string) : list string :=
  List.filter (λ item, negb (bool_decide (item ∈ ready))) pending.

Lemma elem_of_ready resolved pending x :
  x ∈ ready_of resolved pending ↔ x ∈ pending ∧ ∀ d, d ∈ deps D x → d ∈ resolved.
Proof.
  unfold ready_of. by rewrite elem_of_sort_strings, elem_of_listfilter, subset_of_spec.
Qed.

Lemma elem_of_remaining ready pending x : x ∈ remaining ready pending ↔ x ∈ pending ∧ x ∉ ready.
Proof. unfold remaining. by rewrite elem_of_listfilter, negb_true_iff, bool_decide_eq_false. Qed.

Lemma NoDup_ready resolved pending : NoDup pending → NoDup (ready_of resolved pending).
Proof.
  intros H. unfold ready_of, sort_strings. rewrite isort_perm. by apply NoDup_listfilter.
Qed.

Lemma pending_split resolved pending : NoDup pending →
  pending ≡ₚ ready_of resolved pending ++ remaining (ready_of resolved pending) pending.
Proof.
  intros H. apply NoDup_Permutation; [done| |].
  - apply NoDup_app. split; [by apply NoDup_ready|]. split; [|by apply NoDup_listfilter].
    intros x Hx. rewrite elem_of_remaining. tauto.
  - intros x. rewrite elem_of_app, elem_of_remaining, elem_of_ready.
    destruct (decide (x ∈ ready_of resolved pending)) as [Hx|Hx]; rewrite elem_of_ready in Hx; tauto.
Qed.

Lemma resolve_step n resolved pending : pending ≠ [] → resolve (S n) D resolved pending =
  match ready_of resolved pending with
  | [] => Err (PlanContractError "cyclic-plan")
  | _ => resolve n D (resolved ++ ready_of resolved pending)
           (remaining (ready_of resolved pending) pending)
  end.
Proof. by destruct pending. Qed.

(** The loop invariant, and what the loop returns. *)
Lemma resolve_spec n : ∀ resolved pending, NoDup pending → (length pending <= n)%nat →
  respects resolved → resolved ++ pending ≡ₚ dict_keys D →
  match resolve n D resolved pending with
  | Ok order => order ≡ₚ dict_keys D ∧ respects order
  | Err e => e = PlanContractError "cyclic-plan" ∧ ∃ S, stuck S
  end.
Proof.
  induction n as [|n IH]; intros resolved pending Hnd Hlen Hr Hp.
  { destruct pending; simpl in *; [|lia]. by rewrite app_nil_r in Hp. }
  destruct (decide (pending = [])) as [->|Hne]; [by rewrite app_nil_r in Hp|].
  rewrite resolve_step by done. pose proof (pending_split resolved pending Hnd) as Hs.
  destruct (ready_of resolved pending) as [|r rest] eqn:E.
  - split; [done|]. exists pending. split_and!; [done| |].
    + intros x Hx. rewrite <-Hp. rewrite elem_of_app. by right.
    + intros x Hx. destruct (decide (Forall (λ d, d ∈ resolved) (deps D x))) as [Hall|Hnot].
      * exfalso. apply (elem_of_nil (A := string) x). rewrite <-E. apply elem_of_ready.
        rewrite Forall_forall in Hall. done.
      * apply not_Forall_Exists in Hnot; [|intros ?; apply _].
        apply Exists_exists in Hnot as (d & Hd & Hnd'). exists d. split; [done|].
        destruct (decide (d ∈ dict_keys D)) as [Hk|Hk]; [|by right].
        rewrite <-Hp in Hk. apply elem_of_app in Hk as [?|?]; [done|by left].
  - rewrite <-E in *. apply IH.
    + by apply NoDup_listfilter.
    + rewrite Hs in Hlen. rewrite length_app in Hlen.
      assert (length (ready_of resolved pending) ≠ 0%nat) by (rewrite E; done). lia.
    + apply respects_app; [done|]. intros x d Hx. apply elem_of_ready in Hx as [_ Hx]. apply Hx.
    + by rewrite <-app_assoc, <-Hs.
Qed.

(** No order can place the members of a stuck set. *)
Lemma respects_not_stuck l S : l ≡ₚ dict_keys D → respects l → stuck S → False.
Proof.
  intros Hl Hr (Hne & Hin & Hs). destruct S as [|s S']; [done|]. set (S := s :: S') in *.
  assert (Hnone : ∀ n x i, (i < n)%nat → l !! i = Some x → x ∈ S → False).
  { induction n as [|n IH]; intros x i Hi Hx HxS; [lia|].
    destruct (Hs x HxS) as (d & Hd & Hor). destruct (Hr i x d Hx Hd) as (j & Hj & Hjd).
    assert (HdS : d ∈ S).
    { destruct Hor as [?|Hk]; [done|]. exfalso. apply Hk. rewrite <-Hl.
      by eapply list_elem_of_lookup_2. }
    apply (IH d j); [lia|done|done]. }
  assert (Hsl : s ∈ l) by (rewrite Hl; apply Hin; by left).
  apply list_elem_of_lookup in Hsl as [i Hi]. eapply (Hnone (Datatypes.S i) s i); [lia|done|by left].
Qed.
End Topological.

Section Tasks.
Context (ts : list TaskSpec) (Hnd : NoDup (map task_id ts)).

Lemma dependencies_of_eq : dependencies_of ts = map (λ t, (task_id t, depends_on t)) ts.
Proof. by apply dict_comprehension. Qed.

Lemma dependencies_keys : dict_keys (dependencies_of ts) = map task_id ts.
Proof. rewrite dependencies_of_eq. unfold dict_keys. by rewrite <-list_fmap_compose. Qed.

Lemma deps_task t : t ∈ ts → deps (dependencies_of ts) (task_id t) = depends_on t.
Proof. intros Ht. unfold deps. rewrite dependencies_of_eq. by rewrite dict_get_map. Qed.

Lemma task_of_id id : id ∈ map task_id ts → ∃ t, t ∈ ts ∧ task_id t = id.
Proof. intros (t & -> & ?)%list_elem_of_fmap. eauto. Qed.

Lemma topological_cases :
  match _topological_order ts with
  | Ok order => order ≡ₚ map task_id ts ∧ respects (dependencies_of ts) order
  | Err e => e = PlanContractError "cyclic-plan" ∧ ∃ S, stuck (dependencies_of ts) S
  end.
Proof.
  unfold _topological_order. rewrite <-dependencies_keys. apply resolve_spec.
  - by rewrite dependencies_keys.
  - unfold dict_keys. by rewrite length_fmap.
  - intros i x d. by rewrite lookup_nil.
  - done.
Qed.

(** Direct and transitive dependency. *)
Definition depends (a b : string) : Prop := ∃ t, t ∈ ts ∧ task_id t = b ∧ a ∈ depends_on t.

Lemma depends_deps a b : depends a b ↔ b ∈ map task_id ts ∧ a ∈ deps (dependencies_of ts) b.
Proof.
  split.
  - intros (t & Ht & <- & Ha). rewrite deps_task by done. split; [|done].
    apply list_elem_of_fmap. eauto.
  - intros [(t & Ht & <-)%task_of_id Ha]. rewrite deps_task in Ha by done. by exists t.
Qed.

(** A transitive dependency comes earlier in any order that respects them. *)
Lemma tc_before order a b i : respects (dependencies_of ts) order → tc depends a b →
  order !! i = Some b → ∃ j, (j < i)%nat ∧ order !! j = Some a.
Proof.
  intros Hr H. revert i. induction H as [a b Hab|a c b Hac Hcb IH]; intros i Hi.
  - apply depends_deps in Hab as [_ Hab]. by apply (Hr i b).
  - destruct (IH i Hi) as (j & Hj & Hjc). apply depends_deps in Hac as [_ Hac].
    destruct (Hr j c a Hjc Hac) as (k & Hk & ?). exists k. split; [lia|done].
Qed.
End Tasks.

(** For tasks with distinct identifiers the
    resolution loop always terminates within its fuel: it returns every task
    exactly once with each dependency strictly before its dependents, or it
    raises cyclic-plan; and it raises exactly when some non-empty set of tasks
    is stuck, each member waiting for a member or for an unknown task. *)
Theorem topological_order_correct ts : NoDup (map task_id ts) →
  (∃ order, _topological_order ts = Ok order ∧ order ≡ₚ map task_id ts ∧
     (∀ i t d, t ∈ ts → order !! i = Some (task_id t) → d ∈ depends_on t →
        ∃ j, (j < i)%nat ∧ order !! j = Some d) ∧
     ¬ ∃ S, stuck (dependencies_of ts) S) ∨
  (_topological_order ts = Err (PlanContractError "cyclic-plan") ∧
     ∃ S, stuck (dependencies_of ts) S).
Proof.
  intros Hnd. pose proof (topological_cases ts Hnd) as H.
  destruct (_topological_order ts) as [order|e]; [left|right; by destruct H as [-> ?]].
  destruct H as [Hp Hr]. exists order. split_and!; [done|done| |].
  - intros i t d Ht Hi Hd. apply (Hr i (task_id t) d Hi). by rewrite deps_task.
  - intros [S HS]. eapply respects_not_stuck; [|done|done]. by rewrite dependencies_keys.
Qed.

Lemma StronglySorted_weaken {A} (R R' : A → A → Prop) l :
  (∀ x y, R x y → R' x y) → StronglySorted R l → StronglySorted R' l.
Proof.
  intros H. induction 1 as [|x l _ IH Hx]; constructor; [done|]. eapply Forall_impl; [exact Hx|]. auto.
Qed.

Lemma StronglySorted_total {A} (R : A → A → Prop) l x y :
  StronglySorted R l → x ∈ l → y ∈ l → x = y ∨ R x y ∨ R y x.
Proof.
  induction 1 as [|z l _ IH Hz]; [by intros ?%elem_of_nil|]. rewrite Forall_forall in Hz.
  intros [->|Hx]%elem_of_cons [->|Hy]%elem_of_cons; auto.
Qed.

(** A filtered list keeps the order of the positions. *)
Lemma filter_positions (f : string → bool) order :
  StronglySorted (λ a b, ∃ i j, (i < j)%nat ∧ order !! i = Some a ∧ order !! j = Some b)
    (List.filter f order).
Proof.
  induction order as [|x l IH]; simpl; [constructor|].
  assert (Hshift : StronglySorted (λ a b, ∃ i j, (i < j)%nat ∧ (x :: l) !! i = Some a ∧
    (x :: l) !! j = Some b) (List.filter f l)).
  { eapply StronglySorted_weaken; [|exact IH]. simpl. intros a b (i & j & ? & ? & ?).
    exists (S i), (S j). simpl. split; [lia|done]. }
  destruct (f x); [|exact Hshift].
  constructor; [exact Hshift|]. apply Forall_forall. intros y Hy.
  apply elem_of_listfilter in Hy as [[j Hj]%list_elem_of_lookup _].
  exists 0%nat, (S j). simpl. split; [lia|done].
Qed.

(** ** Writers *)

Section Writers.
Context (ts : list TaskSpec) (Hnd : NoDup (map task_id ts)).

Definition known : Prop := ∀ t d, t ∈ ts → d ∈ depends_on t → d ∈ map task_id ts.

Lemma task_by_id_eq : task_by_id ts = map (λ t, (task_id t, t)) ts.
Proof. by apply (dict_comprehension task_id (λ t, t)). Qed.

Lemma task_by_id_get t : t ∈ ts → dict_get (task_id t) (task_by_id ts) = Some t.
Proof. intros Ht. rewrite task_by_id_eq. by apply (dict_get_map task_id (λ t, t)). Qed.

(** The ancestor sets computed so far are the transitive dependencies. *)
Definition ancestors_exact (done_ : list string) (anc : list (string * list string)) : Prop :=
  (∀ id, id ∈ done_ → ∃ s, dict_get id anc = Some s) ∧
  ∀ id s x, dict_get id anc = Some s → x ∈ s ↔ tc (depends ts) x id.

Lemma tc_last t x : t ∈ ts →
  tc (depends ts) x (task_id t) ↔ x ∈ depends_on t ∨ ∃ d, d ∈ depends_on t ∧ tc (depends ts) x d.
Proof.
  intros Ht.
  assert (Hd : ∀ d, depends ts d (task_id t) ↔ d ∈ depends_on t).
  { intros d. rewrite (depends_deps ts Hnd), (deps_task ts Hnd) by done. split; [by intros [_ ?]|].
    intros ?. split; [|done]. apply list_elem_of_fmap. eauto. }
  split.
  - intros H. remember (task_id t) as b eqn:Eb. revert t Ht Eb Hd.
    induction H as [a b Hab|a c b Hac Hcb IH]; intros t Ht -> Hd.
    + left. by apply Hd.
    + right. destruct (IH t Ht eq_refl Hd) as [?|(d & ? & ?)].
      * exists c. split; [done|by apply tc_once].
      * exists d. split; [done|]. by eapply tc_l.
  - intros [H|(d & H & H')].
    + apply tc_once. by apply Hd.
    + eapply tc_r; [done|]. by apply Hd.
Qed.

Lemma ancestors_of_spec rest : ∀ done_ anc,
  respects (dependencies_of ts) (done_ ++ rest) → (∀ x, x ∈ rest → x ∈ map task_id ts) →
  ancestors_exact done_ anc →
  ∃ anc', ancestors_of (task_by_id ts) rest anc = Ok anc' ∧ ancestors_exact (done_ ++ rest) anc'.
Proof.
  induction rest as [|id rest IH]; intros done_ anc Hr Hin Ha; simpl.
  { exists anc. by rewrite app_nil_r. }
  destruct (task_of_id ts id) as (t & Ht & <-); [apply Hin; by left|].
  rewrite task_by_id_get by done. simpl.
  assert (Hdone : ∀ d, d ∈ depends_on t → d ∈ done_).
  { intros d Hd. destruct (Hr (length done_) (task_id t) d) as (j & Hj & Hjd).
    - by rewrite list_lookup_middle.
    - by rewrite (deps_task ts Hnd).
    - rewrite lookup_app_l in Hjd by done. by eapply list_elem_of_lookup_2. }
  assert (Hsets : ∃ sets, map_result (λ d, of_option KeyError (dict_get d anc)) (depends_on t) = Ok sets ∧
    ∀ x, x ∈ concat sets ↔ ∃ d, d ∈ depends_on t ∧ tc (depends ts) x d).
  { clear -Ha Hdone. induction (depends_on t) as [|d l IHl]; simpl.
    - exists []. split; [done|]. intros x. simpl. split; [by intros ?%elem_of_nil|].
      by intros (d & ?%elem_of_nil & _).
    - destruct (proj1 Ha d) as [s Hs]; [apply Hdone; by left|]. rewrite Hs. simpl.
      destruct IHl as (sets & -> & Hx); [intros; apply Hdone; by right|]. simpl.
      exists (s :: sets). split; [done|]. intros x. simpl. rewrite elem_of_app, Hx.
      setoid_rewrite elem_of_cons. rewrite (proj2 Ha d s x Hs). naive_solver. }
  destruct Hsets as (sets & -> & Hsets). simpl.
  destruct (IH (done_ ++ [task_id t]) (dict_set (task_id t) (depends_on t ++ concat sets) anc))
    as (anc' & -> & Hanc').
  - by rewrite <-app_assoc.
  - intros x Hx. apply Hin. by right.
  - split.
    + intros id Hid. rewrite dict_get_set. destruct (decide (id = task_id t)); [eauto|].
      apply elem_of_app in Hid as [Hid|Hid%list_elem_of_singleton]; [|done]. by apply (proj1 Ha).
    + intros id s x. rewrite dict_get_set. destruct (decide (id = task_id t)) as [->|].
      * intros [= <-]. rewrite (tc_last t x Ht), elem_of_app, Hsets. done.
      * apply (proj2 Ha).
  - exists anc'. split; [done|]. by rewrite <-app_assoc in Hanc'.
Qed.

Definition writer (id : string) : Prop := ∃ t, t ∈ ts ∧ task_id t = id ∧ task_allowed_paths t ≠ [].

Definition writers_of (order : list string) : list string :=
  List.filter (λ id, match dict_get id (task_by_id ts) with
                     | Some t => is_writer t | None => false end) order.

Lemma elem_of_writers order id : order ≡ₚ map task_id ts →
  id ∈ writers_of order ↔ writer id.
Proof.
  intros Hp. unfold writers_of, writer. rewrite elem_of_listfilter, Hp. split.
  - intros [(t & Ht & <-)%task_of_id Hw]. rewrite task_by_id_get in Hw by done.
    exists t. unfold is_writer in Hw. by inv_ok.
  - intros (t & Ht & <- & Hw). split; [apply list_elem_of_fmap; eauto|].
    rewrite task_by_id_get by done. unfold is_writer. by rewrite bool_decide_eq_false_2.
Qed.

(** Writers appear in the order of the plan. *)
Lemma writers_sorted order :
  StronglySorted (λ a b, ∃ i j, (i < j)%nat ∧ order !! i = Some a ∧ order !! j = Some b)
    (writers_of order).
Proof. apply filter_positions. Qed.
End Writers.

Lemma pairwise_sorted {A} (R : A → A → Prop) l :
  (∀ x y, (x, y) ∈ pairwise l → R x y) ↔ Sorted R l.
Proof.
  induction l as [|x l IH]; simpl.
  - split; [constructor|]. by intros _ x y ?%elem_of_nil.
  - destruct l as [|y l].
    + split; [repeat constructor|]. by intros _ a b ?%elem_of_nil.
    + setoid_rewrite elem_of_cons. split.
      * intros H. constructor; [apply IH; auto|]. constructor. apply H. by left.
      * intros [H1 H2]%Sorted_inv a b [[= -> ->]|Hin]; [by inversion H2|].
        by apply (proj2 IH H1).
Qed.

Lemma pairwise_elem {A} (l : list A) x y : (x, y) ∈ pairwise l → x ∈ l ∧ y ∈ l.
Proof.
  induction l as [|z l IH]; simpl; [by intros ?%elem_of_nil|].
  destruct l as [|w l]; [by intros ?%elem_of_nil|].
  rewrite !elem_of_cons. intros [[= -> ->]|H]; [auto|]. apply IH in H. rewrite !elem_of_cons in H. tauto.
Qed.

(** Consecutive writers that depend on one another. *)
Definition chain_broken (ancestors : list (string * list string)) (writers : list string) : bool :=
  existsb (λ pc, negb (bool_decide (pc.1 ∈ deps ancestors pc.2))) (pairwise writers).

(** Along any topological order the consecutive writers form a chain exactly
    when all writers are ordered by transitive dependency. *)
Lemma writer_chain ts order : NoDup (map task_id ts) → order ≡ₚ map task_id ts →
  respects (dependencies_of ts) order →
  ∃ anc, ancestors_of (task_by_id ts) order [] = Ok anc ∧
  ((chain_broken anc (writers_of ts order) = false ∧
     ∀ a b, writer ts a → writer ts b → a ≠ b → tc (depends ts) a b ∨ tc (depends ts) b a) ∨
   (chain_broken anc (writers_of ts order) = true ∧
     ∃ a b, writer ts a ∧ writer ts b ∧ a ≠ b ∧ ¬ tc (depends ts) a b ∧ ¬ tc (depends ts) b a)).
Proof.
  intros Hnd Hp Hr.
  destruct (ancestors_of_spec ts Hnd order [] []) as (anc & Hanc & Ha1 & Ha2); [done| |split|].
  { intros x. by rewrite Hp. }
  { by intros id ?%elem_of_nil. }
  { done. }
  exists anc. split; [done|]. simpl in Ha1.
  assert (Hd : ∀ p c, (p, c) ∈ pairwise (writers_of ts order) → p ∈ deps anc c ↔ tc (depends ts) p c).
  { intros p c [_ Hc]%pairwise_elem.
    apply (elem_of_writers ts Hnd order c Hp) in Hc as (t & Ht & <- & _).
    destruct (Ha1 (task_id t)) as [s Hs]; [rewrite Hp; apply list_elem_of_fmap; eauto|].
    unfold deps. rewrite Hs. simpl. by apply Ha2. }
  destruct (chain_broken _ _) eqn:E; unfold chain_broken in E.
  - right. split; [done|]. apply existsb_elem in E as ([p c] & Hpc & Hnot). simpl in Hnot. inv_ok.
    rewrite (Hd p c Hpc) in Hnot. destruct (pairwise_elem _ _ _ Hpc) as [Hwp Hwc].
    pose proof (StronglySorted_Sorted (writers_sorted ts order)) as Hs.
    destruct (proj2 (pairwise_sorted _ _) Hs p c Hpc) as (i & j & Hij & Hi & Hj).
    assert (Hndo : NoDup order) by (by rewrite Hp).
    exists p, c. split_and!; [by apply (elem_of_writers ts Hnd order p Hp)
      |by apply (elem_of_writers ts Hnd order c Hp)| |done|].
    + intros ->. pose proof (NoDup_lookup order i j c Hndo Hi Hj). lia.
    + intros H. destruct (tc_before ts Hnd order c p i Hr H Hi) as (k & Hki & Hkc).
      pose proof (NoDup_lookup order k j c Hndo Hkc Hj). lia.
  - left. split; [done|]. rewrite existsb_false in E.
    assert (Hs : Sorted (tc (depends ts)) (writers_of ts order)).
    { apply pairwise_sorted. intros p c Hpc. apply Hd; [done|]. specialize (E _ Hpc). simpl in E. by inv_ok. }
    apply Sorted_StronglySorted in Hs; [|intros x y z; by apply tc_transitive].
    intros a b Hwa Hwb Hne. apply (elem_of_writers ts Hnd order _ Hp) in Hwa, Hwb.
    by destruct (StronglySorted_total _ _ a b Hs Hwa Hwb) as [?|[?|?]]; auto.
Qed.

(** The outcome of the writer check on tasks that have an order. *)
Lemma writer_cases ts order : NoDup (map task_id ts) → _topological_order ts = Ok order →
  (_validate_writer_order ts = Ok tt ∧
     ∀ a b, writer ts a → writer ts b → a ≠ b → tc (depends ts) a b ∨ tc (depends ts) b a) ∨
  (_validate_writer_order ts = Err (PlanContractError "parallel-writer-plan") ∧
     ∃ a b, writer ts a ∧ writer ts b ∧ a ≠ b ∧ ¬ tc (depends ts) a b ∧ ¬ tc (depends ts) b a).
Proof.
  intros Hnd Ho. pose proof (topological_cases ts Hnd) as Hc. rewrite Ho in Hc. destruct Hc as [Hp Hr].
  destruct (writer_chain ts order Hnd Hp Hr) as (anc & Hanc & Hc).
  unfold _validate_writer_order. rewrite Ho. simpl. rewrite Hanc. simpl.
  fold (writers_of ts order). fold (chain_broken anc (writers_of ts order)).
  destruct Hc as [[-> H]|[-> H]]; [by left|by right].
Qed.

(** For tasks with distinct identifiers, known
    dependencies and a topological order, the plan is refused as
    parallel-writer-plan exactly when two different tasks that may write files
    are not ordered by transitive dependency; otherwise it is accepted. *)
Theorem writer_order_exact ts order :
  NoDup (map task_id ts) → known ts → _topological_order ts = Ok order →
  (_validate_writer_order ts = Ok tt ↔
     ∀ a b, writer ts a → writer ts b → a ≠ b → tc (depends ts) a b ∨ tc (depends ts) b a) ∧
  (_validate_writer_order ts = Ok tt ∨
     _validate_writer_order ts = Err (PlanContractError "parallel-writer-plan")).
Proof.
  intros Hnd Hk Ho. destruct (writer_cases ts order Hnd Ho) as [[-> H]|[-> (a & b & H)]].
  - split; [done|by left].
  - split; [|by right]. split; [done|]. intros Hall. destruct H as (Ha & Hb & Hne & H1 & H2).
    by destruct (Hall a b Ha Hb Hne).
Qed.

(** ** Texts *)

Lemma string_rev_app_list s acc : list_ascii_of_string (string_rev_app s acc) =
  rev (list_ascii_of_string s) ++ list_ascii_of_string acc.
Proof. revert acc. induction s as [|a s IH]; intros acc; simpl; [done|]. by rewrite IH, <-app_assoc. Qed.

Lemma string_rev_involutive s : string_rev (string_rev s) = s.
Proof.
  rewrite <-(string_of_list_ascii_of_string (string_rev (string_rev s))).
  unfold string_rev. rewrite !string_rev_app_list. simpl. rewrite !app_nil_r, rev_involutive.
  apply string_of_list_ascii_of_string.
Qed.

Lemma lstrip_idemp c s : lstrip_char c (lstrip_char c s) = lstrip_char c s.
Proof. induction s as [|a s IH]; simpl; [done|]. destruct (Ascii.eqb a c) eqn:E; [done|]. simpl. by rewrite E. Qed.

Lemma rstrip_idemp c s : rstrip_char c (rstrip_char c s) = rstrip_char c s.
Proof. unfold rstrip_char. by rewrite string_rev_involutive, lstrip_idemp. Qed.

(** A text that starts with a visible ASCII character is not blank. *)
Lemma visible_not_blank a s : 33 <= byte_at a < 127 → blank (String a s) = false.
Proof.
  intros Ha. unfold blank. cbn [decode_utf8].
  rewrite (proj2 (Z.ltb_lt (byte_at a) 192)) by lia. simpl. apply andb_false_iff. left.
  unfold is_space. destruct (byte_at a) as [|p|p]; lia.
Qed.

Lemma alnum_visible a : is_alnum a = true → 33 <= byte_at a < 127.
Proof. unfold is_alnum, is_digit, is_upper, is_lower, in_range. lia. Qed.

Lemma lower_hex_visible a : is_lower_hex a = true → 33 <= byte_at a < 127.
Proof. unfold is_lower_hex, is_digit, in_range. lia. Qed.

Lemma identifier_not_blank s : _IDENTIFIER s = true → blank s = false.
Proof.
  unfold _IDENTIFIER, re_first_rest. destruct s as [|a s]; [done|]. intros H.
  apply andb_true_iff in H as [H _]. apply andb_true_iff in H as [H _].
  by apply visible_not_blank, alnum_visible.
Qed.

Lemma commit_not_blank s : re_commit s = true → blank s = false.
Proof.
  unfold re_commit. destruct s as [|a s]; [done|]. intros H.
  apply andb_true_iff in H as [_ H]. unfold all_chars in H. simpl in H. apply andb_true_iff in H as [H _].
  by apply visible_not_blank, lower_hex_visible.
Qed.

Lemma digest_not_blank s : re_digest s = true → blank s = false.
Proof.
  unfold re_digest. destruct s as [|a s]; [done|]. intros H.
  apply andb_true_iff in H as [H _]. apply andb_true_iff in H as [H _].
  change (Ascii.eqb "s" a && starts_with "ha256:" s = true) in H.
  apply andb_true_iff in H as [H _]. apply Ascii.eqb_eq in H as <-.
  by apply visible_not_blank.
Qed.

Lemma text_ok v s : _text v = Ok s ↔ v = PStr s ∧ blank s = false.
Proof.
  destruct v; cbn [_text]; try (split; [done|by intros [??]]). split.
  - intros H. inv_ok. apply require_ok in Hx. by inv_ok.
  - intros [[= ->] ->]. done.
Qed.

Lemma texts_pstrs l : Forall (λ s, blank s = false) l → texts (map PStr l) = Ok l.
Proof. induction 1 as [|s l Hs _ IH]; [done|]. unfold texts in *. simpl map. cbn [map_result].
  rewrite (proj2 (text_ok (PStr s) s)) by done. cbn [mbind result_bind]. by rewrite IH.
Qed.

Lemma texts_ok l ss : texts l = Ok ss → l = map PStr ss ∧ Forall (λ s, blank s = false) ss.
Proof.
  unfold texts. rewrite map_result_ok. induction 1 as [|v s l ss Hv _ [-> IH]]; [done|].
  apply text_ok in Hv as [-> ?]. split; [done|by constructor].
Qed.

Lemma map_PStr_inj a b : map PStr a = map PStr b → a = b.
Proof. revert b. induction a as [|x a IH]; intros [|y b]; simpl; intros H; simplify_eq; f_equal; auto. Qed.

(** ** Constructors *)

Lemma repository_path_ok t p : _repository_path t = Ok p →
  p = rstrip_char "/" t ∧ blank t = false ∧ t ≠ ".".
Proof.
  unfold _repository_path. intros H. apply bind_ok in H as (? & H1 & H). apply bind_ok in H as (? & H2 & H).
  apply require_ok in H1, H2. injection H as <-. inv_ok. done.
Qed.

Lemma path_tuple_ok l l' : _path_tuple l = Ok l' →
  NoDup l' ∧ StronglySorted (leR String.leb) l' ∧
  (∀ p, p ∈ l' ↔ ∃ t, t ∈ l ∧ _repository_path t = Ok p).
Proof.
  unfold _path_tuple. intros H. apply bind_ok in H as (? & _ & H). apply bind_ok in H as (ps & Hps & H).
  apply bind_ok in H as (? & Hd & H). injection H as <-. apply require_ok in Hd.
  unfold distinct in Hd. apply bool_decide_eq_true in Hd. split; [done|]. split; [apply sort_strings_sorted|].
  intros p. rewrite elem_of_sort_strings. apply map_result_ok in Hps. split.
  - intros [i Hi]%list_elem_of_lookup. destruct (Forall2_lookup_r _ _ _ _ _ Hps Hi) as (t & Ht & ?).
    exists t. split; [by eapply list_elem_of_lookup_2|done].
  - intros (t & [i Hi]%list_elem_of_lookup & Hp).
    destruct (Forall2_lookup_l _ _ _ _ _ Hps Hi) as (p' & Hp' & ?).
    assert (p = p') as -> by congruence. by eapply list_elem_of_lookup_2.
Qed.

Lemma path_tuple_accepts l l' t : _path_tuple l = Ok l' → t ∈ l → ∃ p, _repository_path t = Ok p.
Proof.
  unfold _path_tuple. intros H [i Hi]%list_elem_of_lookup. apply bind_ok in H as (? & _ & H).
  apply bind_ok in H as (ps & Hps & _). apply map_result_ok in Hps.
  destruct (Forall2_lookup_l _ _ _ _ _ Hps Hi) as (p & _ & ?). eauto.
Qed.

(** Paths that a constructor kept have no trailing slash. *)
Lemma path_tuple_stripped l l' p : _path_tuple l = Ok l' → p ∈ l' → rstrip_char "/" p = p.
Proof.
  intros (_ & _ & H)%path_tuple_ok (t & _ & Ht)%H. apply repository_path_ok in Ht as [-> _].
  apply rstrip_idemp.
Qed.

Definition task_ok (t : TaskSpec) : Prop :=
  task_init (task_id t) (task_objective t) (depends_on t) (task_allowed_paths t) (checks t)
    (task_max_attempts t) = Ok t.

Lemma task_init_ok id o ds ps cs m t : task_init id o ds ps cs m = Ok t →
  _IDENTIFIER id = true ∧ objective_ok o = true ∧
  id ∉ sorted_set ds ∧ forallb _IDENTIFIER (sorted_set ds) = true ∧
  (∃ paths, _path_tuple ps = Ok paths ∧
     ∃ digest, json_digest (task_payload (MkTask id o (sorted_set ds) paths (sort_checks cs) m "")) = Ok digest ∧
     t = MkTask id o (sorted_set ds) paths (sort_checks cs) m digest) ∧
  z_between 1 (zlen cs) _MAX_CHECKS = true ∧ NoDup (map check_id cs) ∧ z_between 1 m 3 = true.
Proof.
  unfold task_init. intros H. do 3 (apply bind_ok in H as (? & ? & H)).
  apply bind_ok in H as (paths & Hp & H). do 3 (apply bind_ok in H as (? & ? & H)).
  apply bind_ok in H as (digest & Hd & H). injection H as <-.
  unfold _identifier in *. rewrite !require_ok in *. apply andb_true_iff in H2 as [Hn Hi].
  apply negb_true_iff, bool_decide_eq_false in Hn.
  apply bool_decide_eq_true in H4. unfold zlen, sort_checks in *. rewrite isort_length in H3.
  split_and!; try done; [eauto|].
  assert (E : map check_id (isort check_leb cs) ≡ₚ map check_id cs) by (apply Permutation_map, isort_perm).
  by rewrite E in H4.
Qed.

(** A goal some constructor call returned. *)
Definition goal_built (g : GoalSpec) : Prop := ∃ raw, goal_init raw = Ok g.

Lemma goal_init_ok g g' : goal_init g = Ok g' →
  (∃ paths, _path_tuple (allowed_paths g) = Ok paths ∧ allowed_paths g' = paths) ∧
  NoDup (map check_id (verification_checks g)) ∧
  verification_checks g' = sort_checks (verification_checks g) ∧
  constraints g' = sort_strings (constraints g) ∧
  Forall (λ s, blank s = false) (constraints g) ∧
  z_between 1 (max_attempts g) 3 = true ∧ z_between 1 (same_error_limit g) 2 = true ∧
  goal_schema_version g = EXECUTION_GOAL_SCHEMA ∧
  forallb _IDENTIFIER [goal_id g; project_id g; intent_id g] = true ∧
  objective_ok (objective g) = true ∧ re_commit (base_commit g) = true.
Proof.
  unfold goal_init. intros H. do 4 (apply bind_ok in H as (? & ? & H)).
  apply bind_ok in H as (cs & Hc & H). apply bind_ok in H as (paths & Hp & H).
  do 3 (apply bind_ok in H as (? & ? & H)). injection H as <-. simpl.
  unfold identifiers in *. rewrite !require_ok in *. apply bool_decide_eq_true in H0, H5.
  unfold _bounded_text_tuple in Hc. do 3 (apply bind_ok in Hc as (? & ? & Hc)). injection Hc as <-.
  rewrite !require_ok in *. apply andb_true_iff in H6 as [??].
  assert (E : map check_id (sort_checks (verification_checks g)) ≡ₚ map check_id (verification_checks g))
    by (apply Permutation_map, isort_perm).
  rewrite E in H5.
  match goal with H : forallb _ (constraints g) = true |- _ => rewrite forallb_elem in H; rename H into Hb end.
  split_and!; try done; [eauto|]. apply Forall_forall.
  intros s Hs. specialize (Hb s Hs). by inv_ok.
Qed.

Lemma goal_built_checks g : goal_built g → NoDup (map check_id (verification_checks g)).
Proof.
  intros [raw (_ & Hnd & -> & _)%goal_init_ok].
  assert (E : map check_id (sort_checks (verification_checks raw)) ≡ₚ map check_id (verification_checks raw))
    by (apply Permutation_map, isort_perm).
  by rewrite E.
Qed.

Definition same_lineage (g : GoalSpec) (p : Plan) : Prop :=
  plan_goal_id p = goal_id g ∧ plan_project_id p = project_id g ∧
  plan_intent_id p = intent_id g ∧ plan_base_commit p = base_commit g.

Lemma plan_init_parts p q : plan_init p = Ok q →
  (∃ d, q = with_tasks p (isort task_leb (tasks p)) d) ∧
  NoDup (map task_id (tasks q)) ∧ known (tasks q) ∧
  (∃ order, _topological_order (tasks q) = Ok order) ∧
  _validate_writer_order (tasks q) = Ok tt ∧
  plan_schema_version q = EXECUTION_PLAN_SCHEMA ∧ 1 <= plan_revision q ∧
  (plan_revision q = 1 ↔ supersedes_plan_id q = None) ∧
  forallb _IDENTIFIER [plan_id q; plan_goal_id q; plan_project_id q; plan_intent_id q] = true ∧
  (∀ s, supersedes_plan_id q = Some s → _IDENTIFIER s = true ∧ s ≠ plan_id q) ∧
  re_commit (plan_base_commit q) = true ∧ re_digest (draft_digest q) = true.
Proof.
  unfold plan_init. intros H. do 9 (apply bind_ok in H as (? & ? & H)).
  apply bind_ok in H as (order & Ho & H). apply bind_ok in H as ([] & Hw & H).
  do 2 (apply bind_ok in H as (? & ? & H)). injection H as <-. cbn [tasks with_tasks plan_schema_version
    plan_revision supersedes_plan_id plan_id plan_goal_id plan_project_id plan_intent_id
    plan_base_commit draft_digest].
  unfold identifiers in *. rewrite !require_ok in *.
  apply bool_decide_eq_true in H0, H7. apply Z.leb_le in H2. apply eqb_prop in H3.
  apply andb_true_iff in H5 as [??]. rewrite forallb_elem in H8.
  split_and!; try done; [eauto| |eauto| |].
  - intros t d Ht Hd. specialize (H8 t Ht). by apply (proj1 (subset_of_spec _ _) H8).
  - destruct (bool_decide (supersedes_plan_id p = None)) eqn:E.
    + apply bool_decide_eq_true in E. apply Z.eqb_eq in H3. done.
    + apply bool_decide_eq_false in E. apply Z.eqb_neq in H3. done.
  - intros s Hs. rewrite Hs in H4. apply bind_ok in H4 as (? & Hi & Hn).
    unfold _identifier in Hi. apply require_ok in Hi, Hn. by inv_ok.
Qed.

Lemma task_leb_sorted l : isort task_leb (isort task_leb l) = isort task_leb l.
Proof.
  apply isort_idemp.
  - intros a b. apply string_leb_total.
  - intros a b c. apply string_leb_trans.
Qed.

(** A plan is a fixed point of its own constructor. *)
Lemma plan_init_idemp p q : plan_init p = Ok q → plan_init q = Ok q.
Proof.
  intros H. destruct (plan_init_parts p q H) as ((d & E) & _). subst q. unfold plan_init in *. simpl in *.
  rewrite task_leb_sorted. exact H.
Qed.

(** ** Properties of plans *)

(** Every plan the constructor accepts has distinct
    task identifiers, dependencies inside the plan, a topological order, and
    its writing tasks totally ordered by transitive dependency; it is the
    first revision exactly when it supersedes nothing, never supersedes
    itself, and constructing it again changes nothing. *)
Theorem plan_wellformed p q : plan_init p = Ok q →
  NoDup (map task_id (tasks q)) ∧
  (∀ t d, t ∈ tasks q → d ∈ depends_on t → d ∈ map task_id (tasks q)) ∧
  (∃ order, topological_order q = Ok order ∧ order ≡ₚ map task_id (tasks q) ∧
     ∀ i t d, t ∈ tasks q → order !! i = Some (task_id t) → d ∈ depends_on t →
       ∃ j, (j < i)%nat ∧ order !! j = Some d) ∧
  (∀ a b, writer (tasks q) a → writer (tasks q) b → a ≠ b →
     tc (depends (tasks q)) a b ∨ tc (depends (tasks q)) b a) ∧
  (plan_revision q = 1 ↔ supersedes_plan_id q = None) ∧
  supersedes_plan_id q ≠ Some (plan_id q) ∧
  plan_init q = Ok q.
Proof.
  intros H. destruct (plan_init_parts p q H)
    as (_ & Hnd & Hk & (order & Ho) & Hw & _ & _ & Hrev & _ & Hs & _).
  pose proof (topological_cases _ Hnd) as Hc. rewrite Ho in Hc. destruct Hc as [Hp Hr].
  split_and!; try done.
  - exists order. split_and!; [done|done|]. intros i t d Ht Hi Hd.
    apply (Hr i (task_id t) d Hi). by rewrite (deps_task _ Hnd).
  - destruct (writer_cases _ _ Hnd Ho) as [[_ ?]|[E _]]; [done|congruence].
  - intros E. by destruct (Hs _ E).
  - by eapply plan_init_idemp.
Qed.

Lemma compile_task_scope g v t : goal_built g → _compile_task g v = Ok t →
  (∀ p, p ∈ task_allowed_paths t → p ∈ allowed_paths g) ∧
  (∀ c, c ∈ checks t → c ∈ verification_checks g) ∧
  task_max_attempts t = max_attempts g.
Proof.
  intros [raw' Hg] H. pose proof (goal_built_checks _ (ex_intro _ raw' Hg)) as Hnd.
  apply goal_init_ok in Hg as ((paths & Hpaths & Eg) & _). subst paths.
  unfold _compile_task in H. apply bind_ok in H as (raw & _ & H). do 5 (apply bind_ok in H as (? & _ & H)).
  apply bind_ok in H as (ps & _ & H). apply bind_ok in H as (? & Hsub & H).
  apply bind_ok in H as (ids & _ & H). apply bind_ok in H as (? & _ & H).
  apply bind_ok in H as (cs & Hcs & H). do 3 (apply bind_ok in H as (? & _ & H)).
  apply raise_unless_ok in Hsub. rewrite subset_of_spec in Hsub.
  apply task_init_ok in H as (_ & _ & _ & _ & (paths & Hp & digest & _ & ->) & _). simpl.
  split_and!; [|intros c Hc|done].
  - intros q Hq. destruct (path_tuple_ok _ _ Hp) as (_ & _ & Hin).
    apply Hin in Hq as (t & Ht & Hrp). apply repository_path_ok in Hrp as [-> _].
    rewrite (path_tuple_stripped _ _ t Hpaths); auto.
  - unfold sort_checks in Hc. rewrite elem_of_isort in Hc.
    apply map_result_ok in Hcs. apply list_elem_of_lookup in Hc as [i Hi].
    destruct (Forall2_lookup_r _ _ _ _ _ Hcs Hi) as (id & _ & Hget). apply of_option_ok in Hget.
    rewrite (dict_comprehension check_id (λ c, c)) in Hget by done.
    apply dict_get_map_inv in Hget as (c' & Hc' & _ & <-). done.
Qed.

(** A compiled plan gives a provider no authority:
    every path a task may write is a path of the goal, every check it runs is
    one of the goal's checks with the goal's own command and exit code, every
    check of the goal is run by some task, attempt bounds are the goal's, and
    the plan is bound to the goal, to the digest of the draft and to the
    revision it supersedes. *)
Theorem compile_plan_scope g draft previous p : goal_built g →
  compile_plan g draft previous = Ok p →
  (∀ t path, t ∈ tasks p → path ∈ task_allowed_paths t → path ∈ allowed_paths g) ∧
  (∀ t c, t ∈ tasks p → c ∈ checks t → c ∈ verification_checks g) ∧
  (∀ c, c ∈ verification_checks g → ∃ t, t ∈ tasks p ∧ c ∈ checks t) ∧
  (∀ t, t ∈ tasks p → task_max_attempts t = max_attempts g) ∧
  same_lineage g p ∧ json_digest draft = Ok (draft_digest p) ∧
  match previous with
  | None => plan_revision p = 1 ∧ supersedes_plan_id p = None
  | Some q => same_lineage g q ∧ plan_revision p = plan_revision q + 1 ∧
              supersedes_plan_id p = Some (plan_id q)
  end.
Proof.
  intros Hg H. unfold compile_plan in H. apply bind_ok in H as (raw & _ & H).
  do 4 (apply bind_ok in H as (? & _ & H)). apply bind_ok in H as (ts & Hts & H).
  apply bind_ok in H as (? & Hcov & H). apply bind_ok in H as (dd & Hdd & H).
  apply bind_ok in H as ([revision supersedes] & Hlin & H).
  apply bind_ok in H as (gd & _ & H). apply bind_ok in H as (identity & _ & H).
  apply raise_unless_ok in Hcov. rewrite same_keys_spec in Hcov.
  apply plan_init_parts in H as ((d & ->) & _). cbn [tasks with_tasks plan_goal_id plan_project_id
    plan_intent_id plan_base_commit draft_digest plan_revision supersedes_plan_id plan_id].
  assert (Ht : ∀ t, t ∈ isort task_leb ts → ∃ v, _compile_task g v = Ok t).
  { intros t Hin. rewrite elem_of_isort in Hin. apply map_result_ok in Hts.
    apply list_elem_of_lookup in Hin as [i Hi]. destruct (Forall2_lookup_r _ _ _ _ _ Hts Hi); naive_solver. }
  split_and!.
  - intros t path Hin. destruct (Ht t Hin) as [v Hv]. by apply (compile_task_scope g v t Hg Hv).
  - intros t c Hin. destruct (Ht t Hin) as [v Hv]. by apply (compile_task_scope g v t Hg Hv).
  - intros c Hc. assert (Hid : check_id c ∈ check_ids_of ts)
      by (apply Hcov; apply list_elem_of_fmap; eauto).
    unfold check_ids_of in Hid. rewrite list_elem_of_In, in_concat in Hid.
    destruct Hid as (l & Hl & Hin). apply list_elem_of_In in Hl, Hin.
    apply list_elem_of_fmap in Hl as (t & -> & Htt). apply list_elem_of_fmap in Hin as (c' & Ec & Hc').
    exists t. rewrite <-(elem_of_isort task_leb) in Htt. split; [done|].
    destruct (Ht t Htt) as [v Hv]. apply (compile_task_scope g v t Hg Hv) in Hc' as Hc''.
    pose proof (goal_built_checks g Hg) as Hnd.
    apply list_elem_of_lookup in Hc as [i Hi]. apply list_elem_of_lookup in Hc'' as [j Hj].
    assert (i = j) as ->.
    { apply (NoDup_lookup (map check_id (verification_checks g)) i j (check_id c) Hnd).
      - rewrite list_lookup_fmap, Hi. done.
      - rewrite list_lookup_fmap, Hj. simpl. congruence. }
    congruence.
  - intros t Hin. destruct (Ht t Hin) as [v Hv]. by apply (compile_task_scope g v t Hg Hv).
  - done.
  - done.
  - destruct previous as [q|]; [|by injection Hlin as <- <-].
    apply bind_ok in Hlin as (? & Hl & [= <- <-]). apply raise_unless_ok in Hl. inv_ok.
    unfold same_lineage. done.
Qed.

(** ** The order of verification checks *)

Definition good_compare {A} (cmp : A → A → comparison) : Prop :=
  (∀ x y, cmp y x = CompOpp (cmp x y)) ∧
  (∀ x y, cmp x y = Eq → x = y) ∧
  (∀ x y z, cmp x y = Lt → cmp y z = Lt → cmp x z = Lt).

Lemma good_string : good_compare String.compare.
Proof.
  split_and!; [intros; apply string_compare_swap| |apply string_compare_lt_trans].
  intros x y. apply String.compare_eq_iff.
Qed.

Lemma good_Z : good_compare Z.compare.
Proof.
  split_and!; [intros; apply Z.compare_antisym|intros x y; apply Z.compare_eq|].
  intros x y z. rewrite !Z.compare_lt_iff. lia.
Qed.

(** Lexicographic comparison of two components. *)
Definition lex (a b : comparison) : comparison := match a with Eq => b | Lt => Lt | Gt => Gt end.

Lemma lex_lt {A} (cmp : A → A → comparison) (Hg : good_compare cmp) x y z (b c d : comparison) :
  lex (cmp x y) b = Lt → lex (cmp y z) c = Lt →
  (x = y → y = z → b = Lt → c = Lt → d = Lt) → lex (cmp x z) d = Lt.
Proof.
  destruct Hg as (Hs & He & Ht). intros H1 H2 Hd.
  destruct (cmp x y) eqn:E1; simpl in H1; [|clear H1|done].
  - pose proof (He _ _ E1) as <-. destruct (cmp x z) eqn:E2; simpl in *; [|done|done].
    pose proof (He _ _ E2) as <-. auto.
  - destruct (cmp y z) eqn:E2; simpl in H2; [|clear H2|done].
    + pose proof (He _ _ E2) as <-. by rewrite E1.
    + by rewrite (Ht _ _ _ E1 E2).
Qed.

Lemma good_strings : good_compare strings_compare.
Proof.
  pose proof good_string as (Hs & He & Ht). split_and!.
  - induction x as [|a x IH]; intros [|b y]; simpl; try done.
    rewrite (Hs a b). destruct (String.compare a b); simpl; [apply IH|done|done].
  - induction x as [|a x IH]; intros [|b y]; simpl; try done.
    destruct (String.compare a b) eqn:E; [|done|done]. intros H.
    f_equal; [by apply He|by apply IH].
  - induction x as [|a x IH]; intros [|b y] [|c z]; simpl; try done.
    intros H1 H2. eapply (lex_lt _ good_string a b c _ _ _ H1 H2). intros _ _. apply IH.
Qed.

Lemma good_check : good_compare check_compare.
Proof.
  pose proof good_string as (Hs & He & _). pose proof good_strings as (Hs' & He' & _).
  split_and!.
  - intros x y. unfold check_compare. rewrite (Hs (check_id x)), (Hs' (argv x)).
    destruct (String.compare _ _); simpl; [|done|done].
    destruct (strings_compare _ _); simpl; [|done|done]. apply Z.compare_antisym.
  - intros [i a e] [i' a' e']. unfold check_compare. simpl.
    destruct (String.compare _ _) eqn:E1; [|done|done].
    destruct (strings_compare _ _) eqn:E2; [|done|done]. intros E3%Z.compare_eq.
    apply He in E1. apply He' in E2. congruence.
  - intros x y z H1 H2. eapply (lex_lt _ good_string _ _ _ _ _ _ H1 H2). intros _ _ H3 H4.
    eapply (lex_lt _ good_strings _ _ _ _ _ _ H3 H4). intros _ _. apply good_Z.
Qed.

Lemma sort_checks_idemp l : sort_checks (sort_checks l) = sort_checks l.
Proof.
  pose proof good_check as (Hs & He & Ht). apply isort_idemp; unfold check_leb.
  - intros x y. rewrite (Hs x y). destruct (check_compare x y); simpl; auto.
  - intros x y z. destruct (check_compare x y) eqn:E1; [apply He in E1 as ->; done| |done].
    intros _. destruct (check_compare y z) eqn:E2; [apply He in E2 as <-; by rewrite E1| |done].
    by rewrite (Ht _ _ _ E1 E2).
Qed.

Lemma sort_strings_idemp l : sort_strings (sort_strings l) = sort_strings l.
Proof. apply isort_idemp; [apply string_leb_total|apply string_leb_trans]. Qed.

(** ** Stripping a trailing slash *)

Lemma lstrip_split c s : ∃ k, list_ascii_of_string s = repeat c k ++ list_ascii_of_string (lstrip_char c s).
Proof.
  induction s as [|a s [k IH]]; simpl; [by exists 0%nat|].
  destruct (Ascii.eqb a c) eqn:E; [|by exists 0%nat].
  apply Ascii.eqb_eq in E as ->. exists (S k). simpl. by rewrite IH.
Qed.

Lemma list_of_app a b : list_ascii_of_string (a +:+ b) = list_ascii_of_string a ++ list_ascii_of_string b.
Proof. induction a as [|x a IH]; simpl; [done|]. by rewrite IH. Qed.

Lemma list_of_inj a b : list_ascii_of_string a = list_ascii_of_string b → a = b.
Proof.
  intros H. rewrite <-(string_of_list_ascii_of_string a), <-(string_of_list_ascii_of_string b). by rewrite H.
Qed.

Lemma rstrip_split c s : ∃ t, s = rstrip_char c s +:+ t ∧ ∃ k, list_ascii_of_string t = repeat c k.
Proof.
  destruct (lstrip_split c (string_rev s)) as [k Hk].
  exists (string_of_list_ascii (repeat c k)). rewrite list_ascii_of_string_of_list_ascii.
  split; [|eauto]. apply list_of_inj. rewrite list_of_app, list_ascii_of_string_of_list_ascii.
  unfold rstrip_char. unfold string_rev at 1. rewrite string_rev_app_list. simpl. rewrite app_nil_r.
  unfold string_rev in Hk at 1. rewrite string_rev_app_list in Hk. simpl in Hk. rewrite app_nil_r in Hk.
  rewrite <-(rev_involutive (list_ascii_of_string s)), Hk, rev_app_distr. f_equal.
  clear. induction k as [|k IH]; [done|]. simpl. rewrite IH. symmetry. apply repeat_cons.
Qed.

Lemma starts_with_mono p a b : starts_with p a = true → starts_with p (a +:+ b) = true.
Proof.
  revert a. induction p as [|x p IH]; intros [|y a]; simpl; try done.
  intros [-> ?]%andb_true_iff. simpl. auto.
Qed.

Lemma contains_mono sub a b : contains sub a = true → contains sub (a +:+ b) = true.
Proof.
  induction a as [|x a IH].
  - simpl. rewrite orb_false_r. intros H. destruct sub; [|done]. by destruct b.
  - change (starts_with sub (String x a) || contains sub a = true →
      starts_with sub (String x a +:+ b) || contains sub (a +:+ b) = true).
    rewrite !orb_true_iff. intros [H|H]; [left; by apply starts_with_mono|right; auto].
Qed.

Definition path_readable (p : string) : Prop := blank p = false ∧ p ≠ ".".

Lemma repository_path_again t p : _repository_path t = Ok p → path_readable p →
  _repository_path p = Ok p.
Proof.
  intros H [Hb Hdot]. pose proof (repository_path_ok _ _ H) as [Hp _].
  destruct (rstrip_split "/" t) as (tail & Ht & k & Hk). rewrite <-Hp in Ht.
  unfold _repository_path in *. apply bind_ok in H as (? & _ & H). apply bind_ok in H as (? & H & _).
  apply require_ok in H. rewrite negb_true_iff in H. rewrite !orb_false_iff, !bool_decide_eq_false in H.
  destruct H as ((((((H1 & H2) & H3) & _) & H5) & H6) & H7).
  assert (Hneg : ∀ (f : string → bool), (f p = true → f t = true) → f t = false → f p = false)
    by (intros f Hf Hft; destruct (f p); [by rewrite Hf in Hft|done]).
  assert (Hpre : ∀ s, starts_with s p = true → starts_with s t = true)
    by (intros s Hs; rewrite Ht; by apply starts_with_mono).
  assert (Hcon : ∀ s, contains s p = true → contains s t = true)
    by (intros s Hs; rewrite Ht; by apply contains_mono).
  assert (Hslash : "/" +:+ t +:+ "/" = ("/" +:+ p +:+ "/") +:+ tail).
  { apply list_of_inj. rewrite Ht, !list_of_app, Hk. simpl. rewrite <-!app_assoc. do 2 f_equal.
    simpl. symmetry. apply repeat_cons. }
  rewrite Hb. cbn [negb require raise_if mbind result_bind].
  rewrite (Hneg (starts_with "/")), (Hneg (starts_with "../")), (Hneg (contains backslash)),
    (Hneg (contains nul)) by auto.
  rewrite (bool_decide_eq_false_2 (p = ".")) by done.
  rewrite (bool_decide_eq_false_2 (p = "..")).
  2:{ intros ->. destruct k as [|k].
      - apply H5. rewrite Ht. destruct tail; [done|done].
      - destruct tail as [|c tail]; [done|]. simpl in Hk. injection Hk as -> _.
        rewrite Ht in H2. done. }
  destruct (contains "/../" ("/" +:+ p +:+ "/")) eqn:E.
  - pose proof (contains_mono _ _ tail E) as E'. rewrite <-Hslash in E'. congruence.
  - simpl. f_equal. rewrite Hp. apply rstrip_idemp.
Qed.

Lemma path_tuple_again l l' : _path_tuple l = Ok l' → Forall path_readable l' → _path_tuple l' = Ok l'.
Proof.
  intros H Hr. pose proof (path_tuple_ok _ _ H) as (Hnd & Hs & Hin). unfold _path_tuple in *.
  apply bind_ok in H as (? & Hlen & H). apply bind_ok in H as (ps & Hps & H).
  apply bind_ok in H as (? & _ & H). injection H as <-.
  apply map_result_length in Hps as Hl.
  assert (Hz : zlen (sort_strings ps) = zlen l) by (unfold zlen, sort_strings; by rewrite isort_length, Hl).
  rewrite Hz, Hlen. cbn [mbind result_bind].
  assert (Hm : map_result _repository_path (sort_strings ps) = Ok (sort_strings ps)).
  { apply map_result_ok, Forall_Forall2_diag, Forall_forall. intros p Hp.
    destruct (proj1 (Hin p) Hp) as (t & _ & Ht). rewrite Forall_forall in Hr.
    by eapply repository_path_again, Hr. }
  rewrite Hm. cbn [mbind result_bind]. rewrite sort_strings_idemp. unfold distinct.
  by rewrite bool_decide_eq_true_2.
Qed.

(** ** Reading payloads *)

Lemma mapping_obj fields : _mapping (obj fields) = Ok fields.
Proof.
  unfold obj, _mapping. apply map_result_ok. apply Forall2_fmap_l, Forall_Forall2_diag, Forall_forall.
  by intros [k v] _.
Qed.


Lemma mapping_text_ok raw k s : _mapping_text raw k = Ok s ↔ pget k raw = PStr s ∧ blank s = false.
Proof. apply text_ok. Qed.

Lemma mapping_integer_ok raw k z : _mapping_integer raw k = Ok z ↔ pget k raw = PInt z ∧ 0 <= z.
Proof.
  unfold _mapping_integer. destruct (pget k raw); try (split; [done|by intros [??]]). split.
  - intros H. inv_ok. apply require_ok in Hx. split; [done|lia].
  - intros [[= ->] Hz]. unfold require. by rewrite (proj2 (Z.leb_le 0 z)).
Qed.

Lemma text_sequence_ok v ss : text_sequence v = Ok ss ↔
  v = pstrs ss ∧ Forall (λ s, blank s = false) ss.
Proof.
  unfold text_sequence, pstrs. split.
  - intros H. apply bind_ok in H as (l & Hl & H). destruct v; try done. injection Hl as ->.
    by apply texts_ok in H as [-> ?].
  - intros [-> H]. simpl. by apply texts_pstrs.
Qed.

Definition check_valid (c : VerificationCheck) : Prop := verification_check_init c = Ok c.
Definition check_readable (c : VerificationCheck) : Prop := Forall (λ s, blank s = false) (argv c).

Lemma check_init_ok c c' : verification_check_init c = Ok c' →
  c' = c ∧ _IDENTIFIER (check_id c) = true ∧ 0 <= expected_exit_code c.
Proof.
  unfold verification_check_init. intros H. do 5 (apply bind_ok in H as (? & ? & H)).
  injection H as <-. unfold _identifier in *. rewrite !require_ok in *. split_and!; try done.
  unfold z_between in *. lia.
Qed.

Lemma check_payload_ok c c' : check_valid c →
  check_from_payload (check_payload c) = Ok c' ↔ c' = c ∧ check_readable c.
Proof.
  intros Hc. pose proof (check_init_ok c c Hc) as (_ & Hid & Hcode).
  unfold check_from_payload, check_payload. rewrite mapping_obj. cbn [mbind result_bind].
  unfold _mapping_text, _mapping_integer. pget_literal. split.
  - intros H. apply bind_ok in H as (id & Hi & H). apply text_ok in Hi as [[= <-] _].
    apply bind_ok in H as (l & Hl & H). apply text_sequence_ok in Hl as [Hl Hb].
    injection Hl as Hl. apply map_PStr_inj in Hl as <-. 
    apply bind_ok in H as (z & Hz & H). apply bind_ok in Hz as (? & _ & [= <-]).
    destruct c. unfold check_valid in Hc. simpl in *. split; [congruence|done].
  - intros [-> Hr]. rewrite (proj2 (text_ok (PStr (check_id c)) _)) by (split; [done|by apply identifier_not_blank]).
    cbn [mbind result_bind]. rewrite (proj2 (text_sequence_ok (pstrs (argv c)) _)) by done.
    cbn [mbind result_bind]. unfold require. rewrite (proj2 (Z.leb_le 0 _)) by done. simpl.
    by destruct c.
Qed.

Lemma checks_payload_ok cs cs' : Forall check_valid cs →
  checks_from_payload (PSequence (map check_payload cs)) = Ok cs' ↔ cs' = cs ∧ Forall check_readable cs.
Proof.
  intros Hv. unfold checks_from_payload. cbn [_sequence mbind result_bind].
  rewrite map_result_ok. revert cs'. induction Hv as [|c cs Hc _ IH]; intros cs'.
  - split; [intros H; by inversion H|intros [-> _]; constructor].
  - simpl. split.
    + intros H. inversion H as [|? ? ? ? H1 H2]; subst. apply (check_payload_ok c _ Hc) in H1 as [-> ?].
      apply IH in H2 as [-> ?]. split; [done|by constructor].
    + intros [-> H]. inversion H; subst. constructor; [by apply check_payload_ok|]. by apply IH.
Qed.

Definition goal_readable (g : GoalSpec) : Prop :=
  Forall check_readable (verification_checks g) ∧ Forall path_readable (allowed_paths g).

Lemma objective_not_blank s : objective_ok s = true → blank s = false.
Proof. unfold objective_ok. intros H. by inv_ok. Qed.

Lemma goal_init_again raw g : goal_init raw = Ok g → Forall path_readable (allowed_paths g) →
  goal_init g = Ok g.
Proof.
  intros H Hr. pose proof (goal_init_ok _ _ H) as ((paths & Hp & Eg) & _). rewrite Eg in Hr.
  pose proof (path_tuple_again _ _ Hp Hr) as Hp'.
  unfold goal_init in *.
  apply bind_ok in H as (? & H1 & H). apply bind_ok in H as (? & H2 & H).
  apply bind_ok in H as (? & H3 & H). apply bind_ok in H as (? & H4 & H).
  apply bind_ok in H as (cs & Hc & H). apply bind_ok in H as (paths' & Hp2 & H).
  assert (paths' = paths) as -> by congruence. apply bind_ok in H as (? & H5 & H).
  apply bind_ok in H as (? & H6 & H). apply bind_ok in H as (? & H7 & H). injection H as <-.
  cbn [goal_schema_version goal_id project_id intent_id objective base_commit constraints
    allowed_paths verification_checks max_attempts same_error_limit] in *.
  unfold _bounded_text_tuple in *. apply bind_ok in Hc as (? & H8 & Hc).
  apply bind_ok in Hc as (? & H9 & Hc). apply bind_ok in Hc as (? & H10 & Hc). injection Hc as <-.
  assert (Hz : zlen (sort_strings (constraints raw)) = zlen (constraints raw))
    by (unfold zlen, sort_strings; by rewrite isort_length).
  assert (Hz' : zlen (sort_checks (verification_checks raw)) = zlen (verification_checks raw))
    by (unfold zlen, sort_checks; by rewrite isort_length).
  assert (H9' : require (forallb (λ s, negb (blank s)) (sort_strings (constraints raw))) = Ok tt).
  { apply require_ok in H9. apply require_ok. rewrite forallb_elem in H9 |- *.
    intros s. rewrite elem_of_sort_strings. apply H9. }
  rewrite H1, H2, H3, H4, Hz, H8. cbn [mbind result_bind]. rewrite H9'. cbn [mbind result_bind].
  rewrite sort_strings_idemp, H10. cbn [mbind result_bind]. rewrite Hp'. cbn [mbind result_bind].
  rewrite Hz', H5. cbn [mbind result_bind]. rewrite sort_checks_idemp, H6. cbn [mbind result_bind].
  rewrite H7. done.
Qed.

(** The durable payload of an admitted goal reads back as
    the same goal exactly when the goal is readable: no check has a token of
    white space only, and no allowed path is blank or the root path. The
    constructor does not ensure either. *)
Theorem goal_roundtrip raw g : goal_init raw = Ok g →
  Forall check_valid (verification_checks raw) →
  goal_from_payload (goal_payload g) = Ok g ↔ goal_readable g.
Proof.
  intros H Hv. pose proof (goal_init_ok _ _ H)
    as (_ & _ & Echecks & _ & _ & _ & _ & _ & _ & _ & _).
  assert (Hvg : Forall check_valid (verification_checks g)).
  { rewrite Echecks. unfold sort_checks. by rewrite isort_perm. }
  unfold goal_from_payload, goal_payload. rewrite mapping_obj. cbn [mbind result_bind].
  replace (has_keys (goal_fields g) goal_keys) with true by reflexivity.
  cbn [require negb raise_if mbind result_bind]. unfold goal_fields, _mapping_text, _mapping_integer.
  pget_literal. split.
  - intros Hr. apply bind_ok in Hr as (cs & Hcs & Hr). apply checks_payload_ok in Hcs as [-> Hcs]; [|done].
    do 6 (apply bind_ok in Hr as (? & _ & Hr)). apply bind_ok in Hr as (? & _ & Hr).
    apply bind_ok in Hr as (ps & Hps & Hr). do 2 (apply bind_ok in Hr as (? & _ & Hr)).
    split; [done|]. apply text_sequence_ok in Hps as [Hps Hb].
    apply goal_init_ok in Hr as ((paths & Hp & _) & _). simpl in Hp.
    assert (Eps : ps = allowed_paths g) by (injection Hps as Hps; symmetry; by apply map_PStr_inj).
    subst ps. apply Forall_forall. intros p Hin.
    destruct (path_tuple_accepts _ _ p Hp Hin) as [p' Hp']. apply repository_path_ok in Hp' as (_ & ? & ?).
    done.
  - intros [Hc Hp]. pose proof (goal_init_again _ _ H Hp) as Hg.
    pose proof (goal_init_ok _ _ Hg)
      as (_ & _ & _ & Ec & Hb & Hm & Hl & Hs & Hids & Ho & Hcm).
    rewrite (proj2 (checks_payload_ok _ _ Hvg)) by done. cbn [mbind result_bind].
    simpl in Hids. rewrite !andb_true_iff in Hids. destruct Hids as (Hi1 & Hi2 & Hi3 & _).
    rewrite !(proj2 (text_ok (PStr _) _)) by
      (split; [reflexivity|first [by rewrite Hs|by apply identifier_not_blank|by apply objective_not_blank
        |by apply commit_not_blank]]).
    cbn [mbind result_bind].
    rewrite (proj2 (text_sequence_ok (pstrs (constraints g)) (constraints g))) by done.
    cbn [mbind result_bind].
    rewrite (proj2 (text_sequence_ok (pstrs (allowed_paths g)) (allowed_paths g)))
      by (split; [done|]; eapply Forall_impl; [exact Hp|by intros ? [? _]]).
    cbn [mbind result_bind]. unfold z_between in *. unfold require.
    rewrite !(proj2 (Z.leb_le 0 _)) by lia. cbn [negb raise_if mbind result_bind]. rewrite <-Echecks. by destruct g.
Qed.

(** A task some constructor call returned. *)
Definition task_built (t : TaskSpec) : Prop := ∃ id o ds ps cs m,
  Forall check_valid cs ∧ task_init id o ds ps cs m = Ok t.

Definition task_readable (t : TaskSpec) : Prop :=
  Forall check_readable (checks t) ∧ Forall path_readable (task_allowed_paths t).

Lemma remove_dups_id `{EqDecision A} (l : list A) : NoDup l → remove_dups l = l.
Proof.
  induction 1 as [|x l Hx _ IH]; [done|]. simpl. destruct (decide_rel _ x l); [done|]. by rewrite IH.
Qed.

Lemma sorted_set_idemp l : sorted_set (sorted_set l) = sorted_set l.
Proof.
  unfold sorted_set. rewrite remove_dups_id; [apply sort_strings_idemp|].
  unfold sort_strings. rewrite isort_perm. apply NoDup_remove_dups.
Qed.

Lemma task_init_again id o ds ps cs m t : task_init id o ds ps cs m = Ok t →
  Forall path_readable (task_allowed_paths t) →
  task_init (task_id t) (task_objective t) (depends_on t) (task_allowed_paths t) (checks t)
    (task_max_attempts t) = Ok t.
Proof.
  intros H Hr. pose proof (task_init_ok _ _ _ _ _ _ _ H)
    as (_ & _ & _ & _ & (paths & Hp & digest & _ & E) & _). subst t. simpl in *.
  pose proof (path_tuple_again _ _ Hp Hr) as Hp'.
  unfold task_init in *. rewrite sorted_set_idemp, sort_checks_idemp, Hp'. rewrite Hp in H. exact H.
Qed.

Lemma task_built_facts t : task_built t →
  Forall check_valid (checks t) ∧ _IDENTIFIER (task_id t) = true ∧
  objective_ok (task_objective t) = true ∧ Forall (λ s, blank s = false) (depends_on t) ∧
  0 <= task_max_attempts t.
Proof.
  intros (id & o & ds & ps & cs & m & Hv & H). apply task_init_ok in H
    as (Hid & Ho & _ & Hds & (paths & _ & digest & _ & ->) & _ & _ & Hm). simpl.
  split_and!; try done.
  - unfold sort_checks. by rewrite isort_perm.
  - apply Forall_forall. intros s Hs. rewrite forallb_elem in Hds. by apply identifier_not_blank, Hds.
  - unfold z_between in Hm. lia.
Qed.

Lemma task_payload_ok t : task_built t →
  (task_readable t → _task_from_payload (task_payload t) = Ok t) ∧
  (∀ t', _task_from_payload (task_payload t) = Ok t' → task_readable t).
Proof.
  intros Ht. pose proof (task_built_facts t Ht) as (Hv & Hid & Ho & Hds & Hm).
  unfold _task_from_payload, task_payload. rewrite mapping_obj. cbn [mbind result_bind].
  replace (has_keys (task_fields t) task_keys) with true by reflexivity.
  cbn [require negb raise_if mbind result_bind]. unfold task_fields, _mapping_text, _mapping_integer.
  pget_literal. split.
  - intros [Hc Hp]. rewrite (proj2 (checks_payload_ok _ _ Hv)) by done. cbn [mbind result_bind].
    rewrite !(proj2 (text_ok (PStr _) _)) by
      (split; [reflexivity|first [by apply identifier_not_blank|by apply objective_not_blank]]).
    cbn [mbind result_bind].
    rewrite (proj2 (text_sequence_ok (pstrs (depends_on t)) (depends_on t))) by done.
    cbn [mbind result_bind].
    rewrite (proj2 (text_sequence_ok (pstrs (task_allowed_paths t)) (task_allowed_paths t)))
      by (split; [done|]; eapply Forall_impl; [exact Hp|by intros ? [? _]]).
    cbn [mbind result_bind]. unfold require. rewrite (proj2 (Z.leb_le 0 _)) by done.
    cbn [negb raise_if mbind result_bind].
    destruct Ht as (id & o & ds & ps & cs & m & _ & H). by eapply task_init_again.
  - intros t' Hr. apply bind_ok in Hr as (cs & Hcs & Hr). apply checks_payload_ok in Hcs as [-> Hcs]; [|done].
    do 3 (apply bind_ok in Hr as (? & _ & Hr)). apply bind_ok in Hr as (ps & Hps & Hr).
    apply bind_ok in Hr as (? & _ & Hr). split; [done|].
    apply text_sequence_ok in Hps as [Hps Hb].
    apply task_init_ok in Hr as (_ & _ & _ & _ & (paths & Hp & _) & _).
    assert (Eps : ps = task_allowed_paths t) by (injection Hps as Hps; symmetry; by apply map_PStr_inj).
    subst ps. apply Forall_forall. intros p Hin.
    destruct (path_tuple_accepts _ _ p Hp Hin) as [p' Hp']. by apply repository_path_ok in Hp' as (_ & ? & ?).
Qed.

(** The durable payload of a constructed plan reads back
    as the same plan, digest and topological order included, exactly when its
    tasks are readable in the sense of goals: no blank token, no blank or root
    path. *)
Theorem plan_roundtrip p0 p v : plan_init p0 = Ok p → Forall task_built (tasks p0) →
  plan_payload p = Ok v →
  plan_from_payload v = Ok p ↔ Forall task_readable (tasks p).
Proof.
  intros H Hb Hv. pose proof (plan_init_idemp _ _ H) as Hpp.
  pose proof (plan_init_parts _ _ H)
    as ((d & E) & Hnd & _ & (order & Hord) & _ & Hsch & Hrev & _ & Hids & Hsup & Hcm & Hdg).
  assert (Hbp : Forall task_built (tasks p)) by (rewrite E; simpl; by rewrite isort_perm).
  unfold plan_payload, topological_order in Hv. rewrite Hord in Hv. injection Hv as <-.
  unfold plan_from_payload. rewrite mapping_obj. cbn [mbind result_bind].
  replace (has_keys (plan_fields p order) plan_keys) with true by reflexivity.
  cbn [require negb raise_if mbind result_bind]. unfold plan_fields, _mapping_text, _mapping_integer.
  pget_literal. cbn [_sequence mbind result_bind].
  assert (Htasks : map_result _task_from_payload (map task_payload (tasks p)) = Ok (tasks p) ↔
    Forall task_readable (tasks p)).
  { rewrite map_result_ok. clear -Hbp. induction Hbp as [|t l Ht _ IH]; [split; constructor|].
    simpl. pose proof (task_payload_ok t Ht) as [H1 H2]. split.
    - intros H. inversion H; subst. constructor; [by eapply H2|by apply IH].
    - intros H. inversion H; subst. constructor; [by apply H1|by apply IH]. }
  split.
  - intros Hr. apply bind_ok in Hr as (ts & Hts & _). clear -Hbp Hts. apply map_result_ok in Hts.
    revert ts Hts. induction Hbp as [|t l Ht _ IH]; intros ts Hts; [constructor|].
    inversion Hts; subst. constructor; [by eapply (proj2 (task_payload_ok t Ht))|by eapply IH].
  - intros Hr. rewrite (proj2 Htasks Hr). cbn [mbind result_bind].
    assert (Hs : match match supersedes_plan_id p with Some s => PStr s | None => PNone end with
      | PNone => Ok None | PStr s => Ok (Some s) | _ => Err plan_error end = Ok (supersedes_plan_id p))
      by (by destruct (supersedes_plan_id p)).
    rewrite Hs. cbn [mbind result_bind].
    simpl in Hids. rewrite !andb_true_iff in Hids. destruct Hids as (Hi1 & Hi2 & Hi3 & Hi4 & _).
    rewrite !(proj2 (text_ok (PStr _) _)) by
      (split; [reflexivity|first [by rewrite Hsch|by apply identifier_not_blank|by apply commit_not_blank
        |by apply digest_not_blank]]).
    cbn [mbind result_bind]. rewrite (proj2 (Z.leb_le 0 _)) by lia.
    cbn [require negb raise_if mbind result_bind].
    match goal with |- context [plan_init ?q] =>
      replace (plan_init q) with (plan_init p) by (destruct p; reflexivity) end.
    rewrite Hpp. cbn [mbind result_bind].
    pose proof (topological_cases _ Hnd) as Hc. rewrite Hord in Hc. destruct Hc as [Hperm _].
    rewrite (proj2 (text_sequence_ok (pstrs order) order)).
    2:{ split; [done|]. rewrite Hperm. apply Forall_forall. intros s (t & -> & Ht)%list_elem_of_fmap.
        rewrite Forall_forall in Hbp. by apply identifier_not_blank, task_built_facts, Hbp. }
    cbn [mbind result_bind]. unfold topological_order. rewrite Hord. cbn [mbind result_bind].
    by rewrite bool_decide_eq_true_2.
Qed.

(** ** Witnesses *)
Module SamplePlan.
Definition check : VerificationCheck := MkCheck "unit" ["pytest"] 0.
Definition raw_goal (paths : list string) (tokens : list string) : GoalSpec :=
  MkGoal "g" "p" "i" "o" "0000000000000000000000000000000000000000" [] paths
    [MkCheck "unit" tokens 0] 3 2 EXECUTION_GOAL_SCHEMA.
Definition goal : GoalSpec := raw_goal ["src"] ["pytest"].
Definition root_goal : GoalSpec := raw_goal ["."] ["pytest"].
Definition draft : pyval :=
  obj [("schema_version", PStr EXECUTION_PLAN_DRAFT_SCHEMA);
       ("tasks", PSequence
          [obj [("task_id", PStr "t"); ("objective", PStr "o"); ("depends_on", pstrs []);
                ("allowed_paths", pstrs ["src"]); ("checks", pstrs ["unit"])]])].
Definition task (id : string) (ds ps : list string) : TaskSpec := MkTask id "o" ds ps [check] 3 "".
Definition two : list TaskSpec := [task "b" ["a"] ["src"]; task "a" [] ["src"]].

Definition failed : Plan := MkPlan "" "" "" "" 0 None "" "" [] "" "".
Definition compiled : result Plan := Eval vm_compute in compile_plan goal draft None.
Definition plan : Plan := match compiled with Ok p => p | Err _ => failed end.
Lemma compiles : compile_plan goal draft None = Ok plan.
Proof. by_vm. Qed.
Lemma goal_is_built : goal_init goal = Ok goal.
Proof. reflexivity. Qed.
Lemma check_is_valid : Forall check_valid (verification_checks goal).
Proof. repeat constructor. Qed.
Lemma plan_is_plan : plan_init plan = Ok plan.
Proof. by_vm. Qed.
Lemma plan_task : Forall task_built (tasks plan).
Proof.
  constructor; [|constructor]. exists "t", "o", [], ["src"], [check], 3.
  split; [repeat constructor|by_vm].
Qed.
Lemma two_nodup : NoDup (map task_id two).
Proof. apply (bool_decide_unpack _). reflexivity. Qed.
End SamplePlan.

Lemma topological_order_correct_witness :
  ∃ order, _topological_order SamplePlan.two = Ok order ∧ order ≡ₚ map task_id SamplePlan.two.
Proof.
  destruct (topological_order_correct SamplePlan.two SamplePlan.two_nodup)
    as [(order & Ho & Hp & _)|[Hc _]].
  - exists order. split; [exact Ho|exact Hp].
  - exfalso. vm_compute in Hc. discriminate Hc.
Defined.

Lemma writer_order_exact_witness :
  _validate_writer_order SamplePlan.two = Ok tt ∧
  ∀ a b, writer SamplePlan.two a → writer SamplePlan.two b → a ≠ b →
    tc (depends SamplePlan.two) a b ∨ tc (depends SamplePlan.two) b a.
Proof.
  split; [reflexivity|].
  apply (writer_order_exact SamplePlan.two ["a"; "b"] SamplePlan.two_nodup).
  - intros t d Ht Hd. repeat (apply elem_of_cons in Ht as [->|Ht]); simpl in *.
    + apply elem_of_cons in Hd as [->|Hd]; [right; left|by apply elem_of_nil in Hd].
    + by apply elem_of_nil in Hd.
    + by apply elem_of_nil in Ht.
  - reflexivity.
  - reflexivity.
Defined.

Lemma plan_wellformed_witness : NoDup (map task_id (tasks SamplePlan.plan)).
Proof. apply (plan_wellformed SamplePlan.plan SamplePlan.plan SamplePlan.plan_is_plan). Defined.

Lemma compile_plan_scope_witness :
  compile_plan SamplePlan.goal SamplePlan.draft None = Ok SamplePlan.plan ∧
  ∀ t path, t ∈ tasks SamplePlan.plan → path ∈ task_allowed_paths t → path ∈ ["src"].
Proof.
  split; [exact SamplePlan.compiles|].
  apply (compile_plan_scope SamplePlan.goal SamplePlan.draft None SamplePlan.plan).
  - exists SamplePlan.goal. apply SamplePlan.goal_is_built.
  - apply SamplePlan.compiles.
Defined.

(** A goal reads back; a goal admitted with the path "./" does not. *)
Lemma goal_roundtrip_witness :
  goal_from_payload (goal_payload SamplePlan.goal) = Ok SamplePlan.goal ∧
  goal_init (SamplePlan.raw_goal ["./"] ["pytest"]) = Ok SamplePlan.root_goal ∧
  goal_from_payload (goal_payload SamplePlan.root_goal) ≠ Ok SamplePlan.root_goal.
Proof.
  split; [|split].
  - apply (goal_roundtrip SamplePlan.goal SamplePlan.goal SamplePlan.goal_is_built
      SamplePlan.check_is_valid).
    split; repeat constructor; discriminate.
  - reflexivity.
  - intros H. apply (goal_roundtrip (SamplePlan.raw_goal ["./"] ["pytest"]) SamplePlan.root_goal)
      in H as [_ H]; [|reflexivity|apply SamplePlan.check_is_valid].
    apply Forall_inv in H as [_ H]. by apply H.
Defined.

Lemma plan_roundtrip_witness :
  ∃ v, plan_payload SamplePlan.plan = Ok v ∧ plan_from_payload v = Ok SamplePlan.plan.
Proof.
  destruct (plan_payload SamplePlan.plan) as [v|e] eqn:E; [|vm_compute in E; discriminate E].
  exists v. split; [reflexivity|].
  apply (plan_roundtrip SamplePlan.plan SamplePlan.plan v SamplePlan.plan_is_plan SamplePlan.plan_task E).
  repeat constructor; discriminate.
Defined.
