(* ===== verification/AttemptPolicy.v ===== *)
(** * orchestration/execution_plan.py: the attempt policy

    The enumerations of the task and run life cycle, the execution authority,
    the planning request and result, the evidence of one attempt, and the
    deterministic policy kernel that authorizes an attempt and routes what
    follows it.  [PLAN_DRAFT_OUTPUT_SCHEMA] is the schema a planning provider
    behind the gateway has to satisfy. *)

From S2P Require Import Prelude PyStr PyFloat Json JsonText JsonFacts PyTime Contracts OutputSchema Gateway.
From S2P Require Import PlanCompiler PlanFacts.
From Stdlib Require Import ZArith Lia Ascii String Sorting.Sorted.
From stdpp Require Import base gmap sets list strings.
Local Open Scope Z_scope.

Inductive FailureClass :=
  | TRANSIENT | LOGIC_BUG | CONTRACT_MISMATCH | MISSING_DEPENDENCY | INVALID_ASSUMPTION
  | POLICY | UNCLASSIFIED.
#[export] Instance failure_class_eq_dec : EqDecision FailureClass.
Proof. solve_decision. Defined.

Inductive AttemptRoute :=
  | SUCCEEDED | REPAIRABLE | REPLAN_REQUIRED | BLOCKED | ESCALATED | TERMINAL_FAILURE.
#[export] Instance attempt_route_eq_dec : EqDecision AttemptRoute.
Proof. solve_decision. Defined.

(** ** ExecutionAuthority *)

Record ExecutionAuthority := MkAuthority {
  authority_budget : GatewayBudget;
  check_timeout_seconds : Z;
  max_changed_paths : Z;
  consumed_budget : GatewayBudget;
  input_tokens_complete : bool;
  output_tokens_complete : bool;
  cost_microusd_complete : bool
}.

Definition budget_within (used limit : GatewayBudget) : bool :=
  (max_input_tokens used <=? max_input_tokens limit) &&
  (max_output_tokens used <=? max_output_tokens limit) &&
  (max_latency_ms used <=? max_latency_ms limit) &&
  (max_cost_microusd used <=? max_cost_microusd limit).

Definition execution_authority_init (a : ExecutionAuthority) : result ExecutionAuthority :=
  _ ← require (budget_within (consumed_budget a) (authority_budget a)
        && z_between 1 (check_timeout_seconds a) 600 && z_between 0 (max_changed_paths a) 10000);
  Ok a.

(** ** PlanningRequest and PlanningResult *)

Record PlanningRequest := MkPlanningRequest {
  planning_goal : GoalSpec;
  planning_classification : DataClassification;
  planning_locality : LocalityPolicy;
  planning_budget : GatewayBudget;
  planning_estimated_input_tokens : Z;
  planning_correlation_id : string;
  planning_run_id : string
}.

Definition planning_request_init (r : PlanningRequest) : result PlanningRequest :=
  _ ← require (0 <=? planning_estimated_input_tokens r);
  _ ← _identifier (planning_correlation_id r);
  _ ← _identifier (planning_run_id r);
  Ok r.

Record PlanningResult := MkPlanningResult {
  draft : jobject;
  provider_output_digest : string;
  planned_profile_id : string;
  planned_adapter_id : string;
  planned_model_id : string;
  planned_input_tokens : option Z;
  planned_output_tokens : option Z;
  planned_latency_ms : Z;
  planned_cost_microusd : option Z
}.

Definition usage_ok (value : option Z) : bool :=
  match value with Some v => 0 <=? v | None => true end.

Definition planning_result_init (draft : pyval) (digest profile_id adapter_id model_id : string)
    (input_tokens output_tokens : option Z) (latency_ms : Z) (cost_microusd : option Z)
    : result PlanningResult :=
  _ ← require (re_digest digest);
  _ ← identifiers [profile_id; adapter_id; model_id];
  _ ← require (usage_ok input_tokens && usage_ok output_tokens && usage_ok cost_microusd);
  _ ← require (0 <=? latency_ms);
  frozen ← freeze_json "$.draft" draft;
  match frozen with
  | JObj kvs => Ok (MkPlanningResult kvs digest profile_id adapter_id model_id input_tokens
                      output_tokens latency_ms cost_microusd)
  | _ => Err plan_error
  end.

(** ** ToolActionRequest and PolicyDecision *)

Record ToolActionRequest := MkAction {
  action_run_id : string;
  action_plan_id : string;
  action_task_id : string;
  attempt : Z;
  action_capability : string;
  action_paths : list string;
  destructive : bool
}.

Definition tool_action_init (a : ToolActionRequest) : result ToolActionRequest :=
  _ ← identifiers [action_run_id a; action_plan_id a; action_task_id a; action_capability a];
  _ ← require (1 <=? attempt a);
  paths ← _path_tuple (action_paths a);
  Ok (MkAction (action_run_id a) (action_plan_id a) (action_task_id a) (attempt a)
        (action_capability a) paths (destructive a)).

Definition action_digest_of (a : ToolActionRequest) : result string :=
  json_digest (obj
    [("run_id", PStr (action_run_id a));
     ("plan_id", PStr (action_plan_id a));
     ("task_id", PStr (action_task_id a));
     ("attempt", PInt (attempt a));
     ("capability", PStr (action_capability a));
     ("allowed_paths", pstrs (action_paths a));
     ("destructive", PBool (destructive a))]).

Record PolicyDecision := MkPolicy {
  allowed : bool;
  reason : string;
  action_digest : string;
  decision_id : string
}.

Definition policy_decision_init (allowed : bool) (reason action_digest : string)
    : result PolicyDecision :=
  _ ← require (_IDENTIFIER reason && re_digest action_digest);
  id ← json_digest (obj [("allowed", PBool allowed); ("reason", PStr reason);
                         ("action_digest", PStr action_digest)]);
  Ok (MkPolicy allowed reason action_digest id).

(** ** AttemptEvidence *)

Record AttemptEvidence := MkEvidence {
  workspace_clean : bool;
  verifier_exit_code : Z;
  required_checks_passed : bool;
  failure_class : option FailureClass;
  failure_summary : option string;
  artifact_digests : list string;
  progress_digests : list string;
  head_commit : string;
  evidence_input_tokens : option Z;
  evidence_output_tokens : option Z;
  evidence_latency_ms : Z;
  evidence_cost_microusd : option Z;
  evidence_schema_version : string
}.

Definition attempt_succeeded (e : AttemptEvidence) : bool :=
  (verifier_exit_code e =? 0) && required_checks_passed e.

Definition attempt_evidence_init (e : AttemptEvidence) : result AttemptEvidence :=
  _ ← require (bool_decide (evidence_schema_version e = EXECUTION_ATTEMPT_EVIDENCE_SCHEMA));
  _ ← require (z_between 0 (verifier_exit_code e) 255 && re_commit (head_commit e));
  _ ← require (if attempt_succeeded e
               then bool_decide (failure_class e = None) && bool_decide (failure_summary e = None)
               else bool_decide (failure_class e ≠ None) &&
                    match failure_summary e with
                    | Some s => negb (blank s) && (byte_len s <=? 4096)
                    | None => false end);
  _ ← require (negb (bool_decide (artifact_digests e = [])) &&
               negb (bool_decide (progress_digests e = [])));
  let artifacts := sorted_set (artifact_digests e) in
  let progress := sorted_set (progress_digests e) in
  _ ← require (forallb re_digest (artifacts ++ progress));
  _ ← require (subset_of progress artifacts);
  _ ← require (usage_ok (evidence_input_tokens e) && usage_ok (evidence_output_tokens e)
               && usage_ok (evidence_cost_microusd e));
  _ ← require (0 <=? evidence_latency_ms e);
  Ok (MkEvidence (workspace_clean e) (verifier_exit_code e) (required_checks_passed e)
        (failure_class e) (failure_summary e) artifacts progress (head_commit e)
        (evidence_input_tokens e) (evidence_output_tokens e) (evidence_latency_ms e)
        (evidence_cost_microusd e) (evidence_schema_version e)).

(** ** ExecutionPolicyKernel *)

Definition authorize (g : GoalSpec) (p : Plan) (t : TaskSpec) (a : ToolActionRequest)
    : result PolicyDecision :=
  digest ← action_digest_of a;
  if bool_decide (action_run_id a = "")
     || negb (bool_decide (action_plan_id a = plan_id p))
     || negb (bool_decide (action_task_id a = task_id t))
     || negb (bool_decide (action_capability a = "repository-task"))
     || destructive a
     || negb (z_between 1 (attempt a) (Z.min (max_attempts g) (task_max_attempts t)))
     || negb (subset_of (action_paths a) (allowed_paths g))
     || negb (bool_decide (action_paths a = task_allowed_paths t))
  then policy_decision_init false "intent-scope-violation" digest
  else policy_decision_init true "bounded-task-authorized" digest.

Definition class_in (c : option FailureClass) (l : list FailureClass) : bool :=
  match c with Some c => bool_decide (c ∈ l) | None => false end.

Definition route (g : GoalSpec) (t : TaskSpec) (e : AttemptEvidence) (attempt same_error_count : Z)
    (new_evidence : bool) : AttemptRoute :=
  if negb (workspace_clean e) then BLOCKED
  else if attempt_succeeded e then SUCCEEDED
  else if class_in (failure_class e) [MISSING_DEPENDENCY; INVALID_ASSUMPTION] then REPLAN_REQUIRED
  else if (same_error_limit g <=? same_error_count) && negb new_evidence then ESCALATED
  else if Z.min (max_attempts g) (task_max_attempts t) <=? attempt then ESCALATED
  else if class_in (failure_class e) [TRANSIENT; LOGIC_BUG; CONTRACT_MISMATCH] then REPAIRABLE
  else if bool_decide (failure_class e = Some POLICY) then BLOCKED
  else TERMINAL_FAILURE.

(** ** PraxisPromotionCandidate *)

Record PraxisPromotionCandidate := MkCandidate {
  candidate_id : string;
  candidate_run_id : string;
  candidate_plan_id : string;
  candidate_task_id : string;
  kind : string;
  evidence_event_ids : list string;
  evidence_digests : list string;
  candidate_schema_version : string
}.

Definition promotion_candidate_init (c : PraxisPromotionCandidate) : result PraxisPromotionCandidate :=
  _ ← require (bool_decide (candidate_schema_version c = EXECUTION_PROMOTION_CANDIDATE_SCHEMA));
  _ ← identifiers [candidate_id c; candidate_run_id c; candidate_plan_id c; candidate_task_id c; kind c];
  _ ← require (negb (bool_decide (evidence_event_ids c = [])) &&
               forallb (λ s, negb (is_empty s)) (evidence_event_ids c));
  _ ← require (forallb re_digest (evidence_digests c));
  Ok c.

(** ** PLAN_DRAFT_OUTPUT_SCHEMA *)

Definition text_schema (maximum : Z) : json :=
  JObj [("type", JStr "string"); ("minLength", JInt 1); ("maxLength", JInt maximum)].
Definition strings_schema : json :=
  JObj [("type", JStr "array"); ("items", JObj [("type", JStr "string")])].

Definition PLAN_DRAFT_TASKS_SCHEMA : jobject :=
  [("type", JStr "array");
   ("minItems", JInt 1);
   ("maxItems", JInt _MAX_TASKS);
   ("items", JObj
      [("type", JStr "object");
       ("additionalProperties", JBool false);
       ("required", JArr (map JStr ["task_id"; "objective"; "depends_on"; "allowed_paths"; "checks"]));
       ("properties", JObj
          [("task_id", text_schema 128);
           ("objective", text_schema 16384);
           ("depends_on", strings_schema);
           ("allowed_paths", strings_schema);
           ("checks", JObj [("type", JStr "array"); ("minItems", JInt 1);
                            ("maxItems", JInt _MAX_CHECKS); ("items", text_schema 128)])])])].

Definition PLAN_DRAFT_OUTPUT_SCHEMA : jobject :=
  [("$schema", JStr "https://json-schema.org/draft/2020-12/schema");
   ("type", JStr "object");
   ("additionalProperties", JBool false);
   ("required", JArr [JStr "schema_version"; JStr "tasks"]);
   ("properties", JObj
      [("schema_version", JObj [("type", JStr "string"); ("const", JStr EXECUTION_PLAN_DRAFT_SCHEMA)]);
       ("tasks", JObj PLAN_DRAFT_TASKS_SCHEMA)])].

(** ** Properties *)

(** The kernel's decision is bound to the digest of the
    proposed action, and allows it exactly when the action names this plan and
    this task, asks for the repository-task capability without destructive
    rights, stays within both attempt bounds, and claims exactly the task's
    paths, all of them paths of the goal. *)
Theorem authorize_exact g p t a d : authorize g p t a = Ok d →
  action_digest_of a = Ok (action_digest d) ∧
  (allowed d = true ↔
     action_run_id a ≠ "" ∧ action_plan_id a = plan_id p ∧ action_task_id a = task_id t ∧
     action_capability a = "repository-task" ∧ destructive a = false ∧
     1 <= attempt a <= max_attempts g ∧ attempt a <= task_max_attempts t ∧
     (∀ x, x ∈ action_paths a → x ∈ allowed_paths g) ∧ action_paths a = task_allowed_paths t).
Proof.
  unfold authorize. intros H. apply bind_ok in H as (digest & Hd & H). rewrite Hd.
  assert (Hinit : ∀ b reason, policy_decision_init b reason digest = Ok d →
    allowed d = b ∧ action_digest d = digest).
  { intros b reason Hp. unfold policy_decision_init in Hp. apply bind_ok in Hp as (? & _ & Hp).
    apply bind_ok in Hp as (id & _ & [= <-]). done. }
  destruct (_ || _) eqn:E.
  - apply Hinit in H as [Ha ->]. split; [done|]. rewrite Ha. split; [done|].
    intros (H1 & H2 & H3 & H4 & H5 & H6 & H7 & H8 & H9). exfalso.
    rewrite (bool_decide_eq_false_2 (action_run_id a = "")), !bool_decide_eq_true_2, H5 in E by done.
    rewrite (proj2 (subset_of_spec _ _)) in E by done.
    unfold z_between in E. lia.
  - apply Hinit in H as [Ha ->]. split; [done|]. rewrite Ha. split; [intros _|done].
    rewrite !orb_false_iff, !negb_false_iff, bool_decide_eq_false, !bool_decide_eq_true,
      subset_of_spec in E. unfold z_between in E. split_and!; try tauto; lia.
Qed.

(** Routing is decided by the evidence and the bounds: an
    attempt succeeds exactly when the workspace is clean, the verifier exited
    with zero and the required checks passed; a repair is offered only for a
    repairable failure class, below both attempt bounds, and without repeating
    the same error beyond its limit unless there is new evidence; so a goal
    admits at most three attempts. *)
Theorem route_bounded g t e n same fresh :
  (route g t e n same fresh = SUCCEEDED ↔
     workspace_clean e = true ∧ verifier_exit_code e = 0 ∧ required_checks_passed e = true) ∧
  (route g t e n same fresh = REPAIRABLE →
     workspace_clean e = true ∧ n < max_attempts g ∧ n < task_max_attempts t ∧
     (same < same_error_limit g ∨ fresh = true) ∧
     ∃ c, failure_class e = Some c ∧ c ∈ [TRANSIENT; LOGIC_BUG; CONTRACT_MISMATCH]) ∧
  (route g t e n same fresh = REPAIRABLE → goal_built g → n + 1 <= 3).
Proof.
  assert (Hrep : route g t e n same fresh = REPAIRABLE →
     workspace_clean e = true ∧ n < max_attempts g ∧ n < task_max_attempts t ∧
     (same < same_error_limit g ∨ fresh = true) ∧
     ∃ c, failure_class e = Some c ∧ c ∈ [TRANSIENT; LOGIC_BUG; CONTRACT_MISMATCH]).
  { unfold route. destruct (workspace_clean e) eqn:E0; simpl; [|done].
    destruct (attempt_succeeded e); [done|]. destruct (class_in _ _); [done|].
    destruct (_ && _) eqn:E1; [done|]. destruct (_ <=? n) eqn:E2; [done|].
    destruct (class_in _ _) eqn:E3; [|by destruct (bool_decide _)]. intros _.
    split_and!; [done|lia|lia| |].
    - apply andb_false_iff in E1 as [?|?%negb_false_iff]; [left; lia|by right].
    - destruct (failure_class e) as [c|]; [|done]. exists c. split; [done|].
      by apply bool_decide_eq_true in E3. }
  split_and!; [|done|].
  - unfold route, attempt_succeeded. destruct (workspace_clean e); simpl; [|naive_solver].
    destruct (verifier_exit_code e =? 0) eqn:E; simpl.
    + apply Z.eqb_eq in E. rewrite E. destruct (required_checks_passed e); [naive_solver|].
      split; [|naive_solver]. repeat case_match; done.
    + apply Z.eqb_neq in E. split; [|naive_solver]. repeat case_match; done.
  - intros H [raw Hg]. apply Hrep in H as (_ & H & _).
    unfold goal_init in Hg. do 9 (apply bind_ok in Hg as (? & ? & Hg)). injection Hg as <-. simpl in H.
    match goal with H : require (z_between 1 _ 3 && _) = _ |- _ => apply require_ok in H; rename H into Hb end.
    apply andb_true_iff in Hb as [Hb _]. unfold z_between in Hb. lia.
Qed.

(** The output schema the program declares for
    plan drafts uses minItems, which the gateway's closed vocabulary does not
    implement, so the gateway refuses every draft, whatever the model answers. *)
Theorem plan_draft_schema_unusable output :
  validate_output output PLAN_DRAFT_OUTPUT_SCHEMA =
    Err (OutputSchemaError "unsupported output schema keywords").
Proof. reflexivity. Qed.

(** ** Witnesses *)
Module SampleAttempt.
Definition task : TaskSpec := default (SamplePlan.task "t" [] ["src"]) (head (tasks SamplePlan.plan)).
Definition action : ToolActionRequest :=
  MkAction "r" (plan_id SamplePlan.plan) "t" 1 "repository-task" ["src"] false.
Definition decided : result PolicyDecision :=
  Eval vm_compute in authorize SamplePlan.goal SamplePlan.plan task action.
Definition decision : PolicyDecision :=
  match decided with Ok d => d | Err _ => MkPolicy false "" "" "" end.
Lemma decides : authorize SamplePlan.goal SamplePlan.plan task action = Ok decision.
Proof. by_vm. Qed.
Definition evidence : AttemptEvidence :=
  MkEvidence true 1 false (Some LOGIC_BUG) (Some "boom") [] [] "" None None 0 None "".
End SampleAttempt.

Lemma authorize_exact_witness :
  allowed SampleAttempt.decision = true ∧
  ∀ x, x ∈ action_paths SampleAttempt.action → x ∈ allowed_paths SamplePlan.goal.
Proof.
  split; [reflexivity|].
  apply (proj2 (authorize_exact _ _ _ _ _ SampleAttempt.decides)). reflexivity.
Defined.

Lemma route_bounded_witness :
  route SamplePlan.goal SampleAttempt.task SampleAttempt.evidence 2 5 true = REPAIRABLE ∧ 2 + 1 <= 3.
Proof.
  split; [reflexivity|].
  apply (proj2 (proj2 (route_bounded SamplePlan.goal SampleAttempt.task SampleAttempt.evidence 2 5 true))).
  - reflexivity.
  - exists SamplePlan.goal. apply SamplePlan.goal_is_built.
Defined.
