(* ===== verification/Changes.v ===== *)
(** * orchestration/changes.py: proposal-only text changes

    Evidence files, the context shown to a change provider, the proposal it may
    answer with, and their payloads.  Constructors are the dataclasses'
    [__post_init__]; a proposal is also read from an untrusted value.  Every
    failure is [ChangeContractError] with one of two codes. *)

From S2P Require Import Prelude PyStr PyFloat Json JsonText JsonFacts PyTime Contracts OutputSchema Gateway.
From Stdlib Require Import ZArith Lia Ascii String Sorting.Sorted Sorting.Permutation.
From stdpp Require Import base gmap sets list strings.
Local Open Scope Z_scope.

Definition CHANGE_CONTEXT_SCHEMA : string := "change-context/v1".
Definition CHANGE_PROPOSAL_SCHEMA_VERSION : string := "change-proposal/v1".
Definition CHANGE_PROVIDER_RESULT_SCHEMA : string := "change-provider-result/v1".

(** [[A-Za-z0-9][A-Za-z0-9._:-]{0,127}\Z] *)
Definition change_IDENTIFIER (s : string) : bool :=
  re_first_rest is_alnum (λ a, is_alnum a || is_one_of "._:-" a) 127 s.
Definition _MAX_OBJECTIVE_BYTES : Z := 8 * 1024.
Definition _MAX_CONSTRAINTS : Z := 64.
Definition _MAX_CONSTRAINT_BYTES : Z := 2 * 1024.
Definition MAX_EVIDENCE_FILES : Z := 64.
Definition MAX_EVIDENCE_FILE_BYTES : Z := 256 * 1024.
Definition MAX_EVIDENCE_BYTES : Z := 1024 * 1024.
Definition MAX_CHANGE_CONTEXT_BYTES : Z := 16 * 1024 * 1024.
Definition MAX_CHANGE_PROPOSAL_BYTES : Z := 32 * 1024 * 1024.
Definition _MAX_ALLOWED_PATHS : Z := 256.
Definition _MAX_CHANGED_PATHS : Z := 10000.
Definition _MAX_OPERATIONS : Z := 256.
Definition _MAX_OPERATION_CONTENT_BYTES : Z := 1024 * 1024.
Definition _MAX_PROPOSAL_CONTENT_BYTES : Z := 4 * 1024 * 1024.
Definition _MAX_SUMMARY_BYTES : Z := 4 * 1024.

Definition invalid_evidence : exn := ChangeContractError "invalid-change-evidence".
Definition invalid_proposal : exn := ChangeContractError "invalid-change-proposal".
Definition evidence_require (c : bool) : result unit := contract_require invalid_evidence c.
Definition proposal_require (c : bool) : result unit := contract_require invalid_proposal c.

Inductive TextOperation := CREATE | REPLACE | DELETE.
#[export] Instance text_operation_eq_dec : EqDecision TextOperation.
Proof. solve_decision. Defined.
Definition operation_value (o : TextOperation) : string :=
  match o with CREATE => "create" | REPLACE => "replace" | DELETE => "delete" end.
Definition text_operations : list (string * TextOperation) :=
  [("create", CREATE); ("replace", REPLACE); ("delete", DELETE)].

(** ** Validators *)

Definition change_repository_path (e : exn) (value : string) : result string :=
  _ ← contract_require e (repository_path_ok value); Ok value.

Definition _policy_path (e : exn) (value : string) : result string :=
  if bool_decide (value = ".") then Ok value else change_repository_path e value.

Definition _bounded_utf8 (value : string) (maximum : Z) (e : exn) (allow_empty : bool) : result string :=
  _ ← contract_require e ((allow_empty || negb (blank value)) && negb (contains nul value)
        && (byte_len value <=? maximum));
  Ok value.

Definition sum_bytes (l : list string) : Z := foldr (λ s n, byte_len s + n) 0 l.

(** ** Evidence and context *)

Record ExecutionEvidenceFile := MkEvidenceFile {
  ef_path : string;
  ef_content : string;
  ef_content_digest : string
}.

Definition evidence_file_init (f : ExecutionEvidenceFile) : result ExecutionEvidenceFile :=
  path ← change_repository_path invalid_evidence (ef_path f);
  content ← _bounded_utf8 (ef_content f) MAX_EVIDENCE_FILE_BYTES invalid_evidence true;
  _ ← evidence_require (bool_decide (ef_content_digest f = bytes_digest content));
  Ok (MkEvidenceFile path content (ef_content_digest f)).

Record ChangeContext := MkChangeContext {
  cc_objective : string;
  cc_constraints : list string;
  cc_base_commit : string;
  cc_allowed_paths : list string;
  cc_max_changed_paths : Z;
  cc_files : list ExecutionEvidenceFile;
  cc_schema_version : string
}.

Definition evidence_file_payload (f : ExecutionEvidenceFile) : pyval :=
  obj [("path", PStr (ef_path f)); ("content", PStr (ef_content f));
       ("content_digest", PStr (ef_content_digest f))].

Definition change_context_payload (c : ChangeContext) : pyval :=
  obj [("schema_version", PStr (cc_schema_version c));
       ("objective", PStr (cc_objective c));
       ("constraints", pstrs (cc_constraints c));
       ("base_commit", PStr (cc_base_commit c));
       ("allowed_paths", pstrs (cc_allowed_paths c));
       ("max_changed_paths", PInt (cc_max_changed_paths c));
       ("files", PSequence (map evidence_file_payload (cc_files c)))].

Definition change_context_init (c : ChangeContext) : result ChangeContext :=
  _ ← evidence_require (bool_decide (cc_schema_version c = CHANGE_CONTEXT_SCHEMA));
  _ ← _bounded_utf8 (cc_objective c) _MAX_OBJECTIVE_BYTES invalid_evidence false;
  _ ← evidence_require ((zlen (cc_constraints c) <=? _MAX_CONSTRAINTS) && distinct (cc_constraints c));
  _ ← map_result (λ s, _bounded_utf8 s _MAX_CONSTRAINT_BYTES invalid_evidence false) (cc_constraints c);
  _ ← evidence_require (re_commit (cc_base_commit c));
  _ ← evidence_require (zlen (cc_allowed_paths c) <=? _MAX_ALLOWED_PATHS);
  paths ← map_result (_policy_path invalid_evidence) (cc_allowed_paths c);
  let allowed_paths := sort_strings paths in
  _ ← evidence_require (distinct allowed_paths);
  _ ← evidence_require (z_between 0 (cc_max_changed_paths c) _MAX_CHANGED_PATHS);
  _ ← evidence_require (zlen (cc_files c) <=? MAX_EVIDENCE_FILES);
  let files := sort_by ef_path (cc_files c) in
  _ ← evidence_require (distinct (map ef_path files));
  _ ← evidence_require (sum_bytes (map ef_content files) <=? MAX_EVIDENCE_BYTES);
  let context := MkChangeContext (cc_objective c) (cc_constraints c) (cc_base_commit c) allowed_paths
                   (cc_max_changed_paths c) files (cc_schema_version c) in
  text ← canonical_json_bytes (change_context_payload context);
  _ ← evidence_require (byte_len text <=? MAX_CHANGE_CONTEXT_BYTES);
  Ok context.

Definition change_context_digest (c : ChangeContext) : result string :=
  json_digest (change_context_payload c).

(** ** Operations and proposals *)

Record FileChange := MkFileChange {
  fc_operation : TextOperation;
  fc_path : string;
  fc_expected_digest : option string;
  fc_content : option string
}.
#[export] Instance file_change_eq_dec : EqDecision FileChange.
Proof. solve_decision. Defined.

Definition file_change_init (f : FileChange) : result FileChange :=
  path ← change_repository_path invalid_proposal (fc_path f);
  _ ← match fc_operation f with
      | CREATE => proposal_require (bool_decide (fc_expected_digest f = None)
                    && bool_decide (is_Some (fc_content f)))
      | REPLACE => proposal_require (re_digest (default "" (fc_expected_digest f))
                     && bool_decide (is_Some (fc_content f)))
      | DELETE => proposal_require (re_digest (default "" (fc_expected_digest f))
                    && bool_decide (fc_content f = None))
      end;
  _ ← match fc_content f with
      | None => Ok tt
      | Some c =>
          content ← _bounded_utf8 c _MAX_OPERATION_CONTENT_BYTES invalid_proposal true;
          raise_if (bool_decide (fc_operation f = REPLACE)
            && bool_decide (Some (bytes_digest content) = fc_expected_digest f)) invalid_proposal
      end;
  Ok (MkFileChange (fc_operation f) path (fc_expected_digest f) (fc_content f)).

Definition file_change_content_digest (f : FileChange) : option string :=
  bytes_digest <$> fc_content f.

Record ChangeProposal := MkChangeProposal {
  cp_proposal_id : string;
  cp_evidence_digest : string;
  cp_operations : list FileChange;
  cp_summary : string;
  cp_schema_version : string
}.

Definition file_change_payload (f : FileChange) : pyval :=
  obj [("operation", PStr (operation_value (fc_operation f)));
       ("path", PStr (fc_path f));
       ("expected_digest", popt (fc_expected_digest f));
       ("content", popt (fc_content f))].

Definition change_proposal_payload (p : ChangeProposal) : pyval :=
  obj [("schema_version", PStr (cp_schema_version p));
       ("proposal_id", PStr (cp_proposal_id p));
       ("evidence_digest", PStr (cp_evidence_digest p));
       ("operations", PSequence (map file_change_payload (cp_operations p)));
       ("summary", PStr (cp_summary p))].

Definition change_proposal_init (p : ChangeProposal) : result ChangeProposal :=
  _ ← proposal_require (bool_decide (cp_schema_version p = CHANGE_PROPOSAL_SCHEMA_VERSION)
        && change_IDENTIFIER (cp_proposal_id p) && re_digest (cp_evidence_digest p));
  _ ← proposal_require (z_between 1 (zlen (cp_operations p)) _MAX_OPERATIONS);
  let operations := sort_by fc_path (cp_operations p) in
  _ ← proposal_require (distinct (map fc_path operations));
  _ ← proposal_require
        (sum_bytes (map (λ f, default "" (fc_content f)) operations) <=? _MAX_PROPOSAL_CONTENT_BYTES);
  _ ← _bounded_utf8 (cp_summary p) _MAX_SUMMARY_BYTES invalid_proposal false;
  let proposal := MkChangeProposal (cp_proposal_id p) (cp_evidence_digest p) operations
                    (cp_summary p) (cp_schema_version p) in
  text ← canonical_json_bytes (change_proposal_payload proposal);
  _ ← proposal_require (byte_len text <=? MAX_CHANGE_PROPOSAL_BYTES);
  Ok proposal.

Definition change_proposal_digest (p : ChangeProposal) : result string :=
  json_digest (change_proposal_payload p).

(** ** Provider calls and results *)

Definition call_text_ok (value : string) : bool := negb (blank value) && (py_len value <=? 256).

Record ChangeProviderCall := MkChangeCall {
  call_request_id : string;
  call_correlation_id : string;
  call_run_id : string;
  call_node_id : string;
  call_context : ChangeContext;
  call_classification : DataClassification;
  call_locality : LocalityPolicy;
  call_budget : GatewayBudget;
  call_estimated_input_tokens : Z;
  call_causation_id : option string
}.

Definition change_call_init (c : ChangeProviderCall) : result ChangeProviderCall :=
  _ ← evidence_require (forallb call_text_ok
        [call_request_id c; call_correlation_id c; call_run_id c; call_node_id c]);
  _ ← evidence_require (match call_causation_id c with Some s => call_text_ok s | None => true end);
  _ ← evidence_require (0 <=? call_estimated_input_tokens c);
  Ok c.

Record ChangeProviderResult := MkChangeResult {
  cr_proposal : ChangeProposal;
  cr_provider_output_digest : string;
  cr_profile_id : string;
  cr_adapter_id : string;
  cr_model_id : string;
  cr_input_tokens : option Z;
  cr_output_tokens : option Z;
  cr_latency_ms : Z;
  cr_cost_microusd : option Z;
  cr_completed_at : datetime;
  cr_schema_version : string
}.

Definition change_result_init (r : ChangeProviderResult) : result ChangeProviderResult :=
  _ ← proposal_require (bool_decide (cr_schema_version r = CHANGE_PROVIDER_RESULT_SCHEMA)
        && re_digest (cr_provider_output_digest r));
  _ ← proposal_require (forallb call_text_ok [cr_profile_id r; cr_adapter_id r; cr_model_id r]);
  _ ← proposal_require (forallb nonneg_opt [cr_input_tokens r; cr_output_tokens r; cr_cost_microusd r]
        && (0 <=? cr_latency_ms r));
  _ ← proposal_require (bool_decide (is_Some (dt_offset (cr_completed_at r))));
  Ok r.

Definition change_provider_result_payload (r : ChangeProviderResult) : result pyval :=
  digest ← change_proposal_digest (cr_proposal r);
  Ok (obj [("schema_version", PStr (cr_schema_version r));
           ("proposal_digest", PStr digest);
           ("provider_output_digest", PStr (cr_provider_output_digest r));
           ("profile_id", PStr (cr_profile_id r));
           ("adapter_id", PStr (cr_adapter_id r));
           ("model_id", PStr (cr_model_id r));
           ("input_tokens", poptint (cr_input_tokens r));
           ("output_tokens", poptint (cr_output_tokens r));
           ("latency_ms", PInt (cr_latency_ms r));
           ("cost_microusd", poptint (cr_cost_microusd r));
           ("completed_at", PStr (isoformat (cr_completed_at r)))]).

(** ** Reading an untrusted proposal *)

Definition file_change_from_mapping (value : pyval) : result FileChange :=
  raw ← contract_object invalid_proposal ["operation"; "path"; "expected_digest"; "content"] value;
  operation ← contract_enum invalid_proposal text_operations (pget "operation" raw);
  path ← contract_string invalid_proposal (pget "path" raw);
  expected_digest ← contract_optional_string invalid_proposal (pget "expected_digest" raw);
  content ← contract_optional_string invalid_proposal (pget "content" raw);
  file_change_init (MkFileChange operation path expected_digest content).

Definition change_proposal_keys : list string :=
  ["schema_version"; "proposal_id"; "evidence_digest"; "operations"; "summary"].

Definition change_proposal_from_mapping (value : pyval) : result ChangeProposal :=
  raw ← contract_object invalid_proposal change_proposal_keys value;
  raw_operations ← contract_sequence invalid_proposal 1 _MAX_OPERATIONS (pget "operations" raw);
  operations ← map_result file_change_from_mapping raw_operations;
  schema_version ← contract_string invalid_proposal (pget "schema_version" raw);
  proposal_id ← contract_string invalid_proposal (pget "proposal_id" raw);
  evidence_digest ← contract_string invalid_proposal (pget "evidence_digest" raw);
  summary ← contract_string invalid_proposal (pget "summary" raw);
  change_proposal_init (MkChangeProposal proposal_id evidence_digest operations summary schema_version).

(** ** CHANGE_PROPOSAL_OUTPUT_SCHEMA *)

Definition string_schema (fields : jobject) : json := JObj (("type", JStr "string") :: fields).
Definition nullable_text (maximum : Z) : json :=
  JObj [("type", JArr [JStr "string"; JStr "null"]); ("maxLength", JInt maximum)].

Definition CHANGE_OPERATION_SCHEMA : json :=
  JObj [("type", JStr "object");
        ("additionalProperties", JBool false);
        ("required", JArr (map JStr ["operation"; "path"; "expected_digest"; "content"]));
        ("properties", JObj
           [("operation", string_schema [("enum", JArr (map JStr (map fst text_operations)))]);
            ("path", string_schema [("minLength", JInt 1); ("maxLength", JInt _MAX_PATH_CHARS)]);
            ("expected_digest", nullable_text 71);
            ("content", nullable_text _MAX_OPERATION_CONTENT_BYTES)])].

Definition CHANGE_PROPOSAL_OUTPUT_SCHEMA : jobject :=
  [("$schema", JStr "https://json-schema.org/draft/2020-12/schema");
   ("type", JStr "object");
   ("additionalProperties", JBool false);
   ("required", JArr (map JStr change_proposal_keys));
   ("properties", JObj
      [("schema_version", string_schema [("const", JStr CHANGE_PROPOSAL_SCHEMA_VERSION)]);
       ("proposal_id", string_schema [("minLength", JInt 1); ("maxLength", JInt 128)]);
       ("evidence_digest", string_schema [("minLength", JInt 71); ("maxLength", JInt 71)]);
       ("operations", JObj [("type", JStr "array"); ("minItems", JInt 1);
                            ("maxItems", JInt _MAX_OPERATIONS); ("items", CHANGE_OPERATION_SCHEMA)]);
       ("summary", string_schema [("minLength", JInt 1); ("maxLength", JInt _MAX_SUMMARY_BYTES)])])].

(** ** What an admitted proposal is *)

(** What an operation of each kind carries. *)
Definition operation_shape (f : FileChange) : Prop :=
  match fc_operation f with
  | CREATE => fc_expected_digest f = None ∧ ∃ c, fc_content f = Some c
  | REPLACE => ∃ d c, fc_expected_digest f = Some d ∧ re_digest d = true
      ∧ fc_content f = Some c ∧ bytes_digest c ≠ d
  | DELETE => (∃ d, fc_expected_digest f = Some d ∧ re_digest d = true) ∧ fc_content f = None
  end.

Record file_change_ok (f : FileChange) : Prop := {
  fco_path : repository_path_ok (fc_path f) = true;
  fco_shape : operation_shape f;
  fco_content : ∀ c, fc_content f = Some c →
    contains nul c = false ∧ byte_len c <= _MAX_OPERATION_CONTENT_BYTES
}.

Lemma expected_digest_some o : re_digest (default "" o) = true → ∃ d, o = Some d ∧ re_digest d = true.
Proof. destruct o as [d|]; simpl; [eauto|done]. Qed.

Lemma bounded_utf8_ok value maximum e b s : _bounded_utf8 value maximum e b = Ok s ↔
  s = value ∧ (b = true ∨ blank value = false) ∧ contains nul value = false ∧ byte_len value <= maximum.
Proof.
  assert (G : (b || negb (blank value)) && negb (contains nul value) && (byte_len value <=? maximum) = true
    ↔ (b = true ∨ blank value = false) ∧ contains nul value = false ∧ byte_len value <= maximum).
  { rewrite !andb_true_iff, orb_true_iff, !negb_true_iff, Z.leb_le. tauto. }
  unfold _bounded_utf8. rewrite bind_ok. setoid_rewrite contract_require_ok. rewrite <-G. split.
  - by intros (u & H & [= <-]).
  - intros (-> & H). by exists tt.
Qed.

Lemma repository_path_init e value p :
  change_repository_path e value = Ok p ↔ p = value ∧ repository_path_ok value = true.
Proof.
  unfold change_repository_path. rewrite bind_ok. setoid_rewrite contract_require_ok. split.
  - by intros (u & ? & [= <-]).
  - intros [-> H]. by exists tt.
Qed.

(** The constructor accepts exactly the well-formed operations and changes
    none of them. *)
Lemma file_change_init_spec f g : file_change_init f = Ok g ↔ g = f ∧ file_change_ok f.
Proof.
  destruct f as [o path d c]. unfold file_change_init. simpl. split.
  - intros H. apply bind_ok in H as (p & [-> Hp]%repository_path_init & H).
    apply bind_ok in H as (u & Hs & H). apply bind_ok in H as (v & Hc & [= <-]).
    split; [done|]. constructor; simpl; [done| |].
    + unfold operation_shape; simpl.
      destruct o; apply contract_require_ok in Hs; apply andb_true_iff in Hs as [H1 H2].
      * apply bool_decide_eq_true in H1, H2. destruct H2 as [x ->]. eauto.
      * apply expected_digest_some in H1 as (x & -> & Hx). apply bool_decide_eq_true in H2.
        destruct H2 as [y ->]. exists x, y. split_and!; [done..|].
        apply bind_ok in Hc as (? & [-> _]%bounded_utf8_ok & Hc). apply raise_if_ok in Hc.
        rewrite bool_decide_true in Hc by done. simpl in Hc. apply bool_decide_eq_false in Hc. congruence.
      * apply expected_digest_some in H1 as (x & -> & Hx). apply bool_decide_eq_true in H2. eauto.
    + intros x ->. apply bind_ok in Hc as (? & (-> & _ & Hn & Hl)%bounded_utf8_ok & _). done.
  - intros (-> & [Hp Hs Hc]). simpl in *. unfold operation_shape in Hs. simpl in Hs.
    rewrite (proj2 (repository_path_init _ _ path)) by done. cbn [mbind result_bind].
    assert (Hb : ∀ x, c = Some x → _bounded_utf8 x _MAX_OPERATION_CONTENT_BYTES invalid_proposal true = Ok x).
    { intros x Hx. apply bounded_utf8_ok. destruct (Hc x Hx). auto. }
    destruct o.
    + destruct Hs as (-> & x & ->). simpl. by rewrite (Hb x).
    + destruct Hs as (x & y & -> & Hx & -> & Hne). cbn [default from_option id].
      rewrite Hx. simpl. rewrite (Hb y) by done. cbn [mbind result_bind].
      by rewrite bool_decide_eq_false_2 by congruence.
    + destruct Hs as ((x & -> & Hx) & ->). cbn [default from_option id]. by rewrite Hx.
Qed.

(** The invariant the constructor establishes. *)
Record change_proposal_ok (p : ChangeProposal) : Prop := {
  cpo_schema : cp_schema_version p = CHANGE_PROPOSAL_SCHEMA_VERSION;
  cpo_id : change_IDENTIFIER (cp_proposal_id p) = true;
  cpo_digest : re_digest (cp_evidence_digest p) = true;
  cpo_count : 1 <= zlen (cp_operations p) <= _MAX_OPERATIONS;
  cpo_sorted : StronglySorted (leR (by_key fc_path)) (cp_operations p);
  cpo_paths : NoDup (map fc_path (cp_operations p));
  cpo_content : sum_bytes (map (λ f, default "" (fc_content f)) (cp_operations p))
    <= _MAX_PROPOSAL_CONTENT_BYTES;
  cpo_summary : blank (cp_summary p) = false ∧ contains nul (cp_summary p) = false
    ∧ byte_len (cp_summary p) <= _MAX_SUMMARY_BYTES;
  cpo_size : ∃ text, canonical_json_bytes (change_proposal_payload p) = Ok text
    ∧ byte_len text <= MAX_CHANGE_PROPOSAL_BYTES
}.

Lemma change_proposal_init_ok q p : change_proposal_init q = Ok p →
  change_proposal_ok p ∧ cp_operations p = sort_by fc_path (cp_operations q).
Proof.
  unfold change_proposal_init. intros H.
  apply bind_ok in H as (u1 & H1%contract_require_ok & H).
  apply bind_ok in H as (u2 & H2%contract_require_ok & H).
  apply bind_ok in H as (u3 & H3%contract_require_ok & H).
  apply bind_ok in H as (u4 & H4%contract_require_ok & H).
  apply bind_ok in H as (s & (-> & Hs1 & Hs2 & Hs3)%bounded_utf8_ok & H).
  apply bind_ok in H as (text & H5 & H).
  apply bind_ok in H as (u6 & H6%contract_require_ok & [= <-]).
  rewrite !andb_true_iff, bool_decide_eq_true in H1. destruct H1 as ((H1a & H1b) & H1c).
  unfold z_between in H2. split; [|done]. constructor; simpl; try done.
  - rewrite sort_by_zlen. lia.
  - apply sort_by_sorted.
  - by apply bool_decide_eq_true in H3.
  - lia.
  - by destruct Hs1.
  - exists text. split; [done|lia].
Qed.

(** A well-formed proposal is a fixed point of the constructor. *)
Lemma change_proposal_init_fix p : change_proposal_ok p → change_proposal_init p = Ok p.
Proof.
  intros [H1 H2 H3 H4 H5 H6 H7 (H8 & H9 & H10) (text & H11 & H12)].
  destruct p as [id ev ops summary schema]. simpl in *. unfold change_proposal_init. simpl.
  assert (Es : sort_by fc_path ops = ops) by by apply isort_id. rewrite Es.
  rewrite bool_decide_eq_true_2, H2, H3 by done. simpl.
  unfold z_between. rewrite (proj2 (Z.leb_le 1 _)), (proj2 (Z.leb_le _ _MAX_OPERATIONS)) by lia. simpl.
  unfold distinct. rewrite bool_decide_eq_true_2 by done. simpl.
  rewrite (proj2 (Z.leb_le _ _)) by lia. simpl.
  rewrite (proj2 (bounded_utf8_ok summary _ _ false summary)) by auto. cbn [mbind result_bind].
  rewrite H11. cbn [mbind result_bind].
  by rewrite (proj2 (Z.leb_le _ _)) by lia.
Qed.

Lemma contract_object_ok err keys v raw : contract_object err keys v = Ok raw →
  contract_mapping err v = Ok raw ∧ has_keys raw keys = true.
Proof.
  unfold contract_object. intros H. apply bind_ok in H as (r & Hr & H).
  by apply bind_ok in H as (u & Hk%contract_require_ok & [= <-]).
Qed.

Lemma change_proposal_from_mapping_ok v p : change_proposal_from_mapping v = Ok p →
  change_proposal_ok p ∧ Forall file_change_ok (cp_operations p).
Proof.
  unfold change_proposal_from_mapping. intros H.
  apply bind_ok in H as (raw & _ & H). apply bind_ok in H as (ops & _ & H).
  apply bind_ok in H as (changes & Hch & H). do 4 (apply bind_ok in H as (? & _ & H)).
  apply change_proposal_init_ok in H as [Hok Hops]. split; [done|].
  rewrite Hops. unfold sort_by. rewrite isort_perm. simpl.
  eapply map_result_Forall, Hch. intros w f Hx.
  unfold file_change_from_mapping in Hx. do 5 (apply bind_ok in Hx as (? & _ & Hx)).
  by apply file_change_init_spec in Hx as [-> ?].
Qed.

Lemma file_change_read f : file_change_ok f → file_change_from_mapping (file_change_payload f) = Ok f.
Proof.
  intros Hf. unfold file_change_from_mapping, file_change_payload.
  rewrite contract_object_obj by done. cbn [mbind result_bind]. pget_literal.
  assert (E : contract_enum invalid_proposal text_operations (PStr (operation_value (fc_operation f)))
              = Ok (fc_operation f)) by by destruct (fc_operation f).
  rewrite E. cbn [mbind result_bind contract_string].
  assert (Ho : ∀ o, contract_optional_string invalid_proposal (popt o) = Ok o) by by destruct o.
  rewrite !Ho. cbn [mbind result_bind]. apply file_change_init_spec. by destruct f.
Qed.

(** ** Properties *)

(** C36 (change_proposal_closed): an untrusted provider answer that is admitted
    as a proposal is inert and bounded: between one and 256 operations in path
    order with distinct paths; every path is repository-relative, none of its
    components empty, a dot, two dots or [.git] (the root ["."] itself is let
    through); a create carries no expected digest, a replace carries the digest
    of different bytes, a delete carries a digest and no content; and the content
    stays within its byte limits. *)
Theorem change_proposal_closed v p : change_proposal_from_mapping v = Ok p →
  1 <= zlen (cp_operations p) <= 256 ∧ NoDup (map fc_path (cp_operations p))
  ∧ StronglySorted (leR (by_key fc_path)) (cp_operations p)
  ∧ sum_bytes (map (λ f, default "" (fc_content f)) (cp_operations p)) <= 4194304
  ∧ ∀ f, f ∈ cp_operations p → operation_shape f
      ∧ (fc_path f = "." ∨ Forall (λ part, part ≠ "" ∧ part ≠ "." ∧ part ≠ ".." ∧ part ≠ ".git")
                             (split_path (fc_path f))).
Proof.
  intros H. apply change_proposal_from_mapping_ok in H as [Hp Hf].
  destruct Hp as [_ _ _ Hc Hs Hn Hb _ _]. split_and!; try done; try apply Hc.
  intros f Hin. apply (proj1 (Forall_forall _ _) Hf) in Hin as [Hpath Hshape _]. split; [done|].
  apply repository_path_ok_spec in Hpath as (_ & _ & _ & [?|Hg]); [by left|right].
  eapply Forall_impl; [exact Hg|]. intros x Hx. unfold bad_component in Hx.
  apply orb_false_iff in Hx as [H1%bool_decide_eq_false H2%bool_decide_eq_false].
  split_and!; try done; intros ->; apply H1; set_solver.
Qed.

(** An admitted proposal reads back from the
    payload it is recorded as, unchanged. *)
Theorem change_proposal_roundtrip v p : change_proposal_from_mapping v = Ok p →
  change_proposal_from_mapping (change_proposal_payload p) = Ok p.
Proof.
  intros H. apply change_proposal_from_mapping_ok in H as [Hp Hf].
  unfold change_proposal_from_mapping, change_proposal_payload at 1.
  rewrite contract_object_obj by done. cbn [mbind result_bind]. pget_literal.
  rewrite contract_sequence_ok by (rewrite zlen_map; apply Hp). cbn [mbind result_bind].
  rewrite map_result_payload.
  2: { intros f Hin. apply file_change_read. by apply (proj1 (Forall_forall _ _) Hf). }
  cbn [mbind result_bind contract_string]. rewrite <-(change_proposal_init_fix p Hp). by destruct p.
Qed.

Lemma change_proposal_schema_unusable output :
  validate_output output CHANGE_PROPOSAL_OUTPUT_SCHEMA =
    Err (OutputSchemaError "unsupported output schema keywords").
Proof. reflexivity. Qed.

(** The path check admits the repository root as a file to change. *)
Lemma root_path_accepted : change_repository_path invalid_proposal "." = Ok ".".
Proof. reflexivity. Qed.

(** ** A concrete proposal *)
Module SampleChange.
Definition digest : string := Eval vm_compute in bytes_digest "old".
Definition draft : pyval :=
  obj [("summary", PStr "rename");
       ("operations", PSequence
          [obj [("operation", PStr "replace"); ("path", PStr "src/b.py");
                ("expected_digest", PStr digest); ("content", PStr "new")];
           obj [("operation", PStr "create"); ("path", PStr "src/a.py");
                ("expected_digest", PNone); ("content", PStr "")]]);
       ("evidence_digest", PStr digest);
       ("proposal_id", PStr "p1");
       ("schema_version", PStr CHANGE_PROPOSAL_SCHEMA_VERSION)].
Definition proposal : ChangeProposal :=
  MkChangeProposal "p1" digest
    [MkFileChange CREATE "src/a.py" None (Some "");
     MkFileChange REPLACE "src/b.py" (Some digest) (Some "new")] "rename" CHANGE_PROPOSAL_SCHEMA_VERSION.
Lemma admitted : change_proposal_from_mapping draft = Ok proposal.
Proof. by_vm. Qed.
End SampleChange.

Lemma change_proposal_closed_witness : NoDup (map fc_path (cp_operations SampleChange.proposal)).
Proof. apply (change_proposal_closed _ _ SampleChange.admitted). Defined.

Lemma change_proposal_roundtrip_witness :
  change_proposal_from_mapping (change_proposal_payload SampleChange.proposal) = Ok SampleChange.proposal.
Proof. apply (change_proposal_roundtrip _ _ SampleChange.admitted). Defined.

Example git_path_refused : repository_path_ok "src/.git/config" = false. Proof. by_vm. Qed.
Example dotdot_refused : repository_path_ok "src/../x" = false. Proof. by_vm. Qed.
