(* ===== verification/Acceptance.v ===== *)
(** * orchestration/acceptance.py: acceptance commands and results

    A command names an administrator-owned executable alias; a result records
    content-addressed streams and whether the exit code was the expected one.
    The constructors are the dataclasses' [__post_init__]. *)

From S2P Require Import Prelude PyStr PyFloat Json JsonText JsonFacts PyTime Contracts.
From Stdlib Require Import ZArith Lia Ascii String Floats.SpecFloat.
From stdpp Require Import base gmap sets list strings.
Local Open Scope Z_scope.

Definition ACCEPTANCE_COMMAND_SCHEMA : string := "blackcell.acceptance-command/v1".
Definition ACCEPTANCE_RESULT_SCHEMA : string := "blackcell.acceptance-result/v1".
Definition ACCEPTANCE_STREAM_SCHEMA : string := "blackcell.acceptance-stream/v1".

(** [[A-Za-z0-9][A-Za-z0-9._-]{0,119}\Z] *)
Definition is_acceptance_check_id (s : string) : bool :=
  re_first_rest is_alnum (λ a, is_alnum a || is_one_of "._-" a) 119 s.
(** [[A-Za-z0-9][A-Za-z0-9._+-]{0,63}\Z] *)
Definition is_acceptance_executable_alias (s : string) : bool :=
  re_first_rest is_alnum (λ a, is_alnum a || is_one_of "._+-" a) 63 s.
Definition _MAX_ARGV : Z := 32.
Definition _MAX_ARG_CHARS : Z := 2048.
Definition MAX_ACCEPTANCE_TIMEOUT_SECONDS : Z := 600.
Definition MAX_ACCEPTANCE_STREAM_BYTES : Z := 16 * 1024 * 1024.

Inductive AcceptanceFailureCode :=
  | INVALID_COMMAND | INVALID_POLICY | UNSUPPORTED_PLATFORM | ISOLATION_UNAVAILABLE
  | EXECUTABLE_NOT_ALLOWED | WORKTREE_UNAVAILABLE | WORKTREE_POLICY_VIOLATION | WORKTREE_CHANGED
  | SPAWN_FAILED | CANCELED | TIMED_OUT | OUTPUT_TOO_LARGE | OUTPUT_INCOMPLETE.
Definition acceptance_failure_value (c : AcceptanceFailureCode) : string :=
  match c with
  | INVALID_COMMAND => "invalid-execution-acceptance-command"
  | INVALID_POLICY => "invalid-execution-acceptance-policy"
  | UNSUPPORTED_PLATFORM => "execution-acceptance-platform-unsupported"
  | ISOLATION_UNAVAILABLE => "execution-acceptance-isolation-unavailable"
  | EXECUTABLE_NOT_ALLOWED => "execution-acceptance-executable-not-allowed"
  | WORKTREE_UNAVAILABLE => "execution-acceptance-worktree-unavailable"
  | WORKTREE_POLICY_VIOLATION => "execution-acceptance-worktree-policy-violation"
  | WORKTREE_CHANGED => "execution-acceptance-worktree-changed"
  | SPAWN_FAILED => "execution-acceptance-spawn-failed"
  | CANCELED => "execution-acceptance-canceled"
  | TIMED_OUT => "execution-acceptance-timed-out"
  | OUTPUT_TOO_LARGE => "execution-acceptance-output-too-large"
  | OUTPUT_INCOMPLETE => "execution-acceptance-output-incomplete"
  end.
Definition acceptance_error (c : AcceptanceFailureCode) : exn :=
  AcceptanceError (acceptance_failure_value c).

(** [int | float]. *)
Inductive number := IntNumber (z : Z) | FloatNumber (f : spec_float).
Definition number_value (n : number) : pyval :=
  match n with IntNumber z => PInt z | FloatNumber f => PFloat f end.

(** [math.isfinite(n)]: an integer is converted to a double first, and one
    that rounds past the largest double raises. *)
Definition isfinite (n : number) : result bool :=
  match n with
  | IntNumber z => _ ← raise_if (2 ^ 1024 - 2 ^ 970 <=? Z.abs z) OverflowError; Ok true
  | FloatNumber f => Ok (is_finite_float f)
  end.

(** Exact, for a finite number. *)
Definition number_ratio (n : number) : Z * Z :=
  match n with IntNumber z => (z, 1) | FloatNumber f => float_ratio f end.

Record AcceptanceCommand := MkAcceptanceCommand {
  ac_check_id : string;
  ac_argv : list string;
  ac_expected_exit_code : Z;
  ac_timeout_seconds : number;
  ac_stdout_limit_bytes : Z;
  ac_stderr_limit_bytes : Z;
  ac_schema_version : string
}.

Definition invalid_command : exn := acceptance_error INVALID_COMMAND.
Definition command_require (c : bool) : result unit := contract_require invalid_command c.

Definition acceptance_token_ok (token : string) : bool :=
  negb (is_empty token) && (py_len token <=? _MAX_ARG_CHARS) && negb (contains nul token).

Definition acceptance_command_init (c : AcceptanceCommand) : result AcceptanceCommand :=
  _ ← command_require (bool_decide (ac_schema_version c = ACCEPTANCE_COMMAND_SCHEMA)
        && is_acceptance_check_id (ac_check_id c) && z_between 1 (zlen (ac_argv c)) _MAX_ARGV
        && is_acceptance_executable_alias (default "" (head (ac_argv c))));
  _ ← command_require (forallb acceptance_token_ok (ac_argv c));
  _ ← command_require (z_between 0 (ac_expected_exit_code c) 255);
  finite ← isfinite (ac_timeout_seconds c);
  _ ← command_require (finite && ratio_ltb (0, 1) (number_ratio (ac_timeout_seconds c))
        && ratio_leb (number_ratio (ac_timeout_seconds c)) (MAX_ACCEPTANCE_TIMEOUT_SECONDS, 1));
  _ ← command_require (z_between 1 (ac_stdout_limit_bytes c) MAX_ACCEPTANCE_STREAM_BYTES
        && z_between 1 (ac_stderr_limit_bytes c) MAX_ACCEPTANCE_STREAM_BYTES);
  Ok c.

Definition acceptance_command_payload (c : AcceptanceCommand) : pyval :=
  obj [("schema_version", PStr (ac_schema_version c));
       ("check_id", PStr (ac_check_id c));
       ("argv", pstrs (ac_argv c));
       ("expected_exit_code", PInt (ac_expected_exit_code c));
       ("timeout_seconds", number_value (ac_timeout_seconds c));
       ("stdout_limit_bytes", PInt (ac_stdout_limit_bytes c));
       ("stderr_limit_bytes", PInt (ac_stderr_limit_bytes c))].
Definition acceptance_command_digest (c : AcceptanceCommand) : result string :=
  json_digest (acceptance_command_payload c).

(** ** Streams and results *)

Record AcceptanceStream := MkStream {
  captured : string;
  stream_size_bytes : Z;
  stream_digest : string;
  stream_schema_version : string
}.

(** The size and the digest are computed, not given. *)
Definition acceptance_stream_init (captured schema_version : string) : result AcceptanceStream :=
  _ ← raise_if (negb (bool_decide (schema_version = ACCEPTANCE_STREAM_SCHEMA)))
        (ValueError "invalid execution acceptance stream");
  Ok (MkStream captured (byte_len captured) (bytes_digest captured) schema_version).

Record AcceptanceResult := MkAcceptanceResult {
  ar_check_id : string;
  ar_command_digest : string;
  ar_worktree_spec_digest : string;
  ar_isolation_policy_digest : string;
  ar_inspection_before_digest : string;
  ar_inspection_after_digest : string;
  ar_return_code : Z;
  ar_expected_exit_code : Z;
  ar_passed : bool;
  ar_stdout : AcceptanceStream;
  ar_stderr : AcceptanceStream;
  ar_schema_version : string
}.

Definition invalid_result : exn := ValueError "invalid execution acceptance result".

Definition acceptance_result_init (r : AcceptanceResult) : result AcceptanceResult :=
  _ ← contract_require invalid_result
        (bool_decide (ar_schema_version r = ACCEPTANCE_RESULT_SCHEMA)
         && is_acceptance_check_id (ar_check_id r)
         && forallb re_digest [ar_command_digest r; ar_worktree_spec_digest r;
              ar_isolation_policy_digest r; ar_inspection_before_digest r;
              ar_inspection_after_digest r]
         && z_between 0 (ar_return_code r) 255 && z_between 0 (ar_expected_exit_code r) 255
         && eqb (ar_passed r) (ar_return_code r =? ar_expected_exit_code r));
  Ok r.

Definition stream_payload (s : AcceptanceStream) : pyval :=
  obj [("schema_version", PStr (stream_schema_version s));
       ("size_bytes", PInt (stream_size_bytes s));
       ("digest", PStr (stream_digest s))].

Definition acceptance_result_payload (r : AcceptanceResult) : pyval :=
  obj [("schema_version", PStr (ar_schema_version r));
       ("check_id", PStr (ar_check_id r));
       ("command_digest", PStr (ar_command_digest r));
       ("worktree_spec_digest", PStr (ar_worktree_spec_digest r));
       ("isolation_policy_digest", PStr (ar_isolation_policy_digest r));
       ("inspection_before_digest", PStr (ar_inspection_before_digest r));
       ("inspection_after_digest", PStr (ar_inspection_after_digest r));
       ("return_code", PInt (ar_return_code r));
       ("expected_exit_code", PInt (ar_expected_exit_code r));
       ("passed", PBool (ar_passed r));
       ("stdout", stream_payload (ar_stdout r));
       ("stderr", stream_payload (ar_stderr r))].
Definition acceptance_result_digest (r : AcceptanceResult) : result string :=
  json_digest (acceptance_result_payload r).
