(* ===== verification/ExecutionArtifacts.v ===== *)
(** * orchestration/execution_artifacts.py: what a node leaves behind

    A node's outcome is a manifest of links to content-addressed artifacts: the
    change context, proposal, provider result and effect of a node that writes,
    and four artifacts for each check.  Constructors are the dataclasses'
    [__post_init__]; the readers take untrusted values. *)

From S2P Require Import Prelude PyStr PyFloat Json JsonText JsonFacts PyTime Contracts Printable.
From S2P Require Import Events EventStore Artifacts Strict.
From Stdlib Require Import ZArith Lia Ascii String Sorting.Sorted Sorting.Permutation.
From stdpp Require Import base gmap sets list strings.
Local Open Scope Z_scope.

Definition NODE_OUTCOME_SCHEMA : string := "node-outcome/v2".
Definition CONTEXT_MEDIA_TYPE : string := "application/vnd.blackcell.change-context+json".
Definition PROPOSAL_MEDIA_TYPE : string := "application/vnd.blackcell.change-proposal+json".
Definition PROVIDER_MEDIA_TYPE : string := "application/vnd.blackcell.change-provider-result+json".
Definition EFFECT_MEDIA_TYPE : string := "application/vnd.blackcell.text-change-result+json".
Definition ACCEPTANCE_COMMAND_MEDIA_TYPE : string := "application/vnd.blackcell.acceptance-command+json".
Definition ACCEPTANCE_RESULT_MEDIA_TYPE : string := "application/vnd.blackcell.acceptance-result+json".
Definition OUTCOME_MEDIA_TYPE : string := "application/vnd.blackcell.node-outcome+json".
Definition _MAX_MEDIA_TYPE_CHARS : Z := 256.
Definition _MAX_ENCODING_CHARS : Z := 64.
Definition _MAX_ARTIFACT_BYTES : Z := 2 ^ 63 - 1.

Definition invalid_outcome : exn := ExecutionArtifactContractError "invalid-node-outcome".
Definition unsupported_outcome : exn :=
  ExecutionArtifactContractError "unsupported-node-outcome-schema".
Definition outcome_require (c : bool) : result unit := contract_require invalid_outcome c.

(** ** Links *)

Record ExecutionArtifactLink := MkLink {
  ln_digest : string;
  ln_size_bytes : Z;
  ln_media_type : string;
  ln_encoding : option string
}.
#[export] Instance link_eq_dec : EqDecision ExecutionArtifactLink.
Proof. solve_decision. Defined.

(** Non-empty, bounded, and printable ASCII only. *)
Definition visible_text (value : string) (maximum : Z) : bool :=
  negb (is_empty value) && (py_len value <=? maximum) && all_chars (in_range 33 126) value.

Definition link_init (l : ExecutionArtifactLink) : result ExecutionArtifactLink :=
  _ ← outcome_require (re_digest (ln_digest l) && z_between 0 (ln_size_bytes l) _MAX_ARTIFACT_BYTES
        && visible_text (ln_media_type l) _MAX_MEDIA_TYPE_CHARS
        && match ln_encoding l with Some e => visible_text e _MAX_ENCODING_CHARS | None => true end);
  Ok l.

(** [ExecutionArtifactLink.from_reference]. *)
Definition from_reference (r : ArtifactRef) : result ExecutionArtifactLink :=
  link_init (MkLink (digest r) (size_bytes r) (media_type r) (encoding r)).

(** ** Checks *)

Record CheckArtifacts := MkCheckArtifacts {
  ck_check_id : string;
  ck_command_digest : string;
  ck_result_digest : string;
  ck_passed : bool;
  ck_command : ExecutionArtifactLink;
  ck_result : ExecutionArtifactLink;
  ck_stdout : ExecutionArtifactLink;
  ck_stderr : ExecutionArtifactLink
}.
#[export] Instance check_artifacts_eq_dec : EqDecision CheckArtifacts.
Proof. solve_decision. Defined.

Definition check_artifacts_init (c : CheckArtifacts) : result CheckArtifacts :=
  _ ← outcome_require (re_identifier (ck_check_id c) && re_digest (ck_command_digest c)
        && re_digest (ck_result_digest c)
        && bool_decide (ln_digest (ck_command c) = ck_command_digest c)
        && bool_decide (ln_digest (ck_result c) = ck_result_digest c));
  Ok c.

(** ** Manifests *)

Record NodeOutcomeManifest := MkManifest {
  nm_run_id : string;
  nm_node_id : string;
  nm_attempt : Z;
  nm_fencing_token : Z;
  nm_lease_digest : string;
  nm_worktree_spec_digest : string;
  nm_base_commit : string;
  nm_head_commit : option string;
  nm_repository_write : bool;
  nm_status : string;
  nm_failure_code : option string;
  nm_context : option ExecutionArtifactLink;
  nm_proposal : option ExecutionArtifactLink;
  nm_provider : option ExecutionArtifactLink;
  nm_effect : option ExecutionArtifactLink;
  nm_checks : list CheckArtifacts;
  nm_schema_version : string
}.
#[export] Instance manifest_eq_dec : EqDecision NodeOutcomeManifest.
Proof. solve_decision. Defined.

Definition outcome_statuses : list string := ["succeeded"; "failed"; "canceled"].
Definition manifest_artifacts (m : NodeOutcomeManifest) : list (option ExecutionArtifactLink) :=
  [nm_context m; nm_proposal m; nm_provider m; nm_effect m].

Definition manifest_init (m : NodeOutcomeManifest) : result NodeOutcomeManifest :=
  _ ← outcome_require (bool_decide (nm_schema_version m = NODE_OUTCOME_SCHEMA)
        && re_identifier (nm_run_id m) && re_identifier (nm_node_id m)
        && (1 <=? nm_attempt m) && (1 <=? nm_fencing_token m)
        && re_digest (nm_lease_digest m) && re_digest (nm_worktree_spec_digest m)
        && re_commit (nm_base_commit m) && holds re_commit (nm_head_commit m)
        && bool_decide (nm_status m ∈ outcome_statuses) && holds re_identifier (nm_failure_code m)
        && distinct (map ck_check_id (nm_checks m)));
  _ ← outcome_require (negb (is_some (nm_proposal m) && negb (is_some (nm_context m)))
        && negb (is_some (nm_provider m) && (negb (is_some (nm_context m)) || negb (is_some (nm_proposal m))))
        && negb (is_some (nm_effect m)
                 && existsb (λ l, negb (is_some l)) [nm_context m; nm_proposal m; nm_provider m]));
  _ ← (if bool_decide (nm_status m = "succeeded") then
         _ ← outcome_require (negb (is_some (nm_failure_code m)) && is_some (nm_head_commit m)
               && negb (bool_decide (nm_checks m = [])) && forallb ck_passed (nm_checks m));
         outcome_require (eqb (nm_repository_write m) (forallb is_some (manifest_artifacts m)))
       else
         outcome_require (negb (bool_decide (nm_status m = "failed")
                                && is_empty (default "" (nm_failure_code m)))
           && negb (bool_decide (nm_status m = "canceled") && is_some (nm_failure_code m))));
  _ ← outcome_require (nm_repository_write m || negb (existsb is_some (manifest_artifacts m)));
  Ok m.

(** ** Payloads *)

Definition _link_payload (l : ExecutionArtifactLink) : pyval :=
  obj [("digest", PStr (ln_digest l));
       ("size_bytes", PInt (ln_size_bytes l));
       ("media_type", PStr (ln_media_type l));
       ("encoding", popt (ln_encoding l))].
Definition _optional_link_payload (l : option ExecutionArtifactLink) : pyval :=
  match l with Some l => _link_payload l | None => PNone end.

Definition _check_payload (c : CheckArtifacts) : pyval :=
  obj [("check_id", PStr (ck_check_id c));
       ("command_digest", PStr (ck_command_digest c));
       ("result_digest", PStr (ck_result_digest c));
       ("passed", PBool (ck_passed c));
       ("command_artifact", _link_payload (ck_command c));
       ("result_artifact", _link_payload (ck_result c));
       ("stdout_artifact", _link_payload (ck_stdout c));
       ("stderr_artifact", _link_payload (ck_stderr c))].

Definition node_outcome_payload (m : NodeOutcomeManifest) : pyval :=
  obj [("schema_version", PStr (nm_schema_version m));
       ("run_id", PStr (nm_run_id m));
       ("node_id", PStr (nm_node_id m));
       ("attempt", PInt (nm_attempt m));
       ("fencing_token", PInt (nm_fencing_token m));
       ("lease_digest", PStr (nm_lease_digest m));
       ("worktree_spec_digest", PStr (nm_worktree_spec_digest m));
       ("base_commit", PStr (nm_base_commit m));
       ("head_commit", popt (nm_head_commit m));
       ("repository_write", PBool (nm_repository_write m));
       ("status", PStr (nm_status m));
       ("failure_code", popt (nm_failure_code m));
       ("context_artifact", _optional_link_payload (nm_context m));
       ("proposal_artifact", _optional_link_payload (nm_proposal m));
       ("provider_artifact", _optional_link_payload (nm_provider m));
       ("effect_artifact", _optional_link_payload (nm_effect m));
       ("checks", PSequence (map _check_payload (nm_checks m)))].

Definition manifest_digest (m : NodeOutcomeManifest) : result string :=
  json_digest (node_outcome_payload m).

(** ** Readers *)

Definition link_keys : list string := ["digest"; "size_bytes"; "media_type"; "encoding"].
Definition _link_from_mapping (value : pyval) : result ExecutionArtifactLink :=
  raw ← contract_object invalid_outcome link_keys value;
  link_digest ← contract_string invalid_outcome (pget "digest" raw);
  size ← contract_int invalid_outcome (pget "size_bytes" raw);
  media ← contract_string invalid_outcome (pget "media_type" raw);
  enc ← contract_optional_string invalid_outcome (pget "encoding" raw);
  link_init (MkLink link_digest size media enc).
Definition _optional_link_from_mapping (value : pyval) : result (option ExecutionArtifactLink) :=
  match value with PNone => Ok None | _ => Some <$> _link_from_mapping value end.

(** A sequence of any length. *)
Definition outcome_sequence (value : pyval) : result (list pyval) :=
  match value with PSequence l => Ok l | _ => Err invalid_outcome end.

Definition check_keys : list string :=
  ["check_id"; "command_digest"; "result_digest"; "passed"; "command_artifact"; "result_artifact";
   "stdout_artifact"; "stderr_artifact"].
Definition _check_from_mapping (value : pyval) : result CheckArtifacts :=
  raw ← contract_object invalid_outcome check_keys value;
  check_id ← contract_string invalid_outcome (pget "check_id" raw);
  command_digest ← contract_string invalid_outcome (pget "command_digest" raw);
  result_digest ← contract_string invalid_outcome (pget "result_digest" raw);
  passed ← contract_bool invalid_outcome (pget "passed" raw);
  command ← _link_from_mapping (pget "command_artifact" raw);
  result ← _link_from_mapping (pget "result_artifact" raw);
  stdout ← _link_from_mapping (pget "stdout_artifact" raw);
  stderr ← _link_from_mapping (pget "stderr_artifact" raw);
  check_artifacts_init (MkCheckArtifacts check_id command_digest result_digest passed command result
    stdout stderr).

Definition manifest_keys : list string :=
  ["schema_version"; "run_id"; "node_id"; "attempt"; "fencing_token"; "lease_digest";
   "worktree_spec_digest"; "base_commit"; "head_commit"; "repository_write"; "status"; "failure_code";
   "context_artifact"; "proposal_artifact"; "provider_artifact"; "effect_artifact"; "checks"].

Definition node_outcome_from_mapping (value : pyval) : result NodeOutcomeManifest :=
  raw ← contract_object invalid_outcome manifest_keys value;
  _ ← raise_if (negb (equals_text (pget "schema_version" raw) NODE_OUTCOME_SCHEMA)) unsupported_outcome;
  raw_checks ← outcome_sequence (pget "checks" raw);
  checks ← map_result _check_from_mapping raw_checks;
  run_id ← contract_string invalid_outcome (pget "run_id" raw);
  node_id ← contract_string invalid_outcome (pget "node_id" raw);
  attempt ← contract_int invalid_outcome (pget "attempt" raw);
  fencing_token ← contract_int invalid_outcome (pget "fencing_token" raw);
  lease_digest ← contract_string invalid_outcome (pget "lease_digest" raw);
  spec_digest ← contract_string invalid_outcome (pget "worktree_spec_digest" raw);
  base_commit ← contract_string invalid_outcome (pget "base_commit" raw);
  head_commit ← contract_optional_string invalid_outcome (pget "head_commit" raw);
  repository_write ← contract_bool invalid_outcome (pget "repository_write" raw);
  status ← contract_string invalid_outcome (pget "status" raw);
  _ ← outcome_require (bool_decide (status ∈ outcome_statuses));
  failure_code ← contract_optional_string invalid_outcome (pget "failure_code" raw);
  context ← _optional_link_from_mapping (pget "context_artifact" raw);
  proposal ← _optional_link_from_mapping (pget "proposal_artifact" raw);
  provider ← _optional_link_from_mapping (pget "provider_artifact" raw);
  effect ← _optional_link_from_mapping (pget "effect_artifact" raw);
  manifest_init (MkManifest run_id node_id attempt fencing_token lease_digest spec_digest base_commit
    head_commit repository_write status failure_code context proposal provider effect checks
    NODE_OUTCOME_SCHEMA).
