(* ===== verification/Replay.v ===== *)
(** * orchestration/replay.py: verifying what nodes left behind

    [verify_run_artifacts] re-reads every artifact a run's outcomes refer to and
    checks each against its digest, its schema and what the plan expects; it never
    calls a provider.  The artifact reader is an arbitrary environment: a state
    with two operations whose answers may change from call to call.  A session
    keeps what was read; it survives the [_ReplayIssue] that ends a run, so the
    report of a failed run lists what was verified before. *)

From S2P Require Import Prelude PyStr PyFloat Json JsonText JsonFacts JsonBytes PyTime Contracts.
From S2P Require Import Events EventStore Artifacts Strict OutputSchema Gateway Changes Acceptance.
From S2P Require Import ExecutionArtifacts.
From Stdlib Require Import ZArith Lia Ascii String Floats.SpecFloat.
From stdpp Require Import base gmap sets list strings.
Local Open Scope Z_scope.

Definition _TEXT_CHANGE_RESULT_SCHEMA : string := "execution-text-change-result/v1".
Definition _BINARY_MEDIA_TYPE : string := "application/octet-stream".
Definition _JSON_ENCODING : option string := Some "utf-8".
Definition _MAX_OUTCOME_BYTES : Z := 4 * 1024 * 1024.
Definition _MAX_JSON_ARTIFACT_BYTES : Z := 4 * 1024 * 1024.
Definition MAX_TEXT_CHANGE_RESULT_BYTES : Z := 16 * 1024 * 1024.
Definition _MAX_TOTAL_BYTES : Z := 128 * MAX_ACCEPTANCE_STREAM_BYTES.
Definition _MAX_ARTIFACT_RELATIONSHIPS : Z := 16384.

(** ** Vocabularies *)

Module ReplayStatus.
Inductive t := NOT_APPLICABLE | VERIFIED | INCONCLUSIVE | FAILED.
End ReplayStatus.
#[export] Instance replay_status_eq_dec : EqDecision ReplayStatus.t.
Proof. solve_decision. Defined.
Definition replay_status_value (s : ReplayStatus.t) : string :=
  match s with
  | ReplayStatus.NOT_APPLICABLE => "not-applicable" | ReplayStatus.VERIFIED => "verified"
  | ReplayStatus.INCONCLUSIVE => "inconclusive" | ReplayStatus.FAILED => "failed"
  end.

Module Role.
Inductive t :=
  | OUTCOME | CONTEXT | PROPOSAL | PROVIDER | EFFECT | CHECK_COMMAND | CHECK_RESULT | CHECK_STDOUT
  | CHECK_STDERR.
End Role.
#[export] Instance role_eq_dec : EqDecision Role.t.
Proof. solve_decision. Defined.
Definition role_value (r : Role.t) : string :=
  match r with
  | Role.OUTCOME => "outcome" | Role.CONTEXT => "context" | Role.PROPOSAL => "proposal"
  | Role.PROVIDER => "provider" | Role.EFFECT => "effect" | Role.CHECK_COMMAND => "check-command"
  | Role.CHECK_RESULT => "check-result" | Role.CHECK_STDOUT => "check-stdout"
  | Role.CHECK_STDERR => "check-stderr"
  end.

Inductive ReplayFindingCode :=
  | ARTIFACT_STORE_UNAVAILABLE | OUTCOME_REFERENCE_ABSENT | ARTIFACT_MISSING
  | ARTIFACT_INTEGRITY_FAILED | ARTIFACT_METADATA_MISMATCH | ARTIFACT_READ_UNAVAILABLE
  | ARTIFACT_BUDGET_EXCEEDED | ARTIFACT_JSON_INVALID | ARTIFACT_NONCANONICAL
  | OUTCOME_SCHEMA_UNSUPPORTED | OUTCOME_INVALID | ARTIFACT_BINDING_MISMATCH.
#[export] Instance finding_code_eq_dec : EqDecision ReplayFindingCode.
Proof. solve_decision. Defined.
Definition finding_code_value (c : ReplayFindingCode) : string :=
  match c with
  | ARTIFACT_STORE_UNAVAILABLE => "replay-artifact-store-unavailable"
  | OUTCOME_REFERENCE_ABSENT => "replay-outcome-reference-absent"
  | ARTIFACT_MISSING => "replay-artifact-missing"
  | ARTIFACT_INTEGRITY_FAILED => "replay-artifact-integrity-failed"
  | ARTIFACT_METADATA_MISMATCH => "replay-artifact-metadata-mismatch"
  | ARTIFACT_READ_UNAVAILABLE => "replay-artifact-read-unavailable"
  | ARTIFACT_BUDGET_EXCEEDED => "replay-artifact-budget-exceeded"
  | ARTIFACT_JSON_INVALID => "replay-artifact-json-invalid"
  | ARTIFACT_NONCANONICAL => "replay-artifact-noncanonical"
  | OUTCOME_SCHEMA_UNSUPPORTED => "replay-outcome-schema-unsupported"
  | OUTCOME_INVALID => "replay-outcome-invalid"
  | ARTIFACT_BINDING_MISMATCH => "replay-artifact-binding-mismatch"
  end.

(** ** Expectations, evidence, reports *)

Record ReplayCheckExpectation := MkCheckExpectation {
  xc_check_id : string;
  xc_argv : list string;
  xc_expected_exit_code : Z;
  xc_timeout_seconds : number
}.

Record ReplayNodeExpectation := MkExpectation {
  xn_node_id : string;
  xn_objective : string;
  xn_constraints : list string;
  xn_depends_on : list string;
  xn_repository_write : bool;
  xn_effects : list string;
  xn_allowed_paths : list string;
  xn_max_changed_paths : Z;
  xn_checks : list ReplayCheckExpectation;
  xn_status : string;
  xn_attempt : Z;
  xn_fencing_token : Z;
  xn_lease_digest : option string;
  xn_worktree_spec_digest : option string;
  xn_base_commit : option string;
  xn_head_commit : option string;
  xn_failure_code : option string;
  xn_result_digest : option string;
  xn_provider_context_digest : option string
}.

Record ReplayArtifactEvidence := MkArtifactEvidence {
  ae_node_id : string;
  ae_role : Role.t;
  ae_check_id : option string;
  ae_digest : string;
  ae_size_bytes : Z;
  ae_media_type : string;
  ae_encoding : option string;
  ae_verified : bool
}.

Record ReplayFinding := MkReplayFinding {
  rf_code : ReplayFindingCode;
  rf_node_id : option string;
  rf_role : option Role.t;
  rf_check_id : option string;
  rf_artifact_digest : option string
}.

Record ExecutionArtifactReplayReport := MkReplayReport {
  xr_status : ReplayStatus.t;
  xr_artifacts : list ReplayArtifactEvidence;
  xr_findings : list ReplayFinding;
  xr_evidence_digest : string
}.

Definition artifact_evidence_payload (a : ReplayArtifactEvidence) : pyval :=
  obj [("node_id", PStr (ae_node_id a));
       ("role", PStr (role_value (ae_role a)));
       ("check_id", popt (ae_check_id a));
       ("digest", PStr (ae_digest a));
       ("size_bytes", PInt (ae_size_bytes a));
       ("media_type", PStr (ae_media_type a));
       ("encoding", popt (ae_encoding a));
       ("verified", PBool (ae_verified a))].
Definition replay_finding_payload (f : ReplayFinding) : pyval :=
  obj [("code", PStr (finding_code_value (rf_code f)));
       ("node_id", popt (rf_node_id f));
       ("role", popt (role_value <$> rf_role f));
       ("check_id", popt (rf_check_id f));
       ("artifact_digest", popt (rf_artifact_digest f))].
Definition report_payload (status : ReplayStatus.t) (artifacts : list ReplayArtifactEvidence)
    (findings : list ReplayFinding) : pyval :=
  obj [("status", PStr (replay_status_value status));
       ("artifacts", PSequence (map artifact_evidence_payload artifacts));
       ("findings", PSequence (map replay_finding_payload findings))].
Definition _report (status : ReplayStatus.t) (artifacts : list ReplayArtifactEvidence)
    (findings : list ReplayFinding) : result ExecutionArtifactReplayReport :=
  digest ← json_digest (report_payload status artifacts findings);
  Ok (MkReplayReport status artifacts findings digest).

(** ** Verified material *)

Definition _MAX_REVIEW_EXCERPT_BYTES : Z := 32 * 1024.

Record _ReviewExcerptSource := MkSource {
  sx_prefix : string;
  sx_size_bytes : Z;
  sx_binary : bool
}.

Definition definition_mismatch : exn := ReviewEvidenceError "review-definition-mismatch".
Definition evidence_budget_exceeded : exn := ReviewEvidenceError "review-evidence-budget-exceeded".
Definition artifacts_not_verified : exn := ReviewEvidenceError "review-artifacts-not-verified".

Definition _review_excerpt_source (data : string) (binary_allowed : bool) : result _ReviewExcerptSource :=
  let text := utf8_ok data in
  let binary := negb text || contains nul data in
  _ ← raise_if (binary && negb binary_allowed) definition_mismatch;
  Ok (MkSource (take_bytes (Z.to_nat _MAX_REVIEW_EXCERPT_BYTES) data) (byte_len data) binary).

Record _VerifiedCheckMaterial := MkCheckMaterial {
  vc_command : AcceptanceCommand;
  vc_result_digest : string;
  vc_passed : bool;
  vc_recorded : CheckArtifacts;
  vc_command_bytes : string;
  vc_result_bytes : string;
  vc_stdout : _ReviewExcerptSource;
  vc_stderr : _ReviewExcerptSource
}.

Record _VerifiedNodeMaterial := MkMaterial {
  vm_expectation : ReplayNodeExpectation;
  vm_manifest : NodeOutcomeManifest;
  vm_outcome_link : ExecutionArtifactLink;
  vm_outcome_bytes : string;
  vm_context : option ChangeContext;
  vm_proposal : option ChangeProposal;
  vm_effect : option _ReviewExcerptSource;
  vm_checks : list _VerifiedCheckMaterial
}.

(** ** Readers of untrusted artifacts *)

Definition value_error : exn := ValueError "".
Definition _mapping (value : pyval) : result (list (string * pyval)) := contract_mapping value_error value.
Definition _sequence (value : pyval) : result (list pyval) :=
  match value with PSequence l => Ok l | _ => Err value_error end.
Definition _string_tuple (value : pyval) : result (list string) :=
  items ← _sequence value; map_result (contract_string value_error) items.
Definition _string (allow_empty : bool) (value : pyval) : result string :=
  s ← contract_string value_error value;
  _ ← raise_if (negb allow_empty && is_empty s) value_error; Ok s.
Definition _integer : pyval → result Z := contract_int value_error.
Definition _optional_integer : pyval → result (option Z) := contract_optional_int value_error.
Definition _number (value : pyval) : result number :=
  match value with PInt z => Ok (IntNumber z) | PFloat f => Ok (FloatNumber f) | _ => Err value_error end.

Definition context_keys : list string :=
  ["schema_version"; "objective"; "constraints"; "base_commit"; "allowed_paths"; "max_changed_paths"; "files"].

Definition evidence_file_from_mapping (item : pyval) : result ExecutionEvidenceFile :=
  raw ← contract_object value_error ["path"; "content"; "content_digest"] item;
  path ← _string false (pget "path" raw);
  content ← _string true (pget "content" raw);
  content_digest ← _string false (pget "content_digest" raw);
  evidence_file_init (MkEvidenceFile path content content_digest).

Definition _context_from_mapping (value : pyval) : result ChangeContext :=
  raw ← contract_object value_error context_keys value;
  _ ← raise_if (negb (equals_text (pget "schema_version" raw) CHANGE_CONTEXT_SCHEMA)) value_error;
  constraints ← _string_tuple (pget "constraints" raw);
  allowed_paths ← _string_tuple (pget "allowed_paths" raw);
  raw_files ← _sequence (pget "files" raw);
  files ← map_result evidence_file_from_mapping raw_files;
  objective ← _string false (pget "objective" raw);
  base_commit ← _string false (pget "base_commit" raw);
  max_changed_paths ← _integer (pget "max_changed_paths" raw);
  change_context_init (MkChangeContext objective constraints base_commit allowed_paths
    max_changed_paths files CHANGE_CONTEXT_SCHEMA).

Definition provider_keys : list string :=
  ["schema_version"; "proposal_digest"; "provider_output_digest"; "profile_id"; "adapter_id";
   "model_id"; "input_tokens"; "output_tokens"; "latency_ms"; "cost_microusd"; "completed_at"].

Definition _provider_from_mapping (value : pyval) (proposal : ChangeProposal)
    : result ChangeProviderResult :=
  raw ← contract_object value_error provider_keys value;
  _ ← raise_if (negb (equals_text (pget "schema_version" raw) CHANGE_PROVIDER_RESULT_SCHEMA)) value_error;
  digest ← change_proposal_digest proposal;
  _ ← raise_if (negb (equals_text (pget "proposal_digest" raw) digest)) value_error;
  provider_output_digest ← _string false (pget "provider_output_digest" raw);
  profile_id ← _string false (pget "profile_id" raw);
  adapter_id ← _string false (pget "adapter_id" raw);
  model_id ← _string false (pget "model_id" raw);
  input_tokens ← _optional_integer (pget "input_tokens" raw);
  output_tokens ← _optional_integer (pget "output_tokens" raw);
  latency_ms ← _integer (pget "latency_ms" raw);
  cost_microusd ← _optional_integer (pget "cost_microusd" raw);
  completed_text ← _string false (pget "completed_at" raw);
  completed_at ← of_option value_error (fromisoformat completed_text);
  change_result_init (MkChangeResult proposal provider_output_digest profile_id adapter_id model_id
    input_tokens output_tokens latency_ms cost_microusd completed_at CHANGE_PROVIDER_RESULT_SCHEMA).

Definition command_keys : list string :=
  ["schema_version"; "check_id"; "argv"; "expected_exit_code"; "timeout_seconds";
   "stdout_limit_bytes"; "stderr_limit_bytes"].

Definition _command_from_mapping (value : pyval) : result AcceptanceCommand :=
  raw ← contract_object value_error command_keys value;
  _ ← raise_if (negb (equals_text (pget "schema_version" raw) ACCEPTANCE_COMMAND_SCHEMA)) value_error;
  check_id ← _string false (pget "check_id" raw);
  argv ← _string_tuple (pget "argv" raw);
  expected_exit_code ← _integer (pget "expected_exit_code" raw);
  timeout_seconds ← _number (pget "timeout_seconds" raw);
  stdout_limit_bytes ← _integer (pget "stdout_limit_bytes" raw);
  stderr_limit_bytes ← _integer (pget "stderr_limit_bytes" raw);
  acceptance_command_init (MkAcceptanceCommand check_id argv expected_exit_code timeout_seconds
    stdout_limit_bytes stderr_limit_bytes ACCEPTANCE_COMMAND_SCHEMA).

Definition result_keys : list string :=
  ["schema_version"; "check_id"; "command_digest"; "worktree_spec_digest"; "isolation_policy_digest";
   "inspection_before_digest"; "inspection_after_digest"; "return_code"; "expected_exit_code";
   "passed"; "stdout"; "stderr"].

Definition stream_matches (raw : list (string * pyval)) (data : string) : bool :=
  has_keys raw ["schema_version"; "size_bytes"; "digest"]
  && equals_text (pget "schema_version" raw) ACCEPTANCE_STREAM_SCHEMA
  && equals_int (pget "size_bytes" raw) (byte_len data)
  && equals_text (pget "digest" raw) (bytes_digest data).

Definition _result_from_mapping (value : pyval) (stdout stderr : string) : result AcceptanceResult :=
  raw ← contract_object value_error result_keys value;
  _ ← raise_if (negb (equals_text (pget "schema_version" raw) ACCEPTANCE_RESULT_SCHEMA)) value_error;
  stdout_value ← _mapping (pget "stdout" raw);
  stderr_value ← _mapping (pget "stderr" raw);
  _ ← raise_if (negb (stream_matches stdout_value stdout && stream_matches stderr_value stderr)) value_error;
  passed ← contract_bool value_error (pget "passed" raw);
  check_id ← _string false (pget "check_id" raw);
  command_digest ← _string false (pget "command_digest" raw);
  worktree_spec_digest ← _string false (pget "worktree_spec_digest" raw);
  isolation_policy_digest ← _string false (pget "isolation_policy_digest" raw);
  inspection_before_digest ← _string false (pget "inspection_before_digest" raw);
  inspection_after_digest ← _string false (pget "inspection_after_digest" raw);
  return_code ← _integer (pget "return_code" raw);
  expected_exit_code ← _integer (pget "expected_exit_code" raw);
  stdout_stream ← acceptance_stream_init stdout ACCEPTANCE_STREAM_SCHEMA;
  stderr_stream ← acceptance_stream_init stderr ACCEPTANCE_STREAM_SCHEMA;
  acceptance_result_init (MkAcceptanceResult check_id command_digest worktree_spec_digest
    isolation_policy_digest inspection_before_digest inspection_after_digest return_code
    expected_exit_code passed stdout_stream stderr_stream ACCEPTANCE_RESULT_SCHEMA).

(** ** Matching *)

(** [a == b] on numbers. *)
Definition number_eqb (a b : number) : bool :=
  match a, b with
  | IntNumber x, IntNumber y => x =? y
  | FloatNumber x, FloatNumber y => SFeqb x y
  | IntNumber x, FloatNumber y | FloatNumber y, IntNumber x =>
      is_finite_float y && ratio_eqb (x, 1) (float_ratio y)
  end.

Definition _manifest_matches (m : NodeOutcomeManifest) (x : ReplayNodeExpectation) (run_id : string) : bool :=
  let check_ids := map ck_check_id (nm_checks m) in
  let declared := map xc_check_id (xn_checks x) in
  bool_decide (xn_status x ∈ outcome_statuses)
  && bool_decide (nm_run_id m = run_id) && bool_decide (nm_node_id m = xn_node_id x)
  && (nm_attempt m =? xn_attempt x) && (nm_fencing_token m =? xn_fencing_token x)
  && bool_decide (Some (nm_lease_digest m) = xn_lease_digest x)
  && bool_decide (Some (nm_worktree_spec_digest m) = xn_worktree_spec_digest x)
  && bool_decide (Some (nm_base_commit m) = xn_base_commit x)
  && eqb (nm_repository_write m) (xn_repository_write x)
  && bool_decide (nm_status m = xn_status x) && bool_decide (nm_failure_code m = xn_failure_code x)
  && bool_decide (check_ids = take (length check_ids) declared)
  && (if bool_decide (xn_status x = "succeeded") then bool_decide (nm_head_commit m = xn_head_commit x)
      else negb (is_some (nm_head_commit m) && negb (bool_decide (nm_head_commit m = xn_head_commit x))))
  && negb (bool_decide (xn_status x = "succeeded") && negb (bool_decide (check_ids = declared)))
  && (if xn_repository_write x && bool_decide (xn_status x = "succeeded") then
        is_some (xn_provider_context_digest x) && is_some (nm_context m)
        && bool_decide (ln_digest <$> nm_context m = xn_provider_context_digest x)
      else negb (is_some (xn_provider_context_digest x) && is_some (nm_context m)
                 && negb (bool_decide (ln_digest <$> nm_context m = xn_provider_context_digest x)))).

Definition effect_row_matches (raw_value : pyval) (change : FileChange) : bool :=
  match contract_object value_error ["operation"; "path"; "before_digest"; "after_digest"] raw_value with
  | Err _ => false
  | Ok raw =>
      let before_digest := match fc_operation change with
                           | CREATE => None | _ => fc_expected_digest change end in
      let after_digest := match fc_operation change with
                          | DELETE => None | _ => file_change_content_digest change end in
      equals_text (pget "operation" raw) (operation_value (fc_operation change))
      && equals_text (pget "path" raw) (fc_path change)
      && equals_optional (pget "before_digest" raw) before_digest
      && equals_optional (pget "after_digest" raw) after_digest
  end.

Definition effect_keys : list string :=
  ["schema_version"; "status"; "worktree_spec_digest"; "lease_digest"; "evidence_digest";
   "proposal_digest"; "head_commit"; "effects"; "changed_paths"].

(** A digest is computed only when the comparisons before it held. *)
Definition _effect_matches (value : pyval) (x : ReplayNodeExpectation) (context : ChangeContext)
    (proposal : ChangeProposal) : result bool :=
  match contract_object value_error effect_keys value with
  | Err _ => Ok false
  | Ok raw =>
      if negb (equals_text (pget "schema_version" raw) _TEXT_CHANGE_RESULT_SCHEMA
               && equals_text (pget "status" raw) "applied"
               && equals_optional (pget "worktree_spec_digest" raw) (xn_worktree_spec_digest x)
               && equals_optional (pget "lease_digest" raw) (xn_lease_digest x)) then Ok false else
      context_digest ← change_context_digest context;
      if negb (equals_text (pget "evidence_digest" raw) context_digest) then Ok false else
      proposal_digest ← change_proposal_digest proposal;
      Ok (equals_text (pget "proposal_digest" raw) proposal_digest
          && equals_optional (pget "head_commit" raw) (xn_base_commit x)
          && match _string_tuple (pget "changed_paths" raw), _sequence (pget "effects" raw) with
             | Ok changed_paths, Ok raw_effects =>
                 bool_decide (changed_paths = map fc_path (cp_operations proposal))
                 && (zlen raw_effects =? zlen (cp_operations proposal))
                 && forallb (λ '(raw_value, change), effect_row_matches raw_value change)
                      (zip raw_effects (cp_operations proposal))
             | _, _ => false
             end)
  end.

(** ** Sessions *)

Record _ReplayIssue := MkIssue {
  ri_status : ReplayStatus.t;
  ri_code : ReplayFindingCode;
  ri_node_id : option string;
  ri_role : option Role.t;
  ri_check_id : option string;
  ri_artifact_digest : option string
}.
Definition issue_finding (i : _ReplayIssue) : ReplayFinding :=
  MkReplayFinding (ri_code i) (ri_node_id i) (ri_role i) (ri_check_id i) (ri_artifact_digest i).

(** A value, a [_ReplayIssue], or another exception. *)
Inductive outcome (A : Type) := Done (a : A) | Issued (i : _ReplayIssue) | Raised (e : exn).
Arguments Done {A}.
Arguments Issued {A}.
Arguments Raised {A}.

(** The artifact an operation is about: node, role and check. *)
Record place := MkPlace { at_node : string; at_role : Role.t; at_check : option string }.

Definition issue_at (status : ReplayStatus.t) (code : ReplayFindingCode) (p : place) (digest : string)
    : _ReplayIssue :=
  MkIssue status code (Some (at_node p)) (Some (at_role p)) (at_check p) (Some digest).
Definition _binding_issue (p : place) (digest : string) : _ReplayIssue :=
  issue_at ReplayStatus.FAILED ARTIFACT_BINDING_MISMATCH p digest.

Definition is_stream (r : Role.t) : bool :=
  match r with Role.CHECK_STDOUT | Role.CHECK_STDERR => true | _ => false end.

(** What the reader's exceptions become. *)
Definition reader_issue (e : exn) (p : place) (digest : string) : _ReplayIssue :=
  match e with
  | ArtifactNotFoundError => issue_at ReplayStatus.FAILED ARTIFACT_MISSING p digest
  | ArtifactIntegrityError => issue_at ReplayStatus.FAILED ARTIFACT_INTEGRITY_FAILED p digest
  | _ => issue_at ReplayStatus.INCONCLUSIVE ARTIFACT_READ_UNAVAILABLE p digest
  end.

Section Session.
(** The reader: a state and its two operations. *)
Context {R : Type}.
Context (reader_stat : string → R → result ArtifactRef * R).
Context (reader_get_bytes : ArtifactRef → R → result string * R).
(** Text codecs other than UTF-8. *)
Context (decode_other : string → string → option string).

Record _ArtifactSession := MkSession {
  s_reader : R;
  s_artifacts : list ReplayArtifactEvidence;
  s_bytes_by_digest : gmap string string;
  s_counted_digests : gset string;
  s_references_by_digest : gmap string ArtifactRef;
  s_total_bytes : Z
}.

Definition M (A : Type) : Type := _ArtifactSession → outcome A * _ArtifactSession.
#[global] Instance M_ret : MRet M := λ A a s, (Done a, s).
#[global] Instance M_bind : MBind M := λ A B f m s,
  match m s with
  | (Done a, s') => f a s'
  | (Issued i, s') => (Issued i, s')
  | (Raised e, s') => (Raised e, s')
  end.
Definition issue {A} (i : _ReplayIssue) : M A := λ s, (Issued i, s).
Definition issue_if (c : bool) (i : _ReplayIssue) : M unit := if c then issue i else mret tt.
(** An exception that nothing catches. *)
Definition lift {A} (r : result A) : M A := λ s,
  match r with Ok a => (Done a, s) | Err e => (Raised e, s) end.
(** [try: r  except Exception: raise issue] *)
Definition guard_issue {A} (i : _ReplayIssue) (r : result A) : M A :=
  match r with Ok a => mret a | Err _ => issue i end.

(** [_ArtifactSession._stat] *)
Definition _stat (digest : string) (p : place) : M ArtifactRef := λ s,
  match s_references_by_digest s !! digest with
  | Some cached => (Done cached, s)
  | None =>
      let '(answer, r) := reader_stat digest (s_reader s) in
      let s := MkSession r (s_artifacts s) (s_bytes_by_digest s) (s_counted_digests s)
                 (s_references_by_digest s) (s_total_bytes s) in
      match answer with
      | Ok reference =>
          (Done reference,
           MkSession (s_reader s) (s_artifacts s) (s_bytes_by_digest s) (s_counted_digests s)
             (<[digest := reference]> (s_references_by_digest s)) (s_total_bytes s))
      | Err e => (Issued (reader_issue e p digest), s)
      end
  end.

(** The bytes of a link: from the session, or from the reader and checked. *)
Definition fetch (link : ExecutionArtifactLink) (reference : ArtifactRef) (p : place)
    (retain_bytes : bool) : M string := λ s,
  match s_bytes_by_digest s !! ln_digest link with
  | Some data => (Done data, s)
  | None =>
      let first_read := negb (bool_decide (ln_digest link ∈ s_counted_digests s)) in
      if first_read && (_MAX_TOTAL_BYTES <? s_total_bytes s + ln_size_bytes link) then
        (Issued (issue_at ReplayStatus.INCONCLUSIVE ARTIFACT_BUDGET_EXCEEDED p (ln_digest link)), s)
      else
        let '(answer, r) := reader_get_bytes reference (s_reader s) in
        let s := MkSession r (s_artifacts s) (s_bytes_by_digest s) (s_counted_digests s)
                   (s_references_by_digest s) (s_total_bytes s) in
        match answer with
        | Err e => (Issued (reader_issue e p (ln_digest link)), s)
        | Ok data =>
            if negb (byte_len data =? ln_size_bytes link)
               || negb (bool_decide (bytes_digest data = ln_digest link)) then
              (Issued (issue_at ReplayStatus.FAILED ARTIFACT_INTEGRITY_FAILED p (ln_digest link)), s)
            else
              (Done data,
               MkSession (s_reader s) (s_artifacts s)
                 (if retain_bytes then <[ln_digest link := data]> (s_bytes_by_digest s)
                  else s_bytes_by_digest s)
                 (if first_read then {[ln_digest link]} ∪ s_counted_digests s else s_counted_digests s)
                 (s_references_by_digest s)
                 (if first_read then s_total_bytes s + byte_len data else s_total_bytes s))
        end
  end.

(** Appending to the list of verified artifacts. *)
Definition record_artifact (link : ExecutionArtifactLink) (p : place) : M unit := λ s,
  if _MAX_ARTIFACT_RELATIONSHIPS <=? zlen (s_artifacts s) then
    (Issued (issue_at ReplayStatus.INCONCLUSIVE ARTIFACT_BUDGET_EXCEEDED p (ln_digest link)), s)
  else
    (Done tt,
     MkSession (s_reader s)
       (s_artifacts s ++ [MkArtifactEvidence (at_node p) (at_role p) (at_check p) (ln_digest link)
          (ln_size_bytes link) (ln_media_type link) (ln_encoding link) true])
       (s_bytes_by_digest s) (s_counted_digests s) (s_references_by_digest s) (s_total_bytes s)).

(** What an artifact of some kind must look like. *)
Record shape := MkShape {
  sh_media_type : string;
  sh_encoding : option string;
  sh_maximum_bytes : Z;
  sh_retain : bool
}.

(** [_ArtifactSession._read], also [read_link] *)
Definition _read (link : ExecutionArtifactLink) (p : place) (k : shape) : M string :=
  reference ← _stat (ln_digest link) p;
  _ ← issue_if (negb (size_bytes reference =? ln_size_bytes link)
        || negb (bool_decide (media_type reference = ln_media_type link))
        || negb (bool_decide (encoding reference = ln_encoding link))
        || (negb (is_stream (at_role p))
            && (negb (bool_decide (ln_media_type link = sh_media_type k))
                || negb (bool_decide (ln_encoding link = sh_encoding k)))))
      (issue_at ReplayStatus.FAILED ARTIFACT_METADATA_MISMATCH p (ln_digest link));
  _ ← issue_if (sh_maximum_bytes k <? ln_size_bytes link)
      (issue_at ReplayStatus.INCONCLUSIVE ARTIFACT_BUDGET_EXCEEDED p (ln_digest link));
  data ← fetch link reference p (sh_retain k);
  _ ← record_artifact link p;
  mret data.

(** [_ArtifactSession.read_digest] *)
Definition read_digest (digest : string) (p : place) (k : shape) : M (string * ExecutionArtifactLink) :=
  reference ← _stat digest p;
  let mismatch := issue_at ReplayStatus.FAILED ARTIFACT_METADATA_MISMATCH p digest in
  link ← guard_issue mismatch (from_reference reference);
  _ ← issue_if (negb (bool_decide (ln_digest link = digest))) mismatch;
  data ← _read link p k;
  mret (data, link).

(** [_canonical_mapping]: the mapping, as thawed JSON.  The [ValueError] of an
    over-long integer literal is not one of the exceptions caught. *)
Definition _canonical_mapping (data : string) (p : place) (digest : string) : M pyval :=
  let invalid := issue_at ReplayStatus.FAILED ARTIFACT_JSON_INVALID p digest in
  match json_loads_bytes decode_other data with
  | LongInteger => lift (Err (ValueError "Exceeds the limit (4300 digits) for integer string conversion"))
  | Undecodable | Unpaired => issue invalid
  | Loaded (JObj kvs) =>
      canonical ← guard_issue invalid (canonical_json_bytes (thaw_json (JObj kvs)));
      _ ← issue_if (negb (bool_decide (canonical = data)))
            (issue_at ReplayStatus.FAILED ARTIFACT_NONCANONICAL p digest);
      mret (thaw_json (JObj kvs))
  | Loaded _ => issue invalid
  end.

(** ** Verifying the artifacts of a node *)

Definition json_shape (media : string) (maximum : Z) (retain : bool) : shape :=
  MkShape media _JSON_ENCODING maximum retain.

Definition _verify_context (x : ReplayNodeExpectation) (link : ExecutionArtifactLink) : M ChangeContext :=
  let p := MkPlace (xn_node_id x) Role.CONTEXT None in
  data ← _read link p (json_shape CONTEXT_MEDIA_TYPE MAX_CHANGE_CONTEXT_BYTES false);
  raw ← _canonical_mapping data p (ln_digest link);
  context ← guard_issue (_binding_issue p (ln_digest link)) (_context_from_mapping raw);
  digest ← lift (change_context_digest context);
  _ ← issue_if (negb (bool_decide (digest = ln_digest link)
          && bool_decide (cc_objective context = xn_objective x)
          && bool_decide (cc_constraints context = xn_constraints x)
          && bool_decide (Some (cc_base_commit context) = xn_base_commit x)
          && bool_decide (cc_allowed_paths context = xn_allowed_paths x)
          && (cc_max_changed_paths context =? xn_max_changed_paths x)))
        (_binding_issue p (ln_digest link));
  mret context.

Definition _verify_proposal (x : ReplayNodeExpectation) (link : ExecutionArtifactLink)
    (context : ChangeContext) : M ChangeProposal :=
  let p := MkPlace (xn_node_id x) Role.PROPOSAL None in
  data ← _read link p (json_shape PROPOSAL_MEDIA_TYPE MAX_CHANGE_PROPOSAL_BYTES false);
  raw ← _canonical_mapping data p (ln_digest link);
  proposal ← guard_issue (_binding_issue p (ln_digest link)) (change_proposal_from_mapping raw);
  digest ← lift (change_proposal_digest proposal);
  _ ← issue_if (negb (bool_decide (digest = ln_digest link))) (_binding_issue p (ln_digest link));
  context_digest ← lift (change_context_digest context);
  _ ← issue_if (negb (bool_decide (cp_evidence_digest proposal = context_digest)))
        (_binding_issue p (ln_digest link));
  mret proposal.

Definition _verify_provider (x : ReplayNodeExpectation) (link : ExecutionArtifactLink)
    (proposal : ChangeProposal) : M unit :=
  let p := MkPlace (xn_node_id x) Role.PROVIDER None in
  data ← _read link p (json_shape PROVIDER_MEDIA_TYPE _MAX_JSON_ARTIFACT_BYTES false);
  raw ← _canonical_mapping data p (ln_digest link);
  provided ← guard_issue (_binding_issue p (ln_digest link)) (_provider_from_mapping raw proposal);
  digest ← lift (json_digest raw);
  _ ← issue_if (negb (bool_decide (digest = ln_digest link))) (_binding_issue p (ln_digest link));
  provided_digest ← lift (change_proposal_digest (cr_proposal provided));
  proposal_digest ← lift (change_proposal_digest proposal);
  issue_if (negb (bool_decide (provided_digest = proposal_digest))) (_binding_issue p (ln_digest link)).

Definition _verify_effect (x : ReplayNodeExpectation) (link : ExecutionArtifactLink)
    (context : ChangeContext) (proposal : ChangeProposal) : M _ReviewExcerptSource :=
  let p := MkPlace (xn_node_id x) Role.EFFECT None in
  data ← _read link p (json_shape EFFECT_MEDIA_TYPE MAX_TEXT_CHANGE_RESULT_BYTES false);
  raw ← _canonical_mapping data p (ln_digest link);
  matches ← lift (_effect_matches raw x context proposal);
  _ ← issue_if (negb matches) (_binding_issue p (ln_digest link));
  lift (_review_excerpt_source data false).

Definition binary_shape : shape := MkShape _BINARY_MEDIA_TYPE None MAX_ACCEPTANCE_STREAM_BYTES false.

Definition command_matches (digest : string) (command : AcceptanceCommand)
    (expected : ReplayCheckExpectation) (recorded : CheckArtifacts) : bool :=
  bool_decide (digest = ck_command_digest recorded)
  && bool_decide (ac_check_id command = xc_check_id expected)
  && bool_decide (ac_argv command = xc_argv expected)
  && (ac_expected_exit_code command =? xc_expected_exit_code expected)
  && number_eqb (ac_timeout_seconds command) (xc_timeout_seconds expected).

Definition result_matches (digest command_digest : string) (answer : AcceptanceResult)
    (command : AcceptanceCommand) (x : ReplayNodeExpectation) (expected : ReplayCheckExpectation)
    (recorded : CheckArtifacts) (stdout stderr : string) : bool :=
  bool_decide (digest = ck_result_digest recorded)
  && bool_decide (ar_check_id answer = xc_check_id expected)
  && bool_decide (ar_command_digest answer = command_digest)
  && bool_decide (Some (ar_worktree_spec_digest answer) = xn_worktree_spec_digest x)
  && (ar_expected_exit_code answer =? xc_expected_exit_code expected)
  && eqb (ar_passed answer) (ck_passed recorded)
  && (byte_len stdout <=? ac_stdout_limit_bytes command)
  && (byte_len stderr <=? ac_stderr_limit_bytes command).

Definition _verify_check (x : ReplayNodeExpectation) (expected : ReplayCheckExpectation)
    (recorded : CheckArtifacts) : M _VerifiedCheckMaterial :=
  let at_ role := MkPlace (xn_node_id x) role (Some (xc_check_id expected)) in
  let p_command := at_ Role.CHECK_COMMAND in
  let p_result := at_ Role.CHECK_RESULT in
  command_bytes ← _read (ck_command recorded) p_command
                    (json_shape ACCEPTANCE_COMMAND_MEDIA_TYPE _MAX_JSON_ARTIFACT_BYTES true);
  raw_command ← _canonical_mapping command_bytes p_command (ln_digest (ck_command recorded));
  command ← guard_issue (_binding_issue p_command (ln_digest (ck_command recorded)))
              (_command_from_mapping raw_command);
  command_digest ← lift (acceptance_command_digest command);
  _ ← issue_if (negb (command_matches command_digest command expected recorded))
        (_binding_issue p_command (ln_digest (ck_command recorded)));
  result_bytes ← _read (ck_result recorded) p_result
                   (json_shape ACCEPTANCE_RESULT_MEDIA_TYPE _MAX_JSON_ARTIFACT_BYTES true);
  raw_result ← _canonical_mapping result_bytes p_result (ln_digest (ck_result recorded));
  stdout ← _read (ck_stdout recorded) (at_ Role.CHECK_STDOUT) binary_shape;
  stderr ← _read (ck_stderr recorded) (at_ Role.CHECK_STDERR) binary_shape;
  answer ← guard_issue (_binding_issue p_result (ln_digest (ck_result recorded)))
             (_result_from_mapping raw_result stdout stderr);
  answer_digest ← lift (acceptance_result_digest answer);
  _ ← issue_if (negb (result_matches answer_digest command_digest answer command x expected recorded
                        stdout stderr))
        (_binding_issue p_result (ln_digest (ck_result recorded)));
  stdout_source ← lift (_review_excerpt_source stdout true);
  stderr_source ← lift (_review_excerpt_source stderr true);
  mret (MkCheckMaterial command answer_digest (ar_passed answer) recorded command_bytes result_bytes
          stdout_source stderr_source).

Fixpoint verify_checks (x : ReplayNodeExpectation) (expected : list ReplayCheckExpectation)
    (recorded : list CheckArtifacts) : M (list _VerifiedCheckMaterial) :=
  match expected, recorded with
  | e :: expected', r :: recorded' =>
      material ← _verify_check x e r;
      materials ← verify_checks x expected' recorded';
      mret (material :: materials)
  | _, _ => mret []
  end.

(** A link that is there, verified. *)
Definition when_linked {A} (link : option ExecutionArtifactLink) (f : ExecutionArtifactLink → M A)
    : M (option A) :=
  match link with Some l => a ← f l; mret (Some a) | None => mret None end.

Definition outcome_issue (e : exn) (p : place) (digest : string) : _ReplayIssue :=
  if bool_decide (e = unsupported_outcome)
  then issue_at ReplayStatus.INCONCLUSIVE OUTCOME_SCHEMA_UNSUPPORTED p digest
  else issue_at ReplayStatus.FAILED OUTCOME_INVALID p digest.

(** Only [ExecutionArtifactContractError] is caught. *)
Definition read_manifest (raw : pyval) (p : place) (digest : string) : M NodeOutcomeManifest :=
  match node_outcome_from_mapping raw with
  | Ok m => mret m
  | Err (ExecutionArtifactContractError code) =>
      issue (outcome_issue (ExecutionArtifactContractError code) p digest)
  | Err e => lift (Err e)
  end.

Definition _verify_node (run_id : string) (x : ReplayNodeExpectation) (outcome_digest : string)
    : M _VerifiedNodeMaterial :=
  let at_ role := MkPlace (xn_node_id x) role None in
  let p := at_ Role.OUTCOME in
  '(outcome_bytes, outcome_link) ← read_digest outcome_digest p
      (json_shape OUTCOME_MEDIA_TYPE _MAX_OUTCOME_BYTES true);
  raw_outcome ← _canonical_mapping outcome_bytes p outcome_digest;
  manifest ← read_manifest raw_outcome p outcome_digest;
  digest ← lift (manifest_digest manifest);
  _ ← issue_if (negb (bool_decide (digest = outcome_digest)) || negb (_manifest_matches manifest x run_id))
        (_binding_issue p outcome_digest);
  context ← when_linked (nm_context manifest) (_verify_context x);
  proposal ← when_linked (nm_proposal manifest) (λ l,
    match context with
    | None => issue (_binding_issue (at_ Role.PROPOSAL) (ln_digest l))
    | Some context => _verify_proposal x l context
    end);
  _ ← when_linked (nm_provider manifest) (λ l,
    match proposal with
    | None => issue (_binding_issue (at_ Role.PROVIDER) (ln_digest l))
    | Some proposal => _verify_provider x l proposal
    end);
  effect ← when_linked (nm_effect manifest) (λ l,
    match context, proposal with
    | Some context, Some proposal => _verify_effect x l context proposal
    | _, _ => issue (_binding_issue (at_ Role.EFFECT) (ln_digest l))
    end);
  checks ← verify_checks x (xn_checks x) (nm_checks manifest);
  mret (MkMaterial x manifest outcome_link outcome_bytes context proposal effect checks).

(** ** Whole runs *)

Definition required (x : ReplayNodeExpectation) : bool :=
  is_some (xn_result_digest x) || bool_decide (xn_status x ∈ outcome_statuses).

Fixpoint verify_nodes (run_id : string) (nodes : list ReplayNodeExpectation)
    : M (list _VerifiedNodeMaterial) :=
  match nodes with
  | [] => mret []
  | x :: nodes' =>
      material ← match xn_result_digest x with
                 | None => issue (MkIssue ReplayStatus.INCONCLUSIVE OUTCOME_REFERENCE_ABSENT
                                    (Some (xn_node_id x)) (Some Role.OUTCOME) None None)
                 | Some digest => _verify_node run_id x digest
                 end;
      materials ← verify_nodes run_id nodes';
      mret (material :: materials)
  end.

Definition new_session (r : R) : _ArtifactSession := MkSession r [] ∅ ∅ ∅ 0.

Definition _verify_run_materials (reader : option R) (run_id : string) (nodes : list ReplayNodeExpectation)
    : result (ExecutionArtifactReplayReport * list _VerifiedNodeMaterial) :=
  let required_nodes := List.filter required nodes in
  if bool_decide (required_nodes = []) then
    report ← _report ReplayStatus.NOT_APPLICABLE [] []; Ok (report, [])
  else
    match reader with
    | None =>
        report ← _report ReplayStatus.INCONCLUSIVE []
                   [MkReplayFinding ARTIFACT_STORE_UNAVAILABLE None None None None];
        Ok (report, [])
    | Some r =>
        match verify_nodes run_id required_nodes (new_session r) with
        | (Done materials, session) =>
            report ← _report ReplayStatus.VERIFIED (s_artifacts session) []; Ok (report, materials)
        | (Issued i, session) =>
            report ← _report (ri_status i) (s_artifacts session) [issue_finding i]; Ok (report, [])
        | (Raised e, _) => Err e
        end
    end.

Definition verify_run_artifacts (reader : option R) (run_id : string) (nodes : list ReplayNodeExpectation)
    : result ExecutionArtifactReplayReport :=
  fst <$> _verify_run_materials reader run_id nodes.
End Session.
