(* ===== verification/OutcomeFacts.v ===== *)
(** * Facts about change, acceptance and outcome records

    What the constructors and readers of changes.py, acceptance.py and
    execution_artifacts.py guarantee to the replay of a run: their digests exist,
    links are small, checks bind the digests they record, and an outcome is read
    back from its payload. *)

From S2P Require Import Prelude PyStr PyFloat Sha256 Json JsonText JsonFacts PyTime Contracts JsonBytes.
From S2P Require Import Printable Events EventStore Artifacts Strict OutputSchema Gateway Changes.
From S2P Require Import Acceptance ExecutionArtifacts Replay.
From Stdlib Require Import ZArith Lia Ascii String Floats.SpecFloat.
From stdpp Require Import base gmap sets list strings.
Local Open Scope Z_scope.

(** ** Digests that always exist *)

Lemma canonical_digest v t : canonical_json_bytes v = Ok t → json_digest v = Ok (bytes_digest t).
Proof. unfold json_digest. by intros ->. Qed.

Lemma context_mapping_digest raw c : _context_from_mapping raw = Ok c →
  ∃ d, change_context_digest c = Ok d.
Proof.
  unfold _context_from_mapping. intros H. do 9 (apply bind_ok in H as (? & _ & H)).
  unfold change_context_init in H. do 12 (apply bind_ok in H as (? & _ & H)).
  apply bind_ok in H as (t & Ht & H). apply bind_ok in H as (? & _ & [= <-]).
  eexists. apply canonical_digest, Ht.
Qed.

Lemma proposal_mapping_ok raw p : change_proposal_from_mapping raw = Ok p → change_proposal_ok p.
Proof.
  unfold change_proposal_from_mapping. intros H. do 7 (apply bind_ok in H as (? & _ & H)).
  by apply change_proposal_init_ok in H as [? _].
Qed.

Lemma proposal_ok_digest p : change_proposal_ok p → ∃ d, change_proposal_digest p = Ok d.
Proof.
  intros [_ _ _ _ _ _ _ _ (t & Ht & _)]. eexists. apply canonical_digest, Ht.
Qed.

Lemma provider_mapping_proposal raw p r : _provider_from_mapping raw p = Ok r → cr_proposal r = p.
Proof.
  unfold _provider_from_mapping. intros H. do 14 (apply bind_ok in H as (? & _ & H)).
  unfold change_result_init in H. do 4 (apply bind_ok in H as (? & _ & H)). by injection H as <-.
Qed.

Lemma command_init_digest c c' : acceptance_command_init c = Ok c' →
  ∃ d, acceptance_command_digest c' = Ok d.
Proof.
  unfold acceptance_command_init. intros H. do 2 (apply bind_ok in H as (? & _ & H)).
  apply bind_ok in H as (? & H3%contract_require_ok & H). apply bind_ok in H as (fin & Hf & H).
  apply bind_ok in H as (? & H4%contract_require_ok & H).
  apply bind_ok in H as (? & H5%contract_require_ok & [= <-]).
  rewrite !andb_true_iff in H4. destruct H4 as ((-> & H4a) & H4b).
  unfold z_between, MAX_ACCEPTANCE_STREAM_BYTES in *.
  edestruct digest_plain as (d & Hd & _); [|by exists d].
  unfold acceptance_command_payload. rewrite plain_obj. cbn [forallb snd]. rewrite plain_pstrs.
  cbn [plain andb]. rewrite !short_int_small by lia. rewrite !andb_true_r. cbn [andb].
  destruct (ac_timeout_seconds c) as [z|f]; cbn [number_value plain].
  - apply short_int_small. cbn [number_ratio] in *. unfold ratio_ltb, ratio_leb, ratio_compare in *. simpl in *.
    unfold MAX_ACCEPTANCE_TIMEOUT_SECONDS in *. lia.
  - by injection Hf.
Qed.

Lemma command_mapping_digest raw c : _command_from_mapping raw = Ok c →
  ∃ d, acceptance_command_digest c = Ok d.
Proof.
  unfold _command_from_mapping. intros H. do 8 (apply bind_ok in H as (? & _ & H)).
  by apply command_init_digest in H.
Qed.

Lemma stream_init_ok data schema s : acceptance_stream_init data schema = Ok s →
  captured s = data ∧ stream_size_bytes s = byte_len data.
Proof. unfold acceptance_stream_init. intros H. apply bind_ok in H as (? & _ & [= <-]). done. Qed.

Lemma short_int_63 z : 0 <= z < 2 ^ 63 → short_int z = true.
Proof.
  intros H. apply short_int_bound. assert (2 ^ 63 < 2 ^ 4300) by (apply Z.pow_lt_mono_r; lia). lia.
Qed.

(** The streams of a result are those that were read. *)
Lemma result_mapping_ok raw stdout stderr r : _result_from_mapping raw stdout stderr = Ok r →
  captured (ar_stdout r) = stdout ∧ captured (ar_stderr r) = stderr
  ∧ ar_passed r = (ar_return_code r =? ar_expected_exit_code r)
  ∧ (byte_len stdout < 2 ^ 63 → byte_len stderr < 2 ^ 63 → ∃ d, acceptance_result_digest r = Ok d).
Proof.
  unfold _result_from_mapping. intros H. do 14 (apply bind_ok in H as (? & _ & H)).
  apply bind_ok in H as (so & [Ho1 Ho2]%stream_init_ok & H).
  apply bind_ok in H as (se & [He1 He2]%stream_init_ok & H).
  unfold acceptance_result_init in H. apply bind_ok in H as (? & H1%contract_require_ok & [= <-]).
  rewrite !andb_true_iff in H1. destruct H1 as ((((_ & H1) & H2) & H3) & H4%eqb_prop). unfold z_between in *.
  cbn [ar_stdout ar_stderr ar_return_code ar_expected_exit_code ar_passed] in *.
  split_and!; [done..|]. intros Hs1 Hs2. edestruct digest_plain as (d & Hd & _); [|by exists d].
  unfold acceptance_result_payload, stream_payload. rewrite plain_obj.
  cbn [forallb snd ar_stdout ar_stderr ar_return_code ar_expected_exit_code ar_passed].
  rewrite !plain_obj. cbn [forallb snd plain]. rewrite Ho2, He2.
  assert (0 <= byte_len stdout ∧ 0 <= byte_len stderr) by (unfold byte_len; lia).
  by rewrite !short_int_63 by lia.
Qed.

(** ** The outcome of a node *)

Definition small_link (l : ExecutionArtifactLink) : Prop := 0 <= ln_size_bytes l < 2 ^ 63.

Lemma link_mapping_small v l : _link_from_mapping v = Ok l → small_link l.
Proof.
  unfold _link_from_mapping. intros H. do 5 (apply bind_ok in H as (? & _ & H)).
  unfold link_init in H. apply bind_ok in H as (? & H1%contract_require_ok & [= <-]).
  rewrite !andb_true_iff in H1. destruct H1 as (((_ & H1) & _) & _).
  unfold z_between, _MAX_ARTIFACT_BYTES, small_link in *. lia.
Qed.

Lemma optional_link_small v o : _optional_link_from_mapping v = Ok o → ∀ l, o = Some l → small_link l.
Proof.
  unfold _optional_link_from_mapping. intros H l ->.
  destruct v; try done; apply fmap_ok in H as (x & Hx & [= ->]); by eapply link_mapping_small.
Qed.

Lemma link_plain l : small_link l → plain (_link_payload l) = true.
Proof.
  intros H. unfold _link_payload. rewrite plain_obj. cbn [forallb snd]. rewrite plain_popt. cbn [plain].
  by rewrite short_int_63.
Qed.

Lemma optional_link_plain o : (∀ l, o = Some l → small_link l) → plain (_optional_link_payload o) = true.
Proof. destruct o; [|done]. intros H. by apply link_plain, H. Qed.

(** A check whose links are small and bind its digests. *)
Record check_ok (c : CheckArtifacts) : Prop := {
  ck_small : small_link (ck_command c) ∧ small_link (ck_result c)
             ∧ small_link (ck_stdout c) ∧ small_link (ck_stderr c);
  ck_binds : ln_digest (ck_command c) = ck_command_digest c ∧ ln_digest (ck_result c) = ck_result_digest c
}.

Lemma check_mapping_ok v c : _check_from_mapping v = Ok c → check_ok c.
Proof.
  unfold _check_from_mapping. intros H. do 5 (apply bind_ok in H as (? & _ & H)).
  apply bind_ok in H as (c1 & H1%link_mapping_small & H).
  apply bind_ok in H as (c2 & H2%link_mapping_small & H).
  apply bind_ok in H as (c3 & H3%link_mapping_small & H).
  apply bind_ok in H as (c4 & H4%link_mapping_small & H).
  unfold check_artifacts_init in H. apply bind_ok in H as (? & Hc%contract_require_ok & [= <-]).
  rewrite !andb_true_iff, !bool_decide_eq_true in Hc. cbn in Hc.
  split; cbn; tauto.
Qed.

Lemma check_plain c : check_ok c → plain (_check_payload c) = true.
Proof.
  intros [(H1 & H2 & H3 & H4) _]. unfold _check_payload. rewrite plain_obj. cbn [forallb snd].
  by rewrite !link_plain.
Qed.

(** ** Manifests *)

Record manifest_ok (m : NodeOutcomeManifest) : Prop := {
  mo_links : ∀ o l, o ∈ manifest_artifacts m → o = Some l → small_link l;
  mo_checks : ∀ c, c ∈ nm_checks m → check_ok c
}.

Lemma manifest_init_id m m' : manifest_init m = Ok m' → m' = m.
Proof.
  unfold manifest_init. intros H. do 4 (apply bind_ok in H as (? & _ & H)). by injection H.
Qed.

Lemma manifest_mapping_ok raw m : node_outcome_from_mapping raw = Ok m → manifest_ok m.
Proof.
  unfold node_outcome_from_mapping. intros H. do 3 (apply bind_ok in H as (? & _ & H)).
  apply bind_ok in H as (cs & Hcs & H). do 12 (apply bind_ok in H as (? & _ & H)).
  apply bind_ok in H as (o1 & H1 & H). apply bind_ok in H as (o2 & H2 & H).
  apply bind_ok in H as (o3 & H3 & H). apply bind_ok in H as (o4 & H4 & ->%manifest_init_id).
  split.
  - intros o l. unfold manifest_artifacts. simpl. rewrite !elem_of_cons, elem_of_nil.
    intros [->|[->|[->|[->|[]]]]]; by eapply optional_link_small.
  - simpl. apply Forall_forall. eapply map_result_Forall; [|exact Hcs]. intros v c. apply check_mapping_ok.
Qed.

Lemma manifest_digest_ok kvs t m : NoDup (dict_keys kvs) →
  canonical_json_bytes (thaw_json (JObj kvs)) = Ok t →
  node_outcome_from_mapping (thaw_json (JObj kvs)) = Ok m → ∃ d, manifest_digest m = Ok d.
Proof.
  intros Hn Hc Hm. pose proof (manifest_mapping_ok _ _ Hm) as [Hl Hk].
  unfold node_outcome_from_mapping in Hm. apply bind_ok in Hm as (raw & [Hraw _]%contract_object_ok & H).
  assert (Hint : ∀ k z, contract_int invalid_outcome (pget k raw) = Ok z → short_int z = true).
  { intros k z Hz. eapply canonical_member; [done..|]. eapply thawed_int; [done|].
    unfold contract_int in Hz. instantiate (1 := k). by destruct (pget k raw); simplify_eq. }
  do 5 (apply bind_ok in H as (? & _ & H)).
  apply bind_ok in H as (attempt & Ha%Hint & H). apply bind_ok in H as (token & Ht%Hint & H).
  do 12 (apply bind_ok in H as (? & _ & H)). apply manifest_init_id in H as ->.
  edestruct digest_plain as (d & Hd & _); [|by exists d].
  unfold node_outcome_payload. rewrite plain_obj. cbn [forallb snd]. rewrite !plain_popt, plain_map.
  2: { intros c Hc'. by apply check_plain, Hk. }
  cbn [nm_attempt nm_fencing_token plain]. rewrite Ha, Ht.
  rewrite !optional_link_plain; [done|intros l; eapply Hl; set_solver..].
Qed.

(** ** Reading an outcome back *)

Definition link_made (l : ExecutionArtifactLink) : Prop := link_init l = Ok l.
Record check_made (c : CheckArtifacts) : Prop := {
  cm_init : check_artifacts_init c = Ok c;
  cm_links : Forall link_made [ck_command c; ck_result c; ck_stdout c; ck_stderr c]
}.
(** A manifest whose parts all went through their constructors. *)
Record manifest_made (m : NodeOutcomeManifest) : Prop := {
  mm_init : manifest_init m = Ok m;
  mm_links : Forall (from_option link_made True) (manifest_artifacts m);
  mm_checks : Forall check_made (nm_checks m)
}.

Lemma link_init_id l l' : link_init l = Ok l' → l' = l.
Proof. unfold link_init. intros H. apply bind_ok in H as (? & _ & H). by injection H. Qed.

Lemma contract_string_ok err s : contract_string err (PStr s) = Ok s.
Proof. done. Qed.
Lemma contract_optional_string_ok err o : contract_optional_string err (popt o) = Ok o.
Proof. by destruct o. Qed.

Lemma link_read l : link_made l → _link_from_mapping (_link_payload l) = Ok l.
Proof.
  intros H. unfold _link_from_mapping, _link_payload. rewrite contract_object_obj by done.
  cbn [mbind result_bind]. pget_literal. rewrite contract_optional_string_ok.
  cbn [mbind result_bind contract_string contract_int]. by destruct l.
Qed.

Lemma optional_link_read o : from_option link_made True o →
  _optional_link_from_mapping (_optional_link_payload o) = Ok o.
Proof.
  destruct o as [l|]; [|done]. simpl. intros H. rewrite (link_read _ H). done.
Qed.

Lemma check_read c : check_made c → _check_from_mapping (_check_payload c) = Ok c.
Proof.
  intros [Hi Hl]. repeat apply Forall_cons in Hl as [? Hl].
  unfold _check_from_mapping, _check_payload. rewrite contract_object_obj by done.
  cbn [mbind result_bind]. pget_literal. rewrite !link_read by done.
  cbn [mbind result_bind contract_string contract_bool]. by destruct c.
Qed.

Lemma link_mapping_made v l : _link_from_mapping v = Ok l → link_made l.
Proof.
  unfold _link_from_mapping. intros H. do 5 (apply bind_ok in H as (? & _ & H)).
  pose proof (link_init_id _ _ H) as ->. exact H.
Qed.

Lemma optional_link_made v o : _optional_link_from_mapping v = Ok o → from_option link_made True o.
Proof.
  unfold _optional_link_from_mapping. intros H. destruct o as [l|]; [|done]. simpl.
  destruct v; try done; apply fmap_ok in H as (x & Hx & [= ->]); by eapply link_mapping_made.
Qed.

Lemma check_mapping_made v c : _check_from_mapping v = Ok c → check_made c.
Proof.
  unfold _check_from_mapping. intros H. do 5 (apply bind_ok in H as (? & _ & H)).
  apply bind_ok in H as (c1 & H1%link_mapping_made & H).
  apply bind_ok in H as (c2 & H2%link_mapping_made & H).
  apply bind_ok in H as (c3 & H3%link_mapping_made & H).
  apply bind_ok in H as (c4 & H4%link_mapping_made & H).
  assert (Hc : c = MkCheckArtifacts x0 x1 x2 x3 c1 c2 c3 c4).
  { clear -H. unfold check_artifacts_init in H. apply bind_ok in H as (? & _ & H). by injection H. }
  split; [by rewrite Hc in H |- *|]. subst c. by repeat constructor.
Qed.

Lemma manifest_mapping_made v m : node_outcome_from_mapping v = Ok m → manifest_made m.
Proof.
  unfold node_outcome_from_mapping. intros H. do 3 (apply bind_ok in H as (? & _ & H)).
  apply bind_ok in H as (cs & Hcs & H). do 12 (apply bind_ok in H as (? & _ & H)).
  apply bind_ok in H as (o1 & H1%optional_link_made & H).
  apply bind_ok in H as (o2 & H2%optional_link_made & H).
  apply bind_ok in H as (o3 & H3%optional_link_made & H).
  apply bind_ok in H as (o4 & H4%optional_link_made & H).
  pose proof (manifest_init_id _ _ H) as ->. split; [exact H| |].
  - unfold manifest_artifacts. simpl. by repeat constructor.
  - simpl. eapply map_result_Forall; [|exact Hcs]. intros u c. apply check_mapping_made.
Qed.

(** The payload of a manifest is read back as that
    manifest exactly when the manifest and all its links and checks are what their
    constructors accept; in particular whatever the reader accepts is reproduced
    by writing it and reading it again. *)
Theorem node_outcome_roundtrip m :
  (manifest_made m ↔ node_outcome_from_mapping (node_outcome_payload m) = Ok m)
  ∧ ∀ v, node_outcome_from_mapping v = Ok m → node_outcome_from_mapping (node_outcome_payload m) = Ok m.
Proof.
  assert (Hr : manifest_made m → node_outcome_from_mapping (node_outcome_payload m) = Ok m).
  { intros [Hi Hl Hk]. unfold manifest_artifacts in Hl. repeat apply Forall_cons in Hl as [? Hl].
    pose proof Hi as Hs. unfold manifest_init in Hs. apply bind_ok in Hs as (? & Hs%contract_require_ok & _).
    rewrite !andb_true_iff in Hs. destruct Hs as [[[[[[[[[[[Hv%bool_decide_eq_true _] _] _] _] _] _] _] _] Hst] _] _].
    unfold node_outcome_from_mapping, node_outcome_payload.
    rewrite contract_object_obj by done. cbn [mbind result_bind]. pget_literal.
    rewrite Hv. cbn [equals_text]. rewrite bool_decide_eq_true_2 by done. cbn [negb raise_if mbind result_bind outcome_sequence].
    rewrite map_result_payload by (intros c Hc; apply check_read; rewrite Forall_forall in Hk; auto).
    cbn [mbind result_bind contract_string contract_int contract_bool].
    rewrite !contract_optional_string_ok, !optional_link_read by done.
    unfold outcome_require, contract_require. rewrite Hst. cbn [mbind result_bind raise_if negb].
    rewrite <-Hi. rewrite <-Hv. by destruct m. }
  split; [split; [exact Hr|apply manifest_mapping_made]|]. intros v Hv. by eapply Hr, manifest_mapping_made.
Qed.

(** ** The reader raises contract errors only *)

Definition contract_only {A} (r : result A) : Prop :=
  match r with Ok _ => True | Err e => ∃ code, e = ExecutionArtifactContractError code end.

Lemma contract_only_bind {A B} (r : result A) (f : A → result B) :
  contract_only r → (∀ a, contract_only (f a)) → contract_only (r ≫= f).
Proof. destruct r as [a|e]; simpl; [by intros _ H; apply H|done]. Qed.

Lemma contract_only_fmap {A B} (f : A → B) (r : result A) : contract_only r → contract_only (f <$> r).
Proof. by destruct r. Qed.

Lemma contract_only_map {A B} (f : A → result B) l :
  (∀ x, contract_only (f x)) → contract_only (map_result f l).
Proof.
  intros Hf. induction l as [|x l IH]; simpl; [done|].
  apply contract_only_bind; [apply Hf|]. intros y. by apply contract_only_bind.
Qed.

Lemma contract_only_require c : contract_only (outcome_require c).
Proof. unfold outcome_require, contract_require. destruct c; simpl; eauto. Qed.

Create HintDb contract.
#[local] Hint Resolve contract_only_bind contract_only_fmap contract_only_map contract_only_require : contract.
#[local] Hint Extern 1 (contract_only (Ok _)) => exact I : contract.
#[local] Hint Extern 1 (contract_only (contract_string _ ?v)) => destruct v; simpl; by eauto : contract.
#[local] Hint Extern 1 (contract_only (contract_optional_string _ ?v)) => destruct v; simpl; by eauto : contract.
#[local] Hint Extern 1 (contract_only (contract_int _ ?v)) => destruct v; simpl; by eauto : contract.
#[local] Hint Extern 1 (contract_only (contract_bool _ ?v)) => destruct v; simpl; by eauto : contract.
#[local] Hint Extern 1 (contract_only (outcome_sequence ?v)) => destruct v; simpl; by eauto : contract.

Lemma contract_only_mapping v : contract_only (contract_mapping invalid_outcome v).
Proof.
  unfold contract_mapping. destruct v; simpl; eauto. apply contract_only_map. intros [[] ?]; simpl; eauto.
Qed.
#[local] Hint Resolve contract_only_mapping : contract.

Lemma contract_only_object keys v : contract_only (contract_object invalid_outcome keys v).
Proof. unfold contract_object. repeat (apply contract_only_bind; intros); auto with contract. Qed.
#[local] Hint Resolve contract_only_object : contract.

Lemma contract_only_link v : contract_only (_link_from_mapping v).
Proof. unfold _link_from_mapping, link_init. repeat (apply contract_only_bind; intros); auto with contract. Qed.
#[local] Hint Resolve contract_only_link : contract.

Lemma contract_only_optional_link v : contract_only (_optional_link_from_mapping v).
Proof. unfold _optional_link_from_mapping. destruct v; auto with contract. Qed.
#[local] Hint Resolve contract_only_optional_link : contract.

Lemma contract_only_check v : contract_only (_check_from_mapping v).
Proof.
  unfold _check_from_mapping, check_artifacts_init.
  repeat (apply contract_only_bind; intros); auto with contract.
Qed.
#[local] Hint Resolve contract_only_check : contract.

Lemma contract_only_manifest v : contract_only (node_outcome_from_mapping v).
Proof.
  unfold node_outcome_from_mapping, manifest_init.
  repeat (apply contract_only_bind; intros); try case_match; auto with contract.
  unfold raise_if. case_match; simpl; [by eexists|done].
Qed.
