(* ===== verification/Review.v ===== *)
(** * orchestration/review.py: review contexts, proposals and admission

    What a reviewer is shown ([ReviewContext]: the acceptance contract of a run
    and cited evidence), what it may answer ([ReviewProposal]: findings and
    epistemic assessments, every claim with citations), and the structural
    admission of an answer.  Constructors are the dataclasses' [__post_init__];
    the readers take untrusted values. *)

From S2P Require Import Prelude PyStr PyFloat Json JsonText JsonFacts PyTime Contracts Events Strict.
From S2P Require Import OutputSchema Gateway Changes.
From Stdlib Require Import ZArith Lia Ascii String Sorting.Sorted Sorting.Permutation.
From stdpp Require Import base gmap sets list strings.
Local Open Scope Z_scope.

Definition REVIEW_ACCEPTANCE_SCHEMA : string := "review-acceptance/v1".
Definition REVIEW_CONTEXT_SCHEMA : string := "review-context/v2".
Definition REVIEW_PROPOSAL_SCHEMA : string := "review-proposal/v2".
Definition ADMITTED_REVIEW_SCHEMA : string := "execution-admitted-review/v2".
Definition REVIEW_PROVIDER_RESULT_SCHEMA : string := "review-provider-result/v1".
Definition _PRIOR_REVIEW_CONTEXT_SCHEMA : string := "review-context/v1".
Definition _PRIOR_REVIEW_PROPOSAL_SCHEMA : string := "review-proposal/v1".
Definition _PRIOR_ADMITTED_REVIEW_SCHEMA : string := "execution-admitted-review/v1".
Definition _SUPPORTED_REVIEW_CONTEXT_SCHEMAS : list string :=
  [REVIEW_CONTEXT_SCHEMA; _PRIOR_REVIEW_CONTEXT_SCHEMA].
Definition _SUPPORTED_REVIEW_PROPOSAL_SCHEMAS : list string :=
  [REVIEW_PROPOSAL_SCHEMA; _PRIOR_REVIEW_PROPOSAL_SCHEMA].
Definition _SUPPORTED_ADMITTED_REVIEW_SCHEMAS : list string :=
  [ADMITTED_REVIEW_SCHEMA; _PRIOR_ADMITTED_REVIEW_SCHEMA].

Definition review_max_objective_bytes : Z := 8 * 1024.
Definition _MAX_TEXT_BYTES : Z := 4 * 1024.
Definition review_max_constraints : Z := 64.
Definition _MAX_NODES : Z := 64.
Definition review_max_checks : Z := 64.
Definition review_max_argv : Z := 32.
Definition _MAX_ARG_BYTES : Z := 2 * 1024.
Definition review_max_paths : Z := 256.
Definition MAX_REVIEW_EVIDENCE_ITEMS : Z := 128.
Definition _MAX_EVIDENCE_EXCERPT_BYTES : Z := 32 * 1024.
Definition _MAX_EVIDENCE_BYTES : Z := 512 * 1024.
Definition _MAX_ACCEPTANCE_BYTES : Z := 2 * 1024 * 1024.
Definition MAX_REVIEW_CONTEXT_BYTES : Z := 3 * 1024 * 1024.
Definition MAX_REVIEW_PROPOSAL_BYTES : Z := 1024 * 1024.
Definition _MAX_FINDINGS : Z := 64.
Definition _MAX_CITATIONS : Z := 8.
Definition _MAX_LINE : Z := 10000000.

Definition invalid_review_context : exn := ReviewContractError "invalid-review-context".
Definition invalid_review_proposal : exn := ReviewContractError "invalid-review-proposal".
Definition admission_rejected : exn := ReviewContractError "review-admission-rejected".
Definition context_require (c : bool) : result unit := contract_require invalid_review_context c.
Definition review_proposal_require (c : bool) : result unit := contract_require invalid_review_proposal c.
Definition admission_require (c : bool) : result unit := contract_require admission_rejected c.

(** ** Vocabularies *)

Inductive ReviewFindingCategory :=
  | CORRECTNESS | WEAKENED_TEST | ALTERED_EXPECTED_OUTPUT | HIDDEN_SHORTCUT | SUPPRESSED_FAILURE
  | SCOPE_DRIFT.
#[export] Instance category_eq_dec : EqDecision ReviewFindingCategory.
Proof. solve_decision. Defined.
Definition category_value (c : ReviewFindingCategory) : string :=
  match c with
  | CORRECTNESS => "correctness" | WEAKENED_TEST => "weakened-test"
  | ALTERED_EXPECTED_OUTPUT => "altered-expected-output" | HIDDEN_SHORTCUT => "hidden-shortcut"
  | SUPPRESSED_FAILURE => "suppressed-failure" | SCOPE_DRIFT => "scope-drift"
  end.
Definition review_finding_categories : list ReviewFindingCategory :=
  [CORRECTNESS; WEAKENED_TEST; ALTERED_EXPECTED_OUTPUT; HIDDEN_SHORTCUT; SUPPRESSED_FAILURE; SCOPE_DRIFT].

Inductive ReviewSeverity := BLOCKER | HIGH | MEDIUM | LOW.
#[export] Instance severity_eq_dec : EqDecision ReviewSeverity.
Proof. solve_decision. Defined.
Definition severity_value (s : ReviewSeverity) : string :=
  match s with BLOCKER => "blocker" | HIGH => "high" | MEDIUM => "medium" | LOW => "low" end.
Definition review_severities : list ReviewSeverity := [BLOCKER; HIGH; MEDIUM; LOW].

Inductive ReviewEvidenceKind :=
  | SOURCE_BEFORE | SOURCE_AFTER | EFFECT | CHECK_COMMAND | CHECK_RESULT | CHECK_STDOUT
  | CHECK_STDERR | OUTCOME.
#[export] Instance evidence_kind_eq_dec : EqDecision ReviewEvidenceKind.
Proof. solve_decision. Defined.
Definition evidence_kind_value (k : ReviewEvidenceKind) : string :=
  match k with
  | SOURCE_BEFORE => "source-before" | SOURCE_AFTER => "source-after" | EFFECT => "effect"
  | CHECK_COMMAND => "check-command" | CHECK_RESULT => "check-result"
  | CHECK_STDOUT => "check-stdout" | CHECK_STDERR => "check-stderr" | OUTCOME => "outcome"
  end.

Inductive EpistemicDimension :=
  | EVIDENCE_GROUNDING | COUNTEREVIDENCE | ACCEPTANCE_COVERAGE | CAUSAL_OVERREACH | SCOPE_CHALLENGE
  | UNCERTAINTY | PROVENANCE_FRESHNESS | INDEPENDENT_CORROBORATION | ORDER_SENSITIVITY.
#[export] Instance dimension_eq_dec : EqDecision EpistemicDimension.
Proof. solve_decision. Defined.
Definition dimension_value (d : EpistemicDimension) : string :=
  match d with
  | EVIDENCE_GROUNDING => "evidence-grounding" | COUNTEREVIDENCE => "counterevidence"
  | ACCEPTANCE_COVERAGE => "acceptance-coverage" | CAUSAL_OVERREACH => "causal-overreach"
  | SCOPE_CHALLENGE => "scope-challenge" | UNCERTAINTY => "uncertainty"
  | PROVENANCE_FRESHNESS => "provenance-freshness"
  | INDEPENDENT_CORROBORATION => "independent-corroboration"
  | ORDER_SENSITIVITY => "order-sensitivity"
  end.
Definition _PRIOR_EPISTEMIC_DIMENSIONS : list EpistemicDimension :=
  [EVIDENCE_GROUNDING; COUNTEREVIDENCE; ACCEPTANCE_COVERAGE; CAUSAL_OVERREACH; SCOPE_CHALLENGE;
   UNCERTAINTY].
(** [tuple(EpistemicDimension)]. *)
Definition epistemic_dimensions : list EpistemicDimension :=
  [EVIDENCE_GROUNDING; COUNTEREVIDENCE; ACCEPTANCE_COVERAGE; CAUSAL_OVERREACH; SCOPE_CHALLENGE;
   UNCERTAINTY; PROVENANCE_FRESHNESS; INDEPENDENT_CORROBORATION; ORDER_SENSITIVITY].
Definition _MAX_EPISTEMIC_ASSESSMENTS : Z := zlen epistemic_dimensions.

Inductive EpistemicDisposition := SUPPORTED | CONCERN | UNKNOWN | NOT_APPLICABLE.
#[export] Instance disposition_eq_dec : EqDecision EpistemicDisposition.
Proof. solve_decision. Defined.
Definition disposition_value (d : EpistemicDisposition) : string :=
  match d with
  | SUPPORTED => "supported" | CONCERN => "concern" | UNKNOWN => "unknown"
  | NOT_APPLICABLE => "not-applicable"
  end.
Definition epistemic_dispositions : list EpistemicDisposition :=
  [SUPPORTED; CONCERN; UNKNOWN; NOT_APPLICABLE].

(** The members of an enumeration by value, for [contract_enum]. *)
Definition members {A} (value : A → string) (all : list A) : list (string * A) :=
  map (λ a, (value a, a)) all.

(** ** Validators *)

Definition _unique_identifiers (value : list string) (maximum : Z) : bool :=
  (zlen value <=? maximum) && distinct value && forallb re_identifier value.

Definition _repository_scope_path (value : string) : result string :=
  _ ← context_require (negb (is_empty value) && (py_len value <=? _MAX_PATH_CHARS)
        && negb (contains nul value) && negb (contains backslash value));
  if bool_decide (value = ".") then Ok value
  else _ ← context_require (repository_path_ok value); Ok value.

Definition _repository_evidence_path (value : string) : result string :=
  _ ← context_require (negb (bool_decide (value = ".")) && repository_path_ok value); Ok value.

(** ** Checks and plan nodes *)

Record ReviewCheck := MkReviewCheck {
  rc_check_id : string;
  rc_argv : list string;
  rc_expected_exit_code : Z;
  rc_command_digest : string;
  rc_result_digest : string;
  rc_passed : bool
}.

Definition review_token_ok (token : string) : bool :=
  negb (is_empty token) && negb (contains nul token) && (byte_len token <=? _MAX_ARG_BYTES).

Definition review_check_init (c : ReviewCheck) : result ReviewCheck :=
  _ ← context_require (re_identifier (rc_check_id c)
        && z_between 1 (zlen (rc_argv c)) review_max_argv && forallb review_token_ok (rc_argv c)
        && z_between 0 (rc_expected_exit_code c) 255
        && re_digest (rc_command_digest c) && re_digest (rc_result_digest c));
  Ok c.

Record ReviewPlanNode := MkReviewNode {
  rn_node_id : string;
  rn_objective : string;
  rn_depends_on : list string;
  rn_effects : list string;
  rn_allowed_paths : list string;
  rn_max_changed_files : Z;
  rn_checks : list ReviewCheck
}.

Definition known_effects : list string :=
  ["repository-read"; "repository-write"; "process"; "network"].
Definition writes (n : ReviewPlanNode) : bool := bool_decide ("repository-write" ∈ rn_effects n).

Definition review_node_init (n : ReviewPlanNode) : result ReviewPlanNode :=
  _ ← context_require (re_identifier (rn_node_id n)
        && bounded_text (rn_objective n) _MAX_TEXT_BYTES
        && _unique_identifiers (rn_depends_on n) _MAX_NODES
        && negb (bool_decide (rn_node_id n ∈ rn_depends_on n))
        && negb (bool_decide (rn_effects n = [])) && distinct (rn_effects n)
        && subset_of (rn_effects n) known_effects
        && (zlen (rn_allowed_paths n) <=? review_max_paths)
        && z_between 0 (rn_max_changed_files n) 10000
        && z_between 1 (zlen (rn_checks n)) review_max_checks
        && distinct (map rc_check_id (rn_checks n)));
  scopes ← map_result _repository_scope_path (rn_allowed_paths n);
  let paths := sort_strings scopes in
  _ ← context_require (distinct paths);
  _ ← context_require (eqb (writes n) (negb (bool_decide (paths = [])))
        && eqb (writes n) (0 <? rn_max_changed_files n));
  Ok (MkReviewNode (rn_node_id n) (rn_objective n) (rn_depends_on n) (rn_effects n) paths
        (rn_max_changed_files n) (rn_checks n)).

(** ** The dependency cycle check *)

(** The [while remaining] loop; every round removes at least one entry, so the
    number of entries is enough fuel. *)
Fixpoint cycle_loop (fuel : nat) (remaining : list (string * list string)) : bool :=
  match remaining, fuel with
  | [], _ => false
  | _, O => true
  | _, S fuel' =>
      let ready := map fst (List.filter (λ kv, bool_decide (kv.2 = [])) remaining) in
      if bool_decide (ready = []) then true
      else
        let rest := List.filter (λ kv, negb (bool_decide (kv.1 ∈ ready))) remaining in
        cycle_loop fuel'
          (map (λ kv, (kv.1, List.filter (λ d, negb (bool_decide (d ∈ ready))) kv.2)) rest)
  end.

Definition _has_dependency_cycle (nodes : list ReviewPlanNode) : bool :=
  let remaining := dict_of rn_node_id rn_depends_on nodes in
  cycle_loop (length remaining) remaining.

(** ** ReviewAcceptance *)

Record ReviewAcceptance := MkAcceptance {
  ra_run_id : string;
  ra_project_id : string;
  ra_intent_id : string;
  ra_plan_id : string;
  ra_objective : string;
  ra_constraints : list string;
  ra_base_commit : string;
  ra_nodes : list ReviewPlanNode;
  ra_schema_version : string
}.

Definition review_check_payload (c : ReviewCheck) : pyval :=
  obj [("check_id", PStr (rc_check_id c));
       ("argv", pstrs (rc_argv c));
       ("expected_exit_code", PInt (rc_expected_exit_code c));
       ("command_digest", PStr (rc_command_digest c));
       ("result_digest", PStr (rc_result_digest c));
       ("passed", PBool (rc_passed c))].

Definition review_node_payload (n : ReviewPlanNode) : pyval :=
  obj [("node_id", PStr (rn_node_id n));
       ("objective", PStr (rn_objective n));
       ("depends_on", pstrs (rn_depends_on n));
       ("effects", pstrs (rn_effects n));
       ("allowed_paths", pstrs (rn_allowed_paths n));
       ("max_changed_files", PInt (rn_max_changed_files n));
       ("checks", PSequence (map review_check_payload (rn_checks n)))].

Definition review_acceptance_payload (a : ReviewAcceptance) : pyval :=
  obj [("schema_version", PStr (ra_schema_version a));
       ("run_id", PStr (ra_run_id a));
       ("project_id", PStr (ra_project_id a));
       ("intent_id", PStr (ra_intent_id a));
       ("plan_id", PStr (ra_plan_id a));
       ("objective", PStr (ra_objective a));
       ("constraints", pstrs (ra_constraints a));
       ("base_commit", PStr (ra_base_commit a));
       ("nodes", PSequence (map review_node_payload (ra_nodes a)))].

Definition review_acceptance_init (a : ReviewAcceptance) : result ReviewAcceptance :=
  _ ← context_require (bool_decide (ra_schema_version a = REVIEW_ACCEPTANCE_SCHEMA)
        && forallb re_identifier [ra_run_id a; ra_project_id a; ra_intent_id a; ra_plan_id a]
        && bounded_text (ra_objective a) review_max_objective_bytes
        && (zlen (ra_constraints a) <=? review_max_constraints) && distinct (ra_constraints a)
        && forallb (λ s, bounded_text s _MAX_TEXT_BYTES) (ra_constraints a)
        && re_commit (ra_base_commit a)
        && z_between 1 (zlen (ra_nodes a)) _MAX_NODES);
  let nodes := sort_by rn_node_id (ra_nodes a) in
  let node_ids := map rn_node_id nodes in
  _ ← context_require (distinct node_ids
        && forallb (λ n, subset_of (rn_depends_on n) node_ids) nodes
        && negb (_has_dependency_cycle nodes));
  let acceptance := MkAcceptance (ra_run_id a) (ra_project_id a) (ra_intent_id a) (ra_plan_id a)
    (ra_objective a) (ra_constraints a) (ra_base_commit a) nodes (ra_schema_version a) in
  text ← canonical_json_bytes (review_acceptance_payload acceptance);
  _ ← context_require (byte_len text <=? _MAX_ACCEPTANCE_BYTES);
  Ok acceptance.

Definition review_acceptance_digest (a : ReviewAcceptance) : result string :=
  json_digest (review_acceptance_payload a).

(** ** Evidence *)

(** [len(text.splitlines())]: [open] says that the current line has text. *)
Definition is_line_break (c : Z) : bool :=
  bool_decide (c ∈ [10; 11; 12; 13; 28; 29; 30; 133; 8232; 8233]).
Fixpoint count_lines (open : bool) (cs : list Z) : Z :=
  match cs with
  | [] => if open then 1 else 0
  | c :: cs' =>
      if is_line_break c then
        1 + match cs' with
            | 10 :: cs'' => if c =? 13 then count_lines false cs'' else count_lines false cs'
            | _ => count_lines false cs'
            end
      else count_lines true cs'
  end.
Definition splitlines_count (text : string) : Z := count_lines false (decode_utf8 text).

Record ReviewEvidence := MkEvidence {
  re_kind : ReviewEvidenceKind;
  re_node_id : string;
  re_artifact_digest : string;
  re_excerpt : string;
  re_start_line : Z;
  re_path : option string;
  re_check_id : option string;
  re_operation : option TextOperation;
  re_end_line : Z;
  re_evidence_id : string
}.

Definition source_kind (k : ReviewEvidenceKind) : bool :=
  match k with SOURCE_BEFORE | SOURCE_AFTER | EFFECT => true | _ => false end.
Definition check_kind (k : ReviewEvidenceKind) : bool :=
  match k with CHECK_COMMAND | CHECK_RESULT | CHECK_STDOUT | CHECK_STDERR => true | _ => false end.

Definition evidence_identity (kind : ReviewEvidenceKind) (node_id artifact_digest excerpt : string)
    (start_line end_line : Z) (path check_id : option string) (operation : option TextOperation)
    : pyval :=
  obj [("kind", PStr (evidence_kind_value kind));
       ("node_id", PStr node_id);
       ("artifact_digest", PStr artifact_digest);
       ("operation", popt (operation_value <$> operation));
       ("path", popt path);
       ("check_id", popt check_id);
       ("start_line", PInt start_line);
       ("end_line", PInt end_line);
       ("excerpt", PStr excerpt)].

Definition review_evidence_init (kind : ReviewEvidenceKind) (node_id artifact_digest excerpt : string)
    (start_line : Z) (path check_id : option string) (operation : option TextOperation)
    : result ReviewEvidence :=
  _ ← context_require (re_identifier node_id && re_digest artifact_digest
        && negb (contains nul excerpt) && (byte_len excerpt <=? _MAX_EVIDENCE_EXCERPT_BYTES)
        && z_between 1 start_line _MAX_LINE
        && match check_id with Some c => re_identifier c | None => true end);
  _ ← match path with None => Ok None | Some p => Some <$> _repository_evidence_path p end;
  _ ← context_require (eqb (source_kind kind) (is_some path)
        && eqb (source_kind kind) (is_some operation)
        && eqb (check_kind kind) (is_some check_id)
        && negb (bool_decide (kind = SOURCE_BEFORE) && bool_decide (operation = Some CREATE))
        && negb (bool_decide (kind = SOURCE_AFTER) && bool_decide (operation = Some DELETE)));
  _ ← context_require (negb (bool_decide (kind = OUTCOME) && (is_some path || is_some check_id)));
  let count := splitlines_count excerpt in
  let line_count := if count =? 0 then 1 else count in
  let end_line := start_line + line_count - 1 in
  _ ← context_require (end_line <=? _MAX_LINE);
  evidence_id ← json_digest (evidence_identity kind node_id artifact_digest excerpt start_line
                  end_line path check_id operation);
  Ok (MkEvidence kind node_id artifact_digest excerpt start_line path check_id operation end_line
        evidence_id).

(** ** ReviewContext *)

Record ReviewContext := MkReviewContext {
  rx_acceptance : ReviewAcceptance;
  rx_state_digest : string;
  rx_artifact_evidence_digest : string;
  rx_evidence : list ReviewEvidence;
  rx_schema_version : string
}.

Definition _context_dimensions (schema_version : string) : result (list EpistemicDimension) :=
  if bool_decide (schema_version = REVIEW_CONTEXT_SCHEMA) then Ok epistemic_dimensions
  else if bool_decide (schema_version = _PRIOR_REVIEW_CONTEXT_SCHEMA) then Ok _PRIOR_EPISTEMIC_DIMENSIONS
  else Err invalid_review_context.

Definition review_evidence_payload (e : ReviewEvidence) : pyval :=
  obj [("evidence_id", PStr (re_evidence_id e));
       ("kind", PStr (evidence_kind_value (re_kind e)));
       ("node_id", PStr (re_node_id e));
       ("artifact_digest", PStr (re_artifact_digest e));
       ("operation", popt (operation_value <$> re_operation e));
       ("path", popt (re_path e));
       ("check_id", popt (re_check_id e));
       ("start_line", PInt (re_start_line e));
       ("end_line", PInt (re_end_line e));
       ("excerpt", PStr (re_excerpt e))].

Definition review_context_payload (c : ReviewContext) : result pyval :=
  digest ← review_acceptance_digest (rx_acceptance c);
  dimensions ← _context_dimensions (rx_schema_version c);
  Ok (obj [("schema_version", PStr (rx_schema_version c));
           ("acceptance_digest", PStr digest);
           ("acceptance", review_acceptance_payload (rx_acceptance c));
           ("state_digest", PStr (rx_state_digest c));
           ("artifact_evidence_digest", PStr (rx_artifact_evidence_digest c));
           ("review_categories", pstrs (map category_value review_finding_categories));
           ("epistemic_dimensions", pstrs (map dimension_value dimensions));
           ("epistemic_dispositions", pstrs (map disposition_value epistemic_dispositions));
           ("evidence", PSequence (map review_evidence_payload (rx_evidence c)))]).

(** One item of evidence against the node it names. *)
Definition evidence_fits_node (nodes : list (string * ReviewPlanNode)) (e : ReviewEvidence) : bool :=
  match dict_get (re_node_id e) nodes with
  | None => false
  | Some node =>
      match re_path e with Some p => path_allowed p (rn_allowed_paths node) | None => true end
      && match re_check_id e with
         | Some c => bool_decide (c ∈ map rc_check_id (rn_checks node))
         | None => true
         end
  end.

Definition review_context_init (c : ReviewContext) : result ReviewContext :=
  _ ← context_require (bool_decide (rx_schema_version c ∈ _SUPPORTED_REVIEW_CONTEXT_SCHEMAS)
        && re_digest (rx_state_digest c) && re_digest (rx_artifact_evidence_digest c)
        && z_between 1 (zlen (rx_evidence c)) MAX_REVIEW_EVIDENCE_ITEMS
        && (sum_bytes (map re_excerpt (rx_evidence c)) <=? _MAX_EVIDENCE_BYTES));
  let evidence := sort_by re_evidence_id (rx_evidence c) in
  _ ← context_require (distinct (map re_evidence_id evidence));
  let nodes := dict_of rn_node_id id (ra_nodes (rx_acceptance c)) in
  _ ← context_require (forallb (evidence_fits_node nodes) evidence);
  let context := MkReviewContext (rx_acceptance c) (rx_state_digest c)
    (rx_artifact_evidence_digest c) evidence (rx_schema_version c) in
  payload ← review_context_payload context;
  text ← canonical_json_bytes payload;
  _ ← context_require (byte_len text <=? MAX_REVIEW_CONTEXT_BYTES);
  Ok context.

Definition review_context_digest (c : ReviewContext) : result string :=
  payload ← review_context_payload c; json_digest payload.

(** [replace(value, schema_version=schema_version)]: the constructor runs again. *)
Definition replace_context_schema (c : ReviewContext) (schema_version : string) : result ReviewContext :=
  review_context_init (MkReviewContext (rx_acceptance c) (rx_state_digest c)
    (rx_artifact_evidence_digest c) (rx_evidence c) schema_version).

Fixpoint first_matching (c : ReviewContext) (expected_digest : string) (schemas : list string)
    : result ReviewContext :=
  match schemas with
  | [] => Err invalid_review_context
  | schema_version :: schemas' =>
      candidate ← (if bool_decide (rx_schema_version c = schema_version) then Ok c
                   else replace_context_schema c schema_version);
      digest ← review_context_digest candidate;
      if bool_decide (digest = expected_digest) then Ok candidate
      else first_matching c expected_digest schemas'
  end.

Definition review_context_matching_digest (c : ReviewContext) (expected_digest : string)
    : result ReviewContext :=
  _ ← context_require (re_digest expected_digest);
  first_matching c expected_digest [REVIEW_CONTEXT_SCHEMA; _PRIOR_REVIEW_CONTEXT_SCHEMA].

(** ** Citations, assessments and findings *)

Record ReviewCitation := MkCitation {
  ci_evidence_id : string;
  ci_start_line : Z;
  ci_end_line : Z
}.
#[export] Instance citation_eq_dec : EqDecision ReviewCitation.
Proof. solve_decision. Defined.

Definition review_citation_init (c : ReviewCitation) : result ReviewCitation :=
  _ ← review_proposal_require (re_digest (ci_evidence_id c) && (1 <=? ci_start_line c)
        && (ci_start_line c <=? ci_end_line c) && (ci_end_line c <=? _MAX_LINE));
  Ok c.

Record EpistemicAssessment := MkAssessment {
  ea_dimension : EpistemicDimension;
  ea_disposition : EpistemicDisposition;
  ea_claim : string;
  ea_falsification_question : string;
  ea_citations : list ReviewCitation;
  ea_finding_ids : list string
}.
#[export] Instance assessment_eq_dec : EqDecision EpistemicAssessment.
Proof. solve_decision. Defined.

Definition citations_ok (l : list ReviewCitation) : bool :=
  z_between 1 (zlen l) _MAX_CITATIONS && bool_decide (NoDup l).

Definition epistemic_assessment_init (a : EpistemicAssessment) : result EpistemicAssessment :=
  _ ← review_proposal_require (bounded_text (ea_claim a) _MAX_TEXT_BYTES
        && bounded_text (ea_falsification_question a) _MAX_TEXT_BYTES
        && citations_ok (ea_citations a)
        && _unique_identifiers (ea_finding_ids a) _MAX_FINDINGS
        && eqb (bool_decide (ea_disposition a = CONCERN)) (negb (bool_decide (ea_finding_ids a = []))));
  Ok (MkAssessment (ea_dimension a) (ea_disposition a) (ea_claim a) (ea_falsification_question a)
        (ea_citations a) (sort_strings (ea_finding_ids a))).

Record ProposedReviewFinding := MkFinding {
  fi_finding_id : string;
  fi_category : ReviewFindingCategory;
  fi_severity : ReviewSeverity;
  fi_claim : string;
  fi_impact : string;
  fi_recommendation : string;
  fi_citations : list ReviewCitation
}.
#[export] Instance finding_eq_dec : EqDecision ProposedReviewFinding.
Proof. solve_decision. Defined.

Definition review_finding_init (f : ProposedReviewFinding) : result ProposedReviewFinding :=
  _ ← review_proposal_require (re_identifier (fi_finding_id f)
        && forallb (λ s, bounded_text s _MAX_TEXT_BYTES) [fi_claim f; fi_impact f; fi_recommendation f]
        && citations_ok (fi_citations f));
  Ok f.

(** ** ReviewProposal and AdmittedReview *)

Definition _proposal_dimensions (schema_version : string) : option (list EpistemicDimension) :=
  if bool_decide (schema_version = REVIEW_PROPOSAL_SCHEMA) then Some epistemic_dimensions
  else if bool_decide (schema_version = _PRIOR_REVIEW_PROPOSAL_SCHEMA)
  then Some _PRIOR_EPISTEMIC_DIMENSIONS else None.

Definition _admitted_dimensions (schema_version : string) : option (list EpistemicDimension) :=
  if bool_decide (schema_version = ADMITTED_REVIEW_SCHEMA) then Some epistemic_dimensions
  else if bool_decide (schema_version = _PRIOR_ADMITTED_REVIEW_SCHEMA)
  then Some _PRIOR_EPISTEMIC_DIMENSIONS else None.

(** [set(a) == set(b)] *)
Definition same_set {A} `{EqDecision A} (a b : list A) : bool :=
  forallb (λ x, bool_decide (x ∈ b)) a && forallb (λ x, bool_decide (x ∈ a)) b.

Definition _valid_epistemic_assessments (value : list EpistemicAssessment) (finding_ids : list string)
    (expected_dimensions : option (list EpistemicDimension)) : bool :=
  match expected_dimensions with
  | None => false
  | Some expected =>
      (zlen value =? zlen expected)
      && same_set (map ea_dimension value) expected
      && same_set (concat (map ea_finding_ids value)) finding_ids
  end.

(** The test both constructors share. *)
Definition claims_ok (dimensions : option (list EpistemicDimension))
    (findings : list ProposedReviewFinding) (summary : string)
    (assessments : list EpistemicAssessment) : bool :=
  is_some dimensions && (zlen findings <=? _MAX_FINDINGS) && distinct (map fi_finding_id findings)
  && bounded_text summary _MAX_TEXT_BYTES
  && _valid_epistemic_assessments assessments (map fi_finding_id findings) dimensions.

Definition sort_assessments : list EpistemicAssessment → list EpistemicAssessment :=
  sort_by (λ a, dimension_value (ea_dimension a)).

Record ReviewProposal := MkReviewProposal {
  rp_context_digest : string;
  rp_findings : list ProposedReviewFinding;
  rp_summary : string;
  rp_assessments : list EpistemicAssessment;
  rp_schema_version : string
}.

Definition citation_payload (c : ReviewCitation) : pyval :=
  obj [("evidence_id", PStr (ci_evidence_id c));
       ("start_line", PInt (ci_start_line c));
       ("end_line", PInt (ci_end_line c))].

Definition _finding_payload (f : ProposedReviewFinding) : pyval :=
  obj [("finding_id", PStr (fi_finding_id f));
       ("category", PStr (category_value (fi_category f)));
       ("severity", PStr (severity_value (fi_severity f)));
       ("claim", PStr (fi_claim f));
       ("impact", PStr (fi_impact f));
       ("recommendation", PStr (fi_recommendation f));
       ("citations", PSequence (map citation_payload (fi_citations f)))].

Definition _epistemic_assessment_payload (a : EpistemicAssessment) : pyval :=
  obj [("dimension", PStr (dimension_value (ea_dimension a)));
       ("disposition", PStr (disposition_value (ea_disposition a)));
       ("claim", PStr (ea_claim a));
       ("falsification_question", PStr (ea_falsification_question a));
       ("citations", PSequence (map citation_payload (ea_citations a)));
       ("finding_ids", pstrs (ea_finding_ids a))].

Definition review_proposal_payload (p : ReviewProposal) : pyval :=
  obj [("schema_version", PStr (rp_schema_version p));
       ("context_digest", PStr (rp_context_digest p));
       ("findings", PSequence (map _finding_payload (rp_findings p)));
       ("summary", PStr (rp_summary p));
       ("epistemic_assessments", PSequence (map _epistemic_assessment_payload (rp_assessments p)))].

Definition review_proposal_init (p : ReviewProposal) : result ReviewProposal :=
  _ ← review_proposal_require
        (claims_ok (_proposal_dimensions (rp_schema_version p)) (rp_findings p) (rp_summary p)
           (rp_assessments p) && re_digest (rp_context_digest p));
  let proposal := MkReviewProposal (rp_context_digest p) (rp_findings p) (rp_summary p)
    (sort_assessments (rp_assessments p)) (rp_schema_version p) in
  text ← canonical_json_bytes (review_proposal_payload proposal);
  _ ← review_proposal_require (byte_len text <=? MAX_REVIEW_PROPOSAL_BYTES);
  Ok proposal.

Definition review_proposal_digest (p : ReviewProposal) : result string :=
  json_digest (review_proposal_payload p).

Record AdmittedReview := MkAdmitted {
  ad_context_digest : string;
  ad_acceptance_digest : string;
  ad_findings : list ProposedReviewFinding;
  ad_summary : string;
  ad_assessments : list EpistemicAssessment;
  ad_schema_version : string
}.
#[export] Instance admitted_eq_dec : EqDecision AdmittedReview.
Proof. solve_decision. Defined.

Definition admitted_review_init (a : AdmittedReview) : result AdmittedReview :=
  _ ← admission_require
        (claims_ok (_admitted_dimensions (ad_schema_version a)) (ad_findings a) (ad_summary a)
           (ad_assessments a)
         && re_digest (ad_context_digest a) && re_digest (ad_acceptance_digest a));
  Ok (MkAdmitted (ad_context_digest a) (ad_acceptance_digest a) (ad_findings a) (ad_summary a)
        (sort_assessments (ad_assessments a)) (ad_schema_version a)).

Definition admitted_review_payload (a : AdmittedReview) : pyval :=
  obj [("schema_version", PStr (ad_schema_version a));
       ("context_digest", PStr (ad_context_digest a));
       ("acceptance_digest", PStr (ad_acceptance_digest a));
       ("findings", PSequence (map _finding_payload (ad_findings a)));
       ("summary", PStr (ad_summary a));
       ("epistemic_assessments", PSequence (map _epistemic_assessment_payload (ad_assessments a)))].

Definition admitted_review_digest (a : AdmittedReview) : result string :=
  json_digest (admitted_review_payload a).

(** ** Provider calls and results *)

Record ReviewProviderCall := MkReviewCall {
  rcall_request_id : string;
  rcall_correlation_id : string;
  rcall_review_id : string;
  rcall_context : ReviewContext;
  rcall_classification : DataClassification;
  rcall_locality : LocalityPolicy;
  rcall_budget : GatewayBudget;
  rcall_estimated_input_tokens : Z;
  rcall_causation_id : option string
}.

Definition review_call_init (c : ReviewProviderCall) : result ReviewProviderCall :=
  _ ← context_require
        (forallb re_identifier [rcall_request_id c; rcall_correlation_id c; rcall_review_id c]
         && (0 <=? rcall_estimated_input_tokens c)
         && match rcall_causation_id c with Some s => re_identifier s | None => true end);
  Ok c.

Record ReviewProviderResult := MkReviewResult {
  rr_proposal : ReviewProposal;
  rr_provider_output_digest : string;
  rr_profile_id : string;
  rr_adapter_id : string;
  rr_model_id : string;
  rr_input_tokens : option Z;
  rr_output_tokens : option Z;
  rr_latency_ms : Z;
  rr_cost_microusd : option Z;
  rr_completed_at : datetime;
  rr_schema_version : string
}.

Definition review_result_init (r : ReviewProviderResult) : result ReviewProviderResult :=
  _ ← review_proposal_require
        (bool_decide (rr_schema_version r = REVIEW_PROVIDER_RESULT_SCHEMA)
         && re_digest (rr_provider_output_digest r)
         && forallb (λ s, negb (is_empty s) && (py_len s <=? 256))
              [rr_profile_id r; rr_adapter_id r; rr_model_id r]
         && forallb nonneg_opt [rr_input_tokens r; rr_output_tokens r; rr_cost_microusd r]
         && (0 <=? rr_latency_ms r) && is_some (dt_offset (rr_completed_at r)));
  Ok r.

Definition review_provider_result_payload (r : ReviewProviderResult) : result pyval :=
  digest ← review_proposal_digest (rr_proposal r);
  Ok (obj [("schema_version", PStr (rr_schema_version r));
           ("proposal_digest", PStr digest);
           ("provider_output_digest", PStr (rr_provider_output_digest r));
           ("profile_id", PStr (rr_profile_id r));
           ("adapter_id", PStr (rr_adapter_id r));
           ("model_id", PStr (rr_model_id r));
           ("input_tokens", poptint (rr_input_tokens r));
           ("output_tokens", poptint (rr_output_tokens r));
           ("latency_ms", PInt (rr_latency_ms r));
           ("cost_microusd", poptint (rr_cost_microusd r));
           ("completed_at", PStr (isoformat (rr_completed_at r)))]).

(** ** Admission *)

Definition _review_contracts_align (context_schema proposal_schema : string) : bool :=
  bool_decide ((context_schema, proposal_schema)
    ∈ [(REVIEW_CONTEXT_SCHEMA, REVIEW_PROPOSAL_SCHEMA);
       (_PRIOR_REVIEW_CONTEXT_SCHEMA, _PRIOR_REVIEW_PROPOSAL_SCHEMA)]).

Definition citation_fits (evidence : list (string * ReviewEvidence)) (c : ReviewCitation) : bool :=
  match dict_get (ci_evidence_id c) evidence with
  | Some item => (re_start_line item <=? ci_start_line c) && (ci_end_line c <=? re_end_line item)
  | None => false
  end.
Definition _citations_fit_evidence (citations : list ReviewCitation)
    (evidence : list (string * ReviewEvidence)) : bool :=
  forallb (citation_fits evidence) citations.

Definition citations_of (findings : list ProposedReviewFinding) (assessments : list EpistemicAssessment)
    : list ReviewCitation :=
  concat (map fi_citations findings) ++ concat (map ea_citations assessments).

(** [{item.evidence_id: item for item in context.evidence}] *)
Definition evidence_by_id (evidence : list ReviewEvidence) : list (string * ReviewEvidence) :=
  dict_of re_evidence_id id evidence.

Definition admit_review (context : ReviewContext) (proposal : ReviewProposal) : result AdmittedReview :=
  context_digest ← review_context_digest context;
  _ ← admission_require (bool_decide (rp_context_digest proposal = context_digest)
        && _review_contracts_align (rx_schema_version context) (rp_schema_version proposal));
  _ ← admission_require (_citations_fit_evidence
        (citations_of (rp_findings proposal) (rp_assessments proposal))
        (evidence_by_id (rx_evidence context)));
  acceptance_digest ← review_acceptance_digest (rx_acceptance context);
  admitted_review_init (MkAdmitted context_digest acceptance_digest (rp_findings proposal)
    (rp_summary proposal) (rp_assessments proposal)
    (if bool_decide (rp_schema_version proposal = _PRIOR_REVIEW_PROPOSAL_SCHEMA)
     then _PRIOR_ADMITTED_REVIEW_SCHEMA else ADMITTED_REVIEW_SCHEMA)).

(** ** Readers *)

Definition review_mapping : pyval → result (list (string * pyval)) :=
  contract_mapping invalid_review_proposal.
Definition review_sequence (maximum : Z) : pyval → result (list pyval) :=
  contract_sequence invalid_review_proposal 0 maximum.
Definition review_text : pyval → result string := contract_string invalid_review_proposal.
Definition review_int : pyval → result Z := contract_int invalid_review_proposal.
Definition review_object (keys : list string) : pyval → result (list (string * pyval)) :=
  contract_object invalid_review_proposal keys.

Definition _text_identifier (value : pyval) : result string :=
  text ← review_text value; _ ← review_proposal_require (re_identifier text); Ok text.

Definition _citation_from_mapping (value : pyval) : result ReviewCitation :=
  raw ← review_object ["evidence_id"; "start_line"; "end_line"] value;
  evidence_id ← review_text (pget "evidence_id" raw);
  start_line ← review_int (pget "start_line" raw);
  end_line ← review_int (pget "end_line" raw);
  review_citation_init (MkCitation evidence_id start_line end_line).

Definition citations_from (value : pyval) : result (list ReviewCitation) :=
  l ← review_sequence _MAX_CITATIONS value; map_result _citation_from_mapping l.

Definition finding_keys : list string :=
  ["finding_id"; "category"; "severity"; "claim"; "impact"; "recommendation"; "citations"].

Definition _finding_from_mapping (value : pyval) : result ProposedReviewFinding :=
  raw ← review_object finding_keys value;
  category ← contract_enum invalid_review_proposal (members category_value review_finding_categories)
               (pget "category" raw);
  severity ← contract_enum invalid_review_proposal (members severity_value review_severities)
               (pget "severity" raw);
  citations ← citations_from (pget "citations" raw);
  finding_id ← review_text (pget "finding_id" raw);
  claim ← review_text (pget "claim" raw);
  impact ← review_text (pget "impact" raw);
  recommendation ← review_text (pget "recommendation" raw);
  review_finding_init (MkFinding finding_id category severity claim impact recommendation citations).

Definition assessment_keys : list string :=
  ["dimension"; "disposition"; "claim"; "falsification_question"; "citations"; "finding_ids"].

Definition _epistemic_assessment_from_mapping (value : pyval) : result EpistemicAssessment :=
  raw ← review_object assessment_keys value;
  dimension ← contract_enum invalid_review_proposal (members dimension_value epistemic_dimensions)
                (pget "dimension" raw);
  disposition ← contract_enum invalid_review_proposal
                  (members disposition_value epistemic_dispositions) (pget "disposition" raw);
  claim ← review_text (pget "claim" raw);
  question ← review_text (pget "falsification_question" raw);
  citations ← citations_from (pget "citations" raw);
  raw_ids ← review_sequence _MAX_FINDINGS (pget "finding_ids" raw);
  finding_ids ← map_result _text_identifier raw_ids;
  epistemic_assessment_init (MkAssessment dimension disposition claim question citations finding_ids).

Definition findings_from (value : pyval) : result (list ProposedReviewFinding) :=
  l ← review_sequence _MAX_FINDINGS value; map_result _finding_from_mapping l.
Definition assessments_from (value : pyval) : result (list EpistemicAssessment) :=
  l ← review_sequence _MAX_EPISTEMIC_ASSESSMENTS value;
  map_result _epistemic_assessment_from_mapping l.

Definition review_proposal_keys : list string :=
  ["schema_version"; "context_digest"; "findings"; "summary"; "epistemic_assessments"].

Definition review_proposal_from_mapping (value : pyval) : result ReviewProposal :=
  raw ← review_object review_proposal_keys value;
  schema_version ← review_text (pget "schema_version" raw);
  _ ← review_proposal_require (bool_decide (schema_version ∈ _SUPPORTED_REVIEW_PROPOSAL_SCHEMAS));
  findings ← findings_from (pget "findings" raw);
  assessments ← assessments_from (pget "epistemic_assessments" raw);
  context_digest ← review_text (pget "context_digest" raw);
  summary ← review_text (pget "summary" raw);
  review_proposal_init (MkReviewProposal context_digest findings summary assessments schema_version).

Definition admitted_review_keys : list string :=
  ["schema_version"; "context_digest"; "acceptance_digest"; "findings"; "summary";
   "epistemic_assessments"].

Definition admitted_review_from_mapping (value : pyval) : result AdmittedReview :=
  raw ← review_mapping value;
  _ ← admission_require (has_keys raw admitted_review_keys);
  schema_version ← contract_string admission_rejected (pget "schema_version" raw);
  _ ← admission_require (bool_decide (schema_version ∈ _SUPPORTED_ADMITTED_REVIEW_SCHEMAS));
  findings ← findings_from (pget "findings" raw);
  assessments ← assessments_from (pget "epistemic_assessments" raw);
  context_digest ← contract_string admission_rejected (pget "context_digest" raw);
  acceptance_digest ← contract_string admission_rejected (pget "acceptance_digest" raw);
  summary ← contract_string admission_rejected (pget "summary" raw);
  admitted_review_init (MkAdmitted context_digest acceptance_digest findings summary assessments
    schema_version).

Definition review_provider_result_keys : list string :=
  ["schema_version"; "proposal_digest"; "provider_output_digest"; "profile_id"; "adapter_id";
   "model_id"; "input_tokens"; "output_tokens"; "latency_ms"; "cost_microusd"; "completed_at"].

Definition review_provider_result_from_mapping (value : pyval) (proposal : ReviewProposal)
    : result ReviewProviderResult :=
  raw ← review_object review_provider_result_keys value;
  _ ← review_proposal_require (equals_text (pget "schema_version" raw) REVIEW_PROVIDER_RESULT_SCHEMA);
  digest ← review_proposal_digest proposal;
  _ ← review_proposal_require (equals_text (pget "proposal_digest" raw) digest);
  completed_text ← review_text (pget "completed_at" raw);
  completed ← of_option invalid_review_proposal (fromisoformat completed_text);
  provider_output_digest ← review_text (pget "provider_output_digest" raw);
  profile_id ← review_text (pget "profile_id" raw);
  adapter_id ← review_text (pget "adapter_id" raw);
  model_id ← review_text (pget "model_id" raw);
  input_tokens ← contract_optional_int invalid_review_proposal (pget "input_tokens" raw);
  output_tokens ← contract_optional_int invalid_review_proposal (pget "output_tokens" raw);
  cost_microusd ← contract_optional_int invalid_review_proposal (pget "cost_microusd" raw);
  latency_ms ← review_int (pget "latency_ms" raw);
  review_result_init (MkReviewResult proposal provider_output_digest profile_id adapter_id model_id
    input_tokens output_tokens latency_ms cost_microusd completed REVIEW_PROVIDER_RESULT_SCHEMA).

(** ** REVIEW_PROPOSAL_OUTPUT_SCHEMA *)

Definition object_schema (required : list string) (properties : jobject) : jobject :=
  [("type", JStr "object"); ("additionalProperties", JBool false);
   ("required", JArr (map JStr required)); ("properties", JObj properties)].
Definition enum_schema (values : list string) : json := string_schema [("enum", JArr (map JStr values))].
Definition text_between (lo hi : Z) : json := string_schema [("minLength", JInt lo); ("maxLength", JInt hi)].
Definition line_schema : json :=
  JObj [("type", JStr "integer"); ("minimum", JInt 1); ("maximum", JInt _MAX_LINE)].
Definition citation_schema : json :=
  JObj [("type", JStr "array"); ("minItems", JInt 1); ("maxItems", JInt _MAX_CITATIONS);
        ("uniqueItems", JBool true);
        ("items", JObj (object_schema ["evidence_id"; "start_line"; "end_line"]
           [("evidence_id", text_between 71 71); ("start_line", line_schema);
            ("end_line", line_schema)]))].

Definition finding_schema : jobject :=
  object_schema finding_keys
    [("finding_id", text_between 1 128);
     ("category", enum_schema (map category_value review_finding_categories));
     ("severity", enum_schema (map severity_value review_severities));
     ("claim", text_between 1 _MAX_TEXT_BYTES);
     ("impact", text_between 1 _MAX_TEXT_BYTES);
     ("recommendation", text_between 1 _MAX_TEXT_BYTES);
     ("citations", citation_schema)].

Definition assessment_schema : jobject :=
  object_schema assessment_keys
    [("dimension", enum_schema (map dimension_value epistemic_dimensions));
     ("disposition", enum_schema (map disposition_value epistemic_dispositions));
     ("claim", text_between 1 _MAX_TEXT_BYTES);
     ("falsification_question", text_between 1 _MAX_TEXT_BYTES);
     ("citations", citation_schema);
     ("finding_ids", JObj [("type", JStr "array"); ("maxItems", JInt _MAX_FINDINGS);
                           ("uniqueItems", JBool true); ("items", text_between 1 128)])].

Definition REVIEW_PROPOSAL_OUTPUT_SCHEMA : jobject :=
  ("$schema", JStr "https://json-schema.org/draft/2020-12/schema") ::
  object_schema review_proposal_keys
    [("schema_version", string_schema [("const", JStr REVIEW_PROPOSAL_SCHEMA)]);
     ("context_digest", text_between 71 71);
     ("findings", JObj [("type", JStr "array"); ("maxItems", JInt _MAX_FINDINGS);
                        ("items", JObj finding_schema)]);
     ("summary", text_between 1 _MAX_TEXT_BYTES);
     ("epistemic_assessments", JObj
        [("type", JStr "array"); ("minItems", JInt _MAX_EPISTEMIC_ASSESSMENTS);
         ("maxItems", JInt _MAX_EPISTEMIC_ASSESSMENTS); ("items", JObj assessment_schema)])].
