(* ===== verification/ReviewFacts.v ===== *)
(** * Facts about reviews: cycles, evidence, admission, round trips *)

From S2P Require Import Prelude PyStr PyFloat Json JsonText JsonFacts PyTime Contracts Events Strict.
From S2P Require Import OutputSchema Gateway Changes Review.
From Stdlib Require Import ZArith Lia Ascii String Sorting.Sorted Sorting.Permutation.
From stdpp Require Import base gmap sets list strings.
Local Open Scope Z_scope.

(** ** The dependency cycle check *)

Section Cycle.

(** A set of entries each of which waits for another entry of the set. *)
Definition stuck (R : list (string * list string)) (S : list string) : Prop :=
  S ≠ [] ∧ ∀ x, x ∈ S → ∃ ds d, (x, ds) ∈ R ∧ d ∈ ds ∧ d ∈ S.

Definition closed (R : list (string * list string)) : Prop :=
  ∀ x ds d, (x, ds) ∈ R → d ∈ ds → d ∈ dict_keys R.

Definition ready_keys (R : list (string * list string)) : list string :=
  map fst (List.filter (λ kv, bool_decide (kv.2 = [])) R).
Definition without (ready : list string) (R : list (string * list string)) : list (string * list string) :=
  map (λ kv, (kv.1, List.filter (λ d, negb (bool_decide (d ∈ ready))) kv.2))
    (List.filter (λ kv, negb (bool_decide (kv.1 ∈ ready))) R).

Lemma elem_ready x R : x ∈ ready_keys R ↔ (x, []) ∈ R.
Proof.
  unfold ready_keys. rewrite list_elem_of_fmap. setoid_rewrite elem_of_listfilter.
  setoid_rewrite bool_decide_eq_true. split.
  - intros ([k v] & -> & Hin & Hv). simpl in *. by subst.
  - intros H. by exists (x, []).
Qed.

Lemma elem_without x ds ready R : (x, ds) ∈ without ready R ↔
  (x ∉ ready) ∧ ∃ ds0, (x, ds0) ∈ R ∧ ds = List.filter (λ d, negb (bool_decide (d ∈ ready))) ds0.
Proof.
  unfold without. rewrite list_elem_of_fmap. setoid_rewrite elem_of_listfilter.
  setoid_rewrite negb_true_iff. setoid_rewrite bool_decide_eq_false. split.
  - intros ([k v] & [= -> ->] & Hin & Hr). eauto.
  - intros (Hr & ds0 & Hin & ->). by exists (x, ds0).
Qed.

Lemma without_keys x ready R : x ∈ dict_keys (without ready R) ↔ (x ∉ ready) ∧ x ∈ dict_keys R.
Proof.
  unfold dict_keys. rewrite !list_elem_of_fmap. split.
  - intros ([k v] & -> & H%elem_without). destruct H as (Hr & ds0 & Hin & _). split; [done|].
    by exists (k, ds0).
  - intros (Hr & [k v] & -> & Hin). simpl in *. eexists (k, _). split; [done|].
    apply elem_without. split; [done|]. by exists v.
Qed.

Lemma without_NoDup ready R : NoDup (dict_keys R) → NoDup (dict_keys (without ready R)).
Proof.
  unfold dict_keys, without. rewrite <-list_fmap_compose.
  change (NoDup (map fst R) → NoDup (map fst (List.filter (λ kv, negb (bool_decide (kv.1 ∈ ready))) R))).
  induction R as [|[k v] R IH]; simpl; [done|]. intros [Hk Hn]%NoDup_cons.
  case_match; simpl; [|by apply IH]. constructor; [|by apply IH].
  intros Hin. apply Hk. apply list_elem_of_fmap in Hin as (y & -> & Hy%elem_of_listfilter).
  apply list_elem_of_fmap. exists y. tauto.
Qed.

Lemma without_length ready R x ds : x ∈ ready → (x, ds) ∈ R →
  (length (without ready R) < length R)%nat.
Proof.
  intros Hx. unfold without. rewrite length_map.
  assert (Hle : ∀ l, (length (List.filter (λ kv : string * list string,
    negb (bool_decide (kv.1 ∈ ready))) l) <= length l)%nat) by (intros l; apply filter_length_le).
  induction R as [|[k v] R IH]; simpl; [by intros ?%elem_of_nil|].
  rewrite elem_of_cons. intros [[= -> ->]|Hin].
  - rewrite bool_decide_true by done. simpl. specialize (Hle R). lia.
  - specialize (IH Hin). case_match; simpl; lia.
Qed.

Lemma key_unique (R : list (string * list string)) x d1 d2 :
  NoDup (dict_keys R) → (x, d1) ∈ R → (x, d2) ∈ R → d1 = d2.
Proof.
  intros Hn H1 H2. apply (elem_dict_get _ _ _ Hn) in H1. apply (elem_dict_get _ _ _ Hn) in H2. congruence.
Qed.

Lemma stuck_without R S : NoDup (dict_keys R) →
  stuck R S ↔ stuck (without (ready_keys R) R) S.
Proof.
  intros Hn. unfold stuck. split; intros [HS H]; (split; [done|]).
  - assert (Hr : ∀ x, x ∈ S → x ∉ ready_keys R).
    { intros x Hx Hready%elem_ready. destruct (H x Hx) as (ds & d & Hin & Hd & _).
      rewrite (key_unique R x ds [] Hn Hin Hready) in Hd. by apply elem_of_nil in Hd. }
    intros x Hx. destruct (H x Hx) as (ds & d & Hin & Hd & HdS). do 2 eexists. split_and!; [|..].
    + apply elem_without. split; [by apply Hr|]. eauto.
    + apply elem_of_listfilter. split; [exact Hd|]. apply negb_true_iff, bool_decide_eq_false. by apply Hr.
    + done.
  - intros x Hx. destruct (H x Hx) as (ds & d & Hin & Hd & HdS).
    apply elem_without in Hin as (_ & ds0 & Hin & ->). apply elem_of_listfilter in Hd as [Hd _].
    eauto.
Qed.

Lemma without_closed R : closed R → closed (without (ready_keys R) R).
Proof.
  intros Hc x ds d Hin Hd. apply elem_without in Hin as (_ & ds0 & Hin & ->).
  apply elem_of_listfilter in Hd as [Hd Hr%negb_true_iff%bool_decide_eq_false].
  apply without_keys. split; [done|]. by eapply Hc.
Qed.

Lemma cycle_loop_spec fuel R : NoDup (dict_keys R) → closed R → (length R <= fuel)%nat →
  cycle_loop fuel R = true ↔ ∃ S, stuck R S.
Proof.
  revert R. induction fuel as [|fuel IH]; intros R Hn Hc Hf.
  - destruct R; [|simpl in Hf; lia]. simpl. split; [done|]. intros (S & HS & H).
    destruct S as [|x S]; [done|]. destruct (H x ltac:(left)) as (? & ? & ?%elem_of_nil & _). done.
  - destruct (decide (R = [])) as [->|HR].
    { split; [done|]. intros (S & HS & H).
      destruct S as [|x S]; [done|]. by destruct (H x ltac:(left)) as (? & ? & ?%elem_of_nil & _). }
    replace (cycle_loop (Datatypes.S fuel) R) with
      (if bool_decide (ready_keys R = []) then true
       else cycle_loop fuel (without (ready_keys R) R)) by (destruct R; [done|reflexivity]).
    case_bool_decide as Hr.
    + split; [|done]. intros _. exists (dict_keys R). split; [by destruct R|].
      intros x Hx. apply list_elem_of_fmap in Hx as ([k ds] & -> & Hin). simpl.
      destruct ds as [|d ds].
      { assert (Hin' : k ∈ ready_keys R) by by apply elem_ready. rewrite Hr in Hin'.
        by apply elem_of_nil in Hin'. }
      exists (d :: ds), d. split_and!; [done|by left|]. eapply Hc; [exact Hin|by left].
    + assert (Hs : (∃ S, stuck R S) ↔ ∃ S, stuck (without (ready_keys R) R) S).
      { split; intros [S HS]; exists S; by apply (stuck_without R S Hn). }
      rewrite Hs. apply IH.
      * by apply without_NoDup.
      * by apply without_closed.
      * destruct (ready_keys R) as [|x ready] eqn:Er; [done|].
        assert (Hx : (x, []) ∈ R) by (apply elem_ready; rewrite Er; by left).
        pose proof (without_length (x :: ready) R x [] ltac:(by left) Hx). lia.
Qed.
End Cycle.

(** The cycle check of a plan under review
    terminates and is exact: for nodes with distinct identifiers whose
    dependencies are all nodes, it reports a cycle exactly when some set of nodes
    exists each of which depends on another node of the set. *)
Theorem dependency_cycle_exact nodes :
  NoDup (map rn_node_id nodes) →
  (∀ n d, n ∈ nodes → d ∈ rn_depends_on n → d ∈ map rn_node_id nodes) →
  _has_dependency_cycle nodes = true ↔
    ∃ S, S ≠ [] ∧ ∀ x, x ∈ S → ∃ n d, n ∈ nodes ∧ rn_node_id n = x ∧ d ∈ rn_depends_on n ∧ d ∈ S.
Proof.
  intros Hn Hc. unfold _has_dependency_cycle, dict_of. rewrite dict_comprehension by done.
  set (R := map (λ n, (rn_node_id n, rn_depends_on n)) nodes).
  assert (Hk : dict_keys R = map rn_node_id nodes) by (unfold dict_keys, R; by rewrite <-list_fmap_compose).
  assert (Hin : ∀ x ds, (x, ds) ∈ R ↔ ∃ n, n ∈ nodes ∧ rn_node_id n = x ∧ rn_depends_on n = ds).
  { intros x ds. unfold R. rewrite list_elem_of_fmap. naive_solver. }
  rewrite cycle_loop_spec; [|by rewrite Hk| |done].
  - split; intros (S & HS & H); exists S; (split; [done|]); intros x Hx; specialize (H x Hx).
    + destruct H as (ds & d & (n & ? & ? & <-)%Hin & ? & ?). eauto 10.
    + destruct H as (n & d & ? & ? & ? & ?). exists (rn_depends_on n), d. rewrite Hin. naive_solver.
  - intros x ds d (n & Hnode & _ & <-)%Hin Hd. rewrite Hk. by eapply Hc.
Qed.

(** ** Evidence of an accepted context *)

Lemma review_acceptance_init_ok a0 a : review_acceptance_init a0 = Ok a →
  NoDup (map rn_node_id (ra_nodes a))
  ∧ ra_nodes a = sort_by rn_node_id (ra_nodes a0)
  ∧ (∀ n d, n ∈ ra_nodes a → d ∈ rn_depends_on n → d ∈ map rn_node_id (ra_nodes a))
  ∧ _has_dependency_cycle (ra_nodes a) = false
  ∧ 1 <= zlen (ra_nodes a) <= _MAX_NODES
  ∧ zlen (ra_constraints a) <= review_max_constraints.
Proof.
  unfold review_acceptance_init. intros H.
  apply bind_ok in H as (u1 & H1%contract_require_ok & H).
  apply bind_ok in H as (u2 & H2%contract_require_ok & H).
  apply bind_ok in H as (t & _ & H). apply bind_ok in H as (u3 & _ & [= <-]). simpl.
  rewrite !andb_true_iff in H1. rewrite !andb_true_iff in H2. destruct H2 as [[H2 H3] H4].
  rewrite forallb_elem in H3. apply bool_decide_eq_true in H2. apply negb_true_iff in H4.
  destruct H1 as (((((((_ & _) & _) & Hc) & _) & _) & _) & Hz). unfold z_between in Hz.
  rewrite sort_by_zlen. split_and!; try done; try lia.
  intros n d Hn Hd. specialize (H3 n Hn). rewrite subset_of_spec in H3. by apply H3.
Qed.

(** What the constructor of a context ensures. *)
Record review_context_ok (c : ReviewContext) : Prop := {
  rxo_schema : rx_schema_version c ∈ _SUPPORTED_REVIEW_CONTEXT_SCHEMAS;
  rxo_state : re_digest (rx_state_digest c) = true;
  rxo_artifacts : re_digest (rx_artifact_evidence_digest c) = true;
  rxo_count : 1 <= zlen (rx_evidence c) <= MAX_REVIEW_EVIDENCE_ITEMS;
  rxo_bytes : sum_bytes (map re_excerpt (rx_evidence c)) <= _MAX_EVIDENCE_BYTES;
  rxo_sorted : StronglySorted (leR (by_key re_evidence_id)) (rx_evidence c);
  rxo_ids : NoDup (map re_evidence_id (rx_evidence c));
  rxo_fits : ∀ e, e ∈ rx_evidence c →
    evidence_fits_node (dict_of rn_node_id id (ra_nodes (rx_acceptance c))) e = true
}.

Lemma sum_bytes_perm l k : l ≡ₚ k → sum_bytes l = sum_bytes k.
Proof. induction 1; simpl; lia. Qed.

Lemma review_context_init_ok c0 c : review_context_init c0 = Ok c →
  review_context_ok c ∧ rx_acceptance c = rx_acceptance c0.
Proof.
  unfold review_context_init. intros H.
  apply bind_ok in H as (u1 & H1%contract_require_ok & H).
  apply bind_ok in H as (u2 & H2%contract_require_ok & H).
  apply bind_ok in H as (u3 & H3%contract_require_ok & H).
  apply bind_ok in H as (p & _ & H). apply bind_ok in H as (t & _ & H).
  apply bind_ok in H as (u4 & _ & [= <-]). split; [|done].
  rewrite !andb_true_iff, bool_decide_eq_true in H1. destruct H1 as ((((Hs & Hd) & Ha) & Hz) & Hb).
  unfold z_between in Hz. rewrite forallb_elem in H3. apply bool_decide_eq_true in H2.
  constructor; simpl; try done.
  - rewrite sort_by_zlen. lia.
  - rewrite (sum_bytes_perm _ (map re_excerpt (rx_evidence c0))); [lia|].
    apply Permutation_map, sort_by_perm.
  - apply sort_by_sorted.
Qed.

Lemma review_context_evidence c0 c : review_context_init c0 = Ok c → rx_evidence c ≡ₚ rx_evidence c0.
Proof.
  unfold review_context_init. intros H. do 3 (apply bind_ok in H as (? & _ & H)).
  do 2 (apply bind_ok in H as (? & _ & H)). apply bind_ok in H as (? & _ & [= <-]). apply sort_by_perm.
Qed.

(** Every piece of evidence of an accepted review
    context belongs to a node of the plan under review: a path it cites lies
    within the paths that node was allowed to change, and a check it cites is one
    of the node's checks. *)
Theorem review_evidence_scoped a0 c0 c e :
  review_acceptance_init a0 = Ok (rx_acceptance c0) → review_context_init c0 = Ok c →
  e ∈ rx_evidence c →
  ∃ node, node ∈ ra_nodes (rx_acceptance c) ∧ rn_node_id node = re_node_id e
    ∧ (∀ p, re_path e = Some p → ∃ allowed, allowed ∈ rn_allowed_paths node ∧
         (allowed = "." ∨ (posix_parse allowed).1 = (posix_parse p).1
                          ∧ posix_parts allowed `prefix_of` posix_parts p))
    ∧ (∀ k, re_check_id e = Some k → ∃ check, check ∈ rn_checks node ∧ rc_check_id check = k).
Proof.
  intros Ha Hc He. apply review_acceptance_init_ok in Ha as (Hn & _).
  apply review_context_init_ok in Hc as [Hok Hacc]. rewrite <-Hacc in Hn.
  pose proof (rxo_fits _ Hok e He) as Hf. unfold evidence_fits_node in Hf.
  destruct (dict_get _ _) as [node|] eqn:Eg; [|done].
  apply dict_of_inv in Eg as (n & Hin & Hid & Hv); [|done]. unfold id in Hv. subst n.
  exists node. apply andb_true_iff in Hf as [Hp Hk]. split_and!; [done..| |].
  - intros p E. rewrite E in Hp. by apply path_allowed_spec.
  - intros k E. rewrite E in Hk. apply bool_decide_eq_true, list_elem_of_fmap in Hk as (ch & -> & ?). eauto.
Qed.

(** ** Admission *)

Definition grounded (evidence : list ReviewEvidence) (c : ReviewCitation) : Prop :=
  ∃ item, item ∈ evidence ∧ re_evidence_id item = ci_evidence_id c
    ∧ re_start_line item <= ci_start_line c ∧ ci_end_line c <= re_end_line item.

Lemma citation_fits_spec evidence c : NoDup (map re_evidence_id evidence) →
  citation_fits (evidence_by_id evidence) c = true ↔ grounded evidence c.
Proof.
  intros Hn. unfold citation_fits, evidence_by_id, grounded. split.
  - destruct (dict_get _ _) as [item|] eqn:E; [|done].
    apply dict_of_inv in E as (x & Hx & Hid & Hv); [|done]. unfold id in Hv. subst x.
    rewrite andb_true_iff, !Z.leb_le. intros [? ?]. eauto 10.
  - intros (item & Hin & Hid & H1 & H2). rewrite <-Hid, dict_of_get by done. unfold id. lia.
Qed.

Lemma citations_fit_spec citations evidence : NoDup (map re_evidence_id evidence) →
  _citations_fit_evidence citations (evidence_by_id evidence) = true ↔
  ∀ c, c ∈ citations → grounded evidence c.
Proof.
  intros Hn. unfold _citations_fit_evidence. rewrite forallb_elem. by setoid_rewrite citation_fits_spec.
Qed.

Lemma review_proposal_init_ok p0 p : review_proposal_init p0 = Ok p →
  claims_ok (_proposal_dimensions (rp_schema_version p)) (rp_findings p) (rp_summary p)
    (rp_assessments p0) = true ∧ re_digest (rp_context_digest p) = true
  ∧ rp_assessments p = sort_assessments (rp_assessments p0)
  ∧ rp_schema_version p = rp_schema_version p0
  ∧ ∃ text, canonical_json_bytes (review_proposal_payload p) = Ok text
      ∧ byte_len text <= MAX_REVIEW_PROPOSAL_BYTES.
Proof.
  unfold review_proposal_init. intros H.
  apply bind_ok in H as (u1 & H1%contract_require_ok & H).
  apply bind_ok in H as (t & Ht & H). apply bind_ok in H as (u2 & H2%contract_require_ok & [= <-]).
  apply andb_true_iff in H1 as [H1 H3]. simpl. split_and!; try done. exists t. split; [done|lia].
Qed.

Lemma same_set_spec {A} `{EqDecision A} (a b : list A) : same_set a b = true ↔ ∀ x, x ∈ a ↔ x ∈ b.
Proof.
  unfold same_set. rewrite andb_true_iff, !forallb_elem. setoid_rewrite bool_decide_eq_true.
  split; [intros [H1 H2] x; split; auto|]. intros H. split; intros x; apply H.
Qed.

Lemma same_set_perm {A} `{EqDecision A} (a a' b : list A) : a ≡ₚ a' → same_set a b = same_set a' b.
Proof.
  intros Hp. apply eq_true_iff_eq. rewrite !same_set_spec. by setoid_rewrite Hp.
Qed.

Lemma concat_perm {A} (l k : list (list A)) : l ≡ₚ k → concat l ≡ₚ concat k.
Proof.
  induction 1; simpl; [done|by f_equiv| |by etrans].
  rewrite !app_assoc. f_equiv. apply Permutation_app_comm.
Qed.

(** Reordering the assessments does not matter. *)
Lemma claims_ok_perm ds fs s l k : l ≡ₚ k → claims_ok ds fs s l = claims_ok ds fs s k.
Proof.
  intros Hp. unfold claims_ok, _valid_epistemic_assessments. destruct ds as [ds|]; [|done].
  assert (zlen l = zlen k) as -> by (unfold zlen; by rewrite Hp).
  by rewrite (same_set_perm (map ea_dimension l) (map ea_dimension k)),
    (same_set_perm (concat (map ea_finding_ids l)) (concat (map ea_finding_ids k)))
    by (try apply concat_perm; by apply Permutation_map).
Qed.

Lemma claims_ok_sort ds fs s l : claims_ok ds fs s (sort_assessments l) = claims_ok ds fs s l.
Proof. apply claims_ok_perm, sort_by_perm. Qed.

Lemma aligned_dimensions c p : _review_contracts_align c p = true →
  _admitted_dimensions (if bool_decide (p = _PRIOR_REVIEW_PROPOSAL_SCHEMA)
    then _PRIOR_ADMITTED_REVIEW_SCHEMA else ADMITTED_REVIEW_SCHEMA) = _proposal_dimensions p.
Proof.
  unfold _review_contracts_align. rewrite bool_decide_eq_true, !elem_of_cons, elem_of_nil.
  intros [[= -> ->]|[[= -> ->]|[]]]; reflexivity.
Qed.

Lemma admit_review_iff c p a d ad : NoDup (map re_evidence_id (rx_evidence c)) →
  review_context_digest c = Ok d → review_acceptance_digest (rx_acceptance c) = Ok ad →
  (∃ p0, review_proposal_init p0 = Ok p) →
  admit_review c p = Ok a ↔
    rp_context_digest p = d
    ∧ _review_contracts_align (rx_schema_version c) (rp_schema_version p) = true
    ∧ (∀ x, x ∈ citations_of (rp_findings p) (rp_assessments p) → grounded (rx_evidence c) x)
    ∧ a = MkAdmitted d ad (rp_findings p) (rp_summary p) (sort_assessments (rp_assessments p))
            (if bool_decide (rp_schema_version p = _PRIOR_REVIEW_PROPOSAL_SCHEMA)
             then _PRIOR_ADMITTED_REVIEW_SCHEMA else ADMITTED_REVIEW_SCHEMA).
Proof.
  intros Hn Hd Had [p0 Hp0]. pose proof (review_proposal_init_ok _ _ Hp0) as (Hcl & _ & Hs & _).
  assert (Hdig : re_digest d = true ∧ re_digest ad = true).
  { unfold review_context_digest in Hd. apply bind_ok in Hd as (pl & _ & Hd).
    split; by eapply json_digest_format. }
  unfold admit_review. rewrite Hd, Had. cbn [mbind result_bind].
  rewrite <-(citations_fit_spec _ _ Hn).
  destruct (decide (rp_context_digest p = d)) as [E|E].
  2: { rewrite (bool_decide_eq_false_2 _ E). simpl. naive_solver. }
  rewrite (bool_decide_eq_true_2 _ E). simpl.
  destruct (_review_contracts_align _ _) eqn:Eal; simpl; [|naive_solver].
  destruct (_citations_fit_evidence _ _) eqn:Efit; simpl; [|naive_solver].
  unfold admitted_review_init. simpl. rewrite (aligned_dimensions _ _ Eal), Hs, claims_ok_sort, Hcl.
  destruct Hdig as [-> ->]. simpl. split; [intros [= <-]; done|by intros (_ & _ & _ & ->)].
Qed.

(** C25 (admission_exact): a valid proposal is admitted into a valid context
    exactly when it is bound to the digest of this context, speaks the same
    contract version, and every citation of every finding and assessment falls
    within the lines of a piece of evidence of the context; the admitted review
    then carries the proposal's claims unchanged, bound to the digests of the
    context and of the acceptance contract. *)
Theorem admission_exact c0 c p0 p a d ad :
  review_context_init c0 = Ok c → review_proposal_init p0 = Ok p →
  review_context_digest c = Ok d → review_acceptance_digest (rx_acceptance c) = Ok ad →
  admit_review c p = Ok a ↔
    rp_context_digest p = d
    ∧ _review_contracts_align (rx_schema_version c) (rp_schema_version p) = true
    ∧ (∀ x, x ∈ citations_of (rp_findings p) (rp_assessments p) → grounded (rx_evidence c) x)
    ∧ a = MkAdmitted d ad (rp_findings p) (rp_summary p) (sort_assessments (rp_assessments p))
            (if bool_decide (rp_schema_version p = _PRIOR_REVIEW_PROPOSAL_SCHEMA)
             then _PRIOR_ADMITTED_REVIEW_SCHEMA else ADMITTED_REVIEW_SCHEMA).
Proof.
  intros Hc Hp Hd Had. apply review_context_init_ok in Hc as [Hok _].
  apply admit_review_iff; try done; [apply Hok|eauto].
Qed.

(** ** Reading claims back *)

Definition citation_valid (c : ReviewCitation) : Prop := review_citation_init c = Ok c.
Definition finding_valid (f : ProposedReviewFinding) : Prop :=
  review_finding_init f = Ok f ∧ Forall citation_valid (fi_citations f).
Definition assessment_valid (a : EpistemicAssessment) : Prop :=
  epistemic_assessment_init a = Ok a ∧ Forall citation_valid (ea_citations a).

Lemma read_category c : contract_enum invalid_review_proposal
  (members category_value review_finding_categories) (PStr (category_value c)) = Ok c.
Proof. by destruct c. Qed.
Lemma read_severity c : contract_enum invalid_review_proposal
  (members severity_value review_severities) (PStr (severity_value c)) = Ok c.
Proof. by destruct c. Qed.
Lemma read_dimension c : contract_enum invalid_review_proposal
  (members dimension_value epistemic_dimensions) (PStr (dimension_value c)) = Ok c.
Proof. by destruct c. Qed.
Lemma read_disposition c : contract_enum invalid_review_proposal
  (members disposition_value epistemic_dispositions) (PStr (disposition_value c)) = Ok c.
Proof. by destruct c. Qed.

Lemma citation_init_self c0 c : review_citation_init c0 = Ok c → citation_valid c.
Proof. unfold citation_valid, review_citation_init. intros H. by apply bind_ok in H as H'; destruct H' as (u & _ & [= <-]). Qed.

Lemma citation_read c : citation_valid c → _citation_from_mapping (citation_payload c) = Ok c.
Proof.
  intros H. unfold _citation_from_mapping, citation_payload, review_object.
  rewrite contract_object_obj by done. cbn [mbind result_bind]. pget_literal. destruct c. exact H.
Qed.

Lemma citations_read l : citations_ok l = true → Forall citation_valid l →
  citations_from (PSequence (map citation_payload l)) = Ok l.
Proof.
  intros Hl Hv. unfold citations_ok, z_between in Hl. rewrite !andb_true_iff in Hl.
  unfold citations_from, review_sequence. rewrite contract_sequence_ok by (rewrite zlen_map; lia).
  cbn [mbind result_bind]. apply map_result_payload. intros c Hc. apply citation_read.
  by apply (proj1 (Forall_forall _ _) Hv).
Qed.

Lemma citations_from_valid v l : citations_from v = Ok l → Forall citation_valid l.
Proof.
  unfold citations_from. intros H. apply bind_ok in H as (raw & _ & H).
  eapply map_result_Forall, H. intros x c Hx. unfold _citation_from_mapping in Hx.
  do 4 (apply bind_ok in Hx as (? & _ & Hx)). by eapply citation_init_self.
Qed.

Lemma finding_from_valid v f : _finding_from_mapping v = Ok f → finding_valid f.
Proof.
  unfold _finding_from_mapping. intros H. do 3 (apply bind_ok in H as (? & _ & H)).
  apply bind_ok in H as (cs & Hcs%citations_from_valid & H). do 4 (apply bind_ok in H as (? & _ & H)).
  unfold finding_valid, review_finding_init in *. apply bind_ok in H as H'.
  by destruct H' as (u & _ & [= <-]).
Qed.

Lemma finding_read f : finding_valid f → _finding_from_mapping (_finding_payload f) = Ok f.
Proof.
  intros [H Hc]. unfold _finding_from_mapping, _finding_payload, review_object.
  rewrite contract_object_obj by done. cbn [mbind result_bind]. pget_literal.
  rewrite read_category, read_severity. cbn [mbind result_bind].
  rewrite citations_read; [|..|done].
  - cbn [mbind result_bind]. destruct f. exact H.
  - unfold review_finding_init in H. apply bind_ok in H as (u & Hr%contract_require_ok & _).
    apply andb_true_iff in Hr. tauto.
Qed.

Lemma unique_identifiers_perm l k m : l ≡ₚ k → _unique_identifiers l m = _unique_identifiers k m.
Proof.
  intros Hp. unfold _unique_identifiers, distinct.
  assert (zlen l = zlen k) as -> by (unfold zlen; by rewrite Hp).
  assert (bool_decide (NoDup l) = bool_decide (NoDup k)) as ->.
  { apply bool_decide_ext. by rewrite Hp. }
  f_equal. apply eq_true_iff_eq. rewrite !forallb_elem. by setoid_rewrite Hp.
Qed.

Lemma nil_perm_decide {A} `{EqDecision A} (l k : list A) : l ≡ₚ k →
  bool_decide (l = []) = bool_decide (k = []).
Proof.
  intros Hp. apply bool_decide_ext. split; intros ->.
  - by apply Permutation_nil.
  - apply Permutation_nil. by symmetry.
Qed.

Lemma assessment_init_self a0 a : epistemic_assessment_init a0 = Ok a →
  epistemic_assessment_init a = Ok a ∧ ea_citations a = ea_citations a0.
Proof.
  unfold epistemic_assessment_init. intros H. apply bind_ok in H as (u & Hr & [= <-]). split; [|done].
  simpl. assert (Hp : sort_strings (ea_finding_ids a0) ≡ₚ ea_finding_ids a0) by apply isort_perm.
  rewrite (unique_identifiers_perm _ _ _ Hp), (nil_perm_decide _ _ Hp), Hr. cbn [mbind result_bind].
  unfold sort_strings. by rewrite isort_idemp by (apply string_leb_total || apply string_leb_trans).
Qed.

Lemma assessment_from_valid v a : _epistemic_assessment_from_mapping v = Ok a → assessment_valid a.
Proof.
  unfold _epistemic_assessment_from_mapping. intros H. do 5 (apply bind_ok in H as (? & _ & H)).
  apply bind_ok in H as (cs & Hcs%citations_from_valid & H). do 2 (apply bind_ok in H as (? & _ & H)).
  apply assessment_init_self in H as [H Hc]. split; [done|]. by rewrite Hc.
Qed.

Lemma assessment_read a : assessment_valid a →
  _epistemic_assessment_from_mapping (_epistemic_assessment_payload a) = Ok a.
Proof.
  intros [H Hc]. unfold epistemic_assessment_init in H.
  apply bind_ok in H as H'. destruct H' as (u & Hr%contract_require_ok & _).
  rewrite !andb_true_iff in Hr. destruct Hr as ((((_ & _) & Hci) & Hid) & _).
  unfold _epistemic_assessment_from_mapping, _epistemic_assessment_payload, review_object.
  rewrite contract_object_obj by done. cbn [mbind result_bind]. pget_literal.
  rewrite read_dimension, read_disposition. cbn [mbind result_bind review_text contract_string].
  rewrite citations_read by done. cbn [mbind result_bind].
  unfold _unique_identifiers in Hid. rewrite !andb_true_iff, forallb_elem in Hid.
  destruct Hid as ((Hz & _) & Hre). unfold review_sequence, pstrs.
  rewrite contract_sequence_ok by (rewrite zlen_map; pose proof (zlen_nonneg (ea_finding_ids a)); lia).
  cbn [mbind result_bind]. rewrite map_result_payload.
  - cbn [mbind result_bind]. destruct a. exact H.
  - intros x Hx. unfold _text_identifier. cbn [review_text contract_string mbind result_bind].
    by rewrite (Hre x Hx).
Qed.

(** ** Round trips *)

Lemma findings_read l : zlen l <= _MAX_FINDINGS → Forall finding_valid l →
  findings_from (PSequence (map _finding_payload l)) = Ok l.
Proof.
  intros Hl Hv. unfold findings_from, review_sequence. pose proof (zlen_nonneg l).
  rewrite contract_sequence_ok by (rewrite zlen_map; lia). cbn [mbind result_bind].
  apply map_result_payload. intros f Hf. apply finding_read. by apply (proj1 (Forall_forall _ _) Hv).
Qed.

Lemma assessments_read l : zlen l <= _MAX_EPISTEMIC_ASSESSMENTS → Forall assessment_valid l →
  assessments_from (PSequence (map _epistemic_assessment_payload l)) = Ok l.
Proof.
  intros Hl Hv. unfold assessments_from, review_sequence. pose proof (zlen_nonneg l).
  rewrite contract_sequence_ok by (rewrite zlen_map; lia). cbn [mbind result_bind].
  apply map_result_payload. intros a Ha. apply assessment_read. by apply (proj1 (Forall_forall _ _) Hv).
Qed.

Lemma findings_from_valid v l : findings_from v = Ok l → Forall finding_valid l.
Proof.
  unfold findings_from. intros H. apply bind_ok in H as (raw & _ & H).
  eapply map_result_Forall, H. apply finding_from_valid.
Qed.

Lemma assessments_from_valid v l : assessments_from v = Ok l → Forall assessment_valid l.
Proof.
  unfold assessments_from. intros H. apply bind_ok in H as (raw & _ & H).
  eapply map_result_Forall, H. apply assessment_from_valid.
Qed.

(** The sizes the readers ask for follow from the constructor's test. *)
Lemma claims_ok_sizes ds fs s l : claims_ok ds fs s l = true →
  (∀ d, ds = Some d → zlen d <= _MAX_EPISTEMIC_ASSESSMENTS) →
  zlen fs <= _MAX_FINDINGS ∧ zlen l <= _MAX_EPISTEMIC_ASSESSMENTS.
Proof.
  unfold claims_ok, _valid_epistemic_assessments. destruct ds as [d|]; [|done].
  rewrite !andb_true_iff. intros H Hd. specialize (Hd d eq_refl). lia.
Qed.

Lemma dimensions_size x : (∀ d, _proposal_dimensions x = Some d → zlen d <= _MAX_EPISTEMIC_ASSESSMENTS)
  ∧ (∀ d, _admitted_dimensions x = Some d → zlen d <= _MAX_EPISTEMIC_ASSESSMENTS).
Proof.
  unfold _proposal_dimensions, _admitted_dimensions. split; intros d; repeat case_bool_decide;
    intros [= <-]; by vm_compute.
Qed.

Lemma sort_assessments_idemp l : sort_assessments (sort_assessments l) = sort_assessments l.
Proof. apply sort_by_idemp. Qed.

Lemma sort_assessments_Forall P l : Forall P l → Forall P (sort_assessments l).
Proof. intros H. unfold sort_assessments. by rewrite sort_by_perm. Qed.

(** A proposal the constructor returned is a fixed point of it. *)
Lemma review_proposal_init_fix p0 p : review_proposal_init p0 = Ok p →
  review_proposal_init p = Ok p
  ∧ rp_findings p = rp_findings p0 ∧ rp_assessments p = sort_assessments (rp_assessments p0)
  ∧ zlen (rp_findings p) <= _MAX_FINDINGS ∧ zlen (rp_assessments p) <= _MAX_EPISTEMIC_ASSESSMENTS
  ∧ rp_schema_version p = rp_schema_version p0.
Proof.
  intros H. pose proof (review_proposal_init_ok _ _ H) as (Hc & Hre & Hs & Hv & text & Ht & Hb).
  assert (Hf : rp_findings p = rp_findings p0).
  { unfold review_proposal_init in H. do 3 (apply bind_ok in H as (? & _ & H)). by injection H as <-. }
  rewrite <-claims_ok_sort, <-Hs in Hc.
  pose proof (claims_ok_sizes _ _ _ _ Hc (proj1 (dimensions_size _))) as [Hz1 Hz2].
  split_and!; try done. assert (Hs' : sort_assessments (rp_assessments p) = rp_assessments p).
  { rewrite Hs. apply sort_assessments_idemp. }
  unfold review_proposal_init. rewrite Hc, Hre, Hs'. destruct p. cbn in Ht |- *. rewrite Ht.
  cbn [mbind result_bind]. unfold review_proposal_require. by rewrite (proj2 (Z.leb_le _ _) Hb).
Qed.

(** A reviewer's answer that was admitted as a
    proposal reads back, unchanged, from the payload it is recorded as. *)
Theorem review_proposal_roundtrip v p : review_proposal_from_mapping v = Ok p →
  review_proposal_from_mapping (review_proposal_payload p) = Ok p.
Proof.
  unfold review_proposal_from_mapping at 1. intros H. apply bind_ok in H as (raw & _ & H).
  apply bind_ok in H as (sv & _ & H). apply bind_ok in H as (u & Hsv & H).
  apply bind_ok in H as (fs & Hfs%findings_from_valid & H).
  apply bind_ok in H as (al & Hal%assessments_from_valid & H).
  do 2 (apply bind_ok in H as (? & _ & H)).
  apply review_proposal_init_fix in H as (Hfix & Ef & Ea & Hz1 & Hz2 & Ev). simpl in Ef, Ea, Ev.
  assert (Hfs' : Forall finding_valid (rp_findings p)) by by rewrite Ef.
  assert (Hal' : Forall assessment_valid (rp_assessments p))
    by (rewrite Ea; by apply sort_assessments_Forall).
  unfold review_proposal_from_mapping, review_proposal_payload at 1, review_object.
  rewrite contract_object_obj by done. cbn [mbind result_bind]. pget_literal.
  cbn [mbind result_bind review_text contract_string]. rewrite Ev, Hsv. cbn [mbind result_bind].
  rewrite findings_read, assessments_read by done. cbn [mbind result_bind].
  rewrite <-Ev. destruct p. exact Hfix.
Qed.

(** An admitted review reads back, unchanged,
    from its durable payload. *)
Theorem admitted_review_roundtrip v a : admitted_review_from_mapping v = Ok a →
  admitted_review_from_mapping (admitted_review_payload a) = Ok a.
Proof.
  unfold admitted_review_from_mapping at 1. intros H. apply bind_ok in H as (raw & _ & H).
  apply bind_ok in H as (u & _ & H). apply bind_ok in H as (sv & _ & H).
  apply bind_ok in H as (u' & Hsv & H).
  apply bind_ok in H as (fs & Hfs%findings_from_valid & H).
  apply bind_ok in H as (al & Hal%assessments_from_valid & H).
  do 3 (apply bind_ok in H as (? & _ & H)).
  unfold admitted_review_init in H. simpl in H.
  apply bind_ok in H as (u2 & Hcl & [= <-]). simpl.
  apply contract_require_ok in Hcl as Hcl'. rewrite !andb_true_iff in Hcl'.
  destruct Hcl' as ((Hc & _) & _). rewrite <-claims_ok_sort in Hc.
  pose proof (claims_ok_sizes _ _ _ _ Hc (proj2 (dimensions_size _))) as [Hz1 Hz2].
  unfold admitted_review_from_mapping, admitted_review_payload, review_mapping.
  rewrite contract_mapping_obj. cbn [mbind result_bind].
  match goal with |- context [admission_require ?c ≫= _] =>
    change (admission_require c) with (@Ok unit tt) end.
  cbn [mbind result_bind]. pget_literal. cbn [mbind result_bind contract_string].
  cbn [ad_findings ad_assessments ad_schema_version ad_context_digest ad_acceptance_digest ad_summary].
  unfold admission_require in *. rewrite Hsv. cbn [mbind result_bind].
  rewrite findings_read, assessments_read by (done || by apply sort_assessments_Forall).
  cbn [mbind result_bind]. unfold admitted_review_init.
  cbn [ad_findings ad_assessments ad_schema_version ad_context_digest ad_acceptance_digest ad_summary].
  unfold admission_require. rewrite claims_ok_sort, Hcl. cbn [mbind result_bind].
  by rewrite sort_assessments_idemp.
Qed.
