(* ===== verification/Verification.v ===== *)
(** * orchestration/verification.py: the intent-to-evidence matrix

    [verify_review] turns a review context and an admitted review into a report:
    one row per criterion (objective, constraints, nodes, write scopes, checks,
    epistemic policies, review policy), each with reason codes that determine its
    status.  The status enumeration is [VerificationLifecycle.Verdict]. *)

From S2P Require Import Prelude PyStr PyFloat Json JsonText JsonFacts PyTime Contracts Events Strict.
From S2P Require Import VerificationLifecycle OutputSchema Gateway Changes Review.
From Stdlib Require Import ZArith Lia Ascii String Sorting.Sorted Sorting.Permutation.
From stdpp Require Import base gmap sets list strings.
Local Open Scope Z_scope.

Definition VERIFICATION_REPORT_SCHEMA : string := "verification-report/v1".
Definition VERIFICATION_MATRIX_SCHEMA : string := "verification-matrix/v1".
Definition _MAX_MATRIX_ROWS : Z := 4290.
Definition _MAX_REPORT_BYTES : Z := 4 * 1024 * 1024.

Definition invalid_input : exn := VerificationError "invalid-verification-input".
Definition binding_mismatch : exn := VerificationError "verification-binding-mismatch".
Definition citation_mismatch : exn := VerificationError "verification-citation-mismatch".
Definition input_require (c : bool) : result unit := contract_require invalid_input c.

Module Criterion.
Inductive kind := OBJECTIVE | CONSTRAINT | NODE | WRITE_SCOPE | CHECK | REVIEW_POLICY | EPISTEMIC_POLICY.
End Criterion.
#[export] Instance criterion_eq_dec : EqDecision Criterion.kind.
Proof. solve_decision. Defined.
Definition criterion_value (k : Criterion.kind) : string :=
  match k with
  | Criterion.OBJECTIVE => "objective" | Criterion.CONSTRAINT => "constraint"
  | Criterion.NODE => "node" | Criterion.WRITE_SCOPE => "write-scope" | Criterion.CHECK => "check"
  | Criterion.REVIEW_POLICY => "review-policy" | Criterion.EPISTEMIC_POLICY => "epistemic-policy"
  end.
Definition criterion_kinds : list Criterion.kind :=
  [Criterion.OBJECTIVE; Criterion.CONSTRAINT; Criterion.NODE; Criterion.WRITE_SCOPE; Criterion.CHECK;
   Criterion.REVIEW_POLICY; Criterion.EPISTEMIC_POLICY].

Inductive reason :=
  | EVIDENCE_COMPLETE | REVIEW_CLEAR | UNRESOLVED_REVIEW_FINDING | NODE_OUTCOME_MISSING
  | EVIDENCE_AMBIGUOUS | CHECK_EVIDENCE_MISSING | EVIDENCE_IDENTITY_MISMATCH | CHECK_FAILED
  | CHANGE_EVIDENCE_MISSING | EPISTEMIC_COVERAGE_COMPLETE | EPISTEMIC_NOT_APPLICABLE
  | EPISTEMIC_CONCERN | EPISTEMIC_UNKNOWN.
#[export] Instance reason_eq_dec : EqDecision reason.
Proof. solve_decision. Defined.
Definition reason_value (r : reason) : string :=
  match r with
  | EVIDENCE_COMPLETE => "evidence-complete" | REVIEW_CLEAR => "review-clear"
  | UNRESOLVED_REVIEW_FINDING => "unresolved-review-finding"
  | NODE_OUTCOME_MISSING => "node-outcome-missing" | EVIDENCE_AMBIGUOUS => "evidence-ambiguous"
  | CHECK_EVIDENCE_MISSING => "check-evidence-missing"
  | EVIDENCE_IDENTITY_MISMATCH => "evidence-identity-mismatch" | CHECK_FAILED => "check-failed"
  | CHANGE_EVIDENCE_MISSING => "change-evidence-missing"
  | EPISTEMIC_COVERAGE_COMPLETE => "epistemic-coverage-complete"
  | EPISTEMIC_NOT_APPLICABLE => "epistemic-not-applicable"
  | EPISTEMIC_CONCERN => "epistemic-concern" | EPISTEMIC_UNKNOWN => "epistemic-unknown"
  end.
Definition reasons_all : list reason :=
  [EVIDENCE_COMPLETE; REVIEW_CLEAR; UNRESOLVED_REVIEW_FINDING; NODE_OUTCOME_MISSING;
   EVIDENCE_AMBIGUOUS; CHECK_EVIDENCE_MISSING; EVIDENCE_IDENTITY_MISMATCH; CHECK_FAILED;
   CHANGE_EVIDENCE_MISSING; EPISTEMIC_COVERAGE_COMPLETE; EPISTEMIC_NOT_APPLICABLE;
   EPISTEMIC_CONCERN; EPISTEMIC_UNKNOWN].

(** ** Status *)

Definition fails (r : reason) : bool :=
  match r with
  | UNRESOLVED_REVIEW_FINDING | EVIDENCE_IDENTITY_MISMATCH | CHECK_FAILED | EPISTEMIC_CONCERN => true
  | _ => false
  end.
Definition leaves_open (r : reason) : bool :=
  match r with
  | NODE_OUTCOME_MISSING | EVIDENCE_AMBIGUOUS | CHECK_EVIDENCE_MISSING | CHANGE_EVIDENCE_MISSING
  | EPISTEMIC_UNKNOWN => true
  | _ => false
  end.
Definition _status_for_reasons (reasons : list reason) : Verdict.t :=
  if existsb fails reasons then Verdict.FAIL
  else if existsb leaves_open reasons then Verdict.INCONCLUSIVE
  else Verdict.PASS.

(** ** Rows *)

Record VerificationMatrixRow := MkMatrixRow {
  mr_criterion_id : string;
  mr_kind : Criterion.kind;
  mr_claim_digest : string;
  mr_status : Verdict.t;
  mr_reason_codes : list reason;
  mr_evidence_ids : list string;
  mr_finding_ids : list string;
  mr_node_id : option string;
  mr_check_id : option string
}.
#[export] Instance matrix_row_eq_dec : EqDecision VerificationMatrixRow.
Proof. solve_decision. Defined.

Definition node_kind (k : Criterion.kind) : bool :=
  match k with Criterion.NODE | Criterion.WRITE_SCOPE | Criterion.CHECK => true | _ => false end.
Definition epistemic_reason (r : reason) : bool :=
  match r with
  | EPISTEMIC_COVERAGE_COMPLETE | EPISTEMIC_NOT_APPLICABLE | EPISTEMIC_CONCERN | EPISTEMIC_UNKNOWN => true
  | _ => false
  end.

(** [tuple(sorted(set(reason_codes), key=lambda item: item.value))] *)
Definition sorted_reasons (l : list reason) : list reason := sort_by reason_value (remove_dups l).

Definition has_reason (r : reason) (l : list reason) : bool := bool_decide (r ∈ l).
Definition opt_identifier (o : option string) : bool :=
  match o with Some s => re_identifier s | None => true end.

(** The rules that tie reasons, kind and findings of a row together. *)
Definition row_rules (kind : Criterion.kind) (reasons : list reason) (findings : list string) : bool :=
  let single := zlen reasons =? 1 in
  let selected := List.filter epistemic_reason reasons in
  let some_findings := negb (bool_decide (findings = [])) in
  eqb (has_reason UNRESOLVED_REVIEW_FINDING reasons || has_reason EPISTEMIC_CONCERN reasons) some_findings
  && negb (has_reason EVIDENCE_COMPLETE reasons && negb single)
  && negb (has_reason REVIEW_CLEAR reasons
           && (negb single || negb (bool_decide (kind = Criterion.REVIEW_POLICY)) || some_findings))
  && negb (bool_decide (kind = Criterion.REVIEW_POLICY)
           && negb (has_reason UNRESOLVED_REVIEW_FINDING reasons)
           && negb (has_reason REVIEW_CLEAR reasons))
  && negb (bool_decide (kind = Criterion.EPISTEMIC_POLICY)
           && (negb single || negb (zlen selected =? 1)))
  && negb (negb (bool_decide (kind = Criterion.EPISTEMIC_POLICY))
           && negb (bool_decide (selected = []))).

Definition matrix_row_init (r : VerificationMatrixRow) : result VerificationMatrixRow :=
  _ ← input_require (re_identifier (mr_criterion_id r) && re_digest (mr_claim_digest r)
        && negb (bool_decide (mr_reason_codes r = []))
        && forallb re_digest (mr_evidence_ids r) && forallb re_identifier (mr_finding_ids r)
        && opt_identifier (mr_node_id r) && opt_identifier (mr_check_id r));
  _ ← input_require (eqb (node_kind (mr_kind r)) (is_some (mr_node_id r))
        && eqb (bool_decide (mr_kind r = Criterion.CHECK)) (is_some (mr_check_id r)));
  let reasons := sorted_reasons (mr_reason_codes r) in
  let evidence := sorted_set (mr_evidence_ids r) in
  let findings := sorted_set (mr_finding_ids r) in
  _ ← input_require (row_rules (mr_kind r) reasons findings);
  _ ← input_require (bool_decide (mr_status r = _status_for_reasons reasons));
  Ok (MkMatrixRow (mr_criterion_id r) (mr_kind r) (mr_claim_digest r) (mr_status r) reasons evidence
        findings (mr_node_id r) (mr_check_id r)).

Definition _aggregate_status (matrix : list VerificationMatrixRow) : Verdict.t :=
  if existsb (λ r, bool_decide (mr_status r = Verdict.FAIL)) matrix then Verdict.FAIL
  else if existsb (λ r, bool_decide (mr_status r = Verdict.INCONCLUSIVE)) matrix then Verdict.INCONCLUSIVE
  else Verdict.PASS.

(** ** Reports *)

Record VerificationReport := MkReport {
  vr_run_id : string;
  vr_context_digest : string;
  vr_acceptance_digest : string;
  vr_state_digest : string;
  vr_artifact_evidence_digest : string;
  vr_admitted_review_digest : string;
  vr_status : Verdict.t;
  vr_matrix : list VerificationMatrixRow;
  vr_schema_version : string
}.
#[export] Instance report_eq_dec : EqDecision VerificationReport.
Proof. solve_decision. Defined.

Definition _matrix_row_payload (r : VerificationMatrixRow) : pyval :=
  obj [("criterion_id", PStr (mr_criterion_id r));
       ("kind", PStr (criterion_value (mr_kind r)));
       ("claim_digest", PStr (mr_claim_digest r));
       ("status", PStr (verdict_value (mr_status r)));
       ("reason_codes", pstrs (map reason_value (mr_reason_codes r)));
       ("evidence_ids", pstrs (mr_evidence_ids r));
       ("finding_ids", pstrs (mr_finding_ids r));
       ("node_id", popt (mr_node_id r));
       ("check_id", popt (mr_check_id r))].

Definition verification_report_payload (v : VerificationReport) : pyval :=
  obj [("schema_version", PStr (vr_schema_version v));
       ("run_id", PStr (vr_run_id v));
       ("context_digest", PStr (vr_context_digest v));
       ("acceptance_digest", PStr (vr_acceptance_digest v));
       ("state_digest", PStr (vr_state_digest v));
       ("artifact_evidence_digest", PStr (vr_artifact_evidence_digest v));
       ("admitted_review_digest", PStr (vr_admitted_review_digest v));
       ("status", PStr (verdict_value (vr_status v)));
       ("matrix", PSequence (map _matrix_row_payload (vr_matrix v)))].

Definition verification_matrix_payload (v : VerificationReport) : pyval :=
  obj [("schema_version", PStr VERIFICATION_MATRIX_SCHEMA);
       ("rows", PSequence (map _matrix_row_payload (vr_matrix v)))].

Definition verification_report_init (v : VerificationReport) : result VerificationReport :=
  _ ← input_require (bool_decide (vr_schema_version v = VERIFICATION_REPORT_SCHEMA)
        && re_identifier (vr_run_id v)
        && forallb re_digest [vr_context_digest v; vr_acceptance_digest v; vr_state_digest v;
             vr_artifact_evidence_digest v; vr_admitted_review_digest v]
        && z_between 1 (zlen (vr_matrix v)) _MAX_MATRIX_ROWS
        && distinct (map mr_criterion_id (vr_matrix v))
        && bool_decide (vr_status v = _aggregate_status (vr_matrix v)));
  text ← canonical_json_bytes (verification_report_payload v);
  _ ← input_require (byte_len text <=? _MAX_REPORT_BYTES);
  Ok v.

Definition verification_report_digest (v : VerificationReport) : result string :=
  json_digest (verification_report_payload v).
Definition matrix_digest (v : VerificationReport) : result string :=
  json_digest (verification_matrix_payload v).

(** ** Indexes *)

(** [_EvidenceIndex.select]. *)
Definition select (evidence : list ReviewEvidence) (kind : ReviewEvidenceKind) (node_id : string)
    (check_id : option string) : list ReviewEvidence :=
  List.filter (λ e, bool_decide (re_kind e = kind) && bool_decide (re_node_id e = node_id)
                    && bool_decide (re_check_id e = check_id)) evidence.

(** [any(f(x) for x in l)] and a comprehension with a condition that may raise. *)
Fixpoint any_result {A} (f : A → result bool) (l : list A) : result bool :=
  match l with
  | [] => Ok false
  | x :: l' => b ← f x; if b : bool then Ok true else any_result f l'
  end.
Fixpoint filter_result {A} (f : A → result bool) (l : list A) : result (list A) :=
  match l with
  | [] => Ok []
  | x :: l' => b ← f x; r ← filter_result f l'; Ok (if b : bool then x :: r else r)
  end.

Section FindingIndex.
Context (findings : list ProposedReviewFinding) (by_id : list (string * ReviewEvidence)).

Definition cites (p : ReviewEvidence → bool) (f : ProposedReviewFinding) : result bool :=
  any_result (λ c, e ← of_option KeyError (dict_get (ci_evidence_id c) by_id); Ok (p e)) (fi_citations f).

Definition for_node (node_id : string) : result (list ProposedReviewFinding) :=
  filter_result (cites (λ e, bool_decide (re_node_id e = node_id))) findings.

Definition for_check (node_id check_id : string) : result (list ProposedReviewFinding) :=
  filter_result (cites (λ e, bool_decide (re_node_id e = node_id)
    && bool_decide (re_check_id e = Some check_id))) findings.

Definition scope_for_node (node_id : string) : result (list ProposedReviewFinding) :=
  List.filter (λ f, bool_decide (fi_category f = SCOPE_DRIFT)) <$> for_node node_id.
End FindingIndex.

(** ** Building rows *)

(** [f"{n:03d}"] for a positive counter. *)
Definition pad3 (n : Z) : string :=
  let s := int_repr n in zeros (3 - String.length s) +:+ s.

Definition complete_if_empty (reasons : list reason) : list reason :=
  match reasons with [] => [EVIDENCE_COMPLETE] | _ => reasons end.
Definition when {A} (c : bool) (a : A) : list A := if c then [a] else [].

Definition _row (criterion_id : string) (kind : Criterion.kind) (claim : pyval) (reasons : list reason)
    (evidence : list ReviewEvidence) (findings : list ProposedReviewFinding)
    (node_id check_id : option string) : result VerificationMatrixRow :=
  digest ← json_digest claim;
  matrix_row_init (MkMatrixRow criterion_id kind digest (_status_for_reasons reasons) reasons
    (map re_evidence_id evidence) (map fi_finding_id findings) node_id check_id).

Definition check_evidence_kinds : list ReviewEvidenceKind :=
  [CHECK_COMMAND; CHECK_RESULT; CHECK_STDOUT; CHECK_STDERR].

(** [len(l) == 1 and l[0].artifact_digest != digest] *)
Definition single_mismatch (l : list ReviewEvidence) (digest : string) : bool :=
  match l with [e] => negb (bool_decide (re_artifact_digest e = digest)) | _ => false end.

Section Rows.
Context (evidence : list ReviewEvidence) (findings : list ProposedReviewFinding)
  (by_id : list (string * ReviewEvidence)).

Definition check_reasons (node : ReviewPlanNode) (check : ReviewCheck)
    (matched : list ProposedReviewFinding) : list reason :=
  let sel kind := select evidence kind (rn_node_id node) (Some (rc_check_id check)) in
  let counts := map (λ k, zlen (sel k)) check_evidence_kinds in
  when (existsb (λ n, n =? 0) counts) CHECK_EVIDENCE_MISSING
  ++ when (existsb (λ n, 1 <? n) counts) EVIDENCE_AMBIGUOUS
  ++ when (single_mismatch (sel CHECK_COMMAND) (rc_command_digest check)
           || single_mismatch (sel CHECK_RESULT) (rc_result_digest check)) EVIDENCE_IDENTITY_MISMATCH
  ++ when (negb (rc_passed check)) CHECK_FAILED
  ++ when (negb (bool_decide (matched = []))) UNRESOLVED_REVIEW_FINDING.

Definition _check_row (node_number check_number : Z) (node : ReviewPlanNode) (check : ReviewCheck)
    : result VerificationMatrixRow :=
  let selected := concat (map (λ k, select evidence k (rn_node_id node) (Some (rc_check_id check)))
                            check_evidence_kinds) in
  matched ← for_check findings by_id (rn_node_id node) (rc_check_id check);
  _row ("check-" +:+ pad3 node_number +:+ "-" +:+ pad3 check_number) Criterion.CHECK
    (obj [("kind", PStr "check");
          ("node_id", PStr (rn_node_id node));
          ("check_id", PStr (rc_check_id check));
          ("argv", pstrs (rc_argv check));
          ("expected_exit_code", PInt (rc_expected_exit_code check));
          ("command_digest", PStr (rc_command_digest check));
          ("result_digest", PStr (rc_result_digest check))])
    (complete_if_empty (check_reasons node check matched)) selected matched
    (Some (rn_node_id node)) (Some (rc_check_id check)).

Definition change_kinds : list ReviewEvidenceKind := [SOURCE_BEFORE; SOURCE_AFTER; EFFECT].

Definition required_kinds (o : TextOperation) : list ReviewEvidenceKind :=
  match o with
  | CREATE => [SOURCE_AFTER; EFFECT]
  | REPLACE => change_kinds
  | DELETE => [SOURCE_BEFORE; EFFECT]
  end.

(** The reasons one changed path adds. *)
Definition path_reasons (selected : list ReviewEvidence) (path : string) : list reason :=
  let path_evidence := List.filter (λ e, bool_decide (re_path e = Some path)) selected in
  let operations := remove_dups (map re_operation path_evidence) in
  match operations with
  | [Some operation] =>
      let counts := map (λ k, zlen (List.filter (λ e, bool_decide (re_kind e = k)) path_evidence))
                      (required_kinds operation) in
      when (existsb (λ n, n =? 0) counts) CHANGE_EVIDENCE_MISSING
      ++ when (existsb (λ n, 1 <? n) counts) EVIDENCE_AMBIGUOUS
  | _ => [EVIDENCE_AMBIGUOUS]
  end.

Definition scope_selected (node : ReviewPlanNode) : list ReviewEvidence :=
  concat (map (λ k, select evidence k (rn_node_id node) None) change_kinds).
Definition changed_paths (selected : list ReviewEvidence) : list string :=
  sorted_set (omap re_path selected).

Definition scope_reasons (node : ReviewPlanNode) (matched : list ProposedReviewFinding) : list reason :=
  let selected := scope_selected node in
  let paths := changed_paths selected in
  when (bool_decide (paths = [])) CHANGE_EVIDENCE_MISSING
  ++ concat (map (path_reasons selected) paths)
  ++ when (negb (bool_decide (matched = []))) UNRESOLVED_REVIEW_FINDING.

Definition _scope_row (node_number : Z) (node : ReviewPlanNode) : result VerificationMatrixRow :=
  matched ← scope_for_node findings by_id (rn_node_id node);
  _row ("scope-" +:+ pad3 node_number) Criterion.WRITE_SCOPE
    (obj [("kind", PStr "write-scope");
          ("node_id", PStr (rn_node_id node));
          ("effects", pstrs (rn_effects node));
          ("allowed_paths", pstrs (rn_allowed_paths node));
          ("max_changed_files", PInt (rn_max_changed_files node))])
    (complete_if_empty (scope_reasons node matched)) (scope_selected node) matched
    (Some (rn_node_id node)) None.

(** The reasons of rows, other than completeness. *)
Definition carried_reasons (rows : list VerificationMatrixRow) : list reason :=
  List.filter (λ r, negb (bool_decide (r = EVIDENCE_COMPLETE))) (concat (map mr_reason_codes rows)).

Definition node_reasons (node : ReviewPlanNode) (child_rows : list VerificationMatrixRow)
    (matched : list ProposedReviewFinding) : list reason :=
  let outcomes := select evidence OUTCOME (rn_node_id node) None in
  when (zlen outcomes =? 0) NODE_OUTCOME_MISSING
  ++ when (1 <? zlen outcomes) EVIDENCE_AMBIGUOUS
  ++ carried_reasons child_rows
  ++ when (negb (bool_decide (matched = []))) UNRESOLVED_REVIEW_FINDING.

Definition _node_row (node_number : Z) (node : ReviewPlanNode) (scope_row : option VerificationMatrixRow)
    (check_rows : list VerificationMatrixRow) : result VerificationMatrixRow :=
  matched ← for_node findings by_id (rn_node_id node);
  let child_rows := option_list scope_row ++ check_rows in
  let child_evidence := concat (map (λ row,
    List.filter (λ e, bool_decide (re_evidence_id e ∈ mr_evidence_ids row)) evidence) child_rows) in
  _row ("node-" +:+ pad3 node_number) Criterion.NODE
    (obj [("kind", PStr "node");
          ("node_id", PStr (rn_node_id node));
          ("objective", PStr (rn_objective node));
          ("depends_on", pstrs (rn_depends_on node))])
    (complete_if_empty (node_reasons node child_rows matched))
    (select evidence OUTCOME (rn_node_id node) None ++ child_evidence) matched
    (Some (rn_node_id node)) None.

(** One iteration of the loop over the nodes: the node's row, its scope row
    when the node writes, and its check rows. *)
Fixpoint check_rows_from (node_number check_number : Z) (node : ReviewPlanNode)
    (checks : list ReviewCheck) : result (list VerificationMatrixRow) :=
  match checks with
  | [] => Ok []
  | check :: checks' =>
      row ← _check_row node_number check_number node check;
      rows ← check_rows_from node_number (check_number + 1) node checks';
      Ok (row :: rows)
  end.

Definition node_rows_of (node_number : Z) (node : ReviewPlanNode)
    : result (VerificationMatrixRow * list VerificationMatrixRow) :=
  scope_row ← (if writes node then Some <$> _scope_row node_number node else Ok None);
  check_rows ← check_rows_from node_number 1 node (rn_checks node);
  node_row ← _node_row node_number node scope_row check_rows;
  Ok (node_row, option_list scope_row ++ check_rows).

Fixpoint all_node_rows (node_number : Z) (nodes : list ReviewPlanNode)
    : result (list (VerificationMatrixRow * list VerificationMatrixRow)) :=
  match nodes with
  | [] => Ok []
  | node :: nodes' =>
      rows ← node_rows_of node_number node;
      rest ← all_node_rows (node_number + 1) nodes';
      Ok (rows :: rest)
  end.
End Rows.

Definition _intent_row (criterion_id : string) (kind : Criterion.kind) (claim : pyval)
    (node_rows : list VerificationMatrixRow) (findings : list ProposedReviewFinding)
    : result VerificationMatrixRow :=
  let reasons := complete_if_empty (carried_reasons node_rows
                   ++ when (negb (bool_decide (findings = []))) UNRESOLVED_REVIEW_FINDING) in
  digest ← json_digest claim;
  matrix_row_init (MkMatrixRow criterion_id kind digest (_status_for_reasons reasons) reasons
    (concat (map mr_evidence_ids node_rows)) (map fi_finding_id findings) None None).

Definition _review_row (admitted : AdmittedReview) : result VerificationMatrixRow :=
  let reasons := [if bool_decide (ad_findings admitted = []) then REVIEW_CLEAR
                  else UNRESOLVED_REVIEW_FINDING] in
  admitted_digest ← admitted_review_digest admitted;
  digest ← json_digest (obj [("kind", PStr "review-policy");
                             ("admitted_review_digest", PStr admitted_digest);
                             ("policy", PStr "unresolved-findings-block")]);
  matrix_row_init (MkMatrixRow "review" Criterion.REVIEW_POLICY digest (_status_for_reasons reasons) reasons
    (map ci_evidence_id (concat (map fi_citations (ad_findings admitted))))
    (map fi_finding_id (ad_findings admitted)) None None).

Definition disposition_reason (d : EpistemicDisposition) : reason :=
  match d with
  | SUPPORTED => EPISTEMIC_COVERAGE_COMPLETE
  | NOT_APPLICABLE => EPISTEMIC_NOT_APPLICABLE
  | CONCERN => EPISTEMIC_CONCERN
  | UNKNOWN => EPISTEMIC_UNKNOWN
  end.

Definition _epistemic_row (a : EpistemicAssessment) : result VerificationMatrixRow :=
  let reasons := [disposition_reason (ea_disposition a)] in
  digest ← json_digest (obj
    [("kind", PStr "epistemic-policy");
     ("dimension", PStr (dimension_value (ea_dimension a)));
     ("disposition", PStr (disposition_value (ea_disposition a)));
     ("claim", PStr (ea_claim a));
     ("falsification_question", PStr (ea_falsification_question a));
     ("citations", PSequence (map citation_payload (ea_citations a)));
     ("finding_ids", pstrs (ea_finding_ids a))]);
  matrix_row_init (MkMatrixRow ("epistemic-" +:+ dimension_value (ea_dimension a))
    Criterion.EPISTEMIC_POLICY digest (_status_for_reasons reasons) reasons
    (map ci_evidence_id (ea_citations a)) (ea_finding_ids a) None None).

Definition _validate_citations (findings : list ProposedReviewFinding)
    (assessments : list EpistemicAssessment) (by_id : list (string * ReviewEvidence)) : result unit :=
  contract_require citation_mismatch (forallb (citation_fits by_id) (citations_of findings assessments)).

Definition objective_claim (acceptance_digest : string) (a : ReviewAcceptance) : pyval :=
  obj [("kind", PStr "objective");
       ("acceptance_digest", PStr acceptance_digest);
       ("objective", PStr (ra_objective a))].
Definition constraint_claim (acceptance_digest : string) (index : Z) (constraint : string) : pyval :=
  obj [("kind", PStr "constraint");
       ("acceptance_digest", PStr acceptance_digest);
       ("index", PInt index);
       ("constraint", PStr constraint)].

Fixpoint constraint_rows (acceptance_digest : string) (index : Z) (constraints : list string)
    (node_rows : list VerificationMatrixRow) (findings : list ProposedReviewFinding)
    : result (list VerificationMatrixRow) :=
  match constraints with
  | [] => Ok []
  | c :: constraints' =>
      row ← _intent_row ("constraint-" +:+ pad3 index) Criterion.CONSTRAINT
              (constraint_claim acceptance_digest index c) node_rows findings;
      rows ← constraint_rows acceptance_digest (index + 1) constraints' node_rows findings;
      Ok (row :: rows)
  end.

Definition verify_review (context : ReviewContext) (admitted : AdmittedReview) : result VerificationReport :=
  let acceptance := rx_acceptance context in
  context_digest ← review_context_digest context;
  acceptance_digest ← review_acceptance_digest acceptance;
  _ ← contract_require binding_mismatch (bool_decide (ad_context_digest admitted = context_digest)
        && bool_decide (ad_acceptance_digest admitted = acceptance_digest));
  let by_id := evidence_by_id (rx_evidence context) in
  _ ← _validate_citations (ad_findings admitted) (ad_assessments admitted) by_id;
  rows ← all_node_rows (rx_evidence context) (ad_findings admitted) by_id 1 (ra_nodes acceptance);
  let node_rows := map fst rows in
  let supporting_rows := concat (map snd rows) in
  objective ← _intent_row "objective" Criterion.OBJECTIVE (objective_claim acceptance_digest acceptance)
                node_rows (ad_findings admitted);
  constraints ← constraint_rows acceptance_digest 1 (ra_constraints acceptance) node_rows
                  (ad_findings admitted);
  epistemic_rows ← map_result _epistemic_row (ad_assessments admitted);
  review_row ← _review_row admitted;
  let matrix := [objective] ++ constraints ++ node_rows ++ supporting_rows ++ epistemic_rows
                ++ [review_row] in
  admitted_digest ← admitted_review_digest admitted;
  verification_report_init (MkReport (ra_run_id acceptance) context_digest acceptance_digest
    (rx_state_digest context) (rx_artifact_evidence_digest context) admitted_digest
    (_aggregate_status matrix) matrix VERIFICATION_REPORT_SCHEMA).

(** ** Readers *)

Definition verification_text (value : pyval) : result string :=
  s ← contract_string invalid_input value;
  _ ← input_require (negb (is_empty s) && negb (contains nul s));
  Ok s.
Definition _optional_text (value : pyval) : result (option string) :=
  match value with PNone => Ok None | _ => Some <$> verification_text value end.
Definition verification_texts (maximum : Z) (value : pyval) : result (list string) :=
  l ← contract_sequence invalid_input 0 maximum value; map_result verification_text l.
Definition verdicts : list Verdict.t := [Verdict.PASS; Verdict.FAIL; Verdict.INCONCLUSIVE].

Definition matrix_row_keys : list string :=
  ["criterion_id"; "kind"; "claim_digest"; "status"; "reason_codes"; "evidence_ids"; "finding_ids";
   "node_id"; "check_id"].

Definition _matrix_row_from_mapping (value : pyval) : result VerificationMatrixRow :=
  raw ← contract_object invalid_input matrix_row_keys value;
  kind ← contract_enum invalid_input (members criterion_value criterion_kinds) (pget "kind" raw);
  status ← contract_enum invalid_input (members verdict_value verdicts) (pget "status" raw);
  raw_reasons ← contract_sequence invalid_input 1 (zlen reasons_all) (pget "reason_codes" raw);
  reasons ← map_result (contract_enum invalid_input (members reason_value reasons_all)) raw_reasons;
  criterion_id ← verification_text (pget "criterion_id" raw);
  claim_digest ← verification_text (pget "claim_digest" raw);
  evidence_ids ← verification_texts 128 (pget "evidence_ids" raw);
  finding_ids ← verification_texts 64 (pget "finding_ids" raw);
  node_id ← _optional_text (pget "node_id" raw);
  check_id ← _optional_text (pget "check_id" raw);
  matrix_row_init (MkMatrixRow criterion_id kind claim_digest status reasons evidence_ids finding_ids
    node_id check_id).

Definition report_keys : list string :=
  ["schema_version"; "run_id"; "context_digest"; "acceptance_digest"; "state_digest";
   "artifact_evidence_digest"; "admitted_review_digest"; "status"; "matrix"].

Definition verification_report_from_mapping (value : pyval) : result VerificationReport :=
  raw ← contract_object invalid_input report_keys value;
  _ ← input_require (equals_text (pget "schema_version" raw) VERIFICATION_REPORT_SCHEMA);
  status ← contract_enum invalid_input (members verdict_value verdicts) (pget "status" raw);
  raw_matrix ← contract_sequence invalid_input 1 _MAX_MATRIX_ROWS (pget "matrix" raw);
  matrix ← map_result _matrix_row_from_mapping raw_matrix;
  run_id ← verification_text (pget "run_id" raw);
  context_digest ← verification_text (pget "context_digest" raw);
  acceptance_digest ← verification_text (pget "acceptance_digest" raw);
  state_digest ← verification_text (pget "state_digest" raw);
  artifact_evidence_digest ← verification_text (pget "artifact_evidence_digest" raw);
  admitted_review_digest ← verification_text (pget "admitted_review_digest" raw);
  verification_report_init (MkReport run_id context_digest acceptance_digest state_digest
    artifact_evidence_digest admitted_review_digest status matrix VERIFICATION_REPORT_SCHEMA).
