(* ===== verification/VerificationFacts.v ===== *)
(** * Facts about the verification matrix: what a passing report means *)

From S2P Require Import Prelude PyStr PyFloat Json JsonText JsonFacts PyTime Contracts Events Strict.
From S2P Require Import VerificationLifecycle OutputSchema Gateway Changes Review ReviewFacts Verification.
From Stdlib Require Import ZArith Lia Ascii String Sorting.Sorted Sorting.Permutation.
From stdpp Require Import base gmap sets list strings.
Local Open Scope Z_scope.

(** ** Statuses *)

Definition passing (l : list reason) : Prop := ∀ r, r ∈ l → fails r = false ∧ leaves_open r = false.

Lemma status_pass l : _status_for_reasons l = Verdict.PASS ↔ passing l.
Proof.
  unfold _status_for_reasons, passing. split.
  - destruct (existsb fails l) eqn:E1; [done|]. destruct (existsb leaves_open l) eqn:E2; [done|].
    rewrite existsb_false in E1, E2. auto.
  - intros H. assert (existsb fails l = false) as ->.
    { apply existsb_false. intros r Hr. by apply H. }
    assert (existsb leaves_open l = false) as ->; [|done].
    apply existsb_false. intros r Hr. by apply H.
Qed.

Lemma existsb_mem {A} (f : A → bool) l k : (∀ x, x ∈ l ↔ x ∈ k) → existsb f l = existsb f k.
Proof. intros H. apply eq_true_iff_eq. rewrite !existsb_elem. by setoid_rewrite H. Qed.

Lemma elem_sorted_reasons r l : r ∈ sorted_reasons l ↔ r ∈ l.
Proof. unfold sorted_reasons. rewrite elem_of_sort_by. apply elem_of_remove_dups. Qed.

Lemma status_sorted l : _status_for_reasons (sorted_reasons l) = _status_for_reasons l.
Proof.
  assert (E : ∀ f, existsb f (sorted_reasons l) = existsb f l).
  { intros f. apply existsb_mem. intros r. apply elem_sorted_reasons. }
  unfold _status_for_reasons. by rewrite !E.
Qed.

Lemma elem_sorted_set x l : x ∈ sorted_set l ↔ x ∈ l.
Proof. unfold sorted_set. rewrite elem_of_sort_strings. apply elem_of_remove_dups. Qed.

Lemma aggregate_pass matrix : _aggregate_status matrix = Verdict.PASS ↔
  ∀ r, r ∈ matrix → mr_status r = Verdict.PASS.
Proof.
  unfold _aggregate_status. split.
  - destruct (existsb _ matrix) eqn:E1; [done|]. destruct (existsb _ matrix) eqn:E2 in |- *; [done|].
    rewrite existsb_false in E1, E2. intros _ r Hr.
    specialize (E1 r Hr). specialize (E2 r Hr). apply bool_decide_eq_false in E1, E2.
    by destruct (mr_status r).
  - intros H. assert (E : ∀ s, s ≠ Verdict.PASS → existsb (λ r, bool_decide (mr_status r = s)) matrix = false).
    { intros s Hs. apply existsb_false. intros r Hr. apply bool_decide_eq_false. rewrite H by done. done. }
    by rewrite !E.
Qed.

(** What the constructor of a row keeps. *)
Record row_made (criterion_id : string) (kind : Criterion.kind) (reasons : list reason)
    (evidence_ids finding_ids : list string) (node_id check_id : option string)
    (row : VerificationMatrixRow) : Prop := {
  rm_id : mr_criterion_id row = criterion_id;
  rm_kind : mr_kind row = kind;
  rm_status : mr_status row = _status_for_reasons reasons;
  rm_reasons : mr_reason_codes row = sorted_reasons reasons;
  rm_evidence : mr_evidence_ids row = sorted_set evidence_ids;
  rm_findings : mr_finding_ids row = sorted_set finding_ids;
  rm_node : mr_node_id row = node_id;
  rm_check : mr_check_id row = check_id
}.

Lemma matrix_row_init_ok r row : matrix_row_init r = Ok row →
  row_made (mr_criterion_id r) (mr_kind r) (mr_reason_codes r) (mr_evidence_ids r) (mr_finding_ids r)
    (mr_node_id r) (mr_check_id r) row.
Proof.
  unfold matrix_row_init. intros H. do 3 (apply bind_ok in H as (? & _ & H)).
  apply bind_ok in H as (u & Hs%contract_require_ok & [= <-]). apply bool_decide_eq_true in Hs.
  constructor; simpl; try done. by rewrite Hs, status_sorted.
Qed.

Lemma row_ok id kind claim reasons evidence findings node check row :
  _row id kind claim reasons evidence findings node check = Ok row →
  row_made id kind reasons (map re_evidence_id evidence) (map fi_finding_id findings) node check row.
Proof. unfold _row. intros H. apply bind_ok in H as (d & _ & H). by apply matrix_row_init_ok in H. Qed.

Lemma row_pass id kind reasons es fs n c row : row_made id kind reasons es fs n c row →
  mr_status row = Verdict.PASS ↔ passing reasons.
Proof. intros H. rewrite (rm_status _ _ _ _ _ _ _ _ H). apply status_pass. Qed.

(** ** Reason lists *)

Lemma passing_app l k : passing (l ++ k) ↔ passing l ∧ passing k.
Proof. unfold passing. setoid_rewrite elem_of_app. naive_solver. Qed.

Lemma passing_nil : passing [].
Proof. intros r H. by apply elem_of_nil in H. Qed.

Lemma passing_concat ls : passing (concat ls) ↔ ∀ l, l ∈ ls → passing l.
Proof.
  induction ls as [|l ls IH]; simpl.
  - split; [by intros _ l ?%elem_of_nil|intros _; apply passing_nil].
  - rewrite passing_app, IH. setoid_rewrite elem_of_cons. naive_solver.
Qed.

Lemma passing_when b r : fails r || leaves_open r = true → passing (when b r) ↔ b = false.
Proof.
  intros Hr. destruct b; simpl; [|split; [done|intros _; apply passing_nil]].
  split; [|done]. intros H. destruct (H r ltac:(by left)) as [H1 H2]. by rewrite H1, H2 in Hr.
Qed.

Lemma passing_complete l : passing (complete_if_empty l) ↔ passing l.
Proof.
  destruct l; simpl; [|done]. split; [intros _; apply passing_nil|].
  intros _ r ->%list_elem_of_singleton. done.
Qed.

Lemma passing_carried rows :
  (∀ row, row ∈ rows → ∃ id kind reasons es fs n c, row_made id kind reasons es fs n c row) →
  passing (carried_reasons rows) ↔ ∀ row, row ∈ rows → mr_status row = Verdict.PASS.
Proof.
  intros Hm. unfold carried_reasons. split.
  - intros H row Hrow. destruct (Hm row Hrow) as (id & kind & rs & es & fs & n & c & Hr).
    rewrite (row_pass _ _ _ _ _ _ _ _ Hr). intros r Hin.
    destruct (decide (r = EVIDENCE_COMPLETE)) as [->|Hne]; [done|]. apply H, elem_of_listfilter. split.
    + rewrite elem_of_concat. exists (mr_reason_codes row). split.
      * by rewrite (rm_reasons _ _ _ _ _ _ _ _ Hr), elem_sorted_reasons.
      * apply list_elem_of_fmap. eauto.
    + by apply negb_true_iff, bool_decide_eq_false.
  - intros H r [Hin _]%elem_of_listfilter. apply elem_of_concat in Hin as (l & Hl & Hin).
    apply list_elem_of_fmap in Hin as (row & -> & Hrow).
    destruct (Hm row Hrow) as (id & kind & rs & es & fs & n & c & Hr).
    specialize (H row Hrow). rewrite (row_pass _ _ _ _ _ _ _ _ Hr) in H. apply H.
    by rewrite (rm_reasons _ _ _ _ _ _ _ _ Hr), elem_sorted_reasons in Hl.
Qed.

(** ** What the evidence has to show *)

Definition only {A} (l : list A) (P : A → Prop) : Prop := ∃ x, l = [x] ∧ P x.

(** A check passed, and there is exactly one command, result, standard output
    and standard error, the first two with the digests the check records. *)
Definition check_proved (evidence : list ReviewEvidence) (node : ReviewPlanNode) (check : ReviewCheck) : Prop :=
  rc_passed check = true ∧
  ∀ k, k ∈ check_evidence_kinds →
    only (select evidence k (rn_node_id node) (Some (rc_check_id check))) (λ e,
      (k = CHECK_COMMAND → re_artifact_digest e = rc_command_digest check)
      ∧ (k = CHECK_RESULT → re_artifact_digest e = rc_result_digest check)).

(** A changed path has one operation and exactly one piece of evidence of each
    kind the operation requires. *)
Definition path_proved (selected : list ReviewEvidence) (path : string) : Prop :=
  ∃ operation,
    (∀ e, e ∈ selected → re_path e = Some path → re_operation e = Some operation) ∧
    ∀ k, k ∈ required_kinds operation →
      only (List.filter (λ e, bool_decide (re_kind e = k))
              (List.filter (λ e, bool_decide (re_path e = Some path)) selected)) (λ _, True).

Definition scope_proved (evidence : list ReviewEvidence) (node : ReviewPlanNode) : Prop :=
  let selected := scope_selected evidence node in
  (∃ e p, e ∈ selected ∧ re_path e = Some p) ∧
  ∀ e p, e ∈ selected → re_path e = Some p → path_proved selected p.

Definition node_proved (evidence : list ReviewEvidence) (node : ReviewPlanNode) : Prop :=
  only (select evidence OUTCOME (rn_node_id node) None) (λ _, True)
  ∧ (writes node = true → scope_proved evidence node)
  ∧ ∀ check, check ∈ rn_checks node → check_proved evidence node check.

Lemma one_count {A} (l : list A) : (zlen l =? 0) = false ∧ (1 <? zlen l) = false ↔ ∃ x, l = [x].
Proof.
  split.
  - intros [H1 H2]. destruct l as [|x [|y l]]; [done|eauto|].
    unfold zlen in H2. cbn [length] in H2. apply Z.ltb_ge in H2. lia.
  - by intros [x ->].
Qed.

Lemma counts_pass {A B} (f : A → list B) ks a b :
  fails a || leaves_open a = true → fails b || leaves_open b = true →
  passing (when (existsb (λ n, n =? 0) (map (λ k, zlen (f k)) ks)) a
           ++ when (existsb (λ n, 1 <? n) (map (λ k, zlen (f k)) ks)) b)
  ↔ ∀ k, k ∈ ks → ∃ x, f k = [x].
Proof.
  intros Ha Hb. rewrite passing_app, !passing_when, !existsb_false by done. split.
  - intros [H1 H2] k Hk. apply one_count. split; [apply H1|apply H2]; apply list_elem_of_fmap; eauto.
  - intros H. split; intros n (k & -> & Hk)%list_elem_of_fmap;
      destruct (proj2 (one_count (f k)) (H k Hk)); done.
Qed.

Lemma nonempty_when (fs : list ProposedReviewFinding) :
  passing (when (negb (bool_decide (fs = []))) UNRESOLVED_REVIEW_FINDING) ↔ fs = [].
Proof. rewrite passing_when by done. rewrite negb_false_iff. apply bool_decide_eq_true. Qed.

Lemma mismatch_spec l d : (∃ x, l = [x]) →
  single_mismatch l d = false ↔ only l (λ e, re_artifact_digest e = d).
Proof.
  intros [x ->]. simpl. rewrite negb_false_iff, bool_decide_eq_true. unfold only. naive_solver.
Qed.

Lemma check_reasons_pass evidence node check matched :
  passing (check_reasons evidence node check matched) ↔ check_proved evidence node check ∧ matched = [].
Proof.
  unfold check_reasons. rewrite app_assoc, passing_app.
  rewrite (counts_pass (λ k, select evidence k (rn_node_id node) (Some (rc_check_id check)))) by done.
  rewrite !passing_app, nonempty_when, !passing_when, negb_false_iff, orb_false_iff by done.
  unfold check_proved. split.
  - intros (H1 & (H2 & H3) & H4 & H5). split_and!; [done| |done].
    assert (Hc : CHECK_COMMAND ∈ check_evidence_kinds) by set_solver.
    assert (Hr : CHECK_RESULT ∈ check_evidence_kinds) by (unfold check_evidence_kinds; set_solver).
    apply mismatch_spec in H2 as (x & Ex & Hx); [|by apply H1].
    apply mismatch_spec in H3 as (y & Ey & Hy); [|by apply H1].
    intros k Hk. destruct (H1 k Hk) as [z Ez]. exists z. split; [done|].
    split; intros ->; congruence.
  - intros ((H1 & H2) & H3). split_and!; try done.
    + intros k Hk. destruct (H2 k Hk) as (x & Hx & _). eauto.
    + destruct (H2 CHECK_COMMAND ltac:(set_solver)) as (x & Hx & Hc & _).
      apply mismatch_spec; [eauto|]. exists x. auto.
    + destruct (H2 CHECK_RESULT ltac:(unfold check_evidence_kinds; set_solver)) as (x & Hx & _ & Hc).
      apply mismatch_spec; [eauto|]. exists x. auto.
Qed.

Lemma path_reasons_pass selected p : (∃ e, e ∈ selected ∧ re_path e = Some p) →
  passing (path_reasons selected p) ↔ path_proved selected p.
Proof.
  intros (e0 & He0 & Hp0). unfold path_reasons, path_proved.
  set (pe := List.filter (λ e, bool_decide (re_path e = Some p)) selected).
  assert (Hpe : ∀ e, e ∈ pe ↔ e ∈ selected ∧ re_path e = Some p).
  { intros e. unfold pe. by rewrite elem_of_listfilter, bool_decide_eq_true. }
  assert (Hops : ∀ o, o ∈ remove_dups (map re_operation pe) ↔ ∃ e, e ∈ pe ∧ re_operation e = o).
  { intros o. rewrite elem_of_remove_dups, list_elem_of_fmap. naive_solver. }
  pose proof (NoDup_remove_dups (map re_operation pe)) as Hnd.
  assert (Hbad : ∀ l, l = [EVIDENCE_AMBIGUOUS] → ¬ passing l).
  { intros l -> H. by destruct (H EVIDENCE_AMBIGUOUS ltac:(by left)). }
  assert (He0' : e0 ∈ pe) by by apply Hpe.
  destruct (remove_dups (map re_operation pe)) as [|o1 ops] eqn:E.
  { exfalso. assert (H : re_operation e0 ∈ []) by (apply Hops; eauto). by apply elem_of_nil in H. }
  destruct ops as [|o2 ops].
  - assert (H1 : ∀ e, e ∈ pe → re_operation e = o1).
    { intros e He. assert (H : re_operation e ∈ [o1]) by (apply Hops; eauto).
      by apply list_elem_of_singleton in H. }
    destruct o1 as [op|].
    + rewrite (counts_pass (λ k, List.filter (λ e, bool_decide (re_kind e = k)) pe)) by done. split.
      * intros H. exists op. split; [intros e He Hep; apply H1; by apply Hpe|].
        intros k Hk. destruct (H k Hk) as [x Hx]. by exists x.
      * intros (op' & H2 & H3). assert (op' = op) as ->.
        { specialize (H2 e0 He0 Hp0). specialize (H1 e0 He0'). congruence. }
        intros k Hk. destruct (H3 k Hk) as (x & Hx & _). eauto.
    + split; [intros H; by apply Hbad in H|]. intros (op & H2 & _).
      specialize (H1 e0 He0'). specialize (H2 e0 He0 Hp0). congruence.
  - assert (Hgoal : ¬ path_proved selected p).
    { intros (op & H2 & _). assert (Hall : ∀ o, o ∈ o1 :: o2 :: ops → o = Some op).
      { intros o (e & He & <-)%Hops. apply Hpe in He as [? ?]. by apply H2. }
      rewrite (Hall o1), (Hall o2) in Hnd by set_solver.
      apply NoDup_cons in Hnd as [Hnd _]. apply Hnd. by left. }
    fold (path_proved selected p). split; [|done].
    intros H. exfalso. destruct o1; by apply (Hbad _ eq_refl).
Qed.

Lemma changed_paths_spec selected p :
  p ∈ changed_paths selected ↔ ∃ e, e ∈ selected ∧ re_path e = Some p.
Proof. unfold changed_paths. by rewrite elem_sorted_set, list_elem_of_omap. Qed.

Lemma scope_reasons_pass evidence node matched :
  passing (scope_reasons evidence node matched) ↔ scope_proved evidence node ∧ matched = [].
Proof.
  unfold scope_reasons. rewrite !passing_app, nonempty_when, passing_when, passing_concat by done.
  unfold scope_proved. rewrite bool_decide_eq_false. split.
  - intros (H1 & H2 & H3). split_and!; [| |done].
    + destruct (changed_paths _) as [|p ps] eqn:E; [done|].
      assert (Hp : p ∈ changed_paths (scope_selected evidence node)) by (rewrite E; by left).
      apply changed_paths_spec in Hp as (e & ? & ?). eauto.
    + intros e p He Hp. apply path_reasons_pass; [eauto|]. apply H2, list_elem_of_fmap.
      exists p. split; [done|]. apply changed_paths_spec. eauto.
  - intros ((H1 & H2) & ->). split_and!; [| |done].
    + destruct H1 as (e & p & He & Hp). intros E.
      assert (Hin : p ∈ changed_paths (scope_selected evidence node)) by (apply changed_paths_spec; eauto).
      rewrite E in Hin. by apply elem_of_nil in Hin.
    + intros l (p & -> & Hp)%list_elem_of_fmap. apply changed_paths_spec in Hp as (e & He & Hp).
      apply path_reasons_pass; [eauto|]. by eapply H2.
Qed.

(** ** The rows of the matrix *)

Definition made (row : VerificationMatrixRow) : Prop :=
  ∃ id kind reasons es fs n c, row_made id kind reasons es fs n c row.

Lemma made_intro id kind rs es fs n c row : row_made id kind rs es fs n c row → made row.
Proof. intros H. by exists id, kind, rs, es, fs, n, c. Qed.

Lemma filter_result_nil {A} (f : A → result bool) m : filter_result f [] = Ok m → m = [].
Proof. by intros [= <-]. Qed.

Section PassRows.
Context (evidence : list ReviewEvidence) (by_id : list (string * ReviewEvidence)).

Lemma no_findings_for node : for_node [] by_id node = Ok [].
Proof. done. Qed.

Lemma check_row_pass n m node check row findings :
  _check_row evidence findings by_id n m node check = Ok row →
  made row ∧ (findings = [] → mr_status row = Verdict.PASS ↔ check_proved evidence node check)
  ∧ (mr_status row = Verdict.PASS → check_proved evidence node check).
Proof.
  unfold _check_row. intros H. apply bind_ok in H as (matched & Hm & H). apply row_ok in H.
  rewrite (row_pass _ _ _ _ _ _ _ _ H), passing_complete, check_reasons_pass.
  split_and!; [by eapply made_intro| |naive_solver]. intros ->. injection Hm as <-. naive_solver.
Qed.

Lemma scope_row_pass n node row findings :
  _scope_row evidence findings by_id n node = Ok row →
  made row ∧ (findings = [] → mr_status row = Verdict.PASS ↔ scope_proved evidence node)
  ∧ (mr_status row = Verdict.PASS → scope_proved evidence node).
Proof.
  unfold _scope_row. intros H. apply bind_ok in H as (matched & Hm & H). apply row_ok in H.
  rewrite (row_pass _ _ _ _ _ _ _ _ H), passing_complete, scope_reasons_pass.
  split_and!; [by eapply made_intro| |naive_solver]. intros ->. injection Hm as <-. naive_solver.
Qed.

Lemma check_rows_Forall2 n m node checks rows findings :
  check_rows_from evidence findings by_id n m node checks = Ok rows →
  Forall2 (λ check row, ∃ k, _check_row evidence findings by_id n k node check = Ok row) checks rows.
Proof.
  revert m rows. induction checks as [|c checks IH]; intros m rows; simpl; [by intros [= <-]|].
  intros H. apply bind_ok in H as (row & Hr & H). apply bind_ok in H as (rest & Hrest & [= <-]).
  constructor; [eauto|by eapply IH].
Qed.

Lemma all_rows_Forall2 n nodes rows findings :
  all_node_rows evidence findings by_id n nodes = Ok rows →
  Forall2 (λ node pr, ∃ k, node_rows_of evidence findings by_id k node = Ok pr) nodes rows.
Proof.
  revert n rows. induction nodes as [|c nodes IH]; intros n rows; simpl; [by intros [= <-]|].
  intros H. apply bind_ok in H as (row & Hr & H). apply bind_ok in H as (rest & Hrest & [= <-]).
  constructor; [eauto|by eapply IH].
Qed.

Lemma node_row_pass n node scope_row check_rows row findings :
  (∀ r, r ∈ option_list scope_row ++ check_rows → made r) →
  _node_row evidence findings by_id n node scope_row check_rows = Ok row →
  made row ∧ (findings = [] → mr_status row = Verdict.PASS ↔
    only (select evidence OUTCOME (rn_node_id node) None) (λ _, True)
    ∧ ∀ r, r ∈ option_list scope_row ++ check_rows → mr_status r = Verdict.PASS).
Proof.
  intros Hmade. unfold _node_row. intros H. apply bind_ok in H as (matched & Hm & H). apply row_ok in H.
  rewrite (row_pass _ _ _ _ _ _ _ _ H), passing_complete.
  split; [by eapply made_intro|]. intros ->. injection Hm as <-.
  unfold node_reasons. rewrite !passing_app, !passing_when, passing_carried by done.
  pose proof (one_count (select evidence OUTCOME (rn_node_id node) None)) as H1. unfold only.
  naive_solver.
Qed.

(** The rows of one node pass together exactly when the node is proved. *)
Lemma node_rows_pass n node pr : node_rows_of evidence [] by_id n node = Ok pr →
  (∀ r, r ∈ pr.1 :: pr.2 → made r) ∧
  ((∀ r, r ∈ pr.1 :: pr.2 → mr_status r = Verdict.PASS) ↔ node_proved evidence node).
Proof.
  unfold node_rows_of. intros H. apply bind_ok in H as (sr & Hsr & H).
  apply bind_ok in H as (crs & Hcr & H). apply bind_ok in H as (nr & Hnr & [= <-]). simpl.
  apply check_rows_Forall2 in Hcr.
  assert (Hsr' : match sr with
    | Some r => writes node = true ∧ made r ∧ (mr_status r = Verdict.PASS ↔ scope_proved evidence node)
    | None => writes node = false end).
  { destruct (writes node); [|by injection Hsr as <-].
    apply fmap_ok in Hsr as (r & Hr & <-). apply scope_row_pass in Hr as (? & Hp & _). auto. }
  assert (Hmade : ∀ r, r ∈ option_list sr ++ crs → made r).
  { intros r [Hr|Hr]%elem_of_app.
    - destruct sr; simpl in Hr; [|by apply elem_of_nil in Hr].
      apply list_elem_of_singleton in Hr as ->. tauto.
    - apply list_elem_of_lookup in Hr as [i Hi].
      destruct (Forall2_lookup_r _ _ _ _ _ Hcr Hi) as (c & _ & k & Hk). by apply check_row_pass in Hk as [? _]. }
  apply node_row_pass in Hnr as [Hm Hp]; [|done]. specialize (Hp eq_refl).
  split; [intros r [->|Hr]%elem_of_cons; [done|by apply Hmade]|].
  assert (Hc : (∀ r, r ∈ crs → mr_status r = Verdict.PASS) ↔
    ∀ c, c ∈ rn_checks node → check_proved evidence node c).
  { split.
    - intros H c [i Hi]%list_elem_of_lookup.
      destruct (Forall2_lookup_l _ _ _ _ _ Hcr Hi) as (r & Hr & k & Hk).
      apply check_row_pass in Hk as (_ & _ & Hk). apply Hk, H. by eapply list_elem_of_lookup_2.
    - intros H r [i Hi]%list_elem_of_lookup.
      destruct (Forall2_lookup_r _ _ _ _ _ Hcr Hi) as (c & Hc & k & Hk).
      apply check_row_pass in Hk as (_ & Hk & _). apply Hk, H; [done|]. by eapply list_elem_of_lookup_2. }
  unfold node_proved. rewrite <-Hc. setoid_rewrite elem_of_cons. setoid_rewrite elem_of_app.
  setoid_rewrite elem_of_app in Hp. split.
  - intros H. pose proof (proj1 Hp (H nr (or_introl eq_refl))) as [Ho _]. split_and!; [done| |auto].
    intros Hw. destruct sr as [r|]; [|congruence]. apply Hsr', H. right. left. simpl. by left.
  - intros (Ho & Hs & Hk).
    assert (Hsub : ∀ r, r ∈ option_list sr ∨ r ∈ crs → mr_status r = Verdict.PASS).
    { intros r [Hr|Hr]; [|auto]. destruct sr as [x|]; simpl in Hr; [|by apply elem_of_nil in Hr].
      apply list_elem_of_singleton in Hr as ->. apply Hsr', Hs, Hsr'. }
    intros r [->|Hr]; [apply Hp; auto|auto].
Qed.
End PassRows.

Lemma intent_row_ok id kind claim rows findings row : _intent_row id kind claim rows findings = Ok row →
  (∀ r, r ∈ rows → made r) →
  mr_status row = Verdict.PASS ↔ (∀ r, r ∈ rows → mr_status r = Verdict.PASS) ∧ findings = [].
Proof.
  unfold _intent_row. intros H Hm. apply bind_ok in H as (d & _ & H). apply matrix_row_init_ok in H.
  simpl in H. rewrite (row_pass _ _ _ _ _ _ _ _ H), passing_complete, passing_app, nonempty_when.
  by rewrite passing_carried.
Qed.

Lemma constraint_rows_ok d i cs rows findings out : constraint_rows d i cs rows findings = Ok out →
  ∀ r, r ∈ out → ∃ id claim, _intent_row id Criterion.CONSTRAINT claim rows findings = Ok r.
Proof.
  revert i out. induction cs as [|c cs IH]; intros i out; simpl.
  - intros [= <-] r Hr. by apply elem_of_nil in Hr.
  - intros H. apply bind_ok in H as (row & Hr & H). apply bind_ok in H as (rest & Hrest & [= <-]).
    intros r [->|Hin]%elem_of_cons; [eauto|by eapply IH].
Qed.

Lemma review_row_pass a row : _review_row a = Ok row →
  mr_status row = Verdict.PASS ↔ ad_findings a = [].
Proof.
  unfold _review_row. intros H. apply bind_ok in H as (d & _ & H). apply bind_ok in H as (d' & _ & H).
  apply matrix_row_init_ok in H. rewrite (row_pass _ _ _ _ _ _ _ _ H). simpl.
  case_bool_decide as E; split; try done.
  - intros _ r ->%list_elem_of_singleton. done.
  - intros Hp. by destruct (Hp UNRESOLVED_REVIEW_FINDING ltac:(by left)).
Qed.

Definition disposition_ok (d : EpistemicDisposition) : Prop := d = SUPPORTED ∨ d = NOT_APPLICABLE.

Lemma epistemic_row_pass a row : _epistemic_row a = Ok row →
  mr_status row = Verdict.PASS ↔ disposition_ok (ea_disposition a).
Proof.
  unfold _epistemic_row. intros H. apply bind_ok in H as (d & _ & H).
  apply matrix_row_init_ok in H. rewrite (row_pass _ _ _ _ _ _ _ _ H). simpl. unfold disposition_ok.
  split.
  - intros Hp. specialize (Hp _ ltac:(by left)). destruct (ea_disposition a); simpl in Hp; naive_solver.
  - intros [-> | ->] r ->%list_elem_of_singleton; done.
Qed.

(** When a whole report passes. *)
Lemma verification_passes c a r : verify_review c a = Ok r →
  vr_status r = Verdict.PASS ↔
    ad_findings a = []
    ∧ (∀ x, x ∈ ad_assessments a → disposition_ok (ea_disposition x))
    ∧ ∀ node, node ∈ ra_nodes (rx_acceptance c) → node_proved (rx_evidence c) node.
Proof.
  unfold verify_review. intros H.
  do 2 (apply bind_ok in H as (? & _ & H)). do 2 (apply bind_ok in H as (? & _ & H)).
  apply bind_ok in H as (rows & Hrows & H). apply bind_ok in H as (ob & Hob & H).
  apply bind_ok in H as (cs & Hcs & H). apply bind_ok in H as (es & Hes%map_result_ok & H).
  apply bind_ok in H as (rv & Hrv & H). apply bind_ok in H as (ad & _ & H).
  set (matrix := [ob] ++ _) in H.
  assert (Hst : vr_status r = _aggregate_status matrix).
  { unfold verification_report_init in H. do 3 (apply bind_ok in H as (? & _ & H)). by injection H as <-. }
  rewrite Hst, aggregate_pass. clear H Hst.
  assert (Hmat : ∀ x, x ∈ matrix ↔ x = ob ∨ x ∈ cs ∨ x ∈ map fst rows ∨ x ∈ concat (map snd rows)
    ∨ x ∈ es ∨ x = rv).
  { intros w. unfold matrix. rewrite !elem_of_app, !list_elem_of_singleton. tauto. }
  setoid_rewrite Hmat. clear Hmat matrix.
  apply review_row_pass in Hrv. apply all_rows_Forall2 in Hrows.
  assert (Hepi : (∀ x, x ∈ es → mr_status x = Verdict.PASS) ↔
    ∀ x, x ∈ ad_assessments a → disposition_ok (ea_disposition x)).
  { split; intros H w [i Hi]%list_elem_of_lookup.
    - destruct (Forall2_lookup_l _ _ _ _ _ Hes Hi) as (row & Hr & Hx). apply (epistemic_row_pass _ _ Hx), H.
      by eapply list_elem_of_lookup_2.
    - destruct (Forall2_lookup_r _ _ _ _ _ Hes Hi) as (y & Hy & Hx). apply (epistemic_row_pass _ _ Hx), H.
      by eapply list_elem_of_lookup_2. }
  rewrite <-Hepi. split.
  - intros H. assert (Hf : ad_findings a = []) by (apply Hrv, H; naive_solver).
    split_and!; [done|auto 10|]. rewrite Hf in Hrows.
    intros node [i Hi]%list_elem_of_lookup.
    destruct (Forall2_lookup_l _ _ _ _ _ Hrows Hi) as (pr & Hpr & k & Hk).
    apply node_rows_pass in Hk as [_ Hk]. apply Hk. apply list_elem_of_lookup_2 in Hpr.
    intros w [->|Hx]%elem_of_cons; apply H.
    + right; right; left. apply list_elem_of_fmap. eauto.
    + right; right; right; left. apply elem_of_concat. exists pr.2. split; [done|].
      apply list_elem_of_fmap. eauto.
  - intros (Hf & He & Hn). rewrite Hf in *.
    assert (Hall : ∀ pr, pr ∈ rows → (∀ x, x ∈ pr.1 :: pr.2 → made x)
      ∧ ∀ x, x ∈ pr.1 :: pr.2 → mr_status x = Verdict.PASS).
    { intros pr [i Hi]%list_elem_of_lookup.
      destruct (Forall2_lookup_r _ _ _ _ _ Hrows Hi) as (node & Hnode & k & Hk).
      apply node_rows_pass in Hk as [Hk1 Hk2]. split; [done|]. apply Hk2, Hn.
      by eapply list_elem_of_lookup_2. }
    assert (Hnr : (∀ x, x ∈ map fst rows → made x) ∧ ∀ x, x ∈ map fst rows → mr_status x = Verdict.PASS).
    { split; intros w (pr & -> & Hpr)%list_elem_of_fmap; apply (Hall pr Hpr); by left. }
    destruct Hnr as [Hnm Hnp]. apply intent_row_ok in Hob; [|done].
    intros w [->|[Hx|[Hx|[Hx|[Hx| ->]]]]].
    + by apply Hob.
    + apply (constraint_rows_ok _ _ _ _ _ _ Hcs) in Hx as (id & claim & Hx).
      apply intent_row_ok in Hx; [|done]. by apply Hx.
    + auto.
    + apply elem_of_concat in Hx as (l & Hx & (pr & -> & Hpr)%list_elem_of_fmap).
      apply (Hall pr Hpr). by right.
    + auto.
    + by apply Hrv.
Qed.

(** C7 (verification_pass_exact): a report passes exactly when the review is
    clear and everything is proved: no finding is open, every epistemic dimension
    is supported or not applicable, and every node of the plan has exactly one
    outcome, every check passed with exactly one piece of evidence of each kind
    and matching digests, and, if the node writes, at least one changed path, each
    with one operation and exactly one piece of evidence of each required kind. *)
Theorem verification_pass_exact c a r : verify_review c a = Ok r →
  vr_status r = Verdict.PASS ↔
    ad_findings a = []
    ∧ (∀ x, x ∈ ad_assessments a → disposition_ok (ea_disposition x))
    ∧ ∀ node, node ∈ ra_nodes (rx_acceptance c) → node_proved (rx_evidence c) node.
Proof. apply verification_passes. Qed.
