(* ===== verification/VerificationTotal.v ===== *)
(** * The verification matrix is always built

    For a context, an acceptance contract and an admitted review that their
    constructors accepted, no row of the matrix is rejected by the rules its
    constructor checks: the only failures of [verify_review] are the binding, a
    citation outside the evidence, and the size of the report.

    Identifiers of rows are formed from counters; that they are distinct is
    decided once for every admissible counter, in [row_keys_distinct]. *)

From S2P Require Import Prelude PyStr PyFloat Json JsonText JsonFacts PyTime Contracts Printable Events Strict.
From S2P Require Import VerificationLifecycle OutputSchema Gateway Changes Review ReviewFacts Verification.
From S2P Require Import VerificationFacts.
From Stdlib Require Import ZArith Lia Ascii String Sorting.Sorted Sorting.Permutation.
From stdpp Require Import base gmap sets list strings.
Local Open Scope Z_scope.

(** ** Row identifiers *)

Inductive row_key :=
  | KObjective | KConstraint (n : Z) | KNode (n : Z) | KScope (n : Z) | KCheck (n m : Z)
  | KEpistemic (d : EpistemicDimension) | KReview.
#[export] Instance row_key_eq_dec : EqDecision row_key.
Proof. solve_decision. Defined.

Definition key_id (k : row_key) : string :=
  match k with
  | KObjective => "objective"
  | KConstraint n => "constraint-" +:+ pad3 n
  | KNode n => "node-" +:+ pad3 n
  | KScope n => "scope-" +:+ pad3 n
  | KCheck n m => "check-" +:+ pad3 n +:+ "-" +:+ pad3 m
  | KEpistemic d => "epistemic-" +:+ dimension_value d
  | KReview => "review"
  end.

Definition counters : list Z := seqZ 1 64.
(** Every admissible key, in the order of the identifiers. *)
Definition all_keys : list row_key :=
  concat (map (λ n, map (KCheck n) counters) counters)
  ++ map KConstraint counters
  ++ map KEpistemic [ACCEPTANCE_COVERAGE; CAUSAL_OVERREACH; COUNTEREVIDENCE; EVIDENCE_GROUNDING;
       INDEPENDENT_CORROBORATION; ORDER_SENSITIVITY; PROVENANCE_FRESHNESS; SCOPE_CHALLENGE; UNCERTAINTY]
  ++ map KNode counters ++ [KObjective; KReview] ++ map KScope counters.

Fixpoint increasing (l : list string) : bool :=
  match l with
  | x :: l' => match l' with y :: _ => String.ltb x y | [] => true end && increasing l'
  | [] => true
  end.

Lemma increasing_lt x l : increasing (x :: l) = true → ∀ y, y ∈ l → String.compare x y = Lt.
Proof.
  revert x. induction l as [|z l IH]; intros x; [by intros _ y ?%elem_of_nil|].
  change (increasing (x :: z :: l)) with (String.ltb x z && increasing (z :: l)).
  intros [H1 H2]%andb_true_iff y Hy. unfold String.ltb in H1.
  assert (Hxz : String.compare x z = Lt) by by destruct (String.compare x z).
  apply elem_of_cons in Hy as [->|Hy]; [done|]. eapply string_compare_lt_trans; [exact Hxz|by apply IH].
Qed.

Lemma increasing_NoDup l : increasing l = true → NoDup l.
Proof.
  induction l as [|x l IH]; intros H; constructor.
  - intros Hx. pose proof (increasing_lt x l H x Hx) as Hc.
    pose proof (string_compare_swap x x) as Hs. by rewrite Hc in Hs.
  - apply IH. simpl in H. apply andb_true_iff in H as [_ H]. done.
Qed.

Lemma row_keys_distinct : NoDup (map key_id all_keys).
Proof. apply increasing_NoDup. by_vm. Qed.

Lemma row_keys_valid : forallb re_identifier (map key_id all_keys) = true.
Proof. by_vm. Qed.

Lemma NoDup_map_inj {A B} (f : A → B) l x y : NoDup (map f l) → x ∈ l → y ∈ l → f x = f y → x = y.
Proof.
  induction l as [|z l IH]; simpl; [by intros _ ?%elem_of_nil|].
  intros [Hz Hn]%NoDup_cons. rewrite !elem_of_cons. intros [->|Hx] [->|Hy] E; auto.
  - exfalso. apply Hz. rewrite E. apply list_elem_of_fmap. eauto.
  - exfalso. apply Hz. rewrite <-E. apply list_elem_of_fmap. eauto.
Qed.

Lemma key_ids_NoDup ks : NoDup ks → (∀ k, k ∈ ks → k ∈ all_keys) → NoDup (map key_id ks).
Proof.
  intros Hn Hk. induction Hn as [|k ks Hin Hn IH]; [constructor|]. simpl. constructor.
  - intros (k' & E & Hk')%list_elem_of_fmap. apply Hin.
    rewrite (NoDup_map_inj _ _ _ _ row_keys_distinct (Hk k ltac:(by left)) (Hk k' ltac:(by right)) E). done.
  - apply IH. intros k' Hk'. apply Hk. by right.
Qed.

Lemma key_id_valid k : k ∈ all_keys → re_identifier (key_id k) = true.
Proof.
  intros Hk. pose proof row_keys_valid as H. rewrite forallb_elem in H. apply H.
  apply list_elem_of_fmap. eauto.
Qed.

Lemma elem_counters n : n ∈ counters ↔ 1 <= n <= 64.
Proof. unfold counters. rewrite elem_of_seqZ. lia. Qed.

Definition valid_key (k : row_key) : Prop :=
  match k with
  | KConstraint n | KNode n | KScope n => 1 <= n <= 64
  | KCheck n m => 1 <= n <= 64 ∧ 1 <= m <= 64
  | _ => True
  end.

Lemma valid_key_listed k : valid_key k → k ∈ all_keys.
Proof.
  intros H. unfold all_keys. rewrite !elem_of_app, elem_of_concat.
  assert (M : ∀ (f : Z → row_key) n, 1 <= n <= 64 → f n ∈ map f counters).
  { intros f n Hn. apply list_elem_of_fmap. exists n. split; [done|by apply elem_counters]. }
  destruct k as [|n|n|n|n m|d|]; simpl in H.
  - do 4 right; left. by left.
  - right; left. by apply (M KConstraint).
  - do 3 right; left. by apply (M KNode).
  - do 5 right. by apply (M KScope).
  - left. exists (map (KCheck n) counters). split; [apply (M (KCheck n) m); tauto|].
    apply list_elem_of_fmap. exists n. split; [done|apply elem_counters; tauto].
  - do 2 right; left. apply list_elem_of_fmap. exists d. split; [done|].
    destruct d; repeat first [by left|right].
  - do 4 right; left. right. by left.
Qed.

Lemma zlen_cons {A} (x : A) l : zlen (x :: l) = zlen l + 1.
Proof. unfold zlen. rewrite length_cons. lia. Qed.

(** ** One row *)

(** The reasons a row may hold beside completeness. *)
Definition ordinary (r : reason) : bool :=
  match r with EVIDENCE_COMPLETE | REVIEW_CLEAR => false | _ => negb (epistemic_reason r) end.

(** [row] has identifier [k], ordinary reasons, and no unresolved finding unless [P]. *)
Record row_sound (k : row_key) (P : Prop) (row : VerificationMatrixRow) : Prop := {
  rs_id : mr_criterion_id row = key_id k;
  rs_reasons : ∀ r, r ∈ mr_reason_codes row → r = EVIDENCE_COMPLETE ∨ ordinary r = true;
  rs_finding : UNRESOLVED_REVIEW_FINDING ∈ mr_reason_codes row → P;
  rs_evidence : forallb re_digest (mr_evidence_ids row) = true
}.

Lemma sorted_set_nil l : sorted_set l = [] ↔ l = [].
Proof.
  split; [|by intros ->]. intros E. destruct l as [|x l]; [done|].
  assert (Hx : x ∈ sorted_set (x :: l)) by (apply elem_sorted_set; by left).
  rewrite E in Hx. by apply elem_of_nil in Hx.
Qed.

Lemma forallb_sorted_set p l : forallb p l = true → forallb p (sorted_set l) = true.
Proof. rewrite !forallb_elem. by setoid_rewrite elem_sorted_set. Qed.

Lemma matrix_row_total id kind digest rs es fs n c :
  re_identifier id = true → re_digest digest = true → rs ≠ [] →
  forallb re_digest es = true → forallb re_identifier fs = true →
  opt_identifier n = true → opt_identifier c = true →
  node_kind kind = is_some n → bool_decide (kind = Criterion.CHECK) = is_some c →
  row_rules kind (sorted_reasons rs) (sorted_set fs) = true →
  matrix_row_init (MkMatrixRow id kind digest (_status_for_reasons rs) rs es fs n c) =
    Ok (MkMatrixRow id kind digest (_status_for_reasons rs) (sorted_reasons rs) (sorted_set es)
          (sorted_set fs) n c).
Proof.
  intros H1 H2 H3 H4 H5 H6 H7 H8 H9 H10. unfold matrix_row_init, input_require.
  cbn [mr_criterion_id mr_kind mr_claim_digest mr_status mr_reason_codes mr_evidence_ids mr_finding_ids
       mr_node_id mr_check_id].
  rewrite H1, H2, (bool_decide_eq_false_2 _ H3), H4, H5, H6, H7, H8, H9, H10, !eqb_reflx, status_sorted.
  by rewrite bool_decide_true.
Qed.

Lemma has_reason_sorted r l : has_reason r (sorted_reasons l) = has_reason r l.
Proof. unfold has_reason. apply bool_decide_ext, elem_sorted_reasons. Qed.

Lemma has_reason_false r l : has_reason r l = false ↔ r ∉ l.
Proof. apply bool_decide_eq_false. Qed.

(** The rules accept any list of ordinary reasons that names an unresolved
    finding exactly when there is one. *)
Lemma ordinary_rules kind L fs :
  kind ≠ Criterion.REVIEW_POLICY → kind ≠ Criterion.EPISTEMIC_POLICY →
  (∀ r, r ∈ L → ordinary r = true) → (UNRESOLVED_REVIEW_FINDING ∈ L ↔ fs ≠ []) →
  row_rules kind (sorted_reasons (complete_if_empty L)) (sorted_set fs) = true.
Proof.
  intros K1 K2 HL HU. unfold row_rules.
  rewrite (bool_decide_eq_false_2 _ K1), (bool_decide_eq_false_2 _ K2).
  assert (Hall : ∀ r, r ∈ complete_if_empty L → r = EVIDENCE_COMPLETE ∨ ordinary r = true).
  { destruct L as [|x L]; [|eauto]. intros r ->%list_elem_of_singleton. by left. }
  assert (Hno : ∀ r, r ≠ EVIDENCE_COMPLETE → ordinary r = false →
    has_reason r (sorted_reasons (complete_if_empty L)) = false).
  { intros r Hr Ho. rewrite has_reason_sorted, has_reason_false. intros Hin.
    destruct (Hall r Hin); congruence. }
  rewrite (Hno EPISTEMIC_CONCERN), (Hno REVIEW_CLEAR) by done.
  assert (List.filter epistemic_reason (sorted_reasons (complete_if_empty L)) = []) as ->.
  { apply elem_of_nil_inv. intros r [Hin He]%elem_of_listfilter. rewrite elem_sorted_reasons in Hin.
    destruct (Hall r Hin) as [-> | Ho]; [done|]. destruct r; simpl in Ho, He; congruence. }
  assert (has_reason UNRESOLVED_REVIEW_FINDING (sorted_reasons (complete_if_empty L))
          = negb (bool_decide (sorted_set fs = []))) as ->.
  { rewrite has_reason_sorted. unfold has_reason.
    rewrite (bool_decide_ext _ _ (sorted_set_nil fs)), <-bool_decide_not.
    apply bool_decide_ext. rewrite <-HU. destruct L; [|done].
    split; intros Hin; [apply list_elem_of_singleton in Hin; congruence|by apply elem_of_nil in Hin]. }
  rewrite orb_false_r, eqb_reflx. simpl. rewrite !andb_true_r.
  destruct L as [|x L]; [reflexivity|].
  assert (has_reason EVIDENCE_COMPLETE (sorted_reasons (complete_if_empty (x :: L))) = false) as ->; [|done].
  rewrite has_reason_sorted, has_reason_false. intros Hin. by apply HL in Hin.
Qed.

Lemma ordinary_row k kind digest L es fs n c :
  kind ≠ Criterion.REVIEW_POLICY → kind ≠ Criterion.EPISTEMIC_POLICY → valid_key k →
  re_digest digest = true → forallb re_digest es = true → forallb re_identifier fs = true →
  opt_identifier n = true → opt_identifier c = true →
  node_kind kind = is_some n → bool_decide (kind = Criterion.CHECK) = is_some c →
  (∀ r, r ∈ L → ordinary r = true) → (UNRESOLVED_REVIEW_FINDING ∈ L ↔ fs ≠ []) →
  ∃ row, matrix_row_init (MkMatrixRow (key_id k) kind digest
      (_status_for_reasons (complete_if_empty L)) (complete_if_empty L) es fs n c) = Ok row
    ∧ row_sound k (fs ≠ []) row.
Proof.
  intros K1 K2 Hk Hd He Hf Hn Hc Hnk Hck HL HU. eexists. split.
  - apply matrix_row_total; try done; [by apply key_id_valid, valid_key_listed|by destruct L|].
    by apply ordinary_rules.
  - constructor; simpl; [done| | |by apply forallb_sorted_set].
    + intros r Hr. rewrite elem_sorted_reasons in Hr. destruct L; [|auto].
      apply list_elem_of_singleton in Hr. by left.
    + intros Hr. rewrite elem_sorted_reasons in Hr. destruct L; [|by apply HU].
      by apply list_elem_of_singleton in Hr.
Qed.

(** ** Findings by node and check *)

Section Index.
Context (findings : list ProposedReviewFinding) (by_id : list (string * ReviewEvidence)).

Definition cited (p : ReviewEvidence → bool) (f : ProposedReviewFinding) : bool :=
  existsb (λ c, match dict_get (ci_evidence_id c) by_id with Some e => p e | None => false end)
    (fi_citations f).

Context (Hknown : ∀ f c, f ∈ findings → c ∈ fi_citations f → is_some (dict_get (ci_evidence_id c) by_id) = true).

Lemma cites_total p f : f ∈ findings → cites by_id p f = Ok (cited p f).
Proof.
  intros Hf. unfold cites, cited. specialize (Hknown f). revert Hknown.
  induction (fi_citations f) as [|c l IH]; intros H; simpl; [done|].
  pose proof (H c Hf ltac:(by left)) as Hc. destruct (dict_get _ _) as [e|]; [|done].
  cbn [of_option mbind result_bind]. destruct (p e); [done|]. apply IH. intros. apply H; [done|by right].
Qed.

Lemma filter_total (f : ProposedReviewFinding → result bool) g l :
  (∀ x, x ∈ l → f x = Ok (g x)) → filter_result f l = Ok (List.filter g l).
Proof.
  induction l as [|x l IH]; intros H; simpl; [done|].
  rewrite H by by left. cbn [mbind result_bind]. rewrite IH by (intros; apply H; by right).
  cbn [mbind result_bind]. by destruct (g x).
Qed.

Lemma for_node_total node : for_node findings by_id node =
  Ok (List.filter (cited (λ e, bool_decide (re_node_id e = node))) findings).
Proof. apply filter_total. intros f Hf. by apply cites_total. Qed.

Lemma for_check_total node check : for_check findings by_id node check =
  Ok (List.filter (cited (λ e, bool_decide (re_node_id e = node)
                               && bool_decide (re_check_id e = Some check))) findings).
Proof. apply filter_total. intros f Hf. by apply cites_total. Qed.

Lemma cited_mono p q f : (∀ e, p e = true → q e = true) → cited p f = true → cited q f = true.
Proof.
  intros H. unfold cited. rewrite !existsb_elem. intros (c & Hc & Hp). exists c. split; [done|].
  destruct (dict_get _ _); auto.
Qed.

(** A finding that concerns a check of a node concerns the node. *)
Lemma check_findings_node node check :
  List.filter (cited (λ e, bool_decide (re_node_id e = node)
                           && bool_decide (re_check_id e = Some check))) findings ≠ [] →
  List.filter (cited (λ e, bool_decide (re_node_id e = node))) findings ≠ [].
Proof.
  intros H E. apply H, elem_of_nil_inv. intros f [Hf Hc]%elem_of_listfilter.
  assert (Hin : f ∈ List.filter (cited (λ e, bool_decide (re_node_id e = node))) findings).
  { apply elem_of_listfilter. split; [done|]. eapply cited_mono, Hc. intros e He. simpl in He.
    by apply andb_true_iff in He as [? _]. }
  rewrite E in Hin. by apply elem_of_nil in Hin.
Qed.
End Index.

Lemma filter_nonempty {A} (p : A → bool) l : List.filter p l ≠ [] → l ≠ [].
Proof. by intros H ->. Qed.

(** ** Valid inputs *)

Definition check_valid (c : ReviewCheck) : Prop := review_check_init c = Ok c.
Definition node_valid (n : ReviewPlanNode) : Prop :=
  (∃ n0, review_node_init n0 = Ok n) ∧ Forall check_valid (rn_checks n).
Definition evidence_valid (e : ReviewEvidence) : Prop :=
  ∃ kind node digest excerpt line path check operation,
    review_evidence_init kind node digest excerpt line path check operation = Ok e.

(** Every object was returned by its constructor. *)
Record verification_input (c : ReviewContext) (a : AdmittedReview) : Prop := {
  vi_context : ∃ c0, review_context_init c0 = Ok c;
  vi_acceptance : ∃ a0, review_acceptance_init a0 = Ok (rx_acceptance c);
  vi_nodes : Forall node_valid (ra_nodes (rx_acceptance c));
  vi_evidence : Forall evidence_valid (rx_evidence c);
  vi_review : ∃ a0, admitted_review_init a0 = Ok a;
  vi_findings : Forall finding_valid (ad_findings a);
  vi_assessments : Forall assessment_valid (ad_assessments a)
}.

Lemma check_valid_facts c : check_valid c →
  re_identifier (rc_check_id c) = true ∧ 0 <= rc_expected_exit_code c <= 255.
Proof.
  unfold check_valid, review_check_init. intros H. apply bind_ok in H as (u & Hr%contract_require_ok & _).
  rewrite !andb_true_iff in Hr. unfold z_between in Hr. split; [tauto|lia].
Qed.

Lemma node_valid_facts n : node_valid n →
  re_identifier (rn_node_id n) = true ∧ 0 <= rn_max_changed_files n <= 10000
  ∧ zlen (rn_checks n) <= 64 ∧ Forall check_valid (rn_checks n).
Proof.
  intros [[n0 H] Hc]. unfold review_node_init in H.
  apply bind_ok in H as (u & Hr%contract_require_ok & H). apply bind_ok in H as (sc & _ & H).
  do 2 (apply bind_ok in H as (? & _ & H)). injection H as <-. simpl in *.
  rewrite !andb_true_iff in Hr. unfold z_between, review_max_checks in Hr.
  split_and!; [tauto|lia|lia|lia|done].
Qed.

Lemma evidence_valid_digest e : evidence_valid e → re_digest (re_evidence_id e) = true.
Proof.
  intros (k & n & d & x & l & p & ch & o & H). unfold review_evidence_init in H.
  do 5 (apply bind_ok in H as (? & _ & H)). apply bind_ok in H as (i & Hi & [= <-]). simpl.
  by eapply json_digest_format.
Qed.

Lemma citation_valid_facts c : citation_valid c →
  re_digest (ci_evidence_id c) = true ∧ 1 <= ci_start_line c <= ci_end_line c ∧ ci_end_line c <= _MAX_LINE.
Proof.
  unfold citation_valid, review_citation_init. intros H.
  apply bind_ok in H as (u & Hr%contract_require_ok & _). rewrite !andb_true_iff in Hr.
  split; [tauto|lia].
Qed.

(** ** The rows of a node *)

Section NodeRows.
Context (evidence : list ReviewEvidence) (findings : list ProposedReviewFinding)
  (by_id : list (string * ReviewEvidence)).
Context (Hknown : ∀ f c, f ∈ findings → c ∈ fi_citations f → is_some (dict_get (ci_evidence_id c) by_id) = true).
Context (Hevidence : Forall evidence_valid evidence) (Hfindings : Forall finding_valid findings).

Lemma finding_ids_valid l : (∀ f, f ∈ l → f ∈ findings) → forallb re_identifier (map fi_finding_id l) = true.
Proof.
  intros Hl. apply forallb_elem. intros i (f & -> & Hf)%list_elem_of_fmap.
  destruct (proj1 (Forall_forall _ _) Hfindings f (Hl f Hf)) as [H _]. unfold review_finding_init in H.
  apply bind_ok in H as (u & Hr%contract_require_ok & _). rewrite !andb_true_iff in Hr. tauto.
Qed.

Lemma evidence_ids_valid l : (∀ e, e ∈ l → e ∈ evidence) → forallb re_digest (map re_evidence_id l) = true.
Proof.
  intros Hl. apply forallb_elem. intros i (e & -> & He)%list_elem_of_fmap.
  apply evidence_valid_digest. by apply (proj1 (Forall_forall _ _) Hevidence), Hl.
Qed.

Lemma select_sub kind node check e : e ∈ select evidence kind node check → e ∈ evidence.
Proof. unfold select. by intros [? _]%elem_of_listfilter. Qed.

Lemma select_all_sub kinds node check e :
  e ∈ concat (map (λ k, select evidence k node check) kinds) → e ∈ evidence.
Proof. intros (l & He & (k & -> & _)%list_elem_of_fmap)%elem_of_concat. by eapply select_sub. Qed.

Lemma elem_when {A} b (a x : A) : x ∈ when b a ↔ b = true ∧ x = a.
Proof.
  destruct b; simpl; [rewrite list_elem_of_singleton; naive_solver|].
  split; [by intros ?%elem_of_nil|naive_solver].
Qed.

Lemma elem_unresolved (fs : list ProposedReviewFinding) r :
  r ∈ when (negb (bool_decide (fs = []))) UNRESOLVED_REVIEW_FINDING ↔
  fs ≠ [] ∧ r = UNRESOLVED_REVIEW_FINDING.
Proof. by rewrite elem_when, negb_true_iff, bool_decide_eq_false. Qed.

Lemma map_ids_nil (fs : list ProposedReviewFinding) : map fi_finding_id fs ≠ [] ↔ fs ≠ [].
Proof. by destruct fs. Qed.

Lemma _row_total k kind claim L es fs n c :
  kind ≠ Criterion.REVIEW_POLICY → kind ≠ Criterion.EPISTEMIC_POLICY → valid_key k →
  plain claim = true → (∀ e, e ∈ es → e ∈ evidence) → (∀ f, f ∈ fs → f ∈ findings) →
  opt_identifier n = true → opt_identifier c = true →
  node_kind kind = is_some n → bool_decide (kind = Criterion.CHECK) = is_some c →
  (∀ r, r ∈ L → ordinary r = true) → (UNRESOLVED_REVIEW_FINDING ∈ L ↔ fs ≠ []) →
  ∃ row, _row (key_id k) kind claim (complete_if_empty L) es fs n c = Ok row
    ∧ row_sound k (fs ≠ []) row.
Proof.
  intros K1 K2 Hk Hp He Hf Hn Hc Hnk Hck HL HU. unfold _row.
  destruct (digest_plain claim Hp) as (d & -> & Hd). cbn [mbind result_bind].
  destruct (ordinary_row k kind d L (map re_evidence_id es) (map fi_finding_id fs) n c) as (row & Hr & Hs);
    try done; [by apply evidence_ids_valid|by apply finding_ids_valid|by rewrite map_ids_nil|].
  exists row. split; [done|]. destruct Hs as [? ? Hfi ?]. constructor; try done. by rewrite <-map_ids_nil.
Qed.

Lemma check_row_total n m node check : valid_key (KCheck n m) → node_valid node → check_valid check →
  ∃ row, _check_row evidence findings by_id n m node check = Ok row
    ∧ row_sound (KCheck n m)
        (List.filter (cited by_id (λ e, bool_decide (re_node_id e = rn_node_id node))) findings ≠ []) row.
Proof.
  intros Hk Hn Hc. apply node_valid_facts in Hn as (Hn & _). apply check_valid_facts in Hc as (Hc & Hx).
  unfold _check_row. rewrite for_check_total by done. cbn [mbind result_bind].
  set (matched := List.filter _ findings).
  destruct (_row_total (KCheck n m) Criterion.CHECK
    (obj [("kind", PStr "check"); ("node_id", PStr (rn_node_id node)); ("check_id", PStr (rc_check_id check));
          ("argv", pstrs (rc_argv check)); ("expected_exit_code", PInt (rc_expected_exit_code check));
          ("command_digest", PStr (rc_command_digest check)); ("result_digest", PStr (rc_result_digest check))])
    (check_reasons evidence node check matched)
    (concat (map (λ k, select evidence k (rn_node_id node) (Some (rc_check_id check))) check_evidence_kinds))
    matched (Some (rn_node_id node)) (Some (rc_check_id check))) as (row & Hr & Hs); try done.
  - rewrite plain_obj. cbn [forallb fst snd]. rewrite plain_pstrs. cbn [plain].
    rewrite short_int_small by lia. done.
  - apply select_all_sub.
  - by intros f [? _]%elem_of_listfilter.
  - unfold check_reasons. intros r. rewrite !elem_of_app, !elem_when. naive_solver.
  - unfold check_reasons. rewrite !elem_of_app, elem_unresolved, !elem_when. naive_solver.
  - exists row. split; [done|]. destruct Hs as [? ? Hfi ?]. constructor; try done.
    intros Hin. by eapply check_findings_node, Hfi.
Qed.

Lemma scope_row_total n node : valid_key (KScope n) → node_valid node →
  ∃ row, _scope_row evidence findings by_id n node = Ok row
    ∧ row_sound (KScope n)
        (List.filter (cited by_id (λ e, bool_decide (re_node_id e = rn_node_id node))) findings ≠ []) row.
Proof.
  intros Hk Hn. apply node_valid_facts in Hn as (Hn & Hx & _).
  unfold _scope_row, scope_for_node. rewrite for_node_total by done. cbn [fmap result_fmap mbind result_bind].
  set (fs := List.filter (cited _ _) findings). set (matched := List.filter _ fs).
  destruct (_row_total (KScope n) Criterion.WRITE_SCOPE
    (obj [("kind", PStr "write-scope"); ("node_id", PStr (rn_node_id node)); ("effects", pstrs (rn_effects node));
          ("allowed_paths", pstrs (rn_allowed_paths node)); ("max_changed_files", PInt (rn_max_changed_files node))])
    (scope_reasons evidence node matched) (scope_selected evidence node)
    matched (Some (rn_node_id node)) None) as (row & Hr & Hs); try done.
  - rewrite plain_obj. cbn [forallb fst snd]. rewrite !plain_pstrs. cbn [plain].
    rewrite short_int_small by lia. done.
  - apply select_all_sub.
  - intros f [Hf _]%elem_of_listfilter. by apply elem_of_listfilter in Hf as [? _].
  - unfold scope_reasons. intros r. rewrite !elem_of_app, elem_unresolved, elem_when, elem_of_concat.
    intros [[_ ->]|[(l & Hr & (p & -> & _)%list_elem_of_fmap)|[_ ->]]]; try done.
    unfold path_reasons in Hr. repeat case_match; try (by apply list_elem_of_singleton in Hr as ->).
    all: rewrite elem_of_app, !elem_when in Hr; naive_solver.
  - unfold scope_reasons. rewrite !elem_of_app, elem_unresolved, elem_when, elem_of_concat.
    split; [|by right; right]. intros [[_ ?]|[(l & Hr & (p & -> & _)%list_elem_of_fmap)|[? _]]]; try done.
    unfold path_reasons in Hr. repeat case_match; try (by apply list_elem_of_singleton in Hr).
    all: rewrite elem_of_app, !elem_when in Hr; naive_solver.
  - exists row. split; [done|]. destruct Hs as [? ? Hfi ?]. constructor; try done.
    intros Hin. by eapply filter_nonempty, Hfi.
Qed.

Lemma row_sound_weaken k (P Q : Prop) row : (P → Q) → row_sound k P row → row_sound k Q row.
Proof. intros H []. constructor; auto. Qed.

(** Rows carry their reasons up: all of them are ordinary, and an unresolved
    finding of a child is one of the parent. *)
Lemma carried_ordinary keys (P : Prop) rows : Forall2 (λ k row, row_sound k P row) keys rows →
  (∀ r, r ∈ carried_reasons rows → ordinary r = true)
  ∧ (UNRESOLVED_REVIEW_FINDING ∈ carried_reasons rows → P).
Proof.
  intros H. assert (Hrow : ∀ row, row ∈ rows → ∃ k, row_sound k P row).
  { intros row [i Hi]%list_elem_of_lookup. destruct (Forall2_lookup_r _ _ _ _ _ H Hi) as (k & _ & ?). eauto. }
  unfold carried_reasons. split.
  - intros r [(l & Hr & (row & -> & Hin)%list_elem_of_fmap)%elem_of_concat Hne]%elem_of_listfilter.
    destruct (Hrow row Hin) as [k Hk]. destruct (rs_reasons _ _ _ Hk r Hr) as [-> |]; done.
  - intros [(l & Hr & (row & -> & Hin)%list_elem_of_fmap)%elem_of_concat _]%elem_of_listfilter.
    destruct (Hrow row Hin) as [k Hk]. by eapply rs_finding.
Qed.

#[local] Abbreviation node_findings node :=
  (List.filter (cited by_id (λ e, bool_decide (re_node_id e = rn_node_id node))) findings).

Lemma node_row_total n node keys scope_row check_rows : valid_key (KNode n) → node_valid node →
  Forall2 (λ k row, row_sound k (node_findings node ≠ []) row) keys (option_list scope_row ++ check_rows) →
  ∃ row, _node_row evidence findings by_id n node scope_row check_rows = Ok row
    ∧ row_sound (KNode n) (node_findings node ≠ []) row.
Proof.
  intros Hk Hn Hrows. apply node_valid_facts in Hn as (Hn & _).
  apply carried_ordinary in Hrows as [Hord Hfi].
  unfold _node_row. rewrite for_node_total by done. cbn [mbind result_bind].
  set (child_rows := option_list scope_row ++ check_rows) in *. set (fs := node_findings node) in *.
  apply (_row_total (KNode n) Criterion.NODE
    (obj [("kind", PStr "node"); ("node_id", PStr (rn_node_id node)); ("objective", PStr (rn_objective node));
          ("depends_on", pstrs (rn_depends_on node))])
    (node_reasons evidence node child_rows fs)); try done.
  - rewrite plain_obj. cbn [forallb fst snd]. by rewrite plain_pstrs.
  - intros e. rewrite elem_of_app. intros [He|He]; [by eapply select_sub|].
    apply elem_of_concat in He as (l & He & (row & -> & _)%list_elem_of_fmap).
    by apply elem_of_listfilter in He as [? _].
  - by intros f [? _]%elem_of_listfilter.
  - unfold node_reasons. intros r. rewrite !elem_of_app, elem_unresolved, !elem_when. naive_solver.
  - unfold node_reasons. rewrite !elem_of_app, elem_unresolved, !elem_when. naive_solver.
Qed.

Definition check_keys (n m : Z) (checks : list ReviewCheck) : list row_key :=
  map (KCheck n) (seqZ m (zlen checks)).
Definition child_keys (n : Z) (node : ReviewPlanNode) : list row_key :=
  option_list (if writes node then Some (KScope n) else None) ++ check_keys n 1 (rn_checks node).

Lemma seqZ_cons_zlen {A} m (x : A) l : seqZ m (zlen (x :: l)) = m :: seqZ (m + 1) (zlen l).
Proof.
  pose proof (zlen_nonneg l). rewrite zlen_cons, seqZ_cons by lia. f_equal; f_equal; lia.
Qed.

Lemma check_rows_total n m node checks : node_valid node → 1 <= n <= 64 → 1 <= m → m + zlen checks <= 65 →
  Forall check_valid checks →
  ∃ rows, check_rows_from evidence findings by_id n m node checks = Ok rows
    ∧ Forall2 (λ k row, row_sound k (node_findings node ≠ []) row) (check_keys n m checks) rows.
Proof.
  intros Hn Hb. revert m. induction checks as [|check checks IH]; intros m Hm Hz Hv.
  { exists []. split; [done|]. unfold check_keys. by constructor. }
  apply Forall_cons in Hv as [Hc Hv]. rewrite zlen_cons in Hz. pose proof (zlen_nonneg checks).
  destruct (check_row_total n m node check ltac:(simpl; lia) Hn Hc) as (row & Hr & Hs).
  destruct (IH (m + 1) ltac:(lia) ltac:(lia) Hv) as (rows & Hrs & Hss).
  exists (row :: rows). simpl. rewrite Hr. cbn [mbind result_bind]. rewrite Hrs. split; [done|].
  unfold check_keys. rewrite seqZ_cons_zlen. by constructor.
Qed.

Lemma node_rows_total n node : node_valid node → 1 <= n <= 64 →
  ∃ row rows, node_rows_of evidence findings by_id n node = Ok (row, rows)
    ∧ row_sound (KNode n) (findings ≠ []) row
    ∧ Forall2 (λ k row, row_sound k (findings ≠ []) row) (child_keys n node) rows.
Proof.
  intros Hn Hb. pose proof (node_valid_facts node Hn) as (_ & _ & Hz & Hcs).
  destruct (check_rows_total n 1 node (rn_checks node) Hn Hb ltac:(lia) ltac:(lia) Hcs) as (crs & Hcr & Hcrs).
  assert (Hsc : ∃ sr, (if writes node then Some <$> _scope_row evidence findings by_id n node else Ok None) = Ok sr
    ∧ Forall2 (λ k row, row_sound k (node_findings node ≠ []) row)
        (option_list (if writes node then Some (KScope n) else None)) (option_list sr)).
  { destruct (writes node); [|exists None; split; [done|constructor]].
    destruct (scope_row_total n node Hb Hn) as (row & -> & Hs). exists (Some row). split; [done|].
    simpl. constructor; [exact Hs|by constructor]. }
  destruct Hsc as (sr & Hsr & Hs). pose proof (Forall2_app Hs Hcrs) as Hall.
  destruct (node_row_total n node _ sr crs Hb Hn Hall) as (row & Hr & Hrow).
  exists row, (option_list sr ++ crs). unfold node_rows_of. rewrite Hsr. cbn [mbind result_bind].
  rewrite Hcr. cbn [mbind result_bind]. rewrite Hr. split_and!; [done| |].
  - eapply row_sound_weaken, Hrow. apply filter_nonempty.
  - eapply Forall2_impl; [exact Hall|]. intros k x. apply row_sound_weaken, filter_nonempty.
Qed.

Fixpoint nodes_keys (n : Z) (nodes : list ReviewPlanNode) : list (list row_key) :=
  match nodes with [] => [] | node :: nodes' => child_keys n node :: nodes_keys (n + 1) nodes' end.

Lemma all_rows_total n nodes : Forall node_valid nodes → 1 <= n → n + zlen nodes <= 65 →
  ∃ rows, all_node_rows evidence findings by_id n nodes = Ok rows
    ∧ Forall2 (λ k row, row_sound k (findings ≠ []) row) (map KNode (seqZ n (zlen nodes))) (map fst rows)
    ∧ Forall2 (λ k row, row_sound k (findings ≠ []) row) (concat (nodes_keys n nodes)) (concat (map snd rows)).
Proof.
  revert n. induction nodes as [|node nodes IH]; intros n Hv Hn Hz.
  { exists []. split_and!; [done| |]; constructor. }
  apply Forall_cons in Hv as [Hc Hv]. rewrite zlen_cons in Hz. pose proof (zlen_nonneg nodes).
  destruct (node_rows_total n node Hc ltac:(lia)) as (row & rs & Hr & Hs1 & Hs2).
  destruct (IH (n + 1) Hv ltac:(lia) ltac:(lia)) as (rows & Hrs & Hss1 & Hss2).
  exists ((row, rs) :: rows). simpl. rewrite Hr. cbn [mbind result_bind]. rewrite Hrs.
  rewrite seqZ_cons_zlen. split_and!; [done|by constructor|]. by apply Forall2_app.
Qed.
End NodeRows.

(** ** The other rows *)

Lemma intent_row_total keys k kind claim rows findings :
  (kind = Criterion.OBJECTIVE ∨ kind = Criterion.CONSTRAINT) → valid_key k → plain claim = true →
  Forall2 (λ k row, row_sound k (findings ≠ []) row) keys rows → Forall finding_valid findings →
  ∃ row, _intent_row (key_id k) kind claim rows findings = Ok row ∧ row_sound k (findings ≠ []) row.
Proof.
  intros Hkind Hk Hp Hrows Hf. unfold _intent_row. destruct (digest_plain claim Hp) as (d & -> & Hd).
  cbn [mbind result_bind]. pose proof (carried_ordinary _ _ _ Hrows) as [Hord Hfi].
  destruct (ordinary_row k kind d (carried_reasons rows
      ++ when (negb (bool_decide (findings = []))) UNRESOLVED_REVIEW_FINDING)
    (concat (map mr_evidence_ids rows)) (map fi_finding_id findings) None None) as (row & Hr & Hs);
    try done; try (by destruct Hkind as [-> | ->]).
  - apply forallb_elem. intros x (l & Hx & (r & -> & Hin)%list_elem_of_fmap)%elem_of_concat.
    apply list_elem_of_lookup in Hin as [i Hi].
    destruct (Forall2_lookup_r _ _ _ _ _ Hrows Hi) as (k' & _ & Hr).
    pose proof (rs_evidence _ _ _ Hr) as He. rewrite forallb_elem in He. auto.
  - by apply (finding_ids_valid findings).
  - intros r. rewrite elem_of_app, elem_unresolved. naive_solver.
  - rewrite elem_of_app, elem_unresolved, map_ids_nil. naive_solver.
  - exists row. split; [done|]. destruct Hs as [? ? Hfi' ?]. constructor; try done. by rewrite <-map_ids_nil.
Qed.

Lemma constraint_rows_total keys d i cs rows findings :
  1 <= i → i + zlen cs <= 65 →
  Forall2 (λ k row, row_sound k (findings ≠ []) row) keys rows → Forall finding_valid findings →
  ∃ out, constraint_rows d i cs rows findings = Ok out
    ∧ map mr_criterion_id out = map key_id (map KConstraint (seqZ i (zlen cs))).
Proof.
  intros Hi Hz Hrows Hf. revert i Hi Hz. induction cs as [|c cs IH]; intros i Hi Hz; [by exists []|].
  rewrite zlen_cons in Hz. pose proof (zlen_nonneg cs).
  destruct (intent_row_total keys (KConstraint i) Criterion.CONSTRAINT (constraint_claim d i c) rows findings)
    as (row & Hr & Hs); try done; [by right|simpl; lia| |].
  { unfold constraint_claim. rewrite plain_obj. cbn [forallb fst snd plain].
    by rewrite short_int_small by lia. }
  destruct (IH (i + 1) ltac:(lia) ltac:(lia)) as (out & Ho & Hids).
  exists (row :: out). cbn [constraint_rows]. change ("constraint-" +:+ pad3 i) with (key_id (KConstraint i)).
  rewrite Hr. cbn [mbind result_bind]. rewrite Ho. split; [done|].
  rewrite seqZ_cons_zlen. cbn [map]. f_equal; [apply Hs|done].
Qed.

Lemma citation_plain c : citation_valid c → plain (citation_payload c) = true.
Proof.
  intros (_ & H1 & H2)%citation_valid_facts. unfold _MAX_LINE in H2. unfold citation_payload.
  rewrite plain_obj. cbn [forallb fst snd plain]. by rewrite !short_int_small by lia.
Qed.

Lemma citations_plain l : Forall citation_valid l → plain (PSequence (map citation_payload l)) = true.
Proof. intros H. apply plain_map. intros c Hc. by apply citation_plain, (proj1 (Forall_forall _ _) H). Qed.

Lemma citation_ids_valid l : Forall citation_valid l → forallb re_digest (map ci_evidence_id l) = true.
Proof.
  intros H. apply forallb_elem. intros x (c & -> & Hc)%list_elem_of_fmap.
  apply (proj1 (Forall_forall _ _) H) in Hc. by apply citation_valid_facts in Hc as (? & _).
Qed.

Lemma epistemic_row_total a : assessment_valid a →
  ∃ row, _epistemic_row a = Ok row ∧ mr_criterion_id row = key_id (KEpistemic (ea_dimension a)).
Proof.
  intros [Ha Hc]. unfold epistemic_assessment_init in Ha.
  apply bind_ok in Ha as (u & Hr%contract_require_ok & _).
  rewrite !andb_true_iff in Hr. destruct Hr as ((((_ & _) & _) & Hi) & He).
  unfold _unique_identifiers in Hi. rewrite !andb_true_iff in Hi. destruct Hi as (_ & Hi).
  unfold _epistemic_row. match goal with |- context [json_digest ?v] => destruct (digest_plain v) as (d & -> & Hd) end.
  { rewrite plain_obj. cbn [forallb fst snd]. rewrite citations_plain, plain_pstrs by done. done. }
  cbn [mbind result_bind]. rewrite matrix_row_total; try done.
  - eexists. split; [done|]. done.
  - apply (key_id_valid (KEpistemic (ea_dimension a))). by apply valid_key_listed.
  - by apply citation_ids_valid.
  - apply eqb_prop in He. unfold row_rules.
    rewrite (bool_decide_ext _ _ (sorted_set_nil (ea_finding_ids a))), <-He.
    by destruct (ea_disposition a).
Qed.

Lemma admitted_plain a : Forall finding_valid (ad_findings a) → Forall assessment_valid (ad_assessments a) →
  plain (admitted_review_payload a) = true.
Proof.
  intros Hf Ha. unfold admitted_review_payload. rewrite plain_obj. cbn [forallb fst snd].
  rewrite !plain_map; [done|..].
  - intros x Hx. apply (proj1 (Forall_forall _ _) Ha) in Hx as [_ Hx].
    unfold _epistemic_assessment_payload. rewrite plain_obj. cbn [forallb fst snd].
    by rewrite citations_plain, plain_pstrs.
  - intros x Hx. apply (proj1 (Forall_forall _ _) Hf) in Hx as [_ Hx].
    unfold _finding_payload. rewrite plain_obj. cbn [forallb fst snd]. by rewrite citations_plain.
Qed.

Lemma review_row_total a : Forall finding_valid (ad_findings a) → Forall assessment_valid (ad_assessments a) →
  ∃ row, _review_row a = Ok row ∧ mr_criterion_id row = key_id KReview.
Proof.
  intros Hf Ha. unfold _review_row, admitted_review_digest.
  destruct (digest_plain _ (admitted_plain a Hf Ha)) as (d & -> & Hd). cbn [mbind result_bind].
  match goal with |- context [json_digest ?v] => destruct (digest_plain v eq_refl) as (d' & -> & Hd') end.
  cbn [mbind result_bind]. rewrite matrix_row_total; try done.
  - eexists. split; done.
  - apply citation_ids_valid, Forall_forall. intros c (l & Hc & (f & -> & Hin)%list_elem_of_fmap)%elem_of_concat.
    apply (proj1 (Forall_forall _ _) Hf) in Hin as [_ Hin]. by apply (proj1 (Forall_forall _ _) Hin).
  - by apply (finding_ids_valid (ad_findings a)).
  - unfold row_rules. rewrite (bool_decide_ext _ _ (sorted_set_nil _)).
    case_bool_decide as E; [by rewrite E|]. rewrite bool_decide_eq_false_2; [done|].
    by rewrite <-(map_ids_nil (ad_findings a)) in E.
Qed.

(** ** The keys of a whole matrix *)

Definition matrix_keys (c : ReviewContext) (a : AdmittedReview) : list row_key :=
  [KObjective] ++ map KConstraint (seqZ 1 (zlen (ra_constraints (rx_acceptance c))))
  ++ map KNode (seqZ 1 (zlen (ra_nodes (rx_acceptance c))))
  ++ concat (nodes_keys 1 (ra_nodes (rx_acceptance c)))
  ++ map KEpistemic (map ea_dimension (ad_assessments a)) ++ [KReview].

(** The number of rows: one for the objective and the review, one for each
    constraint, node, write scope, check and assessment. *)
Definition node_row_count (n : ReviewPlanNode) : Z :=
  1 + (if writes n then 1 else 0) + zlen (rn_checks n).
Definition row_count (c : ReviewContext) (a : AdmittedReview) : Z :=
  2 + zlen (ra_constraints (rx_acceptance c))
  + foldr (λ n total, node_row_count n + total) 0 (ra_nodes (rx_acceptance c))
  + zlen (ad_assessments a).

Lemma elem_check_keys k n m checks : k ∈ check_keys n m checks ↔
  ∃ j, k = KCheck n j ∧ m <= j < m + zlen checks.
Proof.
  unfold check_keys. rewrite list_elem_of_fmap. setoid_rewrite elem_of_seqZ. done.
Qed.

Lemma elem_child_keys k n node : k ∈ child_keys n node →
  k = KScope n ∨ ∃ j, k = KCheck n j ∧ 1 <= j <= zlen (rn_checks node).
Proof.
  unfold child_keys. rewrite elem_of_app, elem_check_keys. intros [Hk|(j & -> & Hj)].
  - left. destruct (writes node); simpl in Hk; [by apply list_elem_of_singleton in Hk|by apply elem_of_nil in Hk].
  - right. exists j. split; [done|lia].
Qed.

Lemma elem_nodes_keys k n nodes : k ∈ concat (nodes_keys n nodes) →
  ∃ i node, n <= i < n + zlen nodes ∧ node ∈ nodes ∧ k ∈ child_keys i node.
Proof.
  revert n. induction nodes as [|node nodes IH]; intros n; simpl; [by intros ?%elem_of_nil|].
  rewrite zlen_cons. pose proof (zlen_nonneg nodes). rewrite elem_of_app. intros [Hk|Hk].
  - exists n, node. split_and!; [lia|lia|by left|done].
  - destruct (IH _ Hk) as (i & x & Hi & Hx & Hin). exists i, x. split_and!; [lia|lia|by right|done].
Qed.

Lemma NoDup_map_intro {A B} (f : A → B) l : (∀ x y, f x = f y → x = y) → NoDup l → NoDup (map f l).
Proof. intros Hf. apply NoDup_fmap. intros x y. apply Hf. Qed.

Lemma child_keys_NoDup n node : NoDup (child_keys n node).
Proof.
  unfold child_keys. apply NoDup_app. split_and!.
  - destruct (writes node); simpl; [apply NoDup_singleton|constructor].
  - intros k Hk (j & -> & _)%elem_check_keys. destruct (writes node); simpl in Hk;
      [by apply list_elem_of_singleton in Hk|by apply elem_of_nil in Hk].
  - apply NoDup_map_intro; [by intros x y [=]|apply NoDup_seqZ].
Qed.

Lemma nodes_keys_NoDup n nodes : NoDup (concat (nodes_keys n nodes)).
Proof.
  revert n. induction nodes as [|node nodes IH]; intros n; simpl; [constructor|].
  apply NoDup_app. split_and!; [apply child_keys_NoDup| |apply IH].
  intros k Hk (i & x & Hi & _ & Hin)%elem_nodes_keys.
  apply elem_child_keys in Hk as [-> |(j & -> & _)]; apply elem_child_keys in Hin as [?|(j' & ? & _)];
    simplify_eq; lia.
Qed.

Lemma dimensions_distinct a0 a : admitted_review_init a0 = Ok a →
  NoDup (map ea_dimension (ad_assessments a)) ∧ zlen (ad_assessments a) <= 9.
Proof.
  unfold admitted_review_init. intros H. apply bind_ok in H as (u & Hr%contract_require_ok & [= <-]). simpl.
  rewrite !andb_true_iff in Hr. destruct Hr as ((Hc & _) & _). rewrite <-claims_ok_sort in Hc.
  unfold claims_ok, _valid_epistemic_assessments in Hc. rewrite !andb_true_iff in Hc.
  destruct Hc as (_ & Hc).
  destruct (_admitted_dimensions (ad_schema_version a0)) as [ds|] eqn:E; [|done].
  assert (Hds : NoDup ds ∧ zlen ds <= 9).
  { unfold _admitted_dimensions in E. repeat case_bool_decide; try discriminate; injection E as <-;
      (split; [apply (bool_decide_unpack _); by vm_compute|by vm_compute]). }
  rewrite !andb_true_iff, same_set_spec in Hc. destruct Hc as ((Hz & Hs) & _).
  apply Z.eqb_eq in Hz. split; [|lia].
  assert (Hp : ds ≡ₚ map ea_dimension (sort_assessments (ad_assessments a0))).
  { apply submseteq_length_Permutation.
    - apply NoDup_submseteq; [apply Hds|]. intros d. by rewrite Hs.
    - rewrite length_map. unfold zlen in Hz. lia. }
  rewrite <-Hp. apply Hds.
Qed.

Lemma matrix_keys_NoDup c a : NoDup (map ea_dimension (ad_assessments a)) → NoDup (matrix_keys c a).
Proof.
  intros Hd. assert (Hn : ∀ (f : Z → row_key) n, (∀ x y, f x = f y → x = y) → NoDup (map f (seqZ 1 n))).
  { intros f n Hf. apply NoDup_map_intro; [done|apply NoDup_seqZ]. }
  assert (He : ∀ {A} (f : A → row_key) k l, k ∈ map f l → ∃ x, k = f x).
  { intros A f k l (x & -> & _)%list_elem_of_fmap. eauto. }
  assert (Hc : ∀ k, k ∈ concat (nodes_keys 1 (ra_nodes (rx_acceptance c))) →
    (∃ i, k = KScope i) ∨ ∃ i j, k = KCheck i j).
  { intros k (i & node & _ & _ & Hk)%elem_nodes_keys. apply elem_child_keys in Hk. naive_solver. }
  unfold matrix_keys.
  repeat (apply NoDup_app; split_and!;
    [first [apply NoDup_singleton | apply Hn; by intros x y [=] | apply nodes_keys_NoDup
           | apply NoDup_map_intro; [by intros x y [=]|exact Hd]]
    | intros k Hk; rewrite ?elem_of_app, ?list_elem_of_singleton; intros Hk'|]);
    try apply NoDup_singleton.
  - apply list_elem_of_singleton in Hk as ->.
    destruct Hk' as [[? ?]%He|[[? ?]%He|[[[? ?]|(? & ? & ?)]%Hc|[[? ?]%He|?]]]]; done.
  - apply He in Hk as [? ->]. destruct Hk' as [[? ?]%He|[[[? ?]|(? & ? & ?)]%Hc|[[? ?]%He|?]]]; done.
  - apply He in Hk as [? ->]. destruct Hk' as [[[? ?]|(? & ? & ?)]%Hc|[[? ?]%He|?]]; done.
  - apply Hc in Hk as [[? ->]|(? & ? & ->)]; destruct Hk' as [[? ?]%He|?]; done.
  - apply He in Hk as [? ->]. done.
Qed.

Lemma zlen_check_keys n m checks : zlen (check_keys n m checks) = zlen checks.
Proof. unfold check_keys. rewrite zlen_map. unfold zlen at 1. rewrite length_seqZ. pose proof (zlen_nonneg checks). lia. Qed.

Lemma zlen_nodes_keys n nodes : zlen (concat (nodes_keys n nodes)) + zlen nodes =
  foldr (λ n total, node_row_count n + total) 0 nodes.
Proof.
  revert n. induction nodes as [|node nodes IH]; intros n; simpl; [done|].
  rewrite <-(IH (n + 1)), zlen_app, zlen_cons. unfold child_keys, node_row_count.
  rewrite zlen_app, zlen_check_keys. destruct (writes node); simpl; unfold zlen at 1; simpl; lia.
Qed.

Lemma zlen_seq_map {A} (f : Z → A) n : 0 <= n → zlen (map f (seqZ 1 n)) = n.
Proof. intros H. rewrite zlen_map. unfold zlen. rewrite length_seqZ. lia. Qed.

Lemma zlen_matrix_keys c a : zlen (matrix_keys c a) = row_count c a.
Proof.
  unfold matrix_keys, row_count. rewrite !zlen_app, !zlen_seq_map, !zlen_map by apply zlen_nonneg.
  rewrite <-(zlen_nodes_keys 1). unfold zlen at 1 6. simpl. lia.
Qed.

Lemma matrix_keys_valid c a k : Forall node_valid (ra_nodes (rx_acceptance c)) →
  zlen (ra_nodes (rx_acceptance c)) <= 64 → zlen (ra_constraints (rx_acceptance c)) <= 64 →
  k ∈ matrix_keys c a → valid_key k.
Proof.
  intros Hv Hn Hc. unfold matrix_keys. rewrite !elem_of_app, !list_elem_of_singleton.
  intros [-> |[(i & -> & Hi%elem_of_seqZ)%list_elem_of_fmap|[(i & -> & Hi%elem_of_seqZ)%list_elem_of_fmap|
    [(i & node & Hi & Hnode & Hk)%elem_nodes_keys|[(d & -> & _)%list_elem_of_fmap| ->]]]]]; simpl; try done; try lia.
  apply elem_child_keys in Hk as [-> |(j & -> & Hj)]; simpl; [lia|].
  apply (proj1 (Forall_forall _ _) Hv), node_valid_facts in Hnode as (_ & _ & ? & _). lia.
Qed.

Lemma sound_ids keys P rows : Forall2 (λ k row, row_sound k P row) keys rows →
  map mr_criterion_id rows = map key_id keys.
Proof. induction 1 as [|k row keys rows H _ IH]; simpl; [done|]. by rewrite IH, (rs_id _ _ _ H). Qed.

Lemma epistemic_rows_total l : Forall assessment_valid l →
  ∃ rows, map_result _epistemic_row l = Ok rows
    ∧ map mr_criterion_id rows = map key_id (map KEpistemic (map ea_dimension l)).
Proof.
  induction 1 as [|a l Ha _ (rows & Hr & Hids)]; [by exists []|].
  destruct (epistemic_row_total a Ha) as (row & Hrow & Hid). exists (row :: rows).
  cbn [map_result]. rewrite Hrow. cbn [mbind result_bind]. rewrite Hr. split; [done|].
  cbn [map]. by rewrite Hid, Hids.
Qed.

Lemma report_plain v : plain (verification_report_payload v) = true.
Proof.
  unfold verification_report_payload. rewrite plain_obj. cbn [forallb fst snd]. rewrite plain_map; [done|].
  intros r _. unfold _matrix_row_payload. rewrite plain_obj. cbn [forallb fst snd].
  by rewrite !plain_pstrs, !plain_popt.
Qed.

(** A report over distinct criteria is rejected for its size only. *)
Lemma report_init_total v : vr_schema_version v = VERIFICATION_REPORT_SCHEMA →
  re_identifier (vr_run_id v) = true →
  forallb re_digest [vr_context_digest v; vr_acceptance_digest v; vr_state_digest v;
    vr_artifact_evidence_digest v; vr_admitted_review_digest v] = true →
  1 <= zlen (vr_matrix v) → NoDup (map mr_criterion_id (vr_matrix v)) →
  vr_status v = _aggregate_status (vr_matrix v) →
  ∃ text, canonical_json_bytes (verification_report_payload v) = Ok text ∧
    verification_report_init v =
      if (zlen (vr_matrix v) <=? _MAX_MATRIX_ROWS) && (byte_len text <=? _MAX_REPORT_BYTES)
      then Ok v else Err invalid_input.
Proof.
  intros H1 H2 H3 H4 H5 H6. destruct (canonical_plain _ (report_plain v)) as [text Ht].
  exists text. split; [done|]. unfold verification_report_init, input_require, z_between, distinct.
  rewrite (bool_decide_eq_true_2 _ H1), H2, H3, (proj2 (Z.leb_le _ _) H4), (bool_decide_eq_true_2 _ H5),
    (bool_decide_eq_true_2 _ H6), Ht.
  destruct (zlen (vr_matrix v) <=? _MAX_MATRIX_ROWS); [|done]. simpl.
  by destruct (byte_len text <=? _MAX_REPORT_BYTES).
Qed.

Lemma context_digest_exists c0 c : review_context_init c0 = Ok c →
  ∃ d ad, review_context_digest c = Ok d ∧ review_acceptance_digest (rx_acceptance c) = Ok ad
    ∧ re_digest d = true ∧ re_digest ad = true.
Proof.
  unfold review_context_init. intros H. do 3 (apply bind_ok in H as (? & _ & H)).
  apply bind_ok in H as (pl & Hpl & H). apply bind_ok in H as (t & Ht & H).
  apply bind_ok in H as (u & _ & [= <-]).
  unfold review_context_digest. rewrite Hpl. cbn [mbind result_bind].
  unfold review_context_payload in Hpl. apply bind_ok in Hpl as (ad & Had & _). simpl in Had |- *.
  unfold json_digest at 1. rewrite Ht. cbn [mbind result_bind]. do 2 eexists.
  split_and!; [done|exact Had|apply bytes_digest_format|]. by eapply json_digest_format.
Qed.

(** Verification never fails on a row.  For a
    context and a review that their constructors returned, a review bound to
    another context or contract, or a citation outside the evidence, is reported
    as such; otherwise a report is built, with one row for each criterion of the
    contract, and it is refused for its size only. *)
Theorem verification_total c a : verification_input c a →
  ∃ d ad, review_context_digest c = Ok d ∧ review_acceptance_digest (rx_acceptance c) = Ok ad ∧
  if negb (bool_decide (ad_context_digest a = d) && bool_decide (ad_acceptance_digest a = ad))
  then verify_review c a = Err binding_mismatch
  else if negb (forallb (citation_fits (evidence_by_id (rx_evidence c)))
                  (citations_of (ad_findings a) (ad_assessments a)))
  then verify_review c a = Err citation_mismatch
  else ∃ report text, zlen (vr_matrix report) = row_count c a
    ∧ NoDup (map mr_criterion_id (vr_matrix report))
    ∧ canonical_json_bytes (verification_report_payload report) = Ok text
    ∧ verify_review c a =
        if (row_count c a <=? _MAX_MATRIX_ROWS) && (byte_len text <=? _MAX_REPORT_BYTES)
        then Ok report else Err invalid_input.
Proof.
  intros [[c0 Hc] [a0 Ha] Hn He [r0 Hr] Hf Hs].
  destruct (context_digest_exists c0 c Hc) as (d & ad & Hd & Had & Hdd & Hda). exists d, ad.
  split_and!; [done|done|]. unfold verify_review. rewrite Hd, Had. cbn [mbind result_bind].
  destruct (bool_decide (ad_context_digest a = d) && _); cbn [negb contract_require mbind result_bind];
    [|reflexivity].
  unfold _validate_citations. destruct (forallb _ _) eqn:Hfit; cbn [negb contract_require mbind result_bind];
    [|reflexivity].
  assert (Hknown : ∀ f x, f ∈ ad_findings a → x ∈ fi_citations f →
    is_some (dict_get (ci_evidence_id x) (evidence_by_id (rx_evidence c))) = true).
  { intros f x Hin Hx. rewrite forallb_elem in Hfit. specialize (Hfit x).
    unfold citations_of in Hfit. rewrite elem_of_app, elem_of_concat in Hfit.
    assert (Hfx : citation_fits (evidence_by_id (rx_evidence c)) x = true).
    { apply Hfit. left. exists (fi_citations f). split; [done|]. apply list_elem_of_fmap. eauto. }
    unfold citation_fits in Hfx. by destruct (dict_get _ _). }
  apply review_context_init_ok in Hc as [Hok _].
  assert (Hrun : re_identifier (ra_run_id (rx_acceptance c)) = true).
  { unfold review_acceptance_init in Ha. apply bind_ok in Ha as (u & Hq%contract_require_ok & Ha).
    do 3 (apply bind_ok in Ha as (? & _ & Ha)). injection Ha as <-. simpl.
    rewrite !andb_true_iff in Hq. cbn [forallb] in Hq. rewrite !andb_true_iff in Hq. tauto. }
  apply review_acceptance_init_ok in Ha as (_ & _ & _ & _ & [_ Hzn] & Hzc).
  apply dimensions_distinct in Hr as [Hdim _].
  unfold _MAX_NODES in Hzn. unfold review_max_constraints in Hzc.
  destruct (all_rows_total (rx_evidence c) (ad_findings a) _ Hknown He Hf 1 _ Hn ltac:(lia) ltac:(lia))
    as (rows & -> & Hrows & Hsup). cbn [mbind result_bind].
  destruct (intent_row_total _ KObjective Criterion.OBJECTIVE (objective_claim ad (rx_acceptance c))
    _ _ (or_introl eq_refl) I eq_refl Hrows Hf) as (ob & Hob & Hobs).
  change "objective" with (key_id KObjective). rewrite Hob. cbn [mbind result_bind].
  destruct (constraint_rows_total _ ad 1 (ra_constraints (rx_acceptance c)) _ _ ltac:(lia) ltac:(lia) Hrows Hf)
    as (cs & -> & Hcs). cbn [mbind result_bind].
  destruct (epistemic_rows_total _ Hs) as (es & -> & Hes). cbn [mbind result_bind].
  destruct (review_row_total a Hf Hs) as (rv & -> & Hrv). cbn [mbind result_bind].
  unfold admitted_review_digest.
  destruct (digest_plain _ (admitted_plain a Hf Hs)) as (dg & -> & Hdg). cbn [mbind result_bind].
  set (matrix := [ob] ++ _). set (report := MkReport _ _ _ _ _ _ _ matrix _).
  assert (Hids : map mr_criterion_id matrix = map key_id (matrix_keys c a)).
  { unfold matrix, matrix_keys. rewrite !map_app. cbn [map].
    by rewrite (rs_id _ _ _ Hobs), Hcs, (sound_ids _ _ _ Hrows), (sound_ids _ _ _ Hsup), Hes, Hrv. }
  assert (Hz : zlen matrix = row_count c a).
  { rewrite <-zlen_matrix_keys. rewrite <-(zlen_map mr_criterion_id), Hids. apply zlen_map. }
  assert (Hnd : NoDup (map mr_criterion_id matrix)).
  { rewrite Hids. apply key_ids_NoDup; [by apply matrix_keys_NoDup|].
    intros k Hk. by apply valid_key_listed, (matrix_keys_valid c a). }
  destruct (report_init_total report) as (text & Ht & Hi);
    [reflexivity|exact Hrun| | |exact Hnd|reflexivity|].
  - cbn [report vr_context_digest vr_acceptance_digest vr_state_digest vr_artifact_evidence_digest
      vr_admitted_review_digest forallb]. by rewrite Hdd, Hda, (rxo_state _ Hok), (rxo_artifacts _ Hok), Hdg.
  - change (1 <= zlen matrix). unfold matrix. cbn [app]. rewrite zlen_cons. pose proof (zlen_nonneg (cs ++ map fst rows ++ concat (map snd rows) ++ es ++ [rv])). lia.
  - exists report, text. split_and!; [exact Hz|exact Hnd|exact Ht|].
    rewrite Hi. change (vr_matrix report) with matrix. by rewrite Hz.
Qed.

(** ** The size of the largest matrix

    The limit counts an objective, a review policy, 64 constraints, 64 nodes, 64
    write scopes and 64 checks for each node, but not the assessments. *)

Lemma row_count_max c a :
  zlen (ra_constraints (rx_acceptance c)) = 64 → zlen (ra_nodes (rx_acceptance c)) = 64 →
  (∀ n, n ∈ ra_nodes (rx_acceptance c) → writes n = true ∧ zlen (rn_checks n) = 64) →
  row_count c a = _MAX_MATRIX_ROWS + zlen (ad_assessments a).
Proof.
  intros Hc Hn H. unfold row_count. rewrite Hc.
  assert (E : foldr (λ n total, node_row_count n + total) 0 (ra_nodes (rx_acceptance c))
    = 66 * zlen (ra_nodes (rx_acceptance c))).
  { clear Hn. induction (ra_nodes (rx_acceptance c)) as [|n nodes IH]; [done|]. cbn [foldr].
    rewrite IH by (intros; apply H; by right). unfold node_row_count.
    destruct (H n ltac:(by left)) as [-> ->]. rewrite zlen_cons. lia. }
  rewrite E, Hn. unfold _MAX_MATRIX_ROWS. lia.
Qed.
