(* ===== verification/ReviewWitness.v ===== *)
(** * A concrete review

    One node with one check, reviewed with one citation per dimension, admitted
    and verified: the theorems of [ReviewFacts], [VerificationFacts] and
    [VerificationTotal] applied. *)

From S2P Require Import Prelude PyStr PyFloat Sha256 Json JsonText JsonFacts PyTime Contracts Printable.
From S2P Require Import Events Strict VerificationLifecycle OutputSchema Gateway Changes Review ReviewFacts.
From S2P Require Import Verification VerificationFacts VerificationTotal.
From Stdlib Require Import ZArith Lia Ascii String.
From stdpp Require Import base gmap sets list strings.
Local Open Scope Z_scope.

Module SampleReview.
Definition ok {A} (r : result A) (default : A) : A := match r with Ok x => x | Err _ => default end.

Definition command : string := Eval vm_compute in bytes_digest "command".
Definition outcome : string := Eval vm_compute in bytes_digest "result".
Definition check : ReviewCheck := MkReviewCheck "tests" ["pytest"] 0 command outcome true.
Definition node : ReviewPlanNode :=
  MkReviewNode "n1" "run the tests" [] ["repository-read"; "process"] [] 0 [check].
Definition acceptance : ReviewAcceptance :=
  MkAcceptance "r1" "p1" "i1" "plan1" "objective" ["constraint"]
    "0123456789012345678901234567890123456789" [node] REVIEW_ACCEPTANCE_SCHEMA.

Definition no_evidence : ReviewEvidence := MkEvidence OUTCOME "" "" "" 0 None None None 0 "".
Definition evidence_of (kind : ReviewEvidenceKind) (digest text : string) (check_id : option string)
    : ReviewEvidence :=
  ok (review_evidence_init kind "n1" digest text 1 None check_id None) no_evidence.
Definition items : list ReviewEvidence := Eval vm_compute in
  [evidence_of OUTCOME outcome "done" None;
   evidence_of CHECK_COMMAND command "pytest" (Some "tests");
   evidence_of CHECK_RESULT outcome "exit 0" (Some "tests");
   evidence_of CHECK_STDOUT outcome "1 passed" (Some "tests");
   evidence_of CHECK_STDERR outcome "" (Some "tests")].
Definition context0 : ReviewContext := MkReviewContext acceptance command outcome items REVIEW_CONTEXT_SCHEMA.
Definition context : ReviewContext := Eval vm_compute in ok (review_context_init context0) context0.
Definition context_digest : string := Eval vm_compute in ok (review_context_digest context) "".
Definition acceptance_digest : string := Eval vm_compute in ok (review_acceptance_digest acceptance) "".

Definition citation : ReviewCitation := Eval vm_compute in
  MkCitation (re_evidence_id (nth 0 items no_evidence)) 1 1.
Definition assessment (d : EpistemicDimension) : EpistemicAssessment :=
  MkAssessment d SUPPORTED "claim" "question" [citation] [].
Definition proposal0 : ReviewProposal :=
  MkReviewProposal context_digest [] "all good" (map assessment epistemic_dimensions) REVIEW_PROPOSAL_SCHEMA.
Definition proposal : ReviewProposal := Eval vm_compute in ok (review_proposal_init proposal0) proposal0.
Definition admitted : AdmittedReview :=
  MkAdmitted context_digest acceptance_digest [] "all good" (sort_assessments (rp_assessments proposal))
    ADMITTED_REVIEW_SCHEMA.
Definition no_report : VerificationReport := MkReport "" "" "" "" "" "" Verdict.FAIL [] "".
Definition report : VerificationReport := Eval vm_compute in ok (verify_review context admitted) no_report.

Lemma context_is_ok : review_context_init context0 = Ok context. Proof. by_vm. Qed.
Lemma acceptance_is_ok : review_acceptance_init acceptance = Ok acceptance. Proof. by_vm. Qed.
Lemma proposal_is_ok : review_proposal_init proposal0 = Ok proposal. Proof. by_vm. Qed.
Lemma context_digest_is_ok : review_context_digest context = Ok context_digest. Proof. by_vm. Qed.
Lemma acceptance_digest_is_ok : review_acceptance_digest (rx_acceptance context) = Ok acceptance_digest.
Proof. by_vm. Qed.
Lemma report_is_ok : verify_review context admitted = Ok report. Proof. by_vm. Qed.
Lemma proposal_reads : review_proposal_from_mapping (review_proposal_payload proposal0) = Ok proposal.
Proof. by_vm. Qed.
Lemma admitted_reads : admitted_review_from_mapping (admitted_review_payload admitted) = Ok admitted.
Proof. by_vm. Qed.

Lemma assessment_is_ok d : assessment_valid (assessment d).
Proof. split; [by destruct d; vm_compute|]. constructor; [by_vm|constructor]. Qed.

Lemma assessments_are_ok : Forall assessment_valid (ad_assessments admitted).
Proof.
  apply sort_assessments_Forall.
  assert (rp_assessments proposal = sort_assessments (map assessment epistemic_dimensions)) as -> by by_vm.
  apply sort_assessments_Forall, Forall_forall. intros a (d & -> & _)%list_elem_of_fmap.
  apply assessment_is_ok.
Qed.

Lemma evidence_is_ok kind digest text check_id :
  review_evidence_init kind "n1" digest text 1 None check_id None
    = Ok (evidence_of kind digest text check_id) →
  evidence_valid (evidence_of kind digest text check_id).
Proof. intros H. by exists kind, "n1", digest, text, 1, None, check_id, None. Qed.

Lemma items_are_ok : Forall evidence_valid (rx_evidence context).
Proof.
  assert (rx_evidence context = sort_by re_evidence_id items) as -> by by_vm.
  rewrite sort_by_perm.
  assert (items =
    [evidence_of OUTCOME outcome "done" None;
     evidence_of CHECK_COMMAND command "pytest" (Some "tests");
     evidence_of CHECK_RESULT outcome "exit 0" (Some "tests");
     evidence_of CHECK_STDOUT outcome "1 passed" (Some "tests");
     evidence_of CHECK_STDERR outcome "" (Some "tests")]) as -> by by_vm.
  do 5 (constructor; [apply evidence_is_ok; by_vm|]). constructor.
Qed.

Lemma input_is_ok : verification_input context admitted.
Proof.
  constructor.
  - exists context0. exact context_is_ok.
  - exists acceptance. by_vm.
  - constructor; [|constructor]. split; [exists node; by_vm|]. constructor; [by_vm|constructor].
  - exact items_are_ok.
  - exists admitted. by_vm.
  - constructor.
  - exact assessments_are_ok.
Qed.
End SampleReview.

Lemma dependency_cycle_exact_witness : _has_dependency_cycle [SampleReview.node] = true ↔
  ∃ S, S ≠ [] ∧ ∀ x, x ∈ S → ∃ n d, n ∈ [SampleReview.node] ∧ rn_node_id n = x ∧ d ∈ rn_depends_on n ∧ d ∈ S.
Proof.
  apply (dependency_cycle_exact [SampleReview.node]).
  - apply NoDup_singleton.
  - intros n d ->%list_elem_of_singleton Hd. by apply elem_of_nil in Hd.
Defined.

Lemma review_evidence_scoped_witness : ∃ e node, e ∈ rx_evidence SampleReview.context ∧
  node ∈ ra_nodes (rx_acceptance SampleReview.context) ∧ rn_node_id node = re_node_id e.
Proof.
  destruct (rx_evidence SampleReview.context) as [|e l] eqn:E; [discriminate E|].
  destruct (review_evidence_scoped SampleReview.acceptance SampleReview.context0 SampleReview.context e)
    as (node & Hn & Hid & _).
  - by_vm.
  - exact SampleReview.context_is_ok.
  - rewrite E. by left.
  - exists e, node. split; [by left|]. by split.
Defined.

Lemma admission_exact_witness :
  admit_review SampleReview.context SampleReview.proposal = Ok SampleReview.admitted.
Proof.
  apply (admission_exact SampleReview.context0 SampleReview.context SampleReview.proposal0
    SampleReview.proposal SampleReview.admitted SampleReview.context_digest SampleReview.acceptance_digest
    SampleReview.context_is_ok SampleReview.proposal_is_ok SampleReview.context_digest_is_ok
    SampleReview.acceptance_digest_is_ok).
  split_and!; [by_vm|by_vm| |by_vm].
  apply citations_fit_spec; [|by_vm]. apply (bool_decide_unpack _). by vm_compute.
Defined.

Lemma review_proposal_roundtrip_witness :
  review_proposal_from_mapping (review_proposal_payload SampleReview.proposal) = Ok SampleReview.proposal.
Proof. apply (review_proposal_roundtrip _ _ SampleReview.proposal_reads). Defined.

Lemma admitted_review_roundtrip_witness :
  admitted_review_from_mapping (admitted_review_payload SampleReview.admitted) = Ok SampleReview.admitted.
Proof. apply (admitted_review_roundtrip _ _ SampleReview.admitted_reads). Defined.

Lemma verification_pass_exact_witness :
  vr_status SampleReview.report = Verdict.PASS ∧
  (vr_status SampleReview.report = Verdict.PASS → node_proved (rx_evidence SampleReview.context) SampleReview.node).
Proof.
  split; [by_vm|]. intros H.
  apply (verification_pass_exact _ _ _ SampleReview.report_is_ok) in H as (_ & _ & H). apply H. by left.
Defined.

Lemma verification_total_witness : ∃ d,
  review_context_digest SampleReview.context = Ok d ∧ verification_input SampleReview.context SampleReview.admitted.
Proof.
  destruct (verification_total _ _ SampleReview.input_is_ok) as (d & ad & Hd & _).
  exists d. split; [exact Hd|exact SampleReview.input_is_ok].
Defined.
