(* ===== verification/ReplayReview.v ===== *)
(** * orchestration/replay.py: review input from verified artifacts

    [build_review_context_from_artifacts] turns the material of a verified run
    into a [ReviewContext]: a plan node for each outcome and bounded excerpts of
    the artifacts as evidence. *)

From S2P Require Import Prelude PyStr PyFloat Json JsonText JsonFacts JsonBytes PyTime Contracts.
From S2P Require Import Events EventStore Artifacts Strict OutputSchema Gateway Changes Acceptance.
From S2P Require Import ExecutionArtifacts Replay Review.
From Stdlib Require Import ZArith Lia Ascii String.
From stdpp Require Import base gmap sets list strings.
Local Open Scope Z_scope.

Definition _MAX_REVIEW_EVIDENCE_BYTES : Z := 512 * 1024.
Definition newline : string := String (ascii_of_Z 10) EmptyString.
Definition _REVIEW_TRUNCATION_MARKER : string :=
  newline +:+ "...[truncated; complete artifact retained by digest]" +:+ newline.

(** ** base64.b64encode *)

Definition base64_char (n : Z) : ascii :=
  ascii_of_Z (if n <? 26 then 65 + n else if n <? 52 then 71 + n else if n <? 62 then n - 4
              else if n =? 62 then 43 else 47).
Definition pad_char : ascii := ascii_of_Z 61.

Fixpoint b64encode (s : string) : string :=
  match s with
  | EmptyString => EmptyString
  | String a EmptyString =>
      let x := byte_at a in
      String (base64_char (x / 4)) (String (base64_char (x mod 4 * 16))
        (String pad_char (String pad_char EmptyString)))
  | String a (String b EmptyString) =>
      let x := byte_at a in let y := byte_at b in
      String (base64_char (x / 4)) (String (base64_char (x mod 4 * 16 + y / 16))
        (String (base64_char (y mod 16 * 4)) (String pad_char EmptyString)))
  | String a (String b (String c s')) =>
      let x := byte_at a in let y := byte_at b in let z := byte_at c in
      String (base64_char (x / 4)) (String (base64_char (x mod 4 * 16 + y / 16))
        (String (base64_char (y mod 16 * 4 + z / 64)) (String (base64_char (z mod 64)) (b64encode s'))))
  end.

(** ** Bounded excerpts *)

(** [bytes.decode("utf-8", errors="ignore")]: an invalid byte is skipped with
    the well-formed part of its sequence. *)
Fixpoint utf8_ignore (s : string) : string :=
  let cont lo hi a := (lo <=? byte_at a) && (byte_at a <=? hi) in
  match s with
  | EmptyString => EmptyString
  | String a s1 =>
      let b := byte_at a in
      if b <? 128 then String a (utf8_ignore s1)
      else if b <? 194 then utf8_ignore s1
      else if b <? 224 then
        match s1 with
        | String c1 s2 => if cont 128 191 c1 then String a (String c1 (utf8_ignore s2)) else utf8_ignore s1
        | EmptyString => EmptyString
        end
      else if b <? 240 then
        match s1 with
        | String c1 s2 =>
            if cont (if b =? 224 then 160 else 128) (if b =? 237 then 159 else 191) c1 then
              match s2 with
              | String c2 s3 =>
                  if cont 128 191 c2 then String a (String c1 (String c2 (utf8_ignore s3)))
                  else utf8_ignore s2
              | EmptyString => EmptyString
              end
            else utf8_ignore s1
        | EmptyString => EmptyString
        end
      else if b <? 245 then
        match s1 with
        | String c1 s2 =>
            if cont (if b =? 240 then 144 else 128) (if b =? 244 then 143 else 191) c1 then
              match s2 with
              | String c2 s3 =>
                  if cont 128 191 c2 then
                    match s3 with
                    | String c3 s4 =>
                        if cont 128 191 c3
                        then String a (String c1 (String c2 (String c3 (utf8_ignore s4))))
                        else utf8_ignore s3
                    | EmptyString => EmptyString
                    end
                  else utf8_ignore s2
              | EmptyString => EmptyString
              end
            else utf8_ignore s1
        | EmptyString => EmptyString
        end
      else utf8_ignore s1
  end.

Definition take_z (n : Z) (s : string) : string := take_bytes (Z.to_nat n) s.

Definition _bounded_base64_excerpt (source : _ReviewExcerptSource) (maximum_bytes : Z) : result string :=
  let complete := "base64:" +:+ b64encode (sx_prefix source) in
  if (sx_size_bytes source =? byte_len (sx_prefix source)) && (byte_len complete <=? maximum_bytes)
  then Ok complete
  else
    let label := "base64-prefix:" in
    let available := maximum_bytes - (byte_len label + byte_len _REVIEW_TRUNCATION_MARKER) in
    let raw_prefix_bytes := Z.min (byte_len (sx_prefix source)) (available / 4 * 3) in
    _ ← raise_if (raw_prefix_bytes <? 1) evidence_budget_exceeded;
    let excerpt := label +:+ b64encode (take_z raw_prefix_bytes (sx_prefix source))
                     +:+ _REVIEW_TRUNCATION_MARKER in
    _ ← raise_if (maximum_bytes <? byte_len excerpt) evidence_budget_exceeded;
    Ok excerpt.

Definition _bounded_review_excerpt (source : _ReviewExcerptSource) (maximum_bytes : Z) : result string :=
  if sx_binary source then _bounded_base64_excerpt source maximum_bytes
  else if sx_size_bytes source <=? maximum_bytes then decode_text (sx_prefix source)
  else
    let marker := _REVIEW_TRUNCATION_MARKER in
    _ ← raise_if (maximum_bytes <=? byte_len marker) evidence_budget_exceeded;
    Ok (utf8_ignore (take_z (maximum_bytes - byte_len marker) (sx_prefix source)) +:+ marker).

(** ** Evidence of a node *)

Definition operation_evidence_count (f : FileChange) : Z :=
  match fc_operation f with REPLACE => 3 | _ => 2 end.

Definition _review_evidence_item_count (m : _VerifiedNodeMaterial) : result Z :=
  let count := 1 + 4 * zlen (vm_checks m) in
  if xn_repository_write (vm_expectation m) then
    proposal ← of_option definition_mismatch (vm_proposal m);
    Ok (count + foldr Z.add 0 (map operation_evidence_count (cp_operations proposal)))
  else Ok count.

Section Evidence.
Context (maximum_excerpt_bytes : Z).

(** [_append_review_evidence]: the item appended. *)
Definition evidence_from_source (kind : ReviewEvidenceKind) (node_id artifact_digest : string)
    (source : _ReviewExcerptSource) (path check_id : option string) (operation : option TextOperation)
    : result ReviewEvidence :=
  excerpt ← _bounded_review_excerpt source maximum_excerpt_bytes;
  review_evidence_init kind node_id artifact_digest excerpt 1 path check_id operation.
Definition evidence_from_bytes (kind : ReviewEvidenceKind) (node_id artifact_digest data : string)
    (path check_id : option string) (operation : option TextOperation) : result ReviewEvidence :=
  source ← _review_excerpt_source data false;
  evidence_from_source kind node_id artifact_digest source path check_id operation.

(** One operation of a proposal: what was there, what is there, and the effect. *)
Definition operation_evidence (node_id : string) (before : list (string * string))
    (context_link proposal_link effect_link : ExecutionArtifactLink) (effect : _ReviewExcerptSource)
    (f : FileChange) : result (list ReviewEvidence) :=
  let o := fc_operation f in
  source_before ← (if bool_decide (o ∈ [REPLACE; DELETE]) then
      content ← of_option definition_mismatch (dict_get (fc_path f) before);
      e ← evidence_from_bytes SOURCE_BEFORE node_id (ln_digest context_link) content
            (Some (fc_path f)) None (Some o);
      Ok [e]
    else Ok []);
  source_after ← (if bool_decide (o ∈ [CREATE; REPLACE]) then
      content ← of_option definition_mismatch (fc_content f);
      e ← evidence_from_bytes SOURCE_AFTER node_id (ln_digest proposal_link) content
            (Some (fc_path f)) None (Some o);
      Ok [e]
    else Ok []);
  e ← evidence_from_source EFFECT node_id (ln_digest effect_link) effect (Some (fc_path f)) None (Some o);
  Ok (source_before ++ source_after ++ [e]).

Definition change_evidence (m : _VerifiedNodeMaterial) : result (list ReviewEvidence) :=
  let x := vm_expectation m in
  if xn_repository_write x then
    match vm_context m, vm_proposal m, nm_context (vm_manifest m), nm_proposal (vm_manifest m),
          nm_effect (vm_manifest m), vm_effect m with
    | Some context, Some proposal, Some context_link, Some proposal_link, Some effect_link, Some effect =>
        let before := dict_of ef_path ef_content (cc_files context) in
        parts ← map_result (operation_evidence (xn_node_id x) before context_link proposal_link
                                 effect_link effect) (cp_operations proposal);
        Ok (concat parts)
    | _, _, _, _, _, _ => Err definition_mismatch
    end
  else Ok [].

Definition check_evidence (node_id : string) (c : _VerifiedCheckMaterial) : result (list ReviewEvidence) :=
  let check_id := Some (ac_check_id (vc_command c)) in
  let recorded := vc_recorded c in
  command ← evidence_from_bytes CHECK_COMMAND node_id (ln_digest (ck_command recorded))
              (vc_command_bytes c) None check_id None;
  answer ← evidence_from_bytes CHECK_RESULT node_id (ln_digest (ck_result recorded))
             (vc_result_bytes c) None check_id None;
  stdout ← evidence_from_source CHECK_STDOUT node_id (ln_digest (ck_stdout recorded)) (vc_stdout c)
             None check_id None;
  stderr ← evidence_from_source CHECK_STDERR node_id (ln_digest (ck_stderr recorded)) (vc_stderr c)
             None check_id None;
  Ok [command; answer; stdout; stderr].

Definition _review_evidence_for_node (m : _VerifiedNodeMaterial) : result (list ReviewEvidence) :=
  let node_id := xn_node_id (vm_expectation m) in
  outcome ← evidence_from_bytes OUTCOME node_id (ln_digest (vm_outcome_link m)) (vm_outcome_bytes m)
              None None None;
  changes ← change_evidence m;
  checks ← map_result (check_evidence node_id) (vm_checks m);
  Ok (outcome :: changes ++ concat checks).
End Evidence.

(** ** The review context *)

Definition review_check_of (c : _VerifiedCheckMaterial) : result ReviewCheck :=
  digest ← acceptance_command_digest (vc_command c);
  review_check_init (MkReviewCheck (ac_check_id (vc_command c)) (ac_argv (vc_command c))
    (ac_expected_exit_code (vc_command c)) digest (vc_result_digest c) (vc_passed c)).

Definition review_node_of (m : _VerifiedNodeMaterial) : result ReviewPlanNode :=
  let x := vm_expectation m in
  checks ← map_result review_check_of (vm_checks m);
  review_node_init (MkReviewNode (xn_node_id x) (xn_objective x) (xn_depends_on x) (xn_effects x)
    (xn_allowed_paths x) (xn_max_changed_paths x) checks).

Definition graph_complete (nodes : list ReplayNodeExpectation) (materials : list _VerifiedNodeMaterial)
    (constraints : list string) (base_commit : string) (require_exact_constraints : bool) : bool :=
  (zlen materials =? zlen nodes)
  && forallb (λ x, bool_decide (xn_status x = "succeeded")) nodes
  && negb (require_exact_constraints
           && existsb (λ x, negb (bool_decide (xn_constraints x = constraints))) nodes)
  && forallb (λ x, eqb (xn_repository_write x) (bool_decide ("repository-write" ∈ xn_effects x))) nodes
  && negb (existsb (λ x, bool_decide (xn_depends_on x = [])
                         && negb (bool_decide (xn_base_commit x = Some base_commit))) nodes)
  && forallb (λ m, negb (bool_decide (vm_checks m = []))) materials
  && forallb (λ m, forallb vc_passed (vm_checks m)) materials.

(** The plan node and the evidence of each material, in the order of the loop. *)
Definition node_and_evidence (maximum_excerpt_bytes : Z) (m : _VerifiedNodeMaterial)
    : result (ReviewPlanNode * list ReviewEvidence) :=
  node ← review_node_of m;
  evidence ← _review_evidence_for_node maximum_excerpt_bytes m;
  Ok (node, evidence).

(** The run a review is about. *)
Record review_subject := MkSubject {
  sb_run_id : string;
  sb_project_id : string;
  sb_intent_id : string;
  sb_plan_id : string;
  sb_objective : string;
  sb_constraints : list string;
  sb_base_commit : string;
  sb_state_digest : string
}.

Definition assemble_context (sb : review_subject) (evidence_digest : string)
    (materials : list _VerifiedNodeMaterial) : result ReviewContext :=
  counts ← map_result _review_evidence_item_count materials;
  let item_count := foldr Z.add 0 counts in
  _ ← raise_if (negb (z_between 1 item_count MAX_REVIEW_EVIDENCE_ITEMS)) evidence_budget_exceeded;
  let maximum_excerpt_bytes := Z.min _MAX_REVIEW_EXCERPT_BYTES (_MAX_REVIEW_EVIDENCE_BYTES / item_count) in
  _ ← raise_if (maximum_excerpt_bytes <? 1) evidence_budget_exceeded;
  parts ← map_result (node_and_evidence maximum_excerpt_bytes) materials;
  let evidence := concat (map snd parts) in
  _ ← raise_if (negb (zlen evidence =? item_count)
                || (_MAX_REVIEW_EVIDENCE_BYTES <? sum_bytes (map re_excerpt evidence)))
        evidence_budget_exceeded;
  acceptance ← review_acceptance_init (MkAcceptance (sb_run_id sb) (sb_project_id sb) (sb_intent_id sb)
    (sb_plan_id sb) (sb_objective sb) (sb_constraints sb) (sb_base_commit sb) (map fst parts)
    REVIEW_ACCEPTANCE_SCHEMA);
  review_context_init (MkReviewContext acceptance (sb_state_digest sb) evidence_digest evidence
    REVIEW_CONTEXT_SCHEMA).

(** [except ReviewContractError as error: raise ReviewEvidenceError(...)] *)
Definition contract_mismatch {A} (r : result A) : result A :=
  match r with Err (ReviewContractError _) => Err definition_mismatch | _ => r end.

Section Build.
Context {R : Type} (reader_stat : string → R → result ArtifactRef * R)
  (reader_get_bytes : ArtifactRef → R → result string * R)
  (decode_other : string → string → option string).

Definition build_review_context_from_artifacts (reader : option R) (sb : review_subject)
    (nodes : list ReplayNodeExpectation) (require_exact_constraints : bool) : result ReviewContext :=
  '(report, materials) ← _verify_run_materials reader_stat reader_get_bytes decode_other reader
                           (sb_run_id sb) nodes;
  _ ← raise_if (negb (bool_decide (xr_status report = ReplayStatus.VERIFIED))) artifacts_not_verified;
  _ ← raise_if (negb (graph_complete nodes materials (sb_constraints sb) (sb_base_commit sb)
                        require_exact_constraints)) definition_mismatch;
  contract_mismatch (assemble_context sb (xr_evidence_digest report) materials).
End Build.

Example b64_1 : b64encode "Man" = "TWFu". Proof. by_vm. Qed.
Example b64_2 : b64encode "Ma" = "TWE=". Proof. by_vm. Qed.
Example b64_3 : b64encode "light work." = "bGlnaHQgd29yay4=". Proof. by_vm. Qed.
