(* ===== verification/ReplayExcerpts.v ===== *)
(** * orchestration/replay.py: bounded excerpts

    The excerpts a reviewer sees fit their budget and are text: a short text is
    complete, a long one is cut at a character boundary, and bytes that are not
    text are shown in base64. *)

From S2P Require Import Prelude PyStr PyFloat Json JsonText JsonFacts JsonBytes PyTime Contracts.
From S2P Require Import Events EventStore Artifacts Strict OutputSchema Gateway Changes Acceptance.
From S2P Require Import ExecutionArtifacts Replay Review ReplayReview.
From Stdlib Require Import ZArith Lia Ascii String.
From stdpp Require Import base gmap sets list strings.
Local Open Scope Z_scope.

(** ** base64 *)

(** Three bytes at a time. *)
Lemma string_ind3 (P : string → Prop) :
  P EmptyString → (∀ a, P (String a EmptyString)) → (∀ a b, P (String a (String b EmptyString))) →
  (∀ a b c s, P s → P (String a (String b (String c s)))) → ∀ s, P s.
Proof.
  intros H0 H1 H2 H3. fix IH 1. intros [|a [|b [|c s]]]; [exact H0|apply H1|apply H2|apply H3, IH].
Qed.

Lemma byte_len_cons a s : byte_len (String a s) = 1 + byte_len s.
Proof. unfold byte_len. cbn [String.length]. lia. Qed.

Lemma byte_len_app s t : byte_len (s +:+ t) = byte_len s + byte_len t.
Proof. unfold byte_len. rewrite length_app_s. lia. Qed.

Lemma b64encode_length s : byte_len (b64encode s) = 4 * ((byte_len s + 2) / 3).
Proof.
  induction s as [|a|a b|a b c s IH] using string_ind3; [done..|].
  cbn [b64encode]. rewrite !byte_len_cons, IH.
  replace (1 + (1 + (1 + byte_len s)) + 2) with (byte_len s + 2 + 1 * 3) by lia. rewrite Z.div_add by lia. lia.
Qed.

Lemma byte_range a : 0 <= byte_at a < 256.
Proof. unfold byte_at. pose proof (N_ascii_bounded a). lia. Qed.

Lemma base64_char_ascii n : 0 <= n < 64 → byte_at (base64_char n) < 128.
Proof.
  intros H. unfold base64_char.
  repeat case_match; rewrite byte_ascii; lia.
Qed.

Lemma ascii_cons a s : byte_at a < 128 → ascii_text s = true → ascii_text (String a s) = true.
Proof.
  intros Ha Hs. unfold ascii_text, all_chars in *. cbn [list_ascii_of_string forallb]. rewrite Hs, andb_true_r.
  by apply Z.ltb_lt.
Qed.

#[local] Ltac Zify.zify_post_hook ::= Z.to_euclidean_division_equations.

Lemma b64encode_ascii s : ascii_text (b64encode s) = true.
Proof.
  induction s as [|a|a b|a b c s IH] using string_ind3; [done|..]; cbn [b64encode].
  - pose proof (byte_range a). repeat (apply ascii_cons; [done || (apply base64_char_ascii; lia)|]). done.
  - pose proof (byte_range a). pose proof (byte_range b).
    repeat (apply ascii_cons; [done || (apply base64_char_ascii; lia)|]). done.
  - pose proof (byte_range a). pose proof (byte_range b). pose proof (byte_range c).
    repeat (apply ascii_cons; [apply base64_char_ascii; lia|]). done.
Qed.

(** ** UTF-8 *)

Lemma app_cons a s t : String a s +:+ t = String a (s +:+ t).
Proof. done. Qed.

Lemma ascii_app s t : ascii_text s = true → ascii_text t = true → ascii_text (s +:+ t) = true.
Proof.
  unfold ascii_text, all_chars. induction s as [|a s IH]; [done|].
  cbn [list_ascii_of_string forallb]. intros [Ha Hs]%andb_true_iff Ht.
  rewrite app_cons. cbn [list_ascii_of_string forallb]. by rewrite Ha, IH.
Qed.

Lemma utf8_app n s t surrogates : (String.length s <= n)%nat → utf8_well_formed surrogates s = true →
  utf8_well_formed surrogates (s +:+ t) = utf8_well_formed surrogates t.
Proof.
  revert s. induction n as [|n IH]; intros s Hn H; (destruct s as [|a s]; [done|]); cbn [String.length] in Hn; [lia|].
  cbn [utf8_well_formed] in H. rewrite app_cons. cbn [utf8_well_formed].
  destruct (byte_at a <? 128); [apply IH; [lia|done]|]. destruct (byte_at a <? 194); [done|].
  destruct (byte_at a <? 224).
  { destruct s as [|b s]; [done|]. rewrite ?app_cons. cbn [String.length] in *. apply andb_true_iff in H as [-> H].
    apply IH; [lia|done]. }
  destruct (byte_at a <? 240).
  { destruct s as [|b [|c s]]; try done. rewrite ?app_cons. cbn [String.length] in *.
    apply andb_true_iff in H as [Hc H]. rewrite Hc. apply IH; [lia|done]. }
  destruct (byte_at a <? 245); [|done].
  destruct s as [|b [|c [|d s]]]; try done. rewrite ?app_cons. cbn [String.length] in *.
  apply andb_true_iff in H as [Hc H]. rewrite Hc. apply IH; [lia|done].
Qed.

(** Ignoring what cannot be decoded leaves well-formed text. *)
Lemma utf8_ignore_ok n s : (String.length s <= n)%nat → utf8_well_formed false (utf8_ignore s) = true.
Proof.
  revert s. induction n as [|n IH]; intros s Hn; (destruct s as [|a s]; [done|]); cbn [String.length] in Hn; [lia|].
  cbn [utf8_ignore].
  destruct (byte_at a <? 128) eqn:E1; [cbn [utf8_well_formed]; rewrite E1; apply IH; lia|].
  destruct (byte_at a <? 194) eqn:E2; [apply IH; lia|].
  destruct (byte_at a <? 224) eqn:E3.
  { destruct s as [|b s]; [done|]. cbn [String.length] in Hn.
    destruct (_ && _) eqn:Eb; [|apply IH; cbn [String.length]; lia].
    cbn [utf8_well_formed]. rewrite E1, E2, E3, Eb. apply IH. lia. }
  destruct (byte_at a <? 240) eqn:E4.
  { destruct s as [|b s]; [done|]. cbn [String.length] in Hn.
    destruct (_ && _) eqn:Eb; [|apply IH; cbn [String.length]; lia].
    destruct s as [|c s]; [done|]. cbn [String.length] in Hn.
    destruct (_ && (byte_at c <=? 191)) eqn:Ec; [|apply IH; cbn [String.length]; lia].
    cbn [utf8_well_formed]. rewrite E1, E2, E3, E4, andb_true_r, Eb, Ec. apply IH. lia. }
  destruct (byte_at a <? 245) eqn:E5; [|apply IH; lia].
  destruct s as [|b s]; [done|]. cbn [String.length] in Hn.
  destruct (_ && _) eqn:Eb; [|apply IH; cbn [String.length]; lia].
  destruct s as [|c s]; [done|]. cbn [String.length] in Hn.
  destruct (_ && (byte_at c <=? 191)) eqn:Ec; [|apply IH; cbn [String.length]; lia].
  destruct s as [|d s]; [done|]. cbn [String.length] in Hn.
  destruct (_ && (byte_at d <=? 191)) eqn:Ed; [|apply IH; cbn [String.length]; lia].
  cbn [utf8_well_formed]. rewrite E1, E2, E3, E4, E5, Eb, Ec, Ed. apply IH. lia.
Qed.

(** It adds nothing. *)
Lemma utf8_ignore_length n s : (String.length s <= n)%nat → byte_len (utf8_ignore s) <= byte_len s.
Proof.
  revert s. induction n as [|n IH]; intros s Hn; (destruct s as [|a s]; [done|]); cbn [String.length] in Hn; [lia|].
  cbn [utf8_ignore]. repeat case_match; subst; rewrite ?byte_len_cons in *; cbn [String.length] in *;
    try (unfold byte_len; cbn [String.length]; lia);
    match goal with |- context [utf8_ignore ?x] => assert (byte_len (utf8_ignore x) <= byte_len x) by
      (apply IH; cbn [String.length]; lia) end; rewrite ?byte_len_cons in *; lia.
Qed.

(** Cutting well-formed text anywhere and ignoring the rest of a cut character
    gives a prefix of the text. *)
Lemma utf8_ignore_prefix m s n : (String.length s <= m)%nat → utf8_well_formed false s = true →
  ∃ r, s = utf8_ignore (take_bytes n s) +:+ r.
Proof.
  revert s n. induction m as [|m IH]; intros s n Hn H;
    (destruct s as [|a s]; [destruct n; by exists EmptyString|]); cbn [String.length] in Hn; [lia|].
  destruct n as [|n]; [by exists (String a s)|]. cbn [take_bytes utf8_ignore].
  cbn [utf8_well_formed] in H.
  destruct (byte_at a <? 128).
  { destruct (IH s n ltac:(lia) H) as [r Hr]. exists r. rewrite !app_cons. by rewrite <-Hr. }
  destruct (byte_at a <? 194); [done|].
  destruct (byte_at a <? 224).
  { destruct s as [|b s]; [done|]. cbn [String.length] in *. apply andb_true_iff in H as [Hb H].
    destruct n as [|n]; cbn [take_bytes]; [by eexists|]. rewrite Hb.
    destruct (IH s n ltac:(lia) H) as [r Hr]. exists r. rewrite !app_cons. by rewrite <-Hr. }
  destruct (byte_at a <? 240).
  { destruct s as [|b [|c s]]; try done. cbn [String.length] in *. rewrite andb_true_r in H.
    rewrite !andb_true_iff in H. destruct H as [[Hb Hc] H].
    destruct n as [|[|n]]; cbn [take_bytes]; try by (eexists; done).
    - rewrite <-andb_true_iff in Hb. rewrite Hb. by eexists.
    - rewrite <-andb_true_iff in Hb, Hc. rewrite Hb, Hc.
      destruct (IH s n ltac:(lia) H) as [r Hr]. exists r. rewrite !app_cons. by rewrite <-Hr. }
  destruct (byte_at a <? 245); [|done].
  destruct s as [|b [|c [|d s]]]; try done. cbn [String.length] in *.
  rewrite !andb_true_iff in H. destruct H as [[[Hb Hc] Hd] H]. rewrite <-andb_true_iff in Hb, Hc, Hd.
  destruct n as [|[|[|n]]]; cbn [take_bytes]; rewrite ?Hb, ?Hc, ?Hd; try by (eexists; done).
  destruct (IH s n ltac:(lia) H) as [r Hr]. exists r. rewrite !app_cons. by rewrite <-Hr.
Qed.

(** ** Cutting *)

Lemma take_bytes_length n s : byte_len (take_bytes n s) = Z.min (Z.of_nat n) (byte_len s).
Proof.
  revert n. induction s as [|a s IH]; intros [|n]; cbn [take_bytes]; rewrite ?byte_len_cons; try done.
  - change (byte_len "") with 0. assert (0 <= byte_len s) by (unfold byte_len; lia). lia.
  - rewrite IH. lia.
Qed.

Lemma take_bytes_all n s : byte_len s <= Z.of_nat n → take_bytes n s = s.
Proof.
  revert n. induction s as [|a s IH]; intros [|n]; try done; rewrite byte_len_cons; intros H.
  cbn [take_bytes]. rewrite IH; [done|lia].
Qed.

Lemma take_bytes_take n m s : (n <= m)%nat → take_bytes n (take_bytes m s) = take_bytes n s.
Proof.
  revert n m. induction s as [|a s IH]; intros [|n] [|m] H; try done; [lia|]. cbn [take_bytes].
  rewrite IH by lia. done.
Qed.

Lemma take_bytes_empty n s : take_bytes n s = EmptyString → n = O ∨ s = EmptyString.
Proof. destruct n, s; naive_solver. Qed.

Lemma excerpt_limit : 0 < _MAX_REVIEW_EXCERPT_BYTES.
Proof. done. Qed.
#[local] Opaque _MAX_REVIEW_EXCERPT_BYTES.

Lemma ok_inj {A} (a b : A) : Ok a = Ok b → a = b.
Proof. by intros [=]. Qed.

Lemma excerpt_source_ok data allowed source : _review_excerpt_source data allowed = Ok source →
  source = MkSource (take_bytes (Z.to_nat _MAX_REVIEW_EXCERPT_BYTES) data) (byte_len data)
             (negb (utf8_ok data) || contains nul data).
Proof.
  unfold _review_excerpt_source. intros H. apply bind_ok in H as (u & _ & H). symmetry. by apply ok_inj.
Qed.

Lemma marker_ascii : ascii_text _REVIEW_TRUNCATION_MARKER = true.
Proof. by_vm. Qed.

(** The length of the longest base64 excerpt fits, so the last check never fires. *)
Lemma base64_prefix_fits available raw : 0 <= raw <= available / 4 * 3 → 4 * ((raw + 2) / 3) <= available.
Proof. lia. Qed.

Definition base64_label : string := "base64-prefix:".
Definition least_binary : Z := byte_len base64_label + byte_len _REVIEW_TRUNCATION_MARKER + 4.

Lemma base64_excerpt_bounded source maximum : sx_prefix source ≠ EmptyString →
  match _bounded_base64_excerpt source maximum with
  | Ok e => byte_len e <= maximum ∧ ascii_text e = true
  | Err x => x = evidence_budget_exceeded ∧ maximum < least_binary
  end.
Proof.
  intros Hne. assert (Hp : 1 <= byte_len (sx_prefix source)).
  { destruct (sx_prefix source); [done|]. rewrite byte_len_cons. unfold byte_len. lia. }
  unfold _bounded_base64_excerpt. destruct (_ && _) eqn:Ec.
  { apply andb_true_iff in Ec as [_ Ec]. split; [lia|]. apply ascii_app, b64encode_ascii. done. }
  fold base64_label. set (reserved := byte_len base64_label + byte_len _REVIEW_TRUNCATION_MARKER).
  set (raw := Z.min _ _). unfold raise_if at 1. destruct (raw <? 1) eqn:Er.
  { split; [done|]. unfold least_binary. fold reserved. lia. }
  cbn [mbind result_bind]. set (e := base64_label +:+ _).
  assert (He : byte_len e <= maximum).
  { unfold e. rewrite !byte_len_app, b64encode_length. unfold take_z. rewrite take_bytes_length.
    pose proof (base64_prefix_fits (maximum - reserved) raw) as Hf.
    rewrite Z.min_l by lia. rewrite Z2Nat.id by lia. specialize (Hf ltac:(lia)). lia. }
  rewrite (proj2 (Z.ltb_ge _ _) He). cbn [raise_if mbind result_bind]. split; [done|].
  unfold e. apply ascii_app; [done|]. apply ascii_app; [apply b64encode_ascii|apply marker_ascii].
Qed.

(** An excerpt never exceeds its budget and is always UTF-8
    text; text that fits is shown whole, longer text as a prefix that ends at a
    character boundary and a marker; making an excerpt fails only when the budget
    is smaller than a label, a marker and four characters, so the size check after
    the base64 encoding never fires. *)
Theorem excerpt_bounded data allowed source maximum :
  _review_excerpt_source data allowed = Ok source → maximum <= _MAX_REVIEW_EXCERPT_BYTES →
  match _bounded_review_excerpt source maximum with
  | Ok e => byte_len e <= maximum ∧ utf8_ok e = true ∧
      (sx_binary source = false → if byte_len data <=? maximum then e = data
         else ∃ p r, data = p +:+ r ∧ e = p +:+ _REVIEW_TRUNCATION_MARKER)
  | Err x => x = evidence_budget_exceeded ∧ maximum < least_binary
  end.
Proof.
  intros ->%excerpt_source_ok Hmax. unfold _bounded_review_excerpt. cbn [sx_binary sx_size_bytes sx_prefix].
  destruct (negb (utf8_ok data) || contains nul data) eqn:Eb.
  { pose proof (base64_excerpt_bounded (MkSource (take_bytes (Z.to_nat _MAX_REVIEW_EXCERPT_BYTES) data)
      (byte_len data) true) maximum) as H. cbn [sx_prefix] in H.
    assert (Hne : take_bytes (Z.to_nat _MAX_REVIEW_EXCERPT_BYTES) data ≠ EmptyString).
    { pose proof excerpt_limit. intros [?| ->]%take_bytes_empty; [lia|done]. }
    specialize (H Hne). destruct (_bounded_base64_excerpt _ _) as [e|x]; [|done].
    destruct H as [H1 H2]. split_and!; [done|by apply ascii_utf8|done]. }
  apply orb_false_iff in Eb as [Hu%negb_false_iff _].
  destruct (byte_len data <=? maximum) eqn:El.
  { apply Z.leb_le in El. rewrite take_bytes_all by lia. unfold decode_text. rewrite Hu.
    split_and!; [lia|done|done]. }
  unfold raise_if. destruct (maximum <=? byte_len _REVIEW_TRUNCATION_MARKER) eqn:Em.
  { split; [done|]. apply Z.leb_le in Em. unfold least_binary.
    assert (0 <= byte_len base64_label) by done. lia. }
  apply Z.leb_gt in Em. cbn [mbind result_bind]. unfold take_z.
  assert (Hmark : 0 <= byte_len _REVIEW_TRUNCATION_MARKER) by done. rewrite take_bytes_take by lia.
  set (n := Z.to_nat _). destruct (utf8_ignore_prefix _ data n (le_n _) Hu) as [r Hr].
  assert (Hlen : byte_len (utf8_ignore (take_bytes n data)) <= Z.of_nat n).
  { etrans; [eapply utf8_ignore_length, le_n|]. rewrite take_bytes_length. lia. }
  split_and!.
  - rewrite byte_len_app. lia.
  - unfold utf8_ok. rewrite (utf8_app _ _ _ _ (le_n _)) by (eapply utf8_ignore_ok, le_n).
    apply ascii_utf8, marker_ascii.
  - intros _. eauto.
Qed.
