(* ===== verification/ReplayFacts.v ===== *)
(** * orchestration/replay.py: what a replay guarantees

    A session keeps an invariant whatever the reader answers: what it caches and
    reports was read and has the digest it is filed under, and what it read stays
    within the budgets.  [runs] is the judgement about a step of a session from
    which the guarantees of a whole run follow. *)

From S2P Require Import Prelude PyStr PyFloat Sha256 Json JsonText JsonFacts JsonBytes PyTime Contracts.
From S2P Require Import Printable Events EventStore Artifacts Strict OutputSchema Gateway Changes.
From S2P Require Import Acceptance ExecutionArtifacts Replay OutcomeFacts.
From Stdlib Require Import ZArith Lia Ascii String Floats.SpecFloat.
From stdpp Require Import base gmap sets list strings.
Local Open Scope Z_scope.

(** ** The invariant of a session *)

Definition long_integer_error : exn :=
  ValueError "Exceeds the limit (4300 digits) for integer string conversion".

Section SessionFacts.
Context {R : Type} (reader_stat : string → R → result ArtifactRef * R)
  (reader_get_bytes : ArtifactRef → R → result string * R)
  (decode_other : string → string → option string).
#[local] Abbreviation session := (@_ArtifactSession R).

(** [ds] lists the distinct artifacts read so far, with their sizes. *)
Record session_inv (ds : list (string * Z)) (s : session) : Prop := {
  si_distinct : NoDup (map fst ds);
  si_counted : ∀ d, d ∈ s_counted_digests s ↔ d ∈ map fst ds;
  si_total : s_total_bytes s = foldr Z.add 0 (map snd ds);
  si_budget : s_total_bytes s <= _MAX_TOTAL_BYTES;
  si_genuine : ∀ d n, (d, n) ∈ ds → (∃ data, bytes_digest data = d ∧ byte_len data = n)
                 ∧ ∃ r, s_references_by_digest s !! d = Some r ∧ size_bytes r = n;
  si_bytes : ∀ d data, s_bytes_by_digest s !! d = Some data →
               bytes_digest data = d ∧ (d, byte_len data) ∈ ds;
  si_artifacts : ∀ a, a ∈ s_artifacts s → (ae_digest a, ae_size_bytes a) ∈ ds;
  si_relationships : zlen (s_artifacts s) <= _MAX_ARTIFACT_RELATIONSHIPS
}.
Definition session_ok (s : session) : Prop := ∃ ds, session_inv ds s.

(** Later sessions know every reference and report every artifact of earlier ones. *)
Record extends (s s' : session) : Prop := {
  ex_artifacts : ∀ a, a ∈ s_artifacts s → a ∈ s_artifacts s';
  ex_references : s_references_by_digest s ⊆ s_references_by_digest s'
}.
#[local] Instance extends_preorder : PreOrder extends.
Proof.
  split; [by intros s; split|]. intros s1 s2 s3 [H1 H2] [H3 H4]. split; [auto|by etrans].
Qed.

Definition reported (s : session) (p : place) (link : ExecutionArtifactLink) : Prop :=
  MkArtifactEvidence (at_node p) (at_role p) (at_check p) (ln_digest link) (ln_size_bytes link)
    (ln_media_type link) (ln_encoding link) true ∈ s_artifacts s.

Lemma reported_extends s s' p link : extends s s' → reported s p link → reported s' p link.
Proof. intros [H _]. apply H. Qed.

(** From [s], the step keeps the invariant; it ends in a value with [Q], in an
    issue that is not a success, or in the one exception nothing catches. *)
Definition runs {A} (s : session) (m : @M R A) (Q : A → session → Prop) : Prop :=
  session_ok s →
  session_ok (m s).2 ∧ extends s (m s).2 ∧
  match (m s).1 with
  | Done a => Q a (m s).2
  | Issued i => ri_status i = ReplayStatus.FAILED ∨ ri_status i = ReplayStatus.INCONCLUSIVE
  | Raised e => e = long_integer_error
  end.

Lemma runs_ret {A} s (a : A) (Q : A → session → Prop) : Q a s → runs s (mret a) Q.
Proof. intros HQ Hs. by split_and!. Qed.

Lemma runs_bind {A B} s (m : @M R A) (f : A → @M R B) Q (Q' : B → session → Prop) :
  runs s m Q → (∀ a s', extends s s' → Q a s' → runs s' (f a) Q') → runs s (m ≫= f) Q'.
Proof.
  intros Hm Hf Hs. specialize (Hm Hs). unfold mbind, M_bind.
  destruct (m s) as [[a|i|e] s']; simpl in *; [|done..].
  destruct Hm as (Hs' & He & HQ). destruct (Hf a s' He HQ Hs') as (H1 & H2 & H3).
  split_and!; [done|by etrans|done].
Qed.

Lemma runs_weaken {A} s (m : @M R A) (Q Q' : A → session → Prop) :
  runs s m Q → (∀ a s', extends s s' → Q a s' → Q' a s') → runs s m Q'.
Proof.
  intros Hm HQ Hs. destruct (Hm Hs) as (H1 & H2 & H3). split_and!; [done..|].
  destruct (m s).1; auto.
Qed.

Lemma runs_issue {A} s i (Q : A → session → Prop) :
  ri_status i = ReplayStatus.FAILED ∨ ri_status i = ReplayStatus.INCONCLUSIVE → runs s (issue i) Q.
Proof. intros Hi Hs. by split_and!. Qed.

Lemma runs_issue_if s c i (Q : unit → session → Prop) :
  ri_status i = ReplayStatus.FAILED ∨ ri_status i = ReplayStatus.INCONCLUSIVE →
  (c = false → Q tt s) → runs s (issue_if c i) Q.
Proof. intros Hi HQ. destruct c; [by apply runs_issue|by apply runs_ret, HQ]. Qed.

Lemma runs_guard {A} s i (r : result A) (Q : A → session → Prop) :
  ri_status i = ReplayStatus.FAILED ∨ ri_status i = ReplayStatus.INCONCLUSIVE →
  (∀ a, r = Ok a → Q a s) → runs s (guard_issue i r) Q.
Proof. intros Hi HQ. destruct r; [by apply runs_ret, HQ|by apply runs_issue]. Qed.

Lemma runs_lift {A} s (r : result A) (Q : A → session → Prop) a : r = Ok a → Q a s → runs s (lift r) Q.
Proof. intros -> HQ Hs. by split_and!. Qed.

(** ** The session's own operations *)

Lemma stat_runs s digest p : runs s (_stat reader_stat digest p)
  (λ reference s', s_references_by_digest s' !! digest = Some reference).
Proof.
  intros Hs. unfold _stat. destruct (s_references_by_digest s !! digest) as [c|] eqn:E; [done|].
  destruct (reader_stat digest (s_reader s)) as [[reference|e] r]; simpl.
  - destruct Hs as [ds []]. split_and!.
    + exists ds. split; try done. intros d n Hin. destruct (si_genuine0 d n Hin) as (Hd & rf & Hr & Hn).
      split; [done|]. exists rf. split; [|done]. simpl. rewrite lookup_insert_ne; [done|congruence].
    + split; [done|]. by apply insert_subseteq.
    + by rewrite lookup_insert_eq.
  - destruct Hs as [ds []]. split_and!; [by exists ds|done|]. destruct e; simpl; auto.
Qed.

(** An artifact read before has the size of its reference. *)
Lemma counted_size ds s d reference : session_inv ds s → d ∈ s_counted_digests s →
  s_references_by_digest s !! d = Some reference → (d, size_bytes reference) ∈ ds.
Proof.
  intros [] Hd Hr. apply si_counted0, list_elem_of_fmap in Hd as ([d' n] & -> & Hin). simpl in *.
  destruct (si_genuine0 _ _ Hin) as (_ & r & Hr' & Hn). rewrite Hr in Hr'. by injection Hr' as <-; subst.
Qed.

(** Reading an artifact for the first time. *)
Lemma count_first ds s r link data reference (bytes : gmap string string) :
  session_inv ds s → ln_digest link ∉ s_counted_digests s →
  s_references_by_digest s !! ln_digest link = Some reference → size_bytes reference = ln_size_bytes link →
  byte_len data = ln_size_bytes link → bytes_digest data = ln_digest link →
  s_total_bytes s + ln_size_bytes link <= _MAX_TOTAL_BYTES →
  (∀ d x, bytes !! d = Some x → s_bytes_by_digest s !! d = Some x ∨ d = ln_digest link ∧ x = data) →
  session_inv ((ln_digest link, ln_size_bytes link) :: ds)
    (MkSession r (s_artifacts s) bytes ({[ln_digest link]} ∪ s_counted_digests s)
       (s_references_by_digest s) (s_total_bytes s + byte_len data)).
Proof.
  intros [] Hd Hr Hsz Hlen Hdig Hmax Hb. constructor; cbn -[_MAX_TOTAL_BYTES _MAX_ARTIFACT_RELATIONSHIPS].
  - apply NoDup_cons. split; [by rewrite <-si_counted0|done].
  - intros d. rewrite elem_of_cons, elem_of_union, elem_of_singleton, si_counted0. done.
  - lia.
  - lia.
  - intros d n [[= -> ->]|Hin]%elem_of_cons; [|by apply si_genuine0].
    split; [by exists data|by exists reference].
  - intros d x [Hx|[-> ->]]%Hb.
    + destruct (si_bytes0 _ _ Hx). split; [done|by right].
    + split; [done|]. rewrite Hlen. by left.
  - intros a Ha. right. by apply si_artifacts0.
  - done.
Qed.

(** Reading it again. *)
Lemma count_again ds s r link data reference (bytes : gmap string string) :
  session_inv ds s → ln_digest link ∈ s_counted_digests s →
  s_references_by_digest s !! ln_digest link = Some reference → size_bytes reference = ln_size_bytes link →
  byte_len data = ln_size_bytes link → bytes_digest data = ln_digest link →
  (∀ d x, bytes !! d = Some x → s_bytes_by_digest s !! d = Some x ∨ d = ln_digest link ∧ x = data) →
  session_inv ds (MkSession r (s_artifacts s) bytes (s_counted_digests s) (s_references_by_digest s)
    (s_total_bytes s)).
Proof.
  intros Hs Hd Hr Hsz Hlen Hdig Hb. pose proof (counted_size _ _ _ _ Hs Hd Hr) as Hin.
  destruct Hs. constructor; try done. simpl. intros d x [Hx|[-> ->]]%Hb; [auto|].
  split; [done|]. by rewrite Hlen, <-Hsz.
Qed.

Lemma retained (bytes : gmap string string) (retain : bool) link data d x :
  (if retain then <[ln_digest link := data]> bytes else bytes) !! d = Some x →
  bytes !! d = Some x ∨ d = ln_digest link ∧ x = data.
Proof.
  destruct retain; [|auto]. intros [[<- <-]|[_ ?]]%lookup_insert_Some; auto.
Qed.

Lemma fetch_runs s link reference p retain :
  s_references_by_digest s !! ln_digest link = Some reference → size_bytes reference = ln_size_bytes link →
  runs s (fetch reader_get_bytes link reference p retain) (λ data s',
    bytes_digest data = ln_digest link ∧ byte_len data = ln_size_bytes link
    ∧ ln_digest link ∈ s_counted_digests s').
Proof.
  intros Hr Hsz [ds Hs]. unfold fetch.
  destruct (s_bytes_by_digest s !! ln_digest link) as [data|] eqn:Eb.
  { split_and!; [by exists ds|done|]. destruct (si_bytes _ _ Hs _ _ Eb) as [Hd Hin]. simpl.
    destruct (si_genuine _ _ Hs _ _ Hin) as (_ & r' & Hr' & Hn). rewrite Hr in Hr'.
    injection Hr' as <-. split_and!; [done|lia|].
    apply (si_counted _ _ Hs). apply list_elem_of_fmap. by exists (ln_digest link, byte_len data). }
  destruct (negb _ && _) eqn:Ef.
  { split_and!; [by exists ds|done|simpl; auto]. }
  destruct (reader_get_bytes reference (s_reader s)) as [[data|e] r].
  2: { split_and!; [exists ds; by destruct Hs|done|]. simpl. destruct e; simpl; auto. }
  destruct (negb _ || negb _) eqn:Ec.
  { split_and!; [exists ds; by destruct Hs|done|simpl; auto]. }
  apply orb_false_iff in Ec as [Hlen%negb_false_iff%Z.eqb_eq Hd%negb_false_iff%bool_decide_eq_true].
  cbn [fst snd s_artifacts s_bytes_by_digest s_counted_digests s_references_by_digest s_total_bytes s_reader].
  case_bool_decide as Hin; cbn [negb andb] in *.
  - split_and!; [exists ds; eapply count_again; eauto using retained|done|done..].
  - apply Z.ltb_ge in Ef. split_and!.
    + eexists. eapply count_first; eauto using retained.
    + done.
    + done.
    + done.
    + simpl. set_solver.
Qed.

Lemma record_runs s link reference p :
  s_references_by_digest s !! ln_digest link = Some reference → size_bytes reference = ln_size_bytes link →
  ln_digest link ∈ s_counted_digests s →
  runs s (record_artifact link p) (λ _ s', reported s' p link).
Proof.
  intros Hr Hsz Hd [ds Hs]. unfold record_artifact. pose proof (counted_size _ _ _ _ Hs Hd Hr) as Hin.
  destruct (_MAX_ARTIFACT_RELATIONSHIPS <=? zlen (s_artifacts s)) eqn:En.
  { split_and!; [by exists ds|done|simpl; auto]. }
  apply Z.leb_gt in En. split_and!.
  - exists ds. destruct Hs. constructor; try done; simpl.
    + intros a [Ha| ->%list_elem_of_singleton]%elem_of_app; [auto|]. simpl. by rewrite <-Hsz.
    + rewrite zlen_app. unfold zlen at 2. cbn [length]. lia.
  - split; [|done]. intros a Ha. simpl. apply elem_of_app. by left.
  - simpl. unfold reported. simpl. apply elem_of_app. right. by left.
Qed.

(** What reading a link gives. *)
Definition obtained (s : session) (p : place) (link : ExecutionArtifactLink) (data : string) : Prop :=
  bytes_digest data = ln_digest link ∧ byte_len data = ln_size_bytes link ∧ reported s p link.

Lemma obtained_extends s s' p link data : extends s s' → obtained s p link data → obtained s' p link data.
Proof. intros He (? & ? & ?). split_and!; [done..|by eapply reported_extends]. Qed.

Lemma read_runs s link p k : runs s (_read reader_stat reader_get_bytes link p k)
  (λ data s', obtained s' p link data).
Proof.
  unfold _read. eapply runs_bind; [apply stat_runs|]. intros reference s1 _ Hr.
  eapply runs_bind with (Q := λ _ s', s' = s1 ∧ size_bytes reference = ln_size_bytes link).
  { apply runs_issue_if; [simpl; auto|]. intros Hc. rewrite !orb_false_iff, !negb_false_iff, Z.eqb_eq in Hc.
    tauto. }
  intros _ _ _ [-> Hsz]. eapply runs_bind with (Q := λ _ s', s' = s1).
  { by apply runs_issue_if; [simpl; auto|]. }
  intros _ _ _ ->. eapply runs_bind; [by apply fetch_runs|]. intros data s2 H2 (Hd & Hlen & Hin).
  assert (Hr2 : s_references_by_digest s2 !! ln_digest link = Some reference).
  { eapply lookup_weaken; [exact Hr|by apply ex_references]. }
  eapply runs_bind; [by eapply record_runs|]. intros [] s3 _ Hrep. by apply runs_ret.
Qed.

Lemma read_digest_runs s digest p k : runs s (read_digest reader_stat reader_get_bytes digest p k)
  (λ dl s', ln_digest dl.2 = digest ∧ obtained s' p dl.2 dl.1).
Proof.
  unfold read_digest. eapply runs_bind; [apply stat_runs|]. intros reference s1 _ _.
  eapply runs_bind; [apply (runs_guard s1 _ _ (λ _ s', s' = s1)); simpl; auto|]. intros link _ _ ->.
  eapply runs_bind with (Q := λ _ s', s' = s1 ∧ ln_digest link = digest).
  { apply runs_issue_if; [simpl; auto|]. intros Hc%negb_false_iff%bool_decide_eq_true. done. }
  intros _ _ _ [-> Hl]. eapply runs_bind; [apply read_runs|]. intros data s2 _ Hd. by apply runs_ret.
Qed.

(** [data] is the canonical text of the mapping [raw]. *)
Definition decodes (data : string) (raw : pyval) : Prop :=
  canonical_json_bytes raw = Ok data
  ∧ ∃ kvs, json_loads_bytes decode_other data = Loaded (JObj kvs) ∧ raw = thaw_json (JObj kvs).

Lemma canonical_mapping_runs s data p digest : runs s (_canonical_mapping decode_other data p digest)
  (λ raw s', s' = s ∧ decodes data raw).
Proof.
  unfold _canonical_mapping. destruct (json_loads_bytes decode_other data) as [j| | |] eqn:E.
  2, 4: by apply runs_issue; simpl; auto.
  2: by intros Hs; split_and!.
  destruct j as [|b|z|f|t|l|kvs]; try by apply runs_issue; simpl; auto.
  eapply runs_bind; [apply (runs_guard s _ _
    (λ c s', s' = s ∧ canonical_json_bytes (thaw_json (JObj kvs)) = Ok c)); simpl; auto|].
  intros c _ _ [-> Hc]. eapply runs_bind with (Q := λ _ s', s' = s ∧ c = data).
  { apply runs_issue_if; [simpl; auto|]. intros Hd%negb_false_iff%bool_decide_eq_true. done. }
  intros _ _ _ [-> ->]. apply runs_ret. split; [done|]. split; [done|]. eauto.
Qed.

Lemma decodes_digest data raw : decodes data raw → json_digest raw = Ok (bytes_digest data).
Proof. intros [H _]. unfold json_digest. by rewrite H. Qed.

(** Canonical JSON never counts as binary. *)
Lemma decodes_source data raw : decodes data raw →
  _review_excerpt_source data false = Ok (MkSource (take_bytes (Z.to_nat _MAX_REVIEW_EXCERPT_BYTES) data)
    (byte_len data) false).
Proof.
  intros (Hc & kvs & Hl & ->). unfold canonical_json_bytes in Hc. apply bind_ok in Hc as (j & Hj & Hd).
  simpl in Hj. apply bind_ok in Hj as (kvs' & _ & [= <-]).
  destruct (canonical_object_text _ _ _ _ Hd Hl) as [Hn Hu].
  unfold _review_excerpt_source, utf8_ok. rewrite Hn, Hu. done.
Qed.

(** ** What each verified artifact is *)

(** The artifact behind [link] was read and reported; it is the canonical text of
    a mapping with [P]. *)
Definition stored (s : session) (p : place) (link : ExecutionArtifactLink) (P : pyval → Prop) : Prop :=
  ∃ data raw, obtained s p link data ∧ decodes data raw ∧ P raw.

Lemma stored_extends s s' p link P : extends s s' → stored s p link P → stored s' p link P.
Proof. intros He (d & raw & Ho & H). exists d, raw. split; [by eapply obtained_extends|done]. Qed.

Definition context_place (x : ReplayNodeExpectation) : place := MkPlace (xn_node_id x) Role.CONTEXT None.
Definition proposal_place (x : ReplayNodeExpectation) : place := MkPlace (xn_node_id x) Role.PROPOSAL None.
Definition provider_place (x : ReplayNodeExpectation) : place := MkPlace (xn_node_id x) Role.PROVIDER None.
Definition effect_place (x : ReplayNodeExpectation) : place := MkPlace (xn_node_id x) Role.EFFECT None.

(** The change context is the one the plan declares. *)
Record context_proved (s : session) (x : ReplayNodeExpectation) (link : ExecutionArtifactLink)
    (c : ChangeContext) : Prop := {
  xp_stored : stored s (context_place x) link (λ raw, _context_from_mapping raw = Ok c);
  xp_digest : change_context_digest c = Ok (ln_digest link);
  xp_declared : cc_objective c = xn_objective x ∧ cc_constraints c = xn_constraints x
    ∧ Some (cc_base_commit c) = xn_base_commit x ∧ cc_allowed_paths c = xn_allowed_paths x
    ∧ cc_max_changed_paths c = xn_max_changed_paths x
}.

Record proposal_proved (s : session) (x : ReplayNodeExpectation) (link : ExecutionArtifactLink)
    (c : ChangeContext) (p : ChangeProposal) : Prop := {
  pp_stored : stored s (proposal_place x) link (λ raw, change_proposal_from_mapping raw = Ok p);
  pp_digest : change_proposal_digest p = Ok (ln_digest link);
  pp_context : change_context_digest c = Ok (cp_evidence_digest p)
}.

Definition provider_proved (s : session) (x : ReplayNodeExpectation) (link : ExecutionArtifactLink)
    (p : ChangeProposal) : Prop :=
  stored s (provider_place x) link (λ raw, ∃ r, _provider_from_mapping raw p = Ok r).

Definition effect_proved (s : session) (x : ReplayNodeExpectation) (link : ExecutionArtifactLink)
    (c : ChangeContext) (p : ChangeProposal) : Prop :=
  stored s (effect_place x) link (λ raw, _effect_matches raw x c p = Ok true).

(** Steps that leave the session alone, followed by the rest. *)
Lemma unless_then {A} s c i (k : unit → @M R A) Q :
  ri_status i = ReplayStatus.FAILED ∨ ri_status i = ReplayStatus.INCONCLUSIVE →
  (c = false → runs s (k tt) Q) → runs s (issue_if c i ≫= k) Q.
Proof.
  intros Hi Hk. eapply runs_bind.
  - apply (runs_issue_if s c i (λ _ s', s' = s ∧ c = false)); auto.
  - intros [] s' _ [-> Hc]. auto.
Qed.

Lemma guard_then {A B} s i (r : result A) (k : A → @M R B) Q :
  ri_status i = ReplayStatus.FAILED ∨ ri_status i = ReplayStatus.INCONCLUSIVE →
  (∀ a, r = Ok a → runs s (k a) Q) → runs s (guard_issue i r ≫= k) Q.
Proof.
  intros Hi Hk. eapply runs_bind.
  - apply (runs_guard s i r (λ a s', s' = s ∧ r = Ok a)); auto.
  - intros a s' _ [-> Ha]. auto.
Qed.

Lemma lift_then {A B} s (r : result A) a (k : A → @M R B) Q :
  r = Ok a → runs s (k a) Q → runs s (lift r ≫= k) Q.
Proof.
  intros Hr Hk. eapply runs_bind.
  - by apply (runs_lift s r (λ a' s', s' = s ∧ a' = a) a).
  - intros a' s' _ [-> ->]. done.
Qed.

Lemma mapping_then {A} s data p d (k : pyval → @M R A) Q :
  (∀ raw, decodes data raw → runs s (k raw) Q) → runs s (_canonical_mapping decode_other data p d ≫= k) Q.
Proof.
  intros Hk. eapply runs_bind; [apply canonical_mapping_runs|]. intros raw s' _ [-> Hr]. auto.
Qed.

Lemma read_then {A} s link p k (f : string → @M R A) Q :
  (∀ data s', extends s s' → obtained s' p link data → runs s' (f data) Q) →
  runs s (_read reader_stat reader_get_bytes link p k ≫= f) Q.
Proof. intros Hf. eapply runs_bind; [apply read_runs|]. auto. Qed.

Ltac else_unless H := apply unless_then; [simpl; by auto|]; intros H.
Ltac else_guard a H := apply guard_then; [simpl; by auto|]; intros a H.
Ltac bools H := rewrite ?negb_false_iff, ?andb_true_iff, ?bool_decide_eq_true, ?Z.eqb_eq, ?Z.leb_le in H.

Lemma verify_context_runs s x link : runs s (_verify_context reader_stat reader_get_bytes decode_other x link)
  (λ c s', context_proved s' x link c).
Proof.
  unfold _verify_context. apply read_then. intros data s1 _ Hd.
  apply mapping_then. intros raw Hraw. else_guard c Hc.
  destruct (context_mapping_digest _ _ Hc) as [d Hdc]. eapply lift_then; [exact Hdc|].
  else_unless Hb. bools Hb. apply runs_ret. destruct Hb as (((((-> & ?) & ?) & ?) & ?) & ?).
  split; [|done|tauto]. by exists data, raw.
Qed.

Lemma verify_proposal_runs s x link c : (∃ d, change_context_digest c = Ok d) →
  runs s (_verify_proposal reader_stat reader_get_bytes decode_other x link c)
  (λ p s', proposal_proved s' x link c p).
Proof.
  intros [dc Hdc]. unfold _verify_proposal. apply read_then. intros data s1 _ Hd.
  apply mapping_then. intros raw Hraw. else_guard p Hp.
  destruct (proposal_ok_digest _ (proposal_mapping_ok _ _ Hp)) as [d Hdp].
  eapply lift_then; [exact Hdp|]. else_unless Hb. bools Hb. subst d.
  eapply lift_then; [exact Hdc|]. else_unless Hb. bools Hb. apply runs_ret. split; [|done|congruence].
  by exists data, raw.
Qed.

Lemma verify_provider_runs s x link p d : change_proposal_digest p = Ok d →
  runs s (_verify_provider reader_stat reader_get_bytes decode_other x link p)
  (λ _ s', provider_proved s' x link p).
Proof.
  intros Hdp. unfold _verify_provider. apply read_then. intros data s1 _ Hd.
  apply mapping_then. intros raw Hraw. else_guard r Hr.
  eapply lift_then; [by apply decodes_digest|]. else_unless Hb.
  rewrite (provider_mapping_proposal _ _ _ Hr). do 2 (eapply lift_then; [exact Hdp|]).
  apply runs_issue_if; [simpl; by auto|]. intros _. exists data, raw. eauto.
Qed.

Lemma effect_matches_total raw x c p dc dp : change_context_digest c = Ok dc →
  change_proposal_digest p = Ok dp → ∃ b, _effect_matches raw x c p = Ok b.
Proof.
  intros Hc Hp. unfold _effect_matches. destruct (contract_object _ _ _); [|by eexists].
  case_match; [by eexists|]. rewrite Hc. cbn [mbind result_bind]. case_match; [by eexists|].
  rewrite Hp. by eexists.
Qed.

Lemma verify_effect_runs s x link c p dc dp : change_context_digest c = Ok dc →
  change_proposal_digest p = Ok dp →
  runs s (_verify_effect reader_stat reader_get_bytes decode_other x link c p)
  (λ e s', sx_binary e = false ∧ effect_proved s' x link c p).
Proof.
  intros Hc Hp. unfold _verify_effect. apply read_then. intros data s1 _ Hd.
  apply mapping_then. intros raw Hraw.
  destruct (effect_matches_total raw x c p dc dp Hc Hp) as [b Hb]. eapply lift_then; [exact Hb|].
  else_unless Hn. bools Hn. subst b.
  eapply runs_lift; [by eapply decodes_source|]. split; [done|]. by exists data, raw.
Qed.

Definition check_place (x : ReplayNodeExpectation) (e : ReplayCheckExpectation) (role : Role.t) : place :=
  MkPlace (xn_node_id x) role (Some (xc_check_id e)).

(** The command is the declared one, its result was computed from the streams
    that were kept, and it passed as the outcome says. *)
Record check_verified (s : session) (x : ReplayNodeExpectation) (e : ReplayCheckExpectation)
    (r : CheckArtifacts) (c : _VerifiedCheckMaterial) : Prop := {
  kv_recorded : vc_recorded c = r;
  kv_command : stored s (check_place x e Role.CHECK_COMMAND) (ck_command r)
                 (λ raw, _command_from_mapping raw = Ok (vc_command c));
  kv_declared : ac_check_id (vc_command c) = xc_check_id e ∧ ac_argv (vc_command c) = xc_argv e
    ∧ ac_expected_exit_code (vc_command c) = xc_expected_exit_code e
    ∧ number_eqb (ac_timeout_seconds (vc_command c)) (xc_timeout_seconds e) = true;
  kv_digests : acceptance_command_digest (vc_command c) = Ok (ck_command_digest r)
    ∧ vc_result_digest c = ck_result_digest r;
  kv_result : ∃ stdout stderr answer,
    obtained s (check_place x e Role.CHECK_STDOUT) (ck_stdout r) stdout
    ∧ obtained s (check_place x e Role.CHECK_STDERR) (ck_stderr r) stderr
    ∧ stored s (check_place x e Role.CHECK_RESULT) (ck_result r)
        (λ raw, _result_from_mapping raw stdout stderr = Ok answer)
    ∧ byte_len stdout <= ac_stdout_limit_bytes (vc_command c)
    ∧ byte_len stderr <= ac_stderr_limit_bytes (vc_command c)
    ∧ vc_passed c = (ar_return_code answer =? xc_expected_exit_code e)
    ∧ vc_passed c = ck_passed r
}.

Lemma check_verified_extends s s' x e r c : extends s s' → check_verified s x e r c →
  check_verified s' x e r c.
Proof.
  intros He [H1 H2 H3 H4 (so & se & a & Ho & Hs & Ha & H)]. split; try done; [by eapply stored_extends|].
  exists so, se, a. split_and!; try apply H; [by eapply obtained_extends..|by eapply stored_extends].
Qed.

Lemma excerpt_source_total data : ∃ e, _review_excerpt_source data true = Ok e.
Proof. unfold _review_excerpt_source. rewrite andb_false_r. by eexists. Qed.

Lemma verify_check_runs s x e r : check_ok r →
  runs s (_verify_check reader_stat reader_get_bytes decode_other x e r)
  (λ c s', check_verified s' x e r c).
Proof.
  intros Hr. unfold _verify_check. apply read_then. intros cmd s1 _ Hcmd.
  apply mapping_then. intros raw_command Hrc. else_guard command Hc.
  destruct (command_mapping_digest _ _ Hc) as [dc Hdc]. eapply lift_then; [exact Hdc|].
  else_unless Hm. bools Hm. unfold command_matches in Hm. bools Hm.
  apply read_then. intros res s2 E2 Hres. apply mapping_then. intros raw_result Hrr.
  apply read_then. intros stdout s3 E3 Hout. apply read_then. intros stderr s4 E4 Herr.
  else_guard answer Ha. destruct (result_mapping_ok _ _ _ _ Ha) as (_ & _ & Hp & Hd).
  destruct (ck_small _ Hr) as (_ & _ & Hs1 & Hs2). unfold small_link in Hs1, Hs2.
  destruct Hd as [d Hd]; [destruct Hout as (_ & -> & _); lia|destruct Herr as (_ & -> & _); lia|].
  eapply lift_then; [exact Hd|]. else_unless Hb. bools Hb. unfold result_matches in Hb. bools Hb.
  destruct (excerpt_source_total stdout) as [so Hso]. destruct (excerpt_source_total stderr) as [se Hse].
  eapply lift_then; [exact Hso|]. eapply lift_then; [exact Hse|]. apply runs_ret.
  destruct Hm as ((((-> & ?) & ?) & ?) & ?).
  destruct Hb as (((((((-> & _) & _) & _) & Hx) & Heq%eqb_prop) & ?) & ?).
  assert (extends s1 s4) by (etrans; [exact E2|by etrans]).
  assert (extends s2 s4) by by etrans.
  split; cbn [vc_recorded vc_command vc_result_digest vc_passed]; [done| |done|done|].
  - exists cmd, raw_command. split; [by apply (obtained_extends s1)|done].
  - exists stdout, stderr, answer. split_and!; try done; [by apply (obtained_extends s3)| |by rewrite Hp, Hx].
    exists res, raw_result. split; [by apply (obtained_extends s2)|done].
Qed.

Lemma verify_checks_runs s x es rs : (∀ r, r ∈ rs → check_ok r) →
  runs s (verify_checks reader_stat reader_get_bytes decode_other x es rs)
  (λ cs s', Forall2 (λ er c, check_verified s' x er.1 er.2 c) (zip es rs) cs).
Proof.
  revert s rs. induction es as [|e es IH]; intros s [|r rs] Hrs; try (by apply runs_ret; constructor).
  cbn [verify_checks]. eapply runs_bind; [by apply verify_check_runs, Hrs; left|]. intros c s1 _ Hc.
  eapply runs_bind; [apply IH; intros; apply Hrs; by right|]. intros cs s2 E2 Hcs.
  apply runs_ret. simpl. constructor; [by eapply check_verified_extends|done].
Qed.

Lemma context_proved_extends s s' x l c : extends s s' → context_proved s x l c → context_proved s' x l c.
Proof. intros He [? ? ?]. split; try done. by eapply stored_extends. Qed.
Lemma proposal_proved_extends s s' x l c p : extends s s' → proposal_proved s x l c p →
  proposal_proved s' x l c p.
Proof. intros He [? ? ?]. split; try done. by eapply stored_extends. Qed.

(** ** Nodes *)

(** Everything the outcome of a node refers to was read, reported and checked. *)
Record node_verified (s : session) (run_id : string) (x : ReplayNodeExpectation)
    (m : _VerifiedNodeMaterial) : Prop := {
  nv_expectation : vm_expectation m = x;
  nv_digest : xn_result_digest x = Some (ln_digest (vm_outcome_link m));
  nv_outcome : obtained s (MkPlace (xn_node_id x) Role.OUTCOME None) (vm_outcome_link m) (vm_outcome_bytes m);
  nv_manifest : ∃ raw, decodes (vm_outcome_bytes m) raw ∧ node_outcome_from_mapping raw = Ok (vm_manifest m);
  nv_matches : _manifest_matches (vm_manifest m) x run_id = true;
  nv_context : option_Forall2 (context_proved s x) (nm_context (vm_manifest m)) (vm_context m);
  nv_proposal : option_Forall2 (λ l p, ∃ c, vm_context m = Some c ∧ proposal_proved s x l c p)
                  (nm_proposal (vm_manifest m)) (vm_proposal m);
  nv_provider : ∀ l, nm_provider (vm_manifest m) = Some l →
                  ∃ p, vm_proposal m = Some p ∧ provider_proved s x l p;
  nv_effect : option_Forall2 (λ l e, sx_binary e = false ∧ ∃ c p, vm_context m = Some c ∧
                  vm_proposal m = Some p ∧ effect_proved s x l c p)
                  (nm_effect (vm_manifest m)) (vm_effect m);
  nv_checks : Forall2 (λ er c, check_verified s x er.1 er.2 c)
                (zip (xn_checks x) (nm_checks (vm_manifest m))) (vm_checks m)
}.

Lemma linked_weaken {A B} (P Q : A → B → Prop) o v :
  (∀ a b, P a b → Q a b) → option_Forall2 P o v → option_Forall2 Q o v.
Proof. intros H []; constructor. auto. Qed.

Lemma node_verified_extends s s' run x m : extends s s' → node_verified s run x m →
  node_verified s' run x m.
Proof.
  intros He [H1 H2 H3 H4 H5 H6 H7 H8 H9 H10]. split; try done.
  - by eapply obtained_extends.
  - eapply linked_weaken, H6. intros l c. by apply context_proved_extends.
  - eapply linked_weaken, H7. intros l p (c & Hc & Hp). exists c. split; [done|].
    by eapply proposal_proved_extends.
  - intros l Hl. destruct (H8 l Hl) as (p & Hp & Hs). exists p. split; [done|]. by eapply stored_extends.
  - eapply linked_weaken, H9. intros l e (? & c & p & ? & ? & ?). split; [done|].
    exists c, p. split_and!; [done..|]. by eapply stored_extends.
  - eapply Forall2_impl; [exact H10|]. intros er c. by apply check_verified_extends.
Qed.

Lemma linked_runs {A} s (o : option ExecutionArtifactLink) (f : ExecutionArtifactLink → @M R A)
    (Q : session → ExecutionArtifactLink → A → Prop) :
  (∀ l, o = Some l → runs s (f l) (λ a s', Q s' l a)) →
  runs s (when_linked o f) (λ v s', option_Forall2 (Q s') o v).
Proof.
  intros Hf. destruct o as [l|]; simpl; [|by apply runs_ret; constructor].
  eapply runs_bind; [by apply Hf|]. intros a s' _ Ha. apply runs_ret. by constructor.
Qed.

Lemma read_manifest_then {A} s raw p d (k : NodeOutcomeManifest → @M R A) Q :
  (∀ m, node_outcome_from_mapping raw = Ok m → runs s (k m) Q) →
  runs s (read_manifest raw p d ≫= k) Q.
Proof.
  intros Hk. unfold read_manifest. pose proof (contract_only_manifest raw) as Hc.
  destruct (node_outcome_from_mapping raw) as [m|e].
  - eapply runs_bind; [by apply (runs_ret s m (λ a s', s' = s ∧ a = m))|]. intros ? s' _ [-> ->]. auto.
  - destruct Hc as [code ->]. eapply runs_bind with (Q := λ _ _, False); [|done].
    apply runs_issue. unfold outcome_issue. case_bool_decide; simpl; auto.
Qed.

Lemma verify_node_runs s run x digest : xn_result_digest x = Some digest →
  runs s (_verify_node reader_stat reader_get_bytes decode_other run x digest)
  (λ m s', node_verified s' run x m).
Proof.
  intros Hx. unfold _verify_node. eapply runs_bind; [apply read_digest_runs|].
  intros [bytes link] s1 _ [Hl Ho]. cbn [fst snd] in *.
  apply mapping_then. intros raw Hraw. apply read_manifest_then. intros m Hm.
  assert (Hdig : ∃ d, manifest_digest m = Ok d).
  { destruct Hraw as (Hc & kvs & Hj & ->). eapply manifest_digest_ok; [by eapply loaded_NoDup|done..]. }
  destruct Hdig as [d Hd]. eapply lift_then; [exact Hd|]. else_unless Hb.
  apply orb_false_iff in Hb as [_ Hb%negb_false_iff].
  eapply runs_bind; [apply (linked_runs s1 _ _ (λ s', context_proved s' x)); intros; apply verify_context_runs|].
  intros context s2 E2 Hctx. cbn beta in Hctx.
  eapply runs_bind; [apply (linked_runs s2 _ _ (λ s' l p, ∃ c, context = Some c ∧ proposal_proved s' x l c p))|].
  { intros l _. destruct context as [c|]; [|by apply runs_issue; simpl; auto].
    inv Hctx. eapply runs_weaken; [eapply verify_proposal_runs; eauto using xp_digest|]. eauto. }
  intros proposal s3 E3 Hprop. cbn beta in Hprop.
  eapply runs_bind; [apply (linked_runs s3 _ _ (λ s' l _, ∃ p, proposal = Some p ∧ provider_proved s' x l p))|].
  { intros l _. destruct proposal as [p|]; [|by apply runs_issue; simpl; auto].
    inversion Hprop as [? ? (c & _ & Hp)|]; subst.
    eapply runs_weaken; [eapply verify_provider_runs, pp_digest, Hp|]. eauto. }
  intros prov s4 E4 Hprov. cbn beta in Hprov.
  eapply runs_bind; [apply (linked_runs s4 _ _ (λ s' l e, sx_binary e = false ∧ ∃ c p,
    context = Some c ∧ proposal = Some p ∧ effect_proved s' x l c p))|].
  { intros l _. destruct context as [c|]; [|by apply runs_issue; simpl; auto].
    destruct proposal as [p|]; [|by apply runs_issue; simpl; auto]. inv Hctx.
    inversion Hprop as [? ? (c' & Hc' & Hp)|]; subst. injection Hc' as <-.
    eapply runs_weaken; [eapply verify_effect_runs; [by eapply xp_digest|by eapply pp_digest]|].
    simpl. intros a s' _ []. eauto 10. }
  intros effect s5 E5 Heff. cbn beta in Heff.
  eapply runs_bind; [apply verify_checks_runs; apply (mo_checks _ (manifest_mapping_ok _ _ Hm))|].
  intros checks s6 E6 Hchecks. apply runs_ret.
  assert (X5 : extends s5 s6) by done. assert (X4 : extends s4 s6) by by etrans.
  assert (X3 : extends s3 s6) by by etrans. assert (X2 : extends s2 s6) by by etrans.
  assert (X1 : extends s1 s6) by by etrans.
  split; cbn [vm_expectation vm_manifest vm_outcome_link vm_outcome_bytes vm_context vm_proposal vm_effect vm_checks];
    try done.
  - by rewrite Hl.
  - by apply (obtained_extends s1).
  - by exists raw.
  - eapply linked_weaken, Hctx. intros l c. by apply context_proved_extends.
  - eapply linked_weaken, Hprop. intros l p (c & Hc & Hp). exists c. split; [done|].
    by apply (proposal_proved_extends s3).
  - intros l Hlp. rewrite Hlp in Hprov. inversion Hprov as [? ? (p & Hp & Hs)|]; subst. exists p.
    split; [done|]. by apply (stored_extends s4).
  - eapply linked_weaken, Heff. intros l e (? & c & p & ? & ? & ?). split; [done|].
    exists c, p. split_and!; [done..|]. by apply (stored_extends s5).
Qed.

Lemma verify_nodes_runs s run nodes :
  runs s (verify_nodes reader_stat reader_get_bytes decode_other run nodes)
  (λ ms s', Forall2 (node_verified s' run) nodes ms).
Proof.
  revert s. induction nodes as [|x nodes IH]; intros s; [by apply runs_ret; constructor|].
  cbn [verify_nodes]. eapply runs_bind.
  { instantiate (1 := λ m s', node_verified s' run x m).
    destruct (xn_result_digest x) as [d|] eqn:E; [by apply verify_node_runs|].
    apply runs_issue. simpl. auto. }
  intros m s1 _ Hm. eapply runs_bind; [apply IH|]. intros ms s2 E2 Hms. apply runs_ret.
  constructor; [by eapply node_verified_extends|done].
Qed.
End SessionFacts.

(** ** Runs *)

Lemma sum_nonneg l : (∀ n, n ∈ l → 0 <= n) → 0 <= foldr Z.add 0 l.
Proof.
  induction l as [|n l IH]; simpl; intros H; [lia|].
  assert (0 <= n) by (apply H; left). assert (0 <= foldr Z.add 0 l) by (apply IH; intros; apply H; by right).
  lia.
Qed.

Lemma sum_submseteq l k : l ⊆+ k → (∀ n, n ∈ k → 0 <= n) → foldr Z.add 0 l <= foldr Z.add 0 k.
Proof.
  intros (r & Hr)%submseteq_Permutation Hk.
  assert (Hp : ∀ l k : list Z, l ≡ₚ k → foldr Z.add 0 l = foldr Z.add 0 k) by (induction 1; simpl; lia).
  rewrite (Hp _ _ Hr). assert (Ha : ∀ l k, foldr Z.add 0 (l ++ k) = foldr Z.add 0 l + foldr Z.add 0 k).
  { intros l' k'. induction l'; simpl; lia. }
  rewrite Ha. assert (0 <= foldr Z.add 0 r); [|lia].
  apply sum_nonneg. intros n Hn. apply Hk. rewrite Hr. apply elem_of_app. by right.
Qed.

(** The bytes read for a report: every distinct artifact once. *)
Definition distinct_bytes (artifacts : list ReplayArtifactEvidence) : Z :=
  foldr Z.add 0 (map snd (remove_dups (map (λ a, (ae_digest a, ae_size_bytes a)) artifacts))).

Definition genuine (a : ReplayArtifactEvidence) : Prop :=
  ∃ data, bytes_digest data = ae_digest a ∧ byte_len data = ae_size_bytes a.

(** What holds of every list of artifacts a session reports. *)
Record artifacts_ok (l : list ReplayArtifactEvidence) : Prop := {
  ao_genuine : ∀ a, a ∈ l → genuine a;
  ao_count : zlen l <= _MAX_ARTIFACT_RELATIONSHIPS;
  ao_bytes : distinct_bytes l <= _MAX_TOTAL_BYTES
}.

Lemma byte_len_nonneg s : 0 <= byte_len s.
Proof. unfold byte_len. lia. Qed.

Lemma session_artifacts {R} (s : @_ArtifactSession R) : session_ok s → artifacts_ok (s_artifacts s).
Proof.
  intros [ds Hs]. split; [|by eapply si_relationships|].
  - intros a Ha. eapply si_genuine; [exact Hs|]. by apply (si_artifacts _ _ Hs).
  - unfold distinct_bytes. etrans; [|apply (si_budget _ _ Hs)]. rewrite (si_total _ _ Hs).
    apply sum_submseteq.
    + apply fmap_submseteq, NoDup_submseteq; [apply NoDup_remove_dups|].
      intros dn Hin. rewrite elem_of_remove_dups in Hin. apply list_elem_of_fmap in Hin as (a & -> & Ha).
      by apply (si_artifacts _ _ Hs).
    + intros n ([d n'] & -> & Hin)%list_elem_of_fmap.
      destruct (si_genuine _ _ Hs _ _ Hin) as [(data & _ & <-) _]. apply byte_len_nonneg.
Qed.

Lemma artifact_small l a : artifacts_ok l → a ∈ l → 0 <= ae_size_bytes a < 2 ^ 63.
Proof.
  intros [Hg _ Hb] Ha. assert (Hn : ∀ x, x ∈ l → 0 <= ae_size_bytes x).
  { intros x (data & _ & <-)%Hg. apply byte_len_nonneg. }
  split; [auto|]. eapply Z.le_lt_trans with (m := _MAX_TOTAL_BYTES); [|done]. etrans; [|exact Hb].
  unfold distinct_bytes. etrans; [|apply (sum_submseteq [ae_size_bytes a])]; [simpl; lia| |].
  - apply singleton_submseteq_l, list_elem_of_fmap. exists (ae_digest a, ae_size_bytes a). split; [done|].
    apply elem_of_remove_dups, list_elem_of_fmap. eauto.
  - intros n ([d n'] & -> & Hin)%list_elem_of_fmap. rewrite elem_of_remove_dups in Hin.
    apply list_elem_of_fmap in Hin as (x & [= -> ->] & Hx). simpl. auto.
Qed.

Lemma report_total status artifacts findings : artifacts_ok artifacts →
  ∃ d, _report status artifacts findings = Ok (MkReplayReport status artifacts findings d).
Proof.
  intros Ha. unfold _report. edestruct digest_plain as (d & Hd & _); [|exists d; by rewrite Hd].
  unfold report_payload. rewrite plain_obj. cbn [forallb snd]. rewrite !plain_map; [done| |].
  - intros f _. unfold replay_finding_payload. rewrite plain_obj. cbn [forallb snd]. by rewrite !plain_popt.
  - intros a Hin. unfold artifact_evidence_payload. rewrite plain_obj. cbn [forallb snd].
    rewrite !plain_popt. cbn [plain]. rewrite short_int_63; [done|]. by eapply artifact_small.
Qed.

Lemma no_artifacts_ok : artifacts_ok [].
Proof. split; [by intros a ?%elem_of_nil|done..]. Qed.

Section RunFacts.
Context {R : Type} (reader_stat : string → R → result ArtifactRef * R)
  (reader_get_bytes : ArtifactRef → R → result string * R)
  (decode_other : string → string → option string).
#[local] Abbreviation materials_of := (_verify_run_materials reader_stat reader_get_bytes decode_other).
#[local] Abbreviation verified_in := (node_verified decode_other).

Lemma new_session_ok (r : R) : session_ok (new_session r).
Proof.
  exists []. split; simpl; try done; try set_solver. apply NoDup_nil_2.
Qed.

(** The three ways a verification ends. *)
Inductive replay_result (reader : option R) (run_id : string) (nodes : list ReplayNodeExpectation) :
    result (ExecutionArtifactReplayReport * list _VerifiedNodeMaterial) → Prop :=
  | replay_nothing d : List.filter required nodes = [] →
      replay_result reader run_id nodes (Ok (MkReplayReport ReplayStatus.NOT_APPLICABLE [] [] d, []))
  | replay_verified (s : @_ArtifactSession R) ms d : List.filter required nodes ≠ [] → session_ok s →
      Forall2 (verified_in s run_id) (List.filter required nodes) ms →
      replay_result reader run_id nodes
        (Ok (MkReplayReport ReplayStatus.VERIFIED (s_artifacts s) [] d, ms))
  | replay_stopped status artifacts finding d : List.filter required nodes ≠ [] →
      status = ReplayStatus.FAILED ∨ status = ReplayStatus.INCONCLUSIVE → artifacts_ok artifacts →
      replay_result reader run_id nodes (Ok (MkReplayReport status artifacts [finding] d, []))
  | replay_raised : List.filter required nodes ≠ [] → reader ≠ None →
      replay_result reader run_id nodes (Err long_integer_error).

Lemma run_materials_result reader run_id nodes :
  replay_result reader run_id nodes (materials_of reader run_id nodes).
Proof.
  unfold _verify_run_materials. case_bool_decide as Hn.
  { destruct (report_total ReplayStatus.NOT_APPLICABLE [] [] no_artifacts_ok) as [d ->]. by constructor. }
  destruct reader as [r|].
  2: { edestruct (report_total ReplayStatus.INCONCLUSIVE []) as [d ->]; [apply no_artifacts_ok|].
       constructor; auto using no_artifacts_ok. }
  pose proof (verify_nodes_runs reader_stat reader_get_bytes decode_other (new_session r) run_id
    (List.filter required nodes) (new_session_ok r)) as (Hs & _ & H).
  destruct (verify_nodes _ _ _ _ _ _) as [[ms|i|e] s]; cbn [fst snd] in *.
  - destruct (report_total ReplayStatus.VERIFIED (s_artifacts s) [] (session_artifacts _ Hs)) as [d ->].
    by constructor.
  - destruct (report_total (ri_status i) (s_artifacts s) [issue_finding i] (session_artifacts _ Hs)) as [d ->].
    constructor; auto using session_artifacts.
  - subst e. by constructor.
Qed.
End RunFacts.

(** C9 (replay_verified_genuine): a report is VERIFIED only when every node that
    owes an outcome has one that was read, whatever the artifact store answers:
    its bytes have the digest the run recorded and are the canonical text of a
    manifest that matches the plan, and every context, proposal, provider result,
    effect, command, result and output the manifest links was read too, is
    reported, decodes, has its digest and agrees with the plan and with the
    others. *)
Theorem replay_verified_genuine {R} (reader_stat : string → R → result ArtifactRef * R)
    (reader_get_bytes : ArtifactRef → R → result string * R)
    (decode_other : string → string → option string) reader run_id nodes report ms :
  _verify_run_materials reader_stat reader_get_bytes decode_other reader run_id nodes = Ok (report, ms) →
  xr_status report = ReplayStatus.VERIFIED →
  xr_findings report = []
  ∧ (∀ a, a ∈ xr_artifacts report → genuine a)
  ∧ ∃ s : @_ArtifactSession R, s_artifacts s = xr_artifacts report
      ∧ Forall2 (node_verified decode_other s run_id) (List.filter required nodes) ms.
Proof.
  intros H Hv. pose proof (run_materials_result reader_stat reader_get_bytes decode_other reader run_id nodes) as Hr.
  rewrite H in Hr. inversion Hr as [|s ms' d Hn Hs Hms|? ? ? ? _ Hst|]; subst; simpl in *; try done.
  - split_and!; [done|by apply session_artifacts|by exists s].
  - subst. by destruct Hst.
Qed.

(** Whatever the artifact store answers and however a
    verification ends, its report lists at most 16384 artifacts, the distinct ones
    add up to at most 128 streams of bytes, and each was read and has the reported
    digest and size. *)
Theorem replay_within_budget {R} (reader_stat : string → R → result ArtifactRef * R)
    (reader_get_bytes : ArtifactRef → R → result string * R)
    (decode_other : string → string → option string) reader run_id nodes report :
  verify_run_artifacts reader_stat reader_get_bytes decode_other reader run_id nodes = Ok report →
  artifacts_ok (xr_artifacts report).
Proof.
  unfold verify_run_artifacts. intros ([rep ms] & H & <-)%fmap_ok.
  pose proof (run_materials_result reader_stat reader_get_bytes decode_other reader run_id nodes) as Hr.
  rewrite H in Hr. inversion Hr; subst; simpl; auto using no_artifacts_ok, session_artifacts.
Qed.

(** C10 (replay_total): a verification always ends in a report, except that an
    artifact with an over-long integer literal makes it raise [ValueError]: the
    report is NOT_APPLICABLE exactly when no node owes an outcome, VERIFIED without
    a finding, or FAILED or INCONCLUSIVE with exactly one. *)
Theorem replay_total {R} (reader_stat : string → R → result ArtifactRef * R)
    (reader_get_bytes : ArtifactRef → R → result string * R)
    (decode_other : string → string → option string) reader run_id nodes :
  match verify_run_artifacts reader_stat reader_get_bytes decode_other reader run_id nodes with
  | Ok report =>
      (xr_status report = ReplayStatus.NOT_APPLICABLE ↔ ∀ x, x ∈ nodes → required x = false)
      ∧ match xr_status report with
        | ReplayStatus.NOT_APPLICABLE => xr_artifacts report = [] ∧ xr_findings report = []
        | ReplayStatus.VERIFIED => xr_findings report = []
        | _ => ∃ finding, xr_findings report = [finding]
        end
  | Err e => e = long_integer_error ∧ reader ≠ None
  end.
Proof.
  unfold verify_run_artifacts.
  assert (Hreq : List.filter required nodes = [] ↔ ∀ x, x ∈ nodes → required x = false).
  { split.
    - intros H x Hx. destruct (required x) eqn:E; [|done].
      assert (Hin : x ∈ List.filter required nodes) by by apply elem_of_listfilter.
      rewrite H in Hin. by apply elem_of_nil in Hin.
    - intros H. destruct (List.filter required nodes) as [|x l] eqn:E; [done|].
      assert (Hin : x ∈ List.filter required nodes) by (rewrite E; left).
      apply elem_of_listfilter in Hin as [Hx Hr]. by rewrite H in Hr. }
  destruct (run_materials_result reader_stat reader_get_bytes decode_other reader run_id nodes)
    as [d Hn|s ms d Hn|status l f d Hn Hst|Hn]; simpl; rewrite <-?Hreq; [done|done| |done].
  destruct Hst as [-> | ->]; (split; [by split|by eexists]).
Qed.
