(* ===== verification/ReplayReviewFacts.v ===== *)
(** * orchestration/replay.py: what review input built from artifacts proves

    A context built from the material of a verified run carries, for every node,
    exactly the evidence the verification matrix asks for. *)

From S2P Require Import Prelude PyStr PyFloat Sha256 Json JsonText JsonFacts PyTime Contracts JsonBytes.
From S2P Require Import Printable Events EventStore Artifacts Strict OutputSchema Gateway Changes.
From S2P Require Import Acceptance ExecutionArtifacts Replay OutcomeFacts Review ReviewFacts VerificationLifecycle.
From S2P Require Import Verification VerificationFacts ReplayReview ReplayFacts.
From Stdlib Require Import ZArith Lia Ascii String Floats.SpecFloat.
From stdpp Require Import base gmap sets list strings.
Local Open Scope Z_scope.

(** ** Selecting from parts *)

Lemma filter_concat {A} (f : A → bool) ls : List.filter f (concat ls) = concat (map (List.filter f) ls).
Proof. induction ls as [|l ls IH]; simpl; [done|]. by rewrite List.filter_app, IH. Qed.

Lemma filter_none {A} (f : A → bool) l : (∀ x, x ∈ l → f x = false) → List.filter f l = [].
Proof.
  induction l as [|x l IH]; simpl; intros H; [done|]. rewrite H by left. apply IH. intros; apply H; by right.
Qed.

Lemma filter_perm {A} (f : A → bool) l k : l ≡ₚ k → List.filter f l ≡ₚ List.filter f k.
Proof.
  induction 1; simpl; repeat case_match; try done; [by f_equiv|apply Permutation_swap|by etrans].
Qed.

(** When only one of the parts has what is selected. *)
Lemma filter_one_part {A B} (f : A → bool) (R : B → list A → Prop) xs ls i x l :
  Forall2 R xs ls → xs !! i = Some x → ls !! i = Some l →
  (∀ j y k, j ≠ i → xs !! j = Some y → R y k → ∀ a, a ∈ k → f a = false) →
  List.filter f (concat ls) = List.filter f l.
Proof.
  intros H. revert i. induction H as [|y k xs ls Hy Htl IH]; intros i Hx Hl Hj; [done|].
  simpl. rewrite List.filter_app. destruct i as [|i]; simpl in *; simplify_eq.
  - rewrite (filter_none f (concat ls)); [by rewrite app_nil_r|].
    intros a (k & Ha & Hk)%elem_of_concat. apply list_elem_of_lookup in Hk as [j Hk].
    destruct (Forall2_lookup_r _ _ _ _ _ Htl Hk) as (z & Hz & HR). by apply (Hj (S j) z k).
  - rewrite (filter_none f k) by (by apply (Hj 0%nat y)). simpl.
    apply (IH i); [done..|]. intros j z k' Hne Hz. apply (Hj (S j)); [lia|done].
Qed.

(** ** Items of evidence *)

Definition item (e : ReviewEvidence) (kind : ReviewEvidenceKind) (node_id artifact : string)
    (path check_id : option string) (operation : option TextOperation) : Prop :=
  re_kind e = kind ∧ re_node_id e = node_id ∧ re_artifact_digest e = artifact ∧ re_path e = path
  ∧ re_check_id e = check_id ∧ re_operation e = operation.

Lemma evidence_source_item maximum kind node_id artifact source path check_id operation e :
  evidence_from_source maximum kind node_id artifact source path check_id operation = Ok e →
  item e kind node_id artifact path check_id operation.
Proof.
  unfold evidence_from_source, review_evidence_init. intros H. apply bind_ok in H as (x & _ & H).
  do 6 (apply bind_ok in H as (? & _ & H)). by injection H as <-.
Qed.

Lemma evidence_bytes_item maximum kind node_id artifact data path check_id operation e :
  evidence_from_bytes maximum kind node_id artifact data path check_id operation = Ok e →
  item e kind node_id artifact path check_id operation.
Proof. unfold evidence_from_bytes. intros H. apply bind_ok in H as (? & _ & H). by eapply evidence_source_item. Qed.

(** The evidence of one operation: what its kind requires, once each. *)
Lemma operation_evidence_items maximum node_id before c p l effect f es :
  operation_evidence maximum node_id before c p l effect f = Ok es →
  (∀ e, e ∈ es → re_node_id e = node_id ∧ re_path e = Some (fc_path f) ∧ re_check_id e = None
     ∧ re_operation e = Some (fc_operation f) ∧ re_kind e ∈ change_kinds)
  ∧ map re_kind es = required_kinds (fc_operation f).
Proof.
  unfold operation_evidence. intros H. apply bind_ok in H as (b & Hb & H).
  apply bind_ok in H as (a & Ha & H). apply bind_ok in H as (e & He%evidence_source_item & [= <-]).
  assert (Hone : ∀ kind art data e, kind ∈ change_kinds →
    evidence_from_bytes maximum kind node_id art data (Some (fc_path f)) None (Some (fc_operation f)) = Ok e →
    re_kind e = kind ∧ re_node_id e = node_id ∧ re_path e = Some (fc_path f) ∧ re_check_id e = None
     ∧ re_operation e = Some (fc_operation f) ∧ re_kind e ∈ change_kinds).
  { intros kind art data x Hk (-> & ? & ? & ? & ? & ?)%evidence_bytes_item. done. }
  destruct He as (Ek & En & _ & Ep & Ec & Eo).
  assert (Hbefore : if bool_decide (fc_operation f ∈ [REPLACE; DELETE]) then ∃ x, b = [x] ∧
    re_kind x = SOURCE_BEFORE ∧ re_node_id x = node_id ∧ re_path x = Some (fc_path f) ∧ re_check_id x = None
     ∧ re_operation x = Some (fc_operation f) ∧ re_kind x ∈ change_kinds else b = []).
  { revert Hb. destruct (bool_decide (fc_operation f ∈ [REPLACE; DELETE])); intros Hb; [|by injection Hb].
    apply bind_ok in Hb as (text & _ & Hb). apply bind_ok in Hb as (x & Hx & [= <-]).
    apply Hone in Hx; [by exists x|unfold change_kinds; set_solver]. }
  assert (Hafter : if bool_decide (fc_operation f ∈ [CREATE; REPLACE]) then ∃ x, a = [x] ∧
    re_kind x = SOURCE_AFTER ∧ re_node_id x = node_id ∧ re_path x = Some (fc_path f) ∧ re_check_id x = None
     ∧ re_operation x = Some (fc_operation f) ∧ re_kind x ∈ change_kinds else a = []).
  { revert Ha. destruct (bool_decide (fc_operation f ∈ [CREATE; REPLACE])); intros Ha; [|by injection Ha].
    apply bind_ok in Ha as (text & _ & Ha). apply bind_ok in Ha as (x & Hx & [= <-]).
    apply Hone in Hx; [by exists x|unfold change_kinds; set_solver]. }
  clear Hb Ha Hone.
  assert (Hk : re_kind e ∈ change_kinds) by (rewrite Ek; unfold change_kinds; set_solver).
  destruct (fc_operation f); simpl in Hbefore, Hafter;
    repeat match goal with H : ∃ x, _ |- _ => destruct H as (? & -> & ? & ? & ? & ? & ? & ?) end; subst;
    (split; [intros y; simpl; rewrite !elem_of_cons, elem_of_nil; naive_solver|]); simpl; unfold change_kinds; congruence.
Qed.

(** The four items of a check, under its identifier. *)
Definition check_part (node_id : string) (c : _VerifiedCheckMaterial) (es : list ReviewEvidence) : Prop :=
  Forall2 (λ e kd, item e kd.1 node_id kd.2 None (Some (ac_check_id (vc_command c))) None) es
    [(CHECK_COMMAND, ln_digest (ck_command (vc_recorded c)));
     (CHECK_RESULT, ln_digest (ck_result (vc_recorded c)));
     (CHECK_STDOUT, ln_digest (ck_stdout (vc_recorded c)));
     (CHECK_STDERR, ln_digest (ck_stderr (vc_recorded c)))].

Lemma check_evidence_items maximum node_id c es : check_evidence maximum node_id c = Ok es →
  check_part node_id c es.
Proof.
  unfold check_evidence. intros H. apply bind_ok in H as (e1 & H1%evidence_bytes_item & H).
  apply bind_ok in H as (e2 & H2%evidence_bytes_item & H).
  apply bind_ok in H as (e3 & H3%evidence_source_item & H).
  apply bind_ok in H as (e4 & H4%evidence_source_item & [= <-]).
  unfold check_part. repeat apply Forall2_cons_2; done.
Qed.

(** ** The evidence of a node *)

Definition node_id_of (m : _VerifiedNodeMaterial) : string := xn_node_id (vm_expectation m).
Definition operations_of (m : _VerifiedNodeMaterial) : list FileChange :=
  if xn_repository_write (vm_expectation m) then from_option cp_operations [] (vm_proposal m) else [].

Definition operation_part (node_id : string) (f : FileChange) (es : list ReviewEvidence) : Prop :=
  (∀ e, e ∈ es → re_node_id e = node_id ∧ re_path e = Some (fc_path f) ∧ re_check_id e = None
     ∧ re_operation e = Some (fc_operation f) ∧ re_kind e ∈ change_kinds)
  ∧ map re_kind es = required_kinds (fc_operation f).
(** A node's evidence: its outcome, then the evidence of its operations, then
    that of its checks. *)
Definition node_evidence (m : _VerifiedNodeMaterial) (es : list ReviewEvidence) : Prop :=
  ∃ outcome operations checks, es = outcome :: concat operations ++ concat checks
  ∧ item outcome OUTCOME (node_id_of m) (ln_digest (vm_outcome_link m)) None None None
  ∧ Forall2 (operation_part (node_id_of m)) (operations_of m) operations
  ∧ Forall2 (check_part (node_id_of m)) (vm_checks m) checks.

Lemma review_evidence_node maximum m es : _review_evidence_for_node maximum m = Ok es → node_evidence m es.
Proof.
  unfold _review_evidence_for_node. intros H. apply bind_ok in H as (o & Ho%evidence_bytes_item & H).
  apply bind_ok in H as (ch & Hch & H). apply bind_ok in H as (ck & Hck%map_result_ok & [= <-]).
  assert (Hops : ∃ operations, ch = concat operations
    ∧ Forall2 (operation_part (node_id_of m)) (operations_of m) operations).
  { unfold change_evidence in Hch. unfold operations_of. destruct (xn_repository_write _).
    - repeat (case_match; [|done]). apply bind_ok in Hch as (parts & Hp%map_result_ok & [= <-]).
      exists parts. split; [done|]. eapply Forall2_impl; [exact Hp|]. intros f l. apply operation_evidence_items.
    - injection Hch as <-. by exists []. }
  destruct Hops as (operations & -> & Hops). exists o, operations, ck. split_and!; [done..|].
  eapply Forall2_impl; [exact Hck|]. intros c l. apply check_evidence_items.
Qed.

Lemma node_evidence_ids m es e : node_evidence m es → e ∈ es → re_node_id e = node_id_of m.
Proof.
  intros (o & ops & cks & -> & Ho & Hops & Hcks) [->|[Hin|Hin]%elem_of_app]%elem_of_cons.
  - apply Ho.
  - apply elem_of_concat in Hin as (l & Hin & [i Hi]%list_elem_of_lookup).
    destruct (Forall2_lookup_r _ _ _ _ _ Hops Hi) as (f & _ & Hf & _). by apply Hf.
  - apply elem_of_concat in Hin as (l & Hin & [i Hi]%list_elem_of_lookup).
    destruct (Forall2_lookup_r _ _ _ _ _ Hcks Hi) as (c & _ & Hc).
    apply list_elem_of_lookup in Hin as [j Hj].
    destruct (Forall2_lookup_l _ _ _ _ _ Hc Hj) as (kd & _ & _ & Hn & _). done.
Qed.

Lemma select_false kind node_id check_id e :
  re_kind e ≠ kind ∨ re_node_id e ≠ node_id ∨ re_check_id e ≠ check_id →
  bool_decide (re_kind e = kind) && bool_decide (re_node_id e = node_id)
    && bool_decide (re_check_id e = check_id) = false.
Proof. intros H. repeat case_bool_decide; naive_solver. Qed.

Lemma item_kind_check node_id c es e : check_part node_id c es → e ∈ es →
  re_kind e ∈ check_evidence_kinds ∧ re_check_id e = Some (ac_check_id (vc_command c)).
Proof.
  intros Hc [i Hi]%list_elem_of_lookup.
  destruct (Forall2_lookup_l _ _ _ _ _ Hc Hi) as (kd & Hkd & Hk & _ & _ & _ & Hid & _). split; [|done].
  rewrite Hk. apply list_elem_of_lookup_2 in Hkd. rewrite !elem_of_cons, elem_of_nil in Hkd.
  unfold check_evidence_kinds. destruct Hkd as [->|[->|[->|[->|[]]]]]; simpl; set_solver.
Qed.

Lemma kinds_apart k : k ∈ change_kinds → k ∈ check_evidence_kinds → False.
Proof. unfold change_kinds, check_evidence_kinds. rewrite !elem_of_cons, !elem_of_nil. naive_solver. Qed.

Section OneNode.
Context (m : _VerifiedNodeMaterial) (outcome : ReviewEvidence).
Context (operations checks : list (list ReviewEvidence)).
Context (Houtcome : item outcome OUTCOME (node_id_of m) (ln_digest (vm_outcome_link m)) None None None).
Context (Hoperations : Forall2 (operation_part (node_id_of m)) (operations_of m) operations).
Context (Hchecks : Forall2 (check_part (node_id_of m)) (vm_checks m) checks).
#[local] Abbreviation evidence := (outcome :: concat operations ++ concat checks).

Lemma operation_item e : e ∈ concat operations → ∃ f es, f ∈ operations_of m ∧ e ∈ es
  ∧ operation_part (node_id_of m) f es.
Proof.
  intros (es & He & [i Hi]%list_elem_of_lookup)%elem_of_concat.
  destruct (Forall2_lookup_r _ _ _ _ _ Hoperations Hi) as (f & Hf & Hp). exists f, es.
  split_and!; [by eapply list_elem_of_lookup_2|done..].
Qed.

Lemma check_item e : e ∈ concat checks → ∃ c es, c ∈ vm_checks m ∧ e ∈ es ∧ check_part (node_id_of m) c es.
Proof.
  intros (es & He & [i Hi]%list_elem_of_lookup)%elem_of_concat.
  destruct (Forall2_lookup_r _ _ _ _ _ Hchecks Hi) as (c & Hc & Hp). exists c, es.
  split_and!; [by eapply list_elem_of_lookup_2|done..].
Qed.

Lemma operation_item_kind e : e ∈ concat operations → re_kind e ∈ change_kinds ∧ re_check_id e = None.
Proof. intros (f & es & _ & He & Hp & _)%operation_item. by destruct (Hp e He) as (_ & _ & ? & _ & ?). Qed.

Lemma check_item_kind e : e ∈ concat checks → re_kind e ∈ check_evidence_kinds.
Proof. intros (c & es & _ & He & Hp)%check_item. by eapply item_kind_check. Qed.

Lemma select_outcome : select evidence OUTCOME (node_id_of m) None = [outcome].
Proof.
  destruct Houtcome as (Hk & Hn & _ & _ & Hc & _). unfold select. cbn [List.filter].
  rewrite !bool_decide_eq_true_2 by done. simpl. f_equal. apply filter_none.
  intros e [He|He]%elem_of_app; apply select_false; left.
  - apply operation_item_kind in He as [He _]. intros E. rewrite E in He. unfold change_kinds in He. set_solver.
  - apply check_item_kind in He. intros E. rewrite E in He. unfold check_evidence_kinds in He. set_solver.
Qed.

Lemma select_check i c k : NoDup (map (λ c, ac_check_id (vc_command c)) (vm_checks m)) →
  vm_checks m !! i = Some c → k ∈ check_evidence_kinds →
  only (select evidence k (node_id_of m) (Some (ac_check_id (vc_command c)))) (λ e,
    (k = CHECK_COMMAND → re_artifact_digest e = ln_digest (ck_command (vc_recorded c)))
    ∧ (k = CHECK_RESULT → re_artifact_digest e = ln_digest (ck_result (vc_recorded c)))).
Proof.
  intros Hn Hi Hk. destruct (Forall2_lookup_l _ _ _ _ _ Hchecks Hi) as (es & Hes & Hc).
  unfold select. cbn [List.filter]. rewrite List.filter_app.
  rewrite select_false by (left; destruct Houtcome as [-> _]; intros <-; unfold check_evidence_kinds in Hk; set_solver).
  rewrite (filter_none _ (concat operations)).
  2: { intros e [_ He]%operation_item_kind. apply select_false. right; right. by rewrite He. }
  cbn [app]. erewrite filter_one_part; [|exact Hchecks|exact Hi|exact Hes|].
  2: { intros j c' es' Hne Hj Hc' e He. apply select_false. right; right.
       destruct (item_kind_check _ _ _ _ Hc' He) as [_ ->]. intros [= E]. apply Hne.
       eapply NoDup_lookup; [exact Hn| |]; rewrite list_lookup_fmap; [by rewrite Hj|by rewrite Hi, E]. }
  unfold check_part in Hc. apply Forall2_cons_inv_r in Hc as (e1 & r1 & H1 & Hc & ->).
  apply Forall2_cons_inv_r in Hc as (e2 & r2 & H2 & Hc & ->).
  apply Forall2_cons_inv_r in Hc as (e3 & r3 & H3 & Hc & ->).
  apply Forall2_cons_inv_r in Hc as (e4 & r4 & H4 & Hc & ->). apply Forall2_nil_inv_r in Hc as ->.
  destruct H1 as (K1 & N1 & D1 & _ & C1 & _), H2 as (K2 & N2 & D2 & _ & C2 & _).
  destruct H3 as (K3 & N3 & D3 & _ & C3 & _), H4 as (K4 & N4 & D4 & _ & C4 & _). cbn [fst snd] in *.
  cbn [List.filter]. rewrite K1, K2, K3, K4, N1, N2, N3, N4, C1, C2, C3, C4.
  rewrite !(bool_decide_eq_true_2 (node_id_of m = node_id_of m)) by done.
  rewrite !(bool_decide_eq_true_2 (Some (ac_check_id (vc_command c)) = _)) by done.
  unfold check_evidence_kinds in Hk. rewrite !elem_of_cons, elem_of_nil in Hk.
  destruct Hk as [->|[->|[->|[->|[]]]]]; simpl; eexists; split; try reflexivity; split; done.
Qed.

(** *** Write scope *)

Lemma select_change k : k ∈ change_kinds →
  select evidence k (node_id_of m) None = List.filter (λ e, bool_decide (re_kind e = k)) (concat operations).
Proof.
  intros Hk. unfold select. cbn [List.filter]. rewrite List.filter_app.
  rewrite select_false by (left; destruct Houtcome as [-> _]; intros <-; unfold change_kinds in Hk; set_solver).
  rewrite (filter_none _ (concat checks)), app_nil_r.
  - apply filter_ext_in. intros e He%list_elem_of_In.
    destruct (operation_item e He) as (f & es & _ & Hin & Hp & _). destruct (Hp e Hin) as (-> & _ & -> & _).
    rewrite !(bool_decide_eq_true_2 (_ = _ :> string)), (bool_decide_eq_true_2 (None = None)) by done.
    by rewrite !andb_true_r.
  - intros e He%check_item_kind. apply select_false. left. intros E. rewrite E in He. by eapply kinds_apart.
Qed.

Lemma scope_elem node e : rn_node_id node = node_id_of m →
  e ∈ scope_selected evidence node ↔ e ∈ concat operations.
Proof.
  intros Hn. unfold scope_selected. rewrite elem_of_concat. setoid_rewrite list_elem_of_fmap. rewrite Hn.
  split.
  - intros (l & He & k & -> & Hk). rewrite select_change in He by done. by apply elem_of_listfilter in He as [? _].
  - intros He. destruct (operation_item_kind e He) as [Hk _]. exists (select evidence (re_kind e) (node_id_of m) None).
    split; [|by eexists]. rewrite select_change by done. apply elem_of_listfilter. split; [done|].
    by apply bool_decide_eq_true.
Qed.

Lemma scope_kind node k : rn_node_id node = node_id_of m → k ∈ change_kinds →
  List.filter (λ e, bool_decide (re_kind e = k)) (scope_selected evidence node)
  = List.filter (λ e, bool_decide (re_kind e = k)) (concat operations).
Proof.
  intros Hn Hk. unfold scope_selected. rewrite filter_concat, Hn.
  assert (Hs : ∀ k', k' ∈ change_kinds →
    List.filter (λ e, bool_decide (re_kind e = k)) (select evidence k' (node_id_of m) None)
    = if bool_decide (k' = k) then List.filter (λ e, bool_decide (re_kind e = k)) (concat operations) else []).
  { intros k' Hk'. rewrite select_change by done. case_bool_decide as E.
    - subst k'. apply filter_id, Forall_forall. intros e [_ He]%elem_of_listfilter. done.
    - apply filter_none. intros e [_ He%bool_decide_eq_true]%elem_of_listfilter.
      apply bool_decide_eq_false. congruence. }
  unfold change_kinds in *. cbn [map concat]. rewrite !Hs by set_solver.
  rewrite !elem_of_cons, elem_of_nil in Hk. destruct Hk as [->|[->|[->|[]]]]; simpl; by rewrite ?app_nil_r.
Qed.
End OneNode.

Lemma filter_comm {A} (f g : A → bool) l : List.filter f (List.filter g l) = List.filter g (List.filter f l).
Proof.
  induction l as [|x l IH]; simpl; [done|]. destruct (g x) eqn:Eg, (f x) eqn:Ef; simpl; rewrite ?Eg, ?Ef, ?IH; done.
Qed.

Lemma filter_key {A B} `{EqDecision B} (g : A → B) l k : NoDup (map g l) → k ∈ map g l →
  ∃ x, List.filter (λ a, bool_decide (g a = k)) l = [x].
Proof.
  induction l as [|x l IH]; simpl; [by intros _ ?%elem_of_nil|]. intros [Hx Hn]%NoDup_cons [->|Hk]%elem_of_cons.
  - exists x. rewrite bool_decide_eq_true_2 by done. f_equal. apply filter_none. intros a Ha.
    apply bool_decide_eq_false. intros E. apply Hx, list_elem_of_fmap. eauto.
  - rewrite bool_decide_eq_false_2; [auto|]. by intros <-.
Qed.

Lemma required_kinds_ok o : NoDup (required_kinds o) ∧ ∀ k, k ∈ required_kinds o → k ∈ change_kinds.
Proof.
  split; [destruct o; apply (bool_decide_unpack _); vm_compute; exact I|].
  destruct o; unfold required_kinds, change_kinds; set_solver.
Qed.

Lemma scope_is_proved m es node : node_evidence m es → rn_node_id node = node_id_of m →
  NoDup (map fc_path (operations_of m)) → operations_of m ≠ [] → scope_proved es node.
Proof.
  intros (o & ops & cks & -> & Ho & Hops & Hcks) Hn Hp Hne. unfold scope_proved.
  pose proof (λ e, scope_elem m o ops cks Ho Hops Hcks node e Hn) as Hsel.
  assert (Hfind : ∀ i f, operations_of m !! i = Some f → ∃ part, ops !! i = Some part ∧
    operation_part (node_id_of m) f part).
  { intros i f Hi. by destruct (Forall2_lookup_l _ _ _ _ _ Hops Hi) as (part & ? & ?); exists part. }
  split.
  - destruct (operations_of m) as [|f fs] eqn:E; [done|]. destruct (Hfind 0%nat f) as (part & Hpart & Hf & Hk); [done|].
    destruct part as [|e part]; [by destruct (fc_operation f)|].
    exists e, (fc_path f). split; [|apply Hf; by left]. rewrite <-E in *.
    apply Hsel, elem_of_concat. exists (e :: part). split; [by left|].
    by eapply list_elem_of_lookup_2.
  - intros e p He Hpath. rewrite (Hsel e) in He.
    destruct (operation_item _ _ Hops _ He) as (f & part & Hf & Hin & Hpart & _).
    destruct (Hpart e Hin) as (_ & Hpe & _). rewrite Hpath in Hpe. injection Hpe as ->.
    apply list_elem_of_lookup in Hf as [i Hi]. clear e part He Hin Hpart Hpath.
    destruct (Hfind i f Hi) as (part & Hi' & Hpart & Hkinds). exists (fc_operation f). split.
    + intros e He Hpe. rewrite (Hsel e) in He.
      destruct (operation_item _ _ Hops _ He) as (f' & part' & Hf' & Hin' & Hpart' & _).
      destruct (Hpart' e Hin') as (_ & Hpe' & _ & -> & _). rewrite Hpe in Hpe'. injection Hpe' as E.
      apply list_elem_of_lookup in Hf' as [j Hj]. assert (i = j) as <-.
      { eapply NoDup_lookup; [exact Hp| |]; rewrite list_lookup_fmap; [by rewrite Hi|by rewrite Hj, E]. }
      by simplify_eq.
    + intros k Hk. destruct (required_kinds_ok (fc_operation f)) as [Hnd Hch].
      rewrite filter_comm. erewrite scope_kind; [|done..|by apply Hch]. rewrite filter_comm.
      erewrite (filter_one_part (λ e, bool_decide (re_path e = Some (fc_path f)))); [|exact Hops|exact Hi|exact Hi'|].
      * rewrite (filter_id _ part) by (apply Forall_forall; intros e He; apply bool_decide_eq_true; apply (Hpart e He)).
        rewrite <-Hkinds in Hnd, Hk. destruct (filter_key re_kind part k Hnd Hk) as [x ->]. by exists x.
      * intros j f' part' Hji Hj [Hpart' _] e He. apply bool_decide_eq_false.
        destruct (Hpart' e He) as (_ & -> & _). intros [= E]. apply Hji.
        eapply NoDup_lookup; [exact Hp| |]; rewrite list_lookup_fmap; [by rewrite Hj|by rewrite Hi, E].
Qed.

(** ** From a node's own evidence to the evidence of the context *)

Lemma only_perm {A} (l k : list A) P : l ≡ₚ k → only l P → only k P.
Proof. intros Hp (x & -> & Hx). exists x. split; [|done]. by apply Permutation_singleton_l in Hp. Qed.

Lemma path_proved_perm l k p : l ≡ₚ k → path_proved l p → path_proved k p.
Proof.
  intros Hp (op & H1 & H2). exists op. split; [intros e; rewrite <-Hp; auto|].
  intros kd Hk. eapply only_perm, H2, Hk. by do 2 apply filter_perm.
Qed.

#[local] Instance path_proved_proper : Proper (Permutation ==> eq ==> iff) path_proved.
Proof. intros l k H p _ <-. split; by apply path_proved_perm. Qed.

Lemma node_proved_transfer l k node :
  (∀ kind check_id, select l kind (rn_node_id node) check_id ≡ₚ select k kind (rn_node_id node) check_id) →
  node_proved l node → node_proved k node.
Proof.
  intros Hs (Ho & Hw & Hc).
  assert (Hsc : scope_selected l node ≡ₚ scope_selected k node).
  { unfold scope_selected, change_kinds. cbn [map concat]. by rewrite !Hs. }
  split_and!.
  - by eapply only_perm, Ho.
  - intros W. destruct (Hw W) as [(e & p & He & Hp) Hall]. split.
    + exists e, p. by rewrite <-Hsc.
    + intros e' p'. rewrite <-Hsc. apply Hall.
  - intros c Hin. destruct (Hc c Hin) as [H1 H2]. split; [done|]. intros kd Hk. by eapply only_perm, H2.
Qed.

(** ** Plan nodes of a review *)

Definition check_of (c : _VerifiedCheckMaterial) (k : ReviewCheck) : Prop :=
  rc_check_id k = ac_check_id (vc_command c) ∧ rc_passed k = vc_passed c
  ∧ acceptance_command_digest (vc_command c) = Ok (rc_command_digest k)
  ∧ rc_result_digest k = vc_result_digest c.

Lemma review_check_of_ok c k : review_check_of c = Ok k → check_of c k.
Proof.
  unfold review_check_of, review_check_init. intros H. apply bind_ok in H as (d & Hd & H).
  apply bind_ok in H as (? & _ & [= <-]). done.
Qed.

Record node_of (m : _VerifiedNodeMaterial) (node : ReviewPlanNode) : Prop := {
  no_id : rn_node_id node = node_id_of m;
  no_effects : rn_effects node = xn_effects (vm_expectation m);
  no_checks : Forall2 check_of (vm_checks m) (rn_checks node);
  no_distinct : NoDup (map rc_check_id (rn_checks node))
}.

Lemma review_node_of_ok m node : review_node_of m = Ok node → node_of m node.
Proof.
  unfold review_node_of, review_node_init. intros H. apply bind_ok in H as (cs & Hcs%map_result_ok & H).
  apply bind_ok in H as (? & H1%contract_require_ok & H). apply bind_ok in H as (? & _ & H).
  apply bind_ok in H as (? & _ & H). apply bind_ok in H as (? & _ & [= <-]).
  rewrite !andb_true_iff in H1. destruct H1 as [_ H1%bool_decide_eq_true]. split; try done.
  eapply Forall2_impl; [exact Hcs|]. apply review_check_of_ok.
Qed.

Lemma same_check_ids m node : node_of m node →
  map (λ c, ac_check_id (vc_command c)) (vm_checks m) = map rc_check_id (rn_checks node).
Proof.
  intros [_ _ H _]. induction H as [|c k cs ks (Hid & _) _ IH]; simpl; [done|]. by rewrite Hid, IH.
Qed.

(** What verification established about a material. *)
Record material_ok (m : _VerifiedNodeMaterial) : Prop := {
  mk_proposal : ∀ p, vm_proposal m = Some p → change_proposal_ok p;
  mk_checks : ∀ c, c ∈ vm_checks m →
    acceptance_command_digest (vc_command c) = Ok (ln_digest (ck_command (vc_recorded c)))
    ∧ vc_result_digest c = ln_digest (ck_result (vc_recorded c))
}.

Lemma node_verified_material {R} decode_other (s : @_ArtifactSession R) run x m :
  node_verified decode_other s run x m → material_ok m.
Proof.
  intros H. destruct (nv_manifest _ _ _ _ _ H) as (raw & _ & Hm). apply manifest_mapping_ok in Hm as [_ Hck].
  split.
  - intros p Hp. pose proof (nv_proposal _ _ _ _ _ H) as Hpr. rewrite Hp in Hpr.
    inversion Hpr as [? ? (c & _ & [(data & raw' & _ & _ & Hq) _ _])|]; subst. by eapply proposal_mapping_ok.
  - intros c [i Hi]%list_elem_of_lookup.
    destruct (Forall2_lookup_r _ _ _ _ _ (nv_checks _ _ _ _ _ H) Hi) as ([e r] & Hz & [Hrec _ _ [Hd1 Hd2] _]).
    apply list_elem_of_lookup_2, elem_of_zip_r, Hck in Hz as [_ [Hb1 Hb2]].
    cbn [snd] in *. subst r. by rewrite Hb1, Hb2.
Qed.

(** A node whose material passed every check is proved by its own evidence. *)
Lemma evidence_proves_node m node es : material_ok m → node_of m node → node_evidence m es →
  (writes node = true → operations_of m ≠ []) → (∀ c, c ∈ vm_checks m → vc_passed c = true) →
  node_proved es node.
Proof.
  intros [Hprop Hmc] Hnode Hes Hw Hpass. pose proof (no_id _ _ Hnode) as Hid.
  pose proof (same_check_ids _ _ Hnode) as Hids. pose proof (no_distinct _ _ Hnode) as Hd. rewrite <-Hids in Hd.
  split_and!.
  - destruct Hes as (o & ops & cks & -> & Ho & Hops & Hcks). rewrite Hid. erewrite select_outcome by done.
    by exists o.
  - intros W. eapply scope_is_proved; [done..| |by apply Hw]. unfold operations_of.
    destruct (xn_repository_write _); [|apply NoDup_nil_2]. destruct (vm_proposal m) as [p|] eqn:E; [|apply NoDup_nil_2].
    simpl. by apply cpo_paths, Hprop.
  - intros k [i Hi]%list_elem_of_lookup.
    destruct (Forall2_lookup_r _ _ _ _ _ (no_checks _ _ Hnode) Hi) as (c & Hc & Hck & Hp & Hdc & Hdr).
    assert (Hin : c ∈ vm_checks m) by by eapply list_elem_of_lookup_2.
    destruct (Hmc c Hin) as [Hd1 Hd2]. split; [rewrite Hp; auto|]. intros kd Hk.
    destruct Hes as (o & ops & cks & -> & Ho & Hops & Hcks). rewrite Hid, Hck.
    destruct (select_check m o ops cks Ho Hops Hcks i c kd Hd Hc Hk) as (e & He & H1 & H2).
    exists e. split; [done|]. split; intros E; [rewrite (H1 E)|rewrite (H2 E)]; congruence.
Qed.

(** ** The context of a run *)

Lemma map_result_fst {A B C} (f : A → result (B * C)) (Q : A → B → C → Prop) l ps :
  (∀ x b c, f x = Ok (b, c) → Q x b c) → map_result f l = Ok ps →
  Forall2 (λ x p, Q x p.1 p.2) l ps.
Proof.
  intros HQ H%map_result_ok. eapply Forall2_impl; [exact H|]. intros x [b c]. apply HQ.
Qed.

(** Selecting the evidence of one node from the evidence of all. *)
Lemma select_part ms parts i m node es kind check_id :
  Forall2 (λ m p, node_of m p.1 ∧ node_evidence m p.2) ms parts →
  NoDup (map rn_node_id (map fst parts)) → ms !! i = Some m → parts !! i = Some (node, es) →
  select (concat (map snd parts)) kind (rn_node_id node) check_id
  = select es kind (rn_node_id node) check_id.
Proof.
  intros H Hn Hm Hp.
  assert (H' : Forall2 (λ m es, node_evidence m es) ms (map snd parts)).
  { clear -H. induction H as [|? ? ? ? []]; simpl; constructor; done. }
  unfold select. eapply filter_one_part; [exact H'|exact Hm|by rewrite list_lookup_fmap, Hp|].
  intros j m' es' Hji Hj He' e Hin. apply select_false. right; left.
  rewrite (node_evidence_ids _ _ _ He' Hin). intros E. apply Hji.
  destruct (Forall2_lookup_l _ _ _ _ _ H Hj) as ([node' es''] & Hp' & Hno & _).
  eapply NoDup_lookup; [exact Hn| |]; rewrite !list_lookup_fmap; [by rewrite Hp'|].
  rewrite Hp. simpl. by rewrite <-E, <-(no_id _ _ Hno).
Qed.

Lemma operations_counted m n : _review_evidence_item_count m = Ok n → material_ok m →
  xn_repository_write (vm_expectation m) = true → operations_of m ≠ [].
Proof.
  unfold _review_evidence_item_count, operations_of. intros H [Hp _] Hw. rewrite Hw in H |- *.
  apply bind_ok in H as (p & Hv%of_option_ok & _). rewrite Hv. simpl. specialize (Hp p Hv).
  pose proof (cpo_count _ Hp) as [Hc _]. destruct (cp_operations p); [done|done].
Qed.

Lemma assembled_proved sb digest ms c : assemble_context sb digest ms = Ok c →
  (∀ m, m ∈ ms → material_ok m) → (∀ m k, m ∈ ms → k ∈ vm_checks m → vc_passed k = true) →
  (∀ m, m ∈ ms → xn_repository_write (vm_expectation m)
                 = bool_decide ("repository-write" ∈ xn_effects (vm_expectation m))) →
  ∀ node, node ∈ ra_nodes (rx_acceptance c) → node_proved (rx_evidence c) node.
Proof.
  unfold assemble_context. intros H Hok Hpass Hwr node Hnode.
  apply bind_ok in H as (counts & Hcounts%map_result_ok & H). do 2 (apply bind_ok in H as (? & _ & H)).
  apply bind_ok in H as (parts & Hparts & H). apply bind_ok in H as (? & _ & H).
  apply bind_ok in H as (acc & Hacc%review_acceptance_init_ok & H).
  pose proof (review_context_evidence _ _ H) as Hev. apply review_context_init_ok in H as [_ Ha].
  cbn [rx_acceptance rx_evidence] in *. destruct Hacc as (Hnd & Hnodes & _). rewrite Ha, Hnodes in *.
  cbn [ra_nodes] in *.
  assert (Hrel : Forall2 (λ m p, node_of m p.1 ∧ node_evidence m p.2) ms parts).
  { eapply (map_result_fst _ (λ m b e, node_of m b ∧ node_evidence m e)); [|exact Hparts].
    intros m b e He. unfold node_and_evidence in He. apply bind_ok in He as (n & Hn%review_node_of_ok & He).
    apply bind_ok in He as (es & Hes%review_evidence_node & [= <- <-]). done. }
  rewrite (sort_by_perm rn_node_id (map fst parts)) in Hnd.
  apply elem_of_sort_by, list_elem_of_fmap in Hnode as ([node' es] & -> & [i Hi]%list_elem_of_lookup).
  destruct (Forall2_lookup_r _ _ _ _ _ Hrel Hi) as (m & Hm & Hno & Hes). cbn [fst snd] in *.
  pose proof (list_elem_of_lookup_2 _ _ _ Hm) as Hin.
  apply (node_proved_transfer es).
  - intros kind check_id. rewrite <-(select_part _ _ _ _ _ _ kind check_id Hrel Hnd Hm Hi).
    symmetry. by apply filter_perm.
  - eapply evidence_proves_node; [by apply Hok|done|done| |by intros; eapply Hpass].
    intros W. destruct (Forall2_lookup_l _ _ _ _ _ Hcounts Hm) as (n & _ & Hcount).
    eapply operations_counted; [done|by apply Hok|]. rewrite Hwr by done.
    unfold writes in W. by rewrite (no_effects _ _ Hno) in W.
Qed.

Section Built.
Context {R : Type} (reader_stat : string → R → result ArtifactRef * R)
  (reader_get_bytes : ArtifactRef → R → result string * R)
  (decode_other : string → string → option string).
#[local] Abbreviation build := (build_review_context_from_artifacts reader_stat reader_get_bytes decode_other).

Lemma graph_complete_spec nodes ms constraints base exact : graph_complete nodes ms constraints base exact = true →
  (∀ x, x ∈ nodes → xn_status x = "succeeded"
     ∧ xn_repository_write x = bool_decide ("repository-write" ∈ xn_effects x))
  ∧ length ms = length nodes
  ∧ ∀ m k, m ∈ ms → k ∈ vm_checks m → vc_passed k = true.
Proof.
  unfold graph_complete. rewrite !andb_true_iff, !forallb_elem, Z.eqb_eq.
  intros ((((((Hl & Hs) & _) & Hw) & _) & _) & Hp). split_and!.
  - intros x Hx. split; [by eapply bool_decide_eq_true_1, Hs|]. by apply eqb_prop, Hw.
  - unfold zlen in Hl. lia.
  - intros m k Hm Hk. specialize (Hp m Hm). rewrite forallb_elem in Hp. auto.
Qed.

Lemma contract_mismatch_ok {A} (r : result A) a : contract_mismatch r = Ok a → r = Ok a.
Proof. unfold contract_mismatch. by destruct r as [|[]]. Qed.

(** Every node of a context that was built is proved by its evidence. *)
Lemma built_context_proved reader sb nodes exact c : build reader sb nodes exact = Ok c →
  ∀ node, node ∈ ra_nodes (rx_acceptance c) → node_proved (rx_evidence c) node.
Proof.
  unfold build_review_context_from_artifacts. intros H. apply bind_ok in H as ([report ms] & Hv & H).
  apply bind_ok in H as (u1 & Hst%raise_unless_ok%bool_decide_eq_true & H).
  apply bind_ok in H as (u2 & Hg%raise_unless_ok & H). apply contract_mismatch_ok in H.
  destruct (graph_complete_spec _ _ _ _ _ Hg) as (Hn & _ & Hp).
  pose proof (run_materials_result reader_stat reader_get_bytes decode_other reader (sb_run_id sb) nodes) as Hr.
  rewrite Hv in Hr. inversion Hr as [|s ms' d _ Hs Hms|? ? ? ? _ Hbad|]; subst; simpl in *; [done| |by destruct Hbad; subst].
  assert (Hm : ∀ m, m ∈ ms → ∃ x, x ∈ nodes ∧ node_verified decode_other s (sb_run_id sb) x m).
  { intros m [i Hi]%list_elem_of_lookup. destruct (Forall2_lookup_r _ _ _ _ _ Hms Hi) as (x & Hx & Hxm).
    exists x. split; [|done]. apply list_elem_of_lookup_2, elem_of_listfilter in Hx. apply Hx. }
  eapply assembled_proved; [exact H| |done|].
  - intros m (x & _ & Hx)%Hm. by eapply node_verified_material.
  - intros m (x & Hx & Hxm)%Hm. rewrite (nv_expectation _ _ _ _ _ Hxm). by apply Hn.
Qed.
End Built.

(** C8 (built_review_passes): a review whose input was built from a run's
    artifacts fails verification only because of the review itself: whatever the
    artifact store answered, the change scope, the checks and the evidence of every
    node are already proved, so the report passes exactly when no finding is open
    and every epistemic dimension is supported or not applicable. *)
Theorem built_review_passes {R} (reader_stat : string → R → result ArtifactRef * R)
    (reader_get_bytes : ArtifactRef → R → result string * R)
    (decode_other : string → string → option string) reader sb nodes exact c a r :
  build_review_context_from_artifacts reader_stat reader_get_bytes decode_other reader sb nodes exact = Ok c →
  verify_review c a = Ok r →
  vr_status r = Verdict.PASS ↔
    ad_findings a = [] ∧ ∀ x, x ∈ ad_assessments a → disposition_ok (ea_disposition x).
Proof.
  intros Hc Hr. rewrite (verification_passes _ _ _ Hr). pose proof (built_context_proved _ _ _ _ _ _ _ _ Hc).
  tauto.
Qed.
