(* ===== verification/ReplayWitness.v ===== *)
(** * A concrete run, replayed

    One node that creates a file and passes one check; its nine artifacts are
    computed with the payloads of the model and served by a constant store. *)

From S2P Require Import Prelude PyStr PyFloat Sha256 Json JsonText JsonFacts PyTime Contracts JsonBytes.
From S2P Require Import Printable Events EventStore Artifacts Strict OutputSchema Gateway Changes.
From S2P Require Import Acceptance ExecutionArtifacts Replay OutcomeFacts Review ReviewFacts VerificationLifecycle.
From S2P Require Import Verification VerificationFacts ReplayReview ReplayExcerpts ReplayFacts ReplayReviewFacts.
From S2P Require Import ReviewWitness.
From Stdlib Require Import ZArith Lia Ascii String.
From stdpp Require Import base gmap sets list strings.
Local Open Scope Z_scope.

Module SampleRun.
Import SampleReview.

Definition text (v : pyval) : string := ok (canonical_json_bytes v) "".
Definition some_digest : string := Eval vm_compute in bytes_digest "lease".
Definition commit : string := "0123456789012345678901234567890123456789".
Definition instant : datetime := Datetime 0 (Some 0).

(** The artifacts: digest, media type, encoding, bytes. *)
Definition artifact (media : string) (enc : option string) (data : string) : ArtifactRef * string :=
  (MkRef (bytes_digest data) (byte_len data) media enc instant, data).
Definition json_artifact (media : string) (v : pyval) : ArtifactRef * string :=
  artifact media (Some "utf-8") (text v).
Definition link_of (a : ArtifactRef * string) : ExecutionArtifactLink :=
  MkLink (digest a.1) (size_bytes a.1) (media_type a.1) (encoding a.1).

Definition change_context : ChangeContext :=
  MkChangeContext "write the file" ["constraint"] commit ["src"] 1 [] CHANGE_CONTEXT_SCHEMA.
Definition a_context : ArtifactRef * string := Eval vm_compute in
  json_artifact CONTEXT_MEDIA_TYPE (change_context_payload change_context).
Definition created : FileChange := MkFileChange CREATE "src/a.py" None (Some "x = 1").
Definition proposal_ : ChangeProposal :=
  MkChangeProposal "p1" (digest a_context.1) [created] "create it" CHANGE_PROPOSAL_SCHEMA_VERSION.
Definition a_proposal : ArtifactRef * string := Eval vm_compute in
  json_artifact PROPOSAL_MEDIA_TYPE (change_proposal_payload proposal_).
Definition provided : ChangeProviderResult :=
  MkChangeResult proposal_ some_digest "profile" "adapter" "model" None None 5 None instant
    CHANGE_PROVIDER_RESULT_SCHEMA.
Definition a_provider : ArtifactRef * string := Eval vm_compute in
  json_artifact PROVIDER_MEDIA_TYPE (ok (change_provider_result_payload provided) PNone).
Definition a_effect : ArtifactRef * string := Eval vm_compute in
  json_artifact EFFECT_MEDIA_TYPE (obj
    [("schema_version", PStr _TEXT_CHANGE_RESULT_SCHEMA); ("status", PStr "applied");
     ("worktree_spec_digest", PStr some_digest); ("lease_digest", PStr some_digest);
     ("evidence_digest", PStr (digest a_context.1)); ("proposal_digest", PStr (digest a_proposal.1));
     ("head_commit", PStr commit);
     ("effects", PSequence [obj [("operation", PStr "create"); ("path", PStr "src/a.py");
        ("before_digest", PNone); ("after_digest", PStr (bytes_digest "x = 1"))]]);
     ("changed_paths", pstrs ["src/a.py"])]).

Definition command_ : AcceptanceCommand :=
  MkAcceptanceCommand "tests" ["pytest"] 0 (IntNumber 60) 1024 1024 ACCEPTANCE_COMMAND_SCHEMA.
Definition a_command : ArtifactRef * string := Eval vm_compute in
  json_artifact ACCEPTANCE_COMMAND_MEDIA_TYPE (acceptance_command_payload command_).
Definition a_stdout : ArtifactRef * string := Eval vm_compute in artifact _BINARY_MEDIA_TYPE None "1 passed".
Definition a_stderr : ArtifactRef * string := Eval vm_compute in artifact _BINARY_MEDIA_TYPE None "".
Definition result_ : AcceptanceResult :=
  let stream a := MkStream a.2 (byte_len a.2) (bytes_digest a.2) ACCEPTANCE_STREAM_SCHEMA in
  MkAcceptanceResult "tests" (digest a_command.1) some_digest some_digest some_digest some_digest 0 0 true
    (stream a_stdout) (stream a_stderr) ACCEPTANCE_RESULT_SCHEMA.
Definition a_result : ArtifactRef * string := Eval vm_compute in
  json_artifact ACCEPTANCE_RESULT_MEDIA_TYPE (acceptance_result_payload result_).

Definition outcome_ : NodeOutcomeManifest :=
  MkManifest "r1" "n1" 1 1 some_digest some_digest commit (Some commit) true "succeeded" None
    (Some (link_of a_context)) (Some (link_of a_proposal)) (Some (link_of a_provider))
    (Some (link_of a_effect))
    [MkCheckArtifacts "tests" (digest a_command.1) (digest a_result.1) true (link_of a_command)
       (link_of a_result) (link_of a_stdout) (link_of a_stderr)]
    NODE_OUTCOME_SCHEMA.
Definition a_outcome : ArtifactRef * string := Eval vm_compute in
  json_artifact OUTCOME_MEDIA_TYPE (node_outcome_payload outcome_).

(** A store that never changes. *)
Definition stored : list (ArtifactRef * string) :=
  [a_context; a_proposal; a_provider; a_effect; a_command; a_result; a_stdout; a_stderr; a_outcome].
Definition find (d : string) : option (ArtifactRef * string) :=
  List.find (λ a, bool_decide (digest a.1 = d)) stored.
Definition stat (d : string) (u : unit) : result ArtifactRef * unit :=
  (match find d with Some a => Ok a.1 | None => Err ArtifactNotFoundError end, u).
Definition get (r : ArtifactRef) (u : unit) : result string * unit :=
  (match find (digest r) with Some a => Ok a.2 | None => Err ArtifactNotFoundError end, u).
Definition no_codec (codec data : string) : option string := None.

Definition expected : ReplayNodeExpectation :=
  MkExpectation "n1" "write the file" ["constraint"] [] true ["repository-write"; "process"] ["src"] 1
    [MkCheckExpectation "tests" ["pytest"] 0 (IntNumber 60)] "succeeded" 1 1 (Some some_digest)
    (Some some_digest) (Some commit) (Some commit) None (Some (digest a_outcome.1))
    (Some (digest a_context.1)).

Definition subject : review_subject :=
  MkSubject "r1" "p1" "i1" "plan1" "objective" ["constraint"] commit some_digest.

Definition verified := _verify_run_materials stat get no_codec (Some tt) "r1" [expected].
Definition no_replay : ExecutionArtifactReplayReport := MkReplayReport ReplayStatus.FAILED [] [] "".
Definition report_ : ExecutionArtifactReplayReport := Eval vm_compute in fst (ok verified (no_replay, [])).
Definition materials_ : list _VerifiedNodeMaterial := Eval vm_compute in snd (ok verified (no_replay, [])).
Lemma verified_is_ok : verified = Ok (report_, materials_).
Proof. by_vm. Qed.

(** Its review: a context built from the artifacts, and a clear review of it. *)
Definition built := build_review_context_from_artifacts stat get no_codec (Some tt) subject [expected] true.
Definition context_ : ReviewContext := Eval vm_compute in ok built context.
Lemma built_is_ok : built = Ok context_.
Proof. by_vm. Qed.
Definition citation_ : ReviewCitation := Eval vm_compute in
  MkCitation (re_evidence_id (nth 0 (rx_evidence context_) no_evidence)) 1 1.
Definition assessment_ (d : EpistemicDimension) : EpistemicAssessment :=
  MkAssessment d SUPPORTED "claim" "question" [citation_] [].
Definition review_ : AdmittedReview := Eval vm_compute in
  MkAdmitted (ok (review_context_digest context_) "")
    (ok (review_acceptance_digest (rx_acceptance context_)) "") [] "all good"
    (sort_assessments (map assessment_ epistemic_dimensions)) ADMITTED_REVIEW_SCHEMA.
Definition verification_ : VerificationReport := Eval vm_compute in ok (verify_review context_ review_) no_report.
Lemma verification_is_ok : verify_review context_ review_ = Ok verification_.
Proof. by_vm. Qed.

(** A store that serves an outcome with an over-long integer. *)
Definition long : ArtifactRef * string := Eval vm_compute in
  artifact OUTCOME_MEDIA_TYPE (Some "utf-8") ("1" +:+ zeros 4300).
Definition long_expected : ReplayNodeExpectation :=
  MkExpectation "n1" "" [] [] false [] [] 0 [] "succeeded" 1 1 None None None None None
    (Some (digest long.1)) None.
End SampleRun.

(** The exception of [replay_total] does happen. *)
Example long_integer_escapes :
  verify_run_artifacts (λ d u, (Ok SampleRun.long.1, u)) (λ r u, (Ok SampleRun.long.2, u)) SampleRun.no_codec
    (Some tt) "r1" [SampleRun.long_expected] = Err long_integer_error.
Proof. by_vm. Qed.

Example sample_verified : xr_status SampleRun.report_ = ReplayStatus.VERIFIED
  ∧ length (xr_artifacts SampleRun.report_) = 9%nat.
Proof. by vm_compute. Qed.

Lemma replay_verified_genuine_witness :
  xr_findings SampleRun.report_ = [] ∧ (∀ a, a ∈ xr_artifacts SampleRun.report_ → genuine a)
  ∧ length (xr_artifacts SampleRun.report_) = 9%nat.
Proof.
  destruct (replay_verified_genuine SampleRun.stat SampleRun.get SampleRun.no_codec (Some tt) "r1"
    [SampleRun.expected] SampleRun.report_ SampleRun.materials_ SampleRun.verified_is_ok) as (H1 & H2 & _).
  - by_vm.
  - split; [exact H1|]. split; [exact H2|by_vm].
Defined.

Lemma replay_within_budget_witness : artifacts_ok (xr_artifacts SampleRun.report_).
Proof.
  apply (replay_within_budget SampleRun.stat SampleRun.get SampleRun.no_codec (Some tt) "r1" [SampleRun.expected]).
  by_vm.
Defined.

Lemma built_review_passes_witness : vr_status SampleRun.verification_ = Verdict.PASS
  ∧ (vr_status SampleRun.verification_ = Verdict.PASS → ad_findings SampleRun.review_ = []).
Proof.
  split; [by_vm|]. intros H.
  apply (built_review_passes SampleRun.stat SampleRun.get SampleRun.no_codec _ _ _ _ _ _ _
    SampleRun.built_is_ok SampleRun.verification_is_ok) in H. exact (proj1 H).
Defined.

Lemma excerpt_bounded_witness :
  match _bounded_review_excerpt (MkSource "text" 4 false) 100 with
  | Ok e => byte_len e <= 100 ∧ utf8_ok e = true
  | Err _ => False
  end.
Proof.
  assert (H : _review_excerpt_source "text" false = Ok (MkSource "text" 4 false)) by by_vm.
  pose proof (excerpt_bounded "text" false _ 100 H) as G. clear H.
  assert (Hm : 100 <= _MAX_REVIEW_EXCERPT_BYTES) by done. specialize (G Hm).
  assert (E : _bounded_review_excerpt (MkSource "text" 4 false) 100 = Ok "text") by by_vm.
  rewrite E in G |- *. split; [exact (proj1 G)|exact (proj1 (proj2 G))].
Defined.
