(* ===== verification/VerificationReplay.v ===== *)
(** * orchestration/verification_replay.py: replaying a recorded verification

    [replay_verification] folds the verification stream of a run, checks that the
    execution and review events its lease names are there, reads the report it
    refers to and compares the two; it calls nothing live.  The event reader and
    the artifact reader are arbitrary environments, each a state whose operations'
    answers may change from call to call.  An exception that no [except] names
    escapes as [Err]. *)

From S2P Require Import Prelude PyStr PyFloat Sha256 Json JsonText JsonFacts JsonBytes PyTime Contracts.
From S2P Require Import Events EventStore Artifacts Strict ExecutionPlan RunLifecycle ReviewLifecycle.
From S2P Require Import VerificationLifecycle OutputSchema Gateway Changes Acceptance ExecutionArtifacts Replay.
From S2P Require Import Review Verification.
From Stdlib Require Import ZArith Lia Ascii String.
From stdpp Require Import base gmap sets list strings.
Local Open Scope Z_scope.

Definition VERIFICATION_REPORT_MEDIA_TYPE : string := "application/vnd.blackcell.verification-report+json".
Definition _MAX_REPORT_BYTES : Z := 4 * 1024 * 1024.

(** ** Vocabularies *)

Module ReplayLifecycle.
Inductive t := NOT_STARTED | CLAIMED | REQUEUED | COMPLETED | VERIFIER_ERROR.
End ReplayLifecycle.
#[export] Instance replay_lifecycle_eq_dec : EqDecision ReplayLifecycle.t.
Proof. solve_decision. Defined.
Definition replay_lifecycle_value (s : ReplayLifecycle.t) : string :=
  match s with
  | ReplayLifecycle.NOT_STARTED => "not-started" | ReplayLifecycle.CLAIMED => "claimed"
  | ReplayLifecycle.REQUEUED => "requeued" | ReplayLifecycle.COMPLETED => "completed"
  | ReplayLifecycle.VERIFIER_ERROR => "verifier-error"
  end.

Module FindingCode.
Inductive t :=
  | EVENT_STORE_UNAVAILABLE | LIFECYCLE_INVALID | SOURCE_BINDING_MISMATCH | ARTIFACT_STORE_UNAVAILABLE
  | REPORT_MISSING | REPORT_INTEGRITY_FAILED | REPORT_METADATA_MISMATCH | REPORT_READ_UNAVAILABLE
  | REPORT_JSON_INVALID | REPORT_NONCANONICAL | REPORT_INVALID | REPORT_BINDING_MISMATCH.
End FindingCode.
#[export] Instance replay_code_eq_dec : EqDecision FindingCode.t.
Proof. solve_decision. Defined.
Definition replay_code_value (c : FindingCode.t) : string :=
  "verification-replay-" +:+
  match c with
  | FindingCode.EVENT_STORE_UNAVAILABLE => "event-store-unavailable"
  | FindingCode.LIFECYCLE_INVALID => "lifecycle-invalid"
  | FindingCode.SOURCE_BINDING_MISMATCH => "source-binding-mismatch"
  | FindingCode.ARTIFACT_STORE_UNAVAILABLE => "artifact-store-unavailable"
  | FindingCode.REPORT_MISSING => "report-missing"
  | FindingCode.REPORT_INTEGRITY_FAILED => "report-integrity-failed"
  | FindingCode.REPORT_METADATA_MISMATCH => "report-metadata-mismatch"
  | FindingCode.REPORT_READ_UNAVAILABLE => "report-read-unavailable"
  | FindingCode.REPORT_JSON_INVALID => "report-json-invalid"
  | FindingCode.REPORT_NONCANONICAL => "report-noncanonical"
  | FindingCode.REPORT_INVALID => "report-invalid"
  | FindingCode.REPORT_BINDING_MISMATCH => "report-binding-mismatch"
  end.

Definition _lifecycle_status (s : VerificationLifecycleStatus.t) : ReplayLifecycle.t :=
  match s with
  | VerificationLifecycleStatus.CLAIMED => ReplayLifecycle.CLAIMED
  | VerificationLifecycleStatus.REQUEUED => ReplayLifecycle.REQUEUED
  | VerificationLifecycleStatus.COMPLETED => ReplayLifecycle.COMPLETED
  | VerificationLifecycleStatus.FAILED => ReplayLifecycle.VERIFIER_ERROR
  end.

(** ** Reports *)

Record VerificationReplayReport := MkVerificationReplay {
  xv_run_id : string;
  xv_lifecycle_status : ReplayLifecycle.t;
  xv_verification_id : option string;
  xv_review_id : option string;
  xv_attempt : option Z;
  xv_fencing_token : option Z;
  xv_verdict : option Verdict.t;
  xv_failure_code : option string;
  xv_report_artifact_digest : option string;
  xv_report_size_bytes : option Z;
  xv_report_media_type : option string;
  xv_report_encoding : option string;
  xv_matrix_digest : option string;
  xv_artifact_integrity : ReplayStatus.t;
  xv_finding_code : option FindingCode.t;
  xv_processed_events : Z;
  xv_evidence_digest : string
}.

Definition verification_replay_payload (x : VerificationReplayReport) : pyval :=
  obj [("run_id", PStr (xv_run_id x));
       ("lifecycle_status", PStr (replay_lifecycle_value (xv_lifecycle_status x)));
       ("verification_id", popt (xv_verification_id x));
       ("review_id", popt (xv_review_id x));
       ("attempt", poptint (xv_attempt x));
       ("fencing_token", poptint (xv_fencing_token x));
       ("verdict", popt (verdict_value <$> xv_verdict x));
       ("failure_code", popt (xv_failure_code x));
       ("report_artifact_digest", popt (xv_report_artifact_digest x));
       ("report_size_bytes", poptint (xv_report_size_bytes x));
       ("report_media_type", popt (xv_report_media_type x));
       ("report_encoding", popt (xv_report_encoding x));
       ("matrix_digest", popt (xv_matrix_digest x));
       ("artifact_integrity", PStr (replay_status_value (xv_artifact_integrity x)));
       ("finding_code", popt (replay_code_value <$> xv_finding_code x));
       ("processed_events", PInt (xv_processed_events x))].

Definition _result (run_id : string) (lifecycle_status : ReplayLifecycle.t)
    (state : option VerificationLifecycleState) (artifact_integrity : ReplayStatus.t)
    (finding_code : option FindingCode.t) (report_digest : option string)
    (reference : option ArtifactRef) (matrix_digest : option string) (processed_events : Z)
    : result VerificationReplayReport :=
  let x := MkVerificationReplay run_id lifecycle_status (vr_verification_id <$> state)
    ((vl_review_id ∘ vr_lease) <$> state) ((vl_attempt ∘ vr_lease) <$> state)
    ((vl_fencing_token ∘ vr_lease) <$> state) (state ≫= vs_verdict ∘ vr_fields)
    (state ≫= vs_failure_code ∘ vr_fields) report_digest (size_bytes <$> reference)
    (media_type <$> reference) (reference ≫= encoding) matrix_digest artifact_integrity finding_code
    processed_events in
  digest ← json_digest (verification_replay_payload (x ""));
  Ok (x digest).

Definition _empty_failure (run_id : string) (status : ReplayStatus.t) (code : FindingCode.t)
    (processed_events : Z) : result VerificationReplayReport :=
  _result run_id ReplayLifecycle.NOT_STARTED None status (Some code) None None None processed_events.

Definition _artifact_failure (state : VerificationLifecycleState) (report_digest : string)
    (code : FindingCode.t) (processed_events : Z) (reference : option ArtifactRef)
    (status : ReplayStatus.t) : result VerificationReplayReport :=
  _result (VerificationLifecycle.vr_run_id state) (_lifecycle_status (VerificationLifecycle.vr_status state)) (Some state) status (Some code)
    (Some report_digest) reference (vs_matrix_digest (vr_fields state)) processed_events.

(** ** Matching *)

Definition _review_lease_matches_verification (review : ReviewLease) (verification : VerificationLease)
    : bool :=
  bool_decide (rv_run_event_id review = vl_run_event_id verification)
  && bool_decide (rv_run_event_digest review = vl_run_event_digest verification)
  && bool_decide (rv_state_digest review = vl_state_digest verification)
  && bool_decide (rv_artifact_evidence_digest review = vl_artifact_evidence_digest verification).

Definition execution_event_matches (lease : VerificationLease) (correlation : string)
    (e : EventEnvelope) : bool :=
  bool_decide (stream_id e = "run:" +:+ vl_run_id lease)
  && bool_decide (event_type e = RUN_SUCCEEDED) && bool_decide (source e = RUNTIME_EVENT_SOURCE)
  && bool_decide (correlation_id e = correlation)
  && bool_decide (payload_hash e = vl_run_event_digest lease)
  && is_str (jget "run_id" (payload e)) (vl_run_id lease)
  && is_str (jget "status" (payload e)) "succeeded".

Definition review_event_matches (lease : VerificationLease) (correlation : string)
    (e : EventEnvelope) : bool :=
  bool_decide (stream_id e = "review:" +:+ vl_run_id lease)
  && bool_decide (event_type e = REVIEW_SUCCEEDED) && bool_decide (source e = RUNTIME_EVENT_SOURCE)
  && bool_decide (correlation_id e = correlation)
  && bool_decide (payload_hash e = vl_review_event_digest lease).

Definition review_state_matches (lease : VerificationLease) (review : EventEnvelope)
    (s : ReviewLifecycleState) : bool :=
  let f := rl_review_fields s in
  bool_decide (rl_review_status s = ReviewStatus.SUCCEEDED)
  && bool_decide (event_id (rl_review_latest s) = event_id review)
  && _review_lease_matches_verification (rl_review_lease s) lease
  && bool_decide (rl_review_id s = vl_review_id lease)
  && bool_decide (rs_acceptance_digest f = Some (vl_acceptance_digest lease))
  && bool_decide (rs_context_digest f = Some (vl_context_digest lease))
  && bool_decide (rs_proposal_artifact_digest f = Some (vl_proposal_artifact_digest lease))
  && bool_decide (rs_provider_result_artifact_digest f = Some (vl_provider_result_artifact_digest lease))
  && bool_decide (rs_admitted_artifact_digest f = Some (vl_admitted_review_digest lease))
  && bool_decide (rs_finding_count f = Some (vl_finding_count lease)).

(** [report.digest] and [report.matrix_digest] are computed when they are compared. *)
Definition _report_matches_state (report : VerificationReport) (state : VerificationLifecycleState)
    (report_digest : string) : result bool :=
  let lease := vr_lease state in
  digest ← verification_report_digest report;
  let bindings_match :=
    bool_decide (digest = report_digest)
    && bool_decide (vr_run_id report = vl_run_id lease)
    && bool_decide (vr_context_digest report = vl_context_digest lease)
    && bool_decide (vr_acceptance_digest report = vl_acceptance_digest lease)
    && bool_decide (vr_state_digest report = vl_state_digest lease)
    && bool_decide (vr_artifact_evidence_digest report = vl_artifact_evidence_digest lease)
    && bool_decide (vr_admitted_review_digest report = vl_admitted_review_digest lease) in
  if bool_decide (VerificationLifecycle.vr_status state = VerificationLifecycleStatus.COMPLETED) then
    if bindings_match && bool_decide (Some (vr_status report) = vs_verdict (vr_fields state))
    then matrix ← matrix_digest report;
         Ok (bool_decide (Some matrix = vs_matrix_digest (vr_fields state)))
    else Ok false
  else Ok (bindings_match && bool_decide (VerificationLifecycle.vr_status state = VerificationLifecycleStatus.FAILED)).

(** ** Reading the report *)

(** [json.loads(data.decode("utf-8"))]: the text is not scanned for an encoding;
    one that starts with a byte order mark is no JSON. *)
Definition json_loads_utf8 (data : string) : loaded :=
  if negb (utf8_ok data) then Undecodable
  else match json_scan data with
       | Malformed => Undecodable
       | TooLong => LongInteger
       | Scanned _ => match json_loads data with Some j => Loaded j | None => Unpaired end
       end.

Inductive report_reading :=
  | ReportMapping (kvs : jobject)
  | ReportInvalid
  | ReportNoncanonical
  | ReportEscapes (e : exn).

(** Only [UnicodeDecodeError] and [JSONDecodeError] are caught: an over-long
    integer, a number that is not finite and an unpaired surrogate escape. *)
Definition read_report_mapping (data : string) : report_reading :=
  match json_loads_utf8 data with
  | Undecodable => ReportInvalid
  | LongInteger => ReportEscapes (ValueError "Exceeds the limit (4300 digits) for integer string conversion")
  | Unpaired => match first_is 123 (skip_ws data) with
                | Some _ => ReportEscapes (ValueError "surrogates not allowed")
                | None => ReportInvalid
                end
  | Loaded (JObj kvs) =>
      match canonical_json_bytes (thaw_json (JObj kvs)) with
      | Ok canonical => if bool_decide (canonical = data) then ReportMapping kvs else ReportNoncanonical
      | Err e => ReportEscapes e
      end
  | Loaded _ => ReportInvalid
  end.

(** What an exception of the artifact reader becomes. *)
Definition reader_failure (e : exn) : option (FindingCode.t * ReplayStatus.t) :=
  match e with
  | ArtifactNotFoundError => Some (FindingCode.REPORT_MISSING, ReplayStatus.FAILED)
  | ArtifactIntegrityError => Some (FindingCode.REPORT_INTEGRITY_FAILED, ReplayStatus.FAILED)
  | _ => if is_os_error e || is_runtime_error e || is_kernel_error e
         then Some (FindingCode.REPORT_READ_UNAVAILABLE, ReplayStatus.INCONCLUSIVE) else None
  end.

Section Replay.
(** The artifact reader and the event reader. *)
Context {R E : Type}.
Context (reader_stat : string → R → result ArtifactRef * R)
        (reader_get_bytes : ArtifactRef → R → result string * R).
Context (read_stream : string → E → result (list EventEnvelope) * E)
        (get_event : string → E → result (option EventEnvelope) * E).

Definition metadata_matches (reference : ArtifactRef) (report_digest : string) : bool :=
  bool_decide (digest reference = report_digest)
  && bool_decide (media_type reference = VERIFICATION_REPORT_MEDIA_TYPE)
  && bool_decide (encoding reference = Some "utf-8")
  && (1 <=? size_bytes reference) && (size_bytes reference <=? _MAX_REPORT_BYTES).

(** From the bytes that were read to the result. *)
Definition check_report (data : string) (reference : ArtifactRef) (state : VerificationLifecycleState)
    (report_digest : string) (processed_events : Z) : result VerificationReplayReport :=
  let failure code := _artifact_failure state report_digest code processed_events (Some reference)
                        ReplayStatus.FAILED in
  match read_report_mapping data with
  | ReportInvalid => failure FindingCode.REPORT_JSON_INVALID
  | ReportNoncanonical => failure FindingCode.REPORT_NONCANONICAL
  | ReportEscapes e => Err e
  | ReportMapping kvs =>
      match verification_report_from_mapping (thaw_json (JObj kvs)) with
      | Err (VerificationError _) => failure FindingCode.REPORT_INVALID
      | Err e => Err e
      | Ok report =>
          matches ← _report_matches_state report state report_digest;
          if negb matches then failure FindingCode.REPORT_BINDING_MISMATCH
          else
            matrix ← matrix_digest report;
            _result (VerificationLifecycle.vr_run_id state) (_lifecycle_status (VerificationLifecycle.vr_status state)) (Some state)
              ReplayStatus.VERIFIED None (Some report_digest) (Some reference) (Some matrix)
              processed_events
      end
  end.

Definition _replay_report_artifact (r : R) (state : VerificationLifecycleState) (report_digest : string)
    (processed_events : Z) : result VerificationReplayReport :=
  let failure e reference :=
    match reader_failure e with
    | Some (code, status) => _artifact_failure state report_digest code processed_events reference status
    | None => Err e
    end in
  let '(answer, r) := reader_stat report_digest r in
  match answer with
  | Err e => failure e None
  | Ok reference =>
      if negb (metadata_matches reference report_digest) then
        _artifact_failure state report_digest FindingCode.REPORT_METADATA_MISMATCH processed_events
          (Some reference) ReplayStatus.FAILED
      else
        match (reader_get_bytes reference r).1 with
        | Err e => failure e (Some reference)
        | Ok data => check_report data reference state report_digest processed_events
        end
  end.

(** [except ReviewLifecycleError, EventIntegrityError, OSError, RuntimeError] *)
Definition source_failure (e : exn) : bool :=
  match e with
  | ReviewLifecycleError | EventIntegrityError => true
  | _ => is_os_error e || is_runtime_error e
  end.

(** The statements of the [try]: the two events and the review they belong to. *)
Definition read_sources (lease : VerificationLease) (s : E)
    : result (option EventEnvelope * option EventEnvelope * ReviewLifecycleState) :=
  let '(execution, s) := get_event (vl_run_event_id lease) s in
  execution ← execution;
  let '(review, s) := get_event (vl_review_event_id lease) s in
  review ← review;
  sid ← review_stream (vl_run_id lease);
  review_events ← (read_stream sid s).1;
  review_state ← fold_review_lifecycle (vl_run_id lease) review_events;
  Ok (execution, review, review_state).

Definition _source_events_match (state : VerificationLifecycleState) (s : E) : result bool :=
  let lease := vr_lease state in
  let correlation := correlation_id (vr_latest state) in
  match read_sources lease s with
  | Err e => if source_failure e then Ok false else Err e
  | Ok (Some execution, Some review, review_state) =>
      Ok (execution_event_matches lease correlation execution
          && review_event_matches lease correlation review
          && review_state_matches lease review review_state)
  | Ok _ => Ok false
  end.

Definition selected_digest (state : VerificationLifecycleState) : option string :=
  if bool_decide (VerificationLifecycle.vr_status state = VerificationLifecycleStatus.COMPLETED)
  then vs_report_artifact_digest (vr_fields state) else vs_result_artifact_digest (vr_fields state).

(** Once the stream was read and folded. *)
Definition replay_state_of (artifacts : option R) (state : VerificationLifecycleState) (s : E)
    (processed_events : Z) : result VerificationReplayReport :=
  let f := vr_fields state in
  let outcome integrity code digest :=
    _result (VerificationLifecycle.vr_run_id state) (_lifecycle_status (VerificationLifecycle.vr_status state)) (Some state) integrity code digest
      None (vs_matrix_digest f) processed_events in
  matches ← _source_events_match state s;
  if negb matches then
    outcome ReplayStatus.FAILED (Some FindingCode.SOURCE_BINDING_MISMATCH)
      (match vs_report_artifact_digest f with
       | Some d => Some d | None => vs_result_artifact_digest f end)
  else
    match selected_digest state, artifacts with
    | None, _ => outcome ReplayStatus.NOT_APPLICABLE None None
    | Some d, None =>
        outcome ReplayStatus.INCONCLUSIVE (Some FindingCode.ARTIFACT_STORE_UNAVAILABLE) (Some d)
    | Some d, Some r => _replay_report_artifact r state d processed_events
    end.

Definition replay_verification (artifacts : option R) (events : E) (run_id : string)
    : result VerificationReplayReport :=
  sid ← verification_stream run_id;
  let '(answer, s) := read_stream sid events in
  match answer with
  | Err EventIntegrityError =>
      _empty_failure run_id ReplayStatus.FAILED FindingCode.LIFECYCLE_INVALID 0
  | Err e =>
      if is_os_error e || is_runtime_error e
      then _empty_failure run_id ReplayStatus.INCONCLUSIVE FindingCode.EVENT_STORE_UNAVAILABLE 0
      else Err e
  | Ok [] =>
      _result run_id ReplayLifecycle.NOT_STARTED None ReplayStatus.NOT_APPLICABLE None None None None 0
  | Ok stream =>
      match fold_verification_lifecycle run_id stream with
      | Err VerificationLifecycleError =>
          _empty_failure run_id ReplayStatus.FAILED FindingCode.LIFECYCLE_INVALID (zlen stream)
      | Err e => Err e
      | Ok state => replay_state_of artifacts state s (zlen stream)
      end
  end.
End Replay.
