(* ===== verification/VerificationRoundtrip.v ===== *)
(** * orchestration/verification.py: a report is read back from its text

    A report that [verify_review] built fits the bounds of the reader of untrusted
    reports, so its canonical text decodes to that report; [VerificationReplayFacts]
    uses it to show that a recorded verification replays. *)

From S2P Require Import Prelude PyStr PyFloat Sha256 Json JsonText JsonFacts JsonBytes PyTime Contracts JsonShape.
From S2P Require Import Printable Events Artifacts Strict RunLifecycle VerificationLifecycle OutputSchema Gateway.
From S2P Require Import Changes PlanFacts OutcomeFacts Review ReviewFacts Verification VerificationFacts.
From S2P Require Import VerificationTotal VerificationReplay.
From Stdlib Require Import ZArith Lia Ascii String.
From stdpp Require Import base gmap sets list strings.
Local Open Scope Z_scope.

(** ** Rows *)

(** Within the limits of [_matrix_row_from_mapping]. *)
Record row_readable (r : VerificationMatrixRow) : Prop := {
  rr_made : matrix_row_init r = Ok r;
  rr_evidence : zlen (mr_evidence_ids r) <= 128;
  rr_findings : zlen (mr_finding_ids r) <= 64
}.

Lemma sorted_reasons_NoDup l : NoDup (sorted_reasons l).
Proof. unfold sorted_reasons, sort_by. rewrite isort_perm. apply NoDup_remove_dups. Qed.

Lemma sorted_reasons_idemp l : sorted_reasons (sorted_reasons l) = sorted_reasons l.
Proof.
  unfold sorted_reasons at 1. rewrite (remove_dups_id (sorted_reasons l)) by apply sorted_reasons_NoDup.
  apply isort_idemp; unfold by_key; [intros; apply string_leb_total|intros ???; apply string_leb_trans].
Qed.

Lemma sorted_set_NoDup l : NoDup (sorted_set l).
Proof. unfold sorted_set, sort_strings. rewrite isort_perm. apply NoDup_remove_dups. Qed.

Lemma sub_zlen {A} (l k : list A) : NoDup l → (∀ x, x ∈ l → x ∈ k) → zlen l <= zlen k.
Proof. intros H Hl. apply (NoDup_submseteq l k H) in Hl. apply submseteq_length in Hl. unfold zlen. lia. Qed.

Lemma reasons_bound l : zlen (sorted_reasons l) <= zlen reasons_all.
Proof. apply sub_zlen; [apply sorted_reasons_NoDup|]. intros r _. destruct r; repeat first [by left|right]. Qed.

(** What the constructor returns, it accepts. *)
Lemma matrix_row_init_idemp r row : matrix_row_init r = Ok row → matrix_row_init row = Ok row.
Proof.
  unfold matrix_row_init at 1. intros H.
  apply bind_ok in H as (? & H1%contract_require_ok & H).
  apply bind_ok in H as (? & H2%contract_require_ok & H).
  apply bind_ok in H as (? & H3%contract_require_ok & H).
  apply bind_ok in H as (? & H4%contract_require_ok & [= <-]).
  rewrite !andb_true_iff in H1. rewrite andb_true_iff in H2. destruct H1 as [[[[[[H11 H12] H13] H14] H15] H16] H17]. destruct H2 as [H21 H22].
  unfold matrix_row_init, input_require, contract_require.
  cbn [mr_criterion_id mr_kind mr_claim_digest mr_status mr_reason_codes mr_evidence_ids mr_finding_ids
       mr_node_id mr_check_id].
  rewrite H11, H12, H16, H17, H21, H22, !forallb_sorted_set by done.
  assert (Hne : sorted_reasons (mr_reason_codes r) ≠ []).
  { apply negb_true_iff, bool_decide_eq_false in H13. intros E. destruct (mr_reason_codes r) as [|y l] eqn:El; [done|].
    assert (Hx : y ∈ sorted_reasons (y :: l)) by (apply elem_sorted_reasons; by left).
    rewrite E in Hx. by apply elem_of_nil in Hx. }
  rewrite (bool_decide_eq_false_2 _ Hne), sorted_reasons_idemp, !sorted_set_idemp, H3, H4. done.
Qed.

Lemma row_readable_made r row n m : matrix_row_init r = Ok row →
  (∀ i, i ∈ mr_evidence_ids r → i ∈ n) → (∀ i, i ∈ mr_finding_ids r → i ∈ m) →
  zlen n <= 128 → zlen m <= 64 → row_readable row.
Proof.
  intros H Hn Hm Ln Lm. pose proof (matrix_row_init_ok _ _ H) as Hr.
  split; [by eapply matrix_row_init_idemp| |].
  - rewrite (rm_evidence _ _ _ _ _ _ _ _ Hr). etrans; [|exact Ln]. apply sub_zlen; [apply sorted_set_NoDup|].
    intros i. rewrite elem_sorted_set. apply Hn.
  - rewrite (rm_findings _ _ _ _ _ _ _ _ Hr). etrans; [|exact Lm]. apply sub_zlen; [apply sorted_set_NoDup|].
    intros i. rewrite elem_sorted_set. apply Hm.
Qed.

(** ** The text of a row and of a report *)

Definition row_json (r : VerificationMatrixRow) : json :=
  JObj [("criterion_id", JStr (mr_criterion_id r));
        ("kind", JStr (criterion_value (mr_kind r)));
        ("claim_digest", JStr (mr_claim_digest r));
        ("status", JStr (verdict_value (mr_status r)));
        ("reason_codes", jstrs (map reason_value (mr_reason_codes r)));
        ("evidence_ids", jstrs (mr_evidence_ids r));
        ("finding_ids", jstrs (mr_finding_ids r));
        ("node_id", opt_json (mr_node_id r));
        ("check_id", opt_json (mr_check_id r))].
Definition report_json (v : VerificationReport) : json :=
  JObj [("schema_version", JStr (vr_schema_version v));
        ("run_id", JStr (vr_run_id v));
        ("context_digest", JStr (vr_context_digest v));
        ("acceptance_digest", JStr (vr_acceptance_digest v));
        ("state_digest", JStr (vr_state_digest v));
        ("artifact_evidence_digest", JStr (vr_artifact_evidence_digest v));
        ("admitted_review_digest", JStr (vr_admitted_review_digest v));
        ("status", JStr (verdict_value (vr_status v)));
        ("matrix", JArr (map row_json (vr_matrix v)))].

Lemma thaw_row r : thaw_json (row_json r) = _matrix_row_payload r.
Proof. unfold row_json, _matrix_row_payload, obj. cbn [thaw_json map fst snd]. by rewrite !thaw_opt, !thaw_strs. Qed.

Lemma thaw_report v : thaw_json (report_json v) = verification_report_payload v.
Proof.
  unfold report_json, verification_report_payload, obj. cbn [thaw_json map fst snd]. rewrite map_map.
  by rewrite (map_ext _ _ thaw_row).
Qed.

Lemma row_json_wf r : json_wf (row_json r) = true.
Proof.
  eapply literal_wf; [reflexivity|by_vm|]. cbn [map snd].
  intros v. rewrite !elem_of_cons, elem_of_nil.
  intros [->|[->|[->|[->|[->|[->|[->|[->|[->|[]]]]]]]]]]; first [done|apply strs_wf|apply opt_wf].
Qed.
Lemma report_json_wf v : json_wf (report_json v) = true.
Proof.
  eapply literal_wf; [reflexivity|by_vm|]. cbn [map snd].
  intros x. rewrite !elem_of_cons, elem_of_nil.
  intros [->|[->|[->|[->|[->|[->|[->|[->|[->|[]]]]]]]]]]; try done.
  simpl. apply forallb_elem. intros y (r & -> & _)%list_elem_of_fmap. apply row_json_wf.
Qed.

Lemma report_no_float v : no_float (report_json v) = true.
Proof.
  cbn [report_json no_float forallb snd]. rewrite !andb_true_r. cbn [no_float]. apply forallb_elem.
  intros y (r & -> & _)%list_elem_of_fmap. cbn [row_json no_float forallb snd]. rewrite !strs_no_float.
  by destruct (mr_node_id r), (mr_check_id r).
Qed.

Lemma report_text v : canonical_json_bytes (verification_report_payload v) = dumps (report_json v).
Proof.
  unfold canonical_json_bytes. rewrite <-thaw_report, freeze_thaw by apply report_json_wf. done.
Qed.

(** ** Reading the text *)

(** The row and the report as they are loaded: keys in sorted order. *)
Definition row_loaded (r : VerificationMatrixRow) : pyval :=
  obj [("check_id", popt (mr_check_id r));
       ("claim_digest", PStr (mr_claim_digest r));
       ("criterion_id", PStr (mr_criterion_id r));
       ("evidence_ids", pstrs (mr_evidence_ids r));
       ("finding_ids", pstrs (mr_finding_ids r));
       ("kind", PStr (criterion_value (mr_kind r)));
       ("node_id", popt (mr_node_id r));
       ("reason_codes", pstrs (map reason_value (mr_reason_codes r)));
       ("status", PStr (verdict_value (mr_status r)))].
Definition report_loaded (v : VerificationReport) : pyval :=
  obj [("acceptance_digest", PStr (vr_acceptance_digest v));
       ("admitted_review_digest", PStr (vr_admitted_review_digest v));
       ("artifact_evidence_digest", PStr (vr_artifact_evidence_digest v));
       ("context_digest", PStr (vr_context_digest v));
       ("matrix", PSequence (map row_loaded (vr_matrix v)));
       ("run_id", PStr (vr_run_id v));
       ("schema_version", PStr (vr_schema_version v));
       ("state_digest", PStr (vr_state_digest v));
       ("status", PStr (verdict_value (vr_status v)))].

Lemma row_sorted r : thaw_json (sort_json (row_json r)) = row_loaded r.
Proof.
  unfold row_json. change (sort_json (JObj ?l)) with
    (JObj (sort_items (map (λ kv, (kv.1, sort_json kv.2)) l))).
  cbn [map fst snd]. rewrite !sort_opt, !sort_strs. cbn [sort_json].
  unfold row_loaded, obj. rewrite <-!thaw_opt, <-!thaw_strs. reflexivity.
Qed.

Lemma report_sorted v : thaw_json (sort_json (report_json v)) = report_loaded v.
Proof.
  unfold report_json. change (sort_json (JObj ?l)) with
    (JObj (sort_items (map (λ kv, (kv.1, sort_json kv.2)) l))).
  cbn [map fst snd]. cbn [sort_json]. unfold report_loaded, obj.
  assert (map row_loaded (vr_matrix v) = map thaw_json (map sort_json (map row_json (vr_matrix v)))) as ->.
  { rewrite !map_map. apply map_ext. intros r. by rewrite row_sorted. }
  reflexivity.
Qed.

Lemma enum_read {A} err (value : A → string) all x :
  dict_get (value x) (members value all) = Some x → contract_enum err (members value all) (PStr (value x)) = Ok x.
Proof. intros H. unfold contract_enum. by rewrite H. Qed.

Lemma strings_read maximum l : zlen l <= maximum →
  (∀ s, s ∈ l → is_empty s = false ∧ contains nul s = false) → verification_texts maximum (pstrs l) = Ok l.
Proof.
  intros Hl Hs. unfold verification_texts, pstrs, contract_sequence, z_between, contract_require.
  rewrite zlen_map, (proj2 (Z.leb_le 0 _)), (proj2 (Z.leb_le _ maximum)) by (done || apply zlen_nonneg).
  cbn [andb negb raise_if mbind result_bind]. apply map_result_payload.
  intros s Hin. destruct (Hs s Hin) as [He Hn]. unfold verification_text. cbn [contract_string mbind result_bind].
  by rewrite He, Hn.
Qed.

(** Identifiers and digests are text without NUL. *)
Lemma ascii_token (p : ascii → bool) s : (∀ a, p a = true → 32 <= byte_at a < 127) →
  all_chars p s = true → ascii_text s = true ∧ contains nul s = false.
Proof.
  intros Hp Hs. split.
  - eapply chars_weaken, Hs. intros a Ha%Hp. unfold ascii_char. lia.
  - apply visible_no_nul. eapply chars_weaken, Hs. intros a Ha%Hp. unfold visible. lia.
Qed.

Definition plain_token (s : string) : Prop :=
  is_empty s = false ∧ contains nul s = false ∧ ascii_text s = true.

Lemma identifier_token s : re_identifier s = true → plain_token s.
Proof.
  unfold re_identifier, re_first_rest. destruct s as [|a s]; [done|]. intros H.
  rewrite !andb_true_iff in H. destruct H as [[Ha Hs] _].
  assert (Hc : ∀ c, is_alnum c || is_one_of "._-" c = true → 32 <= byte_at c < 127).
  { intros c [Hc|Hc]%orb_true_iff; [apply alnum_visible in Hc; lia|].
    unfold is_one_of in Hc. simpl in Hc. rewrite !orb_true_iff in Hc.
    destruct Hc as [Hc|[Hc|[Hc|Hc]]]; try discriminate; apply Ascii.eqb_eq in Hc; subst; by vm_compute. }
  destruct (ascii_token (λ c, is_alnum c || is_one_of "._-" c) (String a s) Hc) as [H1 H2].
  { unfold all_chars in *. cbn [list_ascii_of_string forallb]. by rewrite Ha, Hs. }
  by split_and!.
Qed.

Lemma starts_with_split p s : starts_with p s = true → s = p +:+ drop_bytes (String.length p) s.
Proof.
  revert s. induction p as [|a p IH]; intros s; [by destruct s|]. destruct s as [|b s]; [done|].
  cbn [starts_with]. intros [->%Ascii.eqb_eq H%IH]%andb_true_iff. cbn [String.length drop_bytes].
  change (String b s = String b (p +:+ drop_bytes (String.length p) s)). by rewrite <-H.
Qed.

Lemma digest_token s : re_digest s = true → plain_token s.
Proof.
  unfold re_digest. intros [[Hp Hl]%andb_true_iff Hh]%andb_true_iff.
  pose proof (starts_with_split _ _ Hp) as E. cbn [String.length] in E.
  destruct (ascii_token (λ c, is_lower_hex c || is_one_of "sha256:" c) s) as [H1 H2].
  - intros c [Hc|Hc]%orb_true_iff; [apply lower_hex_visible in Hc; lia|].
    unfold is_one_of in Hc. simpl in Hc. rewrite !orb_true_iff in Hc.
    decompose [or] Hc; try discriminate;
      match goal with H : Ascii.eqb _ _ = true |- _ => apply Ascii.eqb_eq in H; subst; by vm_compute end.
  - rewrite E, chars_app. apply andb_true_iff. split; [by_vm|].
    eapply chars_weaken, Hh. intros a Ha. by rewrite Ha.
  - split_and!; [|done..]. rewrite E. done.
Qed.

(** What the constructor of a row has checked. *)
Record row_fields (r : VerificationMatrixRow) : Prop := {
  rf_id : re_identifier (mr_criterion_id r) = true;
  rf_claim : re_digest (mr_claim_digest r) = true;
  rf_reasons : 1 <= zlen (mr_reason_codes r) <= zlen reasons_all;
  rf_evidence : forallb re_digest (mr_evidence_ids r) = true;
  rf_findings : forallb re_identifier (mr_finding_ids r) = true;
  rf_node : opt_identifier (mr_node_id r) = true;
  rf_check : opt_identifier (mr_check_id r) = true
}.

Lemma row_made_fields r : matrix_row_init r = Ok r → row_fields r.
Proof.
  intros Hm. pose proof Hm as H. unfold matrix_row_init in H.
  apply bind_ok in H as (? & H1%contract_require_ok & _). rewrite !andb_true_iff in H1.
  destruct H1 as [[[[[[H11 H12] H13] H14] H15] H16] H17]. split; try done.
  pose proof (rm_reasons _ _ _ _ _ _ _ _ (matrix_row_init_ok _ _ Hm)) as E. split.
  - apply negb_true_iff, bool_decide_eq_false in H13. destruct (mr_reason_codes r); [done|].
    rewrite zlen_cons. pose proof (zlen_nonneg l). lia.
  - rewrite E. apply reasons_bound.
Qed.

Lemma tokens_read maximum (p : string → bool) l : (∀ s, p s = true → plain_token s) →
  forallb p l = true → zlen l <= maximum → verification_texts maximum (pstrs l) = Ok l.
Proof.
  intros Hp Hl Hz. apply strings_read; [done|]. rewrite forallb_elem in Hl.
  intros s Hs. destruct (Hp s (Hl s Hs)) as (H1 & H2 & _). done.
Qed.

Lemma token_read s : plain_token s → verification_text (PStr s) = Ok s.
Proof. intros (H1 & H2 & _). unfold verification_text. cbn [contract_string mbind result_bind]. by rewrite H1, H2. Qed.

Lemma opt_read o : opt_identifier o = true → _optional_text (popt o) = Ok o.
Proof.
  destruct o as [s|]; [|done]. intros H. unfold _optional_text, popt.
  by rewrite token_read by (by apply identifier_token).
Qed.

Lemma reasons_read l : map_result (contract_enum invalid_input (members reason_value reasons_all))
  (map PStr (map reason_value l)) = Ok l.
Proof. rewrite map_map. apply map_result_payload. intros r _. apply enum_read. by destruct r. Qed.

Lemma contract_object_obj_same err keys fields : same_keys (dict_keys fields) keys = true →
  contract_object err keys (obj fields) = Ok fields.
Proof.
  intros H. unfold contract_object. rewrite contract_mapping_obj. cbn [mbind result_bind].
  unfold has_keys. by rewrite H.
Qed.

Lemma row_read r : row_readable r → _matrix_row_from_mapping (row_loaded r) = Ok r.
Proof.
  intros [Hm He Hf]. destruct (row_made_fields r Hm). unfold _matrix_row_from_mapping, row_loaded.
  rewrite (contract_object_obj_same invalid_input matrix_row_keys) by by_vm.
  cbn [mbind result_bind]. pget_literal.
  rewrite !enum_read by first [by destruct (mr_kind r)|by destruct (mr_status r)]. cbn [mbind result_bind].
  change (pstrs (map reason_value (mr_reason_codes r))) with (PSequence (map PStr (map reason_value (mr_reason_codes r)))).
  rewrite contract_sequence_ok by (by rewrite !zlen_map). cbn [mbind result_bind].
  rewrite reasons_read. cbn [mbind result_bind].
  rewrite !token_read by first [by apply identifier_token|by apply digest_token]. cbn [mbind result_bind].
  rewrite (tokens_read 128 re_digest) by first [done|apply digest_token].
  rewrite (tokens_read 64 re_identifier) by first [done|apply identifier_token].
  cbn [mbind result_bind]. rewrite !opt_read by done. cbn [mbind result_bind].
  rewrite <-Hm. by destruct r.
Qed.

(** *** Reports *)

Record report_readable (v : VerificationReport) : Prop := {
  rv_made : verification_report_init v = Ok v;
  rv_rows : Forall row_readable (vr_matrix v)
}.

Lemma report_read v : report_readable v → verification_report_from_mapping (report_loaded v) = Ok v.
Proof.
  intros [Hm Hr]. pose proof Hm as Hi. unfold verification_report_init in Hi.
  apply bind_ok in Hi as (? & Hc%contract_require_ok & _). rewrite !andb_true_iff in Hc.
  destruct Hc as [[[[[Hv%bool_decide_eq_true Hid] Hd] Hz] _] _]. cbn [forallb] in Hd.
  rewrite !andb_true_iff in Hd. destruct Hd as (D1 & D2 & D3 & D4 & D5 & _). unfold z_between in Hz.
  unfold verification_report_from_mapping, report_loaded.
  rewrite (contract_object_obj_same invalid_input report_keys) by by_vm.
  cbn [mbind result_bind]. pget_literal. cbn [equals_text]. rewrite Hv, bool_decide_eq_true_2 by done.
  cbn [input_require contract_require negb raise_if mbind result_bind].
  rewrite enum_read by (by destruct (vr_status v)). cbn [mbind result_bind].
  rewrite contract_sequence_ok by (rewrite zlen_map; lia). cbn [mbind result_bind].
  rewrite map_result_payload by (intros r Hin; apply row_read; by apply (proj1 (Forall_forall _ _) Hr)).
  cbn [mbind result_bind].
  rewrite !token_read by first [by apply identifier_token|by apply digest_token]. cbn [mbind result_bind].
  rewrite <-Hm, <-Hv. by destruct v.
Qed.

(** Its text is ASCII. *)
Lemma token_ascii s : plain_token s → ascii_text s = true.
Proof. by intros (_ & _ & H). Qed.

Lemma strs_ascii (l : list string) : (∀ s, s ∈ l → ascii_text s = true) →
  json_strings ascii_text (jstrs l) = true.
Proof.
  intros H. unfold jstrs. simpl. apply forallb_elem. intros x (s & -> & Hs)%list_elem_of_fmap. by apply H.
Qed.

Lemma row_ascii r : row_readable r → json_strings ascii_text (row_json r) = true.
Proof.
  intros [Hm _ _]. destruct (row_made_fields r Hm). cbn [row_json json_strings forallb fst snd].
  assert (Ho : ∀ o, opt_identifier o = true → json_strings ascii_text (opt_json o) = true).
  { intros [s|]; [|done]. intros H. by apply token_ascii, identifier_token. }
  rewrite !Ho, !strs_ascii, !token_ascii by first
    [by apply identifier_token|by apply digest_token|done
    |rewrite forallb_elem in rf_evidence0; intros s Hs; by apply token_ascii, digest_token, rf_evidence0
    |rewrite forallb_elem in rf_findings0; intros s Hs; by apply token_ascii, identifier_token, rf_findings0
    |intros s (x & -> & _)%list_elem_of_fmap; by destruct x
    |destruct (mr_kind r); unfold plain_token; split_and!; by_vm
    |destruct (mr_status r); unfold plain_token; split_and!; by_vm].
  done.
Qed.

Lemma report_ascii v : report_readable v → json_strings ascii_text (report_json v) = true.
Proof.
  intros [Hm Hr]. pose proof Hm as Hi. unfold verification_report_init in Hi.
  apply bind_ok in Hi as (? & Hc%contract_require_ok & _). rewrite !andb_true_iff in Hc.
  destruct Hc as [[[[[Hv%bool_decide_eq_true Hid] Hd] Hz] _] _]. cbn [forallb] in Hd.
  rewrite !andb_true_iff in Hd. destruct Hd as (D1 & D2 & D3 & D4 & D5 & _).
  cbn [report_json json_strings forallb fst snd]. rewrite Hv.
  rewrite !token_ascii by first [by apply identifier_token|by apply digest_token
    |destruct (vr_status v); unfold plain_token; split_and!; by_vm].
  assert (forallb (json_strings ascii_text) (map row_json (vr_matrix v)) = true) as ->.
  { apply forallb_elem. intros y (r & -> & Hin)%list_elem_of_fmap. apply row_ascii.
    by apply (proj1 (Forall_forall _ _) Hr). }
  done.
Qed.

(** The text of a report decodes to a mapping from which the report is read. *)
Lemma report_text_read v text : report_readable v →
  canonical_json_bytes (verification_report_payload v) = Ok text →
  ∃ kvs, read_report_mapping text = ReportMapping kvs
    ∧ verification_report_from_mapping (thaw_json (JObj kvs)) = Ok v.
Proof.
  intros Hv Ht. rewrite report_text in Ht.
  pose proof (json_loads_dumps _ _ (report_json_wf v) (no_float_text_ok _ (report_no_float v)) Ht) as Hl.
  destruct (sort_json_obj (match report_json v with JObj l => l | _ => [] end)) as [kvs Hk].
  change (sort_json (report_json v) = JObj kvs) in Hk. exists kvs.
  assert (Hc : canonical_json_bytes (thaw_json (JObj kvs)) = Ok text).
  { unfold canonical_json_bytes. rewrite <-Hk, freeze_thaw by (apply sort_json_wf, report_json_wf).
    cbn [mbind result_bind]. by apply dumps_sort_json. }
  split.
  - unfold read_report_mapping, json_loads_utf8, utf8_ok.
    rewrite (ascii_utf8 false text) by (by eapply dumps_ascii; [apply report_ascii|]).
    cbn [negb]. rewrite (json_loads_scan _ _ Hl), Hl, Hk, Hc. by rewrite bool_decide_true.
  - rewrite <-Hk, report_sorted. by apply report_read.
Qed.

(** ** The rows of [verify_review] *)

Section Rows.
Context (evidence : list ReviewEvidence) (findings : list ProposedReviewFinding)
  (by_id : list (string * ReviewEvidence)).
Context (He : zlen evidence <= 128) (Hf : zlen findings <= 64).

(** A readable row that cites evidence of the review. *)
Definition within (row : VerificationMatrixRow) : Prop :=
  row_readable row ∧ ∀ i, i ∈ mr_evidence_ids row → i ∈ map re_evidence_id evidence.

Lemma made_readable id kind digest status rs es fs n c row :
  matrix_row_init (MkMatrixRow id kind digest status rs es fs n c) = Ok row →
  (∀ i, i ∈ es → i ∈ map re_evidence_id evidence) → (∀ i, i ∈ fs → i ∈ map fi_finding_id findings) →
  within row.
Proof.
  intros H H1 H2. split; [eapply row_readable_made; [exact H|exact H1|exact H2|by rewrite zlen_map..]|].
  intros i. rewrite (rm_evidence _ _ _ _ _ _ _ _ (matrix_row_init_ok _ _ H)), elem_sorted_set. apply H1.
Qed.

Lemma filter_result_sub {A} (f : A → result bool) l k x : filter_result f l = Ok k → x ∈ k → x ∈ l.
Proof.
  revert k. induction l as [|y l IH]; intros k; simpl; [by intros [= <-]|].
  intros H. apply bind_ok in H as (b & _ & H). apply bind_ok in H as (k' & Hk & [= <-]).
  destruct b; [|right; by eapply IH]. intros [->|Hx]%elem_of_cons; [by left|right; by eapply IH].
Qed.

Lemma _row_readable id kind claim rs (es : list ReviewEvidence) fs n c row :
  _row id kind claim rs es fs n c = Ok row →
  (∀ e, e ∈ es → e ∈ evidence) → (∀ f, f ∈ fs → f ∈ findings) → within row.
Proof.
  unfold _row. intros H H1 H2. apply bind_ok in H as (d & _ & H). eapply made_readable; [exact H|..].
  - intros i (e & -> & Hin)%list_elem_of_fmap. apply list_elem_of_fmap. eauto.
  - intros i (f & -> & Hin)%list_elem_of_fmap. apply list_elem_of_fmap. eauto.
Qed.

Lemma check_row_readable n m node check row :
  _check_row evidence findings by_id n m node check = Ok row → within row.
Proof.
  unfold _check_row. intros H. apply bind_ok in H as (k & Hk & H).
  eapply _row_readable; [exact H|apply select_all_sub|]. intros f. by eapply filter_result_sub.
Qed.

Lemma scope_row_readable n node row : _scope_row evidence findings by_id n node = Ok row → within row.
Proof.
  unfold _scope_row. intros H. apply bind_ok in H as (k & Hk & H).
  eapply _row_readable; [exact H|apply select_all_sub|].
  apply fmap_ok in Hk as (l & Hl & <-). intros f [Hin _]%elem_of_listfilter. by eapply filter_result_sub.
Qed.

Lemma node_rows_readable n node pr : node_rows_of evidence findings by_id n node = Ok pr →
  within pr.1 ∧ Forall within pr.2.
Proof.
  unfold node_rows_of. intros H. apply bind_ok in H as (scope & Hs & H).
  apply bind_ok in H as (cs & Hc%check_rows_Forall2 & H). apply bind_ok in H as (row & Hrow & [= <-]). simpl. split.
  - unfold _node_row in Hrow. apply bind_ok in Hrow as (k & Hk & Hrow).
    eapply _row_readable; [exact Hrow| |intros f; by eapply filter_result_sub].
    intros e. rewrite elem_of_app, elem_of_concat. intros [Hin|(l & Hin & (r & -> & _)%list_elem_of_fmap)].
    + by eapply select_sub.
    + by apply elem_of_listfilter in Hin as [? _].
  - apply Forall_app. split.
    + destruct (writes node); [|injection Hs as <-; constructor].
      apply fmap_ok in Hs as (r & Hr & <-). apply Forall_singleton. by eapply scope_row_readable.
    + eapply Forall2_Forall_r, Forall_forall; [exact Hc|]. intros check _ r (k & Hr). by eapply check_row_readable.
Qed.

Lemma intent_row_readable id kind claim rows row : _intent_row id kind claim rows findings = Ok row →
  Forall within rows → within row.
Proof.
  unfold _intent_row. intros H Hr. apply bind_ok in H as (d & _ & H).
  eapply made_readable; [exact H| |done].
  intros i (l & Hi & (r & -> & Hin)%list_elem_of_fmap)%elem_of_concat.
  rewrite Forall_forall in Hr. by apply (Hr r Hin).
Qed.
End Rows.

Lemma constraint_rows_readable evidence d i cs rows findings out :
  zlen evidence <= 128 → zlen findings <= 64 →
  constraint_rows d i cs rows findings = Ok out → Forall (within evidence) rows →
  Forall (within evidence) out.
Proof.
  intros He Hf H Hr. apply Forall_forall. intros r Hin.
  destruct (constraint_rows_ok _ _ _ _ _ _ H r Hin) as (id & claim & Hi). by eapply intent_row_readable.
Qed.

Lemma cited_ids evidence (cs : list ReviewCitation) :
  (∀ x, x ∈ cs → ci_evidence_id x ∈ map re_evidence_id evidence) →
  ∀ i, i ∈ map ci_evidence_id cs → i ∈ map re_evidence_id evidence.
Proof. intros H i (x & -> & Hx)%list_elem_of_fmap. by apply H. Qed.

Lemma epistemic_row_readable evidence x row : assessment_valid x → zlen evidence <= 128 →
  (∀ i, i ∈ ea_citations x → ci_evidence_id i ∈ map re_evidence_id evidence) →
  _epistemic_row x = Ok row → row_readable row.
Proof.
  intros [Hx _] He Hc H. unfold _epistemic_row in H. apply bind_ok in H as (d & _ & H).
  eapply row_readable_made; [exact H|by apply cited_ids|intros i Hi; exact Hi|by rewrite zlen_map|].
  unfold epistemic_assessment_init in Hx. apply bind_ok in Hx as (? & Hr%contract_require_ok & _).
  unfold _unique_identifiers, _MAX_FINDINGS in Hr. rewrite !andb_true_iff in Hr. cbn [mr_finding_ids]. lia.
Qed.

Lemma review_row_readable evidence a row : zlen evidence <= 128 → zlen (ad_findings a) <= 64 →
  (∀ i, i ∈ concat (map fi_citations (ad_findings a)) → ci_evidence_id i ∈ map re_evidence_id evidence) →
  _review_row a = Ok row → row_readable row.
Proof.
  intros He Hf Hc H. unfold _review_row in H. apply bind_ok in H as (d & _ & H).
  apply bind_ok in H as (d' & _ & H).
  eapply row_readable_made; [exact H|by apply cited_ids|intros i Hi; exact Hi|by rewrite zlen_map|cbn [mr_finding_ids]; by rewrite zlen_map].
Qed.

(** Everything [verify_review] builds can be read back. *)
Lemma verify_review_readable c a v : verification_input c a → verify_review c a = Ok v → report_readable v.
Proof.
  intros [[c0 Hc] _ _ _ [a0 Ha] _ Has] H. apply review_context_init_ok in Hc as [Hok _].
  pose proof (rxo_count _ Hok) as [_ He]. unfold MAX_REVIEW_EVIDENCE_ITEMS in He.
  pose proof (rxo_ids _ Hok) as Hdis.
  assert (Hf : zlen (ad_findings a) <= 64).
  { unfold admitted_review_init in Ha. apply bind_ok in Ha as (? & Hr%contract_require_ok & [= <-]).
    unfold claims_ok in Hr. rewrite !andb_true_iff in Hr. unfold _MAX_FINDINGS in Hr. simpl. lia. }
  unfold verify_review in H. apply bind_ok in H as (d & _ & H). apply bind_ok in H as (ad & _ & H).
  apply bind_ok in H as (? & _ & H). apply bind_ok in H as (? & Hfit%contract_require_ok & H).
  assert (Hcite : ∀ x, x ∈ citations_of (ad_findings a) (ad_assessments a) →
    ci_evidence_id x ∈ map re_evidence_id (rx_evidence c)).
  { intros y Hx. rewrite forallb_elem in Hfit. apply Hfit, citation_fits_spec in Hx; [|done].
    destruct Hx as (item & Hin & <- & _). apply list_elem_of_fmap. eauto. }
  apply bind_ok in H as (rows & Hrows%all_rows_Forall2 & H).
  apply bind_ok in H as (ob & Hob & H). apply bind_ok in H as (cs & Hcs & H).
  apply bind_ok in H as (es & Hes & H). apply bind_ok in H as (rv & Hrv & H).
  apply bind_ok in H as (g & _ & H).
  assert (Hall : Forall (λ pr, within (rx_evidence c) pr.1 ∧ Forall (within (rx_evidence c)) pr.2) rows).
  { eapply Forall2_Forall_r; [exact Hrows|]. apply Forall_forall. intros node _ pr (k & Hk).
    by eapply node_rows_readable. }
  assert (Hfst : Forall (within (rx_evidence c)) (map fst rows)).
  { apply Forall_map. eapply Forall_impl; [exact Hall|]. by intros pr [? _]. }
  pose proof H as Hi. unfold verification_report_init in Hi.
  apply bind_ok in Hi as (? & _ & Hi). apply bind_ok in Hi as (? & _ & Hi).
  apply bind_ok in Hi as (? & _ & [= <-]). split; [exact H|]. cbn [vr_matrix].
  cbn [app]. apply Forall_cons_2; [|rewrite !Forall_app; split_and!].
  - by eapply intent_row_readable.
  - eapply Forall_impl; [by eapply constraint_rows_readable|]. by intros r [? _].
  - eapply Forall_impl; [exact Hfst|]. by intros r [? _].
  - apply Forall_concat, Forall_map. eapply Forall_impl; [exact Hall|]. intros pr [_ Hp].
    eapply Forall_impl; [exact Hp|]. by intros r [? _].
  - apply map_result_ok in Hes. eapply Forall2_Forall_r; [exact Hes|].
    apply Forall_forall. intros y Hin r Hr. pose proof (proj1 (Forall_forall _ _) Has y Hin) as Hy.
    eapply epistemic_row_readable; [exact Hy|exact He| |exact Hr].
    intros i Hi. apply Hcite. unfold citations_of. apply elem_of_app. right.
    apply elem_of_concat. exists (ea_citations y). split; [done|]. apply list_elem_of_fmap. eauto.
  - apply Forall_singleton. eapply review_row_readable; [exact He|exact Hf| |exact Hrv].
    intros i Hi. apply Hcite. unfold citations_of. apply elem_of_app. by left.
Qed.
