(* ===== verification/VerificationReplayFacts.v ===== *)
(** * orchestration/verification_replay.py: what a replay shows

    A report that is VERIFIED is bound to the ledger and to the stored matrix, and
    a verification that was recorded the way the worker records it replays. *)

From S2P Require Import Prelude PyStr PyFloat Sha256 Json JsonText JsonFacts JsonBytes PyTime Contracts.
From S2P Require Import Printable Events Artifacts Strict RunLifecycle ReviewLifecycle VerificationLifecycle.
From S2P Require Import OutputSchema Gateway Changes PlanFacts ExecutionArtifacts Replay OutcomeFacts Review ReviewFacts.
From S2P Require Import Verification VerificationFacts VerificationTotal VerificationReplay VerificationRoundtrip.
From Stdlib Require Import ZArith Lia Ascii String.
From stdpp Require Import base gmap sets list strings.
Local Open Scope Z_scope.

Lemma result_ok run ls st integrity code d ref m n x :
  _result run ls st integrity code d ref m n = Ok x →
  xv_lifecycle_status x = ls ∧ xv_artifact_integrity x = integrity ∧ xv_finding_code x = code
  ∧ xv_report_artifact_digest x = d ∧ xv_matrix_digest x = m ∧ xv_processed_events x = n
  ∧ xv_verdict x = (st ≫= vs_verdict ∘ vr_fields).
Proof. unfold _result. intros H. apply bind_ok in H as (g & _ & [= <-]). done. Qed.

(** The comparisons of a report with the state. *)
Record bound (v : VerificationReport) (state : VerificationLifecycleState) (d : string) : Prop := {
  bd_digest : verification_report_digest v = Ok d;
  bd_run : vr_run_id v = vl_run_id (vr_lease state);
  bd_context : vr_context_digest v = vl_context_digest (vr_lease state);
  bd_acceptance : vr_acceptance_digest v = vl_acceptance_digest (vr_lease state);
  bd_state : vr_state_digest v = vl_state_digest (vr_lease state);
  bd_artifacts : vr_artifact_evidence_digest v = vl_artifact_evidence_digest (vr_lease state);
  bd_review : vr_admitted_review_digest v = vl_admitted_review_digest (vr_lease state)
}.

(** What a completed verification has recorded about its report. *)
Record concluded (v : VerificationReport) (state : VerificationLifecycleState) : Prop := {
  cn_verdict : vs_verdict (vr_fields state) = Some (vr_status v);
  cn_matrix : ∃ m, matrix_digest v = Ok m ∧ vs_matrix_digest (vr_fields state) = Some m
}.

Lemma report_matches_spec v state d : _report_matches_state v state d = Ok true ↔
  bound v state d ∧
  (VerificationLifecycle.vr_status state = VerificationLifecycleStatus.COMPLETED ∧ concluded v state
   ∨ VerificationLifecycle.vr_status state = VerificationLifecycleStatus.FAILED).
Proof.
  unfold _report_matches_state. split.
  - intros H. apply bind_ok in H as (g & Hg & H).
    assert (Hb : ∀ b, bool_decide (g = d) && bool_decide (vr_run_id v = vl_run_id (vr_lease state))
      && bool_decide (vr_context_digest v = vl_context_digest (vr_lease state))
      && bool_decide (vr_acceptance_digest v = vl_acceptance_digest (vr_lease state))
      && bool_decide (vr_state_digest v = vl_state_digest (vr_lease state))
      && bool_decide (vr_artifact_evidence_digest v = vl_artifact_evidence_digest (vr_lease state))
      && bool_decide (vr_admitted_review_digest v = vl_admitted_review_digest (vr_lease state)) && b = true →
      bound v state d ∧ b = true).
    { intros b. rewrite !andb_true_iff, !bool_decide_eq_true. intros [[[[[[[-> H1] H2] H3] H4] H5] H6] Hb].
      by split. }
    destruct (bool_decide (_ = VerificationLifecycleStatus.COMPLETED)) eqn:Hs.
    + apply bool_decide_eq_true in Hs.
      destruct (_ && bool_decide (Some (vr_status v) = _)) eqn:E; [|done]. apply Hb in E as [Hbound E].
      apply bind_ok in H as (m & Hm & [= Heq]). apply bool_decide_eq_true in E, Heq.
      split; [done|]. left. split; [done|]. split; [done|]. by exists m.
    + injection H as H. apply Hb in H as [Hbound H]. apply bool_decide_eq_true in H. auto.
  - intros [[Hd H1 H2 H3 H4 H5 H6] Hst]. rewrite Hd. cbn [mbind result_bind].
    rewrite H1, H2, H3, H4, H5, H6, !(bool_decide_eq_true_2 (_ = _) eq_refl). cbn [andb].
    destruct Hst as [[Hs [Hv (m & Hm & Hm')]]|Hs]; rewrite Hs.
    + rewrite bool_decide_eq_true_2 by done. rewrite Hv, bool_decide_eq_true_2 by done.
      rewrite Hm. cbn [mbind result_bind]. by rewrite Hm', bool_decide_eq_true_2.
    + rewrite bool_decide_eq_false_2 by done. done.
Qed.

Lemma mapping_read_ok data kvs : read_report_mapping data = ReportMapping kvs →
  canonical_json_bytes (thaw_json (JObj kvs)) = Ok data.
Proof.
  unfold read_report_mapping. destruct (json_loads_utf8 data) as [[]| | |]; try done.
  - destruct (canonical_json_bytes _) as [t|] eqn:E; [|done]. case_bool_decide; [|done].
    intros [= <-]. by subst.
  - by destruct (first_is _ _).
Qed.

(** A report read from untrusted text has the verdict its matrix gives. *)
Lemma report_init_id v v' : verification_report_init v = Ok v' → v' = v
  ∧ vr_status v = _aggregate_status (vr_matrix v).
Proof.
  unfold verification_report_init. intros H. apply bind_ok in H as (? & H1%contract_require_ok & H).
  apply bind_ok in H as (? & _ & H). apply bind_ok in H as (? & _ & [= <-]).
  rewrite !andb_true_iff in H1. destruct H1 as [_ H1]. by apply bool_decide_eq_true in H1.
Qed.

Lemma report_mapping_rows u v : verification_report_from_mapping u = Ok v →
  vr_status v = _aggregate_status (vr_matrix v)
  ∧ ∀ r, r ∈ vr_matrix v → mr_status r = _status_for_reasons (mr_reason_codes r).
Proof.
  unfold verification_report_from_mapping. intros H. apply bind_ok in H as (raw & _ & H).
  do 3 (apply bind_ok in H as (? & _ & H)). apply bind_ok in H as (matrix & Hm & H).
  do 6 (apply bind_ok in H as (? & _ & H)). apply report_init_id in H as [-> Hs]. split; [exact Hs|].
  cbn [vr_matrix]. intros r Hr.
  apply (map_result_Forall (λ r, mr_status r = _status_for_reasons (mr_reason_codes r))) in Hm.
  - by apply (proj1 (Forall_forall _ _) Hm).
  - intros y row Hy. unfold _matrix_row_from_mapping in Hy. do 11 (apply bind_ok in Hy as (? & _ & Hy)).
    apply matrix_row_init_ok in Hy. rewrite (rm_status _ _ _ _ _ _ _ _ Hy), (rm_reasons _ _ _ _ _ _ _ _ Hy).
    by rewrite status_sorted.
Qed.

(** The report PASSes exactly when no reason of any row fails or is left open. *)
Lemma matrix_verdict v : vr_status v = _aggregate_status (vr_matrix v) →
  (∀ r, r ∈ vr_matrix v → mr_status r = _status_for_reasons (mr_reason_codes r)) →
  vr_status v = Verdict.PASS ↔ ∀ r, r ∈ vr_matrix v → passing (mr_reason_codes r).
Proof.
  intros -> Hr. rewrite aggregate_pass. split; intros H r Hin; specialize (H r Hin);
    [rewrite Hr in H by done; by apply status_pass|rewrite Hr by done; by apply status_pass].
Qed.

Section Readers.
Context {R E : Type}.
Context (reader_stat : string → R → result ArtifactRef * R)
        (reader_get_bytes : ArtifactRef → R → result string * R).
Context (read_stream : string → E → result (list EventEnvelope) * E)
        (get_event : string → E → result (option EventEnvelope) * E).
#[local] Abbreviation replay := (replay_verification reader_stat reader_get_bytes read_stream get_event).

(** The run and the review behind a verification: the events its lease names, and
    the review lifecycle they conclude. *)
Definition sources_found (state : VerificationLifecycleState) : Prop :=
  ∃ execution review events review_state,
    fold_review_lifecycle (vl_run_id (vr_lease state)) events = Ok review_state
    ∧ execution_event_matches (vr_lease state) (correlation_id (vr_latest state)) execution = true
    ∧ review_event_matches (vr_lease state) (correlation_id (vr_latest state)) review = true
    ∧ review_state_matches (vr_lease state) review review_state = true.

Lemma sources_spec state s : _source_events_match read_stream get_event state s = Ok true → sources_found state.
Proof.
  unfold _source_events_match. destruct (read_sources _ _ _ _) as [[[[x|] [y|]] rst]|e] eqn:Hr; try done.
  2: by destruct (source_failure e).
  intros [= H]. rewrite !andb_true_iff in H. unfold read_sources in Hr.
  destruct (get_event _ _) as [ex s1]. apply bind_ok in Hr as (ex' & _ & Hr).
  destruct (get_event _ s1) as [re s2]. apply bind_ok in Hr as (re' & _ & Hr).
  apply bind_ok in Hr as (sid & _ & Hr). apply bind_ok in Hr as (es & _ & Hr).
  apply bind_ok in Hr as (st & Hst & [= -> -> ->]). exists x, y, es, rst. tauto.
Qed.

Lemma reader_failure_status e :
  match reader_failure e with Some (_, status) => status ≠ ReplayStatus.VERIFIED | None => True end.
Proof. by destruct e. Qed.

(** How a VERIFIED report comes about. *)
Lemma artifact_verified r state d n x :
  _replay_report_artifact reader_stat reader_get_bytes r state d n = Ok x →
  xv_artifact_integrity x = ReplayStatus.VERIFIED →
  ∃ reference data kvs v matrix,
    metadata_matches reference d = true ∧ (reader_stat d r).1 = Ok reference
    ∧ (reader_get_bytes reference (reader_stat d r).2).1 = Ok data
    ∧ read_report_mapping data = ReportMapping kvs
    ∧ verification_report_from_mapping (thaw_json (JObj kvs)) = Ok v
    ∧ _report_matches_state v state d = Ok true ∧ matrix_digest v = Ok matrix
    ∧ _result (VerificationLifecycle.vr_run_id state) (_lifecycle_status (VerificationLifecycle.vr_status state))
        (Some state) ReplayStatus.VERIFIED None (Some d) (Some reference) (Some matrix) n = Ok x.
Proof.
  intros H Hv.
  assert (Hfail : ∀ code ref status, status ≠ ReplayStatus.VERIFIED →
    _artifact_failure state d code n ref status = Ok x → False).
  { intros code ref status Hs Hx. unfold _artifact_failure in Hx. apply result_ok in Hx as (_ & Hi & _). congruence. }
  assert (Hread : ∀ e ref, match reader_failure e with
    | Some (code, status) => _artifact_failure state d code n ref status | None => Err e end = Ok x → False).
  { intros e ref. pose proof (reader_failure_status e) as Hs. destruct (reader_failure e) as [[code status]|].
    - apply Hfail. exact Hs.
    - intros [=]. }
  unfold _replay_report_artifact in H. destruct (reader_stat d r) as [[reference|e] r1] eqn:Er.
  2: { exfalso. exact (Hread _ _ H). }
  destruct (metadata_matches reference d) eqn:Em; cbn [negb] in H.
  2: { exfalso. refine (Hfail _ _ _ _ H). discriminate. }
  destruct (reader_get_bytes reference r1).1 as [data|e] eqn:Eg.
  2: { exfalso. exact (Hread _ _ H). }
  unfold check_report in H. destruct (read_report_mapping data) as [kvs| | |e] eqn:Ed.
  2, 3: exfalso; refine (Hfail _ _ _ _ H); discriminate.
  2: discriminate H.
  destruct (verification_report_from_mapping _) as [v|e] eqn:Ev.
  2: { exfalso. destruct e; try discriminate H. refine (Hfail _ _ _ _ H). discriminate. }
  apply bind_ok in H as ([] & Hm & H); cbn [negb] in H.
  2: { exfalso. refine (Hfail _ _ _ _ H). discriminate. }
  apply bind_ok in H as (matrix & Hmx & H). exists reference, data, kvs, v, matrix.
  cbn [fst snd]. rewrite Eg. split_and!; try assumption; reflexivity.
Qed.

Lemma replay_verified artifacts events run_id x : replay artifacts events run_id = Ok x →
  xv_artifact_integrity x = ReplayStatus.VERIFIED →
  ∃ sid stream s r state d,
    verification_stream run_id = Ok sid ∧ read_stream sid events = (Ok stream, s)
    ∧ fold_verification_lifecycle run_id stream = Ok state
    ∧ _source_events_match read_stream get_event state s = Ok true
    ∧ selected_digest state = Some d ∧ artifacts = Some r
    ∧ _replay_report_artifact reader_stat reader_get_bytes r state d (zlen stream) = Ok x.
Proof.
  intros H Hv.
  assert (Hno : ∀ run ls st integrity code d ref m n, integrity ≠ ReplayStatus.VERIFIED →
    _result run ls st integrity code d ref m n = Ok x → False).
  { intros run ls st integrity code d ref m n Hi Hx. apply result_ok in Hx as (_ & Hx & _). congruence. }
  unfold replay_verification in H. apply bind_ok in H as (sid & Hsid & H).
  destruct (read_stream sid events) as [[stream|e] s] eqn:Es.
  2: { exfalso. unfold _empty_failure in H. destruct e; cbn [is_os_error is_runtime_error orb] in H;
         first [done|eapply Hno, H; done]. }
  destruct stream as [|e0 es]; [exfalso; eapply Hno, H; done|].
  destruct (fold_verification_lifecycle run_id (e0 :: es)) as [state|e] eqn:Ef.
  2: { exfalso. destruct e; try done. eapply Hno, H. done. }
  unfold replay_state_of in H. apply bind_ok in H as ([] & Hm & H); cbn [negb] in H;
    [|exfalso; eapply Hno, H; done].
  destruct (selected_digest state) as [d|] eqn:Ed; [|exfalso; eapply Hno, H; done].
  destruct artifacts as [r|]; [|exfalso; eapply Hno, H; done].
  exists sid, (e0 :: es), s, r, state, d. by rewrite Ef.
Qed.
End Readers.


(** What the worker of a verification leaves: the canonical report under its
    digest, and a completion event with the report's verdict and digests under a
    lease with the report's bindings. *)
Record recorded (state : VerificationLifecycleState) (v : VerificationReport) (text : string) : Prop := {
  rd_completed : VerificationLifecycle.vr_status state = VerificationLifecycleStatus.COMPLETED;
  rd_text : canonical_json_bytes (verification_report_payload v) = Ok text;
  rd_digest : vs_report_artifact_digest (vr_fields state) = Some (bytes_digest text);
  rd_bound : bound v state (bytes_digest text);
  rd_concluded : concluded v state
}.

(** C12 (recorded_verification_replays): a verification that was recorded replays.
    If [verify_review] built a report, its canonical text is stored, and the
    ledger holds a completion with the report's verdict and digests together with
    the execution and review its lease names, the replay is VERIFIED with no
    finding: the text is read back as exactly that report. *)
Theorem recorded_verification_replays {R E : Type} (reader_stat : string → R → result ArtifactRef * R)
    (reader_get_bytes : ArtifactRef → R → result string * R)
    (read_stream : string → E → result (list EventEnvelope) * E)
    (get_event : string → E → result (option EventEnvelope) * E)
    r events run_id sid stream s state c a v text reference :
  verification_stream run_id = Ok sid → read_stream sid events = (Ok stream, s) →
  fold_verification_lifecycle run_id stream = Ok state →
  _source_events_match read_stream get_event state s = Ok true →
  verification_input c a → verify_review c a = Ok v → recorded state v text →
  (reader_stat (bytes_digest text) r).1 = Ok reference →
  metadata_matches reference (bytes_digest text) = true →
  (reader_get_bytes reference (reader_stat (bytes_digest text) r).2).1 = Ok text →
  replay_verification reader_stat reader_get_bytes read_stream get_event (Some r) events run_id =
    _result (VerificationLifecycle.vr_run_id state) ReplayLifecycle.COMPLETED (Some state)
      ReplayStatus.VERIFIED None (Some (bytes_digest text)) (Some reference)
      (vs_matrix_digest (vr_fields state)) (zlen stream).
Proof.
  intros Hsid Hs Hf Hm Hin Hver [Hc Ht Hd Hb Hn] Hst Hmeta Hget.
  destruct (report_text_read v text (verify_review_readable _ _ _ Hin Hver) Ht) as (kvs & Hk & Hread).
  assert (Hmatch : _report_matches_state v state (bytes_digest text) = Ok true).
  { apply report_matches_spec. split; [done|]. by left. }
  destruct (cn_matrix _ _ Hn) as (m & Hmx & Hmx').
  unfold replay_verification. rewrite Hsid. cbn [mbind result_bind]. rewrite Hs.
  destruct stream as [|e es].
  { exfalso. unfold fold_verification_lifecycle in Hf. by apply bind_ok in Hf as (? & _ & Hf). }
  rewrite Hf. unfold replay_state_of. rewrite Hm. cbn [mbind result_bind negb].
  unfold selected_digest. rewrite Hc, bool_decide_eq_true_2, Hd by done.
  unfold _replay_report_artifact. destruct (reader_stat (bytes_digest text) r) as [answer r1]. cbn [fst snd] in *.
  rewrite Hst, Hmeta, Hget. cbn [negb]. unfold check_report. rewrite Hk, Hread, Hmatch.
  cbn [mbind result_bind negb]. by rewrite Hmx, Hmx', Hc.
Qed.
