(* ===== verification/VerificationReplayWitness.v ===== *)
(** * A concrete verification, recorded and replayed

    The report of [ReviewWitness] is stored; the ledger holds the end of the run,
    a review claimed, dispatched and succeeded, and a verification claimed and
    completed. *)

From S2P Require Import Prelude PyStr PyFloat Sha256 Json JsonText JsonFacts JsonBytes PyTime Contracts.
From S2P Require Import Printable Events Artifacts Strict RunLifecycle ReviewLifecycle VerificationLifecycle.
From S2P Require Import OutputSchema Gateway Changes ExecutionArtifacts Replay Review ReviewFacts.
From S2P Require Import Verification VerificationFacts VerificationTotal ReviewWitness.
From S2P Require Import ReplayExcerpts VerificationReplay VerificationRoundtrip VerificationReplayFacts.
From Stdlib Require Import ZArith Lia Ascii String.
From stdpp Require Import base gmap sets list strings.
Local Open Scope Z_scope.

Module SampleReplay.
Import SampleReview.

Definition instant : datetime := Datetime 0 (Some 0).
Definition tomorrow : datetime := Datetime us_per_day (Some 0).
Definition text : string := Eval vm_compute in
  ok (canonical_json_bytes (verification_report_payload report)) "".
Definition text_digest : string := Eval vm_compute in bytes_digest text.
Definition the_matrix : string := Eval vm_compute in ok (matrix_digest report) "".
Definition other : string := Eval vm_compute in bytes_digest "other".

Definition event (id stream : string) (n : Z) (ty cause : string) (p : jobject) : EventEnvelope :=
  MkEvent id stream n ty 1 instant instant "c" (Some cause) "w" RUNTIME_EVENT_SOURCE p
    (ok (jdigest p) "") None (Some n).

(** The run has succeeded. *)
Definition executed : EventEnvelope := Eval vm_compute in
  event "x9" "run:r1" 9 RUN_SUCCEEDED "x8"
    [("principal_id", JStr "w"); ("run_id", JStr "r1"); ("status", JStr "succeeded")].

(** Its review. *)
Definition review_name : string := Eval vm_compute in ok (review_id "r1" (payload_hash executed)) "".
Definition review_lease : ReviewLease :=
  MkReviewLease "r1" review_name 1 1 "w" "x9" (payload_hash executed) (vr_state_digest report)
    (vr_artifact_evidence_digest report) tomorrow REVIEW_LEASE_SCHEMA.
Definition review_lease_hash : string := Eval vm_compute in ok (review_lease_digest review_lease) "".
Definition review_head : jobject :=
  [("principal_id", JStr "w"); ("run_id", JStr "r1"); ("review_id", JStr review_name);
   ("lease_digest", JStr review_lease_hash)].
Definition reviewed : list EventEnvelope := Eval vm_compute in
  [event "v1" "review:r1" 1 REVIEW_CLAIMED "x9"
     [("principal_id", JStr "w"); ("lease_digest", JStr review_lease_hash);
      ("lease", JObj (review_lease_payload review_lease)); ("status", JStr "claimed")];
   event "v2" "review:r1" 2 REVIEW_PROVIDER_DISPATCH_STARTED "v1" (review_head ++
     [("provider_request_id", JStr (short_digest "review-" review_lease_hash));
      ("acceptance_digest", JStr (vr_acceptance_digest report));
      ("context_digest", JStr (vr_context_digest report));
      ("context_artifact_digest", JStr (vr_context_digest report));
      ("status", JStr "provider-dispatch-started")]);
   event "v3" "review:r1" 3 REVIEW_SUCCEEDED "v2" (review_head ++
     [("context_digest", JStr (vr_context_digest report)); ("proposal_artifact_digest", JStr other);
      ("provider_result_artifact_digest", JStr other);
      ("admitted_artifact_digest", JStr (vr_admitted_review_digest report));
      ("finding_count", JInt 0); ("status", JStr "succeeded")])].
Definition review_end : EventEnvelope := Eval vm_compute in List.last reviewed executed.

(** Its verification. *)
Definition verification_name : string := Eval vm_compute in
  ok (verification_id "r1" (payload_hash review_end)) "".
Definition lease : VerificationLease :=
  MkVerificationLease "r1" verification_name 1 1 "w" "x9" (payload_hash executed) (vr_state_digest report)
    (vr_artifact_evidence_digest report) review_name "v3" (payload_hash review_end)
    (vr_acceptance_digest report) (vr_context_digest report) other other
    (vr_admitted_review_digest report) 0 tomorrow VERIFICATION_LEASE_SCHEMA.
Definition lease_hash : string := Eval vm_compute in ok (verification_lease_digest lease) "".
Definition verified : list EventEnvelope := Eval vm_compute in
  [event "w1" "verification:r1" 1 VERIFICATION_CLAIMED "v3"
     [("principal_id", JStr "w"); ("lease_digest", JStr lease_hash);
      ("lease", JObj (verification_lease_payload lease)); ("status", JStr "claimed")];
   event "w2" "verification:r1" 2 VERIFICATION_COMPLETED "w1"
     [("principal_id", JStr "w"); ("run_id", JStr "r1"); ("verification_id", JStr verification_name);
      ("lease_digest", JStr lease_hash); ("verdict", JStr "pass");
      ("report_artifact_digest", JStr text_digest); ("matrix_digest", JStr the_matrix);
      ("status", JStr "completed")]].
Definition state : VerificationLifecycleState := Eval vm_compute in
  ok (fold_verification_lifecycle "r1" verified)
    (MkVerification "" "" VerificationLifecycleStatus.CLAIMED lease verification_initial executed).

(** A ledger and a store that never change. *)
Definition read_stream (sid : string) (u : unit) : result (list EventEnvelope) * unit :=
  (Ok (if bool_decide (sid = "verification:r1") then verified
       else if bool_decide (sid = "review:r1") then reviewed else []), u).
Definition get_event (id : string) (u : unit) : result (option EventEnvelope) * unit :=
  (Ok (List.find (λ e, bool_decide (event_id e = id)) (executed :: reviewed ++ verified)), u).
Definition reference : ArtifactRef :=
  MkRef text_digest (byte_len text) VERIFICATION_REPORT_MEDIA_TYPE (Some "utf-8") instant.
Definition stat (d : string) (u : unit) : result ArtifactRef * unit :=
  (if bool_decide (d = text_digest) then Ok reference else Err ArtifactNotFoundError, u).
Definition get_bytes (r : ArtifactRef) (u : unit) : result string * unit := (Ok text, u).

Definition replay_report : VerificationReplayReport := Eval vm_compute in
  ok (replay_verification stat get_bytes read_stream get_event (Some tt) tt "r1") (MkVerificationReplay "" ReplayLifecycle.CLAIMED None None None None None None None None None
    None None ReplayStatus.FAILED None 0 "").
Lemma replayed_is_ok :
  replay_verification stat get_bytes read_stream get_event (Some tt) tt "r1" = Ok replay_report.
Proof. by_vm. Qed.
Lemma stream_is_ok : (sid ← verification_stream "r1"; (read_stream sid tt).1) = Ok verified.
Proof. by_vm. Qed.
Lemma is_verified : xv_artifact_integrity replay_report = ReplayStatus.VERIFIED.
Proof. by_vm. Qed.
Lemma state_is_ok : fold_verification_lifecycle "r1" verified = Ok state.
Proof. by_vm. Qed.
Lemma sources_are_ok : _source_events_match read_stream get_event state tt = Ok true.
Proof. by_vm. Qed.
Lemma text_is_ok : canonical_json_bytes (verification_report_payload report) = Ok text.
Proof. by_vm. Qed.
Lemma digest_is_text : bytes_digest text = text_digest.
Proof. by_vm. Qed.
Lemma recorded_is_ok : recorded state report text.
Proof.
  split; [by_vm|exact text_is_ok|rewrite digest_is_text; by_vm| |].
  - rewrite digest_is_text. split; by_vm.
  - split; [by_vm|]. exists the_matrix. split; by_vm.
Qed.
Lemma bytes_are_ok : (get_bytes reference (stat text_digest tt).2).1 = Ok text.
Proof. by_vm. Qed.
Lemma metadata_is_ok : metadata_matches reference text_digest = true.
Proof. by_vm. Qed.
End SampleReplay.

(** A number that is not finite escapes the replay. *)
Example nan_report_escapes : is_ok (replay_verification SampleReplay.stat
  (λ r u, (Ok ("{" +:+ dq +:+ "a" +:+ dq +:+ ":NaN}"), u)) SampleReplay.read_stream SampleReplay.get_event
  (Some tt) tt "r1") = false.
Proof. by_vm. Qed.


Lemma recorded_verification_replays_witness :
  ∃ x, replay_verification SampleReplay.stat SampleReplay.get_bytes SampleReplay.read_stream
         SampleReplay.get_event (Some tt) tt "r1" = Ok x
    ∧ xv_artifact_integrity x = ReplayStatus.VERIFIED ∧ xv_verdict x = Some Verdict.PASS.
Proof.
  pose proof (recorded_verification_replays SampleReplay.stat SampleReplay.get_bytes SampleReplay.read_stream
    SampleReplay.get_event tt tt "r1" "verification:r1" SampleReplay.verified tt SampleReplay.state
    SampleReview.context SampleReview.admitted SampleReview.report SampleReplay.text SampleReplay.reference
    eq_refl eq_refl SampleReplay.state_is_ok SampleReplay.sources_are_ok SampleReview.input_is_ok
    SampleReview.report_is_ok SampleReplay.recorded_is_ok) as H.
  rewrite SampleReplay.digest_is_text in H.
  specialize (H eq_refl SampleReplay.metadata_is_ok SampleReplay.bytes_are_ok).
  exists SampleReplay.replay_report. split; [refine (eq_trans H _); by_vm|]. split; by_vm.
Defined.
