(* ===== verification/ExecutionRuntime.v ===== *)
(** * orchestration/execution_runtime.py: the state of a run and its projection

    [ExecutionRunProjection] folds the events of a run's stream into an
    [ExecutionRunState].  [apply] is its method; it dispatches to one handler per
    event type, each with the guards of its branch in the order of the source, so
    that the code of the error is the one Python raises.  Text is compared as the
    payload has it; the Unicode normalisation behind [AttemptEvidence.error_signature]
    (case folding, digit runs, white space) is the parameter [normalize]. *)

From S2P Require Import Prelude PyStr PyFloat Sha256 Json JsonText JsonFacts PyTime Contracts Events.
From S2P Require Import ExecutionPlan RunLifecycle OutputSchema Gateway PlanCompiler AttemptPolicy.
From Stdlib Require Import ZArith Lia Ascii String.
From stdpp Require Import base gmap sets list strings.
Local Open Scope Z_scope.

(** ** Errors *)
Definition invalid_event : exn := ExecutionRuntimeError "invalid-execution-event".
Definition invalid_transition : exn := ExecutionRuntimeError "invalid-execution-transition".
Definition after_terminal : exn := ExecutionRuntimeError "event-after-execution-terminal".
Definition task_not_found : exn := ExecutionRuntimeError "execution-task-not-found".
Definition base_commit_ambiguous : exn := ExecutionRuntimeError "execution-base-commit-ambiguous".
Definition invalid_checkpoint : exn := ExecutionRuntimeError "invalid-execution-checkpoint".
Definition event_require (c : bool) : result unit := raise_if (negb c) invalid_event.
Definition transition_require (c : bool) : result unit := raise_if (negb c) invalid_transition.
(** [except (TypeError, ValueError)] *)
Definition value_or_type (e : exn) : bool := is_type_error e || is_value_error e.

(** ** Event types of execution_plan.py *)
Definition EXECUTION_GOAL_ADMITTED : string := "execution.goal.admitted".
Definition EXECUTION_PLAN_DRAFT_RECEIVED : string := "execution.plan-draft.received".
Definition EXECUTION_PLAN_ADMITTED : string := "execution.plan.admitted".
Definition EXECUTION_REPLAN_STARTED : string := "execution.replan.started".
Definition EXECUTION_TASK_READY : string := "execution.task.ready".
Definition EXECUTION_POLICY_DECIDED : string := "execution.policy.decided".
Definition EXECUTION_TASK_STARTED : string := "execution.task.started".
Definition EXECUTION_TASK_VERIFYING : string := "execution.task.verifying".
Definition EXECUTION_TASK_VERIFIED : string := "execution.task.verified".
Definition EXECUTION_TASK_BLOCKED : string := "execution.task.blocked".
Definition EXECUTION_RUN_TERMINATED : string := "execution.run.terminated".

(** ** Statuses *)

Module TaskStatus.
Inductive t := PENDING | READY | RUNNING | VERIFYING | SUCCEEDED | REPAIRABLE | REPLAN_REQUIRED
             | BLOCKED | CANCELED | ESCALATED | TERMINAL_FAILURE.
End TaskStatus.
#[export] Instance task_status_eq_dec : EqDecision TaskStatus.t.
Proof. solve_decision. Defined.
Definition task_status_value (s : TaskStatus.t) : string :=
  match s with
  | TaskStatus.PENDING => "pending" | TaskStatus.READY => "ready" | TaskStatus.RUNNING => "running"
  | TaskStatus.VERIFYING => "verifying" | TaskStatus.SUCCEEDED => "succeeded"
  | TaskStatus.REPAIRABLE => "repairable" | TaskStatus.REPLAN_REQUIRED => "replan-required"
  | TaskStatus.BLOCKED => "blocked" | TaskStatus.CANCELED => "canceled"
  | TaskStatus.ESCALATED => "escalated" | TaskStatus.TERMINAL_FAILURE => "terminal-failure"
  end.

Module RunPhase.
Inductive t := ADMITTED | RUNNING | SUCCEEDED | REPLAN_REQUIRED | REPLANNING | BLOCKED | CANCELED
             | ESCALATED | TERMINAL_FAILURE.
End RunPhase.
#[export] Instance run_phase_eq_dec : EqDecision RunPhase.t.
Proof. solve_decision. Defined.
Definition run_phase_value (s : RunPhase.t) : string :=
  match s with
  | RunPhase.ADMITTED => "admitted" | RunPhase.RUNNING => "running" | RunPhase.SUCCEEDED => "succeeded"
  | RunPhase.REPLAN_REQUIRED => "replan-required" | RunPhase.REPLANNING => "replanning"
  | RunPhase.BLOCKED => "blocked" | RunPhase.CANCELED => "canceled" | RunPhase.ESCALATED => "escalated"
  | RunPhase.TERMINAL_FAILURE => "terminal-failure"
  end.

Definition _RUN_OUTCOME_STATUSES : list RunPhase.t :=
  [RunPhase.SUCCEEDED; RunPhase.REPLAN_REQUIRED; RunPhase.BLOCKED; RunPhase.CANCELED; RunPhase.ESCALATED;
   RunPhase.TERMINAL_FAILURE].
Definition _FINAL_RUN_STATUSES : list RunPhase.t :=
  [RunPhase.SUCCEEDED; RunPhase.BLOCKED; RunPhase.CANCELED; RunPhase.ESCALATED; RunPhase.TERMINAL_FAILURE].

Definition route_value (r : AttemptRoute) : string :=
  match r with
  | SUCCEEDED => "succeeded" | REPAIRABLE => "repairable" | REPLAN_REQUIRED => "replan-required"
  | BLOCKED => "blocked" | ESCALATED => "escalated" | TERMINAL_FAILURE => "terminal-failure"
  end.
(** [TaskLifecycleStatus(route.value)] and [RunLifecycleStatus(route.value)]. *)
Definition route_status (r : AttemptRoute) : TaskStatus.t :=
  match r with
  | SUCCEEDED => TaskStatus.SUCCEEDED | REPAIRABLE => TaskStatus.REPAIRABLE
  | REPLAN_REQUIRED => TaskStatus.REPLAN_REQUIRED | BLOCKED => TaskStatus.BLOCKED
  | ESCALATED => TaskStatus.ESCALATED | TERMINAL_FAILURE => TaskStatus.TERMINAL_FAILURE
  end.
Definition failure_class_value (c : FailureClass) : string :=
  match c with
  | TRANSIENT => "transient" | LOGIC_BUG => "logic-bug" | CONTRACT_MISMATCH => "contract-mismatch"
  | MISSING_DEPENDENCY => "missing-dependency" | INVALID_ASSUMPTION => "invalid-assumption"
  | POLICY => "policy" | UNCLASSIFIED => "unclassified"
  end.

(** [SomeEnum(text)]: the member with the value, or [ValueError]. *)
Definition enum_member {A} (value : A → string) (all : list A) (text : string) : result A :=
  of_option (ValueError "not a valid member") (List.find (λ a, bool_decide (value a = text)) all).
Definition task_statuses : list TaskStatus.t :=
  [TaskStatus.PENDING; TaskStatus.READY; TaskStatus.RUNNING; TaskStatus.VERIFYING; TaskStatus.SUCCEEDED;
   TaskStatus.REPAIRABLE; TaskStatus.REPLAN_REQUIRED; TaskStatus.BLOCKED; TaskStatus.CANCELED;
   TaskStatus.ESCALATED; TaskStatus.TERMINAL_FAILURE].
Definition run_phases : list RunPhase.t :=
  [RunPhase.ADMITTED; RunPhase.RUNNING; RunPhase.SUCCEEDED; RunPhase.REPLAN_REQUIRED; RunPhase.REPLANNING;
   RunPhase.BLOCKED; RunPhase.CANCELED; RunPhase.ESCALATED; RunPhase.TERMINAL_FAILURE].
Definition attempt_routes : list AttemptRoute :=
  [SUCCEEDED; REPAIRABLE; REPLAN_REQUIRED; BLOCKED; ESCALATED; TERMINAL_FAILURE].
Definition failure_classes : list FailureClass :=
  [TRANSIENT; LOGIC_BUG; CONTRACT_MISMATCH; MISSING_DEPENDENCY; INVALID_ASSUMPTION; POLICY; UNCLASSIFIED].
Definition localities : list LocalityPolicy := [LOCAL_ONLY; REMOTE_ALLOWED].
Definition locality_value (l : LocalityPolicy) : string :=
  match l with LOCAL_ONLY => "local-only" | REMOTE_ALLOWED => "remote-allowed" end.
Definition data_classifications : list DataClassification := [PUBLIC; INTERNAL; PRIVATE; SECRET].
Definition classification_member (z : Z) : result DataClassification :=
  of_option (ValueError "not a valid DataClassification")
    (List.find (λ c, classification_value c =? z) data_classifications).

(** ** Readers of event payloads and checkpoints *)
Abbreviation payload_map := (list (string * pyval)).

Definition _mapping (value : pyval) : result payload_map := contract_mapping invalid_event value.
Definition _text (value : payload_map) (field : string) : result string :=
  match pget field value with
  | PStr s => _ ← event_require (negb (is_empty s)); Ok s
  | _ => Err invalid_event
  end.
(** [None] when the field is [None], or the reading of [read]. *)
Definition optional {A} (read : payload_map → string → result A) (value : payload_map) (field : string)
    : result (option A) :=
  match pget field value with PNone => Ok None | _ => Some <$> read value field end.
Definition _optional_text : payload_map → string → result (option string) := optional _text.
Definition _integer (value : payload_map) (field : string) : result Z :=
  match pget field value with
  | PInt z => _ ← event_require (0 <=? z); Ok z
  | _ => Err invalid_event
  end.
Definition _optional_integer : payload_map → string → result (option Z) := optional _integer.
Definition _boolean (value : payload_map) (field : string) : result bool :=
  match pget field value with PBool b => Ok b | _ => Err invalid_event end.
Definition _optional_boolean : payload_map → string → result (option bool) := optional _boolean.

(** [item.startswith("sha256:") and len(item) == 71] *)
Definition digest_like (s : string) : bool := starts_with "sha256:" s && (py_len s =? 71).
Definition _digest (value : payload_map) (field : string) : result string :=
  item ← _text value field; _ ← event_require (digest_like item); Ok item.
Definition _optional_digest : payload_map → string → result (option string) := optional _digest.
(** [len(item) == 40] and every character a lower-case hexadecimal digit. *)
Definition _commit (value : payload_map) (field : string) : result string :=
  item ← _text value field; _ ← event_require (re_commit item); Ok item.
Definition _optional_commit : payload_map → string → result (option string) := optional _commit.

Definition strings_of (items : list pyval) : option (list string) :=
  mapM (λ v, match v with PStr s => Some s | _ => None end) items.
Definition _digest_tuple (require_nonempty : bool) (value : payload_map) (field : string)
    : result (list string) :=
  match pget field value with
  | PSequence items =>
      _ ← event_require (negb (require_nonempty && bool_decide (items = [])));
      digests ← of_option invalid_event (strings_of items);
      _ ← event_require (forallb digest_like digests);
      _ ← event_require (bool_decide (digests = sorted_set digests));
      Ok digests
  | _ => Err invalid_event
  end.
Definition _text_tuple (value : payload_map) (field : string) : result (list string) :=
  match pget field value with
  | PSequence items => of_option invalid_event (strings_of items)
  | _ => Err invalid_event
  end.

Definition budget_fields : list string :=
  ["max_input_tokens"; "max_output_tokens"; "max_latency_ms"; "max_cost_microusd"].
Definition _gateway_budget (value : pyval) : result GatewayBudget :=
  raw ← _mapping value;
  _ ← event_require (has_keys raw budget_fields);
  input ← _integer raw "max_input_tokens";
  output ← _integer raw "max_output_tokens";
  latency ← _integer raw "max_latency_ms";
  cost ← _integer raw "max_cost_microusd";
  gateway_budget_init (MkBudget input output latency cost).
Definition _gateway_budget_payload (b : GatewayBudget) : pyval :=
  obj [("max_input_tokens", PInt (max_input_tokens b));
       ("max_output_tokens", PInt (max_output_tokens b));
       ("max_latency_ms", PInt (max_latency_ms b));
       ("max_cost_microusd", PInt (max_cost_microusd b))].

Definition _EVENT_PAYLOAD_FIELDS : list (string * list string) :=
  [(EXECUTION_GOAL_ADMITTED,
     ["run_id"; "goal_id"; "goal_digest"; "goal"; "classification"; "locality"; "budget"]);
   (EXECUTION_REPLAN_STARTED,
     ["run_id"; "previous_plan_id"; "previous_plan_version"; "next_plan_version"]);
   (EXECUTION_PLAN_DRAFT_RECEIVED,
     ["run_id"; "draft_digest"; "provider_output_digest"; "profile_id"; "adapter_id"; "model_id";
      "input_tokens"; "output_tokens"; "latency_ms"; "cost_microusd"]);
   (EXECUTION_PLAN_ADMITTED,
     ["run_id"; "plan_id"; "plan_digest"; "plan_version"; "supersedes_plan_id"; "plan"]);
   (EXECUTION_POLICY_DECIDED,
     ["run_id"; "task_id"; "attempt"; "allowed"; "reason"; "action_digest"; "decision_id"]);
   (EXECUTION_TASK_READY, ["run_id"; "task_id"; "attempt"]);
   (EXECUTION_TASK_STARTED,
     ["run_id"; "task_id"; "attempt"; "workspace_id"; "base_commit"; "action_digest"; "decision_id"]);
   (EXECUTION_TASK_VERIFYING, ["run_id"; "task_id"; "attempt"; "workspace_id"]);
   (EXECUTION_TASK_VERIFIED,
     ["run_id"; "task_id"; "attempt"; "workspace_id"; "route"; "verifier_exit_code";
      "required_checks_passed"; "workspace_clean"; "error_signature"; "same_error_count";
      "artifact_digests"; "progress_digests"; "new_evidence"; "failure_class"; "failure_summary";
      "head_commit"; "input_tokens"; "output_tokens"; "latency_ms"; "cost_microusd"]);
   (EXECUTION_TASK_BLOCKED, ["run_id"; "task_id"; "reason"]);
   (EXECUTION_RUN_TERMINATED, ["run_id"; "status"; "reason"])].
Definition _require_event_payload (event_type : string) (payload : payload_map) : result unit :=
  event_require (match dict_get event_type _EVENT_PAYLOAD_FIELDS with
                 | Some expected => has_keys payload expected
                 | None => false
                 end).

(** [character.isascii() and (character.isalnum() or character in "-._:")] *)
Definition run_id_char (a : ascii) : bool := is_alnum a || is_one_of "-._:" a.
Definition invalid_run_id : exn := ExecutionRuntimeError "invalid-execution-run-id".
Definition _stream_id (run_id : string) : result string :=
  _ ← raise_if (is_empty run_id || (128 <? py_len run_id) || negb (all_chars run_id_char run_id)) invalid_run_id;
  Ok ("run:" +:+ run_id).

(** ** States *)

Record ExecutionTaskState := MkTaskState {
  ts_task_id : string;
  ts_status : TaskStatus.t;
  ts_depends_on : list string;
  ts_allowed_paths : list string;
  ts_max_attempts : Z;
  ts_attempts : Z;
  ts_last_error_signature : option string;
  ts_same_error_count : Z;
  ts_active_workspace_id : option string;
  ts_retained_workspace_id : option string;
  ts_blocked_reason : option string;
  ts_evidence_event_ids : list string;
  ts_last_failure_class : option FailureClass;
  ts_last_failure_summary : option string;
  ts_last_artifact_digests : list string;
  ts_last_progress_digests : list string;
  ts_head_commit : option string;
  ts_pending_decision_id : option string;
  ts_pending_action_digest : option string;
  ts_pending_allowed : option bool;
  ts_pending_reason : option string
}.

(** [ExecutionTaskState(task_id, PENDING, depends_on, allowed_paths, max_attempts)] *)
Definition pending_task (t : TaskSpec) : ExecutionTaskState :=
  MkTaskState (task_id t) TaskStatus.PENDING (depends_on t) (task_allowed_paths t) (task_max_attempts t)
    0 None 0 None None None [] None None [] [] None None None None None.

(** [replace(task, ...)] *)
Definition with_status (t : ExecutionTaskState) (s : TaskStatus.t) : ExecutionTaskState :=
  MkTaskState (ts_task_id t) s (ts_depends_on t) (ts_allowed_paths t) (ts_max_attempts t) (ts_attempts t)
    (ts_last_error_signature t) (ts_same_error_count t) (ts_active_workspace_id t)
    (ts_retained_workspace_id t) (ts_blocked_reason t) (ts_evidence_event_ids t)
    (ts_last_failure_class t) (ts_last_failure_summary t) (ts_last_artifact_digests t)
    (ts_last_progress_digests t) (ts_head_commit t) (ts_pending_decision_id t)
    (ts_pending_action_digest t) (ts_pending_allowed t) (ts_pending_reason t).
Definition with_attempt (t : ExecutionTaskState) (attempts : Z) (workspace : option string)
    : ExecutionTaskState :=
  MkTaskState (ts_task_id t) (ts_status t) (ts_depends_on t) (ts_allowed_paths t) (ts_max_attempts t)
    attempts (ts_last_error_signature t) (ts_same_error_count t) workspace
    (ts_retained_workspace_id t) (ts_blocked_reason t) (ts_evidence_event_ids t)
    (ts_last_failure_class t) (ts_last_failure_summary t) (ts_last_artifact_digests t)
    (ts_last_progress_digests t) (ts_head_commit t) (ts_pending_decision_id t)
    (ts_pending_action_digest t) (ts_pending_allowed t) (ts_pending_reason t).
Definition with_blocked (t : ExecutionTaskState) (reason : option string) : ExecutionTaskState :=
  MkTaskState (ts_task_id t) (ts_status t) (ts_depends_on t) (ts_allowed_paths t) (ts_max_attempts t)
    (ts_attempts t) (ts_last_error_signature t) (ts_same_error_count t) (ts_active_workspace_id t)
    (ts_retained_workspace_id t) reason (ts_evidence_event_ids t)
    (ts_last_failure_class t) (ts_last_failure_summary t) (ts_last_artifact_digests t)
    (ts_last_progress_digests t) (ts_head_commit t) (ts_pending_decision_id t)
    (ts_pending_action_digest t) (ts_pending_allowed t) (ts_pending_reason t).
Definition with_pending (t : ExecutionTaskState) (id digest : option string) (allowed : option bool)
    (reason : option string) : ExecutionTaskState :=
  MkTaskState (ts_task_id t) (ts_status t) (ts_depends_on t) (ts_allowed_paths t) (ts_max_attempts t)
    (ts_attempts t) (ts_last_error_signature t) (ts_same_error_count t) (ts_active_workspace_id t)
    (ts_retained_workspace_id t) (ts_blocked_reason t) (ts_evidence_event_ids t)
    (ts_last_failure_class t) (ts_last_failure_summary t) (ts_last_artifact_digests t)
    (ts_last_progress_digests t) (ts_head_commit t) id digest allowed reason.
Definition without_pending (t : ExecutionTaskState) : ExecutionTaskState :=
  with_pending t None None None None.

(** The provider usage a run has accumulated, and whether every part was reported. *)
Record usage := MkUsage {
  us_input_tokens : Z;
  us_input_tokens_complete : bool;
  us_output_tokens : Z;
  us_output_tokens_complete : bool;
  us_latency_ms : Z;
  us_cost_microusd : Z;
  us_cost_microusd_complete : bool
}.
Definition no_usage : usage := MkUsage 0 true 0 true 0 0 true.
Definition add_usage (u : usage) (input output : option Z) (latency : Z) (cost : option Z) : usage :=
  MkUsage (us_input_tokens u + default 0 input) (us_input_tokens_complete u && is_some input)
    (us_output_tokens u + default 0 output) (us_output_tokens_complete u && is_some output)
    (us_latency_ms u + latency)
    (us_cost_microusd u + default 0 cost) (us_cost_microusd_complete u && is_some cost).

(** What the goal fixes for the whole run. *)
Record run_binding := MkBinding {
  rb_goal_id : string;
  rb_goal_digest : string;
  rb_project_id : string;
  rb_intent_id : string;
  rb_goal_base_commit : string;
  rb_classification : DataClassification;
  rb_locality : LocalityPolicy;
  rb_budget : GatewayBudget
}.

Record ExecutionRunState := MkRunState {
  xs_run_id : string;
  xs_binding : run_binding;
  xs_plan_id : option string;
  xs_plan_digest : option string;
  xs_plan_revision : option Z;
  xs_status : RunPhase.t;
  xs_tasks : list ExecutionTaskState;
  xs_retained_workspace_ids : list string;
  xs_latest_event_id : string;
  xs_last_stream_sequence : Z;
  xs_usage : usage;
  xs_pending_draft_digest : option string
}.

Definition with_phase (s : ExecutionRunState) (p : RunPhase.t) : ExecutionRunState :=
  MkRunState (xs_run_id s) (xs_binding s) (xs_plan_id s) (xs_plan_digest s) (xs_plan_revision s) p
    (xs_tasks s) (xs_retained_workspace_ids s) (xs_latest_event_id s) (xs_last_stream_sequence s)
    (xs_usage s) (xs_pending_draft_digest s).
Definition with_tasks (s : ExecutionRunState) (l : list ExecutionTaskState) : ExecutionRunState :=
  MkRunState (xs_run_id s) (xs_binding s) (xs_plan_id s) (xs_plan_digest s) (xs_plan_revision s)
    (xs_status s) l (xs_retained_workspace_ids s) (xs_latest_event_id s) (xs_last_stream_sequence s)
    (xs_usage s) (xs_pending_draft_digest s).
Definition with_usage (s : ExecutionRunState) (retained : list string) (u : usage) : ExecutionRunState :=
  MkRunState (xs_run_id s) (xs_binding s) (xs_plan_id s) (xs_plan_digest s) (xs_plan_revision s)
    (xs_status s) (xs_tasks s) retained (xs_latest_event_id s) (xs_last_stream_sequence s) u
    (xs_pending_draft_digest s).
Definition with_draft (s : ExecutionRunState) (draft : option string) : ExecutionRunState :=
  MkRunState (xs_run_id s) (xs_binding s) (xs_plan_id s) (xs_plan_digest s) (xs_plan_revision s)
    (xs_status s) (xs_tasks s) (xs_retained_workspace_ids s) (xs_latest_event_id s)
    (xs_last_stream_sequence s) (xs_usage s) draft.
Definition with_plan (s : ExecutionRunState) (id digest : string) (revision : Z) : ExecutionRunState :=
  MkRunState (xs_run_id s) (xs_binding s) (Some id) (Some digest) (Some revision) (xs_status s)
    (xs_tasks s) (xs_retained_workspace_ids s) (xs_latest_event_id s) (xs_last_stream_sequence s)
    (xs_usage s) (xs_pending_draft_digest s).
(** The last step of [apply]. *)
Definition with_event (s : ExecutionRunState) (e : EventEnvelope) : ExecutionRunState :=
  MkRunState (xs_run_id s) (xs_binding s) (xs_plan_id s) (xs_plan_digest s) (xs_plan_revision s)
    (xs_status s) (xs_tasks s) (xs_retained_workspace_ids s) (event_id e) (stream_sequence e)
    (xs_usage s) (xs_pending_draft_digest s).

(** [state.task(task_id)] *)
Definition _task (s : ExecutionRunState) (task_id : string) : result ExecutionTaskState :=
  of_option task_not_found (List.find (λ t, bool_decide (ts_task_id t = task_id)) (xs_tasks s)).
Definition _replace_task (s : ExecutionRunState) (r : ExecutionTaskState) : ExecutionRunState :=
  with_tasks s (map (λ t, if bool_decide (ts_task_id t = ts_task_id r) then r else t) (xs_tasks s)).

Definition final (p : RunPhase.t) : bool := bool_decide (p ∈ _FINAL_RUN_STATUSES).
Definition all_succeeded (l : list ExecutionTaskState) : bool :=
  negb (bool_decide (l = [])) && forallb (λ t, bool_decide (ts_status t = TaskStatus.SUCCEEDED)) l.

(** ** Identities *)

Definition _workspace_id_from_ids (plan_id task_id : string) (attempt : Z) : result string :=
  identity ← json_digest (obj [("plan_id", PStr plan_id); ("task_id", PStr task_id); ("attempt", PInt attempt)]);
  Ok ("workspace-" +:+ take_bytes 32 (remove_prefix "sha256:" identity)).

#[global] Arguments _workspace_id_from_ids : simpl never.

Definition _expected_base_commit (s : ExecutionRunState) (t : ExecutionTaskState) : result string :=
  if bool_decide (ts_depends_on t = []) then Ok (rb_goal_base_commit (xs_binding s))
  else
    heads ← map_result (λ d, ts_head_commit <$> _task s d) (ts_depends_on t);
    match heads with
    | Some head :: rest =>
        if forallb (λ h, bool_decide (h = Some head)) rest then Ok head else Err base_commit_ambiguous
    | _ => Err base_commit_ambiguous
    end.

(** [any(state.task(d).status is not SUCCEEDED for d in depends_on)] *)
Fixpoint dependency_open (s : ExecutionRunState) (ds : list string) : result bool :=
  match ds with
  | [] => Ok false
  | d :: ds' =>
      t ← _task s d;
      if bool_decide (ts_status t = TaskStatus.SUCCEEDED) then dependency_open s ds' else Ok true
  end.

(** ** Handlers *)

(** [SomeEnum(_text(payload, field))], or [None] when the field is [None]. *)
Definition _failure_class (payload : payload_map) (field : string) : result (option FailureClass) :=
  optional (λ p f, text ← _text p f; enum_member failure_class_value failure_classes text) payload field.

Definition public_event (e : EventEnvelope) : bool :=
  bool_decide (source e = RUNTIME_EVENT_SOURCE) && bool_decide (event_type e ∈ RUN_EVENT_TYPES).
Definition execution_event (e : EventEnvelope) : bool :=
  bool_decide (source e = EXECUTION_EVENT_SOURCE) && bool_decide (event_type e ∈ EXECUTION_EVENT_TYPES).

(** What a public event makes of the run and of the tasks that have not succeeded. *)
Definition public_outcome (type : string) (current : RunPhase.t) : RunPhase.t * option TaskStatus.t :=
  if bool_decide (type ∈ [RUN_CANCEL_REQUESTED; RUN_CANCELED])
  then (RunPhase.CANCELED, Some TaskStatus.CANCELED)
  else if bool_decide (type = RUN_SUCCEEDED) then (RunPhase.SUCCEEDED, None)
  else if bool_decide (type = RUN_FAILED)
  then (RunPhase.TERMINAL_FAILURE, Some TaskStatus.TERMINAL_FAILURE)
  else if bool_decide (type = RUN_RECONCILIATION_REQUIRED)
  then (RunPhase.ESCALATED, Some TaskStatus.ESCALATED)
  else (current, None).
Definition stop_task (status : TaskStatus.t) (t : ExecutionTaskState) : ExecutionTaskState :=
  if bool_decide (ts_status t = TaskStatus.SUCCEEDED) then t
  else without_pending (with_attempt (with_status t status) (ts_attempts t) None).

Definition apply_public (s : option ExecutionRunState) (e : EventEnvelope)
    : result (option ExecutionRunState) :=
  _ ← event_require (starts_with "run:" (stream_id e));
  match s with
  | None => Ok None
  | Some s =>
      sid ← _stream_id (xs_run_id s);
      _ ← event_require (bool_decide (stream_id e = sid)
            && (stream_sequence e =? xs_last_stream_sequence s + 1));
      let '(phase, stopped) := public_outcome (event_type e) (xs_status s) in
      _ ← raise_if (final (xs_status s) && negb (bool_decide (phase = xs_status s))) after_terminal;
      _ ← raise_if (bool_decide (phase = RunPhase.SUCCEEDED) && negb (all_succeeded (xs_tasks s)))
            invalid_transition;
      let tasks := match stopped with
                   | Some status => map (stop_task status) (xs_tasks s) | None => xs_tasks s end in
      Ok (Some (with_event (with_tasks (with_phase s phase) tasks) e))
  end.

Definition handle_goal_admitted (s : option ExecutionRunState) (run_id : string) (p : payload_map)
    (e : EventEnvelope) : result ExecutionRunState :=
  _ ← event_require (bool_decide (s = None));
  goal ← recast value_or_type invalid_event (goal_from_payload (pget "goal" p));
  id ← _text p "goal_id";
  _ ← event_require (bool_decide (goal_id goal = id));
  digest ← goal_digest goal;
  expected ← _digest p "goal_digest";
  _ ← event_require (bool_decide (digest = expected));
  number ← _integer p "classification";
  classification ← classification_member number;
  text ← _text p "locality";
  locality ← enum_member locality_value localities text;
  budget ← _gateway_budget (pget "budget" p);
  Ok (MkRunState run_id
        (MkBinding (goal_id goal) digest (project_id goal) (intent_id goal) (base_commit goal)
           classification locality budget)
        None None None RunPhase.ADMITTED [] [] (event_id e) (stream_sequence e) no_usage None).

Definition handle_replan_started (p : payload_map) (s : ExecutionRunState) : result ExecutionRunState :=
  _ ← transition_require (bool_decide (xs_status s = RunPhase.REPLAN_REQUIRED)
        && bool_decide (xs_pending_draft_digest s = None));
  plan_id ← of_option invalid_transition (xs_plan_id s);
  revision ← of_option invalid_transition (xs_plan_revision s);
  previous ← _text p "previous_plan_id";
  _ ← transition_require (bool_decide (previous = plan_id));
  previous_version ← _integer p "previous_plan_version";
  _ ← transition_require (previous_version =? revision);
  next_version ← _integer p "next_plan_version";
  _ ← transition_require (next_version =? revision + 1);
  Ok (with_phase s RunPhase.REPLANNING).

Definition handle_draft_received (p : payload_map) (s : ExecutionRunState) : result ExecutionRunState :=
  _ ← transition_require (bool_decide (xs_status s ∈ [RunPhase.ADMITTED; RunPhase.REPLANNING])
        && bool_decide (xs_pending_draft_digest s = None));
  draft ← _digest p "draft_digest";
  _ ← _digest p "provider_output_digest";
  _ ← _text p "profile_id";
  _ ← _text p "adapter_id";
  _ ← _text p "model_id";
  input ← _optional_integer p "input_tokens";
  output ← _optional_integer p "output_tokens";
  cost ← _optional_integer p "cost_microusd";
  latency ← _integer p "latency_ms";
  Ok (with_usage (with_draft s (Some draft)) (xs_retained_workspace_ids s)
        (add_usage (xs_usage s) input output latency cost)).

(** [plan] is what the payload's fields and the state say it is. *)
Definition admitted_plan_matches (p : payload_map) (s : ExecutionRunState) (plan : Plan) : result unit :=
  id ← _text p "plan_id";
  _ ← event_require (bool_decide (plan_id plan = id));
  digest ← _digest p "plan_digest";
  _ ← event_require (bool_decide (plan_digest plan = digest));
  version ← _integer p "plan_version";
  _ ← event_require (plan_revision plan =? version);
  supersedes ← _optional_text p "supersedes_plan_id";
  event_require (bool_decide (supersedes_plan_id plan = supersedes)
    && bool_decide (plan_goal_id plan = rb_goal_id (xs_binding s))
    && bool_decide (plan_project_id plan = rb_project_id (xs_binding s))
    && bool_decide (plan_intent_id plan = rb_intent_id (xs_binding s))
    && bool_decide (plan_base_commit plan = rb_goal_base_commit (xs_binding s))
    && bool_decide (Some (draft_digest plan) = xs_pending_draft_digest s)).
Definition handle_plan_admitted (p : payload_map) (s : ExecutionRunState) : result ExecutionRunState :=
  let fresh := bool_decide (xs_plan_id s = None) && bool_decide (xs_status s = RunPhase.ADMITTED) in
  let revised := bool_decide (xs_plan_id s ≠ None) && bool_decide (xs_status s = RunPhase.REPLANNING) in
  _ ← event_require (fresh || revised);
  plan ← recast value_or_type invalid_event (plan_from_payload (pget "plan" p));
  _ ← admitted_plan_matches p s plan;
  _ ← raise_if (revised &&
        match xs_plan_revision s with
        | None => true
        | Some revision => negb (bool_decide (supersedes_plan_id plan = xs_plan_id s)
                                 && (plan_revision plan =? revision + 1))
        end) invalid_transition;
  _ ← raise_if (fresh && negb ((plan_revision plan =? 1)
                               && bool_decide (supersedes_plan_id plan = None))) invalid_transition;
  let tasks := map pending_task (tasks plan) in
  _ ← event_require (distinct (map ts_task_id tasks));
  Ok (with_draft
        (with_tasks (with_phase (with_plan s (plan_id plan) (plan_digest plan) (plan_revision plan))
           RunPhase.RUNNING) (sort_by ts_task_id tasks)) None).

(** The action an attempt of a task performs. *)
Definition repository_action (run_id plan_id : string) (t : ExecutionTaskState) (n : Z)
    : ToolActionRequest :=
  MkAction run_id plan_id (ts_task_id t) n "repository-task" (ts_allowed_paths t) false.
Definition try_errors (e : exn) : bool :=
  value_or_type e || match e with ExecutionRuntimeError _ => true | _ => false end.
Definition handle_policy_decided (p : payload_map) (s : ExecutionRunState) : result ExecutionRunState :=
  id ← _text p "task_id";
  task ← _task s id;
  n ← _integer p "attempt";
  _ ← transition_require (bool_decide (ts_status task = TaskStatus.READY)
        && (n =? ts_attempts task + 1) && bool_decide (ts_pending_decision_id task = None));
  '(expected_action, decision) ← recast try_errors invalid_event
    (plan_id ← of_option invalid_transition (xs_plan_id s);
     action ← tool_action_init (repository_action (xs_run_id s) plan_id task n);
     allowed ← _boolean p "allowed";
     reason ← _text p "reason";
     digest ← _digest p "action_digest";
     decision ← policy_decision_init allowed reason digest;
     Ok (action, decision));
  expected ← action_digest_of expected_action;
  _ ← event_require (bool_decide (action_digest decision = expected));
  recorded ← _digest p "decision_id";
  _ ← event_require (bool_decide (decision_id decision = recorded));
  Ok (_replace_task s (with_pending task (Some (decision_id decision)) (Some (action_digest decision))
        (Some (allowed decision)) (Some (reason decision)))).

Definition handle_task_ready (p : payload_map) (s : ExecutionRunState) : result ExecutionRunState :=
  id ← _text p "task_id";
  task ← _task s id;
  n ← _integer p "attempt";
  _ ← transition_require (bool_decide (xs_status s = RunPhase.RUNNING)
        && bool_decide (ts_status task ∈ [TaskStatus.PENDING; TaskStatus.REPAIRABLE])
        && (n =? ts_attempts task + 1) && (n <=? ts_max_attempts task)
        && bool_decide (ts_pending_decision_id task = None));
  waiting ← dependency_open s (ts_depends_on task);
  _ ← transition_require (negb waiting);
  Ok (_replace_task s (with_status task TaskStatus.READY)).

Definition handle_task_started (p : payload_map) (s : ExecutionRunState) : result ExecutionRunState :=
  id ← _text p "task_id";
  task ← _task s id;
  n ← _integer p "attempt";
  workspace ← _text p "workspace_id";
  _ ← transition_require (bool_decide (ts_status task = TaskStatus.READY)
        && (n =? ts_attempts task + 1));
  plan_id ← of_option invalid_transition (xs_plan_id s);
  expected ← _workspace_id_from_ids plan_id (ts_task_id task) n;
  _ ← transition_require (bool_decide (workspace = expected));
  base ← _commit p "base_commit";
  expected_base ← _expected_base_commit s task;
  _ ← transition_require (bool_decide (base = expected_base)
        && bool_decide (ts_pending_allowed task = Some true));
  decision ← _digest p "decision_id";
  _ ← transition_require (bool_decide (ts_pending_decision_id task = Some decision));
  action ← _digest p "action_digest";
  _ ← transition_require (bool_decide (ts_pending_action_digest task = Some action));
  Ok (_replace_task s (without_pending (with_attempt (with_status task TaskStatus.RUNNING) n
        (Some workspace)))).

(** The guards that start the handlers of an attempt in progress. *)
Definition attempt_in (status : TaskStatus.t) (p : payload_map) (s : ExecutionRunState)
    : result (ExecutionTaskState * string) :=
  id ← _text p "task_id";
  task ← _task s id;
  _ ← transition_require (bool_decide (ts_status task = status));
  n ← _integer p "attempt";
  _ ← transition_require (n =? ts_attempts task);
  workspace ← _text p "workspace_id";
  _ ← transition_require (bool_decide (ts_active_workspace_id task = Some workspace));
  Ok (task, workspace).
Definition handle_task_verifying (p : payload_map) (s : ExecutionRunState) : result ExecutionRunState :=
  '(task, _) ← attempt_in TaskStatus.RUNNING p s;
  Ok (_replace_task s (with_status task TaskStatus.VERIFYING)).

(** How often the same error was seen, once [signature] was. *)
Definition next_error_count (t : ExecutionTaskState) (signature : option string) : Z :=
  match signature with
  | None => 0
  | Some _ => if bool_decide (signature = ts_last_error_signature t) then ts_same_error_count t + 1 else 1
  end.
Definition fresh_evidence (t : ExecutionTaskState) (progress : list string) : bool :=
  bool_decide (ts_last_progress_digests t = [])
  || negb (bool_decide (progress = ts_last_progress_digests t)).
(** What a verified attempt leaves in its task. *)
Definition with_evidence (t : ExecutionTaskState) (r : AttemptRoute) (signature : option string)
    (count : Z) (event : string) (cls : option FailureClass) (summary : option string)
    (artifacts progress : list string) (head : string) : ExecutionTaskState :=
  MkTaskState (ts_task_id t) (route_status r) (ts_depends_on t) (ts_allowed_paths t)
    (ts_max_attempts t) (ts_attempts t) signature count None
    (if bool_decide (r = SUCCEEDED) then ts_retained_workspace_id t else ts_active_workspace_id t)
    (ts_blocked_reason t) (ts_evidence_event_ids t ++ [event])
    cls summary artifacts progress (Some head) (ts_pending_decision_id t)
    (ts_pending_action_digest t) (ts_pending_allowed t) (ts_pending_reason t).
Definition retain (ids : list string) (workspace : string) : list string :=
  if bool_decide (workspace ∈ ids) then ids else ids ++ [workspace].

(** The workspace was clean and every check passed. *)
Definition evidence_good (e : AttemptEvidence) : bool :=
  workspace_clean e && (verifier_exit_code e =? 0) && required_checks_passed e.

Section Verified.
(** [re.sub(r"\s+", " ", re.sub(r"\b\d+\b", "#", text.casefold())).strip()] *)
Context (normalize : string → string).

(** [AttemptEvidence.error_signature] *)
Definition error_signature (e : AttemptEvidence) : result (option string) :=
  match failure_summary e with
  | None => Ok None
  | Some summary =>
      Some <$> json_digest (obj
        [("failure_class", popt (failure_class_value <$> failure_class e));
         ("summary", PStr (normalize summary))])
  end.

Definition handle_task_verified (p : payload_map) (e : EventEnvelope) (s : ExecutionRunState)
    : result ExecutionRunState :=
  '(task, workspace) ← attempt_in TaskStatus.VERIFYING p s;
  route_text ← _text p "route";
  r ← enum_member route_value attempt_routes route_text;
  exit_code ← _integer p "verifier_exit_code";
  _ ← transition_require (exit_code <=? 255);
  checks_passed ← _boolean p "required_checks_passed";
  clean ← _boolean p "workspace_clean";
  declared_new ← _boolean p "new_evidence";
  signature ← _optional_digest p "error_signature";
  count ← _integer p "same_error_count";
  _ ← transition_require (count =? next_error_count task signature);
  cls ← _failure_class p "failure_class";
  summary ← _optional_text p "failure_summary";
  _ ← transition_require
        (if bool_decide (r = SUCCEEDED) then bool_decide (cls = None) && bool_decide (summary = None)
         else is_some cls && is_some summary);
  artifacts ← _digest_tuple true p "artifact_digests";
  progress ← _digest_tuple true p "progress_digests";
  _ ← transition_require (subset_of progress artifacts);
  input ← _optional_integer p "input_tokens";
  output ← _optional_integer p "output_tokens";
  cost ← _optional_integer p "cost_microusd";
  evidence ← recast value_or_type invalid_event
    (head ← _commit p "head_commit";
     latency ← _integer p "latency_ms";
     attempt_evidence_init (MkEvidence clean exit_code checks_passed cls summary artifacts progress head
       input output latency cost EXECUTION_ATTEMPT_EVIDENCE_SCHEMA));
  observed ← error_signature evidence;
  _ ← transition_require (bool_decide (observed = signature)
        && eqb declared_new (fresh_evidence task (progress_digests evidence))
        && eqb (bool_decide (r = SUCCEEDED)) (evidence_good evidence));
  let updated := _replace_task s (with_evidence task r signature count (event_id e) cls summary
                   artifacts progress (head_commit evidence)) in
  let retained := if bool_decide (r = SUCCEEDED) then xs_retained_workspace_ids s
                  else retain (xs_retained_workspace_ids s) workspace in
  Ok (with_usage updated retained
        (add_usage (xs_usage s) input output (evidence_latency_ms evidence) cost)).

Definition handle_task_blocked (p : payload_map) (s : ExecutionRunState) : result ExecutionRunState :=
  id ← _text p "task_id";
  task ← _task s id;
  reason ← _text p "reason";
  _ ← transition_require (bool_decide (ts_status task = TaskStatus.READY)
        && bool_decide (ts_pending_allowed task = Some false)
        && bool_decide (ts_pending_reason task = Some reason));
  Ok (_replace_task s (without_pending (with_blocked (with_status task TaskStatus.BLOCKED)
        (Some reason)))).

Definition handle_run_terminated (p : payload_map) (s : ExecutionRunState) : result ExecutionRunState :=
  text ← _text p "status";
  status ← enum_member run_phase_value run_phases text;
  _ ← transition_require (bool_decide (status ∈ _RUN_OUTCOME_STATUSES));
  _ ← _text p "reason";
  _ ← transition_require (negb (bool_decide (status = RunPhase.SUCCEEDED)) || all_succeeded (xs_tasks s));
  Ok (with_phase s status).

(** The branches of [apply] for the events of a run that is in progress. *)
Definition handle_execution (type : string) (p : payload_map) (e : EventEnvelope)
    (s : ExecutionRunState) : result ExecutionRunState :=
  if bool_decide (type = EXECUTION_REPLAN_STARTED) then handle_replan_started p s
  else if bool_decide (type = EXECUTION_PLAN_DRAFT_RECEIVED) then handle_draft_received p s
  else if bool_decide (type = EXECUTION_PLAN_ADMITTED) then handle_plan_admitted p s
  else if bool_decide (type = EXECUTION_POLICY_DECIDED) then handle_policy_decided p s
  else if bool_decide (type = EXECUTION_TASK_READY) then handle_task_ready p s
  else if bool_decide (type = EXECUTION_TASK_STARTED) then handle_task_started p s
  else if bool_decide (type = EXECUTION_TASK_VERIFYING) then handle_task_verifying p s
  else if bool_decide (type = EXECUTION_TASK_VERIFIED) then handle_task_verified p e s
  else if bool_decide (type = EXECUTION_TASK_BLOCKED) then handle_task_blocked p s
  else if bool_decide (type = EXECUTION_RUN_TERMINATED) then handle_run_terminated p s
  else Ok s.

(** [apply] for an event of the execution source. *)
Definition apply_execution (s : option ExecutionRunState) (e : EventEnvelope)
    : result (option ExecutionRunState) :=
  _ ← event_require (execution_event e);
  p ← _mapping (thaw_json (JObj (payload e)));
  _ ← _require_event_payload (event_type e) p;
  run_id ← _text p "run_id";
  sid ← _stream_id run_id;
  _ ← event_require (bool_decide (stream_id e = sid));
  if bool_decide (event_type e = EXECUTION_GOAL_ADMITTED) then Some <$> handle_goal_admitted s run_id p e
  else
    match s with
    | None => Err invalid_event
    | Some s =>
        _ ← event_require (bool_decide (xs_run_id s = run_id)
              && (stream_sequence e =? xs_last_stream_sequence s + 1));
        _ ← raise_if (final (xs_status s)) after_terminal;
        updated ← handle_execution (event_type e) p e s;
        Ok (Some (with_event updated e))
    end.

Definition run_apply (s : option ExecutionRunState) (e : EventEnvelope)
    : result (option ExecutionRunState) :=
  if public_event e then apply_public s e else apply_execution s e.
End Verified.

(** ** Checkpoints *)

Definition poptbool (o : option bool) : pyval := match o with Some b => PBool b | None => PNone end.

Definition dump_task (t : ExecutionTaskState) : pyval :=
  obj [("task_id", PStr (ts_task_id t));
       ("status", PStr (task_status_value (ts_status t)));
       ("depends_on", pstrs (ts_depends_on t));
       ("allowed_paths", pstrs (ts_allowed_paths t));
       ("max_attempts", PInt (ts_max_attempts t));
       ("attempts", PInt (ts_attempts t));
       ("last_error_signature", popt (ts_last_error_signature t));
       ("same_error_count", PInt (ts_same_error_count t));
       ("active_workspace_id", popt (ts_active_workspace_id t));
       ("retained_workspace_id", popt (ts_retained_workspace_id t));
       ("blocked_reason", popt (ts_blocked_reason t));
       ("evidence_event_ids", pstrs (ts_evidence_event_ids t));
       ("last_failure_class", popt (failure_class_value <$> ts_last_failure_class t));
       ("last_failure_summary", popt (ts_last_failure_summary t));
       ("last_artifact_digests", pstrs (ts_last_artifact_digests t));
       ("last_progress_digests", pstrs (ts_last_progress_digests t));
       ("head_commit", popt (ts_head_commit t));
       ("pending_policy_decision_id", popt (ts_pending_decision_id t));
       ("pending_policy_action_digest", popt (ts_pending_action_digest t));
       ("pending_policy_allowed", poptbool (ts_pending_allowed t));
       ("pending_policy_reason", popt (ts_pending_reason t))].

Definition dump_run (s : ExecutionRunState) : pyval :=
  let b := xs_binding s in let u := xs_usage s in
  obj [("run_id", PStr (xs_run_id s));
       ("goal_id", PStr (rb_goal_id b));
       ("goal_digest", PStr (rb_goal_digest b));
       ("project_id", PStr (rb_project_id b));
       ("intent_id", PStr (rb_intent_id b));
       ("goal_base_commit", PStr (rb_goal_base_commit b));
       ("classification", PInt (classification_value (rb_classification b)));
       ("locality", PStr (locality_value (rb_locality b)));
       ("budget", _gateway_budget_payload (rb_budget b));
       ("plan_id", popt (xs_plan_id s));
       ("plan_digest", popt (xs_plan_digest s));
       ("plan_version", poptint (xs_plan_revision s));
       ("status", PStr (run_phase_value (xs_status s)));
       ("retained_workspace_ids", pstrs (xs_retained_workspace_ids s));
       ("tasks", PSequence (map dump_task (xs_tasks s)));
       ("latest_event_id", PStr (xs_latest_event_id s));
       ("last_stream_sequence", PInt (xs_last_stream_sequence s));
       ("input_tokens", PInt (us_input_tokens u));
       ("input_tokens_complete", PBool (us_input_tokens_complete u));
       ("output_tokens", PInt (us_output_tokens u));
       ("output_tokens_complete", PBool (us_output_tokens_complete u));
       ("latency_ms", PInt (us_latency_ms u));
       ("cost_microusd", PInt (us_cost_microusd u));
       ("cost_microusd_complete", PBool (us_cost_microusd_complete u));
       ("pending_draft_digest", popt (xs_pending_draft_digest s))].
Definition run_dump (s : option ExecutionRunState) : pyval :=
  match s with None => PNone | Some s => dump_run s end.

Definition checkpoint_require (c : bool) : result unit := raise_if (negb c) invalid_checkpoint.

Definition task_keys : list string :=
  ["task_id"; "status"; "depends_on"; "allowed_paths"; "max_attempts"; "attempts";
   "last_error_signature"; "same_error_count"; "active_workspace_id"; "retained_workspace_id";
   "blocked_reason"; "evidence_event_ids"; "last_failure_class"; "last_failure_summary";
   "last_artifact_digests"; "last_progress_digests"; "head_commit"; "pending_policy_decision_id";
   "pending_policy_action_digest"; "pending_policy_allowed"; "pending_policy_reason"].
Definition run_keys : list string :=
  ["run_id"; "goal_id"; "goal_digest"; "project_id"; "intent_id"; "goal_base_commit";
   "classification"; "locality"; "budget"; "plan_id"; "plan_digest"; "plan_version"; "status";
   "retained_workspace_ids"; "tasks"; "latest_event_id"; "last_stream_sequence"; "input_tokens";
   "input_tokens_complete"; "output_tokens"; "output_tokens_complete"; "latency_ms";
   "cost_microusd"; "cost_microusd_complete"; "pending_draft_digest"].

(** Which of the four pending fields are set. *)
Definition pending_set (t : ExecutionTaskState) : list bool :=
  [is_some (ts_pending_decision_id t); is_some (ts_pending_action_digest t);
   is_some (ts_pending_allowed t); is_some (ts_pending_reason t)].
(** The last conditions of [_task_state_from_checkpoint]. *)
Definition task_loadable (t : ExecutionTaskState) : bool :=
  let some := existsb id (pending_set t) in
  negb ((existsb negb (pending_set t) && some)
        || (some && negb (bool_decide (ts_status t = TaskStatus.READY))))
  && eqb (bool_decide (ts_status t = TaskStatus.BLOCKED)) (is_some (ts_blocked_reason t))
  && z_between 1 (ts_max_attempts t) 3 && (ts_attempts t <=? ts_max_attempts t)
  && negb (bool_decide (ts_task_id t ∈ ts_depends_on t))
  && distinct (ts_depends_on t) && distinct (ts_allowed_paths t).

Definition _task_state_from_checkpoint (value : pyval) : result ExecutionTaskState :=
  raw ← _mapping value;
  _ ← checkpoint_require (has_keys raw task_keys);
  id ← _text raw "task_id";
  text ← _text raw "status";
  status ← enum_member task_status_value task_statuses text;
  depends ← _text_tuple raw "depends_on";
  paths ← _text_tuple raw "allowed_paths";
  max_attempts ← _integer raw "max_attempts";
  attempts ← _integer raw "attempts";
  signature ← _optional_digest raw "last_error_signature";
  count ← _integer raw "same_error_count";
  active ← _optional_text raw "active_workspace_id";
  retained ← _optional_text raw "retained_workspace_id";
  blocked ← _optional_text raw "blocked_reason";
  events ← _text_tuple raw "evidence_event_ids";
  cls ← _failure_class raw "last_failure_class";
  summary ← _optional_text raw "last_failure_summary";
  artifacts ← _digest_tuple false raw "last_artifact_digests";
  progress ← _digest_tuple false raw "last_progress_digests";
  head ← _optional_commit raw "head_commit";
  decision ← _optional_digest raw "pending_policy_decision_id";
  action ← _optional_digest raw "pending_policy_action_digest";
  allowed ← _optional_boolean raw "pending_policy_allowed";
  reason ← _optional_text raw "pending_policy_reason";
  let t := MkTaskState id status depends paths max_attempts attempts signature count active retained
             blocked events cls summary artifacts progress head decision action allowed reason in
  _ ← checkpoint_require (task_loadable t);
  Ok t.

Definition run_load (value : pyval) : result (option ExecutionRunState) :=
  match value with
  | PNone => Ok None
  | _ =>
      raw ← _mapping value;
      _ ← checkpoint_require (has_keys raw run_keys);
      raw_tasks ← of_option invalid_checkpoint
                    (match pget "tasks" raw with PSequence l => Some l | _ => None end);
      tasks ← map_result _task_state_from_checkpoint raw_tasks;
      revision ← match pget "plan_version" raw with
                 | PNone => Ok None | PInt z => Ok (Some z) | _ => Err invalid_checkpoint end;
      retained ← _text_tuple raw "retained_workspace_ids";
      _ ← checkpoint_require (distinct retained);
      run_id ← _text raw "run_id";
      goal_id ← _text raw "goal_id";
      goal_digest ← _digest raw "goal_digest";
      project ← _text raw "project_id";
      intent ← _text raw "intent_id";
      base ← _commit raw "goal_base_commit";
      number ← _integer raw "classification";
      classification ← classification_member number;
      text ← _text raw "locality";
      locality ← enum_member locality_value localities text;
      budget ← _gateway_budget (pget "budget" raw);
      plan_id ← _optional_text raw "plan_id";
      plan_digest ← _optional_digest raw "plan_digest";
      status_text ← _text raw "status";
      status ← enum_member run_phase_value run_phases status_text;
      latest ← _text raw "latest_event_id";
      sequence ← _integer raw "last_stream_sequence";
      input ← _integer raw "input_tokens";
      input_complete ← _boolean raw "input_tokens_complete";
      output ← _integer raw "output_tokens";
      output_complete ← _boolean raw "output_tokens_complete";
      latency ← _integer raw "latency_ms";
      cost ← _integer raw "cost_microusd";
      cost_complete ← _boolean raw "cost_microusd_complete";
      draft ← _optional_digest raw "pending_draft_digest";
      Ok (Some (MkRunState run_id
        (MkBinding goal_id goal_digest project intent base classification locality budget)
        plan_id plan_digest revision status tasks retained latest sequence
        (MkUsage input input_complete output output_complete latency cost cost_complete) draft))
  end.
