(* ===== verification/RuntimeFacts.v ===== *)
(** * The state machine of a run

    The handlers of [ExecutionRuntime] refine a machine on the tasks of a run
    ([run_step]); the invariants of a run, the authorization of attempts and the
    evidence behind success follow from the machine. *)

From S2P Require Import Prelude PyStr PyFloat Sha256 Json JsonText JsonFacts PyTime Contracts Events.
From S2P Require Import ExecutionPlan RunLifecycle OutputSchema Gateway PlanCompiler PlanFacts AttemptPolicy.
From S2P Require Import ExecutionRuntime.
From Stdlib Require Import ZArith Lia Ascii String.
From stdpp Require Import base gmap sets list strings.
Local Open Scope Z_scope.

(** ** Readers *)

Lemma transition_ok c : transition_require c = Ok tt → c = true.
Proof. by destruct c. Qed.
Lemma event_ok c : event_require c = Ok tt → c = true.
Proof. by destruct c. Qed.
Lemma of_option_some {A} err (o : option A) a : of_option err o = Ok a → o = Some a.
Proof. destruct o; [by intros [= ->]|done]. Qed.

Tactic Notation "step" hyp(H) ident(x) ident(Hx) := apply bind_ok in H as (x & Hx & H).
Ltac passed H :=
  let u := fresh "u" in let G := fresh "G" in
  apply bind_ok in H as (u & G & H); destruct u;
  first [apply transition_ok in G | apply event_ok in G | apply raise_if_ok in G].

(** [inv_ok] and the comparisons it leaves. *)
Ltac facts :=
  repeat (inv_ok; match goal with
    | H : (_ =? _) = true |- _ => apply Z.eqb_eq in H
    | H : (_ <=? _) = true |- _ => apply Z.leb_le in H
    end); inv_ok.

Lemma text_read p f s : _text p f = Ok s → pget f p = PStr s ∧ s ≠ "".
Proof.
  unfold _text. destruct (pget f p); try done. intros H. passed H. injection H as ->.
  split; [done|]. by destruct s.
Qed.
Lemma integer_read p f z : _integer p f = Ok z → pget f p = PInt z ∧ 0 <= z.
Proof.
  unfold _integer. destruct (pget f p); try done. intros H. passed H. injection H as ->.
  split; [done|]. by apply Z.leb_le.
Qed.
Lemma boolean_read p f b : _boolean p f = Ok b → pget f p = PBool b.
Proof. unfold _boolean. destruct (pget f p); try done. by intros [= ->]. Qed.
Lemma digest_read p f s : _digest p f = Ok s → pget f p = PStr s ∧ digest_like s = true.
Proof. unfold _digest. intros H. step H x Hx. passed H. injection H as ->. apply text_read in Hx. tauto. Qed.
Lemma commit_read p f s : _commit p f = Ok s → pget f p = PStr s ∧ re_commit s = true.
Proof. unfold _commit. intros H. step H x Hx. passed H. injection H as ->. apply text_read in Hx. tauto. Qed.
Lemma optional_read {A} (read : payload_map → string → result A) p f o : optional read p f = Ok o →
  (pget f p = PNone ∧ o = None) ∨ ∃ a, read p f = Ok a ∧ o = Some a.
Proof.
  unfold optional. destruct (pget f p); try (intros [= <-]; by left);
    intros (a & Ha & <-)%fmap_ok; right; eauto.
Qed.
Lemma optional_integer_read p f o : _optional_integer p f = Ok o →
  pget f p = poptint o ∧ 0 <= default 0 o.
Proof.
  intros [[-> ->]|(a & [-> ?]%integer_read & ->)]%optional_read; done.
Qed.
Lemma enum_read_ok {A} (value : A → string) all text a : enum_member value all text = Ok a →
  a ∈ all ∧ value a = text.
Proof.
  unfold enum_member. intros H. apply of_option_ok, List.find_some in H as [H1 H2%bool_decide_eq_true].
  by split; [apply list_elem_of_In|].
Qed.
Lemma digest_tuple_read nonempty p f l : _digest_tuple nonempty p f = Ok l →
  pget f p = pstrs l ∧ (nonempty = true → l ≠ []) ∧ sorted_set l = l.
Proof.
  unfold _digest_tuple. destruct (pget f p) as [| | | | |items| |] eqn:E; try done.
  intros H. passed H. step H ds Hds. passed H. passed H. injection H as ->.
  apply of_option_ok in Hds. apply bool_decide_eq_true in G1.
  assert (items = map PStr l) as ->.
  { clear -Hds. revert l Hds. induction items as [|v items IH]; intros l H; [by injection H as <-|].
    unfold strings_of in *. cbn [mapM] in H. destruct v; try done.
    cbn [mbind option_bind] in H. destruct (mapM _ items) as [l0|] eqn:E; [|done].
    cbn [mbind option_bind] in H. injection H as <-. cbn [map]. f_equal. by apply IH. }
  split_and!; [done| |done]. intros -> ->. done.
Qed.

(** ** The machine *)

Definition event_payload (e : EventEnvelope) : result payload_map :=
  _mapping (thaw_json (JObj (payload e))).

(** A task with the identifier has succeeded. *)
Definition succeeded_in (s : ExecutionRunState) (id : string) : Prop :=
  ∃ t, t ∈ xs_tasks s ∧ ts_task_id t = id ∧ ts_status t = TaskStatus.SUCCEEDED.

(** The commit an attempt of a task starts from: the goal's, or the one its
    dependencies agree on. *)
Definition base_of (s : ExecutionRunState) (t : ExecutionTaskState) (commit : string) : Prop :=
  (ts_depends_on t = [] ∧ commit = rb_goal_base_commit (xs_binding s)) ∨
  (ts_depends_on t ≠ [] ∧ ∀ d, d ∈ ts_depends_on t →
     ∃ u, u ∈ xs_tasks s ∧ ts_task_id u = d ∧ ts_head_commit u = Some commit).

(** A recorded decision [d] about attempt [n] of a task. *)
Record decides (run_id plan : string) (p : payload_map) (t : ExecutionTaskState) (n : Z)
    (d : PolicyDecision) : Prop := {
  dc_made : policy_decision_init (allowed d) (reason d) (action_digest d) = Ok d;
  dc_action : (a ← tool_action_init (repository_action run_id plan t n); action_digest_of a)
              = Ok (action_digest d);
  dc_task : pget "task_id" p = PStr (ts_task_id t);
  dc_attempt : pget "attempt" p = PInt n;
  dc_allowed : pget "allowed" p = PBool (allowed d);
  dc_digest : pget "action_digest" p = PStr (action_digest d)
}.

(** The evidence [ev] an event reports for an attempt, and the route it takes. *)
Record verifies (normalize : string → string) (p : payload_map) (t : ExecutionTaskState) (r : AttemptRoute)
    (signature : option string) (ev : AttemptEvidence) : Prop := {
  vf_made : attempt_evidence_init ev = Ok ev;
  vf_signature : error_signature normalize ev = Ok signature;
  vf_route : r = SUCCEEDED ↔ evidence_good ev = true;
  vf_success : r = SUCCEEDED → failure_class ev = None ∧ failure_summary ev = None;
  vf_failure : r ≠ SUCCEEDED → is_Some (failure_class ev) ∧ is_Some (failure_summary ev);
  vf_task : pget "task_id" p = PStr (ts_task_id t);
  vf_attempt : pget "attempt" p = PInt (ts_attempts t);
  vf_route_text : pget "route" p = PStr (route_value r);
  vf_exit : pget "verifier_exit_code" p = PInt (verifier_exit_code ev);
  vf_checks : pget "required_checks_passed" p = PBool (required_checks_passed ev);
  vf_clean : pget "workspace_clean" p = PBool (workspace_clean ev);
  vf_head : pget "head_commit" p = PStr (head_commit ev)
}.

Section Machine.
Context (normalize : string → string).

(** What one event does to one task. *)
Inductive task_step (s : ExecutionRunState) (e : EventEnvelope) (p : payload_map) (t : ExecutionTaskState)
    : ExecutionTaskState → Prop :=
  | T_ready : event_type e = EXECUTION_TASK_READY → xs_status s = RunPhase.RUNNING →
      ts_status t ∈ [TaskStatus.PENDING; TaskStatus.REPAIRABLE] →
      ts_attempts t < ts_max_attempts t → ts_pending_decision_id t = None →
      (∀ d, d ∈ ts_depends_on t → succeeded_in s d) →
      task_step s e p t (with_status t TaskStatus.READY)
  | T_decided plan d : event_type e = EXECUTION_POLICY_DECIDED → ts_status t = TaskStatus.READY →
      ts_pending_decision_id t = None → xs_plan_id s = Some plan →
      decides (xs_run_id s) plan p t (ts_attempts t + 1) d →
      task_step s e p t (with_pending t (Some (decision_id d)) (Some (action_digest d)) (Some (allowed d))
                           (Some (reason d)))
  | T_started plan w base digest : event_type e = EXECUTION_TASK_STARTED →
      ts_status t = TaskStatus.READY → xs_plan_id s = Some plan →
      pget "task_id" p = PStr (ts_task_id t) → pget "attempt" p = PInt (ts_attempts t + 1) →
      pget "workspace_id" p = PStr w →
      _workspace_id_from_ids plan (ts_task_id t) (ts_attempts t + 1) = Ok w →
      pget "base_commit" p = PStr base → base_of s t base →
      ts_pending_allowed t = Some true → is_Some (ts_pending_decision_id t) →
      ts_pending_action_digest t = Some digest → pget "action_digest" p = PStr digest →
      task_step s e p t (without_pending (with_attempt (with_status t TaskStatus.RUNNING)
                                            (ts_attempts t + 1) (Some w)))
  | T_verifying : event_type e = EXECUTION_TASK_VERIFYING → ts_status t = TaskStatus.RUNNING →
      task_step s e p t (with_status t TaskStatus.VERIFYING)
  | T_verified r signature ev w : event_type e = EXECUTION_TASK_VERIFIED →
      ts_status t = TaskStatus.VERIFYING → ts_active_workspace_id t = Some w →
      verifies normalize p t r signature ev →
      task_step s e p t (with_evidence t r signature (next_error_count t signature) (event_id e)
        (failure_class ev) (failure_summary ev) (artifact_digests ev) (progress_digests ev) (head_commit ev))
  | T_blocked reason : event_type e = EXECUTION_TASK_BLOCKED → ts_status t = TaskStatus.READY →
      ts_pending_allowed t = Some false → reason ≠ "" → ts_pending_reason t = Some reason →
      task_step s e p t (without_pending (with_blocked (with_status t TaskStatus.BLOCKED) (Some reason))).

(** A task some constructor call returned. *)
Definition task_made (t : TaskSpec) : Prop := ∃ id o ds ps cs m, task_init id o ds ps cs m = Ok t.

(** A plan that can be admitted in [s]. *)
Record admissible (s : ExecutionRunState) (plan : Plan) : Prop := {
  ad_built : ∃ raw, plan_init raw = Ok plan;
  ad_tasks : Forall task_made (tasks plan);
  ad_goal : plan_goal_id plan = rb_goal_id (xs_binding s) ∧ plan_project_id plan = rb_project_id (xs_binding s)
            ∧ plan_intent_id plan = rb_intent_id (xs_binding s)
            ∧ plan_base_commit plan = rb_goal_base_commit (xs_binding s);
  ad_draft : xs_pending_draft_digest s = Some (draft_digest plan);
  ad_lineage : (xs_status s = RunPhase.ADMITTED ∧ xs_plan_id s = None ∧ plan_revision plan = 1
                ∧ supersedes_plan_id plan = None)
               ∨ (xs_status s = RunPhase.REPLANNING ∧ is_Some (xs_plan_id s)
                  ∧ supersedes_plan_id plan = xs_plan_id s
                  ∧ ∃ n, xs_plan_revision s = Some n ∧ plan_revision plan = n + 1)
}.

(** The run and the usage after an event, up to the event's own identity. *)
Inductive run_step (s : ExecutionRunState) (e : EventEnvelope) : ExecutionRunState → Prop :=
  | R_public phase stopped : public_event e = true →
      public_outcome (event_type e) (xs_status s) = (phase, stopped) →
      (final (xs_status s) = true → phase = xs_status s) →
      (phase = RunPhase.SUCCEEDED → all_succeeded (xs_tasks s) = true) →
      run_step s e (with_tasks (with_phase s phase)
        match stopped with Some status => map (stop_task status) (xs_tasks s) | None => xs_tasks s end)
  | R_replan : event_type e = EXECUTION_REPLAN_STARTED → final (xs_status s) = false → xs_status s = RunPhase.REPLAN_REQUIRED →
      is_Some (xs_plan_id s) → run_step s e (with_phase s RunPhase.REPLANNING)
  | R_draft draft input output latency cost : event_type e = EXECUTION_PLAN_DRAFT_RECEIVED → final (xs_status s) = false →
      xs_status s ∈ [RunPhase.ADMITTED; RunPhase.REPLANNING] → xs_pending_draft_digest s = None →
      0 <= default 0 input → 0 <= default 0 output → 0 <= latency → 0 <= default 0 cost →
      digest_like draft = true →
      run_step s e (with_usage (with_draft s (Some draft)) (xs_retained_workspace_ids s)
                      (add_usage (xs_usage s) input output latency cost))
  | R_plan plan : event_type e = EXECUTION_PLAN_ADMITTED → final (xs_status s) = false →
      admissible s plan →
      run_step s e (with_draft
        (with_tasks (with_phase (with_plan s (plan_id plan) (plan_digest plan) (plan_revision plan))
           RunPhase.RUNNING) (sort_by ts_task_id (map pending_task (tasks plan)))) None)
  | R_task p t t' : event_payload e = Ok p → final (xs_status s) = false → t ∈ xs_tasks s →
      task_step s e p t t' → event_type e ≠ EXECUTION_TASK_VERIFIED → run_step s e (_replace_task s t')
  | R_verified p t t' w r input output latency cost : event_payload e = Ok p →
      final (xs_status s) = false → t ∈ xs_tasks s → task_step s e p t t' →
      event_type e = EXECUTION_TASK_VERIFIED → ts_active_workspace_id t = Some w →
      ts_status t' = route_status r →
      0 <= default 0 input → 0 <= default 0 output → 0 <= latency → 0 <= default 0 cost →
      run_step s e (with_usage (_replace_task s t')
        (if bool_decide (r = SUCCEEDED) then xs_retained_workspace_ids s
         else retain (xs_retained_workspace_ids s) w)
        (add_usage (xs_usage s) input output latency cost))
  | R_terminated phase : event_type e = EXECUTION_RUN_TERMINATED → final (xs_status s) = false →
      phase ∈ _RUN_OUTCOME_STATUSES →
      (phase = RunPhase.SUCCEEDED → all_succeeded (xs_tasks s) = true) →
      run_step s e (with_phase s phase).

(** ** The handlers refine it *)

Lemma task_found s id t : _task s id = Ok t → t ∈ xs_tasks s ∧ ts_task_id t = id.
Proof.
  unfold _task. intros [H1 H2%bool_decide_eq_true]%of_option_ok%List.find_some.
  by split; [apply list_elem_of_In|].
Qed.

Lemma dependencies_closed s ds : dependency_open s ds = Ok false → ∀ d, d ∈ ds → succeeded_in s d.
Proof.
  induction ds as [|d ds IH]; [intros _ d H; by apply not_elem_of_nil in H|].
  cbn [dependency_open]. intros H. step H t Ht. destruct (bool_decide _) eqn:E; [|done].
  apply bool_decide_eq_true in E. apply task_found in Ht as [Ht Hid].
  intros d' [->|Hd]%elem_of_cons; [by exists t|by apply IH].
Qed.

Lemma expected_base_ok s t c : _expected_base_commit s t = Ok c → base_of s t c.
Proof.
  unfold _expected_base_commit. case_bool_decide as E; [intros [= <-]; by left|].
  intros H. step H heads Hh. right. split; [done|].
  destruct heads as [|[head|] rest]; try done. destruct (forallb _ rest) eqn:Ef; [|done].
  injection H as ->. rewrite forallb_elem in Ef. apply map_result_ok in Hh.
  intros d Hd. apply list_elem_of_lookup in Hd as [i Hi].
  destruct (Forall2_lookup_l _ _ _ _ _ Hh Hi) as (h & Hhi & (u & [Hu Hid]%task_found & <-)%fmap_ok).
  exists u. split_and!; [done|done|].
  apply list_elem_of_lookup_2, elem_of_cons in Hhi as [->|Hr]; [done|].
  by apply Ef, bool_decide_eq_true in Hr.
Qed.

Lemma attempt_in_ok status p s t w : attempt_in status p s = Ok (t, w) →
  t ∈ xs_tasks s ∧ pget "task_id" p = PStr (ts_task_id t) ∧ ts_status t = status
  ∧ pget "attempt" p = PInt (ts_attempts t) ∧ ts_active_workspace_id t = Some w.
Proof.
  unfold attempt_in. intros H. step H tid Hid. step H task Ht. passed H. step H n Hn. passed H.
  step H ws Hw. passed H. injection H as -> ->.
  apply task_found in Ht as [Ht <-]. apply text_read in Hid as [Hid _].
  apply bool_decide_eq_true in G, G1. apply Z.eqb_eq in G0 as ->. apply integer_read in Hn as [Hn _].
  done.
Qed.

Lemma evidence_made raw ev : attempt_evidence_init raw = Ok ev →
  sorted_set (artifact_digests raw) = artifact_digests raw →
  sorted_set (progress_digests raw) = progress_digests raw → ev = raw.
Proof.
  unfold attempt_evidence_init. intros H E1 E2. rewrite E1, E2 in H.
  do 8 (apply bind_ok in H as (? & _ & H)). injection H as <-. by destruct raw.
Qed.

Lemma replan_refines e p s s' : event_type e = EXECUTION_REPLAN_STARTED → final (xs_status s) = false →
  handle_replan_started p s = Ok s' → run_step s e s'.
Proof.
  intros Ht Hf H. unfold handle_replan_started in H. passed H. step H plan Hp. step H version Hr.
  step H prev Hprev. passed H. step H v Hv. passed H. step H n Hn. passed H. injection H as <-.
  apply andb_true_iff in G as [G%bool_decide_eq_true _]. apply of_option_ok in Hp.
  apply R_replan; [done..|by rewrite Hp].
Qed.

Lemma draft_refines e p s s' : event_type e = EXECUTION_PLAN_DRAFT_RECEIVED → final (xs_status s) = false →
  handle_draft_received p s = Ok s' → run_step s e s'.
Proof.
  intros Ht Hf H. unfold handle_draft_received in H. passed H. step H draft Hd.
  do 4 (apply bind_ok in H as (? & _ & H)). step H input Hi. step H output Ho. step H cost Hc.
  step H latency Hl. injection H as <-.
  apply andb_true_iff in G as [G1%bool_decide_eq_true G2%bool_decide_eq_true].
  apply optional_integer_read in Hi as [_ Hi], Ho as [_ Ho], Hc as [_ Hc].
  apply integer_read in Hl as [_ Hl]. apply digest_read in Hd as [_ Hd].
  by apply R_draft.
Qed.

Lemma ready_refines e p s s' : event_type e = EXECUTION_TASK_READY → event_payload e = Ok p →
  final (xs_status s) = false → handle_task_ready p s = Ok s' → run_step s e s'.
Proof.
  intros Ht Hp Hf H. unfold handle_task_ready in H. step H tid Hid. step H t Hin. step H n Hn. passed H.
  step H waiting Hw. passed H. injection H as <-.
  apply negb_true_iff in G0 as ->. facts. subst n.
  apply task_found in Hin as [Hin <-].
  eapply R_task; [done..| |by rewrite Ht]. apply T_ready; try done; [lia|by apply dependencies_closed].
Qed.

Lemma decided_refines e p s s' : event_type e = EXECUTION_POLICY_DECIDED → event_payload e = Ok p →
  final (xs_status s) = false → handle_policy_decided p s = Ok s' → run_step s e s'.
Proof.
  intros Ht Hp Hf H. unfold handle_policy_decided in H. step H tid Hid. step H t Hin. step H n Hn. passed H.
  apply bind_ok in H as ([a d] & Hd & H). step H expected He. passed H. step H recorded Hr. passed H.
  injection H as <-. apply recast_ok in Hd. step Hd plan Hplan. step Hd a' Ha. step Hd al Hal.
  step Hd re Hre. step Hd dig Hdig. step Hd d' Hd'. injection Hd as -> ->.
  apply bool_decide_eq_true in G0 as <-. apply task_found in Hin as [Hin <-].
  apply text_read in Hid as [Hid _]. apply integer_read in Hn as [Hn _].
  apply boolean_read in Hal. apply digest_read in Hdig as [Hdig _]. facts. subst n.
  assert (Hmade := Hd'). unfold policy_decision_init in Hd'. inv_ok.
  eapply R_task; [done..| |by rewrite Ht]. eapply (T_decided _ _ _ _ plan); try done.
  constructor; try done. rewrite Ha. exact He.
Qed.

Lemma started_refines e p s s' : event_type e = EXECUTION_TASK_STARTED → event_payload e = Ok p →
  final (xs_status s) = false → handle_task_started p s = Ok s' → run_step s e s'.
Proof.
  intros Ht Hp Hf H. unfold handle_task_started in H. step H tid Hid. step H t Hin. step H n Hn.
  step H w Hw. passed H. step H plan Hplan. step H expected He. passed H. step H basis Hb.
  step H basis2 Hb'. passed H. step H d Hd. passed H. step H a Ha. passed H. injection H as <-.
  apply task_found in Hin as [Hin <-]. apply text_read in Hid as [Hid _], Hw as [Hw _].
  apply integer_read in Hn as [Hn _]. apply commit_read in Hb as [Hb _].
  apply digest_read in Ha as [Ha _]. apply expected_base_ok in Hb'. facts. subst.
  eapply R_task; [done..| |by rewrite Ht]. by eapply T_started.
Qed.

Lemma verifying_refines e p s s' : event_type e = EXECUTION_TASK_VERIFYING → event_payload e = Ok p →
  final (xs_status s) = false → handle_task_verifying p s = Ok s' → run_step s e s'.
Proof.
  intros Ht Hp Hf H. unfold handle_task_verifying in H. apply bind_ok in H as ([t w] & Hin & H).
  injection H as <-. apply attempt_in_ok in Hin as (Hin & _ & Hs & _).
  eapply R_task; [done..| |by rewrite Ht]. by apply T_verifying.
Qed.

Lemma blocked_refines e p s s' : event_type e = EXECUTION_TASK_BLOCKED → event_payload e = Ok p →
  final (xs_status s) = false → handle_task_blocked p s = Ok s' → run_step s e s'.
Proof.
  intros Ht Hp Hf H. unfold handle_task_blocked in H. step H tid Hid. step H t Hin. step H re Hre. passed H.
  injection H as <-. apply task_found in Hin as [Hin <-]. apply text_read in Hre as [_ Hre]. inv_ok.
  eapply R_task; [done..| |by rewrite Ht]. by apply T_blocked.
Qed.

Lemma terminated_refines e p s s' : event_type e = EXECUTION_RUN_TERMINATED →
  final (xs_status s) = false → handle_run_terminated p s = Ok s' → run_step s e s'.
Proof.
  intros Ht Hf H. unfold handle_run_terminated in H. step H text Hx. step H phase Hph. passed H.
  step H re Hre. passed H. injection H as <-. inv_ok.
  apply R_terminated; try done. intros ->. by rewrite bool_decide_true in G0.
Qed.

Lemma verified_refines e p s s' : event_type e = EXECUTION_TASK_VERIFIED → event_payload e = Ok p →
  final (xs_status s) = false → handle_task_verified normalize p e s = Ok s' → run_step s e s'.
Proof.
  intros Ht Hp Hf H. unfold handle_task_verified in H. apply bind_ok in H as ([t w] & Hin & H).
  step H text Htext. step H r Hr. step H code Hcode. passed H. step H passed Hpassed. step H clean Hclean.
  step H new Hnew. step H signature Hsig. step H count Hcount. passed H. step H cls Hcls. step H summary Hsum.
  passed H. step H artifacts Hart. step H progress Hprog. passed H. step H input Hi. step H output Ho.
  step H cost Hc. step H ev Hev. step H observed Hobs. passed H. injection H as <-.
  apply recast_ok in Hev. step Hev head Hhead. step Hev latency Hlat.
  apply attempt_in_ok in Hin as (Hin & Htask & Hst & Hatt & Hact).
  apply text_read in Htext as [Htext _]. apply enum_read_ok in Hr as [_ <-].
  apply integer_read in Hcode as [Hcode _], Hlat as [_ Hlat]. apply boolean_read in Hpassed, Hclean.
  apply digest_tuple_read in Hart as (_ & _ & Hart), Hprog as (_ & _ & Hprog).
  apply optional_integer_read in Hi as [_ Hi], Ho as [_ Ho], Hc as [_ Hc].
  apply commit_read in Hhead as [Hhead _].
  pose proof (evidence_made _ _ Hev Hart Hprog) as E. cbn [evidence_latency_ms] in *.
  apply Z.eqb_eq in G0 as ->. rewrite !andb_true_iff in G3. destruct G3 as [[G3 G4] G5].
  apply bool_decide_eq_true in G3 as ->. apply eqb_prop in G5.
  eapply (R_verified _ _ p t _ w r); try done; [|by rewrite E].
  replace artifacts with (artifact_digests ev) by (by rewrite E).
  replace progress with (progress_digests ev) by (by rewrite E).
  replace cls with (failure_class ev) by (by rewrite E).
  replace summary with (failure_summary ev) by (by rewrite E).
  apply (T_verified _ _ _ _ r signature ev w); try done. split; try done; try (by rewrite E).
  - by rewrite E in Hev |- *.
  - rewrite <-G5. by rewrite bool_decide_eq_true.
  - intros ->. rewrite bool_decide_true in G1 by done. rewrite E. cbn. inv_ok. done.
  - intros Hr. rewrite bool_decide_false in G1 by done. rewrite E. cbn.
    apply andb_true_iff in G1 as [G1 G1']. split; [by destruct cls|by destruct summary].
Qed.

Lemma task_read v t : _task_from_payload v = Ok t → task_made t.
Proof.
  unfold _task_from_payload. intros H. do 8 (apply bind_ok in H as (? & _ & H)). by do 6 eexists.
Qed.

Lemma plan_read value plan : plan_from_payload value = Ok plan →
  (∃ raw, plan_init raw = Ok plan) ∧ Forall task_made (tasks plan).
Proof.
  unfold plan_from_payload. intros H. step H raw Hraw. apply bind_ok in H as (? & _ & H).
  step H rts Hrts. step H ts Hts. do 9 (apply bind_ok in H as (? & _ & H)).
  step H q Hq. do 3 (apply bind_ok in H as (? & _ & H)). injection H as <-. split; [by eexists|].
  destruct (plan_init_parts _ _ Hq) as ((d & ->) & _). cbn [tasks PlanCompiler.with_tasks].
  rewrite isort_perm. apply map_result_ok in Hts.
  apply Forall_forall. intros t Ht. apply list_elem_of_lookup in Ht as [i Hi].
  destruct (Forall2_lookup_r _ _ _ _ _ Hts Hi) as (v & _ & Hv). by eapply task_read.
Qed.

Lemma admitted_refines e p s s' : event_type e = EXECUTION_PLAN_ADMITTED →
  final (xs_status s) = false → handle_plan_admitted p s = Ok s' → run_step s e s'.
Proof.
  intros Ht Hf H. unfold handle_plan_admitted in H. passed H. step H plan Hplan. step H u Hm. passed H. passed H.
  passed H. injection H as <-. apply recast_ok, plan_read in Hplan as [Hb Hts].
  unfold admitted_plan_matches in Hm. step Hm i1 H1. passed Hm. step Hm i2 H2. passed Hm. step Hm i3 H3.
  passed Hm. step Hm i4 H4. apply raise_unless_ok in Hm. facts.
  apply R_plan; try done. constructor; try done.
  apply orb_true_iff in G as [G|G]; apply andb_true_iff in G as [Ga Gb]; rewrite Ga, Gb in *;
    apply bool_decide_eq_true in Ga, Gb.
  - left. cbn [andb] in G1. apply negb_false_iff, andb_true_iff in G1 as [G1 G1'%bool_decide_eq_true].
    apply Z.eqb_eq in G1. done.
  - right. cbn [andb] in G0. destruct (xs_plan_revision s) as [n|] eqn:En; [|done].
    apply negb_false_iff, andb_true_iff in G0 as [G0%bool_decide_eq_true G0'].
    apply Z.eqb_eq in G0'. split_and!; try done; [by apply not_eq_None_Some|eauto].
Qed.

Lemma handlers_refine e p s s' : event_payload e = Ok p → execution_event e = true →
  event_type e ≠ EXECUTION_GOAL_ADMITTED → final (xs_status s) = false →
  handle_execution normalize (event_type e) p e s = Ok s' → run_step s e s'.
Proof.
  intros Hp Hx Hg Hf H. unfold handle_execution in H.
  case_bool_decide; [by eapply replan_refines|]. case_bool_decide; [by eapply draft_refines|].
  case_bool_decide; [by eapply admitted_refines|]. case_bool_decide; [by eapply decided_refines|].
  case_bool_decide; [by eapply ready_refines|]. case_bool_decide; [by eapply started_refines|].
  case_bool_decide; [by eapply verifying_refines|]. case_bool_decide; [by eapply verified_refines|].
  case_bool_decide; [by eapply blocked_refines|]. case_bool_decide; [by eapply terminated_refines|].
  exfalso. unfold execution_event in Hx. apply andb_true_iff in Hx as [_ Hx%bool_decide_eq_true].
  unfold EXECUTION_EVENT_TYPES in Hx. repeat (apply elem_of_cons in Hx as [Hx|Hx]; [done|]).
  by apply not_elem_of_nil in Hx.
Qed.

Lemma stream_id_ok run_id sid : _stream_id run_id = Ok sid → sid = "run:" +:+ run_id.
Proof. unfold _stream_id. intros H. passed H. by injection H as <-. Qed.

(** What an accepted event of a run that exists does. *)
Lemma apply_refines s e o : run_apply normalize (Some s) e = Ok o → ∃ s1,
  o = Some (with_event s1 e) ∧ run_step s e s1 ∧ stream_id e = "run:" +:+ xs_run_id s
  ∧ stream_sequence e = xs_last_stream_sequence s + 1.
Proof.
  unfold run_apply. destruct (public_event e) eqn:Epub; intros H.
  - unfold apply_public in H. passed H. step H sid Hsid. passed H. destruct (public_outcome _ _) as [phase stopped] eqn:E.
    passed H. passed H. injection H as <-. facts. apply stream_id_ok in Hsid as ->.
    eexists. split_and!; [done| |done|done]. eapply R_public; [done|done| |].
    + intros Hf. rewrite Hf in G1. cbn [andb] in G1. by facts.
    + intros ->. rewrite bool_decide_true in G2 by done. by apply negb_false_iff in G2.
  - unfold apply_execution in H. passed H. step H p Hp. apply bind_ok in H as (? & _ & H). step H run_id Hid.
    step H sid Hsid. passed H. case_bool_decide as Eg.
    { exfalso. apply fmap_ok in H as (? & H & _). unfold handle_goal_admitted in H. passed H. facts. done. }
    passed H. passed H. step H updated Hu. injection H as <-. facts. subst. apply stream_id_ok in Hsid as ->.
    exists updated. split_and!; [done|by eapply handlers_refine|done|done].
Qed.

(** ** Invariants *)

Record task_inv (plan : option string) (t : ExecutionTaskState) : Prop := {
  ti_max : 1 <= ts_max_attempts t <= 3;
  ti_attempts : 0 <= ts_attempts t <= ts_max_attempts t;
  ti_ready : ts_status t = TaskStatus.READY → ts_attempts t < ts_max_attempts t;
  ti_self : ts_task_id t ∉ ts_depends_on t;
  ti_depends : NoDup (ts_depends_on t);
  ti_paths : NoDup (ts_allowed_paths t);
  ti_pending : pending_set t = [false; false; false; false]
               ∨ (pending_set t = [true; true; true; true] ∧ ts_status t = TaskStatus.READY);
  ti_active : match ts_status t with
              | TaskStatus.RUNNING | TaskStatus.VERIFYING => 1 <= ts_attempts t ∧ ∃ plan_id w,
                  plan = Some plan_id ∧ ts_active_workspace_id t = Some w
                  ∧ _workspace_id_from_ids plan_id (ts_task_id t) (ts_attempts t) = Ok w
              | _ => ts_active_workspace_id t = None
              end;
  ti_head : ts_status t = TaskStatus.SUCCEEDED → is_Some (ts_head_commit t)
}.

Record run_inv (s : ExecutionRunState) : Prop := {
  ri_tasks : Forall (task_inv (xs_plan_id s)) (xs_tasks s);
  ri_ids : NoDup (map ts_task_id (xs_tasks s));
  ri_closed : ∀ t d, t ∈ xs_tasks s → d ∈ ts_depends_on t → d ∈ map ts_task_id (xs_tasks s);
  ri_started : ∀ t, t ∈ xs_tasks s → 1 <= ts_attempts t ∨ ts_status t = TaskStatus.READY →
                 ∀ d, d ∈ ts_depends_on t → succeeded_in s d;
  ri_success : xs_status s = RunPhase.SUCCEEDED → all_succeeded (xs_tasks s) = true;
  ri_retained : NoDup (xs_retained_workspace_ids s) ∧
                 ∀ t w, t ∈ xs_tasks s → ts_retained_workspace_id t = Some w →
                   w ∈ xs_retained_workspace_ids s;
  ri_usage : 0 <= us_input_tokens (xs_usage s) ∧ 0 <= us_output_tokens (xs_usage s)
             ∧ 0 <= us_latency_ms (xs_usage s) ∧ 0 <= us_cost_microusd (xs_usage s)
}.

Lemma task_step_frame s e p t t' : task_step s e p t t' →
  ts_task_id t' = ts_task_id t ∧ ts_depends_on t' = ts_depends_on t ∧ ts_allowed_paths t' = ts_allowed_paths t
  ∧ ts_max_attempts t' = ts_max_attempts t ∧ ts_status t ≠ TaskStatus.SUCCEEDED.
Proof.
  intros []; split_and!; try done; try congruence.
  intros E. by rewrite E in *; set_solver.
Qed.

Lemma pending_none t : pending_set t = [false; false; false; false] ∨
    (pending_set t = [true; true; true; true] ∧ ts_status t = TaskStatus.READY) →
  ts_pending_decision_id t = None ∨ ts_status t ≠ TaskStatus.READY → pending_set t = [false; false; false; false].
Proof.
  intros [H|[H Hs]] Hn; [done|]. destruct Hn as [Hn|Hn]; [|done]. unfold pending_set in H. by rewrite Hn in H.
Qed.

Lemma task_step_inv s e p t t' : task_inv (xs_plan_id s) t → task_step s e p t t' → task_inv (xs_plan_id s) t'.
Proof.
  intros Hi H. pose proof (task_step_frame _ _ _ _ _ H) as (E1 & E2 & E3 & E4 & _). destruct Hi.
  constructor; rewrite ?E1, ?E2, ?E3, ?E4; try done.
  - destruct H; cbn; try lia. specialize (ti_ready0 ltac:(done)). lia.
  - destruct H; cbn; try done; try congruence. by destruct r.
  - destruct H; try (by left); try (by right); left; refine (pending_none t _ _); try done;
      first [by left|right; congruence].
  - destruct H as [| |plan w base digest| |r signature ev w|]; cbn; try done; try congruence.
    + repeat (apply elem_of_cons in H1 as [H1|H1]; [by rewrite H1 in ti_active0|]).
      by apply not_elem_of_nil in H1.
    + split; [lia|]. by exists plan, w.
    + by rewrite H0 in ti_active0.
    + by destruct r.
    + by rewrite H0 in ti_active0.
  - destruct H; cbn; try done; try congruence.
Qed.

Lemma replaced s r u : u ∈ xs_tasks (_replace_task s r) →
  u = r ∨ (u ∈ xs_tasks s ∧ ts_task_id u ≠ ts_task_id r).
Proof.
  cbn. intros (v & -> & Hv)%list_elem_of_fmap. case_bool_decide; [by left|by right].
Qed.

Lemma replaced_ids s r : map ts_task_id (xs_tasks (_replace_task s r)) = map ts_task_id (xs_tasks s).
Proof.
  cbn. rewrite map_map. apply map_ext. intros t. case_bool_decide as E; [by rewrite E|done].
Qed.

Lemma same_task s t u : NoDup (map ts_task_id (xs_tasks s)) → t ∈ xs_tasks s → u ∈ xs_tasks s →
  ts_task_id t = ts_task_id u → t = u.
Proof.
  intros Hnd [i Hi]%list_elem_of_lookup [j Hj]%list_elem_of_lookup E.
  change (NoDup (ts_task_id <$> xs_tasks s)) in Hnd. assert (i = j) as ->; [|congruence].
  apply (NoDup_lookup _ i j (ts_task_id t) Hnd); rewrite list_lookup_fmap; [by rewrite Hi|by rewrite Hj, E].
Qed.

Lemma replaced_in s t r : t ∈ xs_tasks s → ts_task_id r = ts_task_id t → r ∈ xs_tasks (_replace_task s r).
Proof.
  intros Ht E. cbn. apply list_elem_of_fmap. exists t. by rewrite bool_decide_true.
Qed.

Lemma replaced_succeeded s t r d : NoDup (map ts_task_id (xs_tasks s)) → t ∈ xs_tasks s →
  ts_task_id r = ts_task_id t → ts_status t ≠ TaskStatus.SUCCEEDED → succeeded_in s d →
  succeeded_in (_replace_task s r) d.
Proof.
  intros Hnd Ht E Hs (u & Hu & Hd & Hsu). exists u. split_and!; try done.
  cbn. apply list_elem_of_fmap. exists u. split; [|done]. rewrite bool_decide_false; [done|].
  intros Eu. apply Hs. by rewrite (same_task s t u) by congruence.
Qed.

(** Replacing a task by what a step makes of it. *)
Lemma task_step_run s e p t t' retained u : run_inv s → final (xs_status s) = false → t ∈ xs_tasks s →
  task_step s e p t t' → NoDup retained → xs_retained_workspace_ids s ⊆ retained →
  (∀ w, ts_retained_workspace_id t' = Some w → w ∈ retained) →
  0 <= us_input_tokens u ∧ 0 <= us_output_tokens u ∧ 0 <= us_latency_ms u ∧ 0 <= us_cost_microusd u →
  run_inv (with_usage (_replace_task s t') retained u).
Proof.
  intros [Hts Hnd Hcl Hst Hsu Hrt Hus] Hf Ht Hstep Hr1 Hr2 Hr3 Hu'.
  pose proof (task_step_frame _ _ _ _ _ Hstep) as (E1 & E2 & _ & _ & Hns).
  assert (Hsucc : ∀ d, succeeded_in s d → succeeded_in (_replace_task s t') d)
    by (intros d; by apply (replaced_succeeded s t)).
  assert (Hids := replaced_ids s t').
  rewrite Forall_forall in Hts. constructor; cbn [with_usage xs_tasks xs_plan_id xs_status xs_retained_workspace_ids xs_usage];
    rewrite ?Hids; try done.
  - apply Forall_forall. intros v [->|[Hv _]]%replaced; [|by apply Hts].
    apply (task_step_inv s e p t); [by apply Hts|done].
  - intros v d [->|[Hv _]]%replaced; [|by apply Hcl]. rewrite E2. by apply Hcl.
  - intros v [->|[Hv _]]%replaced Hor d Hd; [|by eapply Hsucc, Hst]. rewrite E2 in Hd. apply Hsucc.
    destruct (Hts t Ht). destruct Hstep; cbn in Hor; try (apply (Hst t Ht); [|done]; first [by left|by right]).
    + auto.
    + apply (Hst t Ht); [|done]. rewrite H0 in ti_active0. left. tauto.
    + apply (Hst t Ht); [|done]. rewrite H0 in ti_active0. left. tauto.
  - cbn. intros E. by rewrite E in Hf.
  - split; [done|]. intros v w [->|[Hv _]]%replaced; [by apply Hr3|]. intros Hw.
    destruct Hrt as [_ Hrt]. by eapply Hr2, Hrt.
Qed.

Lemma outcome_stops type current phase status : public_outcome type current = (phase, Some status) →
  phase ≠ RunPhase.SUCCEEDED
  ∧ status ∈ [TaskStatus.CANCELED; TaskStatus.TERMINAL_FAILURE; TaskStatus.ESCALATED].
Proof.
  unfold public_outcome. repeat case_bool_decide; intros [= <- <-]; split; try done; set_solver.
Qed.

Lemma stop_inv plan status t : status ∈ [TaskStatus.CANCELED; TaskStatus.TERMINAL_FAILURE; TaskStatus.ESCALATED] →
  task_inv plan t → task_inv plan (stop_task status t).
Proof.
  intros Hs Ht. unfold stop_task. case_bool_decide; [done|]. destruct Ht.
  constructor; try done; cbn; try (by left);
    repeat (apply elem_of_cons in Hs as [->|Hs]; [done|]); by apply not_elem_of_nil in Hs.
Qed.

Lemma public_run s e phase stopped : run_inv s →
  public_outcome (event_type e) (xs_status s) = (phase, stopped) →
  (phase = RunPhase.SUCCEEDED → all_succeeded (xs_tasks s) = true) →
  run_inv (with_tasks (with_phase s phase)
    match stopped with Some status => map (stop_task status) (xs_tasks s) | None => xs_tasks s end).
Proof.
  intros [Hts Hnd Hcl Hst Hsu Hrt Hus] Ho Hall. destruct stopped as [status|]; [|by constructor].
  apply outcome_stops in Ho as [Hphase Hstatus].
  assert (Hids : map ts_task_id (map (stop_task status) (xs_tasks s)) = map ts_task_id (xs_tasks s)).
  { rewrite map_map. apply map_ext. intros t. unfold stop_task. by case_bool_decide. }
  assert (Hkeep : ∀ t, ts_depends_on (stop_task status t) = ts_depends_on t
                   ∧ ts_attempts (stop_task status t) = ts_attempts t
                   ∧ ts_retained_workspace_id (stop_task status t) = ts_retained_workspace_id t)
    by (intros t; unfold stop_task; by case_bool_decide).
  constructor; cbn [with_tasks with_phase xs_tasks xs_plan_id xs_status xs_retained_workspace_ids xs_usage];
    rewrite ?Hids; try done.
  - rewrite Forall_forall in Hts |- *. intros t (u & -> & Hu)%list_elem_of_fmap. by apply stop_inv, Hts.
  - intros t d (u & -> & Hu)%list_elem_of_fmap. destruct (Hkeep u) as (-> & _). by apply Hcl.
  - intros t (u & -> & Hu)%list_elem_of_fmap Hor d. destruct (Hkeep u) as (-> & Ea & _). rewrite Ea in Hor.
    intros Hd. assert (Hor' : 1 <= ts_attempts u ∨ ts_status u = TaskStatus.READY).
    { destruct Hor as [?|Hr]; [by left|]. unfold stop_task in Hr. case_bool_decide; [by right|]. cbn in Hr.
      rewrite Hr in Hstatus. exfalso. clear -Hstatus. set_solver. }
    destruct (Hst u Hu Hor' d Hd) as (v & Hv & Hid & Hsv). exists v. split_and!; try done.
    apply list_elem_of_fmap. exists v. split; [|done]. unfold stop_task. by rewrite bool_decide_true.
  - destruct Hrt as [? Hrt]. split; [done|]. intros t w (u & -> & Hu)%list_elem_of_fmap.
    destruct (Hkeep u) as (_ & _ & ->). by apply Hrt.
Qed.

Lemma pending_inv plan t : task_made t → task_inv plan (pending_task t).
Proof.
  intros (tid & o & ds & ps & cs & m & (_ & _ & Hself & _ & (paths & Hp & digest & _ & ->) & _ & _ & Hm)%task_init_ok).
  unfold z_between in Hm. apply andb_true_iff in Hm as [?%Z.leb_le ?%Z.leb_le].
  constructor; cbn; try done; try lia.
  - unfold sorted_set, sort_strings. rewrite isort_perm. apply NoDup_remove_dups.
  - by apply path_tuple_ok in Hp as [? _].
  - by left.
Qed.

Lemma plan_run s plan : run_inv s → admissible s plan → run_inv (with_draft
    (with_tasks (with_phase (with_plan s (plan_id plan) (plan_digest plan) (plan_revision plan))
       RunPhase.RUNNING) (sort_by ts_task_id (map pending_task (tasks plan)))) None).
Proof.
  intros [Hts Hnd Hcl Hst Hsu Hrt Hus] [(raw & Hraw) Hmade _ _ _].
  destruct (plan_init_parts _ _ Hraw) as (_ & Hids & Hknown & _).
  set (l := sort_by ts_task_id (map pending_task (tasks plan))).
  assert (Hl : ∀ t, t ∈ l → ∃ u, u ∈ tasks plan ∧ t = pending_task u).
  { intros t Ht. unfold l, sort_by in Ht. apply elem_of_isort in Ht.
    apply list_elem_of_fmap in Ht as (u & -> & Hu). eauto. }
  assert (Hperm : map ts_task_id l ≡ₚ map task_id (tasks plan)).
  { unfold l, sort_by. rewrite isort_perm, map_map. done. }
  constructor; cbn [with_draft with_tasks with_phase with_plan xs_tasks xs_plan_id xs_status
    xs_retained_workspace_ids xs_usage]; try done.
  - apply Forall_forall. intros t (u & Hu & ->)%Hl. rewrite Forall_forall in Hmade. by apply pending_inv, Hmade.
  - by rewrite Hperm.
  - intros t d (u & Hu & ->)%Hl Hd. rewrite Hperm. by eapply Hknown.
  - intros t (u & Hu & ->)%Hl [?|?]; [cbn in *; lia|done].
  - destruct Hrt as [? _]. split; [done|]. by intros t w (u & Hu & ->)%Hl.
Qed.

Lemma add_usage_nonneg u input output latency cost :
  0 <= us_input_tokens u ∧ 0 <= us_output_tokens u ∧ 0 <= us_latency_ms u ∧ 0 <= us_cost_microusd u →
  0 <= default 0 input → 0 <= default 0 output → 0 <= latency → 0 <= default 0 cost →
  let v := add_usage u input output latency cost in
  0 <= us_input_tokens v ∧ 0 <= us_output_tokens v ∧ 0 <= us_latency_ms v ∧ 0 <= us_cost_microusd v.
Proof. cbn. lia. Qed.

Lemma retain_ok ids w : NoDup ids → NoDup (retain ids w) ∧ ids ⊆ retain ids w ∧ w ∈ retain ids w.
Proof.
  intros Hnd. unfold retain. case_bool_decide as E; [done|]. split_and!; [|set_solver|set_solver].
  apply NoDup_app. split_and!; [done|set_solver|apply NoDup_singleton].
Qed.

Lemma verified_retained s e p t t' w r : task_step s e p t t' → event_type e = EXECUTION_TASK_VERIFIED →
  ts_active_workspace_id t = Some w → ts_status t' = route_status r →
  ts_retained_workspace_id t' = if bool_decide (r = SUCCEEDED) then ts_retained_workspace_id t else Some w.
Proof.
  intros H Ht Hw Hr. destruct H; try (rewrite Ht in *; discriminate).
  cbn in *. assert (r = r0) as -> by (by destruct r, r0). by rewrite Hw.
Qed.

Lemma step_retained s e p t t' : task_step s e p t t' → event_type e ≠ EXECUTION_TASK_VERIFIED →
  ts_retained_workspace_id t' = ts_retained_workspace_id t.
Proof. by intros []. Qed.

Lemma run_step_inv s e s' : run_inv s → run_step s e s' → run_inv s'.
Proof.
  intros Hi H. pose proof Hi as [Hts Hnd Hcl Hst Hsu Hrt Hus]. destruct H.
  - by eapply public_run.
  - by constructor.
  - constructor; try done. by apply add_usage_nonneg.
  - by apply plan_run.
  - replace (_replace_task s t') with
      (with_usage (_replace_task s t') (xs_retained_workspace_ids s) (xs_usage s)) by done.
    eapply task_step_run; try done; [apply Hrt|]. intros w. erewrite step_retained by done.
    destruct Hrt as [_ Hrt]. by apply Hrt.
  - pose proof (retain_ok (xs_retained_workspace_ids s) w (proj1 Hrt)) as (K1 & K2 & K3).
    eapply task_step_run; try done; [by case_bool_decide; [apply Hrt|]|by case_bool_decide| |by apply add_usage_nonneg].
    intros x. erewrite verified_retained by done. destruct Hrt as [_ Hrt].
    case_bool_decide; [by apply Hrt|]. by intros [= <-].
  - by constructor.
Qed.

Lemma with_event_inv s e : run_inv s → run_inv (with_event s e).
Proof. by intros []. Qed.

(** A first event that leaves a state admits a goal. *)
Lemma goal_state e s : run_apply normalize None e = Ok (Some s) →
  event_type e = EXECUTION_GOAL_ADMITTED ∧ execution_event e = true ∧ xs_plan_id s = None ∧ xs_plan_revision s = None
  ∧ xs_tasks s = [] ∧ xs_retained_workspace_ids s = [] ∧ xs_usage s = no_usage ∧ xs_status s = RunPhase.ADMITTED
  ∧ stream_id e = "run:" +:+ xs_run_id s.
Proof.
  unfold run_apply. destruct (public_event e); intros H.
  - unfold apply_public in H. by passed H.
  - unfold apply_execution in H. passed H. step H p Hp. apply bind_ok in H as (? & _ & H). step H run_id Hid.
    step H sid Hsid. passed H. case_bool_decide; [|done]. apply fmap_ok in H as (s' & H & [= <-]).
    unfold handle_goal_admitted in H. passed H. step H goal Hg. do 3 (apply bind_ok in H as (? & _ & H)).
    do 7 (apply bind_ok in H as (? & _ & H)).
    injection H as <-. apply stream_id_ok in Hsid as ->. apply bool_decide_eq_true in G0. done.
Qed.

Lemma apply_inv s e s' : (∀ x, s = Some x → run_inv x) → run_apply normalize s e = Ok (Some s') → run_inv s'.
Proof.
  destruct s as [s|]; intros Hs H.
  - apply apply_refines in H as (s1 & [= ->] & Hstep & _). eapply with_event_inv, run_step_inv; [by apply Hs|done].
  - apply goal_state in H as (_ & _ & Hp & _ & Ht & Hr & Hu & Hst & _).
    constructor; rewrite ?Ht, ?Hr, ?Hu, ?Hst; try done; try (by constructor); try set_solver.
    split; [constructor|]. set_solver.
Qed.

(** The states a fold of [apply] reaches. *)
Definition run_of (events : list EventEnvelope) : result (option ExecutionRunState) :=
  fold_result (run_apply normalize) None events.

Lemma run_of_snoc events e o : run_of (events ++ [e]) = Ok o →
  ∃ s, run_of events = Ok s ∧ run_apply normalize s e = Ok o.
Proof.
  unfold run_of. rewrite fold_result_app. intros H. apply bind_ok in H as (s & Hs & H). exists s.
  split; [done|]. cbn [fold_result] in H. apply bind_ok in H as (o' & Ho & H). cbn in H. by injection H as <-.
Qed.

Lemma reachable_inv events s : run_of events = Ok (Some s) → run_inv s.
Proof.
  revert s. induction events as [|e events IH] using rev_ind; [done|].
  intros s (o & Ho & H)%run_of_snoc. eapply apply_inv; [|done]. intros x ->. by apply IH.
Qed.

(** ** What the events of a run show *)

Lemma decides_task run_id plan p t t' n d : ts_task_id t' = ts_task_id t →
  ts_allowed_paths t' = ts_allowed_paths t → decides run_id plan p t n d → decides run_id plan p t' n d.
Proof.
  intros E1 E2 []. constructor; try done; [|by rewrite E1]. unfold repository_action in *. by rewrite E1, E2.
Qed.

(** The events behind a pending decision and behind a success. *)
Record traced (events : list EventEnvelope) (s : ExecutionRunState) : Prop := {
  tr_pending : ∀ t, t ∈ xs_tasks s → is_Some (ts_pending_decision_id t) → ∃ e p plan d,
    e ∈ events ∧ event_type e = EXECUTION_POLICY_DECIDED ∧ event_payload e = Ok p
    ∧ xs_plan_id s = Some plan ∧ decides (xs_run_id s) plan p t (ts_attempts t + 1) d
    ∧ ts_pending_allowed t = Some (allowed d) ∧ ts_pending_action_digest t = Some (action_digest d);
  tr_success : ∀ t, t ∈ xs_tasks s → ts_status t = TaskStatus.SUCCEEDED → ∃ e p signature ev,
    e ∈ events ∧ event_type e = EXECUTION_TASK_VERIFIED ∧ event_payload e = Ok p
    ∧ verifies normalize p t SUCCEEDED signature ev ∧ ts_head_commit t = Some (head_commit ev)
}.

Lemma traced_weaken events e s : traced events s → traced (events ++ [e]) s.
Proof.
  intros [Hp Hs]. split.
  - intros t Ht Hd. destruct (Hp t Ht Hd) as (x & p & plan & d & Hx & H).
    exists x, p, plan, d. split; [set_solver|done].
  - intros t Ht Hd. destruct (Hs t Ht Hd) as (x & p & sg & ev & Hx & H).
    exists x, p, sg, ev. split; [set_solver|done].
Qed.

(** Only the tasks, the plan and the run matter, and stopped tasks trace. *)
Lemma traced_same events s s' : traced events s → xs_tasks s' = xs_tasks s → xs_plan_id s' = xs_plan_id s →
  xs_run_id s' = xs_run_id s → traced events s'.
Proof. intros [Hp Hs] E1 E2 E3. split; rewrite E1; [by rewrite E2, E3|done]. Qed.

Lemma verifies_task p t t' r signature ev : ts_task_id t' = ts_task_id t → ts_attempts t' = ts_attempts t →
  verifies normalize p t r signature ev → verifies normalize p t' r signature ev.
Proof. intros E1 E2 []. constructor; try done; by rewrite ?E1, ?E2. Qed.

Lemma traced_task events s e p t t' s' : traced events s → e ∈ events → event_payload e = Ok p →
  t ∈ xs_tasks s → task_step s e p t t' → xs_tasks s' = xs_tasks (_replace_task s t') →
  xs_plan_id s' = xs_plan_id s → xs_run_id s' = xs_run_id s → traced events s'.
Proof.
  intros [Hpd Hsc] He Hp Ht H E1 E2 E3.
  pose proof (task_step_frame _ _ _ _ _ H) as (F1 & _ & F3 & _). split; rewrite E1.
  - intros u [->|[Hu _]]%replaced Hd; [|by rewrite E2, E3; apply Hpd]. rewrite E2, E3.
    destruct H as [| plan d ? ? ? Hplan Hdec | | | |]; cbn in Hd |- *;
      try (by destruct Hd); try (destruct (Hpd t Ht Hd) as (x & q & plan & d & H'); exists x, q, plan, d;
        destruct H' as (?&?&?&?&Hdec&?&?); split_and!; try done; by eapply decides_task).
    exists e, p, plan, d. split_and!; try done. by eapply decides_task.
  - intros u [->|[Hu _]]%replaced Hu'; [|by apply Hsc].
    destruct H as [| | | |r signature ev w ? ? ? Hv|]; cbn in Hu'; try done; try congruence.
    destruct r; try done. exists e, p, signature, ev. split_and!; try done. by eapply verifies_task.
Qed.

Lemma traced_step events s e s' : traced events s → run_step s e s' → traced (events ++ [e]) s'.
Proof.
  intros Ht%(traced_weaken _ e) H. destruct H as [phase stopped ? Ho| | |plan Hty Hf Ha| | |];
    try (by eapply traced_same); try (eapply traced_task; try done; set_solver).
  - destruct stopped as [status|]; [|by eapply traced_same]. apply outcome_stops in Ho as [_ Hstatus].
    destruct Ht as [Hp Hs]. split; cbn [with_tasks with_phase xs_tasks xs_plan_id xs_run_id].
    + intros t (u & -> & Hu)%list_elem_of_fmap Hd. unfold stop_task in *. case_bool_decide; [by apply Hp|].
      by destruct Hd.
    + intros t (u & -> & Hu)%list_elem_of_fmap Hd. unfold stop_task in *. case_bool_decide; [by apply Hs|].
      cbn in Hd. rewrite Hd in Hstatus. exfalso. clear -Hstatus. set_solver.
  - split; cbn [with_draft with_tasks with_phase with_plan xs_tasks]; intros t Hin;
      apply elem_of_isort, list_elem_of_fmap in Hin as (u & -> & _); [by intros [? ?]|done].
Qed.

Lemma reachable_traced events s : run_of events = Ok (Some s) → traced events s.
Proof.
  revert s. induction events as [|e events IH] using rev_ind; [done|].
  intros s ([o|] & Ho & H)%run_of_snoc.
  - apply apply_refines in H as (s1 & [= ->] & Hstep & _). apply (traced_same _ s1); [|done..].
    eapply traced_step; [by apply IH|done].
  - apply goal_state in H as (_ & _ & _ & _ & E & _). split; rewrite E; set_solver.
Qed.

(** ** Final statuses *)

Lemma execution_not_public e : execution_event e = true → public_event e = false.
Proof.
  unfold execution_event, public_event. rewrite andb_true_iff. intros [H%bool_decide_eq_true _].
  rewrite H. by vm_compute.
Qed.

Lemma final_step s e s' : final (xs_status s) = true → run_step s e s' →
  public_event e = true ∧ xs_status s' = xs_status s ∧ xs_plan_id s' = xs_plan_id s ∧ xs_usage s' = xs_usage s.
Proof.
  intros Hf H. destruct H as [phase stopped Hp Ho Hk| | | | | |]; try congruence.
  split_and!; [done|by apply Hk|done..].
Qed.

Lemma final_rest s post : ∀ o, final (xs_status s) = true →
  fold_result (run_apply normalize) (Some s) post = Ok o → ∃ s',
  o = Some s' ∧ xs_status s' = xs_status s ∧ xs_plan_id s' = xs_plan_id s ∧ xs_usage s' = xs_usage s
  ∧ Forall (λ e, public_event e = true) post.
Proof.
  revert s. induction post as [|e post IH]; intros s o Hf H.
  - injection H as <-. by exists s.
  - cbn [fold_result] in H. apply bind_ok in H as (o1 & H1 & H).
    apply apply_refines in H1 as (s1 & -> & Hstep & _).
    apply final_step in Hstep as (Hp & E1 & E2 & E3); [|done].
    assert (Hf' : final (xs_status (with_event s1 e)) = true) by (cbn; by rewrite E1).
    destruct (IH _ _ Hf' H) as (s' & -> & K1 & K2 & K3 & K4).
    exists s'. split_and!; [done|by rewrite K1|by rewrite K2|by rewrite K3|by constructor].
Qed.
End Machine.

(** ** Properties *)


(** C17 (execution_refines_machine): an event the projection accepts is a step of
    the machine on tasks, on the stream of the run and with the next sequence
    number; a run that exists never disappears. *)
Theorem execution_refines_machine normalize s e o : run_apply normalize (Some s) e = Ok o → ∃ s1,
  o = Some (with_event s1 e) ∧ run_step normalize s e s1 ∧ stream_id e = "run:" +:+ xs_run_id s
  ∧ stream_sequence e = xs_last_stream_sequence s + 1.
Proof. apply apply_refines. Qed.



(** Once a run reached a final status, it keeps it: the
    projection accepts no further event of the execution, only public events that
    confirm the status, and neither the plan nor the usage changes. *)
Theorem final_status_absorbs normalize pre post s o : run_of normalize pre = Ok (Some s) →
  final (xs_status s) = true → run_of normalize (pre ++ post) = Ok o → ∃ s',
  o = Some s' ∧ xs_status s' = xs_status s ∧ xs_plan_id s' = xs_plan_id s ∧ xs_usage s' = xs_usage s
  ∧ Forall (λ e, public_event e = true) post.
Proof.
  unfold run_of. intros Hpre Hf H. rewrite fold_result_app in H. rewrite Hpre in H.
  cbn [mbind result_bind] in H. exact (final_rest _ _ _ _ Hf H).
Qed.

(** The evidence of an attempt that left a dirty workspace after its checks had
    passed is never recorded: the policy routes it to [BLOCKED], a verification
    with this route needs a failure, and such evidence must not have one. *)
Lemma dirty_pass_unrecordable normalize p t r signature ev :
  verifies normalize p t r signature ev → workspace_clean ev = false → attempt_succeeded ev = false.
Proof.
  intros [] Hc. destruct (attempt_succeeded ev) eqn:E; [|done]. exfalso.
  assert (Hr : r ≠ SUCCEEDED).
  { intros Hr. apply vf_route0 in Hr. unfold evidence_good in Hr. by rewrite Hc in Hr. }
  destruct (vf_failure0 Hr) as [[c Hcl] _]. unfold attempt_evidence_init in vf_made0. rewrite E in vf_made0.
  do 2 (apply bind_ok in vf_made0 as (? & _ & vf_made0)). apply bind_ok in vf_made0 as (? & K & _).
  apply require_ok in K. facts. congruence.
Qed.
