(* ===== verification/RuntimeCheckpoint.v ===== *)
(** * Checkpoints of a run

    What [dump_state] writes for a reachable state is read back by [load_state] as
    that state, with its keys in any order, exactly when every task is blocked
    with a reason or neither; otherwise it is refused. *)

From S2P Require Import Prelude PyStr PyFloat Sha256 Json JsonText JsonFacts PyTime Contracts JsonShape Events.
From S2P Require Import Artifacts ExecutionPlan RunLifecycle OutputSchema Gateway PlanCompiler PlanFacts.
From S2P Require Import AttemptPolicy ExecutionRuntime RuntimeFacts.
From Stdlib Require Import ZArith Lia Ascii String.
From stdpp Require Import base gmap sets list strings.
Local Open Scope Z_scope.

(** ** The JSON form of a state *)

Definition int_json (o : option Z) : json := match o with Some z => JInt z | None => JNull end.
Definition bool_json (o : option bool) : json := match o with Some b => JBool b | None => JNull end.

Definition task_json (t : ExecutionTaskState) : jobject :=
  [("task_id", JStr (ts_task_id t));
   ("status", JStr (task_status_value (ts_status t)));
   ("depends_on", jstrs (ts_depends_on t));
   ("allowed_paths", jstrs (ts_allowed_paths t));
   ("max_attempts", JInt (ts_max_attempts t));
   ("attempts", JInt (ts_attempts t));
   ("last_error_signature", opt_json (ts_last_error_signature t));
   ("same_error_count", JInt (ts_same_error_count t));
   ("active_workspace_id", opt_json (ts_active_workspace_id t));
   ("retained_workspace_id", opt_json (ts_retained_workspace_id t));
   ("blocked_reason", opt_json (ts_blocked_reason t));
   ("evidence_event_ids", jstrs (ts_evidence_event_ids t));
   ("last_failure_class", opt_json (failure_class_value <$> ts_last_failure_class t));
   ("last_failure_summary", opt_json (ts_last_failure_summary t));
   ("last_artifact_digests", jstrs (ts_last_artifact_digests t));
   ("last_progress_digests", jstrs (ts_last_progress_digests t));
   ("head_commit", opt_json (ts_head_commit t));
   ("pending_policy_decision_id", opt_json (ts_pending_decision_id t));
   ("pending_policy_action_digest", opt_json (ts_pending_action_digest t));
   ("pending_policy_allowed", bool_json (ts_pending_allowed t));
   ("pending_policy_reason", opt_json (ts_pending_reason t))].

Definition budget_json (b : GatewayBudget) : jobject :=
  [("max_input_tokens", JInt (max_input_tokens b)); ("max_output_tokens", JInt (max_output_tokens b));
   ("max_latency_ms", JInt (max_latency_ms b)); ("max_cost_microusd", JInt (max_cost_microusd b))].

Definition run_json (s : ExecutionRunState) : jobject :=
  let b := xs_binding s in let u := xs_usage s in
  [("run_id", JStr (xs_run_id s));
   ("goal_id", JStr (rb_goal_id b));
   ("goal_digest", JStr (rb_goal_digest b));
   ("project_id", JStr (rb_project_id b));
   ("intent_id", JStr (rb_intent_id b));
   ("goal_base_commit", JStr (rb_goal_base_commit b));
   ("classification", JInt (classification_value (rb_classification b)));
   ("locality", JStr (locality_value (rb_locality b)));
   ("budget", JObj (budget_json (rb_budget b)));
   ("plan_id", opt_json (xs_plan_id s));
   ("plan_digest", opt_json (xs_plan_digest s));
   ("plan_version", int_json (xs_plan_revision s));
   ("status", JStr (run_phase_value (xs_status s)));
   ("retained_workspace_ids", jstrs (xs_retained_workspace_ids s));
   ("tasks", JArr (map (λ t, JObj (task_json t)) (xs_tasks s)));
   ("latest_event_id", JStr (xs_latest_event_id s));
   ("last_stream_sequence", JInt (xs_last_stream_sequence s));
   ("input_tokens", JInt (us_input_tokens u));
   ("input_tokens_complete", JBool (us_input_tokens_complete u));
   ("output_tokens", JInt (us_output_tokens u));
   ("output_tokens_complete", JBool (us_output_tokens_complete u));
   ("latency_ms", JInt (us_latency_ms u));
   ("cost_microusd", JInt (us_cost_microusd u));
   ("cost_microusd_complete", JBool (us_cost_microusd_complete u));
   ("pending_draft_digest", opt_json (xs_pending_draft_digest s))].

Lemma thaw_int o : thaw_json (int_json o) = poptint o.
Proof. by destruct o. Qed.
Lemma thaw_bool o : thaw_json (bool_json o) = poptbool o.
Proof. by destruct o. Qed.

Lemma thaw_task t : thaw_json (JObj (task_json t)) = dump_task t.
Proof.
  unfold task_json, dump_task, obj. cbn [thaw_json map fst snd].
  by rewrite !thaw_opt, !thaw_strs, thaw_bool.
Qed.

Lemma thaw_run s : thaw_json (JObj (run_json s)) = dump_run s.
Proof.
  unfold run_json, dump_run, obj. cbn [thaw_json map fst snd]. rewrite map_map.
  rewrite !thaw_opt, !thaw_strs, thaw_int. by rewrite (map_ext _ _ thaw_task).
Qed.

Ltac each_member :=
  let v := fresh "v" in intros v; unfold task_json, run_json; cbn [map snd]; rewrite !elem_of_cons, elem_of_nil; intros Hv;
  repeat (destruct Hv as [->|Hv]); try done.

Lemma task_json_wf t : json_wf (JObj (task_json t)) = true.
Proof.
  eapply literal_wf; [reflexivity|by_vm|]. each_member;
    first [apply strs_wf|apply opt_wf|by destruct (ts_pending_allowed t)].
Qed.

Lemma run_json_wf s : json_wf (JObj (run_json s)) = true.
Proof.
  eapply literal_wf; [reflexivity|by_vm|].
  each_member; first [apply strs_wf|apply opt_wf|by destruct (xs_plan_revision s)|idtac].
  cbn [json_wf]. apply forallb_elem. intros x (t & -> & _)%list_elem_of_fmap. apply task_json_wf.
Qed.

(** ** Reading fields back *)

Definition nonempty (s : string) : bool := negb (is_empty s).
(** [p] of the text, when there is one. *)
Definition maybe (p : string → bool) (o : option string) : bool := from_option p true o.

Section Readers.
Context (raw : payload_map) (f : string).

Lemma text_back s : pget f raw = PStr s → nonempty s = true → _text raw f = Ok s.
Proof. unfold _text, nonempty. intros -> H. by rewrite H. Qed.
Lemma integer_back z : pget f raw = PInt z → (0 <=? z) = true → _integer raw f = Ok z.
Proof. unfold _integer. intros -> H. by rewrite H. Qed.
Lemma boolean_back b : pget f raw = PBool b → _boolean raw f = Ok b.
Proof. unfold _boolean. by intros ->. Qed.

Lemma digest_like_nonempty s : digest_like s = true → nonempty s = true.
Proof. by destruct s. Qed.
Lemma commit_nonempty s : re_commit s = true → nonempty s = true.
Proof. by destruct s. Qed.

Lemma digest_back s : pget f raw = PStr s → digest_like s = true → _digest raw f = Ok s.
Proof.
  intros H Hd. unfold _digest. rewrite (text_back s H) by by apply digest_like_nonempty.
  cbn [mbind result_bind]. by rewrite Hd.
Qed.
Lemma commit_back s : pget f raw = PStr s → re_commit s = true → _commit raw f = Ok s.
Proof.
  intros H Hd. unfold _commit. rewrite (text_back s H) by by apply commit_nonempty.
  cbn [mbind result_bind]. by rewrite Hd.
Qed.

Lemma optional_text_back o : pget f raw = popt o → maybe nonempty o = true → _optional_text raw f = Ok o.
Proof.
  unfold _optional_text, optional. destruct o as [s|]; intros H Hs; rewrite H; [|done].
  cbn [popt]. by rewrite (text_back s H Hs).
Qed.
Lemma optional_digest_back o : pget f raw = popt o → maybe digest_like o = true → _optional_digest raw f = Ok o.
Proof.
  unfold _optional_digest, optional. destruct o as [s|]; intros H Hs; rewrite H; [|done].
  cbn [popt]. by rewrite (digest_back s H Hs).
Qed.
Lemma optional_commit_back o : pget f raw = popt o → maybe re_commit o = true → _optional_commit raw f = Ok o.
Proof.
  unfold _optional_commit, optional. destruct o as [s|]; intros H Hs; rewrite H; [|done].
  cbn [popt]. by rewrite (commit_back s H Hs).
Qed.
Lemma optional_boolean_back o : pget f raw = poptbool o → _optional_boolean raw f = Ok o.
Proof.
  unfold _optional_boolean, optional. destruct o as [b|]; intros H; rewrite H; [|done].
  cbn [poptbool]. by rewrite (boolean_back b H).
Qed.

Lemma strings_back l : strings_of (map PStr l) = Some l.
Proof.
  unfold strings_of. induction l as [|s l IH]; [done|]. cbn [map mapM mbind option_bind]. by rewrite IH.
Qed.
Lemma text_tuple_back l : pget f raw = pstrs l → _text_tuple raw f = Ok l.
Proof. unfold _text_tuple, pstrs. intros ->. by rewrite strings_back. Qed.
Lemma digest_tuple_back l : pget f raw = pstrs l → forallb digest_like l = true → sorted_set l = l →
  _digest_tuple false raw f = Ok l.
Proof.
  unfold _digest_tuple, pstrs. intros -> H1 H2. cbn [andb negb]. rewrite strings_back.
  cbn [event_require raise_if negb mbind result_bind of_option]. rewrite H1.
  cbn [event_require raise_if negb mbind result_bind]. by rewrite H2, bool_decide_true.
Qed.

Lemma failure_class_back o : pget f raw = popt (failure_class_value <$> o) → _failure_class raw f = Ok o.
Proof.
  unfold _failure_class, optional. destruct o as [c|]; intros H; rewrite H; [|done]. cbn [fmap option_fmap option_map popt].
  rewrite (text_back _ H) by by destruct c. cbn [mbind result_bind]. by destruct c.
Qed.
End Readers.

Lemma task_status_back t : enum_member task_status_value task_statuses (task_status_value t) = Ok t.
Proof. by destruct t. Qed.
Lemma run_phase_back t : enum_member run_phase_value run_phases (run_phase_value t) = Ok t.
Proof. by destruct t. Qed.
Lemma locality_back t : enum_member locality_value localities (locality_value t) = Ok t.
Proof. by destruct t. Qed.
Lemma classification_back t : classification_member (classification_value t) = Ok t.
Proof. by destruct t. Qed.

(** Every field of the task is one that its reader accepts. *)
Record task_readable (t : ExecutionTaskState) : Prop := {
  tr_id : nonempty (ts_task_id t) = true;
  tr_max : (0 <=? ts_max_attempts t) = true;
  tr_attempts : (0 <=? ts_attempts t) = true;
  tr_signature : maybe digest_like (ts_last_error_signature t) = true;
  tr_count : (0 <=? ts_same_error_count t) = true;
  tr_active : maybe nonempty (ts_active_workspace_id t) = true;
  tr_retained : maybe nonempty (ts_retained_workspace_id t) = true;
  tr_blocked : maybe nonempty (ts_blocked_reason t) = true;
  tr_summary : maybe nonempty (ts_last_failure_summary t) = true;
  tr_artifacts : forallb digest_like (ts_last_artifact_digests t) = true
                 ∧ sorted_set (ts_last_artifact_digests t) = ts_last_artifact_digests t;
  tr_progress : forallb digest_like (ts_last_progress_digests t) = true
                ∧ sorted_set (ts_last_progress_digests t) = ts_last_progress_digests t;
  tr_head : maybe re_commit (ts_head_commit t) = true;
  tr_decision : maybe digest_like (ts_pending_decision_id t) = true;
  tr_action : maybe digest_like (ts_pending_action_digest t) = true;
  tr_reason : maybe nonempty (ts_pending_reason t) = true
}.

Record run_readable (s : ExecutionRunState) : Prop := {
  rr_run_id : nonempty (xs_run_id s) = true;
  rr_goal_id : nonempty (rb_goal_id (xs_binding s)) = true;
  rr_goal_digest : digest_like (rb_goal_digest (xs_binding s)) = true;
  rr_project : nonempty (rb_project_id (xs_binding s)) = true;
  rr_intent : nonempty (rb_intent_id (xs_binding s)) = true;
  rr_base : re_commit (rb_goal_base_commit (xs_binding s)) = true;
  rr_budget : ∃ b, gateway_budget_init b = Ok (rb_budget (xs_binding s));
  rr_plan_id : maybe nonempty (xs_plan_id s) = true;
  rr_plan_digest : maybe digest_like (xs_plan_digest s) = true;
  rr_tasks : Forall task_readable (xs_tasks s);
  rr_retained : NoDup (xs_retained_workspace_ids s);
  rr_latest : nonempty (xs_latest_event_id s) = true;
  rr_sequence : (0 <=? xs_last_stream_sequence s) = true;
  rr_usage : 0 <= us_input_tokens (xs_usage s) ∧ 0 <= us_output_tokens (xs_usage s)
             ∧ 0 <= us_latency_ms (xs_usage s) ∧ 0 <= us_cost_microusd (xs_usage s);
  rr_draft : maybe digest_like (xs_pending_draft_digest s) = true
}.

Lemma field_is kvs raw k v x : same_object kvs raw → dict_get k kvs = Some v → flat v = true →
  thaw_json v = x → pget k raw = x.
Proof. intros Hso Hv Hf <-. by apply (so_flat _ _ Hso). Qed.

Lemma bool_flat o : flat (bool_json o) = true.
Proof. by destruct o. Qed.

(** A field of [raw] is the flat value [kvs] has under the same key. *)
Ltac field Hso :=
  eapply (field_is _ _ _ _ _ Hso);
  [ reflexivity
  | first [reflexivity|apply strs_flat|apply opt_flat|apply bool_flat]
  | first [reflexivity|apply thaw_strs|apply thaw_opt|apply thaw_bool] ].

Lemma budget_back b j' : (∃ b0, gateway_budget_init b0 = Ok b) → reorders (JObj (budget_json b)) j' →
  _gateway_budget (thaw_json j') = Ok b.
Proof.
  intros [b0 Hb] H. destruct (reorders_same invalid_event _ _ H) as (raw & Hraw & Hso).
  unfold gateway_budget_init in Hb. apply bind_ok in Hb as (? & Hm & [= ->]). apply raise_if_ok in Hm.
  unfold _gateway_budget, _mapping. rewrite Hraw. cbn [mbind result_bind].
  rewrite (same_object_keys _ raw budget_fields Hso eq_refl). cbn [event_require raise_if negb mbind result_bind].
  rewrite (integer_back raw "max_input_tokens" (max_input_tokens b)) by first [field Hso|lia].
  rewrite (integer_back raw "max_output_tokens" (max_output_tokens b)) by first [field Hso|lia].
  rewrite (integer_back raw "max_latency_ms" (max_latency_ms b)) by first [field Hso|lia].
  rewrite (integer_back raw "max_cost_microusd" (max_cost_microusd b)) by first [field Hso|lia].
  cbn [mbind result_bind]. unfold gateway_budget_init. cbn [max_input_tokens max_output_tokens max_latency_ms max_cost_microusd].
  rewrite Hm. by destruct b.
Qed.

(** Read the next field of [raw] by the reader's equation. *)
Ltac reads Hso l :=
  rewrite l by first [field Hso|done|lia|by match goal with |- nonempty (_ ?s) = true => destruct s end];
  cbn [mbind result_bind].

Lemma task_back t j' : task_readable t → reorders (JObj (task_json t)) j' →
  _task_state_from_checkpoint (thaw_json j') = (_ ← checkpoint_require (task_loadable t); Ok t).
Proof.
  intros [] H. destruct (reorders_same invalid_event _ _ H) as (raw & Hraw & Hso).
  destruct tr_artifacts0 as [Ha1 Ha2], tr_progress0 as [Hp1 Hp2].
  unfold _task_state_from_checkpoint, _mapping. rewrite Hraw. cbn [mbind result_bind].
  rewrite (same_object_keys _ raw task_keys Hso eq_refl).
  cbn [checkpoint_require raise_if negb mbind result_bind].
  reads Hso (text_back raw "task_id" (ts_task_id t)).
  reads Hso (text_back raw "status" (task_status_value (ts_status t))). rewrite task_status_back.
  cbn [mbind result_bind].
  reads Hso (text_tuple_back raw "depends_on" (ts_depends_on t)).
  reads Hso (text_tuple_back raw "allowed_paths" (ts_allowed_paths t)).
  reads Hso (integer_back raw "max_attempts" (ts_max_attempts t)).
  reads Hso (integer_back raw "attempts" (ts_attempts t)).
  reads Hso (optional_digest_back raw "last_error_signature" (ts_last_error_signature t)).
  reads Hso (integer_back raw "same_error_count" (ts_same_error_count t)).
  reads Hso (optional_text_back raw "active_workspace_id" (ts_active_workspace_id t)).
  reads Hso (optional_text_back raw "retained_workspace_id" (ts_retained_workspace_id t)).
  reads Hso (optional_text_back raw "blocked_reason" (ts_blocked_reason t)).
  reads Hso (text_tuple_back raw "evidence_event_ids" (ts_evidence_event_ids t)).
  reads Hso (failure_class_back raw "last_failure_class" (ts_last_failure_class t)).
  reads Hso (optional_text_back raw "last_failure_summary" (ts_last_failure_summary t)).
  reads Hso (digest_tuple_back raw "last_artifact_digests" (ts_last_artifact_digests t)).
  reads Hso (digest_tuple_back raw "last_progress_digests" (ts_last_progress_digests t)).
  reads Hso (optional_commit_back raw "head_commit" (ts_head_commit t)).
  reads Hso (optional_digest_back raw "pending_policy_decision_id" (ts_pending_decision_id t)).
  reads Hso (optional_digest_back raw "pending_policy_action_digest" (ts_pending_action_digest t)).
  reads Hso (optional_boolean_back raw "pending_policy_allowed" (ts_pending_allowed t)).
  reads Hso (optional_text_back raw "pending_policy_reason" (ts_pending_reason t)).
  by destruct t.
Qed.

Lemma tasks_back ts l : Forall task_readable ts → Forall2 reorders (map (λ t, JObj (task_json t)) ts) l →
  map_result _task_state_from_checkpoint (map thaw_json l) =
    (_ ← checkpoint_require (forallb task_loadable ts); Ok ts).
Proof.
  intros Hts H. revert l H. induction Hts as [|t ts Ht _ IH]; intros l H; inversion H as [|? j' ? l' Hj Hl]; subst; [done|].
  cbn [map map_result forallb]. rewrite (task_back t j' Ht Hj).
  destruct (task_loadable t); [|done]. cbn [checkpoint_require raise_if negb mbind result_bind andb].
  rewrite (IH l' Hl). by destruct (forallb _ ts).
Qed.

(** Reading a readable state back: only the tasks can be refused. *)
Lemma run_back s j' : run_readable s → reorders (JObj (run_json s)) j' →
  run_load (thaw_json j') = (_ ← checkpoint_require (forallb task_loadable (xs_tasks s)); Ok (Some s)).
Proof.
  intros [] H. destruct (reorders_same invalid_event _ _ H) as (raw & Hraw & Hso).
  destruct rr_usage0 as (Hu1 & Hu2 & Hu3 & Hu4).
  destruct (so_get _ _ Hso "tasks" _ eq_refl) as (tasks' & Htasks & (l & -> & Hl)%reorders_array).
  destruct (so_get _ _ Hso "budget" _ eq_refl) as (budget' & Hbudget & Hb%budget_back); [|done].
  unfold run_load. destruct (thaw_json j') eqn:Ej; try (unfold contract_mapping in Hraw; discriminate).
  rewrite <-Ej in *. clear Ej. unfold _mapping. rewrite Hraw. cbn [mbind result_bind].
  rewrite (same_object_keys _ raw run_keys Hso eq_refl).
  cbn [checkpoint_require raise_if negb mbind result_bind].
  rewrite Htasks. cbn [thaw_json of_option mbind result_bind]. rewrite (tasks_back _ l rr_tasks0 Hl).
  destruct (forallb task_loadable _); [|done]. cbn [checkpoint_require raise_if negb mbind result_bind].
  assert (pget "plan_version" raw = poptint (xs_plan_revision s)) as ->.
  { eapply (field_is _ _ _ _ _ Hso); [reflexivity|by destruct (xs_plan_revision s)|apply thaw_int]. }
  assert ((match poptint (xs_plan_revision s) with PNone => Ok None | PInt z => Ok (Some z) | _ => Err invalid_checkpoint end)
          = Ok (xs_plan_revision s)) as -> by by destruct (xs_plan_revision s).
  cbn [mbind result_bind].
  reads Hso (text_tuple_back raw "retained_workspace_ids" (xs_retained_workspace_ids s)).
  unfold distinct. rewrite bool_decide_true by done. cbn [checkpoint_require raise_if negb mbind result_bind].
  reads Hso (text_back raw "run_id" (xs_run_id s)).
  reads Hso (text_back raw "goal_id" (rb_goal_id (xs_binding s))).
  reads Hso (digest_back raw "goal_digest" (rb_goal_digest (xs_binding s))).
  reads Hso (text_back raw "project_id" (rb_project_id (xs_binding s))).
  reads Hso (text_back raw "intent_id" (rb_intent_id (xs_binding s))).
  reads Hso (commit_back raw "goal_base_commit" (rb_goal_base_commit (xs_binding s))).
  rewrite (integer_back raw "classification" (classification_value (rb_classification (xs_binding s))))
    by first [field Hso|by destruct (rb_classification _)].
  cbn [mbind result_bind]. rewrite classification_back. cbn [mbind result_bind].
  reads Hso (text_back raw "locality" (locality_value (rb_locality (xs_binding s)))).
  rewrite locality_back. cbn [mbind result_bind]. rewrite Hbudget, Hb. cbn [mbind result_bind].
  reads Hso (optional_text_back raw "plan_id" (xs_plan_id s)).
  reads Hso (optional_digest_back raw "plan_digest" (xs_plan_digest s)).
  reads Hso (text_back raw "status" (run_phase_value (xs_status s))).
  rewrite run_phase_back. cbn [mbind result_bind].
  reads Hso (text_back raw "latest_event_id" (xs_latest_event_id s)).
  reads Hso (integer_back raw "last_stream_sequence" (xs_last_stream_sequence s)).
  reads Hso (integer_back raw "input_tokens" (us_input_tokens (xs_usage s))).
  reads Hso (boolean_back raw "input_tokens_complete" (us_input_tokens_complete (xs_usage s))).
  reads Hso (integer_back raw "output_tokens" (us_output_tokens (xs_usage s))).
  reads Hso (boolean_back raw "output_tokens_complete" (us_output_tokens_complete (xs_usage s))).
  reads Hso (integer_back raw "latency_ms" (us_latency_ms (xs_usage s))).
  reads Hso (integer_back raw "cost_microusd" (us_cost_microusd (xs_usage s))).
  reads Hso (boolean_back raw "cost_microusd_complete" (us_cost_microusd_complete (xs_usage s))).
  reads Hso (optional_digest_back raw "pending_draft_digest" (xs_pending_draft_digest s)).
  destruct s as [? [] ? ? ? ? ? ? ? ? [] ?]. done.
Qed.

(** ** Reachable states are readable *)

Lemma py_len_app s t : py_len (s +:+ t) = py_len s + py_len t.
Proof.
  induction s as [|a s IH]; [done|]. change (String a s +:+ t) with (String a (s +:+ t)).
  cbn [py_len]. rewrite IH. lia.
Qed.

Lemma digest_is_like s : re_digest s = true → digest_like s = true.
Proof.
  unfold re_digest, digest_like. intros [[Hp Hl%Nat.eqb_eq]%andb_true_iff Hh]%andb_true_iff.
  rewrite Hp. apply Z.eqb_eq. assert (E : s = "sha256:" +:+ drop_bytes 7 s).
  { do 7 (destruct s as [|? s]; [discriminate|cbn [starts_with] in Hp;
      apply andb_true_iff in Hp as [<-%Ascii.eqb_eq Hp]]). done. }
  rewrite E, py_len_app. destruct (lower_hex_decode _ Hh) as (_ & _ & ->).
  rewrite E, length_app_s in Hl. change (py_len "sha256:") with 7.
  change (String.length "sha256:") with 7%nat in Hl. lia.
Qed.

Lemma json_digest_like v d : json_digest v = Ok d → digest_like d = true.
Proof. intros H. by eapply digest_is_like, json_digest_format. Qed.

Lemma identifier_nonempty s : _IDENTIFIER s = true → nonempty s = true.
Proof. by destruct s. Qed.

Lemma not_blank_nonempty s : blank s = false → nonempty s = true.
Proof. by destruct s. Qed.

Lemma signature_like normalize ev sg : error_signature normalize ev = Ok sg → maybe digest_like sg = true.
Proof.
  unfold error_signature. destruct (failure_summary ev); [|by intros [= <-]].
  intros (d & Hd & <-)%fmap_ok. by eapply json_digest_like.
Qed.

Lemma decision_readable d : policy_decision_init (allowed d) (reason d) (action_digest d) = Ok d →
  digest_like (decision_id d) = true ∧ digest_like (action_digest d) = true ∧ nonempty (reason d) = true.
Proof.
  unfold policy_decision_init. intros H. step H u Hu. step H did Hd. injection H as E.
  apply require_ok, andb_true_iff in Hu as [Hr Ha]. split_and!; [|by apply digest_is_like|by apply identifier_nonempty].
  rewrite <-E. by eapply json_digest_like.
Qed.

Lemma evidence_readable ev : attempt_evidence_init ev = Ok ev →
  maybe nonempty (failure_summary ev) = true ∧ re_commit (head_commit ev) = true
  ∧ forallb digest_like (artifact_digests ev) = true ∧ sorted_set (artifact_digests ev) = artifact_digests ev
  ∧ forallb digest_like (progress_digests ev) = true ∧ sorted_set (progress_digests ev) = progress_digests ev.
Proof.
  unfold attempt_evidence_init. intros H. step H u1 H1. step H u2 H2. step H u3 H3. step H u4 H4. step H u5 H5.
  do 3 (apply bind_ok in H as (? & _ & H)). injection H as E.
  assert (Ea : sorted_set (artifact_digests ev) = artifact_digests ev) by (by rewrite <-E at 2).
  assert (Ep : sorted_set (progress_digests ev) = progress_digests ev) by (by rewrite <-E at 2).
  rewrite Ea, Ep in H5. apply require_ok in H2, H3, H5.
  apply andb_true_iff in H2 as [_ H2]. rewrite forallb_elem in H5.
  split_and!; try done; 
    try (apply forallb_elem; intros y Hy; apply digest_is_like, H5, elem_of_app; tauto).
  destruct (attempt_succeeded ev); [apply andb_true_iff in H3 as [_ H3%bool_decide_eq_true]; by rewrite H3|].
  destruct (failure_summary ev) as [s|]; [|done]. apply andb_true_iff in H3 as [_ H3].
  apply andb_true_iff in H3 as [H3%negb_true_iff _]. by apply not_blank_nonempty.
Qed.

Lemma workspace_nonempty plan tid n w : _workspace_id_from_ids plan tid n = Ok w → nonempty w = true.
Proof. unfold _workspace_id_from_ids. intros H. step H i Hi. by injection H as <-. Qed.

Section Reachable.
Context (normalize : string → string).

Lemma step_readable s e p t t' : task_readable t → task_step normalize s e p t t' → task_readable t'.
Proof.
  intros Ht H. pose proof Ht as []. destruct H as [|plan d ? ? ? ? []|plan w| |r sg ev w ? ? Hw []|re ? ? ? Hre].
  - by constructor.
  - apply decision_readable in dc_made as (? & ? & ?). by constructor.
  - apply workspace_nonempty in H5. constructor; try done; cbn; lia.
  - by constructor.
  - apply evidence_readable in vf_made as (? & ? & ? & ? & ? & ?). apply signature_like in vf_signature.
    constructor; try done.
    + cbn. unfold next_error_count. destruct sg; [|done]. case_bool_decide; lia.
    + cbn. by case_bool_decide.
  - constructor; try done. cbn. by destruct re.
Qed.

Lemma stop_readable status t : task_readable t → task_readable (stop_task status t).
Proof. intros []. unfold stop_task. by case_bool_decide. Qed.

Lemma pending_readable t : task_made t → task_readable (pending_task t).
Proof.
  intros (tid & o & ds & ps & cs & m & (Hid & _ & _ & _ & (paths & _ & digest & _ & ->) & _ & _ & Hm)%task_init_ok).
  unfold z_between in Hm. constructor; cbn; try done; [by apply identifier_nonempty|lia].
Qed.

Lemma replace_readable s r : Forall task_readable (xs_tasks s) → task_readable r →
  Forall task_readable (xs_tasks (_replace_task s r)).
Proof.
  rewrite !Forall_forall. intros Ht Hr u [->|[Hu _]]%replaced; [done|by apply Ht].
Qed.

(** The fields of the run other than its tasks, its usage and its event. *)
Lemma readable_tasks s ts retained u : run_readable s → Forall task_readable ts → NoDup retained →
  0 <= us_input_tokens u ∧ 0 <= us_output_tokens u ∧ 0 <= us_latency_ms u ∧ 0 <= us_cost_microusd u →
  run_readable (with_usage (with_tasks s ts) retained u).
Proof. intros [] ? ? ?. by constructor. Qed.

Lemma run_step_readable s e s' : run_readable s → run_step normalize s e s' → run_readable s'.
Proof.
  intros Hr H. pose proof Hr as []. rewrite Forall_forall in rr_tasks0.
  destruct H as [phase stopped| |draft input output latency cost|plan ? ? [(raw & Hraw) Hmade _ _ _]
                |p t t' ? ? Ht Hs|p t t' w r input output latency cost ? ? Ht Hs|].
  - constructor; try done. destruct stopped as [status|]; [|by apply Forall_forall]. cbn.
    apply Forall_forall. intros t (u & -> & Hu)%list_elem_of_fmap. by apply stop_readable, rr_tasks0.
  - constructor; try done; by apply Forall_forall.
  - constructor; try done; [by apply Forall_forall|by apply add_usage_nonneg].
  - destruct (plan_init_parts _ _ Hraw) as (_ & _ & _ & _ & _ & _ & _ & _ & Hids & _).
    cbn [forallb] in Hids. apply andb_true_iff in Hids as [Hids _].
    unfold plan_init in Hraw. do 12 (apply bind_ok in Hraw as (? & _ & Hraw)).
    apply bind_ok in Hraw as (digest & Hd & [= <-]).
    constructor; try done; cbn.
    + by apply identifier_nonempty.
    + by eapply json_digest_like.
    + apply Forall_forall. intros t Hin. apply elem_of_isort, list_elem_of_fmap in Hin as (u & -> & Hu).
      rewrite Forall_forall in Hmade. by apply pending_readable, Hmade.
  - constructor; try done. apply replace_readable; [by apply Forall_forall|].
    eapply step_readable; [by apply rr_tasks0|done].
  - apply (readable_tasks s (xs_tasks (_replace_task s t'))); try done.
    + apply replace_readable; [by apply Forall_forall|]. eapply step_readable; [by apply rr_tasks0|done].
    + case_bool_decide; [done|]. by apply retain_ok.
    + by apply add_usage_nonneg.
  - constructor; try done; by apply Forall_forall.
Qed.

Lemma goal_read v g : goal_from_payload v = Ok g → nonempty (goal_id g) = true ∧ nonempty (project_id g) = true
  ∧ nonempty (intent_id g) = true ∧ re_commit (base_commit g) = true.
Proof.
  unfold goal_from_payload. intros H. do 13 (apply bind_ok in H as (? & _ & H)).
  assert (Hg := H). apply goal_init_ok in H as (_ & _ & _ & _ & _ & _ & _ & _ & Hids & _ & Hb).
  unfold goal_init in Hg. do 9 (apply bind_ok in Hg as (? & _ & Hg)). injection Hg as <-.
  cbn [forallb goal_id project_id intent_id base_commit] in *. facts.
  split_and!; try done; by apply identifier_nonempty.
Qed.

(** What the ledger guarantees of an event. *)
Definition event_valid (e : EventEnvelope) : Prop := nonempty (event_id e) = true ∧ 1 <= stream_sequence e.

Lemma goal_readable e s : event_valid e → run_apply normalize None e = Ok (Some s) → run_readable s.
Proof.
  intros [He Hseq]. unfold run_apply. destruct (public_event e); intros H.
  - unfold apply_public in H. by passed H.
  - unfold apply_execution in H. passed H. step H p Hp. apply bind_ok in H as (? & _ & H). step H run_id Hid.
    step H sid Hsid. passed H. case_bool_decide; [|done]. apply fmap_ok in H as (s' & H & [= <-]).
    unfold handle_goal_admitted in H. passed H. step H goal Hg. step H i1 H1. passed H. step H digest Hd.
    step H i2 H2. passed H. do 4 (apply bind_ok in H as (? & _ & H)). step H budget Hb. injection H as <-.
    apply recast_ok, goal_read in Hg as (? & ? & ? & ?). apply text_read in Hid as [_ Hid].
    unfold goal_digest in Hd. apply json_digest_like in Hd.
    constructor; try done; cbn; try (by constructor); try lia; [by destruct run_id|].
    unfold _gateway_budget in Hb. do 6 (apply bind_ok in Hb as (? & _ & Hb)). eauto.
Qed.

Lemma with_event_readable s e : event_valid e → run_readable s → run_readable (with_event s e).
Proof. intros [? ?] []. constructor; try done. cbn. lia. Qed.

Lemma reachable_readable events s : Forall event_valid events → run_of normalize events = Ok (Some s) →
  run_readable s.
Proof.
  revert s. induction events as [|e events IH] using rev_ind; [done|].
  intros s [Hv He]%Forall_app ([o|] & Ho & H)%run_of_snoc; apply (proj1 (Forall_singleton _ _)) in He.
  - apply apply_refines in H as (s1 & [= ->] & Hstep & _).
    apply with_event_readable; [done|]. apply (run_step_readable o e); [by apply IH|done].
  - by eapply goal_readable.
Qed.
End Reachable.

(** The task is blocked exactly when it has a reason. *)
Definition blocked_agrees (t : ExecutionTaskState) : bool :=
  eqb (bool_decide (ts_status t = TaskStatus.BLOCKED)) (is_some (ts_blocked_reason t)).

Lemma loadable_agrees plan t : task_inv plan t → task_loadable t = blocked_agrees t.
Proof.
  intros Ht. destruct Ht. unfold task_loadable, blocked_agrees. unfold distinct, z_between.
  rewrite (bool_decide_true (NoDup (ts_depends_on t))), (bool_decide_true (NoDup (ts_allowed_paths t))) by done.
  rewrite (bool_decide_false (ts_task_id t ∈ _)) by done.
  rewrite (proj2 (Z.leb_le 1 _)), (proj2 (Z.leb_le _ 3)), (proj2 (Z.leb_le (ts_attempts t) _)) by lia.
  generalize (eqb (bool_decide (ts_status t = TaskStatus.BLOCKED)) (is_some (ts_blocked_reason t))).
  by destruct ti_pending as [->|[-> ->]]; intros [].
Qed.

Lemma checkpoint_exact normalize events s j j' : run_of normalize events = Ok (Some s) →
  Forall event_valid events → freeze_json "$.state" (run_dump (Some s)) = Ok j → reorders j j' →
  run_load (thaw_json j') =
    if forallb blocked_agrees (xs_tasks s) then Ok (Some s) else Err invalid_checkpoint.
Proof.
  intros H Hv Hj Hr. apply (frozen _ (JObj (run_json s))) in Hj as ->; [|by rewrite thaw_run|apply run_json_wf].
  rewrite (run_back s j'); [|by eapply reachable_readable|done].
  pose proof (ri_tasks _ (reachable_inv _ _ _ H)) as Ht.
  assert (forallb task_loadable (xs_tasks s) = forallb blocked_agrees (xs_tasks s)) as ->.
  { clear -Ht. induction Ht as [|t ts Ht _ IH]; [done|]. cbn [forallb]. by rewrite (loadable_agrees _ t Ht), IH. }
  by destruct (forallb _ _).
Qed.

(** C19 (run_checkpoint_exact): the checkpoint of a reachable state is exact. Read
    back with its keys in any order, it is that state, provided every task is
    blocked exactly when it has a reason; a state in which some task disagrees
    has a checkpoint that can never be loaded, and it is refused with
    invalid-execution-checkpoint. No reachable state loads as another one. *)
Theorem run_checkpoint_exact normalize events s j j' : run_of normalize events = Ok (Some s) →
  Forall event_valid events → freeze_json "$.state" (run_dump (Some s)) = Ok j → reorders j j' →
  run_load (thaw_json j') =
    if forallb blocked_agrees (xs_tasks s) then Ok (Some s) else Err invalid_checkpoint.
Proof. apply checkpoint_exact. Qed.
