(* ===== verification/RunJournal.v ===== *)
(** * orchestration/execution_runtime.py: the journal of runs

    [EventBackedExecutionRunJournal] appends the events of a run to the ledger
    and rebuilds its state from the ledger and a checkpoint.  The state of the
    world is the ledger, the checkpoint table and the rest, [E], from which the
    host's clock and identifiers come.  [environment] is what happens before an
    operation touches the tables: it may change them, as another process can, and
    it gives the operation its time and its event identifier.  The observer of
    stored events has no effect on the journal and is not represented. *)

From S2P Require Import Prelude PyStr PyFloat Sha256 Json JsonText JsonFacts PyTime Contracts Events EventStore.
From S2P Require Import Projections ExecutionPlan RunLifecycle OutputSchema Gateway PlanCompiler AttemptPolicy.
From S2P Require Import ExecutionRuntime.
From Stdlib Require Import ZArith Lia Ascii String.
From stdpp Require Import base gmap sets list strings.
Local Open Scope Z_scope.

(** ** Errors *)
Definition public_run_active : exn := ExecutionRuntimeError "execution-public-run-already-active".
Definition idempotency_conflict : exn := ExecutionRuntimeError "execution-idempotency-conflict".
Definition concurrency_conflict : exn := ExecutionRuntimeError "execution-concurrency-conflict".
Definition run_not_found : exn := ExecutionRuntimeError "execution-run-not-found".
Definition goal_not_found : exn := ExecutionRuntimeError "execution-goal-not-found".
Definition plan_not_found : exn := ExecutionRuntimeError "execution-plan-not-found".
Definition binding_mismatch : exn := ExecutionRuntimeError "execution-run-binding-mismatch".

(** ** The projection *)
Definition ExecutionRunProjection (normalize : string → string) : Projection (option ExecutionRunState) :=
  MkProjection "run-kernel" 6 None (run_apply normalize) (λ s, Ok (run_dump s)) run_load.

(** [enumerate(events, start=1)], with the event before each. *)
Fixpoint validate_from (sid : string) (sequence : Z) (previous : option EventEnvelope)
    (events : list EventEnvelope) : result unit :=
  match events with
  | [] => Ok tt
  | e :: events' =>
      _ ← event_require (bool_decide (stream_id e = sid) && (stream_sequence e =? sequence)
            && (schema_version e =? 1) && (public_event e || execution_event e)
            && match previous with
               | Some p => bool_decide (causation_id e = Some (event_id p)) | None => true end);
      validate_from sid (sequence + 1) (Some e) events'
  end.
Definition _validate_stream (events : list EventEnvelope) (sid : string) : result unit :=
  validate_from sid 1 None events.

(** ** Operations over the world *)

(** What the host provides to one operation. *)
Record occasion := MkOccasion { now : datetime; fresh_id : string }.

Record world (E : Type) := World { w_ledger : db; w_checkpoints : checkpoint_table; w_env : E }.
Arguments World {E}.
Arguments w_ledger {E}.
Arguments w_checkpoints {E}.
Arguments w_env {E}.

(** An operation that may raise; the world it reached survives the exception. *)
Definition op (E A : Type) : Type := world E → result A * world E.
#[export] Instance op_ret {E : Type} : MRet (op E) := λ A a w, (Ok a, w).
#[export] Instance op_bind {E : Type} : MBind (op E) := λ A B f m w,
  match m w with
  | (Ok a, w') => f a w'
  | (Err e, w') => (Err e, w')
  end.
#[export] Instance op_fmap {E : Type} : FMap (op E) := λ A B f m w,
  match m w with
  | (Ok a, w') => (Ok (f a), w')
  | (Err e, w') => (Err e, w')
  end.
Definition pure {E A : Type} (r : result A) : op E A := λ w, (r, w).
(** [with suppress(Exception): m] *)
Definition suppressed {E : Type} (m : op E unit) : op E unit := λ w, (Ok tt, (m w).2).
(** [m] at the tables as they are, which it does not change. *)
Definition reading {E A : Type} (f : db → checkpoint_table → result A) : op E A := λ w,
  (f (w_ledger w) (w_checkpoints w), w).

Module Journal.
Section Journal.
Context {E : Type} (path : string) (resolve : string → string) (set_order : list string → list string).
Context (normalize : string → string).
Context (environment : world E → occasion * world E).

Abbreviation projection := (ExecutionRunProjection normalize).
Abbreviation op := (op E).

(** The world as the environment leaves it to an operation. *)
Definition step {A} (f : occasion → op A) : op A := λ w, let '(o, w') := environment w in f o w'.

(** [except ExecutionRuntimeError, TypeError, ValueError] *)
Definition rebuild_failure (e : exn) : bool :=
  value_or_type e || match e with ExecutionRuntimeError _ => true | _ => false end.

Definition _rebuild (run_id : string) (ledger : db) (table : checkpoint_table)
    : result (ReplayResult (option ExecutionRunState)) :=
  sid ← _stream_id run_id;
  events ← read_stream ledger sid 0 None None;
  _ ← _validate_stream events sid;
  checkpoint ← load table (name projection) (version projection) (Some sid);
  match rebuild ledger projection (Some sid) checkpoint, checkpoint with
  | Err e, Some _ => if rebuild_failure e then rebuild ledger projection (Some sid) None else Err e
  | r, _ => r
  end.

Definition rehydrate (run_id : string) : op ExecutionRunState :=
  step (λ _, reading (λ ledger table,
    r ← _rebuild run_id ledger table; of_option run_not_found (rr_state r))).

Definition events (run_id : string) : op (list EventEnvelope) :=
  step (λ _, reading (λ ledger _,
    sid ← _stream_id run_id;
    events ← read_stream ledger sid 0 None None;
    _ ← _validate_stream events sid;
    Ok events)).

(** [self._checkpoints.save]: what it raises leaves the table alone. *)
Definition save_checkpoint_row (c : ProjectionCheckpoint) (expected : option Z) : op ProjectionCheckpoint := λ w,
  let '(r, table) := save c expected (w_checkpoints w) in
  (r, World (w_ledger w) table (w_env w)).

Definition _save_checkpoint (run_id : string) : op ProjectionCheckpoint :=
  step (λ o,
    sid ← pure (_stream_id run_id);
    prior ← reading (λ _ table, load table (name projection) (version projection) (Some sid));
    result ← reading (λ ledger _, rebuild ledger projection (Some sid) prior);
    c ← pure (checkpoint (now o) result projection (Some sid));
    save_checkpoint_row c (Some (from_option cp_last_global_position 0 prior))).

Definition snapshot (run_id : string) : op ProjectionCheckpoint :=
  _ ← rehydrate run_id; _save_checkpoint run_id.

(** [except (ConcurrencyError, EventConflictError, IdempotencyConflict)] *)
Definition append_conflict (e : exn) : bool :=
  match e with ConcurrencyError _ _ _ | EventConflictError | IdempotencyConflict => true | _ => false end.

(** [thaw_json(prior.payload) != expected] *)
Definition same_payload (prior : EventEnvelope) (expected : payload_map) : bool :=
  match freeze_payload (obj expected) with
  | Ok kvs => py_eq (JObj (payload prior)) (JObj kvs)
  | Err _ => false
  end.

Definition idempotency_key_of (event_type : string) (payload : payload_map)
    (current : option ExecutionRunState) : result string :=
  let '(plan_id, plan_version) :=
    if bool_decide (event_type = EXECUTION_PLAN_ADMITTED)
    then (pget "plan_id" payload, pget "plan_version" payload)
    else (popt (current ≫= xs_plan_id), poptint (current ≫= xs_plan_revision)) in
  digest ← json_digest (obj [("plan_id", plan_id); ("plan_version", plan_version); ("payload", obj payload)]);
  Ok (event_type +:+ ":" +:+ digest).

(** What [append] finds in the tables before it writes: the stream, the state
    and the key of the event. *)
Definition prepare (run_id event_type : string) (payload : payload_map) (ledger : db)
    (table : checkpoint_table)
    : result (string * list EventEnvelope * option ExecutionRunState * string) :=
  sid ← _stream_id run_id;
  existing ← read_stream ledger sid 0 None None;
  _ ← _validate_stream existing sid;
  _ ← raise_if (bool_decide (event_type = EXECUTION_GOAL_ADMITTED)
                && (1 <? zlen (filter (λ e, public_event e = true) existing))) public_run_active;
  r ← _rebuild run_id ledger table;
  key ← idempotency_key_of event_type payload (rr_state r);
  Ok (sid, existing, rr_state r, key).

(** The envelope of a new event. *)
Definition new_event (o : occasion) (run_id sid event_type actor key : string) (payload : payload_map)
    (existing : list EventEnvelope) : result EventEnvelope :=
  create (now o) (fresh_id o) sid (zlen existing + 1) event_type actor EXECUTION_EVENT_SOURCE
    (Some (obj (("run_id", PStr run_id) :: payload))) 1 None None (Some run_id)
    (event_id <$> last existing) (Some key) None.

(** [self._events.append], with its exceptions translated. *)
Definition store (e : EventEnvelope) (sequence : Z) : op EventEnvelope := λ w,
  let '(r, ledger) := EventStore.append path resolve set_order e sequence (w_ledger w) in
  (recast append_conflict concurrency_conflict r, World ledger (w_checkpoints w) (w_env w)).

Definition outcome_status (s : ExecutionRunState) : bool := bool_decide (xs_status s ∈ _RUN_OUTCOME_STATUSES).

Definition append (run_id event_type : string) (payload : payload_map) (actor : string) : op EventEnvelope :=
  _ ← pure (event_require (bool_decide (event_type ∈ EXECUTION_EVENT_TYPES) && negb (blank actor)
              && negb (bool_decide ("run_id" ∈ dict_keys payload))));
  '(sid, existing, current, key) ← step (λ _, reading (prepare run_id event_type payload));
  match List.find (λ e, bool_decide (idempotency_key e = Some key)) existing with
  | Some prior =>
      _ ← pure (raise_if (negb (bool_decide (Events.event_type prior = event_type)
                                && bool_decide (source prior = EXECUTION_EVENT_SOURCE)
                                && bool_decide (Events.actor prior = actor)
                                && same_payload prior (("run_id", PStr run_id) :: payload)))
                  idempotency_conflict);
      mret prior
  | None =>
      stored ← step (λ o,
        e ← pure (new_event o run_id sid event_type actor key payload existing);
        _ ← pure (run_apply normalize current e);
        store e (zlen existing));
      state ← rehydrate run_id;
      _ ← (if (xs_last_stream_sequence state mod 100 =? 0) || outcome_status state
           then suppressed (_ ← _save_checkpoint run_id; mret tt)
           else mret tt);
      mret stored
  end.

(** ** Reading a run back *)

Definition promotion_candidate (run_id : string) : op (option PraxisPromotionCandidate) :=
  state ← rehydrate run_id;
  match xs_plan_id state, List.find (λ t, 2 <=? ts_same_error_count t) (xs_tasks state) with
  | Some plan_id, Some task =>
      if negb (bool_decide (xs_status state = RunPhase.ESCALATED)) then mret None
      else
        all ← events run_id;
        let cited := filter (λ e, event_id e ∈ ts_evidence_event_ids task) all in
        if zlen cited <? 2 then mret None
        else
          identity ← pure (json_digest (obj
            [("run_id", PStr run_id); ("plan_id", PStr plan_id); ("task_id", PStr (ts_task_id task));
             ("evidence_event_ids", pstrs (map event_id cited))]));
          candidate ← pure (promotion_candidate_init (MkCandidate
            ("candidate-" +:+ take_bytes 32 (remove_prefix "sha256:" identity)) run_id plan_id
            (ts_task_id task) "repeated-error-signature" (map event_id cited) (map payload_hash cited)
            EXECUTION_PROMOTION_CANDIDATE_SCHEMA));
          mret (Some candidate)
  | _, _ => mret None
  end.

(** [_mapping(thaw_json(event.payload)).get(field)], read by [read]. *)
Definition payload_field {A} (read : pyval → result A) (field : string) (e : EventEnvelope) : result A :=
  recast rebuild_failure invalid_event
    (raw ← _mapping (thaw_json (JObj (Events.payload e))); read (pget field raw)).
Definition has_type (type : string) (e : EventEnvelope) : bool := bool_decide (event_type e = type).

Definition goal (run_id : string) : op GoalSpec :=
  all ← events run_id;
  e ← pure (of_option goal_not_found (List.find (has_type EXECUTION_GOAL_ADMITTED) all));
  goal ← pure (payload_field goal_from_payload "goal" e);
  state ← rehydrate run_id;
  _ ← pure (raise_if (negb (bool_decide (goal_id goal = rb_goal_id (xs_binding state)))) binding_mismatch);
  digest ← pure (goal_digest goal);
  _ ← pure (raise_if (negb (bool_decide (digest = rb_goal_digest (xs_binding state)))) binding_mismatch);
  mret goal.

Definition plan (run_id : string) : op Plan :=
  all ← events run_id;
  e ← pure (of_option plan_not_found (List.find (has_type EXECUTION_PLAN_ADMITTED) (rev all)));
  plan ← pure (payload_field plan_from_payload "plan" e);
  state ← rehydrate run_id;
  _ ← pure (raise_if (negb (bool_decide (Some (plan_id plan) = xs_plan_id state)
                            && bool_decide (Some (plan_digest plan) = xs_plan_digest state)))
              binding_mismatch);
  mret plan.
End Journal.
End Journal.
