(* ===== verification/RunJournalFacts.v ===== *)
(** * Checkpoints never change what the journal answers

    A checkpoint only accelerates: as long as the table holds nothing but
    checkpoints of the ledger's past ([honest]), which every operation of the
    journal preserves, [rehydrate] answers exactly the fold of the run's stream. *)

From S2P Require Import Prelude PyStr PyFloat Sha256 Json JsonText JsonFacts PyTime Contracts JsonShape Events.
From S2P Require Import ExecutionPlan RunLifecycle OutputSchema Gateway PlanCompiler AttemptPolicy.
From S2P Require Import ExecutionRuntime RuntimeFacts RuntimeCheckpoint EventStore Projections RunJournal.
From Stdlib Require Import ZArith Lia Ascii String.
From stdpp Require Import base gmap sets list strings.
Create HintDb keeps discriminated.
Local Open Scope Z_scope.

(** ** A resumed rebuild that succeeds is a full one *)

Section Resume.
Context {S : Type} (P : Projection S).

(** The checkpoint of the state restores it. *)
Definition restores (s : S) : Prop :=
  ∀ v j j', dump_state P s = Ok v → freeze_json "$.state" v = Ok j → json_wf j' = true →
    sort_json j' = sort_json j → load_state P (thaw_json j') = Ok s.

Lemma rebuild_scratch d scope r : db_ok d → rebuild d P scope None = Ok r → ∃ ev,
  map_result _event_from_row (scope_rows d scope) = Ok ev
  ∧ fold_result (Projections.apply P) (initial_state P) ev = Ok (rr_state r)
  ∧ rr_last_global_position r = from_option position 0 (last ev)
  ∧ rr_last_stream_sequence r = stream_sequence <$> last ev.
Proof.
  intros Hd H. unfold rebuild in H. rewrite rebuild_events_full in H by done.
  apply bind_ok in H as (ev & Hev & H).
  apply replay_scratch in H as (s & Hs & <- & _ & Hp & Hq & _);
    [|by eapply read_increasing, scope_rows_increasing].
  by exists ev.
Qed.

(** What a successful replay from the start is made of. *)
Lemma replay_scratch_intro ev s v h : increasing 0 ev → 1 <= version P →
  fold_result (Projections.apply P) (initial_state P) ev = Ok s → dump_state P s = Ok v → json_digest v = Ok h →
  ∃ r, replay P ev None = Ok r ∧ rr_state r = s.
Proof.
  intros Hinc Hv Hs Hd Hh. unfold replay. rewrite (proj2 (Z.ltb_ge _ _)) by done.
  cbn [raise_if mbind result_bind replay_start option_bind].
  rewrite replay_fold; [|done|done|by intros ? ? ? [=]]. cbn [p_state]. rewrite Hs. cbn [mbind result_bind].
  unfold replay_finish. unfold after. destruct (last ev); cbn [p_state]; rewrite Hd; cbn [mbind result_bind];
    rewrite Hh; eexists; (split; [reflexivity|done]).
Qed.

Lemma resumed_full d d' scope r c c' now resumed :
  restores (rr_state r) → db_ok d → db_ok d' → kernel_events d `prefix_of` kernel_events d' →
  rebuild d P scope None = Ok r → checkpoint now r P scope = Ok c → c' = stored_checkpoint c →
  rebuild d' P scope (Some c') = Ok resumed → ∃ full, rebuild d' P scope None = Ok full.
Proof.
  intros Hrestore Hd Hd' Hpre Hr Hc -> H.
  apply rebuild_scratch in Hr as (ev & Hev & Hs & Hp & Hq); [|done].
  destruct (scope_rows_app d d' scope Hpre) as [new Hnew].
  pose proof (last_event _ _ Hev) as [Hlp Hls].
  apply checkpoint_of_replay in Hc as (Hok & G1 & G2 & G3 & G4 & G5 & _ & v & Hdump & Hfreeze).
  unfold rebuild in H. rewrite (rebuild_events_rest d d' scope (stored_checkpoint c) new) in H; try done.
  2: { cbn. by rewrite G4, Hp, Hlp. }
  2: { cbn. intros Hsc. destruct scope; [|done]. by rewrite G5, Hq, Hls. }
  apply bind_ok in H as (rest & Hrest & H). unfold replay in H.
  apply bind_ok in H as (u & Hv%raise_if_ok%Z.ltb_ge & H). apply bind_ok in H as (start & Hstart & H).
  cbn [replay_start stored_checkpoint cp_state] in Hstart. apply bind_ok in Hstart as (u' & _ & Hstart).
  rewrite (Hrestore v (cp_state c) (sort_json (cp_state c)) Hdump Hfreeze) in Hstart;
    [|apply sort_json_wf, Hok|apply sort_json_idemp].
  cbn [mbind result_bind] in Hstart. injection Hstart as <-.
  pose proof (scope_rows_increasing d' scope Hd') as Hinc.
  assert (Hevs : map_result _event_from_row (scope_rows d' scope) = Ok (ev ++ rest)).
  { rewrite Hnew. apply map_result_ok. apply map_result_ok in Hev, Hrest. by apply Forall2_app. }
  rewrite replay_fold in H.
  - cbn [p_state] in H. apply bind_ok in H as (final & Hf & H). apply bind_ok in Hf as (s' & Hs' & [= <-]).
    unfold replay_finish in H. apply bind_ok in H as (v' & Hd2 & H). apply bind_ok in H as (h & Hh & _).
    assert (Hd2' : dump_state P s' = Ok v') by (unfold after in Hd2; by destruct (last rest)).
    destruct (replay_scratch_intro (ev ++ rest) s' v' h) as (full & Hfull & _); try done.
    + by eapply read_increasing.
    + rewrite fold_result_app, Hs. done.
    + exists full. unfold rebuild. rewrite rebuild_events_full by done. by rewrite Hevs.
  - cbn [last_position stored_checkpoint cp_last_global_position]. rewrite G4, Hp, Hlp.
    rewrite Hnew in Hinc. apply rows_increasing_app in Hinc. by eapply read_increasing.
  - cbn. apply Hok.
  - intros e sid He Hsid. cbn in Hsid. rewrite G3 in Hsid.
    eapply rows_of_stream; [exact Hevs|apply elem_of_app; by right|done].
Qed.
End Resume.

(** ** The projection of runs *)

Lemma row_event_valid r e : _event_from_row r = Ok e → event_valid e.
Proof.
  unfold _event_from_row. intros H. do 4 (apply bind_ok in H as (? & _ & H)).
  unfold event_init in H. apply bind_ok in H as (? & Hid & H). do 7 (apply bind_ok in H as (? & _ & H)).
  apply bind_ok in H as (? & Hseq%raise_if_ok%Z.ltb_ge & H). do 7 (apply bind_ok in H as (? & _ & H)).
  injection H as <-. split; cbn; [|lia]. unfold _required_text in Hid. by destruct (r_event_id r).
Qed.

Section Runs.
Context (normalize : string → string).
Abbreviation P := (ExecutionRunProjection normalize).

(** The checkpoint of a state that cannot be loaded. *)
Definition refused (s : option ExecutionRunState) : Prop :=
  ∀ j j', freeze_json "$.state" (run_dump s) = Ok j → json_wf j' = true → sort_json j' = sort_json j →
    run_load (thaw_json j') = Err invalid_checkpoint.

Lemma reached_restores d sid r : db_ok d → rebuild d P (Some sid) None = Ok r →
  restores P (rr_state r) ∨ refused (rr_state r).
Proof.
  intros Hd H. apply rebuild_scratch in H as (ev & Hev & Hs & _); [|done].
  assert (Hv : Forall event_valid ev).
  { apply map_result_ok in Hev. clear Hs. induction Hev; constructor; [by eapply row_event_valid|done]. }
  destruct (rr_state r) as [s|] eqn:E.
  - pose proof (fun j j' => checkpoint_exact normalize ev s j j' Hs Hv) as Hx.
    destruct (forallb blocked_agrees (xs_tasks s)).
    + left. intros v j j' [= <-] Hj Hw Hsort. apply (Hx j j' Hj). by split.
    + right. intros j j' Hj Hw Hsort. apply (Hx j j' Hj). by split.
  - left. intros v j j' [= <-] [= <-] Hw Hsort. by destruct j'.
Qed.

(** The checkpoint, as it is read back, of a rebuild of some past of the ledger. *)
Definition checkpoint_of (d : db) (sid : string) (c' : ProjectionCheckpoint) : Prop :=
  ∃ d0 r now c, db_ok d0 ∧ kernel_events d0 `prefix_of` kernel_events d
    ∧ rebuild d0 P (Some sid) None = Ok r ∧ checkpoint now r P (Some sid) = Ok c
    ∧ c' = stored_checkpoint c.

(** The table holds only checkpoints of the ledger's past. *)
Definition honest (d : db) (t : checkpoint_table) : Prop :=
  ∀ sid row, t !! (name P, version P, sid) = Some row →
    ∃ c', _checkpoint_from_row row = Ok c' ∧ checkpoint_of d sid c'.

Definition good {E} (w : world E) : Prop := db_ok (w_ledger w) ∧ honest (w_ledger w) (w_checkpoints w).

Lemma checkpoint_of_grows d d' sid c : kernel_events d `prefix_of` kernel_events d' →
  checkpoint_of d sid c → checkpoint_of d' sid c.
Proof. intros Hp (d0 & r & now & c0 & ? & ? & ?). exists d0, r, now, c0. split_and!; [done|by etrans|naive_solver..]. Qed.

Lemma honest_grows d d' t : kernel_events d `prefix_of` kernel_events d' → honest d t → honest d' t.
Proof. intros Hp H sid row (c & Hc & ?)%H. exists c. split; [done|]. by eapply checkpoint_of_grows. Qed.

(** Two answers with the same checkpoint. *)
Definition same_answer {S} (r r' : ReplayResult S) : Prop :=
  rr_state r = rr_state r' ∧ rr_last_global_position r = rr_last_global_position r'
  ∧ rr_last_stream_sequence r = rr_last_stream_sequence r'.

Lemma same_checkpoint {S} (Q : Projection S) now r r' scope : same_answer r r' →
  checkpoint now r Q scope = checkpoint now r' Q scope.
Proof. intros (H1 & H2 & H3). unfold checkpoint. by rewrite H1, H2, H3. Qed.

(** Where both rebuilds answer, they answer the same; a checkpoint that cannot
    be loaded is refused with an error the journal recovers from. *)
Lemma resumed_answers d sid c : db_ok d → checkpoint_of d sid c →
  (∀ r, rebuild d P (Some sid) (Some c) = Ok r → ∃ full, rebuild d P (Some sid) None = Ok full
    ∧ same_answer r full)
  ∧ (∀ full, rebuild d P (Some sid) None = Ok full →
      (∃ r, rebuild d P (Some sid) (Some c) = Ok r)
      ∨ rebuild d P (Some sid) (Some c) = Err invalid_checkpoint).
Proof.
  intros Hd (d0 & r0 & now & c0 & Hd0 & Hp & Hr0 & Hc0 & ->).
  assert (Hresume : restores P (rr_state r0) → ∀ full, rebuild d P (Some sid) None = Ok full →
    ∃ r, rebuild d P (Some sid) (Some (stored_checkpoint c0)) = Ok r ∧ same_answer r full).
  { intros Hre full Hfull.
    apply (resume_rebuild P d0 d (Some sid) r0 c0 (stored_checkpoint c0) now full Hre) in Hfull
      as (r & Hr & Hs & _ & Hpos & Hseq & _); try done; [|by right]. exists r. split; [done|]. split; [done|]. split; [done|]. by apply Hseq. }
  destruct (reached_restores d0 sid r0 Hd0 Hr0) as [Hre|Href].
  - split; [|intros full (r & ? & _)%(Hresume Hre); eauto].
    intros r Hr. destruct (resumed_full P d0 d (Some sid) r0 c0 _ now r Hre Hd0 Hd Hp Hr0 Hc0 eq_refl Hr)
      as [full Hfull].
    exists full. split; [done|]. destruct (Hresume Hre _ Hfull) as (r' & Hr' & Hsame). rewrite Hr in Hr'. by injection Hr' as ->.
  - assert (Hstart : replay_start P (Some (stored_checkpoint c0)) = Err invalid_checkpoint).
    { apply checkpoint_of_replay in Hc0 as (Hok & G1 & G2 & _ & _ & _ & _ & v & [= <-] & Hf).
      cbn [replay_start]. unfold _validate_checkpoint, stored_checkpoint.
      cbn [projection_name projection_version cp_state]. rewrite G1, G2, bool_decide_true, Z.eqb_refl by done.
      cbn [mbind result_bind raise_if negb]. cbn [load_state ExecutionRunProjection].
      rewrite (Href _ (sort_json (cp_state c0)) Hf); [done|apply sort_json_wf, Hok|apply sort_json_idemp]. }
    assert (Hreplay : ∀ evs, replay P evs (Some (stored_checkpoint c0)) = Err invalid_checkpoint)
      by (intros evs; unfold replay; cbn [raise_if version ExecutionRunProjection Z.ltb mbind result_bind]; by rewrite Hstart).
    split; intros r Hr.
    + unfold rebuild in Hr. apply bind_ok in Hr as (evs & _ & Hr). by rewrite Hreplay in Hr.
    + right. apply rebuild_scratch in Hr as (ev & Hev & _); [|done].
      destruct (scope_rows_app d0 d (Some sid) Hp) as [new Hnew]. rewrite Hnew in Hev.
      apply map_result_app in Hev as (ev0 & rest & -> & Hev0 & Hrest). unfold rebuild.
      pose proof Hr0 as (ev1 & Hev1 & _ & Hp1 & Hq1)%rebuild_scratch; [|done].
      pose proof (last_event _ _ Hev1) as [Hlp Hls].
      apply checkpoint_of_replay in Hc0 as (_ & _ & _ & _ & G4 & G5 & _).
      rewrite (rebuild_events_rest d0 d (Some sid) (stored_checkpoint c0) new), Hrest; try done.
      * cbn [mbind result_bind]. apply Hreplay.
      * cbn. by rewrite G4, Hp1, Hlp.
      * intros _. cbn. by rewrite G5, Hq1, Hls.
Qed.

Lemma scope_is_id sid scope : _scope (Some sid) = Ok scope → scope = sid.
Proof. unfold _scope. intros H. do 2 (apply bind_ok in H as (? & _ & H)). by injection H. Qed.

(** What the journal answers does not depend on the checkpoints it finds. *)
Lemma rebuild_transparent d t run_id s : db_ok d → honest d t →
  (∃ r, Journal._rebuild normalize run_id d t = Ok r ∧ rr_state r = s) ↔
  (∃ r, Journal._rebuild normalize run_id d ∅ = Ok r ∧ rr_state r = s).
Proof.
  intros Hd Ht. unfold Journal._rebuild. destruct (_stream_id run_id) as [sid|e]; [|naive_solver].
  cbn [mbind result_bind]. destruct (read_stream d sid 0 None None) as [evs|e]; [|naive_solver].
  cbn [mbind result_bind]. destruct (_validate_stream evs sid); [|naive_solver]. cbn [mbind result_bind].
  unfold load. destruct (_scope (Some sid)) as [scope|e] eqn:Es; [|naive_solver]. cbn [mbind result_bind].
  apply scope_is_id in Es as ->. rewrite lookup_empty.
  replace (int64_ok (version P)) with true by done. cbn [raise_if negb mbind result_bind].
  destruct (t !! _) as [row|] eqn:Erow; [|done]. destruct (Ht _ _ Erow) as (c & -> & Hc).
  cbn [fmap result_fmap mbind result_bind].
  destruct (resumed_answers d sid c Hd Hc) as [Hsound Hcomplete].
  split; intros (r & Hr & Hs).
  - assert (Hfull : ∃ full, rebuild d P (Some sid) None = Ok full ∧ rr_state full = s).
    { destruct (rebuild d P (Some sid) (Some c)) as [r'|e].
      - injection Hr as ->. destruct (Hsound r eq_refl) as (full & Hf & E & _). exists full. by rewrite <-E.
      - destruct (Journal.rebuild_failure e); [|done]. by exists r. }
    destruct Hfull as (full & -> & ?). by exists full.
  - assert (Hfull : rebuild d P (Some sid) None = Ok r) by (by destruct (rebuild d P (Some sid) None)).
    destruct (Hcomplete r Hfull) as [[r' Hr']|Hr']; rewrite Hr'.
    + destruct (Hsound r' Hr') as (full & Hf & E & _). exists r'. split; [done|]. congruence.
    + by exists r.
Qed.


(** ** Every operation keeps the table honest *)

Lemma task_json_no_float t : no_float (JObj (task_json t)) = true.
Proof.
  cbn [task_json no_float forallb snd fst]. rewrite !strs_no_float, !opt_no_float. by destruct (ts_pending_allowed t).
Qed.

Lemma run_dump_text s j : freeze_json "$.state" (run_dump s) = Ok j → json_text_ok j = true.
Proof.
  intros H. apply no_float_text_ok. destruct s as [s|]; [|by injection H as <-].
  apply (frozen _ (JObj (run_json s))) in H as ->; [|symmetry; apply thaw_run|apply run_json_wf].
  cbn [run_json no_float forallb snd fst]. rewrite !strs_no_float, !opt_no_float.
  assert (forallb no_float (map (λ t, JObj (task_json t)) (xs_tasks s)) = true) as ->.
  { apply forallb_elem. intros x (t & -> & _)%list_elem_of_fmap. apply task_json_no_float. }
  by destruct (xs_plan_revision s).
Qed.

(** Saving the checkpoint of a rebuild of the past. *)
Lemma save_honest d d0 sid r o c exp t res t' : honest d t → db_ok d0 → kernel_events d0 `prefix_of` kernel_events d →
  rebuild d0 P (Some sid) None = Ok r → checkpoint o r P (Some sid) = Ok c → astimezone_utc o = Ok o →
  save c exp t = (res, t') → honest d t'.
Proof.
  intros Ht Hd0 Hp Hr Hc Ho [(e & -> & ->)|(scope & row & Hscope & _ & H)]%save_cases; [done|].
  destruct H as [(old & _ & _ & _ & _ & _ & ->)|(_ & Hrow & -> & ->)]; [done|].
  pose proof Hc as (Hok & G1 & G2 & G3 & _ & _ & G6 & v & [= <-] & Hf)%checkpoint_of_replay.
  rewrite G3 in Hscope. pose proof (scope_is_id _ _ Hscope) as ->. rewrite G1, G2.
  intros sid' row' Hl. destruct (decide (sid' = sid)) as [->|Hne].
  - rewrite lookup_insert_eq in Hl. injection Hl as <-. exists (stored_checkpoint c). split.
    + apply (checkpoint_row_reads c sid); try done; [by eapply run_dump_text|by rewrite G6|by rewrite G3].
    + by exists d0, r, o, c.
  - rewrite lookup_insert_ne in Hl by congruence. by apply Ht.
Qed.

(** A rebuild that starts from the table's checkpoint is checkpointed as a full one. *)
Lemma rebuilt_checkpoint d t sid prior r o c : db_ok d → honest d t →
  load t (name P) (version P) (Some sid) = Ok prior → rebuild d P (Some sid) prior = Ok r →
  checkpoint o r P (Some sid) = Ok c →
  ∃ full, rebuild d P (Some sid) None = Ok full ∧ checkpoint o full P (Some sid) = Ok c.
Proof.
  intros Hd Ht Hload Hr Hc. unfold load in Hload. apply bind_ok in Hload as (scope & Hs%scope_is_id & Hload).
  subst scope. apply bind_ok in Hload as (? & _ & Hload).
  destruct (t !! _) as [row|] eqn:Erow; [|injection Hload as <-; by exists r].
  destruct (Ht _ _ Erow) as (c' & Hc' & Hof). rewrite Hc' in Hload. injection Hload as <-.
  destruct (resumed_answers d sid c' Hd Hof) as [Hsound _].
  destruct (Hsound r Hr) as (full & Hf & Hsame). exists full. split; [done|].
  by rewrite <-(same_checkpoint P o r full).
Qed.
End Runs.

(** ** The world *)

Section Worlds.
Context {E : Type} (path : string) (resolve : string → string) (set_order : list string → list string).
Context (Hset : ∀ l, set_order l ≡ₚ l).
Context (normalize : string → string) (environment : world E → occasion * world E).
Abbreviation P := (ExecutionRunProjection normalize).

(** What another process can do to the tables: append to the ledger, checkpoint
    a run, or checkpoint another projection. *)
Inductive tables_step : world E → world E → Prop :=
| ledger_step d d' t x x' events expected res :
    append_many path resolve set_order events expected d = (res, d') →
    tables_step (World d t x) (World d' t x')
| checkpoint_step d t t' x x' d0 sid r o c expected res :
    db_ok d0 → kernel_events d0 `prefix_of` kernel_events d →
    rebuild d0 P (Some sid) None = Ok r → checkpoint o r P (Some sid) = Ok c →
    astimezone_utc o = Ok o → save c expected t = (res, t') →
    tables_step (World d t x) (World d t' x')
| other_step d t t' x x' c expected res :
    projection_name c ≠ name P → save c expected t = (res, t') →
    tables_step (World d t x) (World d t' x').

(** The host: other processes only take such steps, and [utc_now()] is in UTC. *)
Context (env_steps : ∀ w, rtc tables_step w (environment w).2).
Context (clock_utc : ∀ w, astimezone_utc (now (environment w).1) = Ok (now (environment w).1)).

Lemma append_many_grows events expected d res d' : db_ok d →
  append_many path resolve set_order events expected d = (res, d') →
  db_ok d' ∧ kernel_events d `prefix_of` kernel_events d'.
Proof.
  intros Hok [(e & -> & ->)|[[-> ->]|(out & -> & H)]]%append_many_cases; [done..|].
  eapply append_in_transaction_ok in H as [? (new & ->)]; [|done..]. split; [done|]. by exists new.
Qed.

(** Where a world can go: it stays good and its ledger only grows. *)
Definition moves (w w' : world E) : Prop :=
  good normalize w → good normalize w' ∧ kernel_events (w_ledger w) `prefix_of` kernel_events (w_ledger w').

Lemma moves_refl w : moves w w.
Proof. by intros. Qed.
Lemma moves_trans w1 w2 w3 : moves w1 w2 → moves w2 w3 → moves w1 w3.
Proof. intros H1 H2 [Hw Hp]%H1. apply H2 in Hw as [? ?]. split; [done|by etrans]. Qed.

Lemma moves_append events expected (w : world E) res d' x :
  append_many path resolve set_order events expected (w_ledger w) = (res, d') →
  moves w (World d' (w_checkpoints w) x).
Proof.
  intros H [Hd Ht]. apply append_many_grows in H as [Hd' Hp]; [|done]. split; [|done]. split; [done|].
  by eapply honest_grows.
Qed.

Lemma tables_step_moves w w' : tables_step w w' → moves w w'.
Proof.
  intros [d d' t x x' evs exp res H|d t t' x x' d0 sid r o c exp res Hd0 Hp Hr Hc Ho H|d t t' x x' c exp res Hn H].
  - exact (moves_append _ _ (World d t x) res d' x' H).
  - intros [Hd Ht]. split; [|done]. split; [done|].
    eapply save_honest; [exact Ht|exact Hd0|exact Hp|exact Hr|exact Hc|exact Ho|exact H].
  - intros [Hd Ht]. split; [|done]. split; [done|].
    apply save_cases in H as [(? & _ & ->)|(scope & row & _ & _ & H)]; [done|].
    destruct H as [(? & _ & _ & _ & _ & _ & ->)|(_ & _ & _ & ->)]; [done|].
    intros sid row' Hl. cbn [w_checkpoints] in Hl. rewrite lookup_insert_ne in Hl by congruence. by apply Ht.
Qed.
Lemma tables_steps_move w w' : rtc tables_step w w' → moves w w'.
Proof. induction 1; [apply moves_refl|]. eapply moves_trans; [by apply tables_step_moves|done]. Qed.
Lemma environment_moves w : moves w (environment w).2.
Proof. apply tables_steps_move, env_steps. Qed.

(** An operation that keeps the world good, whatever it answers. *)
Definition keeps {A} (m : op E A) : Prop := ∀ w, moves w (m w).2.

Lemma keeps_pure {A} (r : result A) : keeps (pure r).
Proof. intros w. apply moves_refl. Qed.
Lemma keeps_ret {A} (a : A) : keeps (mret a).
Proof. intros w. apply moves_refl. Qed.
Lemma keeps_reading {A} (f : db → checkpoint_table → result A) : keeps (reading f).
Proof. intros w. apply moves_refl. Qed.
Lemma keeps_bind {A B} (m : op E A) (f : A → op E B) : keeps m → (∀ a, keeps (f a)) → keeps (m ≫= f).
Proof.
  intros Hm Hf w. specialize (Hm w). unfold mbind, op_bind. destruct (m w) as [[a|e] w']; [|exact Hm].
  eapply moves_trans; [exact Hm|apply Hf].
Qed.
Lemma keeps_fmap {A B} (g : A → B) (m : op E A) : keeps m → keeps (g <$> m).
Proof. intros Hm w. specialize (Hm w). unfold fmap, op_fmap. by destruct (m w) as [[a|e] w']. Qed.
Lemma keeps_suppressed (m : op E unit) : keeps m → keeps (suppressed m).
Proof. intros Hm w. apply Hm. Qed.
Lemma keeps_step {A} (f : occasion → op E A) : (∀ o, keeps (f o)) → keeps (Journal.step environment f).
Proof.
  intros Hf w. unfold Journal.step. pose proof (environment_moves w) as He.
  destruct (environment w) as [o w']. eapply moves_trans; [exact He|apply Hf].
Qed.

Ltac keeps := repeat match goal with
  | |- keeps (_ ≫= _) => apply keeps_bind
  | |- keeps (Journal.step _ _) => apply keeps_step
  | |- keeps (suppressed _) => apply keeps_suppressed
  | |- ∀ _, _ => intros ?
  | |- keeps (match ?x with _ => _ end) => destruct x
  end; auto with keeps.
#[local] Hint Resolve keeps_fmap keeps_pure keeps_ret keeps_reading keeps_bind keeps_suppressed keeps_step : keeps.

Lemma save_keeps run_id : keeps (Journal._save_checkpoint normalize environment run_id).
Proof.
  intros w. unfold Journal._save_checkpoint, Journal.step.
  pose proof (environment_moves w) as He. pose proof (clock_utc w) as Hclock.
  destruct (environment w) as [o w']. cbn [fst snd] in *. apply (moves_trans _ w' _ He). clear He. unfold mbind, op_bind, pure, reading.
  destruct (_stream_id run_id) as [sid|]; [|apply moves_refl]. cbv beta iota.
  destruct (load _ _ _ _) as [prior|] eqn:Hload; [|apply moves_refl]. cbv beta iota.
  destruct (rebuild _ _ _ _) as [r|] eqn:Hr; [|apply moves_refl]. cbv beta iota.
  destruct (checkpoint _ _ _ _) as [c|] eqn:Hc; [|apply moves_refl]. cbv beta iota.
  unfold Journal.save_checkpoint_row. destruct (save _ _ _) as [res t'] eqn:Hsave. intros [Hd Ht].
  destruct (rebuilt_checkpoint _ _ _ _ _ _ _ _ Hd Ht Hload Hr Hc) as (full & Hfull & Hcp).
  split; [|done]. split; [done|].
  eapply save_honest; [exact Ht|exact Hd|done|exact Hfull|exact Hcp|exact Hclock|exact Hsave].
Qed.

Lemma store_keeps e sequence : keeps (Journal.store path resolve set_order e sequence).
Proof.
  intros w. unfold Journal.store, EventStore.append, mbind, txn_bind.
  destruct (append_many _ _ _ _ _ _) as [res d'] eqn:H. pose proof (moves_append _ _ w res d' (w_env w) H) as Hg.
  destruct res; exact Hg.
Qed.
#[local] Hint Resolve save_keeps store_keeps : keeps.

Lemma rehydrate_keeps run_id : keeps (Journal.rehydrate normalize environment run_id).
Proof. unfold Journal.rehydrate. keeps. Qed.
Lemma events_keeps run_id : keeps (Journal.events environment run_id).
Proof. unfold Journal.events. keeps. Qed.
#[local] Hint Resolve rehydrate_keeps events_keeps : keeps.
Lemma snapshot_keeps run_id : keeps (Journal.snapshot normalize environment run_id).
Proof. unfold Journal.snapshot. keeps. Qed.
Lemma append_keeps run_id ty payload actor :
  keeps (Journal.append path resolve set_order normalize environment run_id ty payload actor).
Proof. unfold Journal.append. keeps. Qed.
Lemma goal_keeps run_id : keeps (Journal.goal normalize environment run_id).
Proof. unfold Journal.goal. keeps. Qed.
Lemma plan_keeps run_id : keeps (Journal.plan normalize environment run_id).
Proof. unfold Journal.plan. keeps. Qed.
Lemma promotion_keeps run_id : keeps (Journal.promotion_candidate normalize environment run_id).
Proof. unfold Journal.promotion_candidate. keeps. Qed.

(** The worlds a journal is used in: both tables start empty, and then anyone uses them. *)
Inductive reached : world E → Prop :=
| reached_new x : reached (World empty_db ∅ x)
| reached_other w w' : reached w → tables_step w w' → reached w'
| reached_append w run_id ty payload actor : reached w →
    reached (Journal.append path resolve set_order normalize environment run_id ty payload actor w).2
| reached_snapshot w run_id : reached w → reached (Journal.snapshot normalize environment run_id w).2
| reached_rehydrate w run_id : reached w → reached (Journal.rehydrate normalize environment run_id w).2
| reached_events w run_id : reached w → reached (Journal.events environment run_id w).2
| reached_goal w run_id : reached w → reached (Journal.goal normalize environment run_id w).2
| reached_plan w run_id : reached w → reached (Journal.plan normalize environment run_id w).2
| reached_promotion w run_id : reached w →
    reached (Journal.promotion_candidate normalize environment run_id w).2.

Lemma reached_good w : reached w → good normalize w.
Proof.
  induction 1.
  - split; [apply empty_db_ok|]. intros sid row H. cbn [w_checkpoints] in H. by rewrite lookup_empty in H.
  - by apply (tables_step_moves w).
  - by apply append_keeps.
  - by apply snapshot_keeps.
  - by apply rehydrate_keeps.
  - by apply events_keeps.
  - by apply goal_keeps.
  - by apply plan_keeps.
  - by apply promotion_keeps.
Qed.

(** A state rebuilt without a checkpoint is the fold of the run's stream. *)
Lemma rebuilt_folds d run_id r : db_ok d → Journal._rebuild normalize run_id d ∅ = Ok r →
  ∃ sid events, _stream_id run_id = Ok sid ∧ read_stream d sid 0 None None = Ok events
    ∧ _validate_stream events sid = Ok tt ∧ run_of normalize events = Ok (rr_state r).
Proof.
  intros Hd H. unfold Journal._rebuild in H. apply bind_ok in H as (sid & Hsid & H).
  apply bind_ok in H as (events & Hev & H). apply bind_ok in H as ([] & Hval & H).
  exists sid, events. split_and!; try done. apply bind_ok in H as (c & Hc & H).
  unfold load in Hc. apply bind_ok in Hc as (scope & Hscope & Hc). apply bind_ok in Hc as (? & _ & Hc).
  rewrite lookup_empty in Hc. injection Hc as <-.
  assert (Hr : rebuild d P (Some sid) None = Ok r) by (by destruct (rebuild d P (Some sid) None)).
  apply rebuild_scratch in Hr as (ev & Hev' & Hs & _); [|done].
  assert (ev = events) as ->; [|done].
  rewrite (read_stream_slice d sid 0 None) in Hev by done. rewrite drop_0 in Hev. cbn [limited] in Hev. cbn [scope_rows] in Hev'. rewrite Hev in Hev'. by injection Hev'.
Qed.

(** C15 (journal_rehydrates_fold): a checkpoint never changes what the journal
    answers. In every world that appends, snapshots and reads of the journal
    and of other processes can reach from empty tables, what [rehydrate]
    answers is the fold of the run's stream in the ledger, whatever checkpoints
    were saved; and rebuilding with the checkpoints that are in the table
    succeeds exactly when rebuilding without any does, with the same state,
    also when a checkpoint cannot be loaded. *)
Theorem journal_rehydrates_fold w run_id : reached w →
  (∀ s w', Journal.rehydrate normalize environment run_id w = (Ok s, w') →
    ∃ sid events, _stream_id run_id = Ok sid ∧ read_stream (w_ledger w') sid 0 None None = Ok events
      ∧ _validate_stream events sid = Ok tt ∧ run_of normalize events = Ok (Some s))
  ∧ (∀ s, (∃ r, Journal._rebuild normalize run_id (w_ledger w) (w_checkpoints w) = Ok r ∧ rr_state r = s)
      ↔ (∃ r, Journal._rebuild normalize run_id (w_ledger w) ∅ = Ok r ∧ rr_state r = s)).
Proof.
  intros Hw%reached_good. split.
  - intros s w' H. unfold Journal.rehydrate, Journal.step in H. destruct (environment_moves w Hw) as [[Hd Ht] _].
    destruct (environment w) as [o w1]. cbn [snd] in *. unfold reading in H. injection H as H <-.
    apply bind_ok in H as (r & Hr & Hs).
    destruct (proj1 (rebuild_transparent normalize _ _ run_id (rr_state r) Hd Ht)) as (r' & Hr' & Hst); [by exists r|].
    destruct (rebuilt_folds _ _ _ Hd Hr') as (sid & events & ? & ? & ? & Hf). exists sid, events.
    split_and!; try done. rewrite Hf, Hst. by destruct (rr_state r); inversion Hs.
  - intros s. destruct Hw. by apply rebuild_transparent.
Qed.
End Worlds.

(** What keeps the world good, for the clients of the journal. *)
#[export] Hint Resolve keeps_fmap keeps_pure keeps_ret keeps_reading rehydrate_keeps events_keeps append_keeps : keeps.
Ltac keeps_op := repeat match goal with
  | |- keeps _ (_ ≫= _) => apply keeps_bind
  | |- keeps _ (Journal.step _ _) => eapply keeps_step; try eassumption
  | |- ∀ _, _ => intros ?
  | |- keeps _ (match ?x with _ => _ end) => destruct x
  end; eauto with keeps.
