(* ===== verification/RunCoordinator.v ===== *)
(** * orchestration/execution_runtime.py: the coordinator of a run

    [ExecutionCoordinator] admits a plan for a run and drives its tasks through
    bounded attempts; every decision is an event of the journal.  The planning
    provider and the executor of attempts are arbitrary operations on the world:
    they may fail, take time in which other processes act, and answer anything. *)

From S2P Require Import Prelude PyStr PyFloat Sha256 Json JsonText JsonFacts PyTime Contracts Events EventStore.
From S2P Require Import Projections ExecutionPlan RunLifecycle OutputSchema Gateway PlanCompiler AttemptPolicy.
From S2P Require Import ExecutionRuntime RunJournal.
From Stdlib Require Import ZArith Lia Ascii String.
From stdpp Require Import base gmap sets list strings.
Local Open Scope Z_scope.

(** ** Errors *)
Definition planning_not_ambiguous : exn := ExecutionRuntimeError "execution-planning-not-ambiguous".
Definition replan_not_required : exn := ExecutionRuntimeError "execution-replan-not-required".
Definition provider_budget_invalid : exn := ExecutionRuntimeError "execution-provider-budget-invalid".
Definition blocked_task_invalid : exn := ExecutionRuntimeError "execution-blocked-task-invalid".
Definition pending_policy_invalid : exn := ExecutionRuntimeError "execution-pending-policy-invalid".

(** ** Budgets *)

Definition _remaining_budget (budget : GatewayBudget) (s : ExecutionRunState) : result GatewayBudget :=
  let u := xs_usage s in
  gateway_budget_init (MkBudget
    (Z.max 0 (max_input_tokens budget - us_input_tokens u))
    (Z.max 0 (max_output_tokens budget - us_output_tokens u))
    (Z.max 0 (max_latency_ms budget - us_latency_ms u))
    (Z.max 0 (max_cost_microusd budget - us_cost_microusd u))).
Definition _budget_within (candidate maximum : GatewayBudget) : bool :=
  (max_input_tokens candidate <=? max_input_tokens maximum)
  && (max_output_tokens candidate <=? max_output_tokens maximum)
  && (max_latency_ms candidate <=? max_latency_ms maximum)
  && (max_cost_microusd candidate <=? max_cost_microusd maximum).
Definition _provider_budget_exhausted (budget : GatewayBudget) : bool :=
  (max_input_tokens budget =? 0) || (max_output_tokens budget =? 0) || (max_latency_ms budget =? 0).
Definition _provider_usage_incomplete (s : ExecutionRunState) : bool :=
  let u := xs_usage s in
  negb (us_input_tokens_complete u) || negb (us_output_tokens_complete u)
  || negb (us_cost_microusd_complete u).
Definition _budget_overdrawn (budget : GatewayBudget) (s : ExecutionRunState) : bool :=
  let u := xs_usage s in
  (max_input_tokens budget <? us_input_tokens u) || (max_output_tokens budget <? us_output_tokens u)
  || (max_latency_ms budget <? us_latency_ms u) || (max_cost_microusd budget <? us_cost_microusd u).

(** ** Parts of an attempt *)

Definition _workspace_id (p : Plan) (t : TaskSpec) (n : Z) : result string :=
  _workspace_id_from_ids (plan_id p) (task_id t) n.

Definition _attempt_base_commit (s : ExecutionRunState) (t : TaskSpec) (goal_base_commit : string)
    : result string :=
  _ ← raise_if (negb (bool_decide (rb_goal_base_commit (xs_binding s) = goal_base_commit))) binding_mismatch;
  task ← _task s (task_id t);
  _expected_base_commit s task.

Definition _pending_policy_decision (t : ExecutionTaskState) (action : ToolActionRequest)
    : result (option PolicyDecision) :=
  match ts_pending_decision_id t with
  | None => Ok None
  | Some id =>
      match ts_pending_action_digest t, ts_pending_allowed t, ts_pending_reason t with
      | Some digest, Some allowed, Some reason =>
          decision ← recast value_or_type pending_policy_invalid
                       (policy_decision_init allowed reason digest);
          expected ← action_digest_of action;
          _ ← raise_if (negb (bool_decide (action_digest decision = expected)
                              && bool_decide (decision_id decision = id))) pending_policy_invalid;
          Ok (Some decision)
      | _, _, _ => Err pending_policy_invalid
      end
  end.

(** The keyword arguments of [TaskAttemptExecutor.execute]. *)
Record AttemptCall := MkCall {
  call_run_id : string;
  call_goal : GoalSpec;
  call_plan : Plan;
  call_task : TaskSpec;
  call_attempt : Z;
  call_workspace_id : string;
  call_base_commit : string;
  call_prior_failure_class : option FailureClass;
  call_prior_failure_summary : option string;
  call_decision : PolicyDecision;
  call_remaining_budget : GatewayBudget
}.

(** How one round of the loop over attempts ends: [continue], [break] or
    [return]. *)
Inductive round := Again | Done | Return (s : ExecutionRunState).

Module Coordinator.
Section Coordinator.
Context {E : Type} (path : string) (resolve : string → string) (set_order : list string → list string).
Context (normalize : string → string).
Context (environment : world E → occasion * world E).
(** The casefolded name of an exception's class. *)
Context (class_name : exn → string).
Context (propose_plan : PlanningRequest → op E PlanningResult).
Context (execute_attempt : AttemptCall → op E AttemptEvidence).

Abbreviation op := (op E).
Abbreviation append := (Journal.append path resolve set_order normalize environment).
Abbreviation rehydrate := (Journal.rehydrate normalize environment).

Definition _terminate (run_id : string) (status : RunPhase.t) (actor reason : string)
    : op ExecutionRunState :=
  _ ← append run_id EXECUTION_RUN_TERMINATED
        [("status", PStr (run_phase_value status)); ("reason", PStr reason)] actor;
  rehydrate run_id.

Definition _record_policy (run_id task_id : string) (n : Z) (decision : PolicyDecision) (actor : string)
    : op unit :=
  _ ← append run_id EXECUTION_POLICY_DECIDED
        [("task_id", PStr task_id); ("attempt", PInt n); ("allowed", PBool (allowed decision));
         ("reason", PStr (reason decision)); ("action_digest", PStr (action_digest decision));
         ("decision_id", PStr (decision_id decision))] actor;
  mret tt.

Definition reconcile_incomplete_planning (run_id actor : string) : op ExecutionRunState :=
  state ← rehydrate run_id;
  if bool_decide (xs_status state = RunPhase.CANCELED) then mret state
  else
    _ ← pure (raise_if (negb (bool_decide (xs_status state ∈ [RunPhase.ADMITTED; RunPhase.REPLANNING])))
                planning_not_ambiguous);
    _terminate run_id RunPhase.ESCALATED actor "ambiguous-planning-dispatch".

(** [exhaust_replan_budget] and [exhaust_provider_budget]. *)
Definition exhaust (reason run_id actor : string) : op ExecutionRunState :=
  state ← rehydrate run_id;
  _ ← pure (raise_if (negb (bool_decide (xs_status state = RunPhase.REPLAN_REQUIRED))) replan_not_required);
  _terminate run_id RunPhase.ESCALATED actor reason.
Definition exhaust_replan_budget : string → string → op ExecutionRunState := exhaust "replan-budget-exhausted".
Definition exhaust_provider_budget : string → string → op ExecutionRunState :=
  exhaust "cumulative-budget-exhausted".

(** [state] is bound to the goal and the limits of the request. *)
Definition request_matches (s : ExecutionRunState) (r : PlanningRequest) (digest : string) : bool :=
  bool_decide (rb_goal_digest (xs_binding s) = digest)
  && bool_decide (rb_classification (xs_binding s) = planning_classification r)
  && bool_decide (rb_locality (xs_binding s) = planning_locality r)
  && bool_decide (rb_budget (xs_binding s) = planning_budget r).

(** The first part of [compile_and_admit]: the goal, or the start of a replan. *)
Definition admit_goal (run_id : string) (r : PlanningRequest) (actor : string) (previous : option Plan)
    : op unit :=
  let goal := planning_goal r in
  match previous with
  | None =>
      digest ← pure (goal_digest goal);
      _ ← append run_id EXECUTION_GOAL_ADMITTED
            [("goal_id", PStr (goal_id goal)); ("goal_digest", PStr digest); ("goal", goal_payload goal);
             ("classification", PInt (classification_value (planning_classification r)));
             ("locality", PStr (locality_value (planning_locality r)));
             ("budget", _gateway_budget_payload (planning_budget r))] actor;
      mret tt
  | Some previous =>
      state ← rehydrate run_id;
      _ ← pure (raise_if (negb (bool_decide (xs_status state = RunPhase.REPLAN_REQUIRED))) binding_mismatch);
      digest ← pure (goal_digest goal);
      _ ← pure (raise_if (negb (request_matches state r digest
                                && bool_decide (xs_plan_id state = Some (plan_id previous))
                                && bool_decide (xs_plan_digest state = Some (plan_digest previous))
                                && bool_decide (xs_plan_revision state = Some (plan_revision previous))))
                  binding_mismatch);
      _ ← append run_id EXECUTION_REPLAN_STARTED
            [("previous_plan_id", PStr (plan_id previous));
             ("previous_plan_version", PInt (plan_revision previous));
             ("next_plan_version", PInt (plan_revision previous + 1))] actor;
      mret tt
  end.

Definition compile_and_admit (run_id : string) (r : PlanningRequest) (actor : string)
    (previous : option Plan) (provider_budget : option GatewayBudget) : op (Plan * PlanningResult) :=
  _ ← pure (raise_if (negb (bool_decide (planning_run_id r = run_id))) binding_mismatch);
  _ ← pure (raise_if (match provider_budget with
                      | Some b => negb (_budget_within b (planning_budget r)) | None => false end)
              provider_budget_invalid);
  _ ← admit_goal run_id r actor previous;
  provider_request ← pure
    (match provider_budget with
     | None => Ok r
     | Some b => planning_request_init (MkPlanningRequest (planning_goal r) (planning_classification r)
                   (planning_locality r) b (planning_estimated_input_tokens r)
                   (planning_correlation_id r) (planning_run_id r))
     end);
  result ← propose_plan provider_request;
  plan ← pure (compile_plan (planning_goal r) (thaw_json (JObj (draft result))) previous);
  _ ← append run_id EXECUTION_PLAN_DRAFT_RECEIVED
        [("draft_digest", PStr (draft_digest plan));
         ("provider_output_digest", PStr (provider_output_digest result));
         ("profile_id", PStr (planned_profile_id result)); ("adapter_id", PStr (planned_adapter_id result));
         ("model_id", PStr (planned_model_id result)); ("input_tokens", poptint (planned_input_tokens result));
         ("output_tokens", poptint (planned_output_tokens result));
         ("latency_ms", PInt (planned_latency_ms result));
         ("cost_microusd", poptint (planned_cost_microusd result))] actor;
  payload ← pure (plan_payload plan);
  _ ← append run_id EXECUTION_PLAN_ADMITTED
        [("plan_id", PStr (plan_id plan)); ("plan_digest", PStr (plan_digest plan));
         ("plan_version", PInt (plan_revision plan)); ("supersedes_plan_id", popt (supersedes_plan_id plan));
         ("plan", payload)] actor;
  mret (plan, result).

(** ** One round of the loop over the attempts of a task *)
Section Execute.
Context (run_id : string) (request : PlanningRequest) (plan : Plan) (actor : string).

(** The state of the task, ready for an attempt. *)
Definition readied (id : string) : op ExecutionTaskState :=
  state ← rehydrate run_id;
  task_state ← pure (_task state id);
  if bool_decide (ts_status task_state ∈ [TaskStatus.PENDING; TaskStatus.REPAIRABLE]) then
    _ ← append run_id EXECUTION_TASK_READY
          [("task_id", PStr id); ("attempt", PInt (ts_attempts task_state + 1))] actor;
    state ← rehydrate run_id;
    pure (_task state id)
  else mret task_state.

(** The decision for the attempt, the pending one when there is one. *)
Definition decided (task : TaskSpec) (task_state : ExecutionTaskState) (n : Z) : op PolicyDecision :=
  action ← pure (tool_action_init (MkAction run_id (plan_id plan) (task_id task) n "repository-task"
                                     (task_allowed_paths task) false));
  pending ← pure (_pending_policy_decision task_state action);
  match pending with
  | Some decision => mret decision
  | None =>
      decision ← pure (authorize (planning_goal request) plan task action);
      _ ← _record_policy run_id (task_id task) n decision actor;
      mret decision
  end.

(** What the attempt reported becomes an event; the loop goes on, ends or returns. *)
Definition conclude (task : TaskSpec) (n : Z) (workspace : string) (evidence : AttemptEvidence) : op round :=
  _ ← append run_id EXECUTION_TASK_VERIFYING
        [("task_id", PStr (task_id task)); ("attempt", PInt n); ("workspace_id", PStr workspace)] actor;
  state ← rehydrate run_id;
  prior ← pure (_task state (task_id task));
  signature ← pure (error_signature normalize evidence);
  let new_evidence := fresh_evidence prior (progress_digests evidence) in
  let count := next_error_count prior signature in
  let r := route (planning_goal request) task evidence n count new_evidence in
  _ ← append run_id EXECUTION_TASK_VERIFIED
        [("task_id", PStr (task_id task)); ("attempt", PInt n); ("workspace_id", PStr workspace);
         ("route", PStr (route_value r)); ("verifier_exit_code", PInt (verifier_exit_code evidence));
         ("required_checks_passed", PBool (required_checks_passed evidence));
         ("workspace_clean", PBool (workspace_clean evidence)); ("error_signature", popt signature);
         ("same_error_count", PInt count); ("artifact_digests", pstrs (artifact_digests evidence));
         ("progress_digests", pstrs (progress_digests evidence)); ("new_evidence", PBool new_evidence);
         ("failure_class", popt (failure_class_value <$> failure_class evidence));
         ("failure_summary", popt (failure_summary evidence)); ("head_commit", PStr (head_commit evidence));
         ("input_tokens", poptint (evidence_input_tokens evidence));
         ("output_tokens", poptint (evidence_output_tokens evidence));
         ("latency_ms", PInt (evidence_latency_ms evidence));
         ("cost_microusd", poptint (evidence_cost_microusd evidence))] actor;
  if bool_decide (r ∈ [SUCCEEDED; REPAIRABLE]) then
    state ← rehydrate run_id;
    if _budget_overdrawn (planning_budget request) state
    then Return <$> _terminate run_id RunPhase.ESCALATED actor "cumulative-budget-exhausted"
    else mret (if bool_decide (r = SUCCEEDED) then Done else Again)
  else
    status ← pure (enum_member run_phase_value run_phases (route_value r));
    Return <$> _terminate run_id status actor (route_value r).

(** The executor, with what an exception of it becomes. *)
Definition dispatch (call : AttemptCall) : op (AttemptEvidence + ExecutionRunState) := λ w,
  let '(answer, w') := execute_attempt call w in
  match answer with
  | Ok evidence =>
      (state ← rehydrate run_id;
       if bool_decide (xs_status state = RunPhase.CANCELED) then mret (inr state)
       else mret (inl evidence)) w'
  | Err e =>
      (state ← rehydrate run_id;
       if bool_decide (xs_status state = RunPhase.CANCELED) then mret (inr state)
       else inr <$> _terminate run_id RunPhase.ESCALATED actor ("executor-" +:+ class_name e)) w'
  end.

(** From the decision to the end of the round. *)
Definition attempt_with (task : TaskSpec) (task_state : ExecutionTaskState) (n : Z) (base : string)
    (remaining : GatewayBudget) (decision : PolicyDecision) : op round :=
  if negb (allowed decision) then
    _ ← append run_id EXECUTION_TASK_BLOCKED
          [("task_id", PStr (task_id task)); ("reason", PStr (reason decision))] actor;
    Return <$> _terminate run_id RunPhase.BLOCKED actor (reason decision)
  else
    workspace ← pure (_workspace_id plan task n);
    _ ← append run_id EXECUTION_TASK_STARTED
          [("task_id", PStr (task_id task)); ("attempt", PInt n); ("workspace_id", PStr workspace);
           ("base_commit", PStr base); ("action_digest", PStr (action_digest decision));
           ("decision_id", PStr (decision_id decision))] actor;
    answer ← dispatch (MkCall run_id (planning_goal request) plan task n workspace base
               (ts_last_failure_class task_state) (ts_last_failure_summary task_state) decision remaining);
    match answer with
    | inl evidence => conclude task n workspace evidence
    | inr state => mret (Return state)
    end.

(** [except ExecutionRuntimeError] *)
Definition is_execution_error (e : exn) : bool :=
  match e with ExecutionRuntimeError _ => true | _ => false end.

(** From the base commit of attempt [n] on. *)
Definition attempt_from (task : TaskSpec) (task_state : ExecutionTaskState) (n : Z) : op round := λ w,
  let '(base, w') := (state ← rehydrate run_id;
                      pure (_attempt_base_commit state task (base_commit (planning_goal request)))) w in
  match base with
  | Err e =>
      if is_execution_error e
      then (Return <$> _terminate run_id RunPhase.REPLAN_REQUIRED actor "base-commit-ambiguous") w'
      else (Err e, w')
  | Ok base =>
      (state ← rehydrate run_id;
       remaining ← pure (_remaining_budget (planning_budget request) state);
       if negb (bool_decide (task_allowed_paths task = []))
          && (_provider_usage_incomplete state || _provider_budget_exhausted remaining)
       then Return <$> _terminate run_id RunPhase.ESCALATED actor "cumulative-budget-exhausted"
       else
         decision ← decided task task_state n;
         attempt_with task task_state n base remaining decision) w'
  end.
Definition attempt_round (task : TaskSpec) : op round :=
  task_state ← readied (task_id task);
  attempt_from task task_state (ts_attempts task_state + 1).

(** [while True]. *)
Fixpoint attempt_loop (fuel : nat) (task : TaskSpec) : op round :=
  match fuel with
  | O => pure (Err (RuntimeError "fuel"))
  | S fuel =>
      r ← attempt_round task;
      match r with Again => attempt_loop fuel task | _ => mret r end
  end.

Fixpoint task_loop (fuel : nat) (order : list string) : op round :=
  match order with
  | [] => mret Done
  | id :: order' =>
      task ← pure (of_option KeyError (dict_get id (task_by_id (tasks plan))));
      state ← rehydrate run_id;
      task_state ← pure (_task state id);
      if bool_decide (ts_status task_state = TaskStatus.SUCCEEDED) then task_loop fuel order'
      else
        waiting ← pure (dependency_open state (depends_on task));
        if (waiting : bool)
        then Return <$> _terminate run_id RunPhase.BLOCKED actor "dependency-not-satisfied"
        else
          r ← attempt_loop fuel task;
          match r with Return s => mret (Return s) | _ => task_loop fuel order' end
  end.

Definition execute (fuel : nat) : op ExecutionRunState :=
  _ ← pure (raise_if (negb (bool_decide (planning_run_id request = run_id))) binding_mismatch);
  state ← rehydrate run_id;
  digest ← pure (goal_digest (planning_goal request));
  _ ← pure (raise_if (negb (request_matches state request digest
                            && bool_decide (xs_plan_id state = Some (plan_id plan))
                            && bool_decide (xs_plan_digest state = Some (plan_digest plan))))
              binding_mismatch);
  if bool_decide (xs_status state ∈ _RUN_OUTCOME_STATUSES) then mret state
  else
    match List.find (λ t, bool_decide (ts_status t = TaskStatus.BLOCKED)) (xs_tasks state) with
    | Some blocked =>
        reason ← pure (of_option blocked_task_invalid (ts_blocked_reason blocked));
        _terminate run_id RunPhase.BLOCKED actor reason
    | None =>
        match List.find (λ t, is_some (ts_active_workspace_id t)) (xs_tasks state) with
        | Some _ => _terminate run_id RunPhase.ESCALATED actor "ambiguous-active-attempt"
        | None =>
            order ← pure (topological_order plan);
            r ← task_loop fuel order;
            match r with
            | Return s => mret s
            | _ => _terminate run_id RunPhase.SUCCEEDED actor "verification-passed"
            end
        end
    end.
End Execute.
End Coordinator.
End Coordinator.
