(* ===== verification/RunCoordinatorFacts.v ===== *)
(** * The executor runs only what the ledger says was started

    [ExecutionCoordinator.execute] calls the executor of an attempt only after the
    start of that attempt is a row of the run's stream. *)

From S2P Require Import Prelude PyStr PyFloat Sha256 Json JsonText JsonFacts PyTime Contracts JsonShape Events.
From S2P Require Import EventStore ExecutionPlan RunLifecycle OutputSchema Gateway PlanCompiler AttemptPolicy.
From S2P Require Import Projections ExecutionRuntime RuntimeFacts RuntimeCheckpoint RunJournal RunCoordinator.
From S2P Require Import RunJournalFacts.
From Stdlib Require Import ZArith Lia Ascii String.
From stdpp Require Import base gmap sets list strings.
Local Open Scope Z_scope.

(** ** An event that was appended is in the ledger *)

Lemma event_from_row_key r e : _event_from_row r = Ok e → idempotency_key e = r_idempotency_key r.
Proof.
  unfold _event_from_row. intros H. do 4 (apply bind_ok in H as (? & _ & H)).
  unfold event_init in H. do 16 (apply bind_ok in H as (? & _ & H)). by injection H as <-.
Qed.

(** A row of the run's stream carries the key. *)
Definition recorded (run_id : string) (d : db) (key : string) : Prop :=
  ∃ sid row, _stream_id run_id = Ok sid ∧ row ∈ rows_of d sid ∧ r_idempotency_key row = Some key.

Lemma rows_of_prefix d d' sid row : kernel_events d `prefix_of` kernel_events d' →
  row ∈ rows_of d sid → row ∈ rows_of d' sid.
Proof.
  intros [new Hp] [Hsid Hin]%list_elem_of_filter. apply list_elem_of_filter. split; [done|].
  rewrite Hp. apply elem_of_app. by left.
Qed.

Lemma recorded_grows run_id d d' key : kernel_events d `prefix_of` kernel_events d' →
  recorded run_id d key → recorded run_id d' key.
Proof. intros Hp (sid & row & ? & Hin & ?). exists sid, row. split_and!; [done|by eapply rows_of_prefix|done]. Qed.

Section Append.
Context (path : string) (resolve : string → string) (set_order : list string → list string).
Context (Hset : ∀ l, set_order l ≡ₚ l).

Lemma append_records e k d e' d' key : idempotency_key e = Some key →
  EventStore.append path resolve set_order e k d = (Ok e', d') → db_ok d →
  ∃ row, row ∈ rows_of d' (stream_id e) ∧ r_idempotency_key row = Some key.
Proof.
  intros Hkey H Hd. destruct (_idempotent_event d e) as [[stored|]|x] eqn:Hi.
  - unfold EventStore.append in H. apply txn_bind_ok in H as (out & d0 & Ha & [_ ->]%lift_ok).
    pose proof (append_many_grows _ _ _ Hset _ _ _ _ _ Hd Ha) as [_ Hp].
    unfold _idempotent_event in Hi. rewrite Hkey in Hi.
    destruct (List.find _ _) as [row|] eqn:Hf; [|done]. apply List.find_some in Hf as [Hin Hf].
    apply andb_true_iff in Hf as [Hs%bool_decide_eq_true Hk%bool_decide_eq_true].
    exists row. split; [|done]. eapply rows_of_prefix; [exact Hp|]. apply list_elem_of_filter.
    split; [done|]. by apply list_elem_of_In.
  - apply append_fresh_cases in H as (_ & _ & r & Hr & Hev & _); [|done..].
    apply row_of_event_fields in Hr as (_ & _ & Hs & _ & Hk & _).
    exists r. split; [|congruence]. apply list_elem_of_filter. split; [done|].
    rewrite Hev. apply elem_of_app. right. by apply list_elem_of_singleton.
  - unfold EventStore.append in H. apply txn_bind_ok in H as (out & d0 & Ha & [Hh _]%lift_ok).
    apply append_many_cases in Ha as [(? & [=] & _)|[[[= ->] _]|(out' & [= <-] & Ha)]]; [done|].
    apply append_in_transaction_cases in Ha as [[_ [?|(stored & _ & Hs)]]|(existing & ? & ? & ? & ? & Hs & _)];
      [done| |]; cbn [map_result] in Hs; by rewrite Hi in Hs.
Qed.
End Append.

(** ** What the coordinator calls *)

Section Coordinator.
Context {E : Type} (path : string) (resolve : string → string) (set_order : list string → list string).
Context (Hset : ∀ l, set_order l ≡ₚ l).
Context (normalize : string → string) (environment : world E → occasion * world E).
Context (env_steps : ∀ w, rtc (tables_step path resolve set_order normalize) w (environment w).2).
Context (clock_utc : ∀ w, astimezone_utc (now (environment w).1) = Ok (now (environment w).1)).
Abbreviation append := (Journal.append path resolve set_order normalize environment).
Abbreviation keeps := (keeps normalize).
Abbreviation good := (good normalize).

(** An operation that ended well, step by step. *)
Lemma bind_answer {A B} (m : op E A) (f : A → op E B) w b w' : (m ≫= f) w = (Ok b, w') →
  ∃ a w1, m w = (Ok a, w1) ∧ f a w1 = (Ok b, w').
Proof. unfold mbind, op_bind. destruct (m w) as [[a|e] w1] eqn:H; [|done]. eauto. Qed.
Lemma pure_answer {A} (r : result A) (w w' : world E) a : pure r w = (Ok a, w') → r = Ok a ∧ w' = w.
Proof. unfold pure. by intros [= -> ->]. Qed.
Lemma keeps_answer {A} (m : op E A) w a w' : keeps m → good w → m w = (Ok a, w') →
  good w' ∧ kernel_events (w_ledger w) `prefix_of` kernel_events (w_ledger w').
Proof. intros Hm Hw H. specialize (Hm w Hw). by rewrite H in Hm. Qed.

(** What [append] found before it writes. *)
Lemma prepare_answer run_id ty payload d t sid existing current key :
  Journal.prepare normalize run_id ty payload d t = Ok (sid, existing, current, key) →
  _stream_id run_id = Ok sid ∧ read_stream d sid 0 None None = Ok existing
  ∧ Journal.idempotency_key_of ty payload current = Ok key.
Proof.
  intros H. unfold Journal.prepare in H. apply bind_ok in H as (sid' & Hsid & H).
  apply bind_ok in H as (ex & Hex & H). do 2 (apply bind_ok in H as (? & _ & H)).
  apply bind_ok in H as (r & _ & H). apply bind_ok in H as (k & Hk & [= <- <- <- <-]). done.
Qed.

Lemma store_recorded (f : occasion → result EventEnvelope) (g : EventEnvelope → result (option ExecutionRunState))
    key sid n w e w' run_id :
  (∀ o e, f o = Ok e → idempotency_key e = Some key ∧ stream_id e = sid) → _stream_id run_id = Ok sid → good w →
  Journal.step environment (λ o, e ← pure (f o); _ ← pure (g e); Journal.store path resolve set_order e n) w
    = (Ok e, w') → good w' ∧ recorded run_id (w_ledger w') key.
Proof.
  intros Hf Hsid Hw H. unfold Journal.step in H. pose proof (environment_moves _ _ _ Hset _ _ env_steps w Hw) as [Hw1 _].
  destruct (environment w) as [o w1]. cbn [snd] in *. apply bind_answer in H as (e0 & w2 & [He ->]%pure_answer & H).
  apply bind_answer in H as (? & w3 & [_ ->]%pure_answer & H). apply Hf in He as [Hkey Hstream].
  split; [by eapply (keeps_answer _ _ _ _ (store_keeps _ _ _ Hset _ e0 n) Hw1)|].
  unfold Journal.store in H. destruct (EventStore.append _ _ _ _ _ _) as [[stored|ex] d'] eqn:Ha; injection H as H <-.
  - apply (append_records _ _ _ Hset _ _ _ _ _ key) in Ha as (row & Hrow & Hk); [|done|apply Hw1].
    exists sid, row. rewrite Hstream in Hrow. done.
  - by destruct (Journal.append_conflict ex).
Qed.

Lemma append_recorded run_id ty payload actor w e w' : good w → append run_id ty payload actor w = (Ok e, w') →
  ∃ current key, Journal.idempotency_key_of ty payload current = Ok key ∧ recorded run_id (w_ledger w') key.
Proof.
  intros Hw H. unfold Journal.append in H. apply bind_answer in H as (? & w1 & [_ ->]%pure_answer & H).
  apply bind_answer in H as ([[[sid existing] current] key] & w2 & Hprep & H).
  assert (keeps (Journal.step environment (λ _, reading (Journal.prepare normalize run_id ty payload)))) as Hk
    by keeps_op.
  destruct (keeps_answer _ _ _ _ Hk Hw Hprep) as [Hw2 _].
  unfold Journal.step in Hprep. destruct (environment w) as [o w3]. unfold reading in Hprep.
  injection Hprep as Hprep <-. apply prepare_answer in Hprep as (Hsid & Hex & Hkey).
  exists current, key. split; [done|]. destruct (List.find _ _) as [prior|] eqn:Hf.
  - apply bind_answer in H as (? & w4 & [_ ->]%pure_answer & [= -> <-]).
    apply List.find_some in Hf as [Hin%list_elem_of_In Hk'%bool_decide_eq_true].
    rewrite read_stream_slice in Hex by (done || apply Hw2). rewrite drop_0 in Hex. cbn [limited] in Hex.
    apply map_result_ok in Hex. apply list_elem_of_lookup_1 in Hin as [i Hi].
    destruct (Forall2_lookup_r _ _ _ _ _ Hex Hi) as (row & Hrow & Hread).
    exists sid, row. split_and!; [done|by eapply list_elem_of_lookup_2|].
    rewrite <-(event_from_row_key _ _ Hread). done.
  - apply bind_answer in H as (stored & w4 & Hstore & H). apply bind_answer in H as (state & w5 & Hstate & H).
    apply bind_answer in H as (? & w6 & Hsave & [= -> <-]).
    apply (store_recorded (λ o, Journal.new_event o run_id sid ty actor key payload existing) _ key sid _ _ _ _ run_id)
      in Hstore as [Hw4 Hrow]; [|intros ?? Hnew; apply create_ok in Hnew; naive_solver|done..].
    destruct (keeps_answer _ _ _ _ (rehydrate_keeps _ _ _ Hset _ _ env_steps run_id) Hw4 Hstate) as [Hw5 Hp].
    apply (recorded_grows _ _ _ _ Hp) in Hrow. clear Hp. destruct (_ || _).
    + assert (keeps (suppressed (_ ← Journal._save_checkpoint normalize environment run_id; mret tt))) as Hk'.
      { apply keeps_suppressed, keeps_bind; [by eapply save_keeps|]. intros. apply keeps_ret. }
      destruct (keeps_answer _ _ _ _ Hk' Hw5 Hsave) as [_ Hp]. by eapply recorded_grows.
    + unfold mret, op_ret in Hsave. injection Hsave as _ <-. done.
Qed.

(** The payload of the event that starts the attempt of a call. *)
Definition call_payload (c : AttemptCall) : payload_map :=
  [("task_id", PStr (task_id (call_task c))); ("attempt", PInt (call_attempt c));
   ("workspace_id", PStr (call_workspace_id c)); ("base_commit", PStr (call_base_commit c));
   ("action_digest", PStr (action_digest (call_decision c)));
   ("decision_id", PStr (decision_id (call_decision c)))].

(** The decision of the call allows it, and the run's stream has its start: the
    event that [append] keeps under the key of this payload. *)
Definition started (c : AttemptCall) (w : world E) : Prop :=
  allowed (call_decision c) = true ∧ ∃ current key,
    Journal.idempotency_key_of EXECUTION_TASK_STARTED (call_payload c) current = Ok key
    ∧ recorded (call_run_id c) (w_ledger w) key.

(** Two operations that do the same in every good world. *)
Definition agree {A} (m m' : op E A) : Prop := ∀ w, good w → m w = m' w.

Lemma agree_refl {A} (m : op E A) : agree m m.
Proof. by intros w. Qed.
Lemma agree_bind {A B} (m : op E A) (f g : A → op E B) : keeps m → (∀ a, agree (f a) (g a)) →
  agree (m ≫= f) (m ≫= g).
Proof.
  intros Hm Hf w Hw. unfold mbind, op_bind. destruct (m w) as [[a|e] w1] eqn:H; [|done].
  apply Hf. by eapply keeps_answer in H as [? _].
Qed.
Lemma agree_bind_l {A B} (m m' : op E A) (f g : A → op E B) : agree m m' → keeps m →
  (∀ a, agree (f a) (g a)) → agree (m ≫= f) (m' ≫= g).
Proof. intros Hm Hk Hf w Hw. unfold mbind at 2, op_bind. rewrite <-(Hm w Hw). by apply (agree_bind m f g). Qed.

Section Executors.
Context (class_name : exn → string) (executor executor' : AttemptCall → op E AttemptEvidence).
Context (executor_steps : ∀ c w, rtc (tables_step path resolve set_order normalize) w (executor c w).2).
Context (same_when_started : ∀ c w, started c w → executor c w = executor' c w).
Context (run_id : string) (request : PlanningRequest) (plan : Plan) (actor : string).

Abbreviation attempt_with x := (Coordinator.attempt_with path resolve set_order normalize environment class_name x
  run_id request plan actor).
Abbreviation attempt_from x := (Coordinator.attempt_from path resolve set_order normalize environment class_name x
  run_id request plan actor).
Abbreviation attempt_loop x := (Coordinator.attempt_loop path resolve set_order normalize environment class_name x
  run_id request plan actor).
Abbreviation task_loop x := (Coordinator.task_loop path resolve set_order normalize environment class_name x
  run_id request plan actor).
Abbreviation execute x := (Coordinator.execute path resolve set_order normalize environment class_name x
  run_id request plan actor).

(** *** Every part of the loop keeps the world good *)
Ltac parts := repeat match goal with
  | |- RunJournalFacts.keeps _ (_ ≫= _) => apply keeps_bind
  | |- RunJournalFacts.keeps _ (_ <$> _) => apply keeps_fmap
  | |- ∀ _, _ => intros ?
  | |- RunJournalFacts.keeps _ (match ?x with _ => _ end) => destruct x
  end; eauto with keeps.

Lemma terminate_keeps status a reason :
  keeps (Coordinator._terminate path resolve set_order normalize environment run_id status a reason).
Proof. unfold Coordinator._terminate. parts. Qed.
Lemma record_policy_keeps id n decision a :
  keeps (Coordinator._record_policy path resolve set_order normalize environment run_id id n decision a).
Proof. unfold Coordinator._record_policy. parts. Qed.
#[local] Hint Resolve terminate_keeps record_policy_keeps : keeps.
Lemma readied_keeps id : keeps (Coordinator.readied path resolve set_order normalize environment run_id actor id).
Proof. unfold Coordinator.readied. parts. Qed.
Lemma decided_keeps task t n :
  keeps (Coordinator.decided path resolve set_order normalize environment run_id request plan actor task t n).
Proof. unfold Coordinator.decided. parts. Qed.
Lemma conclude_keeps task n workspace evidence :
  keeps (Coordinator.conclude path resolve set_order normalize environment run_id request actor task n workspace evidence).
Proof. unfold Coordinator.conclude. parts. Qed.
#[local] Hint Resolve readied_keeps decided_keeps conclude_keeps : keeps.

Lemma dispatch_keeps call :
  keeps (Coordinator.dispatch path resolve set_order normalize environment class_name executor run_id actor call).
Proof.
  intros w. unfold Coordinator.dispatch.
  pose proof (tables_steps_move _ _ _ Hset normalize _ _ (executor_steps call w)) as Hm.
  destruct (executor call w) as [[evidence|e] w']; apply (moves_trans _ _ w' _ Hm); clear Hm;
    match goal with |- moves _ ?w (?m ?w).2 => enough (keeps m) as Hk by apply Hk end; parts.
Qed.
#[local] Hint Resolve dispatch_keeps : keeps.

Lemma attempt_with_keeps task t n base remaining decision :
  keeps (attempt_with executor task t n base remaining decision).
Proof. unfold Coordinator.attempt_with. parts. Qed.

Lemma attempt_with_agree task t n base remaining decision :
  agree (attempt_with executor task t n base remaining decision)
        (attempt_with executor' task t n base remaining decision).
Proof.
  unfold Coordinator.attempt_with. destruct (allowed decision) eqn:Hal; [|apply agree_refl]. cbn [negb].
  apply agree_bind; [apply keeps_pure|]. intros workspace w Hw. unfold mbind at 1 3, op_bind.
  destruct (append _ _ _ _ w) as [[e|x] w1] eqn:H; [|done].
  match goal with |- context [Coordinator.dispatch _ _ _ _ _ _ _ _ _ ?call] =>
    assert (executor call w1 = executor' call w1) as Hsame end.
  { apply same_when_started. split; [done|]. by eapply append_recorded. }
  unfold mbind, op_bind, Coordinator.dispatch. by rewrite Hsame.
Qed.

(** The part of [attempt_from] that finds the base commit. *)
Lemma base_keeps task : keeps (state ← Journal.rehydrate normalize environment run_id;
  pure (_attempt_base_commit state task (base_commit (planning_goal request)))).
Proof. parts. Qed.
#[local] Hint Resolve attempt_with_keeps base_keeps : keeps.

Lemma attempt_from_agree task t n :
  agree (attempt_from executor task t n) (attempt_from executor' task t n).
Proof.
  intros w Hw. unfold Coordinator.attempt_from. pose proof (base_keeps task w Hw) as [Hw1 _].
  match type of Hw1 with good (?x).2 => destruct x as [[base|e] w1] end; [|done]. cbn [snd] in Hw1. revert w1 Hw1.
  apply agree_bind; [eauto with keeps|]. intros state. apply agree_bind; [apply keeps_pure|]. intros remaining.
  destruct (_ && _); [apply agree_refl|]. apply agree_bind; [apply decided_keeps|]. intros decision.
  apply attempt_with_agree.
Qed.

Lemma attempt_from_keeps task t n : keeps (attempt_from executor task t n).
Proof.
  intros w. unfold Coordinator.attempt_from. pose proof (base_keeps task w) as Hm.
  match type of Hm with moves _ _ (?x).2 => destruct x as [[base|e] w1] end; cbn [snd] in Hm; [|destruct (Coordinator.is_execution_error e)].
  - apply (moves_trans _ _ w1 _ Hm). clear Hm. revert w1.
    match goal with |- ∀ w, moves _ w (?m w).2 => change (keeps m) end. parts.
  - apply (moves_trans _ _ w1 _ Hm). clear Hm. revert w1.
    match goal with |- ∀ w, moves _ w (?m w).2 => change (keeps m) end. parts.
  - exact Hm.
Qed.

Lemma attempt_round_agree task :
  agree (Coordinator.attempt_round path resolve set_order normalize environment class_name executor run_id request plan actor task)
        (Coordinator.attempt_round path resolve set_order normalize environment class_name executor' run_id request plan actor task)
  ∧ keeps (Coordinator.attempt_round path resolve set_order normalize environment class_name executor run_id request plan actor task).
Proof.
  unfold Coordinator.attempt_round. split.
  - apply agree_bind; [apply readied_keeps|]. intros t. apply attempt_from_agree.
  - apply keeps_bind; [apply readied_keeps|]. intros t. apply attempt_from_keeps.
Qed.

Lemma attempt_loop_agree fuel task :
  agree (attempt_loop executor fuel task) (attempt_loop executor' fuel task)
  ∧ keeps (attempt_loop executor fuel task).
Proof.
  destruct (attempt_round_agree task) as [Ha Hk].
  induction fuel as [|fuel [IHa IHk]]; cbn [Coordinator.attempt_loop]; split.
  - apply agree_refl.
  - apply keeps_pure.
  - apply agree_bind_l; [done..|]. intros []; [done|apply agree_refl..].
  - apply keeps_bind; [done|]. intros []; [done|apply keeps_ret..].
Qed.

Lemma task_loop_agree fuel order :
  agree (task_loop executor fuel order) (task_loop executor' fuel order).
Proof.
  induction order as [|id order IH]; cbn [Coordinator.task_loop]; [apply agree_refl|].
  apply agree_bind; [apply keeps_pure|]. intros task. apply agree_bind; [eauto with keeps|]. intros state.
  apply agree_bind; [apply keeps_pure|]. intros t. case_bool_decide; [exact IH|].
  apply agree_bind; [apply keeps_pure|]. intros [|]; [apply agree_refl|].
  destruct (attempt_loop_agree fuel task) as [Ha Hk]. apply agree_bind_l; [done..|].
  intros []; [exact IH|exact IH|apply agree_refl].
Qed.

Lemma execute_agree fuel : agree (execute executor fuel) (execute executor' fuel).
Proof.
  unfold Coordinator.execute. apply agree_bind; [apply keeps_pure|]. intros _.
  apply agree_bind; [eauto with keeps|]. intros state. do 2 (apply agree_bind; [apply keeps_pure|]; intros ?).
  case_bool_decide; [apply agree_refl|]. destruct (List.find _ _); [apply agree_refl|].
  destruct (List.find _ _); [apply agree_refl|]. apply agree_bind; [apply keeps_pure|]. intros order.
  intros w Hw. unfold mbind, op_bind. by rewrite (task_loop_agree fuel order w Hw).
Qed.
End Executors.

End Coordinator.
