(* ===== verification/RuntimeSample.v ===== *)
(** * A concrete run

    The coordinator drives a run of one task from the empty ledger: the first
    attempt fails and is repaired by the second.  The events it leaves and the
    states on the way are evaluated once, here. *)

From S2P Require Import Prelude PyStr PyFloat Sha256 Json JsonText JsonFacts PyTime Contracts JsonShape Events.
From S2P Require Import EventStore ExecutionPlan RunLifecycle OutputSchema Gateway PlanCompiler PlanFacts.
From S2P Require Import AttemptPolicy Projections ExecutionRuntime RuntimeFacts RuntimeCheckpoint RunJournal.
From S2P Require Import RunCoordinator RunJournalFacts RunCoordinatorFacts.
From Stdlib Require Import ZArith Lia Ascii String.
From stdpp Require Import base gmap sets list strings.
Local Open Scope Z_scope.

Module SampleRun.
Definition same (l : list string) : list string := l.
Definition text (s : string) : string := s.
Definition instant : datetime := Datetime 0 (Some 0).
(** A quiet host whose identifiers count up. *)
Fixpoint tally (n : nat) : string := match n with O => "e" | S n => tally n +:+ "1" end.
Definition environment (w : world nat) : occasion * world nat :=
  (MkOccasion instant (tally (w_env w)), World (w_ledger w) (w_checkpoints w) (S (w_env w))).

Definition request : PlanningRequest :=
  MkPlanningRequest SamplePlan.goal PUBLIC REMOTE_ALLOWED (MkBudget 1000 1000 100000 1000) 10 "c" "r1".
Definition digest : string := "sha256:0000000000000000000000000000000000000000000000000000000000000000".
Definition draft : jobject := match freeze_json "$" SamplePlan.draft with Ok (JObj kvs) => kvs | _ => [] end.
Definition propose (r : PlanningRequest) : op nat PlanningResult := λ w,
  (Ok (MkPlanningResult draft digest "p" "a" "m" (Some 5) (Some 7) 11 (Some 1)), w).
Definition commit : string := "1111111111111111111111111111111111111111".
Definition evidence (passed : bool) : AttemptEvidence :=
  MkEvidence true (if passed then 0 else 1) passed (if passed then None else Some LOGIC_BUG)
    (if passed then None else Some "boom") [digest] [digest] commit (Some 2) (Some 3) 4 (Some 1)
    EXECUTION_ATTEMPT_EVIDENCE_SCHEMA.
Definition executor (c : AttemptCall) : op nat AttemptEvidence := λ w, (Ok (evidence (2 <=? call_attempt c)), w).
Definition class_name (e : exn) : string := "error".

Definition start : world nat := World empty_db ∅ O.
Definition admitted : result (Plan * PlanningResult) * world nat := Eval vm_compute in
  Coordinator.compile_and_admit "ledger" text same text environment propose "r1" request "human" None None start.
Definition plan : Plan := match admitted.1 with Ok (p, _) => p | Err _ => SamplePlan.failed end.
Definition ended : result ExecutionRunState * world nat := Eval vm_compute in
  Coordinator.execute "ledger" text same text environment class_name executor "r1" request plan "human" 4 admitted.2.

(** The events of the run, and the states after them. *)
Definition events : list EventEnvelope := Eval vm_compute in
  match map_result _event_from_row (kernel_events (w_ledger ended.2)) with Ok l => l | Err _ => [] end.
Definition after (n : nat) : result (option ExecutionRunState) := run_of text (take n events).
Definition state (r : result (option ExecutionRunState)) (default : ExecutionRunState) : ExecutionRunState :=
  match r with Ok (Some s) => s | _ => default end.
Definition nothing : ExecutionRunState :=
  MkRunState "" (MkBinding "" "" "" "" "" PUBLIC LOCAL_ONLY (MkBudget 0 0 0 0)) None None None RunPhase.ADMITTED
    [] [] "" 0 no_usage None.
Definition finished : ExecutionRunState := Eval vm_compute in state (after 14) nothing.
Definition verified : ExecutionRunState := Eval vm_compute in state (after 13) nothing.
Definition verifying : ExecutionRunState := Eval vm_compute in state (after 7) nothing.
Definition no_event : EventEnvelope :=
  MkEvent "" "" 0 "" 0 instant instant "" None "" "" [] "" None None.
Definition termination : EventEnvelope := Eval vm_compute in default no_event (events !! 13%nat).
Definition starting : EventEnvelope := Eval vm_compute in default no_event (events !! 5%nat).

End SampleRun.
