(* ===== verification/RuntimeWitness.v ===== *)
(** * The theorems on runs at a concrete run

    Runs, their checkpoints, the journal and the coordinator, at [SampleRun]. *)

From S2P Require Import Prelude PyStr PyFloat Sha256 Json JsonText JsonFacts PyTime Contracts JsonShape Events.
From S2P Require Import EventStore ExecutionPlan RunLifecycle OutputSchema Gateway PlanCompiler PlanFacts.
From S2P Require Import AttemptPolicy Projections ExecutionRuntime RuntimeFacts RuntimeCheckpoint RunJournal.
From S2P Require Import RunCoordinator RunJournalFacts RunCoordinatorFacts RuntimeSample.
From Stdlib Require Import ZArith Lia Ascii String.
From stdpp Require Import base gmap sets list strings.
Local Open Scope Z_scope.

Module SampleFacts.
Import SampleRun.
Lemma reaches_finished : run_of text events = Ok (Some finished).
Proof. by_vm. Qed.
Lemma terminates : run_apply text (Some verified) termination = Ok (Some finished).
Proof. by_vm. Qed.

(** The public success of the run, after the run's own end. *)
Definition confirmation : EventEnvelope :=
  MkEvent "e-public" "run:r1" 15 RUN_SUCCEEDED 1 instant instant "r1" None "runtime" RUNTIME_EVENT_SOURCE [] "" None None.
Definition confirmed : ExecutionRunState := Eval vm_compute in state (run_of text (events ++ [confirmation])) nothing.
Lemma reaches_confirmed : run_of text (events ++ [confirmation]) = Ok (Some confirmed).
Proof. by_vm. Qed.

(** The first attempt reported as a violation of policy: its task is blocked. *)
Definition signature : string := Eval vm_compute in
  match error_signature text (MkEvidence true 1 false (Some POLICY) (Some "boom") [digest] [digest] commit
    (Some 2) (Some 3) 4 (Some 1) EXECUTION_ATTEMPT_EVIDENCE_SCHEMA) with Ok (Some d) => d | _ => "" end.
Definition violation : EventEnvelope :=
  match events !! 7%nat with
  | Some e => MkEvent (event_id e) (stream_id e) (stream_sequence e) (event_type e) 1 instant instant "r1" None
                (actor e) (source e)
                (map (λ kv, if bool_decide (kv.1 = "route") then (kv.1, JStr "blocked")
                            else if bool_decide (kv.1 = "failure_class") then (kv.1, JStr "policy")
                            else if bool_decide (kv.1 = "error_signature") then (kv.1, JStr signature) else kv)
                  (payload e)) "" None None
  | None => no_event
  end.
Definition blocked : ExecutionRunState := Eval vm_compute in
  state (run_of text (take 7 events ++ [violation])) nothing.
Lemma reaches_blocked : run_of text (take 7 events ++ [violation]) = Ok (Some blocked).
Proof. by_vm. Qed.
End SampleFacts.


Lemma execution_refines_machine_witness : ∃ s1, SampleRun.finished = with_event s1 SampleRun.termination
  ∧ run_step SampleRun.text SampleRun.verified SampleRun.termination s1.
Proof.
  destruct (execution_refines_machine SampleRun.text SampleRun.verified SampleRun.termination _ SampleFacts.terminates)
    as (s1 & H & Hs & _). exists s1. split; [exact (f_equal (default SampleRun.nothing) H)|done].
Defined.



Lemma final_status_absorbs_witness : xs_status SampleFacts.confirmed = xs_status SampleRun.finished.
Proof.
  destruct (final_status_absorbs SampleRun.text SampleRun.events [SampleFacts.confirmation] SampleRun.finished _
    SampleFacts.reaches_finished eq_refl SampleFacts.reaches_confirmed) as (s' & H & Hs & _).
  rewrite <-Hs. exact (f_equal (λ o, xs_status (default SampleRun.nothing o)) H).
Defined.

(** The checkpoint of the finished run is read back; the one of the blocked run is refused. *)
Lemma run_checkpoint_exact_witness :
  run_load (run_dump (Some SampleRun.finished)) = Ok (Some SampleRun.finished)
  ∧ run_load (run_dump (Some SampleFacts.blocked)) = Err invalid_checkpoint.
Proof.
  assert (Hread : ∀ s, reorders (JObj (run_json s)) (JObj (run_json s))) by (intros s; split; [apply run_json_wf|done]).
  assert (Hfreeze : ∀ s, freeze_json "$.state" (run_dump (Some s)) = Ok (JObj (run_json s)))
    by (intros s; rewrite <-(freeze_thaw "$.state" _ (run_json_wf s)), thaw_run; done).
  pose proof (run_checkpoint_exact SampleRun.text SampleRun.events SampleRun.finished _ _ SampleFacts.reaches_finished
    ltac:(by apply (bool_decide_unpack _); vm_compute) (Hfreeze _) (Hread _)) as H1.
  pose proof (run_checkpoint_exact SampleRun.text _ SampleFacts.blocked _ _ SampleFacts.reaches_blocked
    ltac:(by apply (bool_decide_unpack _); vm_compute) (Hfreeze _) (Hread _)) as H2.
  rewrite thaw_run in H1, H2. split; [exact H1|exact H2].
Defined.

(** ** The journal after one admission and a snapshot *)
Module SampleJournal.
Import SampleRun.
Definition goal_hash : string := Eval vm_compute in
  match goal_digest SamplePlan.goal with Ok d => d | Err _ => "" end.
Definition goal_fields : payload_map :=
  [("goal_id", PStr (goal_id SamplePlan.goal)); ("goal_digest", PStr goal_hash);
   ("goal", goal_payload SamplePlan.goal); ("classification", PInt 0); ("locality", PStr "remote-allowed");
   ("budget", _gateway_budget_payload (MkBudget 1000 1000 100000 1000))].
Definition told : result EventEnvelope * world nat := Eval vm_compute in
  Journal.append "ledger" text same text environment "r1" EXECUTION_GOAL_ADMITTED goal_fields "human" start.
Definition saved : result ProjectionCheckpoint * world nat := Eval vm_compute in
  Journal.snapshot text environment "r1" told.2.
Definition heard : result ExecutionRunState * world nat := Eval vm_compute in
  Journal.rehydrate text environment "r1" saved.2.
Definition known : ExecutionRunState := match heard.1 with Ok s => s | Err _ => nothing end.

Lemma quiet w : rtc (tables_step "ledger" text same text) w (environment w).2.
Proof.
  apply rtc_once. destruct w as [d t x]. apply (ledger_step _ _ _ _ d d t x (S x) [] [] (Ok [])). done.
Qed.
Lemma in_utc w : astimezone_utc (now (environment w).1) = Ok (now (environment w).1).
Proof. by_vm. Qed.
Lemma begins : reached "ledger" text same text environment start.
Proof. constructor. Qed.
Lemma saved_reached : reached "ledger" text same text environment saved.2.
Proof.
  assert (saved.2 = (Journal.snapshot text environment "r1" (Journal.append "ledger" text same text environment "r1"
    EXECUTION_GOAL_ADMITTED goal_fields "human" start).2).2) as -> by by_vm.
  apply reached_snapshot, reached_append, begins.
Qed.
Lemma hears : Journal.rehydrate text environment "r1" saved.2 = (Ok known, heard.2).
Proof. by_vm. Qed.
Lemma has_checkpoint : bool_decide (w_checkpoints saved.2 = ∅) = false.
Proof. by_vm. Qed.
End SampleJournal.

Lemma journal_rehydrates_fold_witness : w_checkpoints SampleJournal.saved.2 ≠ ∅ ∧
  ∃ events, run_of SampleRun.text events = Ok (Some SampleJournal.known).
Proof.
  split; [by apply (bool_decide_eq_false_1 _), SampleJournal.has_checkpoint|].
  destruct (journal_rehydrates_fold "ledger" SampleRun.text SampleRun.same (λ l, reflexivity l) SampleRun.text
    SampleRun.environment SampleJournal.quiet SampleJournal.in_utc _ "r1" SampleJournal.saved_reached) as [H _].
  destruct (H _ _ SampleJournal.hears) as (sid & events & _ & _ & _ & He). by exists events.
Defined.

