(* ===== verification/Telemetry.v ===== *)
(** * telemetry/policy.py and telemetry/recorder.py

    [ContentPolicy] sanitises attributes before a span is stored; [TraceRecorder]
    keeps the finished spans.  Full case folding ([str.casefold]) and the text of
    mapping keys that are neither text, numbers, booleans nor None are the
    parameters [casefold] and [text_of]; clocks, identifiers and exporters are
    arguments. *)

From S2P Require Import Prelude PyStr PyFloat Json PyTime Contracts Events.
From Stdlib Require Import ZArith Lia Ascii String Floats.SpecFloat.
From stdpp Require Import base gmap sets list strings.
Local Open Scope Z_scope.

(** ** Text *)

(** [s[:n]], by code points. *)
Fixpoint take_points (n : Z) (s : string) : string :=
  match s with
  | EmptyString => EmptyString
  | String a s' =>
      if is_continuation (byte_at a) then String a (take_points n s')
      else if n <=? 0 then EmptyString else String a (take_points (n - 1) s')
  end.

(** [s.endswith(p)] *)
Fixpoint ends_with (p s : string) : bool :=
  bool_decide (s = p) || match s with EmptyString => false | String _ s' => ends_with p s' end.

(** [s.replace(a, b)] for single characters. *)
Fixpoint replace_char (a b : ascii) (s : string) : string :=
  match s with
  | EmptyString => EmptyString
  | String c s' => String (if Ascii.eqb c a then b else c) (replace_char a b s')
  end.

Fixpoint drop_space (cs : list Z) : list Z :=
  match cs with c :: cs' => if is_space c then drop_space cs' else cs | [] => [] end.
(** [s.strip()], as code points and as text. *)
Definition strip_points (s : string) : list Z := rev (drop_space (rev (drop_space (decode_utf8 s)))).
Definition strip (s : string) : string :=
  foldr (λ c t, encode_cp c +:+ t) EmptyString (strip_points s).

(** ** Regular expressions on code points *)

Definition upper_or_digit (c : Z) : bool := z_between 48 c 57 || z_between 65 c 90.
(** [[A-Za-z0-9_-]] *)
Definition token_char (c : Z) : bool := upper_or_digit c || z_between 97 c 122 || (c =? 95) || (c =? 45).
(** [[a-z]] with [re.IGNORECASE]: the letters, and the four characters that match
    one of them without case. *)
Definition letter (c : Z) : bool :=
  z_between 65 c 90 || z_between 97 c 122 || bool_decide (c ∈ [304; 305; 383; 8490]).
(** [[a-z0-9+.-]] with [re.IGNORECASE] *)
Definition scheme_char (c : Z) : bool := letter c || z_between 48 c 57 || bool_decide (c ∈ [43; 46; 45]).
(** [[^/@\s:]] and [[^/@\s]] *)
Definition secret_char (c : Z) : bool := negb (bool_decide (c ∈ [47; 64]) || is_space c).
Definition user_char (c : Z) : bool := secret_char c && negb (c =? 58).

(** The longest prefix of characters of a class, and the rest. *)
Fixpoint span_class (p : Z → bool) (cs : list Z) : list Z * list Z :=
  match cs with
  | c :: cs' => if p c then let '(a, b) := span_class p cs' in (c :: a, b) else ([], cs)
  | [] => ([], [])
  end.

(** [re.fullmatch(r"AKIA[0-9A-Z]{16}", s)] *)
Definition re_aws_key (cs : list Z) : bool :=
  bool_decide (take 4 cs = [65; 75; 73; 65]) && (length cs =? 20)%nat && forallb upper_or_digit (drop 4 cs).

(** [[A-Za-z0-9_-]{20,}] up to a dot or to the end. *)
Definition re_segment (cs : list Z) : option (list Z) :=
  let '(a, b) := span_class token_char cs in
  if (20 <=? length a)%nat then Some b else None.
Definition after_dot (cs : list Z) : option (list Z) :=
  match cs with c :: cs' => if c =? 46 then Some cs' else None | [] => None end.
(** [re.fullmatch(r"[A-Za-z0-9_-]{20,}\.[A-Za-z0-9_-]{20,}\.[A-Za-z0-9_-]{20,}", s)] *)
Definition re_web_token (cs : list Z) : bool :=
  match (a ← re_segment cs; b ← after_dot a; c ← re_segment b; d ← after_dot c; re_segment d) : option (list Z) with
  | Some [] => true | _ => false end.

(** [r"[a-z][a-z0-9+.-]*://[^/@\s:]+:[^/@\s]+@"] at the start of the text.  Each
    repetition ends at a character outside its class, so the longest is the only
    match. *)
Definition url_at (cs : list Z) : bool :=
  match cs with
  | c :: cs' =>
      letter c &&
      match (span_class scheme_char cs').2 with
      | 58 :: 47 :: 47 :: rest =>
          let '(user, rest) := span_class user_char rest in
          negb (bool_decide (user = [])) &&
          match rest with
          | 58 :: rest =>
              let '(secret, rest) := span_class secret_char rest in
              negb (bool_decide (secret = [])) && bool_decide (head rest = Some 64)
          | _ => false
          end
      | _ => false
      end
  | [] => false
  end.
(** [re.search], with [re.IGNORECASE]. *)
Fixpoint re_url_credential (cs : list Z) : bool :=
  url_at cs || match cs with _ :: cs' => re_url_credential cs' | [] => false end.

(** ** ContentPolicy *)

Inductive ContentMode := METADATA_ONLY | REDACT_SENSITIVE | ALLOW.
#[export] Instance content_mode_eq_dec : EqDecision ContentMode.
Proof. solve_decision. Defined.

Record ContentPolicy := MkPolicy {
  mode : ContentMode;
  replacement : string;
  max_string_chars : Z;
  max_collection_items : Z;
  sensitive_values : list string;
  sensitive_keys : list string;
  content_keys : list string
}.
Definition default_sensitive_keys : list string :=
  ["api_key"; "authorization"; "cookie"; "credential"; "password"; "secret"; "token"].
Definition default_content_keys : list string :=
  ["body"; "completion"; "content"; "context"; "document"; "input"; "message"; "output"; "prompt";
   "response"; "tool_result"].
Definition default_policy : ContentPolicy :=
  MkPolicy METADATA_ONLY "[REDACTED]" 256 32 [] default_sensitive_keys default_content_keys.

Definition content_policy_init (p : ContentPolicy) : result ContentPolicy :=
  _ ← raise_if (is_empty (replacement p) || (64 <? py_len (replacement p)))
        (ValueError "replacement must be bounded non-empty text");
  _ ← raise_if (max_string_chars p <=? 0) (ValueError "max_string_chars must be positive");
  _ ← raise_if (max_collection_items p <=? 0) (ValueError "max_collection_items must be positive");
  _ ← raise_if (existsb (λ s, negb (z_between 8 (py_len s) 4096)) (sensitive_values p))
        (ValueError "sensitive_values must contain bounded non-empty secrets");
  Ok p.

Definition _MAX_KEY_CHARS : Z := 256.

Definition _matches_sensitive_key (normalized : string) (candidates : list string) : bool :=
  existsb (λ c, bool_decide (normalized = c) || starts_with (c +:+ "_") normalized
                || ends_with ("_" +:+ c) normalized || contains ("_" +:+ c +:+ "_") normalized) candidates.
Definition _matches_content_key (normalized : string) (candidates : list string) : bool :=
  existsb (λ c, bool_decide (normalized = c) || ends_with ("_" +:+ c) normalized) candidates.

Definition has_secret (p : ContentPolicy) (s : string) : bool := existsb (λ x, contains x s) (sensitive_values p).

Section Policy.
Context (casefold : string → string) (text_of : pyval → string).

Definition credential_prefixes : list string :=
  ["bearer "; "basic "; "gho_"; "ghp_"; "ghs_"; "github_pat_"; "sk-"].
Definition _looks_like_credential (value : string) : bool :=
  let lowered := strip (casefold value) in
  existsb (λ x, starts_with x lowered) credential_prefixes
  || (contains "-----begin " lowered && contains " private key-----" lowered)
  || re_aws_key (strip_points value) || re_web_token (strip_points value)
  || re_url_credential (decode_utf8 value).

(** [str(key)] *)
Definition key_text (key : pyval) : string :=
  match key with
  | PStr s => s
  | PInt z => int_repr z
  | PBool true => "True" | PBool false => "False" | PNone => "None"
  | _ => text_of key
  end.

Definition normalize_key (key : string) : string :=
  replace_char "." "_" (replace_char "-" "_" (casefold key)).

Section Sanitize.
Context (p : ContentPolicy).

Definition _sanitize_key (key : string) : string :=
  if has_secret p key || _looks_like_credential key then replacement p else take_points _MAX_KEY_CHARS key.

(** The value of the key is replaced whatever it is. *)
Definition hidden_key (key : string) : bool :=
  let normalized := normalize_key key in
  _matches_sensitive_key normalized (sensitive_keys p)
  || (bool_decide (mode p = METADATA_ONLY) && _matches_content_key normalized (content_keys p)).

Definition sanitize_string (s : string) : string :=
  if has_secret p s || _looks_like_credential s then replacement p else take_points (max_string_chars p) s.

(** [{key: value for ...}]: a key that comes twice keeps its place and its last value. *)
Definition pair_dict (l : list (string * pyval)) : list (string * pyval) :=
  foldl (λ d kv, dict_set kv.1 kv.2 d) [] l.
(** [list(items)[: self.max_collection_items]] *)
Definition first_items {A} (l : list A) : list A := take (Z.to_nat (max_collection_items p)) l.

Fixpoint _sanitize_value (key : string) (value : pyval) {struct value} : pyval :=
  if hidden_key key then PStr (replacement p)
  else
    match value with
    | PMapping items =>
        let pair kv := (_sanitize_key (key_text kv.1), _sanitize_value (key_text kv.1) kv.2) in
        PMapping (map (λ kv, (PStr kv.1, kv.2)) (pair_dict (first_items (map pair items))))
    | PSequence items => PSequence (first_items (map (_sanitize_value key) items))
    | PNone | PBool _ | PInt _ | PFloat _ => value
    | PStr s => PStr (sanitize_string s)
    | POther name => PStr ("<" +:+ name +:+ ">")
    end.

Definition sanitize (attributes : list (string * pyval)) : list (string * pyval) :=
  pair_dict (first_items (map (λ kv, (_sanitize_key kv.1, _sanitize_value kv.1 kv.2)) attributes)).

Definition as_text (e : exn) (v : pyval) : result string := match v with PStr s => Ok s | _ => Err e end.
Definition sanitize_text (value : string) : result string :=
  as_text (TypeError "text sanitization must produce text") (_sanitize_value "" (PStr value)).
Definition sanitize_text_mapping (value : list (string * string)) : result (list (string * string)) :=
  fold_result (λ done kv,
      v ← as_text (TypeError "text mapping sanitization must produce text") (_sanitize_value kv.1 (PStr kv.2));
      Ok (dict_set (_sanitize_key kv.1) v done)) [] (first_items value).
End Sanitize.
End Policy.

(** ** TraceRecorder *)

Definition span_name_char (a : ascii) : bool := is_lower a || is_digit a || is_one_of "_.-" a.
(** [re.compile(r"^blackcell\.[a-z][a-z0-9_.-]*$").fullmatch(name)] *)
Definition _validate_span_name (name : string) : result unit :=
  raise_if (negb (starts_with "blackcell." name
                  && match drop_bytes 10 name with
                     | String a rest => is_lower a && all_chars span_name_char rest
                     | EmptyString => false end))
    (ValueError "span names must use the stable blackcell.* namespace").

Definition _validate_correlation_ids (value : list (string * string)) : result (list (string * string)) :=
  fold_result (λ done kv,
      _ ← raise_if (is_empty kv.1) (ValueError "correlation id names must be non-empty strings");
      _ ← raise_if (is_empty kv.2) (ValueError "correlation id values must be non-empty strings");
      Ok (dict_set kv.1 kv.2 done)) [] value.

Inductive SpanStatus := SPAN_OK | SPAN_ERROR.

Record SpanEvent := MkSpanEvent {
  span_event_name : string;
  span_event_timestamp : string;
  span_event_attributes : list (string * pyval)
}.

Record SpanRecord := MkSpanRecord {
  sr_trace_id : string;
  sr_span_id : string;
  sr_parent_span_id : option string;
  sr_name : string;
  sr_started_at : string;
  sr_ended_at : string;
  sr_duration_ms : spec_float;
  sr_status : SpanStatus;
  sr_correlation_ids : list (string * string);
  sr_attributes : list (string * pyval);
  sr_events : list SpanEvent
}.

Record SpanHandle := MkSpan {
  sh_trace_id : string;
  sh_span_id : string;
  sh_parent_span_id : option string;
  sh_name : string;
  sh_correlation_ids : list (string * string);
  sh_attributes : list (string * pyval);
  sh_events : list (string * datetime * list (string * pyval));
  sh_started_at : datetime;
  sh_started_tick : spec_float;
  sh_ended : bool
}.

Definition span_ended : exn := RuntimeError "span has already ended".

Definition set_attribute (key : string) (value : pyval) (h : SpanHandle) : result SpanHandle :=
  _ ← raise_if (sh_ended h) span_ended;
  Ok (MkSpan (sh_trace_id h) (sh_span_id h) (sh_parent_span_id h) (sh_name h) (sh_correlation_ids h)
        (dict_set key value (sh_attributes h)) (sh_events h) (sh_started_at h) (sh_started_tick h) false).

(** [wall] is what the wall clock answers. *)
Definition add_event (wall : datetime) (name : string) (attributes : list (string * pyval)) (h : SpanHandle)
    : result SpanHandle :=
  _ ← raise_if (sh_ended h) span_ended;
  _ ← raise_if (is_empty name) (ValueError "event name must not be empty");
  Ok (MkSpan (sh_trace_id h) (sh_span_id h) (sh_parent_span_id h) (sh_name h) (sh_correlation_ids h)
        (sh_attributes h) (sh_events h ++ [(name, wall, attributes)]) (sh_started_at h) (sh_started_tick h) false).

Definition ended_span (h : SpanHandle) : SpanHandle :=
  MkSpan (sh_trace_id h) (sh_span_id h) (sh_parent_span_id h) (sh_name h) (sh_correlation_ids h)
    (sh_attributes h) (sh_events h) (sh_started_at h) (sh_started_tick h) true.

(** The fields of [TraceRecorder] that change. *)
Record recorder := MkRecorder { records : list SpanRecord; export_errors : list string }.

Definition max_records_ok (max_records : option Z) : result unit :=
  raise_if (match max_records with Some n => n <? 0 | None => false end)
    (ValueError "max_records must be a non-negative integer or None").

Section Recorder.
Context (casefold : string → string) (text_of : pyval → string) (policy : ContentPolicy).
Context (max_records : option Z).
(** What each exporter does with a record: nothing, or an exception of a class. *)
Context (exporters : list (SpanRecord → option string)).

(** [del l[:-n]] *)
Definition keep_last {A} (n : Z) (l : list A) : list A := drop (length l - Z.to_nat n) l.

Definition store_record (r : SpanRecord) (l : list SpanRecord) : list SpanRecord :=
  match max_records with
  | None => l ++ [r]
  | Some n => if n =? 0 then l else keep_last n (l ++ [r])
  end.

Definition _commit (r : SpanRecord) (s : recorder) : recorder :=
  MkRecorder (store_record r (records s))
    (foldl (λ errors export,
       match export r with Some name => keep_last 128 (errors ++ [name]) | None => errors end)
       (export_errors s) exporters).

Definition thousand : spec_float := Eval vm_compute in float_of_decimal false 1000 0.
(** [max(0.0, x)]: the first argument unless the second is greater. *)
Definition max_zero (x : spec_float) : spec_float := if SFltb (S754_zero false) x then x else S754_zero false.

Definition span_event (e : string * datetime * list (string * pyval)) : result SpanEvent :=
  let '(name, wall, attributes) := e in
  name ← sanitize_text casefold text_of policy name;
  Ok (MkSpanEvent name (isoformat wall) (sanitize casefold text_of policy attributes)).

(** The record of a span that ends at the readings [wall] and [tick]. *)
Definition span_record (wall : datetime) (tick : spec_float) (status : SpanStatus) (h : SpanHandle)
    : result SpanRecord :=
  events ← map_result span_event (sh_events h);
  trace ← sanitize_text casefold text_of policy (sh_trace_id h);
  parent ← match sh_parent_span_id h with
           | None => Ok None
           | Some id => Some <$> sanitize_text casefold text_of policy id
           end;
  ids ← sanitize_text_mapping casefold text_of policy (sh_correlation_ids h);
  Ok (MkSpanRecord trace (sh_span_id h) parent (sh_name h) (isoformat (sh_started_at h)) (isoformat wall)
        (max_zero (SFmul 53 1024 (SFsub 53 1024 tick (sh_started_tick h)) thousand)) status ids
        (sanitize casefold text_of policy (sh_attributes h)) events).

(** [SpanHandle.end]: the handle is ended even when the record cannot be built. *)
Definition end_span (wall : datetime) (tick : spec_float) (status : SpanStatus) (h : SpanHandle) (s : recorder)
    : result SpanRecord * SpanHandle * recorder :=
  if sh_ended h then (Err span_ended, h, s)
  else
    match span_record wall tick status h with
    | Ok r => (Ok r, ended_span h, _commit r s)
    | Err e => (Err e, ended_span h, s)
    end.

(** [TraceRecorder.records] *)
Definition select_records (trace_id : option string) (s : recorder) : list SpanRecord :=
  match trace_id with
  | None => records s
  | Some id => filter (λ r, sr_trace_id r = id) (records s)
  end.
Definition clear (s : recorder) : recorder := MkRecorder [] [].

(** The handle [span] opens: [current] is the span in whose body it is opened,
    [fresh_trace] and [fresh_span] the identifiers drawn for it. *)
Definition open_span (current : option SpanHandle) (name : string) (trace_id parent_span_id : option string)
    (correlation_ids : list (string * string)) (attributes : list (string * pyval))
    (fresh_trace fresh_span : string) (wall : datetime) (tick : spec_float) : result SpanHandle :=
  _ ← _validate_span_name name;
  let '(trace, parent) :=
    match current with
    | Some p => (or_else trace_id (sh_trace_id p), Some (or_else parent_span_id (sh_span_id p)))
    | None => (or_else trace_id fresh_trace, parent_span_id)
    end in
  ids ← _validate_correlation_ids correlation_ids;
  Ok (MkSpan trace fresh_span parent name ids attributes [] wall tick false).

(** [with recorder.span(...) as handle: body].  The body is an operation on the
    handle and the recorder; [error_name] and [error_else] are
    [type(error).__name__] and [str(error)]. *)
Definition span {A} (error_name error_else : exn → string) (h : SpanHandle)
    (body : SpanHandle → recorder → result A * SpanHandle * recorder) (wall : datetime) (tick : spec_float)
    (s : recorder) : result A * recorder :=
  match body h s with
  | (Ok a, h, s) =>
      match end_span wall tick SPAN_OK h s with (Ok _, _, s) => (Ok a, s) | (Err e, _, s) => (Err e, s) end
  | (Err e, h, s) =>
      match (h ← set_attribute "error.type" (PStr (error_name e)) h;
             set_attribute "error.message" (PStr (error_else e)) h) with
      | Err e' => (Err e', s)
      | Ok h =>
          match end_span wall tick SPAN_ERROR h s with (Ok _, _, s) => (Err e, s) | (Err e', _, s) => (Err e', s) end
      end
  end.
End Recorder.
