(* ===== verification/TelemetryFacts.v ===== *)
(** * What telemetry may store

    A finished span carries no configured secret, nothing that depends on what
    was under a sensitive key, and only bounded parts; the recorder keeps the
    newest records. *)

From S2P Require Import Prelude PyStr PyFloat Json PyTime Contracts Events PlanFacts Telemetry.
From Stdlib Require Import ZArith Lia Ascii String Floats.SpecFloat.
From stdpp Require Import base gmap sets list strings.
Local Open Scope Z_scope.

(** ** Values and their parts *)

Section PyvalInd.
Context (P : pyval → Prop).
Context (Hatom : ∀ v, match v with PMapping _ | PSequence _ => False | _ => True end → P v).
Context (Hmap : ∀ l, Forall (λ kv, P kv.2) l → P (PMapping l)).
Context (Hseq : ∀ l, Forall P l → P (PSequence l)).
Fixpoint pyval_value_ind (v : pyval) : P v :=
  match v with
  | PMapping l =>
      Hmap l ((fix go (l : list (pyval * pyval)) : Forall (λ kv, P kv.2) l :=
        match l with
        | [] => Forall_nil_2 _
        | (k, x) :: l' => Forall_cons_2 _ (k, x) l' (pyval_value_ind x) (go l')
        end) l)
  | PSequence l =>
      Hseq l ((fix go (l : list pyval) : Forall P l :=
        match l with [] => Forall_nil_2 _ | x :: l' => Forall_cons_2 _ x l' (pyval_value_ind x) (go l') end) l)
  | v => Hatom v I
  end.
End PyvalInd.

(** [x] is the value, or a key or a value inside it at any depth. *)
Inductive part (x : pyval) : pyval → Prop :=
| part_self : part x x
| part_key k v l : (k, v) ∈ l → part x k → part x (PMapping l)
| part_value k v l : (k, v) ∈ l → part x v → part x (PMapping l)
| part_item v l : v ∈ l → part x v → part x (PSequence l).

Lemma dict_set_elem {V} k (v : V) d kv : kv ∈ dict_set k v d → kv = (k, v) ∨ kv ∈ d.
Proof.
  induction d as [|[k' v'] d IH]; cbn [dict_set].
  - intros H%list_elem_of_singleton. by left.
  - case_decide as E.
    + intros [->|H]%elem_of_cons; [left; by subst|right; by right].
    + intros [->|H]%elem_of_cons; [right; by left|]. apply IH in H as [?|?]; [by left|right; by right].
Qed.

Lemma pair_dict_elem l kv : kv ∈ pair_dict l → kv ∈ l.
Proof.
  unfold pair_dict.
  enough (H : ∀ d, kv ∈ foldl (λ d kv, dict_set kv.1 kv.2 d) d l → kv ∈ d ∨ kv ∈ l).
  { intros Hin%H. destruct Hin as [Hin|]; [by apply elem_of_nil in Hin|done]. }
  induction l as [|[k v] l IH]; intros d; cbn [foldl]; [by left|].
  intros [Hin%dict_set_elem|Hin]%IH; [|right; by right]. destruct Hin as [->|Hin]; [right; by left|by left].
Qed.

Lemma pair_dict_length l : (length (pair_dict l) ≤ length l)%nat.
Proof.
  unfold pair_dict. enough (H : ∀ d, (length (foldl (λ d kv, dict_set kv.1 kv.2 d) d l) ≤ length d + length l)%nat)
    by apply (H []).
  induction l as [|[k v] l IH]; intros d; cbn [foldl length]; [lia|]. etrans; [apply IH|]. cbn [fst snd].
  assert (length (dict_set k v d) ≤ S (length d))%nat; [|lia].
  clear. induction d as [|[k' v'] d IH]; cbn [dict_set length]; [lia|]. case_decide; cbn [length]; lia.
Qed.

(** ** Prefixes of text *)

Lemma take_points_prefix n s : ∃ t, s = take_points n s +:+ t.
Proof.
  revert n. induction s as [|a s IH]; intros n; cbn [take_points]; [by exists ""|].
  destruct (is_continuation _); [|destruct (n <=? 0)].
  - destruct (IH n) as [t Ht]. exists t. exact (f_equal (String a) Ht).
  - by exists (String a s).
  - destruct (IH (n - 1)) as [t Ht]. exists t. exact (f_equal (String a) Ht).
Qed.

Lemma take_points_len n s : 0 <= n → py_len (take_points n s) <= n.
Proof.
  revert n. induction s as [|a s IH]; intros n Hn; cbn [take_points py_len]; [done|].
  destruct (is_continuation _) eqn:E; [|destruct (Z.leb_spec n 0)]; cbn [py_len]; rewrite ?E; [|done|].
  - specialize (IH n Hn). lia.
  - specialize (IH (n - 1)). lia.
Qed.

Lemma has_secret_prefix p n s : has_secret p s = false → has_secret p (take_points n s) = false.
Proof.
  destruct (take_points_prefix n s) as [t Ht]. unfold has_secret. intros H. apply existsb_false. intros x Hx.
  rewrite existsb_false in H. specialize (H x Hx). destruct (contains x (take_points n s)) eqn:E; [|done].
  apply (contains_mono _ _ t) in E. by rewrite <-Ht, H in E.
Qed.

Section Sanitized.
Context (casefold : string → string) (text_of : pyval → string) (p : ContentPolicy).
Abbreviation sanitize_key := (_sanitize_key casefold p).
Abbreviation sanitize_value := (_sanitize_value casefold text_of p).
Abbreviation hidden := (hidden_key casefold p).

(** What a stored text may be: the replacement, the name of a type, or a text
    without secrets. *)
Definition stored_text (s : string) : Prop :=
  s = replacement p ∨ (∃ name, s = "<" +:+ name +:+ ">") ∨ has_secret p s = false.

Lemma sanitize_key_stored k : stored_text (sanitize_key k).
Proof.
  unfold _sanitize_key. destruct (has_secret p k) eqn:E; [by left|]. cbn [orb].
  destruct (_looks_like_credential _ _); [by left|]. right. right. by apply has_secret_prefix.
Qed.
Lemma sanitize_string_stored s : stored_text (sanitize_string casefold p s).
Proof.
  unfold sanitize_string. destruct (has_secret p s) eqn:E; [by left|]. cbn [orb].
  destruct (_looks_like_credential _ _); [by left|]. right. right. by apply has_secret_prefix.
Qed.

(** The pairs of a sanitised mapping. *)
Lemma first_items_elem {A} (l : list A) x : x ∈ first_items p l → x ∈ l.
Proof. unfold first_items. intros (i & H & _)%elem_of_take. by eapply list_elem_of_lookup_2. Qed.

Lemma part_str x s : part x (PStr s) → x = PStr s.
Proof. by inversion 1. Qed.

(** What is inside a mapping that was sanitised. *)
Lemma mapping_part x pairs : part x (obj (pair_dict (first_items p pairs))) →
  x = obj (pair_dict (first_items p pairs)) ∨ ∃ kv, kv ∈ pairs ∧ (x = PStr kv.1 ∨ part x kv.2).
Proof.
  unfold obj. intros H. inversion H as [|k v l0 Hin Hk|k v l0 Hin Hk|]; subst; [by left|right..];
    apply list_elem_of_fmap in Hin as ([k' v'] & [= -> ->] & Hin%pair_dict_elem%first_items_elem);
    exists (k', v'); (split; [done|]).
  - left. by inversion Hk.
  - by right.
Qed.

Lemma sanitize_value_stored v : ∀ key s, part (PStr s) (sanitize_value key v) → stored_text s.
Proof.
  induction v as [v Hv|l IH|l IH] using pyval_value_ind; intros key s.
  - destruct v; cbn [_sanitize_value]; try done; destruct (hidden key) eqn:E;
      intros H; inversion H; subst; try done; try (by left); try apply sanitize_string_stored.
    right. left. by eexists.
  - cbn [_sanitize_value]. destruct (hidden key); [intros [= ->]%part_str; by left|].
    intros [?|(kv & (kv0 & -> & Hin)%list_elem_of_fmap & [[= ->]|Hk])]%mapping_part; [done|apply sanitize_key_stored|].
    rewrite Forall_forall in IH. by eapply (IH _ Hin).
  - cbn [_sanitize_value]. destruct (hidden key); [intros [= ->]%part_str; by left|]. intros H.
    inversion H as [| | |v l0 Hin Hk]; subst.
    apply first_items_elem, list_elem_of_fmap in Hin as (v0 & -> & Hin).
    rewrite Forall_forall in IH. by eapply (IH _ Hin).
Qed.

Lemma sanitize_stored l s : part (PStr s) (obj (sanitize casefold text_of p l)) → stored_text s.
Proof.
  intros [?|(kv & (kv0 & -> & Hin)%list_elem_of_fmap & [[= ->]|Hk])]%mapping_part; [done|apply sanitize_key_stored|].
  by eapply sanitize_value_stored.
Qed.

Lemma sanitize_text_as s t : sanitize_text casefold text_of p s = Ok t →
  part (PStr t) (sanitize_value "" (PStr s)).
Proof. unfold sanitize_text, as_text. destruct (sanitize_value _ _); try done. intros [= ->]. constructor. Qed.

(** Every pair of a mapping of texts is the image of one. *)
Lemma sanitize_text_mapping_elem l out kv : sanitize_text_mapping casefold text_of p l = Ok out → kv ∈ out →
  ∃ kv0, kv0 ∈ l ∧ kv.1 = sanitize_key kv0.1 ∧ part (PStr kv.2) (sanitize_value kv0.1 (PStr kv0.2)).
Proof.
  unfold sanitize_text_mapping. intros H Hkv.
  enough (Hgo : ∀ l done out, fold_result (λ done kv,
      v ← as_text (TypeError "text mapping sanitization must produce text") (sanitize_value kv.1 (PStr kv.2));
      Ok (dict_set (sanitize_key kv.1) v done)) done l = Ok out → kv ∈ out → kv ∈ done ∨
    ∃ kv0, kv0 ∈ l ∧ kv.1 = sanitize_key kv0.1 ∧ part (PStr kv.2) (sanitize_value kv0.1 (PStr kv0.2))).
  { destruct (Hgo _ _ _ H Hkv) as [Hn|(kv0 & Hin & ?)]; [by apply elem_of_nil in Hn|].
    exists kv0. by split; [apply first_items_elem|]. }
  clear. induction l as [|kv1 l IH]; intros d out; cbn [fold_result].
  { intros [= <-]. by left. }
  intros H Hin. apply bind_ok in H as (d' & Hd & H). destruct (IH _ _ H Hin) as [Hd'|(kv0 & ? & ?)].
  2: { right. exists kv0. by split; [right|]. }
  apply bind_ok in Hd as (v & Hv & [= <-]). apply dict_set_elem in Hd' as [->|Hd']; [|by left].
  right. exists kv1. split; [by left|]. split; [done|]. unfold as_text in Hv.
  destruct (sanitize_value kv1.1 (PStr kv1.2)); try done. injection Hv as ->. constructor.
Qed.

(** *** What is under a hidden key cannot be told apart *)

(** A text that is replaced whole. *)
Definition replaced (s : string) : bool := has_secret p s || _looks_like_credential casefold s.

(** Two values under [key] that differ only under hidden keys, in texts that
    are replaced, and behind the items that are kept. *)
Inductive alike : string → pyval → pyval → Prop :=
| alike_same key v : alike key v v
| alike_hidden key v v' : hidden key = true → alike key v v'
| alike_replaced key s s' : replaced s = true → replaced s' = true → alike key (PStr s) (PStr s')
| alike_mapping key l l' :
    Forall2 (λ kv kv', kv.1 = kv'.1 ∧ alike (key_text text_of kv.1) kv.2 kv'.2) (first_items p l) (first_items p l') →
    alike key (PMapping l) (PMapping l')
| alike_sequence key l l' : Forall2 (alike key) (first_items p l) (first_items p l') →
    alike key (PSequence l) (PSequence l').

Lemma first_items_map {A B} (f : A → B) l : first_items p (map f l) = map f (first_items p l).
Proof. unfold first_items. apply firstn_map. Qed.

Lemma Forall2_map_eq {A B} (R : A → A → Prop) (f : A → B) l l' : Forall2 R l l' →
  (∀ x y, x ∈ l → R x y → f x = f y) → map f l = map f l'.
Proof.
  induction 1 as [|x y l l' Hxy H IH]; intros Hf; [done|]. cbn [map]. rewrite (Hf x y); [|by left|done].
  f_equal. apply IH. intros a b Ha. apply Hf. by right.
Qed.

Lemma alike_sanitized v : ∀ key v', alike key v v' → sanitize_value key v = sanitize_value key v'.
Proof.
  assert (Hstr : ∀ key s s', replaced s = true → replaced s' = true →
    sanitize_value key (PStr s) = sanitize_value key (PStr s')).
  { intros key s s' Hs Hs'. cbn [_sanitize_value]. destruct (hidden key); [done|].
    unfold sanitize_string, replaced in *. by rewrite Hs, Hs'. }
  assert (Hhid : ∀ key v v', hidden key = true → sanitize_value key v = sanitize_value key v').
  { intros key a b H. destruct a, b; cbn [_sanitize_value]; by rewrite H. }
  induction v as [v Hv|l IH|l IH] using pyval_value_ind; intros key v' H.
  - inversion H; subst; try done; by auto.
  - inversion H as [|??? Hh| |? ? l' Hl|]; subst; [done|by apply Hhid|].
    cbn [_sanitize_value]. destruct (hidden key); [done|]. do 3 f_equal. rewrite !first_items_map.
    eapply Forall2_map_eq; [exact Hl|]. intros [k x] [k' x'] Hin [Hk Hx]. cbn [fst snd] in *. subst k'.
    rewrite Forall_forall in IH. f_equal. by apply (IH (k, x)); [apply first_items_elem|].
  - inversion H as [|??? Hh| | |? ? l' Hl]; subst; [done|by apply Hhid|].
    cbn [_sanitize_value]. destruct (hidden key); [done|]. f_equal. rewrite !first_items_map.
    eapply Forall2_map_eq; [exact Hl|]. intros x x' Hin Hx. rewrite Forall_forall in IH.
    by apply IH; [apply first_items_elem|].
Qed.

(** *** Bounds *)

Definition text_limit : Z := Z.max (Z.max 64 _MAX_KEY_CHARS) (max_string_chars p).

Lemma first_items_length {A} (l : list A) : 0 < max_collection_items p → zlen (first_items p l) <= max_collection_items p.
Proof. intros H. unfold zlen, first_items. rewrite length_take. lia. Qed.

Lemma replaced_bounds (f : string → string) n : 0 < n → n <= text_limit → py_len (replacement p) <= 64 →
  (∀ s, f s = replacement p ∨ f s = take_points n s) → ∀ s, py_len (f s) <= text_limit.
Proof.
  intros Hn Hl Hr Hf s. destruct (Hf s) as [->| ->]; [unfold text_limit; lia|].
  pose proof (take_points_len n s). lia.
Qed.

Lemma sanitize_texts_bounded : content_policy_init p = Ok p →
  py_len (replacement p) <= text_limit ∧ (∀ k, py_len (sanitize_key k) <= text_limit)
  ∧ (∀ s, py_len (sanitize_string casefold p s) <= text_limit) ∧ 0 < max_collection_items p.
Proof.
  unfold content_policy_init. intros H. apply bind_ok in H as (? & H1%raise_if_ok & H).
  apply bind_ok in H as (? & H2%raise_if_ok%Z.leb_gt & H). apply bind_ok in H as (? & H3%raise_if_ok%Z.leb_gt & _).
  apply orb_false_iff in H1 as [_ H1%Z.ltb_ge]. split_and!; [unfold text_limit; lia| | |done].
  - apply (replaced_bounds _ _MAX_KEY_CHARS); [done|unfold text_limit; lia|done|].
    intros s. unfold _sanitize_key. destruct (_ || _); auto.
  - apply (replaced_bounds _ (max_string_chars p)); [done|unfold text_limit; lia|done|].
    intros s. unfold sanitize_string. destruct (_ || _); auto.
Qed.

(** What a stored value is made of. *)
Definition part_bounded (x : pyval) : Prop :=
  match x with
  | PStr s => py_len s <= text_limit ∨ ∃ name, s = "<" +:+ name +:+ ">"
  | PMapping l => zlen l <= max_collection_items p
  | PSequence l => zlen l <= max_collection_items p
  | _ => True
  end.

Lemma dict_bounded l : 0 < max_collection_items p → part_bounded (obj (pair_dict (first_items p l))).
Proof.
  intros Hn. cbn. unfold zlen. rewrite length_map. etrans; [apply inj_le, pair_dict_length|]. by apply first_items_length.
Qed.

Lemma sanitize_value_bounded : content_policy_init p = Ok p →
  ∀ v key x, part x (sanitize_value key v) → part_bounded x.
Proof.
  intros (Hr & Hk & Hs & Hn)%sanitize_texts_bounded.
  assert (Hself : ∀ x v, match v with PMapping _ | PSequence _ => False | _ => True end → part x v → x = v)
    by (intros x v Hv H; by inversion H; subst).
  induction v as [v Hv|l IH|l IH] using pyval_value_ind; intros key x.
  - destruct v; cbn [_sanitize_value]; try done; destruct (hidden key);
      intros H; apply Hself in H; try done; subst x; cbn; try done; try (by left); try (left; apply Hs).
    right. by eexists.
  - cbn [_sanitize_value]. destruct (hidden key); [intros H; apply Hself in H as ->; [by left|done]|]. intros H.
    apply mapping_part in H as [->|(kv & (kv0 & -> & Hin)%list_elem_of_fmap & [->|Hp])].
    + by apply dict_bounded.
    + left. apply Hk.
    + rewrite Forall_forall in IH. by eapply (IH _ Hin).
  - cbn [_sanitize_value]. destruct (hidden key); [intros H; apply Hself in H as ->; [by left|done]|]. intros H.
    inversion H as [| | |v l0 Hin Hp]; subst; [by apply first_items_length|].
    apply first_items_elem, list_elem_of_fmap in Hin as (v0 & -> & Hin).
    rewrite Forall_forall in IH. by eapply (IH _ Hin).
Qed.
End Sanitized.

(** ** What a finished span may hold *)

Section Recorded.
Context (casefold : string → string) (text_of : pyval → string) (p : ContentPolicy).
Context (max_records : option Z) (exporters : list (SpanRecord → option string)).

(** [x] is one of the values of the record that a caller or an error supplied:
    all but the validated span name, the span's own identifier, the times and
    the status. *)
Definition recorded (r : SpanRecord) (x : pyval) : Prop :=
  x = PStr (sr_trace_id r) ∨ (∃ id, sr_parent_span_id r = Some id ∧ x = PStr id)
  ∨ (∃ kv, kv ∈ sr_correlation_ids r ∧ (x = PStr kv.1 ∨ x = PStr kv.2))
  ∨ part x (obj (sr_attributes r))
  ∨ (∃ e, e ∈ sr_events r ∧ (x = PStr (span_event_name e) ∨ part x (obj (span_event_attributes e)))).

(** Where the values of a record come from. *)
Inductive sanitized (x : pyval) : Prop :=
| sanitized_value key v : part x (_sanitize_value casefold text_of p key v) → sanitized x
| sanitized_key k : x = PStr (_sanitize_key casefold p k) → sanitized x
| sanitized_mapping l : part x (obj (sanitize casefold text_of p l)) → sanitized x.

Lemma sanitized_text s t : sanitize_text casefold text_of p s = Ok t → sanitized (PStr t).
Proof. intros H%sanitize_text_as. by eapply sanitized_value. Qed.

Lemma span_events_sanitized l events e x : map_result (span_event casefold text_of p) l = Ok events →
  e ∈ events → x = PStr (span_event_name e) ∨ part x (obj (span_event_attributes e)) → sanitized x.
Proof.
  revert events. induction l as [|[[n w] a] l IH]; intros events H He Hx; cbn [map_result] in H.
  { injection H as <-. by apply elem_of_nil in He. }
  apply bind_ok in H as (e' & He' & H). apply bind_ok in H as (es & Hes & [= <-]).
  apply elem_of_cons in He as [->|He]; [|by eapply IH].
  unfold span_event in He'. apply bind_ok in He' as (t & Ht & [= <-]). cbn in Hx.
  destruct Hx as [->|Hx]; [by eapply sanitized_text|by eapply sanitized_mapping].
Qed.

Lemma recorded_sanitized wall tick status h r x :
  span_record casefold text_of p wall tick status h = Ok r → recorded r x → sanitized x.
Proof.
  unfold span_record. intros H Hx. apply bind_ok in H as (events & He & H). apply bind_ok in H as (trace & Ht & H).
  apply bind_ok in H as (parent & Hp & H). apply bind_ok in H as (ids & Hids & [= <-]).
  destruct Hx as [->|[(id & Hid & ->)|[(kv & Hkv & Hx)|[Hx|(e & Hin & Hx)]]]]; cbn in *.
  - by eapply sanitized_text.
  - subst parent. destruct (sh_parent_span_id h) as [id0|]; [|done].
    destruct (sanitize_text casefold text_of p id0) as [t|] eqn:E; [|done]. cbn in Hp. injection Hp as ->.
    by eapply sanitized_text.
  - destruct (sanitize_text_mapping_elem _ _ _ _ _ _ Hids Hkv) as (kv0 & _ & Hk & Hv).
    destruct Hx as [->| ->]; [rewrite Hk; by eapply sanitized_key|by eapply sanitized_value].
  - by eapply sanitized_mapping.
  - by eapply span_events_sanitized.
Qed.

Lemma sanitized_stored s : sanitized (PStr s) → stored_text p s.
Proof.
  intros [key v H|k [= ->]|l H]; [by eapply sanitize_value_stored|apply sanitize_key_stored|by eapply sanitize_stored].
Qed.

Lemma sanitized_bounded x : content_policy_init p = Ok p → sanitized x → part_bounded p x.
Proof.
  intros Hp. destruct (sanitize_texts_bounded casefold _ Hp) as (_ & Hk & _ & Hn). intros [key v H|k ->|l H].
  - by eapply sanitize_value_bounded.
  - left. apply Hk.
  - unfold sanitize in H. apply mapping_part in H as [->|(kv & (kv0 & -> & _)%list_elem_of_fmap & [->|H])].
    + by apply dict_bounded.
    + left. apply Hk.
    + by eapply sanitize_value_bounded.
Qed.

Lemma end_span_ok wall tick status h s r h' s' :
  end_span casefold text_of p max_records exporters wall tick status h s = (Ok r, h', s') →
  sh_ended h = false ∧ span_record casefold text_of p wall tick status h = Ok r ∧ h' = ended_span h
  ∧ s' = _commit max_records exporters r s.
Proof.
  unfold end_span. destruct (sh_ended h); [done|]. destruct (span_record _ _ _ _ _ _ _) as [r0|]; [|done].
  by intros [= <- <- <-].
Qed.

Lemma store_record_elem r l x : x ∈ store_record max_records r l → x = r ∨ x ∈ l.
Proof.
  assert (Happ : ∀ l' : list SpanRecord, (∀ y, y ∈ l' → y ∈ l ++ [r]) → x ∈ l' → x = r ∨ x ∈ l).
  { intros l' Hl' [H|H%list_elem_of_singleton]%Hl'%elem_of_app; auto. }
  unfold store_record. destruct max_records as [n|]; [|by apply Happ]. destruct (n =? 0); [by right|]. apply Happ.
  intros y. unfold keep_last. apply subseteq_drop.
Qed.

Definition record_clean (r : SpanRecord) : Prop := ∀ t, recorded r (PStr t) → stored_text p t.


(** Under a policy the constructor accepts, every text
    of a record is at most the longer of the policy's text limit, the key limit
    and the longest replacement (or names a type), and every mapping and
    sequence, at any depth, has at most the configured number of items. *)
Theorem telemetry_bounded wall tick status h s r h' s' (Hp : content_policy_init p = Ok p)
    (Hend : end_span casefold text_of p max_records exporters wall tick status h s = (Ok r, h', s')) :
  ∀ x, recorded r x → part_bounded p x.
Proof.
  apply end_span_ok in Hend as (_ & Hr & _ & _). intros x Hx.
  by eapply sanitized_bounded, recorded_sanitized.
Qed.

(** *** Noninterference *)

(** Two attribute mappings that differ only in what is hidden. *)
Definition alike_attributes (l l' : list (string * pyval)) : Prop :=
  Forall2 (λ kv kv', kv.1 = kv'.1 ∧ alike casefold text_of p kv.1 kv.2 kv'.2) (first_items p l) (first_items p l').

Lemma alike_attributes_sanitized l l' : alike_attributes l l' →
  sanitize casefold text_of p l = sanitize casefold text_of p l'.
Proof.
  intros H. unfold sanitize. f_equal. rewrite !first_items_map. eapply Forall2_map_eq; [exact H|].
  intros [k v] [k' v'] _ [Hk Hv]. cbn [fst snd] in *. subst k'. f_equal. by apply alike_sanitized.
Qed.

(** Two spans that differ only in what is hidden. *)
Definition alike_spans (h h' : SpanHandle) : Prop :=
  sh_trace_id h = sh_trace_id h' ∧ sh_span_id h = sh_span_id h' ∧ sh_parent_span_id h = sh_parent_span_id h'
  ∧ sh_name h = sh_name h' ∧ sh_correlation_ids h = sh_correlation_ids h' ∧ sh_started_at h = sh_started_at h'
  ∧ sh_started_tick h = sh_started_tick h' ∧ sh_ended h = sh_ended h'
  ∧ alike_attributes (sh_attributes h) (sh_attributes h')
  ∧ Forall2 (λ e e', e.1.2 = e'.1.2 ∧ alike casefold text_of p "" (PStr e.1.1) (PStr e'.1.1) ∧ alike_attributes e.2 e'.2)
      (sh_events h) (sh_events h').

Lemma alike_events l l' :
  Forall2 (λ e e', e.1.2 = e'.1.2 ∧ alike casefold text_of p "" (PStr e.1.1) (PStr e'.1.1) ∧ alike_attributes e.2 e'.2) l l' →
  map_result (span_event casefold text_of p) l = map_result (span_event casefold text_of p) l'.
Proof.
  induction 1 as [|[[n w] a] [[n' w'] a'] l l' (Hw & Hn & Ha) _ IH]; [done|]. cbn in Hw, Hn, Ha. subst w'.
  cbn [map_result]. rewrite IH.
  assert (span_event casefold text_of p (n, w, a) = span_event casefold text_of p (n', w, a')) as ->; [|done].
  unfold span_event, sanitize_text. by rewrite (alike_sanitized _ _ _ _ _ _ Hn), (alike_attributes_sanitized _ _ Ha).
Qed.

(** The value under a sensitive key, a text
    that holds a secret or looks like a credential, and whatever lies beyond
    the collection limit leave no trace: two spans that differ only there end
    with the same result, the same recorder and so the same exports. *)
Theorem telemetry_noninterference wall tick status h h' s (Hh : alike_spans h h') :
  (end_span casefold text_of p max_records exporters wall tick status h s).1.1
  = (end_span casefold text_of p max_records exporters wall tick status h' s).1.1
  ∧ (end_span casefold text_of p max_records exporters wall tick status h s).2
    = (end_span casefold text_of p max_records exporters wall tick status h' s).2.
Proof.
  destruct Hh as (Ht & Hi & Hpar & Hn & Hc & Hs & Htick & He & Ha & Hev).
  assert (Hrec : span_record casefold text_of p wall tick status h = span_record casefold text_of p wall tick status h').
  { unfold span_record. by rewrite (alike_events _ _ Hev), (alike_attributes_sanitized _ _ Ha), Ht, Hi, Hpar, Hn, Hc, Hs, Htick. }
  unfold end_span. rewrite He, Hrec. destruct (sh_ended h'); [done|]. by destruct (span_record _ _ _ _ _ _ h').
Qed.
End Recorded.

(** ** The recorder keeps the newest records *)

Lemma keep_last_snoc {A} n (l : list A) x : keep_last n (keep_last n l ++ [x]) = keep_last n (l ++ [x]).
Proof.
  unfold keep_last. rewrite !length_app, length_drop. cbn [length].
  destruct (decide (length l ≤ Z.to_nat n)%nat) as [Hle|Hgt].
  { rewrite (proj2 (Nat.sub_0_le _ _) Hle), drop_0, Nat.sub_0_r. done. }
  destruct (Z.to_nat n) as [|m].
  - rewrite !drop_ge; [done|..]; rewrite length_app, ?length_drop; cbn [length]; lia.
  - rewrite <-drop_app_le, drop_drop by lia. f_equal. lia.
Qed.

Lemma keep_last_length {A} n (l : list A) : 0 <= n → zlen (keep_last n l) <= n.
Proof. intros Hn. unfold zlen, keep_last. rewrite length_drop. lia. Qed.

(** The classes of the exceptions the exporters raised for a record, in order. *)
Definition export_failures (exporters : list (SpanRecord → option string)) (r : SpanRecord) : list string :=
  omap (λ export, export r) exporters.

Lemma export_errors_step exporters r errors all : errors = keep_last 128 all →
  foldl (λ errors export,
    match export r with Some name => keep_last 128 (errors ++ [name]) | None => errors end) errors exporters
  = keep_last 128 (all ++ export_failures exporters r).
Proof.
  unfold export_failures.
  revert errors all. induction exporters as [|f fs IH]; intros errors all ->; cbn [foldl omap list_omap].
  { by rewrite app_nil_r. }
  destruct (f r) as [name|]; [|by apply IH].
  rewrite (IH _ (all ++ [name])); [by rewrite <-app_assoc|]. apply keep_last_snoc.
Qed.

Lemma store_record_all max_records r l all : max_records_ok max_records = Ok tt →
  l = match max_records with None => all | Some n => keep_last n all end →
  store_record max_records r l = match max_records with None => all ++ [r] | Some n => keep_last n (all ++ [r]) end.
Proof.
  intros Hok ->. unfold store_record. destruct max_records as [n|]; [|done].
  destruct (Z.eqb_spec n 0) as [->|]; [|apply keep_last_snoc].
  unfold keep_last. rewrite !drop_ge; [done|..]; rewrite ?length_app; cbn; lia.
Qed.

(** Committing any sequence of finished spans to a
    fresh recorder keeps exactly the last [max_records] of them, in order (all
    of them without a limit, none at zero), and the classes of the last 128
    exporter failures, an exporter that fails never losing a record. *)
Theorem recorder_keeps_newest max_records exporters (rs : list SpanRecord) (Hmax : max_records_ok max_records = Ok tt) :
  let s := foldl (λ s r, _commit max_records exporters r s) (MkRecorder [] []) rs in
  records s = match max_records with None => rs | Some n => keep_last n rs end
  ∧ export_errors s = keep_last 128 (concat (map (export_failures exporters) rs))
  ∧ match max_records with None => True | Some n => zlen (records s) <= n end
  ∧ zlen (export_errors s) <= 128.
Proof.
  cbn zeta. set (s := foldl _ _ _).
  assert (H : records s = match max_records with None => rs | Some n => keep_last n rs end
    ∧ export_errors s = keep_last 128 (concat (map (export_failures exporters) rs))).
  { subst s. induction rs as [|r rs [IHr IHe]] using rev_ind; [by destruct max_records|].
    rewrite foldl_snoc. cbn [_commit records export_errors]. split; [by apply store_record_all|].
    rewrite map_app, concat_app. cbn [map concat]. rewrite app_nil_r. by apply export_errors_step. }
  destruct H as [Hr He]. rewrite Hr, He. split_and!; [done..| |by apply keep_last_length].
  destruct max_records as [n|]; [|done]. apply keep_last_length.
  unfold max_records_ok in Hmax. apply raise_if_ok in Hmax. lia.
Qed.
