(* ===== verification/TelemetryWitness.v ===== *)
(** * Telemetry on concrete spans: the witnesses *)

From S2P Require Import Prelude PyStr PyFloat Json PyTime Contracts Events PlanFacts Telemetry TelemetryFacts.
From Stdlib Require Import ZArith Lia Ascii String Floats.SpecFloat.
From stdpp Require Import base gmap sets list strings.
Local Open Scope Z_scope.

(** Case folding of ASCII text, and an arbitrary text for the other keys. *)
Fixpoint ascii_casefold (s : string) : string :=
  match s with
  | EmptyString => EmptyString
  | String a s' => String (if is_upper a then ascii_of_nat (nat_of_ascii a + 32) else a) (ascii_casefold s')
  end.
Definition sample_text_of (v : pyval) : string := "<key>".

Definition sample_content_policy : ContentPolicy :=
  MkPolicy METADATA_ONLY "[REDACTED]" 16 3 ["hunter2-hunter2"] default_sensitive_keys default_content_keys.
Definition sample_clock : datetime := Datetime 63000000000000000 (Some 0).
Definition sample_tick : spec_float := float_of_decimal false 1 0.

(** A span with [password] under a sensitive key, a secret and a URL with a
    password in its values, and more items than the policy keeps. *)
Definition sample_span (password extra : string) : SpanHandle :=
  MkSpan "0123456789abcdef" "span-1" (Some "hunter2-hunter2") "blackcell.observe" [("run", "run-1")]
    [("Auth.Password", PStr password);
     ("nested", PMapping [(PInt 1, PSequence [PStr "a hunter2-hunter2 b"; PNone; PInt 3; PStr extra])]);
     ("url", PStr "see https://user:pw@host/ now"); ("late", PStr extra)]
    [("event", sample_clock, [("token_count", PStr password); ("long", PStr "0123456789abcdefghij")])]
    sample_clock sample_tick false.

Definition sample_span_record : result SpanRecord :=
  span_record ascii_casefold sample_text_of sample_content_policy sample_clock sample_tick SPAN_OK
    (sample_span "swordfish" "behind").

(** What is stored: every hidden value is replaced, the long text is cut. *)
Example sample_span_stored :
  sample_span_record = Ok (MkSpanRecord "0123456789abcdef" "span-1" (Some "[REDACTED]") "blackcell.observe"
    (isoformat sample_clock) (isoformat sample_clock) (S754_zero false) SPAN_OK [("run", "run-1")]
    [("Auth.Password", PStr "[REDACTED]");
     ("nested", PMapping [(PStr "1", PSequence [PStr "[REDACTED]"; PNone; PInt 3])]);
     ("url", PStr "[REDACTED]")]
    [MkSpanEvent "event" (isoformat sample_clock)
       [("token_count", PStr "[REDACTED]"); ("long", PStr "0123456789abcdef")]]).
Proof. vm_compute. reflexivity. Qed.

Definition end_sample (h : SpanHandle) : result SpanRecord * SpanHandle * recorder :=
  end_span ascii_casefold sample_text_of sample_content_policy (Some 2) [] sample_clock sample_tick SPAN_OK h
    (MkRecorder [] []).

Lemma end_sample_ok : ∃ r h s, end_sample (sample_span "swordfish" "behind") = (Ok r, h, s).
Proof. vm_compute. by eexists _, _, _. Qed.


Lemma telemetry_bounded_witness : content_policy_init sample_content_policy = Ok sample_content_policy
  ∧ ∃ r, (end_sample (sample_span "swordfish" "behind")).1.1 = Ok r
  ∧ ∀ x, recorded r x → part_bounded sample_content_policy x.
Proof.
  assert (Hp : content_policy_init sample_content_policy = Ok sample_content_policy) by (vm_compute; reflexivity).
  split; [exact Hp|]. destruct end_sample_ok as (r & h & s & H). exists r. rewrite H. split; [done|].
  exact (telemetry_bounded _ _ _ _ _ _ _ _ _ _ _ _ _ Hp H).
Defined.

Lemma sample_alike : alike_spans ascii_casefold sample_text_of sample_content_policy
  (sample_span "swordfish" "behind") (sample_span "another" "unseen").
Proof.
  repeat split; try done; unfold alike_attributes, sample_span, first_items; simpl;
    repeat (constructor; simpl); vm_compute; reflexivity.
Qed.

Lemma telemetry_noninterference_witness :
  alike_spans ascii_casefold sample_text_of sample_content_policy
    (sample_span "swordfish" "behind") (sample_span "another" "unseen")
  ∧ (end_sample (sample_span "swordfish" "behind")).1.1 = (end_sample (sample_span "another" "unseen")).1.1.
Proof.
  split; [exact sample_alike|].
  exact (proj1 (telemetry_noninterference _ _ _ (Some 2) [] sample_clock sample_tick SPAN_OK _ _ _ sample_alike)).
Defined.

Definition numbered_record (name : string) : SpanRecord :=
  MkSpanRecord "trace" name None "blackcell.observe" "" "" (S754_zero false) SPAN_OK [] [] [].

Lemma recorder_keeps_newest_witness : max_records_ok (Some 2) = Ok tt
  ∧ records (foldl (λ s r, _commit (Some 2) [λ _, Some "OSError"] r s) (MkRecorder [] [])
      [numbered_record "1"; numbered_record "2"; numbered_record "3"])
    = [numbered_record "2"; numbered_record "3"].
Proof.
  split; [reflexivity|].
  exact (proj1 (recorder_keeps_newest (Some 2) [λ _, Some "OSError"]
    [numbered_record "1"; numbered_record "2"; numbered_record "3"] eq_refl)).
Defined.
