(* ===== verification/WireContracts.v ===== *)
(** * interfaces/http/contracts.py: the closed requests and responses of the service

    A wire contract is a frozen [msgspec.Struct]; its [__post_init__] is the
    [*_init] of its record, run on the fields the constructor received.  A field
    whose type is a literal of one value ([schema_version], the configuration
    provider and version) carries no information and has no field here.  Decoding
    and encoding JSON is msgspec's: [decode_contract] takes its decoder as a
    parameter. *)

From S2P Require Import Prelude PyStr PyFloat Json PyTime Contracts Acceptance PlanCompiler.
From Stdlib Require Import ZArith Lia Ascii String.
From stdpp Require Import base gmap sets list strings.
Local Open Scope Z_scope.

Definition MAX_REQUEST_BODY_BYTES : Z := 1048576.
Definition MAX_RESPONSE_BODY_BYTES : Z := 256 * MAX_REQUEST_BODY_BYTES.
Definition MAX_RUNTIME_EVENT_PAGE_SIZE : Z := 200.
Definition MAX_RUN_QUERY_PAGE_SIZE : Z := 100.
Definition MAX_RUN_QUERY_SCAN_EVENTS : Z := 1000.
Definition _MAX_ID_CHARS : Z := 120.
Definition _MAX_ROOT_CHARS : Z := 4096.
Definition _MAX_OBJECTIVE_CHARS : Z := 8000.
Definition _MAX_TEXT_CHARS : Z := 2000.
Definition _MAX_COLLECTION_ITEMS : Z := 64.
Definition _MAX_PLAN_NODES : Z := 64.
Definition _MAX_CHECK_ARGV : Z := 32.
Definition wire_MAX_ARG_CHARS : Z := 2048.
Definition max_int64 : Z := 2 ^ 63 - 1.
Definition _RUN_STATUSES : list string :=
  ["queued"; "running"; "canceling"; "canceled"; "succeeded"; "failed"; "reconciliation-required"].

Definition wire_error : exn := WireContractError "invalid-request".
Definition wire_require (c : bool) : result unit := raise_if (negb c) wire_error.

(** ** Field checks *)

Definition id_char (a : ascii) : bool := is_alnum a || is_one_of "-._" a.
Definition wire_identifier (value : string) : bool :=
  negb (is_empty value) && (py_len value <=? _MAX_ID_CHARS) && all_chars id_char value.

(** No NUL and no DEL. *)
Definition printable_points (value : string) : bool :=
  forallb (λ c, negb ((c =? 0) || (c =? 127))) (decode_utf8 value).
Definition _bounded_text (maximum : Z) (value : string) : bool :=
  negb (blank value) && (py_len value <=? maximum) && printable_points value.
Definition _bounded_token (value : string) : bool :=
  negb (is_empty value) && (py_len value <=? wire_MAX_ARG_CHARS) && printable_points value.

Definition _bounded_text_collection (values : list string) : bool :=
  (zlen values <=? _MAX_COLLECTION_ITEMS) && forallb (_bounded_text _MAX_TEXT_CHARS) values && distinct values.
Definition _unique_identifiers (maximum : Z) (values : list string) : bool :=
  (zlen values <=? maximum) && forallb wire_identifier values && distinct values.
Definition _unique_values (maximum : Z) (values : list string) : bool :=
  (zlen values <=? maximum) && distinct values.

Definition wire_path_ok (value : string) : bool :=
  negb (is_empty value) && (py_len value <=? _MAX_ROOT_CHARS)
  && negb (contains nul value) && negb (contains backslash value)
  && (bool_decide (value = ".")
      || negb (is_absolute value) && bool_decide (path_str value = value)
         && negb (existsb (λ part, bool_decide (part ∈ [""; "."; ".."])) (posix_parts value))
         && negb (bool_decide (".git" ∈ posix_parts value))).
Definition _unique_repository_paths (values : list string) : bool :=
  (zlen values <=? _MAX_COLLECTION_ITEMS) && distinct values && forallb wire_path_ok values.

Definition _bounded_integer (minimum maximum value : Z) : bool := (minimum <=? value) && (value <=? maximum).

(** ** Requests *)

Record ProjectRequest := MkProjectRequest {
  prq_project_id : string;
  prq_root : string;
  prq_configuration_digest : string;
  prq_idempotency_key : string
}.
Definition project_request_init (r : ProjectRequest) : result ProjectRequest :=
  _ ← wire_require (wire_identifier (prq_project_id r) && _bounded_text _MAX_ROOT_CHARS (prq_root r)
        && re_digest (prq_configuration_digest r) && wire_identifier (prq_idempotency_key r));
  Ok r.

Record IntentRequest := MkIntentRequest {
  irq_intent_id : string;
  irq_project_id : string;
  irq_objective : string;
  irq_constraints : list string;
  irq_assumptions : list string;
  irq_unresolved_questions : list string;
  irq_idempotency_key : string
}.
Definition intent_request_init (r : IntentRequest) : result IntentRequest :=
  _ ← wire_require (wire_identifier (irq_intent_id r) && wire_identifier (irq_project_id r)
        && _bounded_text _MAX_OBJECTIVE_CHARS (irq_objective r) && _bounded_text_collection (irq_constraints r)
        && _bounded_text_collection (irq_assumptions r) && _bounded_text_collection (irq_unresolved_questions r)
        && wire_identifier (irq_idempotency_key r));
  Ok r.

Record NodeBudget := MkNodeBudget {
  nb_max_input_tokens : Z;
  nb_max_output_tokens : Z;
  nb_timeout_seconds : Z;
  nb_max_cost_microusd : Z;
  nb_max_changed_files : Z
}.
Definition node_budget_init (b : NodeBudget) : result NodeBudget :=
  _ ← wire_require (_bounded_integer 0 1000000 (nb_max_input_tokens b)
        && _bounded_integer 0 1000000 (nb_max_output_tokens b)
        && _bounded_integer 1 MAX_ACCEPTANCE_TIMEOUT_SECONDS (nb_timeout_seconds b)
        && _bounded_integer 0 10000000000 (nb_max_cost_microusd b)
        && _bounded_integer 0 10000 (nb_max_changed_files b));
  Ok b.

Record AcceptanceCheck := MkAcceptanceCheck {
  ac_check_id : string;
  ac_argv : list string;
  ac_expected_exit_code : Z
}.
Definition acceptance_check_init (c : AcceptanceCheck) : result AcceptanceCheck :=
  _ ← wire_require (is_acceptance_check_id (ac_check_id c));
  _ ← wire_require (negb (bool_decide (ac_argv c = [])) && (zlen (ac_argv c) <=? _MAX_CHECK_ARGV));
  _ ← wire_require (forallb _bounded_token (ac_argv c));
  _ ← wire_require (match ac_argv c with t :: _ => is_acceptance_executable_alias t | [] => false end);
  _ ← wire_require (_bounded_integer 0 255 (ac_expected_exit_code c));
  Ok c.

Record PlanNode := MkPlanNode {
  pn_node_id : string;
  pn_objective : string;
  pn_depends_on : list string;
  pn_budget : NodeBudget;
  pn_effects : list string;
  pn_allowed_paths : list string;
  pn_checks : list AcceptanceCheck
}.
Definition writes (n : PlanNode) : bool := bool_decide ("repository-write" ∈ pn_effects n).
Definition plan_node_init (n : PlanNode) : result PlanNode :=
  _ ← wire_require (wire_identifier (pn_node_id n) && _bounded_text _MAX_TEXT_CHARS (pn_objective n)
        && _unique_identifiers _MAX_PLAN_NODES (pn_depends_on n));
  _ ← wire_require (negb (bool_decide (pn_node_id n ∈ pn_depends_on n)));
  _ ← wire_require (_unique_values 4 (pn_effects n));
  _ ← wire_require (subset_of ["repository-read"; "process"] (pn_effects n));
  _ ← wire_require (_unique_repository_paths (pn_allowed_paths n));
  _ ← (if writes n
       then wire_require (negb (bool_decide (pn_allowed_paths n = []) || (nb_max_changed_files (pn_budget n) <? 1)
              || (nb_max_input_tokens (pn_budget n) <? 1) || (nb_max_output_tokens (pn_budget n) <? 1)))
       else wire_require (bool_decide (pn_allowed_paths n = []) && (nb_max_changed_files (pn_budget n) =? 0)));
  _ ← wire_require (negb (bool_decide (pn_checks n = [])) && (zlen (pn_checks n) <=? _MAX_COLLECTION_ITEMS));
  _ ← wire_require (distinct (map ac_check_id (pn_checks n)));
  Ok n.

(** *** plan_topological_order *)

(** [dependents], filled node by node. *)
Definition add_dependents (dependents : list (string * list string)) (n : PlanNode)
    : result (list (string * list string)) :=
  fold_result (λ d dependency,
      l ← of_option wire_error (dict_get dependency d);
      Ok (dict_set dependency (l ++ [pn_node_id n]) d)) dependents (pn_depends_on n).
Definition dependents_of (nodes : list PlanNode) : result (list (string * list string)) :=
  fold_result add_dependents (foldl (λ d n, dict_set (pn_node_id n) [] d) [] nodes) nodes.
Definition remaining_of (nodes : list PlanNode) : list (string * Z) :=
  foldl (λ d n, dict_set (pn_node_id n) (zlen (pn_depends_on n)) d) [] nodes.

(** One dependent of the node that was taken. *)
Definition settle (st : list (string * Z) * list string) (dependent : string)
    : result (list (string * Z) * list string) :=
  let '(remaining, ready) := st in
  count ← of_option KeyError (dict_get dependent remaining);
  Ok (dict_set dependent (count - 1) remaining,
      if count - 1 =? 0 then sort_strings (ready ++ [dependent]) else ready).

(** The [while ready] loop; [fuel] bounds its iterations. *)
Fixpoint take_ready (fuel : nat) (dependents : list (string * list string)) (remaining : list (string * Z))
    (ready ordered : list string) : result (list string) :=
  match ready, fuel with
  | [], _ => Ok ordered
  | _ :: _, O => Err (RuntimeError "out of fuel")
  | node_id :: ready, S fuel =>
      ds ← of_option KeyError (dict_get node_id dependents);
      st ← fold_result settle (remaining, ready) (sort_strings ds);
      take_ready fuel dependents st.1 st.2 (ordered ++ [node_id])
  end.

Definition plan_topological_order (nodes : list PlanNode) : result (list string) :=
  dependents ← dependents_of nodes;
  let remaining := remaining_of nodes in
  let ready := sort_strings (map fst (List.filter (λ kv, kv.2 =? 0) remaining)) in
  ordered ← take_ready (length remaining) dependents remaining ready [];
  _ ← wire_require (length ordered =? length nodes)%nat;
  Ok ordered.

(** *** PlanRequest *)

Inductive PlanningMode := DECLARED | GENERATED.
#[export] Instance planning_mode_eq_dec : EqDecision PlanningMode.
Proof. solve_decision. Defined.

Record PlanRequest := MkPlanRequest {
  plq_plan_id : string;
  plq_project_id : string;
  plq_intent_id : string;
  plq_base_commit : string;
  plq_allowed_effects : list string;
  plq_nodes : list PlanNode;
  plq_idempotency_key : string;
  plq_planning_mode : PlanningMode
}.

Definition node_by_id (nodes : list PlanNode) : list (string * PlanNode) :=
  foldl (λ d n, dict_set (pn_node_id n) n d) [] nodes.

(** [ancestors], filled along the order. *)
Fixpoint plan_ancestors (by_id : list (string * PlanNode)) (order : list string)
    (ancestors : list (string * list string)) : result (list (string * list string)) :=
  match order with
  | [] => Ok ancestors
  | id :: order' =>
      n ← of_option KeyError (dict_get id by_id);
      sets ← map_result (λ d, of_option KeyError (dict_get d ancestors)) (pn_depends_on n);
      plan_ancestors by_id order' (dict_set id (pn_depends_on n ++ concat sets) ancestors)
  end.

(** Consecutive writers of the order must depend on one another. *)
Definition check_plan_writers (nodes : list PlanNode) : result unit :=
  order ← plan_topological_order nodes;
  let by_id := node_by_id nodes in
  ancestors ← plan_ancestors by_id order [];
  let writers := List.filter (λ id, match dict_get id by_id with
                                    | Some n => writes n | None => false end) order in
  wire_require (negb (existsb (λ pc, negb (bool_decide (pc.1 ∈ deps ancestors pc.2))) (pairwise writers))).

Definition check_plan_node (known allowed : list string) (n : PlanNode) : result unit :=
  _ ← wire_require (negb (existsb (λ d, negb (bool_decide (d ∈ known))) (pn_depends_on n)));
  wire_require (subset_of (pn_effects n) allowed).

Definition plan_request_init (r : PlanRequest) : result PlanRequest :=
  _ ← wire_require (wire_identifier (plq_plan_id r) && wire_identifier (plq_project_id r)
        && wire_identifier (plq_intent_id r) && re_commit (plq_base_commit r)
        && wire_identifier (plq_idempotency_key r) && _unique_values 4 (plq_allowed_effects r));
  _ ← wire_require (negb (bool_decide (plq_nodes r = [])) && (zlen (plq_nodes r) <=? _MAX_PLAN_NODES));
  let node_ids := map pn_node_id (plq_nodes r) in
  _ ← wire_require (distinct node_ids);
  _ ← map_result (check_plan_node node_ids (plq_allowed_effects r)) (plq_nodes r);
  _ ← check_plan_writers (plq_nodes r);
  Ok r.

Record RunRequest := MkRunRequest {
  rrq_run_id : string;
  rrq_project_id : string;
  rrq_intent_id : string;
  rrq_plan_id : string;
  rrq_idempotency_key : string
}.
Definition run_request_init (r : RunRequest) : result RunRequest :=
  _ ← wire_require (forallb wire_identifier
        [rrq_run_id r; rrq_project_id r; rrq_intent_id r; rrq_plan_id r; rrq_idempotency_key r]);
  Ok r.

Record CancelRunRequest := MkCancelRunRequest { crq_idempotency_key : string }.
Definition cancel_run_request_init (r : CancelRunRequest) : result CancelRunRequest :=
  _ ← wire_require (wire_identifier (crq_idempotency_key r)); Ok r.

Record RunQueryRequest := MkRunQueryRequest {
  rq_statuses : list string;
  rq_project_ids : list string;
  rq_intent_ids : list string;
  rq_plan_ids : list string;
  rq_run_ids : list string;
  rq_after_cursor : Z;
  rq_limit : Z
}.
Definition sorted_identifiers (values : list string) : result (list string) :=
  let values := sort_strings values in
  _ ← wire_require (_unique_identifiers _MAX_COLLECTION_ITEMS values); Ok values.
Definition run_query_request_init (r : RunQueryRequest) : result RunQueryRequest :=
  let statuses := sort_strings (rq_statuses r) in
  _ ← wire_require ((zlen statuses <=? zlen _RUN_STATUSES) && distinct statuses);
  _ ← wire_require (subset_of statuses _RUN_STATUSES);
  project_ids ← sorted_identifiers (rq_project_ids r);
  intent_ids ← sorted_identifiers (rq_intent_ids r);
  plan_ids ← sorted_identifiers (rq_plan_ids r);
  run_ids ← sorted_identifiers (rq_run_ids r);
  _ ← wire_require (_bounded_integer 0 max_int64 (rq_after_cursor r));
  _ ← wire_require (_bounded_integer 1 MAX_RUN_QUERY_PAGE_SIZE (rq_limit r));
  Ok (MkRunQueryRequest statuses project_ids intent_ids plan_ids run_ids (rq_after_cursor r) (rq_limit r)).

(** ** Responses *)

Inductive HealthResponse := LIVE | READY | NOT_READY.

Record ProjectResponse := MkProjectResponse {
  prs_project_id : string;
  prs_root : string;
  prs_configuration_digest : string;
  prs_principal_id : string;
  prs_event_id : string;
  prs_cursor : Z;
  prs_event_digest : string
}.

Record IntentResponse := MkIntentResponse {
  irs_intent_id : string;
  irs_project_id : string;
  irs_objective : string;
  irs_constraints : list string;
  irs_assumptions : list string;
  irs_unresolved_questions : list string;
  irs_principal_id : string;
  irs_event_id : string;
  irs_cursor : Z;
  irs_event_digest : string
}.

Record PlanResponse := MkPlanResponse {
  pls_plan_id : string;
  pls_project_id : string;
  pls_intent_id : string;
  pls_base_commit : string;
  pls_allowed_effects : list string;
  pls_nodes : list PlanNode;
  pls_topological_order : list string;
  pls_principal_id : string;
  pls_event_id : string;
  pls_cursor : Z;
  pls_event_digest : string
}.

Record RunResponse := MkRunResponse {
  rrs_run_id : string;
  rrs_project_id : string;
  rrs_intent_id : string;
  rrs_plan_id : string;
  rrs_status : string;
  rrs_cancellation_requested : bool;
  rrs_active_node_id : option string;
  rrs_attempt : Z;
  rrs_fencing_token : Z;
  rrs_retained_worktree : bool;
  rrs_principal_id : string;
  rrs_event_id : string;
  rrs_cursor : Z;
  rrs_event_digest : string
}.
#[export] Instance run_response_eq_dec : EqDecision RunResponse.
Proof. solve_decision. Defined.

Record RunNodeQueryResponse := MkRunNodeQueryResponse {
  rnq_node_id : string;
  rnq_status : string;
  rnq_attempts : Z;
  rnq_fencing_token : Z;
  rnq_failure_code : option string;
  rnq_retained_worktree : bool;
  rnq_head_commit : option string;
  rnq_depends_on : list string;
  rnq_max_attempts : option Z
}.
Definition run_node_query_response_init (n : RunNodeQueryResponse) : result RunNodeQueryResponse :=
  _ ← wire_require (wire_identifier (rnq_node_id n) && _unique_identifiers _MAX_PLAN_NODES (rnq_depends_on n)
        && match rnq_max_attempts n with Some k => _bounded_integer 1 3 k | None => true end);
  Ok n.

Record RunBudgetUsageResponse := MkRunBudgetUsage {
  rbu_input_tokens : Z;
  rbu_input_tokens_complete : bool;
  rbu_max_input_tokens : Z;
  rbu_output_tokens : Z;
  rbu_output_tokens_complete : bool;
  rbu_max_output_tokens : Z;
  rbu_latency_ms : Z;
  rbu_max_latency_ms : Z;
  rbu_cost_microusd : Z;
  rbu_cost_microusd_complete : bool;
  rbu_max_cost_microusd : Z
}.
Definition run_budget_usage_response_init (u : RunBudgetUsageResponse) : result RunBudgetUsageResponse :=
  _ ← wire_require (forallb (_bounded_integer 0 max_int64)
        [rbu_input_tokens u; rbu_max_input_tokens u; rbu_output_tokens u; rbu_max_output_tokens u;
         rbu_latency_ms u; rbu_max_latency_ms u; rbu_cost_microusd u; rbu_max_cost_microusd u]);
  Ok u.

Record RunQueryItem := MkRunQueryItem {
  rqi_queued_cursor : Z;
  rqi_run : RunResponse;
  rqi_nodes : list RunNodeQueryResponse;
  rqi_usage : option RunBudgetUsageResponse
}.

Record RunQueryResponse := MkRunQueryResponse {
  rqr_query : RunQueryRequest;
  rqr_scanned_events : Z;
  rqr_runs : list RunQueryItem;
  rqr_next_cursor : Z;
  rqr_has_more : bool
}.

Record RunSurfaceWindow := MkRunSurfaceWindow {
  rsw_limit : Z;
  rsw_scanned_events : Z;
  rsw_runs : list RunQueryItem;
  rsw_event_cursor : Z;
  rsw_has_older_runs : bool
}.
Definition run_surface_window_init (w : RunSurfaceWindow) : result RunSurfaceWindow :=
  _ ← wire_require (_bounded_integer 1 MAX_RUN_QUERY_PAGE_SIZE (rsw_limit w)
        && _bounded_integer 0 MAX_RUN_QUERY_SCAN_EVENTS (rsw_scanned_events w)
        && _bounded_integer 0 max_int64 (rsw_event_cursor w));
  _ ← wire_require (zlen (rsw_runs w) <=? rsw_limit w);
  Ok w.

Record RuntimeEventResponse := MkRuntimeEventResponse {
  res_event_id : string;
  res_cursor : Z;
  res_stream_id : string;
  res_stream_sequence : Z;
  res_event_type : string;
  res_recorded_at : string;
  res_correlation_id : string;
  res_causation_id : option string;
  res_actor : string;
  res_payload_digest : string;
  res_payload : jobject
}.

Record RuntimeEventPageResponse := MkRuntimeEventPage {
  rep_after_cursor : Z;
  rep_limit : Z;
  rep_scanned_events : Z;
  rep_events : list RuntimeEventResponse;
  rep_next_cursor : Z;
  rep_has_more : bool
}.

(** ** Decoding *)

Section Decode.
Context {T : Type} (decode : string → result T).
(** What msgspec raises: [DecodeError], [ValidationError] (both a [ValueError])
    and what a constructor raised. *)
Definition _decode_bounded_contract (maximum_bytes : Z) (data : string) : result T :=
  _ ← wire_require (negb (is_empty data) && (byte_len data <=? maximum_bytes));
  recast (λ e, is_type_error e || is_value_error e) wire_error (decode data).
Definition decode_contract : string → result T := _decode_bounded_contract MAX_REQUEST_BODY_BYTES.
Definition decode_response_contract : string → result T := _decode_bounded_contract MAX_RESPONSE_BODY_BYTES.
(** [convert_contract], the decoder being [msgspec.convert] at the type. *)
Definition convert_contract {V} (convert : V → result T) (value : V) : result T :=
  recast (λ e, is_type_error e || is_value_error e) wire_error (convert value).
End Decode.
