(* ===== verification/WireFacts.v ===== *)
(** * What an accepted plan request guarantees

    The queue-driven [plan_topological_order] ends on every input, gives the
    least topological order of a closed acyclic plan whatever the order of its
    nodes, and agrees with the round-based order of the plan compiler; an
    accepted [PlanRequest] is closed, acyclic, within its effects and never lets
    two writers run side by side. *)

From S2P Require Import Prelude PyStr PyFloat Json PyTime Contracts Acceptance PlanCompiler PlanFacts WireContracts.
From Stdlib Require Import ZArith Lia Ascii String Sorting.Sorted Sorting.Permutation.
From stdpp Require Import base gmap sets list strings relations.
Local Open Scope Z_scope.

Lemma wire_require_ok c u : wire_require c = Ok u ↔ c = true.
Proof. apply raise_unless_ok. Qed.
Lemma wire_require_err c e : wire_require c = Err e → e = wire_error.
Proof. unfold wire_require. destruct c; [done|]. by intros [= <-]. Qed.

(** ** The loop ends *)

(** [{node.node_id: v(node) for node in l}] *)
Lemma dict_built_keys {A V} (key : A → string) (v : A → V) l : let d := dict_of key v l in
  NoDup (dict_keys d) ∧ (∀ x, x ∈ dict_keys d ↔ x ∈ map key l) ∧ Forall (λ kv, ∃ a, a ∈ l ∧ kv.2 = v a) d.
Proof.
  cbn zeta. unfold dict_of. induction l as [|a l IH] using rev_ind; [by split; [constructor|]|].
  destruct IH as (H1 & H2 & H3). rewrite foldl_snoc. split_and!.
  - by apply dict_set_NoDup.
  - intros x. rewrite dict_set_keys_elem, H2, map_app, elem_of_app. cbn. rewrite list_elem_of_singleton. tauto.
  - assert (Hset : ∀ d : list (string * V), Forall (λ kv, ∃ a', a' ∈ l ++ [a] ∧ kv.2 = v a') d →
      Forall (λ kv, ∃ a', a' ∈ l ++ [a] ∧ kv.2 = v a') (dict_set (key a) (v a) d)).
    { induction 1 as [|[k x] d Hx Hd IH]; cbn [dict_set].
      - constructor; [|done]. exists a. split; [|done]. apply elem_of_app. right. by left.
      - case_decide; constructor; try done. exists a. split; [|done]. apply elem_of_app. right. by left. }
    apply Hset. eapply Forall_impl; [exact H3|]. intros kv (a' & Ha & ->). exists a'. split; [|done].
    apply elem_of_app. by left.
Qed.

Lemma dict_key_get {V} k (d : list (string * V)) : k ∈ dict_keys d ↔ ∃ v, dict_get k d = Some v.
Proof.
  destruct (dict_get k d) as [v|] eqn:E; split; try (intros (v' & ?); done).
  - intros _. by exists v.
  - intros _. by eapply dict_get_keys.
  - by intros H%dict_get_None.
Qed.

Section Loop.
(** Every list of nodes, also with repeated identifiers or unknown dependencies. *)
Context (nodes : list PlanNode).
Abbreviation ids := (map pn_node_id nodes).

(** The dependents of every known node, each a node of the plan. *)
Definition dependents_closed (d : list (string * list string)) : Prop :=
  (∀ x, x ∈ dict_keys d ↔ x ∈ ids) ∧ ∀ x l y, dict_get x d = Some l → y ∈ l → y ∈ ids.

Lemma add_dependents_cases d n : n ∈ nodes → dependents_closed d →
  match add_dependents d n with Ok d' => dependents_closed d' | Err e => e = wire_error end.
Proof.
  intros Hn. unfold add_dependents. revert d. induction (pn_depends_on n) as [|x l IH]; intros d Hd; cbn; [done|].
  destruct (dict_get x d) as [old|] eqn:E; cbn; [|done]. apply IH. destruct Hd as [Hk Hv]. split.
  - intros y. rewrite dict_set_keys_elem, Hk. split; [|by right]. intros [->|?]; [|done].
    apply Hk. by eapply dict_get_keys.
  - intros y l' z. rewrite dict_get_set. case_decide; [|by apply Hv]. intros [= <-].
    intros [Hz|Hz%list_elem_of_singleton]%elem_of_app; [by eapply Hv|]. subst z. apply list_elem_of_fmap. eauto.
Qed.

Lemma dependents_of_cases :
  match dependents_of nodes with Ok d => dependents_closed d | Err e => e = wire_error end.
Proof.
  unfold dependents_of.
  assert (H0 : dependents_closed (foldl (λ d n, dict_set (pn_node_id n) [] d) [] nodes)).
  { destruct (dict_built_keys pn_node_id (λ _, @nil string) nodes) as (_ & Hk & Hv). split; [exact Hk|].
    intros x l y Hx%dict_get_elem Hy. rewrite Forall_forall in Hv. destruct (Hv _ Hx) as (a & _ & Ha).
    cbn in Ha. subst l. by apply elem_of_nil in Hy. }
  revert H0. generalize (foldl (λ d n, dict_set (pn_node_id n) (@nil string) d) [] nodes) as d.
  assert (Hsub : ∀ l, (∀ n, n ∈ l → n ∈ nodes) → ∀ d, dependents_closed d →
    match fold_result add_dependents d l with Ok d => dependents_closed d | Err e => e = wire_error end).
  { induction l as [|n l IH]; intros Hl d Hd; cbn; [done|].
    pose proof (add_dependents_cases d n (Hl n ltac:(by left)) Hd) as Hn.
    destruct (add_dependents d n) as [d'|e]; cbn; [|done]. apply IH; [|done]. intros. apply Hl. by right. }
  by apply Hsub.
Qed.

(** Nodes that were ready have no dependency left to wait for. *)
Definition loop_ok (remaining : list (string * Z)) (ready ordered : list string) : Prop :=
  (∀ x, x ∈ dict_keys remaining ↔ x ∈ ids) ∧ NoDup (ordered ++ ready)
  ∧ ∀ x, x ∈ ordered ++ ready → ∃ c, dict_get x remaining = Some c ∧ c <= 0.

Lemma settle_ok remaining ready ordered y : loop_ok remaining ready ordered → y ∈ ids →
  ∃ st, settle (remaining, ready) y = Ok st ∧ loop_ok st.1 st.2 ordered.
Proof.
  intros (Hk & Hnd & Hz) Hy. unfold settle.
  destruct (proj1 (dict_key_get y remaining)) as [c Hc]; [by apply Hk|]. rewrite Hc. cbn. eexists. split; [done|]. cbn.
  assert (Hk' : ∀ x, x ∈ dict_keys (dict_set y (c - 1) remaining) ↔ x ∈ ids).
  { intros x. rewrite dict_set_keys_elem, Hk. split; [intros [->|?]; done|by right]. }
  assert (Hz' : ∀ x, x ∈ ordered ++ ready → ∃ c', dict_get x (dict_set y (c - 1) remaining) = Some c' ∧ c' <= 0).
  { intros x Hx. rewrite dict_get_set. case_decide as E; [|by apply Hz]. subst x.
    destruct (Hz y Hx) as (c' & Hc' & Hle). rewrite Hc in Hc'. injection Hc' as ->. eexists. split; [done|]. lia. }
  destruct (Z.eqb_spec (c - 1) 0) as [E|E]; [|done].
  assert (Hp : ordered ++ sort_strings (ready ++ [y]) ≡ₚ (ordered ++ ready) ++ [y]).
  { unfold sort_strings. by rewrite isort_perm, app_assoc. }
  split_and!; [done| |].
  - rewrite Hp. apply NoDup_app. split; [done|]. split; [|apply NoDup_singleton].
    intros x Hx ->%list_elem_of_singleton. destruct (Hz y Hx) as (c' & Hc' & Hle). rewrite Hc in Hc'.
    injection Hc' as ->. lia.
  - intros x. rewrite Hp. intros [Hx|Hx%list_elem_of_singleton]%elem_of_app; [by apply Hz'|]. subst x.
    rewrite dict_get_set_eq. eexists. split; [done|]. lia.
Qed.

Lemma settle_all_ok l : ∀ remaining ready ordered, loop_ok remaining ready ordered → (∀ y, y ∈ l → y ∈ ids) →
  ∃ st, fold_result settle (remaining, ready) l = Ok st ∧ loop_ok st.1 st.2 ordered.
Proof.
  induction l as [|y l IH]; intros remaining ready ordered H Hl; cbn [fold_result]; [by eexists|].
  destruct (settle_ok _ _ _ y H (Hl y ltac:(by left))) as ([rem' rdy'] & -> & H'). cbn in H'.
  apply IH; [done|]. intros. apply Hl. by right.
Qed.

Lemma take_ready_ok fuel dependents remaining ready ordered : dependents_closed dependents →
  loop_ok remaining ready ordered → (length (dict_keys remaining) <= length ordered + fuel)%nat →
  ∃ order, take_ready fuel dependents remaining ready ordered = Ok order.
Proof.
  intros Hd. revert remaining ready ordered. induction fuel as [|fuel IH]; intros remaining ready ordered Hl Hf.
  - destruct ready as [|x ready]; [by eexists|]. exfalso. destruct Hl as (Hk & Hnd & Hz).
    assert (Hsub : ordered ++ x :: ready ⊆ dict_keys remaining).
    { intros z Hz'. destruct (Hz z Hz') as (c & Hc & _). by eapply dict_get_keys. }
    pose proof (submseteq_length _ _ (NoDup_submseteq _ _ Hnd Hsub)) as Hlen.
    rewrite length_app in Hlen. cbn in Hlen. lia.
  - destruct ready as [|x ready]; [by eexists|]. cbn [take_ready].
    assert (Hassoc : ordered ++ x :: ready = (ordered ++ [x]) ++ ready) by by rewrite <-app_assoc.
    assert (Hx : x ∈ ids).
    { destruct Hl as (Hk & _ & Hz). apply Hk. destruct (Hz x) as (c & Hc & _); [|by eapply dict_get_keys].
      apply elem_of_app. right. by left. }
    destruct (proj1 (dict_key_get x dependents)) as [ds Hds]; [by apply Hd|]. rewrite Hds. cbn [of_option mbind result_bind].
    destruct (settle_all_ok (sort_strings ds) remaining ready (ordered ++ [x])) as (st & Hst & Hl').
    + unfold loop_ok in *. by rewrite <-Hassoc.
    + intros y Hy. rewrite elem_of_sort_strings in Hy. exact (proj2 Hd _ _ _ Hds Hy).
    + rewrite Hst. cbn [mbind result_bind]. apply IH; [done|]. rewrite length_app. cbn.
      assert (length (dict_keys st.1) = length (dict_keys remaining)); [|lia].
      clear -Hst. revert remaining ready st Hst. generalize (sort_strings ds) as l.
      induction l as [|y l IHl]; intros rem rdy st; cbn; [by intros [= <-]|].
      destruct (dict_get y rem) as [c|] eqn:E; cbn; [|done]. intros H. rewrite (IHl _ _ _ H).
      by rewrite dict_set_keys by (by eapply dict_get_keys).
Qed.

Lemma ready_start : loop_ok (remaining_of nodes)
  (sort_strings (map fst (List.filter (λ kv, kv.2 =? 0) (remaining_of nodes)))) [].
Proof.
  destruct (dict_built_keys pn_node_id (λ n, zlen (pn_depends_on n)) nodes) as (Hnd & Hk & _).
  split; [exact Hk|]. change (dict_of _ _ nodes) with (remaining_of nodes) in Hnd. cbn. split.
  - unfold sort_strings. rewrite isort_perm. revert Hnd. generalize (remaining_of nodes) as d.
    induction d as [|[k v] d IH]; cbn; [constructor|]. intros [Hk' Hd]%NoDup_cons. case_match; cbn; [|by apply IH].
    constructor; [|by apply IH]. intros (kv & -> & [Hin _]%elem_of_listfilter)%list_elem_of_fmap. apply Hk'.
    apply list_elem_of_fmap. by exists kv.
  - intros x Hx. cbn in Hx. rewrite elem_of_sort_strings in Hx. apply list_elem_of_fmap in Hx as ([k v] & -> & [Hin Hv]%elem_of_listfilter).
    exists v. split; [by apply elem_dict_get|]. cbn in Hv. lia.
Qed.

Lemma plan_order_cases :
  (∃ order, plan_topological_order nodes = Ok order) ∨ plan_topological_order nodes = Err wire_error.
Proof.
  unfold plan_topological_order. pose proof dependents_of_cases as Hd. destruct (dependents_of nodes) as [d|e]; cbn.
  2: { right. by subst e. }
  destruct (take_ready_ok (length (remaining_of nodes)) d _ _ [] Hd ready_start) as [order ->].
  { unfold dict_keys. by rewrite length_fmap. }
  cbn. destruct (wire_require _) eqn:E; cbn; [left; by eexists|right]. by apply wire_require_err in E as ->.
Qed.
End Loop.

(** ** The order is the least topological order *)

(** A node as the plan compiler sees one: it may write when it has paths. *)
Definition as_task (n : PlanNode) : TaskSpec :=
  MkTask (pn_node_id n) (pn_objective n) (pn_depends_on n) (if writes n then ["."] else []) [] 1 "".

(** At every position the least of the elements that could come there. *)
Definition least_order (D : list (string * list string)) (l : list string) : Prop :=
  ∀ i x y, l !! i = Some x → y ∈ dict_keys D → y ∉ take i l → (∀ d, d ∈ deps D y → d ∈ take i l) →
    String.leb x y = true.

Section Exact.
Context (nodes : list PlanNode) (Hnd : NoDup (map pn_node_id nodes)).
Context (Hdd : ∀ n, n ∈ nodes → NoDup (pn_depends_on n)).
Abbreviation ids := (map pn_node_id nodes).
Abbreviation D := (dependencies_of (map as_task nodes)).

Lemma task_ids : map task_id (map as_task nodes) = ids.
Proof. by rewrite map_map. Qed.

Lemma D_keys : dict_keys D = ids.
Proof. rewrite dependencies_keys, task_ids; [done|by rewrite task_ids]. Qed.

Lemma D_deps n : n ∈ nodes → deps D (pn_node_id n) = pn_depends_on n.
Proof.
  intros Hn. apply (deps_task _ ltac:(by rewrite task_ids) (as_task n)).
  apply list_elem_of_fmap. eauto.
Qed.

Lemma node_of x : x ∈ ids → ∃ n, n ∈ nodes ∧ x = pn_node_id n.
Proof. intros (n & -> & Hn)%list_elem_of_fmap. eauto. Qed.

Definition waiting (ordered : list string) (x : string) : Z :=
  zlen (List.filter (λ d, negb (bool_decide (d ∈ ordered))) (deps D x)).

Lemma waiting_zero ordered x : waiting ordered x = 0 ↔ ∀ d, d ∈ deps D x → d ∈ ordered.
Proof.
  unfold waiting, zlen. split.
  - intros H d Hd. destruct (decide (d ∈ ordered)) as [|Hn]; [done|]. exfalso.
    assert (d ∈ List.filter (λ d, negb (bool_decide (d ∈ ordered))) (deps D x)) as Hin.
    { apply elem_of_listfilter. split; [done|]. by rewrite bool_decide_eq_false_2. }
    destruct (List.filter _ _); [by apply elem_of_nil in Hin|cbn in H; lia].
  - intros H. destruct (List.filter _ _) as [|d l] eqn:E; [done|]. exfalso.
    assert (d ∈ List.filter (λ d, negb (bool_decide (d ∈ ordered))) (deps D x)) as [Hd Hn]%elem_of_listfilter
      by (rewrite E; by left).
    by rewrite bool_decide_eq_true_2 in Hn by auto.
Qed.

Lemma waiting_snoc ordered x y : y ∈ ids → x ∉ ordered →
  waiting (ordered ++ [x]) y = waiting ordered y - (if bool_decide (x ∈ deps D y) then 1 else 0).
Proof.
  intros (n & Hn & ->)%node_of Hx. unfold waiting. rewrite D_deps by done. pose proof (Hdd n Hn) as Hl.
  induction (pn_depends_on n) as [|d l IH]; [done|]. apply NoDup_cons in Hl as [Hd Hl]. specialize (IH Hl).
  cbn [List.filter]. destruct (decide (d = x)) as [->|Hne].
  - rewrite (bool_decide_eq_false_2 _ Hx), (bool_decide_eq_true_2 (x ∈ ordered ++ [x])),
      (bool_decide_eq_true_2 (x ∈ x :: l)); [|by left|apply elem_of_app; right; by left]. cbn [negb].
    rewrite IH, (bool_decide_eq_false_2 _ Hd). unfold zlen. cbn [length]. lia.
  - assert (Hiff : d ∈ ordered ++ [x] ↔ d ∈ ordered).
    { rewrite elem_of_app, list_elem_of_singleton. naive_solver. }
    rewrite (bool_decide_ext _ _ Hiff).
    assert (Hiff' : x ∈ d :: l ↔ x ∈ l) by (rewrite elem_of_cons; naive_solver).
    rewrite (bool_decide_ext _ _ Hiff'). destruct (negb _); [|done].
    unfold zlen in *. cbn [length]. rewrite !Nat2Z.inj_succ. lia.
Qed.

(** *** The dependents *)

Lemma add_dependents_get n d d' : NoDup (pn_depends_on n) → add_dependents d n = Ok d' → ∀ x,
  dict_get x d' = (λ l, if bool_decide (x ∈ pn_depends_on n) then l ++ [pn_node_id n] else l) <$> dict_get x d
  ∧ (x ∈ pn_depends_on n → is_Some (dict_get x d)).
Proof.
  unfold add_dependents. intros Hl. revert d.
  induction (pn_depends_on n) as [|y l IH]; intros d H x; cbn [fold_result] in H.
  { injection H as <-. split; [by destruct (dict_get x d)|]. by intros ?%elem_of_nil. }
  apply NoDup_cons in Hl as [Hy Hl]. apply bind_ok in H as (d1 & H1 & H).
  apply bind_ok in H1 as (old & Hold%of_option_ok & [= <-]). destruct (IH Hl _ H x) as [Hx Hs].
  rewrite dict_get_set in Hx, Hs. case_decide as E.
  - subst y. rewrite Hx, Hold. cbn. rewrite (bool_decide_eq_false_2 _ Hy), bool_decide_eq_true_2 by by left.
    done.
  - rewrite Hx. assert (Hiff : x ∈ y :: l ↔ x ∈ l) by (rewrite elem_of_cons; naive_solver).
    by rewrite (bool_decide_ext _ _ Hiff), Hiff.
Qed.

Definition dependents_from (x : string) (ns : list PlanNode) : list string :=
  map pn_node_id (List.filter (λ n, bool_decide (x ∈ pn_depends_on n)) ns).

Lemma dependents_fold ns : (∀ n, n ∈ ns → NoDup (pn_depends_on n)) → ∀ d d', fold_result add_dependents d ns = Ok d' →
  ∀ x, dict_get x d' = (λ l, l ++ dependents_from x ns) <$> dict_get x d
  ∧ ∀ n, n ∈ ns → x ∈ pn_depends_on n → is_Some (dict_get x d).
Proof.
  induction ns as [|n ns IH]; intros Hns d d' H x; cbn [fold_result] in H.
  { injection H as <-. split; [|by intros ? ?%elem_of_nil]. destruct (dict_get x d); [|done].
    cbn. by rewrite app_nil_r. }
  apply bind_ok in H as (d1 & H1 & H).
  destruct (IH ltac:(intros; apply Hns; by right) _ _ H x) as [Hx Hs].
  destruct (add_dependents_get n d d1 (Hns n ltac:(by left)) H1 x) as [Hx1 Hs1].
  split.
  - rewrite Hx, Hx1. destruct (dict_get x d) as [old|]; [|done]. cbn. f_equal. unfold dependents_from. cbn.
    destruct (bool_decide _); [|done]. by rewrite <-app_assoc.
  - intros m [->|Hm]%elem_of_cons Hin; [by apply Hs1|]. specialize (Hs m Hm Hin). rewrite Hx1 in Hs.
    by rewrite fmap_is_Some in Hs.
Qed.

Lemma dependents_start : foldl (λ d n, dict_set (pn_node_id n) [] d) [] nodes
  = map (λ n, (pn_node_id n, @nil string)) nodes.
Proof. by apply (dict_comprehension pn_node_id (λ _, [])). Qed.

Lemma dependents_exact d : dependents_of nodes = Ok d →
  (∀ x, x ∈ ids → dict_get x d = Some (dependents_from x nodes))
  ∧ ∀ n x, n ∈ nodes → x ∈ pn_depends_on n → x ∈ ids.
Proof.
  unfold dependents_of. rewrite dependents_start. intros H. split.
  - intros x (n & Hn & ->)%node_of. destruct (dependents_fold nodes Hdd _ _ H (pn_node_id n)) as [-> _].
    by rewrite (dict_get_map pn_node_id (λ _, [])).
  - intros n x Hn Hx. destruct (dependents_fold nodes Hdd _ _ H x) as [_ Hs]. destruct (Hs n Hn Hx) as [l Hl].
    apply dict_get_map_inv in Hl as (m & Hm & <- & _). apply list_elem_of_fmap. eauto.
Qed.

Lemma elem_of_dependents x y : y ∈ dependents_from x nodes ↔ y ∈ ids ∧ x ∈ deps D y.
Proof.
  unfold dependents_from. split.
  - intros (n & -> & [Hn Hx]%elem_of_listfilter)%list_elem_of_fmap. rewrite D_deps by done.
    split; [apply list_elem_of_fmap; eauto|by apply bool_decide_eq_true in Hx].
  - intros [(n & Hn & ->)%node_of Hx]. rewrite D_deps in Hx by done. apply list_elem_of_fmap. exists n. split; [done|].
    apply elem_of_listfilter. split; [done|by apply bool_decide_eq_true].
Qed.

Lemma NoDup_dependents x : NoDup (dependents_from x nodes).
Proof.
  unfold dependents_from. revert Hnd. clear. induction nodes as [|n l IH]; cbn; [constructor|].
  intros [Hn Hl]%NoDup_cons. destruct (bool_decide _); cbn; [|by apply IH]. constructor; [|by apply IH].
  intros (m & Hm & [Hin _]%elem_of_listfilter)%list_elem_of_fmap. apply Hn. rewrite Hm. apply list_elem_of_fmap. eauto.
Qed.

Lemma dependents_known e : Forall (λ n, Forall (λ x, x ∈ ids) (pn_depends_on n)) nodes → dependents_of nodes ≠ Err e.
Proof.
  intros Hk. unfold dependents_of. rewrite dependents_start.
  assert (Hadd : ∀ n d, Forall (λ x, x ∈ dict_keys d) (pn_depends_on n) →
    ∃ d', add_dependents d n = Ok d' ∧ ∀ x, x ∈ dict_keys d → x ∈ dict_keys d').
  { intros n. unfold add_dependents. induction (pn_depends_on n) as [|x l IH]; intros d Hl; cbn [fold_result]; [by eexists|].
    apply Forall_cons in Hl as [Hx Hl]. apply dict_key_get in Hx as [old Hold]. rewrite Hold. cbn [of_option mbind result_bind].
    destruct (IH (dict_set x (old ++ [pn_node_id n]) d)) as (d' & -> & Hsub).
    - eapply Forall_impl; [exact Hl|]. intros y Hy. apply dict_set_keys_elem. by right.
    - exists d'. split; [done|]. intros y Hy. apply Hsub, dict_set_keys_elem. by right. }
  assert (Hstart : ∀ x, x ∈ ids → x ∈ dict_keys (map (λ n, (pn_node_id n, @nil string)) nodes)).
  { intros x Hx. unfold dict_keys. by rewrite <-list_fmap_compose. }
  revert Hk Hstart. generalize (map (λ n, (pn_node_id n, @nil string)) nodes) as d. generalize ids as K. revert e. clear -Hadd.
  induction nodes as [|n ns IH]; intros e K d Hk Hd; cbn [fold_result]; [done|]. apply Forall_cons in Hk as [Hn Hk].
  destruct (Hadd n d) as (d' & -> & Hsub); [eapply Forall_impl; [exact Hn|]; auto|]. cbn [mbind result_bind].
  apply (IH e K d'); [done|]. auto.
Qed.

(** *** The queue *)

Lemma settle_fold l : NoDup l → ∀ remaining ready, StronglySorted (leR String.leb) ready →
  (∀ y, y ∈ l → is_Some (dict_get y remaining)) →
  ∃ remaining' ready', fold_result settle (remaining, ready) l = Ok (remaining', ready')
  ∧ (∀ y, dict_get y remaining' = (λ c, if bool_decide (y ∈ l) then c - 1 else c) <$> dict_get y remaining)
  ∧ (∀ y, y ∈ ready' ↔ y ∈ ready ∨ (y ∈ l ∧ dict_get y remaining = Some 1))
  ∧ StronglySorted (leR String.leb) ready'.
Proof.
  induction l as [|x l IH]; intros Hl remaining ready Hs Hin; cbn [fold_result].
  { exists remaining, ready. split_and!; [done| | |done].
    - intros y. by destruct (dict_get y remaining).
    - intros y. split; [by left|]. intros [?|[?%elem_of_nil _]]; done. }
  apply NoDup_cons in Hl as [Hx Hl]. destruct (Hin x ltac:(by left)) as [c Hc].
  unfold settle at 2. rewrite Hc. cbn [of_option mbind result_bind].
  destruct (IH Hl (dict_set x (c - 1) remaining) (if c - 1 =? 0 then sort_strings (ready ++ [x]) else ready))
    as (rem' & rdy' & -> & Hrem & Hrdy & Hsort).
  { destruct (c - 1 =? 0); [apply sort_strings_sorted|done]. }
  { intros y Hy. rewrite dict_get_set. case_decide; [by eexists|]. apply Hin. by right. }
  exists rem', rdy'. split_and!; [done| | |done].
  - intros y. rewrite Hrem, dict_get_set. case_decide as E.
    + subst y. rewrite Hc. cbn. by rewrite (bool_decide_eq_false_2 _ Hx), bool_decide_eq_true_2 by by left.
    + assert (Hiff : y ∈ x :: l ↔ y ∈ l) by (rewrite elem_of_cons; naive_solver).
      by rewrite (bool_decide_ext _ _ Hiff).
  - intros y. rewrite Hrdy, dict_get_set, elem_of_cons.
    assert (Hr : y ∈ (if c - 1 =? 0 then sort_strings (ready ++ [x]) else ready) ↔ y ∈ ready ∨ (y = x ∧ c = 1)).
    { destruct (Z.eqb_spec (c - 1) 0).
      - rewrite elem_of_sort_strings, elem_of_app, list_elem_of_singleton. split; [intros [?| ->]; [by left|right; split; [done|lia]]|naive_solver].
      - split; [by left|]. intros [?|[_ ->]]; [done|lia]. }
    rewrite Hr. case_decide as E.
    + subst y. rewrite Hc. naive_solver.
    + naive_solver.
Qed.

Record queue_ok (remaining : list (string * Z)) (ready ordered : list string) : Prop := MkQueueOk {
  q_loop : loop_ok nodes remaining ready ordered;
  q_count : ∀ x, x ∈ ids → dict_get x remaining = Some (waiting ordered x);
  q_ready : ∀ x, x ∈ ordered ++ ready ↔ x ∈ ids ∧ waiting ordered x = 0;
  q_sorted : StronglySorted (leR String.leb) ready;
  q_respects : respects D ordered;
  q_least : least_order D ordered
}.

Lemma queue_start : queue_ok (remaining_of nodes)
  (sort_strings (map fst (List.filter (λ kv, kv.2 =? 0) (remaining_of nodes)))) [].
Proof.
  assert (Hrem : remaining_of nodes = map (λ n, (pn_node_id n, zlen (pn_depends_on n))) nodes).
  { by apply (dict_comprehension pn_node_id (λ n, zlen (pn_depends_on n))). }
  assert (Hw : ∀ n, n ∈ nodes → waiting [] (pn_node_id n) = zlen (pn_depends_on n)).
  { intros n Hn. unfold waiting. rewrite D_deps by done. f_equal. apply List.filter_true. }
  split.
  - apply ready_start.
  - intros x (n & Hn & ->)%node_of. rewrite Hw, Hrem by done.
    by rewrite (dict_get_map pn_node_id (λ n, zlen (pn_depends_on n))).
  - intros x. cbn [app]. rewrite elem_of_sort_strings, Hrem. split.
    + intros ([k c] & -> & [(n & [= -> ->] & Hn)%list_elem_of_fmap Hc]%elem_of_listfilter)%list_elem_of_fmap.
      cbn in *. split; [apply list_elem_of_fmap; eauto|]. rewrite Hw by done. by apply Z.eqb_eq.
    + intros [(n & Hn & ->)%node_of H]. rewrite Hw in H by done. apply list_elem_of_fmap.
      exists (pn_node_id n, zlen (pn_depends_on n)). split; [done|]. apply elem_of_listfilter. cbn.
      split; [apply list_elem_of_fmap; eauto|by apply Z.eqb_eq].
  - apply sort_strings_sorted.
  - intros i x d. by rewrite lookup_nil.
  - intros i x y. by rewrite lookup_nil.
Qed.

Lemma ready_head remaining x ready ordered : queue_ok remaining (x :: ready) ordered →
  x ∈ ids ∧ x ∉ ordered ∧ waiting ordered x = 0.
Proof.
  intros [(_ & Hn & _) _ Hr _ _ _]. assert (Hx : x ∈ ordered ++ x :: ready) by (apply elem_of_app; right; by left).
  destruct (proj1 (Hr x) Hx). split_and!; [done| |done]. intros Ho.
  apply NoDup_app in Hn as (_ & Hn & _). by apply (Hn x Ho); left.
Qed.

(** The head of the queue is the least element that can come next. *)
Lemma order_step remaining x ready ordered : queue_ok remaining (x :: ready) ordered →
  respects D (ordered ++ [x]) ∧ least_order D (ordered ++ [x]).
Proof.
  intros H. destruct (ready_head _ _ _ _ H) as (Hx & Hxo & Hw). destruct H as [_ _ Hr Hs Hresp Hleast]. split.
  - apply respects_app; [done|]. intros y d ->%list_elem_of_singleton Hd. by apply (waiting_zero ordered x).
  - intros i z y Hz Hy Hyi Hd. apply lookup_app_Some in Hz as [Hz|[Hi Hz]].
    + rewrite take_app_le in Hyi, Hd by (apply lookup_lt_Some in Hz; lia). by apply (Hleast i z y).
    + destruct (i - length ordered)%nat as [|k] eqn:Ei; [|done]. injection Hz as ->.
      assert (i = length ordered) as -> by lia. rewrite take_app_length in Hyi, Hd.
      assert (Hin : y ∈ ordered ++ z :: ready).
      { apply Hr. split; [by rewrite <-D_keys|]. by apply waiting_zero. }
      apply elem_of_app in Hin as [Hin|Hin]; [done|]. apply elem_of_cons in Hin as [->|Hin]; [apply string_leb_refl|].
      apply StronglySorted_inv in Hs as [_ Hs]. rewrite Forall_forall in Hs. by apply Hs.
Qed.

Lemma queue_step dependents remaining x ready ordered : dependents_of nodes = Ok dependents →
  queue_ok remaining (x :: ready) ordered →
  ∃ ds st, dict_get x dependents = Some ds ∧ fold_result settle (remaining, ready) (sort_strings ds) = Ok st
  ∧ queue_ok st.1 st.2 (ordered ++ [x]).
Proof.
  intros Hd H. destruct (ready_head _ _ _ _ H) as (Hx & Hxo & Hw).
  destruct (order_step _ _ _ _ H) as [Hresp Hleast].
  destruct H as [Hl Hc Hr Hs _ _]. destruct (dependents_exact _ Hd) as [Hds _].
  apply StronglySorted_inv in Hs as [Hs _].
  assert (Hel : ∀ y, y ∈ sort_strings (dependents_from x nodes) ↔ y ∈ ids ∧ x ∈ deps D y).
  { intros y. by rewrite elem_of_sort_strings, elem_of_dependents. }
  destruct (settle_fold (sort_strings (dependents_from x nodes))) with (remaining := remaining) (ready := ready)
    as (rem' & rdy' & Hst & Hrem & Hrdy & Hsort); [|done| |].
  { unfold sort_strings. rewrite isort_perm. apply NoDup_dependents. }
  { intros y [Hy _]%Hel. eexists. by apply Hc. }
  exists (dependents_from x nodes), (rem', rdy'). split_and!; [by apply Hds|done|]. cbn [fst snd].
  assert (Hlo : loop_ok nodes rem' rdy' (ordered ++ [x])).
  { destruct (settle_all_ok nodes (sort_strings (dependents_from x nodes)) remaining ready (ordered ++ [x]))
      as (st & Hst' & Hl').
    - unfold loop_ok in *. by rewrite <-app_assoc.
    - intros y [Hy _]%Hel. done.
    - rewrite Hst in Hst'. by injection Hst' as <-. }
  split; [done| | |done|done|done].
  - intros y Hy. rewrite Hrem, (Hc y Hy), waiting_snoc by done. cbn [fmap option_fmap option_map]. f_equal.
    destruct (decide (x ∈ deps D y)) as [Hin|Hin].
    + rewrite !bool_decide_eq_true_2; [lia|done|by apply Hel].
    + rewrite !bool_decide_eq_false_2; [lia|done|]. by intros [_ ?]%Hel.
  - intros y. rewrite elem_of_app, elem_of_app, list_elem_of_singleton, Hrdy.
    specialize (Hr y). rewrite elem_of_app, elem_of_cons in Hr. rewrite Hel.
    destruct (decide (y ∈ ids)) as [Hy|Hy]; [|naive_solver].
    rewrite waiting_snoc, (Hc y Hy) by done.
    assert (Hpos : x ∈ deps D y → waiting ordered y ≠ 0).
    { intros Hin H0. apply Hxo. by apply (waiting_zero ordered y). }
    assert (0 <= waiting ordered y) by (unfold waiting, zlen; lia).
    assert (Hy1 : Some (waiting ordered y) = Some 1 ↔ waiting ordered y = 1) by (split; [by intros [= ?]|by intros ->]).
    rewrite Hy1. destruct (decide (x ∈ deps D y)) as [Hin|Hin].
    + rewrite (bool_decide_eq_true_2 _ Hin). split.
      * intros [[?|?]|[?|[_ ?]]]; (split; [done|]); try lia; exfalso; tauto.
      * intros [_ ?]. right. right. split; [done|lia].
    + rewrite (bool_decide_eq_false_2 _ Hin), Z.sub_0_r. tauto.
Qed.

Lemma take_ready_exact fuel dependents : dependents_of nodes = Ok dependents → ∀ remaining ready ordered order,
  queue_ok remaining ready ordered → take_ready fuel dependents remaining ready ordered = Ok order →
  ∃ remaining', queue_ok remaining' [] order.
Proof.
  intros Hd. induction fuel as [|fuel IH]; intros remaining ready ordered order Hq H.
  - destruct ready; cbn in H; [|done]. injection H as <-. by eexists.
  - destruct ready as [|x ready]; cbn [take_ready] in H; [injection H as <-; by eexists|].
    destruct (queue_step _ _ _ _ _ Hd Hq) as (ds & st & Hds & Hst & Hq'). rewrite Hds in H.
    cbn [of_option mbind result_bind] in H. rewrite Hst in H. cbn [mbind result_bind] in H. by eapply IH.
Qed.

(** What stands in the way of an order: an unknown dependency, or the nodes the
    queue never reached. *)
Lemma unknown_stuck : ¬ Forall (λ n, Forall (λ x, x ∈ ids) (pn_depends_on n)) nodes → ∃ S, stuck D S.
Proof.
  intros Hk. apply not_Forall_Exists in Hk; [|intros ?; apply _]. apply Exists_exists in Hk as (n & Hn & Hk).
  apply not_Forall_Exists in Hk; [|intros ?; apply _]. apply Exists_exists in Hk as (x & Hx & Hxi).
  exists [pn_node_id n]. split_and!; [done| |].
  - intros y Hy%list_elem_of_singleton. subst y. rewrite D_keys. apply list_elem_of_fmap. eauto.
  - intros y Hy%list_elem_of_singleton. subst y. exists x. rewrite D_deps, D_keys by done. auto.
Qed.

Lemma rest_stuck order : NoDup order → length order ≠ length nodes →
  (∀ x, x ∈ order ↔ x ∈ ids ∧ waiting order x = 0) → ∃ S, stuck D S.
Proof.
  intros Hn Hlen Hr. exists (List.filter (λ x, negb (bool_decide (x ∈ order))) ids).
  assert (Hrest : ∀ x, x ∈ List.filter (λ x, negb (bool_decide (x ∈ order))) ids ↔ x ∈ ids ∧ x ∉ order).
  { intros x. by rewrite elem_of_listfilter, negb_true_iff, bool_decide_eq_false. }
  split_and!.
  - intros Hnil. apply Hlen. rewrite <-(length_map pn_node_id nodes). apply Permutation_length.
    apply NoDup_Permutation; [done|done|]. intros x. split; [by intros [? _]%Hr|]. intros Hx.
    destruct (decide (x ∈ order)) as [|Hno]; [done|]. exfalso. apply (elem_of_nil (A := string) x).
    rewrite <-Hnil. by apply Hrest.
  - intros x [Hx _]%Hrest. by rewrite D_keys.
  - intros x [Hx Hno]%Hrest. destruct (decide (Forall (λ d, d ∈ order) (deps D x))) as [Hall|Hnot].
    + exfalso. apply Hno, Hr. split; [done|]. apply waiting_zero. by apply Forall_forall.
    + apply not_Forall_Exists in Hnot; [|intros ?; apply _]. apply Exists_exists in Hnot as (y & Hy & Hyo).
      exists y. split; [done|]. destruct (decide (y ∈ ids)) as [Hyi|Hyi]; [left|right; by rewrite D_keys].
      by apply Hrest.
Qed.

(** What the order is, and why there is none. *)
Lemma plan_order_spec :
  match plan_topological_order nodes with
  | Ok order => order ≡ₚ ids ∧ respects D order ∧ least_order D order
  | Err e => e = wire_error ∧ ∃ S, stuck D S
  end.
Proof.
  destruct (plan_order_cases nodes) as [[order E]|E]; rewrite E; [|split; [done|]];
    unfold plan_topological_order in E.
  - apply bind_ok in E as (d & Hd & E). apply bind_ok in E as (order' & Ho & E).
    apply bind_ok in E as (? & Hlen%wire_require_ok%Nat.eqb_eq & [= <-]).
    destruct (take_ready_exact _ _ Hd _ _ _ _ queue_start Ho) as (rem' & [(_ & Hn & _) _ Hr _ Hresp Hleast]).
    rewrite app_nil_r in Hn. split; [|done]. apply submseteq_length_Permutation.
    + apply NoDup_submseteq; [done|]. intros z Hz. rewrite app_nil_r in Hr. by apply Hr.
    + rewrite length_map. lia.
  - destruct (decide (Forall (λ n, Forall (λ x, x ∈ ids) (pn_depends_on n)) nodes)) as [Hk|Hk];
      [|by apply unknown_stuck].
    pose proof (dependents_of_cases nodes) as Hcl.
    destruct (dependents_of nodes) as [d|e] eqn:Hd; [|by destruct (dependents_known e Hk)].
    destruct (take_ready_ok nodes (length (remaining_of nodes)) d _ _ [] Hcl (ready_start nodes)) as [order Ho];
      [unfold dict_keys; by rewrite length_fmap|].
    cbn [mbind result_bind] in E. rewrite Ho in E. cbn [mbind result_bind] in E.
    destruct (take_ready_exact _ _ Hd _ _ _ _ queue_start Ho) as (rem' & [(_ & Hn & _) _ Hr _ _ _]).
    rewrite app_nil_r in Hn. setoid_rewrite app_nil_r in Hr. apply (rest_stuck order); [done| |done].
    intros Hlen. rewrite Hlen, Nat.eqb_refl in E. done.
Qed.
End Exact.

(** ** The order does not depend on the order of the nodes *)

Lemma least_order_unique D l k : dict_keys D ≡ₚ l → dict_keys D ≡ₚ k → NoDup (dict_keys D) →
  respects D l → respects D k → least_order D l → least_order D k → l = k.
Proof.
  intros Hl Hk Hnd Hrl Hrk Hll Hlk.
  assert (Hnl : NoDup l) by by rewrite <-Hl. assert (Hnk : NoDup k) by by rewrite <-Hk.
  assert (Hlen : length l = length k) by (apply Permutation_length; by rewrite <-Hl).
  assert (Hfree : ∀ m i x, NoDup m → respects D m → m !! i = Some x → x ∉ take i m ∧ ∀ d, d ∈ deps D x → d ∈ take i m).
  { intros m i x Hm Hr Hx. split.
    - intros (j & Hj & Hlt)%elem_of_take. pose proof (NoDup_lookup _ _ _ _ Hm Hx Hj). lia.
    - intros d Hd. destruct (Hr i x d Hx Hd) as (j & Hj & Hjd). apply elem_of_take. eauto. }
  assert (Hpre : ∀ i, take i l = take i k).
  { induction i as [|i IH]; [done|]. destruct (l !! i) as [x|] eqn:Hx; destruct (k !! i) as [y|] eqn:Hy.
    - rewrite (take_S_r l i x), (take_S_r k i y), IH by done. repeat f_equal.
      destruct (Hfree l i x Hnl Hrl Hx) as [Hx1 Hx2]. destruct (Hfree k i y Hnk Hrk Hy) as [Hy1 Hy2].
      apply string_leb_antisym.
      + apply (Hll i x y Hx); [rewrite Hk; by eapply list_elem_of_lookup_2|by rewrite IH|by rewrite IH].
      + apply (Hlk i y x Hy); [rewrite Hl; by eapply list_elem_of_lookup_2|by rewrite <-IH|by rewrite <-IH].
    - apply lookup_lt_Some in Hx. apply lookup_ge_None in Hy. lia.
    - apply lookup_lt_Some in Hy. apply lookup_ge_None in Hx. lia.
    - apply lookup_ge_None in Hx, Hy. rewrite !take_ge in IH |- * by lia. done. }
  rewrite <-(firstn_all l), <-(firstn_all k), Hlen. apply Hpre.
Qed.

Section Permuted.
Context (nodes nodes' : list PlanNode) (Hp : nodes ≡ₚ nodes') (Hnd : NoDup (map pn_node_id nodes)).
Context (Hdd : ∀ n, n ∈ nodes → NoDup (pn_depends_on n)).
Abbreviation D := (dependencies_of (map as_task nodes)).
Abbreviation D' := (dependencies_of (map as_task nodes')).

Lemma permuted_ids : map pn_node_id nodes ≡ₚ map pn_node_id nodes'.
Proof. by apply fmap_Permutation. Qed.
Lemma permuted_nd : NoDup (map pn_node_id nodes').
Proof. by rewrite <-permuted_ids. Qed.
Lemma permuted_keys x : x ∈ dict_keys D ↔ x ∈ dict_keys D'.
Proof. rewrite !D_keys by (done || apply permuted_nd). by rewrite permuted_ids. Qed.

Lemma permuted_deps x : deps D x = deps D' x.
Proof.
  destruct (decide (x ∈ map pn_node_id nodes)) as [(n & Hn & ->)%node_of|Hx].
  - rewrite (D_deps nodes Hnd), (D_deps nodes' permuted_nd); [done|by rewrite <-Hp|done].
  - unfold deps. assert (H : ∀ d : list (string * list string), x ∉ dict_keys d → dict_get x d = None) by by intros ? ?%dict_get_None.
    rewrite (H D), (H D'); [done|rewrite D_keys, <-permuted_ids; [done|apply permuted_nd]|by rewrite D_keys].
Qed.

Lemma permuted_respects l : respects D l → respects D' l.
Proof. intros H i x d Hx Hd. rewrite <-permuted_deps in Hd. by apply (H i x d). Qed.
Lemma permuted_least l : least_order D l → least_order D' l.
Proof.
  intros H i x y Hx Hy Hi Hd. apply (H i x y); [done|by apply permuted_keys|done|].
  intros d. rewrite permuted_deps. apply Hd.
Qed.
Lemma permuted_stuck S : stuck D' S → stuck D S.
Proof.
  intros (Hne & Hin & Hs). split_and!; [done|intros x Hx; by apply permuted_keys, Hin|].
  intros x Hx. destruct (Hs x Hx) as (d & Hd & Hor). exists d. rewrite permuted_deps. split; [done|].
  by rewrite permuted_keys.
Qed.
End Permuted.

Lemma plan_order_permuted nodes nodes' : nodes ≡ₚ nodes' → NoDup (map pn_node_id nodes) →
  (∀ n, n ∈ nodes → NoDup (pn_depends_on n)) → plan_topological_order nodes = plan_topological_order nodes'.
Proof.
  intros Hp Hnd Hdd. pose proof (permuted_nd _ _ Hp Hnd) as Hnd'.
  assert (Hdd' : ∀ n, n ∈ nodes' → NoDup (pn_depends_on n)) by (intros n Hn; apply Hdd; by rewrite Hp).
  pose proof (plan_order_spec nodes Hnd Hdd) as H. pose proof (plan_order_spec nodes' Hnd' Hdd') as H'.
  destruct (plan_topological_order nodes) as [l|e], (plan_topological_order nodes') as [k|e'].
  - f_equal. destruct H as (Hl & Hrl & Hll), H' as (Hk & Hrk & Hlk).
    apply (least_order_unique (dependencies_of (map as_task nodes'))); try done.
    + by rewrite D_keys, Hl, permuted_ids.
    + by rewrite D_keys, Hk.
    + by rewrite D_keys.
    + by apply (permuted_respects nodes).
    + by apply (permuted_least nodes).
  - exfalso. destruct H as (Hl & Hrl & _), H' as [_ [S HS]].
    apply (respects_not_stuck (dependencies_of (map as_task nodes)) l S);
      [by rewrite D_keys|done|by apply (permuted_stuck _ nodes')].
  - exfalso. destruct H' as (Hk & Hrk & _), H as [_ [S HS]].
    apply (respects_not_stuck (dependencies_of (map as_task nodes')) k S); [by rewrite D_keys|done|].
    apply (permuted_stuck nodes' nodes); [by symmetry|done|done].
  - destruct H as [-> _], H' as [-> _]. done.
Qed.

(** C0 (plan_order_total): [plan_topological_order] ends on every list of nodes,
    also with repeated identifiers, self-dependencies, cycles or unknown
    dependencies: it returns an order or raises the contract error, within as
    many rounds as there are distinct identifiers. *)
Theorem plan_order_total nodes :
  (∃ order, plan_topological_order nodes = Ok order) ∨ plan_topological_order nodes = Err wire_error.
Proof. apply plan_order_cases. Qed.

(** C33 (plan_order_least): for nodes with distinct identifiers and dependencies
    the result is an order exactly when no set of nodes is stuck (each waiting
    for a member or for an unknown node); the order lists every node once, every
    dependency earlier, at each position the least identifier that could come
    there, and is the same however the nodes of the request are listed. *)
Theorem plan_order_least nodes (Hnd : NoDup (map pn_node_id nodes))
    (Hdd : ∀ n, n ∈ nodes → NoDup (pn_depends_on n)) :
  (∀ nodes', nodes ≡ₚ nodes' → plan_topological_order nodes = plan_topological_order nodes') ∧
  match plan_topological_order nodes with
  | Ok order => order ≡ₚ map pn_node_id nodes
      ∧ (∀ i n d, n ∈ nodes → order !! i = Some (pn_node_id n) → d ∈ pn_depends_on n →
           ∃ j, (j < i)%nat ∧ order !! j = Some d)
      ∧ (∀ i x n, order !! i = Some x → n ∈ nodes → pn_node_id n ∉ take i order →
           (∀ d, d ∈ pn_depends_on n → d ∈ take i order) → String.leb x (pn_node_id n) = true)
      ∧ ¬ ∃ S, stuck (dependencies_of (map as_task nodes)) S
  | Err e => e = wire_error ∧ ∃ S, stuck (dependencies_of (map as_task nodes)) S
  end.
Proof.
  split; [intros nodes' Hp; by apply plan_order_permuted|].
  pose proof (plan_order_spec nodes Hnd Hdd) as H. destruct (plan_topological_order nodes) as [order|e]; [|done].
  destruct H as (Hp & Hr & Hl). split_and!; [done| | |].
  - intros i n d Hn Hi Hd. apply (Hr i _ d Hi). by rewrite D_deps.
  - intros i x n Hx Hn Hi Hd. apply (Hl i x _ Hx); [|done|by rewrite D_deps].
    rewrite D_keys by done. apply list_elem_of_fmap. eauto.
  - intros [S HS]. by apply (respects_not_stuck _ order S) in HS; [|rewrite D_keys|].
Qed.

(** C34 (plan_orders_agree): the request's queue-driven order and the plan
    compiler's round-based order accept the same plans: one finds an order
    exactly when the other does, of the same nodes. *)
Theorem plan_orders_agree nodes (Hnd : NoDup (map pn_node_id nodes))
    (Hdd : ∀ n, n ∈ nodes → NoDup (pn_depends_on n)) :
  is_ok (plan_topological_order nodes) = is_ok (_topological_order (map as_task nodes))
  ∧ ∀ l k, plan_topological_order nodes = Ok l → _topological_order (map as_task nodes) = Ok k → l ≡ₚ k.
Proof.
  pose proof (plan_order_spec nodes Hnd Hdd) as H.
  pose proof (topological_cases (map as_task nodes) ltac:(by rewrite task_ids)) as H'. rewrite task_ids in H'.
  destruct (plan_topological_order nodes) as [l|e], (_topological_order _) as [k|e']; cbn.
  - split; [done|]. intros ? ? [= <-] [= <-]. destruct H as (Hl & _), H' as (Hk & _). by rewrite Hl, Hk.
  - exfalso. destruct H as (Hl & Hr & _), H' as [_ [S HS]].
    by apply (respects_not_stuck _ l S) in HS; [|rewrite D_keys|].
  - exfalso. destruct H as [_ [S HS]], H' as [Hk Hr].
    by apply (respects_not_stuck _ k S) in HS; [|rewrite D_keys|].
  - done.
Qed.

(** ** The accepted plan request *)

Section Request.
Context (nodes : list PlanNode) (Hnd : NoDup (map pn_node_id nodes)).
Context (Hdd : ∀ n, n ∈ nodes → NoDup (pn_depends_on n)).
Abbreviation ts := (map as_task nodes).

(** Direct and transitive dependency between nodes. *)
Definition node_depends (a b : string) : Prop := ∃ n, n ∈ nodes ∧ pn_node_id n = b ∧ a ∈ pn_depends_on n.
Definition node_writer (a : string) : Prop := ∃ n, n ∈ nodes ∧ pn_node_id n = a ∧ writes n = true.

Lemma node_depends_task a b : node_depends a b ↔ depends ts a b.
Proof.
  split.
  - intros (n & Hn & <- & Ha). exists (as_task n). split_and!; [|done|done]. apply list_elem_of_fmap. eauto.
  - intros (t & (n & -> & Hn)%list_elem_of_fmap & <- & Ha). by exists n.
Qed.
Lemma tc_node_depends a b : tc node_depends a b ↔ tc (depends ts) a b.
Proof.
  split; induction 1 as [? ? H|? ? ? H _ IH]; try (apply tc_once; by apply node_depends_task);
    (eapply tc_l; [by apply node_depends_task|done]).
Qed.
Lemma node_writer_task a : node_writer a ↔ writer ts a.
Proof.
  split.
  - intros (n & Hn & <- & Hw). exists (as_task n). split_and!; [apply list_elem_of_fmap; eauto|done|].
    cbn. by rewrite Hw.
  - intros (t & (n & -> & Hn)%list_elem_of_fmap & <- & Hw). exists n. split_and!; [done|done|].
    cbn in Hw. by destruct (writes n).
Qed.

Lemma task_by_node x : dict_get x (task_by_id ts) = as_task <$> dict_get x (node_by_id nodes).
Proof.
  rewrite task_by_id_eq by by rewrite task_ids.
  assert (node_by_id nodes = map (λ n, (pn_node_id n, n)) nodes) as -> by by apply (dict_comprehension pn_node_id (λ n, n)).
  rewrite map_map. clear. induction nodes as [|n l IH]; cbn; [done|]. by case_decide.
Qed.

Lemma plan_ancestors_eq order : ∀ anc, plan_ancestors (node_by_id nodes) order anc = ancestors_of (task_by_id ts) order anc.
Proof.
  induction order as [|x order IH]; intros anc; cbn [plan_ancestors ancestors_of]; [done|].
  rewrite task_by_node. destruct (dict_get x (node_by_id nodes)) as [n|]; [|done].
  cbn [fmap option_fmap option_map of_option mbind result_bind]. cbn [as_task depends_on].
  destruct (map_result _ _); [|done]. cbn [mbind result_bind]. apply IH.
Qed.

Lemma plan_writers_of order :
  List.filter (λ id, match dict_get id (node_by_id nodes) with Some n => writes n | None => false end) order
  = writers_of ts order.
Proof.
  unfold writers_of. apply List.filter_ext. intros x. rewrite task_by_node.
  destruct (dict_get x (node_by_id nodes)) as [n|]; [|done]. cbn. unfold is_writer. cbn. by destruct (writes n).
Qed.

(** The graph checks of a plan request. *)
Lemma check_plan_writers_spec :
  check_plan_writers nodes = Ok tt ↔
  (¬ ∃ S, stuck (dependencies_of ts) S)
  ∧ ∀ a b, node_writer a → node_writer b → a ≠ b → tc node_depends a b ∨ tc node_depends b a.
Proof.
  unfold check_plan_writers. pose proof (plan_order_spec nodes Hnd Hdd) as H.
  destruct (plan_topological_order nodes) as [order|e]; cbn [mbind result_bind].
  2: { split; [done|]. intros [Hs _]. destruct (Hs (proj2 H)). }
  destruct H as (Hp & Hr & _).
  assert (Hns : ¬ ∃ S, stuck (dependencies_of ts) S).
  { intros [S HS]. by apply (respects_not_stuck _ order S) in HS; [|rewrite D_keys|]. }
  destruct (writer_chain ts order) as (anc & Hanc & Hc); [by rewrite task_ids|by rewrite task_ids|done|].
  rewrite plan_ancestors_eq, Hanc, plan_writers_of. cbn [mbind result_bind].
  fold (chain_broken anc (writers_of ts order)). rewrite wire_require_ok, negb_true_iff.
  destruct Hc as [[-> Hall]|[-> (a & b & Ha & Hb & Hne & H1 & H2)]]; split; try done.
  - intros _. split; [done|]. intros a b Ha%node_writer_task Hb%node_writer_task Hne.
    destruct (Hall a b Ha Hb Hne); [left|right]; by apply tc_node_depends.
  - intros [_ Hall]. exfalso. destruct (Hall a b) as [H|H]; [by apply node_writer_task..|done| |].
    + by apply H1, tc_node_depends.
    + by apply H2, tc_node_depends.
Qed.
End Request.

Lemma plan_node_built n n' : plan_node_init n = Ok n' →
  n' = n ∧ NoDup (pn_depends_on n) ∧ pn_node_id n ∉ pn_depends_on n ∧ pn_checks n ≠ []
  ∧ NoDup (map ac_check_id (pn_checks n))
  ∧ (writes n = true → pn_allowed_paths n ≠ [] ∧ 1 <= nb_max_changed_files (pn_budget n))
  ∧ (writes n = false → pn_allowed_paths n = [] ∧ nb_max_changed_files (pn_budget n) = 0).
Proof.
  unfold plan_node_init, _unique_identifiers, distinct. intros H.
  apply bind_ok in H as (? & H1%wire_require_ok & H). apply bind_ok in H as (? & H2%wire_require_ok & H).
  apply bind_ok in H as (? & _ & H). apply bind_ok in H as (? & _ & H). apply bind_ok in H as (? & _ & H).
  apply bind_ok in H as (? & Hw & H). apply bind_ok in H as (? & H3%wire_require_ok & H).
  apply bind_ok in H as (? & H4%wire_require_ok & [= <-]). inv_ok.
  split_and!; try done.
  - intros E. rewrite E in Hw. apply wire_require_ok in Hw. inv_ok. split; [done|lia].
  - intros E. rewrite E in Hw. apply wire_require_ok in Hw. inv_ok. split; [done|lia].
Qed.

(** No node waits for itself. *)
Lemma no_stuck_acyclic nodes a : NoDup (map pn_node_id nodes) → (∀ n, n ∈ nodes → NoDup (pn_depends_on n)) →
  (¬ ∃ S, stuck (dependencies_of (map as_task nodes)) S) → ¬ tc (node_depends nodes) a a.
Proof.
  intros Hnd Hdd Hs Ha. pose proof (plan_order_spec nodes Hnd Hdd) as H.
  destruct (plan_topological_order nodes) as [order|e]; [|by destruct (Hs (proj2 H))].
  destruct H as (Hp & Hr & _). assert (Ha' := Ha). apply tc_node_depends in Ha'.
  assert (Hin : a ∈ order).
  { rewrite Hp. clear -Ha. assert (H : ∀ x y, tc (node_depends nodes) x y → y ∈ map pn_node_id nodes); [|by eapply H].
    induction 1 as [x y (n & Hn & <- & _)|]; [apply list_elem_of_fmap; eauto|done]. }
  apply list_elem_of_lookup in Hin as [i Hi].
  destruct (tc_before (map as_task nodes) ltac:(by rewrite task_ids) order a a i Hr Ha' Hi) as (j & Hj & Hja).
  assert (Hno : NoDup order) by by rewrite Hp. pose proof (NoDup_lookup _ _ _ _ Hno Hi Hja). lia.
Qed.

Definition plan_fields_ok (r : PlanRequest) : bool :=
  forallb wire_identifier [plq_plan_id r; plq_project_id r; plq_intent_id r; plq_idempotency_key r]
  && re_commit (plq_base_commit r) && _unique_values 4 (plq_allowed_effects r)
  && negb (bool_decide (plq_nodes r = [])) && (zlen (plq_nodes r) <=? _MAX_PLAN_NODES).

Lemma check_plan_nodes_ok known allowed nodes :
  (∃ l, map_result (check_plan_node known allowed) nodes = Ok l) ↔
  ∀ n, n ∈ nodes → (∀ d, d ∈ pn_depends_on n → d ∈ known) ∧ ∀ e, e ∈ pn_effects n → e ∈ allowed.
Proof.
  assert (Hone : ∀ n, check_plan_node known allowed n = Ok tt ↔
    (∀ d, d ∈ pn_depends_on n → d ∈ known) ∧ ∀ e, e ∈ pn_effects n → e ∈ allowed).
  { intros n. unfold check_plan_node. rewrite bind_ok. split.
    - intros (? & H1%wire_require_ok & H2%wire_require_ok). rewrite negb_true_iff, existsb_false in H1.
      split; [|by apply subset_of_spec]. intros d Hd. specialize (H1 d Hd).
      by apply negb_false_iff, bool_decide_eq_true in H1.
    - intros [H1 H2]. exists tt. rewrite !wire_require_ok, subset_of_spec. split; [|done].
      apply negb_true_iff, existsb_false. intros d Hd. apply negb_false_iff, bool_decide_eq_true. auto. }
  induction nodes as [|n l IH]; cbn [map_result].
  - split; [by intros _ n ?%elem_of_nil|]. intros _. by eexists.
  - setoid_rewrite elem_of_cons. split.
    + intros (ys & H). apply bind_ok in H as ([] & Hn & H). apply bind_ok in H as (ys' & Hl & _).
      intros m [->|Hm]; [by apply Hone|]. by apply IH; [eexists|].
    + intros H. rewrite (proj2 (Hone n)) by (apply H; by left). cbn [mbind result_bind].
      destruct (proj2 IH) as [ys ->]; [auto|]. cbn. by eexists.
Qed.

Lemma plan_fields_split r : plan_fields_ok r = true ↔
  wire_identifier (plq_plan_id r) && wire_identifier (plq_project_id r) && wire_identifier (plq_intent_id r)
    && re_commit (plq_base_commit r) && wire_identifier (plq_idempotency_key r) && _unique_values 4 (plq_allowed_effects r) = true
  ∧ negb (bool_decide (plq_nodes r = [])) && (zlen (plq_nodes r) <=? _MAX_PLAN_NODES) = true.
Proof. unfold plan_fields_ok. cbn [forallb]. rewrite !andb_true_iff. tauto. Qed.

(** The writer check raises nothing but the contract error. *)
Lemma check_plan_writers_cases nodes : NoDup (map pn_node_id nodes) → (∀ n, n ∈ nodes → NoDup (pn_depends_on n)) →
  check_plan_writers nodes = Ok tt ∨ check_plan_writers nodes = Err wire_error.
Proof.
  intros Hnd Hdd. unfold check_plan_writers. pose proof (plan_order_spec nodes Hnd Hdd) as H.
  destruct (plan_topological_order nodes) as [order|e]; cbn [mbind result_bind]; [|right; by destruct H as [-> _]].
  destruct H as (Hp & Hr & _).
  destruct (writer_chain (map as_task nodes) order) as (anc & Hanc & _); [by rewrite task_ids|by rewrite task_ids|done|].
  rewrite plan_ancestors_eq, Hanc by done. cbn [mbind result_bind].
  unfold wire_require, raise_if. destruct (negb _); [by right|by left].
Qed.

Lemma wire_require_cases c : wire_require c = Ok tt ∨ wire_require c = Err wire_error.
Proof. destruct c; auto. Qed.

Lemma check_plan_nodes_cases K A l :
  (∃ ys, map_result (check_plan_node K A) l = Ok ys) ∨ map_result (check_plan_node K A) l = Err wire_error.
Proof.
  assert (Hone : ∀ n, check_plan_node K A n = Ok tt ∨ check_plan_node K A n = Err wire_error).
  { intros n. unfold check_plan_node. destruct (wire_require_cases (negb (existsb
      (λ d, negb (bool_decide (d ∈ K))) (pn_depends_on n)))) as [-> | ->]; [|by right]. apply wire_require_cases. }
  induction l as [|n l IH]; cbn [map_result]; [left; by eexists|]. destruct (Hone n) as [-> | ->]; [|by right].
  cbn [mbind result_bind]. destruct IH as [[ys ->]| ->]; [left; by eexists|by right].
Qed.

Lemma plan_request_cases r (Hb : ∀ n, n ∈ plq_nodes r → plan_node_init n = Ok n) :
  plan_request_init r = Ok r ∨ plan_request_init r = Err wire_error.
Proof.
  assert (Hdd : ∀ n, n ∈ plq_nodes r → NoDup (pn_depends_on n)) by (intros n Hn; exact (proj1 (proj2 (plan_node_built _ _ (Hb n Hn))))).
  unfold plan_request_init.
  do 2 (match goal with |- context [wire_require ?c] =>
    destruct (wire_require_cases c) as [-> | ->]; cbn [mbind result_bind]; [|by right] end).
  destruct (wire_require_cases (distinct (map pn_node_id (plq_nodes r)))) as [Hd| ->]; [|by right].
  rewrite Hd. apply wire_require_ok, bool_decide_eq_true in Hd. cbn [mbind result_bind].
  destruct (check_plan_nodes_cases (map pn_node_id (plq_nodes r)) (plq_allowed_effects r) (plq_nodes r)) as [[ys ->]| ->];
    [|by right]. cbn [mbind result_bind].
  destruct (check_plan_writers_cases _ Hd Hdd) as [-> | ->]; [by left|by right].
Qed.

Lemma plan_request_accepts r (Hb : ∀ n, n ∈ plq_nodes r → plan_node_init n = Ok n) :
  plan_request_init r = Ok r ↔
     plan_fields_ok r = true ∧ NoDup (map pn_node_id (plq_nodes r))
     ∧ (∀ n, n ∈ plq_nodes r → (∀ d, d ∈ pn_depends_on n → d ∈ map pn_node_id (plq_nodes r))
          ∧ ∀ e, e ∈ pn_effects n → e ∈ plq_allowed_effects r)
     ∧ (¬ ∃ S, stuck (dependencies_of (map as_task (plq_nodes r))) S)
     ∧ ∀ a b, node_writer (plq_nodes r) a → node_writer (plq_nodes r) b → a ≠ b →
         tc (node_depends (plq_nodes r)) a b ∨ tc (node_depends (plq_nodes r)) b a.
Proof.
  assert (Hdd : ∀ n, n ∈ plq_nodes r → NoDup (pn_depends_on n)) by (intros n Hn; exact (proj1 (proj2 (plan_node_built _ _ (Hb n Hn))))).
  unfold plan_request_init.
  rewrite <-check_plan_nodes_ok. split.
  + intros H. apply bind_ok in H as (? & H1%wire_require_ok & H). apply bind_ok in H as (? & H2%wire_require_ok & H).
    apply bind_ok in H as (? & H3%wire_require_ok & H). apply bind_ok in H as (ys & H4 & H).
    apply bind_ok in H as ([] & H5 & _). apply bool_decide_eq_true in H3.
    rewrite (check_plan_writers_spec _ H3 Hdd) in H5.
    split; [by apply plan_fields_split|split; [done|split; [by eexists|done]]].
  + intros (Hf & Hnd & (ys & Hys) & Hw). rewrite <-(check_plan_writers_spec _ Hnd Hdd) in Hw.
    apply plan_fields_split in Hf as [H1 H2]. rewrite H1, H2. unfold distinct. rewrite bool_decide_eq_true_2 by done.
    cbn [negb wire_require raise_if mbind result_bind]. rewrite Hys. cbn [mbind result_bind]. by rewrite Hw.
Qed.

(** C28 (plan_request_exact): a plan request whose nodes are themselves accepted
    is either accepted unchanged or refused with the contract error; it is
    accepted exactly when its fields are bounded, its node identifiers distinct,
    every dependency is a node of the plan and every effect is allowed, no set
    of nodes is stuck waiting, and any two different nodes that write are
    ordered by transitive dependency. *)
Theorem plan_request_exact r (Hb : ∀ n, n ∈ plq_nodes r → plan_node_init n = Ok n) :
  (plan_request_init r = Ok r ∨ plan_request_init r = Err wire_error) ∧
  (plan_request_init r = Ok r ↔
     plan_fields_ok r = true ∧ NoDup (map pn_node_id (plq_nodes r))
     ∧ (∀ n, n ∈ plq_nodes r → (∀ d, d ∈ pn_depends_on n → d ∈ map pn_node_id (plq_nodes r))
          ∧ ∀ e, e ∈ pn_effects n → e ∈ plq_allowed_effects r)
     ∧ (¬ ∃ S, stuck (dependencies_of (map as_task (plq_nodes r))) S)
     ∧ ∀ a b, node_writer (plq_nodes r) a → node_writer (plq_nodes r) b → a ≠ b →
         tc (node_depends (plq_nodes r)) a b ∨ tc (node_depends (plq_nodes r)) b a).
Proof. split; [by apply plan_request_cases|by apply plan_request_accepts]. Qed.
