(* ===== verification/WireWitness.v ===== *)
(** * Plan requests on concrete values: the witnesses *)

From S2P Require Import Prelude PyStr PyFloat Json PyTime Contracts Acceptance PlanCompiler PlanFacts WireContracts WireFacts.
From Stdlib Require Import ZArith Lia Ascii String Sorting.Sorted Sorting.Permutation.
From stdpp Require Import base gmap sets list strings relations.
Local Open Scope Z_scope.

Definition sample_check : AcceptanceCheck := MkAcceptanceCheck "unit" ["pytest"; "-q"] 0.
Definition sample_node (id : string) (depends_on : list string) (writer : bool) : PlanNode :=
  MkPlanNode id "do it" depends_on (MkNodeBudget 10 10 60 5 (if writer then 2 else 0))
    (["repository-read"; "process"] ++ if writer then ["repository-write"] else [])
    (if writer then ["src"] else []) [sample_check].
Definition sample_nodes : list PlanNode :=
  [sample_node "c" ["a"] false; sample_node "b" ["a"] true; sample_node "a" [] true].
Definition sample_commit : string := "0123456789abcdef0123456789abcdef01234567".
Definition sample_plan (nodes : list PlanNode) : PlanRequest :=
  MkPlanRequest "plan-1" "project-1" "intent-1" sample_commit
    ["repository-read"; "process"; "repository-write"] nodes "key-plan" DECLARED.

Lemma sample_nodes_nd : NoDup (map pn_node_id sample_nodes).
Proof. by apply (bool_decide_unpack _). Qed.
Lemma sample_nodes_dd n : n ∈ sample_nodes → NoDup (pn_depends_on n).
Proof. intros H. repeat (apply elem_of_cons in H as [->|H]); [by apply (bool_decide_unpack _)..|by apply elem_of_nil in H]. Qed.
Lemma sample_nodes_built n : n ∈ sample_nodes → plan_node_init n = Ok n.
Proof. intros H. repeat (apply elem_of_cons in H as [->|H]); [vm_compute; reflexivity..|by apply elem_of_nil in H]. Qed.

(** [b] and [c] become ready together; a parallel writer is refused, and so is
    a cycle. *)
Example sample_order : plan_topological_order sample_nodes = Ok ["a"; "b"; "c"].
Proof. vm_compute. reflexivity. Qed.
Example sample_parallel_writers :
  plan_request_init (sample_plan [sample_node "a" [] true; sample_node "b" [] true]) = Err wire_error.
Proof. vm_compute. reflexivity. Qed.
Example sample_cycle :
  plan_topological_order [sample_node "a" ["b"] true; sample_node "b" ["a"] true] = Err wire_error.
Proof. vm_compute. reflexivity. Qed.

Lemma plan_order_least_witness :
  plan_topological_order sample_nodes = Ok ["a"; "b"; "c"]
  ∧ plan_topological_order (rev sample_nodes) = Ok ["a"; "b"; "c"].
Proof.
  split; [vm_compute; reflexivity|].
  rewrite <-(proj1 (plan_order_least sample_nodes sample_nodes_nd sample_nodes_dd) (rev sample_nodes) (Permutation_rev _)).
  vm_compute. reflexivity.
Defined.

Lemma plan_orders_agree_witness :
  is_ok (plan_topological_order sample_nodes) = true ∧ is_ok (_topological_order (map as_task sample_nodes)) = true.
Proof.
  split; [vm_compute; reflexivity|].
  rewrite <-(proj1 (plan_orders_agree sample_nodes sample_nodes_nd sample_nodes_dd)). vm_compute. reflexivity.
Defined.

Lemma plan_request_exact_witness :
  plan_request_init (sample_plan sample_nodes) = Ok (sample_plan sample_nodes)
  ∧ (tc (node_depends sample_nodes) "a" "b" ∨ tc (node_depends sample_nodes) "b" "a").
Proof.
  assert (H : plan_request_init (sample_plan sample_nodes) = Ok (sample_plan sample_nodes)) by (vm_compute; reflexivity).
  split; [exact H|].
  destruct (proj1 (proj2 (plan_request_exact (sample_plan sample_nodes) sample_nodes_built)) H) as (_ & _ & _ & _ & Hw).
  apply (Hw "a" "b"); [| |done].
  - exists (sample_node "a" [] true). split_and!; [do 2 right; by left|done|done].
  - exists (sample_node "b" ["a"] true). split_and!; [right; by left|done|done].
Defined.
