(* ===== verification/Worktree.v ===== *)
(** * adapters/execution/worktree.py: leases, specifications and observations of a checkout

    The identities a claim, an inspection and a removal carry, their validation
    and their durable payloads.  What the file system answers about the two
    roots is a parameter ([repository_ok]: the path is no symbolic link and
    resolves to itself, a directory; [isolation_ok]: it is, or can become, an
    owner-only directory); the git commands themselves are not modelled.
    Payloads are read as the JSON object they were stored as. *)

From S2P Require Import Prelude PyStr PyFloat Sha256 Json JsonText JsonFacts PyTime Contracts Events RunLifecycle.
From Stdlib Require Import ZArith Lia Ascii String.
From stdpp Require Import base gmap sets list strings.
Local Open Scope Z_scope.

Definition WORKTREE_LEASE_SCHEMA : string := "blackcell.worktree-lease/v1".
Definition WORKTREE_SPEC_SCHEMA : string := "blackcell.worktree-spec/v1".
Definition WORKTREE_INSPECTION_SCHEMA : string := "blackcell.worktree-inspection/v1".
Definition WORKTREE_REMOVAL_SCHEMA : string := "blackcell.worktree-removal/v1".
Definition _MAX_ALLOWED_PATHS : Z := 256.
Definition _MAX_CHANGED_PATHS : Z := 10000.
Definition _MAX_REPOSITORY_PATH_CHARS : Z := 4096.

(** [WorktreeFailureCode] *)
Definition INVALID_SPEC : exn := WorktreeLifecycleError "invalid-worktree-spec".
Definition INVALID_REPOSITORY : exn := WorktreeLifecycleError "invalid-worktree-repository".
Definition INVALID_ISOLATION_ROOT : exn := WorktreeLifecycleError "invalid-worktree-isolation-root".
Definition INVALID_GIT_OUTPUT : exn := WorktreeLifecycleError "invalid-worktree-git-output".
Definition WORKTREE_NOT_FOUND : string := "worktree-not-found".
Definition BASE_COMMIT_NOT_FOUND : string := "worktree-base-commit-not-found".

(** [[A-Za-z0-9][A-Za-z0-9._-]{0,127}\Z] *)
Definition lease_IDENTIFIER (s : string) : bool :=
  re_first_rest is_alnum (λ a, is_alnum a || is_one_of "._-" a) 127 s.

(** ** Paths *)

Definition _normalize_repository_path (value : string) : result string :=
  _ ← raise_if (is_empty value || (_MAX_REPOSITORY_PATH_CHARS <? py_len value)
                || contains nul value || contains backslash value) INVALID_SPEC;
  _ ← raise_if (is_absolute value || negb (bool_decide (path_str value = value))
                || existsb (λ part, bool_decide (part ∈ [""; "."; ".."])) (posix_parts value)
                || bool_decide (".git" ∈ posix_parts value)) INVALID_SPEC;
  Ok value.
Definition _normalize_policy_path (value : string) : result string :=
  if bool_decide (value = ".") then Ok value else _normalize_repository_path value.
Definition _normalize_evidence_path (value : string) : result string :=
  reraise INVALID_GIT_OUTPUT (_normalize_repository_path value).

Definition _path_is_allowed (path : string) (allowed_paths : list string) : bool :=
  existsb (λ allowed, bool_decide (allowed = ".") || bool_decide (path = allowed)
                      || starts_with (allowed +:+ "/") path) allowed_paths.

(** [a.is_relative_to(b)] *)
Definition is_relative_to (a b : string) : bool :=
  bool_decide (posix_parse a = posix_parse b) || bool_decide (posix_parse b ∈ posix_parents a).

(** ** Leases *)

Record WorktreeLeaseIdentity := MkLeaseIdentity {
  wl_run_id : string;
  wl_node_id : string;
  wl_attempt : Z;
  wl_fencing_token : Z;
  wl_worker_id : string
}.
#[export] Instance lease_identity_eq_dec : EqDecision WorktreeLeaseIdentity.
Proof. solve_decision. Defined.

Definition lease_identity_init (l : WorktreeLeaseIdentity) : result WorktreeLeaseIdentity :=
  _ ← raise_if (negb (forallb lease_IDENTIFIER [wl_run_id l; wl_node_id l; wl_worker_id l])) INVALID_SPEC;
  _ ← raise_if ((wl_attempt l <? 1) || (wl_fencing_token l <? 1)) INVALID_SPEC;
  Ok l.

Definition lease_fields (l : WorktreeLeaseIdentity) : list (string * pyval) :=
  [("schema_version", PStr WORKTREE_LEASE_SCHEMA); ("run_id", PStr (wl_run_id l));
   ("node_id", PStr (wl_node_id l)); ("attempt", PInt (wl_attempt l));
   ("fencing_token", PInt (wl_fencing_token l)); ("worker_id", PStr (wl_worker_id l))].
Definition lease_digest (l : WorktreeLeaseIdentity) : result string := json_digest (obj (lease_fields l)).

(** ** Specifications *)

Record WorktreeExecutionSpec := MkSpec {
  ws_lease : WorktreeLeaseIdentity;
  ws_repository_root : string;
  ws_isolation_root : string;
  ws_base_commit : string;
  ws_allowed_paths : list string;
  ws_max_changed_paths : Z
}.
#[export] Instance worktree_spec_eq_dec : EqDecision WorktreeExecutionSpec.
Proof. solve_decision. Defined.

Section FileSystem.
Context (repository_ok isolation_ok : string → bool).

Definition _canonical_repository_root (path : string) : result string :=
  _ ← raise_if (negb (is_absolute path && repository_ok path)) INVALID_REPOSITORY; Ok path.
Definition _canonical_isolation_root (path : string) : result string :=
  _ ← raise_if (negb (is_absolute path && isolation_ok path)) INVALID_ISOLATION_ROOT; Ok path.

Definition worktree_spec_init (s : WorktreeExecutionSpec) : result WorktreeExecutionSpec :=
  repository_root ← _canonical_repository_root (ws_repository_root s);
  isolation_root ← _canonical_isolation_root (ws_isolation_root s);
  _ ← raise_if (is_relative_to repository_root isolation_root || is_relative_to isolation_root repository_root)
        INVALID_ISOLATION_ROOT;
  _ ← raise_if (negb (re_commit (ws_base_commit s))) INVALID_SPEC;
  _ ← raise_if (_MAX_ALLOWED_PATHS <? zlen (ws_allowed_paths s)) INVALID_SPEC;
  paths ← map_result _normalize_policy_path (ws_allowed_paths s);
  _ ← raise_if (negb (distinct paths)) INVALID_SPEC;
  _ ← raise_if (negb (z_between 0 (ws_max_changed_paths s) _MAX_CHANGED_PATHS)) INVALID_SPEC;
  Ok (MkSpec (ws_lease s) repository_root isolation_root (ws_base_commit s) (sort_strings paths)
        (ws_max_changed_paths s)).

Definition worktree_spec_digest (s : WorktreeExecutionSpec) : result string :=
  lease ← lease_digest (ws_lease s);
  json_digest (obj
    [("schema_version", PStr WORKTREE_SPEC_SCHEMA); ("lease_digest", PStr lease);
     ("repository_root", PStr (ws_repository_root s)); ("isolation_root", PStr (ws_isolation_root s));
     ("base_commit", PStr (ws_base_commit s)); ("allowed_paths", pstrs (ws_allowed_paths s));
     ("max_changed_paths", PInt (ws_max_changed_paths s))]).

(** The path and the branch of the checkout, from the specification's digest. *)
Definition worktree_path (s : WorktreeExecutionSpec) : result string :=
  digest ← worktree_spec_digest s;
  Ok (path_div (ws_isolation_root s) ("worktree-" +:+ remove_prefix "sha256:" digest)).
Definition branch_name (s : WorktreeExecutionSpec) : result string :=
  digest ← worktree_spec_digest s;
  Ok ("blackcell/execution-worktree/" +:+ remove_prefix "sha256:" digest).

Definition worktree_execution_spec_payload (s : WorktreeExecutionSpec) : result pyval :=
  lease ← lease_digest (ws_lease s);
  Ok (obj
    [("schema_version", PStr WORKTREE_SPEC_SCHEMA); ("lease_digest", PStr lease);
     ("lease", obj (lease_fields (ws_lease s)));
     ("repository_root", PStr (ws_repository_root s)); ("isolation_root", PStr (ws_isolation_root s));
     ("base_commit", PStr (ws_base_commit s)); ("allowed_paths", pstrs (ws_allowed_paths s));
     ("max_changed_paths", PInt (ws_max_changed_paths s))]).

(** *** Reading payloads *)

Definition _payload_text (code : exn) (value : json) : result string :=
  match value with JStr s => Ok s | _ => Err code end.
Definition _payload_integer (code : exn) (value : json) : result Z :=
  match value with JInt z => Ok z | _ => Err code end.
Definition _payload_text_sequence (code : exn) (value : json) : result (list string) :=
  match value with JArr l => map_result (_payload_text code) l | _ => Err code end.
Definition _payload_boolean (value : json) : result bool :=
  match value with JBool b => Ok b | _ => Err INVALID_GIT_OUTPUT end.

Definition lease_keys : list string :=
  ["schema_version"; "run_id"; "node_id"; "attempt"; "fencing_token"; "worker_id"].
Definition spec_keys : list string :=
  ["schema_version"; "lease_digest"; "lease"; "repository_root"; "isolation_root"; "base_commit";
   "allowed_paths"; "max_changed_paths"].

Definition worktree_execution_spec_from_mapping (value : jobject) : result WorktreeExecutionSpec :=
  _ ← raise_if (negb (has_exactly value spec_keys)) INVALID_SPEC;
  raw_lease ← as_mapping INVALID_SPEC (jget "lease" value);
  _ ← raise_if (negb (has_exactly raw_lease lease_keys)) INVALID_SPEC;
  _ ← raise_if (match jget "allowed_paths" value with JArr _ => false | _ => true end) INVALID_SPEC;
  _ ← raise_if (negb (is_str (jget "schema_version" raw_lease) WORKTREE_LEASE_SCHEMA
                      && is_str (jget "schema_version" value) WORKTREE_SPEC_SCHEMA)) INVALID_SPEC;
  allowed_paths ← _payload_text_sequence INVALID_SPEC (jget "allowed_paths" value);
  run_id ← _payload_text INVALID_SPEC (jget "run_id" raw_lease);
  node_id ← _payload_text INVALID_SPEC (jget "node_id" raw_lease);
  attempt ← _payload_integer INVALID_SPEC (jget "attempt" raw_lease);
  fencing_token ← _payload_integer INVALID_SPEC (jget "fencing_token" raw_lease);
  worker_id ← _payload_text INVALID_SPEC (jget "worker_id" raw_lease);
  lease ← lease_identity_init (MkLeaseIdentity run_id node_id attempt fencing_token worker_id);
  digest ← lease_digest lease;
  _ ← raise_if (negb (is_str (jget "lease_digest" value) digest)) INVALID_SPEC;
  repository_root ← _payload_text INVALID_SPEC (jget "repository_root" value);
  isolation_root ← _payload_text INVALID_SPEC (jget "isolation_root" value);
  base_commit ← _payload_text INVALID_SPEC (jget "base_commit" value);
  max_changed_paths ← _payload_integer INVALID_SPEC (jget "max_changed_paths" value);
  worktree_spec_init (MkSpec lease (path_str repository_root) (path_str isolation_root) base_commit allowed_paths
                        max_changed_paths).
End FileSystem.

(** ** Inspections *)

Record WorktreeInspection := MkInspection {
  wi_spec_digest : string;
  wi_lease_digest : string;
  wi_worktree_path : string;
  wi_branch_name : string;
  wi_base_commit : string;
  wi_head_commit : string;
  wi_allowed_paths : list string;
  wi_max_changed_paths : Z;
  wi_changed_paths : list string;
  wi_uncommitted_paths : list string;
  wi_out_of_scope_paths : list string;
  wi_changed_path_limit_exceeded : bool
}.

Definition branch_prefix : string := "blackcell/execution-worktree/".

Definition worktree_inspection_init (i : WorktreeInspection) : result WorktreeInspection :=
  _ ← raise_if (negb (re_digest (wi_spec_digest i) && re_digest (wi_lease_digest i) && is_absolute (wi_worktree_path i)
                      && starts_with branch_prefix (wi_branch_name i)
                      && re_commit (wi_base_commit i) && re_commit (wi_head_commit i))) INVALID_GIT_OUTPUT;
  _ ← raise_if (existsb (λ paths, negb (bool_decide (paths = sorted_set paths)))
        [wi_allowed_paths i; wi_changed_paths i; wi_uncommitted_paths i; wi_out_of_scope_paths i]) INVALID_GIT_OUTPUT;
  _ ← map_result _normalize_evidence_path (wi_changed_paths i);
  _ ← map_result _normalize_evidence_path (wi_uncommitted_paths i);
  allowed ← reraise INVALID_GIT_OUTPUT (map_result _normalize_policy_path (wi_allowed_paths i));
  _ ← raise_if (negb (bool_decide (wi_allowed_paths i = sort_strings allowed))) INVALID_GIT_OUTPUT;
  _ ← raise_if (negb (z_between 0 (wi_max_changed_paths i) _MAX_CHANGED_PATHS)) INVALID_GIT_OUTPUT;
  _ ← raise_if (negb (bool_decide (wi_out_of_scope_paths i
          = List.filter (λ path, negb (_path_is_allowed path (wi_allowed_paths i))) (wi_changed_paths i)))
        || negb (Bool.eqb (wi_changed_path_limit_exceeded i)
                   (wi_max_changed_paths i <? zlen (wi_changed_paths i)))) INVALID_GIT_OUTPUT;
  Ok i.

Definition wi_clean (i : WorktreeInspection) : bool := bool_decide (wi_uncommitted_paths i = []).
Definition path_policy_compliant (i : WorktreeInspection) : bool :=
  bool_decide (wi_out_of_scope_paths i = []) && negb (wi_changed_path_limit_exceeded i).

Definition inspection_keys : list string :=
  ["schema_version"; "spec_digest"; "lease_digest"; "worktree_path"; "branch_name"; "base_commit"; "head_commit";
   "allowed_paths"; "max_changed_paths"; "changed_paths"; "uncommitted_paths"; "out_of_scope_paths";
   "changed_path_limit_exceeded"].

Definition worktree_inspection_payload (i : WorktreeInspection) : pyval :=
  obj [("schema_version", PStr WORKTREE_INSPECTION_SCHEMA); ("spec_digest", PStr (wi_spec_digest i));
       ("lease_digest", PStr (wi_lease_digest i)); ("worktree_path", PStr (wi_worktree_path i));
       ("branch_name", PStr (wi_branch_name i)); ("base_commit", PStr (wi_base_commit i));
       ("head_commit", PStr (wi_head_commit i)); ("allowed_paths", pstrs (wi_allowed_paths i));
       ("max_changed_paths", PInt (wi_max_changed_paths i)); ("changed_paths", pstrs (wi_changed_paths i));
       ("uncommitted_paths", pstrs (wi_uncommitted_paths i)); ("out_of_scope_paths", pstrs (wi_out_of_scope_paths i));
       ("changed_path_limit_exceeded", PBool (wi_changed_path_limit_exceeded i))].

Definition worktree_inspection_from_mapping (value : jobject) : result WorktreeInspection :=
  let text field := _payload_text INVALID_GIT_OUTPUT (jget field value) in
  let texts field := _payload_text_sequence INVALID_GIT_OUTPUT (jget field value) in
  _ ← raise_if (negb (has_exactly value inspection_keys)) INVALID_GIT_OUTPUT;
  _ ← raise_if (negb (is_str (jget "schema_version" value) WORKTREE_INSPECTION_SCHEMA)) INVALID_GIT_OUTPUT;
  spec_digest ← text "spec_digest"; lease_digest ← text "lease_digest";
  worktree_path ← text "worktree_path"; branch_name ← text "branch_name";
  base_commit ← text "base_commit"; head_commit ← text "head_commit";
  allowed_paths ← texts "allowed_paths";
  max_changed_paths ← _payload_integer INVALID_GIT_OUTPUT (jget "max_changed_paths" value);
  changed_paths ← texts "changed_paths"; uncommitted_paths ← texts "uncommitted_paths";
  out_of_scope_paths ← texts "out_of_scope_paths";
  exceeded ← _payload_boolean (jget "changed_path_limit_exceeded" value);
  worktree_inspection_init (MkInspection spec_digest lease_digest (path_str worktree_path) branch_name base_commit
    head_commit allowed_paths max_changed_paths changed_paths uncommitted_paths out_of_scope_paths exceeded).

(** ** Removals *)

Record WorktreeRemoval := MkRemoval {
  wr_spec_digest : string;
  wr_lease_digest : string;
  wr_worktree_path : string;
  wr_branch_name : string;
  wr_retained_head_commit : string
}.
Definition worktree_removal_init (r : WorktreeRemoval) : result WorktreeRemoval :=
  _ ← raise_if (negb (re_digest (wr_spec_digest r) && re_digest (wr_lease_digest r) && is_absolute (wr_worktree_path r)
                      && starts_with branch_prefix (wr_branch_name r) && re_commit (wr_retained_head_commit r)))
        INVALID_GIT_OUTPUT;
  Ok r.
Definition removal_keys : list string :=
  ["schema_version"; "spec_digest"; "lease_digest"; "worktree_path"; "branch_name"; "retained_head_commit";
   "disposition"].
Definition worktree_removal_payload (r : WorktreeRemoval) : pyval :=
  obj [("schema_version", PStr WORKTREE_REMOVAL_SCHEMA); ("spec_digest", PStr (wr_spec_digest r));
       ("lease_digest", PStr (wr_lease_digest r)); ("worktree_path", PStr (wr_worktree_path r));
       ("branch_name", PStr (wr_branch_name r)); ("retained_head_commit", PStr (wr_retained_head_commit r));
       ("disposition", PStr "removed")].
Definition worktree_removal_from_mapping (value : jobject) : result WorktreeRemoval :=
  let text field := _payload_text INVALID_GIT_OUTPUT (jget field value) in
  _ ← raise_if (negb (has_exactly value removal_keys)) INVALID_GIT_OUTPUT;
  _ ← raise_if (negb (is_str (jget "schema_version" value) WORKTREE_REMOVAL_SCHEMA
                      && is_str (jget "disposition" value) "removed")) INVALID_GIT_OUTPUT;
  spec_digest ← text "spec_digest"; lease_digest ← text "lease_digest";
  worktree_path ← text "worktree_path"; branch_name ← text "branch_name";
  head ← text "retained_head_commit";
  worktree_removal_init (MkRemoval spec_digest lease_digest (path_str worktree_path) branch_name head).
