(* ===== verification/WorktreeFacts.v ===== *)
(** * Worktree payloads read back, and what an observation in policy means *)

From S2P Require Import Prelude PyStr PyFloat Sha256 Json JsonText JsonFacts PyTime Contracts Events RunLifecycle PlanFacts Worktree.
From Stdlib Require Import ZArith Lia Ascii String.
From stdpp Require Import base gmap sets list strings.
Local Open Scope Z_scope.

(** ** Payloads as JSON *)

Definition json_strings (l : list string) : json := JArr (map JStr l).
Lemma thaw_strings l : thaw_json (json_strings l) = pstrs l.
Proof. unfold pstrs, json_strings. cbn. by rewrite map_map. Qed.
Lemma json_strings_wf l : json_wf (json_strings l) = true.
Proof. cbn. induction l; [done|]. by cbn. Qed.
Lemma read_strings code l : _payload_text_sequence code (json_strings l) = Ok l.
Proof. cbn. induction l as [|x l IH]; [done|]. cbn. by rewrite IH. Qed.

Definition lease_json (l : WorktreeLeaseIdentity) : json :=
  JObj [("schema_version", JStr WORKTREE_LEASE_SCHEMA); ("run_id", JStr (wl_run_id l));
        ("node_id", JStr (wl_node_id l)); ("attempt", JInt (wl_attempt l));
        ("fencing_token", JInt (wl_fencing_token l)); ("worker_id", JStr (wl_worker_id l))].
Definition spec_json (s : WorktreeExecutionSpec) (lease : string) : jobject :=
  [("schema_version", JStr WORKTREE_SPEC_SCHEMA); ("lease_digest", JStr lease); ("lease", lease_json (ws_lease s));
   ("repository_root", JStr (ws_repository_root s)); ("isolation_root", JStr (ws_isolation_root s));
   ("base_commit", JStr (ws_base_commit s)); ("allowed_paths", json_strings (ws_allowed_paths s));
   ("max_changed_paths", JInt (ws_max_changed_paths s))].
Definition inspection_json (i : WorktreeInspection) : jobject :=
  [("schema_version", JStr WORKTREE_INSPECTION_SCHEMA); ("spec_digest", JStr (wi_spec_digest i));
   ("lease_digest", JStr (wi_lease_digest i)); ("worktree_path", JStr (wi_worktree_path i));
   ("branch_name", JStr (wi_branch_name i)); ("base_commit", JStr (wi_base_commit i));
   ("head_commit", JStr (wi_head_commit i)); ("allowed_paths", json_strings (wi_allowed_paths i));
   ("max_changed_paths", JInt (wi_max_changed_paths i)); ("changed_paths", json_strings (wi_changed_paths i));
   ("uncommitted_paths", json_strings (wi_uncommitted_paths i));
   ("out_of_scope_paths", json_strings (wi_out_of_scope_paths i));
   ("changed_path_limit_exceeded", JBool (wi_changed_path_limit_exceeded i))].

Lemma spec_json_wf s lease : json_wf (JObj (spec_json s lease)) = true.
Proof.
  change (obj_wf (spec_json s lease) = true). apply obj_wf_spec.
  split; [by apply (bool_decide_unpack _)|]. repeat constructor. apply json_strings_wf.
Qed.
Lemma inspection_json_wf i : json_wf (JObj (inspection_json i)) = true.
Proof.
  change (obj_wf (inspection_json i) = true). apply obj_wf_spec.
  split; [by apply (bool_decide_unpack _)|]. repeat constructor; apply json_strings_wf.
Qed.

Lemma spec_payload_json s p : worktree_execution_spec_payload s = Ok p →
  ∃ lease, lease_digest (ws_lease s) = Ok lease ∧ p = thaw_json (JObj (spec_json s lease)).
Proof.
  unfold worktree_execution_spec_payload. intros H. apply bind_ok in H as (lease & Hl & [= <-]). exists lease. split; [done|].
  unfold spec_json. cbn -[json_strings]. by rewrite thaw_strings.
Qed.
Lemma inspection_payload_json i : worktree_inspection_payload i = thaw_json (JObj (inspection_json i)).
Proof. unfold worktree_inspection_payload, inspection_json. cbn -[json_strings]. by rewrite !thaw_strings. Qed.

(** ** Canonical specifications *)

Section Specs.
Context (repository_ok isolation_ok : string → bool).

Lemma normalize_ok p q : _normalize_policy_path p = Ok q → q = p.
Proof.
  unfold _normalize_policy_path, _normalize_repository_path. case_bool_decide as E; [by intros [= ->]|]. clear E.
  intros H. apply bind_ok in H as (? & _ & H). by apply bind_ok in H as (? & _ & [= <-]).
Qed.
Lemma normalize_all_ok l k : map_result _normalize_policy_path l = Ok k → k = l.
Proof. intros H%map_result_ok. induction H as [|p q l k Hp _ IH]; [done|]. apply normalize_ok in Hp as ->. by rewrite IH. Qed.

(** What the constructor returns it accepts again, unchanged. *)
Lemma spec_init_ok s0 s : worktree_spec_init repository_ok isolation_ok s0 = Ok s →
  worktree_spec_init repository_ok isolation_ok s = Ok s ∧ ws_lease s = ws_lease s0 ∧ sort_strings (ws_allowed_paths s) = ws_allowed_paths s.
Proof.
  unfold worktree_spec_init, _canonical_repository_root, _canonical_isolation_root. intros H.
  apply bind_ok in H as (r & Hr & H). apply bind_ok in Hr as (? & Hr & [= <-]).
  apply bind_ok in H as (i & Hi & H). apply bind_ok in Hi as (? & Hi & [= <-]).
  apply bind_ok in H as (? & Hdis & H). apply bind_ok in H as (? & Hc & H). apply bind_ok in H as (? & Hlen & H).
  apply bind_ok in H as (ps & Hps & H). apply bind_ok in H as (? & Hd & H). apply bind_ok in H as (? & Hm & [= <-]).
  assert (E := normalize_all_ok _ _ Hps). subst ps. cbn. split; [|split; [done|apply sort_strings_idemp]].
  rewrite Hr, Hi. cbn [mbind result_bind]. rewrite Hdis. cbn [mbind result_bind]. rewrite Hc. cbn [mbind result_bind].
  assert (Hperm : sort_strings (ws_allowed_paths s0) ≡ₚ ws_allowed_paths s0) by (unfold sort_strings; apply isort_perm).
  replace (zlen (sort_strings (ws_allowed_paths s0))) with (zlen (ws_allowed_paths s0)) by (unfold zlen; by rewrite Hperm).
  rewrite Hlen. cbn [mbind result_bind].
  assert (map_result _normalize_policy_path (sort_strings (ws_allowed_paths s0)) = Ok (sort_strings (ws_allowed_paths s0))) as ->.
  { apply map_result_ok. apply map_result_ok in Hps. apply Forall2_same_length_lookup. split; [done|]. intros k p q Hp Hq.
    rewrite Hp in Hq. injection Hq as <-. apply list_elem_of_lookup_2 in Hp. rewrite Hperm in Hp.
    apply list_elem_of_lookup in Hp as [j Hj]. destruct (Forall2_lookup_l _ _ _ _ _ Hps Hj) as (q & Hq & Hpq).
    rewrite Hj in Hq. by injection Hq as <-. }
  cbn [mbind result_bind]. unfold distinct in *.
  rewrite (bool_decide_ext (NoDup (sort_strings (ws_allowed_paths s0))) (NoDup (ws_allowed_paths s0))) by by rewrite Hperm.
  rewrite Hd. cbn [mbind result_bind]. rewrite Hm. cbn [mbind result_bind]. by rewrite sort_strings_idemp.
Qed.

Lemma lease_eta l : MkLeaseIdentity (wl_run_id l) (wl_node_id l) (wl_attempt l) (wl_fencing_token l) (wl_worker_id l) = l.
Proof. by destruct l. Qed.
Lemma spec_eta s : MkSpec (ws_lease s) (ws_repository_root s) (ws_isolation_root s) (ws_base_commit s) (ws_allowed_paths s)
  (ws_max_changed_paths s) = s.
Proof. by destruct s. Qed.

Lemma read_spec s lease : worktree_spec_init repository_ok isolation_ok s = Ok s → lease_identity_init (ws_lease s) = Ok (ws_lease s) →
  lease_digest (ws_lease s) = Ok lease → path_str (ws_repository_root s) = ws_repository_root s →
  path_str (ws_isolation_root s) = ws_isolation_root s →
  worktree_execution_spec_from_mapping repository_ok isolation_ok (spec_json s lease) = Ok s.
Proof.
  intros Hs Hl Hd Hr Hi. unfold worktree_execution_spec_from_mapping.
  change (has_exactly (spec_json s lease) spec_keys) with true.
  change (jget "lease" (spec_json s lease)) with (lease_json (ws_lease s)).
  change (jget "allowed_paths" (spec_json s lease)) with (json_strings (ws_allowed_paths s)).
  change (jget "repository_root" (spec_json s lease)) with (JStr (ws_repository_root s)).
  change (jget "isolation_root" (spec_json s lease)) with (JStr (ws_isolation_root s)).
  change (jget "base_commit" (spec_json s lease)) with (JStr (ws_base_commit s)).
  change (jget "max_changed_paths" (spec_json s lease)) with (JInt (ws_max_changed_paths s)).
  change (jget "lease_digest" (spec_json s lease)) with (JStr lease).
  change (jget "schema_version" (spec_json s lease)) with (JStr WORKTREE_SPEC_SCHEMA).
  cbn [negb raise_if mbind result_bind as_mapping lease_json _payload_text _payload_integer]. rewrite read_strings.
  match goal with |- context [has_exactly ?r lease_keys] => set (raw := r) end.
  change (has_exactly raw lease_keys) with true. change (jget "run_id" raw) with (JStr (wl_run_id (ws_lease s))).
  change (jget "node_id" raw) with (JStr (wl_node_id (ws_lease s))).
  change (jget "attempt" raw) with (JInt (wl_attempt (ws_lease s))).
  change (jget "fencing_token" raw) with (JInt (wl_fencing_token (ws_lease s))).
  change (jget "worker_id" raw) with (JStr (wl_worker_id (ws_lease s))).
  change (jget "schema_version" raw) with (JStr WORKTREE_LEASE_SCHEMA).
  cbn [negb raise_if mbind result_bind json_strings _payload_text _payload_integer].
  unfold is_str. change (py_eq (JStr WORKTREE_LEASE_SCHEMA) (JStr WORKTREE_LEASE_SCHEMA)) with true.
  change (py_eq (JStr WORKTREE_SPEC_SCHEMA) (JStr WORKTREE_SPEC_SCHEMA)) with true.
  cbn [andb negb raise_if mbind result_bind].
  rewrite lease_eta, Hl. cbn [mbind result_bind]. rewrite Hd. cbn [mbind result_bind]. rewrite py_eq_refl by done.
  cbn [negb raise_if mbind result_bind]. by rewrite Hr, Hi, spec_eta.
Qed.
End Specs.

(** ** Observations *)

Lemma inspection_eta i : MkInspection (wi_spec_digest i) (wi_lease_digest i) (wi_worktree_path i) (wi_branch_name i)
  (wi_base_commit i) (wi_head_commit i) (wi_allowed_paths i) (wi_max_changed_paths i) (wi_changed_paths i)
  (wi_uncommitted_paths i) (wi_out_of_scope_paths i) (wi_changed_path_limit_exceeded i) = i.
Proof. by destruct i. Qed.

Lemma read_inspection i : worktree_inspection_init i = Ok i → path_str (wi_worktree_path i) = wi_worktree_path i →
  worktree_inspection_from_mapping (inspection_json i) = Ok i.
Proof.
  intros Hi Hp. unfold worktree_inspection_from_mapping.
  change (has_exactly (inspection_json i) inspection_keys) with true.
  change (jget "schema_version" (inspection_json i)) with (JStr WORKTREE_INSPECTION_SCHEMA).
  unfold is_str. change (py_eq (JStr WORKTREE_INSPECTION_SCHEMA) (JStr WORKTREE_INSPECTION_SCHEMA)) with true.
  change (jget "spec_digest" (inspection_json i)) with (JStr (wi_spec_digest i)).
  change (jget "lease_digest" (inspection_json i)) with (JStr (wi_lease_digest i)).
  change (jget "worktree_path" (inspection_json i)) with (JStr (wi_worktree_path i)).
  change (jget "branch_name" (inspection_json i)) with (JStr (wi_branch_name i)).
  change (jget "base_commit" (inspection_json i)) with (JStr (wi_base_commit i)).
  change (jget "head_commit" (inspection_json i)) with (JStr (wi_head_commit i)).
  change (jget "allowed_paths" (inspection_json i)) with (json_strings (wi_allowed_paths i)).
  change (jget "max_changed_paths" (inspection_json i)) with (JInt (wi_max_changed_paths i)).
  change (jget "changed_paths" (inspection_json i)) with (json_strings (wi_changed_paths i)).
  change (jget "uncommitted_paths" (inspection_json i)) with (json_strings (wi_uncommitted_paths i)).
  change (jget "out_of_scope_paths" (inspection_json i)) with (json_strings (wi_out_of_scope_paths i)).
  change (jget "changed_path_limit_exceeded" (inspection_json i)) with (JBool (wi_changed_path_limit_exceeded i)).
  cbn [negb raise_if mbind result_bind _payload_text _payload_integer _payload_boolean].
  rewrite !read_strings. cbn [mbind result_bind]. by rewrite Hp, inspection_eta.
Qed.

(** A path inside one of the allowed ones. *)
Definition inside (allowed : list string) (p : string) : Prop :=
  ∃ a, a ∈ allowed ∧ (a = "." ∨ p = a ∨ starts_with (a +:+ "/") p = true).

Lemma path_is_allowed_spec p allowed : _path_is_allowed p allowed = true ↔ inside allowed p.
Proof.
  unfold _path_is_allowed, inside. rewrite existsb_elem. setoid_rewrite orb_true_iff. setoid_rewrite orb_true_iff.
  setoid_rewrite bool_decide_eq_true. split; intros (a & Ha & Hc); exists a; (split; [done|]); tauto.
Qed.

Lemma inspection_compliant i i' : worktree_inspection_init i = Ok i' →
  i' = i ∧ (path_policy_compliant i = true ↔
    (∀ p, p ∈ wi_changed_paths i → inside (wi_allowed_paths i) p) ∧ zlen (wi_changed_paths i) <= wi_max_changed_paths i).
Proof.
  unfold worktree_inspection_init. intros Hi. do 4 (apply bind_ok in Hi as (? & _ & Hi)).
  apply bind_ok in Hi as (allowed & _ & Hi). do 2 (apply bind_ok in Hi as (? & _ & Hi)).
  apply bind_ok in Hi as (? & Hs & [= <-]). split; [done|]. apply raise_if_ok, orb_false_iff in Hs as [Hs Hm].
  apply negb_false_iff, bool_decide_eq_true in Hs. apply negb_false_iff, eqb_prop in Hm.
  unfold path_policy_compliant. rewrite Hs, Hm, andb_true_iff, bool_decide_eq_true, negb_true_iff, Z.ltb_ge.
  assert (E : List.filter (λ p, negb (_path_is_allowed p (wi_allowed_paths i))) (wi_changed_paths i) = []
    ↔ ∀ p, p ∈ wi_changed_paths i → inside (wi_allowed_paths i) p); [|by rewrite E].
  clear Hs Hm. setoid_rewrite <-path_is_allowed_spec. induction (wi_changed_paths i) as [|p l IH]; cbn [List.filter].
  - split; [by intros _ p ?%elem_of_nil|done].
  - setoid_rewrite elem_of_cons. destruct (_path_is_allowed p (wi_allowed_paths i)) eqn:E; cbn [negb].
    + rewrite IH. split; [intros Hall q [->|Hq]; [exact E|by apply Hall]|intros Hall q Hq; apply Hall; by right].
    + split; [done|]. intros Hall. rewrite Hall in E by by left. done.
Qed.

(** ** Properties *)

(** C32 (worktree_payload_roundtrip): what a claim and an observation store in the
    ledger is what a restarted service reads: a specification the constructor
    returned, with a valid lease, and an observation the constructor accepted are
    read back from their durable payloads exactly, the digests and the canonical
    order of the paths included.  (The roots and the checkout's path are written
    as a Path writes itself.) *)
Theorem worktree_payload_roundtrip repository_ok isolation_ok :
  (∀ s0 s p kvs, worktree_spec_init repository_ok isolation_ok s0 = Ok s → lease_identity_init (ws_lease s) = Ok (ws_lease s) →
     path_str (ws_repository_root s) = ws_repository_root s → path_str (ws_isolation_root s) = ws_isolation_root s →
     worktree_execution_spec_payload s = Ok p → freeze_json "$" p = Ok (JObj kvs) →
     worktree_execution_spec_from_mapping repository_ok isolation_ok kvs = Ok s)
  ∧ ∀ i kvs, worktree_inspection_init i = Ok i → path_str (wi_worktree_path i) = wi_worktree_path i →
     freeze_json "$" (worktree_inspection_payload i) = Ok (JObj kvs) → worktree_inspection_from_mapping kvs = Ok i.
Proof.
  split.
  - intros s0 s p kvs (Hs & _ & _)%spec_init_ok Hl Hr Hi (lease & Hd & ->)%spec_payload_json Hf.
    rewrite freeze_thaw in Hf by apply spec_json_wf. injection Hf as <-. by apply read_spec.
  - intros i kvs Hi Hp Hf. rewrite inspection_payload_json, freeze_thaw in Hf by apply inspection_json_wf.
    injection Hf as <-. by apply read_inspection.
Qed.
