(* ===== verification/RuntimeService.v ===== *)
(** * bootstrap/runtime_service.py: the application boundary over the ledger

    Projects, intents, plans and runs are accepted as immutable events; a run is
    loaded by checking its references, folding its lifecycle and replaying its
    execution, and read back as bounded responses.  An operation is a transaction
    on the ledger ([txn]); the clock and the identifier of a new event are
    arguments ([occasion]), and [race] is what other writers commit between the
    moment an operation reads a stream and the moment it appends to it.

    Parameters: what the file system answers about the roots ([resolve_root],
    [directory], and [repository_ok], [isolation_ok] of Worktree.v), the storage
    quota ([capacity]), git's retention of a base commit ([retain_base]), and
    msgspec's conversions between contracts and built-in values ([Contract]). *)

From S2P Require Import Prelude PyStr PyFloat Sha256 Json JsonText JsonFacts PyTime Contracts Events EventStore Projections.
From S2P Require Import RunLifecycle ReviewLifecycle VerificationLifecycle Gateway PlanCompiler AttemptPolicy Review.
From S2P Require Import ExecutionRuntime RunJournal WireContracts Worktree.
From Stdlib Require Import ZArith Lia Ascii String.
From stdpp Require Import base gmap sets list strings.
Local Open Scope Z_scope.

Definition _PROJECT_REGISTERED : string := "project.registered".
Definition _INTENT_ACCEPTED : string := "intent.accepted".
Definition _PLAN_ACCEPTED : string := "plan.accepted".
Definition _RUNTIME_EVENT_TYPES : list string :=
  [_PROJECT_REGISTERED; _INTENT_ACCEPTED; _PLAN_ACCEPTED]
  ++ RUN_EVENT_TYPES ++ REVIEW_EVENT_TYPES ++ VERIFICATION_EVENT_TYPES.

(** [RuntimeApiFailureCode] *)
Definition invalid_request : exn := RuntimeApiError "invalid-request".
Definition not_found : exn := RuntimeApiError "not-found".
Definition conflict : exn := RuntimeApiError "conflict".
Definition not_ready : exn := RuntimeApiError "not-ready".
Definition storage_quota_exceeded : exn := RuntimeApiError "storage-quota-exceeded".

Definition conflict_unless (c : bool) : result unit := raise_if (negb c) conflict.
Definition request_unless (c : bool) : result unit := raise_if (negb c) invalid_request.

Definition _project_stream (project_id : string) : string := "project:" +:+ project_id.
Definition _intent_stream (intent_id : string) : string := "intent:" +:+ intent_id.
Definition _plan_stream (plan_id : string) : string := "plan:" +:+ plan_id.
Definition _run_stream (run_id : string) : string := "run:" +:+ run_id.

(** ** Checks of values *)

Definition visible_char (a : ascii) : bool := (33 <=? byte_at a) && (byte_at a <=? 126).
Definition service_principal (value : string) : result unit :=
  request_unless (negb (is_empty value) && (py_len value <=? 200) && all_chars visible_char value).
Definition service_identifier (value : string) : result unit := request_unless (wire_identifier value).
Definition _aware_timestamp (value : datetime) : result datetime :=
  _ ← request_unless (bool_decide (is_Some (dt_offset value))); Ok value.
Definition _content_digest (value : string) : result unit :=
  _ ← request_unless ((py_len value =? 71) && starts_with "sha256:" value);
  request_unless (bool_decide (is_Some (int_base16 (remove_prefix "sha256:" value)))).
Definition service_failure_code (value : string) : result unit :=
  request_unless (negb (is_empty value) && (py_len value <=? 256) && all_chars id_char value).
Definition _commit_id (value : json) : result string :=
  match value with
  | JStr s =>
      _ ← raise_if (negb ((py_len s =? 40) && bool_decide (is_Some (int_base16 s)) && is_lower_text s)) LifecycleError;
      Ok s
  | _ => Err LifecycleError
  end.
Definition _global_position (e : EventEnvelope) : result Z := of_option conflict (global_position e).

(** [max(...)] of a sequence that is not empty. *)
Definition max_of (l : list Z) : result Z :=
  match l with [] => Err (ValueError "max() iterable argument is empty") | x :: l => Ok (foldl Z.max x l) end.
Definition min_of (l : list Z) : result Z :=
  match l with [] => Err (ValueError "min() iterable argument is empty") | x :: l => Ok (foldl Z.min x l) end.
Definition sum_of (l : list Z) : Z := foldl Z.add 0 l.

(** ** Requests as events *)

(** What msgspec does with a contract: [msgspec.to_builtins] and
    [msgspec.convert(value, type=R, strict=True)]. *)
Class Contract (R : Type) := MkContract {
  to_builtins : R → pyval;
  convert : pyval → result R;
  contract_key : R → string
}.

Definition _struct_value {R} `{Contract R} (request : R) : result pyval :=
  match to_builtins request with
  | PMapping items =>
      _ ← request_unless (forallb (λ kv, match kv.1 with PStr _ => true | _ => false end) items); Ok (PMapping items)
  | _ => Err invalid_request
  end.

Definition _event_reference (e : EventEnvelope) : pyval :=
  obj [("event_id", PStr (event_id e)); ("event_digest", PStr (payload_hash e))].

(** The payload of a request's event: [extra] replaces what it names. *)
Definition _request_event_payload {R} `{Contract R} (request : R) (principal_id : string)
    (references extra : option (list (string * pyval))) : result pyval :=
  value ← _struct_value request;
  digest ← json_digest value;
  let payload := [("request", value); ("request_digest", PStr digest); ("principal_id", PStr principal_id)] in
  let payload := match references with Some l => payload ++ [("references", obj l)] | None => payload end in
  Ok (obj (match extra with Some l => foldl (λ d kv, dict_set kv.1 kv.2 d) payload l | None => payload end)).

Definition event_matches (e : EventEnvelope) (ty : string) : bool :=
  bool_decide (event_type e = ty) && (schema_version e =? 1) && (stream_sequence e =? 1)
  && bool_decide (source e = RUNTIME_EVENT_SOURCE).
Definition require_same_payload (e : EventEnvelope) (ty : string) (payload : pyval) : result EventEnvelope :=
  _ ← conflict_unless (event_matches e ty);
  digest ← json_digest payload;
  _ ← conflict_unless (bool_decide (payload_hash e = digest));
  Ok e.
Definition _require_idempotent (events : list EventEnvelope) (ty : string) (payload : pyval) : result EventEnvelope :=
  match events with [e] => require_same_payload e ty payload | _ => Err conflict end.
Definition _require_run_idempotent (events : list EventEnvelope) (payload : pyval) : result EventEnvelope :=
  match events with e :: _ => require_same_payload e RUN_QUEUED payload | [] => Err (RuntimeError "index") end.

Definition _request_value (e : EventEnvelope) : result jobject :=
  as_mapping conflict (jget "request" (payload e)).
Definition _decode_request (R : Type) `{Contract R} (e : EventEnvelope) : result R :=
  raw ← _request_value e;
  request ← recast (λ e, is_type_error e || is_value_error e) conflict (convert (thaw_json (JObj raw)));
  digest ← json_digest (thaw_json (JObj raw));
  _ ← conflict_unless (is_str (jget "request_digest" (payload e)) digest);
  Ok request.

Definition _event_principal (e : EventEnvelope) : result string :=
  _ ← conflict_unless (is_str (jget "principal_id" (payload e)) (actor e)); Ok (actor e).

Definition _require_reference (owner : EventEnvelope) (name : string) (expected : EventEnvelope) : result unit :=
  references ← as_mapping conflict (jget "references" (payload owner));
  reference ← as_mapping conflict (jget name references);
  conflict_unless (is_str (jget "event_id" reference) (event_id expected)
    && is_str (jget "event_digest" reference) (payload_hash expected)).

Definition _required_event (d : db) (sid ty : string) : result EventEnvelope :=
  events ← read_stream d sid 0 None (Some 2);
  match events with
  | [] => Err not_found
  | [e] => _ ← conflict_unless (event_matches e ty); Ok e
  | _ => Err conflict
  end.

(** What [append] raises when another writer was first. *)
Definition is_append_conflict (e : exn) : bool :=
  match e with ConcurrencyError _ _ _ | EventConflictError | IdempotencyConflict => true | _ => false end.

Section Append.
Context (path : string) (resolve : string → string) (set_order : list string → list string).

Definition request_event (o : occasion) (sid ty principal_id key : string) (correlation_id causation_id : option string)
    (payload : pyval) : result EventEnvelope :=
  create (now o) (fresh_id o) sid 1 ty principal_id RUNTIME_EVENT_SOURCE (Some payload) 1 None None
    correlation_id causation_id (Some key) None.

Definition others_commit (race : db → db) : txn unit := λ d, (Ok tt, race d).

(** The append and, when another writer was first, the second look. *)
Definition append_first (read : db → result (list EventEnvelope))
    (check : list EventEnvelope → result EventEnvelope) (event : EventEnvelope) : txn EventEnvelope := λ d,
  match EventStore.append path resolve set_order event 0 d with
  | (Err e, d) =>
      if is_append_conflict e
      then (raced ← read d; match raced with [] => Err conflict | _ => check raced end, d)
      else (Err e, d)
  | done => done
  end.

Definition record_event (o : occasion) (race : db → db) (limit : option Z)
    (check : list EventEnvelope → pyval → result EventEnvelope)
    (sid ty principal_id key : string) (correlation_id causation_id : option string) (payload : pyval)
    : txn EventEnvelope :=
  existing ← query (λ d, read_stream d sid 0 None limit);
  match existing with
  | _ :: _ => lift (check existing payload)
  | [] =>
      event ← lift (request_event o sid ty principal_id key correlation_id causation_id payload);
      _ ← others_commit race;
      append_first (λ d, read_stream d sid 0 None limit) (λ l, check l payload) event
  end.

Definition _record_immutable {R} `{Contract R} (o : occasion) (race : db → db) (sid ty : string) (request : R)
    (principal_id : string) (correlation_id causation_id : option string) (references : option (list (string * pyval)))
    : txn EventEnvelope :=
  payload ← lift (_request_event_payload request principal_id references None);
  record_event o race (Some 2) (λ l, _require_idempotent l ty) sid ty principal_id (contract_key request)
    correlation_id causation_id payload.

Definition _record_run_queued `{Contract RunRequest} (o : occasion) (race : db → db) (request : RunRequest)
    (principal_id : string) (correlation_id causation_id : string) (references : list (string * pyval))
    : txn EventEnvelope :=
  payload ← lift (_request_event_payload request principal_id (Some references) (Some [("status", PStr "queued")]));
  record_event o race None _require_run_idempotent (_run_stream (rrq_run_id request)) RUN_QUEUED principal_id
    (rrq_idempotency_key request) (Some correlation_id) (Some causation_id) payload.
End Append.

(** ** Plans *)

(** [_generated_checks]: every check of the plan once, by identifier. *)
Definition add_check (checks : list (string * VerificationCheck)) (c : AcceptanceCheck)
    : result (list (string * VerificationCheck)) :=
  converted ← verification_check_init (MkCheck (ac_check_id c) (ac_argv c) (ac_expected_exit_code c));
  _ ← request_unless (match dict_get (ac_check_id c) checks with
                      | Some prior => bool_decide (prior = converted) | None => true end);
  Ok (dict_set (ac_check_id c) converted checks).
Definition _generated_checks (plan : PlanRequest) : result (list VerificationCheck) :=
  checks ← fold_result add_check [] (concat (map pn_checks (plq_nodes plan)));
  map_result (λ key, of_option KeyError (dict_get key checks)) (sort_strings (dict_keys checks)).

Definition _validate_generated_plan (intent : IntentRequest) (plan : PlanRequest) : result unit :=
  _ ← request_unless (bool_decide (irq_unresolved_questions intent = []));
  _ ← _generated_checks plan;
  Ok tt.

Definition _require_review_evidence_capacity (request : PlanRequest) : result unit :=
  request_unless (sum_of (map (λ n, 1 + 4 * zlen (pn_checks n) + 3 * nb_max_changed_files (pn_budget n))
                           (plq_nodes request)) <=? MAX_REVIEW_EVIDENCE_ITEMS).

(** The dependencies that are visited: [pending.pop()] takes the last. *)
Fixpoint visit_ancestors (fuel : nat) (by_id : list (string * PlanNode)) (ancestors pending : list string)
    : result (list string) :=
  match rev pending, fuel with
  | [], _ => Ok ancestors
  | _ :: _, O => Err (RuntimeError "out of fuel")
  | dependency :: rest, S fuel =>
      if bool_decide (dependency ∈ ancestors) then visit_ancestors fuel by_id ancestors (rev rest)
      else
        n ← of_option LifecycleError (dict_get dependency by_id);
        visit_ancestors fuel by_id (ancestors ++ [dependency]) (rev rest ++ pn_depends_on n)
  end.
(** Each node's dependencies are put on the list at most once. *)
Definition visit_fuel (nodes : list PlanNode) : nat := S (length (concat (map pn_depends_on nodes)) + length (concat (map pn_depends_on nodes))).

Definition _node_base_commit (plan : PlanRequest) (node_id : string) (successful_heads : list (string * string))
    : result string :=
  let by_id := node_by_id (plq_nodes plan) in
  node ← of_option LifecycleError (dict_get node_id by_id);
  ancestors ← visit_ancestors (visit_fuel (plq_nodes plan)) by_id [] (pn_depends_on node);
  order ← plan_topological_order (plq_nodes plan);
  let writers := List.filter (λ candidate, bool_decide (candidate ∈ ancestors)
                   && match dict_get candidate by_id with Some n => writes n | None => false end) order in
  match last writers with
  | None => Ok (plq_base_commit plan)
  | Some writer => head ← of_option LifecycleError (dict_get writer successful_heads); _commit_id (JStr head)
  end.

(** ** Loaded runs *)

Record _LoadedRun := MkLoadedRun {
  lr_request : RunRequest;
  lr_intent : IntentRequest;
  lr_plan : PlanRequest;
  lr_events : list EventEnvelope;
  lr_state : RunLifecycleState;
  lr_kernel_state : option ExecutionRunState
}.

Definition plan_dependencies (plan : PlanRequest) : list (string * list string) :=
  foldl (λ d n, dict_set (pn_node_id n) (pn_depends_on n) d) [] (plq_nodes plan).

Record worktree_evidence := MkEvidence {
  ev_specifications : list (string * WorktreeExecutionSpec);
  ev_successful_heads : list (string * string)
}.
Definition is_evidence_error (e : exn) : bool :=
  match e with KeyError | LifecycleError | WorktreeLifecycleError _ => true | _ => false end.

Section Load.
Context `{Contract ProjectRequest, Contract IntentRequest, Contract PlanRequest, Contract RunRequest}.
Context (normalize : string → string) (repository_root isolation_root : string).
Context (repository_ok isolation_ok : string → bool).

(** The checks of a claim against the plan. *)
Definition claim_evidence (plan : PlanRequest) (s : worktree_evidence) (e : EventEnvelope) : result worktree_evidence :=
  raw_spec ← as_mapping LifecycleError (jget "worktree_spec" (payload e));
  spec ← worktree_execution_spec_from_mapping repository_ok isolation_ok raw_spec;
  let node_id := wl_node_id (ws_lease spec) in
  node ← of_option KeyError (dict_get node_id (node_by_id (plq_nodes plan)));
  _ ← raise_if (negb (bool_decide (ws_repository_root spec = repository_root)
                      && bool_decide (ws_isolation_root spec = isolation_root))) INVALID_SPEC;
  base ← _node_base_commit plan node_id (ev_successful_heads s);
  _ ← raise_if (negb (bool_decide (ws_base_commit spec = base)
                      && bool_decide (ws_allowed_paths spec = pn_allowed_paths node)
                      && (ws_max_changed_paths spec =? nb_max_changed_files (pn_budget node)))) INVALID_SPEC;
  digest ← worktree_spec_digest spec;
  lease ← lease_digest (ws_lease spec);
  _ ← raise_if (negb (is_str (jget "worktree_spec_digest" (payload e)) digest
                      && is_str (jget "lease_digest" (payload e)) lease)) INVALID_SPEC;
  Ok (MkEvidence (dict_set lease spec (ev_specifications s)) (ev_successful_heads s)).

Definition dispatch_evidence (plan : PlanRequest) (s : worktree_evidence) (e : EventEnvelope) : result unit :=
  match jget "lease_digest" (payload e) with
  | JStr lease =>
      spec ← of_option KeyError (dict_get lease (ev_specifications s));
      node ← of_option KeyError (dict_get (wl_node_id (ws_lease spec)) (node_by_id (plq_nodes plan)));
      raise_if (negb (writes node)) INVALID_SPEC
  | _ => Err INVALID_SPEC
  end.

Definition removal_evidence (s : worktree_evidence) (e : EventEnvelope) : result unit :=
  raw_removal ← as_mapping LifecycleError (jget "removal" (payload e));
  removal ← worktree_removal_from_mapping raw_removal;
  spec ← of_option KeyError (dict_get (wr_lease_digest removal) (ev_specifications s));
  digest ← worktree_spec_digest spec;
  wpath ← worktree_path spec;
  branch ← branch_name spec;
  lease ← lease_digest (ws_lease spec);
  _ ← raise_if (negb (bool_decide (wr_spec_digest removal = digest) && bool_decide (wr_worktree_path removal = wpath)
                      && bool_decide (wr_branch_name removal = branch))) INVALID_GIT_OUTPUT;
  head ← of_option KeyError (dict_get (wl_node_id (ws_lease spec)) (ev_successful_heads s));
  raise_if (negb (bool_decide (wr_retained_head_commit removal = head)
                  && is_str (jget "worktree_spec_digest" (payload e)) digest
                  && is_str (jget "lease_digest" (payload e)) lease)) INVALID_GIT_OUTPUT.

Definition inspection_evidence (s : worktree_evidence) (e : EventEnvelope) : result worktree_evidence :=
  match jget "inspection" (payload e) with
  | JNull => Ok s
  | raw =>
      raw ← as_mapping LifecycleError raw;
      inspection ← worktree_inspection_from_mapping raw;
      spec ← of_option KeyError (dict_get (wi_lease_digest inspection) (ev_specifications s));
      digest ← worktree_spec_digest spec;
      wpath ← worktree_path spec;
      branch ← branch_name spec;
      _ ← raise_if (negb (bool_decide (wi_spec_digest inspection = digest)
                && bool_decide (wi_worktree_path inspection = wpath) && bool_decide (wi_branch_name inspection = branch)
                && bool_decide (wi_base_commit inspection = ws_base_commit spec)
                && bool_decide (wi_allowed_paths inspection = ws_allowed_paths spec)
                && (wi_max_changed_paths inspection =? ws_max_changed_paths spec))) INVALID_GIT_OUTPUT;
      if bool_decide (event_type e = NODE_SUCCEEDED) then
        head ← _commit_id (jget "head_commit" (payload e));
        _ ← raise_if (negb (bool_decide (wi_head_commit inspection = head))) INVALID_GIT_OUTPUT;
        Ok (MkEvidence (ev_specifications s) (dict_set (wl_node_id (ws_lease spec)) head (ev_successful_heads s)))
      else Ok s
  end.

Definition evidence_step (plan : PlanRequest) (s : worktree_evidence) (e : EventEnvelope) : result worktree_evidence :=
  s ← (if bool_decide (event_type e = NODE_CLAIMED) then claim_evidence plan s e else Ok s);
  _ ← (if bool_decide (event_type e = NODE_PROVIDER_DISPATCH_STARTED) then dispatch_evidence plan s e else Ok tt);
  _ ← (if bool_decide (event_type e = NODE_WORKTREE_CLEANED) then removal_evidence s e else Ok tt);
  inspection_evidence s e.

Definition _validate_worktree_evidence (events : list EventEnvelope) (plan : PlanRequest) : result unit :=
  _ ← recast is_evidence_error conflict (fold_result (evidence_step plan) (MkEvidence [] []) events);
  Ok tt.

(** *** The execution a run carries *)

Definition plan_checks_of (p : Plan) : list VerificationCheck := concat (map checks (tasks p)).

Definition is_contract_error (e : exn) : bool := is_type_error e || is_value_error e.

Definition thawed_payload (e : EventEnvelope) : list (string * pyval) :=
  map (λ kv, (kv.1, thaw_json kv.2)) (payload e).

Definition admitted_plans (events : list EventEnvelope) : result (list Plan) :=
  map_result (λ e, recast is_contract_error conflict (plan_from_payload (pget "plan" (thawed_payload e))))
    (List.filter (λ e, bool_decide (event_type e = EXECUTION_PLAN_ADMITTED)) events).

Definition _kernel_plans (l : _LoadedRun) : result (list Plan) :=
  plans ← admitted_plans (lr_events l);
  kernel ← of_option conflict (lr_kernel_state l);
  match last plans with
  | None =>
      _ ← conflict_unless (bool_decide (xs_plan_id kernel = None) && bool_decide (xs_plan_digest kernel = None)
            && bool_decide (xs_plan_revision kernel = None));
      Ok []
  | Some plan =>
      _ ← conflict_unless (bool_decide (Some (plan_id plan) = xs_plan_id kernel)
            && bool_decide (Some (plan_digest plan) = xs_plan_digest kernel)
            && bool_decide (Some (plan_revision plan) = xs_plan_revision kernel));
      Ok plans
  end.
Definition _kernel_plan (l : _LoadedRun) : result Plan :=
  plans ← _kernel_plans l; of_option conflict (last plans).

Definition _kernel_goal (l : _LoadedRun) : result GoalSpec :=
  e ← of_option conflict (List.find (λ e, bool_decide (event_type e = EXECUTION_GOAL_ADMITTED)) (lr_events l));
  goal ← recast is_contract_error conflict (goal_from_payload (pget "goal" (thawed_payload e)));
  kernel ← of_option conflict (lr_kernel_state l);
  _ ← conflict_unless (bool_decide (goal_id goal = rb_goal_id (xs_binding kernel)));
  digest ← goal_digest goal;
  _ ← conflict_unless (bool_decide (digest = rb_goal_digest (xs_binding kernel)));
  Ok goal.

Definition _generated_goal (l : _LoadedRun) : result GoalSpec :=
  identity ← json_digest (obj
    [("run_id", PStr (rrq_run_id (lr_request l))); ("project_id", PStr (rrq_project_id (lr_request l)));
     ("intent_id", PStr (rrq_intent_id (lr_request l))); ("bounds_plan_id", PStr (rrq_plan_id (lr_request l)))]);
  checks ← _generated_checks (lr_plan l);
  goal_init (MkGoal ("goal-" +:+ take_bytes 32 (remove_prefix "sha256:" identity))
    (rrq_project_id (lr_request l)) (rrq_intent_id (lr_request l)) (irq_objective (lr_intent l))
    (plq_base_commit (lr_plan l)) (sorted_set (irq_constraints (lr_intent l) ++ irq_assumptions (lr_intent l)))
    (sorted_set (concat (map pn_allowed_paths (plq_nodes (lr_plan l))))) checks 3 2 EXECUTION_GOAL_SCHEMA).

(** Every admitted plan checks exactly what the accepted plan demands. *)
Definition _require_generated_kernel_binding (l : _LoadedRun) : result unit :=
  goal ← _kernel_goal l;
  let required_checks := foldl (λ d c, dict_set (check_id c) c d) [] (verification_checks goal) in
  generated ← _generated_goal l;
  _ ← conflict_unless (bool_decide (goal = generated));
  plans ← _kernel_plans l;
  conflict_unless (forallb (λ p,
    same_keys (map check_id (plan_checks_of p)) (dict_keys required_checks)
    && forallb (λ c, bool_decide (dict_get (check_id c) required_checks = Some c)) (plan_checks_of p)) plans).

(** *** Loading *)

Definition is_fold_error (e : exn) : bool :=
  match e with LifecycleError | ExecutionRuntimeError _ => true | _ => false end.

(** The requests behind a run, mutually consistent. *)
Definition run_requests (d : db) (request : RunRequest)
    : result (EventEnvelope * EventEnvelope * EventEnvelope * IntentRequest * PlanRequest) :=
  project_event ← _required_event d (_project_stream (rrq_project_id request)) _PROJECT_REGISTERED;
  intent_event ← _required_event d (_intent_stream (rrq_intent_id request)) _INTENT_ACCEPTED;
  plan_event ← _required_event d (_plan_stream (rrq_plan_id request)) _PLAN_ACCEPTED;
  project ← _decode_request ProjectRequest project_event;
  intent ← _decode_request IntentRequest intent_event;
  plan ← _decode_request PlanRequest plan_event;
  _ ← conflict_unless (bool_decide (prq_project_id project = rrq_project_id request)
        && bool_decide (irq_project_id intent = rrq_project_id request)
        && bool_decide (irq_intent_id intent = rrq_intent_id request)
        && bool_decide (plq_project_id plan = rrq_project_id request)
        && bool_decide (plq_intent_id plan = rrq_intent_id request)
        && bool_decide (plq_plan_id plan = rrq_plan_id request));
  Ok (project_event, intent_event, plan_event, intent, plan).

Definition fold_run (run_id : string) (plan : PlanRequest) (events : list EventEnvelope)
    : result (RunLifecycleState * option ExecutionRunState) :=
  recast is_fold_error conflict (
    state ← fold_run_lifecycle run_id (plan_dependencies plan) events;
    replayed ← replay (ExecutionRunProjection normalize) events None;
    Ok (state, rr_state replayed)).

Definition _load_run (run_id : string) (through_position : option Z) (d : db) : result _LoadedRun :=
  events ← read_stream d (_run_stream run_id) 0 through_position None;
  match events with
  | [] => Err not_found
  | queued :: _ =>
      _ ← conflict_unless (bool_decide (event_type queued = RUN_QUEUED));
      request ← _decode_request RunRequest queued;
      _ ← conflict_unless (bool_decide (rrq_run_id request = run_id));
      '(project_event, intent_event, plan_event, intent, plan) ← run_requests d request;
      _ ← _require_reference queued "project" project_event;
      _ ← _require_reference queued "intent" intent_event;
      _ ← _require_reference queued "plan" plan_event;
      '(state, kernel_state) ← fold_run run_id plan events;
      _ ← _validate_worktree_evidence events plan;
      let loaded := MkLoadedRun request intent plan events state kernel_state in
      _ ← (if bool_decide (plq_planning_mode plan = GENERATED) && bool_decide (is_Some kernel_state)
           then _require_generated_kernel_binding loaded else Ok tt);
      Ok loaded
  end.

(** ** Responses *)

Definition _project_response (e : EventEnvelope) : result ProjectResponse :=
  r ← _decode_request ProjectRequest e;
  principal ← _event_principal e;
  cursor ← _global_position e;
  Ok (MkProjectResponse (prq_project_id r) (prq_root r) (prq_configuration_digest r) principal (event_id e) cursor
        (payload_hash e)).
Definition _intent_response (e : EventEnvelope) : result IntentResponse :=
  r ← _decode_request IntentRequest e;
  principal ← _event_principal e;
  cursor ← _global_position e;
  Ok (MkIntentResponse (irq_intent_id r) (irq_project_id r) (irq_objective r) (irq_constraints r) (irq_assumptions r)
        (irq_unresolved_questions r) principal (event_id e) cursor (payload_hash e)).
Definition _plan_response (e : EventEnvelope) : result PlanResponse :=
  r ← _decode_request PlanRequest e;
  order ← plan_topological_order (plq_nodes r);
  principal ← _event_principal e;
  cursor ← _global_position e;
  Ok (MkPlanResponse (plq_plan_id r) (plq_project_id r) (plq_intent_id r) (plq_base_commit r) (plq_allowed_effects r)
        (plq_nodes r) order principal (event_id e) cursor (payload_hash e)).
End Load.

Definition _effective_run_status (l : _LoadedRun) : string :=
  match lr_kernel_state l with
  | None => run_status_value (rl_status (lr_state l))
  | Some kernel =>
      match xs_status kernel with
      | RunPhase.ADMITTED | RunPhase.RUNNING | RunPhase.REPLANNING => "running"
      | RunPhase.SUCCEEDED => "succeeded"
      | RunPhase.REPLAN_REQUIRED | RunPhase.BLOCKED | RunPhase.ESCALATED => "reconciliation-required"
      | RunPhase.CANCELED => "canceled"
      | RunPhase.TERMINAL_FAILURE => "failed"
      end
  end.

Definition _kernel_latest_event (l : _LoadedRun) (kernel : ExecutionRunState) : result EventEnvelope :=
  of_option conflict (List.find (λ e, bool_decide (event_id e = xs_latest_event_id kernel)) (rev (lr_events l))).

Definition task_is_active (t : ExecutionTaskState) : bool :=
  bool_decide (ts_status t ∈ [TaskStatus.READY; TaskStatus.RUNNING; TaskStatus.VERIFYING]).

Definition _run_response (l : _LoadedRun) : result RunResponse :=
  let state := lr_state l in
  event ← match lr_kernel_state l with
          | None => Ok (rl_latest_event state) | Some kernel => _kernel_latest_event l kernel end;
  let kernel_tasks := from_option xs_tasks [] (lr_kernel_state l) in
  let kernel_attempt := foldl Z.max 0 (map ts_attempts kernel_tasks) in
  attempts ← max_of (map ns_attempts (rl_nodes state));
  fencing_token ← max_of (map ns_fencing_token (rl_nodes state));
  principal ← _event_principal (rl_queued_event state);
  cursor ← _global_position event;
  Ok (MkRunResponse (rrq_run_id (lr_request l)) (rrq_project_id (lr_request l)) (rrq_intent_id (lr_request l))
        (rrq_plan_id (lr_request l)) (_effective_run_status l)
        (rl_cancellation_requested state
         || bool_decide (xs_status <$> lr_kernel_state l = Some RunPhase.CANCELED))
        (match List.find task_is_active kernel_tasks with
         | Some t => Some (ts_task_id t)
         | None => al_node_id <$> rl_active_lease state end)
        (Z.max attempts kernel_attempt) fencing_token
        (existsb ns_retained_worktree (rl_nodes state)
         || match lr_kernel_state l with
            | None => false
            | Some kernel => negb (bool_decide (xs_retained_workspace_ids kernel = []))
                || existsb (λ t, bool_decide (is_Some (ts_retained_workspace_id t))) (xs_tasks kernel) end)
        principal (event_id event) cursor (payload_hash event)).

Definition _matches_run_query (l : _LoadedRun) (q : RunQueryRequest) : bool :=
  let run := lr_request l in
  let excludes (wanted : list string) value := negb (bool_decide (wanted = [])) && negb (bool_decide (value ∈ wanted)) in
  negb (excludes (rq_statuses q) (_effective_run_status l)
    || excludes (rq_project_ids q) (rrq_project_id run) || excludes (rq_intent_ids q) (rrq_intent_id run)
    || excludes (rq_plan_ids q) (rrq_plan_id run) || excludes (rq_run_ids q) (rrq_run_id run)).

Definition public_node_item (public_nodes : list (string * PlanNode)) (n : NodeState) : result RunNodeQueryResponse :=
  node ← of_option KeyError (dict_get (ns_node_id n) public_nodes);
  run_node_query_response_init (MkRunNodeQueryResponse (ns_node_id n) (node_status_value (ns_status n)) (ns_attempts n)
    (ns_fencing_token n) (ns_failure_code n) (ns_retained_worktree n) (ns_head_commit n) (pn_depends_on node) None).
Definition kernel_node_item (tasks : list (string * TaskSpec)) (t : ExecutionTaskState) : result RunNodeQueryResponse :=
  task ← of_option KeyError (dict_get (ts_task_id t) tasks);
  run_node_query_response_init (MkRunNodeQueryResponse (ts_task_id t) (task_status_value (ts_status t)) (ts_attempts t) 0
    (failure_class_value <$> ts_last_failure_class t) (bool_decide (is_Some (ts_retained_workspace_id t)))
    (ts_head_commit t) (depends_on task) (Some (task_max_attempts task))).

Definition budget_usage (kernel : ExecutionRunState) : result RunBudgetUsageResponse :=
  let u := xs_usage kernel in let b := rb_budget (xs_binding kernel) in
  run_budget_usage_response_init (MkRunBudgetUsage (us_input_tokens u) (us_input_tokens_complete u) (max_input_tokens b)
    (us_output_tokens u) (us_output_tokens_complete u) (max_output_tokens b) (us_latency_ms u) (max_latency_ms b)
    (us_cost_microusd u) (us_cost_microusd_complete u) (max_cost_microusd b)).

Definition _run_query_item (l : _LoadedRun) : result RunQueryItem :=
  '(nodes, usage) ← match lr_kernel_state l with
    | None =>
        nodes ← map_result (public_node_item (node_by_id (plq_nodes (lr_plan l)))) (rl_nodes (lr_state l));
        Ok (nodes, None)
    | Some kernel =>
        plan ← _kernel_plan l;
        nodes ← map_result (kernel_node_item (task_by_id (tasks plan))) (xs_tasks kernel);
        usage ← budget_usage kernel;
        Ok (nodes, Some usage)
    end;
  cursor ← _global_position (rl_queued_event (lr_state l));
  run ← _run_response l;
  Ok (MkRunQueryItem cursor run nodes usage).

Definition _event_response (e : EventEnvelope) : result RuntimeEventResponse :=
  _ ← conflict_unless (bool_decide (event_type e ∈ _RUNTIME_EVENT_TYPES) && (schema_version e =? 1));
  cursor ← _global_position e;
  Ok (MkRuntimeEventResponse (event_id e) cursor (stream_id e) (stream_sequence e) (event_type e)
        (isoformat (recorded_at e)) (correlation_id e) (causation_id e) (actor e) (payload_hash e) (payload e)).

(** ** Queries *)

Section Queries.
(** [load] is [self._load_run]. *)
Context (load : string → option Z → db → result _LoadedRun).

(** [event.stream_id.removeprefix("run:")] of a queued run's event. *)
Definition queued_run (e : EventEnvelope) : option string :=
  if bool_decide (source e = RUNTIME_EVENT_SOURCE) && bool_decide (event_type e = RUN_QUEUED)
     && starts_with "run:" (stream_id e)
  then Some (remove_prefix "run:" (stream_id e)) else None.

Record query_state := MkQueryState { qs_cursor : Z; qs_scanned : Z; qs_runs : list RunQueryItem }.
Definition query_full (q : RunQueryRequest) (s : query_state) : bool :=
  (MAX_RUN_QUERY_SCAN_EVENTS <=? qs_scanned s) || (rq_limit q <=? zlen (qs_runs s)).

(** One event of a page. *)
Definition query_event (d : db) (q : RunQueryRequest) (s : query_state) (e : EventEnvelope) : result query_state :=
  cursor ← _global_position e;
  match queued_run e with
  | None => Ok (MkQueryState cursor (qs_scanned s + 1) (qs_runs s))
  | Some run_id =>
      loaded ← load run_id None d;
      if _matches_run_query loaded q
      then item ← _run_query_item loaded; Ok (MkQueryState cursor (qs_scanned s + 1) (qs_runs s ++ [item]))
      else Ok (MkQueryState cursor (qs_scanned s + 1) (qs_runs s))
  end.

(** The events of a page, until a bound is reached. *)
Fixpoint query_page (d : db) (q : RunQueryRequest) (s : query_state) (page : list EventEnvelope)
    : result (query_state * bool) :=
  match page with
  | [] => Ok (s, false)
  | e :: page =>
      s ← query_event d q s e;
      if query_full q s then Ok (s, true) else query_page d q s page
  end.

(** The pages; the second component tells that the ledger was exhausted.  Every
    page that does not end the loop scans an event. *)
Fixpoint query_pages (fuel : nat) (d : db) (q : RunQueryRequest) (s : query_state) : result (query_state * bool) :=
  if query_full q s then Ok (s, false)
  else
    match fuel with
    | O => Err (RuntimeError "out of fuel")
    | S fuel =>
        let size := Z.min 200 (MAX_RUN_QUERY_SCAN_EVENTS - qs_scanned s) in
        page ← read_all d (qs_cursor s) (Some size);
        if bool_decide (page = []) then Ok (s, true)
        else
          r ← query_page d q s page;
          match r.2 with
          | true => Ok (r.1, false)
          | false => if zlen page <? size then Ok (r.1, true) else query_pages fuel d q r.1
          end
    end.

Definition query_runs (q : RunQueryRequest) (d : db) : result RunQueryResponse :=
  r ← query_pages (Z.to_nat MAX_RUN_QUERY_SCAN_EVENTS) d q (MkQueryState (rq_after_cursor q) 0 []);
  let s := r.1 in
  has_more ← (match r.2 with
              | true => Ok false
              | false => more ← read_all d (qs_cursor s) (Some 1); Ok (negb (bool_decide (more = [])))
              end);
  Ok (MkRunQueryResponse q (qs_scanned s) (qs_runs s) (qs_cursor s) has_more).

(** *** presentation_run_window *)

(** The queued events of a page; the loop ends when one more than [limit] is held. *)
Fixpoint window_page (limit scanned : Z) (queued page : list EventEnvelope) : Z * list EventEnvelope :=
  match page with
  | [] => (scanned, queued)
  | e :: page =>
      if bool_decide (source e = RUNTIME_EVENT_SOURCE) && starts_with "run:" (stream_id e) then
        if limit <? zlen (queued ++ [e]) then (scanned + 1, queued ++ [e])
        else window_page limit (scanned + 1) (queued ++ [e]) page
      else window_page limit (scanned + 1) queued page
  end.

Fixpoint window_pages (fuel : nat) (d : db) (limit through_position scanned : Z) (exhausted : bool)
    (queued : list EventEnvelope) : result (Z * bool * list EventEnvelope) :=
  if exhausted || (MAX_RUN_QUERY_SCAN_EVENTS <=? scanned) || (limit <? zlen queued) then Ok (scanned, exhausted, queued)
  else
    match fuel with
    | O => Err (RuntimeError "out of fuel")
    | S fuel =>
        let page_limit := Z.min 200 (MAX_RUN_QUERY_SCAN_EVENTS - scanned) in
        page ← read_type_descending d RUN_QUEUED through_position page_limit;
        match last page with
        | None => Ok (scanned, true, queued)
        | Some oldest =>
            let '(scanned, queued) := window_page limit scanned queued page in
            oldest_position ← _global_position oldest;
            window_pages fuel d limit (oldest_position - 1) scanned
              ((zlen page <? page_limit) || (oldest_position =? 1)) queued
        end
    end.

Definition presentation_run_window (limit : Z) (d : db) : result RunSurfaceWindow :=
  _ ← request_unless (z_between 1 limit MAX_RUN_QUERY_PAGE_SIZE);
  let event_cursor := current_position d in
  '(scanned, exhausted, queued) ←
    window_pages (Z.to_nat MAX_RUN_QUERY_SCAN_EVENTS) d limit event_cursor 0 (event_cursor =? 0) [];
  runs ← map_result (λ e, loaded ← load (remove_prefix "run:" (stream_id e)) (Some event_cursor) d; _run_query_item loaded)
           (rev (take (Z.to_nat limit) queued));
  run_surface_window_init (MkRunSurfaceWindow limit scanned runs event_cursor
    ((limit <? zlen queued) || negb exhausted)).

Definition presentation_run_item (run_id : string) (d : db) : result RunQueryItem :=
  _ ← service_identifier run_id; loaded ← load run_id None d; _run_query_item loaded.
Definition inspect_run (run_id : string) (d : db) : result RunResponse :=
  _ ← service_identifier run_id; loaded ← load run_id None d; _run_response loaded.

(** *** The queue of runs *)

Definition add_run_id (ids : list string) (e : EventEnvelope) : list string :=
  if bool_decide (event_type e = RUN_QUEUED) && starts_with "run:" (stream_id e)
  then let id := remove_prefix "run:" (stream_id e) in if bool_decide (id ∈ ids) then ids else ids ++ [id]
  else ids.
Fixpoint run_ids_from (fuel : nat) (d : db) (cursor : Z) (ids : list string) : result (list string) :=
  match fuel with
  | O => Err (RuntimeError "out of fuel")
  | S fuel =>
      events ← read_all d cursor (Some 200);
      match last events with
      | None => Ok ids
      | Some e =>
          position ← _global_position e;
          run_ids_from fuel d position (foldl add_run_id ids events)
      end
  end.
(** Every page but the last holds an event. *)
Definition _run_ids (d : db) : result (list string) := run_ids_from (S (length (kernel_events d))) d 0 [].

Record ReadyNode := MkReadyNode { rn_run_id : string; rn_node : PlanNode }.

(** [all(states[d].status is SUCCEEDED for d in ds)] *)
Fixpoint all_done (states : list (string * NodeState)) (ds : list string) : result bool :=
  match ds with
  | [] => Ok true
  | dependency :: ds =>
      s ← of_option KeyError (dict_get dependency states);
      if bool_decide (ns_status s = NodeStatus.SUCCEEDED) then all_done states ds else Ok false
  end.
(** The first node of the order that is pending with its dependencies done. *)
Fixpoint first_ready (states : list (string * NodeState)) (by_id : list (string * PlanNode)) (order : list string)
    : result (option PlanNode) :=
  match order with
  | [] => Ok None
  | id :: order =>
      state ← of_option KeyError (dict_get id states);
      node ← of_option KeyError (dict_get id by_id);
      if bool_decide (ns_status state = NodeStatus.PENDING) then
        ready ← all_done states (pn_depends_on node);
        match ready with true => Ok (Some node) | false => first_ready states by_id order end
      else first_ready states by_id order
  end.

Definition node_states (l : _LoadedRun) : list (string * NodeState) :=
  foldl (λ d n, dict_set (ns_node_id n) n d) [] (rl_nodes (lr_state l)).

(** A run waiting or running, not canceled and not held by a worker. *)
Definition run_idle (l : _LoadedRun) : bool :=
  bool_decide (rl_status (lr_state l) ∈ [RunStatus.QUEUED; RunStatus.RUNNING])
  && negb (rl_cancellation_requested (lr_state l)) && bool_decide (rl_active_lease (lr_state l) = None).

Fixpoint next_ready_from (d : db) (run_ids : list string) : result (option ReadyNode) :=
  match run_ids with
  | [] => Ok None
  | run_id :: run_ids =>
      l ← load run_id None d;
      if negb (run_idle l) || bool_decide (is_Some (lr_kernel_state l)) || bool_decide (plq_planning_mode (lr_plan l) = GENERATED)
      then next_ready_from d run_ids
      else
        order ← plan_topological_order (plq_nodes (lr_plan l));
        ready ← first_ready (node_states l) (node_by_id (plq_nodes (lr_plan l))) order;
        match ready with Some n => Ok (Some (MkReadyNode run_id n)) | None => next_ready_from d run_ids end
  end.
Definition next_ready_node (d : db) : result (option ReadyNode) := ids ← _run_ids d; next_ready_from d ids.

(** *** Generated plans *)

Definition _generated_authority (plan : PlanRequest) : result ExecutionAuthority :=
  let total (f : NodeBudget → Z) := sum_of (map (λ n, f (pn_budget n)) (plq_nodes plan)) in
  budget ← gateway_budget_init (MkBudget (total nb_max_input_tokens) (total nb_max_output_tokens)
             (total nb_timeout_seconds * 1000) (total nb_max_cost_microusd));
  timeout ← min_of (map (λ n, nb_timeout_seconds (pn_budget n)) (plq_nodes plan));
  execution_authority_init (MkAuthority budget timeout (Z.min 10000 (total nb_max_changed_files))
    (MkBudget 0 0 0 0) true true true).

Record GeneratedRun := MkGeneratedRun { gr_run_id : string; gr_goal : GoalSpec; gr_authority : ExecutionAuthority }.

Definition kernel_terminal (kernel : ExecutionRunState) : bool :=
  bool_decide (xs_status kernel ∈ [RunPhase.SUCCEEDED; RunPhase.BLOCKED; RunPhase.CANCELED; RunPhase.ESCALATED;
                                   RunPhase.TERMINAL_FAILURE]).
Fixpoint next_generated_from (d : db) (run_ids : list string) : result (option GeneratedRun) :=
  match run_ids with
  | [] => Ok None
  | run_id :: run_ids =>
      l ← load run_id None d;
      if negb (bool_decide (plq_planning_mode (lr_plan l) = GENERATED)) || negb (run_idle l)
         || from_option kernel_terminal false (lr_kernel_state l)
      then next_generated_from d run_ids
      else
        goal ← _generated_goal l;
        authority ← _generated_authority (lr_plan l);
        Ok (Some (MkGeneratedRun run_id goal authority))
  end.
Definition next_generated_run (d : db) : result (option GeneratedRun) := ids ← _run_ids d; next_generated_from d ids.

Definition generated_execution_authority (run_id : string) (d : db) : result ExecutionAuthority :=
  l ← load run_id None d;
  _ ← conflict_unless (bool_decide (plq_planning_mode (lr_plan l) = GENERATED));
  authority ← _generated_authority (lr_plan l);
  match lr_kernel_state l with
  | None => Ok authority
  | Some kernel =>
      let u := xs_usage kernel in let b := authority_budget authority in
      consumed ← gateway_budget_init (MkBudget
        (if us_input_tokens_complete u then us_input_tokens u else max_input_tokens b)
        (if us_output_tokens_complete u then us_output_tokens u else max_output_tokens b)
        (us_latency_ms u)
        (if us_cost_microusd_complete u then us_cost_microusd u else max_cost_microusd b));
      execution_authority_init (MkAuthority b (check_timeout_seconds authority) (max_changed_paths authority) consumed
        (us_input_tokens_complete u) (us_output_tokens_complete u) (us_cost_microusd_complete u))
  end.
Definition generated_execution_goal (run_id : string) (d : db) : result GoalSpec :=
  l ← load run_id None d;
  _ ← conflict_unless (bool_decide (plq_planning_mode (lr_plan l) = GENERATED));
  _generated_goal l.

(** A [RuntimeApiError] of loading stops the worker. *)
Definition should_cancel_node (spec : WorktreeExecutionSpec) (d : db) : result bool :=
  match load (wl_run_id (ws_lease spec)) None d with
  | Err (RuntimeApiError _) => Ok true
  | Err e => Err e
  | Ok l =>
      if rl_cancellation_requested (lr_state l) then Ok true
      else
        match rl_active_lease (lr_state l) with
        | None => Ok true
        | Some active =>
            lease ← lease_digest (ws_lease spec);
            digest ← worktree_spec_digest spec;
            Ok (negb (bool_decide (al_lease_digest active = lease))
                || negb (bool_decide (al_worktree_spec_digest active = digest))
                || negb (bool_decide (al_worker_id active = wl_worker_id (ws_lease spec))))
        end
  end.
Definition should_cancel_generated_run (run_id : string) (d : db) : result bool :=
  match load run_id None d with
  | Err (RuntimeApiError _) => Ok true
  | Err e => Err e
  | Ok l => Ok (rl_cancellation_requested (lr_state l)
      || bool_decide (rl_status (lr_state l) ∈ [RunStatus.CANCELED; RunStatus.FAILED; RunStatus.RECONCILIATION_REQUIRED]))
  end.
End Queries.

Definition list_events (after_cursor limit : Z) (d : db) : result RuntimeEventPageResponse :=
  _ ← request_unless ((0 <=? after_cursor) && z_between 1 limit MAX_RUNTIME_EVENT_PAGE_SIZE);
  scanned ← read_all d after_cursor (Some (limit + 1));
  let window := take (Z.to_nat limit) scanned in
  events ← map_result _event_response (List.filter (λ e, bool_decide (event_type e ∈ _RUNTIME_EVENT_TYPES)) window);
  next_cursor ← match last window with Some e => _global_position e | None => Ok after_cursor end;
  Ok (MkRuntimeEventPage after_cursor limit (zlen window) events next_cursor (limit <? zlen scanned)).
