(* ===== verification/RuntimeCommands.v ===== *)
(** * bootstrap/runtime_service.py: the operations that change the ledger

    Public requests (projects, intents, plans, runs, cancellation) and the
    worker's side of a run (claims, dispatches, outcomes, reconciliation and the
    removal of old checkouts).  Every change of a run goes through
    [_append_run_transitions], which folds the lifecycle over the new events
    before and after they are stored.

    What git answers is an argument: [git_create], [git_retain] and [git_remove]
    return an observation or raise [WorktreeLifecycleError]; [checkout_present]
    tells whether the checkout's path exists. *)

From S2P Require Import Prelude PyStr PyFloat Sha256 Json JsonText JsonFacts PyTime Contracts Events EventStore Projections.
From S2P Require Import RunLifecycle Gateway PlanCompiler AttemptPolicy Review ExecutionRuntime RunJournal.
From S2P Require Import WireContracts Worktree RuntimeService.
From Stdlib Require Import ZArith Lia Ascii String.
From stdpp Require Import base gmap sets list strings.
Local Open Scope Z_scope.

(** [try: m except caught: raise e] for operations on the ledger. *)
Definition recast_txn {A} (caught : exn → bool) (e : exn) (m : txn A) : txn A := λ d,
  match m d with (Err x, d) => (Err (if caught x then e else x), d) | done => done end.

Definition is_lifecycle_error (e : exn) : bool := match e with LifecycleError => true | _ => false end.

(** The clock, and the identifiers of the events that are made. *)
Record stamp := MkStamp { st_now : datetime; st_ids : nat → string }.

Record _RunTransition := MkTransition {
  tr_event_type : string;
  tr_payload : list (string * pyval);
  tr_idempotency_key : string
}.

Record PreparedNode := MkPreparedNode {
  pr_spec : WorktreeExecutionSpec;
  pr_inspection : WorktreeInspection;
  pr_node : PlanNode;
  pr_intent : IntentRequest;
  pr_correlation_id : string;
  pr_claim_event_id : string;
  pr_prepared_event_id : string
}.

Definition opt_str (x : option string) : pyval := match x with Some s => PStr s | None => PNone end.

Section Commands.
Context `{Contract ProjectRequest, Contract IntentRequest, Contract PlanRequest, Contract RunRequest, Contract CancelRunRequest}.
Context (normalize : string → string) (repository_root isolation_root : string).
Context (repository_ok isolation_ok : string → bool).
Context (path : string) (resolve : string → string) (set_order : list string → list string).

Abbreviation load_run := (_load_run normalize repository_root isolation_root repository_ok isolation_ok).
Abbreviation validate_evidence := (_validate_worktree_evidence repository_root isolation_root repository_ok isolation_ok).

Definition load (run_id : string) : txn _LoadedRun := query (load_run run_id None).

(** ** Public requests *)

Section Requests.
(** [capacity]: the quota has room; [resolve_root]: [Path.resolve(strict=True)];
    [directory]: the path is one; [retain_base]: git's answer, the code of its error. *)
Context (capacity : bool) (resolve_root : string → option string) (directory : string → bool).
Context (retain_base : string → string → option string).

Definition _require_storage : result unit := raise_if (negb capacity) storage_quota_exceeded.

Definition _require_project_root (value : string) : result unit :=
  let p := path_str value in
  _ ← request_unless (is_absolute p && negb (bool_decide (".." ∈ posix_parts p)));
  resolved ← of_option invalid_request (resolve_root p);
  request_unless (bool_decide (p = resolved) && bool_decide (resolved = repository_root) && directory resolved).

Definition _retain_plan_base_commit (plan_id base_commit : string) : result unit :=
  match retain_base plan_id base_commit with
  | None => Ok tt
  | Some code => Err (if bool_decide (code = BASE_COMMIT_NOT_FOUND) then invalid_request else not_ready)
  end.

Definition register_project (o : occasion) (race : db → db) (request : ProjectRequest) (principal_id : string)
    : txn ProjectResponse :=
  _ ← lift (service_principal principal_id);
  _ ← lift _require_storage;
  _ ← lift (_require_project_root (prq_root request));
  event ← _record_immutable path resolve set_order o race (_project_stream (prq_project_id request)) _PROJECT_REGISTERED
            request principal_id None None None;
  lift (_project_response event).

Definition accept_intent (o : occasion) (race : db → db) (request : IntentRequest) (principal_id : string)
    : txn IntentResponse :=
  _ ← lift (service_principal principal_id);
  _ ← lift _require_storage;
  project_event ← query (λ d, _required_event d (_project_stream (irq_project_id request)) _PROJECT_REGISTERED);
  project ← lift (_decode_request ProjectRequest project_event);
  _ ← lift (conflict_unless (bool_decide (prq_project_id project = irq_project_id request)));
  event ← _record_immutable path resolve set_order o race (_intent_stream (irq_intent_id request)) _INTENT_ACCEPTED
            request principal_id (Some (correlation_id project_event)) (Some (event_id project_event))
            (Some [("project", _event_reference project_event)]);
  lift (_intent_response event).

Definition accept_plan (o : occasion) (race : db → db) (request : PlanRequest) (principal_id : string)
    : txn PlanResponse :=
  _ ← lift (service_principal principal_id);
  _ ← lift _require_storage;
  project_event ← query (λ d, _required_event d (_project_stream (plq_project_id request)) _PROJECT_REGISTERED);
  intent_event ← query (λ d, _required_event d (_intent_stream (plq_intent_id request)) _INTENT_ACCEPTED);
  project ← lift (_decode_request ProjectRequest project_event);
  intent ← lift (_decode_request IntentRequest intent_event);
  _ ← lift (conflict_unless (bool_decide (prq_project_id project = plq_project_id request)
        && bool_decide (irq_project_id intent = plq_project_id request)
        && bool_decide (irq_intent_id intent = plq_intent_id request)));
  _ ← lift (if bool_decide (plq_planning_mode request = GENERATED) then _validate_generated_plan intent request else Ok tt);
  _ ← lift (_require_reference intent_event "project" project_event);
  _ ← lift (_require_review_evidence_capacity request);
  prior ← query (λ d, read_stream d (_plan_stream (plq_plan_id request)) 0 None (Some 1));
  retained ← (match prior with
              | [] => mret request
              | _ :: _ =>
                  e ← query (λ d, _required_event d (_plan_stream (plq_plan_id request)) _PLAN_ACCEPTED);
                  lift (_decode_request PlanRequest e)
              end);
  _ ← lift (_retain_plan_base_commit (plq_plan_id retained) (plq_base_commit retained));
  event ← _record_immutable path resolve set_order o race (_plan_stream (plq_plan_id request)) _PLAN_ACCEPTED
            request principal_id (Some (correlation_id project_event)) (Some (event_id intent_event))
            (Some [("project", _event_reference project_event); ("intent", _event_reference intent_event)]);
  lift (_plan_response event).

Definition submit_run (o : occasion) (race : db → db) (request : RunRequest) (principal_id : string)
    : txn RunResponse :=
  _ ← lift (service_principal principal_id);
  _ ← lift _require_storage;
  '(project_event, intent_event, plan_event, _, _) ← query (λ d, run_requests d request);
  _ ← lift (_require_reference intent_event "project" project_event);
  _ ← lift (_require_reference plan_event "project" project_event);
  _ ← lift (_require_reference plan_event "intent" intent_event);
  _ ← _record_run_queued path resolve set_order o race request principal_id (correlation_id project_event) (event_id plan_event)
        [("project", _event_reference project_event); ("intent", _event_reference intent_event);
         ("plan", _event_reference plan_event)];
  l ← load (rrq_run_id request);
  lift (_run_response l).
End Requests.

(** ** Transitions of a run *)

(** The events of the transitions, each caused by the one before. *)
Fixpoint transition_events (o : stamp) (at_ : datetime) (l : _LoadedRun) (principal_id : string) (n : nat)
    (sequence : Z) (causation_id : string) (transitions : list _RunTransition) : result (list EventEnvelope) :=
  match transitions with
  | [] => Ok []
  | t :: transitions =>
      let payload := obj (foldl (λ d kv, dict_set kv.1 kv.2 d) [("principal_id", PStr principal_id)] (tr_payload t)) in
      event ← create (st_now o) (st_ids o n) (_run_stream (rrq_run_id (lr_request l))) (sequence + 1) (tr_event_type t)
                principal_id RUNTIME_EVENT_SOURCE (Some payload) 1 (Some at_) (Some at_)
                (Some (correlation_id (rl_queued_event (lr_state l)))) (Some causation_id)
                (Some (tr_idempotency_key t)) None;
      events ← transition_events o at_ l principal_id (S n) (sequence + 1) (event_id event) transitions;
      Ok (event :: events)
  end.

Definition fold_loaded (l : _LoadedRun) (events : list EventEnvelope) : result RunLifecycleState :=
  fold_run_lifecycle (rrq_run_id (lr_request l)) (plan_dependencies (lr_plan l)) (lr_events l ++ events).

Definition _append_run_transitions (o : stamp) (race : db → db) (l : _LoadedRun) (transitions : list _RunTransition)
    (principal_id : string) (recorded_at : option datetime) : txn (list EventEnvelope) :=
  _ ← lift (request_unless (negb (bool_decide (transitions = []))));
  at_ ← lift (_aware_timestamp (default (st_now o) recorded_at));
  latest ← lift (of_option (RuntimeError "index") (last (lr_events l)));
  events ← lift (transition_events o at_ l principal_id 0 (rl_last_stream_sequence (lr_state l)) (event_id latest)
                   transitions);
  _ ← lift (recast is_lifecycle_error conflict (
        _ ← fold_loaded l events; validate_evidence (lr_events l ++ events) (lr_plan l)));
  _ ← others_commit race;
  stored ← recast_txn is_append_conflict conflict
             (append_many path resolve set_order events
                [(_run_stream (rrq_run_id (lr_request l)), rl_last_stream_sequence (lr_state l))]);
  _ ← lift (recast is_lifecycle_error conflict (fold_loaded l stored));
  mret stored.

Definition cancel_run (o : stamp) (race : db → db) (run_id : string) (request : CancelRunRequest)
    (principal_id : string) (capacity : bool) : txn RunResponse :=
  _ ← lift (service_identifier run_id);
  _ ← lift (service_principal principal_id);
  _ ← lift (_require_storage capacity);
  l ← load run_id;
  let effective := _effective_run_status l in
  if bool_decide (rl_status (lr_state l) = RunStatus.CANCELED) || bool_decide (effective = "canceled")
  then lift (_run_response l)
  else
    _ ← lift (conflict_unless (negb (bool_decide (effective ∈ ["succeeded"; "failed"; "reconciliation-required"]))));
    _ ← lift (conflict_unless (negb (bool_decide (rl_status (lr_state l) ∈ [RunStatus.SUCCEEDED; RunStatus.FAILED]))));
    if rl_cancellation_requested (lr_state l) then lift (_run_response l)
    else
      request_value ← lift (_struct_value request);
      digest ← lift (json_digest request_value);
      let requested := MkTransition RUN_CANCEL_REQUESTED
        [("request", request_value); ("request_digest", PStr digest); ("status", PStr "cancel-requested")]
        ("cancel:" +:+ crq_idempotency_key request) in
      let terminal := MkTransition RUN_CANCELED
        [("run_id", PStr run_id); ("status", PStr "canceled");
         ("retained_worktree", PBool (existsb ns_retained_worktree (rl_nodes (lr_state l))))]
        ("cancel-terminal:" +:+ crq_idempotency_key request) in
      _ ← _append_run_transitions o race l
            (requested :: if bool_decide (rl_active_lease (lr_state l) = None) then [terminal] else []) principal_id None;
      l ← load run_id;
      lift (_run_response l).

(** ** A worker's lease *)

Definition _require_active_spec (l : _LoadedRun) (spec : WorktreeExecutionSpec) (require_prepared : bool) : result unit :=
  match rl_active_lease (lr_state l) with
  | None => Err conflict
  | Some active =>
      _ ← conflict_unless (bool_decide (al_node_id active = wl_node_id (ws_lease spec)));
      lease ← lease_digest (ws_lease spec);
      _ ← conflict_unless (bool_decide (al_lease_digest active = lease));
      digest ← worktree_spec_digest spec;
      conflict_unless (bool_decide (al_worktree_spec_digest active = digest)
        && (negb require_prepared || al_prepared active))
  end.
Definition _require_active_worker (l : _LoadedRun) (principal_id : string) : result unit :=
  conflict_unless (bool_decide (al_worker_id <$> rl_active_lease (lr_state l) = Some principal_id)).

(** The fields every outcome of a lease carries. *)
Definition lease_payload (spec : WorktreeExecutionSpec) (lease : string) : list (string * pyval) :=
  [("run_id", PStr (wl_run_id (ws_lease spec))); ("node_id", PStr (wl_node_id (ws_lease spec)));
   ("lease_digest", PStr lease)].
Definition run_payload (spec : WorktreeExecutionSpec) (status : string) (retained : bool) : list (string * pyval) :=
  [("run_id", PStr (wl_run_id (ws_lease spec))); ("status", PStr status); ("retained_worktree", PBool retained)].
(** [None if inspection is None else ...], with its digest. *)
Definition inspection_fields (inspection : option WorktreeInspection) : result (list (string * pyval)) :=
  match inspection with
  | None => Ok [("inspection_digest", PNone); ("inspection", PNone)]
  | Some i =>
      digest ← json_digest (worktree_inspection_payload i);
      Ok [("inspection_digest", PStr digest); ("inspection", worktree_inspection_payload i)]
  end.

Definition _record_canceled_node (o : stamp) (race : db → db) (l : _LoadedRun) (spec : WorktreeExecutionSpec)
    (principal_id : string) (inspection : option WorktreeInspection) (result_digest : option string) : txn unit :=
  _ ← lift (_require_active_spec l spec false);
  lease ← lift (lease_digest (ws_lease spec));
  fields ← lift (inspection_fields inspection);
  let retained := bool_decide (is_Some inspection) in
  _ ← _append_run_transitions o race l
        [MkTransition NODE_CANCELED
           (lease_payload spec lease ++ [("result_digest", opt_str result_digest)] ++ fields
            ++ [("retained_worktree", PBool retained); ("status", PStr "canceled")]) ("node-canceled:" +:+ lease);
         MkTransition RUN_CANCELED (run_payload spec "canceled" retained) ("run-canceled:" +:+ lease)]
        principal_id None;
  mret tt.
Definition _record_missing_canceled_node (o : stamp) (race : db → db) (l : _LoadedRun) (spec : WorktreeExecutionSpec)
    (principal_id : string) : txn unit := _record_canceled_node o race l spec principal_id None None.

Definition _record_requeued_node (o : stamp) (race : db → db) (l : _LoadedRun) (spec : WorktreeExecutionSpec)
    (principal_id : string) (inspection : option WorktreeInspection) : txn unit :=
  _ ← lift (_require_active_spec l spec false);
  lease ← lift (lease_digest (ws_lease spec));
  fields ← lift (inspection_fields inspection);
  _ ← _append_run_transitions o race l
        [MkTransition NODE_REQUEUED
           (lease_payload spec lease
            ++ [("disposition", PStr (if bool_decide (is_Some inspection) then "unchanged" else "missing"))] ++ fields
            ++ [("status", PStr "requeued")]) ("node-requeued:" +:+ lease)]
        principal_id None;
  mret tt.

Definition _record_reconciliation_required (o : stamp) (race : db → db) (l : _LoadedRun) (spec : WorktreeExecutionSpec)
    (principal_id : string) (inspection : option WorktreeInspection) (failure_code : option string) : txn unit :=
  _ ← lift (_require_active_spec l spec false);
  _ ← lift (match failure_code with Some c => service_failure_code c | None => Ok tt end);
  lease ← lift (lease_digest (ws_lease spec));
  fields ← lift (inspection_fields inspection);
  let retained := bool_decide (is_Some inspection) in
  _ ← _append_run_transitions o race l
        [MkTransition NODE_RECONCILIATION_REQUIRED
           (lease_payload spec lease ++ [("failure_code", opt_str failure_code)] ++ fields
            ++ [("retained_worktree", PBool retained); ("status", PStr "reconciliation-required")])
           ("node-reconciliation-required:" +:+ lease);
         MkTransition RUN_RECONCILIATION_REQUIRED (run_payload spec "reconciliation-required" retained)
           ("run-reconciliation-required:" +:+ lease)]
        principal_id None;
  mret tt.

Section Worker.
Context (git_create git_retain : WorktreeExecutionSpec → result WorktreeInspection).
Context (checkout_present : WorktreeExecutionSpec → bool).
(** The commits of others before the first and before the second append. *)
Context (o o' : stamp) (race race' : db → db).

Definition optional_digest_ok (digest : option string) : result unit :=
  match digest with Some d => _content_digest d | None => Ok tt end.

(** [_record_node_failure]; appends with the given stamp. *)
Definition record_failure (o : stamp) (race : db → db) (spec : WorktreeExecutionSpec) (failure_code : string)
    (result_digest : option string) (principal_id : string) (failed_at : option datetime) (allow_unprepared : bool)
    : txn RunResponse :=
  _ ← lift (service_principal principal_id);
  _ ← lift (service_failure_code failure_code);
  _ ← lift (optional_digest_ok result_digest);
  l ← load (wl_run_id (ws_lease spec));
  _ ← lift (_require_active_spec l spec (negb allow_unprepared));
  _ ← lift (_require_active_worker l principal_id);
  let observed := if allow_unprepared && negb (checkout_present spec) then Ok None else Some <$> git_retain spec in
  match observed with
  | Err (WorktreeLifecycleError code) =>
      _ ← _record_reconciliation_required o race l spec principal_id None (Some code);
      l ← load (wl_run_id (ws_lease spec));
      lift (_run_response l)
  | Err e => lift (Err e)
  | Ok inspection =>
      lease ← lift (lease_digest (ws_lease spec));
      fields ← lift (inspection_fields inspection);
      let retained := bool_decide (is_Some inspection) in
      _ ← _append_run_transitions o race l
            [MkTransition NODE_FAILED
               (lease_payload spec lease
                ++ [("failure_code", PStr failure_code); ("result_digest", opt_str result_digest)] ++ fields
                ++ [("retained_worktree", PBool retained); ("status", PStr "failed")]) ("node-failed:" +:+ lease);
             MkTransition RUN_FAILED (run_payload spec "failed" retained) ("run-failed:" +:+ lease)]
            principal_id failed_at;
      l ← load (wl_run_id (ws_lease spec));
      lift (_run_response l)
  end.
Definition record_node_failure (spec : WorktreeExecutionSpec) (failure_code : string) (result_digest : option string)
    (principal_id : string) (failed_at : option datetime) : txn RunResponse :=
  record_failure o race spec failure_code result_digest principal_id failed_at false.

Definition successful_heads (l : _LoadedRun) : list (string * string) :=
  foldl (λ d n, match ns_head_commit n with Some h => dict_set (ns_node_id n) h d | None => d end) []
    (rl_nodes (lr_state l)).

(** The specification a claim of the node would have. *)
Definition claim_spec (l : _LoadedRun) (state : NodeState) (node : PlanNode) (worker_id : string)
    : result WorktreeExecutionSpec :=
  fence ← max_of (map ns_fencing_token (rl_nodes (lr_state l)));
  lease ← lease_identity_init (MkLeaseIdentity (rrq_run_id (lr_request l)) (pn_node_id node) (ns_attempts state + 1)
            (fence + 1) worker_id);
  base ← _node_base_commit (lr_plan l) (pn_node_id node) (successful_heads l);
  worktree_spec_init repository_ok isolation_ok (MkSpec lease repository_root isolation_root base
    (pn_allowed_paths node) (nb_max_changed_files (pn_budget node))).

Definition claim_transition (spec : WorktreeExecutionSpec) (expires_at : datetime) : result _RunTransition :=
  lease ← lease_digest (ws_lease spec);
  digest ← worktree_spec_digest spec;
  spec_payload ← worktree_execution_spec_payload spec;
  Ok (MkTransition NODE_CLAIMED
    [("run_id", PStr (wl_run_id (ws_lease spec))); ("node_id", PStr (wl_node_id (ws_lease spec)));
     ("attempt", PInt (wl_attempt (ws_lease spec))); ("fencing_token", PInt (wl_fencing_token (ws_lease spec)));
     ("worker_id", PStr (wl_worker_id (ws_lease spec))); ("lease_digest", PStr lease);
     ("expires_at", PStr (isoformat expires_at)); ("worktree_spec_digest", PStr digest);
     ("worktree_spec", spec_payload); ("status", PStr "claimed")] ("claim:" +:+ lease)).

(** The run, the node's state and the node, when the node may be claimed. *)
Definition claimable (l : _LoadedRun) (node_id : string) : result (NodeState * PlanNode) :=
  _ ← conflict_unless (bool_decide (lr_kernel_state l = None) && run_idle l);
  state ← of_option not_found (List.find (λ n, bool_decide (ns_node_id n = node_id)) (rl_nodes (lr_state l)));
  node ← of_option not_found (List.find (λ n, bool_decide (pn_node_id n = node_id)) (plq_nodes (lr_plan l)));
  _ ← conflict_unless (bool_decide (ns_status state = NodeStatus.PENDING));
  Ok (state, node).

(** After the claim: the checkout, and its observation unless cancellation came first. *)
Definition prepare_claimed (l : _LoadedRun) (spec : WorktreeExecutionSpec) (node : PlanNode) (claimed : EventEnvelope)
    : txn PreparedNode :=
  let run_id := wl_run_id (ws_lease spec) in
  let worker_id := wl_worker_id (ws_lease spec) in
  match git_create spec with
  | Err (WorktreeLifecycleError code) =>
      _ ← record_failure o' race' spec code None worker_id None true;
      lift (Err conflict)
  | Err e => lift (Err e)
  | Ok inspection =>
      current ← load run_id;
      if rl_cancellation_requested (lr_state current) then
        _ ← _record_canceled_node o' race' current spec worker_id (Some inspection) None;
        lift (Err conflict)
      else
        lease ← lift (lease_digest (ws_lease spec));
        fields ← lift (inspection_fields (Some inspection));
        stored ← _append_run_transitions o' race' current
          [MkTransition NODE_WORKTREE_PREPARED
             (lease_payload spec lease ++ fields ++ [("status", PStr "worktree-prepared")])
             ("worktree-prepared:" +:+ lease)] worker_id None;
        prepared ← lift (of_option (RuntimeError "index") (head stored));
        mret (MkPreparedNode spec inspection node (lr_intent l) (correlation_id (rl_queued_event (lr_state l)))
                (event_id claimed) (event_id prepared))
  end.

Definition prepare_node (run_id node_id worker_id : string) (lease_expires_at : datetime) (claimed_at : option datetime)
    : txn PreparedNode :=
  _ ← lift (service_identifier run_id);
  _ ← lift (service_identifier node_id);
  _ ← lift (service_principal worker_id);
  l ← load run_id;
  '(state, node) ← lift (claimable l node_id);
  at_ ← lift (_aware_timestamp (default (st_now o) claimed_at));
  expires_at ← lift (_aware_timestamp lease_expires_at);
  _ ← lift (request_unless (dt_ltb at_ expires_at));
  spec ← lift (claim_spec l state node worker_id);
  transition ← lift (claim_transition spec expires_at);
  stored ← _append_run_transitions o race l [transition] worker_id (Some at_);
  claimed ← lift (of_option (RuntimeError "index") (head stored));
  prepare_claimed l spec node claimed.

Definition record_provider_dispatch (spec : WorktreeExecutionSpec)
    (request_id context_digest context_artifact_digest principal_id : string) (dispatched_at : option datetime)
    : txn string :=
  _ ← lift (service_principal principal_id);
  _ ← lift (service_identifier request_id);
  _ ← lift (_content_digest context_digest);
  _ ← lift (_content_digest context_artifact_digest);
  lease ← lift (lease_digest (ws_lease spec));
  expected ← lift (provider_request_id lease);
  _ ← lift (request_unless (bool_decide (request_id = expected) && bool_decide (context_artifact_digest = context_digest)));
  l ← load (wl_run_id (ws_lease spec));
  _ ← lift (_require_active_spec l spec true);
  _ ← lift (_require_active_worker l principal_id);
  _ ← lift (match List.find (λ n, bool_decide (pn_node_id n = wl_node_id (ws_lease spec))) (plq_nodes (lr_plan l)),
                  rl_active_lease (lr_state l) with
            | Some node, Some active =>
                conflict_unless (writes node && bool_decide (al_provider_dispatch_event_id active = None))
            | _, _ => Err conflict
            end);
  stored ← _append_run_transitions o race l
    [MkTransition NODE_PROVIDER_DISPATCH_STARTED
       (lease_payload spec lease
        ++ [("provider_request_id", PStr request_id); ("context_digest", PStr context_digest);
            ("context_artifact_digest", PStr context_artifact_digest); ("status", PStr "provider-dispatch-started")])
       ("provider-dispatch-started:" +:+ lease)] principal_id dispatched_at;
  event ← lift (of_option (RuntimeError "index") (head stored));
  mret (event_id event).

Definition record_node_success (spec : WorktreeExecutionSpec) (result_digest principal_id : string)
    (completed_at : option datetime) : txn RunResponse :=
  _ ← lift (service_principal principal_id);
  _ ← lift (_content_digest result_digest);
  l ← load (wl_run_id (ws_lease spec));
  _ ← lift (_require_active_spec l spec true);
  _ ← lift (_require_active_worker l principal_id);
  inspection ← lift (recast (λ e, match e with WorktreeLifecycleError _ => true | _ => false end) conflict (git_retain spec));
  _ ← lift (conflict_unless (wi_clean inspection && path_policy_compliant inspection));
  lease ← lift (lease_digest (ws_lease spec));
  fields ← lift (inspection_fields (Some inspection));
  let succeeded := MkTransition NODE_SUCCEEDED
    (lease_payload spec lease ++ [("result_digest", PStr result_digest); ("head_commit", PStr (wi_head_commit inspection))]
     ++ fields ++ [("retained_worktree", PBool true); ("status", PStr "succeeded")]) ("node-succeeded:" +:+ lease) in
  let finished := forallb (λ n, bool_decide (ns_node_id n = wl_node_id (ws_lease spec))
                                || bool_decide (ns_status n = NodeStatus.SUCCEEDED)) (rl_nodes (lr_state l)) in
  _ ← _append_run_transitions o race l
        (succeeded :: if finished
                      then [MkTransition RUN_SUCCEEDED (run_payload spec "succeeded" true) ("run-succeeded:" +:+ lease)]
                      else []) principal_id completed_at;
  l ← load (wl_run_id (ws_lease spec));
  lift (_run_response l).

Definition acknowledge_cancellation (spec : WorktreeExecutionSpec) (result_digest : option string)
    (principal_id : string) : txn RunResponse :=
  _ ← lift (service_principal principal_id);
  _ ← lift (optional_digest_ok result_digest);
  l ← load (wl_run_id (ws_lease spec));
  _ ← lift (_require_active_spec l spec false);
  _ ← lift (_require_active_worker l principal_id);
  _ ← lift (conflict_unless (rl_cancellation_requested (lr_state l)));
  match git_retain spec with
  | Err (WorktreeLifecycleError code) =>
      _ ← _record_reconciliation_required o race l spec principal_id None (Some code);
      lift (Err conflict)
  | Err e => lift (Err e)
  | Ok inspection =>
      _ ← _record_canceled_node o race l spec principal_id (Some inspection) result_digest;
      l ← load (wl_run_id (ws_lease spec));
      lift (_run_response l)
  end.
End Worker.

(** ** Restart *)

Definition _inspection_is_unchanged (i : WorktreeInspection) : bool :=
  bool_decide (wi_head_commit i = wi_base_commit i) && bool_decide (wi_changed_paths i = [])
  && bool_decide (wi_uncommitted_paths i = []) && path_policy_compliant i.

Definition _PROVIDER_DISPATCH_AMBIGUOUS : string := "provider-dispatch-ambiguous".

(** What a surviving lease becomes. *)
Definition reconcile_lease (git_retain : WorktreeExecutionSpec → result WorktreeInspection) (o : stamp) (race : db → db)
    (l : _LoadedRun) (active : ActiveLease) (spec : WorktreeExecutionSpec) (principal_id : string) : txn unit :=
  let cancel := rl_cancellation_requested (lr_state l) in
  let dispatched := bool_decide (is_Some (al_provider_dispatch_event_id active)) in
  match git_retain spec with
  | Err (WorktreeLifecycleError code) =>
      if bool_decide (code = WORKTREE_NOT_FOUND) then
        if cancel then _record_missing_canceled_node o race l spec principal_id
        else if dispatched
        then _record_reconciliation_required o race l spec principal_id None (Some _PROVIDER_DISPATCH_AMBIGUOUS)
        else _record_requeued_node o race l spec principal_id None
      else _record_reconciliation_required o race l spec principal_id None (Some code)
  | Err e => lift (Err e)
  | Ok inspection =>
      if cancel then _record_canceled_node o race l spec principal_id (Some inspection) None
      else if dispatched
      then _record_reconciliation_required o race l spec principal_id (Some inspection) (Some _PROVIDER_DISPATCH_AMBIGUOUS)
      else if _inspection_is_unchanged inspection
      then _record_requeued_node o race l spec principal_id (Some inspection)
      else _record_reconciliation_required o race l spec principal_id (Some inspection) None
  end.

(** The specification of a lease, bound to this service's roots. *)
Definition lease_spec (active : ActiveLease) : result WorktreeExecutionSpec :=
  spec ← recast is_evidence_error conflict
           (worktree_execution_spec_from_mapping repository_ok isolation_ok (al_worktree_spec active));
  _ ← conflict_unless (bool_decide (ws_repository_root spec = repository_root)
        && bool_decide (ws_isolation_root spec = isolation_root));
  digest ← worktree_spec_digest spec;
  lease ← lease_digest (ws_lease spec);
  _ ← conflict_unless (bool_decide (digest = al_worktree_spec_digest active) && bool_decide (lease = al_lease_digest active));
  Ok spec.

Definition reconcile_run (git_retain : WorktreeExecutionSpec → result WorktreeInspection) (o : stamp) (race : db → db)
    (principal_id run_id : string) : txn (list RunResponse) :=
  l ← load run_id;
  match rl_active_lease (lr_state l) with
  | None => mret []
  | Some active =>
      spec ← lift (lease_spec active);
      _ ← reconcile_lease git_retain o race l active spec principal_id;
      l ← load run_id;
      response ← lift (_run_response l);
      mret [response]
  end.

(** [stamps] are the clock and the identifiers for each run. *)
Definition reconcile_startup (git_retain : WorktreeExecutionSpec → result WorktreeInspection) (stamps : string → stamp)
    (race : db → db) (principal_id : string) : txn (list RunResponse) :=
  _ ← lift (service_principal principal_id);
  run_ids ← query _run_ids;
  responses ← map_txn (λ run_id, reconcile_run git_retain (stamps run_id) race principal_id run_id) run_ids;
  mret (concat responses).

(** ** Old successful checkouts *)

Record _SuccessfulWorktreeCandidate := MkCandidate {
  cw_run_id : string;
  cw_node_id : string;
  cw_spec : WorktreeExecutionSpec;
  cw_head_commit : string;
  cw_success_position : Z;
  cw_cleanup_status : CleanupStatus.t
}.

Definition success_positions (events : list EventEnvelope) : result (list (string * Z)) :=
  fold_result (λ d e,
      match jget "node_id" (payload e) with
      | JStr node_id =>
          if bool_decide (event_type e = NODE_SUCCEEDED)
          then position ← _global_position e; Ok (dict_set node_id position d) else Ok d
      | _ => Ok d
      end) [] events.

Definition node_candidate (run_id : string) (positions : list (string * Z)) (n : NodeState)
    : result (list _SuccessfulWorktreeCandidate) :=
  if negb (bool_decide (ns_status n = NodeStatus.SUCCEEDED)) || negb (ns_retained_worktree n) then Ok []
  else
    match ns_cleanup_status n, ns_head_commit n, ns_lease_digest n, ns_worktree_spec_digest n with
    | Some status, Some head, Some node_lease, Some node_digest =>
        spec_position ← recast is_evidence_error conflict (
          raw ← of_option LifecycleError (ns_worktree_spec n);
          spec ← worktree_execution_spec_from_mapping repository_ok isolation_ok raw;
          position ← of_option KeyError (dict_get (ns_node_id n) positions);
          Ok (spec, position));
        let spec := spec_position.1 in
        lease ← lease_digest (ws_lease spec);
        digest ← worktree_spec_digest spec;
        _ ← conflict_unless (bool_decide (ws_repository_root spec = repository_root)
              && bool_decide (ws_isolation_root spec = isolation_root) && bool_decide (wl_run_id (ws_lease spec) = run_id)
              && bool_decide (wl_node_id (ws_lease spec) = ns_node_id n) && bool_decide (lease = node_lease)
              && bool_decide (digest = node_digest));
        Ok [MkCandidate run_id (ns_node_id n) spec head spec_position.2 status]
    | _, _, _, _ => Err conflict
    end.

(** By position, then run, then node. *)
Definition candidate_leb (a b : _SuccessfulWorktreeCandidate) : bool :=
  (cw_success_position a <? cw_success_position b)
  || (cw_success_position a =? cw_success_position b)
     && (String.ltb (cw_run_id a) (cw_run_id b)
         || bool_decide (cw_run_id a = cw_run_id b) && String.leb (cw_node_id a) (cw_node_id b)).

Definition _successful_worktree_candidates (d : db) : result (list _SuccessfulWorktreeCandidate) :=
  run_ids ← _run_ids d;
  candidates ← map_result (λ run_id,
      l ← load_run run_id None d;
      positions ← success_positions (lr_events l);
      found ← map_result (node_candidate run_id positions) (rl_nodes (lr_state l));
      Ok (concat found)) run_ids;
  Ok (isort candidate_leb (concat candidates)).

Definition _require_successful_worktree_candidate (l : _LoadedRun) (c : _SuccessfulWorktreeCandidate)
    (expected_status : CleanupStatus.t) : result unit :=
  _ ← conflict_unless (bool_decide (rl_active_lease (lr_state l) = None));
  n ← of_option conflict (List.find (λ n, bool_decide (ns_node_id n = cw_node_id c)) (rl_nodes (lr_state l)));
  lease ← lease_digest (ws_lease (cw_spec c));
  digest ← worktree_spec_digest (cw_spec c);
  conflict_unless (bool_decide (ns_status n = NodeStatus.SUCCEEDED) && ns_retained_worktree n
    && bool_decide (ns_cleanup_status n = Some expected_status) && bool_decide (ns_head_commit n = Some (cw_head_commit c))
    && bool_decide (ns_lease_digest n = Some lease) && bool_decide (ns_worktree_spec_digest n = Some digest)).

Definition _successful_worktree_identity (c : _SuccessfulWorktreeCandidate) : result (list (string * pyval)) :=
  lease ← lease_digest (ws_lease (cw_spec c));
  digest ← worktree_spec_digest (cw_spec c);
  Ok [("run_id", PStr (cw_run_id c)); ("node_id", PStr (cw_node_id c)); ("lease_digest", PStr lease);
      ("worktree_spec_digest", PStr digest); ("head_commit", PStr (cw_head_commit c))].

(** One cleanup event of a candidate. *)
Definition append_cleanup (o : stamp) (race : db → db) (c : _SuccessfulWorktreeCandidate)
    (expected_status : CleanupStatus.t) (ty status key : string) (fields : list (string * pyval)) (retained : bool)
    (principal_id : string) : txn unit :=
  l ← load (cw_run_id c);
  _ ← lift (_require_successful_worktree_candidate l c expected_status);
  identity ← lift (_successful_worktree_identity c);
  digest ← lift (worktree_spec_digest (cw_spec c));
  _ ← _append_run_transitions o race l
        [MkTransition ty (identity ++ fields ++ [("retained_worktree", PBool retained); ("status", PStr status)])
           (key +:+ digest)] principal_id None;
  mret tt.

Definition _request_successful_worktree_cleanup (o : stamp) (race : db → db) (c : _SuccessfulWorktreeCandidate)
    (principal_id : string) : txn unit :=
  append_cleanup o race c CleanupStatus.ELIGIBLE NODE_WORKTREE_CLEANUP_REQUESTED "worktree-cleanup-requested"
    "worktree-cleanup-requested:" [] true principal_id.

Section Maintenance.
Context (git_remove : WorktreeExecutionSpec → string → result WorktreeRemoval).
Context (checkout_present : WorktreeExecutionSpec → bool).

Definition _finish_successful_worktree_cleanup (o : stamp) (race : db → db) (c : _SuccessfulWorktreeCandidate)
    (principal_id : string) : txn bool :=
  l ← load (cw_run_id c);
  _ ← lift (_require_successful_worktree_candidate l c CleanupStatus.REQUESTED);
  match git_remove (cw_spec c) (cw_head_commit c) with
  | Err (WorktreeLifecycleError code) =>
      _ ← append_cleanup o race c CleanupStatus.REQUESTED NODE_WORKTREE_CLEANUP_FAILED "worktree-cleanup-failed"
            "worktree-cleanup-failed:" [("failure_code", PStr code)] (checkout_present (cw_spec c)) principal_id;
      mret false
  | Err e => lift (Err e)
  | Ok removal =>
      digest ← lift (json_digest (worktree_removal_payload removal));
      _ ← append_cleanup o race c CleanupStatus.REQUESTED NODE_WORKTREE_CLEANED "worktree-cleaned" "worktree-cleaned:"
            [("removal_digest", PStr digest); ("removal", worktree_removal_payload removal)] false principal_id;
      mret true
  end.

Record WorktreeMaintenanceReport := MkMaintenance {
  mr_pending_recovered : Z;
  mr_cleanup_requested : Z;
  mr_cleaned : Z;
  mr_failed : Z;
  mr_retained : Z;
  mr_quota_satisfied : bool
}.
Definition _MAX_RETAINED_SUCCESSFUL_WORKTREES : Z := 1024.
Definition count_true (l : list bool) : Z := zlen (List.filter (λ b, b) l).

(** [stamps]: the clock and the identifiers of a candidate's two events. *)
Definition maintain_successful_worktrees (stamps : _SuccessfulWorktreeCandidate → stamp * stamp) (race : db → db)
    (max_retained : Z) (principal_id : string) : txn WorktreeMaintenanceReport :=
  _ ← lift (service_principal principal_id);
  _ ← lift (request_unless (z_between 0 max_retained _MAX_RETAINED_SUCCESSFUL_WORKTREES));
  known ← query _successful_worktree_candidates;
  let pending := List.filter (λ c, bool_decide (cw_cleanup_status c = CleanupStatus.REQUESTED)) known in
  recovered ← map_txn (λ c, _finish_successful_worktree_cleanup (stamps c).2 race c principal_id) pending;
  candidates ← query _successful_worktree_candidates;
  let excess := Z.max 0 (zlen candidates - max_retained) in
  let eligible := List.filter (λ c, bool_decide (cw_cleanup_status c = CleanupStatus.ELIGIBLE)) candidates in
  removed ← map_txn (λ c,
      _ ← _request_successful_worktree_cleanup (stamps c).1 race c principal_id;
      _finish_successful_worktree_cleanup (stamps c).2 race c principal_id) (take (Z.to_nat excess) eligible);
  left_ ← query _successful_worktree_candidates;
  let results := recovered ++ removed in
  mret (MkMaintenance (zlen pending) (zlen removed) (count_true results) (zlen results - count_true results) (zlen left_)
          (zlen left_ <=? max_retained)).
End Maintenance.
End Commands.
