(* ===== verification/RuntimeServiceFacts.v ===== *)
(** * What the runtime service guarantees

    The base commit of a claim carries the work of every writer the node depends
    on, the scheduler only offers nodes that can be claimed, the queries page
    through the whole ledger and always end, requests are immutable and
    idempotent, and a run only changes by transitions that were validated on the
    very stream they are appended to. *)

From S2P Require Import Prelude PyStr PyFloat Sha256 Json JsonText JsonFacts PyTime Contracts Events EventStore Projections.
From S2P Require Import RunLifecycle RunFacts Gateway PlanCompiler PlanFacts AttemptPolicy ExecutionRuntime RunJournal.
From S2P Require Import WireContracts WireFacts Worktree RuntimeService RuntimeCommands.
From Stdlib Require Import ZArith Lia Ascii String Sorting.Sorted Sorting.Permutation.
From stdpp Require Import base gmap sets list strings relations sorting.
Local Open Scope Z_scope.

(** The one element with a key is what a search for the key finds. *)
Lemma find_unique {A} (f : A → string) l x k : NoDup (map f l) → x ∈ l → f x = k →
  List.find (λ y, bool_decide (f y = k)) l = Some x.
Proof.
  intros Hnd Hx <-. induction l as [|y l IH]; [by apply elem_of_nil in Hx|]. cbn in *.
  apply NoDup_cons in Hnd as [Hy Hnd]. apply elem_of_cons in Hx as [->|Hx].
  - by rewrite bool_decide_eq_true_2.
  - rewrite bool_decide_eq_false_2; [auto|]. intros E. apply Hy. rewrite E. apply list_elem_of_fmap. eauto.
Qed.

(** ** The base commit of a node *)

Section BaseCommit.
Context (nodes : list PlanNode) (Hnd : NoDup (map pn_node_id nodes)).
Context (Hdd : ∀ n, n ∈ nodes → NoDup (pn_depends_on n)).
Context (Hk : ∀ n d, n ∈ nodes → d ∈ pn_depends_on n → d ∈ map pn_node_id nodes).
Abbreviation ids := (map pn_node_id nodes).

Lemma node_by_id_eq : node_by_id nodes = map (λ n, (pn_node_id n, n)) nodes.
Proof. by apply (dict_comprehension pn_node_id (λ n, n)). Qed.
Lemma node_by_id_get n : n ∈ nodes → dict_get (pn_node_id n) (node_by_id nodes) = Some n.
Proof. intros Hn. rewrite node_by_id_eq. by apply (dict_get_map pn_node_id (λ n, n)). Qed.
Lemma node_by_id_inv x n : dict_get x (node_by_id nodes) = Some n → n ∈ nodes ∧ pn_node_id n = x.
Proof. rewrite node_by_id_eq. intros (m & Hm & <- & <-)%(dict_get_map_inv pn_node_id (λ n, n)). done. Qed.

(** The dependencies that can still be put on the list. *)
Definition to_push (ancestors : list string) : nat :=
  length (concat (map pn_depends_on (List.filter (λ n, negb (bool_decide (pn_node_id n ∈ ancestors))) nodes))).

Lemma to_push_start : to_push [] = length (concat (map pn_depends_on nodes)).
Proof.
  unfold to_push. do 2 f_equal. f_equal. clear. induction nodes as [|n l IH]; [done|]. cbn. by rewrite IH.
Qed.

Lemma to_push_step ancestors n : n ∈ nodes → pn_node_id n ∉ ancestors →
  to_push ancestors = (length (pn_depends_on n) + to_push (ancestors ++ [pn_node_id n]))%nat.
Proof.
  unfold to_push. intros Hn Ha. revert Hnd Hn. clear -Ha. induction nodes as [|m l IH]; [by intros _ ?%elem_of_nil|].
  cbn [map]. intros [Hm Hl]%NoDup_cons Hn. cbn [List.filter].
  apply elem_of_cons in Hn as [->|Hn].
  - rewrite (bool_decide_eq_false_2 (pn_node_id m ∈ ancestors)) by done.
    rewrite (bool_decide_eq_true_2 (pn_node_id m ∈ ancestors ++ [pn_node_id m])) by (apply elem_of_app; right; by left).
    cbn [negb map concat]. rewrite length_app. f_equal. do 3 f_equal. apply List.filter_ext_in.
    intros k Hkl%list_elem_of_In. f_equal. apply bool_decide_ext. rewrite elem_of_app, list_elem_of_singleton.
    split; [by left|]. intros [?|E]; [done|]. exfalso. apply Hm. rewrite <-E. apply list_elem_of_fmap. eauto.
  - specialize (IH Hl Hn).
    assert (Hiff : pn_node_id m ∈ ancestors ++ [pn_node_id n] ↔ pn_node_id m ∈ ancestors).
    { rewrite elem_of_app, list_elem_of_singleton. split; [|by left]. intros [?|E]; [done|]. exfalso. apply Hm. rewrite E.
      apply list_elem_of_fmap. eauto. }
    rewrite (bool_decide_ext _ _ Hiff). destruct (negb _); cbn [map concat]; rewrite ?length_app; lia.
Qed.

(** What is visited so far, on the way to the ancestors of [t]. *)
Record visiting (t : PlanNode) (ancestors pending : list string) : Prop := MkVisiting {
  v_sound : ∀ x, x ∈ ancestors ++ pending → tc (node_depends nodes) x (pn_node_id t);
  v_start : ∀ d, d ∈ pn_depends_on t → d ∈ ancestors ++ pending;
  v_closed : ∀ n d, n ∈ nodes → pn_node_id n ∈ ancestors → d ∈ pn_depends_on n → d ∈ ancestors ++ pending
}.

Lemma depends_known x y : tc (node_depends nodes) x y → x ∈ ids.
Proof. induction 1 as [x y (n & Hn & _ & Hx)|x y z (n & Hn & _ & Hx)]; by eapply Hk. Qed.

Lemma visiting_step t ancestors rest n : n ∈ nodes → visiting t ancestors (rest ++ [pn_node_id n]) →
  visiting t (ancestors ++ [pn_node_id n]) (rest ++ pn_depends_on n).
Proof.
  intros Hn [Hs Ht Hc].
  assert (Hsub : ∀ x, x ∈ ancestors ++ rest ++ [pn_node_id n] →
    x ∈ (ancestors ++ [pn_node_id n]) ++ rest ++ pn_depends_on n).
  { intros x. rewrite !elem_of_app. tauto. }
  assert (Hnt : tc (node_depends nodes) (pn_node_id n) (pn_node_id t)).
  { apply Hs. rewrite !elem_of_app. right. right. by left. }
  split.
  - intros x. rewrite !elem_of_app. intros [[?|?]|[?|Hx]].
    + apply Hs. rewrite !elem_of_app. tauto.
    + apply Hs. rewrite !elem_of_app. tauto.
    + apply Hs. rewrite !elem_of_app. tauto.
    + eapply tc_l; [|exact Hnt]. by exists n.
  - intros d Hd. by apply Hsub, Ht.
  - intros m d Hm Hma Hd. apply elem_of_app in Hma as [Hma|Hma%list_elem_of_singleton].
    + apply Hsub. by eapply Hc.
    + assert (m = n) as ->.
      { pose proof (node_by_id_get m Hm) as H1. rewrite Hma, (node_by_id_get n Hn) in H1. by injection H1. }
      rewrite !elem_of_app. tauto.
Qed.

Lemma visiting_skip t ancestors rest x : x ∈ ancestors → visiting t ancestors (rest ++ [x]) → visiting t ancestors rest.
Proof.
  intros Hx [Hs Ht Hc].
  assert (Hsub : ∀ y, y ∈ ancestors ++ rest ++ [x] → y ∈ ancestors ++ rest).
  { intros y. rewrite !elem_of_app, list_elem_of_singleton. naive_solver. }
  split.
  - intros y Hy. apply Hs. rewrite app_assoc. apply elem_of_app. by left.
  - intros d Hd. by apply Hsub, Ht.
  - intros m d Hm Hma Hd. apply Hsub. by eapply Hc.
Qed.

Lemma visited_all t ancestors : t ∈ nodes → visiting t ancestors [] →
  ∀ x, x ∈ ancestors ↔ tc (node_depends nodes) x (pn_node_id t).
Proof.
  intros Ht [Hs Hstart Hc] x. rewrite app_nil_r in *. split; [apply Hs|]. intros H.
  assert (Hgo : ∀ a b, tc (node_depends nodes) a b → b = pn_node_id t → a ∈ ancestors); [|by eapply Hgo].
  clear x H. induction 1 as [a b (n & Hn & Hb & Ha)|a c b (n & Hn & Hb & Ha) H IH]; intros ->.
  - apply Hstart. assert (n = t) as <-; [|done].
    pose proof (node_by_id_get n Hn) as H1. rewrite Hb, (node_by_id_get t Ht) in H1. by injection H1.
  - apply (Hc n); [done| |done]. rewrite Hb. by apply IH.
Qed.

Lemma visit_ancestors_spec t fuel : t ∈ nodes → ∀ ancestors pending, visiting t ancestors pending →
  (length pending + to_push ancestors <= fuel)%nat →
  ∃ out, visit_ancestors fuel (node_by_id nodes) ancestors pending = Ok out
    ∧ ∀ x, x ∈ out ↔ tc (node_depends nodes) x (pn_node_id t).
Proof.
  intros Ht. induction fuel as [|fuel IH]; intros ancestors pending Hv Hf.
  all: destruct pending as [|y l _] using rev_ind; cbn [visit_ancestors]; rewrite ?rev_app_distr; cbn [rev app].
  1, 3: exists ancestors; (split; [done|by apply visited_all]).
  - rewrite length_app in Hf. cbn in Hf. lia.
  - rewrite rev_involutive. rewrite length_app in Hf. cbn in Hf. case_bool_decide as Hy.
    + apply IH; [by eapply visiting_skip|lia].
    + assert (Hy' : y ∈ ids). { eapply depends_known, (v_sound _ _ _ Hv). rewrite !elem_of_app. right. right. by left. }
      apply node_of in Hy' as (n & Hn & ->). rewrite node_by_id_get by done. cbn [of_option mbind result_bind].
      apply IH; [by apply visiting_step|]. rewrite length_app. rewrite (to_push_step _ n Hn Hy) in Hf. lia.
Qed.

Lemma visit_node t : t ∈ nodes →
  ∃ out, visit_ancestors (visit_fuel nodes) (node_by_id nodes) [] (pn_depends_on t) = Ok out
    ∧ ∀ x, x ∈ out ↔ tc (node_depends nodes) x (pn_node_id t).
Proof.
  intros Ht. apply visit_ancestors_spec; [done| |].
  - split.
    + intros x Hx. apply tc_once. by exists t.
    + done.
    + by intros n d _ ?%elem_of_nil.
  - rewrite to_push_start. unfold visit_fuel.
    assert (length (pn_depends_on t) <= length (concat (map pn_depends_on nodes)))%nat; [|lia].
    clear -Ht. induction nodes as [|n l IH]; [by apply elem_of_nil in Ht|]. cbn. rewrite length_app.
    apply elem_of_cons in Ht as [->|Ht]; [lia|]. specialize (IH Ht). lia.
Qed.
End BaseCommit.

(** The base commit of a node of an accepted plan: the head of the last writer
    among its ancestors, in the plan's order. *)
Section AcceptedPlan.
Context (plan : PlanRequest) (Hb : ∀ n, n ∈ plq_nodes plan → plan_node_init n = Ok n).
Context (Hp : plan_request_init plan = Ok plan).
Abbreviation nodes := (plq_nodes plan).

Lemma accepted_nd : NoDup (map pn_node_id nodes).
Proof. by apply (plan_request_accepts plan Hb) in Hp as (_ & ? & _). Qed.
Lemma accepted_dd n : n ∈ nodes → NoDup (pn_depends_on n).
Proof. intros Hn. exact (proj1 (proj2 (plan_node_built _ _ (Hb n Hn)))). Qed.
Lemma accepted_known n d : n ∈ nodes → d ∈ pn_depends_on n → d ∈ map pn_node_id nodes.
Proof. intros Hn. apply (plan_request_accepts plan Hb) in Hp as (_ & _ & Hk & _). by apply Hk. Qed.
Lemma accepted_order : ∃ order, plan_topological_order nodes = Ok order ∧ order ≡ₚ map pn_node_id nodes
  ∧ respects (dependencies_of (map as_task nodes)) order.
Proof.
  apply (plan_request_accepts plan Hb) in Hp as (_ & Hnd & _ & Hs & _).
  pose proof (plan_order_spec nodes Hnd accepted_dd) as H.
  destruct (plan_topological_order nodes) as [order|e]; [|by destruct (Hs (proj2 H))].
  destruct H as (? & ? & _). by exists order.
Qed.
Lemma accepted_chain a b : node_writer nodes a → node_writer nodes b → a ≠ b →
  tc (node_depends nodes) a b ∨ tc (node_depends nodes) b a.
Proof. apply (plan_request_accepts plan Hb) in Hp as (_ & _ & _ & _ & Hw). apply Hw. Qed.

(** A writer whose work [t] builds on. *)
Definition writes_before (t : PlanNode) (w : string) : Prop :=
  node_writer nodes w ∧ tc (node_depends nodes) w (pn_node_id t).

(** Of two writers in the order's order, the second depends on the first. *)
Lemma ordered_writers order v w i j : order ≡ₚ map pn_node_id nodes → respects (dependencies_of (map as_task nodes)) order →
  node_writer nodes v → node_writer nodes w → (i < j)%nat → order !! i = Some v → order !! j = Some w →
  tc (node_depends nodes) v w.
Proof.
  intros Ho Hr Hv Hw Hij Hi Hj. assert (Hno : NoDup order) by (rewrite Ho; apply accepted_nd).
  assert (Hne : v ≠ w). { intros ->. pose proof (NoDup_lookup _ _ _ _ Hno Hi Hj). lia. }
  destruct (accepted_chain v w) as [|H]; [done..|]. exfalso. apply tc_node_depends in H.
  destruct (tc_before (map as_task nodes) ltac:(rewrite task_ids; apply accepted_nd) order w v i Hr H Hi) as (k & Hk & Hkw).
  pose proof (NoDup_lookup _ _ _ _ Hno Hj Hkw). lia.
Qed.

Lemma writer_test t x : t ∈ nodes → ∀ ancestors : list string, (∀ x, x ∈ ancestors ↔ tc (node_depends nodes) x (pn_node_id t)) →
  bool_decide (x ∈ ancestors) && match dict_get x (node_by_id nodes) with Some n => writes n | None => false end = true
  ↔ writes_before t x.
Proof.
  intros Ht ancestors Ha. rewrite andb_true_iff, bool_decide_eq_true, Ha. unfold writes_before, node_writer.
  split; intros [H1 H2]; (split; [|try done]); [|done|].
  - destruct (dict_get x (node_by_id nodes)) as [n|] eqn:E; [|done]. apply node_by_id_inv in E as [? <-]; [|apply accepted_nd].
    by exists n.
  - destruct H1 as (n & Hn & <- & Hw). by rewrite node_by_id_get by (done || apply accepted_nd).
Qed.

Lemma base_commit_cases t heads : t ∈ nodes →
  (¬ (∃ w, writes_before t w) ∧ _node_base_commit plan (pn_node_id t) heads = Ok (plq_base_commit plan))
  ∨ ∃ w, writes_before t w ∧ (∀ v, writes_before t v → v = w ∨ tc (node_depends nodes) v w)
    ∧ _node_base_commit plan (pn_node_id t) heads
      = (head ← of_option LifecycleError (dict_get w heads); _commit_id (JStr head)).
Proof.
  intros Ht. unfold _node_base_commit. rewrite node_by_id_get by (done || apply accepted_nd). cbn [of_option mbind result_bind].
  destruct (visit_node nodes accepted_nd accepted_known t Ht) as (anc & -> & Hanc). cbn [mbind result_bind].
  destruct accepted_order as (order & -> & Ho & Hr). cbn [mbind result_bind].
  set (f := λ x, bool_decide (x ∈ anc) && _). pose proof (filter_positions f order) as Hsort.
  assert (Hin : ∀ x, x ∈ List.filter f order ↔ writes_before t x).
  { intros x. rewrite elem_of_listfilter. unfold f. rewrite (writer_test t x Ht anc Hanc).
    split; [tauto|]. intros H. split; [|done]. rewrite Ho. destruct H as [(n & Hn & <- & _) _].
    apply list_elem_of_fmap. eauto. }
  destruct (List.filter f order) as [|w l _] eqn:E using rev_ind.
  - left. split; [|done]. intros [w Hw%Hin]. by apply elem_of_nil in Hw.
  - right. rewrite last_snoc. exists w.
    assert (Hw : writes_before t w) by (apply Hin, elem_of_app; right; by left). split; [done|]. split; [|done].
    intros v Hv. pose proof (proj2 (Hin v) Hv) as [Hvl|Hvw%list_elem_of_singleton]%elem_of_app; [right|by left].
    destruct (StronglySorted_app_1_elem_of _ _ _ v w Hsort Hvl) as (i & j & Hij & Hi & Hj); [by left|].
    apply (ordered_writers order v w i j); try done; [apply Hv|apply Hw].
Qed.
End AcceptedPlan.

(** ** Loaded runs *)

(** What msgspec's conversion promises: the contract's own checks ran. *)
Definition plan_accepted (plan : PlanRequest) : Prop :=
  plan_request_init plan = Ok plan ∧ ∀ n, n ∈ plq_nodes plan → plan_node_init n = Ok n.

Record loaded_ok (l : _LoadedRun) : Prop := MkLoadedOk {
  lo_plan : plan_accepted (lr_plan l);
  lo_nodes : map ns_node_id (rl_nodes (lr_state l)) = sort_strings (map pn_node_id (plq_nodes (lr_plan l)))
}.

Lemma plan_dependencies_eq plan : NoDup (map pn_node_id (plq_nodes plan)) →
  plan_dependencies plan = map (λ n, (pn_node_id n, pn_depends_on n)) (plq_nodes plan).
Proof. intros Hnd. by apply (dict_comprehension pn_node_id pn_depends_on). Qed.

Lemma plan_dependencies_keys plan : NoDup (map pn_node_id (plq_nodes plan)) →
  dict_keys (plan_dependencies plan) = map pn_node_id (plq_nodes plan).
Proof. intros Hnd. rewrite plan_dependencies_eq by done. unfold dict_keys. by rewrite <-list_fmap_compose. Qed.

(** A folded run has one state for each node, in the order of identifiers. *)
Lemma folded_nodes run_id deps events st : NoDup (dict_keys deps) → fold_run_lifecycle run_id deps events = Ok st →
  map ns_node_id (rl_nodes st) = sort_strings (dict_keys deps).
Proof.
  intros Hnd (s & Hs & _ & -> & _)%fold_inv. apply fold_preserves in Hs; [|done|apply initial_inv].
  rewrite <-(i_keys _ _ Hs). assert (Hn : NoDup (dict_keys (fs_nodes s))) by by eapply keys_NoDup.
  pose proof (i_ids _ _ Hs) as Hi. revert Hn Hi. generalize (fs_nodes s). clear. intros m. unfold dict_keys.
  induction m as [|[k n] m IH]; [done|]. cbn. intros [Hk Hm]%NoDup_cons Hi. f_equal.
  - apply Hi. by rewrite decide_True by done.
  - apply IH; [done|]. intros k' n' Hg. apply Hi. rewrite decide_False; [done|]. intros ->. apply Hk. by eapply dict_get_keys.
Qed.

Section LoadedRuns.
Context `{Contract ProjectRequest, Contract IntentRequest, Contract PlanRequest, Contract RunRequest}.
Context (normalize : string → string) (repository_root isolation_root : string).
Context (repository_ok isolation_ok : string → bool).
Context (Hconvert : ∀ v plan, convert v = Ok plan → plan_accepted plan).
Abbreviation load_run := (_load_run normalize repository_root isolation_root repository_ok isolation_ok).

Lemma decoded_plan e plan : _decode_request PlanRequest e = Ok plan → plan_accepted plan.
Proof.
  unfold _decode_request. intros Hd. apply bind_ok in Hd as (raw & _ & Hd). apply bind_ok in Hd as (r & Hr%recast_ok & Hd).
  apply bind_ok in Hd as (? & _ & Hd). apply bind_ok in Hd as (? & _ & [= <-]). by eapply Hconvert.
Qed.

Lemma load_run_ok run_id through d l : load_run run_id through d = Ok l → loaded_ok l.
Proof.
  unfold _load_run. intros Hl. apply bind_ok in Hl as (events & _ & Hl). destruct events as [|q events]; [done|].
  apply bind_ok in Hl as (? & _ & Hl). apply bind_ok in Hl as (request & _ & Hl). apply bind_ok in Hl as (? & _ & Hl).
  apply bind_ok in Hl as ([[[[pe ie] le] intent] plan] & Hreq & Hl).
  do 3 (apply bind_ok in Hl as (? & _ & Hl)).
  apply bind_ok in Hl as ([st k] & Hf & Hl). apply bind_ok in Hl as (? & _ & Hl). apply bind_ok in Hl as (? & _ & [= <-]).
  assert (Hp : plan_accepted plan).
  { unfold run_requests in Hreq. do 3 (apply bind_ok in Hreq as (? & _ & Hreq)). do 2 (apply bind_ok in Hreq as (? & _ & Hreq)).
    apply bind_ok in Hreq as (plan' & Hpl & Hreq). apply bind_ok in Hreq as (? & _ & [= <- <- <- <- <-]).
    by eapply decoded_plan. }
  split; [done|]. cbn. destruct Hp as [Hp Hb]. pose proof (accepted_nd plan Hb Hp) as Hnd.
  unfold fold_run in Hf. apply recast_ok in Hf. apply bind_ok in Hf as (st' & Hst & Hf). apply bind_ok in Hf as (? & _ & [= <- <-]).
  rewrite (folded_nodes _ _ _ _ ltac:(by rewrite plan_dependencies_keys) Hst). by rewrite plan_dependencies_keys.
Qed.
End LoadedRuns.

(** ** The scheduler *)

Definition node_succeeded (l : _LoadedRun) (x : string) : Prop :=
  ∃ s, s ∈ rl_nodes (lr_state l) ∧ ns_node_id s = x ∧ ns_status s = NodeStatus.SUCCEEDED.
Definition node_pending (l : _LoadedRun) (x : string) : Prop :=
  ∃ s, s ∈ rl_nodes (lr_state l) ∧ ns_node_id s = x ∧ ns_status s = NodeStatus.PENDING.

(** A node a worker may claim now. *)
Definition node_ready (l : _LoadedRun) (n : PlanNode) : Prop :=
  run_idle l = true ∧ lr_kernel_state l = None ∧ plq_planning_mode (lr_plan l) ≠ GENERATED
  ∧ n ∈ plq_nodes (lr_plan l) ∧ node_pending l (pn_node_id n)
  ∧ ∀ x, x ∈ pn_depends_on n → node_succeeded l x.

Section Ready.
Context (l : _LoadedRun) (Hl : loaded_ok l).
Abbreviation nodes := (plq_nodes (lr_plan l)).
Abbreviation states := (node_states l).

Lemma loaded_nd : NoDup (map pn_node_id nodes).
Proof. destruct (lo_plan l Hl) as [Hp Hb]. by apply (accepted_nd (lr_plan l)). Qed.
Lemma states_nd : NoDup (map ns_node_id (rl_nodes (lr_state l))).
Proof. rewrite (lo_nodes l Hl). unfold sort_strings. rewrite isort_perm. apply loaded_nd. Qed.
Lemma states_eq : states = map (λ n, (ns_node_id n, n)) (rl_nodes (lr_state l)).
Proof. apply (dict_comprehension ns_node_id (λ n, n)), states_nd. Qed.
Lemma states_get x : x ∈ map pn_node_id nodes →
  ∃ s, dict_get x states = Some s ∧ s ∈ rl_nodes (lr_state l) ∧ ns_node_id s = x.
Proof.
  intros Hx. assert (Hx' : x ∈ map ns_node_id (rl_nodes (lr_state l))).
  { rewrite (lo_nodes l Hl). unfold sort_strings. by rewrite isort_perm. }
  apply list_elem_of_fmap in Hx' as (s & -> & Hs). exists s. split; [|done]. rewrite states_eq.
  apply (dict_get_map ns_node_id (λ n, n)); [apply states_nd|done].
Qed.
Lemma states_unique s s' : s ∈ rl_nodes (lr_state l) → s' ∈ rl_nodes (lr_state l) → ns_node_id s = ns_node_id s' → s = s'.
Proof.
  intros Hs Hs' E. pose proof (dict_get_map ns_node_id (λ n, n) _ s states_nd Hs) as H1.
  pose proof (dict_get_map ns_node_id (λ n, n) _ s' states_nd Hs') as H2. rewrite E, H2 in H1. by injection H1.
Qed.

Lemma all_done_cases ds : (∀ x, x ∈ ds → x ∈ map pn_node_id nodes) →
  (all_done states ds = Ok true ∧ ∀ x, x ∈ ds → node_succeeded l x)
  ∨ (all_done states ds = Ok false ∧ ¬ ∀ x, x ∈ ds → node_succeeded l x).
Proof.
  induction ds as [|x ds IH]; cbn [all_done]; intros Hk; [left; split; [done|]; by intros x ?%elem_of_nil|].
  destruct (states_get x) as (s & -> & Hs & Hx); [apply Hk; by left|]. cbn [of_option mbind result_bind].
  case_bool_decide as E.
  - destruct IH as [[-> H]|[-> H]]; [intros; apply Hk; by right|left|right]; (split; [done|]).
    + intros y [->|Hy]%elem_of_cons; [by exists s|auto].
    + intros H'. apply H. intros y Hy. apply H'. by right.
  - right. split; [done|]. intros H. destruct (H x) as (s' & Hs' & Hx' & E'); [by left|].
    by rewrite (states_unique s s') in E by congruence.
Qed.

Lemma first_ready_cases order : run_idle l = true → lr_kernel_state l = None → plq_planning_mode (lr_plan l) ≠ GENERATED →
  (∀ x, x ∈ order → x ∈ map pn_node_id nodes) →
  (∃ n, first_ready states (node_by_id nodes) order = Ok (Some n) ∧ node_ready l n)
  ∨ (first_ready states (node_by_id nodes) order = Ok None ∧ ∀ n, pn_node_id n ∈ order → ¬ node_ready l n).
Proof.
  intros Hi Hk Hm. induction order as [|x order IH]; cbn [first_ready]; intros Ho; [right; split; [done|]; by intros n ?%elem_of_nil|].
  assert (Hx := Ho x (list_elem_of_here _ _)). destruct (states_get x Hx) as (s & -> & Hs & Hsx).
  apply list_elem_of_fmap in Hx as (n & -> & Hn). rewrite node_by_id_get by (done || apply loaded_nd).
  cbn [of_option mbind result_bind]. destruct (lo_plan l Hl) as [Hp Hb].
  assert (Hrest : ∀ r, ¬ node_ready l n →
    (∃ n, r = Ok (Some n) ∧ node_ready l n) ∨ (r = Ok None ∧ ∀ n, pn_node_id n ∈ order → ¬ node_ready l n) →
    (∃ n, r = Ok (Some n) ∧ node_ready l n) ∨ (r = Ok None ∧ ∀ m, pn_node_id m ∈ pn_node_id n :: order → ¬ node_ready l m)).
  { intros r Hnr [?|[-> H]]; [by left|right; split; [done|]]. intros m [E|Hm']%elem_of_cons; [|by apply H].
    intros Hr. apply Hnr. assert (m = n) as <-; [|done]. destruct Hr as (_ & _ & _ & Hmn & _).
    pose proof (node_by_id_get nodes loaded_nd n Hn) as H1. rewrite <-E, (node_by_id_get nodes loaded_nd m Hmn) in H1. by injection H1. }
  case_bool_decide as E.
  - destruct (all_done_cases (pn_depends_on n)) as [[-> H]|[-> H]].
    + intros y. by apply (accepted_known (lr_plan l) Hb Hp n).
    + left. exists n. split; [done|]. split_and!; try done. by exists s.
    + cbn [mbind result_bind]. apply Hrest; [|apply IH; intros; apply Ho; by right]. intros (_ & _ & _ & _ & _ & H'). auto.
  - apply Hrest; [|apply IH; intros; apply Ho; by right]. intros (_ & _ & _ & _ & (s' & Hs' & Hx' & E') & _).
    by rewrite (states_unique s s') in E by congruence.
Qed.

(** A ready node is accepted by the claim. *)
Lemma ready_claimable n : node_ready l n → ∃ s, claimable l (pn_node_id n) = Ok (s, n).
Proof.
  intros (Hi & Hk & _ & Hn & (s & Hs & Hsn & Hp) & _). unfold claimable. rewrite Hk, Hi.
  rewrite (bool_decide_eq_true_2 (None = None)) by done. cbn [andb conflict_unless negb raise_if mbind result_bind].
  rewrite (find_unique ns_node_id _ s) by (done || apply states_nd).
  rewrite (find_unique pn_node_id _ n) by (done || apply loaded_nd). cbn [of_option mbind result_bind].
  rewrite Hp, bool_decide_eq_true_2 by done. by exists s.
Qed.
End Ready.

Section NextReady.
Context (load : string → option Z → db → result _LoadedRun) (d : db).
Context (Hload : ∀ id l, load id None d = Ok l → loaded_ok l).

(** One run of the queue: it offers a node or it is passed over. *)
Lemma next_ready_step id l ids : load id None d = Ok l →
  (∃ n, next_ready_from load d (id :: ids) = Ok (Some (MkReadyNode id n)) ∧ node_ready l n)
  ∨ (next_ready_from load d (id :: ids) = next_ready_from load d ids ∧ ∀ n, ¬ node_ready l n).
Proof.
  intros Hl. cbn [next_ready_from]. rewrite Hl. cbn [mbind result_bind]. apply Hload in Hl.
  destruct (run_idle l) eqn:Hi; [cbn [negb orb]|right; split; [done|]; intros n (? & _); congruence].
  case_bool_decide as Hk; [cbn [orb]; right; split; [done|]; intros n (_ & E & _); rewrite E in Hk; by destruct Hk|].
  case_bool_decide as Hm; [cbn [orb]; right; split; [done|]; by intros n (_ & _ & ? & _)|]. cbn [orb].
  destruct (lo_plan l Hl) as [Hp Hb].
  destruct (accepted_order (lr_plan l) Hb Hp) as (order & -> & Ho & _). cbn [mbind result_bind].
  assert (Hko : lr_kernel_state l = None). { destruct (lr_kernel_state l); [|done]. destruct Hk. by eexists. }
  destruct (first_ready_cases l Hl order Hi Hko Hm) as [(n & -> & Hn)|[-> Hn]]; cbn [mbind result_bind].
  - intros x. by rewrite Ho.
  - left. by exists n.
  - right. split; [done|]. intros n Hr. apply (Hn n); [|done]. rewrite Ho. destruct Hr as (_ & _ & _ & Hn' & _).
    apply list_elem_of_fmap. eauto.
Qed.

Lemma next_ready_from_cases ids :
  match next_ready_from load d ids with
  | Ok (Some r) => ∃ before rest l, ids = before ++ rn_run_id r :: rest ∧ load (rn_run_id r) None d = Ok l
      ∧ node_ready l (rn_node r)
      ∧ ∀ id, id ∈ before → ∃ l', load id None d = Ok l' ∧ ∀ n, ¬ node_ready l' n
  | Ok None => ∀ id, id ∈ ids → ∃ l, load id None d = Ok l ∧ ∀ n, ¬ node_ready l n
  | Err e => ∃ id, id ∈ ids ∧ load id None d = Err e
  end.
Proof.
  induction ids as [|id ids IH]; [by intros id ?%elem_of_nil|].
  destruct (load id None d) as [l|e] eqn:Hl.
  - destruct (next_ready_step id l ids Hl) as [(n & -> & Hn)|[-> Hn]].
    + exists [], ids, l. split_and!; try done. by intros id' ?%elem_of_nil.
    + destruct (next_ready_from load d ids) as [[r|]|e].
      * destruct IH as (before & rest & l' & -> & Hl' & Hr & Hb). exists (id :: before), rest, l'. split_and!; try done.
        intros id' [->|Hid]%elem_of_cons; [by exists l|auto].
      * intros id' [->|Hid]%elem_of_cons; [by exists l|auto].
      * destruct IH as (id' & ? & ?). exists id'. split; [by right|done].
  - cbn [next_ready_from]. rewrite Hl. cbn [mbind result_bind]. exists id. split; [by left|done].
Qed.
End NextReady.

(** ** Properties *)

(** C5 (base_commit_exact): for a plan that was accepted, the commit a node's
    checkout starts from is total and never loses work.  A node with no writer
    among its transitive dependencies starts from the plan's base commit; any
    other starts from the recorded head of one writer among them that itself
    depends, transitively, on every other one, so that head contains all their
    changes; and a node the plan does not have is refused. *)
Theorem base_commit_exact plan (Hb : ∀ n, n ∈ plq_nodes plan → plan_node_init n = Ok n)
    (Hp : plan_request_init plan = Ok plan) heads :
  (∀ t, t ∈ plq_nodes plan →
    (¬ (∃ w, writes_before plan t w) ∧ _node_base_commit plan (pn_node_id t) heads = Ok (plq_base_commit plan))
    ∨ ∃ w, writes_before plan t w ∧ (∀ v, writes_before plan t v → v = w ∨ tc (node_depends (plq_nodes plan)) v w)
      ∧ _node_base_commit plan (pn_node_id t) heads
        = (head ← of_option LifecycleError (dict_get w heads); _commit_id (JStr head)))
  ∧ ∀ x, x ∉ map pn_node_id (plq_nodes plan) → _node_base_commit plan x heads = Err LifecycleError.
Proof.
  split; [intros t; by apply base_commit_cases|]. intros x Hx. unfold _node_base_commit.
  destruct (dict_get x (node_by_id (plq_nodes plan))) as [n|] eqn:E; [|done].
  apply node_by_id_inv in E as [Hn <-]; [|by apply accepted_nd]. destruct Hx. apply list_elem_of_fmap. eauto.
Qed.

