(* ===== verification/RuntimeQueryFacts.v ===== *)
(** * The runtime service's queries page through the whole ledger

    Pages chained by their cursor cover every event once, the queue lists every
    submitted run once in the order of submission, and a run query always ends
    within its bounds. *)

From S2P Require Import Prelude PyStr PyFloat Sha256 Json JsonText JsonFacts PyTime Contracts Events EventStore Projections.
From S2P Require Import RunLifecycle Gateway PlanCompiler AttemptPolicy ExecutionRuntime RunJournal.
From S2P Require Import WireContracts Worktree RuntimeService.
From Stdlib Require Import ZArith Lia Ascii String.
From stdpp Require Import base gmap sets list strings.
Local Open Scope Z_scope.

Section Ledger.
Context (d : db) (Hd : db_ok d) (es : list EventEnvelope).
Context (Hes : map_result _event_from_row (kernel_events d) = Ok es).

(** The events after cursor [k], at most [n] of them. *)
Abbreviation page k n := (take (Z.to_nat n) (drop (Z.to_nat k) es)).

Lemma ledger_read k n : 0 <= k → 1 <= n → read_all d k (Some n) = Ok (page k n).
Proof.
  intros Hk Hn. rewrite read_all_slice; [|done|done|by intros ? [= <-]]. apply map_result_ok. cbn [limited].
  apply Forall2_take, Forall2_drop. by apply map_result_ok.
Qed.

Lemma ledger_position i e : es !! i = Some e → global_position e = Some (Z.of_nat i + 1).
Proof.
  intros Hi. pose proof (proj1 (map_result_ok _ _ _) Hes) as H.
  destruct (Forall2_lookup_r _ _ _ _ _ H Hi) as (r & Hr & (-> & _ & _)%event_from_row_fields).
  pose proof (ok_positions d Hd) as Hp. assert (Hri : map r_position (kernel_events d) !! i = Some (r_position r)).
  { by rewrite list_lookup_fmap, Hr. }
  rewrite Hp in Hri. apply lookup_seqZ in Hri as [-> _]. f_equal. lia.
Qed.

Lemma page_last k n e : 0 <= k → last (page k n) = Some e → _global_position e = Ok (k + zlen (page k n)).
Proof.
  intros Hk. rewrite last_lookup. intros H. pose proof (lookup_lt_Some _ _ _ H) as Hlt.
  apply lookup_take_Some in H as [H _]. rewrite lookup_drop in H. apply ledger_position in H.
  unfold _global_position. rewrite H. cbn [of_option]. f_equal. unfold zlen. lia.
Qed.

Lemma page_length k n : 0 <= k → 0 <= n → zlen (page k n) = Z.min n (Z.max 0 (zlen es - k)).
Proof. intros. unfold zlen. rewrite length_take, length_drop. lia. Qed.

(** ** Events *)

Definition runtime_event (e : EventEnvelope) : bool := bool_decide (event_type e ∈ _RUNTIME_EVENT_TYPES).

Lemma list_events_page k limit : 0 <= k → 1 <= limit <= MAX_RUNTIME_EVENT_PAGE_SIZE →
  list_events k limit d =
    (events ← map_result _event_response (List.filter runtime_event (page k limit));
     Ok (MkRuntimeEventPage k limit (zlen (page k limit)) events (k + zlen (page k limit)) (k + limit <? zlen es))).
Proof.
  intros Hk Hl. unfold list_events, z_between.
  rewrite (proj2 (Z.leb_le 0 k)), (proj2 (Z.leb_le 1 limit)), (proj2 (Z.leb_le limit _)) by lia. cbn [andb negb mbind result_bind request_unless raise_if].
  rewrite ledger_read by lia. cbn [mbind result_bind]. rewrite take_take. replace (Z.to_nat limit `min` Z.to_nat (limit + 1))%nat with (Z.to_nat limit) by lia.
  fold runtime_event. destruct (map_result _event_response _) as [events|e]; [|done]. cbn [mbind result_bind].
  replace (limit <? zlen (page k (limit + 1))) with (k + limit <? zlen es).
  2: { rewrite page_length by lia. pose proof (zlen_nonneg es). destruct (Z.ltb_spec (k + limit) (zlen es)), (Z.ltb_spec limit (Z.min (limit + 1) (Z.max 0 (zlen es - k)))); lia. }
  destruct (last (page k limit)) as [e|] eqn:E; cbn [mbind result_bind].
  - by rewrite (page_last k limit e) by done.
  - apply last_None in E. rewrite E. change (zlen (@nil EventEnvelope)) with 0. by rewrite Z.add_0_r.
Qed.

(** A client that follows the cursor while there is more. *)
Fixpoint follow_events (fuel : nat) (cursor limit : Z) : result (list RuntimeEventResponse) :=
  match fuel with
  | O => Err (RuntimeError "out of fuel")
  | S fuel =>
      p ← list_events cursor limit d;
      if rep_has_more p then rest ← follow_events fuel (rep_next_cursor p) limit; Ok (rep_events p ++ rest)
      else Ok (rep_events p)
  end.

Lemma follow_events_cover limit : 1 <= limit <= MAX_RUNTIME_EVENT_PAGE_SIZE → ∀ fuel k rs, 0 <= k →
  zlen es - k < Z.of_nat fuel →
  map_result _event_response (List.filter runtime_event (drop (Z.to_nat k) es)) = Ok rs →
  (0 < fuel)%nat → follow_events fuel k limit = Ok rs.
Proof.
  intros Hl. induction fuel as [|fuel IH]; intros k rs Hk Hf Hrs Hpos; [lia|]. cbn [follow_events].
  rewrite list_events_page by done.
  rewrite <-(take_drop (Z.to_nat limit) (drop (Z.to_nat k) es)), List.filter_app in Hrs.
  apply map_result_app in Hrs as (r1 & r2 & -> & -> & H2). cbn [mbind result_bind rep_has_more rep_events rep_next_cursor].
  rewrite drop_drop in H2. destruct (Z.ltb_spec (k + limit) (zlen es)) as [Hmore|Hend].
  - rewrite page_length by lia. rewrite Z.min_l by lia. rewrite (IH (k + limit) r2); [done|lia|lia| |lia].
    by replace (Z.to_nat (k + limit)) with (Z.to_nat k + Z.to_nat limit)%nat by lia.
  - rewrite drop_ge in H2 by (unfold zlen in *; lia). injection H2 as <-. by rewrite app_nil_r.
Qed.

(** ** The queue *)

Definition submits (e : EventEnvelope) (x : string) : Prop :=
  event_type e = RUN_QUEUED ∧ starts_with "run:" (stream_id e) = true ∧ remove_prefix "run:" (stream_id e) = x.

Lemma run_ids_from_all : ∀ fuel k ids, 0 <= k → zlen es - k < Z.of_nat fuel → (0 < fuel)%nat →
  run_ids_from fuel d k ids = Ok (foldl add_run_id ids (drop (Z.to_nat k) es)).
Proof.
  induction fuel as [|fuel IH]; intros k ids Hk Hf Hpos; [lia|]. cbn [run_ids_from]. rewrite ledger_read by lia.
  cbn [mbind result_bind]. destruct (last (page k 200)) as [e|] eqn:E.
  - rewrite (page_last k 200 e) by done. cbn [mbind result_bind].
    assert (0 < zlen (page k 200)). { destruct (page k 200); [done|]. unfold zlen. cbn. lia. }
    rewrite page_length in * by lia. rewrite IH by lia. f_equal.
    rewrite <-(take_drop (Z.to_nat 200) (drop (Z.to_nat k) es)) at 2. rewrite foldl_app. f_equal. rewrite drop_drop.
    destruct (Z.le_gt_cases 200 (zlen es - k)); [f_equal; lia|]. rewrite !drop_ge; [done| |]; unfold zlen in *; lia.
  - apply last_None in E. assert (Hz : zlen (page k 200) = 0) by by rewrite E. rewrite page_length in Hz by lia.
    by rewrite drop_ge by (unfold zlen in *; lia).
Qed.

Lemma run_ids_eq : _run_ids d = Ok (foldl add_run_id [] es).
Proof.
  unfold _run_ids. rewrite run_ids_from_all; [done|lia| |lia].
  apply map_result_length in Hes. unfold zlen. lia.
Qed.
End Ledger.

Lemma add_run_id_cases ids e :
  (∃ x, submits e x ∧ x ∉ ids ∧ add_run_id ids e = ids ++ [x])
  ∨ add_run_id ids e = ids ∧ ∀ x, submits e x → x ∈ ids.
Proof.
  unfold add_run_id, submits. case_bool_decide as H1; cbn [andb]; [|right; split; [done|naive_solver]].
  destruct (starts_with _ _) eqn:H2; [|right; split; [done|naive_solver]]. case_bool_decide as H3.
  - right. split; [done|]. by intros x (_ & _ & <-).
  - left. eexists. by split_and!.
Qed.

Lemma run_ids_spec l : let ids := foldl add_run_id [] l in
  NoDup ids ∧ (∀ x, x ∈ ids ↔ ∃ e, e ∈ l ∧ submits e x)
  ∧ ∀ i j x y q e, ids !! i = Some x → ids !! j = Some y → (i < j)%nat → l !! q = Some e → submits e y →
      ∃ p e', (p < q)%nat ∧ l !! p = Some e' ∧ submits e' x.
Proof.
  cbn zeta. induction l as [|e l (IH1 & IH2 & IH3)] using rev_ind.
  { split_and!; [constructor| |done]. intros x. split; [by intros ?%elem_of_nil|]. by intros (e & ?%elem_of_nil & _). }
  rewrite foldl_snoc. set (ids := foldl add_run_id [] l) in *.
  assert (Hgrow : ∀ x q, (∃ p e', (p < q)%nat ∧ l !! p = Some e' ∧ submits e' x) →
    ∃ p e', (p < q)%nat ∧ (l ++ [e]) !! p = Some e' ∧ submits e' x).
  { intros x q (p & e' & ? & Hp & ?). exists p, e'. split_and!; [done|by apply lookup_app_l_Some|done]. }
  assert (Hnew : ∀ x, x ∈ ids → ∃ p e', (p < length l)%nat ∧ (l ++ [e]) !! p = Some e' ∧ submits e' x).
  { intros x (e' & [p Hp]%list_elem_of_lookup & ?)%IH2. apply Hgrow. exists p, e'. by split_and!; [eapply lookup_lt_Some| |]. }
  destruct (add_run_id_cases ids e) as [(z & Hz & Hn & ->)|[-> Hk]]; split_and!.
  - apply NoDup_app. split_and!; [done| |apply NoDup_singleton]. by intros x Hx ->%list_elem_of_singleton.
  - intros x. rewrite elem_of_app, IH2, list_elem_of_singleton. setoid_rewrite elem_of_app. setoid_rewrite list_elem_of_singleton.
    split.
    + intros [(e' & ? & ?)| ->]; eauto.
    + intros (e' & [?| ->] & Hs); [eauto|]. right. destruct Hz as (_ & _ & <-), Hs as (_ & _ & <-). done.
  - intros i j x y q e' Hi Hj Hij Hq Hs.
    apply lookup_snoc_Some in Hi as [[Hil Hi]|[-> _]].
    2: { apply lookup_lt_Some in Hj. rewrite length_app in Hj. cbn in Hj. lia. }
    apply lookup_snoc_Some in Hq as [[Hql Hq]|[-> <-]].
    + apply lookup_snoc_Some in Hj as [[_ Hj]|[-> <-]].
      * apply Hgrow. by eapply IH3.
      * exfalso. apply Hn, IH2. exists e'. split; [by eapply list_elem_of_lookup_2|done].
    + by apply Hnew, (list_elem_of_lookup_2 _ i).
  - done.
  - intros x. rewrite IH2. setoid_rewrite elem_of_app. setoid_rewrite list_elem_of_singleton. split.
    + intros (e' & ? & ?). eauto.
    + intros (e' & [?| ->] & Hs); [eauto|]. by apply IH2, Hk.
  - intros i j x y q e' Hi Hj Hij Hq Hs. apply lookup_snoc_Some in Hq as [[Hql Hq]|[-> <-]].
    + apply Hgrow. by eapply IH3.
    + by apply Hnew, (list_elem_of_lookup_2 _ i).
Qed.

(** ** Run queries *)

Section Query.
Context (load : string → option Z → db → result _LoadedRun).
Context (d : db) (Hd : db_ok d) (es : list EventEnvelope).
Context (Hes : map_result _event_from_row (kernel_events d) = Ok es).
Context (q : RunQueryRequest) (Hlimit : 1 <= rq_limit q) (Hafter : 0 <= rq_after_cursor q).
Abbreviation after := (rq_after_cursor q).
Abbreviation rest := (drop (Z.to_nat after) es).

(** What one event adds to the answer. *)
Definition collect (runs : list RunQueryItem) (e : EventEnvelope) : result (list RunQueryItem) :=
  match queued_run e with
  | None => Ok runs
  | Some run_id =>
      loaded ← load run_id None d;
      if _matches_run_query loaded q then item ← _run_query_item loaded; Ok (runs ++ [item]) else Ok runs
  end.

(** The answer after [m] events. *)
Definition scanned_to (m : nat) (runs : list RunQueryItem) : query_state :=
  MkQueryState (after + Z.of_nat m) (Z.of_nat m) runs.

Lemma query_event_eq m runs e : rest !! m = Some e →
  query_event load d q (scanned_to m runs) e = (runs' ← collect runs e; Ok (scanned_to (S m) runs')).
Proof.
  intros Hm. rewrite lookup_drop in Hm. apply (ledger_position d Hd es Hes) in Hm. unfold query_event, collect, _global_position.
  rewrite Hm. cbn [of_option mbind result_bind scanned_to qs_scanned qs_runs].
  assert (E : ∀ runs', MkQueryState (Z.of_nat (Z.to_nat after + m) + 1) (Z.of_nat m + 1) runs' = scanned_to (S m) runs').
  { intros runs'. unfold scanned_to. f_equal; lia. }
  destruct (queued_run e) as [run_id|]; cbn [mbind result_bind]; [|by rewrite E].
  destruct (load run_id None d) as [l|x]; cbn [mbind result_bind]; [|done].
  destruct (_matches_run_query l q); cbn [mbind result_bind]; [|by rewrite E].
  destruct (_run_query_item l); cbn [mbind result_bind]; [by rewrite E|done].
Qed.

Lemma collect_length runs e runs' : collect runs e = Ok runs' → zlen runs <= zlen runs' <= zlen runs + 1.
Proof.
  unfold collect. destruct (queued_run e); [|intros [= <-]; lia]. intros H. apply bind_ok in H as (l & _ & H).
  destruct (_matches_run_query l q); [|injection H as <-; lia]. apply bind_ok in H as (i & _ & [= <-]).
  rewrite zlen_app. change (zlen [i]) with 1. lia.
Qed.

Lemma query_full_eq m runs : query_full q (scanned_to m runs) = (1000 <=? Z.of_nat m) || (rq_limit q <=? zlen runs).
Proof. done. Qed.

(** Within the bounds, and not at one of them yet. *)
Definition within (m : nat) (runs : list RunQueryItem) : Prop := Z.of_nat m <= 1000 ∧ zlen runs <= rq_limit q.

Lemma within_step m runs e runs' : query_full q (scanned_to m runs) = false → collect runs e = Ok runs' → within (S m) runs'.
Proof. rewrite query_full_eq. intros H%orb_false_iff ?%collect_length. unfold within. lia. Qed.

Lemma query_page_cases page : ∀ m runs, query_full q (scanned_to m runs) = false →
  take (length page) (drop m rest) = page →
  match query_page load d q (scanned_to m runs) page with
  | Ok (s, full) => ∃ k runs', (k <= length page)%nat ∧ fold_result collect runs (take k page) = Ok runs'
      ∧ s = scanned_to (m + k) runs' ∧ (page ≠ [] → (0 < k)%nat) ∧ within (m + k) runs'
      ∧ query_full q s = full ∧ (full = false → k = length page)
  | Err e => ∃ k, fold_result collect runs (take k page) = Err e
  end.
Proof.
  induction page as [|e page IH]; intros m runs Hf Hp; cbn [query_page].
  - exists 0%nat, runs. rewrite Nat.add_0_r. rewrite query_full_eq in Hf. apply orb_false_iff in Hf as Hf'. unfold within.
    rewrite query_full_eq. split_and!; try done; lia.
  - cbn [length] in Hp. destruct (drop m rest) as [|e' tl] eqn:Hdrop; [done|]. cbn [take] in Hp. injection Hp as -> Hp.
    assert (Hm : rest !! m = Some e). { by rewrite <-(Nat.add_0_r m), <-lookup_drop, Hdrop. }
    assert (Htl : drop (S m) rest = tl). { rewrite <-Nat.add_1_r, <-drop_drop, Hdrop. done. }
    rewrite query_event_eq by done. destruct (collect runs e) as [runs'|x] eqn:Hc; cbn [mbind result_bind].
    2: { exists 1%nat. cbn. by rewrite Hc. }
    pose proof (within_step _ _ _ _ Hf Hc) as Hw. destruct (query_full q (scanned_to (S m) runs')) eqn:Hf'.
    + exists 1%nat, runs'. rewrite Nat.add_1_r. cbn. rewrite Hc. split_and!; try done; lia.
    + specialize (IH (S m) runs' Hf'). rewrite Htl in IH. specialize (IH Hp).
      destruct (query_page load d q (scanned_to (S m) runs') page) as [[s full]|x].
      * destruct IH as (k & runs2 & Hk & Hfold & -> & _ & Hw2 & Hfull & Hend). exists (S k), runs2. cbn. rewrite Hc. cbn.
        rewrite Nat.add_succ_r. split_and!; try done; try lia. intros E. by rewrite Hend.
      * destruct IH as [k Hk]. exists (S k). cbn. by rewrite Hc.
Qed.

Lemma query_pages_cases fuel : ∀ m runs, within m runs → (1000 <= Z.of_nat fuel + Z.of_nat m) →
  fold_result collect [] (take m rest) = Ok runs →
  match query_pages load fuel d q (scanned_to m runs) with
  | Ok (s, exhausted) => ∃ k runs', fold_result collect [] (take k rest) = Ok runs' ∧ s = scanned_to k runs'
      ∧ within k runs' ∧ (if exhausted then (length rest <= k)%nat else query_full q s = true)
  | Err e => ∃ k, fold_result collect [] (take k rest) = Err e
  end.
Proof.
  induction fuel as [|fuel IH]; intros m runs Hw Hfuel Hfold; cbn [query_pages];
    destruct (query_full q (scanned_to m runs)) eqn:Hf; try (exists m, runs; by split_and!).
  - exfalso. rewrite query_full_eq in Hf. apply orb_false_iff in Hf as [Hf _]. destruct Hw. lia.
  - assert (Hm : Z.of_nat m < 1000). { rewrite query_full_eq in Hf. apply orb_false_iff in Hf as [Hf _]. lia. }
    change (qs_scanned (scanned_to m runs)) with (Z.of_nat m). change (qs_cursor (scanned_to m runs)) with (after + Z.of_nat m).
    change MAX_RUN_QUERY_SCAN_EVENTS with 1000.
    set (size := Z.min 200 (1000 - Z.of_nat m)). assert (Hsize : 1 <= size <= 200) by lia.
    rewrite (ledger_read d Hd es Hes) by lia. cbn [mbind result_bind].
    assert (Hdrop : drop (Z.to_nat (after + Z.of_nat m)) es = drop m rest).
    { rewrite drop_drop. f_equal. lia. }
    rewrite Hdrop. set (page := take (Z.to_nat size) (drop m rest)).
    assert (Hlen : length page = (Z.to_nat size `min` (length rest - m))%nat). { unfold page. by rewrite length_take, length_drop. }
    case_bool_decide as Hnil.
    { exists m, runs. split_and!; try done. rewrite Hnil in Hlen. cbn [length] in Hlen. lia. }
    assert (Hself : take (length page) (drop m rest) = page).
    { rewrite Hlen. unfold page. destruct (Nat.le_ge_cases (Z.to_nat size) (length rest - m)).
      - by rewrite Nat.min_l.
      - rewrite Nat.min_r by done. by rewrite !take_ge by (rewrite length_drop; lia). }
    pose proof (query_page_cases page m runs Hf Hself) as Hpage.
    assert (Hjoin : ∀ k, (k <= length page)%nat → take (m + k) rest = take m rest ++ take k page).
    { intros k Hk. unfold page. rewrite take_take, Nat.min_l by lia. rewrite <-(take_drop m rest) at 1.
      destruct (Nat.le_ge_cases m (length rest)).
      - rewrite take_app_add'; [done|]. rewrite length_take. lia.
      - exfalso. destruct page; [done|]. cbn in Hlen. lia. }
    destruct (query_page load d q (scanned_to m runs) page) as [[s full]|x]; cbn [mbind result_bind fst snd].
    2: { destruct Hpage as [k Hk]. exists (m + k `min` length page)%nat. rewrite Hjoin by lia. rewrite fold_result_app, Hfold.
         cbn [mbind result_bind]. rewrite <-Hk. f_equal. destruct (Nat.le_ge_cases k (length page));
           [by rewrite Nat.min_l|rewrite Nat.min_r by done; by rewrite !take_ge by done]. }
    destruct Hpage as (k & runs' & Hk & Hfold' & -> & Hpos & Hw' & Hfull & Hend).
    assert (Hall : fold_result collect [] (take (m + k) rest) = Ok runs').
    { rewrite Hjoin by done. by rewrite fold_result_app, Hfold. }
    destruct full; [by exists (m + k)%nat, runs'|]. rewrite Hend in * by done.
    destruct (Z.ltb_spec (zlen page) size) as [Hlt|Hge].
    + exists (m + length page)%nat, runs'. split_and!; try done. unfold zlen in Hlt. lia.
    + apply IH; try done. specialize (Hpos Hnil). lia.
Qed.

Lemma query_runs_cases :
  match query_runs load q d with
  | Ok r => ∃ m, fold_result collect [] (take m rest) = Ok (rqr_runs r) ∧ within m (rqr_runs r)
      ∧ rqr_scanned_events r = Z.of_nat m ∧ rqr_next_cursor r = after + Z.of_nat m
      ∧ rqr_has_more r = (after + Z.of_nat m <? zlen es)
      ∧ (rqr_has_more r = false ∨ Z.of_nat m = MAX_RUN_QUERY_SCAN_EVENTS ∨ zlen (rqr_runs r) = rq_limit q)
  | Err e => ∃ m, fold_result collect [] (take m rest) = Err e
  end.
Proof.
  unfold query_runs. change (MkQueryState after 0 []) with (MkQueryState after (Z.of_nat 0) []).
  replace (MkQueryState after (Z.of_nat 0) []) with (scanned_to 0 []) by (unfold scanned_to; f_equal; lia).
  pose proof (query_pages_cases (Z.to_nat MAX_RUN_QUERY_SCAN_EVENTS) 0 []) as H.
  specialize (H ltac:(split; [done|change (zlen (@nil RunQueryItem)) with 0; lia]) ltac:(unfold MAX_RUN_QUERY_SCAN_EVENTS; lia) eq_refl).
  destruct (query_pages _ _ _ _ _) as [[s exhausted]|x]; cbn [mbind result_bind fst snd]; [|done].
  destruct H as (m & runs & Hfold & -> & Hw & Hend).
  assert (Hlen : length rest = (length es - Z.to_nat after)%nat) by apply length_drop.
  destruct exhausted; cbn [mbind result_bind].
  - exists m. cbn. assert (E : after + Z.of_nat m <? zlen es = false) by (apply Z.ltb_ge; unfold zlen; lia).
    rewrite E. split_and!; try done. by left.
  - change (qs_cursor (scanned_to m runs)) with (after + Z.of_nat m).
    rewrite (ledger_read d Hd es Hes) by lia. cbn [mbind result_bind].
    assert (E : negb (bool_decide (take (Z.to_nat 1) (drop (Z.to_nat (after + Z.of_nat m)) es) = [])) = (after + Z.of_nat m <? zlen es)).
    { apply eq_true_iff_eq. rewrite negb_true_iff, bool_decide_eq_false, Z.ltb_lt.
      destruct (Z.lt_ge_cases (after + Z.of_nat m) (zlen es)) as [Hlt|Hge].
      - split; [done|]. intros _ Hn. apply (f_equal length) in Hn. rewrite length_take, length_drop in Hn. unfold zlen in Hlt. cbn in Hn. lia.
      - rewrite drop_ge by (unfold zlen in Hge; lia). split; [by intros []|lia]. }
    rewrite E. exists m. cbn. split_and!; try done. rewrite query_full_eq in Hend. destruct Hw. right.
    change MAX_RUN_QUERY_SCAN_EVENTS with 1000. lia.
Qed.
End Query.

(** ** Properties *)

(** C29 (event_pages_cover): the event feed loses and repeats nothing.  On a sound
    ledger whose rows all read back, every page scans the next events up to its
    limit, moves the cursor past exactly those and says truthfully whether there
    are more; and a client that starts at 0 and follows the cursor, with any page
    size, stops after at most one request per event with every runtime event of
    the ledger, once each and in order. *)
Theorem event_pages_cover d (Hd : db_ok d) es (Hes : map_result _event_from_row (kernel_events d) = Ok es)
    limit (Hl : 1 <= limit <= MAX_RUNTIME_EVENT_PAGE_SIZE) :
  (∀ k p, 0 <= k → list_events k limit d = Ok p →
     rep_scanned_events p = Z.min limit (Z.max 0 (zlen es - k)) ∧ rep_next_cursor p = k + rep_scanned_events p
     ∧ (rep_has_more p = true ↔ rep_next_cursor p < zlen es))
  ∧ ∀ rs, map_result _event_response (List.filter runtime_event es) = Ok rs →
      follow_events d (S (length es)) 0 limit = Ok rs.
Proof.
  split.
  - intros k p Hk H. rewrite (list_events_page d Hd es Hes) in H by done. apply bind_ok in H as (events & _ & [= <-]). cbn.
    rewrite page_length by lia. split_and!; try done. rewrite Z.ltb_lt. pose proof (zlen_nonneg es). lia.
  - intros rs Hrs. apply (follow_events_cover d Hd es Hes); [done|done|unfold zlen; lia|done|lia].
Qed.

(** The queue of runs is total and exact on a sound ledger
    whose rows all read back: it ends, and it holds every submitted run's
    identifier exactly once, a run that was submitted first standing first. *)
Theorem run_queue_exact d (Hd : db_ok d) es (Hes : map_result _event_from_row (kernel_events d) = Ok es) :
  ∃ ids, _run_ids d = Ok ids ∧ NoDup ids ∧ (∀ x, x ∈ ids ↔ ∃ e, e ∈ es ∧ submits e x)
  ∧ ∀ i j x y q e, ids !! i = Some x → ids !! j = Some y → (i < j)%nat → es !! q = Some e → submits e y →
      ∃ p e', (p < q)%nat ∧ es !! p = Some e' ∧ submits e' x.
Proof. exists (foldl add_run_id [] es). split; [by apply run_ids_eq|]. apply run_ids_spec. Qed.

(** C31 (query_runs_exact): a run query always ends, whatever the runs are: it
    reads at most 1000 events and answers with at most the requested number of
    runs; the answer is, in order, exactly the matching runs submitted by the
    events it read; the cursor it returns stands behind those events, so a next
    query neither skips nor repeats one; it says truthfully whether events are
    left, and it only stops early at a bound.  It raises only what loading or
    presenting one of those runs raises. *)
Theorem query_runs_exact load d (Hd : db_ok d) es (Hes : map_result _event_from_row (kernel_events d) = Ok es)
    q (Hlimit : 1 <= rq_limit q) (Hafter : 0 <= rq_after_cursor q) :
  let read m := take m (drop (Z.to_nat (rq_after_cursor q)) es) in
  match query_runs load q d with
  | Ok r => ∃ m, fold_result (collect load d q) [] (read m) = Ok (rqr_runs r)
      ∧ Z.of_nat m <= MAX_RUN_QUERY_SCAN_EVENTS ∧ zlen (rqr_runs r) <= rq_limit q
      ∧ rqr_scanned_events r = Z.of_nat m ∧ rqr_next_cursor r = rq_after_cursor q + Z.of_nat m
      ∧ rqr_has_more r = (rqr_next_cursor r <? zlen es)
      ∧ (rqr_has_more r = false ∨ Z.of_nat m = MAX_RUN_QUERY_SCAN_EVENTS ∨ zlen (rqr_runs r) = rq_limit q)
  | Err e => ∃ m, fold_result (collect load d q) [] (read m) = Err e
  end.
Proof.
  cbn zeta. pose proof (query_runs_cases load d Hd es Hes q Hlimit Hafter) as H.
  destruct (query_runs load q d) as [r|e]; [|done].
  destruct H as (m & Hfold & [Hm Hr] & Hs & Hc & Hmore & Hend). exists m. by rewrite Hc.
Qed.
