(* ===== verification/RuntimeRequestFacts.v ===== *)
(** * The runtime service's requests are immutable and idempotent

    A request recorded once stays what it was: whatever other streams do, an exact
    retry is answered with the recorded event and changes nothing, and a different
    request under the same identifier is refused. *)

From S2P Require Import Prelude PyStr PyFloat Sha256 Json JsonText JsonFacts PyTime Contracts Events EventStore Projections.
From S2P Require Import RunLifecycle Gateway PlanCompiler AttemptPolicy ExecutionRuntime RunJournal.
From S2P Require Import WireContracts Worktree RuntimeService.
From Stdlib Require Import ZArith Lia Ascii String.
From stdpp Require Import base gmap sets list strings.
Local Open Scope Z_scope.

(** The same occurrence, as it was returned and as it is read back. *)
Definition same_occurrence (e e' : EventEnvelope) : Prop :=
  event_id e' = event_id e ∧ stream_id e' = stream_id e ∧ event_type e' = event_type e
  ∧ payload_hash e' = payload_hash e ∧ global_position e' = global_position e.

Lemma same_payload_iff e ty payload e' :
  require_same_payload e ty payload = Ok e' ↔
  e' = e ∧ event_matches e ty = true ∧ json_digest payload = Ok (payload_hash e).
Proof.
  unfold require_same_payload, conflict_unless. destruct (event_matches e ty); [|naive_solver]. cbn [negb raise_if mbind result_bind].
  destruct (json_digest payload) as [g|x]; cbn [mbind result_bind]; [|naive_solver].
  case_bool_decide as E; cbn [negb raise_if mbind result_bind]; naive_solver.
Qed.

(** The path only appears in the errors. *)
Lemma freeze_json_path p q v j : freeze_json p v = Ok j → freeze_json q v = Ok j.
Proof.
  revert p q v j. fix IH 3. intros p q v j.
  destruct v as [|b|z|f|s|items|items|ty]; cbn [freeze_json]; try done.
  - by destruct (is_finite_float f).
  - fold (freeze_items p) (freeze_items q). intros H. apply bind_ok in H as (kvs & Hg & [= <-]).
    assert (freeze_items q items [] = Ok kvs) as ->; [|done]. revert Hg.
    generalize (@nil (string * json)) as acc. induction items as [|[key item] items IHi]; intros acc; cbn; [done|].
    destruct key; try done. intros H. apply bind_ok in H as (w & Hw & H).
    rewrite (IH _ (q +:+ "." +:+ s) _ _ Hw). cbn [mbind result_bind]. by apply IHi.
  - fold (freeze_seq p) (freeze_seq q). intros H. apply bind_ok in H as (l & Hg & [= <-]).
    assert (freeze_seq q items 0 = Ok l) as ->; [|done]. revert l Hg. generalize 0 as i.
    induction items as [|item items IHi]; intros i l; cbn; [done|].
    intros H. apply bind_ok in H as (w & Hw & H). apply bind_ok in H as (ws & Hws & [= <-]).
    rewrite (IH _ (q +:+ "[" +:+ int_repr i +:+ "]") _ _ Hw). cbn [mbind result_bind]. by rewrite (IHi _ _ Hws).
Qed.

Lemma freeze_payload_digest v kvs : freeze_payload v = Ok kvs → json_digest (thaw_json (JObj kvs)) = json_digest v.
Proof.
  intros H. rewrite json_digest_thaw by by eapply freeze_payload_ok.
  unfold freeze_payload in H. apply bind_ok in H as (j & Hj & H). destruct j; try done. injection H as ->.
  unfold json_digest, canonical_json_bytes. by rewrite (freeze_json_path _ "$" _ _ Hj).
Qed.

Lemma event_init_fields a b c d e f g h i j k l m n o ev : event_init a b c d e f g h i j k l m n o = Ok ev →
  stream_id ev = b ∧ stream_sequence ev = c ∧ event_type ev = d ∧ schema_version ev = e ∧ source ev = k
  ∧ freeze_payload l = Ok (payload ev) ∧ payload_hash ev = m.
Proof. unfold event_init. intros H. inv_ok. done. Qed.

(** What the constructor keeps of a payload that is not empty. *)
Lemma create_fields now fresh sid seq ty ac so kv items sv ra ea co ca ik ei e :
  create now fresh sid seq ty ac so (Some (PMapping (kv :: items))) sv ra ea co ca ik ei = Ok e →
  event_ok e ∧ stream_id e = sid ∧ stream_sequence e = seq ∧ event_type e = ty ∧ schema_version e = sv ∧ source e = so
  ∧ freeze_payload (PMapping (kv :: items)) = Ok (payload e)
  ∧ json_digest (PMapping (kv :: items)) = Ok (payload_hash e).
Proof.
  intros H. destruct (create_ok _ _ _ _ _ _ _ _ _ _ _ _ _ _ _ _ H) as (Hok & _).
  unfold create in H. apply bind_ok in H as (t1 & _ & H). apply bind_ok in H as (t2 & _ & H). cbv zeta in H.
  apply bind_ok in H as (kvs & Hk & H). apply bind_ok in H as (g & Hg & H).
  apply event_init_fields in H as (? & ? & ? & ? & ? & Hpl & ->).
  rewrite freeze_payload_thaw in Hpl by by eapply freeze_payload_ok. injection Hpl as <-.
  by rewrite (freeze_payload_digest _ _ Hk) in Hg.
Qed.

Lemma request_event_fields o sid ty principal key corr caus kv items e :
  request_event o sid ty principal key corr caus (PMapping (kv :: items)) = Ok e →
  event_ok e ∧ stream_id e = sid ∧ event_matches e ty = true
  ∧ freeze_payload (PMapping (kv :: items)) = Ok (payload e)
  ∧ json_digest (PMapping (kv :: items)) = Ok (payload_hash e).
Proof.
  intros (Hok & Hsid & Hseq & Hty & Hsv & Hsrc & Hpl & Hg)%create_fields. split_and!; try done.
  unfold event_matches. rewrite Hty, Hsv, Hseq, Hsrc. by rewrite !bool_decide_eq_true_2 by done.
Qed.

Lemma read_first d sid : db_ok d →
  read_stream d sid 0 None (Some 2) = map_result _event_from_row (take 2 (rows_of d sid)).
Proof. intros Hd. rewrite read_stream_slice; [|done|done|by intros ? [= <-]]. done. Qed.

Lemma unrecorded d e : rows_of d (stream_id e) = [] → _idempotent_event d e = Ok None.
Proof.
  intros H. unfold _idempotent_event. destruct (idempotency_key e) as [k|]; [|done].
  destruct (List.find _ _) as [r|] eqn:E; [|done]. apply List.find_some in E as [Hr%list_elem_of_In Hb].
  apply andb_true_iff in Hb as [Hb%bool_decide_eq_true _].
  assert (Hin : r ∈ rows_of d (stream_id e)) by by apply list_elem_of_filter. rewrite H in Hin. by apply elem_of_nil in Hin.
Qed.

Section Recording.
Context (path : string) (resolve : string → string) (set_order : list string → list string).
Context (Hset : ∀ l, set_order l ≡ₚ l).
Abbreviation record := (record_event path resolve set_order).

(** The stream of a recorded request holds it, and it alone. *)
Record recorded (d : db) (sid ty : string) (payload : pyval) (e : EventEnvelope) : Prop := MkRecorded {
  rec_db : db_ok d;
  rec_read : ∃ e', read_stream d sid 0 None (Some 2) = Ok [e'] ∧ same_occurrence e e'
               ∧ event_matches e' ty = true ∧ json_digest payload = Ok (payload_hash e')
}.

Lemma checked_recorded d sid ty payload events e : db_ok d → read_stream d sid 0 None (Some 2) = Ok events →
  _require_idempotent events ty payload = Ok e → recorded d sid ty payload e.
Proof.
  intros Hd Hr H. destruct events as [|e' [|]]; try done. apply same_payload_iff in H as (-> & Hm & Hg).
  split; [done|]. by exists e'.
Qed.

Lemma appended_recorded o sid ty principal key corr caus kv items event e d d' :
  db_ok d → rows_of d sid = [] → request_event o sid ty principal key corr caus (PMapping (kv :: items)) = Ok event →
  json_text_ok (JObj (Events.payload event)) = true →
  EventStore.append path resolve set_order event 0 d = (Ok e, d') → recorded d' sid ty (PMapping (kv :: items)) e.
Proof.
  intros Hd Hrows Hreq Ht Happ. apply request_event_fields in Hreq as (Hok & Hsid & Hm & _ & Hg).
  assert (Hnone : _idempotent_event d event = Ok None) by (apply unrecorded; by rewrite Hsid).
  assert (Hd' : db_ok d').
  { unfold EventStore.append in Happ. apply txn_bind_ok in Happ as (out & d0 & Ha & [_ ->]%lift_ok).
    by eapply append_many_db_ok. }
  pose proof (append_fresh path resolve set_order Hset event 0 d e d' Hd Hok Ht Hnone Happ) as (_ & _ & (r & Hr & Hrow) & _ & _ & ->).
  split; [done|]. exists (stored_event (zlen (kernel_events d) + 1) event).
  split; [|split; [done|split; [exact Hm|exact Hg]]].
  rewrite read_first by done. rewrite (rows_of_app d d' [r] sid Hr), Hrows.
  assert (Hrs : r_stream_id r = sid). { apply event_from_row_fields in Hrow as (_ & <- & _). exact Hsid. }
  rewrite filter_cons_True by done. cbn [app filter take map_result]. by rewrite Hrow.
Qed.

(** What recording a request leaves behind. *)
Lemma record_event_recorded o race sid ty principal key corr caus kv items d e d' :
  db_ok d → db_ok (race d) → (rows_of d sid = [] → rows_of (race d) sid = []) →
  (∀ kvs, freeze_payload (PMapping (kv :: items)) = Ok kvs → json_text_ok (JObj kvs) = true) →
  record o race (Some 2) (λ l, _require_idempotent l ty) sid ty principal key corr caus (PMapping (kv :: items)) d = (Ok e, d') →
  recorded d' sid ty (PMapping (kv :: items)) e.
Proof.
  intros Hd Hrace Hempty Ht H. unfold record_event in H.
  apply txn_bind_ok in H as (existing & d0 & [Hread ->]%query_ok & H).
  destruct existing as [|x existing].
  2: { apply lift_ok in H as [H ->]. by eapply checked_recorded. }
  assert (Hrows : rows_of d sid = []).
  { rewrite read_first in Hread by done. apply map_result_length in Hread. by destruct (rows_of d sid) as [|? [|]]. }
  specialize (Hempty Hrows).
  apply txn_bind_ok in H as (event & d0 & [He ->]%lift_ok & H).
  apply txn_bind_ok in H as ([] & d0 & [= <-] & H).
  assert (Hte : json_text_ok (JObj (Events.payload event)) = true).
  { apply Ht. by apply request_event_fields in He as (_ & _ & _ & ? & _). }
  unfold append_first in H.
  destruct (EventStore.append path resolve set_order event 0 (race d)) as [[e0|x] d1] eqn:Ha.
  - injection H as -> ->. by eapply appended_recorded.
  - destruct (is_append_conflict x); [|done]. injection H as H <-. apply bind_ok in H as (raced & Hr & H).
    assert (Hd1 : db_ok d1).
    { unfold EventStore.append in Ha. unfold mbind, txn_bind in Ha.
      destruct (append_many path resolve set_order [event] _ (race d)) as [[out|y] d2] eqn:Hm;
        [unfold lift in Ha|]; injection Ha as _ <-; by eapply append_many_db_ok. }
    destruct raced as [|y raced]; [done|]. by eapply checked_recorded.
Qed.

(** A recorded request answers every later one, whatever the other streams did. *)
Lemma recorded_answers d sid ty payload e d2 : recorded d sid ty payload e → db_ok d2 → rows_of d2 sid = rows_of d sid →
  json_digest payload = Ok (payload_hash e) ∧
  ∃ e', same_occurrence e e' ∧ ∀ o race principal key corr caus payload2 g,
    json_digest payload2 = Ok g →
    record o race (Some 2) (λ l, _require_idempotent l ty) sid ty principal key corr caus payload2 d2
    = (if bool_decide (g = payload_hash e) then Ok e' else Err conflict, d2).
Proof.
  intros [Hd (e' & Hr & Hs & Hm & Hg)] Hd2 Hrows. assert (Hh : payload_hash e' = payload_hash e) by apply Hs.
  split; [by rewrite <-Hh|]. exists e'. split; [done|]. intros o race principal key corr caus payload2 g Hg2.
  unfold record_event. rewrite read_first in Hr by done.
  unfold mbind at 1, txn_bind at 1, query. rewrite read_first, Hrows, Hr by done.
  unfold lift. f_equal. cbn [_require_idempotent]. unfold require_same_payload, conflict_unless. rewrite Hm, Hg2.
  cbn [negb raise_if mbind result_bind]. rewrite Hh. rewrite (bool_decide_ext (payload_hash e = g) (g = payload_hash e)) by done.
  by case_bool_decide.
Qed.
End Recording.

(** C26 (requests_immutable): a request is recorded once and never changes.
    After [_record_immutable] answered with an event, in every later state of the
    ledger in which the request's own stream is untouched (other streams may have
    grown), any further request of that kind under the same identifier is
    answered without writing anything: with the very occurrence that was
    recorded, when its payload, references and principal have the same digest,
    and with a conflict otherwise, whatever other writers do meanwhile.  (The
    first recording itself may race with writers of other streams.) *)
Theorem requests_immutable {R} `{Contract R} path resolve set_order (Hset : ∀ l, set_order l ≡ₚ l)
    o race sid ty (request : R) principal corr caus refs d e d'
    (Hd : db_ok d) (Hrace : db_ok (race d)) (Hempty : rows_of d sid = [] → rows_of (race d) sid = [])
    (Htext : ∀ payload kvs, _request_event_payload request principal refs None = Ok payload →
       freeze_payload payload = Ok kvs → json_text_ok (JObj kvs) = true)
    (Hrec : _record_immutable path resolve set_order o race sid ty request principal corr caus refs d = (Ok e, d')) :
  ∃ payload, _request_event_payload request principal refs None = Ok payload ∧ json_digest payload = Ok (payload_hash e)
  ∧ ∀ d2, db_ok d2 → rows_of d2 sid = rows_of d' sid → ∃ e', same_occurrence e e' ∧
      ∀ o2 race2 (request2 : R) principal2 corr2 caus2 refs2 payload2 g,
        _request_event_payload request2 principal2 refs2 None = Ok payload2 → json_digest payload2 = Ok g →
        _record_immutable path resolve set_order o2 race2 sid ty request2 principal2 corr2 caus2 refs2 d2
        = (if bool_decide (g = payload_hash e) then Ok e' else Err conflict, d2).
Proof.
  unfold _record_immutable in Hrec. apply txn_bind_ok in Hrec as (payload & d0 & [Hp ->]%lift_ok & Hrec).
  assert (∃ kv items, payload = PMapping (kv :: items)) as (kv & items & ->).
  { unfold _request_event_payload in Hp. apply bind_ok in Hp as (v & _ & Hp). apply bind_ok in Hp as (g & _ & [= <-]).
    destruct refs; by do 2 eexists. }
  apply record_event_recorded in Hrec; [|done..|by intros kvs; apply Htext].
  assert (Hd' : db_ok d') by by destruct Hrec.
  eexists. split; [done|]. split; [by apply (recorded_answers path resolve set_order _ _ _ _ _ d' Hrec)|].
  intros d2 Hd2 Hrows. destruct (recorded_answers path resolve set_order _ _ _ _ _ d2 Hrec Hd2 Hrows) as (_ & e' & Hs & Hall).
  exists e'. split; [done|]. intros o2 race2 request2 principal2 corr2 caus2 refs2 payload2 g Hp2 Hg2.
  unfold _record_immutable, mbind at 1, txn_bind at 1, lift. rewrite Hp2. by apply Hall.
Qed.
