(* ===== verification/RuntimeAdmissionFacts.v ===== *)
(** * What the runtime service accepts and then refuses

    Two gaps between the checks of an accepted plan and the checks of its
    execution: a node whose allowed paths are not in sorted order can never be
    claimed, and a generated plan that allows the whole repository blocks the
    queue of generated runs. *)

From S2P Require Import Prelude PyStr PyFloat Sha256 Json JsonText JsonFacts PyTime Contracts Events EventStore Projections.
From S2P Require Import RunLifecycle RunFacts Gateway PlanCompiler PlanFacts AttemptPolicy ExecutionRuntime RunJournal.
From S2P Require Import WireContracts WireFacts Worktree WorktreeFacts RuntimeService RuntimeCommands RuntimeServiceFacts RuntimeRequestFacts.
From Stdlib Require Import ZArith Lia Ascii String.
From stdpp Require Import base gmap sets list strings.
Local Open Scope Z_scope.

(** ** The claim event and the specification it carries *)

Section Claims.
Context (repository_root isolation_root : string) (repository_ok isolation_ok : string → bool).

Definition claim_json (principal : string) (s : WorktreeExecutionSpec) (lease digest expires lease' : string) : jobject :=
  [("principal_id", JStr principal); ("run_id", JStr (wl_run_id (ws_lease s))); ("node_id", JStr (wl_node_id (ws_lease s)));
   ("attempt", JInt (wl_attempt (ws_lease s))); ("fencing_token", JInt (wl_fencing_token (ws_lease s)));
   ("worker_id", JStr (wl_worker_id (ws_lease s))); ("lease_digest", JStr lease); ("expires_at", JStr expires);
   ("worktree_spec_digest", JStr digest); ("worktree_spec", JObj (spec_json s lease')); ("status", JStr "claimed")].

Lemma claim_json_wf principal s lease digest expires lease' :
  json_wf (JObj (claim_json principal s lease digest expires lease')) = true.
Proof.
  change (obj_wf (claim_json principal s lease digest expires lease') = true). apply obj_wf_spec.
  split; [by apply (bool_decide_unpack _)|]. repeat constructor. apply spec_json_wf.
Qed.

(** A claim's event carries the specification of the claim. *)
Lemma claim_event_payload o at_ l principal n seq cause spec expires t events :
  claim_transition spec expires = Ok t → transition_events o at_ l principal n seq cause [t] = Ok events →
  ∃ e lease, events = [e] ∧ event_type e = NODE_CLAIMED ∧ jget "worktree_spec" (payload e) = JObj (spec_json spec lease).
Proof.
  unfold claim_transition. intros Ht H. apply bind_ok in Ht as (lease & _ & Ht). apply bind_ok in Ht as (digest & _ & Ht).
  apply bind_ok in Ht as (sp & Hsp & [= <-]). unfold worktree_execution_spec_payload in Hsp.
  apply bind_ok in Hsp as (lease' & _ & [= <-]). cbn [transition_events] in H.
  apply bind_ok in H as (e & He & H). apply bind_ok in H as (es & [= <-] & [= <-]). exists e, lease'. split; [done|].
  cbn [tr_event_type tr_payload tr_idempotency_key] in He.
  match type of He with create _ _ _ _ _ _ _ (Some ?b) _ _ _ _ _ _ _ = _ => set (body := b) in He end.
  assert (Hbody : body = thaw_json (JObj (claim_json principal spec lease digest (isoformat expires) lease'))).
  { unfold body, claim_json. cbn -[thaw_json json_strings]. cbn [thaw_json map fst snd]. unfold spec_json. cbn -[json_strings]. by rewrite thaw_strings. }
  rewrite Hbody in He. cbn [thaw_json] in He. cbn [claim_json map] in He.
  apply create_fields in He as (_ & _ & _ & Hty & _ & _ & Hpl & _). split; [done|].
  change (freeze_payload (thaw_json (JObj (claim_json principal spec lease digest (isoformat expires) lease'))) = Ok (payload e)) in Hpl.
  rewrite freeze_payload_thaw in Hpl by apply claim_json_wf. injection Hpl as <-. done.
Qed.

(** Reading a specification back keeps its lease and sorts its paths. *)
Lemma spec_from_json s lease s' : worktree_execution_spec_from_mapping repository_ok isolation_ok (spec_json s lease) = Ok s' →
  wl_node_id (ws_lease s') = wl_node_id (ws_lease s) ∧ sort_strings (ws_allowed_paths s') = ws_allowed_paths s'.
Proof.
  unfold worktree_execution_spec_from_mapping. intros H.
  apply bind_ok in H as (? & _ & H). apply bind_ok in H as (raw & [= <-] & H).
  do 3 (apply bind_ok in H as (? & _ & H)). apply bind_ok in H as (paths & _ & H).
  apply bind_ok in H as (? & [= <-] & H). apply bind_ok in H as (? & [= <-] & H). apply bind_ok in H as (? & [= <-] & H).
  apply bind_ok in H as (? & [= <-] & H). apply bind_ok in H as (? & [= <-] & H). apply bind_ok in H as (l & Hl & H).
  unfold lease_identity_init in Hl. apply bind_ok in Hl as (? & _ & Hl). apply bind_ok in Hl as (? & _ & [= <-]).
  do 6 (apply bind_ok in H as (? & _ & H)). unfold worktree_spec_init in H.
  do 5 (apply bind_ok in H as (? & _ & H)). apply bind_ok in H as (ps & _ & H).
  do 2 (apply bind_ok in H as (? & _ & H)). injection H as <-. split; [done|]. cbn. apply sort_strings_idemp.
Qed.

Lemma claim_refused plan n s e spec lease : NoDup (map pn_node_id (plq_nodes plan)) → n ∈ plq_nodes plan →
  sort_strings (pn_allowed_paths n) ≠ pn_allowed_paths n → wl_node_id (ws_lease spec) = pn_node_id n →
  event_type e = NODE_CLAIMED → jget "worktree_spec" (payload e) = JObj (spec_json spec lease) →
  is_ok (evidence_step repository_root isolation_root repository_ok isolation_ok plan s e) = false.
Proof.
  intros Hnd Hn Hu Hid Hty Hp. destruct (evidence_step _ _ _ _ _ _ _) as [s'|] eqn:E; [exfalso|done].
  unfold evidence_step in E. rewrite Hty, (bool_decide_eq_true_2 (NODE_CLAIMED = NODE_CLAIMED)) in E by done.
  apply bind_ok in E as (s1 & E & _). unfold claim_evidence in E. rewrite Hp in E. cbn [as_mapping mbind result_bind] in E.
  apply bind_ok in E as (spec' & Hs & E). apply spec_from_json in Hs as [Hid' Hsort].
  apply bind_ok in E as (n' & Hn' & E). rewrite Hid', Hid, node_by_id_get in Hn' by done. injection Hn' as <-.
  apply bind_ok in E as (? & _ & E). apply bind_ok in E as (base & _ & E).
  apply bind_ok in E as (? & Hc%raise_if_ok & _). apply negb_false_iff, andb_true_iff in Hc as [Hc _].
  apply andb_true_iff in Hc as [_ Hc%bool_decide_eq_true]. apply Hu. by rewrite <-Hc.
Qed.
End Claims.

(** ** Claims of a node with unsorted paths *)

(** An operation that has raised without touching the ledger. *)
Definition refused {A} (d : db) (r : result A * db) : Prop := is_ok r.1 = false ∧ r.2 = d.

Lemma refused_lift {A B} (r : result A) (f : A → txn B) d :
  (∀ a, r = Ok a → refused d (f a d)) → refused d ((lift r ≫= f) d).
Proof. intros H. unfold mbind, txn_bind, lift. destruct r as [a|e]; [by apply H|by split]. Qed.
Lemma refused_query {A B} (g : db → result A) (f : A → txn B) d :
  (∀ a, g d = Ok a → refused d (f a d)) → refused d ((query g ≫= f) d).
Proof. intros H. unfold mbind, txn_bind, query. destruct (g d) as [a|e]; [by apply H|by split]. Qed.
Lemma refused_bind {A B} (m : txn A) (f : A → txn B) d : refused d (m d) → refused d ((m ≫= f) d).
Proof. unfold refused, mbind, txn_bind. destruct (m d) as [[a|e] d']; [by intros []|done]. Qed.

Section Unclaimable.
Context `{Contract ProjectRequest, Contract IntentRequest, Contract PlanRequest, Contract RunRequest}.
Context (normalize : string → string) (repository_root isolation_root : string).
Context (repository_ok isolation_ok : string → bool).
Context (path : string) (resolve : string → string) (set_order : list string → list string).
Context (git_create git_retain : WorktreeExecutionSpec → result WorktreeInspection) (checkout_present : WorktreeExecutionSpec → bool).
Context (Hconvert : ∀ v plan, convert v = Ok plan → plan_accepted plan).
Abbreviation load_run := (_load_run normalize repository_root isolation_root repository_ok isolation_ok).
Abbreviation prepare_node := (prepare_node normalize repository_root isolation_root repository_ok isolation_ok path resolve
  set_order git_create git_retain checkout_present).

Lemma claim_spec_lease l state node worker spec :
  claim_spec repository_root isolation_root repository_ok isolation_ok l state node worker = Ok spec →
  wl_node_id (ws_lease spec) = pn_node_id node.
Proof.
  unfold claim_spec. intros Hs. apply bind_ok in Hs as (f & _ & Hs). apply bind_ok in Hs as (lease & Hl & Hs).
  apply bind_ok in Hs as (base & _ & Hs). unfold lease_identity_init in Hl.
  apply bind_ok in Hl as (? & _ & Hl). apply bind_ok in Hl as (? & _ & [= <-]).
  unfold worktree_spec_init in Hs. do 8 (apply bind_ok in Hs as (? & _ & Hs)). by injection Hs as <-.
Qed.

Lemma append_claim_refused o race l n spec expires t worker at_ d :
  loaded_ok l → n ∈ plq_nodes (lr_plan l) → sort_strings (pn_allowed_paths n) ≠ pn_allowed_paths n →
  wl_node_id (ws_lease spec) = pn_node_id n → claim_transition spec expires = Ok t →
  refused d (_append_run_transitions repository_root isolation_root repository_ok isolation_ok path resolve set_order
               o race l [t] worker at_ d).
Proof.
  intros Hl Hn Hu Hid Ht. unfold _append_run_transitions.
  apply refused_lift; intros _ _. apply refused_lift; intros at' _. apply refused_lift; intros latest _.
  apply refused_lift; intros events Hev.
  destruct (claim_event_payload _ _ _ _ _ _ _ _ _ _ _ Ht Hev) as (e & lease & -> & Hty & Hp).
  apply refused_lift; intros a Ha. exfalso. apply recast_ok in Ha. apply bind_ok in Ha as (st & _ & Ha).
  unfold _validate_worktree_evidence in Ha. apply bind_ok in Ha as (s & Hs%recast_ok & _).
  rewrite fold_result_app in Hs. apply bind_ok in Hs as (s0 & _ & Hs). cbn [fold_result] in Hs.
  pose proof (claim_refused repository_root isolation_root repository_ok isolation_ok (lr_plan l) n s0 e spec lease
    (loaded_nd l Hl) Hn Hu Hid Hty Hp) as Hr.
  by destruct (evidence_step _ _ _ _ _ s0 e).
Qed.

Lemma prepare_unsorted o o' race race' run_id l n worker expires claimed d :
  load_run run_id None d = Ok l → n ∈ plq_nodes (lr_plan l) → sort_strings (pn_allowed_paths n) ≠ pn_allowed_paths n →
  refused d (prepare_node o o' race race' run_id (pn_node_id n) worker expires claimed d).
Proof.
  intros Hload Hn Hu. assert (Hl : loaded_ok l) by by eapply load_run_ok. unfold RuntimeCommands.prepare_node.
  do 3 (apply refused_lift; intros _ _). apply refused_query; intros l' Hl'. rewrite Hload in Hl'. injection Hl' as <-.
  apply refused_lift; intros [state node] Hc.
  assert (node = n) as ->.
  { unfold claimable in Hc. apply bind_ok in Hc as (? & _ & Hc). apply bind_ok in Hc as (st & _ & Hc).
    apply bind_ok in Hc as (m & Hm%of_option_ok & Hc). apply bind_ok in Hc as (? & _ & [= <- <-]).
    rewrite (find_unique pn_node_id _ n) in Hm by (done || by apply loaded_nd). by injection Hm. }
  apply refused_lift; intros at' _. apply refused_lift; intros expires' _. apply refused_lift; intros _ _.
  apply refused_lift; intros spec Hs%claim_spec_lease. apply refused_lift; intros t Ht.
  apply refused_bind. by eapply append_claim_refused.
Qed.
End Unclaimable.

(** ** Goals of generated plans *)

Lemma generated_goal_dot l n : n ∈ plq_nodes (lr_plan l) → "." ∈ pn_allowed_paths n → is_ok (_generated_goal l) = false.
Proof.
  intros Hn Hdot. destruct (_generated_goal l) as [g|] eqn:E; [exfalso|done].
  unfold _generated_goal in E. apply bind_ok in E as (identity & _ & E). apply bind_ok in E as (checks & _ & E).
  unfold goal_init in E. do 4 (apply bind_ok in E as (? & _ & E)). apply bind_ok in E as (cs & _ & E).
  apply bind_ok in E as (ps & Hps & _). unfold _path_tuple in Hps. cbn [allowed_paths] in Hps.
  apply bind_ok in Hps as (? & _ & Hps). apply bind_ok in Hps as (ys & Hys%map_result_ok & _).
  assert (Hin : "." ∈ sorted_set (concat (map pn_allowed_paths (plq_nodes (lr_plan l))))).
  { unfold sorted_set. apply elem_of_sort_strings, elem_of_remove_dups, list_elem_of_In, List.in_concat.
    exists (pn_allowed_paths n). split; [|by apply list_elem_of_In]. apply List.in_map. by apply list_elem_of_In. }
  apply list_elem_of_lookup in Hin as [i Hi]. by destruct (Forall2_lookup_l _ _ _ _ _ Hys Hi) as (y & _ & ?).
Qed.

(** ** Properties *)

(** C35 (unsorted_paths_unclaimable): a defect of the service.  An accepted node
    whose allowed paths are not listed in sorted order can never be executed: the
    specification of a claim sorts its paths, and the check of a claim compares
    them with the node's as they were listed.  So whoever claims the node,
    whenever, and whatever git answers, [prepare_node] raises and the ledger
    stays as it was. *)
Theorem unsorted_paths_unclaimable
    `{Contract ProjectRequest, Contract IntentRequest, Contract PlanRequest, Contract RunRequest}
    normalize repository_root isolation_root repository_ok isolation_ok path resolve set_order git_create git_retain
    checkout_present (Hconvert : ∀ v plan, convert v = Ok plan → plan_accepted plan)
    run_id l n d
    (Hload : _load_run normalize repository_root isolation_root repository_ok isolation_ok run_id None d = Ok l)
    (Hn : n ∈ plq_nodes (lr_plan l)) (Hunsorted : sort_strings (pn_allowed_paths n) ≠ pn_allowed_paths n) :
  ∀ o o' race race' worker expires claimed, ∃ e,
    prepare_node normalize repository_root isolation_root repository_ok isolation_ok path resolve set_order git_create
      git_retain checkout_present o o' race race' run_id (pn_node_id n) worker expires claimed d = (Err e, d).
Proof.
  intros o o' race race' worker expires claimed.
  pose proof (prepare_unsorted normalize repository_root isolation_root repository_ok isolation_ok path resolve set_order
    git_create git_retain checkout_present Hconvert o o' race race' run_id l n worker expires claimed d Hload Hn Hunsorted) as [Hr Hd].
  destruct (prepare_node _ _ _ _ _ _ _ _ _ _ _ _ _ _ _ _ _ _ _ _ d) as [[a|e] d']; [done|]. cbn in Hd. subst d'. by exists e.
Qed.

(** A defect of the service.  A generated plan may
    allow the whole repository ("."), which the acceptance checks admit, but no
    execution goal can be made of it: the scheduler of generated runs raises at
    such a run as soon as it stands first among the runs it has to offer, and so
    offers none of the runs behind it. *)
Theorem generated_queue_blocked load d before id rest l n
    (Hbefore : ∀ id', id' ∈ before → ∃ l', load id' None d = Ok l' ∧ plq_planning_mode (lr_plan l') ≠ GENERATED)
    (Hload : load id None d = Ok l) (Hmode : plq_planning_mode (lr_plan l) = GENERATED) (Hidle : run_idle l = true)
    (Hopen : from_option kernel_terminal false (lr_kernel_state l) = false)
    (Hn : n ∈ plq_nodes (lr_plan l)) (Hdot : "." ∈ pn_allowed_paths n) :
  ∃ e, _generated_goal l = Err e ∧ next_generated_from load d (before ++ id :: rest) = Err e.
Proof.
  pose proof (generated_goal_dot l n Hn Hdot) as Hg. destruct (_generated_goal l) as [g|e] eqn:E; [done|]. exists e. split; [done|].
  induction before as [|id' before IH]; cbn [app next_generated_from].
  - rewrite Hload. cbn [mbind result_bind]. rewrite Hmode, Hidle, Hopen, bool_decide_eq_true_2 by done. cbn [negb orb].
    by rewrite E.
  - destruct (Hbefore id') as (l' & -> & Hm); [by left|]. cbn [mbind result_bind].
    rewrite bool_decide_eq_false_2 by done. cbn [negb orb]. apply IH. intros id2 Hid2. apply Hbefore. by right.
Qed.
