(* ===== verification/RuntimeLedgerFacts.v ===== *)
(** * Every operation of the runtime service keeps the ledger sound

    Whatever an operation answers, and whatever git, the file system and the other
    writers do, the ledger's invariant holds after it and no event that was there
    is changed, moved or removed. *)

From S2P Require Import Prelude PyStr PyFloat Sha256 Json JsonText JsonFacts PyTime Contracts Events EventStore Projections.
From S2P Require Import RunLifecycle Gateway PlanCompiler AttemptPolicy ExecutionRuntime RunJournal RunJournalFacts.
From S2P Require Import WireContracts Worktree WorktreeFacts RuntimeService RuntimeCommands.
From Stdlib Require Import ZArith Lia Ascii String.
From stdpp Require Import base gmap sets list strings relations.
Local Open Scope Z_scope.

(** From one state of the ledger to a later one. *)
Definition later (d d' : db) : Prop := db_ok d → db_ok d' ∧ kernel_events d `prefix_of` kernel_events d'.
#[export] Instance later_preorder : PreOrder later.
Proof.
  split; [done|]. intros d1 d2 d3 H12 H23 Hd. destruct (H12 Hd) as [H2 ?]. destruct (H23 H2) as [? ?].
  split; [done|]. by etrans.
Qed.

Definition grows {A} (m : txn A) : Prop := ∀ d, later d (m d).2.

Create HintDb ledger discriminated.
#[export] Hint Constants Opaque : ledger.

Section Grows.
Lemma grows_lift {A} (r : result A) : grows (lift r).
Proof. by intros d. Qed.
Lemma grows_ret {A} (a : A) : grows (mret a).
Proof. by intros d. Qed.
Lemma grows_query {A} (f : db → result A) : grows (query f).
Proof. by intros d. Qed.
Lemma grows_bind {A B} (m : txn A) (f : A → txn B) : grows m → (∀ a, grows (f a)) → grows (m ≫= f).
Proof.
  intros Hm Hf d. unfold mbind, txn_bind. specialize (Hm d). destruct (m d) as [[a|e] d']; [|done].
  etrans; [exact Hm|apply Hf].
Qed.
Lemma grows_recast {A} caught e (m : txn A) : grows m → grows (recast_txn caught e m).
Proof. intros Hm d. unfold recast_txn. specialize (Hm d). by destruct (m d) as [[a|x] d']. Qed.
Lemma grows_map {A B} (f : A → txn B) l : (∀ a, grows (f a)) → grows (map_txn f l).
Proof.
  intros Hf. induction l as [|x l IH]; cbn [map_txn]; [apply grows_ret|].
  apply grows_bind; [done|]. intros b. apply grows_bind; [done|]. intros bs. apply grows_ret.
Qed.
End Grows.
#[export] Hint Resolve grows_lift grows_ret grows_query grows_recast grows_map : ledger.

(** One step: a bind, a case of the code or something known. *)
Ltac grow := repeat
  match goal with
  | |- grows (_ ≫= _) => apply grows_bind; [|intros ?]
  | |- grows (map_txn _ _) => apply grows_map; intros ?; cbv beta
  | |- grows (match ?x with _ => _ end) => destruct x
  | |- grows (let _ := _ in _) => cbv zeta
  | |- _ => solve [eauto with ledger]
  end.


(** ** Batches on one stream *)

Section Batch.
Context (path : string) (resolve : string → string) (set_order : list string → list string).
Context (Hset : ∀ l, set_order l ≡ₚ l).

Lemma finish_events plans : ∀ d u d', map_txn finish_stream plans d = (Ok u, d') → kernel_events d' = kernel_events d.
Proof.
  induction plans as [|p plans IH]; cbn [map_txn]; intros d u d' H; [by injection H as _ <-|].
  apply txn_bind_ok in H as (x & d1 & H1 & H). apply txn_bind_ok in H as (xs & d2 & H2 & [= _ <-]).
  apply finish_stream_ok in H1 as (E & _). rewrite <-E. by eapply IH.
Qed.

Lemma group_all sid (l : list EventStore.candidate) : (∀ c, c ∈ l → stream_id c.1 = sid) → group l sid = l.
Proof.
  unfold group. induction l as [|c l IH]; intros H; [done|]. rewrite filter_cons_True by (apply H; by left).
  f_equal. apply IH. intros c' Hc. apply H. by right.
Qed.

(** What a batch on one stream adds: the part of it that was not recorded yet,
    and only when the stream then ends just before that part. *)
Lemma append_batch sid events k d res d' : (∀ e, e ∈ events → stream_id e = sid) → events ≠ [] →
  append_many path resolve set_order events [(sid, k)] d = (res, d') →
  d' = d ∨ ∃ olds news rows, events = olds ++ news ∧ kernel_events d' = kernel_events d ++ rows
    ∧ Forall2 (λ e r, row_of_event e (r_position r) = Ok r) news rows
    ∧ _current_sequence d sid = k + zlen olds.
Proof.
  intros Hs Hne H. apply append_many_cases in H as [(e & -> & ->)|[[-> ->]|(out & -> & H)]]; [by left..|].
  apply append_in_transaction_cases in H
    as [[-> _]|(existing & plans & d1 & d2 & u & Hex & _ & Hp & Ha & Hf)]; [by left|]. right.
  assert (Hlen : length existing = length events) by by eapply map_result_length.
  assert (Hfst : (zip events existing).*1 = events) by (apply fst_zip; lia).
  assert (Hg : group (zip events existing) sid = zip events existing).
  { apply group_all. intros [e x] He. apply Hs. by eapply elem_of_zip_l. }
  assert (Hin : sid ∈ set_order (remove_dups (map stream_id events))).
  { apply set_order_spec; [done|]. destruct events as [|e l]; [done|]. apply list_elem_of_fmap. exists e.
    split; [symmetry; apply Hs; by left|by left]. }
  apply prepare_streams_ok in Hp as (P1 & P2 & P3 & _). apply append_loop_ok in Ha as (new & A1 & _ & A3 & _).
  assert (kernel_events d' = kernel_events d ++ new) as Hev.
  { apply finish_events in Hf. congruence. }
  apply list_elem_of_lookup in Hin as [i Hi].
  destruct (Forall2_lookup_l _ _ _ i (sid, group (zip events existing) sid) P3) as (p & _ & Hpl).
  { by rewrite list_lookup_fmap, Hi. }
  destruct Hpl as (_ & _ & _ & ex & Hexp & Hv). cbn [fst snd] in *. rewrite Hg in Hv.
  cbn in Hexp. rewrite decide_True in Hexp by done. injection Hexp as <-.
  apply validate_batch_stream_spec in Hv as (olds & news & Eg & Ho & Hn & Epre & Ecur & _).
  exists olds.*1, news.*1, new. rewrite Eg, (filter_all_none olds news Ho Hn) in A3.
  split_and!; [by rewrite <-Hfst, Eg, fmap_app|done| |rewrite Ecur, Epre; unfold zlen; by rewrite length_fmap].
  clear -A3. induction A3; constructor; done.
Qed.
End Batch.

Section Operations.
Context `{Contract ProjectRequest, Contract IntentRequest, Contract PlanRequest, Contract RunRequest, Contract CancelRunRequest}.
Context (normalize : string → string) (repository_root isolation_root : string).
Context (repository_ok isolation_ok : string → bool).
Context (path : string) (resolve : string → string) (set_order : list string → list string).
Context (Hset : ∀ l, set_order l ≡ₚ l).

(** What other writers may do to the ledger. *)
Definition fair (race : db → db) : Prop := ∀ d, later d (race d).

Lemma grows_append_many events expected : grows (append_many path resolve set_order events expected).
Proof.
  intros d Hd. destruct (append_many path resolve set_order events expected d) as [res d'] eqn:E.
  by apply (append_many_grows path resolve set_order Hset) in E.
Qed.
Hint Resolve grows_append_many : ledger.

Lemma grows_append event sequence : grows (EventStore.append path resolve set_order event sequence).
Proof. unfold EventStore.append. grow. Qed.

Lemma grows_race race : fair race → grows (others_commit race).
Proof. intros Hr d. exact (Hr d). Qed.
Hint Resolve grows_race : ledger.

Lemma grows_append_first read check event : grows (append_first path resolve set_order read check event).
Proof.
  intros d. unfold append_first. pose proof (grows_append event 0 d) as Ha.
  destruct (EventStore.append path resolve set_order event 0 d) as [[e|x] d']; [done|]. by destruct (is_append_conflict x).
Qed.
Hint Resolve grows_append_first : ledger.

Lemma grows_record_event o race limit check sid ty principal key corr caus payload : fair race →
  grows (record_event path resolve set_order o race limit check sid ty principal key corr caus payload).
Proof. intros Hr. unfold record_event. grow. Qed.
Hint Resolve grows_record_event : ledger.

Lemma grows_record_immutable {R} `{Contract R} o race sid ty (request : R) principal corr caus refs : fair race →
  grows (_record_immutable path resolve set_order o race sid ty request principal corr caus refs).
Proof. intros Hr. unfold _record_immutable. grow. Qed.
Hint Resolve grows_record_immutable : ledger.
Lemma grows_record_run_queued o race request principal corr caus refs : fair race →
  grows (_record_run_queued path resolve set_order o race request principal corr caus refs).
Proof. intros Hr. unfold _record_run_queued. grow. Qed.
Hint Resolve grows_record_run_queued : ledger.

Lemma grows_transitions o race l ts principal at_ : fair race →
  grows (_append_run_transitions repository_root isolation_root repository_ok isolation_ok path resolve set_order o race l ts
           principal at_).
Proof. intros Hr. unfold _append_run_transitions. grow. Qed.
Hint Resolve grows_transitions : ledger.

Lemma transition_events_streams o at_ l principal ts : ∀ n seq cause events,
  transition_events o at_ l principal n seq cause ts = Ok events →
  length events = length ts ∧ ∀ e, e ∈ events → stream_id e = _run_stream (rrq_run_id (lr_request l)).
Proof.
  induction ts as [|t ts IH]; intros n seq cause events He; cbn [transition_events] in He.
  - injection He as <-. split; [done|]. by intros e ?%elem_of_nil.
  - apply bind_ok in He as (e & Hc & He). apply bind_ok in He as (es & Hes & [= <-]).
    destruct (IH _ _ _ _ Hes) as [Hl Hs]. apply create_ok in Hc as (_ & Hsid & _). split; [cbn; by rewrite Hl|].
    intros e' [->|He']%elem_of_cons; [done|auto].
Qed.

Lemma lift_cases {A B} (r : result A) (f : A → txn B) d res d' : (lift r ≫= f) d = (res, d') →
  d' = d ∨ ∃ a, r = Ok a ∧ f a d = (res, d').
Proof. unfold mbind, txn_bind, lift. intros E. destruct r as [a|e]; [right; by exists a|left]. congruence. Qed.

(** What a transition of a run may add. *)
Lemma transitions_cases o race l ts principal at_ d res d' :
  _append_run_transitions repository_root isolation_root repository_ok isolation_ok path resolve set_order o race l ts
    principal at_ d = (res, d') →
  d' = d ∨ d' = race d ∨ ∃ events olds news rows st, events = olds ++ news
    ∧ fold_loaded l events = Ok st
    ∧ _validate_worktree_evidence repository_root isolation_root repository_ok isolation_ok (lr_events l ++ events) (lr_plan l) = Ok tt
    ∧ kernel_events d' = kernel_events (race d) ++ rows
    ∧ Forall2 (λ e r, row_of_event e (r_position r) = Ok r) news rows
    ∧ _current_sequence (race d) (_run_stream (rrq_run_id (lr_request l))) = rl_last_stream_sequence (lr_state l) + zlen olds.
Proof.
  unfold _append_run_transitions. intros Hrun.
  apply lift_cases in Hrun as [->|(? & Hne%raise_if_ok & Hrun)]; [by left|].
  apply lift_cases in Hrun as [->|(at' & _ & Hrun)]; [by left|].
  apply lift_cases in Hrun as [->|(latest & _ & Hrun)]; [by left|].
  apply lift_cases in Hrun as [->|(events & Hev & Hrun)]; [by left|].
  apply lift_cases in Hrun as [->|([] & Hval%recast_ok & Hrun)]; [by left|].
  apply bind_ok in Hval as (st & Hst & Hval).
  apply transition_events_streams in Hev as [Hlen Hsid].
  assert (Hevne : events ≠ []).
  { intros ->. destruct ts; [|done]. by rewrite bool_decide_eq_true_2 in Hne. }
  unfold mbind at 1, txn_bind at 1, others_commit in Hrun. unfold mbind at 1, txn_bind at 1, recast_txn in Hrun.
  destruct (append_many path resolve set_order events _ (race d)) as [r d1] eqn:Happ.
  assert (d' = d1) as -> by (destruct r; [|by injection Hrun]; unfold mbind, txn_bind, lift in Hrun;
    destruct (recast _ _ _); by injection Hrun).
  apply (append_batch path resolve set_order Hset _ _ _ _ _ _ Hsid Hevne) in Happ as [->|(olds & news & rows & -> & Hk & Hrows & Hseq)];
    [by right; left|]. right. right. by exists (olds ++ news), olds, news, rows, st.
Qed.

Lemma grows_load run_id : grows (load normalize repository_root isolation_root repository_ok isolation_ok run_id).
Proof. unfold load. grow. Qed.
Hint Resolve grows_load : ledger.

Lemma grows_require_active l spec b : grows (lift (_require_active_spec l spec b)).
Proof. apply grows_lift. Qed.

Abbreviation R := repository_root.
Abbreviation I := isolation_root.
Lemma grows_canceled o race l spec principal i digest : fair race →
  grows (_record_canceled_node R I repository_ok isolation_ok path resolve set_order o race l spec principal i digest).
Proof. intros Hr. unfold _record_canceled_node. grow. Qed.
Hint Resolve grows_canceled : ledger.
Lemma grows_missing o race l spec principal : fair race →
  grows (_record_missing_canceled_node R I repository_ok isolation_ok path resolve set_order o race l spec principal).
Proof. apply grows_canceled. Qed.
Hint Resolve grows_missing : ledger.
Lemma grows_requeued o race l spec principal i : fair race →
  grows (_record_requeued_node R I repository_ok isolation_ok path resolve set_order o race l spec principal i).
Proof. intros Hr. unfold _record_requeued_node. grow. Qed.
Hint Resolve grows_requeued : ledger.
Lemma grows_reconciliation o race l spec principal i code : fair race →
  grows (_record_reconciliation_required R I repository_ok isolation_ok path resolve set_order o race l spec principal i code).
Proof. intros Hr. unfold _record_reconciliation_required. grow. Qed.
Hint Resolve grows_reconciliation : ledger.

Lemma grows_failure git_retain present o race spec code digest principal at_ b : fair race →
  grows (record_failure normalize R I repository_ok isolation_ok path resolve set_order git_retain present o race spec code
           digest principal at_ b).
Proof. intros Hr. unfold record_failure. grow. Qed.
Hint Resolve grows_failure : ledger.

Lemma grows_prepare_claimed git_create git_retain present o race l spec node claimed : fair race →
  grows (prepare_claimed normalize R I repository_ok isolation_ok path resolve set_order git_create git_retain present o race
           l spec node claimed).
Proof. intros Hr. unfold prepare_claimed. grow. Qed.
Hint Resolve grows_prepare_claimed : ledger.
Lemma grows_prepare git_create git_retain present o o' race race' run_id node_id worker expires at_ : fair race → fair race' →
  grows (prepare_node normalize R I repository_ok isolation_ok path resolve set_order git_create git_retain present o o' race
           race' run_id node_id worker expires at_).
Proof. intros Hr Hr'. unfold prepare_node. grow. Qed.

Lemma grows_reconcile_run git_retain o race principal run_id : fair race →
  grows (reconcile_run normalize R I repository_ok isolation_ok path resolve set_order git_retain o race principal run_id).
Proof. intros Hr. unfold reconcile_run, reconcile_lease. grow. Qed.
Hint Resolve grows_reconcile_run : ledger.

Lemma grows_cleanup o race c status ty text key fields retained principal : fair race →
  grows (append_cleanup normalize R I repository_ok isolation_ok path resolve set_order o race c status ty text key fields
           retained principal).
Proof. intros Hr. unfold append_cleanup. grow. Qed.
Hint Resolve grows_cleanup : ledger.
Lemma grows_finish git_remove present o race c principal : fair race →
  grows (_finish_successful_worktree_cleanup normalize R I repository_ok isolation_ok path resolve set_order git_remove present
           o race c principal).
Proof. intros Hr. unfold _finish_successful_worktree_cleanup. grow. Qed.
Hint Resolve grows_finish : ledger.
Lemma grows_request_cleanup o race c principal : fair race →
  grows (_request_successful_worktree_cleanup normalize R I repository_ok isolation_ok path resolve set_order o race c principal).
Proof. intros Hr. unfold _request_successful_worktree_cleanup. grow. Qed.
Hint Resolve grows_request_cleanup : ledger.

(** ** The operations of the service *)

(** What one request or one worker's call does to the ledger, whatever it
    answers and whatever its environment is. *)
Inductive service_step : db → db → Prop :=
  | step_register capacity resolve_root directory o race request principal d : fair race →
      service_step d (register_project R path resolve set_order capacity resolve_root directory o race request principal d).2
  | step_intent capacity o race request principal d : fair race →
      service_step d (accept_intent path resolve set_order capacity o race request principal d).2
  | step_plan capacity retain_base o race request principal d : fair race →
      service_step d (accept_plan path resolve set_order capacity retain_base o race request principal d).2
  | step_submit capacity o race request principal d : fair race →
      service_step d (submit_run normalize R I repository_ok isolation_ok path resolve set_order capacity o race request
                        principal d).2
  | step_cancel o race run_id request principal capacity d : fair race →
      service_step d (cancel_run normalize R I repository_ok isolation_ok path resolve set_order o race run_id request
                        principal capacity d).2
  | step_prepare git_create git_retain present o o' race race' run_id node_id worker expires at_ d : fair race → fair race' →
      service_step d (prepare_node normalize R I repository_ok isolation_ok path resolve set_order git_create git_retain
                        present o o' race race' run_id node_id worker expires at_ d).2
  | step_dispatch o race spec request_id context artifact principal at_ d : fair race →
      service_step d (record_provider_dispatch normalize R I repository_ok isolation_ok path resolve set_order o race spec
                        request_id context artifact principal at_ d).2
  | step_success git_retain o race spec digest principal at_ d : fair race →
      service_step d (record_node_success normalize R I repository_ok isolation_ok path resolve set_order git_retain o race
                        spec digest principal at_ d).2
  | step_failure git_retain present o race spec code digest principal at_ d : fair race →
      service_step d (record_node_failure normalize R I repository_ok isolation_ok path resolve set_order git_retain present
                        o race spec code digest principal at_ d).2
  | step_acknowledge git_retain o race spec digest principal d : fair race →
      service_step d (acknowledge_cancellation normalize R I repository_ok isolation_ok path resolve set_order git_retain o
                        race spec digest principal d).2
  | step_reconcile git_retain stamps race principal d : fair race →
      service_step d (reconcile_startup normalize R I repository_ok isolation_ok path resolve set_order git_retain stamps
                        race principal d).2
  | step_maintain git_remove present stamps race max_retained principal d : fair race →
      service_step d (maintain_successful_worktrees normalize R I repository_ok isolation_ok path resolve set_order
                        git_remove present stamps race max_retained principal d).2.

Lemma service_step_later d d' : service_step d d' → later d d'.
Proof.
  intros Hstep. destruct Hstep.
  - revert d. change (grows (register_project R path resolve set_order capacity resolve_root directory o race request principal)).
    unfold register_project. grow.
  - revert d. change (grows (accept_intent path resolve set_order capacity o race request principal)).
    unfold accept_intent. grow.
  - revert d. change (grows (accept_plan path resolve set_order capacity retain_base o race request principal)).
    unfold accept_plan. grow.
  - revert d. change (grows (submit_run normalize R I repository_ok isolation_ok path resolve set_order capacity o race request principal)).
    unfold submit_run. grow.
  - revert d. change (grows (cancel_run normalize R I repository_ok isolation_ok path resolve set_order o race run_id request principal capacity)).
    unfold cancel_run. grow.
  - by apply grows_prepare.
  - revert d. change (grows (record_provider_dispatch normalize R I repository_ok isolation_ok path resolve set_order o race spec request_id context artifact principal at_)).
    unfold record_provider_dispatch. grow.
  - revert d. change (grows (record_node_success normalize R I repository_ok isolation_ok path resolve set_order git_retain o race spec digest principal at_)).
    unfold record_node_success. grow.
  - by apply grows_failure.
  - revert d. change (grows (acknowledge_cancellation normalize R I repository_ok isolation_ok path resolve set_order git_retain o race spec digest principal)).
    unfold acknowledge_cancellation. grow.
  - revert d. change (grows (reconcile_startup normalize R I repository_ok isolation_ok path resolve set_order git_retain stamps race principal)).
    unfold reconcile_startup. grow.
  - revert d. change (grows (maintain_successful_worktrees normalize R I repository_ok isolation_ok path resolve set_order git_remove present stamps race max_retained principal)).
    unfold maintain_successful_worktrees. grow.
Qed.

Lemma service_steps_later d d' : rtc service_step d d' → later d d'.
Proof.
  induction 1 as [d|d1 d2 d3 H12 _ IH]; [reflexivity|]. etrans; [|exact IH]. by apply service_step_later.
Qed.
End Operations.

(** C4 (service_ledger_sound): however the service is used — any sequence of
    requests, claims, outcomes, cancellations, restarts and maintenance, each
    succeeding or raising, with any clock, identifiers, git, file system and
    interleaved writers that keep the ledger sound — the ledger stays sound
    (positions 1, 2, 3, ..., every stream numbered without gap, identifiers
    distinct), and every event once recorded is there for ever, unchanged and in
    its place. *)
Theorem service_ledger_sound `{Contract ProjectRequest, Contract IntentRequest, Contract PlanRequest, Contract RunRequest,
      Contract CancelRunRequest}
    normalize repository_root isolation_root repository_ok isolation_ok path resolve set_order
    (Hset : ∀ l, set_order l ≡ₚ l) d d'
    (Hsteps : rtc (service_step normalize repository_root isolation_root repository_ok isolation_ok path resolve set_order) d d')
    (Hd : db_ok d) :
  db_ok d' ∧ kernel_events d `prefix_of` kernel_events d'.
Proof. by apply service_steps_later in Hsteps; [apply Hsteps|]. Qed.


(** The worker that holds a prepared lease of the specification. *)
Definition holds_lease (l : _LoadedRun) (spec : WorktreeExecutionSpec) (worker : string) : Prop :=
  ∃ active, rl_active_lease (lr_state l) = Some active ∧ al_prepared active = true ∧ al_worker_id active = worker
  ∧ al_node_id active = wl_node_id (ws_lease spec) ∧ lease_digest (ws_lease spec) = Ok (al_lease_digest active)
  ∧ worktree_spec_digest spec = Ok (al_worktree_spec_digest active).

Lemma conflict_unless_ok c u : conflict_unless c = Ok u ↔ c = true.
Proof. unfold conflict_unless. rewrite raise_if_ok. apply negb_false_iff. Qed.

Lemma holds_lease_ok l spec worker u u' : _require_active_spec l spec true = Ok u → _require_active_worker l worker = Ok u' →
  holds_lease l spec worker.
Proof.
  unfold _require_active_spec, _require_active_worker, holds_lease. destruct (rl_active_lease (lr_state l)) as [active|]; [|done].
  intros Hs Hw. apply bind_ok in Hs as (? & Hn%conflict_unless_ok%bool_decide_eq_true & Hs).
  apply bind_ok in Hs as (lease & Hl & Hs). apply bind_ok in Hs as (? & Hle%conflict_unless_ok%bool_decide_eq_true & Hs).
  apply bind_ok in Hs as (digest & Hd & Hs). apply conflict_unless_ok, andb_true_iff in Hs as [Hde%bool_decide_eq_true Hp].
  apply conflict_unless_ok, bool_decide_eq_true in Hw. injection Hw as <-. exists active. subst. by split_and!.
Qed.

