(* ===== verification/RuntimeServiceSample.v ===== *)
(** * A concrete runtime service

    A project, an intent, three plans and their runs are accepted on the empty
    ledger, and the first node of the first run is executed.  The states on the
    way are evaluated once, here. *)

From S2P Require Import Prelude PyStr PyFloat Sha256 Json JsonText JsonFacts PyTime Contracts Events EventStore Projections.
From S2P Require Import RunLifecycle RunFacts Acceptance Gateway PlanCompiler PlanFacts AttemptPolicy ExecutionRuntime RunJournal.
From S2P Require Import WireContracts WireFacts WireWitness Worktree WorktreeFacts RuntimeService RuntimeCommands RuntimeServiceFacts.
From S2P Require Import RuntimeQueryFacts RuntimeRequestFacts RuntimeAdmissionFacts RuntimeLedgerFacts.
From Stdlib Require Import ZArith Lia Ascii String.
From stdpp Require Import base gmap sets list strings relations.
Local Open Scope Z_scope.

Module SampleService.
Definition digest : string := "sha256:0000000000000000000000000000000000000000000000000000000000000000".
Definition project : ProjectRequest := MkProjectRequest "project-1" "/repo" digest "key-project".
Definition intent : IntentRequest := MkIntentRequest "intent-1" "project-1" "improve it" ["be careful"] [] [] "key-intent".

Definition paths_node (id : string) (paths : list string) : PlanNode :=
  MkPlanNode id "do it" [] (MkNodeBudget 10 10 60 5 2) ["repository-read"; "process"; "repository-write"] paths [sample_check].
Definition other_plan (id : string) (nodes : list PlanNode) (mode : PlanningMode) : PlanRequest :=
  MkPlanRequest id "project-1" "intent-1" sample_commit ["repository-read"; "process"; "repository-write"] nodes
    ("key-" +:+ id) mode.
(** The chain a, b, c; a node with unsorted paths; a generated plan of everything. *)
Definition plan : PlanRequest := sample_plan sample_nodes.
Definition unsorted : PlanRequest := other_plan "plan-2" [paths_node "n" ["src"; "docs"]] DECLARED.
Definition generated : PlanRequest := other_plan "plan-3" [paths_node "n" ["."]] GENERATED.
Definition run (id plan_id : string) : RunRequest := MkRunRequest id "project-1" "intent-1" plan_id ("key-" +:+ id).

(** ** The contracts *)

(** A request of this sample is known by its identifier. *)
Definition project_value (r : ProjectRequest) : pyval := obj [("project_id", PStr (prq_project_id r))].
Definition intent_value (r : IntentRequest) : pyval := obj [("intent_id", PStr (irq_intent_id r))].
Definition plan_value (r : PlanRequest) : pyval := obj [("plan_id", PStr (plq_plan_id r))].
Definition run_value (r : RunRequest) : pyval := obj [("run_id", PStr (rrq_run_id r))].

Definition same_value (a b : pyval) : bool :=
  match json_digest a, json_digest b with Ok x, Ok y => bool_decide (x = y) | _, _ => false end.
(** A conversion that knows the requests of this sample. *)
Definition among {R} (value : R → pyval) (known : list R) (v : pyval) : result R :=
  of_option (TypeError "unknown") (List.find (λ r, same_value (value r) v) known).

#[global] Instance project_contract : Contract ProjectRequest :=
  MkContract _ project_value (among project_value [project]) prq_idempotency_key.
#[global] Instance intent_contract : Contract IntentRequest :=
  MkContract _ intent_value (among intent_value [intent]) irq_idempotency_key.
#[global] Instance plan_contract : Contract PlanRequest :=
  MkContract _ plan_value (among plan_value [plan; unsorted; generated]) plq_idempotency_key.
#[global] Instance run_contract : Contract RunRequest :=
  MkContract _ run_value (among run_value [run "run-1" "plan-1"; run "run-2" "plan-2"; run "run-3" "plan-3"]) rrq_idempotency_key.

#[global] Instance cancel_contract : Contract CancelRunRequest :=
  MkContract _ (λ r, obj [("idempotency_key", PStr (crq_idempotency_key r))])
    (λ _, Err (TypeError "unknown")) crq_idempotency_key.

Lemma plans_accepted v p : convert (R := PlanRequest) v = Ok p → plan_accepted p.
Proof.
  cbn [convert plan_contract]. unfold among. intros H%of_option_ok. apply List.find_some in H as [Hin _].
  destruct Hin as [<-|[<-|[<-|[]]]]; (split; [vm_compute; reflexivity|]); intros n Hn;
    repeat (apply elem_of_cons in Hn as [->|Hn]; [vm_compute; reflexivity|]); by apply elem_of_nil in Hn.
Qed.

(** ** The environment *)

Definition text (s : string) : string := s.
Definition same (l : list string) : list string := l.
Definition yes (s : string) : bool := true.
Definition quiet (d : db) : db := d.
Definition instant : datetime := Datetime 0 (Some 0).
Definition later : datetime := Datetime 3600000000 (Some 0).
Definition at_ (id : string) : occasion := MkOccasion instant id.
Definition ids (id : string) : stamp := MkStamp instant (λ n, id +:+ int_repr (Z.of_nat n)).

Definition registered := register_project "/repo" "ledger" text same true Some yes (at_ "e1") quiet project "human" empty_db.
Definition l1 : db := Eval vm_compute in registered.2.
Definition accepted := accept_intent "ledger" text same true (at_ "e2") quiet intent "human" l1.
Definition l2 : db := Eval vm_compute in accepted.2.
Definition planned (p : PlanRequest) (id : string) := accept_plan "ledger" text same true (λ _ _, None) (at_ id) quiet p "human".
Definition submitted (r : RunRequest) (id : string) :=
  submit_run text "/repo" "/iso" yes yes "ledger" text same true (at_ id) quiet r "human".
Definition l3 : db := Eval vm_compute in (planned plan "e3" l2).2.
Definition l4 : db := Eval vm_compute in (submitted (run "run-1" "plan-1") "e4" l3).2.
Definition load := _load_run text "/repo" "/iso" yes yes.

(** ** Executing the first node *)

(** What git would observe of a checkout at [head]. *)
Definition observe (head : string) (changed : list string) (s : WorktreeExecutionSpec) : result WorktreeInspection :=
  spec_digest ← worktree_spec_digest s; lease ← lease_digest (ws_lease s);
  wpath ← worktree_path s; branch ← branch_name s;
  worktree_inspection_init (MkInspection spec_digest lease wpath branch (ws_base_commit s) head (ws_allowed_paths s)
    (ws_max_changed_paths s) changed [] [] false).
Definition untouched (s : WorktreeExecutionSpec) : result WorktreeInspection := observe (ws_base_commit s) [] s.
Definition head_a : string := "aaaaaaaaaaaaaaaaaaaaaaaaaaaaaaaaaaaaaaaa".
Definition prepared (run_id node_id : string) (d : db) :=
  prepare_node text "/repo" "/iso" yes yes "ledger" text same untouched untouched (λ _, true)
    (ids ("c-" +:+ node_id)) (ids ("w-" +:+ node_id)) quiet quiet run_id node_id "worker" later None d.
Definition prepared_a := prepared "run-1" "a" l4.
Definition l5 : db := Eval vm_compute in prepared_a.2.
Definition some_spec : WorktreeExecutionSpec := MkSpec (MkLeaseIdentity "" "" 0 0 "") "" "" "" [] 0.
Definition spec_of (r : result PreparedNode) : WorktreeExecutionSpec :=
  match r with Ok p => pr_spec p | Err _ => some_spec end.
Definition spec_a : WorktreeExecutionSpec := Eval vm_compute in spec_of prepared_a.1.
Definition dispatched_a :=
  (lease ← lift (lease_digest (ws_lease spec_a)); request ← lift (provider_request_id lease);
   record_provider_dispatch text "/repo" "/iso" yes yes "ledger" text same (ids "d-a") quiet spec_a request digest digest
     "worker" None) l5.
Definition l6 : db := Eval vm_compute in dispatched_a.2.
Definition finished_a := record_node_success text "/repo" "/iso" yes yes "ledger" text same (observe head_a ["src/x"])
  (ids "s-a") quiet spec_a digest "worker" None l6.

(** ** Runs that cannot go on *)

(** The run of the unsorted plan, and the run of the generated one behind it. *)
Definition l8 : db := Eval vm_compute in (planned unsorted "e5" l2).2.
Definition l9 : db := Eval vm_compute in (submitted (run "run-2" "plan-2") "e6" l8).2.
Definition l10 : db := Eval vm_compute in (planned generated "e7" l9).2.
Definition l11 : db := Eval vm_compute in (submitted (run "run-3" "plan-3") "e8" l10).2.
Definition unloaded : _LoadedRun := MkLoadedRun (run "" "") intent plan []
  (RunLifecycle.MkRun "" RunStatus.QUEUED [] false None (MkEvent "" "" 0 "" 0 instant instant "" None "" "" [] "" None None)
     (MkEvent "" "" 0 "" 0 instant instant "" None "" "" [] "" None None) 0) None.
Definition loaded (r : result _LoadedRun) : _LoadedRun := match r with Ok l => l | Err _ => unloaded end.
Definition run_1 : _LoadedRun := Eval vm_compute in loaded (load "run-1" None l4).
Definition run_2 : _LoadedRun := Eval vm_compute in loaded (load "run-2" None l11).
Definition run_3 : _LoadedRun := Eval vm_compute in loaded (load "run-3" None l11).
End SampleService.
