(* ===== verification/RuntimeServiceWitness.v ===== *)
(** * The runtime service on concrete values: the witnesses *)

From S2P Require Import Prelude PyStr PyFloat Sha256 Json JsonText JsonFacts PyTime Contracts Events EventStore Projections.
From S2P Require Import RunLifecycle RunFacts Acceptance Gateway PlanCompiler PlanFacts AttemptPolicy ExecutionRuntime RunJournal.
From S2P Require Import WireContracts WireFacts WireWitness Worktree WorktreeFacts RuntimeService RuntimeCommands RuntimeServiceFacts.
From S2P Require Import RuntimeQueryFacts RuntimeRequestFacts RuntimeAdmissionFacts RuntimeLedgerFacts RuntimeServiceSample.
From Stdlib Require Import ZArith Lia Ascii String.
From stdpp Require Import base gmap sets list strings relations.
Local Open Scope Z_scope.

(** ** A small ledger *)

Definition ledger_sound (d : db) : bool :=
  let rows := kernel_events d in
  let streams := map r_stream_id rows in
  bool_decide (map r_position rows = seqZ 1 (zlen rows)) && (db_sequence d =? zlen rows)
  && bool_decide (NoDup (map r_event_id rows))
  && forallb (λ s, (_current_sequence d s =? zlen (rows_of d s))
               && bool_decide (map r_stream_sequence (rows_of d s) = seqZ 1 (zlen (rows_of d s)))) streams
  && forallb (λ kv : string * Z, bool_decide (kv.1 ∈ streams) && (1 <=? kv.2)) (map_to_list (event_streams d)).

Lemma ledger_sound_ok d : ledger_sound d = true → db_ok d.
Proof.
  unfold ledger_sound. intros H. apply andb_true_iff in H as [H Hmap]. apply andb_true_iff in H as [H Hstreams].
  apply andb_true_iff in H as [H Hids%bool_decide_eq_true]. apply andb_true_iff in H as [Hpos%bool_decide_eq_true Hseq].
  rewrite forallb_elem in Hstreams. pose proof (proj1 (forallb_elem _ _) Hmap) as Hm. clear Hmap.
  assert (Hknown : ∀ s n, event_streams d !! s = Some n → s ∈ map r_stream_id (kernel_events d) ∧ 1 <= n).
  { intros s n Hn. apply elem_of_map_to_list, Hm in Hn. cbn in Hn. apply andb_true_iff in Hn as [Hs%bool_decide_eq_true Hp%Z.leb_le]. by split. }
  assert (Hnone : ∀ s, s ∉ map r_stream_id (kernel_events d) → rows_of d s = [] ∧ _current_sequence d s = 0).
  { intros s Hs. split.
    - unfold rows_of. destruct (filter _ _) as [|r l] eqn:E; [done|]. exfalso. apply Hs.
      assert (Hr : r ∈ r :: l) by by left. rewrite <-E in Hr. apply list_elem_of_filter in Hr as [<- Hr]. apply list_elem_of_fmap. eauto.
    - unfold _current_sequence. destruct (event_streams d !! s) as [n|] eqn:E; [|done]. by destruct Hs; eapply Hknown. }
  constructor; [done|by apply Z.eqb_eq| | |done|].
  - intros s. destruct (decide (s ∈ map r_stream_id (kernel_events d))) as [Hs|Hs].
    + apply Hstreams, andb_true_iff in Hs as [Hs%Z.eqb_eq _]. done.
    + destruct (Hnone s Hs) as [-> ->]. done.
  - intros s. destruct (decide (s ∈ map r_stream_id (kernel_events d))) as [Hs|Hs].
    + apply Hstreams, andb_true_iff in Hs as [_ Hs%bool_decide_eq_true]. done.
    + destruct (Hnone s Hs) as [-> _]. done.
  - intros s n Hn. by apply Hknown in Hn as [_ ?].
Qed.

Module SmallLedger.
Import SampleService.
Definition note (id stream ty : string) : result EventEnvelope :=
  create instant id stream 1 ty "human" RUNTIME_EVENT_SOURCE None 1 None None None None (Some id) None.
Definition recorded (d : db) (e : result EventEnvelope) : db :=
  match e with Ok e => (EventStore.append "ledger" text same e 0 d).2 | Err _ => d end.
(** A project and two runs that wait. *)
Definition ledger : db := Eval vm_compute in
  recorded (recorded (recorded empty_db (note "e1" "project:p" _PROJECT_REGISTERED)) (note "e2" "run:x" RUN_QUEUED))
    (note "e3" "run:y" RUN_QUEUED).
Definition events : list EventEnvelope := Eval vm_compute in
  match map_result _event_from_row (kernel_events ledger) with Ok l => l | Err _ => [] end.
Definition first_run : EventEnvelope := Eval vm_compute in List.nth 1 events (rl_queued_event (lr_state unloaded)).
Definition second_run : EventEnvelope := Eval vm_compute in List.nth 2 events (rl_queued_event (lr_state unloaded)).
Definition responses : list RuntimeEventResponse := Eval vm_compute in
  match map_result _event_response (List.filter runtime_event events) with Ok l => l | Err _ => [] end.
Lemma small_ledger_ok : db_ok ledger.
Proof. apply ledger_sound_ok. vm_compute. reflexivity. Qed.
Lemma events_read : map_result _event_from_row (kernel_events ledger) = Ok events.
Proof. vm_compute. reflexivity. Qed.
Definition query : RunQueryRequest := MkRunQueryRequest [] [] [] [] [] 0 1.
Definition load_sample (run_id : string) (through : option Z) (d : db) : result _LoadedRun := Ok run_1.
End SmallLedger.

(** Pages of one event each still deliver all three. *)
Lemma event_pages_cover_witness :
  follow_events SmallLedger.ledger 4 0 1 = Ok SmallLedger.responses ∧ length SmallLedger.responses = 3%nat.
Proof.
  split; [|vm_compute; reflexivity].
  apply (proj2 (event_pages_cover _ SmallLedger.small_ledger_ok _ SmallLedger.events_read 1 ltac:(done))).
  vm_compute. reflexivity.
Defined.

Lemma run_queue_exact_witness : ∃ ids, _run_ids SmallLedger.ledger = Ok ids ∧ "x" ∈ ids ∧ "y" ∈ ids ∧ NoDup ids.
Proof.
  destruct (run_queue_exact _ SmallLedger.small_ledger_ok _ SmallLedger.events_read) as (ids & Hids & Hnd & Hin & _).
  exists ids. split; [exact Hids|]. rewrite !Hin. split_and!; [| |exact Hnd].
  - exists SmallLedger.first_run. split; [by apply (list_elem_of_lookup_2 _ 1)|]. split_and!; vm_compute; reflexivity.
  - exists SmallLedger.second_run. split; [by apply (list_elem_of_lookup_2 _ 2)|]. split_and!; vm_compute; reflexivity.
Defined.

Lemma query_runs_exact_witness : ∃ r m,
  query_runs SmallLedger.load_sample SmallLedger.query SmallLedger.ledger = Ok r ∧ rqr_scanned_events r = Z.of_nat m
  ∧ rqr_next_cursor r = Z.of_nat m ∧ zlen (rqr_runs r) <= 1.
Proof.
  assert (E : is_ok (query_runs SmallLedger.load_sample SmallLedger.query SmallLedger.ledger) = true) by (vm_compute; reflexivity).
  pose proof (query_runs_exact SmallLedger.load_sample _ SmallLedger.small_ledger_ok _ SmallLedger.events_read SmallLedger.query
    ltac:(done) ltac:(done)) as H. cbv zeta in H.
  destruct (query_runs SmallLedger.load_sample SmallLedger.query SmallLedger.ledger) as [r|e]; [|done].
  destruct H as (m & _ & _ & Hr & Hs & Hc & _). exists r, m. split; [reflexivity|]. split; [exact Hs|]. split; [exact Hc|exact Hr].
Defined.

(** ** Plans and the scheduler *)

Lemma base_commit_exact_witness :
  ∃ w, writes_before SampleService.plan (sample_node "b" ["a"] true) w
  ∧ _node_base_commit SampleService.plan "b" [(w, SampleService.head_a)] = Ok SampleService.head_a.
Proof.
  assert (Hp : plan_request_init SampleService.plan = Ok SampleService.plan) by (vm_compute; reflexivity).
  assert (Ha : writes_before SampleService.plan (sample_node "b" ["a"] true) "a").
  { split; [exists (sample_node "a" [] true); split_and!; [do 2 right; by left|done|done]|].
    apply tc_once. exists (sample_node "b" ["a"] true). split_and!; [right; by left|done|by left]. }
  destruct (proj1 (base_commit_exact SampleService.plan sample_nodes_built Hp [("a", SampleService.head_a)])
    (sample_node "b" ["a"] true) ltac:(right; by left)) as [[Hno _]|(w & Hw & Hlast & Hc)].
  - destruct Hno. by exists "a".
  - exists "a". split; [exact Ha|]. vm_compute. reflexivity.
Defined.


(** ** Requests *)

(** The project is registered again, behind another stream's event. *)
Lemma requests_immutable_witness :
  ∃ e, _record_immutable "ledger" SampleService.text SampleService.same (SampleService.at_ "e9") SampleService.quiet
         "project:project-1" _PROJECT_REGISTERED SampleService.project "human" None None None SampleService.l2
       = (Ok e, SampleService.l2) ∧ event_id e = "e1".
Proof.
  assert (E : ∃ e, event_id e = "e1" ∧ _record_immutable "ledger" SampleService.text SampleService.same
    (SampleService.at_ "e1") SampleService.quiet "project:project-1" _PROJECT_REGISTERED SampleService.project "human" None
    None None empty_db = (Ok e, SampleService.l1)).
  { eexists. split; [|vm_compute; reflexivity]. reflexivity. }
  destruct E as (e & Hid & E).
  destruct (requests_immutable "ledger" SampleService.text SampleService.same (λ l, reflexivity l) (SampleService.at_ "e1")
    SampleService.quiet "project:project-1" _PROJECT_REGISTERED SampleService.project "human" None None None empty_db e
    SampleService.l1 empty_db_ok empty_db_ok (λ H, H)) as (payload & Hp & Hg & Hall); [|exact E|].
  { intros payload kvs Hp Hk. vm_compute in Hp. injection Hp as <-. vm_compute in Hk. injection Hk as <-. vm_compute. reflexivity. }
  destruct (Hall SampleService.l2) as (e' & Hs & Hretry).
  - apply ledger_sound_ok. vm_compute. reflexivity.
  - vm_compute. reflexivity.
  - exists e'. split; [|by rewrite <-Hid; apply Hs].
    rewrite (Hretry _ _ _ _ _ _ _ payload _ Hp Hg). by rewrite bool_decide_eq_true_2.
Defined.

(** ** Defects *)

Lemma unsorted_paths_unclaimable_witness : ∃ e, SampleService.prepared "run-2" "n" SampleService.l11 = (Err e, SampleService.l11).
Proof.
  apply (unsorted_paths_unclaimable SampleService.text "/repo" "/iso" SampleService.yes SampleService.yes "ledger"
    SampleService.text SampleService.same SampleService.untouched SampleService.untouched (λ _, true)
    SampleService.plans_accepted "run-2" SampleService.run_2 (SampleService.paths_node "n" ["src"; "docs"])).
  - vm_compute. reflexivity.
  - vm_compute. by left.
  - vm_compute. done.
Defined.

(** The run with the unsorted plan stands before the generated one. *)
Definition load_queue (run_id : string) (through : option Z) (d : db) : result _LoadedRun :=
  if bool_decide (run_id = "run-3") then Ok SampleService.run_3 else Ok SampleService.run_2.
Lemma generated_queue_blocked_witness :
  ∃ e, next_generated_from load_queue SampleService.l11 ["run-2"; "run-3"] = Err e.
Proof.
  destruct (generated_queue_blocked load_queue SampleService.l11 ["run-2"] "run-3" [] SampleService.run_3
    (SampleService.paths_node "n" ["."])) as (e & _ & He).
  - intros id ->%list_elem_of_singleton. exists SampleService.run_2. split; [reflexivity|]. vm_compute. done.
  - reflexivity.
  - reflexivity.
  - vm_compute. reflexivity.
  - vm_compute. reflexivity.
  - vm_compute. by left.
  - by left.
  - by exists e.
Defined.

(** ** Histories *)

Lemma service_ledger_sound_witness :
  db_ok (accept_intent "ledger" SampleService.text SampleService.same true (SampleService.at_ "e2") SampleService.quiet
           SampleService.intent "human" SampleService.registered.2).2.
Proof.
  assert (Hq : fair SampleService.quiet) by (intros d; reflexivity).
  apply (service_ledger_sound SampleService.text "/repo" "/iso" SampleService.yes SampleService.yes "ledger" SampleService.text
    SampleService.same (λ l, reflexivity l) empty_db); [|apply empty_db_ok].
  apply rtc_l with SampleService.registered.2; [by apply step_register|]. apply rtc_once. by apply step_intent.
Defined.


Lemma observed_valid head changed s i : SampleService.observe head changed s = Ok i → worktree_inspection_init i = Ok i.
Proof.
  unfold SampleService.observe. intros H. do 4 (apply bind_ok in H as (? & _ & H)).
  by destruct (inspection_compliant _ _ H) as [-> _].
Qed.


Lemma worktree_payload_roundtrip_witness : ∃ p kvs,
  worktree_execution_spec_payload SampleService.spec_a = Ok p ∧ freeze_json "$" p = Ok (JObj kvs)
  ∧ worktree_execution_spec_from_mapping SampleService.yes SampleService.yes kvs = Ok SampleService.spec_a.
Proof.
  assert (Hs : worktree_spec_init SampleService.yes SampleService.yes SampleService.spec_a = Ok SampleService.spec_a)
    by (vm_compute; reflexivity).
  destruct (worktree_execution_spec_payload SampleService.spec_a) as [p|e] eqn:Hp; [|done].
  destruct (spec_payload_json _ _ Hp) as (lease & _ & Ej).
  exists p, (spec_json SampleService.spec_a lease). split; [reflexivity|].
  assert (Hf : freeze_json "$" p = Ok (JObj (spec_json SampleService.spec_a lease))).
  { rewrite Ej. apply freeze_thaw, spec_json_wf. }
  split; [exact Hf|].
  apply (proj1 (worktree_payload_roundtrip SampleService.yes SampleService.yes) SampleService.spec_a SampleService.spec_a p);
    [exact Hs|vm_compute; reflexivity|vm_compute; reflexivity|vm_compute; reflexivity|exact Hp|exact Hf].
Defined.
